(* ===== verification/_CoqProject ===== *)
-Q . S2P
Prelude.v
BaReorder.v
BaReorderSpec.v
BaReorderProofs.v
BaReorderClaims.v
Mlme.v
MlmeProofs.v
MlmeClaims.v
MlmeWait.v
BaSession.v
BaSessionTable.v
BaSessionProofs.v
BaSessionClaims.v
BaMlme.v
CipherKey.v
MacTable.v
MacTableProofs.v
MacTableClaims.v
Arc4.v
Wep.v
StaAuth.v
StaAuthClaims.v
Michael.v
BlockHash.v
Md5.v
Sha.v
Hmac.v
AesTables.v
Aes.v
Tkip.v
BlockCipher.v
AesCcm.v
AesCmac.v
AesKeyWrap.v
WpaKeys.v
Eapol.v
EapolProofs.v
MicCounter.v
BssEntry.v
BssEntryProofs.v
BssTable.v
BssTableProofs.v
BssTableClaims.v
BeaconSanity.v
BeaconSanityProofs.v
BeaconElements.v
BeaconClaims.v
ScanBeacon.v
ScanBeaconClaims.v
RsnIe.v
AssocRsp.v
AssocRspClaims.v
AssocReq.v
StaAssoc.v
StaAssocProofs.v
StaAssocClaims.v
StaAssocRequest.v
Handshake.v
HandshakeProofs.v
HandshakeRun.v
HandshakeClaims.v
Ccmp.v
SoftCrypto.v
RxPacket.v
RxAmsdu.v
RxFrag.v
RxFragClaims.v
RxData.v
RxDataProofs.v
RxDataClaims.v
RxRing.v
RxDone.v
RxDoneProofs.v
RxDoneClaims.v
TxRing.v
TxRingSpec.v
TxRingProofs.v
TxRingInv.v
TxRingBulk.v
TxRingClaims.v
