(* ===== verification/Prelude.v ===== *)
(** * Netgear A6210 (MT7612U) Linux driver: a verification development

    The program is the Linux driver of a USB Wi-Fi adapter with a MediaTek
    MT76x2U chip, built as a station (os/linux/config.mk of src/).  The chip
    does the radio work; the driver keeps the protocol state in one adapter
    structure, receives frames from the USB side, takes them apart, decrypts
    them where the chip did not, puts aggregated frames back in order and
    hands them to the kernel; it answers the management frames of the access
    point.  This library models the parts whose correctness is a matter of
    computation on that state, as shallow embeddings that run in Rocq, and
    proves what they promise.

    ** The parts modelled and their files

    Every definition keeps the name of the C function, macro or type it
    translates.  A record of the code is a [Record], an enumeration an
    [Inductive], a w-bit integer a [Z] whose wrap-around is written out
    ([u8], [u16], [u32], [u64]), a buffer the list of its bytes.

    - Prelude: machine integers, byte buffers, little- and big-endian words,
      the tactics [zdm], [conjs], [peel], [solve_bytes] and the hint databases.
    - BaReorder, BaReorderSpec, BaReorderProofs, BaReorderClaims: the receive
      reordering of an aggregated session (common/ba_action.c:
      ba_reordering_mpdu_insertsorted, ba_enqueue_reordering_packet, the three
      flush loops, ba_flush_reordering_timeout_mpdus and the cases of
      Indicate_AMPDU_Packet).  State: the session entry BA_REC_ENTRY, the pool
      of blocks and the trace of packets handed up or freed.  BaReorderSpec
      holds the abstract machine on unbounded sequence numbers.
    - BaSession, BaSessionTable, BaSessionProofs, BaSessionClaims: the tables
      of block-ack sessions and every handler that changes them
      (common/ba_action.c: BATableAlloc*, BATableFree*, BAOriSessionSetUp,
      BAOriSessionAdd, BARecSessionAdd, the teardowns, the timers, the
      ADDBA, DELBA and BAR frames, Indicate_AMPDU_Packet;
      common/cmm_sanity.c; common/action.c: MlmeDELBAAction).  State: the
      adapter's two tables, the per-peer index arrays and bitmaps, the
      counters, the pool and a trace of timers, frames and chip commands.
      The recipient handlers run the functions of BaReorder on the entry they
      select ([run_rec]).  [ba_dispatch] is the whole component as one step
      function, [reachable] its runs.
    - Arc4, Wep: the RC4 engine (common/crypt_arc4.c), the CRC-32 and the WEP
      encapsulation (common/cmm_wep.c).
    - Michael, Tkip: the MIC, key mixing, decapsulation and the group-key wrap
      of TKIP (common/cmm_tkip.c).
    - BlockHash, Md5, Sha, Hmac: the streaming hash functions and HMAC
      (common/crypt_md5.c, crypt_sha2.c, crypt_hmac.c).  The class [BlockHash]
      is the interface between the context code, written once, and the three
      compression functions, its instances.
    - AesTables, Aes: the AES block cipher (common/crypt_aes.c).
    - BlockCipher: the interface between the cipher and its modes: the class
      [BlockCalls] is what a mode calls, [ReliableCipher] what it relies on,
      [aes_reliable] the proof that AES provides it while its allocations
      succeed.
    - AesCcm, AesCmac, AesKeyWrap: the modes of common/crypt_aes.c over that
      interface.
    - CipherKey, Ccmp, SoftCrypto: the key entry, the CCMP encapsulation
      (common/cmm_aes.c) and the choice of the cipher by the key
      (common/cmm_wpa.c: RTMPSoftEncryptionAction, RTMPSoftDecryptionAction,
      RTMPSoftConstructIVHdr), which calls Wep, Tkip and Ccmp.
    - Mlme, MlmeProofs, MlmeClaims, BaMlme: the queue of management messages,
      the tables of the state machines and the handler that serves them
      (common/mlme.c: MlmeQueueInit, MlmeEnqueue, MlmeEnqueueForRecv,
      MlmeDequeue, MlmeHandler, StateMachineInit, StateMachineSetAction,
      MsgTypeSubst and the *StateMachineInit of the station).  State: the
      circular array of 40 elements and a table of functions per machine;
      BaMlme runs the action machine of BaSession under the handler.
    - MlmeWait: a Section for the machines that send a request, set a timer
      and wait: its invariant is proved once, for any such machine that
      provides what its hypotheses say; StaAuthClaims and StaAssocProofs
      provide it.
    - MacTable, MacTableProofs, MacTableClaims: the hash table of peers
      (mgmt/mgmt_entrytb.c, and the end of StaUpdateMacTableEntry).  State:
      the array of entries, the heads of the chains, the number of peers.
    - WpaKeys, Eapol, EapolProofs: key derivation (PRF, KDF, the pass-phrase,
      counters) and the EAPOL-Key frames with their byte layout
      (common/cmm_wpa.c).
    - Handshake, HandshakeProofs, HandshakeRun, HandshakeClaims: the
      supplicant of the four-way and the group-key handshake
      (common/cmm_wpa.c: WpaEAPOLKeyAction and its actions), and a run of it against an authenticator built from
      the driver's own frame constructors.
    - StaAuth, StaAuthClaims: the authentication machine (sta/auth.c).
    - MicCounter: the countermeasures against MIC failures (sta/wpa.c:
      RTMPReportMicError and what follows it).
    - BssEntry, BssEntryProofs: an entry of the list of networks, filled in
      from a beacon, and the parser of WPA and RSN elements (common/mlme.c:
      BssEntrySet, BssCipherParse).
    - BssTable, BssTableProofs, BssTableClaims: the list of networks
      (common/mlme.c: BssTable*; sta/connect.c).  State: the array of
      entries, their number, and the buffers of probe responses, which
      entries own by index.
    - BeaconSanity, BeaconSanityProofs, BeaconElements, BeaconClaims: the
      parser of beacons and probe responses (common/cmm_sanity.c:
      PeerBeaconAndProbeRspSanity with every case of its switch;
      sta/sanity.c).
    - ScanBeacon, ScanBeaconClaims: what a scan does with a beacon
      (sta/sync.c: PeerBeaconAtScanAction), which runs the parser and enters
      the network in the list.
    - RsnIe: the WPA or RSN element of the station (common/cmm_wpa.c:
      RTMPMakeRSNIE and its parts).
    - AssocRsp, AssocRspClaims: the parser of association responses
      (sta/sanity.c: PeerAssocRspSanity).
    - AssocReq: the elements of association requests (sta/assoc.c,
      common/vht.c).
    - StaAssoc, StaAssocProofs, StaAssocClaims, StaAssocRequest: the association machine
      (sta/assoc.c), which sends the requests of AssocReq and RsnIe, parses
      the responses with AssocRsp, and writes the peer table and the entry of
      the access point from the list of networks.
    - RxPacket, RxAmsdu: the memory of a packet, its conversion to 802.3 and
      the split of an A-MSDU (include/rtmp.h: CONVERT_TO_802_3 and the macros
      beside it; common/cmm_data.c: deaggregate_AMSDU_announce).
    - RxFrag, RxFragClaims: the description of a received frame (RX_BLK) and
      the reassembly of fragments (common/cmm_data.c:
      RTMPDeFragmentDataFrame).
    - RxData, RxDataProofs, RxDataClaims: the handler of received data frames
      and what it calls (sta/rtmp_data.c: STAHandleRxDataFrame,
      STARxDataFrameAnnounce, STARxEAPOLFrameIndicate, STACheckTkipMICValue;
      common/cmm_data.c: Indicate_Legacy_Packet, Indicate_AMSDU_Packet,
      CmmRxRalinkFrameIndicate; common/cmm_wpa.c: RTMPSwCipherKeySelection
      and others).  Its state [rx_state] joins the states of Mlme and
      MicCounter, MacTable, BaSession and RxFrag; the log says what became of
      each packet.
    - RxRing, RxDone, RxDoneProofs, RxDoneClaims: a buffer of the USB side,
      taken apart frame by frame (common/cmm_data_usb.c: GetPacketFromRxRing;
      common/cmm_data.c: rtmp_rx_done_handle, dev_rx_mgmt_frm,
      dev_rx_ctrl_frm; sta/sta.c: RTMPCheckRxError;
      os/linux/cfg80211/cfg80211_rx.c), each frame to the handler of its
      type: RxData, the queue of Mlme or the sessions of BaSession.
    - TxRing, TxRingSpec, TxRingProofs, TxRingInv, TxRingBulk, TxRingClaims:
      the transmit buffer of a USB pipe
      (common/cmm_data_usb.c: RTUSBFreeDescRequest, RtmpUSBCanDoWrite, the
      four RtmpUSB_*TxResource writers; common/rtusb_bulk.c:
      RTUSBBulkOutDataPacket, RTUSBDataBulkOut; os/linux/rt_usb.c:
      rtusb_dataout_complete; common/rtusb_io.c: ResetBulkOutHdlr).  State:
      HT_TX_CONTEXT, the flags of the pipe and the log of transfers.  A
      function that gives up its lock is cut there; the machine [tx_step]
      runs the pieces in any order.  TxRingInv holds the invariant (three
      phases of the positions) and its preservation by the writer of single
      frames, TxRingBulk that by the bulk-out routine.

    ** What the theorems show

    - Reordering: while the pool has a free block for every place of the
      window, the session refines the abstract machine, the flush of the
      timeout that precedes every frame included, and hands frames up in the
      order of the 12-bit window whatever arrives (without blocks it hands up
      frames out of order); every packet and every pool block is accounted for
      on every branch; the flush loops stop on their own condition.
    - Sessions: from a new adapter, every sequence of frames, timers and
      requests keeps the tables, index arrays, bitmaps and counters consistent
      and stays inside them ([ba_sessions_safe], by induction on [reachable]);
      a handler touches only the session it is about, in the table that the
      frame names; an accepted ADDBA
      request opens the session the response promises, in the state the
      reordering theorems start from; a teardown hands up what is buffered
      and frees the entry; the originator gives up after seven requests.
    - Ciphers: encryption followed by decryption of a frame is the identity
      for WEP, TKIP, CCMP and the dispatch above them; decryption accepts only
      an authentic frame (ICV, MIC): for TKIP, exactly the frames whose bytes,
      xored with the key stream that the standard's key mixing gives, end in
      their ICV and MIC; CRC-32, Michael, the TKIP key mixing, CCM,
      CMAC, key wrap, HMAC and the hashes equal independent definitions of
      their standards; AES decryption inverts encryption for every key length;
      errors leave the output as the code leaves it.
    - Queue and machines: the circular array refines a list, whatever the
      handler does while it serves an element, as long as no message takes the
      last of the 40 places then; a machine runs the function of
      its table and no message indexes outside it; while the queue has room and
      the driver is not halting, the authentication machine (requests served
      while association is blocked excepted), and the association machine in its
      waits for association and reassociation responses, never wait without a
      timer set or a timeout queued.  The wait for a disassociation is not
      covered: taking the link up cancels its timer.
    - Peers: the hash table refines a finite map from addresses to entries.
    - Handshake: with an authenticator that has the same key, the supplicant
      ends with its temporal keys installed; a frame that is not authentic
      installs nothing.
    - Networks: the list refines a finite map from address and band to
      networks, the country of a network included; the network to join is
      chosen among those that every check of the code passes, that of the
      country element too; the parsers read of a well-formed frame what it
      says, in whatever order its elements come (up to an element with a
      channel that is not in the station's list, which ends the reading), and
      stay inside their buffers on any frame (or the theorem says where they do
      not); the traffic indication is read as the standard lays it out; a beacon
      heard in a scan is in the list afterwards.
    - Association: the request announces the station's settings, and the
      station's element is one that the driver's parser reads back; a response
      ends the wait with one confirmation when there is memory and room in the
      queue, and on success leaves the
      association id, the common rates and the access point's element for the
      handshake, with the old access point out of the peer table.
    - Receive path: for frames that satisfy [proper] (complete headers, a peer
      inside the table, no fragment, no aggregate of the chip maker's kind),
      outside of ad hoc mode, a buffer is handled to its end, which is one turn per
      frame it holds, in their order, and every packet is handed up, buffered
      or freed exactly once; the unpacking reads inside the buffer
      whatever bytes it holds; a frame that the port or the address checks
      refuse is freed and changes nothing else; an Ethernet frame sent over the
      air outside of sessions comes out as it went in; the split of an A-MSDU
      hands up its subframes in order while the kernel has memory, and stays
      inside the packet; fragments that follow each other
      are joined to the frame they were cut from, inside the buffer.
    - Transmit buffer: for single frames of at most 2032 bytes, and whatever
      the interleaving of the writer, the bulk-out routine, completions and
      resets, the buffer refines a queue: the transfers are batches of the
      written frames, byte for byte and in order; the bytes of a transfer
      under way do not change; every written frame is submitted in the end, and an
      emptied buffer takes the next frame.  The frames of a submission that the
      USB stack refuses are lost ([refused_transfer_lost]); without refusals
      every frame is taken.
    - Defects found on the way are theorems too, stated of the code as it is:
      TIDs of ADDBA and DELBA frames that are never checked, blocks lost to
      EAPOL frames, length checks of short WEP and TKIP frames that wrap, an
      AES key unwrap that checks nothing, a CCM counter of eight bits, WPS
      elements that overflow their buffer, an access point's element longer
      than its array, fragments joined over a hole, a short EAPOL subframe
      whose copy overflows, group frames taken in the clear, frame sizes
      that wrap below their header, fragments whose packet is freed twice, a
      length written behind the saved bytes of an aggregate, frames lost with a
      refused transfer, a disassociation that waits without a timer, a country
      copied from behind its element, a foreign channel taken from a beacon, an
      RSN element of WEP read as no encryption, capabilities read behind an
      element, and others.

    ** Bounds, fuel and parameters

    A loop of the code is a structural recursion where it is one.  Elsewhere
    it takes fuel: the flush loops the length of the list, of which every
    turn removes a block; the CCM loops one turn per byte; the walks over
    elements the length of their buffer, of which every turn takes two bytes
    at least; the chains of the peer table the number of entries; the split
    of an A-MSDU its size, of which every turn takes 32 bytes at least; a USB
    buffer its length, of which every turn takes 12 bytes at least; the
    bulk-out loop the length of the transmit buffer, of which every turn takes
    13 bytes at least.  [None] is
    a loop that would need more, or an access outside an array, and the
    theorems prove a result.  In the cipher files a write outside a buffer
    changes the length of the list instead.  The outcome of an
    allocation, the clock, the kernel's tick rate and what an uninitialised
    buffer holds are arguments of the definitions, so the theorems cover all
    of them or say which they assume.  Tables have the sizes of the MT76x2
    build: 116 peers, 464 sessions of each kind, 128 networks.

    ** What is not modelled

    In the reordering model the conversion of a packet to 802.3 is an event of
    the trace; the receive path hands aggregated frames to that model.  The
    header fields of outgoing action frames are left out, as are spin locks
    (each handler runs to its end under its lock, except the writers of the
    transmit buffer, which are cut where they release it) and debug output.  Reports
    for beamforming and samples of the signal strength are events of the log.
    AES-CBC is called by no file.  Of the transmit
    path the building of frames above the transmit buffer is left out, and
    the queue theorems are about single frames: fragmented and aggregated
    frames are modelled by their functions only.  The management pipe and the
    submission of receive transfers (common/rtusb_bulk.c), the
    control machine (sta/connect.c), the response to deauthentications
    (sta/auth_rsp.c) and the steps of a scan (common/cmm_sync.c) are left
    out: they consist of calls to the chip and to the kernel, and what they
    keep of the protocol state is in the models above.  Calls that set up the
    rates of the peer or take the link down are events of the association
    model.  Rate control, register sequences of the chip and radio, firmware
    loading, configuration parsing, the kernel glue and the production test
    mode are hardware, kernel or heuristics
    without a contract to verify against. *)

From stdpp Require Export prelude.
From Stdlib Require Export Btauto.

#[global] Open Scope Z_scope.

(** * Machine integers

    A w-bit unsigned integer of the C code is a [Z] in [0, 2^w); the
    wrap-around of an assignment is written out with [wrap]. *)

Definition wrap (w x : Z) : Z := Z.land x (Z.ones w).

Definition in_range (w x : Z) : Prop := 0 ≤ x < 2 ^ w.

Abbreviation u8 := (wrap 8).
Abbreviation u16 := (wrap 16).
Abbreviation u32 := (wrap 32).
Abbreviation u64 := (wrap 64).

Abbreviation byte := (in_range 8).
Abbreviation word16 := (in_range 16).
Abbreviation word32 := (in_range 32).
Abbreviation word64 := (in_range 64).

(** A buffer of the C code is the list of its bytes; [bytes] is the type
    invariant of such a buffer. *)
Abbreviation bytes := (Forall byte).

(** * Arrays and buffers

    [aget a i] is the C expression [a[i]]; out of range it is 0.  A write
    [bwrite dst off src] is [NdisMoveMemory(dst + off, src, len)] with [src]
    the copied bytes: a write past the end of [dst] shows as a change of its
    length, so that [length] invariants are the memory-safety statements. *)
Definition aget (a : list Z) (i : Z) : Z := nth (Z.to_nat i) a 0.

Definition aset (a : list Z) (i : Z) (v : Z) : list Z :=
  <[Z.to_nat i := v]> a.

Definition bwrite (dst : list Z) (off : nat) (src : list Z) : list Z :=
  take off dst ++ src ++ drop (off + length src) dst.

Definition zeros (n : nat) : list Z := replicate n 0.

Definition xor_list (a b : list Z) : list Z := zip_with Z.lxor a b.

(** The loop [for (i...) dst[i] = src[i] ^ ks[i]] on one memory: a byte is
    written before the next one is read, as the code does when the buffers
    overlap. *)
Fixpoint xor_copy (mem : list Z) (src dst : nat) (ks : list Z) : list Z :=
  match ks with
  | [] => mem
  | k :: ks => xor_copy (<[dst := Z.lxor (nth src mem 0) k]> mem) (S src) (S dst) ks
  end.

(** Little- and big-endian views of 32- and 64-bit words. *)
Definition le_bytes (n : nat) (x : Z) : list Z :=
  map (λ i, u8 (Z.shiftr x (8 * Z.of_nat i))) (seq 0 n).

Definition be_bytes (n : nat) (x : Z) : list Z := rev (le_bytes n x).

Fixpoint le_word (l : list Z) : Z :=
  match l with
  | [] => 0
  | b :: l => Z.lor b (Z.shiftl (le_word l) 8)
  end.

Definition be_word (l : list Z) : Z := le_word (rev l).

(** * Tactics *)

Create HintDb word.

(** Bit-level extensionality: turns an equation between words into one
    between the bits at a non-negative index [i]. *)
Ltac bits i :=
  apply Z.bits_inj'; intros i ?;
  rewrite ?Z.lxor_spec, ?Z.land_spec, ?Z.lor_spec, ?Z.bits_0.

(** Split a conjunction without unfolding its parts. *)
Ltac conjs := repeat match goal with |- _ ∧ _ => split end.

(** Linear arithmetic with division and modulo by constants. *)
Ltac zdm := Z.to_euclidean_division_equations; lia.

Ltac solve_word := eauto with word; try lia.

(** Peels off the binds of a hypothesis [H : _ = Some _]. *)
Ltac peel H :=
  repeat match type of H with
  | (?x ≫= _) = Some _ =>
      let E := fresh "E" in destruct x eqn:E; cbn [mbind option_bind] in H; [|discriminate H]
  | (let '(_, _) := ?p in _) = Some _ => destruct p
  end.

(** * Ranges *)

Lemma wrap_mod w x : 0 ≤ w → wrap w x = x `mod` 2 ^ w.
Proof. intros. unfold wrap. by rewrite Z.land_ones. Qed.

Lemma wrap_range w x : 0 ≤ w → in_range w (wrap w x).
Proof. intros. rewrite wrap_mod by done. apply Z.mod_pos_bound. lia. Qed.

Lemma wrap_id w x : 0 ≤ w → in_range w x → wrap w x = x.
Proof. intros ? Hx. rewrite wrap_mod by done. by apply Z.mod_small. Qed.

Lemma wrap_spec w x i :
  0 ≤ w → 0 ≤ i → Z.testbit (wrap w x) i = (i <? w) && Z.testbit x i.
Proof.
  intros. unfold wrap. rewrite Z.land_spec, Z.testbit_ones by done.
  rewrite andb_comm. f_equal. lia.
Qed.

Lemma in_range_testbit w x i :
  in_range w x → w ≤ i → Z.testbit x i = false.
Proof.
  intros [H0 H1] Hi. destruct (decide (0 ≤ w)).
  - apply (proj1 (Z.bounded_iff_bits_nonneg w x ltac:(done) H0) H1); lia.
  - rewrite Z.pow_neg_r in H1 by lia. lia.
Qed.

Lemma in_range_intro w x :
  0 ≤ w → 0 ≤ x → (∀ i, w ≤ i → Z.testbit x i = false) → in_range w x.
Proof. intros. split; [done|]. by apply Z.bounded_iff_bits_nonneg. Qed.

Lemma in_range_lxor w x y :
  0 ≤ w → in_range w x → in_range w y → in_range w (Z.lxor x y).
Proof.
  intros ? Hx Hy. apply in_range_intro; [done|apply Z.lxor_nonneg; destruct Hx, Hy; tauto|].
  intros i Hi. by rewrite Z.lxor_spec, !(in_range_testbit w) by done.
Qed.

Lemma in_range_lor w x y :
  0 ≤ w → in_range w x → in_range w y → in_range w (Z.lor x y).
Proof.
  intros ? Hx Hy. apply in_range_intro; [done|apply Z.lor_nonneg; destruct Hx, Hy; tauto|].
  intros i Hi. by rewrite Z.lor_spec, !(in_range_testbit w) by done.
Qed.

Lemma in_range_land_l w x y :
  0 ≤ w → in_range w x → in_range w (Z.land x y).
Proof.
  intros ? Hx. apply in_range_intro; [done|apply Z.land_nonneg; destruct Hx; tauto|].
  intros i Hi. by rewrite Z.land_spec, (in_range_testbit w x) by done.
Qed.

Lemma in_range_shiftr w x n :
  0 ≤ w → 0 ≤ n → in_range w x → in_range w (Z.shiftr x n).
Proof.
  intros ? ? Hx. apply in_range_intro; [done|apply Z.shiftr_nonneg; by destruct Hx|].
  intros i Hi. rewrite Z.shiftr_spec by lia. apply (in_range_testbit w); [done|lia].
Qed.

Lemma in_range_mono w w' x : w ≤ w' → in_range w x → in_range w' x.
Proof.
  intros Hw [? Hx]. split; [done|]. eapply Z.lt_le_trans; [done|].
  destruct (decide (0 ≤ w)); [by apply Z.pow_le_mono_r; lia|].
  rewrite Z.pow_neg_r in Hx by lia. lia.
Qed.

Lemma u8_byte x : byte (u8 x).
Proof. by apply wrap_range. Qed.

Lemma u32_word x : word32 (u32 x).
Proof. by apply wrap_range. Qed.

Lemma byte_lxor x y : byte x → byte y → byte (Z.lxor x y).
Proof. by apply in_range_lxor. Qed.

Lemma byte_0 : byte 0.
Proof. done. Qed.

#[export] Hint Resolve u8_byte u32_word byte_lxor byte_0 : word.

(** The ring-like laws of xor used throughout the cipher proofs. *)
Lemma lxor_cancel_r x y : Z.lxor (Z.lxor x y) y = x.
Proof. by rewrite Z.lxor_assoc, Z.lxor_nilpotent, Z.lxor_0_r. Qed.

Lemma wrap_wrap w x : 0 ≤ w → wrap w (wrap w x) = wrap w x.
Proof. intros. by apply wrap_id, wrap_range. Qed.

Lemma wrap_add_l w x y : 0 ≤ w → wrap w (wrap w x + y) = wrap w (x + y).
Proof. intros. by rewrite !wrap_mod, Zplus_mod_idemp_l. Qed.

Lemma wrap_add_r w x y : 0 ≤ w → wrap w (x + wrap w y) = wrap w (x + y).
Proof. intros. by rewrite !wrap_mod, Zplus_mod_idemp_r. Qed.

Lemma wrap_lxor w x y : 0 ≤ w → wrap w (Z.lxor x y) = Z.lxor (wrap w x) (wrap w y).
Proof. intros. bits i. rewrite !wrap_spec, Z.lxor_spec by done. btauto. Qed.

(** * Lists *)

Lemma length_zeros n : length (zeros n) = n.
Proof. apply length_replicate. Qed.

Lemma bytes_zeros n : bytes (zeros n).
Proof. by apply Forall_replicate. Qed.

Lemma bytes_app l k : bytes (l ++ k) ↔ bytes l ∧ bytes k.
Proof. apply Forall_app. Qed.

Lemma bytes_take n l : bytes l → bytes (take n l).
Proof. apply Forall_take. Qed.

Lemma bytes_drop n l : bytes l → bytes (drop n l).
Proof. apply Forall_drop. Qed.

Lemma length_bwrite dst off src :
  (off + length src ≤ length dst)%nat → length (bwrite dst off src) = length dst.
Proof.
  intros. unfold bwrite.
  rewrite !length_app, length_take, length_drop. lia.
Qed.

Lemma bytes_bwrite dst off src : bytes dst → bytes src → bytes (bwrite dst off src).
Proof. intros. unfold bwrite. repeat apply Forall_app_2; auto using bytes_take, bytes_drop. Qed.

Lemma bwrite_all dst src : length src = length dst → bwrite dst 0 src = src.
Proof.
  intros. unfold bwrite. rewrite take_0, drop_ge by (simpl; lia).
  by rewrite app_nil_r.
Qed.

Lemma bwrite_bwrite_app dst o a b :
  (o + length a ≤ length dst)%nat →
  bwrite (bwrite dst o a) (o + length a) b = bwrite dst o (a ++ b).
Proof.
  intros Ho. unfold bwrite.
  assert (Ht : length (take o dst) = o) by (rewrite length_take; lia).
  assert (E : length (take o dst ++ a) = (o + length a)%nat) by (rewrite length_app; lia).
  rewrite !(app_assoc (take o dst) a). rewrite take_app_length' by done.
  rewrite <- drop_drop, drop_app_length' by done.
  rewrite drop_drop, length_app, <- !app_assoc. do 4 f_equal. lia.
Qed.

Lemma drop_bwrite dst o a k :
  (o + length a ≤ k)%nat → (o + length a ≤ length dst)%nat →
  drop k (bwrite dst o a) = drop k dst.
Proof.
  intros Hk Ho. unfold bwrite.
  assert (Ht : length (take o dst) = o) by (rewrite length_take; lia).
  rewrite app_assoc, drop_app_ge by (rewrite length_app; lia).
  rewrite drop_drop, length_app, Ht. f_equal. lia.
Qed.

Lemma bwrite_bwrite_same dst o a b :
  length a = length b → (o + length a ≤ length dst)%nat →
  bwrite (bwrite dst o a) o b = bwrite dst o b.
Proof.
  intros Hl Ho. unfold bwrite at 1 3.
  rewrite drop_bwrite by lia. unfold bwrite.
  rewrite take_app_length' by (rewrite length_take; lia). done.
Qed.

Lemma bwrite_slice dst o n :
  (o + n ≤ length dst)%nat → bwrite dst o (take n (drop o dst)) = dst.
Proof.
  intros Ho. unfold bwrite. rewrite length_take, length_drop, Nat.min_l by lia.
  rewrite <- drop_drop, take_drop. apply take_drop.
Qed.

Lemma drop_bwrite_at dst o a :
  (o ≤ length dst)%nat → drop o (bwrite dst o a) = a ++ drop (o + length a) dst.
Proof. intros Ho. unfold bwrite. apply drop_app_length'. rewrite length_take. lia. Qed.

Lemma slice_bwrite dst o a :
  (o ≤ length dst)%nat → take (length a) (drop o (bwrite dst o a)) = a.
Proof.
  intros Ho. unfold bwrite.
  rewrite drop_app_length' by (rewrite length_take; lia). apply take_app_length.
Qed.

Lemma length_xor_list a b : length a = length b → length (xor_list a b) = length a.
Proof. intros. unfold xor_list. rewrite length_zip_with. lia. Qed.

Lemma bytes_xor_list a b : bytes a → bytes b → bytes (xor_list a b).
Proof.
  intros Ha. revert b. induction Ha; intros ? [|]; constructor; auto with word.
Qed.

Lemma xor_list_comm a b : xor_list a b = xor_list b a.
Proof.
  unfold xor_list. revert b.
  induction a as [|x a IH]; intros [|y b]; cbn [zip_with]; [done..|].
  by rewrite IH, Z.lxor_comm.
Qed.

Lemma xor_list_cancel a b :
  (length a ≤ length b)%nat → xor_list (xor_list a b) b = a.
Proof.
  revert b. induction a as [|x a IH]; intros [|y b] ?; simpl in *; try done; try lia.
  rewrite lxor_cancel_r. f_equal. apply IH. lia.
Qed.

(** Reading at or ahead of the writes, the loop is the pointwise xor. *)
Lemma xor_copy_spec ks : ∀ mem i o,
  (o ≤ i)%nat → (i + length ks ≤ length mem)%nat →
  xor_copy mem i o ks = bwrite mem o (xor_list (take (length ks) (drop i mem)) ks).
Proof.
  induction ks as [|k ks IH]; intros mem i o Ho Hi; simpl in *.
  { unfold bwrite. simpl. by rewrite Nat.add_0_r, take_drop. }
  rewrite IH by (rewrite ?length_insert; lia).
  set (b := Z.lxor _ _).
  destruct (lookup_lt_is_Some_2 mem i) as [x Hx]; [lia|].
  rewrite (drop_S _ _ _ Hx). simpl.
  replace (Z.lxor x _) with b by (subst b; by rewrite nth_lookup, Hx).
  rewrite (drop_insert_lt mem) by lia.
  unfold bwrite. rewrite (take_S_r _ _ b) by (apply list_lookup_insert_eq; lia).
  rewrite take_insert_ge, <- app_assoc by lia. simpl.
  rewrite drop_insert_lt by lia. do 4 f_equal. lia.
Qed.

Lemma xor_copy_app ks1 ks2 : ∀ mem i o,
  xor_copy mem i o (ks1 ++ ks2) =
  xor_copy (xor_copy mem i o ks1) (i + length ks1) (o + length ks1) ks2.
Proof.
  induction ks1 as [|k ks1 IH]; intros mem i o; simpl; [by rewrite !Nat.add_0_r|].
  rewrite IH. f_equal; lia.
Qed.

Lemma length_xor_copy ks : ∀ mem i o, length (xor_copy mem i o ks) = length mem.
Proof.
  induction ks as [|k ks IH]; intros mem i o; simpl; [done|]. by rewrite IH, length_insert.
Qed.

Lemma aget_bytes a i : bytes a → byte (aget a i).
Proof.
  intros Ha. unfold aget. destruct (decide (Z.to_nat i < length a)%nat).
  - eapply Forall_forall; [done|]. apply list_elem_of_In, nth_In. lia.
  - by rewrite nth_overflow by lia.
Qed.

(** Reading a table that tabulates [f]. *)
Lemma aget_table f n i :
  0 ≤ i < Z.of_nat n → aget (map (λ i, f (Z.of_nat i)) (seq 0 n)) i = f i.
Proof.
  intros H. unfold aget.
  rewrite nth_indep with (d' := f (Z.of_nat 0)) by (rewrite length_map, length_seq; lia).
  rewrite (map_nth (λ i, f (Z.of_nat i))), seq_nth by lia. f_equal. lia.
Qed.

Lemma length_le_bytes n x : length (le_bytes n x) = n.
Proof. unfold le_bytes. by rewrite length_map, length_seq. Qed.

Lemma length_be_bytes n x : length (be_bytes n x) = n.
Proof. unfold be_bytes. by rewrite length_rev, length_le_bytes. Qed.

Lemma bytes_le_bytes n x : bytes (le_bytes n x).
Proof.
  apply Forall_forall. intros b. unfold le_bytes.
  rewrite list_elem_of_In, in_map_iff. intros (i & <- & _). auto with word.
Qed.

Lemma bytes_be_bytes n x : bytes (be_bytes n x).
Proof. by apply Forall_rev, bytes_le_bytes. Qed.

Lemma le_bytes_S n x : le_bytes (S n) x = u8 x :: le_bytes n (Z.shiftr x 8).
Proof.
  unfold le_bytes. simpl. rewrite Z.shiftr_0_r. f_equal.
  rewrite <- fmap_S_seq. change (S <$> seq 0 n) with (map S (seq 0 n)).
  rewrite map_map. apply map_ext. intros i.
  rewrite Z.shiftr_shiftr by lia. do 2 f_equal. lia.
Qed.

Lemma le_word_le_bytes n x : le_word (le_bytes n x) = wrap (8 * Z.of_nat n) x.
Proof.
  revert x. induction n as [|n IH]; intros x.
  { simpl. unfold wrap. by rewrite Z.land_0_r. }
  rewrite le_bytes_S. cbn [le_word]. rewrite IH. bits i.
  rewrite Z.shiftl_spec by lia. rewrite !(wrap_spec _ x) by lia.
  destruct (decide (i < 8)).
  - rewrite (Z.testbit_neg_r _ (i - 8)) by lia. rewrite orb_false_r.
    rewrite (proj2 (Z.ltb_lt i 8)), (proj2 (Z.ltb_lt i _)) by lia. done.
  - rewrite wrap_spec, Z.shiftr_spec by lia. replace (i - 8 + 8) with i by lia.
    rewrite (proj2 (Z.ltb_ge i 8)) by lia. simpl.
    destruct (Z.ltb_spec (i - 8) (8 * Z.of_nat n)), (Z.ltb_spec i (8 * Z.of_nat (S n)));
      done || lia.
Qed.

Lemma be_word_be_bytes n x : be_word (be_bytes n x) = wrap (8 * Z.of_nat n) x.
Proof. unfold be_word, be_bytes. by rewrite rev_involutive, le_word_le_bytes. Qed.

(** A list of bytes is determined by its little-endian word. *)
Lemma le_bytes_le_word l : bytes l → le_bytes (length l) (le_word l) = l.
Proof.
  induction 1 as [|b l Hb Hl IH]; [done|]. simpl length. rewrite le_bytes_S. cbn [le_word].
  f_equal.
  - apply Z.bits_inj'. intros i Hi. rewrite wrap_spec, Z.lor_spec by lia.
    destruct (decide (i < 8)).
    + rewrite Z.shiftl_spec_low by lia. rewrite orb_false_r. by replace (i <? 8) with true by lia.
    + replace (i <? 8) with false by lia. simpl. symmetry.
      apply (in_range_testbit 8); [done|lia].
  - rewrite <- IH at 3. f_equal. apply Z.bits_inj'. intros i Hi.
    rewrite Z.shiftr_spec, Z.lor_spec, Z.shiftl_spec by lia.
    rewrite (in_range_testbit 8 b) by (done || lia). simpl. f_equal. lia.
Qed.

Lemma le_bytes_wrap n x : le_bytes n (wrap (8 * Z.of_nat n) x) = le_bytes n x.
Proof.
  rewrite <- le_word_le_bytes. rewrite <- (length_le_bytes n x) at 1.
  apply le_bytes_le_word, bytes_le_bytes.
Qed.

Lemma le_word_range l : bytes l → in_range (8 * Z.of_nat (length l)) (le_word l).
Proof.
  intros Hl. rewrite <- (le_bytes_le_word l Hl) at 2. rewrite le_word_le_bytes.
  apply wrap_range. lia.
Qed.

Lemma le_word_app a b :
  le_word (a ++ b) = Z.lor (le_word a) (Z.shiftl (le_word b) (8 * Z.of_nat (length a))).
Proof.
  induction a as [|x a IH]; cbn [app le_word length].
  - by rewrite Z.lor_0_l, Z.shiftl_0_r.
  - rewrite IH, Z.shiftl_lor, Z.lor_assoc, Z.shiftl_shiftl by lia. do 2 f_equal. lia.
Qed.

Lemma be_word_cons x l :
  be_word (x :: l) = Z.lor (be_word l) (Z.shiftl x (8 * Z.of_nat (length l))).
Proof.
  unfold be_word. cbn [rev]. rewrite le_word_app, length_rev. simpl le_word.
  by rewrite Z.shiftl_0_l, Z.lor_0_r.
Qed.

Lemma be_word_range l : bytes l → in_range (8 * Z.of_nat (length l)) (be_word l).
Proof.
  intros Hl. unfold be_word. rewrite <- length_rev. apply le_word_range. by apply Forall_rev.
Qed.

(** The numeric value of a longer list. *)
Lemma lor_shiftl_add w x y : 0 ≤ w → in_range w x → Z.lor x (Z.shiftl y w) = x + y * 2 ^ w.
Proof.
  intros Hw Hx. assert (Hl : Z.land x (Z.shiftl y w) = 0).
  { bits i. destruct (decide (i < w)).
    - by rewrite Z.shiftl_spec_low, andb_false_r by lia.
    - by rewrite (in_range_testbit w x) by (done || lia). }
  by rewrite <- Z.lxor_lor, <- Z.add_nocarry_lxor, Z.shiftl_mul_pow2 by done.
Qed.

Lemma be_word_cons_add x l : bytes l →
  be_word (x :: l) = be_word l + x * 2 ^ (8 * Z.of_nat (length l)).
Proof. intros Hl. rewrite be_word_cons. apply lor_shiftl_add; [lia|by apply be_word_range]. Qed.

(** Deciding the byte range of a concrete buffer. *)
Lemma bytes_check l : forallb (λ x, (0 <=? x) && (x <? 256)) l = true → bytes l.
Proof.
  intros H. apply Forall_forall. intros x Hx%list_elem_of_In.
  rewrite forallb_forall in H. specialize (H x Hx). unfold in_range. lia.
Qed.

Ltac solve_bytes := apply bytes_check; vm_compute; reflexivity.

#[export] Hint Resolve bytes_zeros bytes_take bytes_drop bytes_bwrite
  bytes_xor_list bytes_le_bytes bytes_be_bytes aget_bytes Forall_app_2 : word.
Create Rewrite HintDb len.
#[export] Hint Rewrite length_zeros @length_take @length_drop @length_app
  length_le_bytes length_be_bytes @length_map @length_rev @length_insert : len.
