(* ===== verification/BaReorder.v ===== *)
(** Block-ack receive reordering: src/common/ba_action.c lines 82-405 and
    1525-1777, with the sequence macros of src/include/mlme.h and the data of
    src/include/rtmp.h.

    A recipient session [BA_REC_ENTRY] keeps the 12-bit sequence number of the
    frame last indicated to the upper layer and a sorted list of the frames
    received ahead of it.  The list blocks come from one pool
    [mpdu_blk_pool]; a frame is handed up ([Announce], [Indicate]) or freed
    ([Free]), which the model records as a trace of events.  A packet is an
    identity ([Z]): the conversion of its bytes to 802.3 is not part of the
    model. *)

From S2P Require Import Prelude.

(** * Data *)

Definition MAXSEQ : Z := 0xFFF.
Definition RESET_RCV_SEQ : Z := 0xFFFF.
Definition MAX_RX_PKT_LEN : Z := 1520.
Definition fRX_AMSDU : Z := 0x0002.
Definition fRX_EAP : Z := 0x0100.

Record reordering_mpdu := mk_mpdu {
  pPacket : Z;
  Sequence : Z;
  bAMSDU : bool;
  OpMode : Z
}.

(** [struct reordering_list]: the chain of blocks from [next], and [qlen]. *)
Record reordering_list := mk_list {
  chain : list reordering_mpdu;
  qlen : Z
}.

Record RX_BLK := mk_rx {
  rx_Sequence : Z;   (* pHeader->Sequence, a 12-bit field *)
  rx_Flags : Z;
  rx_DataSize : Z;
  rx_OpMode : Z;
  rx_pPacket : Z
}.

Inductive REC_BLOCKACK_STATUS :=
| Recipient_NONE | Recipient_USED | Recipient_HandleRes | Recipient_Accept.

Record BA_REC_ENTRY := mk_entry {
  Wcid : Z;
  TID : Z;
  BAWinSize : Z;
  LastIndSeq : Z;
  TimeOutValue : Z;
  LastIndSeqAtTimer : Z;
  nDropPacket : Z;
  rcvSeq : Z;
  REC_BA_Status : REC_BLOCKACK_STATUS;
  list_ : reordering_list
}.

(** Where [INDICATE_LEGACY_OR_AMSDU] sends a frame. *)
Inductive rx_path := Path_AMSDU | Path_EAPOL | Path_Legacy.

Inductive event :=
| Announce (m : reordering_mpdu)
| Indicate (p : rx_path) (rx : RX_BLK)
| Free (pkt : Z).

(** What one session's code touches of the adapter: the session entry, the
    pool of blocks and the trace of effects, oldest first. *)
Record ba_state := mk_state {
  entry : BA_REC_ENTRY;
  mpdu_blk_pool : reordering_list;
  trace : list event
}.

#[export] Instance reordering_mpdu_eq_dec : EqDecision reordering_mpdu.
Proof. solve_decision. Defined.
#[export] Instance status_eq_dec : EqDecision REC_BLOCKACK_STATUS.
Proof. solve_decision. Defined.
#[export] Instance RX_BLK_eq_dec : EqDecision RX_BLK.
Proof. solve_decision. Defined.
#[export] Instance rx_path_eq_dec : EqDecision rx_path.
Proof. solve_decision. Defined.
#[export] Instance event_eq_dec : EqDecision event.
Proof. solve_decision. Defined.

Definition set_BAWinSize (e : BA_REC_ENTRY) (v : Z) : BA_REC_ENTRY :=
  mk_entry (Wcid e) (TID e) v (LastIndSeq e) (TimeOutValue e)
    (LastIndSeqAtTimer e) (nDropPacket e) (rcvSeq e) (REC_BA_Status e) (list_ e).
Definition set_LastIndSeq (e : BA_REC_ENTRY) (v : Z) : BA_REC_ENTRY :=
  mk_entry (Wcid e) (TID e) (BAWinSize e) v (TimeOutValue e)
    (LastIndSeqAtTimer e) (nDropPacket e) (rcvSeq e) (REC_BA_Status e) (list_ e).
Definition set_Timer (e : BA_REC_ENTRY) (v : Z) : BA_REC_ENTRY :=
  mk_entry (Wcid e) (TID e) (BAWinSize e) (LastIndSeq e) (TimeOutValue e)
    v (nDropPacket e) (rcvSeq e) (REC_BA_Status e) (list_ e).
Definition set_rcvSeq (e : BA_REC_ENTRY) (v : Z) : BA_REC_ENTRY :=
  mk_entry (Wcid e) (TID e) (BAWinSize e) (LastIndSeq e) (TimeOutValue e)
    (LastIndSeqAtTimer e) (nDropPacket e) v (REC_BA_Status e) (list_ e).
Definition set_Status (e : BA_REC_ENTRY) (v : REC_BLOCKACK_STATUS) : BA_REC_ENTRY :=
  mk_entry (Wcid e) (TID e) (BAWinSize e) (LastIndSeq e) (TimeOutValue e)
    (LastIndSeqAtTimer e) (nDropPacket e) (rcvSeq e) v (list_ e).
Definition set_list (e : BA_REC_ENTRY) (l : reordering_list) : BA_REC_ENTRY :=
  mk_entry (Wcid e) (TID e) (BAWinSize e) (LastIndSeq e) (TimeOutValue e)
    (LastIndSeqAtTimer e) (nDropPacket e) (rcvSeq e) (REC_BA_Status e) l.
Definition inc_nDropPacket (e : BA_REC_ENTRY) : BA_REC_ENTRY :=
  mk_entry (Wcid e) (TID e) (BAWinSize e) (LastIndSeq e) (TimeOutValue e)
    (LastIndSeqAtTimer e) (u64 (nDropPacket e + 1)) (rcvSeq e) (REC_BA_Status e) (list_ e).

Definition upd_entry (f : BA_REC_ENTRY → BA_REC_ENTRY) (s : ba_state) : ba_state :=
  mk_state (f (entry s)) (mpdu_blk_pool s) (trace s).
Definition emit (ev : event) (s : ba_state) : ba_state :=
  mk_state (entry s) (mpdu_blk_pool s) (trace s ++ [ev]).

(** * Sequence arithmetic *)

Definition SEQ_STEPONE (s1 s2 lim : Z) : bool := s1 =? Z.land (s2 + 1) lim.

Definition SEQ_SMALLER (s1 s2 lim : Z) : bool :=
  negb (Z.land (s1 - s2) (Z.shiftr (lim + 1) 1) =? 0).

(** [(long)(b) - (long)(a) < 0] on 64-bit longs. *)
Definition s64 (x : Z) : Z := u64 (x + 2 ^ 63) - 2 ^ 63.
Definition RTMP_TIME_AFTER (a b : Z) : bool := s64 (s64 b - s64 a) <? 0.

Definition RX_BLK_TEST_FLAG (rx : RX_BLK) (f : Z) : bool :=
  negb (Z.land (rx_Flags rx) f =? 0).

(** * The list operations *)

(** Walk past the smaller sequence numbers; give up on an equal one. *)
Fixpoint insert_scan (c : list reordering_mpdu) (m : reordering_mpdu)
    : option (list reordering_mpdu) :=
  match c with
  | [] => Some [m]
  | x :: c' =>
      if SEQ_SMALLER (Sequence x) (Sequence m) MAXSEQ
      then (x ::.) <$> insert_scan c' m
      else if Sequence x =? Sequence m then None
      else Some (m :: x :: c')
  end.

(** [None] is the return value FALSE, with the list unchanged. *)
Definition ba_reordering_mpdu_insertsorted (l : reordering_list) (m : reordering_mpdu)
    : option reordering_list :=
  match insert_scan (chain l) m with
  | Some c => Some (mk_list c (qlen l + 1))
  | None => None
  end.

Definition ba_enqueue (l : reordering_list) (m : reordering_mpdu) : reordering_list :=
  mk_list (m :: chain l) (qlen l + 1).

Definition ba_dequeue (l : reordering_list) : option reordering_mpdu * reordering_list :=
  if qlen l =? 0 then (None, l)
  else match chain l with
       | [] => (None, mk_list [] (qlen l - 1))
       | m :: c => (Some m, mk_list c (qlen l - 1))
       end.

Definition ba_reordering_mpdu_dequeue := ba_dequeue.

Definition ba_reordering_mpdu_probe (l : reordering_list) : option reordering_mpdu :=
  head (chain l).

Definition zero_mpdu : reordering_mpdu := mk_mpdu 0 0 false 0.

(** The allocated block is zeroed; [None] is a NULL result. *)
Definition ba_mpdu_blk_alloc (s : ba_state) : option reordering_mpdu * ba_state :=
  let '(b, pool) := ba_dequeue (mpdu_blk_pool s) in
  (match b with Some _ => Some zero_mpdu | None => None end,
   mk_state (entry s) pool (trace s)).

Definition ba_mpdu_blk_free (m : reordering_mpdu) (s : ba_state) : ba_state :=
  mk_state (entry s) (ba_enqueue (mpdu_blk_pool s) m) (trace s).

(** The pool built by [ba_reordering_resource_init] from an allocation of
    [num] zeroed blocks. *)
Fixpoint init_freelist (num : nat) (l : reordering_list) : reordering_list :=
  match num with
  | O => l
  | S n => init_freelist n (ba_enqueue l zero_mpdu)
  end.

Definition ba_reordering_resource_init (alloc : bool) (num : nat)
    : bool * reordering_list :=
  let freelist := mk_list [] 0 in
  if alloc then (true, init_freelist num freelist) else (false, freelist).

(** Dequeue the head of the session list, hand it up and return its block to
    the pool: the common body of the three flush loops. *)
Definition pop_announce (s : ba_state) : option (Z * ba_state) :=
  match ba_reordering_mpdu_dequeue (list_ (entry s)) with
  | (Some m, l) =>
      Some (Sequence m,
            ba_mpdu_blk_free m (emit (Announce m) (upd_entry (λ e, set_list e l) s)))
  | (None, _) => None
  end.

(** * The flush loops

    Every iteration removes one block from the chain, so that the length of
    the chain is enough fuel for each of them. *)

Fixpoint in_order_loop (fuel : nat) (StartSeq Last : Z) (s : ba_state) : Z * ba_state :=
  match fuel with
  | O => (Last, s)
  | S fuel =>
      match ba_reordering_mpdu_probe (list_ (entry s)) with
      | None => (Last, s)
      | Some m =>
          if negb (SEQ_STEPONE (Sequence m) StartSeq MAXSEQ) then (Last, s)
          else match pop_announce s with
               | Some (q, s') => in_order_loop fuel q q s'
               | None => (Last, s)
               end
      end
  end.

Definition ba_indicate_reordering_mpdus_in_order (StartSeq : Z) (s : ba_state)
    : Z * ba_state :=
  in_order_loop (length (chain (list_ (entry s)))) StartSeq RESET_RCV_SEQ s.

Fixpoint le_seq_loop (fuel : nat) (Seq : Z) (s : ba_state) : ba_state :=
  match fuel with
  | O => s
  | S fuel =>
      match ba_reordering_mpdu_probe (list_ (entry s)) with
      | None => s
      | Some m =>
          if (Sequence m =? Seq) || SEQ_SMALLER (Sequence m) Seq MAXSEQ
          then match pop_announce s with
               | Some (_, s') => le_seq_loop fuel Seq s'
               | None => s
               end
          else s
      end
  end.

Definition ba_indicate_reordering_mpdus_le_seq (Seq : Z) (s : ba_state) : ba_state :=
  le_seq_loop (length (chain (list_ (entry s)))) Seq s.

Fixpoint refresh_loop (fuel : nat) (s : ba_state) : ba_state :=
  match fuel with
  | O => s
  | S fuel =>
      match pop_announce s with
      | Some (q, s') => refresh_loop fuel (upd_entry (λ e, set_LastIndSeq e q) s')
      | None => s
      end
  end.

Definition ba_refresh_reordering_mpdus (s : ba_state) : ba_state :=
  upd_entry (λ e, set_LastIndSeq e RESET_RCV_SEQ)
    (refresh_loop (length (chain (list_ (entry s)))) s).

(** * The handlers

    [HZ] is the kernel's tick rate, a parameter of the timeouts. *)
Section Handlers.
Context (HZ : Z).

Definition REORDERING_PACKET_TIMEOUT : Z := (100 * HZ) `div` 1000.
Definition MAX_REORDERING_PACKET_TIMEOUT : Z := (3000 * HZ) `div` 1000.

Definition ba_flush_reordering_timeout_mpdus (Now32 : Z) (s : ba_state) : ba_state :=
  let e := entry s in
  if qlen (list_ e) <=? 0 then s
  else if RTMP_TIME_AFTER Now32
            (u64 (LastIndSeqAtTimer e + MAX_REORDERING_PACKET_TIMEOUT `div` 6))
          && (1 <? qlen (list_ e))
  then upd_entry (λ e, set_Timer e Now32) (ba_refresh_reordering_mpdus s)
  else if RTMP_TIME_AFTER Now32
            (u64 (LastIndSeqAtTimer e + REORDERING_PACKET_TIMEOUT))
          && (0 <? qlen (list_ e))
  then
    let Seq := Z.land (LastIndSeq e + 1) MAXSEQ in
    let s := ba_indicate_reordering_mpdus_le_seq Seq s in
    let s := upd_entry (λ e, set_LastIndSeq (set_Timer e Now32) Seq) s in
    let '(Seq, s) := ba_indicate_reordering_mpdus_in_order Seq s in
    if negb (Seq =? RESET_RCV_SEQ)
    then upd_entry (λ e, set_LastIndSeq e Seq) s else s
  else s.

Definition INDICATE_LEGACY_OR_AMSDU (rx : RX_BLK) (s : ba_state) : ba_state :=
  if RX_BLK_TEST_FLAG rx fRX_AMSDU then emit (Indicate Path_AMSDU rx) s
  else if RX_BLK_TEST_FLAG rx fRX_EAP then emit (Indicate Path_EAPOL rx) s
  else emit (Indicate Path_Legacy rx) s.

Definition ba_enqueue_reordering_packet (rx : RX_BLK) (s : ba_state) : ba_state :=
  let Seq := rx_Sequence rx in
  let '(blk, s) := ba_mpdu_blk_alloc s in
  match blk with
  | Some _ =>
      if negb (RX_BLK_TEST_FLAG rx fRX_EAP)
      then
        let m := mk_mpdu (rx_pPacket rx) Seq (RX_BLK_TEST_FLAG rx fRX_AMSDU)
                   (rx_OpMode rx) in
        match ba_reordering_mpdu_insertsorted (list_ (entry s)) m with
        | Some l => upd_entry (λ e, set_list e l) s
        | None => ba_mpdu_blk_free m (emit (Free (rx_pPacket rx)) s)
        end
      else
        let s := ba_indicate_reordering_mpdus_le_seq Seq s in
        let s := upd_entry (λ e, set_LastIndSeq e Seq) s in
        INDICATE_LEGACY_OR_AMSDU rx s
  | None =>
      let s := ba_indicate_reordering_mpdus_le_seq Seq s in
      let s := upd_entry (λ e, set_LastIndSeq e Seq) s in
      INDICATE_LEGACY_OR_AMSDU rx s
  end.

(** Lines 1737-1776: the five cases of a received sequence number. *)
Definition reorder_cases (rx : RX_BLK) (Now32 : Z) (s : ba_state) : ba_state :=
  let Seq := rx_Sequence rx in
  let e := entry s in
  if SEQ_STEPONE Seq (LastIndSeq e) MAXSEQ then
    let s := upd_entry (λ e, set_LastIndSeq e Seq) s in
    let s := INDICATE_LEGACY_OR_AMSDU rx s in
    let '(Last, s) := ba_indicate_reordering_mpdus_in_order (LastIndSeq (entry s)) s in
    let s := if negb (Last =? RESET_RCV_SEQ)
             then upd_entry (λ e, set_LastIndSeq e Last) s else s in
    upd_entry (λ e, set_Timer e Now32) s
  else if Seq =? LastIndSeq e then
    emit (Free (rx_pPacket rx)) (upd_entry inc_nDropPacket s)
  else if SEQ_SMALLER Seq (LastIndSeq e) MAXSEQ then
    emit (Free (rx_pPacket rx)) (upd_entry inc_nDropPacket s)
  else if SEQ_SMALLER Seq (Z.land (LastIndSeq e + BAWinSize e + 1) MAXSEQ) MAXSEQ then
    ba_enqueue_reordering_packet rx s
  else
    let TmpSeq := Seq - BAWinSize e - 1 in
    let TmpSeq := if TmpSeq <? 0 then MAXSEQ + 1 + TmpSeq else TmpSeq in
    let WinStartSeq := Z.land (TmpSeq + 1) MAXSEQ in
    let s := ba_indicate_reordering_mpdus_le_seq WinStartSeq s in
    let s := upd_entry (λ e, set_Timer (set_LastIndSeq e WinStartSeq) Now32) s in
    let s := ba_enqueue_reordering_packet rx s in
    let '(Tmp, s) := ba_indicate_reordering_mpdus_in_order (LastIndSeq (entry s)) s in
    if negb (Tmp =? RESET_RCV_SEQ)
    then upd_entry (λ e, set_LastIndSeq e Tmp) s else s.

(** Lines 1717-1776 of [Indicate_AMPDU_Packet]: a frame of an open session. *)
Definition indicate_ampdu_session (Now32 : Z) (rx : RX_BLK) (s : ba_state) : ba_state :=
  let s := upd_entry (λ e, set_rcvSeq e (rx_Sequence rx)) s in
  let s := ba_flush_reordering_timeout_mpdus Now32 s in
  let s := upd_entry (λ e, set_Timer e Now32) s in
  if LastIndSeq (entry s) =? RESET_RCV_SEQ then
    let s := upd_entry
      (λ e, set_Timer (set_LastIndSeq e (rx_Sequence rx)) Now32) s in
    INDICATE_LEGACY_OR_AMSDU rx s
  else reorder_cases rx Now32 s.
End Handlers.
