(* ===== verification/BaReorderSpec.v ===== *)
(** The reordering buffer as an abstract machine on unbounded sequence
    numbers, and the closed forms of the flush loops of [BaReorder].

    [spec_rx] is what the session promises: a frame no later than the last
    one indicated is dropped, the next one is indicated together with the run
    of buffered frames that follows it, a frame inside the window is
    buffered, and a frame beyond the window slides the window. *)

From stdpp Require Import sorting.
From S2P Require Import Prelude BaReorder.

(** * The abstract machine *)

Fixpoint spec_insert (s : Z) (buf : list Z) : list Z :=
  match buf with
  | [] => [s]
  | b :: r => if b <? s then b :: spec_insert s r
              else if b =? s then buf else s :: buf
  end.

(** Deliver the run L+1, L+2, ... at the head of the buffer. *)
Fixpoint spec_drain (L : Z) (buf : list Z) : list Z * (Z * list Z) :=
  match buf with
  | [] => ([], (L, []))
  | b :: r =>
      if b =? L + 1
      then let '(d, st) := spec_drain b r in (b :: d, st)
      else ([], (L, buf))
  end.

Fixpoint spec_split (L : Z) (buf : list Z) : list Z * list Z :=
  match buf with
  | [] => ([], [])
  | b :: r => if b <=? L then let '(d, k) := spec_split L r in (b :: d, k)
              else ([], buf)
  end.

Definition spec_rx (Win s : Z) (st : Z * list Z) : list Z * (Z * list Z) :=
  let '(L, buf) := st in
  if s <=? L then ([], (L, buf))
  else if s =? L + 1 then
    let '(d, st) := spec_drain s buf in (s :: d, st)
  else if s <=? L + Win then ([], (L, spec_insert s buf))
  else
    let '(old, keep) := spec_split (s - Win) buf in
    let '(d, st) := spec_drain (s - Win) (spec_insert s keep) in
    (old ++ d, st).

(** The integer that a 12-bit number stands for, seen from [L]: the one
    congruent to it in [L - 2048, L + 2047]. *)
Definition unwrap (L q : Z) : Z := L + ((q - L + 2048) `mod` 4096 - 2048).

(** The abstract machine on a run of received 12-bit numbers. *)
Fixpoint spec_run (Win : Z) (qs : list Z) (st : Z * list Z) : list Z * (Z * list Z) :=
  match qs with
  | [] => ([], st)
  | q :: qs =>
      let '(d, st) := spec_rx Win (unwrap st.1 q) st in
      let '(ds, st) := spec_run Win qs st in (d ++ ds, st)
  end.

(** A timeout gives up on the frame after the last one indicated. *)
Definition spec_timeout (st : Z * list Z) : list Z * (Z * list Z) :=
  let '(L, buf) := st in spec_drain (L + 1) buf.

(** The machine with its clock: a frame [q] that comes at [now], the one before
    it having come at [prev].  After half a second with more than one frame
    buffered everything is handed up and the numbers start over at [q]; after a
    tenth of a second with one buffered the missing frame is given up. *)
Section Clock.
Context (HZ Win : Z).

Definition spec_late (now prev d : Z) : bool := RTMP_TIME_AFTER now (u64 (prev + d)).

Definition spec_refresh (now prev : Z) (st : Z * list Z) : bool :=
  spec_late now prev (MAX_REORDERING_PACKET_TIMEOUT HZ `div` 6) && (1 <? Z.of_nat (length st.2)).

Definition spec_flush (now prev : Z) (st : Z * list Z) : list Z * (Z * list Z) :=
  if spec_late now prev (REORDERING_PACKET_TIMEOUT HZ) && (0 <? Z.of_nat (length st.2)) then spec_timeout st else ([], st).

Definition spec_frame (now prev q : Z) (st : Z * list Z) : list Z * (Z * list Z) :=
  if spec_refresh now prev st then (st.2 ++ [q], (q, []))
  else
    let '(o1, st) := spec_flush now prev st in
    let '(o2, st) := spec_rx Win (unwrap st.1 q) st in (o1 ++ o2, st).

Fixpoint spec_session (prev : Z) (qs : list (Z * Z)) (st : Z * list Z) : list Z * (Z * list Z) :=
  match qs with
  | [] => ([], st)
  | (now, q) :: qs =>
      let '(d, st) := spec_frame now prev q st in
      let '(ds, st) := spec_session now qs st in (d ++ ds, st)
  end.
End Clock.

(** The buffer lies strictly above L + 1 inside the window, sorted; [d] is
    the last frame handed up. *)
Definition spec_buf (Win L : Z) (buf : list Z) : Prop :=
  StronglySorted Z.lt buf ∧ Forall (λ b, L + 2 ≤ b ≤ L + Win) buf.

Definition spec_inv (Win d L : Z) (buf : list Z) : Prop :=
  spec_buf Win L buf ∧ d ≤ L ∧
  match buf with [] => L = d | b :: _ => b ≤ d + 2047 end.

(** [b] is handed up after [a]: later in the order of the 12-bit window. *)
Definition later (a b : Z) : Prop := 1 ≤ b - a ≤ 2047.

(** * Lemmas of the abstract machine *)

Lemma spec_insert_Forall (P : Z → Prop) s buf :
  P s → Forall P buf → Forall P (spec_insert s buf).
Proof.
  intros Hs. induction 1 as [|b r Hb Hr IH]; simpl; [by repeat constructor|].
  repeat case_match; auto.
Qed.

Lemma spec_insert_sorted s buf :
  StronglySorted Z.lt buf → StronglySorted Z.lt (spec_insert s buf).
Proof.
  induction 1 as [|b r Hr IH Hb]; simpl; [repeat constructor|].
  destruct (b <? s) eqn:E1; [|destruct (b =? s) eqn:E2].
  - constructor; [done|]. apply spec_insert_Forall; [lia|done].
  - by constructor.
  - assert (s < b) by lia. repeat constructor; auto.
    eapply Forall_impl; [done|]. intros; simpl in *; lia.
Qed.

Lemma spec_insert_head s buf :
  ∃ b r, spec_insert s buf = b :: r ∧ b ≤ s ∧
         (∀ c k, buf = c :: k → b ≤ c).
Proof.
  destruct buf as [|c k]; simpl; [by eexists _, _|].
  destruct (c <? s) eqn:E1; [|destruct (c =? s) eqn:E2];
    eexists _, _; (split; [done|]); (split; [lia|]); intros ?? [= <- <-]; lia.
Qed.

(** Draining from [L] yields the run L+1, ..., L' and leaves a buffer whose
    head is not the next frame. *)
Lemma spec_drain_inv Win L buf d L' buf' :
  spec_drain L buf = (d, (L', buf')) →
  StronglySorted Z.lt buf → Forall (λ b, L + 1 ≤ b ≤ L + Win) buf →
  L ≤ L' ∧ spec_buf Win L' buf' ∧ buf = d ++ buf' ∧
  Sorted later (L :: d) ∧ default L (last d) = L'.
Proof.
  revert L d. induction buf as [|b r IH]; intros L d Hd Hs Hf; simpl in Hd.
  - simplify_eq. conjs; try done; try lia; by repeat constructor.
  - inversion Hs as [|?? Hr Hb]; inversion Hf as [|?? Hbf Hrf]; subst.
    destruct (b =? L + 1) eqn:E.
    + destruct (spec_drain b r) as [d2 [L2 r2]] eqn:E2. simplify_eq.
      apply IH in E2 as (H1 & H2 & -> & H3 & H4); [|done|].
      * conjs; try done; try lia.
        -- constructor; [done|]. constructor. unfold later. lia.
        -- rewrite last_cons. rewrite <- H4. by destruct (last d2).
      * apply Forall_forall. intros x Hx.
        rewrite Forall_forall in Hb, Hrf. specialize (Hb x Hx). specialize (Hrf x Hx).
        simpl in *. lia.
    + simplify_eq. conjs; try done; try lia; try (by repeat constructor).
      split; [done|]. apply Forall_forall. intros x Hx.
      rewrite Forall_forall in Hb, Hrf. simpl in *.
      apply list_elem_of_In in Hx. destruct Hx as [<-|Hx]; [lia|].
      apply list_elem_of_In in Hx. specialize (Hb x Hx). specialize (Hrf x Hx). simpl in *. lia.
Qed.

Lemma spec_split_inv Win L1 L buf old keep :
  spec_split L1 buf = (old, keep) →
  StronglySorted Z.lt buf → Forall (λ b, L + 2 ≤ b ≤ L + Win) buf →
  buf = old ++ keep ∧ Forall (λ b, b ≤ L1) old ∧
  StronglySorted Z.lt keep ∧ Forall (λ b, L1 + 1 ≤ b ≤ L + Win) keep.
Proof.
  revert old. induction buf as [|b r IH]; intros old Hd Hs Hf; simpl in Hd.
  - simplify_eq. by repeat constructor.
  - inversion Hs as [|?? Hr Hb]; inversion Hf as [|?? Hbf Hrf]; subst.
    destruct (b <=? L1) eqn:E.
    + destruct (spec_split L1 r) as [o k] eqn:E2. simplify_eq.
      destruct (IH o eq_refl Hr Hrf) as (-> & H1 & H2 & H3).
      conjs; try done. constructor; [lia|done].
    + simplify_eq. conjs; try done; try (by constructor).
      constructor; [lia|]. apply Forall_forall. intros x Hx.
      rewrite Forall_forall in Hb, Hrf. specialize (Hb x Hx). specialize (Hrf x Hx).
      simpl in *. lia.
Qed.

Lemma Sorted_later_app d xs ys :
  Sorted later (d :: xs) → Sorted later (default d (last xs) :: ys) →
  Sorted later (d :: xs ++ ys).
Proof.
  revert d. induction xs as [|x xs IH]; intros d H1 H2; simpl; [done|].
  apply Sorted_inv in H1 as [H1 Hd]. constructor.
  - apply IH; [done|]. rewrite last_cons in H2. by destruct (last xs).
  - inversion Hd. by constructor.
Qed.

(** The frames of a sorted window, all within 2047 of [d], come in order. *)
Lemma Sorted_later_window d xs :
  StronglySorted Z.lt xs → Forall (λ b, d + 1 ≤ b ≤ d + 2047) xs →
  Sorted later (d :: xs).
Proof.
  intros Hs. revert d. induction Hs as [|x xs Hs IH Hx]; intros d Hf; [by repeat constructor|].
  inversion Hf as [|?? Hd Hf']; subst. constructor.
  - apply IH. apply Forall_forall. intros y Hy.
    rewrite Forall_forall in Hx, Hf'. specialize (Hx y Hy). specialize (Hf' y Hy).
    simpl in *. lia.
  - constructor. unfold later. lia.
Qed.

Lemma Sorted_later_head a b xs :
  Sorted later (a :: xs) → (∀ x r, xs = x :: r → later b x) → Sorted later (b :: xs).
Proof.
  intros H Hb. apply Sorted_inv in H as [H _]. constructor; [done|].
  destruct xs as [|x r]; constructor. by eapply Hb.
Qed.

Lemma Sorted_later_wide d lo xs :
  StronglySorted Z.lt xs → Forall (λ b, lo ≤ b ≤ lo + 2047) xs →
  (∀ x r, xs = x :: r → later d x) → Sorted later (d :: xs).
Proof.
  intros Hs Hf Hd. destruct xs as [|x r]; [by repeat constructor|].
  constructor; [|constructor; by eapply Hd].
  - inversion Hs as [|?? Hr Hx]; inversion Hf as [|?? Hxf Hrf]; subst.
    apply Sorted_later_window; [done|]. apply Forall_forall. intros y Hy.
    rewrite Forall_forall in Hx, Hrf. specialize (Hx y Hy). specialize (Hrf y Hy).
    simpl in *. lia.
Qed.

Lemma StronglySorted_app_l (xs ys : list Z) :
  StronglySorted Z.lt (xs ++ ys) → StronglySorted Z.lt xs.
Proof.
  induction xs as [|x xs IH]; intros H; [constructor|].
  inversion H as [|?? H1 H2]; subst. constructor; [by apply IH|].
  by apply Forall_app in H2 as [? _].
Qed.

Section Order.
Context (Win : Z) (HWin : 1 ≤ Win ≤ 1024).

(** Draining with the last delivered frame [d1] below [L1]: the run
    continues the order, and the invariant holds for what is left. *)
Lemma drain_step d1 L1 buf dd L' buf' :
  spec_drain L1 buf = (dd, (L', buf')) →
  StronglySorted Z.lt buf → Forall (λ b, L1 + 1 ≤ b ≤ L1 + Win) buf →
  d1 ≤ L1 → L1 + 1 ≤ d1 + 2047 →
  match buf with [] => L1 = d1 | b :: _ => b ≤ d1 + 2047 end →
  Sorted later (d1 :: dd) ∧ spec_inv Win (default d1 (last dd)) L' buf'.
Proof.
  intros Hd Hs Hf ? ? Hhd.
  destruct (spec_drain_inv _ _ _ _ _ _ Hd Hs Hf) as (H1 & H2 & -> & H3 & H4).
  destruct dd as [|x dd].
  - simpl in *. subst L'. split; [repeat constructor|]. done.
  - split.
    + eapply Sorted_later_head; [done|]. intros ?? [= <- <-].
      inversion Hf as [|?? Hx _]. apply Sorted_inv in H3 as [_ H3].
      inversion H3 as [|?? H3']; subst. unfold later in *.
      simpl in Hhd. lia.
    + rewrite last_cons in *. destruct (last dd) as [z|] eqn:E; simpl in *; subst.
      all: split; [done|]; split; [done|].
      all: destruct buf' as [|b r]; [done|].
      all: destruct H2 as [_ H2]; inversion H2; lia.
Qed.

Lemma spec_rx_inv s d L buf out L' buf' :
  spec_inv Win d L buf → L - 2048 ≤ s ≤ L + 2047 →
  spec_rx Win s (L, buf) = (out, (L', buf')) →
  Sorted later (d :: out) ∧ spec_inv Win (default d (last out)) L' buf'.
Proof using HWin.
  intros [[Hs Hf] [Hd Hhd]] Hrange. unfold spec_rx.
  destruct (s <=? L) eqn:E1; [|destruct (s =? L + 1) eqn:E2; [|destruct (s <=? L + Win) eqn:E3]].
  - intros [= <- <- <-]. split; [repeat constructor|]. by repeat split.
  - destruct (spec_drain s buf) as [dd [L2 r2]] eqn:Ed. intros [= <- <- <-].
    assert (s = L + 1) as -> by lia.
    assert (Hnext : later d (L + 1)).
    { unfold later. destruct buf as [|b r]; [lia|]. inversion Hf; lia. }
    eapply (drain_step (L + 1)) in Ed as [H1 H2]; [|done| |lia|lia|].
    + split; [constructor; [done|by constructor]|].
      rewrite last_cons. by destruct (last dd).
    + eapply Forall_impl; [done|]. simpl. lia.
    + destruct buf; [done|]. inversion Hf; lia.
  - intros [= <- <- <-]. split; [repeat constructor|]. split; [split|].
    + by apply spec_insert_sorted.
    + apply spec_insert_Forall; [lia|done].
    + split; [done|]. simpl.
      destruct (spec_insert_head s buf) as (b & r & -> & Hb & Hle).
      destruct buf as [|c k]; [lia|]. specialize (Hle c k eq_refl). lia.
  - destruct (spec_split (s - Win) buf) as [old keep] eqn:Esp.
    destruct (spec_drain (s - Win) (spec_insert s keep)) as [dd [L2 r2]] eqn:Ed.
    intros [= <- <- <-].
    destruct (spec_split_inv Win _ L _ _ _ Esp Hs Hf) as (-> & Ho & Hks & Hkf).
    assert (Hold : Sorted later (d :: old)).
    { apply Sorted_later_wide with (L + 2).
      - by eapply StronglySorted_app_l.
      - apply Forall_app in Hf as [Hf _]. eapply Forall_impl; [exact Hf|]. simpl. lia.
      - intros x r ->. simpl in *. inversion Hf. unfold later. lia. }
    set (d1 := default d (last old)).
    assert (d1 ≤ s - Win ∧ (old = [] ∧ d1 = d ∨ L + 2 ≤ d1)) as [Hd1 Hd2].
    { subst d1. destruct (last old) as [z|] eqn:El; simpl.
      - apply last_Some in El as [o' ->].
        apply Forall_app in Ho as [_ Ho]. apply Forall_app in Hf as [Hf _].
        apply Forall_app in Hf as [_ Hf]. inversion Ho; inversion Hf. lia.
      - apply last_None in El as ->. simpl in *. split; [lia|by left]. }
    destruct (spec_insert_head s keep) as (b & r & Hb & Hbs & Hle).
    assert (Hhead : b ≤ d1 + 2047 ∧ s - Win + 1 ≤ d1 + 2047).
    { destruct Hd2 as [[-> Hd2]|?]; [rewrite Hd2|lia]. simpl in *.
      destruct keep as [|c k]; [lia|]. specialize (Hle c k eq_refl).
      inversion Hkf. lia. }
    eapply (drain_step d1) in Ed as [H1 H2]; [|by apply spec_insert_sorted| |lia|lia|].
    + split; [by apply Sorted_later_app|].
      rewrite last_app. subst d1. by destruct (last dd).
    + apply spec_insert_Forall; [lia|]. eapply Forall_impl; [done|]. simpl. lia.
    + rewrite Hb. lia.
Qed.
End Order.
