(* ===== verification/BaReorderProofs.v ===== *)
(** The reordering code refines the abstract machine of [BaReorderSpec], and
    what follows from it: in-order indication, conservation of packets and of
    pool blocks, and the timeout flush. *)

From stdpp Require Import sorting.
From S2P Require Import Prelude BaReorder BaReorderSpec.

(** * Definitions used by the statements *)

Definition wf_list (l : reordering_list) : Prop :=
  qlen l = Z.of_nat (length (chain l)).

Definition wf_state (s : ba_state) : Prop :=
  wf_list (list_ (entry s)) ∧ wf_list (mpdu_blk_pool s).

(** The sequence numbers handed to the upper layer, in order. *)
Definition ev_seq (ev : event) : option Z :=
  match ev with
  | Announce m => Some (Sequence m)
  | Indicate _ rx => Some (rx_Sequence rx)
  | Free _ => None
  end.
Definition delivered_seqs (t : list event) : list Z := omap ev_seq t.

(** The packet each event disposes of. *)
Definition ev_pkt (ev : event) : Z :=
  match ev with
  | Announce m => pPacket m
  | Indicate _ rx => rx_pPacket rx
  | Free p => p
  end.
Definition chain_pkts (s : ba_state) : list Z :=
  map pPacket (chain (list_ (entry s))).

(** The session [e] holds the abstract buffer [buf] above [L]. *)
Definition refines (Win L : Z) (buf : list Z) (e : BA_REC_ENTRY) : Prop :=
  BAWinSize e = Win ∧ LastIndSeq e = L `mod` 4096 ∧
  map Sequence (chain (list_ e)) = map (λ b, b `mod` 4096) buf ∧
  wf_list (list_ e).

(** The state after the first [n] buffered frames were announced. *)
Definition flushed (n : nat) (s : ba_state) : ba_state :=
  let l := list_ (entry s) in
  mk_state (set_list (entry s) (mk_list (drop n (chain l)) (qlen l - Z.of_nat n)))
    (mk_list (rev (take n (chain l)) ++ chain (mpdu_blk_pool s))
       (qlen (mpdu_blk_pool s) + Z.of_nat n))
    (trace s ++ map Announce (take n (chain l))).

(** A received frame with a 12-bit sequence number that is not an EAPOL
    frame. *)
Definition plain_rx (rx : RX_BLK) : Prop :=
  0 ≤ rx_Sequence rx < 4096 ∧ RX_BLK_TEST_FLAG rx fRX_EAP = false.

(** Frames received one after the other, each with the time it came at. *)
Fixpoint reorder_run (rxs : list (Z * RX_BLK)) (s : ba_state) : ba_state :=
  match rxs with
  | [] => s
  | (now, rx) :: rxs => reorder_run rxs (reorder_cases rx now s)
  end.

(** A session on which frames and timeouts come in any order. *)
Fixpoint session_run (HZ : Z) (rxs : list (Z * RX_BLK)) (s : ba_state) : ba_state :=
  match rxs with
  | [] => s
  | (now, rx) :: rxs => session_run HZ rxs (indicate_ampdu_session HZ now rx s)
  end.

(** All packets the session was given so far: those already handed up or
    freed, and those it still holds. *)
Definition held (s : ba_state) : list Z := map ev_pkt (trace s) ++ chain_pkts s.

(** The blocks in the pool and in the session list. *)
Definition blocks (s : ba_state) : nat :=
  (length (chain (mpdu_blk_pool s)) + length (chain (list_ (entry s))))%nat.

(** * Sequence arithmetic *)

Lemma land_MAXSEQ x : Z.land x MAXSEQ = x `mod` 4096.
Proof. change MAXSEQ with (Z.ones 12). by rewrite Z.land_ones. Qed.

Lemma land_half x : (Z.land x 2048 =? 0) = negb (Z.testbit x 11).
Proof.
  destruct (Z.testbit x 11) eqn:E; simpl.
  - apply Z.eqb_neq. intros H. apply (f_equal (λ y, Z.testbit y 11)) in H.
    rewrite Z.land_spec, E in H. done.
  - apply Z.eqb_eq. apply Z.bits_inj'. intros i Hi. rewrite Z.land_spec, Z.bits_0.
    destruct (decide (i = 11)) as [->|Hne]; [by rewrite E|].
    change 2048 with (2 ^ 11). rewrite Z.pow2_bits_false by lia. apply andb_false_r.
Qed.

Lemma SEQ_SMALLER_mod s1 s2 :
  SEQ_SMALLER s1 s2 MAXSEQ = (2048 <=? (s1 - s2) `mod` 4096).
Proof.
  unfold SEQ_SMALLER. change (Z.shiftr (MAXSEQ + 1) 1) with 2048.
  rewrite land_half, negb_involutive.
  rewrite <- (Z.mod_pow2_bits_low _ 12) by lia. change (2 ^ 12) with 4096.
  set (y := (s1 - s2) `mod` 4096).
  assert (0 ≤ y < 4096) by (apply Z.mod_pos_bound; lia).
  rewrite Z.testbit_eqb by lia. change (2 ^ 11) with 2048. zdm.
Qed.

Lemma smaller_unwrap a b :
  -2048 ≤ a - b < 2048 → SEQ_SMALLER (a `mod` 4096) (b `mod` 4096) MAXSEQ = (a <? b).
Proof.
  intros. rewrite SEQ_SMALLER_mod. rewrite <- Zminus_mod.
  zdm.
Qed.

Lemma eq_unwrap a b :
  -4096 < a - b < 4096 → (a `mod` 4096 =? b `mod` 4096) = (a =? b).
Proof. intros. zdm. Qed.

Lemma stepone_unwrap a b :
  -4096 < a - b - 1 < 4096 →
  SEQ_STEPONE (a `mod` 4096) (b `mod` 4096) MAXSEQ = (a =? b + 1).
Proof.
  intros. unfold SEQ_STEPONE. rewrite land_MAXSEQ, Zplus_mod_idemp_l. zdm.
Qed.

Lemma unwrap_range L q : L - 2048 ≤ unwrap L q ≤ L + 2047.
Proof. unfold unwrap. zdm. Qed.

Lemma unwrap_mod L q : 0 ≤ q < 4096 → unwrap L q `mod` 4096 = q.
Proof. intros. unfold unwrap. zdm. Qed.

(** * Closed forms of the flush loops *)

Lemma flushed_0 s : flushed 0 s = s.
Proof.
  destruct s as [[????????? [c0 q0]] [c q] t]; unfold flushed, set_list; simpl.
  by rewrite !Z.add_0_r, Z.sub_0_r, drop_0, app_nil_r.
Qed.

Lemma flushed_S n m c s :
  chain (list_ (entry s)) = m :: c → flushed n (flushed 1 s) = flushed (S n) s.
Proof.
  destruct s as [[????????? [c0 q0]] [pc q] t]; unfold flushed, set_list; simpl. intros ->. simpl.
  rewrite <- !app_assoc, drop_0. simpl. repeat (f_equal; try lia).
Qed.

Lemma wf_flushed n s :
  (n ≤ length (chain (list_ (entry s))))%nat → wf_state s → wf_state (flushed n s).
Proof.
  unfold wf_state, wf_list. intros Hn [H1 H2]. simpl.
  rewrite !length_app, length_rev, length_take, length_drop. split; lia.
Qed.

Lemma pop_announce_flushed m c s :
  wf_list (list_ (entry s)) → chain (list_ (entry s)) = m :: c →
  pop_announce s = Some (Sequence m, flushed 1 s).
Proof.
  intros Hwf Hc. unfold pop_announce, ba_reordering_mpdu_dequeue, ba_dequeue, flushed.
  unfold wf_list in Hwf. rewrite Hc in *. simpl in *.
  destruct (qlen _ =? 0) eqn:E; [lia|]. do 2 f_equal.
Qed.

Lemma chain_flushed n s :
  chain (list_ (entry (flushed n s))) = drop n (chain (list_ (entry s))).
Proof. done. Qed.

Lemma wf_flushed_1 m c s :
  wf_list (list_ (entry s)) → chain (list_ (entry s)) = m :: c →
  wf_list (list_ (entry (flushed 1 s))).
Proof.
  unfold wf_list. intros Hwf Hc. simpl. rewrite length_drop. rewrite Hc in *.
  simpl in *. lia.
Qed.

Lemma in_order_loop_drain Win fuel buf : ∀ L last s dd L' buf',
  (length buf ≤ fuel)%nat → Win ≤ 2047 →
  wf_list (list_ (entry s)) →
  map Sequence (chain (list_ (entry s))) = map (λ b, b `mod` 4096) buf →
  StronglySorted Z.lt buf → Forall (λ b, L + 1 ≤ b ≤ L + Win) buf →
  spec_drain L buf = (dd, (L', buf')) →
  in_order_loop fuel (L `mod` 4096) last s =
    (if decide (dd = []) then last else L' `mod` 4096, flushed (length dd) s).
Proof.
  revert buf. induction fuel as [|fuel IH]; intros buf L lst s dd L' buf' Hfuel HW Hwf Hc Hs Hf Hd.
  { destruct buf; [|simpl in *; lia]. simpl in *. simplify_eq. by rewrite flushed_0. }
  destruct buf as [|b r].
  { simpl in *. simplify_eq. unfold ba_reordering_mpdu_probe.
    destruct (chain _); [|done]. simpl. by rewrite flushed_0. }
  destruct (chain (list_ (entry s))) as [|m c] eqn:Ec; [done|].
  simpl in Hc. injection Hc as Hm Hc'. simpl.
  unfold ba_reordering_mpdu_probe. rewrite Ec. simpl. rewrite Hm.
  inversion Hs as [|?? Hr Hb]; inversion Hf as [|?? Hbf Hrf]; subst.
  rewrite stepone_unwrap by lia. simpl in Hd.
  destruct (b =? L + 1) eqn:E; simpl.
  - destruct (spec_drain b r) as [d2 [L2 r2]] eqn:E2. simplify_eq.
    rewrite (pop_announce_flushed m c) by done. rewrite Hm.
    erewrite IH; [..|exact E2].
    + simpl. rewrite flushed_S with (m := m) (c := c) by done.
      f_equal. repeat case_decide; try done. subst. simpl in E2.
      destruct r; simpl in E2; [by simplify_eq|]. repeat case_match; simplify_eq. done.
    + simpl in Hfuel. lia.
    + done.
    + by eapply wf_flushed_1.
    + by rewrite chain_flushed, Ec.
    + done.
    + apply Forall_forall. intros x Hx.
      rewrite Forall_forall in Hb, Hrf. specialize (Hb x Hx). specialize (Hrf x Hx).
      simpl in *. lia.
  - simplify_eq. by rewrite flushed_0.
Qed.

Lemma le_seq_loop_split Win fuel buf : ∀ L L1 s old keep,
  (length buf ≤ fuel)%nat → 0 ≤ Win ≤ 1024 → L ≤ L1 < L + 2048 →
  wf_list (list_ (entry s)) →
  map Sequence (chain (list_ (entry s))) = map (λ b, b `mod` 4096) buf →
  Forall (λ b, L + 1 ≤ b ≤ L + Win) buf →
  spec_split L1 buf = (old, keep) →
  le_seq_loop fuel (L1 `mod` 4096) s = flushed (length old) s.
Proof.
  revert buf. induction fuel as [|fuel IH]; intros buf L L1 s old keep Hfuel HW HL Hwf Hc Hf Hd.
  { destruct buf; [|simpl in *; lia]. simpl in *. simplify_eq. by rewrite flushed_0. }
  destruct buf as [|b r].
  { simpl in *. simplify_eq. unfold ba_reordering_mpdu_probe.
    destruct (chain _); [|done]. simpl. by rewrite flushed_0. }
  destruct (chain (list_ (entry s))) as [|m c] eqn:Ec; [done|].
  simpl in Hc. injection Hc as Hm Hc'. simpl.
  unfold ba_reordering_mpdu_probe. rewrite Ec. simpl. rewrite Hm.
  inversion Hf as [|?? Hbf Hrf]; subst.
  rewrite eq_unwrap, smaller_unwrap by lia. simpl in Hd.
  replace ((b =? L1) || (b <? L1)) with (b <=? L1) by lia.
  destruct (b <=? L1) eqn:E; simpl.
  - destruct (spec_split L1 r) as [o k] eqn:E2. simplify_eq.
    rewrite (pop_announce_flushed m c) by done.
    erewrite IH; [..|exact E2]; [|simpl in Hfuel; lia|exact HW|exact HL| | |done].
    + simpl. by rewrite flushed_S with (m := m) (c := c).
    + by eapply wf_flushed_1.
    + by rewrite chain_flushed, Ec.
  - simplify_eq. by rewrite flushed_0.
Qed.

(** * Insertion *)

Lemma insert_scan_spec s m c buf :
  Sequence m = s `mod` 4096 →
  map Sequence c = map (λ b, b `mod` 4096) buf →
  Forall (λ b, -2048 < b - s < 2048) buf →
  match insert_scan c m with
  | None => spec_insert s buf = buf
  | Some c' => map Sequence c' = map (λ b, b `mod` 4096) (spec_insert s buf)
  end.
Proof.
  intros Hm. revert buf. induction c as [|x c IH]; intros [|b r] Hc Hf; try done; simpl.
  { by rewrite Hm. }
  injection Hc as Hx Hc. inversion Hf as [|?? Hb Hr]; subst. simpl in Hb.
  rewrite Hx, Hm, smaller_unwrap by lia.
  destruct (b <? s) eqn:E1; [|rewrite eq_unwrap by lia; destruct (b =? s) eqn:E2].
  - specialize (IH r Hc Hr). destruct (insert_scan c m); simpl; [by f_equal|congruence].
  - done.
  - simpl. by rewrite Hm, Hx, Hc.
Qed.

Lemma insert_scan_perm c m c' : insert_scan c m = Some c' → Permutation (m :: c) c'.
Proof.
  revert c'. induction c as [|x c IH]; intros c'; simpl; [by intros [= <-]|].
  repeat case_match; try done; [|by intros [= <-]].
  destruct (insert_scan c m) as [c2|] eqn:E; [|done]. intros [= <-].
  rewrite <- (IH c2 eq_refl). apply Permutation_swap.
Qed.

Lemma enqueue_insert rx s :
  RX_BLK_TEST_FLAG rx fRX_EAP = false →
  wf_list (mpdu_blk_pool s) → chain (mpdu_blk_pool s) ≠ [] →
  let m := mk_mpdu (rx_pPacket rx) (rx_Sequence rx)
             (RX_BLK_TEST_FLAG rx fRX_AMSDU) (rx_OpMode rx) in
  let pool := mk_list (tail (chain (mpdu_blk_pool s))) (qlen (mpdu_blk_pool s) - 1) in
  ba_enqueue_reordering_packet rx s =
    match insert_scan (chain (list_ (entry s))) m with
    | Some c => mk_state (set_list (entry s) (mk_list c (qlen (list_ (entry s)) + 1)))
                  pool (trace s)
    | None => mk_state (entry s) (ba_enqueue pool m) (trace s ++ [Free (rx_pPacket rx)])
    end.
Proof.
  intros He Hwf Hne m pool. unfold ba_enqueue_reordering_packet, ba_mpdu_blk_alloc, ba_dequeue.
  unfold wf_list in Hwf. destruct (chain (mpdu_blk_pool s)) as [|b k] eqn:Ep; [done|].
  simpl in Hwf. destruct (qlen _ =? 0) eqn:E; [lia|]. rewrite He. simpl.
  unfold ba_reordering_mpdu_insertsorted. by destruct (insert_scan _ _).
Qed.

Lemma delivered_app t1 t2 :
  delivered_seqs (t1 ++ t2) = delivered_seqs t1 ++ delivered_seqs t2.
Proof. apply omap_app. Qed.

Lemma delivered_announce c : delivered_seqs (map Announce c) = map Sequence c.
Proof. induction c as [|m c IH]; [done|]. cbn. f_equal. apply IH. Qed.

Lemma indicate_trace rx s :
  ∃ p, INDICATE_LEGACY_OR_AMSDU rx s = emit (Indicate p rx) s.
Proof. unfold INDICATE_LEGACY_OR_AMSDU. repeat case_match; by eexists. Qed.

(** What [flushed] does to the abstract buffer. *)
Lemma flushed_seqs s old keep :
  map Sequence (chain (list_ (entry s))) = map (λ b, b `mod` 4096) (old ++ keep) →
  delivered_seqs (trace (flushed (length old) s)) =
    delivered_seqs (trace s) ++ map (λ b, b `mod` 4096) old ∧
  map Sequence (chain (list_ (entry (flushed (length old) s)))) =
    map (λ b, b `mod` 4096) keep.
Proof.
  intros Hc. simpl. rewrite delivered_app, delivered_announce.
  rewrite <- firstn_map, <- skipn_map, Hc, map_app.
  rewrite take_app_length', drop_app_length' by (by rewrite length_map). done.
Qed.

(** * Refinement of the abstract machine *)

Section Refine.
Context (Win : Z) (HWin : 1 ≤ Win ≤ 1024).

Lemma in_order_refines L buf s dd L' buf' :
  refines Win L buf (entry s) →
  StronglySorted Z.lt buf → Forall (λ b, L + 1 ≤ b ≤ L + Win) buf →
  spec_drain L buf = (dd, (L', buf')) →
  let '(r, s1) := ba_indicate_reordering_mpdus_in_order (L `mod` 4096) s in
  let s2 := if negb (r =? RESET_RCV_SEQ) then upd_entry (λ e, set_LastIndSeq e r) s1
            else s1 in
  refines Win L' buf' (entry s2) ∧
  delivered_seqs (trace s2) = delivered_seqs (trace s) ++ map (λ b, b `mod` 4096) dd ∧
  mpdu_blk_pool s2 = mpdu_blk_pool (flushed (length dd) s) ∧
  chain (list_ (entry s2)) = drop (length dd) (chain (list_ (entry s))).
Proof using HWin.
  intros (H1 & H2 & H3 & H4) Hs Hf Hd.
  destruct (spec_drain_inv _ _ _ _ _ _ Hd Hs Hf) as (_ & _ & Hbuf & _ & HL).
  unfold ba_indicate_reordering_mpdus_in_order.
  assert (Hlen : length (chain (list_ (entry s))) = length buf).
  { apply (f_equal length) in H3. by rewrite !length_map in H3. }
  erewrite in_order_loop_drain with (Win := Win) (buf := buf);
    [|lia|lia|done|done|done|done|exact Hd].
  rewrite Hbuf in H3. destruct (flushed_seqs s dd buf' H3) as [Ht Hc].
  assert (Hwf : wf_list (list_ (entry (flushed (length dd) s)))).
  { unfold wf_list in *. simpl. rewrite length_drop, H4, Hlen, Hbuf, length_app. lia. }
  case_decide as Hdd.
  - subst dd. simpl in HL. subst L'. rewrite flushed_0 in *. simpl.
    rewrite drop_0. by repeat split.
  - replace (negb _) with true by (unfold RESET_RCV_SEQ; zdm).
    simpl. repeat split; try done.
Qed.

Lemma le_seq_refines L L1 buf s old keep :
  refines Win L buf (entry s) → Forall (λ b, L + 1 ≤ b ≤ L + Win) buf →
  L ≤ L1 < L + 2048 → spec_split L1 buf = (old, keep) → buf = old ++ keep →
  ba_indicate_reordering_mpdus_le_seq (L1 `mod` 4096) s = flushed (length old) s ∧
  wf_list (list_ (entry (flushed (length old) s))).
Proof using HWin.
  intros (H1 & H2 & H3 & H4) Hf HL Hd Hbuf.
  assert (Hlen : length (chain (list_ (entry s))) = length buf).
  { apply (f_equal length) in H3. by rewrite !length_map in H3. }
  split.
  - unfold ba_indicate_reordering_mpdus_le_seq.
    eapply (le_seq_loop_split Win); [..|exact Hd]; try done; try lia.
  - unfold wf_list in *. simpl. rewrite length_drop, H4, Hlen, Hbuf, length_app. lia.
Qed.

(** Buffering a frame inserts it into the abstract buffer. *)
Lemma enqueue_refines L buf rx s q :
  refines Win L buf (entry s) → Forall (λ b, L + 1 ≤ b ≤ L + Win) buf →
  L + 1 ≤ q ≤ L + 2047 → rx_Sequence rx = q `mod` 4096 →
  RX_BLK_TEST_FLAG rx fRX_EAP = false →
  wf_list (mpdu_blk_pool s) → chain (mpdu_blk_pool s) ≠ [] →
  let s' := ba_enqueue_reordering_packet rx s in
  refines Win L (spec_insert q buf) (entry s') ∧
  delivered_seqs (trace s') = delivered_seqs (trace s) ∧
  wf_list (mpdu_blk_pool s') ∧
  (length (chain (mpdu_blk_pool s')) + length (chain (list_ (entry s'))) =
   length (chain (mpdu_blk_pool s)) + length (chain (list_ (entry s))))%nat.
Proof using HWin.
  intros (H1 & H2 & H3 & H4) Hf Hq Hrx He Hwf Hne.
  rewrite enqueue_insert by done.
  set (m := mk_mpdu _ _ _ _).
  pose proof (insert_scan_spec q m (chain (list_ (entry s))) buf Hrx H3) as Hins.
  destruct (insert_scan _ m) as [c|] eqn:E; simpl.
  - apply insert_scan_perm in E. apply Permutation_length in E. simpl in E.
    destruct (chain (mpdu_blk_pool s)) as [|p0 pool] eqn:Ep; [done|]. simpl.
    unfold refines, wf_list in *. simpl. rewrite Ep in Hwf. simpl in Hwf.
    rewrite Hins by (eapply Forall_impl; [exact Hf|]; simpl; lia).
    repeat split; try done; lia.
  - rewrite Hins by (eapply Forall_impl; [exact Hf|]; simpl; lia).
    destruct (chain (mpdu_blk_pool s)) as [|p0 pool] eqn:Ep; [done|]. simpl.
    unfold wf_list in *. simpl. rewrite Ep in Hwf. simpl in Hwf.
    rewrite delivered_app, app_nil_r. repeat split; try done. lia.
Qed.

Lemma flushed_pool n s :
  (n ≤ length (chain (list_ (entry s))))%nat → wf_list (mpdu_blk_pool s) →
  wf_list (mpdu_blk_pool (flushed n s)) ∧
  (length (chain (mpdu_blk_pool (flushed n s))) =
   n + length (chain (mpdu_blk_pool s)))%nat.
Proof.
  unfold wf_list. intros Hn Hwf. simpl. rewrite length_app, length_rev, length_take. lia.
Qed.

(** The relation kept by a step that hands up [out]. *)
Definition step_ok (L' : Z) (buf' out : list Z) (s s' : ba_state) : Prop :=
  refines Win L' buf' (entry s') ∧
  delivered_seqs (trace s') = delivered_seqs (trace s) ++ map (λ b, b `mod` 4096) out ∧
  wf_list (mpdu_blk_pool s') ∧ blocks s' = blocks s.

(** Draining with the update of [LastIndSeq], as a step of its own. *)
Lemma in_order_step L buf s dd L' buf' :
  refines Win L buf (entry s) → wf_list (mpdu_blk_pool s) →
  StronglySorted Z.lt buf → Forall (λ b, L + 1 ≤ b ≤ L + Win) buf →
  spec_drain L buf = (dd, (L', buf')) →
  let '(r, s1) := ba_indicate_reordering_mpdus_in_order (L `mod` 4096) s in
  step_ok L' buf' dd s
    (if negb (r =? RESET_RCV_SEQ) then upd_entry (λ e, set_LastIndSeq e r) s1 else s1).
Proof using HWin.
  intros Href Hwf Hs Hf Hd.
  pose proof (in_order_refines L buf s dd L' buf' Href Hs Hf Hd) as Hio.
  assert (Hdd : (length dd ≤ length (chain (list_ (entry s))))%nat).
  { destruct Href as (_ & _ & Hc & _).
    apply (f_equal length) in Hc. rewrite !length_map in Hc. rewrite Hc.
    eapply spec_drain_inv in Hd as (_ & _ & -> & _); [|done..].
    rewrite length_app. lia. }
  destruct (ba_indicate_reordering_mpdus_in_order _ _) as [r s1].
  destruct Hio as (R1 & R2 & R3 & R4).
  destruct (flushed_pool (length dd) s) as [P1 P2]; [done|done|].
  unfold step_ok, blocks. rewrite R3, R4, P2, length_drop.
  repeat split; try done; try apply R1. lia.
Qed.

Lemma step_ok_trans L1 buf1 out1 L2 buf2 out2 s s1 s2 :
  step_ok L1 buf1 out1 s s1 → step_ok L2 buf2 out2 s1 s2 →
  step_ok L2 buf2 (out1 ++ out2) s s2.
Proof.
  intros (_ & H1 & _ & H2) (H3 & H4 & H5 & H6). unfold step_ok.
  rewrite H4, H1, H6, H2, map_app, app_assoc. done.
Qed.

(** Case I: the next frame, then the run behind it. *)
Lemma step_next L buf rx p now s dd L' buf' :
  refines Win L buf (entry s) → spec_buf Win L buf →
  wf_list (mpdu_blk_pool s) → rx_Sequence rx = (L + 1) `mod` 4096 →
  spec_drain (L + 1) buf = (dd, (L', buf')) →
  let s1 := emit (Indicate p rx) (upd_entry (λ e, set_LastIndSeq e (rx_Sequence rx)) s) in
  let '(r, s2) := ba_indicate_reordering_mpdus_in_order (LastIndSeq (entry s1)) s1 in
  step_ok L' buf' (L + 1 :: dd) s
    (upd_entry (λ e, set_Timer e now)
      (if negb (r =? RESET_RCV_SEQ) then upd_entry (λ e, set_LastIndSeq e r) s2 else s2)).
Proof using HWin.
  intros (HW & HL & Hc & Hl) [Hs Hf] Hwf Hrx Hd s1.
  assert (Hf1 : Forall (λ b, L + 1 + 1 ≤ b ≤ L + 1 + Win) buf)
    by (eapply Forall_impl; [exact Hf|]; simpl; lia).
  assert (R1 : step_ok (L + 1) buf [L + 1] s s1).
  { unfold step_ok, blocks. simpl. rewrite delivered_app. cbn. rewrite Hrx.
    by repeat split. }
  pose proof (in_order_step (L + 1) buf s1 dd L' buf' (proj1 R1)) as R2.
  change (LastIndSeq (entry s1)) with (rx_Sequence rx). rewrite Hrx.
  destruct (ba_indicate_reordering_mpdus_in_order _ _) as [r s2].
  specialize (R2 Hwf Hs Hf1 Hd).
  pose proof (step_ok_trans _ _ _ _ _ _ _ _ _ R1 R2) as R. exact R.
Qed.

(** Case V: slide the window so that the frame is its last one. *)
Lemma step_slide L buf rx now s q old keep dd L' buf' :
  refines Win L buf (entry s) → spec_buf Win L buf → plain_rx rx →
  wf_list (mpdu_blk_pool s) → chain (mpdu_blk_pool s) ≠ [] →
  rx_Sequence rx = q `mod` 4096 → L + Win < q ≤ L + 2047 →
  spec_split (q - Win) buf = (old, keep) →
  spec_drain (q - Win) (spec_insert q keep) = (dd, (L', buf')) →
  let s1 := ba_indicate_reordering_mpdus_le_seq ((q - Win) `mod` 4096) s in
  let s2 := upd_entry (λ e, set_Timer (set_LastIndSeq e ((q - Win) `mod` 4096)) now) s1 in
  let s3 := ba_enqueue_reordering_packet rx s2 in
  let '(r, s4) := ba_indicate_reordering_mpdus_in_order (LastIndSeq (entry s3)) s3 in
  step_ok L' buf' (old ++ dd) s
    (if negb (r =? RESET_RCV_SEQ) then upd_entry (λ e, set_LastIndSeq e r) s4 else s4).
Proof using HWin.
  intros Href [Hs Hf] [Hrx He] Hwf Hne Hq Hrange Esp Ed.
  pose proof Href as (HW & HL & Hc & Hl).
  destruct (spec_split_inv Win _ L _ _ _ Esp Hs Hf) as (Hbuf & Ho & Hks & Hkf).
  destruct (le_seq_refines L (q - Win) buf s old keep) as [-> Hwf1]; [done| |lia|done|done|].
  { eapply Forall_impl; [exact Hf|]; simpl; lia. }
  cbv zeta. set (s2 := upd_entry _ _).
  assert (Hk : Forall (λ b, q - Win + 1 ≤ b ≤ q - Win + Win) keep)
    by (eapply Forall_impl; [exact Hkf|]; simpl; lia).
  assert (Hold : (length old ≤ length (chain (list_ (entry s))))%nat).
  { apply (f_equal length) in Hc. rewrite !length_map in Hc.
    rewrite Hc, Hbuf, length_app. lia. }
  destruct (flushed_pool _ _ Hold Hwf) as [P1 P2].
  rewrite Hbuf in Hc. destruct (flushed_seqs s old keep Hc) as [F1 F2].
  assert (R1 : step_ok (q - Win) keep old s s2).
  { unfold step_ok, blocks. simpl in *. repeat split; try done.
    rewrite P2, length_drop. lia. }
  destruct (enqueue_refines (q - Win) keep rx s2 q) as (R2 & R3 & R4 & R5);
    [apply R1|done|lia|done|done|done| |].
  { simpl in *. intros Hnil. rewrite Hnil in P2. simpl in P2.
    destruct (chain (mpdu_blk_pool s)); [done|]. simpl in P2. lia. }
  set (s3 := ba_enqueue_reordering_packet rx s2) in *.
  assert (R6 : step_ok (q - Win) (spec_insert q keep) [] s2 s3).
  { unfold step_ok, blocks. rewrite app_nil_r. done. }
  pose proof (in_order_step (q - Win) (spec_insert q keep) s3 dd L' buf' R2 R4) as R7.
  destruct R2 as (_ & -> & _ & _).
  destruct (ba_indicate_reordering_mpdus_in_order _ _) as [r s4].
  specialize (R7 (spec_insert_sorted _ _ Hks)).
  pose proof (step_ok_trans _ _ _ _ _ _ _ _ _ R1
    (step_ok_trans _ _ _ _ _ _ _ _ _ R6 (R7 ltac:(apply spec_insert_Forall; [lia|done]) Ed))) as R.
  exact R.
Qed.

(** One received frame, against one step of the abstract machine. *)
Lemma reorder_step L buf rx now s out L' buf' :
  refines Win L buf (entry s) → spec_buf Win L buf → plain_rx rx →
  wf_list (mpdu_blk_pool s) → chain (mpdu_blk_pool s) ≠ [] →
  spec_rx Win (unwrap L (rx_Sequence rx)) (L, buf) = (out, (L', buf')) →
  step_ok L' buf' out s (reorder_cases rx now s).
Proof using HWin.
  intros Href Hsb Hplain Hwf Hne.
  pose proof (unwrap_range L (rx_Sequence rx)) as Hq.
  pose proof (unwrap_mod L (rx_Sequence rx) (proj1 Hplain)) as Hqm.
  set (q := unwrap L (rx_Sequence rx)) in *. clearbody q.
  pose proof Href as (HW & HL & Hc & Hl).
  unfold spec_rx, reorder_cases. rewrite <- Hqm, HL, HW.
  rewrite stepone_unwrap, eq_unwrap, smaller_unwrap, !land_MAXSEQ by lia.
  rewrite <- Z.add_assoc, Zplus_mod_idemp_l, Z.add_assoc.
  destruct (q <=? L) eqn:E1.
  { replace (q =? L + 1) with false by lia. intros [= <- <- <-].
    replace (if q =? L then _ else _)
      with (emit (Free (rx_pPacket rx)) (upd_entry inc_nDropPacket s))
      by (destruct (q =? L) eqn:E; [done|]; by replace (q <? L) with true by lia).
    unfold step_ok, blocks. simpl. rewrite delivered_app, !app_nil_r.
    by repeat split. }
  destruct (q =? L + 1) eqn:E2.
  { assert (q = L + 1) as -> by lia.
    destruct (spec_drain (L + 1) buf) as [dd [L2 r2]] eqn:Ed. intros [= <- <- <-].
    rewrite Hqm. set (s1 := upd_entry _ s). destruct (indicate_trace rx s1) as [p ->].
    pose proof (step_next L buf rx p now s dd L2 r2 Href Hsb Hwf (eq_sym Hqm) Ed) as R.
    cbv zeta in R. subst s1. by destruct (ba_indicate_reordering_mpdus_in_order _ _). }
  replace (q =? L) with false by lia. replace (q <? L) with false by lia.
  rewrite smaller_unwrap by lia.
  replace (q <? L + Win + 1) with (q <=? L + Win) by lia.
  destruct (q <=? L + Win) eqn:E3.
  { intros [= <- <- <-]. unfold step_ok, blocks. rewrite app_nil_r.
    destruct Hsb as [_ Hf]. destruct Hplain.
    apply enqueue_refines; try done; try lia.
    eapply Forall_impl; [exact Hf|]; simpl; lia. }
  destruct (spec_split (q - Win) buf) as [old keep] eqn:Esp.
  destruct (spec_drain (q - Win) (spec_insert q keep)) as [dd [L2 r2]] eqn:Ed.
  intros [= <- <- <-].
  pose proof (step_slide L buf rx now s q old keep dd L2 r2 Href Hsb Hplain Hwf Hne
    (eq_sym Hqm) ltac:(lia) Esp Ed) as R.
  cbv zeta in R. rewrite Hqm.
  replace ((_ + 1) `mod` 4096) with ((q - Win) `mod` 4096)
    by (rewrite <- Hqm; unfold MAXSEQ; destruct (_ <? 0); zdm).
  by destruct (ba_indicate_reordering_mpdus_in_order _ _).
Qed.

Lemma window_length L buf :
  spec_buf Win L buf → Z.of_nat (length buf) < Win.
Proof using HWin.
  intros [Hs Hf]. assert (H : ∀ lo hi l, StronglySorted Z.lt l →
    Forall (λ b, lo ≤ b ≤ hi) l → lo ≤ hi + 1 → Z.of_nat (length l) ≤ hi - lo + 1).
  { clear. intros lo hi l Hs. revert lo. induction Hs as [|x l Hs IH Hx]; intros lo Hf Hlo; simpl; [lia|].
    inversion Hf as [|?? H1 H2]; subst. cut (Z.of_nat (length l) ≤ hi - (x + 1) + 1); [lia|].
    apply IH; [|lia]. apply Forall_forall. intros y Hy.
    rewrite Forall_forall in Hx, H2. specialize (Hx y Hy). specialize (H2 y Hy). simpl in *. lia. }
  specialize (H (L + 2) (L + Win) buf Hs Hf ltac:(lia)). lia.
Qed.

(** A run of received frames is a run of the abstract machine: the pool
    never runs dry when it starts with a window of blocks. *)
Lemma reorder_run_refines rxs : ∀ d L buf s out L' buf',
  refines Win L buf (entry s) → spec_inv Win d L buf →
  Forall (λ r, plain_rx r.2) rxs → wf_list (mpdu_blk_pool s) →
  Win ≤ Z.of_nat (blocks s) →
  spec_run Win (map (λ r, rx_Sequence r.2) rxs) (L, buf) = (out, (L', buf')) →
  step_ok L' buf' out s (reorder_run rxs s) ∧
  Sorted later (d :: out) ∧ spec_inv Win (default d (last out)) L' buf'.
Proof using HWin.
  induction rxs as [|[now rx] rxs IH]; intros d L buf s out L' buf' Href Hinv Hp Hwf Hb.
  { intros [= <- <- <-]. unfold step_ok. rewrite app_nil_r. simpl.
    conjs; try done; try apply Hinv. by repeat constructor. }
  cbn [map spec_run fst snd].
  destruct (spec_rx _ _ _) as [o1 [L1 b1]] eqn:E1.
  destruct (spec_run _ _ _) as [o2 st2] eqn:E2. intros [= <- ->].
  apply Forall_cons in Hp as [Hrx Hp].
  assert (Hlen : length (chain (list_ (entry s))) = length buf).
  { destruct Href as (_ & _ & H & _). apply (f_equal length) in H.
    by rewrite !length_map in H. }
  pose proof (window_length L buf (proj1 Hinv)).
  pose proof (reorder_step L buf rx now s o1 L1 b1 Href (proj1 Hinv) Hrx Hwf) as R1.
  apply R1 in E1 as R2; clear R1.
  2: { intros Hnil. unfold blocks in Hb. rewrite Hnil, Hlen in Hb. simpl in Hb. lia. }
  destruct (spec_rx_inv Win HWin _ d _ _ _ _ _ Hinv (unwrap_range L _) E1) as [S1 I1].
  pose proof R2 as (Q1 & _ & Q3 & Q4).
  destruct (IH (default d (last o1)) L1 b1 (reorder_cases rx now s) o2 L' buf') as (R3 & S2 & I2);
    try done; [by rewrite Q4|].
  conjs.
  - eapply step_ok_trans; [exact R2|exact R3].
  - by apply Sorted_later_app.
  - rewrite last_app. by destruct (last o2).
Qed.
End Refine.

(** The window order on 12-bit numbers, from the order on integers. *)
Lemma later_smaller a b :
  later a b → SEQ_SMALLER (a `mod` 4096) (b `mod` 4096) MAXSEQ = true.
Proof. unfold later. intros. rewrite smaller_unwrap by lia. lia. Qed.

Lemma Sorted_later_mod xs :
  Sorted later xs →
  Sorted (λ a b, SEQ_SMALLER a b MAXSEQ = true) (map (λ b, b `mod` 4096) xs).
Proof.
  induction 1 as [|x xs Hs IH Hx]; simpl; constructor; [done|].
  destruct Hx; simpl; constructor. by apply later_smaller.
Qed.

(** * Every branch: packets, blocks and well-formedness

    These hold for any chain, sorted or not: each flush loop announces a
    prefix of the chain and stops on its own condition. *)

Lemma in_order_loop_general fuel : ∀ start lst s,
  wf_list (list_ (entry s)) → (length (chain (list_ (entry s))) ≤ fuel)%nat →
  ∃ n, (n ≤ length (chain (list_ (entry s))))%nat ∧
    let '(r, s') := in_order_loop fuel start lst s in
    s' = flushed n s ∧
    (n = O → r = lst) ∧
    match head (chain (list_ (entry s'))) with
    | None => True
    | Some m => SEQ_STEPONE (Sequence m) (if decide (n = O) then start else r) MAXSEQ = false
    end.
Proof.
  induction fuel as [|fuel IH]; intros start lst s Hwf Hl.
  { exists O. simpl. rewrite flushed_0. destruct (chain _); [done|simpl in *; lia]. }
  simpl. unfold ba_reordering_mpdu_probe.
  destruct (chain (list_ (entry s))) as [|m c] eqn:Ec; simpl.
  { exists O. rewrite flushed_0, Ec. done. }
  destruct (SEQ_STEPONE _ _ _) eqn:E; simpl.
  2: { exists O. rewrite flushed_0, Ec. simpl. split; [lia|done]. }
  rewrite (pop_announce_flushed m c) by done.
  destruct (IH (Sequence m) (Sequence m) (flushed 1 s)) as (n & Hn & H).
  { by eapply wf_flushed_1. } { rewrite chain_flushed, Ec. simpl in *. rewrite drop_0. lia. }
  exists (S n). rewrite chain_flushed, Ec in Hn. simpl in Hn. rewrite drop_0 in Hn.
  split; [lia|]. destruct (in_order_loop _ _ _ _) as [r s'].
  destruct H as (-> & Hr & Hh). rewrite <- (flushed_S n m c) by done.
  conjs; [done|done|].
  destruct (head _); [|done]. destruct (decide (S n = O)); [done|].
  destruct (decide (n = O)); [|done]. by rewrite Hr.
Qed.

Lemma in_order_loop_trace fuel : ∀ start lst s,
  let '(r, s') := in_order_loop fuel start lst s in
  (length (trace s) ≤ length (trace s'))%nat ∧
  (length (trace s') = length (trace s) → r = lst).
Proof.
  induction fuel as [|fuel IH]; intros start lst s; simpl; [done|].
  unfold ba_reordering_mpdu_probe, pop_announce, ba_reordering_mpdu_dequeue, ba_dequeue.
  destruct (chain (list_ (entry s))) as [|m c] eqn:Ec; simpl; [done|].
  destruct (negb _); [done|]. destruct (qlen _ =? 0); [done|].
  set (s1 := ba_mpdu_blk_free _ _). specialize (IH (Sequence m) (Sequence m) s1).
  destruct (in_order_loop _ _ _ _) as [r s']. simpl in IH. rewrite length_app in IH.
  simpl in IH. split; lia.
Qed.

Lemma in_order_loop_same fuel start lst s r :
  in_order_loop fuel start lst s = (r, s) → r = lst.
Proof.
  intros H. pose proof (in_order_loop_trace fuel start lst s) as H1.
  rewrite H in H1. by apply H1.
Qed.

(** The returned number is the initial one with nothing done, or that of an
    announced block. *)
Lemma in_order_loop_result fuel : ∀ start lst s,
  Forall (λ m, 0 ≤ Sequence m < 4096) (chain (list_ (entry s))) →
  let '(r, s') := in_order_loop fuel start lst s in s' = s ∨ 0 ≤ r < 4096.
Proof.
  induction fuel as [|fuel IH]; intros start lst s Hf; simpl; [by left|].
  unfold ba_reordering_mpdu_probe, pop_announce, ba_reordering_mpdu_dequeue, ba_dequeue.
  destruct (chain (list_ (entry s))) as [|m c] eqn:Ec; simpl; [by left|].
  apply Forall_cons in Hf as [Hm Hf].
  destruct (negb _); [by left|]. destruct (qlen _ =? 0); [by left|].
  set (s1 := ba_mpdu_blk_free _ _).
  specialize (IH (Sequence m) (Sequence m) s1 Hf).
  destruct (in_order_loop fuel (Sequence m) (Sequence m) s1) as [r s'] eqn:E. right.
  destruct IH as [->|]; [|done].
  by apply in_order_loop_same in E as ->.
Qed.

Lemma le_seq_loop_general fuel : ∀ q s,
  wf_list (list_ (entry s)) → (length (chain (list_ (entry s))) ≤ fuel)%nat →
  ∃ n, (n ≤ length (chain (list_ (entry s))))%nat ∧
    le_seq_loop fuel q s = flushed n s ∧
    Forall (λ m, (Sequence m =? q) || SEQ_SMALLER (Sequence m) q MAXSEQ = true)
      (take n (chain (list_ (entry s)))) ∧
    match head (drop n (chain (list_ (entry s)))) with
    | None => True
    | Some m => (Sequence m =? q) || SEQ_SMALLER (Sequence m) q MAXSEQ = false
    end.
Proof.
  induction fuel as [|fuel IH]; intros q s Hwf Hl.
  { exists O. simpl. rewrite flushed_0. destruct (chain _); [done|simpl in *; lia]. }
  simpl. unfold ba_reordering_mpdu_probe.
  destruct (chain (list_ (entry s))) as [|m c] eqn:Ec; simpl.
  { exists O. by rewrite flushed_0. }
  destruct (_ || _) eqn:E; simpl.
  2: { exists O. rewrite flushed_0. simpl. split; [lia|done]. }
  rewrite (pop_announce_flushed m c) by done.
  destruct (IH q (flushed 1 s)) as (n & Hn & H1 & H2 & H3).
  { by eapply wf_flushed_1. } { rewrite chain_flushed, Ec. simpl in *. rewrite drop_0. lia. }
  rewrite chain_flushed, Ec in Hn, H2, H3. simpl in Hn, H2, H3. rewrite drop_0 in Hn, H2, H3.
  exists (S n). rewrite <- (flushed_S n m c), H1 by done.
  conjs; [lia|done|by constructor|done].
Qed.
