(* ===== verification/BaReorderClaims.v ===== *)
(** What the reordering code of [BaReorder] guarantees: the session refines
    the abstract machine and hands frames up in order, every packet and every
    pool block is accounted for on every branch, the flush loops stop on
    their own condition, and the timeouts. *)

From stdpp Require Import sorting.
From S2P Require Import Prelude BaReorder BaReorderSpec BaReorderProofs.

(** * Conservation *)

(** From [s] to [s'] the session took in the packets [pkts] and lost at most
    [leak] pool blocks. *)
Definition conserves (pkts : list Z) (leak : nat) (s s' : ba_state) : Prop :=
  wf_state s' ∧ held s' ≡ₚ pkts ++ held s ∧
  (blocks s' ≤ blocks s ≤ blocks s' + leak)%nat.

Definition leak_of (rx : RX_BLK) : nat :=
  if RX_BLK_TEST_FLAG rx fRX_EAP then 1%nat else O.

Lemma conserves_refl s : wf_state s → conserves [] 0 s s.
Proof. intros. split; [done|]. simpl. split; [done|lia]. Qed.

Lemma conserves_trans p1 k1 p2 k2 s1 s2 s3 :
  conserves p1 k1 s1 s2 → conserves p2 k2 s2 s3 →
  conserves (p2 ++ p1) (k1 + k2) s1 s3.
Proof.
  intros (_ & H1 & H2) (H3 & H4 & H5). split; [done|].
  rewrite H4, H1, app_assoc. split; [done|lia].
Qed.

Lemma conserves_flushed n s :
  wf_state s → (n ≤ length (chain (list_ (entry s))))%nat →
  conserves [] 0 s (flushed n s).
Proof.
  intros Hwf Hn. split; [by apply wf_flushed|]. unfold held, chain_pkts, blocks. simpl.
  rewrite !length_app, length_rev, length_take, length_drop. split; [|lia].
  rewrite map_app, map_map. simpl. rewrite <- app_assoc. f_equiv.
  change (λ x, ev_pkt (Announce x)) with pPacket.
  by rewrite <- map_app, take_drop.
Qed.

(** The setters of the session entry leave list, pool and trace alone. *)
Definition quiet (f : BA_REC_ENTRY → BA_REC_ENTRY) : Prop :=
  ∀ e, list_ (f e) = list_ e.

Lemma conserves_quiet f p k s s' :
  quiet f → conserves p k s s' → conserves p k s (upd_entry f s').
Proof.
  intros Hf. unfold conserves, wf_state, held, chain_pkts, blocks. simpl.
  by rewrite Hf.
Qed.

Lemma in_order_conserves q s :
  wf_state s → conserves [] 0 s (ba_indicate_reordering_mpdus_in_order q s).2.
Proof.
  intros [H1 H2]. unfold ba_indicate_reordering_mpdus_in_order.
  destruct (in_order_loop_general _ q RESET_RCV_SEQ s H1 (le_n _)) as (n & Hn & H).
  destruct (in_order_loop _ _ _ _) as [r s']. destruct H as [-> _].
  by apply conserves_flushed.
Qed.

Lemma le_seq_conserves q s :
  wf_state s → conserves [] 0 s (ba_indicate_reordering_mpdus_le_seq q s).
Proof.
  intros [H1 H2]. unfold ba_indicate_reordering_mpdus_le_seq.
  destruct (le_seq_loop_general _ q s H1 (le_n _)) as (n & Hn & -> & _).
  by apply conserves_flushed.
Qed.

Lemma refresh_loop_flushed fuel : ∀ s,
  wf_list (list_ (entry s)) → length (chain (list_ (entry s))) = fuel →
  ∃ q, refresh_loop fuel s = upd_entry (λ e, set_LastIndSeq e q) (flushed fuel s).
Proof.
  induction fuel as [|fuel IH]; intros s Hwf Hl.
  { exists (LastIndSeq (entry s)). rewrite flushed_0. by destruct s as [[] ? ?]. }
  destruct (chain (list_ (entry s))) as [|m c] eqn:Ec; [done|]. simpl.
  rewrite (pop_announce_flushed m c) by done.
  destruct (IH (upd_entry (λ e, set_LastIndSeq e (Sequence m)) (flushed 1 s))) as [q ->].
  - by eapply wf_flushed_1.
  - simpl. rewrite Ec. simpl in *. rewrite drop_0. lia.
  - exists q. by rewrite <- (flushed_S fuel m c).
Qed.

Lemma refresh_flushed s :
  wf_list (list_ (entry s)) →
  ba_refresh_reordering_mpdus s =
    upd_entry (λ e, set_LastIndSeq e RESET_RCV_SEQ)
      (flushed (length (chain (list_ (entry s)))) s).
Proof.
  intros Hwf. unfold ba_refresh_reordering_mpdus.
  by destruct (refresh_loop_flushed _ s Hwf eq_refl) as [q ->].
Qed.

Lemma refresh_conserves s : wf_state s → conserves [] 0 s (ba_refresh_reordering_mpdus s).
Proof.
  intros [H1 H2]. rewrite refresh_flushed by done.
  apply conserves_quiet; [by intros []|]. by apply conserves_flushed.
Qed.

Lemma indicate_conserves rx s :
  wf_state s → conserves [rx_pPacket rx] 0 s (INDICATE_LEGACY_OR_AMSDU rx s).
Proof.
  intros Hwf. destruct (indicate_trace rx s) as [p ->].
  split; [done|]. unfold held, chain_pkts, blocks. simpl. rewrite map_app. simpl.
  split; [|lia]. rewrite <- app_assoc. symmetry. apply Permutation_middle.
Qed.

Lemma free_conserves p s : wf_state s → conserves [p] 0 s (emit (Free p) s).
Proof.
  intros Hwf. split; [done|]. unfold held, chain_pkts, blocks. simpl. rewrite map_app. simpl.
  split; [|lia]. rewrite <- app_assoc. symmetry. apply Permutation_middle.
Qed.

(** The tail of [ba_enqueue_reordering_packet] that bypasses the list. *)
Lemma bypass_conserves q rx s :
  wf_state s →
  conserves [rx_pPacket rx] 0 s
    (INDICATE_LEGACY_OR_AMSDU rx
      (upd_entry (λ e, set_LastIndSeq e q) (ba_indicate_reordering_mpdus_le_seq q s))).
Proof.
  intros Hwf. pose proof (le_seq_conserves q s Hwf) as H1.
  apply (conserves_quiet (λ e, set_LastIndSeq e q)) in H1; [|by intros []].
  exact (conserves_trans _ _ _ _ _ _ _ H1 (indicate_conserves rx _ (proj1 H1))).
Qed.

Lemma conserves_weaken p k1 k2 s s' :
  (k1 ≤ k2)%nat → conserves p k1 s s' → conserves p k2 s s'.
Proof. intros ? (H1 & H2 & H3). split; [done|]. split; [done|lia]. Qed.

Lemma enqueue_conserves rx s :
  wf_state s →
  conserves [rx_pPacket rx] (leak_of rx) s (ba_enqueue_reordering_packet rx s).
Proof.
  intros [H1 H2]. destruct (RX_BLK_TEST_FLAG rx fRX_EAP) eqn:He;
    [|destruct (chain (mpdu_blk_pool s)) as [|b k] eqn:Ek].
  - unfold ba_enqueue_reordering_packet, ba_mpdu_blk_alloc, ba_dequeue, leak_of. rewrite He.
    unfold wf_list in H2.
    destruct (qlen (mpdu_blk_pool s) =? 0) eqn:E; [|destruct (chain (mpdu_blk_pool s)) as [|b k] eqn:Ek].
    + destruct s as [e pool t]. simpl in *. apply (conserves_weaken _ 0); [lia|]. by apply (bypass_conserves _ _ (mk_state e pool t)).
    + simpl in H2. lia.
    + set (s1 := mk_state _ _ _).
      assert (H3 : conserves [] 1 s s1).
      { subst s1. unfold conserves, wf_state, wf_list, held, chain_pkts, blocks. simpl in *.
        rewrite Ek. simpl in *. repeat split; try done; lia. }
      exact (conserves_trans _ _ _ _ _ _ _ H3
        (bypass_conserves (rx_Sequence rx) rx s1 (proj1 H3))).
  - unfold ba_enqueue_reordering_packet, ba_mpdu_blk_alloc, ba_dequeue.
    unfold wf_list in H2. rewrite Ek in H2. simpl in H2. rewrite H2. simpl.
    apply (conserves_weaken _ 0); [lia|]. destruct s as [e pool t].
    apply (bypass_conserves _ _ (mk_state e pool t)).
    split; [done|]. unfold wf_list. simpl in *. by rewrite Ek.
  - rewrite enqueue_insert by (try done; by rewrite Ek). rewrite Ek. simpl.
    unfold leak_of. rewrite He. set (m := mk_mpdu _ _ _ _).
    unfold wf_list in *. rewrite Ek in H2. simpl in H2.
    destruct (insert_scan _ m) as [c|] eqn:Ei.
    + apply insert_scan_perm in Ei. pose proof (Permutation_length Ei) as Hlen. simpl in Hlen.
      unfold conserves, wf_state, wf_list, held, chain_pkts, blocks. simpl. rewrite Ek. simpl.
      split; [split; lia|]. split; [|lia].
      rewrite <- Ei. simpl. symmetry. apply Permutation_middle.
    + unfold conserves, wf_state, wf_list, held, chain_pkts, blocks. simpl. rewrite Ek. simpl.
      rewrite map_app, <- app_assoc. simpl. split; [split; lia|]. split; [|lia].
      symmetry. apply Permutation_middle.
Qed.

(** The conditional update of [LastIndSeq] after a drain. *)
Lemma drain_conserves p k q s s0 :
  conserves p k s0 s →
  let '(r, s1) := ba_indicate_reordering_mpdus_in_order q s in
  conserves p k s0
    (if negb (r =? RESET_RCV_SEQ) then upd_entry (λ e, set_LastIndSeq e r) s1 else s1).
Proof.
  intros H. pose proof (in_order_conserves q s (proj1 H)) as H1.
  destruct (ba_indicate_reordering_mpdus_in_order q s) as [r s1]. simpl in H1.
  pose proof (conserves_trans _ _ _ _ _ _ _ H H1) as H2. rewrite Nat.add_0_r in H2.
  simpl in H2. destruct (negb _); [|done]. apply conserves_quiet; [by intros []|done].
Qed.

Lemma reorder_cases_conserves rx now s :
  wf_state s → conserves [rx_pPacket rx] (leak_of rx) s (reorder_cases rx now s).
Proof.
  intros Hwf. pose proof (conserves_refl s Hwf) as H0. unfold reorder_cases.
  destruct (SEQ_STEPONE _ _ _).
  { set (s1 := upd_entry _ s).
    assert (H1 : conserves [] 0 s s1) by (apply conserves_quiet; [by intros []|done]).
    pose proof (conserves_trans _ _ _ _ _ _ _ H1 (indicate_conserves rx s1 (proj1 H1))) as H2.
    apply (drain_conserves _ _ (LastIndSeq (entry (INDICATE_LEGACY_OR_AMSDU rx s1)))) in H2.
    destruct (ba_indicate_reordering_mpdus_in_order _ _) as [r s2].
    apply conserves_quiet; [by intros []|]. eapply conserves_weaken; [|exact H2]. lia. }
  assert (Hd : conserves [rx_pPacket rx] (leak_of rx) s
                 (emit (Free (rx_pPacket rx)) (upd_entry inc_nDropPacket s))).
  { assert (H1 : conserves [] 0 s (upd_entry inc_nDropPacket s))
      by (apply conserves_quiet; [by intros []|done]).
    eapply conserves_weaken; [|exact (conserves_trans _ _ _ _ _ _ _ H1
      (free_conserves (rx_pPacket rx) _ (proj1 H1)))]. lia. }
  destruct (_ =? LastIndSeq _); [done|]. destruct (SEQ_SMALLER _ _ _); [done|]. clear Hd.
  destruct (SEQ_SMALLER _ _ _); [by apply enqueue_conserves|].
  set (w := Z.land _ _). set (s1 := ba_indicate_reordering_mpdus_le_seq w s).
  set (s2 := upd_entry _ s1).
  assert (H1 : conserves [] 0 s s2)
    by (apply conserves_quiet; [by intros []|]; by apply le_seq_conserves).
  pose proof (conserves_trans _ _ _ _ _ _ _ H1 (enqueue_conserves rx s2 (proj1 H1))) as H2.
  apply (drain_conserves _ _ (LastIndSeq (entry (ba_enqueue_reordering_packet rx s2)))) in H2.
  by destruct (ba_indicate_reordering_mpdus_in_order _ _).
Qed.

Section Timeouts.
Context (HZ : Z).

Lemma flush_timeout_conserves now s :
  wf_state s → conserves [] 0 s (ba_flush_reordering_timeout_mpdus HZ now s).
Proof.
  intros Hwf. pose proof (conserves_refl s Hwf) as H0.
  unfold ba_flush_reordering_timeout_mpdus.
  destruct (_ <=? 0); [done|]. destruct (_ && _).
  { apply conserves_quiet; [by intros []|]. by apply refresh_conserves. }
  destruct (_ && _); [|done]. cbv zeta.
  set (q := Z.land _ _). set (s2 := upd_entry _ (ba_indicate_reordering_mpdus_le_seq q s)).
  assert (H1 : conserves [] 0 s s2)
    by (apply conserves_quiet; [by intros []|]; by apply le_seq_conserves).
  apply (drain_conserves _ _ q) in H1.
  by destruct (ba_indicate_reordering_mpdus_in_order _ _).
Qed.

Lemma session_conserves now rx s :
  wf_state s →
  conserves [rx_pPacket rx] (leak_of rx) s (indicate_ampdu_session HZ now rx s).
Proof.
  intros Hwf. unfold indicate_ampdu_session.
  set (s0 := upd_entry _ s).
  assert (H0 : conserves [] 0 s s0)
    by (apply conserves_quiet; [by intros []|]; by apply conserves_refl).
  pose proof (conserves_trans _ _ _ _ _ _ _ H0
    (flush_timeout_conserves now s0 (proj1 H0))) as H1.
  apply (conserves_quiet (λ e, set_Timer e now)) in H1; [|by intros []].
  set (s1 := upd_entry _ (ba_flush_reordering_timeout_mpdus HZ now s0)) in *.
  destruct (_ =? RESET_RCV_SEQ).
  - apply (conserves_quiet (λ e, set_Timer (set_LastIndSeq e (rx_Sequence rx)) now)) in H1;
      [|by intros []].
    eapply conserves_weaken; [|exact (conserves_trans _ _ _ _ _ _ _ H1
      (indicate_conserves rx _ (proj1 H1)))]. lia.
  - exact (conserves_trans _ _ _ _ _ _ _ H1 (reorder_cases_conserves rx now _ (proj1 H1))).
Qed.
End Timeouts.

(** * The timed session *)

Definition timer (s : ba_state) : Z := LastIndSeqAtTimer (entry s).

(** No frame comes more than [MAX_REORDERING_PACKET_TIMEOUT / 6] after the
    one before it, the first one after [prev]. *)
Fixpoint no_long_gap (HZ prev : Z) (rxs : list (Z * RX_BLK)) : Prop :=
  match rxs with
  | [] => True
  | (now, _) :: rxs =>
      RTMP_TIME_AFTER now (u64 (prev + MAX_REORDERING_PACKET_TIMEOUT HZ `div` 6)) = false
      ∧ no_long_gap HZ now rxs
  end.

Lemma in_order_timer q s :
  wf_list (list_ (entry s)) → timer (ba_indicate_reordering_mpdus_in_order q s).2 = timer s.
Proof.
  intros H1. unfold ba_indicate_reordering_mpdus_in_order.
  destruct (in_order_loop_general _ q RESET_RCV_SEQ s H1 (le_n _)) as (n & Hn & H).
  destruct (in_order_loop _ _ _ _) as [r s']. by destruct H as [-> _].
Qed.

Lemma le_seq_timer q s :
  wf_list (list_ (entry s)) → timer (ba_indicate_reordering_mpdus_le_seq q s) = timer s.
Proof.
  intros H1. unfold ba_indicate_reordering_mpdus_le_seq.
  by destruct (le_seq_loop_general _ q s H1 (le_n _)) as (n & Hn & -> & _).
Qed.

Lemma indicate_timer rx s : timer (INDICATE_LEGACY_OR_AMSDU rx s) = timer s.
Proof. by destruct (indicate_trace rx s) as [p ->]. Qed.

Lemma enqueue_timer rx s :
  wf_list (list_ (entry s)) → timer (ba_enqueue_reordering_packet rx s) = timer s.
Proof.
  intros Hwf. unfold ba_enqueue_reordering_packet, ba_mpdu_blk_alloc.
  destruct (ba_dequeue _) as [[b|] pool]; [|destruct s as [e p t]];
    repeat case_match; rewrite ?indicate_timer; try done; unfold timer; simpl;
    by apply le_seq_timer.
Qed.

Lemma session_timer HZ now rx s :
  wf_state s → timer (indicate_ampdu_session HZ now rx s) = now.
Proof.
  intros Hwf. unfold indicate_ampdu_session.
  set (s0 := upd_entry (λ e, set_rcvSeq e _) s).
  pose proof (flush_timeout_conserves HZ now s0 Hwf) as [W1 _].
  set (s1 := upd_entry _ (ba_flush_reordering_timeout_mpdus HZ now s0)).
  assert (W : wf_state s1) by exact W1.
  assert (T : timer s1 = now) by done. clearbody s1. clear W1.
  destruct (_ =? RESET_RCV_SEQ); [by rewrite indicate_timer|].
  unfold reorder_cases. destruct (SEQ_STEPONE _ _ _); [by destruct (ba_indicate_reordering_mpdus_in_order _ _)|].
  repeat (destruct (_ =? LastIndSeq _); [exact T|]). destruct (SEQ_SMALLER _ _ _); [exact T|].
  destruct (SEQ_SMALLER _ _ _); [rewrite enqueue_timer; [done|apply W]|].
  cbv zeta. set (w := Z.land _ _).
  set (s2 := upd_entry _ (ba_indicate_reordering_mpdus_le_seq w s1)).
  assert (W2 : wf_state s2) by exact (proj1 (le_seq_conserves w s1 W)).
  pose proof (enqueue_conserves rx s2 W2) as [W3 _].
  pose proof (in_order_timer (LastIndSeq (entry (ba_enqueue_reordering_packet rx s2)))
    (ba_enqueue_reordering_packet rx s2) (proj1 W3)) as T3.
  destruct (ba_indicate_reordering_mpdus_in_order _ _) as [r s4]. simpl in T3.
  rewrite enqueue_timer in T3 by apply W2. by destruct (negb _).
Qed.

Section Timed.
Context (HZ Win : Z) (HWin : 1 ≤ Win ≤ 1024).

Lemma refines_qlen L buf e : refines Win L buf e → qlen (list_ e) = Z.of_nat (length buf).
Proof.
  intros (_ & _ & Hc & Hl). apply (f_equal length) in Hc. rewrite !length_map in Hc. unfold wf_list in Hl. by rewrite <- Hc.
Qed.

(** The flush at the head of the handler, unless everything is given up. *)
Lemma flush_timeout_step now d L buf s out L' buf' :
  refines Win L buf (entry s) → spec_inv Win d L buf → wf_list (mpdu_blk_pool s) →
  spec_refresh HZ now (timer s) (L, buf) = false → spec_flush HZ now (timer s) (L, buf) = (out, (L', buf')) →
  step_ok Win L' buf' out s (ba_flush_reordering_timeout_mpdus HZ now s) ∧
  Sorted later (d :: out) ∧ spec_inv Win (default d (last out)) L' buf'.
Proof using HWin.
  intros Href Hinv Hwf Hno Hfl. pose proof (refines_qlen _ _ _ Href) as Hq.
  assert (Hnop : step_ok Win L buf [] s s ∧ Sorted later [d] ∧ spec_inv Win (default d (last [])) L buf).
  { unfold step_ok. rewrite app_nil_r. conjs; try done; try apply Hinv. by repeat constructor. }
  unfold ba_flush_reordering_timeout_mpdus. rewrite Hq.
  change (u64 (LastIndSeqAtTimer (entry s) + MAX_REORDERING_PACKET_TIMEOUT HZ `div` 6)) with (u64 (timer s + MAX_REORDERING_PACKET_TIMEOUT HZ `div` 6)).
  unfold spec_refresh, spec_flush, spec_late in Hno, Hfl. cbn [snd] in Hno, Hfl. rewrite Hno. unfold timer in Hfl.
  destruct (Z.leb_spec (Z.of_nat (length buf)) 0) as [E0|E0].
  { rewrite (proj2 (Z.ltb_ge _ _)), andb_false_r in Hfl by lia. by simplify_eq. }
  assert (Eb : (0 <? Z.of_nat (length buf)) = true) by lia. rewrite Eb, andb_true_r in Hfl |- *.
  destruct (RTMP_TIME_AFTER now (u64 (LastIndSeqAtTimer (entry s) + REORDERING_PACKET_TIMEOUT HZ))).
  2: { idtac. by simplify_eq. } clear Hnop.
  pose proof Href as (HW & HL & Hc & Hl). destruct Hinv as [[Hs Hf] [Hd Hhd]]. cbn [spec_timeout] in Hfl.
  destruct buf as [|b0 r0]; [cbn in E0; lia|]. inversion Hf as [|?? Hb0 _]; subst.
  rewrite HL, land_MAXSEQ, Zplus_mod_idemp_l.
  destruct (le_seq_refines (BAWinSize (entry s)) HWin L (L + 1) (b0 :: r0) s [] (b0 :: r0))
    as [-> _]; [done| |lia| |done|].
  { eapply Forall_impl; [exact Hf|]. simpl. lia. }
  { simpl. by replace (b0 <=? L + 1) with false by lia. }
  cbn [length]. rewrite flushed_0. set (s2 := upd_entry _ s).
  assert (Hf1 : Forall (λ b, L + 1 + 1 ≤ b ≤ L + 1 + BAWinSize (entry s)) (b0 :: r0))
    by (eapply Forall_impl; [exact Hf|]; simpl; lia).
  assert (R1 : refines (BAWinSize (entry s)) (L + 1) (b0 :: r0) (entry s2)) by done.
  pose proof (in_order_step _ HWin (L + 1) (b0 :: r0) s2 out L' buf' R1 Hwf Hs Hf1 Hfl) as R2.
  destruct (ba_indicate_reordering_mpdus_in_order _ _) as [r s3]. split; [exact R2|].
  apply (drain_step _ HWin d (L + 1) (b0 :: r0)); try done; simpl in *; lia.
Qed.

Lemma session_step now rx d L buf s out L' buf' :
  refines Win L buf (entry s) → spec_inv Win d L buf → wf_list (mpdu_blk_pool s) →
  plain_rx rx → Win ≤ Z.of_nat (blocks s) → spec_refresh HZ now (timer s) (L, buf) = false →
  spec_frame HZ Win now (timer s) (rx_Sequence rx) (L, buf) = (out, (L', buf')) →
  step_ok Win L' buf' out s (indicate_ampdu_session HZ now rx s) ∧
  Sorted later (d :: out) ∧ spec_inv Win (default d (last out)) L' buf'.
Proof using HWin.
  intros Href Hinv Hwf Hrx Hb Hno. unfold spec_frame. rewrite Hno. destruct (spec_flush _ _ _ _) as [o1 [L1 b1]] eqn:E1. cbn [fst].
  destruct (spec_rx _ _ _) as [o2 [L2 b2]] eqn:E2. intros [= <- <- <-]. unfold indicate_ampdu_session.
  set (s0 := upd_entry _ s).
  destruct (flush_timeout_step now d L buf s0 o1 L1 b1) as (R1 & S1 & I1); try done.
  set (s1 := upd_entry _ (ba_flush_reordering_timeout_mpdus HZ now s0)).
  assert (R1' : step_ok Win L1 b1 o1 s s1) by exact R1.
  pose proof R1' as (Q1 & _ & Q3 & Q4). pose proof Q1 as (_ & HL & _ & _).
  replace (LastIndSeq (entry s1) =? RESET_RCV_SEQ) with false
    by (rewrite HL; unfold RESET_RCV_SEQ; zdm).
  destruct (reorder_run_refines Win HWin [(now, rx)] (default d (last o1)) L1 b1 s1 o2 L2 b2)
    as (R2 & S2 & I2); try done; [by apply Forall_singleton|by rewrite Q4|cbn [map spec_run fst snd]; by rewrite E2, app_nil_r|].
  conjs.
  - eapply step_ok_trans; [exact R1'|exact R2].
  - by apply Sorted_later_app.
  - rewrite last_app. by destruct (last o2).
Qed.

(** Everything buffered is handed up, and the numbers start over. *)
Lemma session_refresh now rx L buf s :
  refines Win L buf (entry s) → wf_list (mpdu_blk_pool s) → plain_rx rx → spec_refresh HZ now (timer s) (L, buf) = true →
  step_ok Win (rx_Sequence rx) [] (buf ++ [rx_Sequence rx]) s (indicate_ampdu_session HZ now rx s).
Proof.
  intros Href Hwf Hrx Hre. pose proof (refines_qlen _ _ _ Href) as Hq. pose proof Href as (HW & HL & Hc & Hl).
  unfold indicate_ampdu_session. set (s0 := upd_entry _ s). unfold ba_flush_reordering_timeout_mpdus.
  change (qlen (list_ (entry s0))) with (qlen (list_ (entry s))). rewrite Hq.
  unfold spec_refresh, spec_late in Hre. cbn [snd] in Hre.
  change (LastIndSeqAtTimer (entry s0)) with (timer s). rewrite Hre.
  apply andb_prop in Hre as [_ Hlen]. rewrite (proj2 (Z.leb_gt _ _)) by lia.
  rewrite refresh_flushed by done. cbn [upd_entry entry LastIndSeq set_LastIndSeq set_Timer]. rewrite Z.eqb_refl.
  set (n := length (chain (list_ (entry s0)))). set (s1 := upd_entry _ (upd_entry _ _)).
  destruct (indicate_trace rx s1) as [p ->]. destruct (flushed_pool n s0) as [P1 P2]; [done|done|].
  destruct Hrx as [Hrx _]. unfold step_ok, refines, wf_list, blocks. cbn.
  rewrite !delivered_app, delivered_announce, !map_app, take_ge, drop_ge, length_app, length_rev by (unfold n; cbn; lia). cbn.
  rewrite Hc, <- app_assoc. conjs; try done; try (rewrite Z.mod_small by lia; done).
  all: unfold wf_list in Hl, Hwf; unfold n in *; cbn in *; lia.
Qed.

(** The handler refines the machine with its clock. *)
Lemma session_run_refines rxs : ∀ d L buf s out L' buf',
  refines Win L buf (entry s) → spec_inv Win d L buf → wf_list (mpdu_blk_pool s) →
  Forall (λ r, plain_rx r.2) rxs → Win ≤ Z.of_nat (blocks s) →
  spec_session HZ Win (timer s) (map (λ r, (r.1, rx_Sequence r.2)) rxs) (L, buf) = (out, (L', buf')) →
  step_ok Win L' buf' out s (session_run HZ rxs s) ∧
  (no_long_gap HZ (timer s) rxs → Sorted later (d :: out)).
Proof using HWin.
  induction rxs as [|[now rx] rxs IH]; intros d L buf s out L' buf' Href Hinv Hwf Hp Hb.
  { intros [= <- <- <-]. unfold step_ok. rewrite app_nil_r. conjs; try done. by repeat constructor. }
  cbn [map spec_session fst snd]. destruct (spec_frame _ _ _ _ _ _) as [o1 [L1 b1]] eqn:E1.
  destruct (spec_session _ _ _ _ _) as [o2 st2] eqn:E2. intros [= <- ->].
  apply Forall_cons in Hp as [Hrx Hp]. assert (W : wf_state s) by (split; [apply Href|done]).
  destruct (spec_refresh HZ now (timer s) (L, buf)) eqn:Er.
  - unfold spec_frame in E1. rewrite Er in E1. injection E1 as <- <- <-.
    pose proof (session_refresh now rx L buf s Href Hwf Hrx Er) as R1. pose proof R1 as (Q1 & _ & Q3 & Q4).
    destruct (IH (rx_Sequence rx) (rx_Sequence rx) [] (indicate_ampdu_session HZ now rx s) o2 L' buf') as [R2 _]; try done.
    { split; [split; constructor|done]. } { by rewrite Q4. } { by rewrite session_timer. }
    split; [eapply step_ok_trans; [exact R1|exact R2]|]. intros [G _]. exfalso. apply andb_prop in Er as [Er _]. unfold spec_late in Er. congruence.
  - destruct (session_step now rx d L buf s o1 L1 b1) as (R1 & S1 & I1); try done. pose proof R1 as (Q1 & _ & Q3 & Q4).
    destruct (IH (default d (last o1)) L1 b1 (indicate_ampdu_session HZ now rx s) o2 L' buf') as [R2 S2]; try done.
    { by rewrite Q4. } { by rewrite session_timer. }
    split; [eapply step_ok_trans; [exact R1|exact R2]|]. intros [_ G]. apply Sorted_later_app; [done|]. apply S2. by rewrite session_timer.
Qed.
End Timed.

Lemma session_run_conserves HZ rxs : ∀ s,
  wf_state s →
  conserves (rev (map (λ r, rx_pPacket r.2) rxs)) (sum_list (map (λ r, leak_of r.2) rxs)) s
    (session_run HZ rxs s).
Proof.
  induction rxs as [|[now rx] rxs IH]; intros s Hwf; [by apply conserves_refl|].
  simpl. pose proof (session_conserves HZ now rx s Hwf) as H1.
  exact (conserves_trans _ _ _ _ _ _ _ H1 (IH _ (proj1 H1))).
Qed.

(** * The properties *)

(** A session as [BARecSessionAdd] leaves it once its first frame, of number
    [L], was indicated: nothing buffered.  The pool, which all sessions share,
    has a block for every frame of the window. *)
Definition fresh_session (Win L : Z) (s : ba_state) : Prop :=
  BAWinSize (entry s) = Win ∧ LastIndSeq (entry s) = L ∧ 0 ≤ L < 4096 ∧
  list_ (entry s) = mk_list [] 0 ∧ wf_list (mpdu_blk_pool s) ∧ trace s = [] ∧
  Win ≤ Z.of_nat (length (chain (mpdu_blk_pool s))).

Lemma fresh_refines Win L s :
  fresh_session Win L s →
  refines Win L [] (entry s) ∧ spec_inv Win L L [] ∧ wf_state s ∧
  Win ≤ Z.of_nat (blocks s).
Proof.
  intros (H1 & H2 & H3 & H4 & H5 & H6 & H7).
  unfold refines, spec_inv, spec_buf, wf_state, blocks, wf_list in *. rewrite H4, H2. simpl.
  rewrite Z.mod_small by lia. conjs; try done; try lia; constructor.
Qed.

Definition demo_state (Win L : Z) (nblocks : nat) : ba_state :=
  mk_state (mk_entry 1 0 Win L 0 0 0 0 Recipient_Accept (mk_list [] 0))
    (ba_reordering_resource_init true nblocks).2 [].
Definition demo_rx (q pkt : Z) : RX_BLK := mk_rx q 0 100 0 pkt.

(** C2: Refinement of the abstract reordering machine, timeouts included.  Take
    a session with a window of 1 to 1024 frames, of which one frame was indicated and nothing is
    buffered, while the pool of blocks that the sessions share has at least as
    many free blocks as the window is wide.  Over any run of received frames
    that are not EAPOL, each at any time, in whatever order and with whatever losses and duplicates, the
    whole handler of a frame (first the timeouts, then the five cases of its
    number) hands up exactly the numbers that the abstract machine on
    unbounded sequence numbers hands up, holds exactly its buffer, and loses
    no block.  The abstract machine has the code's clock comparison: after half a
    second with more than one frame buffered it hands up everything and starts
    over at the frame that came; after a tenth of a second with a frame
    buffered it gives up the missing one. *)
Theorem session_implements_spec HZ Win L rxs s out L' buf'
    (HWin : 1 ≤ Win ≤ 1024) (Hs : fresh_session Win L s)
    (Hrx : Forall (λ r, plain_rx r.2) rxs)
    (Hspec : spec_session HZ Win (timer s) (map (λ r, (r.1, rx_Sequence r.2)) rxs) (L, []) = (out, (L', buf'))) :
  delivered_seqs (trace (session_run HZ rxs s)) = map (λ b, b `mod` 4096) out ∧
  refines Win L' buf' (entry (session_run HZ rxs s)) ∧
  blocks (session_run HZ rxs s) = blocks s.
Proof.
  destruct (fresh_refines _ _ _ Hs) as (H1 & H2 & [_ H3] & H4).
  destruct (session_run_refines HZ Win HWin rxs L L [] s out L' buf') as [(R1 & R2 & _ & R3) _];
    try done.
  rewrite R2. by destruct Hs as (_ & _ & _ & _ & _ & -> & _).
Qed.

Lemma session_implements_spec_witness :
  delivered_seqs (trace (session_run 250
    [(1, demo_rx 4094 1); (2, demo_rx 1 2); (3, demo_rx 4095 3); (40, demo_rx 3 4); (41, demo_rx 5 5); (200, demo_rx 9 6); (201, demo_rx 10 7)]
    (demo_state 64 4093 128)))
  = [4094; 4095; 1; 3; 5; 9; 10].
Proof.
  destruct (session_implements_spec 250 64 4093
    [(1, demo_rx 4094 1); (2, demo_rx 1 2); (3, demo_rx 4095 3); (40, demo_rx 3 4); (41, demo_rx 5 5); (200, demo_rx 9 6); (201, demo_rx 10 7)]
    (demo_state 64 4093 128) [4094; 4095; 4097; 4099; 4101; 9; 10] 10 []) as [H _].
  - lia.
  - repeat split; try (vm_compute; done); done.
  - repeat constructor; vm_compute; done.
  - vm_compute. reflexivity.
  - rewrite H. reflexivity.
Defined.

(** C1: In-order delivery.  Take a session with a window of 1 to 1024 frames, of which one frame was
    indicated and nothing is buffered, while the pool of blocks that the
    sessions share has at least as many free blocks as the window is wide.
    Over any run of received frames that are not EAPOL, with whatever numbers
    and at whatever times, as long as no frame comes later after the one
    before it than the refresh timeout (half a second), each frame handed up
    comes strictly after the one handed up before it in the window order of
    the 12-bit sequence numbers; the single-frame timeouts are included. *)
Theorem session_in_order HZ Win L rxs s
    (HWin : 1 ≤ Win ≤ 1024) (Hs : fresh_session Win L s)
    (Hrx : Forall (λ r, plain_rx r.2) rxs) (Hgap : no_long_gap HZ (timer s) rxs) :
  Sorted (λ a b, SEQ_SMALLER a b MAXSEQ = true)
    (L :: delivered_seqs (trace (session_run HZ rxs s))).
Proof.
  destruct (fresh_refines _ _ _ Hs) as (H1 & H2 & [_ H3] & H4).
  destruct (spec_session HZ Win (timer s) (map (λ r, (r.1, rx_Sequence r.2)) rxs) (L, [])) as [out [L' buf']] eqn:E.
  destruct (session_run_refines HZ Win HWin rxs L L [] s out L' buf') as [R S];
    try done. specialize (S Hgap).
  destruct R as (_ & -> & _). destruct Hs as (_ & _ & HL & _ & _ & -> & _).
  apply Sorted_later_mod in S. simpl in *. by rewrite Z.mod_small in S by lia.
Qed.

Lemma session_in_order_witness :
  Sorted (λ a b, SEQ_SMALLER a b MAXSEQ = true)
    (4093 :: delivered_seqs (trace (session_run 250
      [(1, demo_rx 4094 1); (2, demo_rx 1 2); (40, demo_rx 2 3); (80, demo_rx 200 4)]
      (demo_state 64 4093 128)))).
Proof.
  apply (session_in_order 250 64).
  - lia.
  - repeat split; try (vm_compute; done); done.
  - repeat constructor; vm_compute; done.
  - repeat split; vm_compute; done.
Defined.

(** C3: No packet is lost, duplicated or freed twice: after any run of the
    session handler, on any frames (EAPOL and duplicates too), any clock and
    any branch, the packets handed up or freed together with those still
    buffered are exactly the packets held before and the packets received;
    the list and pool counters stay exact. *)
Theorem session_conserves_packets HZ rxs s (Hwf : wf_state s) :
  wf_state (session_run HZ rxs s) ∧
  held (session_run HZ rxs s) ≡ₚ map (λ r, rx_pPacket r.2) rxs ++ held s.
Proof.
  destruct (session_run_conserves HZ rxs s Hwf) as (H1 & H2 & _).
  split; [done|]. by rewrite H2, <- Permutation_rev.
Qed.

Lemma session_conserves_packets_witness :
  wf_state (session_run 250 [(1, mk_rx 7 0x100 100 0 1); (2, demo_rx 9 2)] (demo_state 64 6 2)) ∧
  held (session_run 250 [(1, mk_rx 7 0x100 100 0 1); (2, demo_rx 9 2)] (demo_state 64 6 2))
    ≡ₚ [1; 2] ++ [].
Proof. apply (session_conserves_packets 250). vm_compute. done. Defined.

(** The pool blocks are conserved: a run of the session handler on frames
    none of which is an EAPOL frame leaves the number of blocks in the pool
    and in the session list unchanged, on every branch. *)
Theorem session_conserves_blocks HZ rxs s
    (Hwf : wf_state s) (Hrx : Forall (λ r, RX_BLK_TEST_FLAG r.2 fRX_EAP = false) rxs) :
  blocks (session_run HZ rxs s) = blocks s.
Proof.
  destruct (session_run_conserves HZ rxs s Hwf) as (_ & _ & H).
  assert (sum_list (map (λ r, leak_of r.2) rxs) = O) as H0; [|lia].
  clear -Hrx. induction Hrx as [|r rxs Hr Hrx IH]; [done|]. simpl. rewrite IH.
  unfold leak_of. by rewrite Hr.
Qed.

Lemma session_conserves_blocks_witness :
  blocks (session_run 250 [(1, demo_rx 7 1); (2, demo_rx 9 2)] (demo_state 64 6 2)) = 2%nat.
Proof.
  apply (session_conserves_blocks 250).
  - vm_compute. done.
  - repeat constructor; vm_compute; done.
Defined.

(** An EAPOL frame that reaches the reordering list with a block
    available loses that block: it is taken from the pool and neither put in
    the list nor given back, while the frame itself is indicated. *)
Theorem eapol_frame_leaks_block rx s
    (Hwf : wf_state s) (He : RX_BLK_TEST_FLAG rx fRX_EAP = true)
    (Hpool : chain (mpdu_blk_pool s) ≠ []) :
  (blocks (ba_enqueue_reordering_packet rx s) + 1 = blocks s)%nat ∧
  rx_pPacket rx ∈ map ev_pkt (trace (ba_enqueue_reordering_packet rx s)).
Proof.
  destruct Hwf as [H1 H2]. unfold ba_enqueue_reordering_packet, ba_mpdu_blk_alloc, ba_dequeue.
  unfold wf_list in H2. destruct (chain (mpdu_blk_pool s)) as [|b k] eqn:Ek; [done|].
  simpl in H2. destruct (qlen (mpdu_blk_pool s) =? 0) eqn:E; [lia|]. rewrite He. simpl.
  set (s1 := mk_state _ _ _).
  destruct (le_seq_loop_general _ (rx_Sequence rx) s1 H1 (le_n _)) as (n & Hn & Hl & _).
  unfold ba_indicate_reordering_mpdus_le_seq. rewrite Hl.
  destruct (indicate_trace rx
    (upd_entry (λ e, set_LastIndSeq e (rx_Sequence rx)) (flushed n s1))) as [p ->].
  unfold blocks. simpl in *. rewrite Ek, length_app, length_rev, length_take, length_drop. simpl.
  split; [lia|]. rewrite map_app. simpl. set_solver.
Qed.

Lemma eapol_frame_leaks_block_witness :
  (blocks (ba_enqueue_reordering_packet (mk_rx 9 0x100 100 0 1) (demo_state 64 6 2)) + 1 = 2)%nat.
Proof. apply (eapol_frame_leaks_block (mk_rx 9 0x100 100 0 1)); vm_compute; done. Defined.

(** The flush loops stop on their own condition: in any well-formed state
    the in-order flush announces a prefix of the list, the block left at the
    head is not the successor of the last one announced (of the start number
    if none was), and the returned number is the reset value exactly when
    nothing was announced. *)
Theorem in_order_flush_complete q s (Hwf : wf_list (list_ (entry s))) (Hq : 0 ≤ q < 4096)
    (Hc : Forall (λ m, 0 ≤ Sequence m < 4096) (chain (list_ (entry s)))) :
  ∃ n, (n ≤ length (chain (list_ (entry s))))%nat ∧
    let '(r, s') := ba_indicate_reordering_mpdus_in_order q s in
    s' = flushed n s ∧ (r = RESET_RCV_SEQ ↔ n = O) ∧
    (∀ m, head (chain (list_ (entry s'))) = Some m →
      SEQ_STEPONE (Sequence m) (if decide (n = O) then q else r) MAXSEQ = false).
Proof.
  unfold ba_indicate_reordering_mpdus_in_order.
  destruct (in_order_loop_general _ q RESET_RCV_SEQ s Hwf (le_n _)) as (n & Hn & H).
  pose proof (in_order_loop_result (length (chain (list_ (entry s)))) q RESET_RCV_SEQ s Hc) as Hr.
  exists n. split; [done|]. destruct (in_order_loop _ _ _ _) as [r s'].
  destruct H as (-> & H1 & H2). split; [done|]. split.
  - split; [|done]. intros ->. simpl in Hr. destruct Hr as [Hr|Hr]; [|unfold RESET_RCV_SEQ in *; lia].
    apply (f_equal (λ s, length (trace s))) in Hr.
    simpl in Hr. rewrite length_app, length_map, length_take in Hr. lia.
  - intros m Hm. by rewrite Hm in H2.
Qed.

Lemma in_order_flush_complete_witness :
  ∃ n, (n ≤ 2)%nat ∧
    (ba_indicate_reordering_mpdus_in_order 6
      (mk_state (mk_entry 1 0 64 6 0 0 0 0 Recipient_Accept
        (mk_list [mk_mpdu 1 7 false 0; mk_mpdu 2 9 false 0] 2)) (mk_list [] 0) [])).1 = 7.
Proof.
  destruct (in_order_flush_complete 6 (mk_state (mk_entry 1 0 64 6 0 0 0 0 Recipient_Accept
        (mk_list [mk_mpdu 1 7 false 0; mk_mpdu 2 9 false 0] 2)) (mk_list [] 0) [])) as (n & Hn & _).
  - done.
  - lia.
  - repeat constructor; simpl; lia.
  - exists n. split; [exact Hn|reflexivity].
Defined.

(** The refresh timeout: with more than one frame buffered and the last
    indication longer ago than [MAX_REORDERING_PACKET_TIMEOUT / 6], the whole
    list is announced in order, every block returns to the pool, and the
    session forgets its last number, so that the next frame is indicated
    whatever its number. *)
Theorem refresh_timeout HZ now s (Hwf : wf_state s) (Hlen : 1 < qlen (list_ (entry s)))
    (Htime : RTMP_TIME_AFTER now
       (u64 (timer s + MAX_REORDERING_PACKET_TIMEOUT HZ `div` 6)) = true) :
  let s' := ba_flush_reordering_timeout_mpdus HZ now s in
  trace s' = trace s ++ map Announce (chain (list_ (entry s))) ∧
  list_ (entry s') = mk_list [] 0 ∧ LastIndSeq (entry s') = RESET_RCV_SEQ ∧
  timer s' = now ∧ blocks s' = blocks s.
Proof.
  destruct Hwf as [H1 H2]. unfold ba_flush_reordering_timeout_mpdus. unfold timer in Htime.
  rewrite Htime. destruct (_ <=? 0) eqn:E; [lia|]. simpl.
  replace (1 <? _) with true by lia. rewrite refresh_flushed by done.
  unfold wf_list in *. unfold blocks. simpl.
  rewrite take_ge, drop_ge by lia. rewrite length_app, length_rev. simpl.
  conjs; try done; [f_equal; lia|lia].
Qed.

Lemma refresh_timeout_witness :
  LastIndSeq (entry (ba_flush_reordering_timeout_mpdus 250 1000
    (mk_state (mk_entry 1 0 64 6 0 0 0 0 Recipient_Accept
      (mk_list [mk_mpdu 1 8 false 0; mk_mpdu 2 9 false 0] 2)) (mk_list [] 0) [])))
  = RESET_RCV_SEQ.
Proof. apply (refresh_timeout 250 1000); vm_compute; done. Defined.
