(* ===== verification/Mlme.v ===== *)
(** The MLME engine: src/common/mlme.c, MlmeHandler (682-850), the message
    queue (4452-4818), MsgTypeSubst (4830-4925) and the state machines
    (4941-5013), WpaMsgTypeSubst of src/common/cmm_wpa.c and
    ActionStateMachineInit of src/common/action.c.

    Management frames and internal messages wait in a ring of elements; the
    handler takes them out one by one and calls the function that the state
    machine of the message has for its current state and the message type.
    The element is worked on inside the ring: it is released after the call.

    The functions of the state machines, the control machine and the restart
    of the radio are parameters ([act], [cntl], [restart]); they run on the
    whole MLME state and may enqueue.  Locks are not modelled: a queue
    operation is one step. *)

From S2P Require Import Prelude.

(** * Data *)

Definition MAX_LEN_OF_MLME_QUEUE : nat := 40.
#[global] Arguments MAX_LEN_OF_MLME_QUEUE : simpl never.
Definition MLME_BUFFER_SIZE : nat := 1600.
#[global] Arguments MLME_BUFFER_SIZE : simpl never.
Definition RESERVED_WCID : nat := 255.

(** The adapter's flag word. *)
Definition RTMP_TEST_FLAG (Flags F : Z) : bool := negb (Z.land Flags F =? 0).
Definition fRTMP_ADAPTER_MLME_RESET_IN_PROGRESS : Z := 0x20.
Definition fRTMP_ADAPTER_HALT_IN_PROGRESS : Z := 0x40.
Definition fRTMP_ADAPTER_NIC_NOT_EXIST : Z := 0x100.
Definition fRTMP_ADAPTER_SUSPEND : Z := 0x20000000.

(** [MLME_QUEUE_ELEM] *)
Record MLME_QUEUE_ELEM := mk_qelem {
  el_Msg : list Z;
  el_Machine : Z;
  el_MsgType : Z;
  el_MsgLen : Z;
  el_TimeStamp : Z * Z;       (* high and low part *)
  el_Rssi : Z * Z * Z;
  el_Signal : Z;
  el_Channel : Z;
  el_Wcid : nat;
  el_Occupied : bool;
  el_OpMode : Z;
  el_Priv : Z
}.

(** [MLME_QUEUE] *)
Record MLME_QUEUE := mk_queue {
  Num : Z;
  Head : nat;
  Tail : nat;
  Entry : list MLME_QUEUE_ELEM
}.

Definition set_Entry (q : MLME_QUEUE) (es : list MLME_QUEUE_ELEM) : MLME_QUEUE :=
  mk_queue (Num q) (Head q) (Tail q) es.

(** * The queue *)

Definition MlmeQueueInit (q : MLME_QUEUE) : MLME_QUEUE :=
  mk_queue 0 0 0
    (map (λ e, mk_qelem (zeros MLME_BUFFER_SIZE) (el_Machine e) (el_MsgType e) 0 (el_TimeStamp e)
                 (el_Rssi e) (el_Signal e) (el_Channel e) (el_Wcid e) false (el_OpMode e) (el_Priv e))
       (Entry q)).

Definition MlmeQueueEmpty (q : MLME_QUEUE) : bool := Num q =? 0.

(** [SendId] 0 is the receive path, which gets half of the queue. *)
Definition MlmeQueueFull (q : MLME_QUEUE) (SendId : Z) : option bool :=
  if SendId =? 0 then
    e ← Entry q !! Tail q;
    Some ((Z.of_nat MAX_LEN_OF_MLME_QUEUE / 2 <=? Num q) || el_Occupied e)
  else Some (Num q =? Z.of_nat MAX_LEN_OF_MLME_QUEUE).

(** Advance [Tail] and [Num]; the slot to fill. *)
Definition take_slot (q : MLME_QUEUE) : nat * MLME_QUEUE :=
  let t := Tail q in
  let t' := if Nat.eqb (S t) MAX_LEN_OF_MLME_QUEUE then O else S t in
  (t, mk_queue (u64 (Num q + 1)) (Head q) t' (Entry q)).

(** [NdisMoveMemory(Entry[Tail].Msg, Msg, MsgLen)] if [Msg] is not NULL. *)
Definition store_msg (buf : list Z) (Msg : option (list Z)) (MsgLen : Z) : list Z :=
  match Msg with
  | Some d => bwrite buf 0 (take (Z.to_nat MsgLen) d)
  | None => buf
  end.

(** TRUE or FALSE and the queue; [Flags] are the adapter's flags. *)
Definition MlmeEnqueue (Flags : Z) (q : MLME_QUEUE) (Machine MsgType MsgLen : Z)
    (Msg : option (list Z)) (Priv : Z) : option (bool * MLME_QUEUE) :=
  if RTMP_TEST_FLAG Flags (Z.lor fRTMP_ADAPTER_HALT_IN_PROGRESS fRTMP_ADAPTER_NIC_NOT_EXIST)
  then Some (false, q)
  else if Z.of_nat MLME_BUFFER_SIZE <? MsgLen then Some (false, q)
  else
    full ← MlmeQueueFull q 1;
    if (full : bool) then Some (false, q)
    else
      let '(t, q) := take_slot q in
      e ← Entry q !! t;
      Some (true, set_Entry q (<[t :=
        mk_qelem (store_msg (el_Msg e) Msg MsgLen) Machine MsgType MsgLen (el_TimeStamp e) (el_Rssi e)
          (el_Signal e) (el_Channel e) RESERVED_WCID true (el_OpMode e) Priv]> (Entry q))).

(** The element at [Head], by its index. *)
Definition MlmeDequeue (q : MLME_QUEUE) : nat * MLME_QUEUE :=
  let h := Head q in
  let h' := if Nat.eqb (S h) MAX_LEN_OF_MLME_QUEUE then O else S h in
  (h, mk_queue (u64 (Num q - 1)) h' (Tail q) (Entry q)).

Definition MlmeQueueDestroy (q : MLME_QUEUE) : MLME_QUEUE := mk_queue 0 0 0 (Entry q).

(** [Elem->Occupied = FALSE; Elem->MsgLen = 0] *)
Definition release_elem (i : nat) (q : MLME_QUEUE) : MLME_QUEUE :=
  set_Entry q (alter (λ e, mk_qelem (el_Msg e) (el_Machine e) (el_MsgType e) 0 (el_TimeStamp e)
    (el_Rssi e) (el_Signal e) (el_Channel e) (el_Wcid e) false (el_OpMode e) (el_Priv e)) i (Entry q)).

(** * Message types *)

Definition ASSOC_STATE_MACHINE : Z := 1.
Definition AUTH_STATE_MACHINE : Z := 2.
Definition AUTH_RSP_STATE_MACHINE : Z := 3.
Definition SYNC_STATE_MACHINE : Z := 4.
Definition MLME_CNTL_STATE_MACHINE : Z := 5.
Definition WPA_PSK_STATE_MACHINE : Z := 6.
Definition ACTION_STATE_MACHINE : Z := 9.
Definition WPA_STATE_MACHINE : Z := 23.

Definition MT2_RESET_CONF : Z := 45.
Definition MT2_PEER_DISASSOC_REQ : Z := 3.
Definition MT2_PEER_ASSOC_REQ : Z := 4.
Definition MT2_PEER_ASSOC_RSP : Z := 5.
Definition MT2_PEER_REASSOC_REQ : Z := 6.
Definition MT2_PEER_REASSOC_RSP : Z := 7.
Definition MT2_PEER_AUTH_EVEN : Z := 1.
Definition MT2_PEER_AUTH_ODD : Z := 1.
Definition MT2_PEER_DEAUTH : Z := 2.
Definition MT2_PEER_BEACON : Z := 3.
Definition MT2_PEER_PROBE_RSP : Z := 4.
Definition MT2_PEER_ATIM : Z := 5.
Definition MT2_PEER_PROBE_REQ : Z := 9.
Definition MAX_IEEE_STD_CATE : Z := 21.
Definition MAX_PEER_CATE_MSG : Z := MAX_IEEE_STD_CATE.
Definition MT2_MLME_ADD_BA_CATE : Z := MAX_IEEE_STD_CATE + 1.
Definition MT2_MLME_ORI_DELBA_CATE : Z := MAX_IEEE_STD_CATE + 2.
Definition MT2_MLME_REC_DELBA_CATE : Z := MAX_IEEE_STD_CATE + 3.
Definition MT2_MLME_QOS_CATE : Z := MAX_IEEE_STD_CATE + 4.
Definition MT2_MLME_DLS_CATE : Z := MAX_IEEE_STD_CATE + 5.
Definition MT2_ACT_INVALID : Z := MAX_IEEE_STD_CATE + 6.
Definition MAX_ACT_MSG : Z := MAX_IEEE_STD_CATE + 7.

Definition ASSOC_IDLE : Z := 0.
Definition ASSOC_WAIT_RSP : Z := 1.
Definition REASSOC_WAIT_RSP : Z := 2.
Definition DISASSOC_WAIT_RSP : Z := 3.
Definition MT2_MLME_ASSOC_REQ : Z := 0.
Definition MT2_MLME_REASSOC_REQ : Z := 1.
Definition MT2_MLME_DISASSOC_REQ : Z := 2.
Definition MT2_DISASSOC_TIMEOUT : Z := 8.
Definition MT2_ASSOC_TIMEOUT : Z := 9.
Definition MT2_REASSOC_TIMEOUT : Z := 10.
Definition ACT_IDLE : Z := 0.
Definition MT2_PEER_SPECTRUM_CATE : Z := 0.
Definition MT2_PEER_QOS_CATE : Z := 1.
Definition MT2_PEER_DLS_CATE : Z := 2.
Definition MT2_PEER_BA_CATE : Z := 3.
Definition MT2_PEER_PUBLIC_CATE : Z := 4.
Definition MT2_PEER_RM_CATE : Z := 5.
Definition MT2_PEER_HT_CATE : Z := 7.
Definition MT2_PEER_VHT_CATE : Z := 21.
Definition AUTH_REQ_IDLE : Z := 0.
Definition AUTH_WAIT_SEQ2 : Z := 1.
Definition AUTH_WAIT_SEQ4 : Z := 2.
Definition MT2_MLME_AUTH_REQ : Z := 0.
Definition MT2_AUTH_TIMEOUT : Z := 2.
Definition AUTH_RSP_IDLE : Z := 0.
Definition AUTH_RSP_WAIT_CHAL : Z := 1.
Definition SYNC_IDLE : Z := 0.
Definition JOIN_WAIT_BEACON : Z := 1.
Definition SCAN_LISTEN : Z := 2.
Definition SCAN_PENDING : Z := 3.
Definition MT2_MLME_SCAN_REQ : Z := 0.
Definition MT2_MLME_JOIN_REQ : Z := 1.
Definition MT2_MLME_START_REQ : Z := 2.
Definition MT2_SCAN_TIMEOUT : Z := 6.
Definition MT2_BEACON_TIMEOUT : Z := 7.
Definition MT2_MLME_FORCE_JOIN_REQ : Z := 10.
Definition MT2_MLME_FORCE_SCAN_REQ : Z := 11.
Definition WPA_PTK : Z := 0.
Definition MT2_EAPPacket : Z := 0.
Definition MT2_EAPOLStart : Z := 1.
Definition MT2_EAPOLLogoff : Z := 2.
Definition MT2_EAPOLKey : Z := 3.
Definition MT2_EAPOLASFAlert : Z := 4.
Definition CNTL_IDLE : Z := 0.
(** The base of each of the machines. *)
Definition MACHINE_BASE : Z := 0.

Definition MAX_ASSOC_STATE : Z := 4.
Definition MAX_ASSOC_MSG : Z := 11.
Definition MAX_AUTH_STATE : Z := 3.
Definition MAX_AUTH_MSG : Z := 3.
Definition MAX_AUTH_RSP_STATE : Z := 2.
Definition MAX_AUTH_RSP_MSG : Z := 3.
Definition MAX_SYNC_STATE : Z := 4.
Definition MAX_SYNC_MSG : Z := 12.
Definition MAX_ACT_STATE : Z := 1.
Definition MAX_WPA_PTK_STATE : Z := 1.
Definition MAX_WPA_MSG : Z := 5.

Definition FC_TYPE_DATA : Z := 2.
Definition LENGTH_802_11 : Z := 24.
Definition CNTL_WAIT_DISASSOC : Z := 1.
Definition LENGTH_802_1_H : Z := 8.

(** [FC.Type] and [FC.SubType] of the first header byte. *)
Definition fc_Type (Msg : list Z) : Z := Z.land (Z.shiftr (aget Msg 0) 2) 3.
Definition fc_SubType (Msg : list Z) : Z := Z.land (Z.shiftr (aget Msg 0) 4) 15.
Definition octet (Msg : list Z) (i : Z) : Z := aget Msg (LENGTH_802_11 + i).

Definition WpaMsgTypeSubst (EAPType : Z) : option Z :=
  if EAPType =? 0 then Some MT2_EAPPacket        (* EAPPacket *)
  else if EAPType =? 1 then Some MT2_EAPOLStart   (* EAPOLStart *)
  else if EAPType =? 2 then Some MT2_EAPOLLogoff   (* EAPOLLogoff *)
  else if EAPType =? 3 then Some MT2_EAPOLKey   (* EAPOLKey *)
  else if EAPType =? 4 then Some MT2_EAPOLASFAlert   (* EAPOLASFAlert *)
  else None.

(** The machine and the type of a received frame; [None] is FALSE.  The
    caller initialises the two with 0xff and 0, which an authentication frame
    of even sequence and unknown algorithm leaves as they are. *)
Definition MsgTypeSubst (Msg : list Z) : option (Z * Z) :=
  if fc_Type Msg =? FC_TYPE_DATA then
    t ← WpaMsgTypeSubst (aget Msg (LENGTH_802_11 + LENGTH_802_1_H + 1));
    Some (WPA_STATE_MACHINE, t)
  else
    let st := fc_SubType Msg in
    if st =? 0 then Some (ASSOC_STATE_MACHINE, MT2_PEER_ASSOC_REQ)
    else if st =? 1 then Some (ASSOC_STATE_MACHINE, MT2_PEER_ASSOC_RSP)
    else if st =? 2 then Some (ASSOC_STATE_MACHINE, MT2_PEER_REASSOC_REQ)
    else if st =? 3 then Some (ASSOC_STATE_MACHINE, MT2_PEER_REASSOC_RSP)
    else if st =? 4 then Some (SYNC_STATE_MACHINE, MT2_PEER_PROBE_REQ)
    else if st =? 5 then Some (SYNC_STATE_MACHINE, MT2_PEER_PROBE_RSP)
    else if st =? 8 then Some (SYNC_STATE_MACHINE, MT2_PEER_BEACON)
    else if st =? 9 then Some (SYNC_STATE_MACHINE, MT2_PEER_ATIM)
    else if st =? 10 then Some (ASSOC_STATE_MACHINE, MT2_PEER_DISASSOC_REQ)
    else if st =? 11 then
      let Seq := le_word [octet Msg 2; octet Msg 3] in
      let Alg := le_word [octet Msg 0; octet Msg 1] in
      if (Seq =? 1) || (Seq =? 3) then Some (AUTH_RSP_STATE_MACHINE, MT2_PEER_AUTH_ODD)
      else if (Seq =? 2) || (Seq =? 4) then
        if (Alg =? 0) || (Alg =? 1) then Some (AUTH_STATE_MACHINE, MT2_PEER_AUTH_EVEN)
        else Some (0xff, 0)
      else None
    else if st =? 12 then Some (AUTH_RSP_STATE_MACHINE, MT2_PEER_DEAUTH)
    else if (st =? 13) || (st =? 14) then
      if MAX_PEER_CATE_MSG <? Z.land (octet Msg 0) 0x7F
      then Some (ACTION_STATE_MACHINE, MT2_ACT_INVALID)
      else Some (ACTION_STATE_MACHINE, Z.land (octet Msg 0) 0x7F)
    else None.

(** A received frame: reception data, the length and the bytes. *)
Record rx_info := mk_rxinfo {
  rxi_Wcid : Z; rxi_TimeStamp : Z * Z; rxi_Rssi : Z * Z * Z; rxi_Signal : Z; rxi_OpMode : Z;
  rxi_Channel : Z
}.

(** [ate] is [ATE_ON(pAd)], the production-test mode. *)
Definition MlmeEnqueueForRecv (Flags : Z) (ate : bool) (q : MLME_QUEUE) (ri : rx_info) (MsgLen : Z)
    (Msg : list Z) : option (bool * MLME_QUEUE) :=
  if ate then Some (false, q)
  else if RTMP_TEST_FLAG Flags (Z.lor fRTMP_ADAPTER_HALT_IN_PROGRESS fRTMP_ADAPTER_NIC_NOT_EXIST)
  then Some (false, q)
  else if Z.of_nat MLME_BUFFER_SIZE <? MsgLen then Some (false, q)
  else
    full ← MlmeQueueFull q 0;
    if (full : bool) then Some (false, q)
    else
      match MsgTypeSubst Msg with
      | None => Some (false, q)
      | Some (Machine, MsgType) =>
          let '(t, q) := take_slot q in
          e ← Entry q !! t;
          Some (true, set_Entry q (<[t :=
            mk_qelem (store_msg (el_Msg e) (Some Msg) MsgLen) Machine MsgType MsgLen (rxi_TimeStamp ri)
              (rxi_Rssi ri) (rxi_Signal ri) (rxi_Channel ri) (Z.to_nat (u8 (rxi_Wcid ri))) true
              (rxi_OpMode ri) 0]> (Entry q)))
      end.

(** * State machines *)

(** The functions the tables point to, by name. *)
Inductive STATE_MACHINE_FUNC :=
| f_Drop
| f_MlmeAssocReqAction | f_MlmeReassocReqAction | f_MlmeDisassocReqAction | f_PeerDisassocAction
| f_InvalidStateWhenAssoc | f_InvalidStateWhenReassoc | f_InvalidStateWhenDisassociate
| f_PeerAssocRspAction | f_PeerReassocRspAction
| f_AssocTimeoutAction | f_ReassocTimeoutAction | f_DisassocTimeoutAction
| f_MlmeAuthReqAction | f_InvalidStateWhenAuth | f_PeerAuthRspAtSeq2Action
| f_PeerAuthRspAtSeq4Action | f_AuthTimeoutAction
| f_PeerDeauthAction
| f_MlmeScanReqAction | f_MlmeForceScanReqAction | f_MlmeJoinReqAction | f_MlmeForceJoinReqAction
| f_MlmeStartReqAction | f_PeerBeacon | f_PeerProbeReqAction | f_InvalidStateWhenStart
| f_PeerBeaconAtJoinAction | f_BeaconTimeoutAtJoinAction | f_PeerBeaconAtScanAction
| f_ScanTimeoutAction
| f_WpaEAPPacketAction | f_WpaEAPOLStartAction | f_WpaEAPOLLogoffAction | f_WpaEAPOLKeyAction
| f_WpaEAPOLASFAlertAction
| f_PeerSpectrumAction | f_PeerQOSAction | f_ReservedAction | f_PeerBAAction | f_PeerHTAction
| f_PeerVHTAction | f_MlmeADDBAAction | f_MlmeDELBAAction | f_PeerPublicAction | f_PeerRMAction
| f_MlmeQOSAction | f_MlmeDLSAction | f_MlmeInvalidAction.

#[export] Instance STATE_MACHINE_FUNC_eq_dec : EqDecision STATE_MACHINE_FUNC.
Proof. solve_decision. Defined.

(** [STATE_MACHINE]; a NULL entry of the table is [None]. *)
Record STATE_MACHINE := mk_sm {
  Base : Z; NrState : Z; NrMsg : Z; CurrState : Z;
  TransFunc : list (option STATE_MACHINE_FUNC)
}.

Definition set_CurrState (s : Z) (S : STATE_MACHINE) : STATE_MACHINE :=
  mk_sm (Base S) (NrState S) (NrMsg S) s (TransFunc S).

Definition StateMachineInit (Trans : list (option STATE_MACHINE_FUNC)) (StNr MsgNr : Z)
    (DefFunc : STATE_MACHINE_FUNC) (InitState B : Z) : STATE_MACHINE :=
  mk_sm B StNr MsgNr InitState
    (foldl (λ T i, foldl (λ T j, <[Z.to_nat (i * MsgNr + j) := Some DefFunc]> T) T (seqZ 0 MsgNr))
       Trans (seqZ 0 StNr)).

Definition StateMachineSetAction (S : STATE_MACHINE) (St Msg : Z) (Func : STATE_MACHINE_FUNC)
    : STATE_MACHINE :=
  let MsgIdx := u64 (Msg - Base S) in
  if (St <? NrState S) && (MsgIdx <? NrMsg S) then
    mk_sm (Base S) (NrState S) (NrMsg S) (CurrState S)
      (<[Z.to_nat (St * NrMsg S + MsgIdx) := Some Func]> (TransFunc S))
  else S.

(** The function called, if the entry is not NULL; [None] is a read outside
    the table. *)
Definition StateMachinePerformAction (S : STATE_MACHINE) (MsgType CurrSt : Z)
    : option (option STATE_MACHINE_FUNC) :=
  TransFunc S !! Z.to_nat (u64 (CurrSt * NrMsg S + MsgType - Base S)).

Definition set_actions (S : STATE_MACHINE) (l : list (Z * Z * STATE_MACHINE_FUNC)) : STATE_MACHINE :=
  foldl (λ S '(St, Msg, f), StateMachineSetAction S St Msg f) S l.

Definition AssocStateMachineInit (Trans : list (option STATE_MACHINE_FUNC)) : STATE_MACHINE :=
  set_actions (StateMachineInit Trans MAX_ASSOC_STATE MAX_ASSOC_MSG f_Drop ASSOC_IDLE MACHINE_BASE) [
    (ASSOC_IDLE, MT2_MLME_ASSOC_REQ, f_MlmeAssocReqAction);
    (ASSOC_IDLE, MT2_MLME_REASSOC_REQ, f_MlmeReassocReqAction);
    (ASSOC_IDLE, MT2_MLME_DISASSOC_REQ, f_MlmeDisassocReqAction);
    (ASSOC_IDLE, MT2_PEER_DISASSOC_REQ, f_PeerDisassocAction);
    (ASSOC_WAIT_RSP, MT2_MLME_ASSOC_REQ, f_InvalidStateWhenAssoc);
    (ASSOC_WAIT_RSP, MT2_MLME_REASSOC_REQ, f_InvalidStateWhenReassoc);
    (ASSOC_WAIT_RSP, MT2_MLME_DISASSOC_REQ, f_InvalidStateWhenDisassociate);
    (ASSOC_WAIT_RSP, MT2_PEER_DISASSOC_REQ, f_PeerDisassocAction);
    (ASSOC_WAIT_RSP, MT2_PEER_ASSOC_RSP, f_PeerAssocRspAction);
    (ASSOC_WAIT_RSP, MT2_PEER_REASSOC_RSP, f_PeerAssocRspAction);
    (ASSOC_WAIT_RSP, MT2_ASSOC_TIMEOUT, f_AssocTimeoutAction);
    (REASSOC_WAIT_RSP, MT2_MLME_ASSOC_REQ, f_InvalidStateWhenAssoc);
    (REASSOC_WAIT_RSP, MT2_MLME_REASSOC_REQ, f_InvalidStateWhenReassoc);
    (REASSOC_WAIT_RSP, MT2_MLME_DISASSOC_REQ, f_InvalidStateWhenDisassociate);
    (REASSOC_WAIT_RSP, MT2_PEER_DISASSOC_REQ, f_PeerDisassocAction);
    (REASSOC_WAIT_RSP, MT2_PEER_REASSOC_RSP, f_PeerReassocRspAction);
    (REASSOC_WAIT_RSP, MT2_PEER_ASSOC_RSP, f_PeerReassocRspAction);
    (REASSOC_WAIT_RSP, MT2_REASSOC_TIMEOUT, f_ReassocTimeoutAction);
    (DISASSOC_WAIT_RSP, MT2_MLME_ASSOC_REQ, f_InvalidStateWhenAssoc);
    (DISASSOC_WAIT_RSP, MT2_MLME_REASSOC_REQ, f_InvalidStateWhenReassoc);
    (DISASSOC_WAIT_RSP, MT2_MLME_DISASSOC_REQ, f_InvalidStateWhenDisassociate);
    (DISASSOC_WAIT_RSP, MT2_PEER_DISASSOC_REQ, f_PeerDisassocAction);
    (DISASSOC_WAIT_RSP, MT2_DISASSOC_TIMEOUT, f_DisassocTimeoutAction)].

Definition AuthStateMachineInit (Trans : list (option STATE_MACHINE_FUNC)) : STATE_MACHINE :=
  set_actions (StateMachineInit Trans MAX_AUTH_STATE MAX_AUTH_MSG f_Drop AUTH_REQ_IDLE MACHINE_BASE) [
    (AUTH_REQ_IDLE, MT2_MLME_AUTH_REQ, f_MlmeAuthReqAction);
    (AUTH_WAIT_SEQ2, MT2_MLME_AUTH_REQ, f_InvalidStateWhenAuth);
    (AUTH_WAIT_SEQ2, MT2_PEER_AUTH_EVEN, f_PeerAuthRspAtSeq2Action);
    (AUTH_WAIT_SEQ2, MT2_AUTH_TIMEOUT, f_AuthTimeoutAction);
    (AUTH_WAIT_SEQ4, MT2_MLME_AUTH_REQ, f_InvalidStateWhenAuth);
    (AUTH_WAIT_SEQ4, MT2_PEER_AUTH_EVEN, f_PeerAuthRspAtSeq4Action);
    (AUTH_WAIT_SEQ4, MT2_AUTH_TIMEOUT, f_AuthTimeoutAction)].

Definition AuthRspStateMachineInit (Trans : list (option STATE_MACHINE_FUNC)) : STATE_MACHINE :=
  set_actions
    (StateMachineInit Trans MAX_AUTH_RSP_STATE MAX_AUTH_RSP_MSG f_Drop AUTH_RSP_IDLE MACHINE_BASE) [
    (AUTH_RSP_IDLE, MT2_PEER_DEAUTH, f_PeerDeauthAction);
    (AUTH_RSP_WAIT_CHAL, MT2_PEER_DEAUTH, f_PeerDeauthAction)].

Definition SyncStateMachineInit (Trans : list (option STATE_MACHINE_FUNC)) : STATE_MACHINE :=
  set_actions (StateMachineInit Trans MAX_SYNC_STATE MAX_SYNC_MSG f_Drop SYNC_IDLE MACHINE_BASE) [
    (SYNC_IDLE, MT2_MLME_SCAN_REQ, f_MlmeScanReqAction);
    (SYNC_IDLE, MT2_MLME_FORCE_SCAN_REQ, f_MlmeForceScanReqAction);
    (SYNC_IDLE, MT2_MLME_JOIN_REQ, f_MlmeJoinReqAction);
    (SYNC_IDLE, MT2_MLME_FORCE_JOIN_REQ, f_MlmeForceJoinReqAction);
    (SYNC_IDLE, MT2_MLME_START_REQ, f_MlmeStartReqAction);
    (SYNC_IDLE, MT2_PEER_BEACON, f_PeerBeacon);
    (SYNC_IDLE, MT2_PEER_PROBE_REQ, f_PeerProbeReqAction);
    (JOIN_WAIT_BEACON, MT2_MLME_JOIN_REQ, f_MlmeJoinReqAction);
    (JOIN_WAIT_BEACON, MT2_MLME_START_REQ, f_InvalidStateWhenStart);
    (JOIN_WAIT_BEACON, MT2_PEER_BEACON, f_PeerBeaconAtJoinAction);
    (JOIN_WAIT_BEACON, MT2_BEACON_TIMEOUT, f_BeaconTimeoutAtJoinAction);
    (JOIN_WAIT_BEACON, MT2_PEER_PROBE_RSP, f_PeerBeaconAtScanAction);
    (SCAN_LISTEN, MT2_MLME_JOIN_REQ, f_MlmeJoinReqAction);
    (SCAN_LISTEN, MT2_MLME_START_REQ, f_InvalidStateWhenStart);
    (SCAN_LISTEN, MT2_PEER_BEACON, f_PeerBeaconAtScanAction);
    (SCAN_LISTEN, MT2_PEER_PROBE_RSP, f_PeerBeaconAtScanAction);
    (SCAN_LISTEN, MT2_SCAN_TIMEOUT, f_ScanTimeoutAction);
    (SCAN_PENDING, MT2_MLME_SCAN_REQ, f_MlmeScanReqAction);
    (SCAN_PENDING, MT2_PEER_BEACON, f_PeerBeacon)].

Definition WpaStateMachineInit (Trans : list (option STATE_MACHINE_FUNC)) : STATE_MACHINE :=
  set_actions (StateMachineInit Trans MAX_WPA_PTK_STATE MAX_WPA_MSG f_Drop WPA_PTK MACHINE_BASE) [
    (WPA_PTK, MT2_EAPPacket, f_WpaEAPPacketAction);
    (WPA_PTK, MT2_EAPOLStart, f_WpaEAPOLStartAction);
    (WPA_PTK, MT2_EAPOLLogoff, f_WpaEAPOLLogoffAction);
    (WPA_PTK, MT2_EAPOLKey, f_WpaEAPOLKeyAction);
    (WPA_PTK, MT2_EAPOLASFAlert, f_WpaEAPOLASFAlertAction)].

Definition ActionStateMachineInit (Trans : list (option STATE_MACHINE_FUNC)) : STATE_MACHINE :=
  set_actions (StateMachineInit Trans MAX_ACT_STATE MAX_ACT_MSG f_Drop ACT_IDLE MACHINE_BASE) [
    (ACT_IDLE, MT2_PEER_SPECTRUM_CATE, f_PeerSpectrumAction);
    (ACT_IDLE, MT2_PEER_QOS_CATE, f_PeerQOSAction);
    (ACT_IDLE, MT2_PEER_DLS_CATE, f_ReservedAction);
    (ACT_IDLE, MT2_PEER_BA_CATE, f_PeerBAAction);
    (ACT_IDLE, MT2_PEER_HT_CATE, f_PeerHTAction);
    (ACT_IDLE, MT2_PEER_VHT_CATE, f_PeerVHTAction);
    (ACT_IDLE, MT2_MLME_ADD_BA_CATE, f_MlmeADDBAAction);
    (ACT_IDLE, MT2_MLME_ORI_DELBA_CATE, f_MlmeDELBAAction);
    (ACT_IDLE, MT2_MLME_REC_DELBA_CATE, f_MlmeDELBAAction);
    (ACT_IDLE, MT2_PEER_PUBLIC_CATE, f_PeerPublicAction);
    (ACT_IDLE, MT2_PEER_RM_CATE, f_PeerRMAction);
    (ACT_IDLE, MT2_MLME_QOS_CATE, f_MlmeQOSAction);
    (ACT_IDLE, MT2_MLME_DLS_CATE, f_MlmeDLSAction);
    (ACT_IDLE, MT2_ACT_INVALID, f_MlmeInvalidAction)].

(** * The engine *)

(** [MLME_STRUCT]: the station's machines, the running flag and the queue.
    [WpaPskMachine] has no initialisation in the sources. *)
Record MLME_STRUCT := mk_mlme {
  CntlMachine : STATE_MACHINE; AssocMachine : STATE_MACHINE; AuthMachine : STATE_MACHINE;
  AuthRspMachine : STATE_MACHINE; SyncMachine : STATE_MACHINE; WpaPskMachine : STATE_MACHINE;
  ActMachine : STATE_MACHINE; WpaMachine : STATE_MACHINE;
  bRunning : bool; Queue : MLME_QUEUE
}.

Definition set_Queue (q : MLME_QUEUE) (m : MLME_STRUCT) : MLME_STRUCT :=
  mk_mlme (CntlMachine m) (AssocMachine m) (AuthMachine m) (AuthRspMachine m) (SyncMachine m)
    (WpaPskMachine m) (ActMachine m) (WpaMachine m) (bRunning m) q.

Definition set_bRunning (b : bool) (m : MLME_STRUCT) : MLME_STRUCT :=
  mk_mlme (CntlMachine m) (AssocMachine m) (AuthMachine m) (AuthRspMachine m) (SyncMachine m)
    (WpaPskMachine m) (ActMachine m) (WpaMachine m) b (Queue m).

(** The part of MlmeInit that sets up the queue and the machines; each table
    is the array of [MLME_STRUCT] the machine is given ([AssocFunc], ...). *)
Definition MlmeInit (m : MLME_STRUCT) : MLME_STRUCT :=
  mk_mlme (set_CurrState CNTL_IDLE (CntlMachine m))
    (AssocStateMachineInit (TransFunc (AssocMachine m)))
    (AuthStateMachineInit (TransFunc (AuthMachine m)))
    (AuthRspStateMachineInit (TransFunc (AuthRspMachine m)))
    (SyncStateMachineInit (TransFunc (SyncMachine m)))
    (WpaPskMachine m)
    (ActionStateMachineInit (TransFunc (ActMachine m)))
    (WpaStateMachineInit (TransFunc (WpaMachine m)))
    false (MlmeQueueInit (Queue m)).

(** How a run of the handler ends: regularly, by a call outside a table, or
    still busy when the fuel of the model is used up. *)
Inductive outcome (A : Type) := Done (a : A) | Fault | Busy (a : A).
Arguments Done {A}. Arguments Fault {A}. Arguments Busy {A}.

Section engine.
Context {W : Type}.

(** The adapter: the MLME data, the flags, the test mode and the rest. *)
Record RTMP_ADAPTER := mk_pAd { Mlme : MLME_STRUCT; Flags : Z; ate_on : bool; rest : W }.

Definition set_Mlme (m : MLME_STRUCT) (pAd : RTMP_ADAPTER) : RTMP_ADAPTER :=
  mk_pAd m (Flags pAd) (ate_on pAd) (rest pAd).

(** The functions of the tables and of the control machine on the element
    at a slot of the ring, and the timers, channel and transmit calls of the
    restart. *)
Context (act : STATE_MACHINE_FUNC → nat → RTMP_ADAPTER → RTMP_ADAPTER).
Context (MlmeCntlMachinePerformAction : nat → RTMP_ADAPTER → RTMP_ADAPTER).
Context (restart_radio : RTMP_ADAPTER → RTMP_ADAPTER).

Definition MlmeRestartStateMachine (pAd : RTMP_ADAPTER) : RTMP_ADAPTER :=
  let pAd := restart_radio pAd in
  let m := Mlme pAd in
  set_Mlme (mk_mlme (set_CurrState CNTL_IDLE (CntlMachine m)) (set_CurrState ASSOC_IDLE (AssocMachine m))
    (set_CurrState AUTH_REQ_IDLE (AuthMachine m)) (set_CurrState AUTH_RSP_IDLE (AuthRspMachine m))
    (set_CurrState SYNC_IDLE (SyncMachine m)) (WpaPskMachine m) (set_CurrState ACT_IDLE (ActMachine m))
    (WpaMachine m) (bRunning m) (Queue m)) pAd.

(** The table machine of a message, [None] for the control machine and the
    illegal ones. *)
Definition machine_of (Machine : Z) (m : MLME_STRUCT) : option STATE_MACHINE :=
  if Machine =? ASSOC_STATE_MACHINE then Some (AssocMachine m)
  else if Machine =? AUTH_STATE_MACHINE then Some (AuthMachine m)
  else if Machine =? AUTH_RSP_STATE_MACHINE then Some (AuthRspMachine m)
  else if Machine =? SYNC_STATE_MACHINE then Some (SyncMachine m)
  else if Machine =? WPA_PSK_STATE_MACHINE then Some (WpaPskMachine m)
  else if Machine =? ACTION_STATE_MACHINE then Some (ActMachine m)
  else if Machine =? WPA_STATE_MACHINE then Some (WpaMachine m)
  else None.

(** The [switch] of the handler. *)
Definition dispatch (i : nat) (e : MLME_QUEUE_ELEM) (pAd : RTMP_ADAPTER) : option RTMP_ADAPTER :=
  if el_Machine e =? MLME_CNTL_STATE_MACHINE then Some (MlmeCntlMachinePerformAction i pAd)
  else
    match machine_of (el_Machine e) (Mlme pAd) with
    | None => Some pAd
    | Some Sm =>
        f ← StateMachinePerformAction Sm (el_MsgType e) (CurrState Sm);
        Some (match f with Some f => act f i pAd | None => pAd end)
    end.

Definition handler_stops (pAd : RTMP_ADAPTER) : bool :=
  RTMP_TEST_FLAG (Flags pAd) fRTMP_ADAPTER_MLME_RESET_IN_PROGRESS ||
  RTMP_TEST_FLAG (Flags pAd) fRTMP_ADAPTER_HALT_IN_PROGRESS ||
  RTMP_TEST_FLAG (Flags pAd) fRTMP_ADAPTER_NIC_NOT_EXIST ||
  RTMP_TEST_FLAG (Flags pAd) fRTMP_ADAPTER_SUSPEND || ate_on pAd.

(** One turn of the loop: take the head element, serve it, release it. *)
Definition handler_turn (pAd : RTMP_ADAPTER) : option RTMP_ADAPTER :=
  let '(i, q) := MlmeDequeue (Queue (Mlme pAd)) in
  let pAd := set_Mlme (set_Queue q (Mlme pAd)) pAd in
  e ← Entry q !! i;
  pAd ← (if el_MsgType e =? MT2_RESET_CONF then Some (MlmeRestartStateMachine pAd)
         else dispatch i e pAd);
  Some (set_Mlme (set_Queue (release_elem i (Queue (Mlme pAd))) (Mlme pAd)) pAd).

Fixpoint handler_loop (fuel : nat) (pAd : RTMP_ADAPTER) : outcome RTMP_ADAPTER :=
  if MlmeQueueEmpty (Queue (Mlme pAd)) || handler_stops pAd then Done pAd
  else
    match fuel with
    | O => Busy pAd
    | S fuel =>
        match handler_turn pAd with
        | None => Fault
        | Some pAd => handler_loop fuel pAd
        end
    end.

Definition MlmeHandler (fuel : nat) (pAd : RTMP_ADAPTER) : outcome RTMP_ADAPTER :=
  if bRunning (Mlme pAd) then Done pAd
  else
    match handler_loop fuel (set_Mlme (set_bRunning true (Mlme pAd)) pAd) with
    | Done pAd => Done (set_Mlme (set_bRunning false (Mlme pAd)) pAd)
    | r => r
    end.
End engine.
Arguments RTMP_ADAPTER : clear implicits.

(** ** Messages of the machines *)

(** [MlmeEnqueue] on the adapter; none of the callers looks at the result. *)
Definition enqueue {W} (Machine MsgType MsgLen : Z) (Msg : option (list Z)) (pAd : RTMP_ADAPTER W) : option (RTMP_ADAPTER W) :=
  '(_, q) ← MlmeEnqueue (Flags pAd) (Queue (Mlme pAd)) Machine MsgType MsgLen Msg 0;
  Some (set_Mlme (set_Queue q (Mlme pAd)) pAd).

(** The two bytes of a status to the control machine. *)
Definition confirm {W} (MsgType Status : Z) (pAd : RTMP_ADAPTER W) : option (RTMP_ADAPTER W) :=
  enqueue MLME_CNTL_STATE_MACHINE MsgType 2 (Some (le_bytes 2 Status)) pAd.
