(* ===== verification/MlmeProofs.v ===== *)
(** The ring of the MLME queue against a list, and the shape of the tables of
    the state machines: the lemmas behind the theorems of MlmeClaims. *)

From Stdlib Require Import ZifyNat.
From S2P Require Import Prelude Mlme.

(** * The queue as a list *)

(** The [k]-th slot from the head on, and the waiting elements in order. *)
Definition slot (q : MLME_QUEUE) (k : nat) : nat := (Head q + k) mod MAX_LEN_OF_MLME_QUEUE.

Definition pending (q : MLME_QUEUE) : list MLME_QUEUE_ELEM :=
  omap (λ k, Entry q !! slot q k) (seq 0 (Z.to_nat (Num q))).

(** The invariant of the ring; [fl] is the slot of the element the handler
    has dequeued and not released yet, which is the one before the head. *)
Record queue_wf (q : MLME_QUEUE) (fl : option nat) : Prop := {
  wf_len : length (Entry q) = MAX_LEN_OF_MLME_QUEUE;
  wf_buf : Forall (λ e, length (el_Msg e) = MLME_BUFFER_SIZE) (Entry q);
  wf_num : 0 ≤ Num q ≤ Z.of_nat MAX_LEN_OF_MLME_QUEUE;
  wf_head : (Head q < MAX_LEN_OF_MLME_QUEUE)%nat;
  wf_tail : Tail q = slot q (Z.to_nat (Num q));
  wf_fl : ∀ i, fl = Some i →
    i = slot q (MAX_LEN_OF_MLME_QUEUE - 1) ∧ Num q < Z.of_nat MAX_LEN_OF_MLME_QUEUE;
  wf_occ : ∀ k e, (k < MAX_LEN_OF_MLME_QUEUE)%nat → Entry q !! slot q k = Some e →
    el_Occupied e = bool_decide (Z.of_nat k < Num q ∨ fl = Some (slot q k))
}.

Ltac ring_lia := unfold slot, MAX_LEN_OF_MLME_QUEUE in *; cbn [Head Num Tail Entry] in *;
  zify; Z.to_euclidean_division_equations; lia.

Lemma slot_lt q k : (slot q k < MAX_LEN_OF_MLME_QUEUE)%nat.
Proof. ring_lia. Qed.

Lemma slot_inj q k k' :
  (k < MAX_LEN_OF_MLME_QUEUE)%nat → (k' < MAX_LEN_OF_MLME_QUEUE)%nat →
  slot q k = slot q k' → k = k'.
Proof. intros. ring_lia. Qed.

Lemma wrap64_small x : 0 ≤ x < 100 → u64 x = x.
Proof. intros. apply wrap_id; [lia|]. unfold in_range. lia. Qed.

Lemma ring_slot_Some q fl k : queue_wf q fl → is_Some (Entry q !! slot q k).
Proof. intros H. apply lookup_lt_is_Some. rewrite (wf_len _ _ H). apply slot_lt. Qed.

Lemma omap_ext_in {A B} (f g : A → option B) (l : list A) :
  (∀ x, x ∈ l → f x = g x) → omap f l = omap g l.
Proof.
  induction l as [|x l IH]; intros H; [done|]. cbn.
  rewrite (H x) by left. rewrite IH; [done|]. intros y Hy. apply H. by right.
Qed.

Lemma omap_fmap_list {A B C} (f : B → option C) (g : A → B) (l : list A) :
  omap f (g <$> l) = omap (λ x, f (g x)) l.
Proof. induction l as [|x l IH]; [done|]. cbn. by rewrite <- IH. Qed.

Lemma length_pending q fl : queue_wf q fl → Z.of_nat (length (pending q)) = Num q.
Proof.
  intros H. assert (∀ l, length (omap (λ k, Entry q !! slot q k) l) = length l) as E.
  { induction l as [|k l IH]; [done|]. cbn. destruct (ring_slot_Some q fl k H) as [e ->]. simpl.
    by rewrite IH. }
  unfold pending. rewrite E, length_seq. destruct (wf_num _ _ H). lia.
Qed.

Lemma pending_elem_of q fl e : queue_wf q fl → e ∈ pending q →
  ∃ k, Z.of_nat k < Num q ∧ Entry q !! slot q k = Some e.
Proof.
  intros H He. unfold pending in He. apply list_elem_of_omap in He as (k & Hk & He).
  apply elem_of_seq in Hk. exists k. split; [lia|done].
Qed.

(** Filling the slot at the tail. *)
Definition put_elem (q : MLME_QUEUE) (e : MLME_QUEUE_ELEM) : MLME_QUEUE :=
  let '(t, q') := take_slot q in set_Entry q' (<[t := e]> (Entry q')).

Lemma put_elem_wf q fl e :
  queue_wf q fl → Num q < Z.of_nat MAX_LEN_OF_MLME_QUEUE →
  (fl ≠ None → Num q < Z.of_nat MAX_LEN_OF_MLME_QUEUE - 1) →
  length (el_Msg e) = MLME_BUFFER_SIZE → el_Occupied e = true →
  queue_wf (put_elem q e) fl ∧ pending (put_elem q e) = pending q ++ [e].
Proof.
  intros H Hn Hf Hm Ho. pose proof H as [Hl Hb Hnum Hh Ht Hfl Hocc].
  assert (Eq : put_elem q e = mk_queue (Num q + 1) (Head q)
    (slot q (Z.to_nat (Num q + 1))) (<[Tail q := e]> (Entry q))).
  { unfold put_elem, take_slot, set_Entry. cbn [Num Head Tail Entry]. f_equal.
    - apply wrap64_small. unfold MAX_LEN_OF_MLME_QUEUE in *. lia.
    - rewrite Ht. destruct (Nat.eqb_spec (S (slot q (Z.to_nat (Num q)))) MAX_LEN_OF_MLME_QUEUE); ring_lia. }
  rewrite Eq. assert (Hs : ∀ n k es, slot (mk_queue n (Head q) (Tail q) es) k = slot q k) by done.
  split.
  - split; simpl; try done.
    + by rewrite length_insert.
    + by apply Forall_insert.
    + lia.
    + intros i Hi. destruct (Hfl i Hi) as [-> _]. split; [done|].
      specialize (Hf ltac:(by rewrite Hi)). lia.
    + intros k e' Hk. change (slot _ k) with (slot q k). rewrite Ht.
      destruct (decide (k = Z.to_nat (Num q))) as [->|Hne].
      * rewrite list_lookup_insert_eq by (rewrite Hl; apply slot_lt). intros [= <-].
        rewrite Ho. symmetry. apply bool_decide_eq_true. lia.
      * rewrite list_lookup_insert_ne by (intros E; apply Hne; symmetry; eapply slot_inj;
          [..|exact E]; lia).
        intros He'. rewrite (Hocc k e' Hk He'). apply bool_decide_ext. intuition lia.
  - unfold pending. simpl. replace (Z.to_nat (Num q + 1)) with (S (Z.to_nat (Num q))) by lia.
    rewrite seq_S, omap_app. simpl. f_equal.
    + apply omap_ext_in. intros k Hk. apply elem_of_seq in Hk. change (slot _ k) with (slot q k).
      rewrite Ht. apply list_lookup_insert_ne. intros E. apply slot_inj in E; lia.
    + change (slot _ _) with (slot q (Z.to_nat (Num q))). rewrite Ht.
      by rewrite list_lookup_insert_eq by (rewrite Hl; apply slot_lt).
Qed.

(** Taking the head. *)
Lemma dequeue_wf q :
  queue_wf q None → 0 < Num q →
  ∃ e, Entry q !! Head q = Some e ∧ pending q = e :: pending (snd (MlmeDequeue q)) ∧
    fst (MlmeDequeue q) = Head q ∧ Entry (snd (MlmeDequeue q)) = Entry q ∧
    Num (snd (MlmeDequeue q)) = Num q - 1 ∧
    queue_wf (snd (MlmeDequeue q)) (Some (Head q)).
Proof.
  intros H Hn. pose proof H as [Hl Hb Hnum Hh Ht Hfl Hocc].
  assert (Hs0 : slot q 0 = Head q) by ring_lia.
  destruct (ring_slot_Some q None 0 H) as [e He]. rewrite Hs0 in He.
  assert (Eq : snd (MlmeDequeue q) = mk_queue (Num q - 1) (slot q 1) (Tail q) (Entry q)).
  { unfold MlmeDequeue. cbn [snd]. f_equal.
    - apply wrap64_small. unfold MAX_LEN_OF_MLME_QUEUE in *. lia.
    - destruct (Nat.eqb_spec (S (Head q)) MAX_LEN_OF_MLME_QUEUE); ring_lia. }
  assert (Hs : ∀ k, slot (mk_queue (Num q - 1) (slot q 1) (Tail q) (Entry q)) k = slot q (S k)).
  { intros k. ring_lia. }
  exists e. rewrite Eq. conjs; try done.
  - unfold pending. simpl. replace (Z.to_nat (Num q)) with (S (Z.to_nat (Num q - 1))) by lia.
    simpl. rewrite Hs0, He. f_equal. rewrite <- fmap_S_seq. rewrite omap_fmap_list.
    apply omap_ext_in. intros k _. by rewrite Hs.
  - split; simpl; try done; try lia.
    + apply slot_lt.
    + rewrite Hs, Ht. f_equal. lia.
    + intros i [= <-]. rewrite Hs. split; [ring_lia|lia].
    + intros k e' Hk. rewrite Hs. destruct (decide (S k = MAX_LEN_OF_MLME_QUEUE)) as [E|].
      * rewrite E. assert (Es : slot q MAX_LEN_OF_MLME_QUEUE = slot q 0) by ring_lia.
        rewrite Es. intros He'. rewrite (Hocc 0%nat e') by (done || ring_lia).
        apply bool_decide_ext. rewrite Hs0. split; [by right|lia].
      * intros He'. rewrite (Hocc (S k) e') by (done || lia). apply bool_decide_ext.
        rewrite <- Hs0. split; [intros [?|?]; [lia|done]|].
        intros [?|[= E]]; [lia|]. apply slot_inj in E; [done|ring_lia|lia].
Qed.

Lemma release_wf q i :
  queue_wf q (Some i) →
  queue_wf (release_elem i q) None ∧ pending (release_elem i q) = pending q.
Proof.
  intros H. pose proof H as [Hl Hb Hnum Hh Ht Hfl Hocc].
  destruct (Hfl i eq_refl) as [Hi Hn]. split.
  - split; simpl; try done.
    + by rewrite length_alter.
    + apply Forall_alter; [done|]. intros e He. simpl. eapply Forall_lookup_1 in Hb; done.
    + intros k e Hk. change (slot _ k) with (slot q k).
      destruct (decide (slot q k = i)) as [E|E].
      * rewrite E, list_lookup_alter_eq. destruct (Entry q !! i); [|done]. simpl. intros [= <-].
        simpl. symmetry. apply bool_decide_eq_false. rewrite Hi in E.
        apply slot_inj in E; [|done|unfold MAX_LEN_OF_MLME_QUEUE; lia].
        intros [?|?]; [unfold MAX_LEN_OF_MLME_QUEUE in *; lia|done].
      * rewrite list_lookup_alter_ne by done. intros He. rewrite (Hocc k e Hk He).
        apply bool_decide_ext. split; intros [?|?]; [by left|congruence|by left|done].
  - unfold pending. simpl. apply omap_ext_in. intros k Hk. apply elem_of_seq in Hk.
    change (slot _ k) with (slot q k). apply list_lookup_alter_ne. rewrite Hi. intros E.
    apply slot_inj in E; unfold MAX_LEN_OF_MLME_QUEUE in *; lia.
Qed.

Lemma init_wf q :
  length (Entry q) = MAX_LEN_OF_MLME_QUEUE →
  queue_wf (MlmeQueueInit q) None ∧ pending (MlmeQueueInit q) = [].
Proof.
  intros Hl. split; [|done]. unfold MlmeQueueInit. split; simpl; try done.
  - by rewrite length_map.
  - apply Forall_map, Forall_true. intros e. cbn [el_Msg]. apply length_zeros.
  - unfold MAX_LEN_OF_MLME_QUEUE. lia.
  - intros k e Hk. rewrite list_lookup_fmap. destruct (Entry q !! _); [|done]. simpl.
    intros [= <-]. simpl. symmetry. apply bool_decide_eq_false. intros [?|?]; [lia|done].
Qed.

(** * The tables of the state machines *)

(** The last action set for a cell, the default otherwise. *)
Definition find_action (l : list (Z * Z * STATE_MACHINE_FUNC)) (def : STATE_MACHINE_FUNC) (St Msg : Z)
    : STATE_MACHINE_FUNC :=
  foldl (λ acc '(s, m, f), if (s =? St) && (m =? Msg) then f else acc) def l.

(** A machine whose table is complete for its numbers of states and messages. *)
Record table_wf (S : STATE_MACHINE) (nst nmsg : Z) (T : Z → Z → STATE_MACHINE_FUNC) : Prop := {
  tw_base : Base S = 0;
  tw_nst : NrState S = nst;
  tw_nmsg : NrMsg S = nmsg;
  tw_cell : ∀ St Msg, 0 ≤ St < nst → 0 ≤ Msg < nmsg →
    TransFunc S !! Z.to_nat (St * nmsg + Msg) = Some (Some (T St Msg))
}.

Lemma cell_inj n s m s' m' :
  0 ≤ s → 0 ≤ s' → 0 ≤ m < n → 0 ≤ m' < n →
  Z.to_nat (s * n + m) = Z.to_nat (s' * n + m') → s = s' ∧ m = m'.
Proof. intros. assert (s * n + m = s' * n + m') by nia. assert (s = s') by nia. split; nia. Qed.

Lemma cell_lt nst n s m : 0 ≤ s < nst → 0 ≤ m < n → 0 ≤ s * n + m < nst * n.
Proof. nia. Qed.

(** A loop of steps that keep the length and every cell already [d] sets each
    cell one of its steps sets. *)
Lemma fill_cells {A B} (step : list A → B → list A) (d : A) (l : list B) p x :
  (∀ T x, length (step T x) = length T) →
  (∀ T x, T !! p = Some d → step T x !! p = Some d) →
  x ∈ l → (∀ T', (p < length T')%nat → step T' x !! p = Some d) →
  ∀ T, (p < length T)%nat → foldl step T l !! p = Some d.
Proof.
  intros Hlen Hkeep Hx Hset.
  assert (Hk : ∀ l T, T !! p = Some d → foldl step T l !! p = Some d).
  { induction l0 as [|y l0 IH]; intros T HT; simpl; [done|]. auto. }
  induction l as [|y l IH]; intros T HT; simpl; [by apply not_elem_of_nil in Hx|].
  apply elem_of_cons in Hx as [<-|Hx]; [by apply Hk, Hset|]. apply IH; [done|by rewrite Hlen].
Qed.

Lemma insert_same_keep {A} (T : list A) i p d : T !! p = Some d → <[i := d]> T !! p = Some d.
Proof.
  intros H. destruct (decide (i = p)) as [->|]; [|by rewrite list_lookup_insert_ne].
  apply list_lookup_insert_eq. by eapply lookup_lt_Some.
Qed.

Lemma foldl_length {A B} (step : list A → B → list A) (l : list B) :
  (∀ T x, length (step T x) = length T) → ∀ T, length (foldl step T l) = length T.
Proof. intros H. induction l as [|x l IH]; intros T; simpl; [done|]. by rewrite IH, H. Qed.

Lemma init_table Trans nst nmsg f st :
  0 ≤ nst → 0 ≤ nmsg → length Trans = Z.to_nat (nst * nmsg) →
  table_wf (StateMachineInit Trans nst nmsg f st 0) nst nmsg (λ _ _, f).
Proof.
  intros Hs Hm Hl. split; try done. intros St Msg HSt HMsg.
  pose proof (cell_lt nst nmsg St Msg HSt HMsg) as Hc. cbn [TransFunc StateMachineInit].
  assert (Hrow : ∀ i T, length (foldl (λ T j, <[Z.to_nat (i * nmsg + j) := Some f]> T) T (seqZ 0 nmsg))
    = length T) by (intros i; apply foldl_length; intros; apply length_insert).
  apply fill_cells with (x := St); [by intros| |by apply elem_of_seqZ; lia| |lia].
  - intros T i. revert T. generalize (seqZ 0 nmsg). induction l as [|j l IH]; intros T HT; simpl; [done|].
    by apply IH, insert_same_keep.
  - intros T HT. apply fill_cells with (x := Msg); try done.
    + intros; apply length_insert.
    + intros; by apply insert_same_keep.
    + apply elem_of_seqZ. lia.
    + intros T' HT'. by apply list_lookup_insert_eq.
Qed.

Lemma set_action_table S nst nmsg T s m f :
  0 ≤ nst → nmsg < 2 ^ 64 → table_wf S nst nmsg T → 0 ≤ s → 0 ≤ m < 2 ^ 64 →
  table_wf (StateMachineSetAction S s m f) nst nmsg
    (λ St Msg, if (s =? St) && (m =? Msg) then f else T St Msg).
Proof.
  intros Hn Hm [Hb Hs Hg Hc] H0s Hmr. unfold StateMachineSetAction.
  rewrite Hb, Z.sub_0_r, wrap_id by (done || lia). rewrite Hs, Hg.
  destruct ((s <? nst) && (m <? nmsg)) eqn:E.
  - split; try done. intros St Msg HSt HMsg. cbn [TransFunc].
    destruct (decide (s = St ∧ m = Msg)) as [[-> ->]|Hne].
    + rewrite !Z.eqb_refl. apply list_lookup_insert_eq. by eapply lookup_lt_Some, Hc.
    + rewrite list_lookup_insert_ne by (intros Ei; apply Hne; apply cell_inj with (n := nmsg); lia).
      rewrite Hc by done. replace ((s =? St) && (m =? Msg)) with false by lia. done.
  - split; try done. intros St Msg HSt HMsg. rewrite Hc by done.
    replace ((s =? St) && (m =? Msg)) with false by lia. done.
Qed.

Lemma set_actions_table l : ∀ S nst nmsg T,
  0 ≤ nst → nmsg < 2 ^ 64 → table_wf S nst nmsg T →
  Forall (λ '(s, m, _), 0 ≤ s ∧ 0 ≤ m < 2 ^ 64) l →
  table_wf (set_actions S l) nst nmsg (λ St Msg, find_action l (T St Msg) St Msg).
Proof.
  unfold set_actions. induction l as [|[[s m] f] l IH]; intros S nst nmsg T Hn Hm HT Hl; simpl; [done|].
  apply Forall_cons in Hl as [[H0 H1] Hl].
  apply (IH _ nst nmsg (λ St Msg, if (s =? St) && (m =? Msg) then f else T St Msg)); try done.
  by apply set_action_table.
Qed.

Lemma perform_table S nst nmsg T St Msg :
  nst * nmsg < 2 ^ 64 → table_wf S nst nmsg T → 0 ≤ St < nst → 0 ≤ Msg < nmsg →
  StateMachinePerformAction S Msg St = Some (Some (T St Msg)).
Proof.
  intros Hr [Hb Hs Hm Hc] HSt HMsg. unfold StateMachinePerformAction.
  pose proof (cell_lt nst nmsg St Msg HSt HMsg).
  rewrite Hb, Hm, Z.sub_0_r, wrap_id by (lia || (unfold in_range; lia)). by apply Hc.
Qed.

(** * The machines of the engine *)

(** The numbers of states and messages of the machines with a table. *)
Definition machine_size (M : Z) : option (Z * Z) :=
  if M =? ASSOC_STATE_MACHINE then Some (MAX_ASSOC_STATE, MAX_ASSOC_MSG)
  else if M =? AUTH_STATE_MACHINE then Some (MAX_AUTH_STATE, MAX_AUTH_MSG)
  else if M =? AUTH_RSP_STATE_MACHINE then Some (MAX_AUTH_RSP_STATE, MAX_AUTH_RSP_MSG)
  else if M =? SYNC_STATE_MACHINE then Some (MAX_SYNC_STATE, MAX_SYNC_MSG)
  else if M =? ACTION_STATE_MACHINE then Some (MAX_ACT_STATE, MAX_ACT_MSG)
  else if M =? WPA_STATE_MACHINE then Some (MAX_WPA_PTK_STATE, MAX_WPA_MSG)
  else None.

(** A message the tables have a cell for; the machine without a table is out. *)
Definition in_tables (M T : Z) : bool :=
  match machine_size M with
  | Some (_, n) => (0 <=? T) && (T <? n)
  | None => negb (M =? WPA_PSK_STATE_MACHINE)
  end.

Definition elem_ok (e : MLME_QUEUE_ELEM) : bool :=
  (el_MsgType e =? MT2_RESET_CONF) || in_tables (el_Machine e) (el_MsgType e).

Definition machine_ok (S : STATE_MACHINE) (nst nmsg : Z) : Prop :=
  (∃ T, table_wf S nst nmsg T) ∧ 0 ≤ CurrState S < nst.

Definition machines_ok (m : MLME_STRUCT) : Prop :=
  machine_ok (AssocMachine m) MAX_ASSOC_STATE MAX_ASSOC_MSG ∧
  machine_ok (AuthMachine m) MAX_AUTH_STATE MAX_AUTH_MSG ∧
  machine_ok (AuthRspMachine m) MAX_AUTH_RSP_STATE MAX_AUTH_RSP_MSG ∧
  machine_ok (SyncMachine m) MAX_SYNC_STATE MAX_SYNC_MSG ∧
  machine_ok (ActMachine m) MAX_ACT_STATE MAX_ACT_MSG ∧
  machine_ok (WpaMachine m) MAX_WPA_PTK_STATE MAX_WPA_MSG.

(** The arrays of function pointers have the sizes of [MLME_STRUCT]. *)
Definition arrays_ok (m : MLME_STRUCT) : Prop :=
  Z.of_nat (length (TransFunc (AssocMachine m))) = MAX_ASSOC_STATE * MAX_ASSOC_MSG ∧
  Z.of_nat (length (TransFunc (AuthMachine m))) = MAX_AUTH_STATE * MAX_AUTH_MSG ∧
  Z.of_nat (length (TransFunc (AuthRspMachine m))) = MAX_AUTH_RSP_STATE * MAX_AUTH_RSP_MSG ∧
  Z.of_nat (length (TransFunc (SyncMachine m))) = MAX_SYNC_STATE * MAX_SYNC_MSG ∧
  Z.of_nat (length (TransFunc (ActMachine m))) = MAX_ACT_STATE * MAX_ACT_MSG ∧
  Z.of_nat (length (TransFunc (WpaMachine m))) = MAX_WPA_PTK_STATE * MAX_WPA_MSG.

Lemma set_actions_CurrState l : ∀ S, CurrState (set_actions S l) = CurrState S.
Proof.
  unfold set_actions. induction l as [|[[s m] f] l IH]; intros S; simpl; [done|]. rewrite IH.
  unfold StateMachineSetAction. by destruct (_ && _).
Qed.

Lemma init_machine Trans nst nmsg l :
  Z.of_nat (length Trans) = nst * nmsg → 0 < nst → 0 ≤ nmsg → nmsg < 2 ^ 64 →
  Forall (λ '(s, m, _), 0 ≤ s ∧ 0 ≤ m < 2 ^ 64) l →
  machine_ok (set_actions (StateMachineInit Trans nst nmsg f_Drop 0 0) l) nst nmsg.
Proof.
  intros Hl Hs Hm Hr HF. split.
  - eexists. apply set_actions_table; try done; [lia|]. apply init_table; lia.
  - rewrite set_actions_CurrState. simpl. lia.
Qed.

Lemma actions_check l :
  forallb (λ '(s, m, _), (0 <=? s) && (0 <=? m) && (m <? 2 ^ 64)) l = true →
  Forall (λ '(s, m, _), 0 ≤ s ∧ 0 ≤ m < 2 ^ 64) (l : list (Z * Z * STATE_MACHINE_FUNC)).
Proof.
  intros H. apply Forall_forall. intros [[s m] f] Hx%list_elem_of_In.
  rewrite forallb_forall in H. specialize (H _ Hx). simpl in H. lia.
Qed.

Lemma MlmeInit_machines m : arrays_ok m → machines_ok (MlmeInit m).
Proof.
  intros (H1 & H2 & H3 & H4 & H5 & H6). unfold MlmeInit, machines_ok.
  cbn [AssocMachine AuthMachine AuthRspMachine SyncMachine ActMachine WpaMachine].
  unfold AssocStateMachineInit, AuthStateMachineInit, AuthRspStateMachineInit, SyncStateMachineInit,
    ActionStateMachineInit, WpaStateMachineInit.
  conjs; (apply init_machine; [assumption|done|done|done|apply actions_check; vm_compute; reflexivity]).
Qed.

(** A table machine has a function for every message within its table. *)
Lemma machine_perform S nst nmsg T :
  machine_ok S nst nmsg → nst * nmsg < 2 ^ 64 → (0 <=? T) && (T <? nmsg) = true →
  ∃ f, StateMachinePerformAction S T (CurrState S) = Some (Some f).
Proof. intros [[Tb HT] Hc] Hr Hm. eexists. eapply perform_table; try done. lia. Qed.

Lemma in_tables_perform m M T S :
  machines_ok m → in_tables M T = true → machine_of M m = Some S →
  ∃ f, StateMachinePerformAction S T (CurrState S) = Some (Some f).
Proof.
  intros (H1 & H2 & H3 & H4 & H5 & H6). unfold in_tables, machine_size, machine_of.
  destruct (M =? ASSOC_STATE_MACHINE); [intros ? [= <-]; by eapply machine_perform|].
  destruct (M =? AUTH_STATE_MACHINE); [intros ? [= <-]; by eapply machine_perform|].
  destruct (M =? AUTH_RSP_STATE_MACHINE); [intros ? [= <-]; by eapply machine_perform|].
  destruct (M =? SYNC_STATE_MACHINE); [intros ? [= <-]; by eapply machine_perform|].
  destruct (M =? WPA_PSK_STATE_MACHINE) eqn:EP.
  { apply Z.eqb_eq in EP as ->. done. }
  destruct (M =? ACTION_STATE_MACHINE); [intros ? [= <-]; by eapply machine_perform|].
  destruct (M =? WPA_STATE_MACHINE); [intros ? [= <-]; by eapply machine_perform|done].
Qed.

Lemma land_le_r x y : 0 ≤ y → 0 ≤ Z.land x y ≤ y.
Proof.
  intros Hy. split; [apply Z.land_nonneg; by right|]. destruct (Z.eq_dec y 0) as [->|]; [by rewrite Z.land_0_r|].
  rewrite Z.land_comm. apply Z.ldiff_le; [done|]. apply Z.bits_inj'. intros i Hi.
  rewrite Z.ldiff_spec, Z.land_spec, Z.bits_0. btauto.
Qed.

Lemma WpaMsgTypeSubst_range t T : WpaMsgTypeSubst t = Some T → 0 ≤ T < MAX_WPA_MSG.
Proof. unfold WpaMsgTypeSubst. repeat case_match; intros [= <-]; done. Qed.

(** The type a received frame is given has a cell, or the machine is illegal. *)
Lemma MsgTypeSubst_range Msg M T :
  MsgTypeSubst Msg = Some (M, T) →
  (is_Some (machine_size M) ∧ in_tables M T = true) ∨ (M = 0xff ∧ T = 0).
Proof.
  unfold MsgTypeSubst. destruct (fc_Type Msg =? FC_TYPE_DATA).
  { intros H. apply bind_Some in H as (t & Ht%WpaMsgTypeSubst_range & [= <- <-]). left.
    split; [by eexists|]. unfold in_tables, machine_size, MAX_WPA_MSG in *. simpl. lia. }
  pose proof (land_le_r (octet Msg 0) 0x7F ltac:(done)) as Hl.
  repeat case_match; intros [= <- <-]; try (left; split; [by eexists|done]); [by right|].
  left. split; [by eexists|]. unfold in_tables, machine_size. simpl.
  unfold MAX_PEER_CATE_MSG, MAX_ACT_MSG, MAX_IEEE_STD_CATE in *. lia.
Qed.
