(* ===== verification/MlmeClaims.v ===== *)
(** The theorems on the MLME engine: the ring is a bounded first-in first-out
    queue, the frames a peer can send index inside the tables, and a run of
    the handler serves everything that waits. *)

From Stdlib Require Import ZifyNat.
From S2P Require Import Prelude Mlme MlmeProofs.

#[local] Arguments MlmeDequeue : simpl never.

(** * The queue against its specification *)

(** What the users of the queue do: messages of the driver, received frames,
    and the handler taking an element and releasing it. *)
Inductive qop :=
| Op_Enqueue (Fl Machine MsgType MsgLen : Z) (Msg : option (list Z)) (Priv : Z)
| Op_Recv (Fl : Z) (ate : bool) (ri : rx_info) (MsgLen : Z) (Msg : list Z)
| Op_Dequeue
| Op_Release.

(** The queue and the slot of the element being served. *)
Definition queue_step (o : qop) (s : MLME_QUEUE * option nat)
    : option (bool * (MLME_QUEUE * option nat)) :=
  let '(q, fl) := s in
  match o with
  | Op_Enqueue Fl M T n Msg P => '(b, q) ← MlmeEnqueue Fl q M T n Msg P; Some (b, (q, fl))
  | Op_Recv Fl ate ri n Msg => '(b, q) ← MlmeEnqueueForRecv Fl ate q ri n Msg; Some (b, (q, fl))
  | Op_Dequeue =>
      match fl with
      | Some _ => Some (false, s)
      | None =>
          if MlmeQueueEmpty q then Some (false, s)
          else let '(i, q) := MlmeDequeue q in Some (true, (q, Some i))
      end
  | Op_Release =>
      match fl with
      | Some i => Some (true, (release_elem i q, None))
      | None => Some (false, s)
      end
  end.

Fixpoint queue_run (ops : list qop) (s : MLME_QUEUE * option nat)
    : option (list bool * (MLME_QUEUE * option nat)) :=
  match ops with
  | [] => Some ([], s)
  | o :: ops =>
      '(b, s) ← queue_step o s;
      '(bs, s) ← queue_run ops s;
      Some (b :: bs, s)
  end.

(** The specification: a list of messages and the message being served. *)
Inductive qmsg :=
| Internal (Machine MsgType MsgLen : Z) (Msg : option (list Z)) (Priv : Z)
| Received (ri : rx_info) (MsgLen : Z) (Msg : list Z).

Definition halted (Fl : Z) : bool :=
  RTMP_TEST_FLAG Fl (Z.lor fRTMP_ADAPTER_HALT_IN_PROGRESS fRTMP_ADAPTER_NIC_NOT_EXIST).

(** [None]: the specification makes no promise (a message of the driver that
    takes the last slot while an element is being served). *)
Definition spec_step (o : qop) (a : list qmsg * option qmsg)
    : option (bool * (list qmsg * option qmsg)) :=
  let '(l, cur) := a in
  let len := Z.of_nat (length l) in
  match o with
  | Op_Enqueue Fl M T n Msg P =>
      if halted Fl || (1600 <? n) || (40 <=? len) then Some (false, a)
      else if bool_decide (cur ≠ None) && (39 <=? len) then None
      else Some (true, (l ++ [Internal M T n Msg P], cur))
  | Op_Recv Fl ate ri n Msg =>
      if ate || halted Fl || (1600 <? n) || (20 <=? len) || bool_decide (MsgTypeSubst Msg = None)
      then Some (false, a)
      else Some (true, (l ++ [Received ri n Msg], cur))
  | Op_Dequeue =>
      match cur, l with
      | None, m :: l => Some (true, (l, Some m))
      | _, _ => Some (false, a)
      end
  | Op_Release =>
      match cur with
      | Some _ => Some (true, (l, None))
      | None => Some (false, a)
      end
  end.

Fixpoint spec_run (ops : list qop) (a : list qmsg * option qmsg)
    : option (list bool * (list qmsg * option qmsg)) :=
  match ops with
  | [] => Some ([], a)
  | o :: ops =>
      '(b, a) ← spec_step o a;
      '(bs, a) ← spec_run ops a;
      Some (b :: bs, a)
  end.

(** The bytes of [d] that a message of length [n] copies are in the buffer. *)
Definition holds (e : MLME_QUEUE_ELEM) (n : Z) (d : list Z) : Prop :=
  let x := take (Z.to_nat n) d in take (length x) (el_Msg e) = x.

(** The element holds the message. *)
Definition carries (e : MLME_QUEUE_ELEM) (m : qmsg) : Prop :=
  match m with
  | Internal M T n Msg P =>
      el_Machine e = M ∧ el_MsgType e = T ∧ el_MsgLen e = n ∧ el_Priv e = P ∧
      el_Wcid e = RESERVED_WCID ∧ (∀ d, Msg = Some d → holds e n d)
  | Received ri n Msg =>
      MsgTypeSubst Msg = Some (el_Machine e, el_MsgType e) ∧ el_MsgLen e = n ∧ el_Priv e = 0 ∧
      el_Wcid e = Z.to_nat (u8 (rxi_Wcid ri)) ∧ el_TimeStamp e = rxi_TimeStamp ri ∧
      el_Rssi e = rxi_Rssi ri ∧ el_Signal e = rxi_Signal ri ∧ el_OpMode e = rxi_OpMode ri ∧
      el_Channel e = rxi_Channel ri ∧ holds e n Msg
  end.

Definition refines (s : MLME_QUEUE * option nat) (a : list qmsg * option qmsg) : Prop :=
  let '(q, fl) := s in
  let '(l, cur) := a in
  queue_wf q fl ∧ Forall2 carries (pending q) l ∧
  option_Forall2 (λ i m, ∃ e, Entry q !! i = Some e ∧ carries e m) fl cur.

Lemma refines_length q fl l cur : refines (q, fl) (l, cur) → Z.of_nat (length l) = Num q.
Proof. intros (Hw & Hl & _). rewrite <- (Forall2_length _ _ _ Hl). by eapply length_pending. Qed.

Lemma bwrite_holds buf n d :
  let x := take (Z.to_nat n) d in take (length x) (bwrite buf 0 x) = x.
Proof. simpl. unfold bwrite. rewrite take_0. simpl. apply take_app_length. Qed.

Lemma length_store_msg buf Msg n :
  length buf = MLME_BUFFER_SIZE → n ≤ 1600 → length (store_msg buf Msg n) = MLME_BUFFER_SIZE.
Proof.
  intros Hb Hn. destruct Msg as [d|]; [|done]. simpl. rewrite length_bwrite; [done|].
  rewrite length_take, Hb. unfold MLME_BUFFER_SIZE. lia.
Qed.

(** Filling the tail slot appends the message and keeps the one in service. *)
Lemma refines_put q fl l cur e m :
  refines (q, fl) (l, cur) → Z.of_nat (length l) < 40 →
  (cur ≠ None → Z.of_nat (length l) < 39) →
  length (el_Msg e) = MLME_BUFFER_SIZE → el_Occupied e = true → carries e m →
  refines (put_elem q e, fl) (l ++ [m], cur).
Proof.
  intros H Hn Hf Hm Ho Hc. pose proof (refines_length _ _ _ _ H) as El. destruct H as (Hw & Hl & Hcur).
  destruct (put_elem_wf q fl e) as [Hw' Ep]; try done.
  { unfold MAX_LEN_OF_MLME_QUEUE. lia. }
  { intros Hfl. unfold MAX_LEN_OF_MLME_QUEUE. destruct Hcur; [|done]. specialize (Hf ltac:(done)). lia. }
  split; [done|]. split.
  { rewrite Ep. apply Forall2_app; [done|]. by constructor. }
  destruct Hcur as [i m' (e' & He' & Hc')|]; [|constructor]. constructor. exists e'. split; [|done].
  rewrite <- He'. unfold put_elem, take_slot. simpl. apply list_lookup_insert_ne.
  destruct (wf_fl _ _ Hw i eq_refl) as [-> _]. rewrite (wf_tail _ _ Hw). intros E.
  pose proof (wf_num _ _ Hw). specialize (Hf ltac:(done)).
  apply slot_inj in E; unfold MAX_LEN_OF_MLME_QUEUE in *; lia.
Qed.

(** The slot that the tail points to. *)
Lemma tail_elem q fl : queue_wf q fl →
  ∃ e, Entry q !! Tail q = Some e ∧ length (el_Msg e) = MLME_BUFFER_SIZE ∧
    (Num q < 40 → el_Occupied e = bool_decide (fl = Some (Tail q))).
Proof.
  intros Hw. destruct (ring_slot_Some q fl (Z.to_nat (Num q)) Hw) as [e He]. exists e.
  rewrite (wf_tail _ _ Hw). conjs; [done| |].
  - eapply Forall_lookup_1 in He; [|apply (wf_buf _ _ Hw)]. done.
  - intros Hn. rewrite (wf_occ _ _ Hw (Z.to_nat (Num q)) e); [|pose proof (wf_num _ _ Hw); unfold MAX_LEN_OF_MLME_QUEUE; lia|done].
    apply bool_decide_ext. pose proof (wf_num _ _ Hw). split; [intros [?|?]; [lia|done]|by right].
Qed.

Lemma full_driver q fl : queue_wf q fl → MlmeQueueFull q 1 = Some (40 <=? Num q).
Proof.
  intros Hw. pose proof (wf_num _ _ Hw). unfold MlmeQueueFull. cbn [Z.eqb]. f_equal.
  change (Z.of_nat MAX_LEN_OF_MLME_QUEUE) with 40 in *.
  destruct (Z.eqb_spec (Num q) 40), (Z.leb_spec 40 (Num q)); done || lia.
Qed.

(** The receive path never meets an occupied slot below half of the ring. *)
Lemma full_recv q fl : queue_wf q fl → MlmeQueueFull q 0 = Some (20 <=? Num q).
Proof.
  intros Hw. unfold MlmeQueueFull. simpl. destruct (tail_elem q fl Hw) as (e & -> & _ & Ho). simpl.
  f_equal. change (Z.of_nat MAX_LEN_OF_MLME_QUEUE / 2) with 20.
  destruct (Z.leb_spec 20 (Num q)); [done|]. simpl. rewrite Ho by lia.
  apply bool_decide_eq_false. intros E. destruct (wf_fl _ _ Hw _ E) as [Et _].
  rewrite (wf_tail _ _ Hw) in Et. pose proof (wf_num _ _ Hw).
  apply slot_inj in Et; unfold MAX_LEN_OF_MLME_QUEUE in *; lia.
Qed.

Lemma refines_enqueue Fl M T n Msg P q fl l cur b a' :
  refines (q, fl) (l, cur) →
  spec_step (Op_Enqueue Fl M T n Msg P) (l, cur) = Some (b, a') →
  ∃ s', queue_step (Op_Enqueue Fl M T n Msg P) (q, fl) = Some (b, s') ∧ refines s' a'.
Proof.
  intros H. pose proof (refines_length _ _ _ _ H) as El. pose proof H as (Hw & _).
  simpl. unfold MlmeEnqueue. fold (halted Fl). rewrite El, (full_driver q fl) by done.
  destruct (halted Fl); simpl; [intros [= <- <-]; by eexists|].
  change (Z.of_nat MLME_BUFFER_SIZE) with 1600.
  destruct (1600 <? n) eqn:En; simpl; [intros [= <- <-]; by eexists|].
  destruct (40 <=? Num q) eqn:E40; simpl; [intros [= <- <-]; by eexists|].
  destruct (bool_decide (cur ≠ None) && (39 <=? Num q)) eqn:Ec; [done|]. intros [= <- <-].
  destruct (tail_elem q fl Hw) as (e & He & Hm & _). rewrite He. simpl.
  eexists. split; [done|]. apply refines_put; try done; simpl.
  - lia.
  - intros Hc. rewrite bool_decide_true in Ec by done. simpl in Ec. lia.
  - apply length_store_msg; [done|lia].
  - conjs; try done. intros d ->. apply bwrite_holds.
Qed.

Lemma refines_recv Fl ate ri n Msg q fl l cur b a' :
  refines (q, fl) (l, cur) →
  spec_step (Op_Recv Fl ate ri n Msg) (l, cur) = Some (b, a') →
  ∃ s', queue_step (Op_Recv Fl ate ri n Msg) (q, fl) = Some (b, s') ∧ refines s' a'.
Proof.
  intros H. pose proof (refines_length _ _ _ _ H) as El. pose proof H as (Hw & _).
  simpl. unfold MlmeEnqueueForRecv. fold (halted Fl). rewrite El, (full_recv q fl) by done.
  destruct ate; simpl; [intros [= <- <-]; by eexists|].
  destruct (halted Fl); simpl; [intros [= <- <-]; by eexists|].
  change (Z.of_nat MLME_BUFFER_SIZE) with 1600.
  destruct (1600 <? n) eqn:En; simpl; [intros [= <- <-]; by eexists|].
  destruct (20 <=? Num q) eqn:E20; simpl; [intros [= <- <-]; by eexists|].
  destruct (MsgTypeSubst Msg) as [[M T]|] eqn:Em; simpl; [|intros [= <- <-]; by eexists].
  intros [= <- <-]. destruct (tail_elem q fl Hw) as (e & He & Hm & _). rewrite He. simpl.
  eexists. split; [done|]. apply refines_put; try done; simpl; try lia.
  - by apply (length_store_msg _ (Some Msg)); [|lia].
  - conjs; try done. apply bwrite_holds.
Qed.

Lemma refines_step o s a b a' :
  refines s a → spec_step o a = Some (b, a') →
  ∃ s', queue_step o s = Some (b, s') ∧ refines s' a'.
Proof.
  destruct s as [q fl], a as [l cur]. intros H.
  destruct o; [by apply refines_enqueue|by apply refines_recv| |];
    pose proof (refines_length _ _ _ _ H) as El; pose proof H as (Hw & HF & Hcur); cbn [queue_step spec_step].
  - destruct Hcur as [i m Hi|]; [intros [= <- <-]; by eexists|].
    unfold MlmeQueueEmpty. destruct l as [|m l]; simpl in El.
    { intros [= <- <-]. replace (Num q =? 0) with true by lia. by eexists. }
    intros [= <- <-]. replace (Num q =? 0) with false by lia.
    destruct (dequeue_wf q Hw) as (e & He & Ep & Ei & Ee & _ & Hw'); [lia|].
    destruct (MlmeDequeue q) as [i q'] eqn:Ed. simpl in *. subst i. simpl.
    eexists. split; [done|]. rewrite Ep in HF. apply Forall2_cons_1 in HF as [Hc HF].
    refine (conj Hw' (conj HF _)). constructor. exists e. by rewrite Ee.
  - destruct Hcur as [i m Hi|]; intros [= <- <-]; [|by eexists].
    eexists. split; [done|]. destruct (release_wf q i Hw) as [Hw' Ep].
    split; [done|]. rewrite Ep. split; [done|constructor].
Qed.

(** C35: The MLME ring is a bounded first-in first-out queue.  Over every
    interleaving of messages of the driver, received frames, and the handler
    taking and releasing elements that the specification allows, the ring
    accepts exactly what the list specification accepts (nothing while halting
    or in test mode, nothing over 1600 bytes, frames of the air only below 20
    waiting and only of a known type, messages of the driver below 40), the
    waiting elements carry the accepted messages in order with their bytes, and
    the element in service keeps carrying the message it was taken with.  The
    specification does not allow a message of the driver while 39 others wait
    and an element is in service: it would take the place of that element
    ([last_slot_overwritten]), and nothing is claimed of such runs. *)
Theorem mlme_queue_fifo ops s a bs a' (HR : refines s a) (Hs : spec_run ops a = Some (bs, a')) :
  ∃ s', queue_run ops s = Some (bs, s') ∧ refines s' a'.
Proof.
  revert s a bs a' HR Hs. induction ops as [|o ops IH]; intros s a bs a' HR Hs; simpl in *.
  { simplify_eq. by eexists. }
  apply bind_Some in Hs as ([b a1] & E1 & Hs). apply bind_Some in Hs as ([bs1 a2] & E2 & Hs).
  simplify_eq. destruct (refines_step _ _ _ _ _ HR E1) as (s1 & -> & HR1). simpl.
  destruct (IH _ _ _ _ HR1 E2) as (s2 & -> & HR2). by eexists.
Qed.

Definition blank_elem : MLME_QUEUE_ELEM := mk_qelem [] 0 0 0 (0, 0) (0, 0, 0) 0 0 0 false 0 0.
Definition blank_queue : MLME_QUEUE := mk_queue 7 3 9 (replicate MAX_LEN_OF_MLME_QUEUE blank_elem).
Definition demo_ri : rx_info := mk_rxinfo 1 (0, 7) (60, 61, 62) 5 0 11.
Definition demo_beacon : list Z := 0x80 :: zeros 40.
Definition demo_ops : list qop :=
  [Op_Enqueue 0 MLME_CNTL_STATE_MACHINE 40 2 (Some [1; 2]) 0; Op_Recv 0 false demo_ri 41 demo_beacon;
   Op_Dequeue; Op_Recv 0 false demo_ri 1601 demo_beacon; Op_Enqueue 0x40 1 1 0 None 0;
   Op_Enqueue 0 ASSOC_STATE_MACHINE 2 1 (Some [9]) 3; Op_Release; Op_Dequeue].

Lemma mlme_queue_fifo_witness :
  ∃ s', queue_run demo_ops (MlmeQueueInit blank_queue, None) =
    Some ([true; true; true; false; false; true; true; true], s') ∧
  refines s' ([Internal ASSOC_STATE_MACHINE 2 1 (Some [9]) 3], Some (Received demo_ri 41 demo_beacon)).
Proof.
  apply (mlme_queue_fifo demo_ops _ ([], None)); [|vm_compute; reflexivity].
  destruct (init_wf blank_queue) as [Hw Ep]; [reflexivity|].
  split; [exact Hw|]. rewrite Ep. split; constructor.
Defined.

(** A message of the driver that takes the 40th place while an element is in
    service overwrites that element, and its release then clears the new
    message: length 0 and a slot that counts as free. *)
Definition full_ring : MLME_QUEUE :=
  Nat.iter 40 (λ q, default q (snd <$> MlmeEnqueue 0 q ASSOC_STATE_MACHINE 0 2 (Some [1; 2]) 0))
    (MlmeQueueInit blank_queue).

Example last_slot_overwritten :
  match queue_run [Op_Dequeue; Op_Enqueue 0 SYNC_STATE_MACHINE 1 4 (Some [3; 4; 5; 6]) 0; Op_Release]
          (full_ring, None) with
  | Some (bs, (q, _)) =>
      bs = [true; true; true] ∧ Num q = 40 ∧
      option_map (λ e, (el_Machine e, el_MsgLen e, el_Occupied e)) (last (pending q)) =
        Some (SYNC_STATE_MACHINE, 0, false)
  | None => False
  end.
Proof. vm_compute. done. Qed.

(** * The tables *)

(** A state machine calls, in each state and for each message within its
    numbers, the function set last for that cell, and the default function
    when none was set; settings outside the numbers change nothing. *)
Theorem state_machine_last_action Trans nst nmsg def st l St Msg
    (Hl : Z.of_nat (length Trans) = nst * nmsg) (Hr : nst * nmsg < 2 ^ 64)
    (HF : Forall (λ '(s, m, _), 0 ≤ s ∧ 0 ≤ m < 2 ^ 64) l)
    (HS : 0 ≤ St < nst) (HM : 0 ≤ Msg < nmsg) :
  StateMachinePerformAction (set_actions (StateMachineInit Trans nst nmsg def st 0) l) Msg St =
  Some (Some (find_action l def St Msg)).
Proof.
  assert (nmsg < 2 ^ 64) by nia.
  apply (perform_table _ nst nmsg (λ St Msg, find_action l def St Msg)); try done.
  apply (set_actions_table l _ _ _ (λ _ _, def)); try done; [lia|]. apply init_table; lia.
Qed.

Lemma state_machine_last_action_witness :
  StateMachinePerformAction
    (set_actions (StateMachineInit (replicate 6 None) 2 3 f_Drop 0 0)
       [(0, 1, f_PeerBeacon); (1, 2, f_PeerBAAction); (0, 1, f_PeerHTAction); (2, 0, f_PeerRMAction)]) 1 0
  = Some (Some f_PeerHTAction).
Proof.
  rewrite (state_machine_last_action (replicate 6 None) 2 3 f_Drop 0
    [(0, 1, f_PeerBeacon); (1, 2, f_PeerBAAction); (0, 1, f_PeerHTAction); (2, 0, f_PeerRMAction)] 0 1);
    [reflexivity|reflexivity|reflexivity|apply actions_check; reflexivity|lia|lia].
Defined.

(** Whatever bytes a received frame holds, the machine and the type it is
    given index inside the table of that machine in each of its states, so the
    unchecked call of the handler finds a function; the only other outcome is
    the illegal machine 0xff, which the handler drops. *)
Theorem frames_index_in_tables m Msg M T
    (Hm : machines_ok m) (HT : MsgTypeSubst Msg = Some (M, T)) :
  (∃ S f, machine_of M m = Some S ∧ StateMachinePerformAction S T (CurrState S) = Some (Some f)) ∨
  (M = 0xff ∧ machine_of M m = None).
Proof.
  destruct (MsgTypeSubst_range _ _ _ HT) as [[[sz Hsz] Hin]|[-> _]]; [left|by right].
  assert (∃ S, machine_of M m = Some S) as [S HS].
  { unfold machine_size, machine_of in *. repeat case_match; by eauto. }
  exists S. destruct (in_tables_perform m M T S) as [f Hf]; eauto.
Qed.

Definition blank_sm (n : nat) : STATE_MACHINE := mk_sm 0 0 0 9 (replicate n None).
Definition blank_mlme : MLME_STRUCT :=
  mk_mlme (blank_sm 0) (blank_sm 44) (blank_sm 9) (blank_sm 6) (blank_sm 48) (blank_sm 0) (blank_sm 28)
    (blank_sm 5) true blank_queue.

Lemma blank_machines : machines_ok (MlmeInit blank_mlme).
Proof. apply MlmeInit_machines. repeat split. Qed.

Lemma frames_index_in_tables_witness :
  (∃ S f, machine_of SYNC_STATE_MACHINE (MlmeInit blank_mlme) = Some S ∧
     StateMachinePerformAction S MT2_PEER_BEACON (CurrState S) = Some (Some f)) ∨
  (SYNC_STATE_MACHINE = 0xff ∧ machine_of SYNC_STATE_MACHINE (MlmeInit blank_mlme) = None).
Proof.
  apply (frames_index_in_tables (MlmeInit blank_mlme) demo_beacon); [apply blank_machines|reflexivity].
Defined.

(** An authentication frame of sequence 2 and an unknown algorithm is accepted
    with the illegal machine. *)
Example auth_unknown_alg :
  MsgTypeSubst ([0xb0] ++ zeros 23 ++ [7; 0; 2; 0; 0; 0]) = Some (0xff, 0).
Proof. reflexivity. Qed.

(** * The handler *)

(** What holds between two steps of the handler: the ring, with the element
    in service; the machines; and every waiting message has a table cell. *)
Definition engine_ok {W} (p : RTMP_ADAPTER W) (fl : option nat) : Prop :=
  queue_wf (Queue (Mlme p)) fl ∧ machines_ok (Mlme p) ∧
  Forall (λ e, elem_ok e = true) (pending (Queue (Mlme p))).

Definition load {W} (mu : W → nat) (p : RTMP_ADAPTER W) : Z := Num (Queue (Mlme p)) + Z.of_nat (mu (rest p)).

(** What the functions of the machines promise to the handler: as long as the
    ring has room for all that waits and for the budget [mu], they keep the
    engine in order, and what they enqueue they take from the budget. *)
Class MlmeActions {W : Type} (act : STATE_MACHINE_FUNC → nat → RTMP_ADAPTER W → RTMP_ADAPTER W)
    (cntl : nat → RTMP_ADAPTER W → RTMP_ADAPTER W) (restart : RTMP_ADAPTER W → RTMP_ADAPTER W)
    (mu : W → nat) : Prop := {
  act_law f i p : engine_ok p (Some i) → load mu p < 40 → engine_ok (act f i p) (Some i) ∧ load mu (act f i p) ≤ load mu p;
  cntl_law i p : engine_ok p (Some i) → load mu p < 40 → engine_ok (cntl i p) (Some i) ∧ load mu (cntl i p) ≤ load mu p;
  restart_law i p : engine_ok p (Some i) → load mu p < 40 → engine_ok (restart p) (Some i) ∧ load mu (restart p) ≤ load mu p
}.

Section handler.
Context {W : Type} (act : STATE_MACHINE_FUNC → nat → RTMP_ADAPTER W → RTMP_ADAPTER W).
Context (cntl : nat → RTMP_ADAPTER W → RTMP_ADAPTER W) (restart : RTMP_ADAPTER W → RTMP_ADAPTER W).
Context (mu : W → nat) `{!MlmeActions act cntl restart mu}.

Lemma restart_machines p i : engine_ok p (Some i) → load mu p < 40 →
  engine_ok (MlmeRestartStateMachine restart p) (Some i) ∧
  load mu (MlmeRestartStateMachine restart p) ≤ load mu p.
Proof.
  intros H HL. destruct (restart_law i p H HL) as [(Hq & Hm & HF) Hl].
  split; [|done]. unfold MlmeRestartStateMachine. set (p' := restart p) in *.
  split; [done|]. split; [|done]. destruct Hm as (H1 & H2 & H3 & H4 & H5 & H6).
  assert (Hset : ∀ S a b, machine_ok S a b → machine_ok (set_CurrState 0 S) a b).
  { intros S a b [[T [? ? ? ?]] ?]. split; [by exists T|simpl; lia]. }
  unfold machines_ok. cbn. conjs; auto.
Qed.

Lemma dispatch_ok i e p : engine_ok p (Some i) → load mu p < 40 → in_tables (el_Machine e) (el_MsgType e) = true →
  ∃ p', dispatch act cntl i e p = Some p' ∧ engine_ok p' (Some i) ∧ load mu p' ≤ load mu p.
Proof.
  intros H HL He. unfold dispatch. destruct (_ =? MLME_CNTL_STATE_MACHINE).
  { eexists. split; [done|]. by apply cntl_law. }
  destruct (machine_of _ _) as [S|] eqn:ES; [|by exists p].
  destruct (in_tables_perform _ _ _ _ (proj1 (proj2 H)) He ES) as [f ->]. simpl.
  eexists. split; [done|]. by apply act_law.
Qed.

(** One turn keeps the engine in order and lowers the load. *)
Lemma turn_ok p : engine_ok p None → load mu p ≤ 40 → 0 < Num (Queue (Mlme p)) →
  ∃ p', handler_turn act cntl restart p = Some p' ∧ engine_ok p' None ∧ load mu p' < load mu p.
Proof.
  intros (Hq & Hm & HF) HL Hn.
  destruct (dequeue_wf _ Hq Hn) as (e & He & Ep & Ei & Ee & En & Hq').
  unfold handler_turn. destruct (MlmeDequeue _) as [i q]. cbn [fst snd] in *. subst i.
  rewrite Ee, He. cbn [mbind option_bind].
  set (p1 := set_Mlme _ _). rewrite Ep in HF. apply Forall_cons in HF as [Hok HF].
  assert (H1 : engine_ok p1 (Some (Head (Queue (Mlme p))))) by done.
  assert (L1 : load mu p1 < load mu p) by (unfold load; simpl; lia).
  assert (∃ p2, (if el_MsgType e =? MT2_RESET_CONF then Some (MlmeRestartStateMachine restart p1)
    else dispatch act cntl (Head (Queue (Mlme p))) e p1) = Some p2 ∧
    engine_ok p2 (Some (Head (Queue (Mlme p)))) ∧ load mu p2 ≤ load mu p1) as (p2 & -> & H2 & L2).
  { unfold elem_ok in Hok. destruct (_ =? MT2_RESET_CONF).
    - eexists. split; [done|]. apply restart_machines; [done|lia].
    - apply dispatch_ok; [done|lia|done]. }
  simpl. eexists. split; [done|]. destruct H2 as (Hq2 & Hm2 & HF2).
  destruct (release_wf _ _ Hq2) as [Hq3 Ep3]. split; [|unfold load in *; simpl in *; lia].
  split; [done|]. split; [done|]. simpl. by rewrite Ep3.
Qed.

Lemma loop_ok fuel : ∀ p, engine_ok p None → load mu p ≤ 40 → load mu p ≤ Z.of_nat fuel →
  ∃ p', handler_loop act cntl restart fuel p = Done p' ∧ engine_ok p' None ∧
    (Num (Queue (Mlme p')) = 0 ∨ handler_stops p' = true).
Proof.
  induction fuel as [|fuel IH]; intros p H HL Hl; cbn [handler_loop];
    pose proof (wf_num _ _ (proj1 H)) as Hn; unfold MlmeQueueEmpty;
    destruct (Z.eqb_spec (Num (Queue (Mlme p))) 0); cbn [orb]; try (eexists; split; [done|by auto]).
  { unfold load in Hl. lia. }
  destruct (handler_stops p) eqn:Es; [eexists; split; [done|by auto]|].
  destruct (turn_ok p H HL) as (p' & -> & H' & L'); [lia|]. apply IH; [done|lia|lia].
Qed.

(** A run of the MLME handler ends and serves what waits.  When the functions
    of the machines keep the promise above and the ring has room for what waits
    and for their budget, the handler never calls outside a table, returns
    within as many turns as messages wait plus the budget, leaves the ring well
    formed with nothing in service and the running flag down, and has emptied
    the ring unless a stop flag or the test mode was raised meanwhile. *)
Theorem mlme_handler_drains fuel p (Hp : engine_ok p None) (Hb : bRunning (Mlme p) = false)
    (HL : load mu p ≤ 40) (Hf : load mu p ≤ Z.of_nat fuel) :
  ∃ p', MlmeHandler act cntl restart fuel p = Done p' ∧ bRunning (Mlme p') = false ∧
    engine_ok p' None ∧ (pending (Queue (Mlme p')) = [] ∨ handler_stops p' = true).
Proof.
  unfold MlmeHandler. rewrite Hb. set (p0 := set_Mlme _ _).
  destruct (loop_ok fuel p0) as (p' & -> & H' & Hd); [done..|].
  eexists. split; [done|]. split; [done|]. split; [done|].
  destruct Hd as [Hd|Hd]; [left|by right]. simpl. unfold pending. by rewrite Hd.
Qed.
End handler.

(** An engine whose control machine answers each message with a beacon-loss
    message as long as its budget lasts. *)
Definition demo_cntl (i : nat) (p : RTMP_ADAPTER nat) : RTMP_ADAPTER nat :=
  match rest p with
  | O => p
  | S n =>
      match MlmeEnqueue 0 (Queue (Mlme p)) SYNC_STATE_MACHINE MT2_BEACON_TIMEOUT 0 None 0 with
      | Some (true, q) => mk_pAd (set_Queue q (Mlme p)) (Flags p) (ate_on p) n
      | _ => p
      end
  end.

Lemma demo_actions : MlmeActions (λ _ _ p, p) demo_cntl (λ p, p) (λ n : nat, n).
Proof.
  split; [done| |done]. intros i p (Hq & Hm & HF) HL. unfold demo_cntl.
  destruct (rest p) as [|n] eqn:Er; [done|]. unfold load in HL. rewrite Er in HL. unfold MlmeEnqueue.
  rewrite (full_driver _ (Some i)) by done. cbn [mbind option_bind].
  destruct (tail_elem _ _ Hq) as (e & He & Hl & _).
  destruct (40 <=? Num (Queue (Mlme p))) eqn:E40; [done|]. simpl. rewrite He. simpl.
  match goal with |- context [<[_ := ?e']> (Entry (Queue (Mlme p)))] => set (e1 := e') end.
  destruct (put_elem_wf _ _ e1 Hq) as [Hw Ep];
    [unfold MAX_LEN_OF_MLME_QUEUE; lia|intros; unfold MAX_LEN_OF_MLME_QUEUE; lia|done|done|].
  split.
  - split; [exact Hw|]. split; [exact Hm|].
    change (Forall (λ e, elem_ok e = true) (pending (put_elem (Queue (Mlme p)) e1))).
    rewrite Ep. apply Forall_app_2; [done|by repeat constructor].
  - unfold load. cbn [Num Queue Mlme set_Queue rest set_Entry]. pose proof (wf_num _ _ Hq).
    rewrite wrap64_small by lia. rewrite Er. lia.
Qed.

Lemma iter_put q e n :
  queue_wf q None → pending q = [] → (n ≤ 40)%nat → length (el_Msg e) = MLME_BUFFER_SIZE →
  el_Occupied e = true →
  let q' := Nat.iter n (λ q, put_elem q e) q in queue_wf q' None ∧ pending q' = replicate n e.
Proof.
  intros Hw Hp Hn Hl Ho. simpl. induction n as [|n IH]; [done|]. destruct IH as [Hw' Hp']; [lia|].
  simpl. destruct (put_elem_wf _ _ e Hw') as [Hw2 Hp2]; try done.
  { rewrite <- (length_pending _ _ Hw'), Hp', length_replicate. unfold MAX_LEN_OF_MLME_QUEUE. lia. }
  split; [done|]. by rewrite Hp2, Hp', <- replicate_cons_app.
Qed.

Definition cntl_elem : MLME_QUEUE_ELEM :=
  mk_qelem (zeros MLME_BUFFER_SIZE) MLME_CNTL_STATE_MACHINE 7 0 (0, 0) (0, 0, 0) 0 0 255 true 0 0.
Definition demo_engine : RTMP_ADAPTER nat :=
  mk_pAd (set_Queue (Nat.iter 3 (λ q, put_elem q cntl_elem) (MlmeQueueInit blank_queue))
    (MlmeInit blank_mlme)) 0 false 2%nat.

Lemma mlme_handler_drains_witness :
  ∃ p', MlmeHandler (λ _ _ p, p) demo_cntl (λ p, p) 5 demo_engine = Done p' ∧
    bRunning (Mlme p') = false ∧ engine_ok p' None ∧
    (pending (Queue (Mlme p')) = [] ∨ handler_stops p' = true).
Proof.
  apply (@mlme_handler_drains nat (λ _ _ p, p) demo_cntl (λ p, p) (λ n, n) demo_actions 5 demo_engine);
    [|reflexivity|vm_compute; discriminate|vm_compute; discriminate].
  destruct (init_wf blank_queue) as [Hw Ep]; [reflexivity|].
  destruct (iter_put _ cntl_elem 3 Hw Ep) as [Hw3 Ep3]; [lia|reflexivity..|].
  split; [exact Hw3|]. split; [exact blank_machines|].
  change (Queue (Mlme demo_engine)) with (Nat.iter 3 (λ q, put_elem q cntl_elem) (MlmeQueueInit blank_queue)).
  rewrite Ep3. repeat constructor.
Defined.
