(* ===== verification/MlmeWait.v ===== *)
(** Machines that wait for an answer: what keeps one from waiting for ever.
    The state machines of the station that send a request set a timer, and
    the function of the timer queues a message for them.  The section is
    parametrised by such a machine; StaAuthClaims and StaAssocClaims
    instantiate it. *)

From Stdlib Require Import ZifyNat.
From stdpp Require Import list.
From S2P Require Import Prelude Mlme MlmeProofs MlmeClaims.

#[local] Arguments MlmeDequeue : simpl never.
#[local] Arguments MlmeEnqueue : simpl never.

(** * The queue under the actions *)

(** A message is queued at the end, or dropped while the driver halts. *)
Lemma enqueue_extends {W} fl M T n Msg (a : RTMP_ADAPTER W) :
  queue_wf (Queue (Mlme a)) fl → Num (Queue (Mlme a)) < 39 → n ≤ 1600 →
  ∃ b, enqueue M T n Msg a = Some b ∧ b = set_Mlme (set_Queue (Queue (Mlme b)) (Mlme a)) a ∧
    queue_wf (Queue (Mlme b)) fl ∧ Num (Queue (Mlme b)) ≤ Num (Queue (Mlme a)) + 1 ∧
    (halted (Flags a) = true ∧ pending (Queue (Mlme b)) = pending (Queue (Mlme a)) ∨
     halted (Flags a) = false ∧ ∃ e, pending (Queue (Mlme b)) = pending (Queue (Mlme a)) ++ [e] ∧
       el_Machine e = M ∧ el_MsgType e = T ∧ el_MsgLen e = n ∧ ∀ d, Msg = Some d → holds e n d).
Proof.
  intros Hw Hn Hm. unfold enqueue, MlmeEnqueue. fold (halted (Flags a)).
  destruct (halted (Flags a)) eqn:Hh; cbn [mbind option_bind].
  { eexists. split; [done|]. split; [done|]. cbn. split; [done|]. split; [lia|]. by left. }
  change (Z.of_nat MLME_BUFFER_SIZE) with 1600. replace (1600 <? n) with false by lia.
  rewrite (full_driver _ fl Hw). cbn [mbind option_bind]. replace (40 <=? Num (Queue (Mlme a))) with false by lia.
  destruct (tail_elem _ fl Hw) as (x & Hx & Hl & _). unfold take_slot. cbn [Entry]. rewrite Hx. cbn [mbind option_bind].
  set (e := mk_qelem _ _ _ _ _ _ _ _ _ _ _ _).
  destruct (put_elem_wf (Queue (Mlme a)) fl e) as [Hw' Ep]; try done; try (change (Z.of_nat MAX_LEN_OF_MLME_QUEUE) with 40; intros; lia).
  { by apply length_store_msg. }
  eexists. split; [done|]. split; [done|]. split; [exact Hw'|]. split.
  - cbn. pose proof (wf_num _ _ Hw). rewrite wrap64_small; lia.
  - right. split; [done|]. exists e. split; [exact Ep|]. repeat (split; [done|]). intros d ->. apply bwrite_holds.
Qed.

(** A confirmation with [halted] false: it is the last message. *)
Lemma confirm_last {W} fl T St (a : RTMP_ADAPTER W) : queue_wf (Queue (Mlme a)) fl → Num (Queue (Mlme a)) < 39 → halted (Flags a) = false →
  ∃ b e, confirm T St a = Some b ∧ b = set_Mlme (set_Queue (Queue (Mlme b)) (Mlme a)) a ∧
    pending (Queue (Mlme b)) = pending (Queue (Mlme a)) ++ [e] ∧ el_Machine e = MLME_CNTL_STATE_MACHINE ∧ el_MsgType e = T ∧
    holds e 2 (le_bytes 2 St).
Proof.
  intros Hw Hn Hh. unfold confirm.
  destruct (enqueue_extends fl MLME_CNTL_STATE_MACHINE T 2 (Some (le_bytes 2 St)) a Hw Hn ltac:(lia)) as (b & E & Eb & _ & _ & Hp).
  destruct Hp as [[? _]|[_ (e & Ep & H1 & H2 & _ & H3)]]; [congruence|]. exists b, e. repeat (split; [done|]). by apply H3.
Qed.

(** * A machine that waits *)

Section wait.
Context {W : Type}.
Abbreviation A := (RTMP_ADAPTER W).
(** The number of the machine, of its messages and its idle state; its state,
    the timer and the timeout message that belong to a state, and what else is
    to hold of the machine. *)
Context (M MaxMsg idle : Z) (state_of : A → Z) (timer_of : A → Z → option Z) (timeout : Z → Z) (good : A → Prop).
(** The restart, the serving of a message, when it is considered, and the
    function of the timer of a state. *)
Context (reset : A → A) (serve : MLME_QUEUE_ELEM → A → option A) (allowed : MLME_QUEUE_ELEM → A → Prop) (expire : Z → A → option A).

Definition requeue (q : MLME_QUEUE) (a : A) : A := set_Mlme (set_Queue q (Mlme a)) a.

(** An action ends idle, or with the timer of its state set, or it did nothing
    to the state and its timer; it queues messages for the control machine
    only. *)
Record acted (fl : option nat) (a b : A) : Prop := {
  ac_good : good b;
  ac_state : state_of b = idle ∨ timer_of b (state_of b) ≠ None ∨
    state_of b = state_of a ∧ timer_of b (state_of b) = timer_of a (state_of a);
  ac_wf : queue_wf (Queue (Mlme b)) fl;
  ac_pending : ∃ l, pending (Queue (Mlme b)) = pending (Queue (Mlme a)) ++ l ∧
    Forall (λ e, el_Machine e = MLME_CNTL_STATE_MACHINE) l
}.

(** One turn of the handler as far as this machine goes: messages for other
    machines are taken and released, the message of a restart resets it. *)
Definition machine_turn (pAd : A) : option A :=
  let '(i, q) := MlmeDequeue (Queue (Mlme pAd)) in
  let pAd := requeue q pAd in
  e ← Entry q !! i;
  pAd ← (if el_MsgType e =? MT2_RESET_CONF then Some (reset pAd)
         else if el_Machine e =? M then serve e pAd else Some pAd);
  Some (requeue (release_elem i (Queue (Mlme pAd))) pAd).

(** ** What the machine provides *)

Hypothesis not_cntl : M ≠ MLME_CNTL_STATE_MACHINE.
Hypothesis timeout_range : ∀ s, 0 ≤ timeout s < MaxMsg.
Hypothesis of_Mlme : ∀ a b, Mlme b = Mlme a → state_of b = state_of a ∧ (good a → good b).
Hypothesis of_requeue : ∀ a q, state_of (requeue q a) = state_of a ∧ timer_of (requeue q a) = timer_of a ∧ (good a → good (requeue q a)).
Hypothesis reset_idle : ∀ a, good a → good (reset a) ∧ state_of (reset a) = idle ∧ Queue (Mlme (reset a)) = Queue (Mlme a).
Hypothesis serve_acts : ∀ fl e a b, good a → 0 ≤ el_MsgType e < MaxMsg → queue_wf (Queue (Mlme a)) fl → Num (Queue (Mlme a)) < 38 →
  allowed e a → serve e a = Some b →
  acted fl a b ∧ (el_MsgType e = timeout (state_of a) → state_of a ≠ idle → state_of b = idle).
Hypothesis expire_posts : ∀ s a b, halted (Flags a) = false → expire s a = Some b →
  ∃ a1, Mlme a1 = Mlme a ∧ Flags a1 = Flags a ∧ (∀ s', timeout s' ≠ timeout s → timer_of a1 s' = timer_of a s') ∧
    enqueue M (timeout s) 0 None a1 = Some b.

(** ** Actions *)

Lemma acted_refl fl a : good a → queue_wf (Queue (Mlme a)) fl → acted fl a a.
Proof. intros. split; [done|auto|done|]. exists []. by rewrite app_nil_r. Qed.

(** Without a message: idle, or waiting with the timer set. *)
Lemma acted_quiet fl a b : good b → Queue (Mlme b) = Queue (Mlme a) → queue_wf (Queue (Mlme a)) fl →
  state_of b = idle ∨ timer_of b (state_of b) ≠ None → acted fl a b.
Proof. intros Hg Hq Hw Hs. split; [done|tauto|by rewrite Hq|]. exists []. by rewrite app_nil_r, Hq. Qed.

Lemma acted_idle_trans fl a b c : acted fl a b → acted fl b c → state_of c = idle → acted fl a c.
Proof.
  intros [G1 _ _ (l1 & P1 & F1)] [G2 _ W2 (l2 & P2 & F2)] Hs. split; [done|by left|done|].
  exists (l1 ++ l2). rewrite P2, P1, app_assoc. split; [done|by apply Forall_app].
Qed.

(** A confirmation of a machine that is idle; [a'] has the queue of [a]. *)
Lemma confirm_acts fl T St (a a' b : A) :
  Queue (Mlme a') = Queue (Mlme a) → good a' → state_of a' = idle → queue_wf (Queue (Mlme a)) fl → Num (Queue (Mlme a)) < 39 →
  confirm T St a' = Some b → acted fl a b ∧ state_of b = idle ∧ Num (Queue (Mlme b)) ≤ Num (Queue (Mlme a)) + 1.
Proof using of_requeue.
  intros Eq Hg Hi Hw Hn. unfold confirm.
  destruct (enqueue_extends fl MLME_CNTL_STATE_MACHINE T 2 (Some (le_bytes 2 St)) a') as (b' & -> & Eb & Hw' & Hn' & Hp);
    [by rewrite Eq|by rewrite Eq|lia|]. intros [= ->]. rewrite Eq in Hp, Hn'.
  destruct (of_requeue a' (Queue (Mlme b))) as (S2 & _ & G2).
  change (requeue (Queue (Mlme b)) a') with (set_Mlme (set_Queue (Queue (Mlme b)) (Mlme a')) a') in S2, G2. rewrite <- Eb in S2, G2.
  rewrite Hi in S2. split; [split|split; [done|lia]]; [auto|by left|done|].
  destruct Hp as [[_ ->]|[_ (e & -> & He & _)]]; [exists []; by rewrite app_nil_r|exists [e]]. split; [done|]. by constructor.
Qed.

(** ** The invariant *)

(** The states whose timer other code may cancel. *)
Context (loose : Z → bool).

(** What happens to the machine: the handler serves a message, someone queues
    one, a timer expires, something else happens.  The queue has room and the
    driver is not being halted. *)
Inductive wait_step : A → A → Prop :=
| step_turn a b : 0 < Num (Queue (Mlme a)) < 38 →
    (∀ e, Entry (Queue (Mlme a)) !! Head (Queue (Mlme a)) = Some e → el_Machine e = M → allowed e (requeue (snd (MlmeDequeue (Queue (Mlme a)))) a)) →
    machine_turn a = Some b → wait_step a b
| step_post M' T n Msg a b : Num (Queue (Mlme a)) < 38 → n ≤ 1600 → (M' = M → 0 ≤ T < MaxMsg) →
    enqueue M' T n Msg a = Some b → wait_step a b
| step_timer s a b : Num (Queue (Mlme a)) < 38 → halted (Flags a) = false → timer_of a s ≠ None → expire s a = Some b → wait_step a b
| step_other a b : Mlme b = Mlme a → (∀ s, loose s = false → timer_of b s = timer_of a s) → wait_step a b.

(** The machine waits, in a state whose timer is its own. *)
Definition waiting_in (s : Z) : Prop := s ≠ idle ∧ loose s = false.

(** A machine that waits will hear of a timeout. *)
Definition timeout_due (a : A) : Prop :=
  timer_of a (state_of a) ≠ None ∨
  ∃ e, e ∈ pending (Queue (Mlme a)) ∧ el_Machine e = M ∧ el_MsgType e = timeout (state_of a).

Record wait_inv (a : A) : Prop := {
  wi_wf : queue_wf (Queue (Mlme a)) None;
  wi_good : good a;
  wi_types : ∀ e, e ∈ pending (Queue (Mlme a)) → el_Machine e = M → el_MsgType e = MT2_RESET_CONF ∨ 0 ≤ el_MsgType e < MaxMsg;
  wi_due : waiting_in (state_of a) → timeout_due a
}.

(** Releasing the served element. *)
Lemma release_inv i (b : A) :
  queue_wf (Queue (Mlme b)) (Some i) → good b →
  (∀ e, e ∈ pending (Queue (Mlme b)) → el_Machine e = M → el_MsgType e = MT2_RESET_CONF ∨ 0 ≤ el_MsgType e < MaxMsg) →
  (waiting_in (state_of b) → timeout_due b) →
  wait_inv (requeue (release_elem i (Queue (Mlme b))) b).
Proof using of_requeue loose.
  intros Hw HM HT HD. destruct (release_wf _ _ Hw) as [Hw' Ep]. destruct (of_requeue b (release_elem i (Queue (Mlme b)))) as (ES & ET & EG).
  split; [done|by apply EG|cbn; by rewrite Ep|]. unfold timeout_due in *. rewrite ES, ET. intros Hs.
  destruct (HD Hs) as [?|(e & He & ?)]; [by left|right]. exists e. cbn. by rewrite Ep.
Qed.

Lemma turn_keeps a b :
  wait_inv a → 0 < Num (Queue (Mlme a)) < 38 →
  (∀ e, Entry (Queue (Mlme a)) !! Head (Queue (Mlme a)) = Some e → el_Machine e = M → allowed e (requeue (snd (MlmeDequeue (Queue (Mlme a)))) a)) →
  machine_turn a = Some b → wait_inv b.
Proof using of_requeue loose reset_idle serve_acts not_cntl.
  intros [Hw HM HT HD] Hn Hb. destruct (dequeue_wf _ Hw) as (e & He & Ep & Ei & Ee & En & Hw'); [lia|].
  unfold machine_turn. destruct (MlmeDequeue _) as [i q] eqn:Ed. cbn [fst snd] in *. subst i.
  rewrite Ee, He. cbn [mbind option_bind]. set (a1 := requeue q a) in *. destruct (of_requeue a q) as (ES & ET & EG). fold a1 in ES, ET, EG.
  rewrite Ep in HT. unfold timeout_due in HD. rewrite Ep in HD. specialize (EG HM).
  assert (HT1 : ∀ x, x ∈ pending (Queue (Mlme a1)) → el_Machine x = M →
    el_MsgType x = MT2_RESET_CONF ∨ 0 ≤ el_MsgType x < MaxMsg) by (intros x Hx; apply HT; by right).
  destruct (Z.eqb_spec (el_MsgType e) MT2_RESET_CONF) as [Er|Er]; cbn [mbind option_bind].
  { intros [= <-]. destruct (reset_idle a1 EG) as (G1 & S1 & Q1). apply release_inv; [by rewrite Q1|done|by rewrite Q1|]. by rewrite S1; intros []. }
  destruct (Z.eqb_spec (el_Machine e) M) as [Em|Em]; cbn [mbind option_bind].
  - assert (Ht : 0 ≤ el_MsgType e < MaxMsg) by (destruct (HT e) as [?|?]; [left|done|done|done]).
    destruct (serve e a1) as [b1|] eqn:Es; [|done]. cbn [mbind option_bind]. intros [= <-].
    destruct (serve_acts (Some (Head (Queue (Mlme a)))) e a1 b1 EG Ht Hw' ltac:(cbn; lia) (Hb e He Em) Es) as [[G1 S1 W1 (l & P1 & F1)] Hto].
    apply release_inv; [done|done| |].
    + intros x. rewrite P1, elem_of_app. intros [Hx|Hx] Hm; [by apply HT1|]. eapply Forall_forall in F1; [|exact Hx]. congruence.
    + intros Hs. unfold timeout_due. destruct S1 as [S1|[?|[Ss St]]]; [rewrite S1 in Hs; by destruct Hs|by left|]. rewrite St, Ss, ES, ET. rewrite ES in Ss, Hto. rewrite Ss in Hs.
      destruct HD as [?|(x & [->|Hx]%elem_of_cons & Hm & Hy)]; [done|by left| |].
      * destruct Hs as [Hs _]. specialize (Hto Hy Hs). congruence.
      * right. exists x. rewrite P1. split; [|done]. by apply elem_of_app; left.
  - intros [= <-]. apply (release_inv _ a1); try done. unfold timeout_due. rewrite ES, ET. intros Hs.
    destruct HD as [?|(x & [->|Hx]%elem_of_cons & Hm & Hy)]; [done|by left|done|right; by exists x].
Qed.

(** A message at the end of the queue; the timers of other timeouts stay. *)
Lemma enqueue_keeps M' T n Msg a a1 b :
  wait_inv a → Mlme a1 = Mlme a → (∀ s, timer_of a1 s = timer_of a s ∨ M' = M ∧ timeout s = T ∧ halted (Flags a1) = false) →
  Num (Queue (Mlme a)) < 38 → n ≤ 1600 → (M' = M → 0 ≤ T < MaxMsg) →
  enqueue M' T n Msg a1 = Some b → wait_inv b.
Proof using of_requeue loose of_Mlme.
  intros [Hw HM HT HD] Hml Htm Hn Hm Ht. destruct (of_Mlme a a1 Hml) as [S1 G1].
  destruct (enqueue_extends None M' T n Msg a1) as (b' & -> & Eb & Hw' & _ & Hp); [by rewrite Hml|rewrite Hml; lia|done|].
  intros [= ->]. rewrite Hml in Hp. destruct (of_requeue a1 (Queue (Mlme b))) as (S2 & T2 & G2).
  change (requeue (Queue (Mlme b)) a1) with (set_Mlme (set_Queue (Queue (Mlme b)) (Mlme a1)) a1) in S2, T2, G2. rewrite <- Eb in S2, T2, G2.
  assert (Hsub : ∃ l, pending (Queue (Mlme b)) = pending (Queue (Mlme a)) ++ l ∧
    Forall (λ e, el_Machine e = M' ∧ el_MsgType e = T) l ∧ (halted (Flags a1) = false → l ≠ [])).
  { destruct Hp as [[Hh ->]|[_ (e & -> & ? & ? & _)]]; [exists []|exists [e]]; rewrite ?app_nil_r; split; auto. split; [done|]. congruence. }
  destruct Hsub as (l & El & Fl & Nl). split; [done|auto| |].
  - intros x. rewrite El, elem_of_app. intros [Hx|Hx] Hx'; [by apply HT|]. eapply Forall_forall in Fl as [Fm Ft]; [|exact Hx].
    right. rewrite Ft. apply Ht. congruence.
  - unfold timeout_due in *. rewrite S2, S1, T2, El. intros Hs. destruct (Htm (state_of a)) as [->|(-> & Eto & Hh)].
    + destruct (HD Hs) as [?|(e & He & ?)]; [by left|right; exists e; split; [apply elem_of_app; by left|done]].
    + right. destruct l as [|e l]; [by destruct (Nl Hh)|]. apply Forall_cons in Fl as [[F1 F2] _]. exists e. rewrite elem_of_app, Eto. split; [right; by left|done].
Qed.

Lemma wait_step_keeps a b : wait_step a b → wait_inv a → wait_inv b.
Proof using All.
  intros [a' b' Hn Hal Ht|M' T n Msg a' b' Hn Hm Ht He|s a' b' Hn Hh Ht He|a' b' Hm Ht] Ha.
  - by eapply turn_keeps.
  - eapply (enqueue_keeps M' T n Msg a' a'); [done|done|by left|done..].
  - destruct (expire_posts s a' b' Hh He) as (a1 & E1 & E2 & E3 & E4). eapply (enqueue_keeps M (timeout s) 0 None a' a1); [done|done| |done|lia| |done].
    + intros s'. destruct (decide (timeout s' = timeout s)); [right|left; auto]. by rewrite E2.
    + intros _. apply timeout_range.
  - destruct Ha as [Hw HM HT HD], (of_Mlme a' b' Hm) as [S1 G1]. split; rewrite ?Hm; auto. unfold timeout_due in *. rewrite S1, Hm. intros Hs. rewrite Ht by apply Hs. by apply HD.
Qed.

Lemma waits a b : wait_inv a → rtc wait_step a b → wait_inv b.
Proof using All. induction 2 as [|x y z Hs _ IH]; [done|]. eauto using wait_step_keeps. Qed.
End wait.
