(* ===== verification/BaSession.v ===== *)
(** The block-ack sessions of the adapter: src/common/ba_action.c lines 35-79,
    177-209, 411-1308 and 1679-1715, src/common/cmm_sanity.c lines 146-245 and
    BATableInit of src/common/mlme.c.

    The adapter keeps a table of recipient and one of originator sessions;
    each peer (an entry of the MAC table) has, per TID, the index of its
    session in these tables, 0 for none, and bitmaps of the open sessions.
    Timers, frames to the peer and commands to the chip are events of the
    trace.  An access outside a table or array is [None]. *)

From S2P Require Import Prelude Mlme BaReorder.

(** * Data *)

Definition NUM_OF_TID : nat := 8.
Definition MAX_LEN_OF_MAC_TABLE : nat := 116.
Definition MAX_LEN_OF_BA_REC_TABLE : nat := NUM_OF_TID * MAX_LEN_OF_MAC_TABLE / 2.
Definition MAX_LEN_OF_BA_ORI_TABLE : nat := NUM_OF_TID * MAX_LEN_OF_MAC_TABLE / 2.
#[global] Arguments MAX_LEN_OF_MAC_TABLE : simpl never.
#[global] Arguments MAX_LEN_OF_BA_REC_TABLE : simpl never.
#[global] Arguments MAX_LEN_OF_BA_ORI_TABLE : simpl never.
#[global] Arguments NUM_OF_TID : simpl never.
Definition ORI_SESSION_MAX_RETRY : Z := 8.
Definition ORI_BA_SESSION_TIMEOUT : Z := 2000.
Definition REC_BA_SESSION_IDLE_TIMEOUT : Z := 1000.
Definition MGMT_DMA_BUFFER_SIZE : Z := 1600.
Definition IMMED_BA : Z := 1.
Definition ORIGINATOR : Z := 1.
Definition RECIPIENT : Z := 0.

Inductive ORI_BLOCKACK_STATUS :=
| Originator_NONE | Originator_USED | Originator_WaitRes | Originator_Done.

#[export] Instance ori_status_eq_dec : EqDecision ORI_BLOCKACK_STATUS.
Proof. solve_decision. Defined.

Definition ori_status_num (s : ORI_BLOCKACK_STATUS) : Z :=
  match s with
  | Originator_NONE => 0 | Originator_USED => 1 | Originator_WaitRes => 2 | Originator_Done => 3
  end.

Record BA_ORI_ENTRY := mk_ori {
  ori_Wcid : Z;
  ori_TID : Z;
  ori_BAWinSize : Z;
  ori_Token : Z;
  ori_amsdu_cap : Z;
  ori_Sequence : Z;
  ori_TimeOutValue : Z;
  ORI_BA_Status : ORI_BLOCKACK_STATUS
}.

(** What the sessions use of a [MAC_TABLE_ENTRY]. *)
Record mac_entry := mk_mac {
  mac_wcid : Z;
  RXBAbitmap : Z;
  TXBAbitmap : Z;
  BADeclineBitmap : Z;
  BARecWcidArray : list nat;
  BAOriWcidArray : list nat;
  TxSeq : list Z;
  mac_ralink : bool;          (* fCLIENT_STATUS_RALINK_CHIPSET *)
  MaxRAmpduFactor : Z;
  mac_MODE : Z;               (* MaxHTPhyMode.field.MODE *)
  mac_MCSSet2 : Z;            (* HTCapability.MCSSet[2] *)
  mac_wdev : bool             (* wdev != NULL *)
}.

Definition MODE_HTMIX : Z := 2.
Definition MODE_HTGREENFIELD : Z := 3.
Definition MODE_VHT : Z := 4.
Definition IS_HT_STA (m : mac_entry) : bool := MODE_HTMIX <=? mac_MODE m.
Definition IS_VHT_STA (m : mac_entry) : bool := mac_MODE m =? MODE_VHT.

(** The settings of the adapter the handlers read. *)
Record ba_cfg := mk_cfg {
  RxBAWinLimit : Z;
  TxBAWinLimit : Z;
  AutoBA : bool;
  bBADecline : bool;
  FixedTxMode : Z;            (* StaCfg.wdev.DesiredTransmitSetting *)
  cfg_IS_RT65XX : bool;
  cfg_IS_MT76x2 : bool;
  TxPath : Z;
  STA_TGN_WIFI_ON : bool;
  MONITOR_ON : bool;
  ba_ATE_ON : bool;           (* ATE_ON: the production-test mode *)
  scan_blocks : bool;         (* INFRA_ON, scan in progress and connected *)
  HALT_IN_PROGRESS : bool;
  HZ_ : Z
}.

Inductive ba_event :=
| Ev_rx (e : event)
| Ev_TimerInit (ori : bool) (idx : nat)
| Ev_TimerSet (ori : bool) (idx : nat) (ms : Z)
| Ev_TimerCancel (ori : bool) (idx : nat)
| Ev_AsicAdd (wcid : Z) (tid : Z)
| Ev_AsicDel (wcid : Z) (tid : Z)
| Ev_SendBAR (wcid tid seq : Z)
| Ev_DelBA (wcid tid initiator : Z)
| Ev_AddBAReq (wcid tid bufsize token : Z)   (* MT2_MLME_ADD_BA_CATE queued *)
| Ev_AddBARsp (wcid token status amsdu tid bufsize : Z).

Record ba_adapter := mk_ad {
  Content : list mac_entry;
  numAsRecipient : Z;
  numAsOriginator : Z;
  numDoneOriginator : Z;
  BAOriEntry : list BA_ORI_ENTRY;
  BARecEntry : list BA_REC_ENTRY;
  pool : reordering_list;
  events : list ba_event
}.

(** * Updates *)

Definition set_Content (ad : ba_adapter) (c : list mac_entry) : ba_adapter :=
  mk_ad c (numAsRecipient ad) (numAsOriginator ad) (numDoneOriginator ad) (BAOriEntry ad)
    (BARecEntry ad) (pool ad) (events ad).
Definition set_Rec (ad : ba_adapter) (n : Z) (t : list BA_REC_ENTRY) : ba_adapter :=
  mk_ad (Content ad) n (numAsOriginator ad) (numDoneOriginator ad) (BAOriEntry ad) t (pool ad)
    (events ad).
Definition set_Ori (ad : ba_adapter) (n d : Z) (t : list BA_ORI_ENTRY) : ba_adapter :=
  mk_ad (Content ad) (numAsRecipient ad) n d t (BARecEntry ad) (pool ad) (events ad).
Definition post (ad : ba_adapter) (evs : list ba_event) : ba_adapter :=
  mk_ad (Content ad) (numAsRecipient ad) (numAsOriginator ad) (numDoneOriginator ad) (BAOriEntry ad)
    (BARecEntry ad) (pool ad) (events ad ++ evs).

Definition upd_mac (ad : ba_adapter) (w : nat) (f : mac_entry → mac_entry) : ba_adapter :=
  set_Content ad (alter f w (Content ad)).
Definition upd_rec (ad : ba_adapter) (i : nat) (f : BA_REC_ENTRY → BA_REC_ENTRY) : ba_adapter :=
  set_Rec ad (numAsRecipient ad) (alter f i (BARecEntry ad)).
Definition upd_ori (ad : ba_adapter) (i : nat) (f : BA_ORI_ENTRY → BA_ORI_ENTRY) : ba_adapter :=
  set_Ori ad (numAsOriginator ad) (numDoneOriginator ad) (alter f i (BAOriEntry ad)).

Definition mac_bitmaps (m : mac_entry) (rx tx dec : Z) : mac_entry :=
  mk_mac (mac_wcid m) rx tx dec (BARecWcidArray m) (BAOriWcidArray m) (TxSeq m) (mac_ralink m)
    (MaxRAmpduFactor m) (mac_MODE m) (mac_MCSSet2 m) (mac_wdev m).
Definition mac_rec_slot (t i : nat) (m : mac_entry) : mac_entry :=
  mk_mac (mac_wcid m) (RXBAbitmap m) (TXBAbitmap m) (BADeclineBitmap m) (<[t := i]> (BARecWcidArray m))
    (BAOriWcidArray m) (TxSeq m) (mac_ralink m) (MaxRAmpduFactor m) (mac_MODE m) (mac_MCSSet2 m)
    (mac_wdev m).
Definition mac_ori_slot (t i : nat) (m : mac_entry) : mac_entry :=
  mk_mac (mac_wcid m) (RXBAbitmap m) (TXBAbitmap m) (BADeclineBitmap m) (BARecWcidArray m)
    (<[t := i]> (BAOriWcidArray m)) (TxSeq m) (mac_ralink m) (MaxRAmpduFactor m) (mac_MODE m)
    (mac_MCSSet2 m) (mac_wdev m).

(** [bitmap |= (1<<TID)] and [bitmap &= ~(1<<TID)] on a [USHORT]. *)
Definition set_bit (b : Z) (t : nat) : Z := u16 (Z.lor b (Z.shiftl 1 (Z.of_nat t))).
Definition clear_bit (b : Z) (t : nat) : Z := u16 (Z.land b (Z.lnot (Z.shiftl 1 (Z.of_nat t)))).

(** Run a function of the reordering component on recipient session [i]. *)
Definition run_rec (ad : ba_adapter) (i : nat) (f : ba_state → ba_state) : option ba_adapter :=
  e ← BARecEntry ad !! i;
  let s := f (mk_state e (pool ad) []) in
  Some (mk_ad (Content ad) (numAsRecipient ad) (numAsOriginator ad) (numDoneOriginator ad)
          (BAOriEntry ad) (<[i := entry s]> (BARecEntry ad)) (mpdu_blk_pool s)
          (events ad ++ map Ev_rx (trace s))).

(** * Allocation and release of table entries *)

Definition BATableInit (ad : ba_adapter) : ba_adapter :=
  mk_ad (Content ad) 0 0 0
    (map (λ e, mk_ori (ori_Wcid e) (ori_TID e) (ori_BAWinSize e) (ori_Token e) (ori_amsdu_cap e)
                 (ori_Sequence e) (ori_TimeOutValue e) Originator_NONE) (BAOriEntry ad))
    (map (λ e, set_Status e Recipient_NONE) (BARecEntry ad)) (pool ad) (events ad).

(** The first free index from [i] on. *)
Fixpoint first_free {A} (free : A → bool) (i : nat) (l : list A) : option nat :=
  match l with
  | [] => None
  | e :: l => if free e then Some i else first_free free (S i) l
  end.

Definition rec_free (e : BA_REC_ENTRY) : bool := bool_decide (REC_BA_Status e = Recipient_NONE).
Definition ori_free (e : BA_ORI_ENTRY) : bool := bool_decide (ORI_BA_Status e = Originator_NONE).

(** The index of the returned entry ([None] for NULL), [*Idx], and the
    adapter.  When the counter admits a session but the loop finds no free
    entry, the pointer of the last turn is returned and [*Idx] is not set. *)
Definition BATableAllocRecEntry (ad : ba_adapter) (Idx : nat) : option nat * nat * ba_adapter :=
  if Z.of_nat (MAX_LEN_OF_BA_REC_TABLE - 1) <=? numAsRecipient ad then (None, Idx, ad)
  else
    match first_free rec_free 1 (drop 1 (BARecEntry ad)) with
    | Some i =>
        let ad := set_Rec ad (u64 (numAsRecipient ad + 1))
                    (alter (λ e, set_Status e Recipient_USED) i (BARecEntry ad)) in
        (Some i, i, ad)
    | None => (Some (MAX_LEN_OF_BA_REC_TABLE - 1)%nat, Idx, ad)
    end.

Definition ori_set_status (st : ORI_BLOCKACK_STATUS) (e : BA_ORI_ENTRY) : BA_ORI_ENTRY :=
  mk_ori (ori_Wcid e) (ori_TID e) (ori_BAWinSize e) (ori_Token e) (ori_amsdu_cap e) (ori_Sequence e)
    (ori_TimeOutValue e) st.

Definition BATableAllocOriEntry (ad : ba_adapter) (Idx : nat) : option nat * nat * ba_adapter :=
  if Z.of_nat (MAX_LEN_OF_BA_ORI_TABLE - 1) <=? numAsOriginator ad then (None, Idx, ad)
  else
    match first_free ori_free 1 (drop 1 (BAOriEntry ad)) with
    | Some i =>
        let ad := set_Ori ad (u64 (numAsOriginator ad + 1)) (numDoneOriginator ad)
                    (alter (ori_set_status Originator_USED) i (BAOriEntry ad)) in
        (Some i, i, ad)
    | None => (Some (MAX_LEN_OF_BA_ORI_TABLE - 1)%nat, Idx, ad)
    end.

Definition BATableFreeOriEntry (ad : ba_adapter) (Idx : nat) : option ba_adapter :=
  if (Nat.eqb Idx 0) || (Nat.leb MAX_LEN_OF_BA_ORI_TABLE Idx) then Some ad
  else
    e ← BAOriEntry ad !! Idx;
    if ori_free e then Some ad
    else
      let w := Z.to_nat (ori_Wcid e) in
      let t := Z.to_nat (ori_TID e) in
      m ← Content ad !! w;
      _ ← BAOriWcidArray m !! t;
      let ad := upd_mac ad w (mac_ori_slot t 0) in
      let done := bool_decide (ORI_BA_Status e = Originator_Done) in
      let ad := if done
                then upd_mac ad w (λ m, mac_bitmaps m (RXBAbitmap m) (clear_bit (TXBAbitmap m) t)
                                          (BADeclineBitmap m))
                else ad in
      let numDone := if done then u64 (numDoneOriginator ad - 1) else numDoneOriginator ad in
      Some (set_Ori ad (u64 (numAsOriginator ad - 1)) numDone
              (alter (λ e, mk_ori (ori_Wcid e) (ori_TID e) (ori_BAWinSize e) 0 (ori_amsdu_cap e)
                             (ori_Sequence e) (ori_TimeOutValue e) Originator_NONE) Idx (BAOriEntry ad))).

Definition BATableFreeRecEntry (ad : ba_adapter) (Idx : nat) : option ba_adapter :=
  if (Nat.eqb Idx 0) || (Nat.leb MAX_LEN_OF_BA_REC_TABLE Idx) then Some ad
  else
    e ← BARecEntry ad !! Idx;
    if rec_free e then Some ad
    else
      let w := Z.to_nat (Wcid e) in
      let t := Z.to_nat (TID e) in
      m ← Content ad !! w;
      _ ← BARecWcidArray m !! t;
      let ad := upd_mac ad w (mac_rec_slot t 0) in
      Some (set_Rec ad (u64 (numAsRecipient ad - 1))
              (alter (λ e, set_Status e Recipient_NONE) Idx (BARecEntry ad))).

(** * Frames

    The body of an action frame behind the 24 bytes of its header, byte by
    byte; [BA_PARM] and [DELBA_PARM] are little-endian bit fields. *)

Definition ba_parm (Msg : list Z) (off : nat) : Z := le_word (take 2 (drop off Msg)).
Definition parm_AMSDU (p : Z) : Z := Z.land p 1.
Definition parm_Policy (p : Z) : Z := Z.land (Z.shiftr p 1) 1.
Definition parm_TID (p : Z) : nat := Z.to_nat (Z.land (Z.shiftr p 2) 15).
Definition parm_BufSize (p : Z) : Z := Z.land (Z.shiftr p 6) 1023.
Definition delba_Initiator (p : Z) : Z := Z.land (Z.shiftr p 11) 1.
Definition delba_TID (p : Z) : nat := Z.to_nat (Z.land (Z.shiftr p 12) 15).

Definition sizeof_ADDBA_REQ : Z := 33.
Definition sizeof_ADDBA_RSP : Z := 33.
Definition sizeof_DELBA_REQ : Z := 30.
Definition sizeof_BA_REQ : Z := 20.

Definition req_parm (Msg : list Z) : Z := ba_parm Msg 27.
Definition rsp_status (Msg : list Z) : Z := le_word (take 2 (drop 27 Msg)).
Definition rsp_parm (Msg : list Z) : Z := ba_parm Msg 29.
Definition rsp_timeout (Msg : list Z) : Z := le_word (take 2 (drop 31 Msg)).
Definition req_timeout (Msg : list Z) : Z := le_word (take 2 (drop 29 Msg)).
Definition del_parm (Msg : list Z) : Z := ba_parm Msg 26.

Definition PeerAddBAReqActionSanity (e : MLME_QUEUE_ELEM) : bool :=
  if el_MsgLen e <? sizeof_ADDBA_REQ then false
  else parm_Policy (req_parm (el_Msg e)) =? IMMED_BA.

Definition PeerAddBARspActionSanity (e : MLME_QUEUE_ELEM) : bool :=
  if el_MsgLen e <? sizeof_ADDBA_RSP then false
  else parm_Policy (rsp_parm (el_Msg e)) =? IMMED_BA.

Definition PeerDelBAActionSanity (e : MLME_QUEUE_ELEM) : bool :=
  if negb (el_MsgLen e =? sizeof_DELBA_REQ) then false
  else negb (Nat.leb MAX_LEN_OF_MAC_TABLE (el_Wcid e)).

(** * The handlers

    [al] says which of the allocations of a handler succeed. *)

Record allocs := mk_allocs { al_Elem : bool; al_OutBuffer : bool; al_OutBuffer2 : bool }.

Definition VALID_WCID (w : nat) : bool := Nat.ltb 0 w && Nat.ltb w MAX_LEN_OF_MAC_TABLE.

(** Of a request built by the driver itself: its length and its address are
    right by construction. *)
Definition MlmeDelBAReqSanity (w t : nat) : bool :=
  negb (Nat.leb MAX_LEN_OF_MAC_TABLE w) && (Z.land (Z.of_nat t) 0xf0 =? 0).

Definition MlmeDELBAAction (ad : ba_adapter) (al : allocs) (w t : nat) (initiator : Z)
    : option ba_adapter :=
  if MlmeDelBAReqSanity w t && VALID_WCID w then
    if negb (al_OutBuffer al) then Some ad
    else if negb (al_OutBuffer2 al) then Some ad
    else
      m ← Content ad !! w;
      if negb (mac_wdev m) then Some ad
      else
        _ ← BAOriWcidArray m !! t;
        seq ← TxSeq m !! t;
        Some (post ad [Ev_SendBAR (Z.of_nat w) (Z.of_nat t) seq;
                       Ev_DelBA (Z.of_nat w) (Z.of_nat t) initiator])
  else Some ad.

Definition BA_MaxWinSizeReasign (cfg : ba_cfg) (m : mac_entry) (WinSize : Z) : Z :=
  let MaxPeerRxSize :=
    if mac_ralink m then u8 (Z.shiftl 1 (MaxRAmpduFactor m + 3))
    else u8 (Z.quot (Z.shiftl 1 (MaxRAmpduFactor m + 3) * 10) 16 - 1) in
  let MaxSize :=
    if cfg_IS_RT65XX cfg then
      let MaxSize := if cfg_IS_MT76x2 cfg then 47 else 31 in
      if ((mac_MODE m =? MODE_HTMIX) || (mac_MODE m =? MODE_HTGREENFIELD))
         && negb (mac_MCSSet2 m =? 0xff)
      then 31 else MaxSize
    else if (TxPath cfg =? 3) && negb (mac_MCSSet2 m =? 0) then 31 else 20 in
  let MaxSize := Z.min MaxPeerRxSize MaxSize in
  if MaxSize <? WinSize then MaxSize else WinSize.

Definition FIXED_TXMODE_HT : Z := 0.
Definition RTMPStaFixedTxMode (cfg : ba_cfg) : Z := FixedTxMode cfg.

Definition bit_set (b : Z) (t : nat) : bool := negb (Z.land b (Z.shiftl 1 (Z.of_nat t)) =? 0).

Definition BAOriSessionSetUp (cfg : ba_cfg) (ad : ba_adapter) (w t : nat)
    (TimeOut DelayTime : Z) (isForced : bool) : option ba_adapter :=
  if Nat.leb NUM_OF_TID t then Some ad
  else if negb (AutoBA cfg) && negb isForced then Some ad
  else if negb (RTMPStaFixedTxMode cfg =? FIXED_TXMODE_HT) then Some ad
  else
    m ← Content ad !! w;
    let DelayTime := if bit_set (BADeclineBitmap m) t && negb isForced then 3000 else DelayTime in
    Idx ← BAOriWcidArray m !! t;
    let '(pBAEntry, Idx, ad) :=
      if Nat.eqb Idx 0 then BATableAllocOriEntry ad Idx else (Some Idx, Idx, ad) in
    match pBAEntry with
    | None => Some ad
    | Some p =>
        e ← BAOriEntry ad !! p;
        if ori_status_num Originator_WaitRes <=? ori_status_num (ORI_BA_Status e) then Some ad
        else
          seq ← TxSeq m !! t;
          let ad := upd_mac ad w (mac_ori_slot t Idx) in
          let ad := upd_ori ad p (λ e, mk_ori (mac_wcid m) (Z.of_nat t) (TxBAWinLimit cfg) 1
                                         (ori_amsdu_cap e) seq TimeOut Originator_WaitRes) in
          Some (post ad [if negb (bit_set (TXBAbitmap m) t) then Ev_TimerInit true p
                         else Ev_TimerCancel true p;
                         Ev_TimerSet true p DelayTime])
    end.

Definition BAOriSessionAdd (cfg : ba_cfg) (al : allocs) (ad : ba_adapter) (w : nat)
    (Msg : list Z) : option ba_adapter :=
  let t := parm_TID (rsp_parm Msg) in
  m ← Content ad !! w;
  Idx ← BAOriWcidArray m !! t;
  e ← BAOriEntry ad !! Idx;
  if negb (Nat.eqb Idx 0) && (Nat.eqb (Z.to_nat (ori_TID e)) t)
     && bool_decide (ORI_BA_Status e = Originator_WaitRes) then
    let MaxPeerBufSize := u8 (parm_BufSize (rsp_parm Msg)) in
    let MaxPeerBufSize := if 0 <? MaxPeerBufSize then MaxPeerBufSize - 1 else 0 in
    let BAWinSize := BA_MaxWinSizeReasign cfg m (Z.min (ori_BAWinSize e) MaxPeerBufSize) in
    seq ← TxSeq m !! t;
    let ad := upd_ori ad Idx (λ e, mk_ori (ori_Wcid e) (ori_TID e) BAWinSize (ori_Token e)
                                     (parm_AMSDU (rsp_parm Msg)) seq (rsp_timeout Msg)
                                     Originator_Done) in
    let ad := set_Ori ad (numAsOriginator ad) (u64 (numDoneOriginator ad + 1)) (BAOriEntry ad) in
    let ad := upd_mac ad w (λ m, mac_bitmaps m (RXBAbitmap m) (set_bit (TXBAbitmap m) t)
                                   (BADeclineBitmap m)) in
    let ad := post ad [Ev_TimerCancel true Idx] in
    if negb (al_OutBuffer2 al) then Some ad
    else
      _ ← Content ad !! Z.to_nat (ori_Wcid e);
      Some (post ad [Ev_SendBAR (ori_Wcid e) (ori_TID e) seq])
  else Some ad.

(** TRUE or FALSE, and the adapter. *)
Definition BARecSessionAdd (cfg : ba_cfg) (ad : ba_adapter) (w : nat) (Msg : list Z)
    : option (bool * ba_adapter) :=
  let t := parm_TID (req_parm Msg) in
  let WinSize := Z.min (u8 (parm_BufSize (req_parm Msg))) (u8 (RxBAWinLimit cfg)) in
  let WinSize := if WinSize =? 0 then 64 else WinSize in
  m ← Content ad !! w;
  Idx ← BARecWcidArray m !! t;
  '(pBAEntry, Idx, ad) ←
    (if Nat.eqb Idx 0 then Some (BATableAllocRecEntry ad Idx)
     else ad ← run_rec ad Idx ba_refresh_reordering_mpdus; Some (Some Idx, Idx, ad));
  match pBAEntry with
  | Some p =>
      let ad := upd_rec ad p (λ e, mk_entry (mac_wcid m) (Z.of_nat t) WinSize RESET_RCV_SEQ
                  (req_timeout Msg) (LastIndSeqAtTimer e) (nDropPacket e) (rcvSeq e)
                  Recipient_Accept (list_ e)) in
      let ad := post ad [if bit_set (RXBAbitmap m) t then Ev_TimerCancel false p
                         else Ev_TimerInit false p] in
      let ad := upd_mac ad w (λ m, mac_rec_slot t Idx
                  (mac_bitmaps m (set_bit (RXBAbitmap m) t) (TXBAbitmap m)
                     (clear_bit (BADeclineBitmap m) t))) in
      Some (true, post ad [Ev_AsicAdd (mac_wcid m) (Z.of_nat t)])
  | None => Some (false, ad)
  end.

Definition BAOriSessionTearDown (al : allocs) (ad : ba_adapter) (w t : nat)
    (bPassive bForceSend : bool) : option ba_adapter :=
  if Nat.leb MAX_LEN_OF_MAC_TABLE w then Some ad
  else
    m ← Content ad !! w;
    Idx ← BAOriWcidArray m !! t;
    if (Nat.eqb Idx 0) || (Nat.leb MAX_LEN_OF_BA_ORI_TABLE Idx) then
      if bForceSend then
        if al_Elem al then MlmeDELBAAction ad al w t ORIGINATOR else Some ad
      else Some ad
    else
      e ← BAOriEntry ad !! Idx;
      let release ad := BATableFreeOriEntry (post ad [Ev_TimerCancel true Idx]) Idx in
      if negb bPassive && (Nat.eqb t (Z.to_nat (ori_TID e)))
         && bool_decide (ORI_BA_Status e = Originator_Done) then
        if al_Elem al then
          ad ← MlmeDELBAAction ad al w (Z.to_nat (ori_TID e)) ORIGINATOR; release ad
        else Some ad
      else release ad.

Definition BARecSessionTearDown (al : allocs) (ad : ba_adapter) (w t : nat) (bPassive : bool)
    : option ba_adapter :=
  if Nat.leb MAX_LEN_OF_MAC_TABLE w then Some ad
  else
    m ← Content ad !! w;
    Idx ← BARecWcidArray m !! t;
    if Nat.eqb Idx 0 then Some ad
    else
      e ← BARecEntry ad !! Idx;
      if (Nat.eqb t (Z.to_nat (TID e))) && bool_decide (REC_BA_Status e = Recipient_Accept) then
        let ad := post ad [Ev_TimerCancel false Idx] in
        if negb bPassive && negb (al_Elem al) then Some ad
        else
          ad ← (if bPassive then Some ad else MlmeDELBAAction ad al w t RECIPIENT);
          ad ← run_rec ad Idx (λ s, upd_entry (λ e, set_BAWinSize (set_LastIndSeq e RESET_RCV_SEQ) 0)
                                      (ba_refresh_reordering_mpdus s));
          let ad := upd_mac ad w (λ m, mac_rec_slot t 0
                      (mac_bitmaps m (clear_bit (RXBAbitmap m) (Z.to_nat (TID e))) (TXBAbitmap m)
                         (BADeclineBitmap m))) in
          BATableFreeRecEntry (post ad [Ev_AsicDel (Z.of_nat w) (Z.of_nat t)]) Idx
      else BATableFreeRecEntry ad Idx.

(** [for (i = 0; i < NUM_OF_TID; i++)]; the allocations of each turn. *)
Fixpoint teardown_loop (al : bool → nat → allocs) (w : nat) (ts : list nat) (ad : ba_adapter)
    : option ba_adapter :=
  match ts with
  | [] => Some ad
  | i :: ts =>
      ad ← BAOriSessionTearDown (al true i) ad w i false false;
      ad ← BARecSessionTearDown (al false i) ad w i false;
      teardown_loop al w ts ad
  end.

Definition BASessionTearDownALL (al : bool → nat → allocs) (ad : ba_adapter) (w : nat)
    : option ba_adapter := teardown_loop al w (seq 0 NUM_OF_TID) ad.

(** The timer of originator entry [i] fires. *)
Definition BAOriSessionSetupTimeout (cfg : ba_cfg) (ad : ba_adapter) (i : nat)
    : option ba_adapter :=
  e ← BAOriEntry ad !! i;
  if MONITOR_ON cfg then Some ad
  else if ba_ATE_ON cfg then Some ad
  else
    m ← Content ad !! Z.to_nat (ori_Wcid e);
    if bool_decide (ORI_BA_Status e = Originator_WaitRes)
       && (ori_Token e <? ORI_SESSION_MAX_RETRY) then
      if scan_blocks cfg then Some (post ad [Ev_TimerSet true i ORI_BA_SESSION_TIMEOUT])
      else
        let ad := post ad [Ev_AddBAReq (mac_wcid m) (ori_TID e) (RxBAWinLimit cfg) (ori_Token e)] in
        let ad := upd_ori ad i (λ e, mk_ori (ori_Wcid e) (ori_TID e) (ori_BAWinSize e)
                    (u8 (ori_Token e + 1)) (ori_amsdu_cap e) (ori_Sequence e)
                    (ori_TimeOutValue e) (ORI_BA_Status e)) in
        Some (post ad [Ev_TimerSet true i ORI_BA_SESSION_TIMEOUT])
    else
      Idx ← BAOriWcidArray m !! Z.to_nat (ori_TID e);
      BATableFreeOriEntry ad Idx.

(** The timer of recipient entry [i] fires. *)
Definition BARecSessionIdleTimeout (ad : ba_adapter) (i : nat) (Now32 : Z) : option ba_adapter :=
  e ← BARecEntry ad !! i;
  if bool_decide (REC_BA_Status e = Recipient_Accept) then
    if RTMP_TIME_AFTER Now32 (u64 (LastIndSeqAtTimer e + REC_BA_SESSION_IDLE_TIMEOUT))
    then run_rec ad i ba_refresh_reordering_mpdus
    else Some ad
  else Some ad.

Definition PeerAddBAReqAction (cfg : ba_cfg) (al : allocs) (ad : ba_adapter) (Elem : MLME_QUEUE_ELEM)
    : option ba_adapter :=
  let w := el_Wcid Elem in
  let Msg := el_Msg Elem in
  if Nat.leb MAX_LEN_OF_MAC_TABLE w then Some ad
  else
    m ← Content ad !! w;
    '(Status, ad) ←
      (if PeerAddBAReqActionSanity Elem then
         if negb (bBADecline cfg) && IS_HT_STA m then
           '(ok, ad) ← BARecSessionAdd cfg ad w Msg;
           Some (if (ok : bool) then 0 else 38, ad)
         else Some (37, ad)
       else Some (1, ad));
    if negb (al_OutBuffer al) then Some ad
    else
      let AMSDUSupported :=
        if IS_VHT_STA m && (Status =? 0) then parm_AMSDU (req_parm Msg) else 0 in
      let BufSize := Z.min (u8 (parm_BufSize (req_parm Msg))) (u8 (RxBAWinLimit cfg)) in
      let BufSize := if BufSize =? 0 then 64 else BufSize in
      Some (post ad [Ev_AddBARsp (Z.of_nat w) (aget Msg 26) Status AMSDUSupported
                       (Z.of_nat (parm_TID (req_parm Msg))) BufSize]).

Definition PeerAddBARspAction (cfg : ba_cfg) (al : allocs) (ad : ba_adapter) (Elem : MLME_QUEUE_ELEM)
    : option ba_adapter :=
  let w := el_Wcid Elem in
  let Msg := el_Msg Elem in
  if Nat.leb MAX_LEN_OF_MAC_TABLE w then Some ad
  else if PeerAddBARspActionSanity Elem then
    let t := parm_TID (rsp_parm Msg) in
    ad ← (if rsp_status Msg =? 0 then BAOriSessionAdd cfg al ad w Msg
          else BAOriSessionTearDown al ad w t true false);
    if (rsp_status Msg =? 37) || (STA_TGN_WIFI_ON cfg && negb (rsp_status Msg =? 0)) then
      _ ← Content ad !! w;
      Some (upd_mac ad w (λ m, mac_bitmaps m (RXBAbitmap m) (TXBAbitmap m)
                                 (set_bit (BADeclineBitmap m) t)))
    else Some ad
  else Some ad.

Definition PeerDelBAAction (al : allocs) (ad : ba_adapter) (Elem : MLME_QUEUE_ELEM)
    : option ba_adapter :=
  if PeerDelBAActionSanity Elem then
    let p := del_parm (el_Msg Elem) in
    if delba_Initiator p =? ORIGINATOR
    then BARecSessionTearDown al ad (el_Wcid Elem) (delba_TID p) true
    else BAOriSessionTearDown al ad (el_Wcid Elem) (delba_TID p) true false
  else Some ad.

(** The function of the action machine for block-ack frames. *)
Definition PeerBAAction (cfg : ba_cfg) (al : allocs) (ad : ba_adapter) (Elem : MLME_QUEUE_ELEM)
    : option ba_adapter :=
  let Action := aget (el_Msg Elem) (LENGTH_802_11 + 1) in
  if Action =? 0 then PeerAddBAReqAction cfg al ad Elem
  else if Action =? 1 then PeerAddBARspAction cfg al ad Elem
  else if Action =? 2 then PeerDelBAAction al ad Elem
  else Some ad.

(** [FRAME_BA_REQ]: [BARControl] at offset 16, [BAStartingSeq] at 18. *)
Definition bar_TID (Msg : list Z) : nat :=
  Z.to_nat (Z.land (Z.shiftr (le_word (take 2 (drop 16 Msg))) 12) 15).
Definition bar_Compressed (Msg : list Z) : Z :=
  Z.land (Z.shiftr (le_word (take 2 (drop 16 Msg))) 2) 1.
Definition bar_StartSeq (Msg : list Z) : Z := Z.land (Z.shiftr (le_word (take 2 (drop 18 Msg))) 4) 0xFFF.

(** Lines 1300-1304: the window moves up to the start of the request. *)
Definition bar_advance (StartSeq : Z) (s : ba_state) : ba_state :=
  if SEQ_SMALLER (LastIndSeq (entry s)) StartSeq MAXSEQ then
    upd_entry (λ e, set_LastIndSeq e (if StartSeq =? 0 then MAXSEQ else StartSeq - 1))
      (ba_indicate_reordering_mpdus_le_seq StartSeq s)
  else s.

Definition CntlEnqueueForRecv (cfg : ba_cfg) (ad : ba_adapter) (w : nat) (MsgLen : Z)
    (Msg : list Z) : option (bool * ba_adapter) :=
  let t := bar_TID Msg in
  if HALT_IN_PROGRESS cfg then Some (false, ad)
  else if MGMT_DMA_BUFFER_SIZE <? MsgLen then Some (false, ad)
  else if negb (MsgLen =? sizeof_BA_REQ) then Some (false, ad)
  else if (Nat.ltb w MAX_LEN_OF_MAC_TABLE) && (Nat.ltb t 8) then
    m ← Content ad !! w;
    Idx ← BARecWcidArray m !! t;
    ad ← run_rec ad Idx (bar_advance (bar_StartSeq Msg));
    Some (true, ad)
  else Some (false, ad).

(** The block-ack request of [dev_rx_ctrl_frm]. *)
Definition dev_rx_ctrl_frm_BAR (cfg : ba_cfg) (al : allocs) (ad : ba_adapter) (w : nat)
    (MsgLen : Z) (Msg : list Z) : option ba_adapter :=
  '(_, ad) ← CntlEnqueueForRecv cfg ad w MsgLen Msg;
  if bar_Compressed Msg =? 0 then BARecSessionTearDown al ad w (bar_TID Msg) false
  else Some ad.

(** Where [INDICATE_LEGACY_OR_AMSDU] sends a frame of no session. *)
Definition legacy_path (rx : RX_BLK) : rx_path :=
  if RX_BLK_TEST_FLAG rx fRX_AMSDU then Path_AMSDU
  else if RX_BLK_TEST_FLAG rx fRX_EAP then Path_EAPOL else Path_Legacy.

Definition Indicate_AMPDU_Packet (cfg : ba_cfg) (ad : ba_adapter) (Now32 : Z) (w t : nat)
    (rx : RX_BLK) : option ba_adapter :=
  if negb (RX_BLK_TEST_FLAG rx fRX_AMSDU) && (MAX_RX_PKT_LEN <? rx_DataSize rx)
  then Some (post ad [Ev_rx (Free (rx_pPacket rx))])
  else if Nat.ltb w MAX_LEN_OF_MAC_TABLE then
    m ← Content ad !! w;
    Idx ← BARecWcidArray m !! t;
    if Nat.eqb Idx 0 then Some (post ad [Ev_rx (Indicate (legacy_path rx) rx)])
    else run_rec ad Idx (indicate_ampdu_session (HZ_ cfg) Now32 rx)
  else Some (post ad [Ev_rx (Free (rx_pPacket rx))]).

(** Lines 2370-2396 of cmm_data.c, [Indicate_Legacy_Packet]: a frame outside an
    aggregate first lets the timeouts of its session run. *)
Definition legacy_flush (cfg : ba_cfg) (ad : ba_adapter) (Now32 : Z) (w t : nat)
    : option ba_adapter :=
  if Nat.ltb w MAX_LEN_OF_MAC_TABLE then
    m ← Content ad !! w;
    Idx ← BARecWcidArray m !! t;
    if Nat.eqb Idx 0 then Some ad
    else
      e ← BARecEntry ad !! Idx;
      if (0 <? qlen (list_ e))
         && RTMP_TIME_AFTER Now32 (u64 (LastIndSeqAtTimer e + REORDERING_PACKET_TIMEOUT (HZ_ cfg)))
      then run_rec ad Idx (ba_flush_reordering_timeout_mpdus (HZ_ cfg) Now32)
      else Some ad
  else Some ad.

(** Free the packets of one list, oldest first. *)
Fixpoint release_loop (fuel : nat) (s : ba_state) : ba_state :=
  match fuel with
  | O => s
  | S fuel =>
      match ba_reordering_mpdu_dequeue (list_ (entry s)) with
      | (Some m, l) =>
          release_loop fuel
            (ba_mpdu_blk_free m (emit (Free (pPacket m)) (upd_entry (λ e, set_list e l) s)))
      | (None, _) => s
      end
  end.

Fixpoint release_entries (ixs : list nat) (ad : ba_adapter) : option ba_adapter :=
  match ixs with
  | [] => Some ad
  | i :: ixs =>
      e ← BARecEntry ad !! i;
      ad ← (if rec_free e then Some ad
            else run_rec ad i (release_loop (length (chain (list_ e)))));
      release_entries ixs ad
  end.

(** The blocks' memory is freed last: [pool] becomes the empty list. *)
Definition ba_reordering_resource_release (ad : ba_adapter) : option ba_adapter :=
  ad ← release_entries (seq 0 MAX_LEN_OF_BA_REC_TABLE) ad;
  Some (mk_ad (Content ad) (numAsRecipient ad) (numAsOriginator ad) (numDoneOriginator ad)
          (BAOriEntry ad) (BARecEntry ad) (mk_list [] 0) (events ad)).

(** * The component as one step function *)

Inductive ba_input :=
| In_SetUp (w t : nat) (TimeOut DelayTime : Z) (isForced : bool)
| In_AddBAReq (al : allocs) (Elem : MLME_QUEUE_ELEM)
| In_AddBARsp (al : allocs) (Elem : MLME_QUEUE_ELEM)
| In_DelBA (al : allocs) (Elem : MLME_QUEUE_ELEM)
| In_BAR (al : allocs) (w : nat) (MsgLen : Z) (Msg : list Z)
| In_AMPDU (Now32 : Z) (w t : nat) (rx : RX_BLK)
| In_Legacy (Now32 : Z) (w t : nat)
| In_OriTimer (i : nat)
| In_RecTimer (i : nat) (Now32 : Z)
| In_OriTearDown (al : allocs) (w t : nat) (bPassive bForceSend : bool)
| In_RecTearDown (al : allocs) (w t : nat) (bPassive : bool)
| In_TearDownALL (al : bool → nat → allocs) (w : nat).

Definition ba_dispatch (cfg : ba_cfg) (i : ba_input) (ad : ba_adapter) : option ba_adapter :=
  match i with
  | In_SetUp w t TimeOut DelayTime f => BAOriSessionSetUp cfg ad w t TimeOut DelayTime f
  | In_AddBAReq al Elem => PeerAddBAReqAction cfg al ad Elem
  | In_AddBARsp al Elem => PeerAddBARspAction cfg al ad Elem
  | In_DelBA al Elem => PeerDelBAAction al ad Elem
  | In_BAR al w n Msg => dev_rx_ctrl_frm_BAR cfg al ad w n Msg
  | In_AMPDU now w t rx => Indicate_AMPDU_Packet cfg ad now w t rx
  | In_Legacy now w t => legacy_flush cfg ad now w t
  | In_OriTimer i => BAOriSessionSetupTimeout cfg ad i
  | In_RecTimer i now => BARecSessionIdleTimeout ad i now
  | In_OriTearDown al w t p f => BAOriSessionTearDown al ad w t p f
  | In_RecTearDown al w t p => BARecSessionTearDown al ad w t p
  | In_TearDownALL al w => BASessionTearDownALL al ad w
  end.
