(* ===== verification/BaSessionTable.v ===== *)
(** Groundwork for the block-ack sessions of [BaSession]: one table of sessions
    and the index arrays of the peers as a partial bijection ([linked]) with
    exact counters and bitmaps ([table_ok]), proved once for the recipient and
    the originator table; and the reordering code keeps the identity of the
    session it runs on. *)

From S2P Require Import Prelude Mlme BaReorder BaReorderSpec BaReorderProofs BaReorderClaims BaSession.

(** * The link between a table and the index arrays *)

Definition linked (owner : nat → option (nat * nat)) (slot : nat → nat → nat) : Prop :=
  ∀ i w t, owner i = Some (w, t) ↔ slot w t = i ∧ i ≠ O.

(** Entry [i] and slot [(w, t)] belong together before ([o]) or after ([o']) or
    are both empty; nothing else changes. *)
Lemma linked_change owner slot owner' slot' i w t (o o' : bool) :
  linked owner slot → i ≠ O →
  owner i = (if o then Some (w, t) else None) → slot w t = (if o then i else O) →
  owner' i = (if o' then Some (w, t) else None) → slot' w t = (if o' then i else O) →
  (∀ j, j ≠ i → owner' j = owner j) →
  (∀ w' t', (w', t') ≠ (w, t) → slot' w' t' = slot w' t') →
  linked owner' slot'.
Proof.
  intros L H0 Hi Hs Hi' Hs' Ho Hso j w' t'.
  destruct (decide ((w', t') = (w, t))) as [[= -> ->]|Hn], (decide (j = i)) as [->|Hj].
  - rewrite Hi', Hs'. destruct o'; split; try done; intros []; congruence.
  - rewrite Ho, (L j w t), Hs, Hs' by done. split; intros []; destruct o, o'; congruence.
  - rewrite Hi', Hso by done. split.
    + destruct o'; congruence.
    + intros H. apply L in H. destruct o; congruence.
  - rewrite Ho, Hso by done. apply L.
Qed.

Lemma linked_ext owner slot owner' slot' :
  linked owner slot → (∀ i, owner' i = owner i) → (∀ w t, slot' w t = slot w t) →
  linked owner' slot'.
Proof. intros L Ho Hs i w t. rewrite Ho, Hs. apply L. Qed.

(** * Counting the entries of a table *)

Fixpoint count {A} (p : A → bool) (l : list A) : nat :=
  match l with [] => O | x :: l => (Nat.b2n (p x) + count p l)%nat end.

Lemma count_insert {A} (p : A → bool) l i x y :
  l !! i = Some x →
  (count p (<[i := y]> l) + Nat.b2n (p x) = count p l + Nat.b2n (p y))%nat.
Proof.
  revert i. induction l as [|z l IH]; intros [|i] H; simpl in *; simplify_eq; [lia|].
  apply IH in H. lia.
Qed.

Lemma count_le {A} (p : A → bool) l : (count p l ≤ length l)%nat.
Proof. induction l as [|x l IH]; simpl; [lia|]. destruct (p x); simpl; lia. Qed.

Lemma first_free_spec {A} (free : A → bool) l : ∀ i,
  match first_free free i l with
  | Some j => ∃ k e, j = (i + k)%nat ∧ l !! k = Some e ∧ free e = true
  | None => count (λ e, negb (free e)) l = length l
  end.
Proof.
  induction l as [|x l IH]; intros i; simpl; [done|].
  destruct (free x) eqn:E; simpl.
  - exists O, x. by rewrite Nat.add_0_r.
  - specialize (IH (S i)). destruct (first_free _ _ _) as [j|]; [|lia].
    destruct IH as (k & e & -> & H1 & H2). exists (S k), e. split; [lia|done].
Qed.

(** A table whose entry 0 is free and which is not full has a free entry. *)
Lemma first_free_exists {A} (free : A → bool) l e0 :
  l !! O = Some e0 → free e0 = true →
  (count (λ e, negb (free e)) l < length l - 1)%nat →
  ∃ i e, first_free free 1 (drop 1 l) = Some i ∧ i ≠ O ∧ l !! i = Some e ∧ free e = true.
Proof.
  destruct l as [|x l]; [done|]. simpl. intros [= ->] -> H. simpl in H.
  pose proof (first_free_spec free l 1) as F. rewrite drop_0 in *.
  destruct (first_free _ _ _) as [j|]; [|lia].
  destruct F as (k & e & -> & H1 & H2). by exists (S k), e.
Qed.

(** * Bits of the bitmaps *)

Lemma bit_set_testbit b t : bit_set b t = Z.testbit b (Z.of_nat t).
Proof.
  unfold bit_set. destruct (Z.testbit b (Z.of_nat t)) eqn:E.
  - apply negb_true_iff, Z.eqb_neq. intros H.
    apply (f_equal (λ z, Z.testbit z (Z.of_nat t))) in H.
    rewrite Z.land_spec, E, Z.shiftl_1_l, Z.pow2_bits_true, Z.bits_0 in H by lia. done.
  - apply negb_false_iff, Z.eqb_eq. apply Z.bits_inj'. intros n Hn.
    rewrite Z.land_spec, Z.shiftl_1_l, Z.pow2_bits_eqb, Z.bits_0 by lia.
    destruct (Z.eqb_spec (Z.of_nat t) n) as [<-|]; [by rewrite E|by rewrite andb_false_r].
Qed.

Lemma testbit_set_bit b t t' :
  (t < 16)%nat → (t' < 16)%nat →
  Z.testbit (set_bit b t) (Z.of_nat t') = Z.testbit b (Z.of_nat t') || Nat.eqb t t'.
Proof.
  intros H1 H2. unfold set_bit. rewrite wrap_spec by lia.
  replace (Z.of_nat t' <? 16) with true by lia.
  rewrite Z.lor_spec, Z.shiftl_1_l, Z.pow2_bits_eqb by lia. simpl.
  destruct (Nat.eqb_spec t t'), (Z.eqb_spec (Z.of_nat t) (Z.of_nat t')); try lia; done.
Qed.

Lemma testbit_clear_bit b t t' :
  (t < 16)%nat → (t' < 16)%nat →
  Z.testbit (clear_bit b t) (Z.of_nat t') = Z.testbit b (Z.of_nat t') && negb (Nat.eqb t t').
Proof.
  intros H1 H2. unfold clear_bit. rewrite wrap_spec by lia.
  replace (Z.of_nat t' <? 16) with true by lia.
  rewrite Z.land_spec, Z.lnot_spec, Z.shiftl_1_l, Z.pow2_bits_eqb by lia. simpl.
  destruct (Nat.eqb_spec t t'), (Z.eqb_spec (Z.of_nat t) (Z.of_nat t')); try lia; done.
Qed.

(** * One table and its index arrays

    Both tables are instances: [free] says an entry is not in use, [own] the
    peer and TID of a session, [live] that its bit is set in the peer's
    bitmap. *)

Lemma alter_insert_Some {A} (f : A → A) (l : list A) (i : nat) x :
  l !! i = Some x → alter f i l = <[i := f x]> l.
Proof.
  revert i. induction l as [|y l IH]; intros [|i] H; simpl in *; simplify_eq; [done|].
  unfold alter in IH. by rewrite IH.
Qed.

Lemma alter_alter {A} (f g : A → A) (l : list A) (i : nat) :
  alter f i (alter g i l) = alter (λ x, f (g x)) i l.
Proof.
  revert i. induction l as [|y l IH]; intros [|i]; simpl; try done.
  unfold alter in IH. by rewrite IH.
Qed.

Section Table.
Context {A : Type} (free live : A → bool) (own : A → nat * nat) (ok : A → Prop) (len : nat).
Context (arr : mac_entry → list nat) (bits : mac_entry → Z).
Context (live_used : ∀ e, free e = true → live e = false).

Definition owner (tab : list A) (i : nat) : option (nat * nat) :=
  e ← tab !! i; if free e then None else Some (own e).
Definition slot (c : list mac_entry) (w t : nat) : nat :=
  default O (m ← c !! w; arr m !! t).
Definition live_at (tab : list A) (i : nat) : bool :=
  match tab !! i with Some e => live e | None => false end.
Definition used (e : A) : bool := negb (free e).

Record table_ok (c : list mac_entry) (tab : list A) (n d : Z) : Prop := {
  tab_len : length tab = len;
  tab_linked : linked (owner tab) (slot c);
  tab_entry : ∀ i e, tab !! i = Some e → ok e;
  tab_bits : ∀ w m t, c !! w = Some m → (t < NUM_OF_TID)%nat →
    Z.testbit (bits m) (Z.of_nat t) = live_at tab (slot c w t);
  tab_n : n = Z.of_nat (count used tab);
  tab_d : d = Z.of_nat (count live tab)
}.

Lemma owner_Some tab i p :
  owner tab i = Some p ↔ ∃ e, tab !! i = Some e ∧ free e = false ∧ own e = p.
Proof.
  unfold owner. destruct (tab !! i) as [e|]; simpl; [|split; [done|by intros (? & ? & _)]].
  destruct (free e) eqn:E; (split; [|intros (e' & [= <-] & H & <-); congruence]); [done|].
  intros [= <-]. eauto.
Qed.

Lemma owner_insert tab i e e' j :
  tab !! i = Some e →
  owner (<[i := e']> tab) j =
    if decide (j = i) then (if free e' then None else Some (own e')) else owner tab j.
Proof.
  intros H. unfold owner. destruct (decide (j = i)) as [->|Hn].
  - rewrite list_lookup_insert_eq by (by eapply lookup_lt_Some). done.
  - by rewrite list_lookup_insert_ne by done.
Qed.

Lemma live_at_insert tab i e e' j :
  tab !! i = Some e →
  live_at (<[i := e']> tab) j = if decide (j = i) then live e' else live_at tab j.
Proof.
  intros H. unfold live_at. destruct (decide (j = i)) as [->|Hn].
  - rewrite list_lookup_insert_eq by (by eapply lookup_lt_Some). done.
  - by rewrite list_lookup_insert_ne by done.
Qed.

Lemma slot_Some c w m t i : c !! w = Some m → arr m !! t = Some i → slot c w t = i.
Proof. intros H1 H2. unfold slot. by rewrite H1; simpl; rewrite H2. Qed.

Lemma slot_inv c w t i :
  slot c w t = i → i ≠ O → ∃ m, c !! w = Some m ∧ arr m !! t = Some i.
Proof.
  unfold slot. destruct (c !! w) as [m|]; simpl; [|congruence].
  destruct (arr m !! t) eqn:E; simpl; [|congruence]. intros <- _. eauto.
Qed.

Lemma slot_alter_other c f w w' t : w' ≠ w → slot (alter f w c) w' t = slot c w' t.
Proof. intros H. unfold slot. by rewrite list_lookup_alter_ne by done. Qed.

Lemma slot_alter_same c f w m t :
  c !! w = Some m → slot (alter f w c) w t = default O (arr (f m) !! t).
Proof. intros H. unfold slot. rewrite list_lookup_alter, decide_True by done. by rewrite H. Qed.

Lemma slot_alter_arr c f w' w t : (∀ m, arr (f m) = arr m) → slot (alter f w' c) w t = slot c w t.
Proof.
  intros Hf. destruct (decide (w = w')) as [->|Hn]; [|by apply slot_alter_other].
  unfold slot. rewrite list_lookup_alter, decide_True by done.
  destruct (c !! w'); simpl; [by rewrite Hf|done].
Qed.

(** ** Reading *)

Lemma table_lookup c tab n d w m t i :
  table_ok c tab n d → c !! w = Some m → arr m !! t = Some i → i ≠ O →
  ∃ e, tab !! i = Some e ∧ free e = false ∧ own e = (w, t).
Proof.
  intros T H1 H2 H3. apply owner_Some, (tab_linked _ _ _ _ T).
  split; [by eapply slot_Some|done].
Qed.

Lemma table_entry_slot c tab n d i e w t :
  table_ok c tab n d → tab !! i = Some e → free e = false → own e = (w, t) →
  i ≠ O ∧ slot c w t = i ∧ ∃ m, c !! w = Some m ∧ arr m !! t = Some i.
Proof.
  intros T H1 H2 H3.
  assert (owner tab i = Some (w, t)) as Ho by (apply owner_Some; eauto).
  apply (tab_linked _ _ _ _ T) in Ho as [Hs Hi]. split; [done|]. split; [done|].
  by apply slot_inv.
Qed.

Lemma table_zero_free c tab n d e : table_ok c tab n d → tab !! O = Some e → free e = true.
Proof.
  intros T H. destruct (free e) eqn:E; [done|].
  destruct (own e) as [w t] eqn:Eo.
  by destruct (table_entry_slot _ _ _ _ _ _ _ _ T H E Eo) as [? _].
Qed.

(** ** Writing *)

Lemma table_frame c tab n d w f :
  table_ok c tab n d → (∀ m, arr (f m) = arr m) → (∀ m, bits (f m) = bits m) →
  table_ok (alter f w c) tab n d.
Proof.
  intros T Ha Hb. destruct T as [T1 T2 T3 T4 T5 T6]. split; try done.
  - eapply linked_ext; [exact T2|done|]. intros. by apply slot_alter_arr.
  - intros w' m t Hm Ht. rewrite slot_alter_arr by done.
    rewrite list_lookup_alter in Hm. case_decide as E; [|by apply T4].
    subst. destruct (c !! w') as [m0|] eqn:E0; simplify_eq/=. rewrite Hb. by apply T4.
Qed.

Lemma table_update c tab n d i e e' :
  table_ok c tab n d → tab !! i = Some e → free e' = free e → live e' = live e →
  own e' = own e → ok e' → table_ok c (<[i := e']> tab) n d.
Proof.
  intros [T1 T2 T3 T4 T5 T6] Hi Hf Hl Ho Hok. split.
  - by rewrite length_insert.
  - eapply linked_ext; [exact T2| |done]. intros j.
    rewrite (owner_insert _ _ _ _ _ Hi). case_decide; [subst|done].
    unfold owner. rewrite Hi. simpl. by rewrite Hf, Ho.
  - intros j e0 Hj. rewrite list_lookup_insert in Hj. case_decide; simplify_eq; eauto.
  - intros w m t Hm Ht. rewrite (live_at_insert _ _ _ _ _ Hi), (T4 w m t) by done.
    case_decide as E; [|done]. rewrite E. unfold live_at. by rewrite Hi, Hl.
  - rewrite T5. pose proof (count_insert used _ _ _ e' Hi) as C. unfold used in *.
    rewrite Hf in C. lia.
  - rewrite T6. pose proof (count_insert live _ _ _ e' Hi) as C. rewrite Hl in C. lia.
Qed.

(** Entry [i], free or of session [(w, t)], becomes [e'], of the same session
    or free; the slot and the bit of [(w, t)] follow. *)
Record session_change (c : list mac_entry) (tab : list A) (w : nat) (m : mac_entry) (t i : nat)
    (e e' : A) (f : mac_entry → mac_entry) : Prop := {
  ch_mac : c !! w = Some m;
  ch_tid : (t < NUM_OF_TID)%nat;
  ch_entry : tab !! i = Some e;
  ch_index : i ≠ O;
  ch_own : free e = false → own e = (w, t);
  ch_slot : default O (arr m !! t) = (if free e then O else i);
  ch_own' : free e' = false → own e' = (w, t);
  ch_slot' : default O (arr (f m) !! t) = (if free e' then O else i);
  ch_slots : ∀ t', t' ≠ t → arr (f m) !! t' = arr m !! t';
  ch_bits : ∀ t', (t' < NUM_OF_TID)%nat → Z.testbit (bits (f m)) (Z.of_nat t') =
     if decide (t' = t) then live e' else Z.testbit (bits m) (Z.of_nat t');
  ch_ok : ok e'
}.

Section Change.
Context (c : list mac_entry) (tab : list A) (n d : Z).
Context (w : nat) (m : mac_entry) (t i : nat) (e e' : A) (f : mac_entry → mac_entry).
Context (T : table_ok c tab n d) (C : session_change c tab w m t i e e' f).

Lemma change_slot : slot c w t = if free e then O else i.
Proof using C. rewrite <- (ch_slot _ _ _ _ _ _ _ _ _ C). unfold slot. by rewrite (ch_mac _ _ _ _ _ _ _ _ _ C). Qed.

Lemma change_slot' : slot (alter f w c) w t = if free e' then O else i.
Proof using C. rewrite (slot_alter_same _ _ _ _ _ (ch_mac _ _ _ _ _ _ _ _ _ C)). apply C. Qed.

Lemma change_slot_other w' t' : (w', t') ≠ (w, t) → slot (alter f w c) w' t' = slot c w' t'.
Proof using C.
  destruct C as [Hm _ _ _ _ _ _ _ Hoth _ _]. intros Hn.
  destruct (decide (w' = w)) as [->|Hw]; [|by apply slot_alter_other].
  rewrite (slot_alter_same _ _ _ _ _ Hm), Hoth by congruence. unfold slot. by rewrite Hm.
Qed.

(** No other slot holds [i]. *)
Lemma change_slot_ne w' t' : (w', t') ≠ (w, t) → slot c w' t' ≠ i.
Proof using T C.
  destruct C as [_ _ Hi H0 Ho _ _ _ _ _ _]. intros Hn E.
  assert (owner tab i = Some (w', t')) as Hx by (by apply (tab_linked _ _ _ _ T)).
  apply owner_Some in Hx as (e0 & He0 & Hf & Hown). simplify_eq. rewrite Ho in Hown by done. congruence.
Qed.

Lemma live_at_zero : live_at tab O = false.
Proof using T live_used.
  unfold live_at. destruct (tab !! O) as [e0|] eqn:E0; [|done].
  apply live_used. by eapply table_zero_free.
Qed.

Lemma change_linked : linked (owner (<[i := e']> tab)) (slot (alter f w c)).
Proof using T C.
  pose proof C as [_ _ Hi H0 Ho _ Ho' _ _ _ _].
  apply (linked_change (owner tab) (slot c) _ _ i w t (used e) (used e'));
    unfold used; rewrite ?change_slot, ?change_slot', ?(owner_insert _ _ _ _ _ Hi), ?decide_True by done;
    try done.
  - apply T.
  - unfold owner. rewrite Hi. simpl. destruct (free e); [done|]. by rewrite Ho.
  - by destruct (free e).
  - destruct (free e'); [done|]. by rewrite Ho'.
  - by destruct (free e').
  - intros j Hj. by rewrite (owner_insert _ _ _ _ _ Hi), decide_False by done.
  - apply change_slot_other.
Qed.

Lemma change_live w' m' t' :
  alter f w c !! w' = Some m' → (t' < NUM_OF_TID)%nat →
  Z.testbit (bits m') (Z.of_nat t') = live_at (<[i := e']> tab) (slot (alter f w c) w' t').
Proof using T C live_used.
  pose proof C as [Hm _ Hi H0 _ _ _ _ _ Hb _]. intros Hm' Ht'.
  rewrite (live_at_insert _ _ _ _ _ Hi), list_lookup_alter in *.
  destruct (decide ((w', t') = (w, t))) as [[= -> ->]|Hn].
  - rewrite change_slot'. rewrite decide_True, Hm in Hm' by done. simplify_eq/=.
    rewrite Hb, decide_True by done. destruct (free e') eqn:E'; [|by rewrite decide_True].
    rewrite decide_False, live_at_zero by done. by apply live_used.
  - rewrite change_slot_other, decide_False by (try done; by apply change_slot_ne).
    case_decide as Ew; [|by apply T]. subst. rewrite Hm in Hm'. simplify_eq/=.
    rewrite Hb, decide_False by congruence. by apply T.
Qed.

Lemma table_change :
  table_ok (alter f w c) (<[i := e']> tab) (n + Z.b2z (used e') - Z.b2z (used e))
    (d + Z.b2z (live e') - Z.b2z (live e)).
Proof using T C live_used.
  pose proof C as [_ _ Hi _ _ _ _ _ _ _ Hok]. pose proof T as [T1 T2 T3 T4 T5 T6]. split.
  - by rewrite length_insert.
  - exact change_linked.
  - intros j e0 Hj. rewrite list_lookup_insert in Hj. case_decide; simplify_eq; eauto.
  - exact change_live.
  - rewrite T5. pose proof (count_insert used _ _ _ e' Hi).
    destruct (used e), (used e'); simpl in *; lia.
  - rewrite T6. pose proof (count_insert live _ _ _ e' Hi).
    destruct (live e), (live e'); simpl in *; lia.
Qed.
End Change.
End Table.

(** * The reordering code keeps the identity of a session *)

Definition entry_id (e : BA_REC_ENTRY) : Z * Z * Z * REC_BLOCKACK_STATUS :=
  (Wcid e, TID e, BAWinSize e, REC_BA_Status e).

Lemma id_pop_announce s q s' : pop_announce s = Some (q, s') → entry_id (entry s') = entry_id (entry s).
Proof.
  unfold pop_announce. destruct (ba_reordering_mpdu_dequeue _) as [[m|] l]; [|done].
  by intros [= <- <-].
Qed.

Lemma id_in_order_loop fuel : ∀ q r s, entry_id (entry (in_order_loop fuel q r s).2) = entry_id (entry s).
Proof.
  induction fuel as [|fuel IH]; intros q r s; [done|]. simpl.
  destruct (ba_reordering_mpdu_probe _); [|done]. case_match; [done|].
  destruct (pop_announce s) as [[q' s']|] eqn:E; [|done].
  rewrite IH. by eapply id_pop_announce.
Qed.

Lemma id_le_seq_loop fuel : ∀ q s, entry_id (entry (le_seq_loop fuel q s)) = entry_id (entry s).
Proof.
  induction fuel as [|fuel IH]; intros q s; [done|]. simpl.
  destruct (ba_reordering_mpdu_probe _); [|done]. case_match; [|done].
  destruct (pop_announce s) as [[q' s']|] eqn:E; [|done].
  rewrite IH. by eapply id_pop_announce.
Qed.

Lemma id_refresh_loop fuel : ∀ s, entry_id (entry (refresh_loop fuel s)) = entry_id (entry s).
Proof.
  induction fuel as [|fuel IH]; intros s; [done|]. simpl.
  destruct (pop_announce s) as [[q' s']|] eqn:E; [|done].
  rewrite IH. simpl. by rewrite <- (id_pop_announce _ _ _ E).
Qed.

Lemma id_in_order q s : entry_id (entry (ba_indicate_reordering_mpdus_in_order q s).2) = entry_id (entry s).
Proof. apply id_in_order_loop. Qed.
Lemma id_le_seq q s : entry_id (entry (ba_indicate_reordering_mpdus_le_seq q s)) = entry_id (entry s).
Proof. apply id_le_seq_loop. Qed.
Lemma id_refresh s : entry_id (entry (ba_refresh_reordering_mpdus s)) = entry_id (entry s).
Proof. apply (id_refresh_loop _ s). Qed.

Lemma id_set_LastIndSeq q s : entry_id (entry (upd_entry (λ e, set_LastIndSeq e q) s)) = entry_id (entry s).
Proof. done. Qed.
Lemma id_indicate rx s : entry_id (entry (INDICATE_LEGACY_OR_AMSDU rx s)) = entry_id (entry s).
Proof. unfold INDICATE_LEGACY_OR_AMSDU. by repeat case_match. Qed.

(** The drain that ends several branches. *)
Lemma id_drain q s :
  entry_id (entry (let '(r, s1) := ba_indicate_reordering_mpdus_in_order q s in
    if negb (r =? RESET_RCV_SEQ) then upd_entry (λ e, set_LastIndSeq e r) s1 else s1))
  = entry_id (entry s).
Proof.
  rewrite <- (id_in_order q s). destruct (ba_indicate_reordering_mpdus_in_order q s) as [r s1].
  simpl. by case_match.
Qed.

Lemma id_bypass q rx s :
  entry_id (entry (INDICATE_LEGACY_OR_AMSDU rx
    (upd_entry (λ e, set_LastIndSeq e q) (ba_indicate_reordering_mpdus_le_seq q s))))
  = entry_id (entry s).
Proof. rewrite id_indicate, id_set_LastIndSeq. apply id_le_seq. Qed.

Lemma id_enqueue rx s : entry_id (entry (ba_enqueue_reordering_packet rx s)) = entry_id (entry s).
Proof.
  unfold ba_enqueue_reordering_packet, ba_mpdu_blk_alloc.
  destruct (ba_dequeue (mpdu_blk_pool s)) as [[b|] k].
  - destruct (negb _).
    + simpl. by destruct (ba_reordering_mpdu_insertsorted _ _).
    + by rewrite id_bypass.
  - by rewrite id_bypass.
Qed.

Lemma id_flush_timeout HZ now s :
  entry_id (entry (ba_flush_reordering_timeout_mpdus HZ now s)) = entry_id (entry s).
Proof.
  unfold ba_flush_reordering_timeout_mpdus. case_match; [done|]. case_match.
  { apply (id_refresh s). }
  case_match; [|done]. rewrite id_drain. apply (id_le_seq _ s).
Qed.

Lemma id_reorder_cases rx now s : entry_id (entry (reorder_cases rx now s)) = entry_id (entry s).
Proof.
  unfold reorder_cases. case_match.
  - match goal with |- context [ba_indicate_reordering_mpdus_in_order ?q ?x] =>
      transitivity (entry_id (entry x)); [rewrite <- (id_drain q x)|by rewrite id_indicate] end.
    by destruct (ba_indicate_reordering_mpdus_in_order _ _) as [r s1].
  - do 2 (case_match; [done|]). case_match; [apply id_enqueue|].
    rewrite id_drain, id_enqueue. apply (id_le_seq _ s).
Qed.

Lemma id_session HZ now rx s : entry_id (entry (indicate_ampdu_session HZ now rx s)) = entry_id (entry s).
Proof.
  unfold indicate_ampdu_session.
  set (s0 := upd_entry (λ e, set_rcvSeq e _) s).
  pose proof (id_flush_timeout HZ now s0) as H.
  case_match; [rewrite id_indicate|rewrite id_reorder_cases]; exact H.
Qed.
