(* ===== verification/BaSessionProofs.v ===== *)
(** The invariant of the block-ack sessions of [BaSession] and its
    preservation by every handler, none of which leaves the tables. *)

From S2P Require Import Prelude Mlme BaReorder BaReorderSpec BaReorderProofs BaReorderClaims.
From S2P Require Import BaSession BaSessionTable.

#[local] Arguments ba_refresh_reordering_mpdus : simpl never.

(** * The invariant *)

Definition rec_own (e : BA_REC_ENTRY) : nat * nat := (Z.to_nat (Wcid e), Z.to_nat (TID e)).
Definition rec_live (e : BA_REC_ENTRY) : bool := negb (rec_free e).
Definition ori_own (e : BA_ORI_ENTRY) : nat * nat := (Z.to_nat (ori_Wcid e), Z.to_nat (ori_TID e)).
Definition ori_live (e : BA_ORI_ENTRY) : bool := bool_decide (ORI_BA_Status e = Originator_Done).

(** A recipient entry is free with an empty list, or accepted with a window
    the reordering code works with. *)
Definition rec_entry_ok (e : BA_REC_ENTRY) : Prop :=
  (REC_BA_Status e = Recipient_NONE ∧ list_ e = mk_list [] 0) ∨
  (REC_BA_Status e = Recipient_Accept ∧ wf_list (list_ e) ∧ 1 ≤ BAWinSize e ≤ 255).
Definition ori_entry_ok (e : BA_ORI_ENTRY) : Prop :=
  ORI_BA_Status e ≠ Originator_USED ∧
  (Z.to_nat (ori_Wcid e) < MAX_LEN_OF_MAC_TABLE)%nat ∧ (Z.to_nat (ori_TID e) < NUM_OF_TID)%nat.

Definition rec_table_ok (c : list mac_entry) (tab : list BA_REC_ENTRY) (n : Z) : Prop :=
  table_ok rec_free rec_live rec_own rec_entry_ok MAX_LEN_OF_BA_REC_TABLE BARecWcidArray RXBAbitmap
    c tab n n.
Definition ori_table_ok (c : list mac_entry) (tab : list BA_ORI_ENTRY) (n d : Z) : Prop :=
  table_ok ori_free ori_live ori_own ori_entry_ok MAX_LEN_OF_BA_ORI_TABLE BAOriWcidArray TXBAbitmap
    c tab n d.

Definition mac_ok (w : nat) (m : mac_entry) : Prop :=
  length (BARecWcidArray m) = NUM_OF_TID ∧ length (BAOriWcidArray m) = NUM_OF_TID ∧
  length (TxSeq m) = NUM_OF_TID ∧ (IS_HT_STA m = true → mac_wcid m = Z.of_nat w).
Definition content_ok (c : list mac_entry) : Prop :=
  length c = MAX_LEN_OF_MAC_TABLE ∧ ∀ w m, c !! w = Some m → mac_ok w m.

Definition ba_inv (ad : ba_adapter) : Prop :=
  content_ok (Content ad) ∧
  rec_table_ok (Content ad) (BARecEntry ad) (numAsRecipient ad) ∧
  ori_table_ok (Content ad) (BAOriEntry ad) (numAsOriginator ad) (numDoneOriginator ad) ∧
  wf_list (pool ad).

(** What the callers guarantee: indices inside the tables, TIDs below
    [NUM_OF_TID], and a transmit session only for a peer whose entry carries
    its own index. *)
Definition input_ok (ad : ba_adapter) (i : ba_input) : Prop :=
  match i with
  | In_SetUp w _ _ _ _ => ∃ m, Content ad !! w = Some m ∧ mac_wcid m = Z.of_nat w
  | In_AddBAReq _ Elem => (parm_TID (req_parm (el_Msg Elem)) < NUM_OF_TID)%nat
  | In_AddBARsp _ Elem => (parm_TID (rsp_parm (el_Msg Elem)) < NUM_OF_TID)%nat
  | In_DelBA _ Elem => (delba_TID (del_parm (el_Msg Elem)) < NUM_OF_TID)%nat
  | In_BAR _ _ _ Msg => (bar_TID Msg < NUM_OF_TID)%nat
  | In_AMPDU _ _ t _ | In_Legacy _ _ t => (t < NUM_OF_TID)%nat
  | In_OriTimer i => (i < MAX_LEN_OF_BA_ORI_TABLE)%nat
  | In_RecTimer i _ => (i < MAX_LEN_OF_BA_REC_TABLE)%nat
  | In_OriTearDown _ _ t _ _ | In_RecTearDown _ _ t _ => (t < NUM_OF_TID)%nat
  | In_TearDownALL _ _ => True
  end.

(** The sessions of the recipient table outside [PR] and those of the
    originator table outside [PO] are as before: their slots and their
    entries. *)
Definition rec_slot (ad : ba_adapter) : nat → nat → nat := slot BARecWcidArray (Content ad).
Definition ori_slot (ad : ba_adapter) : nat → nat → nat := slot BAOriWcidArray (Content ad).

Definition kept (PR PO : nat * nat → Prop) (ad ad' : ba_adapter) : Prop :=
  (∀ w t, ¬ PR (w, t) → rec_slot ad' w t = rec_slot ad w t) ∧
  (∀ w t, ¬ PO (w, t) → ori_slot ad' w t = ori_slot ad w t) ∧
  (∀ i e, BARecEntry ad !! i = Some e → rec_free e = false → ¬ PR (rec_own e) →
     BARecEntry ad' !! i = Some e) ∧
  (∀ i e, BAOriEntry ad !! i = Some e → ori_free e = false → ¬ PO (ori_own e) →
     BAOriEntry ad' !! i = Some e).

Definition steps (PR PO : nat * nat → Prop) (ad ad' : ba_adapter) : Prop :=
  ba_inv ad' ∧ kept PR PO ad ad'.

Definition no_session (p : nat * nat) : Prop := False.

(** * Reading under the invariant *)

Lemma rec_live_free e : rec_free e = true → rec_live e = false.
Proof. unfold rec_live. by intros ->. Qed.
Lemma ori_live_free e : ori_free e = true → ori_live e = false.
Proof. unfold ori_free, ori_live. rewrite bool_decide_eq_true. by intros ->. Qed.

Lemma mac_lookup ad w :
  ba_inv ad → Nat.leb MAX_LEN_OF_MAC_TABLE w = false → ∃ m, Content ad !! w = Some m ∧ mac_ok w m.
Proof.
  intros ((HL & HC) & _) H. apply Nat.leb_gt in H. rewrite <- HL in H.
  apply lookup_lt_is_Some in H as [m Hm]. eauto.
Qed.

Lemma mac_slots w m t :
  mac_ok w m → (t < NUM_OF_TID)%nat →
  (∃ i, BARecWcidArray m !! t = Some i) ∧ (∃ i, BAOriWcidArray m !! t = Some i) ∧
  (∃ q, TxSeq m !! t = Some q).
Proof.
  intros (H1 & H2 & H3 & _) Ht.
  repeat split; apply lookup_lt_is_Some; lia.
Qed.

Lemma rec_slot_entry ad w m t i :
  ba_inv ad → Content ad !! w = Some m → BARecWcidArray m !! t = Some i → i ≠ O →
  ∃ e, BARecEntry ad !! i = Some e ∧ rec_free e = false ∧ rec_own e = (w, t) ∧
       REC_BA_Status e = Recipient_Accept ∧ wf_list (list_ e).
Proof.
  intros (_ & HR & _) H1 H2 H3.
  destruct (table_lookup _ _ _ _ _ _ _ _ _ _ _ _ _ _ _ HR H1 H2 H3) as (e & He & Hf & Ho).
  exists e. do 3 (split; [done|]).
  destruct (tab_entry _ _ _ _ _ _ _ _ _ _ _ HR i e He) as [[Hs _]|(Hs & Hw & _)]; [|done].
  unfold rec_free in Hf. rewrite bool_decide_eq_false in Hf. done.
Qed.

Lemma ori_slot_entry ad w m t i :
  ba_inv ad → Content ad !! w = Some m → BAOriWcidArray m !! t = Some i → i ≠ O →
  ∃ e, BAOriEntry ad !! i = Some e ∧ ori_free e = false ∧ ori_own e = (w, t) ∧
       (ORI_BA_Status e = Originator_WaitRes ∨ ORI_BA_Status e = Originator_Done).
Proof.
  intros (_ & _ & HO & _) H1 H2 H3.
  destruct (table_lookup _ _ _ _ _ _ _ _ _ _ _ _ _ _ _ HO H1 H2 H3) as (e & He & Hf & Ho).
  exists e. do 3 (split; [done|]).
  destruct (tab_entry _ _ _ _ _ _ _ _ _ _ _ HO i e He) as [Hu _].
  unfold ori_free in Hf. rewrite bool_decide_eq_false in Hf.
  destruct (ORI_BA_Status e); naive_solver.
Qed.

(** * Writing *)

Lemma content_ok_alter c w f :
  content_ok c → (∀ m, mac_ok w m → mac_ok w (f m)) → content_ok (alter f w c).
Proof.
  intros [HL HC] Hf. split; [by rewrite length_alter|].
  intros w' m Hm. rewrite list_lookup_alter in Hm. case_decide as E; [|eauto]. subst.
  destruct (c !! w') as [m0|] eqn:E0; simplify_eq/=. eauto.
Qed.

Lemma mac_ok_rec_slot w m t i : mac_ok w m → mac_ok w (mac_rec_slot t i m).
Proof. intros (H1 & H2 & H3 & H4). unfold mac_ok. simpl. by rewrite length_insert. Qed.
Lemma mac_ok_ori_slot w m t i : mac_ok w m → mac_ok w (mac_ori_slot t i m).
Proof. intros (H1 & H2 & H3 & H4). unfold mac_ok. simpl. by rewrite length_insert. Qed.
Lemma mac_ok_bitmaps w m rx tx dec : mac_ok w m → mac_ok w (mac_bitmaps m rx tx dec).
Proof. done. Qed.

Create HintDb ba.
#[export] Hint Resolve mac_ok_rec_slot mac_ok_ori_slot mac_ok_bitmaps : ba.

Lemma kept_refl PR PO ad : kept PR PO ad ad.
Proof. unfold kept. naive_solver. Qed.

Lemma kept_trans PR PO ad1 ad2 ad3 : kept PR PO ad1 ad2 → kept PR PO ad2 ad3 → kept PR PO ad1 ad3.
Proof.
  intros (A1 & A2 & A3 & A4) (B1 & B2 & B3 & B4). unfold kept. conjs; intros.
  - by rewrite B1, A1.
  - by rewrite B2, A2.
  - auto.
  - auto.
Qed.

Lemma kept_mono (PR PO PR' PO' : nat * nat → Prop) ad ad' :
  (∀ p, PR p → PR' p) → (∀ p, PO p → PO' p) → kept PR PO ad ad' → kept PR' PO' ad ad'.
Proof. intros HR HO (A1 & A2 & A3 & A4). unfold kept. conjs; eauto. Qed.

Lemma steps_refl PR PO ad : ba_inv ad → steps PR PO ad ad.
Proof. split; [done|apply kept_refl]. Qed.

Lemma steps_trans PR PO ad1 ad2 ad3 : steps PR PO ad1 ad2 → steps PR PO ad2 ad3 → steps PR PO ad1 ad3.
Proof. intros [_ H1] [H2 H3]. split; [done|by eapply kept_trans]. Qed.

Lemma steps_mono (PR PO PR' PO' : nat * nat → Prop) ad ad' :
  (∀ p, PR p → PR' p) → (∀ p, PO p → PO' p) → steps PR PO ad ad' → steps PR' PO' ad ad'.
Proof. intros HR HO [H1 H2]. split; [done|by eapply kept_mono]. Qed.

#[export] Hint Resolve steps_refl : ba.

Lemma slot_alter_ne arr c f w w' t t' :
  (w', t') ≠ (w, t) → (∀ m, t' ≠ t → arr (f m) !! t' = arr m !! t') →
  slot arr (alter f w c) w' t' = slot arr c w' t'.
Proof.
  intros Hn Hf. destruct (decide (w' = w)) as [->|Hw]; [|by apply slot_alter_other].
  unfold slot. rewrite list_lookup_alter, decide_True by done.
  destruct (c !! w); simpl; [|done]. rewrite Hf by congruence. done.
Qed.

Lemma lookup_insert_kept {A} (l : list A) i j x y z :
  l !! i = Some x → l !! j = Some y → (i = j → y = z) → <[i := z]> l !! j = Some y.
Proof.
  intros H1 H2 H3. rewrite list_lookup_insert. case_decide as E; [|done].
  destruct E as [-> _]. by rewrite H3.
Qed.

(** A change of a peer that touches neither index arrays nor bitmaps of sessions. *)
Lemma ba_inv_mac ad w f :
  ba_inv ad → (∀ m, mac_ok w m → mac_ok w (f m)) →
  (∀ m, BARecWcidArray (f m) = BARecWcidArray m ∧ RXBAbitmap (f m) = RXBAbitmap m ∧
        BAOriWcidArray (f m) = BAOriWcidArray m ∧ TXBAbitmap (f m) = TXBAbitmap m) →
  steps no_session no_session ad (upd_mac ad w f).
Proof.
  intros (HC & HR & HO & HP) Hf Hp. split.
  - unfold ba_inv, upd_mac. simpl. split; [by apply content_ok_alter|].
    split; [apply table_frame; [done|apply Hp..]|].
    split; [apply table_frame; [done|apply Hp..]|done].
  - unfold kept. conjs; [| |done..]; intros; apply slot_alter_arr; apply Hp.
Qed.

Lemma count_pos {A} (p : A → bool) (l : list A) (i : nat) x :
  l !! i = Some x → p x = true → (1 ≤ count p l)%nat.
Proof.
  revert i. induction l as [|y l IH]; intros [|i] H Hp; simpl in *; simplify_eq.
  - rewrite Hp. simpl. lia.
  - specialize (IH _ H Hp). lia.
Qed.

Lemma numAs_bounds ad :
  ba_inv ad → 0 ≤ numAsRecipient ad ≤ 464 ∧ 0 ≤ numAsOriginator ad ≤ 464 ∧
    0 ≤ numDoneOriginator ad ≤ 464.
Proof.
  intros (_ & [R1 _ _ _ R5 _] & [O1 _ _ _ O5 O6] & _).
  pose proof (count_le (used rec_free) (BARecEntry ad)).
  pose proof (count_le (used ori_free) (BAOriEntry ad)).
  pose proof (count_le ori_live (BAOriEntry ad)).
  assert (MAX_LEN_OF_BA_REC_TABLE = 464%nat) as E1 by done.
  assert (MAX_LEN_OF_BA_ORI_TABLE = 464%nat) as E2 by done. lia.
Qed.

(** One recipient entry and the slot and bit of its session change together. *)
Lemma rec_change ad w m t i e e' f n' pool' evs :
  ba_inv ad → Content ad !! w = Some m → (t < NUM_OF_TID)%nat →
  BARecEntry ad !! i = Some e → i ≠ O →
  (rec_free e = false → rec_own e = (w, t)) →
  BARecWcidArray m !! t = Some (if rec_free e then O else i) →
  (rec_free e' = false → rec_own e' = (w, t)) → rec_entry_ok e' →
  (∀ m, mac_ok w m → mac_ok w (f m)) →
  (∀ m, BAOriWcidArray (f m) = BAOriWcidArray m ∧ TXBAbitmap (f m) = TXBAbitmap m) →
  (∀ m t', t' ≠ t → BARecWcidArray (f m) !! t' = BARecWcidArray m !! t') →
  BARecWcidArray (f m) = <[t := if rec_free e' then O else i]> (BARecWcidArray m) →
  (RXBAbitmap (f m) = if rec_free e' then clear_bit (RXBAbitmap m) t else set_bit (RXBAbitmap m) t) →
  n' = numAsRecipient ad + Z.b2z (rec_live e') - Z.b2z (rec_live e) → wf_list pool' →
  steps (eq (w, t)) no_session ad (mk_ad (alter f w (Content ad)) n' (numAsOriginator ad) (numDoneOriginator ad)
            (BAOriEntry ad) (<[i := e']> (BARecEntry ad)) pool' evs).
Proof.
  intros (HC & HR & HO & HP) Hm Ht Hi H0 Ho Hs Ho' Hok Hf Hframe Hne Ha Hb -> Hp'.
  split.
  2:{ unfold kept, rec_slot, ori_slot. conjs; simpl; [| |intros j e0 Hj Hf0 Hn|done].
      - intros w' t' Hn. apply (slot_alter_ne _ _ _ w w' t t'); [congruence|]. intros; by apply Hne.
      - intros w' t' _. apply slot_alter_arr. apply Hframe.
      - eapply lookup_insert_kept; [done..|]. intros ->. simplify_eq. by rewrite Ho in Hn. }
  unfold ba_inv. simpl. split; [by apply content_ok_alter|]. split; [|split; [|done]].
  - apply (table_change rec_free rec_live rec_own rec_entry_ok MAX_LEN_OF_BA_REC_TABLE
      BARecWcidArray RXBAbitmap rec_live_free _ _ _ _ w m t i e e'); [done|split; try done].
    + by rewrite Hs.
    + rewrite Ha, list_lookup_insert_eq; [done|by eapply lookup_lt_Some].
    + intros t' Hn. by apply Hne.
    + intros t' Ht'. unfold rec_live. rewrite Hb. unfold NUM_OF_TID in *.
      destruct (rec_free e'); rewrite ?testbit_clear_bit, ?testbit_set_bit by lia;
        case_decide as E; destruct (Nat.eqb_spec t t'); subst; try done; simpl;
        by rewrite ?orb_true_r, ?andb_false_r, ?orb_false_r, ?andb_true_r.
  - apply table_frame; [done|apply Hframe..].
Qed.

(** The same for the originator table; [Done] is what sets the bit. *)
Lemma ori_change ad w m t i e e' f n' d' evs :
  ba_inv ad → Content ad !! w = Some m → (t < NUM_OF_TID)%nat →
  BAOriEntry ad !! i = Some e → i ≠ O →
  (ori_free e = false → ori_own e = (w, t)) →
  BAOriWcidArray m !! t = Some (if ori_free e then O else i) →
  (ori_free e' = false → ori_own e' = (w, t)) → ori_entry_ok e' →
  (∀ m, mac_ok w m → mac_ok w (f m)) →
  (∀ m, BARecWcidArray (f m) = BARecWcidArray m ∧ RXBAbitmap (f m) = RXBAbitmap m) →
  (∀ m t', t' ≠ t → BAOriWcidArray (f m) !! t' = BAOriWcidArray m !! t') →
  BAOriWcidArray (f m) = <[t := if ori_free e' then O else i]> (BAOriWcidArray m) →
  (TXBAbitmap (f m) = if ori_live e' then set_bit (TXBAbitmap m) t
     else if ori_live e then clear_bit (TXBAbitmap m) t else TXBAbitmap m) →
  n' = numAsOriginator ad + Z.b2z (used ori_free e') - Z.b2z (used ori_free e) →
  d' = numDoneOriginator ad + Z.b2z (ori_live e') - Z.b2z (ori_live e) →
  steps no_session (eq (w, t)) ad (mk_ad (alter f w (Content ad)) (numAsRecipient ad) n' d'
            (<[i := e']> (BAOriEntry ad)) (BARecEntry ad) (pool ad) evs).
Proof.
  intros (HC & HR & HO & HP) Hm Ht Hi H0 Ho Hs Ho' Hok Hf Hframe Hne Ha Hb -> ->.
  assert (Hbit : Z.testbit (TXBAbitmap m) (Z.of_nat t) = ori_live e).
  { rewrite (tab_bits _ _ _ _ _ _ _ _ _ _ _ HO w m t Hm Ht), (slot_Some _ _ _ _ _ _ Hm Hs).
    unfold live_at. destruct (ori_free e) eqn:E; [|by rewrite Hi].
    rewrite (ori_live_free e) by done. destruct (BAOriEntry ad !! O) as [e0|] eqn:E0; [|done].
    apply ori_live_free. by eapply table_zero_free. }
  split.
  2:{ unfold kept, rec_slot, ori_slot. conjs; simpl; [| |done|intros j e0 Hj Hf0 Hn].
      - intros w' t' _. apply slot_alter_arr. apply Hframe.
      - intros w' t' Hn. apply (slot_alter_ne _ _ _ w w' t t'); [congruence|]. intros; by apply Hne.
      - eapply lookup_insert_kept; [done..|]. intros ->. simplify_eq. by rewrite Ho in Hn. }
  unfold ba_inv. simpl. split; [by apply content_ok_alter|]. split; [|split; [|done]].
  - apply table_frame; [done|apply Hframe..].
  - apply (table_change ori_free ori_live ori_own ori_entry_ok MAX_LEN_OF_BA_ORI_TABLE
      BAOriWcidArray TXBAbitmap ori_live_free _ _ _ _ w m t i e e'); [done|split; try done].
    + by rewrite Hs.
    + rewrite Ha, list_lookup_insert_eq; [done|by eapply lookup_lt_Some].
    + intros t' Hn. by apply Hne.
    + intros t' Ht'. rewrite Hb. unfold NUM_OF_TID in *.
      destruct (ori_live e') eqn:El', (ori_live e) eqn:El;
        rewrite ?testbit_clear_bit, ?testbit_set_bit by lia;
        case_decide as E; destruct (Nat.eqb_spec t t'); subst; try done; simpl;
        by rewrite ?orb_true_r, ?andb_false_r, ?orb_false_r, ?andb_true_r.
Qed.

(** A change of one recipient entry and the pool that keeps the session. *)
Lemma rec_update ad i e e' pool' evs :
  ba_inv ad → BARecEntry ad !! i = Some e → entry_id e' = entry_id e →
  rec_entry_ok e' → wf_list pool' →
  steps (eq (rec_own e)) no_session ad (mk_ad (Content ad) (numAsRecipient ad) (numAsOriginator ad) (numDoneOriginator ad)
            (BAOriEntry ad) (<[i := e']> (BARecEntry ad)) pool' evs).
Proof.
  intros (HC & HR & HO & HP) Hi Hid Hok Hp. split.
  2:{ unfold kept. conjs; try done. intros j e0 Hj Hf Hn. simpl.
      eapply lookup_insert_kept; [done..|]. intros ->. simplify_eq. }
  unfold ba_inv. simpl.
  unfold entry_id in Hid. injection Hid as E1 E2 E3 E4.
  split; [done|]. split; [|done].
  eapply table_update; try done; unfold rec_live, rec_free, rec_own; by rewrite ?E1, ?E2, ?E4.
Qed.

(** ** Functions of the reordering component *)

Definition session_fun (f : ba_state → ba_state) : Prop :=
  ∀ s, wf_state s → wf_state (f s) ∧ entry_id (entry (f s)) = entry_id (entry s).

Lemma session_fun_refresh : session_fun ba_refresh_reordering_mpdus.
Proof. intros s Hs. split; [apply (refresh_conserves s Hs)|apply id_refresh]. Qed.
Lemma session_fun_ampdu HZ now rx : session_fun (indicate_ampdu_session HZ now rx).
Proof. intros s Hs. split; [apply (session_conserves HZ now rx s Hs)|apply id_session]. Qed.
Lemma session_fun_bar q : session_fun (bar_advance q).
Proof.
  intros s Hs. unfold bar_advance. case_match; [|done].
  split; [apply (le_seq_conserves q s Hs)|apply (id_le_seq q s)].
Qed.

Lemma run_rec_inv ad i e f :
  ba_inv ad → BARecEntry ad !! i = Some e → session_fun f →
  (rec_free e = true → ∀ s, list_ (entry s) = mk_list [] 0 → list_ (entry (f s)) = mk_list [] 0) →
  ∃ ad', run_rec ad i f = Some ad' ∧ steps (eq (rec_own e)) no_session ad ad'.
Proof.
  intros HI Hi Hf Hfree. unfold run_rec. rewrite Hi. simpl. eexists. split; [done|].
  pose proof HI as (_ & HR & _ & HP).
  pose proof (tab_entry _ _ _ _ _ _ _ _ _ _ _ HR i e Hi) as Hok.
  set (s := mk_state e (pool ad) []).
  assert (Hs : wf_state s) by (split; [destruct Hok as [[_ Hl]|(_ & Hw & _)]; [by simpl; rewrite Hl|done]|done]).
  destruct (Hf s Hs) as [[Hw Hp] Hid]. eapply rec_update; try done.
  pose proof Hid as Hid'. unfold entry_id in Hid'. injection Hid' as E1 E2 E3 E4.
  destruct Hok as [[Hs0 Hl]|(Hs0 & Hw0 & Hwin)].
  - left. rewrite E4. split; [done|]. apply Hfree; [|done].
    unfold rec_free. by rewrite Hs0.
  - right. rewrite E3, E4. done.
Qed.

Lemma run_rec_used ad w m t i f :
  ba_inv ad → Content ad !! w = Some m → BARecWcidArray m !! t = Some i → i ≠ O →
  session_fun f → ∃ ad', run_rec ad i f = Some ad' ∧ steps (eq (w, t)) no_session ad ad'.
Proof.
  intros HI H1 H2 H3 Hf.
  destruct (rec_slot_entry ad w m t i HI H1 H2 H3) as (e & He & Hfr & <- & _).
  apply (run_rec_inv ad i e); try done. by rewrite Hfr.
Qed.

(** * Allocation never leaves the table *)

Lemma alter_insert_eq {A} (f : A → A) (l : list A) (i : nat) x y :
  l !! i = Some y → alter f i (<[i := x]> l) = <[i := f x]> l.
Proof.
  intros H. rewrite (alter_insert_Some _ _ _ x), list_insert_insert_eq; [done|].
  apply list_lookup_insert_eq. by eapply lookup_lt_Some.
Qed.

(** Either the counter is at its limit or a free entry other than 0 is found:
    the loop never ends without one. *)
Lemma alloc_rec ad k :
  ba_inv ad →
  BATableAllocRecEntry ad k = (None, k, ad) ∨
  ∃ i e, BARecEntry ad !! i = Some e ∧ rec_free e = true ∧ i ≠ O ∧
    BATableAllocRecEntry ad k =
      (Some i, i, set_Rec ad (numAsRecipient ad + 1) (<[i := set_Status e Recipient_USED]> (BARecEntry ad))).
Proof.
  intros HI. pose proof (numAs_bounds ad HI) as (HB & _). pose proof HI as (_ & HR & _).
  unfold BATableAllocRecEntry. case_match eqn:E; [by left|right].
  pose proof (tab_len _ _ _ _ _ _ _ _ _ _ _ HR) as HL.
  assert (MAX_LEN_OF_BA_REC_TABLE = 464%nat) as EM by done.
  destruct (lookup_lt_is_Some_2 (BARecEntry ad) O) as [e0 He0]; [lia|].
  destruct (first_free_exists rec_free (BARecEntry ad) e0) as (i & e & -> & H1 & H2 & H3); [done| | |].
  { by eapply table_zero_free. }
  { pose proof (tab_n _ _ _ _ _ _ _ _ _ _ _ HR) as HN. unfold used in HN.
    rewrite HL, EM. rewrite EM in E. apply Z.leb_gt in E. lia. }
  exists i, e. do 3 (split; [done|]). rewrite (alter_insert_Some _ _ _ _ H2).
  rewrite wrap_id; [done|lia|]. unfold in_range. lia.
Qed.

Lemma alloc_ori ad k :
  ba_inv ad →
  BATableAllocOriEntry ad k = (None, k, ad) ∨
  ∃ i e, BAOriEntry ad !! i = Some e ∧ ori_free e = true ∧ i ≠ O ∧
    BATableAllocOriEntry ad k =
      (Some i, i, set_Ori ad (numAsOriginator ad + 1) (numDoneOriginator ad)
         (<[i := ori_set_status Originator_USED e]> (BAOriEntry ad))).
Proof.
  intros HI. pose proof (numAs_bounds ad HI) as (_ & HB & _). pose proof HI as (_ & _ & HO & _).
  unfold BATableAllocOriEntry. case_match eqn:E; [by left|right].
  pose proof (tab_len _ _ _ _ _ _ _ _ _ _ _ HO) as HL.
  assert (MAX_LEN_OF_BA_ORI_TABLE = 464%nat) as EM by done.
  destruct (lookup_lt_is_Some_2 (BAOriEntry ad) O) as [e0 He0]; [lia|].
  destruct (first_free_exists ori_free (BAOriEntry ad) e0) as (i & e & -> & H1 & H2 & H3); [done| | |].
  { by eapply table_zero_free. }
  { pose proof (tab_n _ _ _ _ _ _ _ _ _ _ _ HO) as HN. unfold used in HN.
    rewrite HL, EM. rewrite EM in E. apply Z.leb_gt in E. lia. }
  exists i, e. do 3 (split; [done|]). rewrite (alter_insert_Some _ _ _ _ H2).
  rewrite wrap_id; [done|lia|]. unfold in_range. lia.
Qed.

(** * Release of an entry *)

Definition freed_ori (e : BA_ORI_ENTRY) : BA_ORI_ENTRY :=
  mk_ori (ori_Wcid e) (ori_TID e) (ori_BAWinSize e) 0 (ori_amsdu_cap e) (ori_Sequence e)
    (ori_TimeOutValue e) Originator_NONE.
Definition freed_mac (done : bool) (t : nat) (m : mac_entry) : mac_entry :=
  if done then mac_bitmaps (mac_ori_slot t 0 m) (RXBAbitmap m) (clear_bit (TXBAbitmap m) t)
                 (BADeclineBitmap m)
  else mac_ori_slot t 0 m.

Lemma freed_mac_arrays done t m :
  BAOriWcidArray (freed_mac done t m) = <[t := O]> (BAOriWcidArray m) ∧
  BARecWcidArray (freed_mac done t m) = BARecWcidArray m ∧ RXBAbitmap (freed_mac done t m) = RXBAbitmap m.
Proof. by destruct done. Qed.

Lemma ori_used_counts ad i e :
  ba_inv ad → BAOriEntry ad !! i = Some e → ori_free e = false →
  1 ≤ numAsOriginator ad ≤ 464 ∧ Z.b2z (ori_live e) ≤ numDoneOriginator ad ≤ 464.
Proof.
  intros HI He Hf. pose proof (numAs_bounds ad HI) as (_ & HB & HD). destruct HI as (_ & _ & HO & _).
  pose proof (tab_n _ _ _ _ _ _ _ _ _ _ _ HO) as HN. pose proof (tab_d _ _ _ _ _ _ _ _ _ _ _ HO) as HDn.
  assert (1 ≤ count (used ori_free) (BAOriEntry ad))%nat
    by (eapply count_pos; [done|]; unfold used; by rewrite Hf).
  pose proof (count_pos ori_live _ _ _ He) as Hp.
  destruct (ori_live e); simpl; [specialize (Hp eq_refl)|]; lia.
Qed.

Lemma free_ori_open ad i e m :
  ba_inv ad → BAOriEntry ad !! i = Some e → ori_free e = false → i ≠ O →
  Content ad !! Z.to_nat (ori_Wcid e) = Some m → BAOriWcidArray m !! Z.to_nat (ori_TID e) = Some i →
  BATableFreeOriEntry ad i =
    Some (mk_ad (alter (freed_mac (ori_live e) (Z.to_nat (ori_TID e))) (Z.to_nat (ori_Wcid e)) (Content ad))
            (numAsRecipient ad) (numAsOriginator ad - 1) (numDoneOriginator ad - Z.b2z (ori_live e))
            (<[i := freed_ori e]> (BAOriEntry ad)) (BARecEntry ad) (pool ad) (events ad)).
Proof.
  intros HI He Ef E1 Hm Hs. pose proof HI as (_ & _ & HO & _).
  pose proof (lookup_lt_Some _ _ _ He) as Hlt. rewrite (tab_len _ _ _ _ _ _ _ _ _ _ _ HO) in Hlt.
  pose proof (ori_used_counts ad i e HI He Ef) as [HB HD].
  unfold BATableFreeOriEntry. rewrite (proj2 (Nat.eqb_neq i O)) by done. cbn [orb].
  replace (Nat.leb MAX_LEN_OF_BA_ORI_TABLE i) with false by (symmetry; by apply Nat.leb_gt).
  rewrite He. cbn. rewrite Ef, Hm. cbn. rewrite Hs. cbn. fold (ori_live e).
  unfold set_Ori, upd_mac, freed_mac. destruct (ori_live e); simpl in *;
    rewrite ?alter_alter, (alter_insert_Some _ _ _ e), !wrap_id by (try done; try lia; unfold in_range; lia);
    repeat f_equal; lia.
Qed.

Lemma free_ori_inv ad i e :
  ba_inv ad → BAOriEntry ad !! i = Some e →
  ∃ ad', BATableFreeOriEntry ad i = Some ad' ∧ steps no_session (eq (ori_own e)) ad ad' ∧
    (ori_free e = false → ori_slot ad' (ori_own e).1 (ori_own e).2 = O).
Proof.
  intros HI He. pose proof HI as (_ & _ & HO & _). destruct (ori_free e) eqn:Ef.
  { exists ad. split; [|split; [by apply steps_refl|done]].
    unfold BATableFreeOriEntry. case_match; [done|]. rewrite He. cbn. by rewrite Ef. }
  destruct (table_entry_slot _ _ _ _ _ _ _ _ _ _ _ _ _ _ _ HO He Ef eq_refl)
    as (E1 & _ & m & Hm & Hs). simpl in Hm, Hs.
  destruct (tab_entry _ _ _ _ _ _ _ _ _ _ _ HO i e He) as (Hu & Hw & Ht).
  rewrite (free_ori_open ad i e m) by done. eexists. split; [done|]. split.
  - apply (ori_change ad _ m (Z.to_nat (ori_TID e)) i e); try done.
    + by rewrite Hs, Ef.
    + intros m0 Hm0. unfold freed_mac. destruct (ori_live e); auto with ba.
    + intros m0. apply freed_mac_arrays.
    + intros m0 t' Hn. rewrite (proj1 (freed_mac_arrays _ _ _)). by rewrite list_lookup_insert_ne.
    + apply freed_mac_arrays.
    + unfold freed_mac. simpl. by destruct (ori_live e).
    + unfold used. rewrite Ef. simpl. lia.
    + simpl. lia.
  - intros _. unfold ori_slot. simpl. rewrite (slot_alter_same _ _ _ _ _ _ Hm).
    rewrite (proj1 (freed_mac_arrays _ _ _)).
    by rewrite list_lookup_insert_eq by (by eapply lookup_lt_Some).
Qed.

(** * Tearing down *)

Lemma steps_post PR PO ad evs : ba_inv ad → steps PR PO ad (post ad evs).
Proof. intros HI. split; [exact HI|apply (kept_refl _ _ ad)]. Qed.
#[export] Hint Resolve steps_post : ba.

Lemma post_post ad e1 e2 : post (post ad e1) e2 = post ad (e1 ++ e2).
Proof. unfold post. simpl. by rewrite app_assoc. Qed.

Lemma delba_ok ad al w t init :
  ba_inv ad → (t < NUM_OF_TID)%nat → ∃ evs, MlmeDELBAAction ad al w t init = Some (post ad evs).
Proof.
  intros HI Ht. assert (Hnil : ∃ evs, Some ad = Some (post ad evs)).
  { exists []. unfold post. rewrite app_nil_r. by destruct ad. }
  unfold MlmeDELBAAction. case_match eqn:E; [|done].
  do 2 (case_match; [done|]).
  destruct (mac_lookup ad w HI) as (m & Hm & Hok).
  { unfold MlmeDelBAReqSanity in E. by destruct (Nat.leb MAX_LEN_OF_MAC_TABLE w). }
  rewrite Hm. cbn. case_match; [done|].
  destruct (mac_slots w m t Hok Ht) as (_ & [i Hi] & [q Hq]). rewrite Hi, Hq. cbn. eauto.
Qed.

Lemma ori_teardown al ad w t p force :
  ba_inv ad → (t < NUM_OF_TID)%nat →
  ∃ ad', BAOriSessionTearDown al ad w t p force = Some ad' ∧
    steps no_session (eq (w, t)) ad ad' ∧
    ((w < MAX_LEN_OF_MAC_TABLE)%nat → p = true ∨ al_Elem al = true → ori_slot ad' w t = O).
Proof.
  intros HI Ht. unfold BAOriSessionTearDown.
  destruct (Nat.leb MAX_LEN_OF_MAC_TABLE w) eqn:Ew.
  { exists ad. split; [done|]. split; [auto with ba|]. apply Nat.leb_le in Ew. lia. }
  destruct (mac_lookup ad w HI Ew) as (m & Hm & Hok).
  destruct (mac_slots w m t Hok Ht) as (_ & [i Hi] & _). rewrite Hm. cbn. rewrite Hi. cbn.
  pose proof (slot_Some BAOriWcidArray _ _ _ _ _ Hm Hi) as Hs.
  destruct (Nat.eqb_spec i O) as [->|E0]; cbn [orb].
  { destruct (delba_ok ad al w t ORIGINATOR HI Ht) as [evs Hd].
    destruct force, (al_Elem al); rewrite ?Hd; eexists; (split; [done|]); split; auto with ba. }
  destruct (ori_slot_entry ad w m t i HI Hm Hi E0) as (e & He & Hf & Ho & _).
  pose proof (lookup_lt_Some _ _ _ He) as Hlt. pose proof HI as (_ & _ & HO & _).
  rewrite (tab_len _ _ _ _ _ _ _ _ _ _ _ HO) in Hlt.
  replace (Nat.leb MAX_LEN_OF_BA_ORI_TABLE i) with false by (symmetry; by apply Nat.leb_gt).
  rewrite He. cbn.
  assert (R : ∀ evs, ∃ ad', BATableFreeOriEntry (post ad evs) i = Some ad' ∧
    steps no_session (eq (w, t)) ad ad' ∧
    ((w < MAX_LEN_OF_MAC_TABLE)%nat → p = true ∨ al_Elem al = true → ori_slot ad' w t = O)).
  { intros evs. destruct (free_ori_inv (post ad evs) i e HI He) as (ad' & H1 & H2 & H3).
    exists ad'. rewrite Ho in *. split; [done|]. split; [done|]. intros _ _. by apply H3. }
  unfold ori_own in Ho. injection Ho as _ Et. rewrite Et, Nat.eqb_refl, andb_true_r.
  case_match eqn:Ep; [|apply R].
  destruct (al_Elem al) eqn:Ea.
  - destruct (delba_ok ad al w t ORIGINATOR HI Ht) as [evs Hd]. rewrite Hd. cbn.
    rewrite post_post. apply R.
  - exists ad. split; [done|]. split; [auto with ba|]. by intros _ [->|?].
Qed.

(** What the release of a recipient session leaves of its entry and of the
    pool: the blocks of its list are back in the pool. *)
Definition closed_entry (e : BA_REC_ENTRY) : BA_REC_ENTRY :=
  mk_entry (Wcid e) (TID e) 0 RESET_RCV_SEQ (TimeOutValue e) (LastIndSeqAtTimer e) (nDropPacket e)
    (rcvSeq e) Recipient_NONE (mk_list [] 0).
Definition refilled (e : BA_REC_ENTRY) (p : reordering_list) : reordering_list :=
  mk_list (rev (chain (list_ e)) ++ chain p) (qlen p + Z.of_nat (length (chain (list_ e)))).
Definition closed_mac (t : nat) (m : mac_entry) : mac_entry :=
  mac_rec_slot t 0 (mac_bitmaps m (clear_bit (RXBAbitmap m) t) (TXBAbitmap m) (BADeclineBitmap m)).

Lemma refresh_closed e p :
  wf_list (list_ e) →
  ba_refresh_reordering_mpdus (mk_state e p []) =
    mk_state (mk_entry (Wcid e) (TID e) (BAWinSize e) RESET_RCV_SEQ (TimeOutValue e)
                (LastIndSeqAtTimer e) (nDropPacket e) (rcvSeq e) (REC_BA_Status e) (mk_list [] 0))
      (refilled e p) (map Announce (chain (list_ e))).
Proof.
  intros Hw. rewrite refresh_flushed by done. unfold flushed, upd_entry, refilled. simpl.
  rewrite take_ge, drop_ge by lia. unfold wf_list in Hw. rewrite Hw. unfold set_LastIndSeq. simpl.
  repeat f_equal. lia.
Qed.

Lemma wf_refilled e p : wf_list p → wf_list (refilled e p).
Proof.
  unfold wf_list, refilled. simpl. intros ->. rewrite length_app, length_rev. lia.
Qed.

Lemma rec_used_count ad i e :
  ba_inv ad → BARecEntry ad !! i = Some e → rec_free e = false → 1 ≤ numAsRecipient ad ≤ 464.
Proof.
  intros HI He Hf. pose proof (numAs_bounds ad HI) as (HB & _). destruct HI as (_ & HR & _).
  pose proof (tab_n _ _ _ _ _ _ _ _ _ _ _ HR) as HN.
  assert (1 ≤ count (used rec_free) (BARecEntry ad))%nat
    by (eapply count_pos; [done|]; unfold used; by rewrite Hf). lia.
Qed.

Lemma rec_teardown_open al ad w m t i e p :
  ba_inv ad → Content ad !! w = Some m → (t < NUM_OF_TID)%nat →
  BARecWcidArray m !! t = Some i → i ≠ O → BARecEntry ad !! i = Some e →
  p = true ∨ al_Elem al = true →
  ∃ evs, BARecSessionTearDown al ad w t p =
    Some (mk_ad (alter (closed_mac t) w (Content ad)) (numAsRecipient ad - 1) (numAsOriginator ad)
            (numDoneOriginator ad) (BAOriEntry ad) (<[i := closed_entry e]> (BARecEntry ad))
            (refilled e (pool ad))
            (events ad ++ evs ++ map (λ b, Ev_rx (Announce b)) (chain (list_ e))
               ++ [Ev_AsicDel (Z.of_nat w) (Z.of_nat t)])).
Proof.
  intros HI Hm Ht Hi H0 He Hal.
  assert (Nat.leb MAX_LEN_OF_MAC_TABLE w = false) as Ew.
  { apply Nat.leb_gt. destruct HI as ((HL & _) & _). rewrite <- HL. by eapply lookup_lt_Some. }
  destruct (rec_slot_entry ad w m t i HI Hm Hi H0) as (e0 & He0 & Hf & Ho & Hst & Hwf). simplify_eq.
  unfold rec_own in Ho. injection Ho as Hw Ht0.
  pose proof HI as (HC & HR & _). pose proof (lookup_lt_Some _ _ _ He) as Hlt.
  rewrite (tab_len _ _ _ _ _ _ _ _ _ _ _ HR) in Hlt.
  unfold BARecSessionTearDown. rewrite Ew, Hm. cbn. rewrite Hi. cbn.
  rewrite (proj2 (Nat.eqb_neq i O)), He by done. cbn. rewrite Hst, Ht0, Nat.eqb_refl. cbn.
  assert (negb p && negb (al_Elem al) = false) as -> 
    by (by destruct p, (al_Elem al), Hal).
  assert (∃ evs, (if p then Some (post ad [Ev_TimerCancel false i])
     else MlmeDELBAAction (post ad [Ev_TimerCancel false i]) al w t RECIPIENT) = Some (post ad evs))
    as [evs ->].
  { destruct p; [eauto|].
    destruct (delba_ok (post ad [Ev_TimerCancel false i]) al w t RECIPIENT HI Ht) as [evs ->].
    rewrite post_post. eauto. }
  cbn. unfold run_rec. cbn. rewrite He. cbn. rewrite refresh_closed by done. cbn.
  unfold BATableFreeRecEntry. cbn. rewrite (proj2 (Nat.eqb_neq i O)) by done.
  replace (Nat.leb MAX_LEN_OF_BA_REC_TABLE i) with false by (symmetry; by apply Nat.leb_gt). cbn.
  rewrite list_lookup_insert_eq by (by eapply lookup_lt_Some). cbn. unfold rec_free. rewrite Hst. cbn.
  rewrite Hw, Ht0, list_lookup_alter, decide_True, Hm by done. cbn.
  assert (t < length (BARecWcidArray m))%nat as Hlm by (by eapply lookup_lt_Some).
  rewrite list_lookup_insert_eq by done. cbn.
  exists evs. unfold set_Rec, upd_mac, set_Content, post. cbn.
  rewrite (alter_insert_eq _ _ _ _ _ He), alter_alter, map_map, <- !app_assoc.
  rewrite !(alter_insert_Some _ _ _ _ Hm). unfold mac_rec_slot, closed_mac. cbn.
  rewrite list_insert_insert_eq, wrap_id; [done|lia|].
  pose proof (rec_used_count ad i e HI He Hf). unfold in_range. lia.
Qed.

Lemma rec_teardown al ad w t p :
  ba_inv ad → (t < NUM_OF_TID)%nat →
  ∃ ad', BARecSessionTearDown al ad w t p = Some ad' ∧
    steps (eq (w, t)) no_session ad ad' ∧
    ((w < MAX_LEN_OF_MAC_TABLE)%nat → p = true ∨ al_Elem al = true → rec_slot ad' w t = O).
Proof.
  intros HI Ht.
  destruct (Nat.leb MAX_LEN_OF_MAC_TABLE w) eqn:Ew.
  { exists ad. unfold BARecSessionTearDown. rewrite Ew. split; [done|]. split; [auto with ba|].
    apply Nat.leb_le in Ew. lia. }
  destruct (mac_lookup ad w HI Ew) as (m & Hm & Hok).
  destruct (mac_slots w m t Hok Ht) as ([i Hi] & _).
  pose proof (slot_Some BARecWcidArray _ _ _ _ _ Hm Hi) as Hs.
  destruct (decide (i = O)) as [->|H0].
  { exists ad. unfold BARecSessionTearDown. rewrite Ew, Hm. cbn. rewrite Hi. cbn.
    split; [done|]. split; [auto with ba|done]. }
  destruct (rec_slot_entry ad w m t i HI Hm Hi H0) as (e & He & Hf & Ho & Hst & Hwf).
  destruct (decide (p = true ∨ al_Elem al = true)) as [Hal|Hal].
  - destruct (rec_teardown_open al ad w m t i e p HI Hm Ht Hi H0 He Hal) as [evs ->].
    eexists. split; [done|]. split.
    + eapply (rec_change ad w m t i e); try done; unfold closed_mac; auto with ba.
      * by rewrite Hf.
      * by left.
      * intros m0 t' Hn. simpl. by rewrite list_lookup_insert_ne.
      * unfold rec_live. rewrite Hf. simpl. lia.
      * apply wf_refilled. apply HI.
    + intros _ _. unfold rec_slot. simpl. rewrite (slot_alter_same _ _ _ _ _ _ Hm). simpl.
      by rewrite list_lookup_insert_eq by (by eapply lookup_lt_Some).
  - exists (post ad [Ev_TimerCancel false i]). split; [|split; [auto with ba|done]].
    unfold BARecSessionTearDown. rewrite Ew, Hm. cbn. rewrite Hi. cbn.
    rewrite (proj2 (Nat.eqb_neq i O)), He by done. cbn. unfold rec_own in Ho. injection Ho as _ Ht0.
    rewrite Hst, Ht0, Nat.eqb_refl. cbn. destruct p, (al_Elem al); try done; naive_solver.
Qed.

(** * Opening *)

Definition opened_entry (w t : nat) (W tmo : Z) (e : BA_REC_ENTRY) : BA_REC_ENTRY :=
  mk_entry (Z.of_nat w) (Z.of_nat t) W RESET_RCV_SEQ tmo (LastIndSeqAtTimer e) (nDropPacket e)
    (rcvSeq e) Recipient_Accept (mk_list [] 0).
Definition opened_mac (t i : nat) (m : mac_entry) : mac_entry :=
  mac_rec_slot t i (mac_bitmaps m (set_bit (RXBAbitmap m) t) (TXBAbitmap m)
                      (clear_bit (BADeclineBitmap m) t)).

(** Entry [i] holds session [(w, t)], with window [W] and nothing buffered. *)
Definition rec_open_at (ad : ba_adapter) (w t i : nat) (W : Z) : Prop :=
  ∃ e, BARecEntry ad !! i = Some e ∧ i ≠ O ∧ rec_slot ad w t = i ∧ rec_own e = (w, t) ∧
    REC_BA_Status e = Recipient_Accept ∧ LastIndSeq e = RESET_RCV_SEQ ∧ list_ e = mk_list [] 0 ∧
    BAWinSize e = W.

Lemma rec_opened ad w m t i e W tmo n' pool' evs :
  ba_inv ad → Content ad !! w = Some m → (t < NUM_OF_TID)%nat → 1 ≤ W ≤ 255 →
  BARecEntry ad !! i = Some e → i ≠ O → (rec_free e = false → rec_own e = (w, t)) →
  BARecWcidArray m !! t = Some (if rec_free e then O else i) →
  n' = numAsRecipient ad + Z.b2z (rec_free e) → wf_list pool' →
  let ad' := mk_ad (alter (opened_mac t i) w (Content ad)) n' (numAsOriginator ad)
      (numDoneOriginator ad) (BAOriEntry ad) (<[i := opened_entry w t W tmo e]> (BARecEntry ad))
      pool' evs in
  steps (eq (w, t)) no_session ad ad' ∧ rec_open_at ad' w t i W.
Proof.
  intros HI Hm Ht HW He H0 Ho Hs -> Hp. split.
  - eapply (rec_change ad w m t i e); try done; unfold opened_mac; auto with ba.
    + intros _. unfold rec_own. simpl. by rewrite !Nat2Z.id.
    + by right.
    + intros m0 t' Hn. simpl. by rewrite list_lookup_insert_ne.
    + unfold rec_live. by destruct (rec_free e); simpl; lia.
  - exists (opened_entry w t W tmo e). unfold rec_slot. simpl.
    rewrite (slot_alter_same _ _ _ _ _ _ Hm). simpl.
    rewrite !list_lookup_insert_eq by (by eapply lookup_lt_Some).
    unfold rec_own. simpl. by rewrite !Nat2Z.id.
Qed.

(** The window granted to a request. *)
Definition granted_win (cfg : ba_cfg) (Msg : list Z) : Z :=
  let W := Z.min (u8 (parm_BufSize (req_parm Msg))) (u8 (RxBAWinLimit cfg)) in
  if W =? 0 then 64 else W.

Lemma granted_win_range cfg Msg : 1 ≤ granted_win cfg Msg ≤ 255.
Proof.
  pose proof (u8_byte (parm_BufSize (req_parm Msg))) as B1.
  pose proof (u8_byte (RxBAWinLimit cfg)) as B2.
  unfold granted_win, byte, in_range in *. case_match; lia.
Qed.

Lemma rec_add cfg ad w m Msg :
  let t := parm_TID (req_parm Msg) in
  ba_inv ad → Content ad !! w = Some m → mac_wcid m = Z.of_nat w → (t < NUM_OF_TID)%nat →
  ∃ ok ad', BARecSessionAdd cfg ad w Msg = Some (ok, ad') ∧ steps (eq (w, t)) no_session ad ad' ∧
    (if ok : bool then ∃ i, rec_open_at ad' w t i (granted_win cfg Msg) else ad' = ad).
Proof.
  intros t HI Hm Hw Ht. pose proof HI as ((HL & HC) & HR & HO & HP).
  destruct (mac_slots w m t (HC w m Hm) Ht) as ([k Hk] & _).
  pose proof (granted_win_range cfg Msg) as HW.
  unfold BARecSessionAdd. fold t. rewrite Hm. cbn. rewrite Hk. cbn.
  fold (granted_win cfg Msg). set (W := granted_win cfg Msg) in *. clearbody W.
  destruct (Nat.eqb_spec k O) as [->|Hk0].
  - destruct (alloc_rec ad O HI) as [->|(i & e & He & Hf & Hi0 & ->)]; cbn.
    { exists false, ad. split; [done|]. split; [auto with ba|done]. }
    destruct (tab_entry _ _ _ _ _ _ _ _ _ _ _ HR i e He) as [[Hs Hl]|[Hs _]];
      [|unfold rec_free in Hf; rewrite bool_decide_eq_true, Hs in Hf; done].
    eexists true, _. split; [done|]. unfold upd_mac, upd_rec, set_Content, set_Rec, post. cbn.
    rewrite (alter_insert_eq _ _ _ _ _ He). cbn. rewrite Hw, Hl.
    destruct (rec_opened ad w m t i e W (req_timeout Msg) (numAsRecipient ad + 1) (pool ad)
      ((events ad ++ [if bit_set (RXBAbitmap m) t then Ev_TimerCancel false i
        else Ev_TimerInit false i]) ++ [Ev_AsicAdd (Z.of_nat w) (Z.of_nat t)])) as [H1 H2]; try done.
    + by rewrite Hf.
    + by rewrite Hf.
    + by rewrite Hf.
    + split; [exact H1|]. by exists i.
  - destruct (rec_slot_entry ad w m t k HI Hm Hk Hk0) as (e & He & Hf & Ho & Hst & Hwf).
    unfold run_rec. rewrite He. cbn. rewrite refresh_closed by done. cbn.
    eexists true, _. split; [done|]. unfold upd_mac, upd_rec, set_Content, set_Rec, post. cbn.
    rewrite (alter_insert_eq _ _ _ _ _ He). cbn. rewrite Hw.
    destruct (rec_opened ad w m t k e W (req_timeout Msg) (numAsRecipient ad) (refilled e (pool ad))
      (((events ad ++ map Ev_rx (map Announce (chain (list_ e))))
        ++ [if bit_set (RXBAbitmap m) t then Ev_TimerCancel false k else Ev_TimerInit false k])
        ++ [Ev_AsicAdd (Z.of_nat w) (Z.of_nat t)])) as [H1 H2]; try done.
    + by rewrite Hf.
    + rewrite Hf. simpl. lia.
    + by apply wf_refilled.
    + split; [exact H1|]. by exists k.
Qed.

Lemma ori_setup cfg ad w m t tmo delay forced :
  ba_inv ad → Content ad !! w = Some m → mac_wcid m = Z.of_nat w →
  ∃ ad', BAOriSessionSetUp cfg ad w t tmo delay forced = Some ad' ∧
    steps no_session (eq (w, t)) ad ad'.
Proof.
  intros HI Hm Hw. pose proof HI as ((HL & HC) & HR & HO & HP). unfold BAOriSessionSetUp.
  destruct (Nat.leb NUM_OF_TID t) eqn:Et; [eauto with ba|]. apply Nat.leb_gt in Et.
  do 2 (case_match; [eauto with ba|]). rewrite Hm. cbn.
  destruct (mac_slots w m t (HC w m Hm) Et) as (_ & [k Hk] & [q Hq]). rewrite Hk. cbn.
  destruct (Nat.eqb_spec k O) as [->|Hk0].
  - destruct (alloc_ori ad O HI) as [->|(i & e & He & Hf & Hi0 & ->)]; cbn; [eauto with ba|].
    rewrite list_lookup_insert_eq by (by eapply lookup_lt_Some). cbn. rewrite Hq. cbn.
    eexists. split; [done|]. unfold upd_mac, upd_ori, set_Content, set_Ori, post. cbn.
    rewrite (alter_insert_eq _ _ _ _ _ He). cbn. rewrite Hw.
    assert (w < MAX_LEN_OF_MAC_TABLE)%nat by (rewrite <- HL; by eapply lookup_lt_Some).
    eapply (ori_change ad w m t i e); try done; auto with ba.
    + by rewrite Hf.
    + by rewrite Hf.
    + intros _. unfold ori_own. simpl. by rewrite !Nat2Z.id.
    + unfold ori_entry_ok. simpl. by rewrite !Nat2Z.id.
    + intros m0 t' Hn. simpl. by rewrite list_lookup_insert_ne.
    + simpl. by rewrite (ori_live_free e).
    + unfold used. rewrite Hf. simpl. lia.
    + rewrite (ori_live_free e) by done. simpl. lia.
  - destruct (ori_slot_entry ad w m t k HI Hm Hk Hk0) as (e & He & _ & _ & Hst).
    rewrite He. cbn. destruct Hst as [-> | ->]; cbn; eauto with ba.
Qed.

Lemma ori_add cfg al ad w Msg :
  let t := parm_TID (rsp_parm Msg) in
  ba_inv ad → (w < MAX_LEN_OF_MAC_TABLE)%nat → (t < NUM_OF_TID)%nat →
  ∃ ad', BAOriSessionAdd cfg al ad w Msg = Some ad' ∧ steps no_session (eq (w, t)) ad ad'.
Proof.
  intros t HI Hw Ht. pose proof HI as ((HL & HC) & HR & HO & HP). unfold BAOriSessionAdd. fold t.
  destruct (mac_lookup ad w HI) as (m & Hm & Hok); [by apply Nat.leb_gt|].
  destruct (mac_slots w m t Hok Ht) as (_ & [k Hk] & [q Hq]). rewrite Hm. cbn. rewrite Hk. cbn.
  assert (∃ e, BAOriEntry ad !! k = Some e) as [e He].
  { apply lookup_lt_is_Some. destruct (decide (k = O)) as [->|Hk0].
    - rewrite (tab_len _ _ _ _ _ _ _ _ _ _ _ HO). by vm_compute; lia.
    - destruct (ori_slot_entry ad w m t k HI Hm Hk Hk0) as (e & He & _). by eapply lookup_lt_Some. }
  rewrite He. cbn. destruct (_ && _ && _) eqn:E; [|eauto with ba].
  apply andb_true_iff in E as [E1 E2]. apply andb_true_iff in E1 as [E0 E1].
  apply negb_true_iff, Nat.eqb_neq in E0. apply bool_decide_eq_true in E2.
  destruct (ori_slot_entry ad w m t k HI Hm Hk E0) as (e0 & He0 & Hf & Ho & _). simplify_eq.
  rewrite Hq. cbn. set (W := BA_MaxWinSizeReasign _ _ _). clearbody W.
  pose proof (numAs_bounds ad HI) as (_ & _ & HD).
  unfold upd_mac, upd_ori, set_Content, set_Ori, post. cbn.
  rewrite (alter_insert_Some _ _ _ _ He), wrap_id by (try lia; unfold in_range; lia).
  assert (R : ∀ evs, steps no_session (eq (w, t)) ad
    (mk_ad (alter (λ m, mac_bitmaps m (RXBAbitmap m) (set_bit (TXBAbitmap m) t) (BADeclineBitmap m))
              w (Content ad)) (numAsRecipient ad) (numAsOriginator ad) (numDoneOriginator ad + 1)
       (<[k := mk_ori (ori_Wcid e) (ori_TID e) W (ori_Token e) (parm_AMSDU (rsp_parm Msg)) q
                 (rsp_timeout Msg) Originator_Done]> (BAOriEntry ad)) (BARecEntry ad) (pool ad) evs)).
  { intros evs. eapply (ori_change ad w m t k e); try done; auto with ba.
    - by rewrite Hf.
    - split; [done|]. apply (tab_entry _ _ _ _ _ _ _ _ _ _ _ HO k e He).
    - symmetry. by apply list_insert_id.
    - unfold used. rewrite Hf. simpl. lia.
    - unfold ori_live. rewrite E2. simpl. lia. }
  destruct (negb _); [eauto|]. unfold ori_own in Ho. injection Ho as -> _.
  rewrite list_lookup_alter, decide_True, Hm by done. cbn. eauto.
Qed.

(** * Timers *)

Lemma ori_timer cfg ad i e :
  ba_inv ad → BAOriEntry ad !! i = Some e →
  ∃ ad', BAOriSessionSetupTimeout cfg ad i = Some ad' ∧ steps no_session (eq (ori_own e)) ad ad'.
Proof.
  intros HI He. pose proof HI as ((HL & HC) & HR & HO & HP). unfold BAOriSessionSetupTimeout.
  rewrite He. cbn. do 2 (case_match; [eauto with ba|]).
  destruct (tab_entry _ _ _ _ _ _ _ _ _ _ _ HO i e He) as (Hu & Hw & Ht).
  destruct (mac_lookup ad (Z.to_nat (ori_Wcid e)) HI) as (m & Hm & Hok); [by apply Nat.leb_gt|].
  rewrite Hm. cbn. case_match eqn:E.
  - case_match; [eauto with ba|]. eexists. split; [done|].
    unfold upd_ori, set_Ori, post. cbn. rewrite (alter_insert_Some _ _ _ _ He). split.
    + split; [done|]. split; [done|]. split; [|done]. by eapply table_update.
    + unfold kept. conjs; try done. intros j e0 Hj Hf Hn. simpl.
      eapply lookup_insert_kept; [done..|]. intros ->. by simplify_eq.
  - destruct (mac_slots _ m _ Hok Ht) as (_ & [k Hk] & _). rewrite Hk. cbn.
    destruct (decide (k = O)) as [->|Hk0]; [unfold BATableFreeOriEntry; cbn; eauto with ba|].
    destruct (ori_slot_entry ad _ m _ k HI Hm Hk Hk0) as (e1 & He1 & _ & Ho & _).
    destruct (free_ori_inv ad k e1 HI He1) as (ad' & H1 & H2 & _).
    exists ad'. split; [done|]. by rewrite Ho in H2.
Qed.

Lemma rec_timer ad i e now :
  ba_inv ad → BARecEntry ad !! i = Some e →
  ∃ ad', BARecSessionIdleTimeout ad i now = Some ad' ∧ steps (eq (rec_own e)) no_session ad ad'.
Proof.
  intros HI He. unfold BARecSessionIdleTimeout. rewrite He. cbn.
  case_match eqn:E; [|eauto with ba]. case_match; [|eauto with ba].
  apply (run_rec_inv ad i e); try done; [apply session_fun_refresh|].
  apply bool_decide_eq_true in E. unfold rec_free. by rewrite E.
Qed.

(** * Frames *)

Lemma bar_frame cfg ad w n Msg :
  ba_inv ad →
  ∃ r ad', CntlEnqueueForRecv cfg ad w n Msg = Some (r, ad') ∧
    steps (eq (w, bar_TID Msg)) no_session ad ad'.
Proof.
  intros HI. pose proof HI as (_ & HR & _). unfold CntlEnqueueForRecv.
  do 3 (case_match; [eauto with ba|]). case_match eqn:E; [|eauto with ba].
  apply andb_true_iff in E as [E1 E2]. apply Nat.ltb_lt in E1, E2.
  destruct (mac_lookup ad w HI) as (m & Hm & Hok); [by apply Nat.leb_gt|].
  destruct (mac_slots w m (bar_TID Msg) Hok E2) as ([k Hk] & _). rewrite Hm. cbn. rewrite Hk. cbn.
  destruct (decide (k = O)) as [->|Hk0].
  - destruct (lookup_lt_is_Some_2 (BARecEntry ad) O) as [e He].
    { rewrite (tab_len _ _ _ _ _ _ _ _ _ _ _ HR). by vm_compute; lia. }
    destruct (run_rec_inv ad O e (bar_advance (bar_StartSeq Msg)) HI He) as (ad' & R1 & R2 & R3).
    + apply session_fun_bar.
    + intros _ s Hs. unfold bar_advance, ba_indicate_reordering_mpdus_le_seq. rewrite Hs. simpl.
      by case_match.
    + rewrite R1. eexists true, ad'. split; [done|]. split; [done|].
      pose proof (table_zero_free _ _ _ _ _ _ _ _ _ _ _ _ HR He) as Hf.
      unfold run_rec in R1. rewrite He in R1. cbn in R1. injection R1 as <-.
      unfold kept. conjs; try done. intros j e0 Hj Hfj _. simpl.
      eapply lookup_insert_kept; [done..|]. intros <-. simplify_eq; congruence.
  - destruct (run_rec_used ad w m _ k _ HI Hm Hk Hk0 (session_fun_bar (bar_StartSeq Msg)))
      as (ad' & -> & R2). eauto.
Qed.

Lemma legacy_ok cfg ad now w t :
  ba_inv ad → (t < NUM_OF_TID)%nat →
  ∃ ad', legacy_flush cfg ad now w t = Some ad' ∧ steps (eq (w, t)) no_session ad ad'.
Proof.
  intros HI Ht. unfold legacy_flush. case_match eqn:E; [|eauto with ba]. apply Nat.ltb_lt in E.
  destruct (mac_lookup ad w HI) as (m & Hm & Hok); [by apply Nat.leb_gt|].
  destruct (mac_slots w m t Hok Ht) as ([k Hk] & _). rewrite Hm. cbn. rewrite Hk. cbn.
  destruct (Nat.eqb_spec k O) as [->|Hk0]; [eauto with ba|].
  destruct (rec_slot_entry ad w m t k HI Hm Hk Hk0) as (e & He & _). rewrite He. cbn.
  case_match; [|eauto with ba].
  apply (run_rec_used ad w m t k); try done. intros s Hs.
  split; [apply (flush_timeout_conserves _ _ s Hs)|apply id_flush_timeout].
Qed.

Lemma ampdu_ok cfg ad now w t rx :
  ba_inv ad → (t < NUM_OF_TID)%nat →
  ∃ ad', Indicate_AMPDU_Packet cfg ad now w t rx = Some ad' ∧ steps (eq (w, t)) no_session ad ad'.
Proof.
  intros HI Ht. unfold Indicate_AMPDU_Packet. case_match; [eauto with ba|].
  case_match eqn:E; [|eauto with ba]. apply Nat.ltb_lt in E.
  destruct (mac_lookup ad w HI) as (m & Hm & Hok); [by apply Nat.leb_gt|].
  destruct (mac_slots w m t Hok Ht) as ([k Hk] & _). rewrite Hm. cbn. rewrite Hk. cbn.
  destruct (Nat.eqb_spec k O) as [->|Hk0]; [eauto with ba|].
  apply (run_rec_used ad w m t k); try done. apply session_fun_ampdu.
Qed.

Lemma add_req cfg al ad Elem :
  let w := el_Wcid Elem in let t := parm_TID (req_parm (el_Msg Elem)) in
  ba_inv ad → (t < NUM_OF_TID)%nat →
  ∃ ad', PeerAddBAReqAction cfg al ad Elem = Some ad' ∧ steps (eq (w, t)) no_session ad ad'.
Proof.
  intros w t HI Ht. unfold PeerAddBAReqAction. fold w.
  destruct (Nat.leb MAX_LEN_OF_MAC_TABLE w) eqn:Ew; [eauto with ba|].
  destruct (mac_lookup ad w HI Ew) as (m & Hm & Hok). rewrite Hm. cbn.
  assert (Hret : ∀ ad1 (St : Z) evs, steps (eq (w, t)) no_session ad ad1 → ∃ ad',
    (if negb (al_OutBuffer al) then Some ad1 else Some (post ad1 evs)) = Some ad' ∧
    steps (eq (w, t)) no_session ad ad').
  { intros ad1 _ evs Hs. destruct (negb _); eexists; (split; [done|]); [done|].
    eapply steps_trans; [done|]. apply steps_post. apply Hs. }
  destruct (PeerAddBAReqActionSanity Elem); [|cbn; apply (Hret ad 0); auto with ba].
  destruct (negb (bBADecline cfg) && IS_HT_STA m) eqn:E; [|cbn; apply (Hret ad 0); auto with ba].
  apply andb_true_iff in E as [_ Eht].
  destruct (rec_add cfg ad w m (el_Msg Elem) HI Hm) as (ok & ad1 & -> & Hs & _).
  { by apply Hok. } { done. }
  cbn. by apply (Hret ad1 0).
Qed.

Lemma add_rsp cfg al ad Elem :
  let w := el_Wcid Elem in let t := parm_TID (rsp_parm (el_Msg Elem)) in
  ba_inv ad → (t < NUM_OF_TID)%nat →
  ∃ ad', PeerAddBARspAction cfg al ad Elem = Some ad' ∧ steps no_session (eq (w, t)) ad ad'.
Proof.
  intros w t HI Ht. unfold PeerAddBARspAction. fold w t.
  destruct (Nat.leb MAX_LEN_OF_MAC_TABLE w) eqn:Ew; [eauto with ba|].
  destruct (PeerAddBARspActionSanity Elem); [|eauto with ba].
  assert (∃ ad1, (if rsp_status (el_Msg Elem) =? 0 then BAOriSessionAdd cfg al ad w (el_Msg Elem)
    else BAOriSessionTearDown al ad w t true false) = Some ad1 ∧ steps no_session (eq (w, t)) ad ad1)
    as (ad1 & -> & Hs).
  { case_match.
    - apply ori_add; try done. by apply Nat.leb_gt.
    - destruct (ori_teardown al ad w t true false HI Ht) as (ad1 & H1 & H2 & _). eauto. }
  cbn. case_match; [|eauto]. pose proof Hs as [HI1 _].
  destruct (mac_lookup ad1 w HI1 Ew) as (m & Hm & _). rewrite Hm. cbn. eexists. split; [done|].
  eapply steps_trans; [done|]. apply (steps_mono no_session no_session); [done..|].
  apply ba_inv_mac; [done|auto with ba|done].
Qed.

Lemma del_ba al ad Elem :
  let w := el_Wcid Elem in let t := delba_TID (del_parm (el_Msg Elem)) in
  ba_inv ad → (t < NUM_OF_TID)%nat →
  ∃ ad', PeerDelBAAction al ad Elem = Some ad' ∧
    if delba_Initiator (del_parm (el_Msg Elem)) =? ORIGINATOR then steps (eq (w, t)) no_session ad ad' else steps no_session (eq (w, t)) ad ad'.
Proof.
  intros w t HI Ht. unfold PeerDelBAAction. fold w t. case_match; [|exists ad; case_match; eauto with ba]. case_match.
  - destruct (rec_teardown al ad w t true HI Ht) as (ad' & -> & H1 & _). by exists ad'.
  - destruct (ori_teardown al ad w t true false HI Ht) as (ad' & -> & H1 & _). by exists ad'.
Qed.

Lemma bar_ok cfg al ad w n Msg :
  ba_inv ad → (bar_TID Msg < NUM_OF_TID)%nat →
  ∃ ad', dev_rx_ctrl_frm_BAR cfg al ad w n Msg = Some ad' ∧
    steps (eq (w, bar_TID Msg)) no_session ad ad'.
Proof.
  intros HI Ht. unfold dev_rx_ctrl_frm_BAR.
  destruct (bar_frame cfg ad w n Msg HI) as (r & ad1 & -> & Hs). cbn.
  case_match; [|eauto]. pose proof Hs as [HI1 _].
  destruct (rec_teardown al ad1 w (bar_TID Msg) false HI1 Ht) as (ad2 & -> & H2 & _).
  exists ad2. split; [done|]. by eapply steps_trans.
Qed.

Definition sessions_of (w : nat) (ts : list nat) (p : nat * nat) : Prop := p.1 = w ∧ p.2 ∈ ts.

Lemma teardown_loop_ok al w ts : ∀ ad,
  ba_inv ad → Forall (λ t, (t < NUM_OF_TID)%nat) ts →
  ∃ ad', teardown_loop al w ts ad = Some ad' ∧
    steps (sessions_of w ts) (sessions_of w ts) ad ad' ∧
    ((w < MAX_LEN_OF_MAC_TABLE)%nat → (∀ b t, al_Elem (al b t) = true) → NoDup ts →
     ∀ t, t ∈ ts → rec_slot ad' w t = O ∧ ori_slot ad' w t = O).
Proof.
  induction ts as [|t ts IH]; intros ad HI Hts.
  { exists ad. split; [done|]. split; [auto with ba|]. intros _ _ _ t Ht. by apply elem_of_nil in Ht. }
  apply Forall_cons in Hts as [Ht Hts]. cbn.
  destruct (ori_teardown (al true t) ad w t false false HI Ht) as (ad1 & -> & S1 & Z1). cbn.
  destruct (rec_teardown (al false t) ad1 w t false (proj1 S1) Ht) as (ad2 & -> & S2 & Z2). cbn.
  destruct (IH ad2 (proj1 S2) Hts) as (ad3 & -> & S3 & Z3). exists ad3. split; [done|]. split.
  - eapply steps_trans; [|eapply steps_trans].
    + eapply steps_mono; [| |exact S1]; [done|]. intros p <-. split; [done|]. simpl. set_solver.
    + eapply steps_mono; [| |exact S2]; [|done]. intros p <-. split; [done|]. simpl. set_solver.
    + eapply steps_mono; [| |exact S3]; intros p [? ?]; (split; [done|]); set_solver.
  - intros Hw Hal Hnd t' Ht'. apply NoDup_cons in Hnd as [Hni Hnd].
    apply elem_of_cons in Ht' as [->|Ht']; [|by apply Z3].
    assert (¬ sessions_of w ts (w, t)) by (intros [_ ?]; done).
    destruct S3 as [_ (K1 & K2 & _)]. rewrite K1, K2 by done.
    destruct S2 as [_ (_ & K & _)]. rewrite K by (intros []).
    split; [apply Z2|apply Z1]; auto.
Qed.

Lemma tids_lt : Forall (λ t, (t < NUM_OF_TID)%nat) (seq 0 NUM_OF_TID).
Proof. apply Forall_forall. intros t Ht. apply elem_of_seq in Ht. lia. Qed.
