(* ===== verification/BaSessionClaims.v ===== *)
(** What the session handlers of [BaSession] guarantee: the tables stay
    consistent and are never left, sessions do not disturb each other, opening
    and tearing down do what the protocol needs, the originator stops asking;
    and where the handlers do not check a TID. *)

From S2P Require Import Prelude Mlme BaReorder BaReorderSpec BaReorderProofs BaReorderClaims.
From S2P Require Import BaSession BaSessionTable BaSessionProofs.

#[local] Arguments BATableFreeOriEntry : simpl never.

(** * The initial adapter and the reachable ones *)

Definition zero_rec : BA_REC_ENTRY := mk_entry 0 0 0 0 0 0 0 0 Recipient_NONE (mk_list [] 0).
Definition zero_ori : BA_ORI_ENTRY := mk_ori 0 0 0 0 0 0 0 Originator_NONE.

(** The zeroed tables of a new adapter, with the peers [c] and the pool. *)
Definition new_adapter (c : list mac_entry) (nblocks : nat) : ba_adapter :=
  BATableInit (mk_ad c 0 0 0 (replicate MAX_LEN_OF_BA_ORI_TABLE zero_ori)
    (replicate MAX_LEN_OF_BA_REC_TABLE zero_rec) (ba_reordering_resource_init true nblocks).2 []).

(** A peer without sessions. *)
Definition idle_mac (w : nat) (m : mac_entry) : Prop :=
  BARecWcidArray m = replicate NUM_OF_TID O ∧ BAOriWcidArray m = replicate NUM_OF_TID O ∧
  length (TxSeq m) = NUM_OF_TID ∧ RXBAbitmap m = 0 ∧ TXBAbitmap m = 0 ∧
  (IS_HT_STA m = true → mac_wcid m = Z.of_nat w).

Definition idle_peers (c : list mac_entry) : Prop :=
  length c = MAX_LEN_OF_MAC_TABLE ∧ ∀ w m, c !! w = Some m → idle_mac w m.

Inductive reachable (cfg : ba_cfg) (ad0 : ba_adapter) : ba_adapter → Prop :=
| reach_init : reachable cfg ad0 ad0
| reach_step ad i ad' :
    reachable cfg ad0 ad → input_ok ad i → ba_dispatch cfg i ad = Some ad' →
    reachable cfg ad0 ad'.

Lemma lookup_replicate_eq {A} (x : A) n i y : replicate n x !! i = Some y → y = x.
Proof. intros H. by apply lookup_replicate_1 in H as [-> _]. Qed.

Lemma map_replicate_eq {A B} (f : A → B) x n : map f (replicate n x) = replicate n (f x).
Proof. apply fmap_replicate. Qed.

Lemma count_replicate {A} (p : A → bool) x n : p x = false → count p (replicate n x) = O.
Proof. intros H. induction n as [|n IH]; simpl; [done|]. by rewrite H. Qed.

(** A table of free entries with idle peers. *)
Lemma table_ok_empty {A} (free live : A → bool) own (ok : A → Prop) len arr bits c x :
  free x = true → live x = false → ok x →
  (∀ w m, c !! w = Some m → arr m = replicate NUM_OF_TID O ∧ bits m = 0) →
  table_ok free live own ok len arr bits c (replicate len x) 0 0.
Proof.
  intros Hf Hl Hok Hc.
  assert (Hs : ∀ w t, slot arr c w t = O).
  { intros w t. unfold slot. destruct (c !! w) as [m|] eqn:E; [|done].
    simpl. destruct (Hc w m E) as [-> _]. destruct (replicate _ _ !! t) eqn:E2; [|done].
    by apply lookup_replicate_eq in E2. }
  split.
  - apply length_replicate.
  - intros i w t. rewrite Hs. unfold owner. destruct (replicate len x !! i) as [e|] eqn:E; simpl.
    + apply lookup_replicate_eq in E. subst. rewrite Hf. split; [done|]. intros []; congruence.
    + split; [done|]. intros []; congruence.
  - intros i e E. by apply lookup_replicate_eq in E as ->.
  - intros w m t Hm Ht. destruct (Hc w m Hm) as [_ ->]. rewrite Hs, Z.bits_0.
    unfold live_at. destruct (replicate len x !! O) as [e|] eqn:E; [|done].
    by apply lookup_replicate_eq in E as ->.
  - rewrite count_replicate; [done|]. unfold used. by rewrite Hf.
  - by rewrite count_replicate.
Qed.

Lemma wf_init_freelist n : ∀ l, wf_list l → wf_list (init_freelist n l).
Proof.
  induction n as [|n IH]; intros l Hl; [done|]. apply IH. unfold wf_list in *. simpl. lia.
Qed.

Lemma new_adapter_inv c n : idle_peers c → ba_inv (new_adapter c n).
Proof.
  intros [HL HC]. unfold new_adapter, BATableInit, ba_inv. cbn [Content BARecEntry BAOriEntry pool
    numAsRecipient numAsOriginator numDoneOriginator].
  rewrite !map_replicate_eq. split; [|split; [|split]].
  - split; [done|]. intros w m Hm. destruct (HC w m Hm) as (H1 & H2 & H3 & _ & _ & H4).
    unfold mac_ok. by rewrite H1, H2, !length_replicate.
  - apply table_ok_empty; [done|done|by left|]. intros w m Hm. by destruct (HC w m Hm) as (? & ? & ? & ? & ? & ?).
  - apply table_ok_empty; [done|done|by unfold ori_entry_ok; simpl; repeat split; vm_compute; try lia|].
    intros w m Hm. by destruct (HC w m Hm) as (? & ? & ? & ? & ? & ?).
  - apply wf_init_freelist. done.
Qed.

(** The sessions an input may change: of the recipient table and of the
    originator table. *)
Definition touched (ad : ba_adapter) (i : ba_input) : (nat * nat → Prop) * (nat * nat → Prop) :=
  match i with
  | In_SetUp w t _ _ _ | In_OriTearDown _ w t _ _ => (no_session, eq (w, t))
  | In_AddBAReq _ E => (eq (el_Wcid E, parm_TID (req_parm (el_Msg E))), no_session)
  | In_AddBARsp _ E => (no_session, eq (el_Wcid E, parm_TID (rsp_parm (el_Msg E))))
  | In_DelBA _ E =>
      let p := (el_Wcid E, delba_TID (del_parm (el_Msg E))) in
      if delba_Initiator (del_parm (el_Msg E)) =? ORIGINATOR then (eq p, no_session) else (no_session, eq p)
  | In_BAR _ w _ Msg => (eq (w, bar_TID Msg), no_session)
  | In_AMPDU _ w t _ | In_Legacy _ w t | In_RecTearDown _ w t _ => (eq (w, t), no_session)
  | In_OriTimer i => (no_session, λ p, ori_own <$> BAOriEntry ad !! i = Some p)
  | In_RecTimer i _ => (λ p, rec_own <$> BARecEntry ad !! i = Some p, no_session)
  | In_TearDownALL _ w => (λ p, p.1 = w, λ p, p.1 = w)
  end.

Lemma dispatch_steps cfg ad i :
  ba_inv ad → input_ok ad i →
  ∃ ad', ba_dispatch cfg i ad = Some ad' ∧ steps (touched ad i).1 (touched ad i).2 ad ad'.
Proof.
  intros HI. pose proof HI as (_ & HR & HO & _). destruct i; cbn [input_ok ba_dispatch touched fst snd].
  - intros (m & Hm & Hw). by eapply ori_setup.
  - by apply add_req.
  - by apply add_rsp.
  - intros Ht. destruct (del_ba al ad Elem HI Ht) as (ad' & H1 & H2). exists ad'. split; [exact H1|]. by destruct (_ =? _).
  - by apply bar_ok.
  - by apply ampdu_ok.
  - by apply legacy_ok.
  - intros Hi. destruct (lookup_lt_is_Some_2 (BAOriEntry ad) i) as [e He].
    { by rewrite (tab_len _ _ _ _ _ _ _ _ _ _ _ HO). }
    destruct (ori_timer cfg ad i e HI He) as (ad' & H1 & H2). exists ad'. split; [done|].
    eapply steps_mono; [| |exact H2]; [done|]. intros p <-. by rewrite He.
  - intros Hi. destruct (lookup_lt_is_Some_2 (BARecEntry ad) i) as [e He].
    { by rewrite (tab_len _ _ _ _ _ _ _ _ _ _ _ HR). }
    destruct (rec_timer ad i e Now32 HI He) as (ad' & H1 & H2). exists ad'. split; [done|].
    eapply steps_mono; [| |exact H2]; [|done]. intros p <-. by rewrite He.
  - intros Ht. destruct (ori_teardown al ad w t bPassive bForceSend HI Ht) as (ad' & H1 & H2 & _). eauto.
  - intros Ht. destruct (rec_teardown al ad w t bPassive HI Ht) as (ad' & H1 & H2 & _). eauto.
  - intros _. destruct (teardown_loop_ok al w _ ad HI tids_lt) as (ad' & H1 & H2 & _).
    exists ad'. split; [exact H1|]. eapply steps_mono; [| |exact H2]; by intros p [? _].
Qed.

Lemma reachable_ba_inv cfg ad0 ad : ba_inv ad0 → reachable cfg ad0 ad → ba_inv ad.
Proof.
  intros H0. induction 1 as [|ad i ad' _ IH Hok Hd]; [done|].
  destruct (dispatch_steps cfg ad i IH Hok) as (ad1 & H1 & [H2 _]). by simplify_eq.
Qed.

(** * Concrete adapters *)

Definition demo_mac (w : nat) : mac_entry :=
  mk_mac (Z.of_nat w) 0 0 0 (replicate NUM_OF_TID O) (replicate NUM_OF_TID O)
    (replicate NUM_OF_TID 5) true 3 2 255 true.
Definition demo_peers : list mac_entry := map demo_mac (seq 0 MAX_LEN_OF_MAC_TABLE).
Definition demo_cfg : ba_cfg := mk_cfg 64 64 true false 0 true true 2 false false false false false 250.
Definition demo_al : allocs := mk_allocs true true true.

Lemma demo_peers_idle : idle_peers demo_peers.
Proof.
  split; [unfold demo_peers; by rewrite length_map, length_seq|].
  intros w m Hm. unfold demo_peers in Hm. rewrite list_lookup_fmap in Hm.
  destruct (seq 0 MAX_LEN_OF_MAC_TABLE !! w) as [k|] eqn:E; [|done].
  apply lookup_seq in E as [-> _]. simplify_eq/=. repeat split.
Qed.

(** A queue element of peer [w] with the given bytes. *)
Definition mk_elem (w : nat) (Msg : list Z) (MsgLen : Z) : MLME_QUEUE_ELEM :=
  mk_qelem Msg ACTION_STATE_MACHINE MT2_PEER_BA_CATE MsgLen (0, 0) (0, 0, 0) 0 0 w true 0 0.

(** An ADDBA request for [tid] asking for [buf] frames, immediate policy. *)
Definition demo_req (tid buf : Z) : list Z :=
  zeros 24 ++ [3; 0; 9] ++ le_bytes 2 (2 + Z.shiftl tid 2 + Z.shiftl buf 6) ++ zeros 4.

Definition demo_step (i : ba_input) (ad : ba_adapter) : ba_adapter :=
  default ad (ba_dispatch demo_cfg i ad).

Lemma demo_step_inv i ad : ba_inv ad → input_ok ad i → ba_inv (demo_step i ad).
Proof.
  intros HI Hi. destruct (dispatch_steps demo_cfg ad i HI Hi) as (ad' & H1 & [H2 _]).
  unfold demo_step. by rewrite H1.
Qed.

(** Peer 1 opened a session for TID 5; then frames 10 and 12 came. *)
Definition demo_open : ba_adapter :=
  demo_step (In_AddBAReq demo_al (mk_elem 1 (demo_req 5 32) 33)) (new_adapter demo_peers 4).
Definition demo_buffered : ba_adapter :=
  demo_step (In_AMPDU 2 1 5 (demo_rx 12 101)) (demo_step (In_AMPDU 1 1 5 (demo_rx 10 100)) demo_open).

Lemma demo_open_inv : ba_inv demo_open.
Proof.
  apply demo_step_inv; [apply new_adapter_inv, demo_peers_idle|]. apply Nat.ltb_lt. by vm_compute.
Qed.
Lemma demo_buffered_inv : ba_inv demo_buffered.
Proof.
  apply demo_step_inv; [apply demo_step_inv; [apply demo_open_inv|]|]; apply Nat.ltb_lt; by vm_compute.
Qed.

(** * The properties *)

(** C8: The session tables are never left and never inconsistent: from a new
    adapter, whatever frames of the peers, timers and requests arrive in
    whatever order and whichever allocations fail, every handler whose TIDs
    and indices are in range ends without an access outside a table, and the
    index arrays, the entries, the counters, the bitmaps and the lists agree
    before and after it. *)
Theorem ba_sessions_safe cfg c n ad i
    (Hc : idle_peers c) (Hr : reachable cfg (new_adapter c n) ad) (Hi : input_ok ad i) :
  ba_inv ad ∧ ∃ ad', ba_dispatch cfg i ad = Some ad' ∧ ba_inv ad'.
Proof.
  assert (HI : ba_inv ad) by (eapply reachable_ba_inv; [|done]; by apply new_adapter_inv).
  split; [done|]. destruct (dispatch_steps cfg ad i HI Hi) as (ad' & H1 & [H2 _]). eauto.
Qed.

Lemma ba_sessions_safe_witness :
  ∃ ad', ba_dispatch demo_cfg (In_AddBAReq demo_al (mk_elem 1 (demo_req 5 32) 33))
    (new_adapter demo_peers 4) = Some ad' ∧ ba_inv ad'.
Proof.
  destruct (ba_sessions_safe demo_cfg demo_peers 4 (new_adapter demo_peers 4)
    (In_AddBAReq demo_al (mk_elem 1 (demo_req 5 32) 33))) as [_ H].
  - exact demo_peers_idle.
  - constructor.
  - vm_compute. lia.
  - exact H.
Defined.

(** C9: Sessions do not disturb each other.  In a state in which the tables
    are consistent, a handler whose TIDs and indices are in range changes no
    entry and no index of a session other than the one its input names, and
    that only in the table of its direction: the requests of the station and
    the answers to them in the table of originator sessions, the requests and
    data frames of a peer in the table of recipient sessions, and a DELBA
    frame in the recipient table if the peer sent it as the originator and in
    the originator table otherwise.  Tearing down a peer changes only that
    peer's sessions, in both tables. *)
Theorem ba_session_isolation cfg ad i ad'
    (HI : ba_inv ad) (Hi : input_ok ad i) (Hd : ba_dispatch cfg i ad = Some ad') :
  kept (touched ad i).1 (touched ad i).2 ad ad'.
Proof.
  destruct (dispatch_steps cfg ad i HI Hi) as (ad1 & H1 & [_ H2]). by simplify_eq.
Qed.

Lemma ba_session_isolation_witness :
  kept (eq (1%nat, 5%nat)) no_session demo_open (demo_step (In_AMPDU 1 1 5 (demo_rx 10 100)) demo_open).
Proof.
  unfold demo_step. destruct (ba_dispatch _ _ demo_open) as [ad'|] eqn:E; [|apply kept_refl].
  apply (ba_session_isolation demo_cfg demo_open (In_AMPDU 1 1 5 (demo_rx 10 100)) ad').
  - exact demo_open_inv.
  - vm_compute. lia.
  - exact E.
Defined.

(** Removing a peer ends all its sessions: when the allocations succeed,
    [BASessionTearDownALL] leaves every index of the peer at 0, so that none of
    its entries is in use, and no other peer's session has changed. *)
Theorem ba_teardown_all al ad w
    (HI : ba_inv ad) (Hw : (w < MAX_LEN_OF_MAC_TABLE)%nat)
    (Hal : ∀ b t, al_Elem (al b t) = true) :
  ∃ ad', BASessionTearDownALL al ad w = Some ad' ∧ ba_inv ad' ∧
    (∀ t, (t < NUM_OF_TID)%nat → rec_slot ad' w t = O ∧ ori_slot ad' w t = O) ∧
    (∀ i e, BARecEntry ad' !! i = Some e → rec_free e = false → Z.to_nat (Wcid e) ≠ w) ∧
    kept (λ p, p.1 = w) (λ p, p.1 = w) ad ad'.
Proof.
  destruct (teardown_loop_ok al w (seq 0 NUM_OF_TID) ad HI tids_lt) as (ad' & H1 & [H2 H3] & H4).
  assert (Hz : ∀ t, (t < NUM_OF_TID)%nat → rec_slot ad' w t = O ∧ ori_slot ad' w t = O).
  { intros t Ht. apply H4; [done|done|apply NoDup_seq|]. apply elem_of_seq. lia. }
  exists ad'. split; [exact H1|]. split; [done|]. split; [done|]. split.
  - intros i e He Hf Hown. pose proof H2 as ((_ & HC) & HR & _).
    destruct (table_entry_slot _ _ _ _ _ _ _ _ _ _ _ _ _ _ _ HR He Hf eq_refl)
      as (H0 & Hs & m & Hm & Hi).
    rewrite Hown in Hs, Hm. destruct (HC w m Hm) as (HL & _). destruct (Hz (Z.to_nat (TID e))) as [Hr _].
    { rewrite <- HL. by eapply lookup_lt_Some. }
    by unfold rec_slot in Hr; rewrite Hr in Hs.
  - eapply kept_mono; [| |exact H3]; by intros p [? _].
Qed.

Lemma ba_teardown_all_witness :
  ∃ ad', BASessionTearDownALL (λ _ _, demo_al) demo_buffered 1 = Some ad' ∧ rec_slot ad' 1 5 = O.
Proof.
  destruct (ba_teardown_all (λ _ _, demo_al) demo_buffered 1) as (ad' & H1 & _ & H2 & _).
  - exact demo_buffered_inv.
  - vm_compute. lia.
  - done.
  - exists ad'. split; [exact H1|]. apply H2. vm_compute. lia.
Defined.

(** Tearing a recipient session down loses no frame: every frame still
    buffered is handed up, in the order of the list, before the session leaves
    the chip; its blocks return to the pool and its entry is free, reset and
    empty. *)
Theorem ba_teardown_flushes al ad w m t i e p
    (HI : ba_inv ad) (Hm : Content ad !! w = Some m) (Ht : (t < NUM_OF_TID)%nat)
    (Hi : BARecWcidArray m !! t = Some i) (H0 : i ≠ O) (He : BARecEntry ad !! i = Some e)
    (Hal : p = true ∨ al_Elem al = true) :
  ∃ ad' evs, BARecSessionTearDown al ad w t p = Some ad' ∧ ba_inv ad' ∧ rec_slot ad' w t = O ∧
    events ad' = events ad ++ evs ++ map (λ b, Ev_rx (Announce b)) (chain (list_ e))
                   ++ [Ev_AsicDel (Z.of_nat w) (Z.of_nat t)] ∧
    BARecEntry ad' !! i = Some (closed_entry e) ∧
    length (chain (pool ad')) = (length (chain (pool ad)) + length (chain (list_ e)))%nat.
Proof.
  destruct (rec_teardown_open al ad w m t i e p HI Hm Ht Hi H0 He Hal) as [evs E].
  destruct (rec_teardown al ad w t p HI Ht) as (ad' & E' & [H2 _] & H3).
  rewrite E in E'. injection E' as <-. eexists _, evs. split; [exact E|].
  split; [done|]. split; [|split; [done|split]].
  - apply H3; [|done]. destruct HI as ((HL & _) & _). rewrite <- HL. by eapply lookup_lt_Some.
  - cbn. apply list_lookup_insert_eq. by eapply lookup_lt_Some.
  - cbn. rewrite length_app, length_rev. lia.
Qed.

Lemma ba_teardown_flushes_witness :
  ∃ ad' evs, BARecSessionTearDown demo_al demo_buffered 1 5 true = Some ad' ∧
    events ad' = events demo_buffered ++ evs
      ++ [Ev_rx (Announce (mk_mpdu 101 12 false 0)); Ev_AsicDel 1 5].
Proof.
  destruct (ba_teardown_flushes demo_al demo_buffered 1
    (mk_mac 1 32 0 0 [0;0;0;0;0;1;0;0]%nat (replicate 8 O) (replicate 8 5) true 3 2 255 true) 5 1
    (mk_entry 1 5 32 10 0 2 0 12 Recipient_Accept (mk_list [mk_mpdu 101 12 false 0] 1)) true)
    as (ad' & evs & H1 & _ & _ & H2 & _).
  - exact demo_buffered_inv.
  - vm_compute. reflexivity.
  - vm_compute. lia.
  - reflexivity.
  - lia.
  - vm_compute. reflexivity.
  - by left.
  - exists ad', evs. split; [exact H1|exact H2].
Defined.

(** An accepted ADDBA request opens exactly the session it promises: the
    response to an HT peer carries the token and TID of the request and the
    granted window; with status 0 the peer's session for that TID is open with
    that window, between 1 and 255, an empty list and no last number, a fresh
    session for the reordering code; with status 38 no table has changed. *)
Theorem addba_request_opens cfg al ad Elem m
    (HI : ba_inv ad) (Hm : Content ad !! el_Wcid Elem = Some m) (Hht : IS_HT_STA m = true)
    (Hdec : bBADecline cfg = false) (Hsan : PeerAddBAReqActionSanity Elem = true)
    (Ht : (parm_TID (req_parm (el_Msg Elem)) < NUM_OF_TID)%nat) (Hal : al_OutBuffer al = true) :
  let w := el_Wcid Elem in let t := parm_TID (req_parm (el_Msg Elem)) in
  let W := granted_win cfg (el_Msg Elem) in
  ∃ ad' Status amsdu, PeerAddBAReqAction cfg al ad Elem = Some ad' ∧ 1 ≤ W ≤ 255 ∧
    last (events ad') = Some (Ev_AddBARsp (Z.of_nat w) (aget (el_Msg Elem) 26) Status amsdu (Z.of_nat t) W) ∧
    ((Status = 0 ∧ ∃ i, rec_open_at ad' w t i W) ∨
     (Status = 38 ∧ Content ad' = Content ad ∧ BARecEntry ad' = BARecEntry ad ∧
      BAOriEntry ad' = BAOriEntry ad ∧ pool ad' = pool ad)).
Proof.
  intros w t W. pose proof HI as ((HL & HC) & _).
  assert (Nat.leb MAX_LEN_OF_MAC_TABLE w = false) as Ew
    by (apply Nat.leb_gt; rewrite <- HL; by eapply lookup_lt_Some).
  unfold PeerAddBAReqAction. fold w. rewrite Ew. fold w in Hm. rewrite Hm. cbn.
  rewrite Hsan, Hdec, Hht. cbn.
  destruct (rec_add cfg ad w m (el_Msg Elem) HI Hm) as (ok & ad1 & -> & Hs & Hr); [|done|].
  { by apply (HC w m Hm). }
  cbn. rewrite Hal. cbn. eexists _, _, _. split; [done|]. split; [apply granted_win_range|].
  split; [apply last_snoc|]. destruct ok; [left|right].
  - split; [done|]. destruct Hr as [i Hr]. by exists i.
  - by rewrite Hr.
Qed.

Lemma addba_request_opens_witness :
  1 ≤ granted_win demo_cfg (demo_req 5 32) ≤ 255 ∧
  ∃ ad', PeerAddBAReqAction demo_cfg demo_al (new_adapter demo_peers 4) (mk_elem 1 (demo_req 5 32) 33)
    = Some ad'.
Proof.
  destruct (addba_request_opens demo_cfg demo_al (new_adapter demo_peers 4)
    (mk_elem 1 (demo_req 5 32) 33) (demo_mac 1)) as (ad' & st & am & H1 & H2 & _).
  - apply new_adapter_inv, demo_peers_idle.
  - vm_compute. reflexivity.
  - reflexivity.
  - reflexivity.
  - reflexivity.
  - vm_compute. lia.
  - reflexivity.
  - split; [exact H2|]. exists ad'. exact H1.
Defined.

(** The timer of originator entry [i] fires [n] times with no answer. *)
Fixpoint fire (cfg : ba_cfg) (n i : nat) (ad : ba_adapter) : option ba_adapter :=
  match n with
  | O => Some ad
  | S n => ad ← BAOriSessionSetupTimeout cfg ad i; fire cfg n i ad
  end.

Definition addba_token (ev : ba_event) : option Z :=
  match ev with Ev_AddBAReq _ _ _ k => Some k | _ => None end.

(** One firing of a waiting session that has tries left. *)
Lemma timer_retry cfg ad i e :
  ba_inv ad → BAOriEntry ad !! i = Some e → ORI_BA_Status e = Originator_WaitRes →
  1 ≤ ori_Token e < 8 → MONITOR_ON cfg = false → ba_ATE_ON cfg = false → scan_blocks cfg = false →
  ∃ ad' e', BAOriSessionSetupTimeout cfg ad i = Some ad' ∧ ba_inv ad' ∧
    BAOriEntry ad' !! i = Some e' ∧ ORI_BA_Status e' = Originator_WaitRes ∧
    ori_own e' = ori_own e ∧ ori_Token e' = ori_Token e + 1 ∧
    omap addba_token (events ad') = omap addba_token (events ad) ++ [ori_Token e].
Proof.
  intros HI He Hs Hk Hm Hat Hsc.
  destruct (ori_timer cfg ad i e HI He) as (ad' & H1 & [H2 _]). exists ad'.
  pose proof H1 as E. pose proof HI as (_ & _ & HO & _).
  destruct (tab_entry _ _ _ _ _ _ _ _ _ _ _ HO i e He) as (_ & Hw & _).
  destruct (mac_lookup ad (Z.to_nat (ori_Wcid e)) HI) as (m & Hmm & _); [by apply Nat.leb_gt|].
  unfold BAOriSessionSetupTimeout in E. rewrite He in E. cbn in E. rewrite Hm, Hat, Hmm, Hs in E. cbn in E.
  replace (ori_Token e <? ORI_SESSION_MAX_RETRY) with true in E by (unfold ORI_SESSION_MAX_RETRY; lia).
  rewrite Hsc in E. injection E as <-.
  eexists. split; [exact H1|]. split; [done|]. cbn. rewrite (alter_insert_Some _ _ _ _ He).
  rewrite list_lookup_insert_eq by (by eapply lookup_lt_Some). split; [done|]. cbn.
  split; [done|]. split; [done|]. split; [rewrite wrap_id; [done|lia|unfold in_range; lia]|].
  by rewrite !omap_app, <- app_assoc.
Qed.

Lemma free_ori_events ad i ad' : BATableFreeOriEntry ad i = Some ad' → events ad' = events ad.
Proof.
  unfold BATableFreeOriEntry. intros H. case_match; [by simplify_eq|].
  apply bind_Some in H as (e & _ & H). case_match; [by simplify_eq|].
  apply bind_Some in H as (m & _ & H). apply bind_Some in H as (k & _ & [= <-]).
  simpl. by case_match.
Qed.

Lemma fire_gives_up cfg i : ∀ n ad e,
  ba_inv ad → BAOriEntry ad !! i = Some e → ORI_BA_Status e = Originator_WaitRes →
  1 ≤ ori_Token e → ori_Token e + Z.of_nat n = 8 → MONITOR_ON cfg = false → ba_ATE_ON cfg = false → scan_blocks cfg = false →
  ∃ ad', fire cfg (S n) i ad = Some ad' ∧ ba_inv ad' ∧
    ori_slot ad' (ori_own e).1 (ori_own e).2 = O ∧
    omap addba_token (events ad') = omap addba_token (events ad) ++ seqZ (ori_Token e) (Z.of_nat n).
Proof.
  induction n as [|n IH]; intros ad e HI He Hs Hk1 Hk Hm Hat Hsc.
  - destruct (ori_timer cfg ad i e HI He) as (ad' & H1 & [H2 _]). exists ad'.
    pose proof HI as (_ & _ & HO & _).
    assert (Hf : ori_free e = false) by (unfold ori_free; by rewrite Hs).
    destruct (table_entry_slot _ _ _ _ _ _ _ _ _ _ _ _ _ _ _ HO He Hf eq_refl)
      as (_ & _ & m & Hmm & Hi). simpl in Hmm, Hi.
    destruct (free_ori_inv ad i e HI He) as (ad1 & F1 & _ & F3).
    assert (E : ad' = ad1).
    { unfold BAOriSessionSetupTimeout in H1. rewrite He in H1. cbn in H1.
      rewrite Hm, Hat, Hmm, Hs in H1. cbn in H1.
      replace (ori_Token e <? ORI_SESSION_MAX_RETRY) with false in H1 by (unfold ORI_SESSION_MAX_RETRY; lia).
      rewrite andb_false_r, Hi in H1. cbn in H1. congruence. }
    subst ad1. cbn [fire]. rewrite H1. split; [done|]. split; [done|]. split; [by apply F3|].
    simpl. by rewrite app_nil_r, (free_ori_events _ _ _ F1).
  - destruct (timer_retry cfg ad i e) as (ad1 & e1 & E & HI1 & He1 & Hs1 & Ho1 & Hk' & Hev); try done; [lia|].
    destruct (IH ad1 e1) as (ad' & H1 & H2 & H3 & H4); try done; [lia..|].
    exists ad'. cbn [fire]. rewrite E. cbn [mbind option_bind]. split; [exact H1|]. split; [done|].
    rewrite Ho1 in H3. split; [done|]. rewrite H4, Hev, Hk', <- app_assoc. f_equal.
    rewrite (seqZ_cons (ori_Token e)) by lia. simpl. f_equal; f_equal; lia.
Qed.

(** The originator stops asking: a session that waits for the answer of the
    peer, its first request not yet sent, sends the requests of tokens 1 to 7
    and with the eighth timeout gives the entry and the peer's index back, if
    no answer comes and no scan delays it. *)
Theorem ori_setup_gives_up cfg ad i e
    (HI : ba_inv ad) (He : BAOriEntry ad !! i = Some e)
    (Hs : ORI_BA_Status e = Originator_WaitRes) (Hk : ori_Token e = 1)
    (Hm : MONITOR_ON cfg = false) (Hat : ba_ATE_ON cfg = false) (Hsc : scan_blocks cfg = false) :
  ∃ ad', fire cfg 8 i ad = Some ad' ∧ ba_inv ad' ∧
    ori_slot ad' (Z.to_nat (ori_Wcid e)) (Z.to_nat (ori_TID e)) = O ∧
    omap addba_token (events ad') = omap addba_token (events ad) ++ [1; 2; 3; 4; 5; 6; 7].
Proof.
  destruct (fire_gives_up cfg i 7 ad e) as (ad' & H1 & H2 & H3 & H4); try done; [lia..|].
  exists ad'. by rewrite Hk in H4.
Qed.

Definition demo_waiting : ba_adapter := demo_step (In_SetUp 1 5 0 10 true) (new_adapter demo_peers 4).

Lemma demo_waiting_inv : ba_inv demo_waiting.
Proof.
  apply demo_step_inv; [apply new_adapter_inv, demo_peers_idle|]. exists (demo_mac 1). by split.
Qed.

Lemma ori_setup_gives_up_witness :
  ∃ ad', fire demo_cfg 8 1 demo_waiting = Some ad' ∧ ori_slot ad' 1 5 = O.
Proof.
  destruct (ori_setup_gives_up demo_cfg demo_waiting 1 (mk_ori 1 5 64 1 0 5 0 Originator_WaitRes))
    as (ad' & H1 & _ & H2 & _).
  - exact demo_waiting_inv.
  - vm_compute. reflexivity.
  - reflexivity.
  - reflexivity.
  - reflexivity.
  - reflexivity.
  - reflexivity.
  - exists ad'. split; [exact H1|exact H2].
Defined.

(** * Defects *)

(** An ADDBA request of an HT peer whose TID is 8 or more passes the checks and
    reaches the index array of eight elements. *)
Theorem addba_tid_out_of_bounds cfg al ad Elem m :
  ba_inv ad → Content ad !! el_Wcid Elem = Some m → IS_HT_STA m = true →
  bBADecline cfg = false → PeerAddBAReqActionSanity Elem = true →
  (NUM_OF_TID ≤ parm_TID (req_parm (el_Msg Elem)))%nat →
  PeerAddBAReqAction cfg al ad Elem = None.
Proof.
  intros HI Hm Hht Hdec Hsan Ht. pose proof HI as ((HL & HC) & _).
  destruct (HC _ m Hm) as (Hlen & _).
  assert (Nat.leb MAX_LEN_OF_MAC_TABLE (el_Wcid Elem) = false) as Ew
    by (apply Nat.leb_gt; rewrite <- HL; by eapply lookup_lt_Some).
  unfold PeerAddBAReqAction. rewrite Ew, Hm. cbn. rewrite Hsan, Hdec, Hht. cbn.
  unfold BARecSessionAdd. rewrite Hm. cbn. rewrite (lookup_ge_None_2 (BARecWcidArray m)); [done|lia].
Qed.

Example addba_tid_out_of_bounds_ex :
  PeerAddBAReqAction demo_cfg demo_al (new_adapter demo_peers 4) (mk_elem 1 (demo_req 8 32) 33) = None.
Proof. vm_compute. reflexivity. Qed.

(** A DELBA frame likewise, whoever initiated the session. *)
Theorem delba_tid_out_of_bounds al ad Elem :
  ba_inv ad → PeerDelBAActionSanity Elem = true →
  (NUM_OF_TID ≤ delba_TID (del_parm (el_Msg Elem)))%nat →
  PeerDelBAAction al ad Elem = None.
Proof.
  intros HI Hsan Ht. unfold PeerDelBAAction. rewrite Hsan.
  assert (Nat.leb MAX_LEN_OF_MAC_TABLE (el_Wcid Elem) = false) as Ew.
  { unfold PeerDelBAActionSanity in Hsan. case_match; [done|].
    by destruct (Nat.leb MAX_LEN_OF_MAC_TABLE (el_Wcid Elem)). }
  destruct (mac_lookup ad _ HI Ew) as (m & Hm & H1 & H2 & _).
  unfold BARecSessionTearDown, BAOriSessionTearDown. rewrite Ew, Hm. cbn.
  case_match.
  - rewrite (lookup_ge_None_2 (BARecWcidArray m)); [done|lia].
  - rewrite (lookup_ge_None_2 (BAOriWcidArray m)); [done|lia].
Qed.

(** When the DELBA of an active teardown cannot be allocated, the recipient
    session stays open although its timer is cancelled. *)
Theorem rec_teardown_alloc_failure al ad w m t i :
  ba_inv ad → Content ad !! w = Some m → (t < NUM_OF_TID)%nat →
  BARecWcidArray m !! t = Some i → i ≠ O → al_Elem al = false →
  BARecSessionTearDown al ad w t false = Some (post ad [Ev_TimerCancel false i]).
Proof.
  intros HI Hm Ht Hi H0 Hal. pose proof HI as ((HL & HC) & _).
  assert (Nat.leb MAX_LEN_OF_MAC_TABLE w = false) as Ew
    by (apply Nat.leb_gt; rewrite <- HL; by eapply lookup_lt_Some).
  destruct (rec_slot_entry ad w m t i HI Hm Hi H0) as (e & He & _ & Ho & Hst & _).
  unfold BARecSessionTearDown. rewrite Ew, Hm. cbn. rewrite Hi. cbn.
  rewrite (proj2 (Nat.eqb_neq i O)), He by done. cbn. unfold rec_own in Ho. injection Ho as _ Ht0.
  by rewrite Hst, Ht0, Nat.eqb_refl, Hal.
Qed.

(** * Release of the reordering resources *)

Definition frees (e : BA_REC_ENTRY) : list ba_event :=
  map (λ b, Ev_rx (Free (pPacket b))) (chain (list_ e)).

Lemma release_loop_all : ∀ n s,
  wf_list (list_ (entry s)) → length (chain (list_ (entry s))) = n →
  entry (release_loop n s) = set_list (entry s) (mk_list [] 0) ∧
  trace (release_loop n s) = trace s ++ map (λ b, Free (pPacket b)) (chain (list_ (entry s))).
Proof.
  unfold wf_list. induction n as [|n IH]; intros [[? ? ? ? ? ? ? ? ? [c q]] p tr] Hw Hl; simpl in *.
  - destruct c; [|done]. simpl in *. subst. unfold set_list. simpl. by rewrite app_nil_r.
  - destruct c as [|b c]; [done|]. unfold ba_reordering_mpdu_dequeue, ba_dequeue. simpl.
    replace (q =? 0) with false by lia. simpl in *.
    match goal with |- context [release_loop n ?s'] => destruct (IH s') as [H1 H2] end; simpl; [lia|lia|].
    rewrite H1, H2. simpl. by rewrite <- app_assoc.
Qed.

Definition lists_ok (e : BA_REC_ENTRY) : Prop :=
  wf_list (list_ e) ∧ (rec_free e = true → list_ e = mk_list [] 0).

Lemma release_from : ∀ n k ad,
  Forall lists_ok (BARecEntry ad) → (k + n = length (BARecEntry ad))%nat →
  ∃ ad', release_entries (seq k n) ad = Some ad' ∧
    events ad' = events ad ++ concat (map frees (drop k (BARecEntry ad))) ∧
    take k (BARecEntry ad') = take k (BARecEntry ad) ∧
    Forall (λ e, list_ e = mk_list [] 0) (drop k (BARecEntry ad')) ∧ BAOriEntry ad' = BAOriEntry ad.
Proof.
  induction n as [|n IH]; intros k ad Hok Hlen.
  { exists ad. rewrite !drop_ge by lia. rewrite app_nil_r. repeat split; done. }
  destruct (lookup_lt_is_Some_2 (BARecEntry ad) k) as [e He]; [lia|].
  pose proof (Forall_lookup_1 _ _ _ _ Hok He) as [Hwf Hfree].
  cbn [seq release_entries]. rewrite He. cbn.
  assert (∃ ad1, (if rec_free e then Some ad else run_rec ad k (release_loop (length (chain (list_ e)))))
      = Some ad1 ∧ BARecEntry ad1 = <[k := set_list e (mk_list [] 0)]> (BARecEntry ad) ∧
    events ad1 = events ad ++ frees e ∧ BAOriEntry ad1 = BAOriEntry ad) as (ad1 & -> & HT & HE & HO).
  { destruct (rec_free e) eqn:Ef.
    - exists ad. unfold frees. rewrite Hfree by done. rewrite app_nil_r. split; [done|]. split; [|done].
      symmetry. apply list_insert_id. rewrite He. f_equal. destruct e. simpl in *. unfold set_list. simpl.
      by rewrite Hfree.
    - unfold run_rec. rewrite He. cbn. eexists. split; [done|]. cbn.
      destruct (release_loop_all (length (chain (list_ e))) (mk_state e (pool ad) [])) as [H1 H2]; [done..|].
      rewrite H1, H2. simpl. unfold frees. by rewrite map_map. }
  cbn. destruct (IH (S k) ad1) as (ad' & H1 & H2 & H3 & H4 & H5).
  { rewrite HT. apply Forall_insert; [done|]. by split. }
  { rewrite HT, length_insert. lia. }
  assert (Hk : BARecEntry ad' !! k = Some (set_list e (mk_list [] 0))).
  { rewrite <- (lookup_take_lt _ (S k)) by lia. rewrite H3, lookup_take_lt, HT by lia.
    apply list_lookup_insert_eq. lia. }
  exists ad'. split; [done|]. split; [|split; [|split]].
  - rewrite H2, HE, HT, drop_insert_lt, (drop_S _ _ _ He) by lia. simpl. by rewrite <- app_assoc.
  - apply (f_equal (take k)) in H3. rewrite !take_take in H3.
    replace (k `min` S k)%nat with k in H3 by lia. rewrite H3, HT. by rewrite take_insert_ge by lia.
  - rewrite (drop_S _ _ _ Hk). by constructor.
  - by rewrite H5.
Qed.

(** Shutting the reordering down frees every packet still buffered, each
    exactly once and in order, and leaves every list empty. *)
Theorem resource_release_frees ad (HI : ba_inv ad) :
  ∃ ad', ba_reordering_resource_release ad = Some ad' ∧
    events ad' = events ad ++ concat (map frees (BARecEntry ad)) ∧
    Forall (λ e, list_ e = mk_list [] 0) (BARecEntry ad').
Proof.
  destruct HI as (_ & HR & _). unfold ba_reordering_resource_release.
  destruct (release_from MAX_LEN_OF_BA_REC_TABLE O ad) as (ad' & -> & H2 & _ & H4 & _).
  - apply Forall_lookup. intros i e He.
    destruct (tab_entry _ _ _ _ _ _ _ _ _ _ _ HR i e He) as [[H1 H2]|(H1 & H2 & _)].
    + split; [by rewrite H2|done].
    + split; [done|]. unfold rec_free. by rewrite H1.
  - simpl. symmetry. apply (tab_len _ _ _ _ _ _ _ _ _ _ _ HR).
  - eexists. split; [done|]. by rewrite !drop_0 in *.
Qed.

Lemma resource_release_frees_witness :
  ∃ ad', ba_reordering_resource_release demo_buffered = Some ad' ∧
    events ad' = events demo_buffered ++ [Ev_rx (Free 101)].
Proof.
  destruct (resource_release_frees demo_buffered demo_buffered_inv) as (ad' & H1 & H2 & _).
  exists ad'. split; [exact H1|]. rewrite H2. f_equal.
Defined.
