(* ===== verification/BaMlme.v ===== *)
(** The way of a block-ack action frame through the engine: the receive queue
    (src/common/mlme.c), the action state machine (src/common/action.c) and
    the session handlers (src/common/ba_action.c) put together. *)

From S2P Require Import Prelude Mlme MlmeProofs MlmeClaims BaReorder BaSession BaSessionClaims.

#[local] Arguments MlmeDequeue : simpl never.

Section ba_engine.
Context (cfg : ba_cfg) (al : allocs).
Context (other : STATE_MACHINE_FUNC → nat → RTMP_ADAPTER (option ba_adapter) → RTMP_ADAPTER (option ba_adapter)).
Context (cntl : nat → RTMP_ADAPTER (option ba_adapter) → RTMP_ADAPTER (option ba_adapter)).
Context (restart : RTMP_ADAPTER (option ba_adapter) → RTMP_ADAPTER (option ba_adapter)).

(** The action for block-ack frames on the element of a slot; the session
    state is [None] after a fault of the handlers. *)
Definition ba_act (f : STATE_MACHINE_FUNC) (i : nat) (p : RTMP_ADAPTER (option ba_adapter))
    : RTMP_ADAPTER (option ba_adapter) :=
  match f with
  | f_PeerBAAction =>
      mk_pAd (Mlme p) (Flags p) (ate_on p)
        (e ← Entry (Queue (Mlme p)) !! i; ad ← rest p; PeerBAAction cfg al ad e)
  | _ => other f i p
  end.

(** An action frame of the block-ack category. *)
Definition ba_frame (Msg : list Z) : Prop :=
  fc_Type Msg ≠ FC_TYPE_DATA ∧ fc_SubType Msg = 13 ∧ octet Msg 0 = MT2_PEER_BA_CATE.

Lemma ba_frame_type Msg :
  ba_frame Msg → MsgTypeSubst Msg = Some (ACTION_STATE_MACHINE, MT2_PEER_BA_CATE).
Proof.
  intros (Ht & Hs & Ho). unfold MsgTypeSubst. rewrite (proj2 (Z.eqb_neq _ _) Ht), Hs, Ho. done.
Qed.

Lemma act_machine_ba arr :
  Z.of_nat (length arr) = MAX_ACT_STATE * MAX_ACT_MSG →
  StateMachinePerformAction (ActionStateMachineInit arr) MT2_PEER_BA_CATE
    (CurrState (ActionStateMachineInit arr)) = Some (Some f_PeerBAAction).
Proof.
  intros Hl. unfold ActionStateMachineInit. rewrite set_actions_CurrState. cbn [CurrState StateMachineInit].
  match goal with |- context [set_actions _ ?l] =>
    rewrite (perform_table _ MAX_ACT_STATE MAX_ACT_MSG (λ St Msg, find_action l f_Drop St Msg)) end;
    [reflexivity|reflexivity| |done|done].
  apply (set_actions_table _ _ _ _ (λ _ _, f_Drop)); [done|done| |].
  - apply init_table; [done|done|]. by rewrite <- Hl, Nat2Z.id.
  - apply actions_check. vm_compute. reflexivity.
Qed.

Lemma stops_false p : handler_stops p = false → ate_on p = false ∧ halted (Flags (W := option ba_adapter) p) = false.
Proof.
  unfold handler_stops, halted, RTMP_TEST_FLAG. rewrite Z.land_lor_distr_r, !orb_false_iff, !negb_false_iff, !Z.eqb_eq.
  intros ((((_ & ->) & ->) & _) & ->). done.
Qed.

(** One turn of the handler on such an element at the head. *)
Lemma ba_turn p arr e :
  Entry (Queue (Mlme p)) !! Head (Queue (Mlme p)) = Some e →
  ACTION_STATE_MACHINE = el_Machine e → MT2_PEER_BA_CATE = el_MsgType e →
  Z.of_nat (length arr) = MAX_ACT_STATE * MAX_ACT_MSG →
  ActMachine (Mlme p) = ActionStateMachineInit arr →
  handler_turn ba_act cntl restart p =
  Some (mk_pAd (set_Queue (release_elem (Head (Queue (Mlme p))) (snd (MlmeDequeue (Queue (Mlme p))))) (Mlme p))
    (Flags p) (ate_on p) (rest p ≫= λ ad, PeerBAAction cfg al ad e)).
Proof.
  intros He Em Et Harr Ha. unfold handler_turn.
  assert (Ed : MlmeDequeue (Queue (Mlme p)) =
    (Head (Queue (Mlme p)), snd (MlmeDequeue (Queue (Mlme p))))) by done.
  rewrite Ed. set (q := snd _). change (Entry q) with (Entry (Queue (Mlme p))). rewrite He.
  cbn [mbind option_bind]. unfold dispatch. rewrite <- Em, <- Et.
  change (MT2_PEER_BA_CATE =? MT2_RESET_CONF) with false.
  change (ACTION_STATE_MACHINE =? MLME_CNTL_STATE_MACHINE) with false.
  set (p1 := set_Mlme _ _).
  change (machine_of ACTION_STATE_MACHINE (Mlme p1)) with (Some (ActMachine (Mlme p))).
  cbv iota beta. rewrite Ha, act_machine_ba by done.
  cbn [mbind option_bind ba_act Mlme Flags ate_on rest set_Mlme set_Queue Queue p1].
  change (Entry q) with (Entry (Queue (Mlme p))). by rewrite He.
Qed.

(** A block-ack action frame that arrives on an idle engine is queued and
    the next run of the handler gives it, with its bytes, length and peer, to
    the block-ack handler exactly once: afterwards the ring is empty and free
    again and the session state is what PeerBAAction makes of that element. *)
Theorem ba_frame_reaches_session p arr ri n Msg
    (Hp : engine_ok p None) (Hb : bRunning (Mlme p) = false) (He : pending (Queue (Mlme p)) = [])
    (Hs : handler_stops p = false) (Harr : Z.of_nat (length arr) = MAX_ACT_STATE * MAX_ACT_MSG)
    (Ha : ActMachine (Mlme p) = ActionStateMachineInit arr) (Hn : n ≤ 1600) (Hf : ba_frame Msg) :
  ∃ q p' e,
    MlmeEnqueueForRecv (Flags p) (ate_on p) (Queue (Mlme p)) ri n Msg = Some (true, q) ∧
    MlmeHandler ba_act cntl restart 1 (set_Mlme (set_Queue q (Mlme p)) p) = Done p' ∧
    carries e (Received ri n Msg) ∧ rest p' = (rest p ≫= λ ad, PeerBAAction cfg al ad e) ∧
    queue_wf (Queue (Mlme p')) None ∧ pending (Queue (Mlme p')) = [] ∧ bRunning (Mlme p') = false.
Proof.
  destruct Hp as (Hw & Hm & _).
  assert (HR : refines (Queue (Mlme p), None) ([], None)).
  { split; [done|]. rewrite He. split; constructor. }
  pose proof (ba_frame_type Msg Hf) as Ht.
  destruct (stops_false p Hs) as [Ea Eh].
  destruct (refines_step (Op_Recv (Flags p) (ate_on p) ri n Msg) _ _ true ([Received ri n Msg], None) HR)
    as ([q fl] & Eq & HR').
  { simpl. rewrite Ea, Eh, Ht. simpl. by replace (1600 <? n) with false by lia. }
  cbn [queue_step] in Eq. apply bind_Some in Eq as ([b q1] & Eq & [= -> -> <-]).
  pose proof (refines_length _ _ _ _ HR') as En. destruct HR' as (Hwq & HF & _). simpl in En.
  destruct (dequeue_wf q Hwq) as (e & Hhd & Ep & Ei & Ee & En' & Hw'); [lia|].
  rewrite Ep in HF. apply Forall2_cons_1 in HF as [Hc HF].
  pose proof Hc as (Hty & _). rewrite Ht in Hty. injection Hty as Emach Emt.
  destruct (release_wf _ _ Hw') as [Hw3 Ep3].
  apply Forall2_nil_inv_r in HF. rewrite HF in Ep3.
  exists q. eexists. exists e. split; [done|]. split.
  - unfold MlmeHandler. cbn [set_Mlme Mlme set_Queue bRunning]. rewrite Hb. cbn [handler_loop].
    set (p0 := set_Mlme (set_bRunning true _) _).
    assert (E0 : MlmeQueueEmpty (Queue (Mlme p0)) || handler_stops p0 = false).
    { unfold MlmeQueueEmpty. simpl. rewrite <- En. exact Hs. }
    rewrite E0, (ba_turn p0 arr e) by done. cbv iota.
    match goal with |- context [MlmeQueueEmpty ?q2] =>
      assert (MlmeQueueEmpty q2 = true) as -> end; [|done].
    change ((Num (snd (MlmeDequeue q)) =? 0) = true). rewrite En'. lia.
  - by conjs.
Qed.
End ba_engine.

(** The engine after initialisation, with the session tables of the demo. *)
Definition ba_engine : RTMP_ADAPTER (option ba_adapter) :=
  mk_pAd (MlmeInit blank_mlme) 0 false (Some (new_adapter demo_peers 4)).
Definition addba_frame : list Z := 0xd0 :: drop 1 (demo_req 5 32).

Lemma ba_frame_reaches_session_witness :
  ∃ q p' e,
    MlmeEnqueueForRecv 0 false (Queue (Mlme ba_engine)) demo_ri 33 addba_frame = Some (true, q) ∧
    MlmeHandler (ba_act demo_cfg demo_al (λ _ _ p, p)) (λ _ p, p) (λ p, p) 1
      (set_Mlme (set_Queue q (Mlme ba_engine)) ba_engine) = Done p' ∧
    carries e (Received demo_ri 33 addba_frame) ∧
    rest p' = (rest ba_engine ≫= λ ad, PeerBAAction demo_cfg demo_al ad e) ∧
    queue_wf (Queue (Mlme p')) None ∧ pending (Queue (Mlme p')) = [] ∧ bRunning (Mlme p') = false.
Proof.
  apply (ba_frame_reaches_session demo_cfg demo_al (λ _ _ p, p) (λ _ p, p) (λ p, p) ba_engine (replicate 28 None)
    demo_ri 33 addba_frame); try reflexivity; [|lia|split; [discriminate|split; reflexivity]].
  destruct (init_wf blank_queue) as [Hw Ep]; [reflexivity|].
  split; [exact Hw|]. split; [exact blank_machines|].
  change (Queue (Mlme ba_engine)) with (MlmeQueueInit blank_queue). rewrite Ep. constructor.
Defined.
