(* ===== verification/CipherKey.v ===== *)
(** The key entry and the lengths shared by the software ciphers:
    src/include/wpa_cmm.h and src/include/dot11i_wpa.h. *)

From S2P Require Import Prelude.

(** [struct _CIPHER_KEY] *)
Record CIPHER_KEY := mk_key {
  Key : list Z;
  TxMic : list Z;
  RxMic : list Z;
  TxTsc : list Z;
  RxTsc : list Z;
  CipherAlg : Z;
  KeyLen : Z;
  BssId : list Z;
  KeyType : Z
}.

(** The array sizes of the C type. *)
Definition key_wf (k : CIPHER_KEY) : Prop :=
  length (Key k) = 16%nat ∧ bytes (Key k) ∧ length (RxMic k) = 8%nat ∧ bytes (RxMic k) ∧
  length (TxMic k) = 8%nat ∧ bytes (TxMic k) ∧ byte (KeyLen k).

Definition CIPHER_WEP64 : Z := 1.
Definition CIPHER_WEP128 : Z := 2.
Definition CIPHER_TKIP : Z := 3.
Definition CIPHER_AES : Z := 4.

Definition LEN_WEP_TSC : nat := 3.
Definition LEN_WEP_IV_HDR : nat := 4.
Definition LEN_ICV : nat := 4.
Definition LEN_TKIP_IV_HDR : nat := 8.
Definition LEN_TKIP_MIC : nat := 8.
Definition LEN_CCMP_HDR : nat := 8.
Definition LEN_CCMP_MIC : nat := 8.
Definition LEN_PN : nat := 6.

(** The bytes [off, off + len) lie inside the buffer. *)
Definition in_buf (mem : list Z) (off len : nat) : bool := Nat.leb (off + len) (length mem).

Definition slice (mem : list Z) (off len : nat) : list Z := take len (drop off mem).

Lemma bytes_slice l o n : bytes l → bytes (slice l o n).
Proof. intros. unfold slice. by apply bytes_take, bytes_drop. Qed.
