(* ===== verification/MacTable.v ===== *)
(** The table of the peers: src/mgmt/mgmt_entrytb.c, MacTableLookup,
    MacTableInsertEntry, MacTableDeleteEntry and MacTableReset in the station
    build, and the end of StaUpdateMacTableEntry, which sets the security state
    of the access point's entry and enters it (lines 301-345).

    A pointer to an entry is its index in [Content]; a hash bucket is the head
    of a chain through [pNext].  A walk along a chain has fuel for every entry
    of the table, and [None] is a walk that has not ended by then.  Timers and
    the lock are not modelled; the calls to the chip and to the block-ack
    sessions are events. *)

From stdpp Require Import gmap.
From S2P Require Import Prelude Mlme BaReorder BaSession CipherKey.

(** * Data *)

Definition HASH_TABLE_SIZE : nat := 256.
Definition MCAST_WCID : nat := 0.
Definition BSSID_WCID : nat := 1.
Definition ENTRY_NONE : Z := 0.
Definition ENTRY_CLIENT : Z := 1.
Definition ENTRY_APCLI : Z := 3.
Definition WPA_802_1X_PORT_SECURED : Z := 1.
Definition WPA_802_1X_PORT_NOT_SECURED : Z := 2.
Definition EAPOL_START_DISABLE : Z := 0.
Definition ENTRY_NOT_FOUND : Z := 0xFF.
Definition MAC_TABLE_ASSOC_TIMEOUT : Z := 5.

(** The enumerations of include/oid.h, include/mlme.h and include/wpa_cmm.h, as
    far as they are compared or assigned. *)
Definition Ndis802_11AuthModeWPA : Z := 3.
Definition Ndis802_11PrivFilterAcceptAll : Z := 0.
Definition Ndis802_11PrivFilter8021xWEP : Z := 1.
Definition SST_ASSOC : Z := 2.
Definition AS_AUTH_OPEN : Z := 1.
Definition AS_NOTUSE : Z := 0.
Definition AS_INITPSK : Z := 7.

(** The "WPA/WPA2 4-way database" of an entry. *)
Record wpa_db := mk_wpa {
  ANonce : list Z;
  SNonce : list Z;
  R_Counter : list Z;
  PTK : list Z;
  WpaState : Z;
  PairwiseKey : CIPHER_KEY
}.

(** [NdisZeroMemory] of a key *)
Definition zero_key : CIPHER_KEY :=
  mk_key (zeros 16) (zeros 8) (zeros 8) (zeros 16) (zeros 16) 0 0 (zeros 6) 0.
Definition zero_wpa : wpa_db := mk_wpa (zeros 32) (zeros 32) (zeros 8) (zeros 64) 0 zero_key.

(** [MAC_TABLE_ENTRY]: the links and what the functions below fill in from
    their arguments and the settings; the statistics, the power-save state and
    the retry counter of the access-point side are left out. *)
Record MAC_TABLE_ENTRY := mk_entry {
  EntryType : Z;
  Addr : list Z;
  pNext : option nat;
  wcid : nat;
  Aid : Z;
  apidx : Z;
  bssid : list Z;
  AuthMode : Z;
  WepStatus : Z;
  PrivacyFilter : Z;
  GTKState : Z;
  PortSecured : Z;
  PMKID_CacheIdx : Z;
  Sst : Z;
  AuthState : Z;
  AssocDeadLine : Z;
  EnqueueEapolStartTimerRunning : Z;
  wpa : wpa_db
}.

(** [NdisZeroMemory(pEntry, sizeof(MAC_TABLE_ENTRY))] *)
Definition zero_entry : MAC_TABLE_ENTRY :=
  mk_entry 0 (zeros 6) None 0 0 0 (zeros 6) 0 0 0 0 0 0 0 0 0 0 zero_wpa.

Inductive mt_event :=
| Ev_RemovePairwiseKey (w : nat)
| Ev_StaEntryAdd (w : nat) (a : list Z)
| Ev_BASessionTearDownALL (w : nat)
| Ev_StaEntryReset (w : nat)
| Ev_UpdateProtect.

(** [MAC_TABLE] *)
Record MAC_TABLE := mk_table {
  Hash : list (option nat);
  Entries : list MAC_TABLE_ENTRY;
  Size : Z;
  mt_events : list mt_event
}.

Definition set_Entries (C : list MAC_TABLE_ENTRY) (T : MAC_TABLE) : MAC_TABLE :=
  mk_table (Hash T) C (Size T) (mt_events T).
Definition set_Hash (H : list (option nat)) (T : MAC_TABLE) : MAC_TABLE :=
  mk_table H (Entries T) (Size T) (mt_events T).
Definition mt_post (l : list mt_event) (T : MAC_TABLE) : MAC_TABLE :=
  mk_table (Hash T) (Entries T) (Size T) (mt_events T ++ l).

Definition set_pNext (p : option nat) (e : MAC_TABLE_ENTRY) : MAC_TABLE_ENTRY :=
  mk_entry (EntryType e) (Addr e) p (wcid e) (Aid e) (apidx e) (bssid e) (AuthMode e) (WepStatus e)
    (PrivacyFilter e) (GTKState e) (PortSecured e) (PMKID_CacheIdx e) (Sst e) (AuthState e)
    (AssocDeadLine e) (EnqueueEapolStartTimerRunning e) (wpa e).

Definition MAC_ADDR_HASH (a : list Z) : Z :=
  Z.lxor (Z.lxor (Z.lxor (Z.lxor (Z.lxor (aget a 0) (aget a 1)) (aget a 2)) (aget a 3)) (aget a 4)) (aget a 5).
Definition MAC_ADDR_HASH_INDEX (a : list Z) : nat :=
  Z.to_nat (Z.land (MAC_ADDR_HASH a) (Z.of_nat HASH_TABLE_SIZE - 1)).

Definition IS_ENTRY_NONE (e : MAC_TABLE_ENTRY) : bool := EntryType e =? ENTRY_NONE.
Definition IS_ENTRY_APCLI (e : MAC_TABLE_ENTRY) : bool := EntryType e =? ENTRY_APCLI.
Definition IS_ENTRY_CLIENT (e : MAC_TABLE_ENTRY) : bool := EntryType e =? ENTRY_CLIENT.
Definition MAC_ADDR_EQUAL (a b : list Z) : bool := bool_decide (take 6 a = take 6 b).

(** Enough steps for a chain through every entry. *)
Definition walk_fuel : nat := S MAX_LEN_OF_MAC_TABLE.

(** * Lookup *)

Fixpoint lookup_loop (fuel : nat) (C : list MAC_TABLE_ENTRY) (p : option nat) (pAddr : list Z)
    : option (option nat) :=
  match fuel with
  | O => None
  | S fuel =>
      match p with
      | None => Some None
      | Some i =>
          e ← C !! i;
          if IS_ENTRY_NONE e then Some p
          else if MAC_ADDR_EQUAL (Addr e) pAddr then Some p
          else lookup_loop fuel C (pNext e) pAddr
      end
  end.

Definition MacTableLookup (T : MAC_TABLE) (pAddr : list Z) : option (option nat) :=
  head ← Hash T !! MAC_ADDR_HASH_INDEX pAddr;
  lookup_loop walk_fuel (Entries T) head pAddr.

(** * Insertion *)

Fixpoint find_tail (fuel : nat) (C : list MAC_TABLE_ENTRY) (i : nat) : option nat :=
  match fuel with
  | O => None
  | S fuel =>
      e ← C !! i;
      match pNext e with
      | None => Some i
      | Some j => find_tail fuel C j
      end
  end.

(** Entry [n] into the chain of [pAddr], at its end. *)
Definition hash_append (T : MAC_TABLE) (pAddr : list Z) (n : nat) : option MAC_TABLE :=
  let HashIdx := MAC_ADDR_HASH_INDEX pAddr in
  head ← Hash T !! HashIdx;
  match head with
  | None => Some (set_Hash (<[HashIdx := Some n]> (Hash T)) T)
  | Some i =>
      t ← find_tail walk_fuel (Entries T) i;
      Some (set_Entries (alter (set_pNext (Some n)) t (Entries T)) T)
  end.

(** The station's settings the entry is filled from. *)
Record sta_cfg := mk_stacfg { bss_infra : bool; cfg_AuthMode : Z; cfg_WepStatus : Z }.

Definition FirstWcid (c : sta_cfg) : nat := if bss_infra c then 2%nat else 1%nat.

Fixpoint first_none (i : nat) (l : list MAC_TABLE_ENTRY) : option nat :=
  match l with
  | [] => None
  | e :: l => if IS_ENTRY_NONE e then Some i else first_none (S i) l
  end.

(** The entry [i] after its initialisation, for [OPMODE_STA] (the [CleanAll]
    branch zeroes it a second time). *)
Definition new_entry (c : sta_cfg) (i : nat) (pAddr : list Z) (ap : Z) : MAC_TABLE_ENTRY :=
  mk_entry ENTRY_CLIENT (take 6 pAddr) None i (u16 (Z.of_nat i)) ap (take 6 pAddr) (cfg_AuthMode c)
    (cfg_WepStatus c) 0 0 WPA_802_1X_PORT_NOT_SECURED ENTRY_NOT_FOUND 0 0 MAC_TABLE_ASSOC_TIMEOUT
    EAPOL_START_DISABLE zero_wpa.

Definition MacTableInsertEntry (c : sta_cfg) (T : MAC_TABLE) (pAddr : list Z) (ap : Z)
    : option (option nat * MAC_TABLE) :=
  if Z.of_nat MAX_LEN_OF_MAC_TABLE <=? Size T then Some (None, T)
  else
    match first_none (FirstWcid c) (drop (FirstWcid c) (Entries T)) with
    | None => Some (None, T)
    | Some i =>
        let T := set_Entries (<[i := new_entry c i pAddr ap]> (Entries T)) T in
        let T := mk_table (Hash T) (Entries T) (u16 (Size T + 1))
                   (mt_events T ++ [Ev_RemovePairwiseKey i; Ev_StaEntryAdd i (take 6 pAddr)]) in
        T ← hash_append T pAddr i;
        Some (Some i, T)
    end.

(** * Deletion *)

(** The walk that takes entry [n] out of chain [h]; an entry that is not in
    it leaves the chain as it is. *)
Fixpoint unlink_loop (fuel : nat) (T : MAC_TABLE) (h n : nat) (prev : option nat) (probe : nat)
    : option MAC_TABLE :=
  match fuel with
  | O => None
  | S fuel =>
      e ← Entries T !! probe;
      if Nat.eqb probe n then
        match prev with
        | None => Some (set_Hash (<[h := pNext e]> (Hash T)) T)
        | Some p => Some (set_Entries (alter (set_pNext (pNext e)) p (Entries T)) T)
        end
      else
        match pNext e with
        | None => Some T
        | Some next => unlink_loop fuel T h n (Some probe) next
        end
  end.

(** The last changes to the entry; its [pNext] stays. *)
Definition cleared_entry (e : MAC_TABLE_ENTRY) : MAC_TABLE_ENTRY :=
  mk_entry ENTRY_NONE (zeros 6) (pNext e) (wcid e) (Aid e) (apidx e) (bssid e) (AuthMode e) (WepStatus e)
    (PrivacyFilter e) (GTKState e) WPA_802_1X_PORT_NOT_SECURED (PMKID_CacheIdx e) (Sst e) (AuthState e)
    (AssocDeadLine e) EAPOL_START_DISABLE (wpa e).

Definition MacTableDeleteEntry (T : MAC_TABLE) (w : nat) (pAddr : list Z) : option (bool * MAC_TABLE) :=
  if Nat.leb MAX_LEN_OF_MAC_TABLE w then Some (false, T)
  else
    let HashIdx := MAC_ADDR_HASH_INDEX pAddr in
    e ← Entries T !! w;
    T ← (if negb (IS_ENTRY_NONE e) && MAC_ADDR_EQUAL (Addr e) pAddr then
           let T := mt_post [Ev_BASessionTearDownALL (wcid e); Ev_StaEntryReset w] T in
           head ← Hash T !! HashIdx;
           T ← (match head with
                | None => Some T
                | Some i => unlink_loop walk_fuel T HashIdx w None i
                end);
           Some (mk_table (Hash T) (alter cleared_entry w (Entries T)) (u16 (Size T - 1)) (mt_events T))
         else Some T);
    Some (true, if Size T =? 0 then mt_post [Ev_UpdateProtect] T else T).

(** One turn of the reset loop. *)
Definition reset_turn (T : MAC_TABLE) (i : nat) : option MAC_TABLE :=
  e ← Entries T !! i;
  let T := if IS_ENTRY_CLIENT e
           then set_Entries (alter (λ e, mk_entry (EntryType e) (Addr e) (pNext e) (wcid e) (Aid e) (apidx e)
                  (bssid e) (AuthMode e) (WepStatus e) (PrivacyFilter e) (GTKState e) (PortSecured e)
                  (PMKID_CacheIdx e) (Sst e) (AuthState e) (AssocDeadLine e) EAPOL_START_DISABLE (wpa e)) i (Entries T)) T
           else T in
  '(_, T) ← MacTableDeleteEntry T i (Addr e);
  Some T.

Fixpoint reset_loop (T : MAC_TABLE) (l : list nat) : option MAC_TABLE :=
  match l with
  | [] => Some T
  | i :: l => T ← reset_turn T i; reset_loop T l
  end.

Definition MacTableReset (T : MAC_TABLE) : option MAC_TABLE :=
  reset_loop T (seq 1 (MAX_LEN_OF_MAC_TABLE - 1)).

(** * The access point's entry

    The end of StaUpdateMacTableEntry: the security state of the entry, and in
    infrastructure mode entry 1 goes to the end of the chain of [Bssid].  The
    replay counter was zeroed on entry to the function (line 146); the rates
    and capabilities computed in between are left out. *)
Definition sta_secure (c : sta_cfg) (e : MAC_TABLE_ENTRY) : MAC_TABLE_ENTRY :=
  let w := wpa e in
  let wpa_mode := negb (cfg_AuthMode c <? Ndis802_11AuthModeWPA) in
  mk_entry (EntryType e) (Addr e) (pNext e) (wcid e) (Aid e) (apidx e) (bssid e) (cfg_AuthMode c)
    (cfg_WepStatus c) (if wpa_mode then Ndis802_11PrivFilter8021xWEP else Ndis802_11PrivFilterAcceptAll)
    (GTKState e) WPA_802_1X_PORT_SECURED (PMKID_CacheIdx e) SST_ASSOC AS_AUTH_OPEN (AssocDeadLine e)
    (EnqueueEapolStartTimerRunning e)
    (mk_wpa (ANonce w) (SNonce w) (zeros 8) (PTK w) (if wpa_mode then AS_INITPSK else AS_NOTUSE)
       (PairwiseKey w)).

(** [Addr], [Aid], [wcid] and [SET_ENTRY_CLIENT] *)
Definition sta_identify (Bssid : list Z) (e : MAC_TABLE_ENTRY) : MAC_TABLE_ENTRY :=
  mk_entry ENTRY_CLIENT (take 6 Bssid) (pNext e) BSSID_WCID (Z.of_nat BSSID_WCID) (apidx e) (bssid e)
    (AuthMode e) (WepStatus e) (PrivacyFilter e) (GTKState e) (PortSecured e) (PMKID_CacheIdx e) (Sst e)
    (AuthState e) (AssocDeadLine e) (EnqueueEapolStartTimerRunning e) (wpa e).

Definition sta_enter_ap (c : sta_cfg) (T : MAC_TABLE) (Bssid : list Z) : option MAC_TABLE :=
  let T := set_Entries (alter (sta_secure c) BSSID_WCID (Entries T)) T in
  if negb (bss_infra c) then Some T
  else
    T ← hash_append T Bssid BSSID_WCID;
    Some (mk_table (Hash T) (alter (sta_identify Bssid) BSSID_WCID (Entries T)) (u16 (Size T + 1)) (mt_events T)).
