(* ===== verification/MacTableProofs.v ===== *)
(** The hash chains of the peer table: each bucket is a duplicate-free list of
    the entries in use whose address hashes to it, and the table is a finite
    map from addresses to entries. *)

From stdpp Require Import gmap.
From S2P Require Import Prelude Mlme BaReorder BaSession MacTable.

(** * Chains *)

(** From [p] the links pass through [l] and end. *)
Fixpoint chain (C : list MAC_TABLE_ENTRY) (p : option nat) (l : list nat) : Prop :=
  match l with
  | [] => p = None
  | i :: l => p = Some i ∧ ∃ e, C !! i = Some e ∧ chain C (pNext e) l
  end.

(** A change outside the chain, or one that keeps the links of its entries. *)
Lemma chain_frame C C' p l :
  (∀ i e, i ∈ l → C !! i = Some e → ∃ e', C' !! i = Some e' ∧ pNext e' = pNext e) →
  chain C p l → chain C' p l.
Proof.
  revert p. induction l as [|i l IH]; intros p H; simpl; [done|].
  intros (-> & e & He & Hc). split; [done|]. destruct (H i e) as (e' & He' & Hn); [by left|done|].
  exists e'. split; [done|]. rewrite Hn. apply IH; [|done]. intros j x Hj. apply H. by right.
Qed.

Lemma chain_insert C p l n e : n ∉ l → chain C p l → chain (<[n := e]> C) p l.
Proof.
  intros Hn. apply chain_frame. intros i x Hi Hx. exists x. split; [|done].
  rewrite list_lookup_insert_ne; [done|]. by intros ->.
Qed.

Lemma chain_alter_out C p l n f : n ∉ l → chain C p l → chain (alter f n C) p l.
Proof.
  intros Hn. apply chain_frame. intros i x Hi Hx. exists x. split; [|done].
  rewrite list_lookup_alter_ne; [done|]. by intros ->.
Qed.

Lemma chain_alter_keep C p l n f :
  (∀ e, pNext (f e) = pNext e) → chain C p l → chain (alter f n C) p l.
Proof.
  intros Hf. apply chain_frame. intros i x Hi Hx. destruct (decide (n = i)) as [->|].
  - rewrite list_lookup_alter_eq, Hx. simpl. eauto.
  - rewrite list_lookup_alter_ne by done. eauto.
Qed.

Lemma chain_lookup C p l i : chain C p l → i ∈ l → is_Some (C !! i).
Proof.
  revert p. induction l as [|j l IH]; intros p H Hi; [by apply not_elem_of_nil in Hi|].
  destruct H as (-> & e & He & Hc). apply elem_of_cons in Hi as [->|Hi]; [by eexists|]. eauto.
Qed.

(** Chains have room for each index at most once. *)
Lemma chain_short (l : list nat) n : NoDup l → (∀ i, i ∈ l → (i < n)%nat) → (length l ≤ n)%nat.
Proof.
  intros Hd Hl. rewrite <- (length_seq n 0). apply submseteq_length, NoDup_submseteq; [done|].
  intros i Hi. apply elem_of_seq. specialize (Hl i Hi). lia.
Qed.

(** The last entry of a chain, and a new one behind it. *)
Lemma find_tail_spec C l : ∀ fuel i,
  (length l < fuel)%nat → chain C (Some i) (i :: l) →
  ∃ t l', i :: l = l' ++ [t] ∧ find_tail fuel C i = Some t.
Proof.
  induction l as [|j l IH]; intros [|fuel] i Hf H; simpl in Hf; try lia;
    destruct H as (_ & e & He & Hc); simpl; rewrite He; simpl.
  - simpl in Hc. rewrite Hc. by exists i, [].
  - pose proof Hc as (Hj & _). rewrite Hj in *. destruct (IH fuel j) as (t & l' & Hl & Ht); [lia|done|].
    exists t, (i :: l'). by rewrite Hl.
Qed.

Lemma chain_snoc C p l t n e :
  chain C p (l ++ [t]) → NoDup (l ++ [t]) → n ∉ l ++ [t] → C !! n = Some e → pNext e = None →
  chain (alter (set_pNext (Some n)) t C) p (l ++ [t] ++ [n]).
Proof.
  revert p. induction l as [|i l IH]; intros p H Hd Hn Hne Hnn; simpl in *.
  - destruct H as (-> & x & Hx & Hc). split; [done|]. exists (set_pNext (Some n) x).
    split; [by rewrite list_lookup_alter_eq, Hx|]. split; [done|]. exists e. split; [|done].
    rewrite list_lookup_alter_ne; [done|]. intros ->. apply Hn. by left.
  - destruct H as (-> & x & Hx & Hc). split; [done|]. apply NoDup_cons in Hd as [Hi Hd].
    apply not_elem_of_cons in Hn as [Hni Hn].
    exists x. split; [|by apply IH].
    rewrite list_lookup_alter_ne; [done|]. intros ->. apply Hi, elem_of_app. right. by left.
Qed.

(** Taking an entry out: what the walk does to the entry or bucket before it. *)
Definition relink (T : MAC_TABLE) (h : nat) (prev : option nat) (next : option nat) : MAC_TABLE :=
  match prev with
  | None => set_Hash (<[h := next]> (Hash T)) T
  | Some p => set_Entries (alter (set_pNext next) p (Entries T)) T
  end.

Lemma unlink_loop_spec T h n e l2 : ∀ l1 fuel prev probe,
  chain (Entries T) (Some probe) (l1 ++ n :: l2) → NoDup (l1 ++ n :: l2) → (length l1 < fuel)%nat →
  Entries T !! n = Some e →
  unlink_loop fuel T h n prev probe =
  Some (relink T h (match last l1 with Some t => Some t | None => prev end) (pNext e)).
Proof.
  induction l1 as [|i l1 IH]; intros [|fuel] prev probe Hc Hd Hf Hn; simpl in Hf; try lia; simpl in Hc.
  - destruct Hc as ([= ->] & x & Hx & _). simpl. rewrite Hx in Hn. injection Hn as ->. rewrite Hx. simpl.
    rewrite Nat.eqb_refl. by destruct prev.
  - destruct Hc as ([= ->] & x & Hx & Hc). apply NoDup_cons in Hd as [Hi Hd]. simpl. rewrite Hx. simpl.
    rewrite (proj2 (Nat.eqb_neq i n)) by (intros ->; apply Hi, elem_of_app; right; by left).
    assert (∃ j, pNext x = Some j) as [j Hj].
    { destruct l1; simpl in Hc; destruct Hc as (-> & _); eauto. }
    rewrite Hj. rewrite Hj in Hc. rewrite (IH fuel (Some i) j) by (done || lia).
    f_equal. rewrite last_cons. by destruct (last l1).
Qed.

Lemma chain_remove C n e l2 : ∀ l1 p t,
  chain C p ((l1 ++ [t]) ++ n :: l2) → NoDup ((l1 ++ [t]) ++ n :: l2) → C !! n = Some e →
  chain (alter (set_pNext (pNext e)) t C) p ((l1 ++ [t]) ++ l2).
Proof.
  induction l1 as [|i l1 IH]; intros p t Hc Hd Hn; simpl in *.
  - destruct Hc as (-> & x & Hx & Hnx & y & Hy & Hc). rewrite Hy in Hn. injection Hn as ->.
    split; [done|]. exists (set_pNext (pNext e) x). split; [by rewrite list_lookup_alter_eq, Hx|].
    apply chain_alter_out; [|done]. apply NoDup_cons in Hd as [Hd _]. intros Ht. apply Hd. by right.
  - destruct Hc as (-> & x & Hx & Hc). apply NoDup_cons in Hd as [Hi Hd]. split; [done|].
    exists x. split; [|by apply IH]. rewrite list_lookup_alter_ne; [done|].
    intros ->. apply Hi, elem_of_app. left. apply elem_of_app. right. by left.
Qed.

(** * The invariant *)

(** What the map part of the table sees of an entry. *)
Definition key (e : MAC_TABLE_ENTRY) : Z * list Z * nat := (EntryType e, Addr e, wcid e).
Definition keys (T : MAC_TABLE) : list (Z * list Z * nat) := map key (Entries T).
Definition in_use (k : Z * list Z * nat) : Prop := k.1.1 ≠ ENTRY_NONE.

#[export] Instance in_use_dec k : Decision (in_use k).
Proof. unfold in_use. apply _. Defined.

(** The buckets are the chains [L]. *)
Record links_ok (T : MAC_TABLE) (L : nat → list nat) : Prop := {
  lk_hash : length (Hash T) = HASH_TABLE_SIZE;
  lk_chain : ∀ h, (h < HASH_TABLE_SIZE)%nat → ∃ p, Hash T !! h = Some p ∧ chain (Entries T) p (L h)
}.

(** [L h] are the entries in use, but for the multicast entry 0, whose address
    hashes to [h]; [n] counts them. *)
Record keys_ok (K : list (Z * list Z * nat)) (L : nat → list nat) (n : Z) : Prop := {
  ks_len : length K = MAX_LEN_OF_MAC_TABLE;
  ks_nodup : ∀ h, NoDup (L h);
  ks_in : ∀ h i, i ∈ L h ↔ (0 < i)%nat ∧ ∃ k, K !! i = Some k ∧ in_use k ∧ MAC_ADDR_HASH_INDEX k.1.2 = h;
  ks_addr : ∀ i k, K !! i = Some k → length k.1.2 = 6%nat;
  ks_wcid : ∀ i k, K !! i = Some k → in_use k → (0 < i)%nat → k.2 = i;
  ks_size : n = Z.of_nat (length (filter in_use (drop 1 K)))
}.

Definition table_ok (T : MAC_TABLE) : Prop := ∃ L, links_ok T L ∧ keys_ok (keys T) L (Size T).

(** The peer at entry [i]. *)
Definition peer_at (K : list (Z * list Z * nat)) (a : list Z) (i : nat) : Prop :=
  (0 < i)%nat ∧ ∃ k, K !! i = Some k ∧ in_use k ∧ k.1.2 = a.

Lemma keys_lookup T i e : Entries T !! i = Some e → keys T !! i = Some (key e).
Proof. intros H. unfold keys. change (map key (Entries T)) with (key <$> Entries T). by rewrite list_lookup_fmap, H. Qed.

Lemma keys_lookup_inv T i k : keys T !! i = Some k → ∃ e, Entries T !! i = Some e ∧ key e = k.
Proof.
  unfold keys. change (map key (Entries T)) with (key <$> Entries T). rewrite list_lookup_fmap.
  destruct (Entries T !! i) as [e|]; [|done]. intros [= <-]. eauto.
Qed.

Lemma keys_alter_next C t p : map key (alter (set_pNext p) t C) = map key C.
Proof.
  change (map key ?l) with (key <$> l). apply list_eq. intros i. rewrite !list_lookup_fmap.
  destruct (decide (t = i)) as [->|]; [|by rewrite list_lookup_alter_ne].
  rewrite list_lookup_alter_eq. by destruct (C !! i).
Qed.

Lemma hash_index_lt a : (MAC_ADDR_HASH_INDEX a < HASH_TABLE_SIZE)%nat.
Proof.
  unfold MAC_ADDR_HASH_INDEX, HASH_TABLE_SIZE. change (Z.of_nat 256 - 1) with (Z.ones 8).
  rewrite Z.land_ones by lia. pose proof (Z.mod_pos_bound (MAC_ADDR_HASH a) (2 ^ 8) ltac:(lia)). lia.
Qed.

Lemma chain_length K L n h : keys_ok K L n → (length (L h) < walk_fuel)%nat.
Proof.
  intros H. unfold walk_fuel.
  enough (length (L h) ≤ MAX_LEN_OF_MAC_TABLE)%nat by lia.
  apply (chain_short (L h)); [apply (ks_nodup _ _ _ H)|]. intros i Hi.
  apply (ks_in _ _ _ H) in Hi as (_ & k & Hk & _). rewrite <- (ks_len _ _ _ H). by eapply lookup_lt_Some.
Qed.

(** One more entry in use changes the count by one. *)
Lemma used_insert K i k k0 :
  K !! i = Some k0 → (0 < i)%nat → ¬ in_use k0 → in_use k →
  length (filter in_use (drop 1 (<[i := k]> K))) = S (length (filter in_use (drop 1 K))).
Proof.
  intros Hi H0 Hn Hu. destruct K as [|x K]; [done|]. destruct i as [|i]; [lia|]. clear H0.
  change (<[S i := k]> (x :: K)) with (x :: <[i := k]> K). cbn [drop]. rewrite !drop_0. simpl in Hi.
  destruct (list_elem_of_split_length K i k0 Hi) as (K1 & K2 & -> & ->).
  rewrite insert_app_r_alt, Nat.sub_diag by lia. cbn [list_insert insert].
  rewrite !filter_app, !filter_cons, decide_True, decide_False by done. rewrite !length_app. simpl. lia.
Qed.

Lemma keys_insert K L n i a k0 :
  keys_ok K L n → K !! i = Some k0 → (0 < i)%nat → ¬ in_use k0 → length a = 6%nat →
  keys_ok (<[i := (ENTRY_CLIENT, a, i)]> K)
    (λ h, if decide (h = MAC_ADDR_HASH_INDEX a) then L h ++ [i] else L h) (n + 1).
Proof.
  intros [Hl Hd Hin Ha Hw Hs] Hi H0 Hn H6. set (k := (ENTRY_CLIENT, a, i)).
  assert (Hlt : (i < length K)%nat) by by eapply lookup_lt_Some.
  assert (Hni : ∀ h, i ∉ L h).
  { intros h (_ & k' & Hk' & Hu' & _)%Hin. rewrite Hi in Hk'. by injection Hk' as <-. }
  assert (Hold : ∀ h j, j ≠ i → (0 < j)%nat ∧ (∃ k', <[i := k]> K !! j = Some k' ∧ in_use k' ∧
    MAC_ADDR_HASH_INDEX k'.1.2 = h) ↔ j ∈ L h).
  { intros h j Hj. rewrite list_lookup_insert_ne by done. symmetry. apply Hin. }
  split.
  - by rewrite length_insert.
  - intros h. destruct (decide _); [|done]. apply NoDup_app. split; [done|]. split.
    + intros x Hx ->%list_elem_of_singleton. by eapply Hni.
    + apply NoDup_singleton.
  - intros h j. destruct (decide (j = i)) as [->|Hj].
    + rewrite list_lookup_insert_eq by done. split.
      * intros Hj. split; [done|]. exists k. split; [done|]. split; [done|]. simpl.
        destruct (decide (h = _)) as [->|]; [done|]. by apply Hni in Hj.
      * intros (_ & k' & [= <-] & _ & <-). rewrite decide_True by done. apply elem_of_app. right. by left.
    + rewrite Hold by done. destruct (decide _); [|done]. rewrite elem_of_app, list_elem_of_singleton. tauto.
  - intros j k' Hj. destruct (decide (i = j)) as [->|].
    + rewrite list_lookup_insert_eq in Hj by done. by injection Hj as <-.
    + rewrite list_lookup_insert_ne in Hj by done. eauto.
  - intros j k' Hj Hu Hp. destruct (decide (i = j)) as [->|].
    + rewrite list_lookup_insert_eq in Hj by done. by injection Hj as <-.
    + rewrite list_lookup_insert_ne in Hj by done. eauto.
  - rewrite (used_insert _ _ _ k0) by done. lia.
Qed.

Lemma keys_delete K L n i k0 k :
  keys_ok K L n → K !! i = Some k0 → (0 < i)%nat → in_use k0 → ¬ in_use k → length k.1.2 = 6%nat →
  keys_ok (<[i := k]> K) (λ h, filter (.≠ i) (L h)) (n - 1).
Proof.
  intros [Hl Hd Hin Ha Hw Hs] Hi H0 Hu Hn H6.
  assert (Hlt : (i < length K)%nat) by by eapply lookup_lt_Some.
  split.
  - by rewrite length_insert.
  - intros h. by apply NoDup_filter.
  - intros h j. rewrite list_elem_of_filter. destruct (decide (j = i)) as [->|Hj].
    + rewrite list_lookup_insert_eq by done. split; [by intros [? _]|].
      intros (_ & k' & [= <-] & Hu' & _). done.
    + rewrite list_lookup_insert_ne by done. rewrite Hin. tauto.
  - intros j k' Hj. destruct (decide (i = j)) as [->|].
    + rewrite list_lookup_insert_eq in Hj by done. by injection Hj as <-.
    + rewrite list_lookup_insert_ne in Hj by done. eauto.
  - intros j k' Hj Hu' Hp. destruct (decide (i = j)) as [->|].
    + rewrite list_lookup_insert_eq in Hj by done. by injection Hj as <-.
    + rewrite list_lookup_insert_ne in Hj by done. eauto.
  - pose proof (used_insert (<[i := k]> K) i k0 k) as Hc.
    rewrite list_insert_insert_eq, (list_insert_id K i k0 Hi) in Hc.
    rewrite Hc in Hs; [lia|by apply list_lookup_insert_eq|done..].
Qed.

(** ** Lookup *)

Lemma addr_equal_iff a b : length a = 6%nat → length b = 6%nat → MAC_ADDR_EQUAL a b = bool_decide (a = b).
Proof. intros. unfold MAC_ADDR_EQUAL. rewrite !take_ge by lia. done. Qed.

Lemma lookup_loop_spec C a l : ∀ fuel p,
  chain C p l → (length l < fuel)%nat → length a = 6%nat →
  (∀ i e, i ∈ l → C !! i = Some e → EntryType e ≠ ENTRY_NONE ∧ length (Addr e) = 6%nat) →
  ∃ r, lookup_loop fuel C p a = Some r ∧
    match r with
    | Some i => i ∈ l ∧ ∃ e, C !! i = Some e ∧ Addr e = a
    | None => ∀ i e, i ∈ l → C !! i = Some e → Addr e ≠ a
    end.
Proof.
  induction l as [|i l IH]; intros [|fuel] p Hc Hf Ha Hu; simpl in Hf; try lia; simpl in Hc.
  - subst p. simpl. eexists. split; [done|]. intros i e Hi. by apply not_elem_of_nil in Hi.
  - destruct Hc as (-> & e & He & Hc). simpl. rewrite He. simpl.
    destruct (Hu i e) as [Hus Hl6]; [by left|done|]. unfold IS_ENTRY_NONE.
    rewrite (proj2 (Z.eqb_neq _ _) Hus), addr_equal_iff by done.
    destruct (decide (Addr e = a)) as [Ea|Ea].
    + rewrite bool_decide_true by done. eexists. split; [done|]. split; [by left|eauto].
    + rewrite bool_decide_false by done.
      destruct (IH fuel (pNext e)) as (r & -> & Hr); [done|lia|done| |].
      { intros j x Hj. apply Hu. by right. }
      eexists. split; [done|]. destruct r as [j|].
      * destruct Hr as [Hj Hx]. split; [by right|done].
      * intros j x [->|Hj]%elem_of_cons Hx; [congruence|]. by eapply Hr.
Qed.

(** The table as a finite map: [M] sends an address to the entry of the peer. *)
Definition map_of (T : MAC_TABLE) (M : gmap (list Z) nat) : Prop :=
  ∀ a i, M !! a = Some i ↔ peer_at (keys T) a i.

Lemma chain_used T L h i e :
  keys_ok (keys T) L (Size T) → i ∈ L h → Entries T !! i = Some e →
  EntryType e ≠ ENTRY_NONE ∧ length (Addr e) = 6%nat.
Proof.
  intros H (_ & k & Hk & Hu & _)%(ks_in _ _ _ H) He. pose proof (keys_lookup _ _ _ He) as Hk'.
  rewrite Hk in Hk'. injection Hk' as ->. split; [done|]. apply (ks_addr _ _ _ H i (key e)). done.
Qed.

Lemma lookup_spec T M a :
  table_ok T → map_of T M → length a = 6%nat → MacTableLookup T a = Some (M !! a).
Proof.
  intros (L & HL & HK) HM H6. unfold MacTableLookup. set (h := MAC_ADDR_HASH_INDEX a).
  destruct (lk_chain _ _ HL h) as (p & -> & Hc); [apply hash_index_lt|]. cbn [mbind option_bind].
  destruct (lookup_loop_spec _ a (L h) walk_fuel p Hc) as (r & -> & Hr);
    [by eapply chain_length|done|intros i e; by apply (chain_used T L h)|].
  f_equal. destruct r as [i|].
  - destruct Hr as (Hi & e & He & Ha). symmetry. apply HM.
    apply (ks_in _ _ _ HK) in Hi as (H0 & k & Hk & Hu & _). split; [done|]. exists k. split; [done|].
    split; [done|]. rewrite (keys_lookup _ _ _ He) in Hk. by injection Hk as <-.
  - symmetry. apply eq_None_not_Some. intros [i Hi%HM]. destruct Hi as (H0 & k & Hk & Hu & Ha).
    destruct (keys_lookup_inv _ _ _ Hk) as (e & He & <-). apply (Hr i e); [|done|done].
    apply (ks_in _ _ _ HK). split; [done|]. exists (key e). split; [done|]. split; [done|].
    unfold h. by rewrite <- Ha.
Qed.

(** ** Insertion *)

Lemma first_none_spec l : ∀ b,
  match first_none b l with
  | Some i => (b ≤ i)%nat ∧ ∃ e, l !! (i - b)%nat = Some e ∧ EntryType e = ENTRY_NONE
  | None => ∀ j e, l !! j = Some e → EntryType e ≠ ENTRY_NONE
  end.
Proof.
  induction l as [|e l IH]; intros b; simpl; [done|]. unfold IS_ENTRY_NONE.
  destruct (Z.eqb_spec (EntryType e) ENTRY_NONE).
  - split; [done|]. exists e. by rewrite Nat.sub_diag.
  - specialize (IH (S b)). destruct (first_none (S b) l) as [i|].
    + destruct IH as (Hb & e' & He' & Hn). split; [lia|]. exists e'. split; [|done].
      replace (i - b)%nat with (S (i - S b)) by lia. done.
    + intros [|j] e' He'; simpl in He'; [by simplify_eq|]. eauto.
Qed.

Definition disjoint_chains (L : nat → list nat) : Prop :=
  (∀ h, NoDup (L h)) ∧ (∀ h, length (L h) < walk_fuel)%nat ∧
  (∀ h k i, i ∈ L h → i ∈ L k → h = k).

Lemma keys_disjoint K L n : keys_ok K L n → disjoint_chains L.
Proof.
  intros H. split; [apply (ks_nodup _ _ _ H)|]. split; [intros h; by eapply chain_length|].
  intros h k i (_ & x & Hx & _ & Hh)%(ks_in _ _ _ H) (_ & y & Hy & _ & Hk)%(ks_in _ _ _ H). congruence.
Qed.

(** A fresh entry at the end of its chain. *)
Lemma hash_append_links T L a n e :
  links_ok T L → disjoint_chains L → (∀ h, n ∉ L h) → Entries T !! n = Some e → pNext e = None →
  ∃ T', hash_append T a n = Some T' ∧ Size T' = Size T ∧ mt_events T' = mt_events T ∧
    keys T' = keys T ∧
    links_ok T' (λ h, if decide (h = MAC_ADDR_HASH_INDEX a) then L h ++ [n] else L h).
Proof.
  intros [Hh Hc] (Hd & Hf & Hdis) Hn He Hp. unfold hash_append. set (h := MAC_ADDR_HASH_INDEX a).
  assert (Hlt : (h < HASH_TABLE_SIZE)%nat) by apply hash_index_lt.
  destruct (Hc h Hlt) as (p & Eh & Hch). rewrite Eh. cbn [mbind option_bind].
  destruct (L h) as [|i l] eqn:EL.
  - simpl in Hch. subst p. eexists. split; [done|]. do 3 (split; [done|]). split; simpl.
    + by rewrite length_insert.
    + intros k Hk. destruct (decide (k = h)) as [->|Hne].
      * exists (Some n). rewrite list_lookup_insert_eq by lia. rewrite EL. split; [done|].
        split; [done|]. by exists e.
      * rewrite list_lookup_insert_ne by done. by apply Hc.
  - pose proof Hch as (-> & _).
    destruct (find_tail_spec (Entries T) l walk_fuel i) as (t & l' & El & Et).
    { specialize (Hf h). rewrite EL in Hf. simpl in Hf. lia. }
    { done. }
    rewrite Et. cbn [mbind option_bind]. eexists. split; [done|]. do 2 (split; [done|]).
    split; [apply keys_alter_next|].
    split; simpl; [done|]. intros k Hk. destruct (decide (k = h)) as [->|Hne].
    + exists (Some i). split; [done|]. rewrite EL, El, <- app_assoc.
      rewrite El in Hch, EL. pose proof (Hd h) as Hd'. pose proof (Hn h) as Hn'. rewrite EL in Hd', Hn'.
      by eapply chain_snoc.
    + destruct (Hc k Hk) as (p & Ep & Hck). exists p. split; [done|]. apply chain_alter_out; [|done].
      intros Ht. apply Hne, (Hdis _ _ t); [done|]. rewrite EL, El. apply elem_of_app. right. by left.
Qed.

Lemma links_insert T L n e s ev :
  links_ok T L → (∀ h, n ∉ L h) → links_ok (mk_table (Hash T) (<[n := e]> (Entries T)) s ev) L.
Proof.
  intros [Hh Hc] Hn. split; [done|]. intros h Hlt. destruct (Hc h Hlt) as (p & Ep & Hch).
  exists p. split; [done|]. by apply chain_insert.
Qed.

(** The map with the new peer. *)
Lemma map_inserted T M a i k0 b j :
  map_of T M → M !! a = None → keys T !! i = Some k0 → (0 < i)%nat → ¬ in_use k0 →
  <[a := i]> M !! b = Some j ↔ peer_at (<[i := (ENTRY_CLIENT, a, i)]> (keys T)) b j.
Proof.
  intros HM Hfree Hk0 H0 Hnu. assert (Hlt : (i < length (keys T))%nat) by by eapply lookup_lt_Some.
  destruct (decide (b = a)) as [->|Hb].
  - rewrite lookup_insert_eq. split.
    + intros [= <-]. split; [done|]. eexists. split; [by apply list_lookup_insert_eq|done].
    + intros (Hj & k & Hk & Hu & Ha). destruct (decide (i = j)) as [->|Hij]; [done|].
      rewrite list_lookup_insert_ne in Hk by done. exfalso.
      assert (M !! a = Some j) by (apply HM; split; eauto). congruence.
  - rewrite lookup_insert_ne by done. rewrite (HM b j). unfold peer_at.
    destruct (decide (i = j)) as [->|Hij]; [|by rewrite list_lookup_insert_ne].
    rewrite list_lookup_insert_eq by done. split.
    + intros (_ & k & Hk & Hu & _). rewrite Hk0 in Hk. by injection Hk as <-.
    + intros (_ & k & [= <-] & _ & Ha). by simpl in Ha.
Qed.

(** What an insertion does when it finds a free entry. *)
Lemma insert_at c T M a ap i e0 :
  table_ok T → map_of T M → length a = 6%nat → M !! a = None →
  Entries T !! i = Some e0 → EntryType e0 = ENTRY_NONE → (0 < i)%nat → 0 ≤ Size T < 65535 →
  ∃ T', hash_append (mk_table (Hash T) (<[i := new_entry c i a ap]> (Entries T)) (u16 (Size T + 1))
      (mt_events T ++ [Ev_RemovePairwiseKey i; Ev_StaEntryAdd i (take 6 a)])) a i = Some T' ∧
    table_ok T' ∧ map_of T' (<[a := i]> M).
Proof.
  intros (L & HL & HK) HM H6 Hfree He0 Hnone H0 Hsz.
  assert (Hlt : (i < length (Entries T))%nat) by by eapply lookup_lt_Some.
  assert (Hk0 : keys T !! i = Some (key e0)) by by apply keys_lookup.
  assert (Hnu : ¬ in_use (key e0)) by (unfold in_use; simpl; by intros []).
  assert (Hni : ∀ h, i ∉ L h).
  { intros h (_ & k & Hk & Hu & _)%(ks_in _ _ _ HK). rewrite Hk0 in Hk. by injection Hk as <-. }
  destruct (hash_append_links (mk_table (Hash T) (<[i := new_entry c i a ap]> (Entries T)) (u16 (Size T + 1))
      (mt_events T ++ [Ev_RemovePairwiseKey i; Ev_StaEntryAdd i (take 6 a)])) L a i (new_entry c i a ap))
    as (T' & E & ES & EE & EK & HL').
  { by apply links_insert. } { by eapply keys_disjoint. } { done. }
  { simpl. by apply list_lookup_insert_eq. } { done. }
  assert (EK' : keys T' = <[i := (ENTRY_CLIENT, a, i)]> (keys T)).
  { rewrite EK. unfold keys. simpl. change (map key ?l) with (key <$> l). rewrite list_fmap_insert.
    f_equal. unfold key, new_entry. simpl. by rewrite take_ge by lia. }
  exists T'. split; [done|]. split.
  - eexists. split; [exact HL'|]. rewrite EK', ES. simpl.
    rewrite (wrap_id 16) by (lia || (unfold in_range; lia)). by eapply keys_insert.
  - intros b j. rewrite EK'. by apply map_inserted with (k0 := key e0).
Qed.

(** ** Deletion *)

Lemma filter_ne_id (l : list nat) n : n ∉ l → filter (.≠ n) l = l.
Proof.
  induction l as [|i l IH]; intros H; [done|]. apply not_elem_of_cons in H as [H1 H2].
  rewrite filter_cons, decide_True by done. f_equal. by apply IH.
Qed.

Lemma filter_ne_split (l1 l2 : list nat) n :
  NoDup (l1 ++ n :: l2) → filter (.≠ n) (l1 ++ n :: l2) = l1 ++ l2.
Proof.
  intros (H1 & H2 & H3)%NoDup_app. apply NoDup_cons in H3 as [H3 _].
  rewrite filter_app, filter_cons, decide_False by (by intros []).
  rewrite !filter_ne_id; [done|done|]. intros Hn. apply (H2 n Hn). by left.
Qed.

Lemma relink_keys T h prev next : keys (relink T h prev next) = keys T ∧
  Size (relink T h prev next) = Size T ∧ mt_events (relink T h prev next) = mt_events T.
Proof. destruct prev; simpl; [|done]. split; [|done]. apply keys_alter_next. Qed.

Lemma relink_links T L h l1 n l2 e :
  links_ok T L → disjoint_chains L → (h < HASH_TABLE_SIZE)%nat → L h = l1 ++ n :: l2 →
  Entries T !! n = Some e →
  links_ok (relink T h (match last l1 with Some t => Some t | None => None end) (pNext e))
    (λ k, filter (.≠ n) (L k)).
Proof.
  intros [Hh Hc] (Hd & Hf & Hdis) Hlt EL He.
  assert (Hout : ∀ k x, k ≠ h → x ∈ L h → x ∉ L k) by (intros k x Hk Hx Hx'; by apply Hk, (Hdis _ _ x)).
  assert (Hnin : n ∈ L h) by (rewrite EL; apply elem_of_app; right; by left).
  destruct (Hc h Hlt) as (p & Ep & Hch). pose proof (Hd h) as Hdh. rewrite EL in Hch, Hdh.
  destruct (last l1) as [t|] eqn:Et; simpl.
  - apply last_Some in Et as [l0 ->]. split; simpl; [done|]. intros k Hk.
    destruct (decide (k = h)) as [->|Hne].
    + exists p. split; [done|]. rewrite EL, filter_ne_split by done. by eapply chain_remove.
    + destruct (Hc k Hk) as (q & Eq & Hck). exists q. split; [done|].
      rewrite filter_ne_id by (by apply Hout). apply chain_alter_out; [|done]. apply Hout; [done|].
      rewrite EL. apply elem_of_app. left. apply elem_of_app. right. by left.
  - apply last_None in Et as ->. simpl in *. destruct Hch as (-> & x & Hx & Hch).
    rewrite He in Hx. injection Hx as <-. split; simpl; [by rewrite length_insert|]. intros k Hk.
    destruct (decide (k = h)) as [->|Hne].
    + exists (pNext e). rewrite list_lookup_insert_eq by lia. split; [done|].
      rewrite EL. pose proof (filter_ne_split [] l2 n Hdh) as Ef. simpl app in Ef. by rewrite Ef.
    + rewrite list_lookup_insert_ne by done. destruct (Hc k Hk) as (q & Eq & Hck). exists q.
      split; [done|]. by rewrite filter_ne_id by (by apply Hout).
Qed.

Lemma links_cleared T L n s ev :
  links_ok T L → links_ok (mk_table (Hash T) (alter cleared_entry n (Entries T)) s ev) L.
Proof.
  intros [Hh Hc]. split; [done|]. intros h Hlt. destruct (Hc h Hlt) as (p & Ep & Hch).
  exists p. split; [done|]. by apply chain_alter_keep.
Qed.

Lemma links_post T L ev : links_ok T L → links_ok (mt_post ev T) L.
Proof. intros [Hh Hc]. by split. Qed.

Lemma count_used K L n : keys_ok K L n → 0 ≤ n < Z.of_nat MAX_LEN_OF_MAC_TABLE.
Proof.
  intros H. rewrite (ks_size _ _ _ H). pose proof (length_filter in_use (drop 1 K)) as Hf.
  rewrite length_drop, (ks_len _ _ _ H) in Hf. unfold MAX_LEN_OF_MAC_TABLE in *. lia.
Qed.

(** The keys and the map once the entry is cleared. *)
Lemma keys_cleared T T2 w e :
  keys T2 = keys T → Entries T !! w = Some e →
  map key (alter cleared_entry w (Entries T2)) = <[w := (ENTRY_NONE, zeros 6, wcid e)]> (keys T).
Proof.
  intros EK He. pose proof (keys_lookup _ _ _ He) as Hk. rewrite <- EK in Hk |- *. unfold keys in *.
  change (map key ?l) with (key <$> l) in *. apply list_eq. intros j. rewrite list_lookup_fmap.
  destruct (decide (w = j)) as [->|Hj].
  - rewrite list_lookup_alter_eq. rewrite list_lookup_insert_eq by (by eapply lookup_lt_Some).
    rewrite list_lookup_fmap in Hk. destruct (Entries T2 !! j) as [x|]; [|done]. simpl in *.
    injection Hk as _ _ Hw. unfold key, cleared_entry. simpl. by rewrite Hw.
  - rewrite list_lookup_alter_ne, list_lookup_insert_ne, list_lookup_fmap by done. done.
Qed.

Lemma map_cleared T M w k k' b j :
  map_of T M → keys T !! w = Some k → (0 < w)%nat → in_use k → ¬ in_use k' →
  delete k.1.2 M !! b = Some j ↔ peer_at (<[w := k']> (keys T)) b j.
Proof.
  intros HM Hk H0 Hu Hn. rewrite lookup_delete_Some, (HM b j). unfold peer_at.
  destruct (decide (w = j)) as [->|Hj].
  - rewrite list_lookup_insert_eq by (by eapply lookup_lt_Some). split.
    + intros (Hb & _ & x & Hx & _ & Hb'). rewrite Hk in Hx. by injection Hx as <-.
    + by intros (_ & x & [= <-] & Hu' & _).
  - rewrite list_lookup_insert_ne by done. split; [tauto|]. intros (Hj0 & x & Hx & Hu' & Hb).
    split; [|eauto 10]. intros Eb. apply Hj.
    assert (M !! k.1.2 = Some j) by (apply HM; split; [done|]; exists x; by rewrite <- Eb in Hb).
    assert (M !! k.1.2 = Some w) by (apply HM; split; [done|]; by exists k). congruence.
Qed.

(** The walk takes the peer out of its chain. *)
Lemma unlink_peer T L w e h :
  links_ok T L → disjoint_chains L → (h < HASH_TABLE_SIZE)%nat → w ∈ L h → Entries T !! w = Some e →
  ∃ i T', Hash T !! h = Some (Some i) ∧ unlink_loop walk_fuel T h w None i = Some T' ∧
    links_ok T' (λ k, filter (.≠ w) (L k)) ∧ keys T' = keys T ∧ Size T' = Size T.
Proof.
  intros HL Hdis Hh Hin He. destruct (lk_chain _ _ HL h Hh) as (p & -> & Hch).
  apply list_elem_of_split in Hin as (l1 & l2 & EL). rewrite EL in Hch.
  assert (∃ i, p = Some i) as [i ->] by (destruct l1; destruct Hch as (-> & _); eauto).
  destruct Hdis as (Hd & Hf & Hdis). specialize (Hd h) as Hdh. specialize (Hf h) as Hfh.
  rewrite EL in Hdh, Hfh. rewrite length_app in Hfh. simpl length in Hfh.
  exists i. eexists. split; [done|]. split; [apply (unlink_loop_spec T h w e l2 l1); done || lia|].
  split; [by apply (relink_links T L h l1 w l2 e)|].
  destruct (relink_keys T h (match last l1 with Some t => Some t | None => None end) (pNext e)) as (? & ? & _).
  done.
Qed.

(** Deleting the peer at [w]. *)
Lemma delete_at T M w a :
  table_ok T → map_of T M → M !! a = Some w →
  ∃ T', MacTableDeleteEntry T w a = Some (true, T') ∧ table_ok T' ∧ map_of T' (delete a M).
Proof.
  intros (L & HL & HK) HM (H0 & k & Hk & Hu & Ha)%HM.
  destruct (keys_lookup_inv _ _ _ Hk) as (e & He & Ek). subst k. simpl in Ha. subst a.
  assert (Hlt : (w < MAX_LEN_OF_MAC_TABLE)%nat)
    by (rewrite <- (ks_len _ _ _ HK); by eapply lookup_lt_Some).
  pose proof (ks_addr _ _ _ HK _ _ Hk) as H6. simpl in H6.
  unfold MacTableDeleteEntry. rewrite (proj2 (Nat.leb_gt _ _) Hlt), He. cbn [mbind option_bind].
  assert (Hue : EntryType e ≠ ENTRY_NONE) by exact Hu. unfold IS_ENTRY_NONE.
  rewrite (proj2 (Z.eqb_neq _ _) Hue), addr_equal_iff, bool_decide_true by done.
  cbn [negb andb]. set (h := MAC_ADDR_HASH_INDEX (Addr e)). set (T1 := mt_post _ T).
  destruct (unlink_peer T1 L w e h) as (i & T2 & -> & E2 & HL2 & EK & ES).
  { by apply links_post. } { by eapply keys_disjoint. } { apply hash_index_lt. }
  { apply (ks_in _ _ _ HK). split; [done|]. by exists (key e). } { done. }
  cbn [mbind option_bind]. rewrite E2. cbn [mbind option_bind].
  assert (Hnu : ¬ in_use (ENTRY_NONE, zeros 6, wcid e)) by (by intros []).
  pose proof (keys_delete _ _ _ _ _ (ENTRY_NONE, zeros 6, wcid e) HK Hk H0 Hu Hnu eq_refl) as HK3.
  pose proof (count_used _ _ _ HK) as Hn. pose proof (count_used _ _ _ HK3) as Hn3.
  assert (HS3 : u16 (Size T2 - 1) = Size T - 1).
  { rewrite ES. simpl. apply wrap_id; [lia|]. unfold in_range, MAX_LEN_OF_MAC_TABLE in *. lia. }
  rewrite HS3. set (T3 := mk_table _ _ _ _).
  assert (Hk2 : keys T3 = <[w := (ENTRY_NONE, zeros 6, wcid e)]> (keys T)) by by apply keys_cleared.
  eexists. split; [reflexivity|].
  assert (Hfin : ∀ ev, table_ok (mt_post ev T3) ∧ map_of (mt_post ev T3) (delete (Addr e) M)).
  { intros ev. split.
    - eexists. split; [by apply links_post, links_cleared|]. change (keys (mt_post ev T3)) with (keys T3).
      rewrite Hk2. exact HK3.
    - intros b j. change (keys (mt_post ev T3)) with (keys T3). rewrite Hk2. by apply map_cleared with (k := key e). }
  destruct (Size T3 =? 0); [by apply Hfin|].
  destruct (Hfin []) as [Ht Hm]. unfold mt_post in Ht, Hm. rewrite app_nil_r in Ht, Hm. done.
Qed.

(** The entry that is taken out of its chain keeps its link. *)
Lemma unlink_keeps T h w : ∀ fuel prev probe T', (∀ p, prev = Some p → p ≠ w) →
  unlink_loop fuel T h w prev probe = Some T' → Entries T' !! w = Entries T !! w.
Proof.
  induction fuel as [|fuel IH]; intros prev probe T' Hp H; [done|]. cbn [unlink_loop] in H. peel H.
  destruct (Nat.eqb_spec probe w) as [->|Hn].
  - destruct prev as [p|]; injection H as <-; [|done]. cbn. apply list_lookup_alter_ne. by apply Hp.
  - destruct (pNext _); [|by injection H as <-]. eapply IH; [|exact H]. by intros p' [= <-].
Qed.

Lemma delete_keeps_link T w a e r T' : Entries T !! w = Some e → EntryType e ≠ ENTRY_NONE → MAC_ADDR_EQUAL (Addr e) a = true →
  (w < MAX_LEN_OF_MAC_TABLE)%nat → MacTableDeleteEntry T w a = Some (r, T') →
  ∃ e', Entries T' !! w = Some e' ∧ EntryType e' = ENTRY_NONE ∧ pNext e' = pNext e.
Proof.
  intros He Hu Ha Hw. unfold MacTableDeleteEntry. rewrite (proj2 (Nat.leb_gt _ _) Hw), He. cbn [mbind option_bind].
  unfold IS_ENTRY_NONE. rewrite (proj2 (Z.eqb_neq _ _) Hu), Ha. cbn [negb andb]. intros H. peel H. injection H as _ <-.
  peel E. injection E as <-. exists (cleared_entry e).
  assert (HE : Entries m0 !! w = Some e).
  { destruct o; [|injection E1 as <-; done]. by apply unlink_keeps in E1 as ->. }
  split; [|done]. destruct (_ =? 0); cbn; by rewrite list_lookup_alter_eq, HE.
Qed.

(** Deleting what is not at [w] leaves the table. *)
Lemma delete_other T M w a e :
  table_ok T → map_of T M → (0 < w)%nat → length a = 6%nat → M !! a ≠ Some w → Entries T !! w = Some e →
  ∃ T', MacTableDeleteEntry T w a = Some (true, T') ∧ table_ok T' ∧ map_of T' M.
Proof.
  intros (L & HL & HK) HM H0 H6 Hne He. pose proof (keys_lookup _ _ _ He) as Hk.
  assert (Hlt : (w < MAX_LEN_OF_MAC_TABLE)%nat)
    by (rewrite <- (ks_len _ _ _ HK); by eapply lookup_lt_Some).
  unfold MacTableDeleteEntry. rewrite (proj2 (Nat.leb_gt _ _) Hlt), He. cbn [mbind option_bind].
  assert (negb (IS_ENTRY_NONE e) && MAC_ADDR_EQUAL (Addr e) a = false) as ->.
  { unfold IS_ENTRY_NONE. destruct (Z.eqb_spec (EntryType e) ENTRY_NONE) as [|Hu]; [done|]. simpl.
    rewrite addr_equal_iff; [|by apply (ks_addr _ _ _ HK w (key e))|done].
    apply bool_decide_eq_false. intros Ea. apply Hne, HM. split; [done|]. by exists (key e). }
  cbn [mbind option_bind]. eexists. split; [reflexivity|].
  destruct (Size T =? 0); (split; [exists L|done]); (split; [|done]); [by apply links_post|done].
Qed.

Lemma insert_spec c T M a ap :
  table_ok T → map_of T M → length a = 6%nat → M !! a = None →
  ∃ r T', MacTableInsertEntry c T a ap = Some (r, T') ∧
    match r with
    | Some i => (FirstWcid c ≤ i < MAX_LEN_OF_MAC_TABLE)%nat ∧ (∀ b, M !! b ≠ Some i) ∧
        table_ok T' ∧ map_of T' (<[a := i]> M)
    | None => T' = T ∧ ∀ i, (FirstWcid c ≤ i < MAX_LEN_OF_MAC_TABLE)%nat → ∃ b, M !! b = Some i
    end.
Proof.
  intros HT HM H6 Hfree. pose proof HT as (L & HL & HK). pose proof (count_used _ _ _ HK) as Hn.
  unfold MacTableInsertEntry. rewrite (proj2 (Z.leb_gt _ _)) by lia.
  assert (HF : (0 < FirstWcid c)%nat) by (unfold FirstWcid; destruct (bss_infra c); lia).
  assert (Hlen : length (Entries T) = MAX_LEN_OF_MAC_TABLE)
    by (rewrite <- (ks_len _ _ _ HK); unfold keys; by rewrite length_map).
  pose proof (first_none_spec (drop (FirstWcid c) (Entries T)) (FirstWcid c)) as Hfn.
  destruct (first_none _ _) as [i|].
  - destruct Hfn as (Hi & e & He & Hnone). rewrite lookup_drop in He.
    replace (FirstWcid c + (i - FirstWcid c))%nat with i in He by lia.
    destruct (insert_at c T M a ap i e) as (T' & E & HT' & HM'); try done; [lia|unfold MAX_LEN_OF_MAC_TABLE in *; lia|].
    cbn [set_Entries Hash Entries Size mt_events]. rewrite E. cbn [mbind option_bind].
    exists (Some i), T'. split; [done|]. apply lookup_lt_Some in He as Hlt. split; [lia|]. split; [|done].
    intros b (_ & k & Hk & Hu & _)%HM. rewrite (keys_lookup _ _ _ He) in Hk. injection Hk as <-. by apply Hu.
  - exists None, T. split; [done|]. split; [done|]. intros i Hi.
    destruct (lookup_lt_is_Some_2 (Entries T) i) as [e He]; [lia|]. exists (Addr e). apply HM.
    split; [lia|]. exists (key e). split; [by apply keys_lookup|]. split; [|done].
    apply (Hfn (i - FirstWcid c)%nat e). rewrite lookup_drop.
    by replace (FirstWcid c + (i - FirstWcid c))%nat with i by lia.
Qed.

(** A change of an entry that keeps its link, type, address and wcid. *)
Lemma alter_silent T M f i :
  (∀ e, pNext (f e) = pNext e ∧ key (f e) = key e) → table_ok T → map_of T M →
  table_ok (set_Entries (alter f i (Entries T)) T) ∧ map_of (set_Entries (alter f i (Entries T)) T) M.
Proof.
  intros Hf (L & [Hh Hc] & HK) HM.
  assert (EK : keys (set_Entries (alter f i (Entries T)) T) = keys T).
  { unfold keys. simpl. change (map key ?l) with (key <$> l). apply list_eq. intros j.
    rewrite !list_lookup_fmap. destruct (decide (i = j)) as [->|]; [|by rewrite list_lookup_alter_ne].
    rewrite list_lookup_alter_eq. destruct (Entries T !! j) as [e|]; [|done]. simpl. f_equal. apply Hf. }
  split.
  - exists L. rewrite EK. split; [|done]. split; [done|]. intros h Hlt.
    destruct (Hc h Hlt) as (p & Ep & Hch). exists p. split; [done|]. apply chain_alter_keep; [|done].
    intros e. apply Hf.
  - intros a j. rewrite EK. apply HM.
Qed.
