(* ===== verification/MacTableClaims.v ===== *)
(** The theorems on the peer table: it is a finite map from addresses to
    entries, whatever the hash values of the addresses are. *)

From stdpp Require Import gmap.
From S2P Require Import Prelude Mlme BaReorder BaSession MacTable MacTableProofs.

(** * Reset *)

Lemma reset_turn_spec T M i :
  table_ok T → map_of T M → (0 < i < MAX_LEN_OF_MAC_TABLE)%nat →
  ∃ T' M', reset_turn T i = Some T' ∧ table_ok T' ∧ map_of T' M' ∧ M' ⊆ M ∧ (∀ a, M' !! a ≠ Some i).
Proof.
  intros HT HM Hi. pose proof HT as (L & _ & HK).
  destruct (lookup_lt_is_Some_2 (Entries T) i) as [e He].
  { rewrite <- (length_map key). fold (keys T). rewrite (ks_len _ _ _ HK). lia. }
  unfold reset_turn. rewrite He. cbn [mbind option_bind].
  assert (H6 : length (Addr e) = 6%nat) by apply (ks_addr _ _ _ HK i (key e)), keys_lookup, He.
  set (f := λ e, mk_entry _ _ _ _ _ _ _ _ _ _ _ _ _ _ _ _ _ _). set (T1 := if IS_ENTRY_CLIENT e then _ else _).
  assert (table_ok T1 ∧ map_of T1 M ∧ is_Some (Entries T1 !! i)) as (HT1 & HM1 & e1 & He1).
  { unfold T1. destruct (IS_ENTRY_CLIENT e); [|by rewrite He].
    destruct (alter_silent T M f i) as [? ?]; [done..|]. split; [done|]. split; [done|].
    simpl. by rewrite list_lookup_alter_eq, He. }
  destruct (decide (M !! Addr e = Some i)) as [Hm|Hm].
  - destruct (delete_at T1 M i (Addr e)) as (T' & -> & HT' & HM'); [done..|]. cbn [mbind option_bind].
    exists T', (delete (Addr e) M). do 3 (split; [done|]). split; [apply delete_subseteq|].
    intros a Ha. apply lookup_delete_Some in Ha as [Hne (_ & k & Hk & _ & Ha)%HM]. apply Hne.
    rewrite (keys_lookup _ _ _ He) in Hk. by injection Hk as <-.
  - destruct (delete_other T1 M i (Addr e) e1) as (T' & -> & HT' & HM'); try done; [lia|].
    cbn [mbind option_bind]. exists T', M. do 4 (split; [done|]). intros a Ha.
    pose proof Ha as (_ & k & Hk & _ & Ea)%HM. rewrite (keys_lookup _ _ _ He) in Hk. injection Hk as <-.
    simpl in Ea. congruence.
Qed.

Lemma reset_loop_spec l : ∀ T M,
  table_ok T → map_of T M → (∀ i, i ∈ l → 0 < i < MAX_LEN_OF_MAC_TABLE)%nat →
  ∃ T' M', reset_loop T l = Some T' ∧ table_ok T' ∧ map_of T' M' ∧ M' ⊆ M ∧
    (∀ a i, i ∈ l → M' !! a ≠ Some i).
Proof.
  induction l as [|i l IH]; intros T M HT HM Hl; cbn [reset_loop].
  { exists T, M. do 4 (split; [done|]). intros a i Hi. by apply not_elem_of_nil in Hi. }
  destruct (reset_turn_spec T M i HT HM) as (T1 & M1 & -> & HT1 & HM1 & Hs1 & Hn1); [apply Hl; by left|].
  cbn [mbind option_bind].
  destruct (IH T1 M1 HT1 HM1) as (T2 & M2 & -> & HT2 & HM2 & Hs2 & Hn2); [intros j Hj; apply Hl; by right|].
  exists T2, M2. do 3 (split; [done|]). split; [by etrans|].
  intros a j [->|Hj]%elem_of_cons Ha; [|by eapply Hn2].
  apply (Hn1 a). by eapply lookup_weaken.
Qed.

Lemma empty_size (T : MAC_TABLE) : table_ok T → map_of T ∅ → Size T = 0.
Proof.
  intros (L & _ & HK) HM. rewrite (ks_size _ _ _ HK).
  assert (filter in_use (drop 1 (keys T)) = []) as ->; [|done].
  destruct (filter in_use (drop 1 (keys T))) as [|k l] eqn:E; [done|]. exfalso.
  assert (k ∈ filter in_use (drop 1 (keys T))) as (Hu & Hk)%list_elem_of_filter by (rewrite E; by left).
  apply list_elem_of_lookup in Hk as [i Hi]. rewrite lookup_drop in Hi.
  assert ((∅ : gmap (list Z) nat) !! k.1.2 = Some (1 + i)%nat) as Ha; [|by rewrite lookup_empty in Ha].
  apply HM. split; [lia|]. eauto.
Qed.

Lemma reset_spec T M :
  table_ok T → map_of T M → ∃ T', MacTableReset T = Some T' ∧ table_ok T' ∧ map_of T' ∅ ∧ Size T' = 0.
Proof.
  intros HT HM. unfold MacTableReset.
  destruct (reset_loop_spec (seq 1 (MAX_LEN_OF_MAC_TABLE - 1)) T M HT HM) as (T' & M' & -> & HT' & HM' & _ & Hn).
  { intros i Hi%elem_of_seq. unfold MAX_LEN_OF_MAC_TABLE in *. lia. }
  assert (M' = ∅) as ->.
  { apply map_empty. intros a. apply eq_None_not_Some. intros [i Hi].
    apply (Hn a i); [|done]. destruct HT' as (L & _ & HK). apply HM' in Hi as (H0 & k & Hk & _).
    apply lookup_lt_Some in Hk. rewrite (ks_len _ _ _ HK) in Hk. apply elem_of_seq. lia. }
  exists T'. do 3 (split; [done|]). by apply empty_size.
Qed.

(** * The table as a map *)

(** C34: The peer table is a finite map from addresses to entries.  In any
    well-formed table, whatever addresses share a bucket: a lookup ends and
    returns exactly the entry of the address; an insertion of a new address
    takes a free entry from the first station entry on, or leaves the table
    when none is free; a deletion with the right address removes that peer and
    no other, one with a wrong address removes nothing; a reset empties the
    table and brings its size to 0.  Each operation leaves a well-formed
    table: every chain acyclic, in its bucket, and the size exact. *)
Theorem mac_table_is_map (T : MAC_TABLE) (M : gmap (list Z) nat) (HT : table_ok T) (HM : map_of T M) :
  (∀ a, length a = 6%nat → MacTableLookup T a = Some (M !! a)) ∧
  (∀ c a ap, length a = 6%nat → M !! a = None →
    ∃ r T', MacTableInsertEntry c T a ap = Some (r, T') ∧
      match r with
      | Some i => (FirstWcid c ≤ i < MAX_LEN_OF_MAC_TABLE)%nat ∧ (∀ b, M !! b ≠ Some i) ∧
          table_ok T' ∧ map_of T' (<[a := i]> M)
      | None => T' = T ∧ ∀ i, (FirstWcid c ≤ i < MAX_LEN_OF_MAC_TABLE)%nat → ∃ b, M !! b = Some i
      end) ∧
  (∀ w a, (0 < w)%nat → length a = 6%nat →
    ∃ b T', MacTableDeleteEntry T w a = Some (b, T') ∧ b = Nat.ltb w MAX_LEN_OF_MAC_TABLE ∧
      table_ok T' ∧ map_of T' (if decide (M !! a = Some w) then delete a M else M)) ∧
  (∃ T', MacTableReset T = Some T' ∧ table_ok T' ∧ map_of T' ∅ ∧ Size T' = 0).
Proof.
  conjs.
  - intros a Ha. by apply lookup_spec.
  - intros c a ap Ha Hf. by apply insert_spec.
  - intros w a H0 Ha. destruct (Nat.ltb_spec w MAX_LEN_OF_MAC_TABLE) as [Hw|Hw].
    + destruct (decide (M !! a = Some w)) as [Hm|Hm].
      * destruct (delete_at T M w a HT HM Hm) as (T' & E & H). by exists true, T'.
      * destruct HT as (L & HL & HK). destruct (lookup_lt_is_Some_2 (Entries T) w) as [e He].
        { rewrite <- (length_map key). fold (keys T). by rewrite (ks_len _ _ _ HK). }
        destruct (delete_other T M w a e) as (T' & E & H); try done; [by exists L|]. by exists true, T'.
    + exists false, T. unfold MacTableDeleteEntry. rewrite (proj2 (Nat.leb_le _ _) Hw).
      split; [done|]. split; [done|]. split; [done|]. rewrite decide_False; [done|].
      intros (_ & k & Hk & _)%HM. apply lookup_lt_Some in Hk. destruct HT as (L & HL & HK).
      rewrite (ks_len _ _ _ HK) in Hk. lia.
  - by eapply reset_spec.
Qed.

(** The table after start-up: only the multicast entry is in use. *)
Definition start_table : MAC_TABLE :=
  mk_table (replicate HASH_TABLE_SIZE None)
    (mk_entry 8 (zeros 6) None 0 0 0 (zeros 6) 0 0 0 0 0 0 2 0 0 0 zero_wpa :: replicate 115 zero_entry) 0 [].

Lemma start_entry i e : (0 < i)%nat → Entries start_table !! i = Some e → e = zero_entry.
Proof.
  destruct i as [|i]; [lia|]. intros _. change (Entries start_table !! S i) with (replicate 115 zero_entry !! i).
  intros He. by apply lookup_replicate in He as [-> _].
Qed.

Lemma start_ok : table_ok start_table ∧ map_of start_table ∅.
Proof.
  split.
  - exists (λ _, []). split; [split; [done|]|split].
    + intros h Hh. exists None. split; [|done]. by apply lookup_replicate_2.
    + done.
    + intros h. constructor.
    + intros h i. split; [intros Hi; by apply not_elem_of_nil in Hi|].
      intros (H0 & k & (e & He & <-)%keys_lookup_inv & Hu & _). apply start_entry in He; [|done]. by subst e.
    + intros i k (e & He & <-)%keys_lookup_inv. destruct i as [|i]; [by injection He as <-|].
      apply start_entry in He; [by subst e|lia].
    + intros i k (e & He & <-)%keys_lookup_inv Hu H0. apply start_entry in He; [by subst e|done].
    + reflexivity.
  - intros a i. split; [by rewrite lookup_empty|].
    intros (H0 & k & (e & He & <-)%keys_lookup_inv & Hu & _). apply start_entry in He; [|done]. by subst e.
Qed.

Lemma mac_table_is_map_witness :
  MacTableLookup start_table [0; 1; 2; 3; 4; 5] = Some None ∧
  ∃ T', MacTableReset start_table = Some T' ∧ table_ok T' ∧ map_of T' ∅ ∧ Size T' = 0.
Proof.
  destruct start_ok as [HT HM].
  destruct (mac_table_is_map start_table ∅ HT HM) as (HL & _ & _ & HR).
  split; [|exact HR]. apply HL. reflexivity.
Defined.

(** * The access point's entry *)

(** The entry of the access point has no successor while it is free. *)
Definition ap_entry_clean (T : MAC_TABLE) : Prop :=
  ∃ e, Entries T !! BSSID_WCID = Some e ∧ EntryType e = ENTRY_NONE ∧ pNext e = None.

Lemma identify_ap_ok T M a :
  table_ok T → map_of T M → ap_entry_clean T → length a = 6%nat → M !! a = None →
  ∃ T1, hash_append T a BSSID_WCID = Some T1 ∧
    let T' := mk_table (Hash T1) (alter (sta_identify a) BSSID_WCID (Entries T1)) (u16 (Size T1 + 1))
                (mt_events T1) in
    table_ok T' ∧ map_of T' (<[a := BSSID_WCID]> M).
Proof.
  intros (L & HL & HK) HM (e & He & Hnone & Hp) H6 Hfree. pose proof (keys_lookup _ _ _ He) as Hk.
  assert (Hnu : ¬ in_use (key e)) by (unfold in_use; simpl; by intros []).
  destruct (hash_append_links T L a BSSID_WCID e) as (T1 & E & ES & _ & EK & HL1); try done.
  { by eapply keys_disjoint. }
  { intros h (_ & k & Hk' & Hu & _)%(ks_in _ _ _ HK). rewrite Hk in Hk'. by injection Hk' as <-. }
  exists T1. split; [done|]. set (T2 := mk_table _ _ _ _). cbv zeta. pose proof (count_used _ _ _ HK) as Hn.
  assert (EK2 : keys T2 = <[BSSID_WCID := (ENTRY_CLIENT, a, BSSID_WCID)]> (keys T)).
  { rewrite <- EK. rewrite <- EK in Hk. unfold keys in *. simpl. change (map key ?l) with (key <$> l) in *.
    apply list_eq. intros j. rewrite list_lookup_fmap. destruct (decide (BSSID_WCID = j)) as [<-|Hj].
    - rewrite list_lookup_alter_eq, list_lookup_insert_eq by (by eapply lookup_lt_Some).
      rewrite list_lookup_fmap in Hk. destruct (Entries T1 !! BSSID_WCID) as [x|]; [|done]. simpl.
      unfold key. simpl. by rewrite take_ge by lia.
    - by rewrite list_lookup_alter_ne, list_lookup_insert_ne, list_lookup_fmap. }
  split.
  - exists (λ h, if decide (h = MAC_ADDR_HASH_INDEX a) then L h ++ [BSSID_WCID] else L h). rewrite EK2. split.
    + destruct HL1 as [Hh Hc]. split; [exact Hh|]. intros h Hlt. destruct (Hc h Hlt) as (p & Ep & Hch).
      exists p. split; [exact Ep|]. by apply chain_alter_keep.
    + simpl. rewrite ES, (wrap_id 16); [|lia|unfold in_range, MAX_LEN_OF_MAC_TABLE in *; lia].
      by apply (keys_insert _ _ _ _ _ (key e) HK Hk (Nat.lt_0_succ 0) Hnu).
  - intros b j. rewrite EK2. by apply (map_inserted T M a _ (key e) b j HM Hfree Hk (Nat.lt_0_succ 0) Hnu).
Qed.

(** Entering the access point with a clean entry adds it to the map. *)
Lemma enter_ap_ok c T M a :
  table_ok T → map_of T M → ap_entry_clean T → length a = 6%nat → M !! a = None → bss_infra c = true →
  ∃ T', sta_enter_ap c T a = Some T' ∧ table_ok T' ∧ map_of T' (<[a := BSSID_WCID]> M).
Proof.
  intros HT HM (e & He & Hn & Hp) H6 Hf Hc. unfold sta_enter_ap. rewrite Hc. cbn [negb].
  destruct (alter_silent T M (sta_secure c) BSSID_WCID) as [HT1 HM1]; [done..|].
  destruct (identify_ap_ok _ M a HT1 HM1) as (T2 & -> & H); [|done..|cbn [mbind option_bind]; by eexists].
  eexists. split; [simpl; by rewrite list_lookup_alter_eq, He|done].
Qed.

(** The condition is needed.  A deletion leaves [pNext] of the entry, and
    StaUpdateMacTableEntry links entry 1 without clearing it.  Between two
    links LinkDown zeroes the entry; an association response while associated
    (roaming, src/sta/assoc.c:970-989) deletes and re-enters it without
    LinkDown.  Had a peer been entered behind the access point, the chain would
    become a cycle, and a lookup that misses would not end.  The station build
    inserts peers in ad-hoc mode only, so the cycle is latent. *)
Definition infra : sta_cfg := mk_stacfg true 0 0.
Definition cyclic_table : option MAC_TABLE :=
  T ← sta_enter_ap infra start_table [2; 0; 0; 0; 0; 5];
  '(_, T) ← MacTableInsertEntry infra T [0; 0; 0; 0; 7; 0] 0;
  '(_, T) ← MacTableDeleteEntry T 1 [2; 0; 0; 0; 0; 5];
  sta_enter_ap infra T [2; 0; 0; 0; 0; 5].

Example stale_link_cycle :
  match cyclic_table with
  | Some T => MacTableLookup T [7; 0; 0; 0; 0; 0] = None
  | None => False
  end.
Proof. vm_compute. done. Qed.
