(* ===== verification/Arc4.v ===== *)
(** The ARC4 stream cipher: src/common/crypt_arc4.c and its context of
    src/include/crypt_arc4.h.

    [ARC4_Compute] reads and writes buffers that its callers let overlap, so
    the model runs it on one memory with an input and an output offset, a
    byte at a time as the loop does. *)

From S2P Require Import Prelude.

Record ARC4_CTX_STRUC := mk_arc4 {
  BlockIndex1 : Z;
  BlockIndex2 : Z;
  KeyBlock : list Z
}.

Definition ARC4_KEY_BLOCK_SIZE : nat := 256.

(** The exchange of two entries as the code writes it: the value of the first
    was saved in [TempValue]. *)
Definition swap (K : list Z) (i j : Z) : list Z :=
  aset (aset K i (aget K j)) j (aget K i).

Definition init_step (pKey : list Z) (KeyLength : Z) (st : Z * list Z) (BlockIndex : nat)
    : Z * list Z :=
  let '(SWAPIndex, K) := st in
  let i := Z.of_nat BlockIndex in
  let TempValue := aget K i in
  let KeyIndex := i `mod` KeyLength in
  let SWAPIndex := Z.land (SWAPIndex + TempValue + aget pKey KeyIndex) 0xff in
  (SWAPIndex, swap K i SWAPIndex).

Definition ARC4_INIT (pKey : list Z) (KeyLength : Z) : ARC4_CTX_STRUC :=
  let K := map (λ i, u8 (Z.of_nat i)) (seq 0 ARC4_KEY_BLOCK_SIZE) in
  mk_arc4 0 0
    (foldl (init_step pKey KeyLength) (0, K) (seq 0 ARC4_KEY_BLOCK_SIZE)).2.

(** One turn of the generator, common to [ARC4_Compute] and
    [ARC4_Discard_KeyLength]. *)
Definition arc4_turn (c : ARC4_CTX_STRUC) : ARC4_CTX_STRUC :=
  let i := Z.land (BlockIndex1 c + 1) 0xff in
  let TempValue := aget (KeyBlock c) i in
  let j := Z.land (BlockIndex2 c + TempValue) 0xff in
  mk_arc4 i j (swap (KeyBlock c) i j).

(** The key byte of a turn: [TempValue] is the exchanged entry, now at
    [BlockIndex2]. *)
Definition arc4_byte (c : ARC4_CTX_STRUC) : Z :=
  let TempValue := aget (KeyBlock c) (BlockIndex2 c) in
  let TempValue := Z.land (TempValue + aget (KeyBlock c) (BlockIndex1 c)) 0xff in
  aget (KeyBlock c) TempValue.

Fixpoint ARC4_Compute (c : ARC4_CTX_STRUC) (mem : list Z) (InputBlock : nat)
    (InputBlockSize : nat) (OutputBlock : nat) : ARC4_CTX_STRUC * list Z :=
  match InputBlockSize with
  | O => (c, mem)
  | S n =>
      let c := arc4_turn c in
      let b := Z.lxor (nth InputBlock mem 0) (arc4_byte c) in
      ARC4_Compute c (<[OutputBlock := b]> mem) (S InputBlock) n (S OutputBlock)
  end.

Fixpoint ARC4_Discard_KeyLength (c : ARC4_CTX_STRUC) (Length : nat) : ARC4_CTX_STRUC :=
  match Length with
  | O => c
  | S n => ARC4_Discard_KeyLength (arc4_turn c) n
  end.

(** * The key stream *)

Fixpoint keystream (c : ARC4_CTX_STRUC) (n : nat) : list Z :=
  match n with
  | O => []
  | S n => let c := arc4_turn c in arc4_byte c :: keystream c n
  end.

(** The type invariant of a context. *)
Definition arc4_wf (c : ARC4_CTX_STRUC) : Prop :=
  byte (BlockIndex1 c) ∧ byte (BlockIndex2 c) ∧
  KeyBlock c ≡ₚ map Z.of_nat (seq 0 256).

(** * Permutation *)

Lemma insert_perm (l : list Z) i x y :
  l !! i = Some x → y :: l ≡ₚ x :: <[i := y]> l.
Proof.
  revert i. induction l as [|a l IH]; intros [|i]; simpl; try done.
  - intros [= ->]. apply Permutation_swap.
  - intros H. rewrite (Permutation_swap a y), (IH i H). apply Permutation_swap.
Qed.

Lemma aget_lookup l i : byte i → length l = 256%nat → l !! Z.to_nat i = Some (aget l i).
Proof.
  intros [H1 H2] Hl. unfold aget. rewrite nth_lookup.
  destruct (lookup_lt_is_Some_2 l (Z.to_nat i)) as [x ->]; [lia|done].
Qed.

Lemma swap_perm K i j : byte i → byte j → length K = 256%nat → swap K i j ≡ₚ K.
Proof.
  intros Hi Hj Hl. unfold swap, aset.
  pose proof (aget_lookup K i Hi Hl) as Li. pose proof (aget_lookup K j Hj Hl) as Lj.
  set (x := aget K i) in *. set (y := aget K j) in *.
  assert (H1 : <[Z.to_nat i := y]> K !! Z.to_nat j = Some y).
  { destruct (decide (Z.to_nat i = Z.to_nat j)) as [E|E].
    - rewrite E, list_lookup_insert_eq; [done|]. destruct Hj. lia.
    - by rewrite list_lookup_insert_ne. }
  apply (Permutation_cons_inv (a := y)).
  rewrite <- (insert_perm _ _ _ x H1). symmetry. by apply insert_perm.
Qed.

Lemma perm_length c : arc4_wf c → length (KeyBlock c) = 256%nat.
Proof. intros (_ & _ & H). apply Permutation_length in H. by rewrite H. Qed.

Lemma land_ff_byte x : byte (Z.land x 0xff).
Proof. apply u8_byte. Qed.

Lemma arc4_turn_wf c : arc4_wf c → arc4_wf (arc4_turn c).
Proof.
  intros Hwf. pose proof (perm_length c Hwf) as Hl. destruct Hwf as (H1 & H2 & H3).
  unfold arc4_wf, arc4_turn. simpl. conjs; try apply land_ff_byte.
  rewrite swap_perm; auto using land_ff_byte.
Qed.

Lemma init_fold_perm key len l : ∀ st,
  Forall (λ i, (i < 256)%nat) l → length st.2 = 256%nat →
  (foldl (init_step key len) st l).2 ≡ₚ st.2.
Proof.
  induction l as [|i l IH]; intros [q K] Hf Hl; simpl; [done|].
  apply Forall_cons in Hf as [Hi Hf]. simpl in Hl.
  assert (Hp : (init_step key len (q, K) i).2 ≡ₚ K).
  { unfold init_step. simpl. apply swap_perm; [|apply land_ff_byte|done].
    split; [lia|]. simpl. lia. }
  etransitivity; [apply IH; [done|]|exact Hp].
  apply Permutation_length in Hp. exact (eq_trans Hp Hl).
Qed.

Lemma ARC4_INIT_wf key len : arc4_wf (ARC4_INIT key len).
Proof.
  unfold ARC4_INIT, arc4_wf. simpl BlockIndex1. simpl BlockIndex2. conjs; [done|done|].
  cbn [KeyBlock]. etransitivity.
  - apply (init_fold_perm key len (seq 0 256) (0, _)); [|vm_compute; done].
    apply Forall_forall. intros i Hi%elem_of_seq. lia.
  - cbn [snd]. apply reflexive_eq. apply map_ext_in. intros i Hi%in_seq.
    apply wrap_id; [done|]. unfold in_range, ARC4_KEY_BLOCK_SIZE in *. lia.
Qed.

Lemma keystream_bytes n c : arc4_wf c → bytes (keystream c n).
Proof.
  revert c. induction n as [|n IH]; intros c Hwf; simpl; [constructor|].
  apply arc4_turn_wf in Hwf. constructor; [|by apply IH].
  apply aget_bytes. destruct Hwf as (_ & _ & H).
  rewrite H.
  apply Forall_forall. intros x. rewrite list_elem_of_In, in_map_iff.
  intros (i & <- & Hi%in_seq). unfold in_range. lia.
Qed.

Lemma length_keystream c n : length (keystream c n) = n.
Proof. revert c. induction n; intros; simpl; auto. Qed.

Lemma keystream_app c n m :
  keystream c (n + m) = keystream c n ++ keystream (ARC4_Discard_KeyLength c n) m.
Proof. revert c. induction n; intros; simpl; [done|]. f_equal. auto. Qed.

(** * What [ARC4_Compute] writes *)

Lemma ARC4_Compute_copy n : ∀ c mem i o,
  ARC4_Compute c mem i n o = (ARC4_Discard_KeyLength c n, xor_copy mem i o (keystream c n)).
Proof. induction n as [|n IH]; intros c mem i o; simpl; [done|]. by rewrite IH. Qed.

(** Reading at or ahead of the writes, the loop is the pointwise xor of the
    input with the key stream. *)
Lemma ARC4_Compute_spec n c mem i o :
  (o ≤ i)%nat → (i + n ≤ length mem)%nat →
  ARC4_Compute c mem i n o =
    (ARC4_Discard_KeyLength c n,
     bwrite mem o (xor_list (take n (drop i mem)) (keystream c n))).
Proof.
  intros. rewrite ARC4_Compute_copy, xor_copy_spec; rewrite ?length_keystream; done.
Qed.

(** In place, ARC4 is its own inverse. *)
Lemma ARC4_inplace c mem :
  (ARC4_Compute c mem 0 (length mem) 0).2 = xor_list mem (keystream c (length mem)).
Proof.
  rewrite ARC4_Compute_spec by lia. cbn [snd]. rewrite drop_0, firstn_all.
  apply bwrite_all. rewrite length_xor_list; [done|by rewrite length_keystream].
Qed.

(** * The properties *)

(** Type invariant of ARC4: for any key the schedule leaves the state a
    permutation of 0..255 with both indices in range, and every run of the
    generator, by [ARC4_Compute] or by [ARC4_Discard_KeyLength], keeps it. *)
Theorem arc4_state_permutation key len c n (Hwf : arc4_wf c) :
  arc4_wf (ARC4_INIT key len) ∧ arc4_wf (ARC4_Discard_KeyLength c n) ∧
  (∀ mem i o, arc4_wf (ARC4_Compute c mem i n o).1).
Proof.
  split; [apply ARC4_INIT_wf|]. revert c Hwf.
  induction n as [|n IH]; intros c Hwf; [done|].
  apply arc4_turn_wf in Hwf. destruct (IH _ Hwf) as [H1 H2].
  split; [apply H1|]. intros mem i o. apply H2.
Qed.

Lemma arc4_state_permutation_witness :
  arc4_wf (ARC4_Discard_KeyLength (mk_arc4 0 0 (map Z.of_nat (seq 0 256))) 3).
Proof.
  apply (arc4_state_permutation [1; 2; 3] 3 (mk_arc4 0 0 (map Z.of_nat (seq 0 256))) 3).
  unfold arc4_wf. repeat split; vm_compute; done.
Defined.

(** Round trip of ARC4 with overlapping buffers: encrypting a message in
    place and then decrypting it into a buffer that starts [gap] bytes before
    the ciphertext, as the frame decryption does over the frame's header,
    yields the message, and what follows it is left as it was. *)
Theorem arc4_round_trip c hdr msg rest gap
    (Hgap : length hdr = gap) :
  let enc := (ARC4_Compute c (hdr ++ msg ++ rest) gap (length msg) gap).2 in
  let dec := (ARC4_Compute c enc gap (length msg) 0).2 in
  take gap enc = hdr ∧ drop (gap + length msg) enc = rest ∧
  take (length msg) dec = msg ∧ length dec = length (hdr ++ msg ++ rest) ∧
  drop (gap + length msg) dec = rest.
Proof.
  subst gap. set (n := length msg). set (k := length hdr). cbv zeta.
  assert (Hks : length (xor_list msg (keystream c n)) = n)
    by (rewrite length_xor_list; [done|by rewrite length_keystream]).
  assert (Hrest : ∀ l : list Z, length l = n → drop (k + n) (hdr ++ l ++ rest) = rest)
    by (intros l Hl; by rewrite <- drop_drop, !drop_app_length').
  assert (Henc : (ARC4_Compute c (hdr ++ msg ++ rest) k n k).2 =
                 hdr ++ xor_list msg (keystream c n) ++ rest).
  { rewrite ARC4_Compute_spec by (rewrite ?length_app; lia). cbn [snd].
    rewrite drop_app_length', take_app_length' by done. unfold bwrite.
    by rewrite Hks, take_app_length', Hrest. }
  assert (Hdec : (ARC4_Compute c (hdr ++ xor_list msg (keystream c n) ++ rest) k n 0).2 =
                 bwrite (hdr ++ xor_list msg (keystream c n) ++ rest) 0 msg).
  { rewrite ARC4_Compute_spec by (rewrite ?length_app, ?Hks; lia). cbn [snd].
    rewrite drop_app_length', take_app_length' by done.
    by rewrite xor_list_cancel by (rewrite length_keystream; lia). }
  rewrite Henc, Hdec.
  conjs.
  - by rewrite take_app_length'.
  - by apply Hrest.
  - unfold bwrite. rewrite take_0. cbn [app]. by apply take_app_length'.
  - rewrite length_bwrite; rewrite !length_app, Hks; lia.
  - unfold bwrite. rewrite take_0. cbn [app plus]. fold n.
    rewrite drop_app_ge by (fold n; lia). fold n. rewrite drop_drop.
    replace (n + (k + n - n))%nat with (k + n)%nat by lia. by apply Hrest.
Qed.

Lemma arc4_round_trip_witness :
  take 3 (ARC4_Compute (ARC4_INIT [1; 2; 3] 3)
    (ARC4_Compute (ARC4_INIT [1; 2; 3] 3) [9; 9; 7; 8; 9; 5] 2 3 2).2 2 3 0).2 = [7; 8; 9].
Proof.
  destruct (arc4_round_trip (ARC4_INIT [1; 2; 3] 3) [9; 9] [7; 8; 9] [5] 2 eq_refl)
    as (_ & _ & H & _). exact H.
Defined.

(** The published test vector of the key "Key" (75, 101, 121). *)
Example arc4_vector :
  keystream (ARC4_INIT [75; 101; 121] 3) 10 = [235; 159; 119; 129; 183; 52; 202; 114; 167; 25].
Proof. vm_compute. reflexivity. Qed.
