(* ===== verification/Wep.v ===== *)
(** WEP: src/common/cmm_wep.c.

    The CRC-32 of the ICV by table, the WEP seed and the encapsulation and
    decapsulation of a frame over ARC4.  Frames are decrypted in place over
    their IV header.  The outcome of an allocation is an argument
    ([alloc_ctx], [alloc_seed]); the contents of the freshly allocated
    context, which survive when the seed cannot be allocated, are [ctx0].
    [None] is an access outside of a buffer. *)

From S2P Require Import Prelude CipherKey Arc4.

Definition FCSTAB_32 : list Z :=
  [0; 1996959894; 3993919788; 2567524794; 124634137; 1886057615;
   3915621685; 2657392035; 249268274; 2044508324; 3772115230; 2547177864;
   162941995; 2125561021; 3887607047; 2428444049; 498536548; 1789927666;
   4089016648; 2227061214; 450548861; 1843258603; 4107580753; 2211677639;
   325883990; 1684777152; 4251122042; 2321926636; 335633487; 1661365465;
   4195302755; 2366115317; 997073096; 1281953886; 3579855332; 2724688242;
   1006888145; 1258607687; 3524101629; 2768942443; 901097722; 1119000684;
   3686517206; 2898065728; 853044451; 1172266101; 3705015759; 2882616665;
   651767980; 1373503546; 3369554304; 3218104598; 565507253; 1454621731;
   3485111705; 3099436303; 671266974; 1594198024; 3322730930; 2970347812;
   795835527; 1483230225; 3244367275; 3060149565; 1994146192; 31158534;
   2563907772; 4023717930; 1907459465; 112637215; 2680153253; 3904427059;
   2013776290; 251722036; 2517215374; 3775830040; 2137656763; 141376813;
   2439277719; 3865271297; 1802195444; 476864866; 2238001368; 4066508878;
   1812370925; 453092731; 2181625025; 4111451223; 1706088902; 314042704;
   2344532202; 4240017532; 1658658271; 366619977; 2362670323; 4224994405;
   1303535960; 984961486; 2747007092; 3569037538; 1256170817; 1037604311;
   2765210733; 3554079995; 1131014506; 879679996; 2909243462; 3663771856;
   1141124467; 855842277; 2852801631; 3708648649; 1342533948; 654459306;
   3188396048; 3373015174; 1466479909; 544179635; 3110523913; 3462522015;
   1591671054; 702138776; 2966460450; 3352799412; 1504918807; 783551873;
   3082640443; 3233442989; 3988292384; 2596254646; 62317068; 1957810842;
   3939845945; 2647816111; 81470997; 1943803523; 3814918930; 2489596804;
   225274430; 2053790376; 3826175755; 2466906013; 167816743; 2097651377;
   4027552580; 2265490386; 503444072; 1762050814; 4150417245; 2154129355;
   426522225; 1852507879; 4275313526; 2312317920; 282753626; 1742555852;
   4189708143; 2394877945; 397917763; 1622183637; 3604390888; 2714866558;
   953729732; 1340076626; 3518719985; 2797360999; 1068828381; 1219638859;
   3624741850; 2936675148; 906185462; 1090812512; 3747672003; 2825379669;
   829329135; 1181335161; 3412177804; 3160834842; 628085408; 1382605366;
   3423369109; 3138078467; 570562233; 1426400815; 3317316542; 2998733608;
   733239954; 1555261956; 3268935591; 3050360625; 752459403; 1541320221;
   2607071920; 3965973030; 1969922972; 40735498; 2617837225; 3943577151;
   1913087877; 83908371; 2512341634; 3803740692; 2075208622; 213261112;
   2463272603; 3855990285; 2094854071; 198958881; 2262029012; 4057260610;
   1759359992; 534414190; 2176718541; 4139329115; 1873836001; 414664567;
   2282248934; 4279200368; 1711684554; 285281116; 2405801727; 4167216745;
   1634467795; 376229701; 2685067896; 3608007406; 1308918612; 956543938;
   2808555105; 3495958263; 1231636301; 1047427035; 2932959818; 3654703836;
   1088359270; 936918000; 2847714899; 3736837829; 1202900863; 817233897;
   3183342108; 3401237130; 1404277552; 615818150; 3134207493; 3453421203;
   1423857449; 601450431; 3009837614; 3294710456; 1567103746; 711928724;
   3020668471; 3272380065; 1510334235; 755167117].

Definition PPPINITFCS32 : Z := 4294967295.

(** * The checksum *)

Definition fcs_step (Fcs b : Z) : Z :=
  Z.lxor (Z.shiftr Fcs 8) (aget FCSTAB_32 (Z.land (Z.lxor Fcs b) 0xff)).

Definition RTMP_CALC_FCS32 (Fcs : Z) (Cp : list Z) : Z := foldl fcs_step Fcs Cp.

(** * Seed and header *)

Definition RTMPInitWepEngine (alloc_seed : bool) (ctx0 : ARC4_CTX_STRUC)
    (pIv pKey : list Z) (KeyLen : Z) : option ARC4_CTX_STRUC :=
  if negb alloc_seed then Some ctx0
  else
    let n := Z.to_nat KeyLen in
    if negb (in_buf pIv 0 3 && in_buf pKey 0 n && Nat.leb (3 + n) 16) then None
    else
      let seed := zeros 16 in
      let seed := bwrite seed 0 (take 3 pIv) in
      let seed := bwrite seed 3 (take n pKey) in
      let seed_len := u8 (3 + KeyLen) in
      Some (ARC4_INIT seed seed_len).

Definition RTMPConstructWEPIVHdr (key_idx : Z) (pn : list Z) : list Z :=
  let iv_hdr := zeros LEN_WEP_IV_HDR in
  let iv_hdr := bwrite iv_hdr 0 (take LEN_WEP_TSC pn) in
  aset iv_hdr 3 (u8 (Z.shiftl key_idx 6)).

(** * Encapsulation and decapsulation *)

Section Alloc.
Context (alloc_ctx alloc_seed : bool) (ctx0 : ARC4_CTX_STRUC).

(** The result value and the data buffer. *)
Definition RTMPSoftEncryptWEP (pIvHdr : list Z) (pKey : CIPHER_KEY) (pData : list Z)
    (DataByteCnt : nat) : option (bool * list Z) :=
  if negb alloc_ctx then Some (false, pData)
  else if KeyLen pKey =? 0 then Some (false, pData)
  else
    ctx ← RTMPInitWepEngine alloc_seed ctx0 pIvHdr (Key pKey) (KeyLen pKey);
    if negb (in_buf pData 0 (DataByteCnt + LEN_ICV)) then None
    else
      let FCSCRC32 := RTMP_CALC_FCS32 PPPINITFCS32 (take DataByteCnt pData) in
      let FCSCRC32 := Z.lxor FCSCRC32 4294967295 in
      let pData := bwrite pData DataByteCnt (le_bytes LEN_ICV FCSCRC32) in
      let '(_, pData) := ARC4_Compute ctx pData 0 (DataByteCnt + LEN_ICV) 0 in
      Some (true, pData).

(** The result value, the data buffer and the updated length. *)
Definition RTMPSoftDecryptWEP (pKey : CIPHER_KEY) (pData : list Z) (DataByteCnt : Z)
    : option (bool * list Z * Z) :=
  if negb alloc_ctx then Some (false, pData, DataByteCnt)
  else if KeyLen pKey =? 0 then Some (false, pData, DataByteCnt)
  else
    ctx ← RTMPInitWepEngine alloc_seed ctx0 pData (Key pKey) (KeyLen pKey);
    let ciphertext_len := u16 (DataByteCnt - Z.of_nat LEN_WEP_IV_HDR) in
    if DataByteCnt <=? Z.of_nat LEN_WEP_IV_HDR then Some (false, pData, DataByteCnt)
    else if negb (in_buf pData LEN_WEP_IV_HDR (Z.to_nat ciphertext_len)) then None
    else
      let '(_, pData) :=
        ARC4_Compute ctx pData LEN_WEP_IV_HDR (Z.to_nat ciphertext_len) 0 in
      let plaintext_len := u16 (ciphertext_len - Z.of_nat LEN_ICV) in
      let n := Z.to_nat plaintext_len in
      if negb (in_buf pData n LEN_ICV) then None
      else
        let trailfcs := le_word (slice pData n LEN_ICV) in
        let crc32 := RTMP_CALC_FCS32 PPPINITFCS32 (take n pData) in
        let crc32 := Z.lxor crc32 4294967295 in
        if negb (crc32 =? trailfcs) then Some (false, pData, DataByteCnt)
        else Some (true, pData, plaintext_len).
End Alloc.

(** * CRC-32 bit by bit *)

Definition crc_bit (x : Z) : Z :=
  Z.lxor (Z.shiftr x 1) (if Z.odd x then 3988292384 else 0).

Definition crc_byte (fcs b : Z) : Z := Nat.iter 8 crc_bit (Z.lxor fcs b).

Definition crc32_bits (fcs : Z) (data : list Z) : Z := foldl crc_byte fcs data.

Lemma crc_bit_lxor x y : crc_bit (Z.lxor x y) = Z.lxor (crc_bit x) (crc_bit y).
Proof.
  unfold crc_bit. rewrite Z.shiftr_lxor, <- !Z.bit0_odd, Z.lxor_spec.
  destruct (Z.testbit x 0), (Z.testbit y 0); simpl; bits i; btauto.
Qed.

Lemma crc_iter_lxor n x y :
  Nat.iter n crc_bit (Z.lxor x y) = Z.lxor (Nat.iter n crc_bit x) (Nat.iter n crc_bit y).
Proof. induction n as [|n IH]; simpl; [done|]. by rewrite IH, crc_bit_lxor. Qed.

(** A number whose low [n] bits are zero is only shifted. *)
Lemma crc_iter_shift n x : Nat.iter n crc_bit (Z.shiftl x (Z.of_nat n)) = x.
Proof.
  revert x. induction n as [|n IH]; intros x.
  - simpl. by rewrite Z.shiftl_0_r.
  - replace (Z.of_nat (S n)) with (1 + Z.of_nat n) by lia.
    rewrite <- Z.shiftl_shiftl by lia. simpl. rewrite IH. unfold crc_bit.
    rewrite <- Z.bit0_odd, Z.shiftl_spec_low by lia.
    rewrite Z.shiftr_shiftl_l by lia. by rewrite Z.shiftl_0_r, Z.lxor_0_r.
Qed.

Lemma split_low8 x : x = Z.lxor (Z.shiftl (Z.shiftr x 8) 8) (Z.land x 0xff).
Proof.
  bits i. rewrite Z.shiftl_spec by lia. change 0xff with (Z.ones 8).
  rewrite Z.testbit_ones by lia. destruct (decide (i < 8)).
  - rewrite (Z.testbit_neg_r _ (i - 8)) by lia.
    replace ((0 <=? i) && (i <? 8)) with true by lia. by destruct (Z.testbit x i).
  - rewrite Z.shiftr_spec by lia. replace (i - 8 + 8) with i by lia.
    replace ((0 <=? i) && (i <? 8)) with false by lia. by destruct (Z.testbit x i).
Qed.

Lemma FCSTAB_32_spec :
  FCSTAB_32 = map (λ i, Nat.iter 8 crc_bit (Z.of_nat i)) (seq 0 256).
Proof. vm_compute. reflexivity. Qed.

Lemma FCSTAB_32_aget i : byte i → aget FCSTAB_32 i = Nat.iter 8 crc_bit i.
Proof.
  intros [H1 H2]. rewrite FCSTAB_32_spec.
  apply (aget_table (Nat.iter 8 crc_bit) 256). lia.
Qed.

Lemma fcs_step_bits fcs b : byte b → fcs_step fcs b = crc_byte fcs b.
Proof.
  intros Hb. unfold fcs_step, crc_byte. set (x := Z.lxor fcs b).
  rewrite (split_low8 x) at 2. rewrite crc_iter_lxor.
  rewrite (crc_iter_shift 8). rewrite FCSTAB_32_aget by apply u8_byte.
  f_equal. subst x. rewrite Z.shiftr_lxor.
  replace (Z.shiftr b 8) with 0; [by rewrite Z.lxor_0_r|].
  symmetry. apply Z.bits_inj'. intros i Hi. rewrite Z.shiftr_spec, Z.bits_0 by lia.
  apply (in_range_testbit 8); [done|lia].
Qed.

(** The checksum stays a 32-bit word. *)
Lemma crc_bit_range x : word32 x → word32 (crc_bit x).
Proof.
  intros Hx. unfold crc_bit. apply in_range_lxor; [done| |by destruct (Z.odd x)].
  by apply in_range_shiftr.
Qed.

Lemma fcs32_range fcs data : word32 fcs → bytes data → word32 (RTMP_CALC_FCS32 fcs data).
Proof.
  unfold RTMP_CALC_FCS32. intros Hf Hd. revert fcs Hf.
  induction Hd as [|b data Hb Hd IH]; intros fcs Hf; simpl; [done|]. apply IH.
  rewrite fcs_step_bits by done. unfold crc_byte.
  assert (word32 (Z.lxor fcs b)).
  { apply in_range_lxor; [done|done|]. eapply in_range_mono; [|exact Hb]. lia. }
  simpl. by repeat apply crc_bit_range.
Qed.

(** * Lemmas of the frame functions *)

Lemma lxor_ones_range x : word32 x → word32 (Z.lxor x 4294967295).
Proof. intros. by apply in_range_lxor. Qed.

Lemma le_word_icv x : word32 x → le_word (le_bytes LEN_ICV x) = x.
Proof. intros. rewrite le_word_le_bytes. by apply wrap_id. Qed.

(** A usable WEP key. *)
Definition wep_key (k : CIPHER_KEY) : Prop := key_wf k ∧ 1 ≤ KeyLen k ≤ 13.

Lemma wep_engine k iv ctx0 :
  wep_key k → (3 ≤ length iv)%nat →
  RTMPInitWepEngine true ctx0 iv (Key k) (KeyLen k) =
    Some (ARC4_INIT (take 3 iv ++ take (Z.to_nat (KeyLen k)) (Key k) ++
                     zeros (13 - Z.to_nat (KeyLen k))) (3 + KeyLen k)).
Proof.
  intros [(Hk & _) Hl] Hiv. unfold RTMPInitWepEngine, in_buf. cbn [negb]. cbv iota.
  set (n := Z.to_nat (KeyLen k)).
  rewrite Hk. rewrite !(proj2 (Nat.leb_le _ _)) by (unfold n; lia). cbn [negb andb]. cbv iota zeta.
  rewrite (wrap_id 8 (3 + KeyLen k)) by (unfold in_range; lia).
  assert (E : length (take n (Key k)) = n) by (rewrite length_take; unfold n; lia).
  f_equal. f_equal. unfold bwrite at 2. rewrite take_0, length_take, Nat.min_l by lia.
  change (drop (0 + 3) (zeros 16)) with (zeros 13). cbn [app].
  unfold bwrite. rewrite take_app_length' by (rewrite length_take; lia). f_equal.
  rewrite E, <- drop_drop. rewrite drop_app_length' by (rewrite length_take; lia).
  unfold zeros. by rewrite drop_replicate.
Qed.

(** The plain text behind its checksum. *)
Definition with_icv (d : list Z) : list Z :=
  d ++ le_bytes LEN_ICV (Z.lxor (RTMP_CALC_FCS32 PPPINITFCS32 d) 4294967295).

Lemma length_with_icv d : length (with_icv d) = (length d + 4)%nat.
Proof. unfold with_icv. by rewrite length_app, length_le_bytes. Qed.

(** Bytes behind the room for the checksum are left alone. *)
Lemma wep_encrypt_long ctx0 as_ ctx iv k d room more :
  KeyLen k ≠ 0 → length room = LEN_ICV →
  RTMPInitWepEngine as_ ctx0 iv (Key k) (KeyLen k) = Some ctx →
  RTMPSoftEncryptWEP true as_ ctx0 iv k (d ++ room ++ more) (length d) =
    Some (true, xor_list (with_icv d) (keystream ctx (length d + 4)) ++ more).
Proof.
  intros Hk Hr He. unfold RTMPSoftEncryptWEP. cbn [negb]. cbv iota.
  rewrite (proj2 (Z.eqb_neq _ _) Hk), He. cbn [mbind option_bind].
  unfold in_buf. rewrite !length_app, Hr, (proj2 (Nat.leb_le _ _)) by lia.
  cbn [negb]. cbv iota zeta. rewrite take_app_length.
  replace (bwrite (d ++ room ++ more) (length d) _) with (with_icv d ++ more).
  2: { unfold bwrite, with_icv. rewrite take_app_length, length_le_bytes.
       rewrite (app_assoc d room more), drop_app_length' by (rewrite length_app, Hr; lia). by rewrite app_assoc. }
  pose proof (length_with_icv d) as Hl. unfold LEN_ICV in *.
  rewrite ARC4_Compute_spec by (rewrite ?length_app, ?Hl; lia).
  rewrite drop_0, take_app_length' by lia. do 2 f_equal. unfold bwrite. rewrite take_0. cbn [app plus].
  rewrite drop_app_length'; [done|]. rewrite length_xor_list; rewrite ?length_keystream; lia.
Qed.

Lemma wep_encrypt_spec ctx0 as_ ctx iv k d room :
  KeyLen k ≠ 0 → length room = LEN_ICV →
  RTMPInitWepEngine as_ ctx0 iv (Key k) (KeyLen k) = Some ctx →
  RTMPSoftEncryptWEP true as_ ctx0 iv k (d ++ room) (length d) =
    Some (true, xor_list (with_icv d) (keystream ctx (length d + 4))).
Proof.
  intros Hk Hr He. pose proof (wep_encrypt_long ctx0 as_ ctx iv k d room [] Hk Hr He) as H. by rewrite !app_nil_r in H.
Qed.

(** Decapsulation of a frame whose payload has the given key stream. *)
Lemma wep_decrypt_spec ctx0 as_ ctx k hdr c :
  KeyLen k ≠ 0 → length hdr = LEN_WEP_IV_HDR → (LEN_ICV ≤ length c)%nat →
  Z.of_nat (length c) + 4 < 65536 →
  RTMPInitWepEngine as_ ctx0 (hdr ++ c) (Key k) (KeyLen k) = Some ctx →
  let p := xor_list c (keystream ctx (length c)) in
  let n := (length c - 4)%nat in
  RTMPSoftDecryptWEP true as_ ctx0 k (hdr ++ c) (Z.of_nat (length c + 4)) =
    Some (if Z.lxor (RTMP_CALC_FCS32 PPPINITFCS32 (take n p)) 4294967295 =? le_word (drop n p)
          then (true, bwrite (hdr ++ c) 0 p, Z.of_nat n)
          else (false, bwrite (hdr ++ c) 0 p, Z.of_nat (length c + 4))).
Proof.
  intros Hk Hh Hc Hmax He p n. unfold RTMPSoftDecryptWEP. cbn [negb]. cbv iota.
  rewrite (proj2 (Z.eqb_neq _ _) Hk), He. cbn [mbind option_bind].
  unfold LEN_ICV, LEN_WEP_IV_HDR in *.
  replace (Z.of_nat (length c + 4) - Z.of_nat 4) with (Z.of_nat (length c)) by lia.
  rewrite (wrap_id 16 (Z.of_nat (length c))) by (unfold in_range; lia).
  cbv zeta. rewrite (proj2 (Z.leb_gt _ _)) by lia. rewrite Nat2Z.id.
  unfold in_buf at 1. rewrite length_app, Hh, (proj2 (Nat.leb_le _ _)) by lia.
  cbn [negb]. cbv iota.
  rewrite ARC4_Compute_spec by (rewrite ?length_app, ?Hh; lia).
  rewrite drop_app_length', firstn_all by done. fold p.
  assert (Hp : length p = length c)
    by (unfold p; apply length_xor_list; by rewrite length_keystream).
  replace (Z.of_nat (length c) - Z.of_nat 4) with (Z.of_nat n) by lia.
  rewrite (wrap_id 16 (Z.of_nat n)) by (unfold in_range; lia). rewrite Nat2Z.id.
  set (b := bwrite (hdr ++ c) 0 p).
  assert (Hb : b = p ++ drop (length c) (hdr ++ c))
    by (unfold b, bwrite; rewrite take_0; cbn [app plus]; by rewrite Hp).
  unfold in_buf. rewrite (proj2 (Nat.leb_le _ _)).
  2: { rewrite Hb, length_app, Hp. lia. }
  cbn [negb]. cbv iota. rewrite Hb at 1 2. unfold slice.
  rewrite take_app_le by lia.
  rewrite (drop_app_le p) by lia. rewrite take_app_length' by (rewrite length_drop; lia).
  by destruct (_ =? _).
Qed.

(** Encapsulation with an IV and decapsulation behind a header that starts
    with the same three bytes. *)
Lemma wep_encap_decap ctx0 ctx1 k iv hdr d room :
  wep_key k → length hdr = LEN_WEP_IV_HDR → (3 ≤ length iv)%nat → take 3 iv = take 3 hdr →
  length room = LEN_ICV → bytes d → Z.of_nat (length d) + 8 < 65536 →
  ∃ c buf,
    (∀ more, RTMPSoftEncryptWEP true true ctx0 iv k (d ++ room ++ more) (length d) = Some (true, c ++ more)) ∧
    length c = (length d + 4)%nat ∧
    RTMPSoftDecryptWEP true true ctx1 k (hdr ++ c) (Z.of_nat (length c + 4)) =
      Some (true, buf, Z.of_nat (length d)) ∧
    take (length d) buf = d.
Proof.
  intros Hk Hh Hiv H3 Hr Hd Hlen.
  assert (Hk0 : KeyLen k ≠ 0) by (destruct Hk; lia).
  set (ctx := ARC4_INIT (take 3 hdr ++ take (Z.to_nat (KeyLen k)) (Key k) ++
                     zeros (13 - Z.to_nat (KeyLen k))) (3 + KeyLen k)).
  set (c := xor_list (with_icv d) (keystream ctx (length d + 4))).
  assert (Hc : length c = (length d + 4)%nat).
  { unfold c. rewrite length_xor_list; [apply length_with_icv|].
    by rewrite length_with_icv, length_keystream. }
  eexists c, _. split; [|split; [done|split]].
  - intros more. apply wep_encrypt_long; [done|done|]. rewrite wep_engine, H3 by done. done.
  - rewrite (wep_decrypt_spec ctx1 true ctx); [|done|done|unfold LEN_ICV; lia|lia|].
    + rewrite Hc. unfold c at 1 2. rewrite Nat.add_sub.
      rewrite xor_list_cancel by (rewrite length_with_icv, length_keystream; lia).
      unfold with_icv. rewrite take_app_length, drop_app_length, le_word_icv.
      * rewrite Z.eqb_refl. reflexivity.
      * apply lxor_ones_range, fcs32_range; [done|done].
    + rewrite wep_engine by (rewrite ?length_app, ?Hh; unfold LEN_WEP_IV_HDR; done || lia).
      by rewrite take_app_le by (rewrite Hh; unfold LEN_WEP_IV_HDR; lia).
  - unfold c. rewrite xor_list_cancel by (rewrite length_with_icv, length_keystream; lia).
    unfold with_icv, bwrite. rewrite take_0. cbn [app].
    rewrite <- app_assoc. apply take_app_length.
Qed.

Lemma wep_iv_hdr key_id pn :
  (3 ≤ length pn)%nat →
  length (RTMPConstructWEPIVHdr key_id pn) = LEN_WEP_IV_HDR ∧
  take 3 (RTMPConstructWEPIVHdr key_id pn) = take 3 pn.
Proof.
  intros Hl. destruct pn as [|a [|b [|c pn]]]; simpl in Hl; try lia. done.
Qed.

(** * The properties *)

(** The table-driven checksum of the ICV is the CRC-32 computed bit by
    bit with the reflected polynomial of IEEE 802.3, from any start value. *)
Theorem fcs32_is_crc32 Fcs data (Hd : bytes data) :
  RTMP_CALC_FCS32 Fcs data = crc32_bits Fcs data.
Proof.
  unfold RTMP_CALC_FCS32, crc32_bits. revert Fcs.
  induction Hd as [|b data Hb Hd IH]; intros Fcs; simpl; [done|].
  by rewrite fcs_step_bits, IH.
Qed.

Lemma fcs32_is_crc32_witness :
  Z.lxor (RTMP_CALC_FCS32 PPPINITFCS32 [49; 50; 51; 52; 53; 54; 55; 56; 57]) 4294967295
    = 3421780262.
Proof. rewrite fcs32_is_crc32 by solve_bytes. reflexivity. Defined.

(** WEP round trip: a frame encapsulated under any usable key and sent
    behind its IV header is decapsulated to the same data, in place over the
    header, with the length of the data reported. *)
Theorem wep_round_trip ctx0 ctx1 k hdr d room
    (Hk : wep_key k) (Hh : length hdr = LEN_WEP_IV_HDR) (Hr : length room = LEN_ICV)
    (Hd : bytes d) (Hlen : Z.of_nat (length d) + 8 < 65536) :
  ∃ c buf,
    RTMPSoftEncryptWEP true true ctx0 hdr k (d ++ room) (length d) = Some (true, c) ∧
    RTMPSoftDecryptWEP true true ctx1 k (hdr ++ c) (Z.of_nat (length c + 4)) =
      Some (true, buf, Z.of_nat (length d)) ∧
    take (length d) buf = d.
Proof.
  destruct (wep_encap_decap ctx0 ctx1 k hdr hdr d room) as (c & buf & H1 & _ & H2); try done.
  - rewrite Hh. unfold LEN_WEP_IV_HDR. lia.
  - specialize (H1 []). rewrite !app_nil_r in H1. by exists c, buf.
Qed.

Definition demo_key (n : Z) : CIPHER_KEY :=
  mk_key (map Z.of_nat (seq 1 16)) (zeros 8) (zeros 8) (zeros 16) (zeros 16) 1 n (zeros 6) 0.

Lemma wep_round_trip_witness :
  ∃ c buf,
    RTMPSoftEncryptWEP true true (mk_arc4 0 0 []) [1; 2; 3; 0] (demo_key 5)
      [10; 20; 30; 0; 0; 0; 0] 3 = Some (true, c) ∧
    RTMPSoftDecryptWEP true true (mk_arc4 0 0 []) (demo_key 5) ([1; 2; 3; 0] ++ c)
      (Z.of_nat (length c + 4)) = Some (true, buf, 3) ∧
    take 3 buf = [10; 20; 30].
Proof.
  apply (wep_round_trip (mk_arc4 0 0 []) (mk_arc4 0 0 []) (demo_key 5) [1; 2; 3; 0]
           [10; 20; 30] [0; 0; 0; 0]).
  - split; [|simpl; lia]. repeat split; try (vm_compute; done); solve_bytes.
  - done.
  - done.
  - solve_bytes.
  - simpl. lia.
Defined.

(** Decapsulation accepts exactly the frames whose decrypted trailer is
    the CRC-32 of the decrypted data: for every frame long enough to hold an
    IV header and an ICV it stays inside the buffer, it answers TRUE iff the
    checksum matches, and on a mismatch the length is left unchanged. *)
Theorem wep_decrypt_checks_icv ctx0 k hdr c
    (Hk : wep_key k) (Hh : length hdr = LEN_WEP_IV_HDR) (Hc : (LEN_ICV ≤ length c)%nat)
    (Hmax : Z.of_nat (length c) + 4 < 65536) :
  ∃ r buf len,
    RTMPSoftDecryptWEP true true ctx0 k (hdr ++ c) (Z.of_nat (length c + 4)) =
      Some (r, buf, len) ∧
    length buf = length (hdr ++ c) ∧
    (r = true ↔
      Z.lxor (RTMP_CALC_FCS32 PPPINITFCS32 (take (length c - 4) buf)) 4294967295 =
      le_word (slice buf (length c - 4) LEN_ICV)) ∧
    len = (if r then Z.of_nat (length c - 4) else Z.of_nat (length c + 4)).
Proof.
  assert (Hk0 : KeyLen k ≠ 0) by (destruct Hk; lia).
  assert (He := wep_engine k (hdr ++ c) ctx0 Hk).
  rewrite length_app, Hh in He. specialize (He ltac:(unfold LEN_WEP_IV_HDR; lia)).
  pose proof (wep_decrypt_spec ctx0 true _ k hdr c Hk0 Hh Hc Hmax He) as Hd.
  cbv zeta in Hd. rewrite Hd. clear Hd He. set (ctx := ARC4_INIT _ _).
  set (p := xor_list c (keystream ctx (length c))).
  assert (Hp : length p = length c)
    by (unfold p; apply length_xor_list; by rewrite length_keystream).
  set (b := bwrite (hdr ++ c) 0 p).
  assert (Hb : b = p ++ drop (length c) (hdr ++ c))
    by (unfold b, bwrite; rewrite take_0; cbn [app plus]; by rewrite Hp).
  assert (Hlb : length b = length (hdr ++ c)).
  { unfold b. apply length_bwrite. rewrite length_app, Hp. lia. }
  unfold LEN_ICV in *.
  assert (Ht : take (length c - 4) b = take (length c - 4) p)
    by (rewrite Hb, take_app_le by lia; done).
  assert (Hs : slice b (length c - 4) 4 = drop (length c - 4) p).
  { unfold slice. rewrite Hb, drop_app_le by lia. apply take_app_length'.
    rewrite length_drop. lia. }
  destruct (_ =? _) eqn:E.
  - apply Z.eqb_eq in E. eexists _, _, _. rewrite Ht, Hs. by repeat split.
  - apply Z.eqb_neq in E. eexists _, _, _. rewrite Ht, Hs. by repeat split.
Qed.

Lemma wep_decrypt_checks_icv_witness :
  ∃ r buf len,
    RTMPSoftDecryptWEP true true (mk_arc4 0 0 []) (demo_key 5) [1; 2; 3; 0; 9; 9; 9; 9; 9] 9 =
      Some (r, buf, len) ∧ length buf = 9%nat.
Proof.
  destruct (wep_decrypt_checks_icv (mk_arc4 0 0 []) (demo_key 5) [1; 2; 3; 0] [9; 9; 9; 9; 9])
    as (r & buf & len & H1 & H2 & _).
  - split; [|simpl; lia]. repeat split; try (vm_compute; done); solve_bytes.
  - done.
  - simpl. unfold LEN_ICV. lia.
  - simpl. lia.
  - exists r, buf, len. split; [exact H1|exact H2].
Defined.

(** A received WEP frame of 5 to 7 bytes is read far outside its buffer:
    the 16-bit plain-text length wraps around below zero, and the checksum
    and the ICV are taken about 64 KiB behind the frame. *)
Theorem wep_short_frame_overread ctx0 k pData n
    (Hk : wep_key k) (Hn : (n = 5 ∨ n = 6 ∨ n = 7)%nat)
    (Hlen : Z.of_nat n ≤ Z.of_nat (length pData) < 65533) :
  RTMPSoftDecryptWEP true true ctx0 k pData (Z.of_nat n) = None.
Proof.
  assert (Hk0 : KeyLen k ≠ 0) by (destruct Hk; lia).
  unfold RTMPSoftDecryptWEP. cbn [negb]. cbv iota.
  rewrite (proj2 (Z.eqb_neq _ _) Hk0).
  rewrite wep_engine by (done || lia). cbn [mbind option_bind].
  unfold LEN_WEP_IV_HDR, LEN_ICV.
  rewrite (wrap_id 16 (Z.of_nat n - Z.of_nat 4)) by (unfold in_range; lia).
  rewrite (proj2 (Z.leb_gt _ _)) by lia. cbv zeta.
  unfold in_buf at 1. rewrite (proj2 (Nat.leb_le _ _)) by lia. cbn [negb]. cbv iota.
  rewrite ARC4_Compute_spec by lia.
  assert (Hw : u16 (Z.of_nat n - Z.of_nat 4 - Z.of_nat 4) = 65528 + Z.of_nat n).
  { rewrite wrap_mod by lia. change (2 ^ 16) with 65536.
    destruct Hn as [->|[->| ->]]; reflexivity. }
  rewrite Hw. unfold in_buf. rewrite length_bwrite.
  - rewrite (proj2 (Nat.leb_gt _ _)); [done|lia].
  - rewrite length_xor_list; rewrite length_take, length_drop; rewrite ?length_keystream; lia.
Qed.

Lemma wep_short_frame_overread_witness :
  RTMPSoftDecryptWEP true true (mk_arc4 0 0 []) (demo_key 5) [1; 2; 3; 0; 7; 7] 6 = None.
Proof.
  apply (wep_short_frame_overread (mk_arc4 0 0 []) (demo_key 5) [1; 2; 3; 0; 7; 7] 6).
  - split; [|simpl; lia]. repeat split; try (vm_compute; done); solve_bytes.
  - lia.
  - simpl. lia.
Defined.

(** When the seed cannot be allocated the encapsulation still answers
    TRUE, and the frame is encrypted with whatever the freshly allocated
    ARC4 context held: the key and the IV are not used at all. *)
Theorem wep_seed_failure_ignored ctx0 hdr k d room
    (Hk : KeyLen k ≠ 0) (Hr : length room = LEN_ICV) :
  RTMPSoftEncryptWEP true false ctx0 hdr k (d ++ room) (length d) =
    Some (true, xor_list (with_icv d) (keystream ctx0 (length d + 4))).
Proof. by apply wep_encrypt_spec. Qed.

Lemma wep_seed_failure_ignored_witness :
  RTMPSoftEncryptWEP true false (ARC4_INIT [0] 1) [] (demo_key 5) [1; 0; 0; 0; 0] 1 =
    Some (true, xor_list (with_icv [1]) (keystream (ARC4_INIT [0] 1) 5)).
Proof. apply (wep_seed_failure_ignored _ [] (demo_key 5) [1] [0; 0; 0; 0]); done. Defined.
