(* ===== verification/StaAuth.v ===== *)
(** The authentication of the station: src/sta/auth.c, MlmeAuthReqSanity,
    PeerAuthSanity and PeerDeauthSanity of src/common/cmm_sanity.c,
    MgtMacHeaderInit of src/common/mlme.c and INC_TX_TSC of src/include/wpa.h.

    The actions are those the table of the authentication machine points to
    (Mlme); they run on the adapter of the engine with the station's data as
    its rest, and confirm to the control machine through the queue.  Frames
    handed to MiniportMMRequest and wireless events are a trace; a timer is
    the time it is set to, or [None]. *)

From stdpp Require Import list.
From S2P Require Import Prelude CipherKey Arc4 Wep Mlme MacTable.

(** * Constants *)

Definition AUTH_TIMEOUT : Z := 300.
Definition CIPHER_TEXT_LEN : nat := 128.
Definition AUTH_MODE_OPEN : Z := 0.
Definition AUTH_MODE_KEY : Z := 1.
Definition Ndis802_11AuthModeOpen : Z := 0.
Definition REASON_CLS2ERR : Z := 6.
Definition MLME_SUCCESS : Z := 0.
Definition MLME_REJ_TIMEOUT : Z := 16.
Definition MLME_INVALID_FORMAT : Z := 0x51.
Definition MLME_FAIL_NO_RESOURCE : Z := 0x52.
Definition MLME_STATE_MACHINE_REJECT : Z := 0x53.
Definition IE_CHALLENGE_TEXT : Z := 16.
Definition MT2_AUTH_CONF : Z := 35.
Definition MT2_DEAUTH_CONF : Z := 36.
Definition IW_DEAUTH_EVENT_FLAG : Z := 0x0202.
Definition IW_SHARED_WEP_FAIL : Z := 0x021A.
Definition SUBTYPE_AUTH : Z := 11.
Definition SUBTYPE_DEAUTH : Z := 12.

(** * The station's data *)

(** The part of [MlmeAux] that authentication uses. *)
Record mlme_aux := mk_aux { aux_Bssid : list Z; aux_Alg : Z; AuthTimer : option Z }.

Record sta_report := mk_report {
  AuthFailReason : Z; AuthFailSta : list Z; DeauthReason : Z; DeauthSta : list Z
}.

(** The countermeasures against MIC failures. *)
Record mic_state := mk_mic {
  bBlockAssoc : bool; MicErrCnt : Z; LastMicErrorTime : Z; mc_ReplayCounter : list Z;
  WpaDisassocAndBlockAssocTimer : option Z
}.

(** What the machines read only. *)
Record sta_conf := mk_conf {
  own_address : list Z; own_bssid : list Z; own_PTK : list Z; own_WepStatus : Z; own_DefaultKeyId : Z
}.

Inductive sta_event :=
| Ev_MMRequest (frame : list Z)
| Ev_SendWirelessEvent (flag : Z) (addr : option (list Z))
| Ev_EapolToSta (w : nat) (Header802_3 data : list Z) (bClearFrame : bool).

Record sta_w := mk_staw {
  sw_aux : mlme_aux; sw_report : sta_report; sw_mic : mic_state; sw_conf : sta_conf;
  sw_SharedKey : list CIPHER_KEY; sw_Sequence : Z; sw_events : list sta_event
}.

Definition set_aux (a : mlme_aux) (s : sta_w) : sta_w :=
  mk_staw a (sw_report s) (sw_mic s) (sw_conf s) (sw_SharedKey s) (sw_Sequence s) (sw_events s).
Definition set_report (r : sta_report) (s : sta_w) : sta_w :=
  mk_staw (sw_aux s) r (sw_mic s) (sw_conf s) (sw_SharedKey s) (sw_Sequence s) (sw_events s).
Definition set_mic (m : mic_state) (s : sta_w) : sta_w :=
  mk_staw (sw_aux s) (sw_report s) m (sw_conf s) (sw_SharedKey s) (sw_Sequence s) (sw_events s).
Definition set_SharedKey (k : list CIPHER_KEY) (s : sta_w) : sta_w :=
  mk_staw (sw_aux s) (sw_report s) (sw_mic s) (sw_conf s) k (sw_Sequence s) (sw_events s).
Definition set_Sequence (n : Z) (s : sta_w) : sta_w :=
  mk_staw (sw_aux s) (sw_report s) (sw_mic s) (sw_conf s) (sw_SharedKey s) n (sw_events s).
Definition emit (l : list sta_event) (s : sta_w) : sta_w :=
  mk_staw (sw_aux s) (sw_report s) (sw_mic s) (sw_conf s) (sw_SharedKey s) (sw_Sequence s) (sw_events s ++ l).

Definition set_AuthTimer (t : option Z) (s : sta_w) : sta_w :=
  set_aux (mk_aux (aux_Bssid (sw_aux s)) (aux_Alg (sw_aux s)) t) s.
(** [AuthFailReason = Status; COPY_MAC_ADDR(AuthFailSta, Addr2)] *)
Definition set_auth_fail (Status : Z) (addr : list Z) (s : sta_w) : sta_w :=
  set_report (mk_report Status addr (DeauthReason (sw_report s)) (DeauthSta (sw_report s))) s.
Definition set_deauth (Reason : Z) (addr : list Z) (s : sta_w) : sta_w :=
  set_report (mk_report (AuthFailReason (sw_report s)) (AuthFailSta (sw_report s)) Reason addr) s.

(** * The adapter *)

Definition adapter : Type := RTMP_ADAPTER sta_w.

Definition upd_sta (f : sta_w → sta_w) (pAd : adapter) : adapter :=
  mk_pAd (Mlme pAd) (Flags pAd) (ate_on pAd) (f (rest pAd)).

Definition set_AuthState (s : Z) (pAd : adapter) : adapter :=
  let m := Mlme pAd in
  set_Mlme (mk_mlme (CntlMachine m) (AssocMachine m) (set_CurrState s (AuthMachine m)) (AuthRspMachine m)
    (SyncMachine m) (WpaPskMachine m) (ActMachine m) (WpaMachine m) (bRunning m) (Queue m)) pAd.

(** The outcomes of the allocations and what uninitialised memory holds. *)
Record auth_env := mk_aenv {
  al_mgmt : bool; al_chlg : bool; al_cypher : bool; al_wepctx : bool; al_seed : bool;
  wep_ctx : ARC4_CTX_STRUC; junk_chlg : list Z; junk_cypher : list Z
}.

(** * Frames *)

(** The header, with the bit [FC.Wep] that one caller sets afterwards. *)
Definition MgtMacHeaderInit (SubType ToDs Wep : Z) (pDA pSA pBssid : list Z) : list Z :=
  [u8 (Z.shiftl SubType 4); ToDs + Z.shiftl Wep 6; 0; 0] ++ take 6 pDA ++ take 6 pSA ++ take 6 pBssid ++ [0; 0].

(** [MLME_AUTH_REQ_STRUCT]: address, algorithm and a [ULONG] timeout. *)
Definition MlmeAuthReqSanity (Msg : list Z) : option (list Z * Z * Z) :=
  let Addr := slice Msg 0 6 in
  let Alg := le_word (slice Msg 6 2) in
  let Timeout := le_word (slice Msg 8 8) in
  if ((Alg =? AUTH_MODE_KEY) || (Alg =? AUTH_MODE_OPEN)) && (Z.land (aget Addr 0) 0x01 =? 0)
  then Some (Addr, Timeout, Alg) else None.

(** Source, algorithm, sequence number, status and challenge; [chlg] is the
    buffer of the caller, which only some of the frames fill. *)
Definition PeerAuthSanity (Msg chlg : list Z) : option (list Z * Z * Z * Z * list Z) :=
  let Addr := slice Msg 10 6 in
  let Alg := le_word (slice Msg 24 2) in
  let Seq := le_word (slice Msg 26 2) in
  let Status := le_word (slice Msg 28 2) in
  if Alg =? AUTH_MODE_OPEN then
    if (Seq =? 1) || (Seq =? 2) then Some (Addr, Alg, Seq, Status, chlg) else None
  else if Alg =? AUTH_MODE_KEY then
    if (Seq =? 1) || (Seq =? 4) then Some (Addr, Alg, Seq, Status, chlg)
    else if (Seq =? 2) || (Seq =? 3)
    then Some (Addr, Alg, Seq, Status, bwrite chlg 0 (slice Msg 32 CIPHER_TEXT_LEN))
    else None
  else None.

(** [INC_TX_TSC] *)
Fixpoint INC_TX_TSC (tsc : list Z) (cnt : nat) : list Z :=
  match cnt, tsc with
  | S cnt, x :: tsc => let y := u8 (x + 1) in y :: (if y =? 0 then INC_TX_TSC tsc cnt else tsc)
  | _, _ => tsc
  end.

Definition set_TxTsc (t : list Z) (k : CIPHER_KEY) : CIPHER_KEY :=
  mk_key (Key k) (TxMic k) (RxMic k) t (RxTsc k) (CipherAlg k) (KeyLen k) (BssId k) (KeyType k).

(** * The actions *)

Definition send (frame : list Z) (pAd : adapter) : adapter := upd_sta (emit [Ev_MMRequest frame]) pAd.

Definition AUTH_ReqSend (E : auth_env) (pElem : MLME_QUEUE_ELEM) (SeqNo : Z) (pNewElement : list Z) (pAd : adapter)
    : option (bool * adapter) :=
  if bBlockAssoc (sw_mic (rest pAd)) then
    pAd ← confirm MT2_AUTH_CONF MLME_STATE_MACHINE_REJECT (set_AuthState AUTH_REQ_IDLE pAd);
    Some (true, pAd)
  else
    match MlmeAuthReqSanity (el_Msg pElem) with
    | Some (Addr, Timeout, Alg) =>
        let pAd := upd_sta (set_aux (mk_aux Addr Alg None)) pAd in
        if negb (al_mgmt E) then
          pAd ← confirm MT2_AUTH_CONF MLME_FAIL_NO_RESOURCE (set_AuthState AUTH_REQ_IDLE pAd);
          Some (false, pAd)
        else
          let hdr := MgtMacHeaderInit SUBTYPE_AUTH 0 0 Addr (own_address (sw_conf (rest pAd))) Addr in
          let pAd := send (hdr ++ le_bytes 2 Alg ++ le_bytes 2 SeqNo ++ le_bytes 2 MLME_SUCCESS ++ pNewElement) pAd in
          Some (true, upd_sta (set_AuthTimer (Some Timeout)) pAd)
    | None => Some (false, pAd)
    end.

Definition MlmeAuthReqAction (E : auth_env) (Elem : MLME_QUEUE_ELEM) (pAd : adapter) : option adapter :=
  '(ok, pAd) ← AUTH_ReqSend E Elem 1 [] pAd;
  if (ok : bool) then Some (set_AuthState AUTH_WAIT_SEQ2 pAd)
  else confirm MT2_AUTH_CONF MLME_INVALID_FORMAT (set_AuthState AUTH_REQ_IDLE pAd).

(** The text of the answer to a challenge. *)
Definition challenge_text (Alg Seq : Z) (ChlgText : list Z) : list Z :=
  le_bytes 2 Alg ++ le_bytes 2 Seq ++ le_bytes 2 MLME_SUCCESS ++
  [IE_CHALLENGE_TEXT; Z.of_nat CIPHER_TEXT_LEN] ++ take CIPHER_TEXT_LEN ChlgText.

(** The answer to the challenge, encrypted with the default key. *)
Definition answer_challenge (E : auth_env) (Addr2 : list Z) (Alg Seq : Z) (ChlgText : list Z) (pAd : adapter)
    : option adapter :=
  let refuse (pAd : adapter) := confirm MT2_AUTH_CONF MLME_FAIL_NO_RESOURCE (set_AuthState AUTH_REQ_IDLE pAd) in
  if negb (al_mgmt E) then refuse pAd
  else
    let idx := own_DefaultKeyId (sw_conf (rest pAd)) in
    k ← sw_SharedKey (rest pAd) !! Z.to_nat idx;
    let k := set_TxTsc (INC_TX_TSC (TxTsc k) LEN_WEP_TSC) k in
    let pAd := upd_sta (set_SharedKey (<[Z.to_nat idx := k]> (sw_SharedKey (rest pAd)))) pAd in
    let hdr := MgtMacHeaderInit SUBTYPE_AUTH 0 1 Addr2 (own_address (sw_conf (rest pAd))) (aux_Bssid (sw_aux (rest pAd))) in
    let iv_hdr := RTMPConstructWEPIVHdr idx (TxTsc k) in
    let text := challenge_text Alg (u16 (Seq + 1)) ChlgText in
    if Nat.ltb (length (junk_cypher E)) (length text) then None
    else
      '(ok, buf) ← RTMPSoftEncryptWEP (al_wepctx E) (al_seed E) (wep_ctx E) iv_hdr k (bwrite (junk_cypher E) 0 text) (length text);
      if negb (ok : bool) then refuse pAd
      else
        let pAd := send (hdr ++ iv_hdr ++ take (length text + LEN_ICV) buf) pAd in
        Some (set_AuthState AUTH_WAIT_SEQ4 (upd_sta (set_AuthTimer (Some AUTH_TIMEOUT)) pAd)).

Definition PeerAuthRspAtSeq2Action (E : auth_env) (Elem : MLME_QUEUE_ELEM) (pAd : adapter) : option adapter :=
  if negb (al_chlg E) then Some pAd
  else if negb (al_cypher E) then Some pAd
  else
    match PeerAuthSanity (el_Msg Elem) (junk_chlg E) with
    | None => Some pAd
    | Some (Addr2, Alg, Seq, Status, ChlgText) =>
        if negb (MAC_ADDR_EQUAL (aux_Bssid (sw_aux (rest pAd))) Addr2 && (Seq =? 2)) then Some pAd
        else
          let pAd := upd_sta (set_AuthTimer None) pAd in
          if Status =? MLME_SUCCESS then
            if aux_Alg (sw_aux (rest pAd)) =? Ndis802_11AuthModeOpen
            then confirm MT2_AUTH_CONF Status (set_AuthState AUTH_REQ_IDLE pAd)
            else answer_challenge E Addr2 Alg Seq ChlgText pAd
          else confirm MT2_AUTH_CONF Status (set_AuthState AUTH_REQ_IDLE (upd_sta (set_auth_fail Status Addr2) pAd))
    end.

Definition PeerAuthRspAtSeq4Action (E : auth_env) (Elem : MLME_QUEUE_ELEM) (pAd : adapter) : option adapter :=
  if negb (al_chlg E) then Some pAd
  else
    match PeerAuthSanity (el_Msg Elem) (junk_chlg E) with
    | None => Some pAd
    | Some (Addr2, Alg, Seq, Status, _) =>
        if negb (MAC_ADDR_EQUAL (aux_Bssid (sw_aux (rest pAd))) Addr2 && (Seq =? 4)) then Some pAd
        else
          let pAd := upd_sta (set_AuthTimer None) pAd in
          let pAd := if Status =? MLME_SUCCESS then pAd
                     else upd_sta (λ s, emit [Ev_SendWirelessEvent IW_SHARED_WEP_FAIL None] (set_auth_fail Status Addr2 s)) pAd in
          confirm MT2_AUTH_CONF Status (set_AuthState AUTH_REQ_IDLE pAd)
    end.

(** [MLME_DEAUTH_REQ_STRUCT]: address and reason. *)
Definition MlmeDeauthReqAction (E : auth_env) (Elem : MLME_QUEUE_ELEM) (pAd : adapter) : option adapter :=
  let Addr := slice (el_Msg Elem) 0 6 in
  let Reason := slice (el_Msg Elem) 6 2 in
  if negb (al_mgmt E) then confirm MT2_DEAUTH_CONF MLME_FAIL_NO_RESOURCE (set_AuthState AUTH_REQ_IDLE pAd)
  else
    let hdr := MgtMacHeaderInit SUBTYPE_DEAUTH 0 0 Addr (own_address (sw_conf (rest pAd))) (aux_Bssid (sw_aux (rest pAd))) in
    let pAd := upd_sta (set_deauth (le_word Reason) Addr) (send (hdr ++ Reason) pAd) in
    pAd ← confirm MT2_DEAUTH_CONF MLME_SUCCESS (set_AuthState AUTH_REQ_IDLE pAd);
    Some (upd_sta (emit [Ev_SendWirelessEvent IW_DEAUTH_EVENT_FLAG None]) pAd).

Definition AuthTimeoutAction (pAd : adapter) : option adapter :=
  confirm MT2_AUTH_CONF MLME_REJ_TIMEOUT (set_AuthState AUTH_REQ_IDLE pAd).

Definition InvalidStateWhenAuth (pAd : adapter) : option adapter :=
  confirm MT2_AUTH_CONF MLME_STATE_MACHINE_REJECT (set_AuthState AUTH_REQ_IDLE pAd).

Definition Cls2errAction (E : auth_env) (pAddr : list Z) (pAd : adapter) : adapter :=
  if negb (al_mgmt E) then pAd
  else
    let hdr := MgtMacHeaderInit SUBTYPE_DEAUTH 0 0 pAddr (own_address (sw_conf (rest pAd))) (aux_Bssid (sw_aux (rest pAd))) in
    upd_sta (set_deauth REASON_CLS2ERR (take 6 pAddr)) (send (hdr ++ le_bytes 2 REASON_CLS2ERR) pAd).

(** The function of the timer, which is no longer set when it runs. *)
Definition AuthTimeout (E : auth_env) (pAd : adapter) : option adapter :=
  if RTMP_TEST_FLAG (Flags pAd) (Z.lor fRTMP_ADAPTER_HALT_IN_PROGRESS fRTMP_ADAPTER_NIC_NOT_EXIST) then Some pAd
  else
    let pAd := if CurrState (AuthMachine (Mlme pAd)) =? AUTH_WAIT_SEQ2
               then Cls2errAction E (aux_Bssid (sw_aux (rest pAd))) pAd else pAd in
    enqueue AUTH_STATE_MACHINE MT2_AUTH_TIMEOUT 0 None pAd.

(** The functions of the table on an element. *)
Definition auth_function (E : auth_env) (f : STATE_MACHINE_FUNC) (Elem : MLME_QUEUE_ELEM) (pAd : adapter) : option adapter :=
  match f with
  | f_MlmeAuthReqAction => MlmeAuthReqAction E Elem pAd
  | f_PeerAuthRspAtSeq2Action => PeerAuthRspAtSeq2Action E Elem pAd
  | f_PeerAuthRspAtSeq4Action => PeerAuthRspAtSeq4Action E Elem pAd
  | f_AuthTimeoutAction => AuthTimeoutAction pAd
  | f_InvalidStateWhenAuth => InvalidStateWhenAuth pAd
  | _ => Some pAd
  end.

(** [StateMachinePerformAction] for an element of this machine. *)
Definition auth_serve (E : auth_env) (Elem : MLME_QUEUE_ELEM) (pAd : adapter) : option adapter :=
  let Sm := AuthMachine (Mlme pAd) in
  f ← StateMachinePerformAction Sm (el_MsgType Elem) (CurrState Sm);
  match f with Some f => auth_function E f Elem pAd | None => Some pAd end.
