(* ===== verification/StaAuthClaims.v ===== *)
(** The theorems on the authentication of the station: a machine that waits
    has a timer running or its timeout queued, the answer to a challenge is
    what the access point decrypts, and an open authentication runs to its
    confirmation. *)

From Stdlib Require Import ZifyNat.
From stdpp Require Import list.
From S2P Require Import Prelude CipherKey Arc4 Wep Mlme MlmeProofs MlmeClaims MlmeWait MacTable StaAuth.

#[local] Arguments MlmeDequeue : simpl never.
#[local] Arguments MlmeEnqueue : simpl never.

(** * The machine *)

Definition auth_state (pAd : adapter) : Z := CurrState (AuthMachine (Mlme pAd)).
Definition timer_of (pAd : adapter) : option Z := AuthTimer (sw_aux (rest pAd)).

(** * What an action does to the machine and the queue *)

(** The table of the machine and its state are in order. *)
Definition auth_machine (S : STATE_MACHINE) : Prop :=
  ∃ arr s, length arr = 9%nat ∧ S = set_CurrState s (AuthStateMachineInit arr) ∧ 0 ≤ s < MAX_AUTH_STATE.
Definition auth_good (pAd : adapter) : Prop := auth_machine (AuthMachine (Mlme pAd)).

Abbreviation auth_acted := (acted AUTH_REQ_IDLE auth_state (λ a _, timer_of a) auth_good).

Lemma auth_machine_set S s : auth_machine S → 0 ≤ s < MAX_AUTH_STATE → auth_machine (set_CurrState s S).
Proof. intros (arr & s0 & Ha & -> & _) Hs. by exists arr, s. Qed.

Lemma auth_requeue (a : adapter) q :
  auth_state (requeue q a) = auth_state a ∧ (λ _ : Z, timer_of (requeue q a)) = (λ _, timer_of a) ∧ (auth_good a → auth_good (requeue q a)).
Proof. done. Qed.

Lemma good_idle (a a' : adapter) s : Mlme a' = Mlme a → 0 ≤ s < MAX_AUTH_STATE → auth_good a → auth_good (set_AuthState s a').
Proof. intros E Hs Hg. unfold auth_good. cbn. rewrite E. by apply auth_machine_set. Qed.

(** A confirmation with the machine idle; [a'] differs in the station's data. *)
Lemma confirm_idle fl T St (a a' b : adapter) :
  Mlme a' = Mlme a → auth_good a → queue_wf (Queue (Mlme a)) fl → Num (Queue (Mlme a)) < 39 →
  confirm T St (set_AuthState AUTH_REQ_IDLE a') = Some b →
  auth_acted fl a b ∧ auth_state b = AUTH_REQ_IDLE ∧ Num (Queue (Mlme b)) ≤ Num (Queue (Mlme a)) + 1.
Proof.
  intros E Hg. apply (confirm_acts AUTH_REQ_IDLE auth_state (λ a _, timer_of a) auth_good auth_requeue); [cbn; by rewrite E|by apply (good_idle a)|done].
Qed.

Lemma request_acted E fl Elem a b :
  auth_good a → queue_wf (Queue (Mlme a)) fl → Num (Queue (Mlme a)) < 38 → bBlockAssoc (sw_mic (rest a)) = false →
  MlmeAuthReqAction E Elem a = Some b → auth_acted fl a b.
Proof.
  intros Hg Hw Hn Hb. unfold MlmeAuthReqAction, AUTH_ReqSend. rewrite Hb.
  destruct (MlmeAuthReqSanity _) as [[[Addr Timeout] Alg]|]; cbn [mbind option_bind].
  - destruct (al_mgmt E); cbn [negb].
    + intros [= <-]. apply acted_quiet; [by apply (good_idle a)|done|done|by right].
    + destruct (confirm _ _ _) as [c|] eqn:HC; [|done]. cbn [mbind option_bind]. intros HD.
      eapply (confirm_idle fl _ _ a) in HC as (HC & Sc & Nc); [|done|done|done|lia].
      eapply (confirm_idle fl _ _ c) in HD as (HD & Sd & _); [|done|apply HC|apply HC|lia].
      by eapply acted_idle_trans.
  - intros HC. eapply (confirm_idle fl _ _ a) in HC as (HC & _); [done|done|done|done|lia].
Qed.

Lemma answer_acted E fl Addr2 Alg Seq C a a' b :
  Mlme a' = Mlme a → auth_good a → queue_wf (Queue (Mlme a)) fl → Num (Queue (Mlme a)) < 38 →
  answer_challenge E Addr2 Alg Seq C a' = Some b → auth_acted fl a b.
Proof.
  intros Em Hg Hw Hn. unfold answer_challenge. destruct (al_mgmt E); cbn [negb].
  - destruct (_ !! _) as [k|]; [|done]. cbn [mbind option_bind]. destruct (Nat.ltb _ _); [done|].
    destruct (RTMPSoftEncryptWEP _ _ _ _ _ _ _) as [[ok buf]|]; [|done]. cbn [mbind option_bind].
    destruct ok; cbn [negb].
    + intros [= <-]. apply acted_quiet; [by apply (good_idle a)|cbn; by rewrite Em|done|by right].
    + intros HC. eapply (confirm_idle fl _ _ a) in HC as (HC & _); [done|done|done|done|lia].
  - intros HC. eapply (confirm_idle fl _ _ a) in HC as (HC & _); [done|done|done|done|lia].
Qed.

Lemma seq2_acted E fl Elem a b :
  auth_good a → queue_wf (Queue (Mlme a)) fl → Num (Queue (Mlme a)) < 38 → PeerAuthRspAtSeq2Action E Elem a = Some b → auth_acted fl a b.
Proof.
  intros Hg Hw Hn. unfold PeerAuthRspAtSeq2Action. destruct (al_chlg E), (al_cypher E); cbn [negb];
    try (intros [= <-]; by apply acted_refl).
  destruct (PeerAuthSanity _ _) as [[[[[Addr2 Alg] Seq] Status] C]|]; [|intros [= <-]; by apply acted_refl].
  destruct (_ && _); cbn [negb]; [|intros [= <-]; by apply acted_refl].
  destruct (Status =? _); [destruct (_ =? _)|]; intros HC;
    [| by eapply answer_acted in HC |];
    (eapply (confirm_idle fl _ _ a) in HC as (HC & _); [done|done|done|done|lia]).
Qed.

Lemma seq4_acted E fl Elem a b :
  auth_good a → queue_wf (Queue (Mlme a)) fl → Num (Queue (Mlme a)) < 38 → PeerAuthRspAtSeq4Action E Elem a = Some b → auth_acted fl a b.
Proof.
  intros Hg Hw Hn. unfold PeerAuthRspAtSeq4Action. destruct (al_chlg E); cbn [negb]; [|intros [= <-]; by apply acted_refl].
  destruct (PeerAuthSanity _ _) as [[[[[Addr2 Alg] Seq] Status] C]|]; [|intros [= <-]; by apply acted_refl].
  destruct (_ && _); cbn [negb]; [|intros [= <-]; by apply acted_refl].
  intros HC. eapply (confirm_idle fl _ _ a) in HC as (HC & _); [done| |done|done|lia]. by destruct (Status =? _).
Qed.

(** * The table *)

Definition auth_table : list (Z * Z * STATE_MACHINE_FUNC) := [
    (AUTH_REQ_IDLE, MT2_MLME_AUTH_REQ, f_MlmeAuthReqAction);
    (AUTH_WAIT_SEQ2, MT2_MLME_AUTH_REQ, f_InvalidStateWhenAuth);
    (AUTH_WAIT_SEQ2, MT2_PEER_AUTH_EVEN, f_PeerAuthRspAtSeq2Action);
    (AUTH_WAIT_SEQ2, MT2_AUTH_TIMEOUT, f_AuthTimeoutAction);
    (AUTH_WAIT_SEQ4, MT2_MLME_AUTH_REQ, f_InvalidStateWhenAuth);
    (AUTH_WAIT_SEQ4, MT2_PEER_AUTH_EVEN, f_PeerAuthRspAtSeq4Action);
    (AUTH_WAIT_SEQ4, MT2_AUTH_TIMEOUT, f_AuthTimeoutAction)].

Lemma auth_perform S T :
  auth_machine S → 0 ≤ T < MAX_AUTH_MSG →
  StateMachinePerformAction S T (CurrState S) = Some (Some (find_action auth_table f_Drop (CurrState S) T)).
Proof.
  intros (arr & s & Ha & -> & Hs) HT. cbn [CurrState set_CurrState].
  assert (Hw : table_wf (AuthStateMachineInit arr) MAX_AUTH_STATE MAX_AUTH_MSG (find_action auth_table f_Drop)).
  { apply (set_actions_table auth_table _ _ _ (λ _ _, f_Drop)); [done|done| |].
    - apply init_table; [done|done|]. by rewrite Ha.
    - apply actions_check. vm_compute. reflexivity. }
  destruct Hw as [H1 H2 H3 H4]. by apply (perform_table _ MAX_AUTH_STATE MAX_AUTH_MSG (find_action auth_table f_Drop)).
Qed.

Lemma serve_acted E fl e a b :
  auth_good a → 0 ≤ el_MsgType e < MAX_AUTH_MSG →
  queue_wf (Queue (Mlme a)) fl → Num (Queue (Mlme a)) < 38 →
  (el_MsgType e = MT2_MLME_AUTH_REQ → bBlockAssoc (sw_mic (rest a)) = false) →
  auth_serve E e a = Some b →
  auth_acted fl a b ∧ (el_MsgType e = MT2_AUTH_TIMEOUT → auth_state b = AUTH_REQ_IDLE).
Proof.
  intros HM HT Hw Hn Hb. unfold auth_serve. rewrite auth_perform by done. cbn [mbind option_bind].
  fold (auth_state a).
  assert (Hs : auth_state a = 0 ∨ auth_state a = 1 ∨ auth_state a = 2).
  { destruct HM as (arr & s & _ & Es & Hr). unfold auth_state, MAX_AUTH_STATE in *. rewrite Es. cbn. lia. }
  assert (Ht : el_MsgType e = 0 ∨ el_MsgType e = 1 ∨ el_MsgType e = 2) by (unfold MAX_AUTH_MSG in HT; lia).
  assert (Hidle : ∀ st, confirm MT2_AUTH_CONF st (set_AuthState AUTH_REQ_IDLE a) = Some b →
    auth_acted fl a b ∧ auth_state b = AUTH_REQ_IDLE).
  { intros st HC. eapply (confirm_idle fl _ _ a) in HC as (? & ? & _); [done|done|done|done|lia]. }
  assert (Hdrop : Some a = Some b → auth_acted fl a b ∧ b = a) by (intros [= <-]; split; [by apply acted_refl|done]).
  destruct Hs as [Es|[Es|Es]], Ht as [Et|[Et|Et]]; rewrite Es, Et;
    match goal with |- context [find_action ?l ?d ?x ?y] => let f := eval vm_compute in (find_action l d x y) in
      change (find_action l d x y) with f end;
    cbn [auth_function]; intros HC.
  - split; [eapply request_acted; eauto|done].
  - split; [by apply Hdrop|done].
  - apply Hdrop in HC as [? ->]. split; [done|]. by rewrite Es.
  - split; [by eapply Hidle|done].
  - split; [by eapply seq2_acted|done].
  - apply Hidle in HC as [? ?]. done.
  - split; [by eapply Hidle|done].
  - split; [by eapply seq4_acted|done].
  - apply Hidle in HC as [? ?]. done.
Qed.

(** * Runs *)

(** The restart cancels the timer. *)
Definition auth_reset (pAd : adapter) : adapter := set_AuthState AUTH_REQ_IDLE (upd_sta (set_AuthTimer None) pAd).
(** The timer is no longer set when its function runs. *)
Definition auth_expire (E : auth_env) (_ : Z) (pAd : adapter) : option adapter := AuthTimeout E (upd_sta (set_AuthTimer None) pAd).
(** A request is not served while association is blocked. *)
Definition auth_allowed (e : MLME_QUEUE_ELEM) (pAd : adapter) : Prop :=
  el_MsgType e = MT2_MLME_AUTH_REQ → bBlockAssoc (sw_mic (rest pAd)) = false.

Definition auth_turn (E : auth_env) : adapter → option adapter := machine_turn AUTH_STATE_MACHINE auth_reset (auth_serve E).
Definition auth_step (E : auth_env) : adapter → adapter → Prop :=
  wait_step AUTH_STATE_MACHINE MAX_AUTH_MSG (λ a _, timer_of a) auth_reset (auth_serve E) auth_allowed (auth_expire E) (λ _, false).
Abbreviation auth_due := (timeout_due AUTH_STATE_MACHINE auth_state (λ a _, timer_of a) (λ _, MT2_AUTH_TIMEOUT)).
Abbreviation auth_inv := (wait_inv AUTH_STATE_MACHINE MAX_AUTH_MSG AUTH_REQ_IDLE auth_state (λ a _, timer_of a) (λ _, MT2_AUTH_TIMEOUT) auth_good (λ _, false)).

Lemma auth_expire_posts E s a b : halted (Flags a) = false → auth_expire E s a = Some b →
  ∃ a1, Mlme a1 = Mlme a ∧ Flags a1 = Flags a ∧ (∀ s' : Z, MT2_AUTH_TIMEOUT ≠ MT2_AUTH_TIMEOUT → timer_of a1 = timer_of a) ∧
    enqueue AUTH_STATE_MACHINE MT2_AUTH_TIMEOUT 0 None a1 = Some b.
Proof.
  unfold auth_expire, AuthTimeout. cbn [Flags upd_sta]. fold (halted (Flags a)). intros -> H.
  match type of H with enqueue _ _ _ _ ?x = _ => exists x end. split; [|split; [|by split]].
  all: destruct (_ =? _); [unfold Cls2errAction; by destruct (al_mgmt E)|done].
Qed.

Lemma auth_waits E a b : auth_inv a → rtc (auth_step E) a b → auth_inv b.
Proof.
  apply waits; try done.
  - intros a1 b1 E1. unfold auth_state, auth_good. by rewrite E1.
  - intros a1 H1. split; [by apply (good_idle a1)|done].
  - intros fl e a1 b1 Hg Ht Hw Hn Hal Hs. destruct (serve_acted E fl e a1 b1) as [H1 H2]; auto.
  - intros. by eapply auth_expire_posts.
Qed.

(** The authentication machine never waits for nothing: from a state in
    which the invariant holds (such as the initial one), along any sequence of
    served messages, queued messages, timer expiries and changes of the
    countermeasures, with any frames from the air and any failing allocations,
    whenever the machine waits for an answer its timer is set or its timeout
    message is in the queue, it is in one of its three states, and no message
    indexes outside its table.  The queue is assumed to have room (a full one
    drops the timeout) and the driver not to be halting; requests served while association is blocked
    are excluded: see [blocked_request_waits]. *)
Theorem auth_waits_with_timer E a b (Ha : auth_inv a) (Hr : rtc (auth_step E) a b) :
  auth_inv b ∧ (auth_state b ≠ AUTH_REQ_IDLE → auth_due b).
Proof. assert (Hb : auth_inv b) by by eapply auth_waits. split; [done|]. intros Hs. by apply (wi_due _ _ _ _ _ _ _ _ _ Hb). Qed.

(** * The exchange with the access point *)

(** The frame of an access point [addr]: algorithm, sequence number, status
    and the rest of the body. *)
Definition auth_frame (e : MLME_QUEUE_ELEM) (addr : list Z) (Alg Seq Status : Z) (body : list Z) : Prop :=
  ∃ hdr tail, length hdr = 24%nat ∧ slice hdr 10 6 = addr ∧ 0 ≤ Alg < 2 ^ 16 ∧ 0 ≤ Seq < 2 ^ 16 ∧ 0 ≤ Status < 2 ^ 16 ∧
    el_Msg e = hdr ++ le_bytes 2 Alg ++ le_bytes 2 Seq ++ le_bytes 2 Status ++ body ++ tail.

Lemma le2_word x : 0 ≤ x < 2 ^ 16 → le_word (le_bytes 2 x) = x.
Proof. intros. rewrite le_word_le_bytes, wrap_id by (lia || (unfold in_range; lia)). done. Qed.

Lemma auth_frame_sanity e addr Alg Seq Status body C :
  auth_frame e addr Alg Seq Status body →
  PeerAuthSanity (el_Msg e) C =
    if Alg =? AUTH_MODE_OPEN then
      if (Seq =? 1) || (Seq =? 2) then Some (addr, Alg, Seq, Status, C) else None
    else if Alg =? AUTH_MODE_KEY then
      if (Seq =? 1) || (Seq =? 4) then Some (addr, Alg, Seq, Status, C)
      else if (Seq =? 2) || (Seq =? 3) then Some (addr, Alg, Seq, Status, bwrite C 0 (slice (el_Msg e) 32 CIPHER_TEXT_LEN))
      else None
    else None.
Proof.
  intros (hdr & tail & Hl & Ha & HA & HS & HT & Em). unfold PeerAuthSanity. rewrite Em. set (m := hdr ++ _).
  assert (E1 : slice m 10 6 = addr).
  { unfold m, slice in *. rewrite drop_app_le by lia. rewrite take_app_le; [done|rewrite length_drop; lia]. }
  assert (Hd : ∀ k, drop (24 + k) m = drop k (le_bytes 2 Alg ++ le_bytes 2 Seq ++ le_bytes 2 Status ++ body ++ tail)).
  { intros k. unfold m. rewrite drop_app_ge by lia. f_equal. lia. }
  assert (E2 : slice m 24 2 = le_bytes 2 Alg) by (unfold slice; apply (f_equal (take 2) (Hd 0%nat))).
  assert (E3 : slice m 26 2 = le_bytes 2 Seq) by (unfold slice; apply (f_equal (take 2) (Hd 2%nat))).
  assert (E4 : slice m 28 2 = le_bytes 2 Status) by (unfold slice; apply (f_equal (take 2) (Hd 4%nat))).
  by rewrite E1, E2, E3, E4, !le2_word.
Qed.

(** All allocations succeed, and the buffers have their sizes. *)
Definition auth_memory (E : auth_env) : Prop :=
  al_mgmt E = true ∧ al_chlg E = true ∧ al_cypher E = true ∧ al_wepctx E = true ∧ al_seed E = true ∧
  length (junk_chlg E) = CIPHER_TEXT_LEN ∧ length (junk_cypher E) = (CIPHER_TEXT_LEN + 16)%nat.

Lemma challenge_received e addr Alg Seq Status C junk :
  auth_frame e addr Alg Seq Status ([IE_CHALLENGE_TEXT; 128] ++ C) → length C = CIPHER_TEXT_LEN → length junk = CIPHER_TEXT_LEN →
  bwrite junk 0 (slice (el_Msg e) 32 CIPHER_TEXT_LEN) = C.
Proof.
  intros (hdr & tail & Hl & _ & _ & _ & _ & Em) HC HJ.
  assert (slice (el_Msg e) 32 CIPHER_TEXT_LEN = C) as ->; [|by apply bwrite_all; rewrite HC, HJ].
  unfold slice. rewrite Em, drop_app_ge by lia. rewrite Hl. cbn -[take CIPHER_TEXT_LEN]. rewrite drop_0. by apply take_app_length'.
Qed.

Lemma challenge_text_ok Alg Seq C :
  bytes C → length C = CIPHER_TEXT_LEN → length (challenge_text Alg Seq C) = 136%nat ∧ bytes (challenge_text Alg Seq C).
Proof.
  intros HB HC. unfold challenge_text. rewrite take_ge by (by rewrite HC). split.
  - rewrite !length_app, !length_le_bytes, HC. done.
  - repeat (apply bytes_app; split); try apply bytes_le_bytes; [solve_bytes|done].
Qed.

(** The challenge is handed to the answer. *)
Lemma seq2_is_answer E a Elem addr C :
  auth_memory E → auth_frame Elem addr AUTH_MODE_KEY 2 MLME_SUCCESS ([IE_CHALLENGE_TEXT; 128] ++ C) → length C = CIPHER_TEXT_LEN →
  aux_Bssid (sw_aux (rest a)) = addr → aux_Alg (sw_aux (rest a)) = AUTH_MODE_KEY →
  PeerAuthRspAtSeq2Action E Elem a = answer_challenge E addr AUTH_MODE_KEY 2 C (upd_sta (set_AuthTimer None) a).
Proof.
  intros (_ & E2 & E3 & _ & _ & E6 & _) Hf HC Ha Hg. unfold PeerAuthRspAtSeq2Action. rewrite E2, E3. cbn [negb].
  rewrite (auth_frame_sanity _ _ _ _ _ _ _ Hf).
  change (AUTH_MODE_KEY =? AUTH_MODE_OPEN) with false. change (AUTH_MODE_KEY =? AUTH_MODE_KEY) with true. cbv iota.
  change ((2 =? 1) || (2 =? 4)) with false. change ((2 =? 2) || (2 =? 3)) with true. cbv iota.
  rewrite (challenge_received _ _ _ _ _ _ _ Hf HC E6), Ha. unfold MAC_ADDR_EQUAL. rewrite bool_decide_true by done.
  change (true && (2 =? 2)) with true. cbn [negb]. change (MLME_SUCCESS =? MLME_SUCCESS) with true. cbv iota.
  cbn [upd_sta rest sw_aux set_AuthTimer set_aux]. by rewrite Hg.
Qed.

(** The answer to a challenge is the right one: when the access point the
    station asked for shared-key authentication sends its challenge, the
    station advances the packet number of its default key, sends a frame whose
    payload the access point, holding the same WEP key, decrypts (with a
    correct checksum) to the shared-key algorithm, sequence number 3, success
    and the challenge it sent, sets the timer and waits for the verdict. *)
Theorem shared_key_answer E a Elem addr k C (HE : auth_memory E)
    (Hf : auth_frame Elem addr AUTH_MODE_KEY 2 MLME_SUCCESS ([IE_CHALLENGE_TEXT; 128] ++ C))
    (HC : length C = CIPHER_TEXT_LEN) (BC : bytes C)
    (Ha : aux_Bssid (sw_aux (rest a)) = addr) (Hg : aux_Alg (sw_aux (rest a)) = AUTH_MODE_KEY)
    (Hk : sw_SharedKey (rest a) !! Z.to_nat (own_DefaultKeyId (sw_conf (rest a))) = Some k) (Wk : wep_key k)
    (Ht : (3 ≤ length (TxTsc k))%nat) :
  ∃ b hdr iv c, PeerAuthRspAtSeq2Action E Elem a = Some b ∧ auth_state b = AUTH_WAIT_SEQ4 ∧
    timer_of b = Some AUTH_TIMEOUT ∧ last (sw_events (rest b)) = Some (Ev_MMRequest (hdr ++ iv ++ c)) ∧
    hdr = MgtMacHeaderInit SUBTYPE_AUTH 0 1 addr (own_address (sw_conf (rest a))) addr ∧
    length iv = LEN_WEP_IV_HDR ∧ take 3 iv = take 3 (INC_TX_TSC (TxTsc k) LEN_WEP_TSC) ∧
    ∀ ctx k', Key k' = Key k → KeyLen k' = KeyLen k →
    ∃ buf, RTMPSoftDecryptWEP true true ctx k' (iv ++ c) (Z.of_nat (length c + 4)) = Some (true, buf, 136) ∧
      take 136 buf = challenge_text AUTH_MODE_KEY 3 C.
Proof.
  pose proof HE as (E1 & _ & _ & E4 & E5 & _ & E7).
  destruct (challenge_text_ok AUTH_MODE_KEY 3 C BC HC) as [Lt Bt]. set (text := challenge_text AUTH_MODE_KEY 3 C) in *.
  set (tsc := INC_TX_TSC (TxTsc k) LEN_WEP_TSC).
  assert (Htsc : (3 ≤ length tsc)%nat).
  { unfold tsc. destruct (TxTsc k) as [|x [|y [|z t]]]; cbn in Ht |- *; try lia. repeat (case_match; cbn); lia. }
  destruct (wep_iv_hdr (own_DefaultKeyId (sw_conf (rest a))) tsc Htsc) as [Li Ti].
  set (iv := RTMPConstructWEPIVHdr _ tsc) in *. set (k1 := set_TxTsc tsc k).
  assert (Hbuf : bwrite (junk_cypher E) 0 text = text ++ take 4 (drop 136 (junk_cypher E)) ++ drop 140 (junk_cypher E)).
  { unfold bwrite. rewrite take_0, Lt. cbn [app plus]. f_equal. rewrite <- (take_drop 4 (drop 136 _)) at 1. by rewrite drop_drop. }
  destruct (wep_encap_decap (wep_ctx E) (wep_ctx E) k1 iv iv text (take 4 (drop 136 (junk_cypher E)))) as (c & buf & H1 & Lc & _);
    [done|done|rewrite Li; unfold LEN_WEP_IV_HDR; lia|done|rewrite length_take, length_drop, E7; done|done|rewrite Lt; done|].
  rewrite Lt in H1. eexists _, (MgtMacHeaderInit SUBTYPE_AUTH 0 1 addr (own_address (sw_conf (rest a))) addr), iv, c. split.
  { rewrite (seq2_is_answer E a Elem addr C) by done.
    unfold answer_challenge. rewrite E1, E4, E5. cbn [negb upd_sta rest sw_aux set_AuthTimer set_aux sw_conf sw_SharedKey aux_Bssid]. rewrite Hk.
    cbn [mbind option_bind]. change (u16 (2 + 1)) with 3. fold text tsc. rewrite E7, Lt.
    change (Nat.ltb (CIPHER_TEXT_LEN + 16) 136) with false. cbv iota. cbn [TxTsc set_TxTsc]. fold iv k1. rewrite Hbuf, H1. reflexivity. }
  split; [done|]. split; [done|]. split.
  { cbn [rest upd_sta set_AuthState set_Mlme sw_events set_AuthTimer set_aux emit send]. rewrite last_snoc. do 4 f_equal; [done|].
    unfold LEN_ICV. rewrite Lt in Lc. by rewrite take_app_length' by lia. }
  split; [done|]. split; [done|]. split; [done|]. intros ctx k' HK HL.
  destruct (wep_encap_decap (wep_ctx E) ctx k1 iv iv text (take 4 (drop 136 (junk_cypher E)))) as (c' & buf' & H1' & Lc' & H2 & H3);
    [done|done|rewrite Li; unfold LEN_WEP_IV_HDR; lia|done|rewrite length_take, length_drop, E7; done|done|rewrite Lt; done|].
  rewrite Lt in *. specialize (H1 []). specialize (H1' []). rewrite H1 in H1'. injection H1' as H1'. rewrite !app_nil_r in H1'. subst c'.
  exists buf'. split; [|done]. change 136 with (Z.of_nat 136). rewrite <- H2. unfold RTMPSoftDecryptWEP. cbn [k1 set_TxTsc Key KeyLen]. by rewrite HK, HL.
Qed.

(** A confirmation is the last message, with its status. *)
Lemma confirm_adds fl (a a' : adapter) T Status :
  Mlme a' = Mlme a → Flags a' = Flags a → queue_wf (Queue (Mlme a)) fl → Num (Queue (Mlme a)) < 38 →
  halted (Flags a) = false → 0 ≤ Status < 2 ^ 16 →
  ∃ b e, confirm T Status (set_AuthState AUTH_REQ_IDLE a') = Some b ∧ auth_state b = AUTH_REQ_IDLE ∧ rest b = rest a' ∧
    pending (Queue (Mlme b)) = pending (Queue (Mlme a)) ++ [e] ∧ el_Machine e = MLME_CNTL_STATE_MACHINE ∧
    el_MsgType e = T ∧ le_word (take 2 (el_Msg e)) = Status.
Proof.
  intros Em Ef Hw Hn Hh Hst. unfold confirm. destruct (enqueue_extends fl MLME_CNTL_STATE_MACHINE T 2 (Some (le_bytes 2 Status))
    (set_AuthState AUTH_REQ_IDLE a')) as (b & -> & Eb & _ & _ & Hp); [by cbn; rewrite Em|cbn; rewrite Em; lia|lia|].
  cbn in Hp. rewrite Em, Ef, Hh in Hp. destruct Hp as [[? _]|[_ (e & Ep & H1 & H2 & _ & H3)]]; [done|].
  exists b, e. split; [done|]. split; [unfold auth_state; by rewrite Eb|]. split; [by rewrite Eb|]. split; [done|]. split; [done|].
  split; [done|]. specialize (H3 _ eq_refl). change (take 2 (el_Msg e) = le_bytes 2 Status) in H3. rewrite H3. by apply le2_word.
Qed.

(** The answer of the access point to a request in open mode. *)
Lemma seq2_open E fl a Elem addr Status body :
  al_chlg E = true → al_cypher E = true → queue_wf (Queue (Mlme a)) fl → Num (Queue (Mlme a)) < 38 →
  halted (Flags a) = false → auth_frame Elem addr AUTH_MODE_OPEN 2 Status body →
  aux_Bssid (sw_aux (rest a)) = addr → aux_Alg (sw_aux (rest a)) = AUTH_MODE_OPEN →
  ∃ b e, PeerAuthRspAtSeq2Action E Elem a = Some b ∧ auth_state b = AUTH_REQ_IDLE ∧ timer_of b = None ∧
    (Status ≠ MLME_SUCCESS → AuthFailReason (sw_report (rest b)) = Status) ∧ sw_events (rest b) = sw_events (rest a) ∧
    pending (Queue (Mlme b)) = pending (Queue (Mlme a)) ++ [e] ∧
    el_Machine e = MLME_CNTL_STATE_MACHINE ∧ el_MsgType e = MT2_AUTH_CONF ∧ le_word (take 2 (el_Msg e)) = Status.
Proof.
  intros E2 E3 Hw Hn Hh Hf Ha Hg. unfold PeerAuthRspAtSeq2Action. rewrite E2, E3. cbn [negb].
  rewrite (auth_frame_sanity _ _ _ _ _ _ _ Hf).
  change (AUTH_MODE_OPEN =? AUTH_MODE_OPEN) with true. change ((2 =? 1) || (2 =? 2)) with true. cbv iota.
  rewrite Ha. unfold MAC_ADDR_EQUAL. rewrite bool_decide_true by done. change (true && (2 =? 2)) with true. cbn [negb].
  cbn [upd_sta rest sw_aux set_AuthTimer set_aux]. rewrite Hg.
  assert (Hst : 0 ≤ Status < 2 ^ 16) by (destruct Hf as (? & ? & ? & ? & ? & ? & ? & ?); done).
  destruct (Z.eqb_spec Status MLME_SUCCESS) as [Hs|Hs].
  - change (AUTH_MODE_OPEN =? Ndis802_11AuthModeOpen) with true. cbv iota.
    destruct (confirm_adds fl a (upd_sta (set_AuthTimer None) a) MT2_AUTH_CONF Status) as (b & e & HC & S1 & R1 & HP); [done..|].
    exists b, e. split; [exact HC|]. unfold timer_of. rewrite R1. done.
  - destruct (confirm_adds fl a (upd_sta (set_auth_fail Status addr) (upd_sta (set_AuthTimer None) a)) MT2_AUTH_CONF Status) as (b & e & HC & S1 & R1 & HP); [done..|].
    exists b, e. split; [exact HC|]. unfold timer_of. rewrite R1. done.
Qed.

(** An open authentication: a request for an access point is sent as an
    authentication frame with sequence number 1, the timer set to the time of
    the request, and nothing else queued.  After it the answers of other
    stations change nothing, and the answer of the access point ends the wait:
    the machine is idle again, the timer off, and exactly one confirmation, with
    the status of the answer, is queued for the control machine. *)
Theorem open_auth_exchange E fl a Elem addr timeout
    (E1 : al_mgmt E = true) (E2 : al_chlg E = true) (E3 : al_cypher E = true)
    (Hw : queue_wf (Queue (Mlme a)) fl) (Hn : Num (Queue (Mlme a)) < 38) (Hh : halted (Flags a) = false)
    (Hb : bBlockAssoc (sw_mic (rest a)) = false) (Hr : MlmeAuthReqSanity (el_Msg Elem) = Some (addr, timeout, AUTH_MODE_OPEN)) :
  ∃ a1, MlmeAuthReqAction E Elem a = Some a1 ∧ auth_state a1 = AUTH_WAIT_SEQ2 ∧ timer_of a1 = Some timeout ∧
    Queue (Mlme a1) = Queue (Mlme a) ∧
    sw_events (rest a1) = sw_events (rest a) ++ [Ev_MMRequest (MgtMacHeaderInit SUBTYPE_AUTH 0 0 addr
      (own_address (sw_conf (rest a))) addr ++ [0; 0; 1; 0; 0; 0])] ∧
    (∀ Elem2 other Alg Seq Status body, auth_frame Elem2 other Alg Seq Status body → take 6 other ≠ take 6 addr →
       PeerAuthRspAtSeq2Action E Elem2 a1 = Some a1) ∧
    (∀ Elem2 Status body, auth_frame Elem2 addr AUTH_MODE_OPEN 2 Status body →
       ∃ b e, PeerAuthRspAtSeq2Action E Elem2 a1 = Some b ∧ auth_state b = AUTH_REQ_IDLE ∧ timer_of b = None ∧
         (Status ≠ MLME_SUCCESS → AuthFailReason (sw_report (rest b)) = Status) ∧ sw_events (rest b) = sw_events (rest a1) ∧
         pending (Queue (Mlme b)) = pending (Queue (Mlme a)) ++ [e] ∧
         el_Machine e = MLME_CNTL_STATE_MACHINE ∧ el_MsgType e = MT2_AUTH_CONF ∧ le_word (take 2 (el_Msg e)) = Status).
Proof.
  unfold MlmeAuthReqAction, AUTH_ReqSend. rewrite Hb, Hr, E1. cbn [negb mbind option_bind].
  match goal with |- context [Some ?x] => set (a1 := x) end.
  exists a1. split; [done|]. split; [done|]. split; [done|]. split; [done|]. split; [done|]. split.
  - intros Elem2 other Alg Seq Status body Hf Hne. unfold PeerAuthRspAtSeq2Action. rewrite E2, E3. cbn [negb].
    rewrite (auth_frame_sanity _ _ _ _ _ _ _ Hf).
    assert (Ha : ∀ o, MAC_ADDR_EQUAL addr other && o = false).
    { intros o. unfold MAC_ADDR_EQUAL. rewrite bool_decide_false; [done|congruence]. }
    repeat case_match; simplify_eq; try done;
    match goal with H : negb _ = false |- _ => apply negb_false_iff in H; cbn in H; rewrite Ha in H; done end.
  - intros Elem2 Status body Hf. by apply (seq2_open E fl a1 Elem2 addr Status body).
Qed.

(** * Examples *)

Definition demo_ap : list Z := [2; 0; 0; 0; 0; 5].
Definition demo_auth_env : auth_env := mk_aenv true true true true true (mk_arc4 0 0 []) (zeros 128) (zeros 144).
Definition no_memory_env : auth_env := mk_aenv false true true true true (mk_arc4 0 0 []) (zeros 128) (zeros 144).
Definition demo_station (Alg : Z) (block : bool) : adapter :=
  mk_pAd (MlmeInit blank_mlme) 0 false
    (mk_staw (mk_aux demo_ap Alg None) (mk_report 0 [] 0 []) (mk_mic block 0 0 (zeros 8) None)
       (mk_conf [2; 0; 0; 0; 0; 9] demo_ap (zeros 64) 0 0) (replicate 4 (demo_key 13)) 0 []).
Definition auth_request (Alg : Z) : list Z := demo_ap ++ le_bytes 2 Alg ++ le_bytes 8 AUTH_TIMEOUT.
Definition demo_elem (Msg : list Z) : MLME_QUEUE_ELEM :=
  mk_qelem Msg AUTH_STATE_MACHINE 0 (Z.of_nat (length Msg)) (0, 0) (0, 0, 0) 0 0 0 true 0 0.
Definition demo_answer (Alg Seq Status : Z) (body : list Z) : MLME_QUEUE_ELEM :=
  demo_elem ((zeros 10 ++ demo_ap ++ zeros 8) ++ le_bytes 2 Alg ++ le_bytes 2 Seq ++ le_bytes 2 Status ++ body ++ []).

Lemma demo_wf Alg block : queue_wf (Queue (Mlme (demo_station Alg block))) None.
Proof. exact (proj1 (init_wf blank_queue eq_refl)). Qed.

Lemma open_auth_exchange_witness :
  ∃ a1 b e, MlmeAuthReqAction demo_auth_env (demo_elem (auth_request 0)) (demo_station 0 false) = Some a1 ∧
    PeerAuthRspAtSeq2Action demo_auth_env (demo_answer 0 2 0 []) a1 = Some b ∧
    pending (Queue (Mlme b)) = [e] ∧ el_MsgType e = MT2_AUTH_CONF.
Proof.
  destruct (open_auth_exchange demo_auth_env None (demo_station 0 false) (demo_elem (auth_request 0)) demo_ap AUTH_TIMEOUT)
    as (a1 & H1 & _ & _ & _ & _ & _ & H2).
  - reflexivity.
  - reflexivity.
  - reflexivity.
  - apply demo_wf.
  - vm_compute. reflexivity.
  - reflexivity.
  - reflexivity.
  - vm_compute. reflexivity.
  - destruct (H2 (demo_answer 0 2 0 []) 0 []) as (b & e & H3 & _ & _ & _ & _ & H4 & _ & H5 & _).
    { exists (zeros 10 ++ demo_ap ++ zeros 8), []. repeat split; vm_compute; congruence. }
    exists a1, b, e. split; [exact H1|]. split; [exact H3|]. split; [rewrite H4; reflexivity|exact H5].
Defined.

Lemma shared_key_answer_witness :
  ∃ b, PeerAuthRspAtSeq2Action demo_auth_env (demo_answer 1 2 0 ([IE_CHALLENGE_TEXT; 128] ++ zeros 128)) (demo_station 1 false) = Some b ∧
    auth_state b = AUTH_WAIT_SEQ4.
Proof.
  destruct (shared_key_answer demo_auth_env (demo_station 1 false) (demo_answer 1 2 0 ([IE_CHALLENGE_TEXT; 128] ++ zeros 128))
    demo_ap (demo_key 13) (zeros 128)) as (b & _ & _ & _ & H1 & H2 & _).
  - repeat split.
  - exists (zeros 10 ++ demo_ap ++ zeros 8), []. repeat split; vm_compute; congruence.
  - reflexivity.
  - apply bytes_zeros.
  - reflexivity.
  - reflexivity.
  - reflexivity.
  - split; [|cbn; lia]. repeat split; try reflexivity; try solve_bytes; vm_compute; congruence.
  - vm_compute. lia.
  - exists b. split; [exact H1|exact H2].
Defined.

Lemma demo_inv Alg block : auth_inv (demo_station Alg block).
Proof.
  split; [apply demo_wf| | |].
  - exists (TransFunc (AuthMachine blank_mlme)), 0. repeat split; try reflexivity.
  - intros e He. assert (Ep : pending (Queue (Mlme (demo_station Alg block))) = []) by exact (proj2 (init_wf blank_queue eq_refl)).
    rewrite Ep in He. by apply elem_of_nil in He.
  - intros H. exfalso. apply H. reflexivity.
Qed.

(** A request that is queued, served, and whose timer expires. *)
Definition queued (a : adapter) : adapter := default a (enqueue AUTH_STATE_MACHINE MT2_MLME_AUTH_REQ 16 (Some (auth_request 0)) a).
Definition served (a : adapter) : adapter := default a (auth_turn demo_auth_env a).
Definition expired (a : adapter) : adapter := default a (AuthTimeout demo_auth_env (upd_sta (set_AuthTimer None) a)).

Lemma auth_waits_with_timer_witness :
  let b := expired (served (queued (demo_station 0 false))) in auth_state b = AUTH_WAIT_SEQ2 ∧ timer_of b = None ∧ auth_due b.
Proof.
  assert (Hs : auth_state (expired (served (queued (demo_station 0 false)))) = AUTH_WAIT_SEQ2) by (vm_compute; reflexivity).
  split; [exact Hs|]. split; [vm_compute; reflexivity|].
  apply (auth_waits_with_timer demo_auth_env (demo_station 0 false)).
  - apply demo_inv.
  - apply (rtc_l _ _ (queued (demo_station 0 false))).
    { eapply (step_post _ _ _ _ _ _ _ _ AUTH_STATE_MACHINE MT2_MLME_AUTH_REQ 16 (Some (auth_request 0)));
        [vm_compute; reflexivity|vm_compute; congruence|intros _; vm_compute; split; congruence|vm_compute; reflexivity]. }
    apply (rtc_l _ _ (served (queued (demo_station 0 false)))).
    { eapply step_turn; [vm_compute; split; reflexivity|intros e _ _ _; vm_compute; reflexivity|vm_compute; reflexivity]. }
    apply (rtc_l _ _ (expired (served (queued (demo_station 0 false))))).
    { eapply (step_timer _ _ _ _ _ _ _ _ 0); [vm_compute; reflexivity|vm_compute; reflexivity|vm_compute; congruence|vm_compute; reflexivity]. }
    apply rtc_refl.
  - rewrite Hs. vm_compute. congruence.
Defined.

(** A request served while association is blocked is refused, and yet the
    machine waits, without a timer. *)
Example blocked_request_waits :
  let b := served (queued (demo_station 0 true)) in
  auth_state b = AUTH_WAIT_SEQ2 ∧ timer_of b = None ∧ sw_events (rest b) = [] ∧
  map (λ e, (el_MsgType e, le_word (take 2 (el_Msg e)))) (pending (Queue (Mlme b))) = [(MT2_AUTH_CONF, MLME_STATE_MACHINE_REJECT)].
Proof. vm_compute. auto. Qed.

(** Without memory the control machine gets two confirmations for one request. *)
Example no_memory_confirms_twice :
  (λ b : adapter, map (λ e, (el_MsgType e, le_word (take 2 (el_Msg e)))) (pending (Queue (Mlme b)))) <$>
    MlmeAuthReqAction no_memory_env (demo_elem (auth_request 0)) (demo_station 0 false) =
  Some [(MT2_AUTH_CONF, MLME_FAIL_NO_RESOURCE); (MT2_AUTH_CONF, MLME_INVALID_FORMAT)].
Proof. vm_compute. auto. Qed.

(** A station that asked for shared-key authentication takes an answer with
    the open algorithm for a challenge: what it encrypts and sends is memory
    that was never written. *)
Definition junk_env : auth_env := mk_aenv true true true true true (mk_arc4 0 0 []) (replicate 128 0xA5) (zeros 144).
Example uninitialised_challenge_sent :
  PeerAuthSanity (el_Msg (demo_answer 0 2 0 [])) (junk_chlg junk_env) = Some (demo_ap, AUTH_MODE_OPEN, 2, 0, replicate 128 0xA5) ∧
  PeerAuthRspAtSeq2Action junk_env (demo_answer 0 2 0 []) (demo_station 1 false) =
    answer_challenge junk_env demo_ap AUTH_MODE_OPEN 2 (replicate 128 0xA5) (demo_station 1 false) ∧
  (auth_state <$> PeerAuthRspAtSeq2Action junk_env (demo_answer 0 2 0 []) (demo_station 1 false)) = Some AUTH_WAIT_SEQ4.
Proof. vm_compute. auto. Qed.
