(* ===== verification/Michael.v ===== *)
(** The Michael message integrity code of TKIP:
    src/common/cmm_tkip.c (RTMPTkipGetUInt32 .. RTMPCalculateMICValue).

    The C code keeps the state in [ULONG] variables, 64 bits wide on the
    64-bit kernels, and shifts bytes as [int]: a byte of 0x80 or more in the
    top position sign-extends into the upper half.  The definitions keep the
    64 bits; the properties show that the lower halves run the 32-bit
    algorithm of IEEE 802.11 and that only they reach the MIC. *)

From S2P Require Import Prelude CipherKey.

(** * The code *)

(** [ROL32(A, n)] and [ROR32(A, n)] on a [ULONG]. *)
Definition ROL32 (A n : Z) : Z :=
  Z.lor (u64 (Z.shiftl A n)) (Z.land (Z.shiftr A (32 - n)) (Z.shiftl 1 n - 1)).

Definition ROR32 (A n : Z) : Z := ROL32 A (32 - n).

(** [TKIP_KEY_INFO] *)
Record TKIP_KEY_INFO := mk_tkip {
  nBytesInM : Z;
  tk_IV16 : Z;
  tk_IV32 : Z;
  tk_K0 : Z;
  tk_K1 : Z;
  tk_L : Z;
  tk_R : Z;
  tk_M : Z;
  tk_RC4KEY : list Z;
  tk_MIC : list Z
}.

(** [uChar << n] for a [UCHAR]: an [int], converted to [ULONG]. *)
Definition char_shl (uChar n : Z) : Z :=
  let v := u32 (Z.shiftl uChar n) in
  u64 (if v <? 2 ^ 31 then v else v - 2 ^ 32).

Definition RTMPTkipGetUInt32 (pMICKey : list Z) : Z :=
  foldl (λ res i, Z.lor res (char_shl (nth i pMICKey 0) (8 * Z.of_nat i))) 0 (seq 0 4).

(** The four bytes written. *)
Definition RTMPTkipPutUInt32 (val : Z) : list Z :=
  map (λ i, Z.land (Z.shiftr val (8 * Z.of_nat i)) 0xff) (seq 0 4).

Definition RTMPTkipSetMICKey (t : TKIP_KEY_INFO) (pMICKey : list Z) : TKIP_KEY_INFO :=
  let K0 := RTMPTkipGetUInt32 pMICKey in
  let K1 := RTMPTkipGetUInt32 (drop 4 pMICKey) in
  mk_tkip 0 (tk_IV16 t) (tk_IV32 t) K0 K1 K0 K1 0 (tk_RC4KEY t) (tk_MIC t).

(** The word step on [L] and [R] once [M] is full. *)
Definition michael_word (L R M : Z) : Z * Z :=
  let L := Z.lxor L M in
  let R := Z.lxor R (ROL32 L 17) in
  let L := u64 (L + R) in
  let R := Z.lxor R (Z.lor (Z.shiftr (Z.land L 0xff00ff00) 8) (Z.shiftl (Z.land L 0x00ff00ff) 8)) in
  let L := u64 (L + R) in
  let R := Z.lxor R (ROL32 L 3) in
  let L := u64 (L + R) in
  let R := Z.lxor R (ROR32 L 2) in
  let L := u64 (L + R) in
  (L, R).

Definition RTMPTkipAppendByte (t : TKIP_KEY_INFO) (uChar : Z) : TKIP_KEY_INFO :=
  let M := Z.lor (tk_M t) (char_shl uChar (8 * nBytesInM t)) in
  let n := u32 (nBytesInM t + 1) in
  if 4 <=? n then
    let '(L, R) := michael_word (tk_L t) (tk_R t) M in
    mk_tkip 0 (tk_IV16 t) (tk_IV32 t) (tk_K0 t) (tk_K1 t) L R 0 (tk_RC4KEY t) (tk_MIC t)
  else mk_tkip n (tk_IV16 t) (tk_IV32 t) (tk_K0 t) (tk_K1 t) (tk_L t) (tk_R t) M
         (tk_RC4KEY t) (tk_MIC t).

(** [RTMPTkipAppend(pTkip, pSrc, nBytes)] with [src] the [nBytes] bytes. *)
Definition RTMPTkipAppend (t : TKIP_KEY_INFO) (src : list Z) : TKIP_KEY_INFO :=
  foldl RTMPTkipAppendByte t src.

(** [while (pTkip->nBytesInM != 0) RTMPTkipAppendByte(pTkip, 0)] *)
Fixpoint pad_loop (fuel : nat) (t : TKIP_KEY_INFO) : option TKIP_KEY_INFO :=
  if nBytesInM t =? 0 then Some t
  else match fuel with
       | O => None
       | S fuel => pad_loop fuel (RTMPTkipAppendByte t 0)
       end.

Definition RTMPTkipGetMIC (t : TKIP_KEY_INFO) : option TKIP_KEY_INFO :=
  let t := RTMPTkipAppendByte t 0x5a in
  let t := RTMPTkipAppendByte t 0 in
  let t := RTMPTkipAppendByte t 0 in
  let t := RTMPTkipAppendByte t 0 in
  let t := RTMPTkipAppendByte t 0 in
  t ← pad_loop 3 t;
  Some (mk_tkip (nBytesInM t) (tk_IV16 t) (tk_IV32 t) (tk_K0 t) (tk_K1 t) (tk_L t) (tk_R t) (tk_M t)
          (tk_RC4KEY t) (RTMPTkipPutUInt32 (tk_L t) ++ RTMPTkipPutUInt32 (tk_R t))).

(** The first four bytes of the [ULONG] Priority in memory. *)
Definition priority_bytes (UserPriority : Z) : list Z := le_bytes 4 UserPriority.

Definition RTMPInitMICEngine (Tx : TKIP_KEY_INFO) (pDA pSA : list Z) (UserPriority : Z)
    (pMICKey : list Z) : TKIP_KEY_INFO :=
  let Tx := RTMPTkipSetMICKey Tx pMICKey in
  let Tx := RTMPTkipAppend Tx (take 6 pDA) in
  let Tx := RTMPTkipAppend Tx (take 6 pSA) in
  RTMPTkipAppend Tx (priority_bytes UserPriority).

(** The result and the updated [PrivateInfo.Rx]. *)
Definition RTMPTkipCompareMICValue (Rx : TKIP_KEY_INFO) (pSrc pDA pSA pMICKey : list Z)
    (UserPriority : Z) (Len : nat) : option (bool * TKIP_KEY_INFO) :=
  if negb (in_buf pSrc Len 8) then None
  else
    let Rx := RTMPTkipSetMICKey Rx pMICKey in
    let Rx := RTMPTkipAppend Rx (take 6 pDA) in
    let Rx := RTMPTkipAppend Rx (take 6 pSA) in
    let Rx := RTMPTkipAppend Rx (priority_bytes UserPriority) in
    let Rx := RTMPTkipAppend Rx (take Len pSrc) in
    let OldMic := slice pSrc Len 8 in
    Rx ← RTMPTkipGetMIC Rx;
    Some (bool_decide (tk_MIC Rx = OldMic), Rx).

(** The packet is its Ethernet header and payload; [pEncap] the six bytes of
    the LLC/SNAP header, if any. *)
Definition RTMPCalculateMICValue (Tx : TKIP_KEY_INFO) (pSrc : list Z) (UserPriority : Z)
    (pEncap : option (list Z)) (pKey : CIPHER_KEY) : option TKIP_KEY_INFO :=
  let vlan_offset := if Z.shiftl (aget pSrc 12) 8 + aget pSrc 13 =? 0x8100 then 4%nat else O in
  if negb (in_buf pSrc 0 (14 + vlan_offset)) then None
  else
    let Tx := RTMPInitMICEngine Tx pSrc (drop 6 pSrc) UserPriority (TxMic pKey) in
    let Tx := match pEncap with
              | Some e => RTMPTkipAppend (RTMPTkipAppend Tx (take 6 e)) (slice pSrc (12 + vlan_offset) 2)
              | None => Tx
              end in
    let Tx := RTMPTkipAppend Tx (drop (14 + vlan_offset) pSrc) in
    RTMPTkipGetMIC Tx.

(** * Michael, 32 bits wide (IEEE 802.11, TKIP MIC) *)

Definition rol32 (x n : Z) : Z := u32 (Z.lor (Z.shiftl x n) (Z.shiftr x (32 - n))).

Definition xswap (x : Z) : Z :=
  Z.lor (Z.shiftl (Z.land x 0x00ff00ff) 8) (Z.land (Z.shiftr x 8) 0x00ff00ff).

Definition michael_b (L R : Z) : Z * Z :=
  let R := Z.lxor R (rol32 L 17) in
  let L := u32 (L + R) in
  let R := Z.lxor R (xswap L) in
  let L := u32 (L + R) in
  let R := Z.lxor R (rol32 L 3) in
  let L := u32 (L + R) in
  let R := Z.lxor R (rol32 L 30) in
  let L := u32 (L + R) in
  (L, R).

(** Absorb [n] little-endian words of the message. *)
Fixpoint michael_words (n : nat) (L R : Z) (m : list Z) : Z * Z :=
  match n with
  | O => (L, R)
  | S n => let '(L, R) := michael_b (Z.lxor L (le_word (take 4 m))) R in
           michael_words n L R (drop 4 m)
  end.

(** The message behind its padding: 0x5a and four to seven zeros. *)
Definition michael_padded (m : list Z) : list Z :=
  m ++ [0x5a] ++ zeros (4 + (3 - length m mod 4)).

Definition michael (key m : list Z) : list Z :=
  let '(L, R) := michael_words ((length m + 8) / 4) (le_word (take 4 key)) (le_word (slice key 4 4))
                   (michael_padded m) in
  le_bytes 4 L ++ le_bytes 4 R.

(** * The 64-bit state runs the 32-bit algorithm *)

Lemma u32_u64 x : u32 (u64 x) = u32 x.
Proof. bits i. rewrite !wrap_spec by done. destruct (Z.ltb_spec i 32), (Z.ltb_spec i 64); done || lia. Qed.

Lemma u32_ROL32 A n : 0 ≤ n ≤ 32 → u32 (ROL32 A n) = rol32 (u32 A) n.
Proof.
  intros Hn. unfold ROL32, rol32. bits i. rewrite !wrap_spec, !Z.lor_spec by done.
  rewrite wrap_spec, Z.land_spec, !Z.shiftl_spec, !Z.shiftr_spec by lia.
  replace (Z.shiftl 1 n - 1) with (Z.ones n) by (unfold Z.ones; lia).
  rewrite Z.testbit_ones by lia. rewrite (wrap_spec 32 A (i + (32 - n))) by lia.
  destruct (Z.ltb_spec i 32); [|done]. destruct (Z.ltb_spec i 64); [|lia].
  destruct (Z.leb_spec 0 i); [|lia]. cbn [andb].
  destruct (Z.ltb_spec i n), (Z.ltb_spec (i + (32 - n)) 32); try lia.
  - rewrite !(Z.testbit_neg_r _ (i - n)) by lia. btauto.
  - rewrite wrap_spec by lia. destruct (Z.ltb_spec (i - n) 32); [|lia]. btauto.
Qed.

Lemma u32_lxor x y : u32 (Z.lxor x y) = Z.lxor (u32 x) (u32 y).
Proof. by apply wrap_lxor. Qed.

Lemma u32_add64 x y : u32 (u64 (x + y)) = u32 (u32 x + u32 y).
Proof. by rewrite u32_u64, wrap_add_l, wrap_add_r. Qed.

Lemma land_u32 x c : in_range 32 c → Z.land (u32 x) c = Z.land x c.
Proof.
  intros Hc. bits i. rewrite wrap_spec by done. destruct (Z.ltb_spec i 32); [done|].
  rewrite (in_range_testbit 32 c) by done. btauto.
Qed.

Lemma shiftr_u32 x : Z.land (Z.shiftr (u32 x) 8) 0x00ff00ff = Z.land (Z.shiftr x 8) 0x00ff00ff.
Proof.
  bits i. rewrite !Z.shiftr_spec, wrap_spec by lia. destruct (Z.ltb_spec (i + 8) 32); [done|].
  rewrite (in_range_testbit 24 0x00ff00ff) by (done || lia). btauto.
Qed.

Lemma u32_xswap L :
  u32 (Z.lor (Z.shiftr (Z.land L 0xff00ff00) 8) (Z.shiftl (Z.land L 0x00ff00ff) 8)) = xswap (u32 L).
Proof.
  unfold xswap. rewrite land_u32, shiftr_u32 by done.
  rewrite Z.shiftr_land. change (Z.shiftr 0xff00ff00 8) with 0x00ff00ff. rewrite Z.lor_comm.
  apply wrap_id; [done|]. apply in_range_lor; [done| |].
  - rewrite Z.shiftl_land. rewrite Z.land_comm. by apply in_range_land_l.
  - rewrite Z.land_comm. by apply in_range_land_l.
Qed.

Create Rewrite HintDb u32.
#[local] Hint Rewrite u32_lxor u32_add64 u32_xswap : u32.
#[local] Hint Rewrite u32_ROL32 using lia : u32.

Lemma michael_word_low L R M :
  let '(L', R') := michael_word L R M in
  (u32 L', u32 R') = michael_b (Z.lxor (u32 L) (u32 M)) (u32 R).
Proof.
  unfold michael_word, michael_b, ROR32. change (32 - 2) with 30.
  cbv zeta. by autorewrite with u32.
Qed.

(** [t] has the 32-bit state [L], [R] and holds the bytes [tail] of a word. *)
Definition tk_sim (t : TKIP_KEY_INFO) (L R : Z) (tail : list Z) : Prop :=
  nBytesInM t = Z.of_nat (length tail) ∧ u32 (tk_L t) = L ∧ u32 (tk_R t) = R ∧
  u32 (tk_M t) = le_word tail ∧ bytes tail ∧ (length tail < 4)%nat.

Lemma u32_char_shl b n : u32 (char_shl b n) = u32 (Z.shiftl b n).
Proof.
  unfold char_shl. rewrite u32_u64. destruct (_ <? _); [by apply wrap_wrap|].
  rewrite !wrap_mod by done.
  replace (_ - 2 ^ 32) with (Z.shiftl b n `mod` 2 ^ 32 + (-1) * 2 ^ 32) by lia.
  by rewrite Z.mod_add, Z.mod_mod by lia.
Qed.

Lemma le_word_snoc l b : le_word (l ++ [b]) = Z.lor (le_word l) (Z.shiftl b (8 * Z.of_nat (length l))).
Proof.
  induction l as [|a l IH]; cbn [app le_word length].
  - rewrite Z.shiftl_0_l, Z.lor_0_r, Z.lor_0_l. by rewrite Z.shiftl_0_r.
  - rewrite IH, Z.shiftl_lor, Z.lor_assoc, Z.shiftl_shiftl by lia. do 2 f_equal. lia.
Qed.

Lemma u32_lor x y : u32 (Z.lor x y) = Z.lor (u32 x) (u32 y).
Proof. bits i. rewrite !wrap_spec, Z.lor_spec by done. btauto. Qed.

Lemma u32_full_word l : bytes l → (length l ≤ 4)%nat → u32 (le_word l) = le_word l.
Proof.
  intros Hl Hn. apply wrap_id; [done|]. apply (in_range_mono (8 * Z.of_nat (length l))); [lia|].
  by apply le_word_range.
Qed.

(** One byte: a step of the word, or one more byte of it. *)
Lemma append_byte_sim t L R tail b :
  tk_sim t L R tail → byte b →
  let w := tail ++ [b] in
  if decide (length tail = 3%nat)
  then tk_sim (RTMPTkipAppendByte t b) (michael_b (Z.lxor L (le_word w)) R).1
         (michael_b (Z.lxor L (le_word w)) R).2 []
  else tk_sim (RTMPTkipAppendByte t b) L R w.
Proof.
  intros (Hn & HL & HR & HM & Hb & Hlt) Hbyte w. unfold RTMPTkipAppendByte.
  assert (Hw : bytes w) by (unfold w; apply Forall_app_2; auto).
  assert (Hlw : length w = S (length tail)) by (unfold w; rewrite length_app; simpl; lia).
  assert (HM' : u32 (Z.lor (tk_M t) (char_shl b (8 * nBytesInM t))) = le_word w).
  { rewrite u32_lor, u32_char_shl, HM, Hn. rewrite <- (u32_full_word tail) by (done || lia).
    rewrite <- u32_lor, <- le_word_snoc. apply u32_full_word; [done|]. fold w. lia. }
  rewrite (wrap_id 32 (nBytesInM t + 1)) by (unfold in_range; lia).
  destruct (decide (length tail = 3%nat)) as [E|E].
  - rewrite (proj2 (Z.leb_le 4 _)) by lia.
    pose proof (michael_word_low (tk_L t) (tk_R t) (Z.lor (tk_M t) (char_shl b (8 * nBytesInM t)))) as H.
    destruct (michael_word _ _ _) as [L' R']. rewrite HL, HR, HM' in H. rewrite <- H.
    repeat split; first [done | simpl; lia | constructor].
  - rewrite (proj2 (Z.leb_gt 4 _)) by lia.
    repeat split; simpl; [lia|done|done|done|done|lia].
Qed.

Lemma append_sim m : ∀ t L R tail,
  tk_sim t L R tail → bytes m →
  let q := ((length tail + length m) / 4)%nat in
  let LR := michael_words q L R (tail ++ m) in
  tk_sim (RTMPTkipAppend t m) LR.1 LR.2 (drop (4 * q) (tail ++ m)).
Proof.
  induction m as [|b m IH]; intros t L R tail Hs Hm.
  - pose proof Hs as (_ & _ & _ & _ & _ & Hlt). cbn [length]. rewrite Nat.add_0_r.
    rewrite Nat.div_small by lia. simpl. by rewrite app_nil_r.
  - apply Forall_cons in Hm as [Hb Hm]. pose proof Hs as (_ & _ & _ & _ & _ & Hlt).
    pose proof (append_byte_sim t L R tail b Hs Hb) as H1. cbv zeta in H1. cbv zeta.
    change (b :: m) with ([b] ++ m). rewrite app_assoc.
    unfold RTMPTkipAppend. cbn [foldl app]. fold (RTMPTkipAppend (RTMPTkipAppendByte t b) m).
    destruct (decide (length tail = 3%nat)) as [E|E].
    + specialize (IH _ _ _ _ H1 Hm). cbv zeta in IH. cbn [length app] in IH |- *.
      rewrite E. replace (3 + S (length m))%nat with (1 * 4 + (0 + length m))%nat by lia.
      rewrite Nat.div_add_l by lia. set (q := ((0 + length m) / 4)%nat) in *.
      change (1 + q)%nat with (S q). cbn [michael_words].
      assert (H4 : length (tail ++ [b]) = 4%nat) by (rewrite length_app; simpl; lia).
      rewrite take_app_length', drop_app_length' by done.
      destruct (michael_b _ _) as [L' R']. cbn [fst snd] in IH.
      replace (4 * S q)%nat with (4 + 4 * q)%nat by lia.
      rewrite <- drop_drop, drop_app_length' by done. exact IH.
    + specialize (IH _ _ _ _ H1 Hm). cbv zeta in IH. rewrite length_app in IH. cbn [length] in IH |- *.
      by replace (length tail + S (length m))%nat with (length tail + 1 + length m)%nat by lia.
Qed.

(** The padding loop ends within the three turns it is given. *)
Lemma pad_loop_spec t :
  0 ≤ nBytesInM t < 4 →
  pad_loop 3 t = Some (RTMPTkipAppend t (zeros (Z.to_nat ((4 - nBytesInM t) `mod` 4)))).
Proof.
  intros H. destruct t as [n iv16 iv32 K0 K1 L R M rc mic]. cbn [nBytesInM] in *.
  assert (Hn : n = 0 ∨ n = 1 ∨ n = 2 ∨ n = 3) by lia.
  destruct Hn as [->|[->|[->| ->]]]; reflexivity.
Qed.

Lemma nBytesInM_append_byte t b :
  0 ≤ nBytesInM t < 4 → nBytesInM (RTMPTkipAppendByte t b) = (nBytesInM t + 1) `mod` 4.
Proof.
  intros H. unfold RTMPTkipAppendByte. rewrite wrap_id by (unfold in_range; lia).
  destruct (Z.leb_spec 4 (nBytesInM t + 1)).
  - destruct (michael_word _ _ _). cbn [nBytesInM]. zdm.
  - cbn [nBytesInM]. zdm.
Qed.

Lemma nBytesInM_append m : ∀ t,
  0 ≤ nBytesInM t < 4 →
  nBytesInM (RTMPTkipAppend t m) = (nBytesInM t + Z.of_nat (length m)) `mod` 4.
Proof.
  induction m as [|b m IH]; intros t H; cbn [length].
  - unfold RTMPTkipAppend. cbn [foldl]. zdm.
  - unfold RTMPTkipAppend in *. cbn [foldl]. pose proof (nBytesInM_append_byte t b H) as E.
    rewrite IH; rewrite E; zdm.
Qed.

Lemma RTMPTkipAppend_app t m m' :
  RTMPTkipAppend (RTMPTkipAppend t m) m' = RTMPTkipAppend t (m ++ m').
Proof. symmetry. apply foldl_app. Qed.

Lemma GetMIC_spec t n :
  nBytesInM t = Z.of_nat n → (n < 4)%nat →
  ∃ t', RTMPTkipGetMIC t = Some t' ∧
    let u := RTMPTkipAppend t (0x5a :: zeros (4 + (3 - n))) in
    tk_MIC t' = RTMPTkipPutUInt32 (tk_L u) ++ RTMPTkipPutUInt32 (tk_R u).
Proof.
  intros Hn Hlt. unfold RTMPTkipGetMIC.
  set (t1 := RTMPTkipAppendByte _ 0).
  assert (Et : t1 = RTMPTkipAppend t [0x5a; 0; 0; 0; 0]) by (unfold RTMPTkipAppend; cbn [foldl]; reflexivity).
  assert (H1 : nBytesInM t1 = (Z.of_nat n + 5) `mod` 4)
    by (rewrite Et, nBytesInM_append, Hn by lia; done).
  rewrite pad_loop_spec by (rewrite H1; zdm). cbn [mbind option_bind].
  eexists. split; [done|]. cbn [tk_MIC]. rewrite Et, RTMPTkipAppend_app, <- Et.
  replace (Z.to_nat ((4 - nBytesInM t1) `mod` 4)) with (3 - n)%nat by (rewrite H1; zdm).
  change (zeros (4 + (3 - n))) with ([0; 0; 0; 0] ++ zeros (3 - n)). reflexivity.
Qed.

Lemma u32_GetUInt32 key :
  bytes key → (4 ≤ length key)%nat → u32 (RTMPTkipGetUInt32 key) = le_word (take 4 key).
Proof.
  intros Hb Hl. destruct key as [|a [|b [|c [|d key]]]]; cbn [length] in Hl; try lia.
  unfold RTMPTkipGetUInt32. cbn [seq foldl nth]. rewrite !u32_lor, !u32_char_shl, <- !u32_lor.
  rewrite <- (u32_full_word (take 4 _)).
  - cbn [take le_word]. f_equal. rewrite Z.shiftl_0_l, Z.lor_0_r, !Z.shiftl_lor, !Z.lor_assoc.
    rewrite !Z.shiftl_shiftl by lia. by rewrite Z.lor_0_l, Z.shiftl_0_r.
  - by apply bytes_take.
  - rewrite length_take. lia.
Qed.

(** A MIC key. *)
Definition mic_key (key : list Z) : Prop := length key = 8%nat ∧ bytes key.

Lemma SetMICKey_sim t key :
  mic_key key →
  tk_sim (RTMPTkipSetMICKey t key) (le_word (take 4 key)) (le_word (slice key 4 4)) [].
Proof.
  intros [Hl Hb]. unfold RTMPTkipSetMICKey, slice.
  repeat split; cbn [nBytesInM tk_L tk_R tk_M length]; try done; try lia.
  - apply u32_GetUInt32; [done|lia].
  - apply u32_GetUInt32; [auto with word|rewrite length_drop; lia].
Qed.

Lemma mic_of_message t key m :
  mic_key key → bytes m →
  ∃ t', RTMPTkipGetMIC (RTMPTkipAppend (RTMPTkipSetMICKey t key) m) = Some t' ∧
        tk_MIC t' = michael key m.
Proof.
  intros Hk Hm. pose proof (SetMICKey_sim t key Hk) as H0.
  assert (HP : bytes (michael_padded m)).
  { unfold michael_padded. repeat apply Forall_app_2; [done|solve_bytes|apply bytes_zeros]. }
  pose proof (append_sim (michael_padded m) _ _ _ [] H0 HP) as Hs. cbv zeta in Hs. cbn [app length] in Hs.
  assert (Hq : ((0 + length (michael_padded m)) / 4 = (length m + 8) / 4)%nat).
  { unfold michael_padded. rewrite !length_app, length_zeros. cbn [length].
    pose proof (Nat.div_mod_eq (length m) 4). pose proof (Nat.mod_upper_bound (length m) 4 ltac:(lia)).
    set (r := (length m mod 4)%nat) in *. set (d := (length m / 4)%nat) in *.
    replace (length m + 8)%nat with (r + (2 + d) * 4)%nat by lia.
    replace (0 + _)%nat with ((2 + d) * 4)%nat by lia.
    rewrite Nat.div_add, Nat.div_mul, (Nat.div_small r) by lia. lia. }
  rewrite Hq in Hs. destruct Hs as (_ & HL & HR & _).
  destruct (GetMIC_spec (RTMPTkipAppend (RTMPTkipSetMICKey t key) m) (length m mod 4)) as (t' & E & H).
  - rewrite nBytesInM_append by (simpl; lia). cbn [nBytesInM RTMPTkipSetMICKey].
    by rewrite Nat2Z.inj_mod.
  - apply Nat.mod_upper_bound. lia.
  - exists t'. split; [done|]. cbv zeta in H. rewrite RTMPTkipAppend_app in H.
    change (m ++ 90 :: zeros (4 + (3 - length m mod 4))) with (michael_padded m) in H.
    rewrite H. unfold michael. destruct (michael_words _ _ _ _) as [L R]. cbn [fst snd] in HL, HR.
    rewrite <- HL, <- HR. change RTMPTkipPutUInt32 with (le_bytes 4).
    by rewrite !(le_bytes_wrap 4).
Qed.

(** The message the MIC of an MSDU covers. *)
Definition mic_message (DA SA : list Z) (UserPriority : Z) (msdu : list Z) : list Z :=
  DA ++ SA ++ [UserPriority; 0; 0; 0] ++ msdu.

Lemma priority_bytes_spec UP : byte UP → priority_bytes UP = [UP; 0; 0; 0].
Proof.
  intros H. unfold priority_bytes. rewrite !le_bytes_S. cbn [le_bytes seq map].
  rewrite wrap_id by done.
  assert (Hz : ∀ k, 8 ≤ k → Z.shiftr UP k = 0).
  { intros k Hk. rewrite Z.shiftr_div_pow2 by lia. apply Z.div_small. destruct H as [H1 H2].
    assert (2 ^ 8 ≤ 2 ^ k) by (apply Z.pow_le_mono_r; lia). lia. }
  rewrite !Z.shiftr_shiftr by lia. by rewrite !Hz by lia.
Qed.

(** An address, and the engine after the pseudo header. *)
Definition mac (a : list Z) : Prop := length a = 6%nat ∧ bytes a.

Lemma bytes_mic_message DA SA UP msdu :
  mac DA → mac SA → byte UP → bytes msdu → bytes (mic_message DA SA UP msdu).
Proof.
  intros [_ H1] [_ H2] H3 H4. unfold mic_message.
  repeat apply Forall_app_2; try done. constructor; [done|apply (bytes_zeros 3)].
Qed.

Lemma InitMICEngine_append Tx DA SA x y UP key msdu :
  mac DA → mac SA → byte UP →
  RTMPTkipAppend (RTMPInitMICEngine Tx (DA ++ x) (SA ++ y) UP key) msdu =
    RTMPTkipAppend (RTMPTkipSetMICKey Tx key) (mic_message DA SA UP msdu).
Proof.
  intros [H1 _] [H2 _] H3. unfold RTMPInitMICEngine, mic_message.
  rewrite !take_app_length' by done. rewrite !RTMPTkipAppend_app, priority_bytes_spec by done.
  done.
Qed.

Lemma length_michael key m : length (michael key m) = 8%nat.
Proof. unfold michael. destruct (michael_words _ _ _ _). by rewrite length_app, !length_le_bytes. Qed.

Lemma CompareMICValue_spec Rx DA SA UP key msdu mic rest :
  mic_key key → mac DA → mac SA → byte UP → bytes msdu → length mic = 8%nat →
  ∃ Rx', RTMPTkipCompareMICValue Rx (msdu ++ mic ++ rest) DA SA key UP (length msdu) =
           Some (bool_decide (michael key (mic_message DA SA UP msdu) = mic), Rx').
Proof.
  intros Hk HD HS HU Hm Hmic. unfold RTMPTkipCompareMICValue, in_buf, slice.
  rewrite (proj2 (Nat.leb_le _ _)) by (rewrite !length_app; lia). cbn [negb]. cbv iota zeta.
  rewrite take_app_length, drop_app_length, (take_app_length' mic) by done.
  pose proof (InitMICEngine_append Rx DA SA [] [] UP key msdu HD HS HU) as E.
  rewrite !app_nil_r in E. unfold RTMPInitMICEngine in E. rewrite E. clear E.
  destruct (mic_of_message Rx key (mic_message DA SA UP msdu)) as (Rx' & -> & HM); [done| |].
  { by apply bytes_mic_message. }
  cbn [mbind option_bind]. exists Rx'. by rewrite HM.
Qed.

(** * The properties *)

(** C38: The MIC engine computes Michael: for every key, address pair, priority
    and MSDU, whatever the engine held before, initialising it, appending the
    MSDU and closing it always returns, and the eight bytes it leaves are the
    32-bit Michael MIC of IEEE 802.11 of the pseudo header and the MSDU,
    although the code runs on 64-bit sign-extended words. *)
Theorem tkip_mic_is_michael Tx DA SA x y UP key msdu
    (Hk : mic_key key) (HD : mac DA) (HS : mac SA) (HU : byte UP) (Hm : bytes msdu) :
  ∃ t', RTMPTkipGetMIC (RTMPTkipAppend (RTMPInitMICEngine Tx (DA ++ x) (SA ++ y) UP key) msdu)
          = Some t' ∧
        tk_MIC t' = michael key (mic_message DA SA UP msdu).
Proof.
  rewrite InitMICEngine_append by done.
  apply mic_of_message; [done|]. by apply bytes_mic_message.
Qed.

Lemma tkip_mic_is_michael_witness :
  ∃ t', RTMPTkipGetMIC (RTMPTkipAppend (RTMPInitMICEngine (mk_tkip 3 0 0 0 0 9 9 9 [] [])
          (zeros 6 ++ []) (zeros 6 ++ []) 7 (zeros 8)) [1; 2; 200]) = Some t' ∧
        tk_MIC t' = michael (zeros 8) (mic_message (zeros 6) (zeros 6) 7 [1; 2; 200]).
Proof.
  apply tkip_mic_is_michael; [|split..|done|]; try done; try apply bytes_zeros; [|solve_bytes].
  split; [done|apply bytes_zeros].
Defined.

(** The MIC check on reception accepts exactly the MSDUs that end in
    their own Michael MIC. *)
Theorem tkip_compare_mic Rx DA SA UP key msdu mic rest
    (Hk : mic_key key) (HD : mac DA) (HS : mac SA) (HU : byte UP) (Hm : bytes msdu)
    (Hmic : length mic = 8%nat) :
  ∃ r Rx', RTMPTkipCompareMICValue Rx (msdu ++ mic ++ rest) DA SA key UP (length msdu)
             = Some (r, Rx') ∧
           (r = true ↔ mic = michael key (mic_message DA SA UP msdu)).
Proof.
  destruct (CompareMICValue_spec Rx DA SA UP key msdu mic rest) as [Rx' H]; [done..|].
  eexists _, _. split; [exact H|]. rewrite bool_decide_eq_true. naive_solver.
Qed.

Lemma tkip_compare_mic_witness :
  ∃ r Rx', RTMPTkipCompareMICValue (mk_tkip 0 0 0 0 0 0 0 0 [] [])
             ([5; 6] ++ zeros 8 ++ []) (zeros 6) (zeros 6) (zeros 8) 0 2 = Some (r, Rx').
Proof.
  destruct (tkip_compare_mic (mk_tkip 0 0 0 0 0 0 0 0 [] []) (zeros 6) (zeros 6) 0 (zeros 8) [5; 6]
    (zeros 8) []) as (r & Rx' & H & _).
  - split; [done|apply bytes_zeros].
  - split; [done|apply bytes_zeros].
  - split; [done|apply bytes_zeros].
  - done.
  - solve_bytes.
  - done.
  - exists r, Rx'. exact H.
Defined.

(** The tag of a VLAN frame, or nothing. *)
Definition vlan_tag (v : list Z) : Prop := v = [] ∨ ∃ tci, v = [0x81; 0] ++ tci ∧ length tci = 2%nat.

Lemma CalculateMICValue_spec Tx DA SA v ty payload e UP k :
  mac DA → mac SA → byte UP → vlan_tag v → length ty = 2%nat →
  (v = [] → ty ≠ [0x81; 0]) → bytes ty → length e = 6%nat →
  RTMPCalculateMICValue Tx (DA ++ SA ++ v ++ ty ++ payload) UP (Some e) k =
    RTMPTkipGetMIC (RTMPTkipAppend (RTMPTkipSetMICKey Tx (TxMic k))
      (mic_message DA SA UP (e ++ ty ++ payload))).
Proof.
  intros HD HS HU Hv Hty Hn Hb He. unfold RTMPCalculateMICValue.
  pose proof HD as [HD1 _]. pose proof HS as [HS1 _].
  assert (Hoff : (if Z.shiftl (aget (DA ++ SA ++ v ++ ty ++ payload) 12) 8 +
                    aget (DA ++ SA ++ v ++ ty ++ payload) 13 =? 0x8100 then 4%nat else O) = length v).
  { unfold aget. change (Z.to_nat 12) with (6 + (6 + 0))%nat. change (Z.to_nat 13) with (6 + (6 + 1))%nat.
    rewrite <- HD1 at 1 3. rewrite !app_nth2_plus. rewrite <- HS1 at 1 2. rewrite !app_nth2_plus.
    destruct Hv as [->|(tci & -> & Ht)]; [|cbn [app nth length]; by rewrite Ht].
    destruct ty as [|a [|b [|]]]; try done. cbn [app nth length].
    destruct (Z.eqb_spec (Z.shiftl a 8 + b) 0x8100) as [E|]; [|done].
    exfalso. apply (Hn eq_refl). rewrite Z.shiftl_mul_pow2 in E by lia.
    apply Forall_cons in Hb as [[] Hb]. apply Forall_cons in Hb as [[] _].
    change (2 ^ 8) with 256 in *. assert (a = 129) by lia. f_equal; [done|]. f_equal. lia. }
  rewrite Hoff. cbv zeta. unfold in_buf, slice.
  rewrite (proj2 (Nat.leb_le _ _)) by (rewrite !length_app; lia). cbn [negb]. cbv iota.
  replace (drop 6 (DA ++ SA ++ v ++ ty ++ payload)) with (SA ++ v ++ ty ++ payload)
    by (by rewrite drop_app_length').
  rewrite !RTMPTkipAppend_app, InitMICEngine_append by done. do 3 f_equal.
  rewrite (app_assoc DA), (app_assoc (DA ++ SA)).
  assert (Hl : length ((DA ++ SA) ++ v) = (12 + length v)%nat) by (rewrite !length_app; lia).
  rewrite (take_ge e) by lia. rewrite drop_app_length' by done.
  replace (14 + length v)%nat with (12 + length v + 2)%nat by lia.
  rewrite <- drop_drop, (drop_app_length' ((DA ++ SA) ++ v)) by done.
  rewrite take_app_length', drop_app_length' by done. done.
Qed.

(** Sender and receiver agree on the MIC: the MIC the transmit path
    computes for an Ethernet packet with an LLC/SNAP header, VLAN tagged or
    not, appended to the MSDU, is accepted by the check of a receiver that
    holds the same MIC key, addresses and priority. *)
Theorem tkip_mic_round_trip Tx Rx DA SA v ty payload e UP k
    (Hk : mic_key (TxMic k)) (HD : mac DA) (HS : mac SA) (HU : byte UP) (Hv : vlan_tag v)
    (Hty : length ty = 2%nat) (Hnv : v = [] → ty ≠ [0x81; 0]) (Hb : bytes (e ++ ty ++ payload))
    (He : length e = 6%nat) :
  ∃ Tx' Rx',
    RTMPCalculateMICValue Tx (DA ++ SA ++ v ++ ty ++ payload) UP (Some e) k = Some Tx' ∧
    RTMPTkipCompareMICValue Rx ((e ++ ty ++ payload) ++ tk_MIC Tx') DA SA (TxMic k) UP
      (length (e ++ ty ++ payload)) = Some (true, Rx').
Proof.
  rewrite CalculateMICValue_spec; try done; [|apply Forall_app in Hb as [_ Hb];
    by apply Forall_app in Hb as [Hb _]].
  set (msdu := e ++ ty ++ payload) in *.
  destruct (mic_of_message Tx (TxMic k) (mic_message DA SA UP msdu)) as (Tx' & -> & HM);
    [done|by apply bytes_mic_message|].
  destruct (CompareMICValue_spec Rx DA SA UP (TxMic k) msdu (tk_MIC Tx') []) as [Rx' H];
    [done..|by rewrite HM, length_michael|].
  exists Tx', Rx'. split; [done|]. rewrite app_nil_r in H.
  by rewrite bool_decide_eq_true_2 in H.
Qed.

Lemma tkip_mic_round_trip_witness :
  let k := mk_key (zeros 16) [1; 2; 3; 4; 5; 6; 7; 200] (zeros 8) (zeros 6) (zeros 6) 3 16 (zeros 6) 0 in
  ∃ Tx' Rx',
    RTMPCalculateMICValue (mk_tkip 0 0 0 0 0 0 0 0 [] [])
      (zeros 6 ++ zeros 6 ++ [] ++ [8; 0] ++ [69; 0; 255]) 0 (Some [170; 170; 3; 0; 0; 0]) k = Some Tx' ∧
    RTMPTkipCompareMICValue (mk_tkip 0 0 0 0 0 0 0 0 [] [])
      (([170; 170; 3; 0; 0; 0] ++ [8; 0] ++ [69; 0; 255]) ++ tk_MIC Tx') (zeros 6) (zeros 6)
      (TxMic k) 0 11 = Some (true, Rx').
Proof.
  intros k. apply (tkip_mic_round_trip (mk_tkip 0 0 0 0 0 0 0 0 [] []) (mk_tkip 0 0 0 0 0 0 0 0 [] [])
    (zeros 6) (zeros 6) [] [8; 0] [69; 0; 255] [170; 170; 3; 0; 0; 0] 0 k).
  - split; [done|solve_bytes].
  - split; [done|apply bytes_zeros].
  - split; [done|apply bytes_zeros].
  - done.
  - by left.
  - done.
  - done.
  - solve_bytes.
  - done.
Defined.

(** Two of the published test vectors: the empty message under the zero key,
    and "Michael". *)
Example michael_vectors :
  michael (zeros 8) [] = [130; 146; 92; 28; 161; 209; 48; 184] ∧
  michael [213; 94; 16; 5; 16; 18; 137; 134] [77; 105; 99; 104; 97; 101; 108] =
    [10; 148; 43; 18; 78; 202; 165; 70].
Proof. vm_compute. done. Qed.
