(* ===== verification/BlockHash.v ===== *)
(** The streaming interface shared by the hash functions of
    src/common/crypt_md5.c and src/common/crypt_sha2.c.

    [RT_MD5_*], [RT_SHA1_*] and [RT_SHA256_*] are the same Init, Append, End
    and one-shot code around three compression functions and two byte orders.
    The class [BlockHash] is what that code needs of an algorithm; the
    contexts, the append loop with its 32-bit lengths and the padding are
    modelled once, and proved to compute the padded Merkle-Damgard hash for
    every instance. *)

From S2P Require Import Prelude.

Definition BLOCK_SIZE : nat := 64.

Class BlockHash := {
  (** The words the context starts with. *)
  DefaultHashValue : list Z;
  (** One block into the hash value. *)
  compress : list Z → list Z → list Z;
  (** The 64-bit message length in the byte order of the algorithm. *)
  length_field : Z → list Z;
  (** The hash value as the digest bytes. *)
  digest_bytes : list Z → list Z;
  length_length_field : ∀ x, length (length_field x) = 8%nat
}.

Record HASH_CTX := mk_hctx {
  HashValue : list Z;
  MessageLen : Z;
  Block : list Z;
  BlockLen : Z
}.

Section Hash.
Context `{BH : BlockHash}.

Definition Hash_Init : HASH_CTX := mk_hctx DefaultHashValue 0 (zeros BLOCK_SIZE) 0.

Definition Hash_Hash (c : HASH_CTX) : HASH_CTX :=
  mk_hctx (compress (HashValue c) (Block c)) (MessageLen c) (zeros BLOCK_SIZE) 0.

(** The loop of Append on the rest of the message, which is
    [Message + appendLen], of length [diffLen]. *)
Fixpoint append_loop (fuel : nat) (c : HASH_CTX) (Message : list Z) : option HASH_CTX :=
  match Message with
  | [] => Some c
  | _ :: _ =>
      match fuel with
      | O => None
      | S fuel =>
          let diffLen := Z.of_nat (length Message) in
          if u32 (BlockLen c + diffLen) <? 64
          then append_loop fuel
                 (mk_hctx (HashValue c) (MessageLen c)
                    (bwrite (Block c) (Z.to_nat (BlockLen c)) Message)
                    (u32 (BlockLen c + diffLen))) []
          else
            let k := Z.to_nat (64 - BlockLen c) in
            append_loop fuel
              (Hash_Hash (mk_hctx (HashValue c) (MessageLen c)
                 (bwrite (Block c) (Z.to_nat (BlockLen c)) (take k Message)) 64))
              (drop k Message)
      end
  end.

(** [None] if the loop needs more than one turn per byte. *)
Definition Hash_Append (c : HASH_CTX) (Message : list Z) : option HASH_CTX :=
  c ← append_loop (length Message) c Message;
  Some (mk_hctx (HashValue c) (u64 (MessageLen c + Z.of_nat (length Message)))
          (Block c) (BlockLen c)).

Definition Hash_End (c : HASH_CTX) : list Z :=
  let c := mk_hctx (HashValue c) (MessageLen c)
             (bwrite (Block c) (Z.to_nat (BlockLen c)) [0x80]) (BlockLen c) in
  let c := if 55 <? BlockLen c then Hash_Hash c else c in
  let message_length_bits := u64 (MessageLen c * 8) in
  let c := mk_hctx (HashValue c) (MessageLen c)
             (bwrite (Block c) 56 (length_field message_length_bits)) (BlockLen c) in
  let c := Hash_Hash c in
  digest_bytes (HashValue c).

Definition Hash_Message (Message : list Z) : option (list Z) :=
  c ← Hash_Append Hash_Init Message; Some (Hash_End c).

(** * The specification: pad, cut into blocks, fold *)

Fixpoint absorb (n : nat) (h : list Z) (m : list Z) : list Z :=
  match n with
  | O => h
  | S n => absorb n (compress h (take 64 m)) (drop 64 m)
  end.

(** The number of zero bytes between the bit 1 and the length. *)
Definition pad_zeros (len : nat) : nat := Z.to_nat ((55 - Z.of_nat len) `mod` 64).

Definition padded (m : list Z) : list Z :=
  m ++ [0x80] ++ zeros (pad_zeros (length m)) ++
  length_field (u64 (Z.of_nat (length m) * 8)).

Definition merkle_damgard (m : list Z) : list Z :=
  digest_bytes (absorb (length (padded m) / 64) DefaultHashValue (padded m)).

(** The context that has absorbed [m], with the length field [len]. *)
Definition ctx_at (m : list Z) (len : Z) : HASH_CTX :=
  let n := (length m / 64)%nat in
  let t := drop (64 * n) m in
  mk_hctx (absorb n DefaultHashValue m) len
    (t ++ zeros (64 - length t)) (Z.of_nat (length t)).

Definition ctx_of (m : list Z) : HASH_CTX := ctx_at m (u64 (Z.of_nat (length m))).

(** * Lemmas *)

Lemma absorb_add a b h m :
  absorb (a + b) h m = absorb b (absorb a h m) (drop (64 * a) m).
Proof.
  revert h m. induction a as [|a IH]; intros h m.
  - simpl. by rewrite drop_0.
  - cbn [plus absorb]. rewrite IH, drop_drop. do 2 f_equal. lia.
Qed.

Lemma absorb_prefix n h m x :
  (64 * n ≤ length m)%nat → absorb n h (m ++ x) = absorb n h m.
Proof.
  revert h m. induction n as [|n IH]; intros h m Hn; [done|]. cbn [absorb].
  rewrite take_app_le, drop_app_le by lia. apply IH. rewrite length_drop. lia.
Qed.

Lemma tail_length (m : list Z) :
  length (drop (64 * (length m / 64)) m) = (length m mod 64)%nat.
Proof.
  rewrite length_drop. pose proof (Nat.div_mod_eq (length m) 64). lia.
Qed.

(** Fill the last block completely and hash it. *)
Lemma ctx_at_fill m len x :
  length x = (64 - length m mod 64)%nat →
  Hash_Hash (mk_hctx (HashValue (ctx_at m len)) len
    (bwrite (Block (ctx_at m len)) (Z.to_nat (BlockLen (ctx_at m len))) x) 64) =
  ctx_at (m ++ x) len.
Proof.
  intros Hx. pose proof (Nat.div_mod_eq (length m) 64) as Hdm.
  pose proof (Nat.mod_upper_bound (length m) 64 ltac:(lia)) as Hr.
  set (n := (length m / 64)%nat) in *. set (r := (length m mod 64)%nat) in *.
  assert (Hl : length (m ++ x) = (64 * (n + 1))%nat) by (rewrite length_app; lia).
  assert (Hdiv : (length (m ++ x) / 64 = n + 1)%nat)
    by (rewrite Hl, Nat.mul_comm; apply Nat.div_mul; lia).
  unfold ctx_at, Hash_Hash. cbn [HashValue MessageLen Block BlockLen].
  fold n. rewrite Hdiv. rewrite (drop_ge (m ++ x)) by lia. cbn [length app].
  change (64 - 0)%nat with 64%nat. f_equal.
  rewrite absorb_add, absorb_prefix by lia. cbn [absorb].
  rewrite drop_app_le by lia. f_equal.
  set (t := drop (64 * n) m).
  assert (Ht : length t = r) by (unfold t; rewrite length_drop; lia).
  rewrite Nat2Z.id. unfold bwrite. rewrite take_app_length, <- drop_drop, drop_app_length.
  rewrite drop_ge by (rewrite length_zeros; lia). rewrite app_nil_r.
  symmetry. apply take_ge. rewrite length_app. lia.
Qed.

(** Append less than the rest of the last block. *)
Lemma ctx_at_partial m len x :
  (length m mod 64 + length x < 64)%nat →
  mk_hctx (HashValue (ctx_at m len)) len
    (bwrite (Block (ctx_at m len)) (Z.to_nat (BlockLen (ctx_at m len))) x)
    (BlockLen (ctx_at m len) + Z.of_nat (length x)) = ctx_at (m ++ x) len.
Proof.
  intros Hx. pose proof (Nat.div_mod_eq (length m) 64) as Hdm.
  set (n := (length m / 64)%nat) in *. set (r := (length m mod 64)%nat) in *.
  assert (Hdiv : (length (m ++ x) / 64 = n)%nat).
  { symmetry. apply (Nat.div_unique _ _ _ (r + length x)); [lia|]. rewrite length_app. lia. }
  unfold ctx_at. cbn [HashValue MessageLen Block BlockLen].
  fold n. rewrite Hdiv, absorb_prefix, drop_app_le by lia.
  set (t := drop (64 * n) m).
  assert (Ht : length t = r) by (unfold t; rewrite length_drop; lia).
  rewrite Nat2Z.id, length_app. f_equal; [|lia].
  unfold bwrite. rewrite take_app_length, <- drop_drop, drop_app_length.
  unfold zeros. rewrite drop_replicate, <- app_assoc. do 3 f_equal. lia.
Qed.

Lemma append_loop_ctx fuel : ∀ m len x,
  (length x ≤ fuel)%nat → Z.of_nat (length x) + 64 ≤ 2 ^ 32 →
  append_loop fuel (ctx_at m len) x = Some (ctx_at (m ++ x) len).
Proof.
  induction fuel as [|fuel IH]; intros m len x Hf Hx.
  { destruct x; [by rewrite app_nil_r|simpl in Hf; lia]. }
  destruct x as [|b x]; [by rewrite app_nil_r|].
  remember (b :: x) as y eqn:Ey. cbn [append_loop]. rewrite Ey at 1. cbv iota zeta.
  assert (Hy : (0 < length y)%nat) by (subst y; simpl; lia). clear Ey.
  pose proof (Nat.mod_upper_bound (length m) 64 ltac:(lia)) as Hr.
  assert (HB : BlockLen (ctx_at m len) = Z.of_nat (length m mod 64))
    by (unfold ctx_at; cbn [BlockLen]; by rewrite tail_length).
  set (r := (length m mod 64)%nat) in *.
  rewrite (wrap_id 32 (_ + _)) by (unfold in_range; lia).
  change (MessageLen (ctx_at m len)) with len.
  destruct (_ <? 64) eqn:E.
  - rewrite <- (ctx_at_partial m len y) by lia. by destruct fuel.
  - replace (Z.to_nat (64 - _)) with (64 - r)%nat by lia.
    rewrite (ctx_at_fill m len (take (64 - r) y)) by (rewrite length_take; lia).
    rewrite IH; [|rewrite length_drop; lia..].
    by rewrite <- app_assoc, take_drop.
Qed.

Lemma Hash_Append_ctx m x :
  Z.of_nat (length x) + 64 ≤ 2 ^ 32 →
  Hash_Append (ctx_of m) x = Some (ctx_of (m ++ x)).
Proof.
  intros Hx. unfold Hash_Append, ctx_of. rewrite append_loop_ctx by lia.
  cbn [mbind option_bind]. unfold ctx_at. cbn [HashValue MessageLen Block BlockLen].
  rewrite wrap_add_l by lia. rewrite length_app, Nat2Z.inj_add. done.
Qed.

Lemma Hash_Init_ctx : Hash_Init = ctx_of [].
Proof. done. Qed.

(** The two shapes of the padding. *)
Lemma pad_zeros_short n r : (r ≤ 55)%nat → pad_zeros (64 * n + r) = (55 - r)%nat.
Proof. intros. unfold pad_zeros. zdm. Qed.

Lemma pad_zeros_long n r : (55 < r < 64)%nat → pad_zeros (64 * n + r) = (119 - r)%nat.
Proof. intros. unfold pad_zeros. zdm. Qed.

Lemma bwrite_app (t z s : list Z) k :
  length s = k → (k ≤ length z)%nat → bwrite (t ++ z) (length t) s = t ++ s ++ drop k z.
Proof.
  intros Hs Hk. unfold bwrite. rewrite take_app_length, <- drop_drop, drop_app_length.
  by rewrite Hs.
Qed.

Lemma drop_zeros a b : drop a (zeros b) = zeros (b - a).
Proof. apply drop_replicate. Qed.

Lemma take_zeros a b : (a ≤ b)%nat → take a (zeros b) = zeros a.
Proof. intros. unfold zeros. rewrite take_replicate. f_equal. lia. Qed.

Lemma zeros_app a b : zeros (a + b) = zeros a ++ zeros b.
Proof. apply replicate_add. Qed.

(** The length field goes to the end of a block. *)
Lemma put_length (p s : list Z) :
  (length p ≤ 56)%nat → length s = 8%nat →
  bwrite (p ++ zeros (64 - length p)) 56 s = p ++ zeros (56 - length p) ++ s.
Proof.
  intros Hp Hs.
  replace (64 - length p)%nat with ((56 - length p) + 8)%nat by lia.
  rewrite zeros_app, app_assoc.
  assert (E : length (p ++ zeros (56 - length p)) = 56%nat)
    by (rewrite length_app, length_zeros; lia).
  rewrite <- E at 2. rewrite (bwrite_app _ _ _ 8) by (rewrite ?length_zeros; done || lia).
  rewrite drop_zeros, app_nil_r. by rewrite <- app_assoc.
Qed.

Lemma Hash_End_ctx m : Hash_End (ctx_of m) = merkle_damgard m.
Proof.
  unfold Hash_End, merkle_damgard, ctx_of.
  pose proof (Nat.div_mod_eq (length m) 64) as Hdm.
  pose proof (Nat.mod_upper_bound (length m) 64 ltac:(lia)) as Hr.
  set (n := (length m / 64)%nat) in *. set (r := (length m mod 64)%nat) in *.
  unfold ctx_at. cbn [HashValue MessageLen Block BlockLen]. fold n.
  set (t := drop (64 * n) m).
  assert (Ht : length t = r) by (unfold t; rewrite length_drop; lia).
  rewrite Nat2Z.id, Ht.
  assert (Hput : bwrite (t ++ zeros (64 - r)) r [128] = t ++ [128] ++ zeros (64 - r - 1)).
  { rewrite <- Ht at 2. rewrite (bwrite_app t (zeros (64 - r)) [128] 1)
      by (rewrite ?length_zeros; done || lia).
    by rewrite drop_zeros. }
  rewrite Hput. clear Hput.
  assert (Hbits : u64 (u64 (Z.of_nat (length m)) * 8) = u64 (Z.of_nat (length m) * 8)).
  { rewrite !wrap_mod by lia. apply Zmult_mod_idemp_l. }
  unfold padded. set (lf := length_field (u64 (Z.of_nat (length m) * 8))).
  assert (Hlf : length lf = 8%nat) by apply length_length_field.
  assert (Hm : m = take (64 * n) m ++ t) by (unfold t; by rewrite take_drop).
  assert (Htake : length (take (64 * n) m) = (64 * n)%nat) by (rewrite length_take; lia).
  destruct (55 <? Z.of_nat r) eqn:E; cbn [Hash_Hash HashValue MessageLen Block BlockLen];
    rewrite Hbits; fold lf; f_equal.
  - assert (Hpz : pad_zeros (length m) = (119 - r)%nat)
      by (rewrite Hdm; apply pad_zeros_long; lia).
    rewrite Hpz. change (zeros BLOCK_SIZE) with ([] ++ zeros (64 - length (@nil Z))).
    rewrite (put_length [] lf) by (simpl; lia).
    assert (Hlen : length (m ++ [128] ++ zeros (119 - r) ++ lf) = (64 * (n + 2))%nat)
      by (rewrite !length_app, length_zeros, Hlf; simpl; lia).
    rewrite Hlen, (Nat.mul_comm 64), Nat.div_mul by lia.
    rewrite absorb_add, absorb_prefix, drop_app_le by lia. fold t.
    replace (119 - r)%nat with ((64 - r - 1) + 56)%nat by lia.
    rewrite zeros_app. cbn [absorb].
    assert (Hb : length (t ++ [128] ++ zeros (64 - r - 1)) = 64%nat)
      by (rewrite !length_app, length_zeros; simpl; lia).
    replace (t ++ [128] ++ (zeros (64 - r - 1) ++ zeros 56) ++ lf)
      with ((t ++ [128] ++ zeros (64 - r - 1)) ++ zeros 56 ++ lf)
      by (by rewrite <- !app_assoc).
    rewrite take_app_length', drop_app_length' by done.
    rewrite (take_ge (zeros 56 ++ lf)) by (rewrite length_app, length_zeros; lia). done.
  - assert (Hpz : pad_zeros (length m) = (55 - r)%nat)
      by (rewrite Hdm; apply pad_zeros_short; lia).
    rewrite Hpz. rewrite app_assoc.
    replace (64 - r - 1)%nat with (64 - length (t ++ [128%Z]))%nat
      by (rewrite length_app; simpl; lia).
    rewrite put_length by (rewrite ?length_app; simpl; lia).
    assert (Hlen : length (m ++ [128] ++ zeros (55 - r) ++ lf) = (64 * (n + 1))%nat)
      by (rewrite !length_app, length_zeros, Hlf; simpl; lia).
    rewrite Hlen, (Nat.mul_comm 64), Nat.div_mul by lia.
    rewrite absorb_add, absorb_prefix, drop_app_le by lia. fold t. cbn [absorb].
    f_equal. rewrite take_ge by (rewrite !length_app, length_zeros, Hlf; simpl; lia).
    rewrite <- app_assoc. do 4 f_equal. rewrite length_app. simpl. lia.
Qed.

Lemma Hash_Message_spec m :
  Z.of_nat (length m) + 64 ≤ 2 ^ 32 → Hash_Message m = Some (merkle_damgard m).
Proof.
  intros Hm. unfold Hash_Message. rewrite Hash_Init_ctx, Hash_Append_ctx by done.
  cbn [mbind option_bind app]. by rewrite Hash_End_ctx.
Qed.

Lemma absorb_length k n h p :
  (∀ h b, length (compress h b) = k) → length h = k → length (absorb n h p) = k.
Proof.
  intros Hc. revert h p. induction n as [|n IH]; intros h p Hh; [done|].
  cbn [absorb]. by apply IH.
Qed.

(** A message given in pieces. *)
Fixpoint Hash_Pieces (c : HASH_CTX) (ps : list (list Z)) : option HASH_CTX :=
  match ps with
  | [] => Some c
  | p :: ps => c ← Hash_Append c p; Hash_Pieces c ps
  end.

Lemma Hash_Pieces_ctx ps : ∀ m,
  Forall (λ p, Z.of_nat (length p) + 64 ≤ 2 ^ 32) ps →
  Hash_Pieces (ctx_of m) ps = Some (ctx_of (m ++ concat ps)).
Proof.
  induction ps as [|p ps IH]; intros m Hf; simpl; [by rewrite app_nil_r|].
  apply Forall_cons in Hf as [Hp Hf].
  rewrite Hash_Append_ctx by done. cbn [mbind option_bind].
  by rewrite IH, app_assoc.
Qed.
End Hash.
