(* ===== verification/Md5.v ===== *)
(** MD5: src/common/crypt_md5.c.  The 64 operations of [RT_MD5_Hash] with
    their word index, rotation and constant, the little-endian word order,
    and the context functions as the instance [md5] of [BlockHash]. *)

From S2P Require Import Prelude BlockHash.

Definition ROTL32 (x n : Z) : Z := Z.lor (u32 (Z.shiftl x n)) (Z.shiftr x (32 - n)).

Definition not32 (x : Z) : Z := u32 (Z.lnot x).

Definition F (x y z : Z) : Z := Z.lor (Z.land x y) (Z.land (not32 x) z).
Definition G (x y z : Z) : Z := Z.lor (Z.land x z) (Z.land y (not32 z)).
Definition H (x y z : Z) : Z := Z.lxor (Z.lxor x y) z.
Definition I (x y z : Z) : Z := Z.lxor y (Z.lor x (not32 z)).

Definition MD5_DefaultHashValue : list Z := [1732584193; 4023233417; 2562383102; 271733878].

(** One [ROUNDn] macro on the working variables (a, b, c, d): the next
    operation of the code is on (d, a, b, c), with the new [a]. *)
Definition md5_op (f : Z → Z → Z → Z) (X : list Z) (st : Z * Z * Z * Z) (op : Z * Z * Z)
    : Z * Z * Z * Z :=
  let '(a, b, c, d) := st in
  let '(k, s, ac) := op in
  let a := u32 (a + (f b c d + aget X k + ac)) in
  let a := ROTL32 a s in
  let a := u32 (a + b) in
  (d, a, b, c).

(** Word index, rotation and constant of each operation, round by round. *)
Definition md5_ops1 : list (Z * Z * Z) :=
  [(0, 7, 3614090360); (1, 12, 3905402710); (2, 17, 606105819); (3, 22, 3250441966);
   (4, 7, 4118548399); (5, 12, 1200080426); (6, 17, 2821735955); (7, 22, 4249261313);
   (8, 7, 1770035416); (9, 12, 2336552879); (10, 17, 4294925233); (11, 22, 2304563134);
   (12, 7, 1804603682); (13, 12, 4254626195); (14, 17, 2792965006); (15, 22, 1236535329)].

Definition md5_ops2 : list (Z * Z * Z) :=
  [(1, 5, 4129170786); (6, 9, 3225465664); (11, 14, 643717713); (0, 20, 3921069994);
   (5, 5, 3593408605); (10, 9, 38016083); (15, 14, 3634488961); (4, 20, 3889429448);
   (9, 5, 568446438); (14, 9, 3275163606); (3, 14, 4107603335); (8, 20, 1163531501);
   (13, 5, 2850285829); (2, 9, 4243563512); (7, 14, 1735328473); (12, 20, 2368359562)].

Definition md5_ops3 : list (Z * Z * Z) :=
  [(5, 4, 4294588738); (8, 11, 2272392833); (11, 16, 1839030562); (14, 23, 4259657740);
   (1, 4, 2763975236); (4, 11, 1272893353); (7, 16, 4139469664); (10, 23, 3200236656);
   (13, 4, 681279174); (0, 11, 3936430074); (3, 16, 3572445317); (6, 23, 76029189);
   (9, 4, 3654602809); (12, 11, 3873151461); (15, 16, 530742520); (2, 23, 3299628645)].

Definition md5_ops4 : list (Z * Z * Z) :=
  [(0, 6, 4096336452); (7, 10, 1126891415); (14, 15, 2878612391); (5, 21, 4237533241);
   (12, 6, 1700485571); (3, 10, 2399980690); (10, 15, 4293915773); (1, 21, 2240044497);
   (8, 6, 1873313359); (15, 10, 4264355552); (6, 15, 2734768916); (13, 21, 1309151649);
   (4, 6, 4149444226); (11, 10, 3174756917); (2, 15, 718787259); (9, 21, 3951481745)].

(** The sixteen 32-bit words of a block, as a little-endian machine loads
    them. *)
Definition words_le (block : list Z) : list Z :=
  map (λ i, le_word (take 4 (drop (4 * i) block))) (seq 0 16).

Definition md5_compress (HashValue block : list Z) : list Z :=
  let X := words_le block in
  let a := aget HashValue 0 in
  let b := aget HashValue 1 in
  let c := aget HashValue 2 in
  let d := aget HashValue 3 in
  let st := foldl (md5_op F X) (a, b, c, d) md5_ops1 in
  let st := foldl (md5_op G X) st md5_ops2 in
  let st := foldl (md5_op H X) st md5_ops3 in
  let '(a, b, c, d) := foldl (md5_op I X) st md5_ops4 in
  [u32 (aget HashValue 0 + a); u32 (aget HashValue 1 + b);
   u32 (aget HashValue 2 + c); u32 (aget HashValue 3 + d)].

#[export] Instance md5 : BlockHash := {
  DefaultHashValue := MD5_DefaultHashValue;
  compress := md5_compress;
  length_field := le_bytes 8;
  digest_bytes := λ h, concat (map (le_bytes 4) h);
  length_length_field := length_le_bytes 8
}.

Definition MD5_DIGEST_SIZE : nat := 16.

Definition RT_MD5_Init : HASH_CTX := @Hash_Init md5.
Definition RT_MD5_Hash : HASH_CTX → HASH_CTX := @Hash_Hash md5.
Definition RT_MD5_Append : HASH_CTX → list Z → option HASH_CTX := @Hash_Append md5.
Definition RT_MD5_End : HASH_CTX → list Z := @Hash_End md5.
Definition RT_MD5 : list Z → option (list Z) := @Hash_Message md5.

(** Test vectors of RFC 1321: the empty message and "abc". *)
Example md5_empty :
  RT_MD5 [] = Some [212; 29; 140; 217; 143; 0; 178; 4; 233; 128; 9; 152; 236; 248; 66; 126].
Proof. vm_compute. reflexivity. Qed.

Example md5_abc :
  RT_MD5 [97; 98; 99] =
  Some [144; 1; 80; 152; 60; 210; 79; 176; 214; 150; 63; 125; 40; 225; 127; 114].
Proof. vm_compute. reflexivity. Qed.

Lemma le_digest_shape h :
  length (concat (map (le_bytes 4) h)) = (4 * length h)%nat ∧
  bytes (concat (map (le_bytes 4) h)).
Proof.
  induction h as [|x h [IH1 IH2]]; [done|]. cbn [map concat].
  rewrite length_app, IH1, length_le_bytes. simpl length. split; [lia|]. auto with word.
Qed.

Lemma md5_digest_shape m :
  length (@merkle_damgard md5 m) = MD5_DIGEST_SIZE ∧ bytes (@merkle_damgard md5 m).
Proof.
  unfold merkle_damgard. cbn [digest_bytes md5]. destruct (le_digest_shape
    (@absorb md5 (length (padded m) / 64) MD5_DefaultHashValue (padded m))) as [H1 H2].
  split; [|exact H2]. etransitivity; [exact H1|].
  rewrite (absorb_length 4); [done| |done]. intros h b. unfold compress, md5, md5_compress.
  by destruct (foldl (md5_op I _) _ _) as [[[? ?] ?] ?].
Qed.
