(* ===== verification/Sha.v ===== *)
(** SHA-1 and SHA-256: src/common/crypt_sha2.c, as instances of
    [BlockHash]. *)

From S2P Require Import Prelude BlockHash.

Definition SHR (x n : Z) : Z := Z.shiftr x n.
Definition ROTR32 (x n : Z) : Z := Z.lor (Z.shiftr x n) (u32 (Z.shiftl x (32 - n))).
Definition ROTL (x n : Z) : Z := Z.lor (u32 (Z.shiftl x n)) (Z.shiftr x (32 - n)).

Definition Ch (x y z : Z) : Z := Z.lxor (Z.land x y) (Z.land (u32 (Z.lnot x)) z).
Definition Maj (x y z : Z) : Z :=
  Z.lxor (Z.lxor (Z.land x y) (Z.land x z)) (Z.land y z).
Definition Parity (x y z : Z) : Z := Z.lxor (Z.lxor x y) z.

Definition words_be (block : list Z) : list Z :=
  map (λ i, be_word (take 4 (drop (4 * i) block))) (seq 0 16).

Definition be_digest (h : list Z) : list Z := concat (map (be_bytes 4) h).

(** * SHA-1 *)

Definition SHA1_K : list Z := [1518500249; 1859775393; 2400959708; 3395469782].
Definition SHA1_DefaultHashValue : list Z :=
  [1732584193; 4023233417; 2562383102; 271733878; 3285377520].

Definition sha1_extend (W : list Z) (W_i : nat) : list Z :=
  let i := Z.of_nat W_i in
  W ++ [ROTL (Z.lxor (Z.lxor (Z.lxor (aget W (i - 3)) (aget W (i - 8)))
                 (aget W (i - 14))) (aget W (i - 16))) 1].

Definition sha1_round (f : Z → Z → Z → Z) (K : Z) (W : list Z)
    (st : Z * Z * Z * Z * Z) (t : nat) : Z * Z * Z * Z * Z :=
  let '(a, b, c, d, e) := st in
  let f_t := f b c d in
  let T := u32 (ROTL a 5 + f_t + e + K + aget W (Z.of_nat t)) in
  (T, a, ROTL b 30, c, d).

Definition sha1_compress (HashValue block : list Z) : list Z :=
  let W := foldl sha1_extend (words_be block) (seq 16 64) in
  let st := (aget HashValue 0, aget HashValue 1, aget HashValue 2, aget HashValue 3,
             aget HashValue 4) in
  let st := foldl (sha1_round Ch (aget SHA1_K 0) W) st (seq 0 20) in
  let st := foldl (sha1_round Parity (aget SHA1_K 1) W) st (seq 20 20) in
  let st := foldl (sha1_round Maj (aget SHA1_K 2) W) st (seq 40 20) in
  let '(a, b, c, d, e) := foldl (sha1_round Parity (aget SHA1_K 3) W) st (seq 60 20) in
  [u32 (aget HashValue 0 + a); u32 (aget HashValue 1 + b); u32 (aget HashValue 2 + c);
   u32 (aget HashValue 3 + d); u32 (aget HashValue 4 + e)].

#[export] Instance sha1 : BlockHash := {
  DefaultHashValue := SHA1_DefaultHashValue;
  compress := sha1_compress;
  length_field := be_bytes 8;
  digest_bytes := be_digest;
  length_length_field := length_be_bytes 8
}.

Definition SHA1_DIGEST_SIZE : nat := 20.

Definition RT_SHA1_Init : HASH_CTX := @Hash_Init sha1.
Definition RT_SHA1_Hash : HASH_CTX → HASH_CTX := @Hash_Hash sha1.
Definition RT_SHA1_Append : HASH_CTX → list Z → option HASH_CTX := @Hash_Append sha1.
Definition RT_SHA1_End : HASH_CTX → list Z := @Hash_End sha1.
Definition RT_SHA1 : list Z → option (list Z) := @Hash_Message sha1.

(** * SHA-256 *)

Definition Zsigma_256_0 (x : Z) : Z := Z.lxor (Z.lxor (ROTR32 x 2) (ROTR32 x 13)) (ROTR32 x 22).
Definition Zsigma_256_1 (x : Z) : Z := Z.lxor (Z.lxor (ROTR32 x 6) (ROTR32 x 11)) (ROTR32 x 25).
Definition Sigma_256_0 (x : Z) : Z := Z.lxor (Z.lxor (ROTR32 x 7) (ROTR32 x 18)) (SHR x 3).
Definition Sigma_256_1 (x : Z) : Z := Z.lxor (Z.lxor (ROTR32 x 17) (ROTR32 x 19)) (SHR x 10).

Definition SHA256_K : list Z :=
  [1116352408; 1899447441; 3049323471; 3921009573; 961987163; 1508970993;
   2453635748; 2870763221; 3624381080; 310598401; 607225278; 1426881987;
   1925078388; 2162078206; 2614888103; 3248222580; 3835390401; 4022224774;
   264347078; 604807628; 770255983; 1249150122; 1555081692; 1996064986;
   2554220882; 2821834349; 2952996808; 3210313671; 3336571891; 3584528711;
   113926993; 338241895; 666307205; 773529912; 1294757372; 1396182291;
   1695183700; 1986661051; 2177026350; 2456956037; 2730485921; 2820302411;
   3259730800; 3345764771; 3516065817; 3600352804; 4094571909; 275423344;
   430227734; 506948616; 659060556; 883997877; 958139571; 1322822218;
   1537002063; 1747873779; 1955562222; 2024104815; 2227730452; 2361852424;
   2428436474; 2756734187; 3204031479; 3329325298].

Definition SHA256_DefaultHashValue : list Z :=
  [1779033703; 3144134277; 1013904242; 2773480762; 1359893119; 2600822924; 528734635; 1541459225].

Definition sha256_vars : Type := Z * Z * Z * Z * Z * Z * Z * Z.

(** [W[t]] for t above 15, appended to the first t words. *)
Definition sha256_extend (W : list Z) (t : nat) : list Z :=
  let i := Z.of_nat t in
  W ++ [u32 (Sigma_256_1 (aget W (i - 2)) + aget W (i - 7) +
             Sigma_256_0 (aget W (i - 15)) + aget W (i - 16))].

Definition sha256_vars_step (v : sha256_vars) (K Wt : Z) : sha256_vars :=
  let '(a, b, c, d, e, f, g, h) := v in
  let T1 := u32 (h + Zsigma_256_1 e + Ch e f g + K + Wt) in
  let T2 := u32 (Zsigma_256_0 a + Maj a b c) in
  (u32 (T1 + T2), a, b, c, u32 (d + T1), e, f, g).

(** A turn of the loop of [RT_SHA256_Hash]: the schedule is extended as the
    rounds go. *)
Definition sha256_round (st : list Z * sha256_vars) (t : nat) : list Z * sha256_vars :=
  let '(W, v) := st in
  let W := if Nat.ltb 15 t then sha256_extend W t else W in
  (W, sha256_vars_step v (aget SHA256_K (Z.of_nat t)) (aget W (Z.of_nat t))).

Definition sha256_start (HashValue : list Z) : sha256_vars :=
  (aget HashValue 0, aget HashValue 1, aget HashValue 2, aget HashValue 3,
   aget HashValue 4, aget HashValue 5, aget HashValue 6, aget HashValue 7).

Definition sha256_add (HashValue : list Z) (v : sha256_vars) : list Z :=
  let '(a, b, c, d, e, f, g, h) := v in
  [u32 (aget HashValue 0 + a); u32 (aget HashValue 1 + b); u32 (aget HashValue 2 + c);
   u32 (aget HashValue 3 + d); u32 (aget HashValue 4 + e); u32 (aget HashValue 5 + f);
   u32 (aget HashValue 6 + g); u32 (aget HashValue 7 + h)].

Definition sha256_compress (HashValue block : list Z) : list Z :=
  sha256_add HashValue
    (foldl sha256_round (words_be block, sha256_start HashValue) (seq 0 64)).2.

#[export] Instance sha256 : BlockHash := {
  DefaultHashValue := SHA256_DefaultHashValue;
  compress := sha256_compress;
  length_field := be_bytes 8;
  digest_bytes := be_digest;
  length_length_field := length_be_bytes 8
}.

Definition SHA256_DIGEST_SIZE : nat := 32.

Definition RT_SHA256_Init : HASH_CTX := @Hash_Init sha256.
Definition RT_SHA256_Hash : HASH_CTX → HASH_CTX := @Hash_Hash sha256.
Definition RT_SHA256_Append : HASH_CTX → list Z → option HASH_CTX := @Hash_Append sha256.
Definition RT_SHA256_End : HASH_CTX → list Z := @Hash_End sha256.
Definition RT_SHA256 : list Z → option (list Z) := @Hash_Message sha256.

(** * Test vectors of FIPS 180: "abc" *)

Example sha1_abc :
  RT_SHA1 [97; 98; 99] =
  Some [169; 153; 62; 54; 71; 6; 129; 106; 186; 62; 37; 113; 120; 80; 194; 108; 156; 208;
        216; 157].
Proof. vm_compute. reflexivity. Qed.

Example sha256_abc :
  RT_SHA256 [97; 98; 99] =
  Some [186; 120; 22; 191; 143; 1; 207; 234; 65; 65; 64; 222; 93; 174; 34; 35; 176; 3; 97;
        163; 150; 23; 122; 156; 180; 16; 255; 97; 242; 0; 21; 173].
Proof. vm_compute. reflexivity. Qed.

(** * Digest shapes *)

Lemma be_digest_shape h :
  length (be_digest h) = (4 * length h)%nat ∧ bytes (be_digest h).
Proof.
  unfold be_digest. induction h as [|x h [IH1 IH2]]; [done|]. cbn [map concat].
  rewrite length_app, IH1, length_be_bytes. simpl. split; [lia|]. auto with word.
Qed.

Lemma sha1_digest_shape m :
  length (@merkle_damgard sha1 m) = SHA1_DIGEST_SIZE ∧ bytes (@merkle_damgard sha1 m).
Proof.
  unfold merkle_damgard. cbn [digest_bytes sha1]. destruct (be_digest_shape
    (@absorb sha1 (length (padded m) / 64) SHA1_DefaultHashValue (padded m))) as [H1 H2].
  split; [|exact H2]. etransitivity; [exact H1|].
  rewrite (absorb_length 5); [done| |done]. intros h b. unfold compress, sha1, sha1_compress.
  by destruct (foldl (sha1_round Parity (aget SHA1_K 3) _) _ _) as [[[[? ?] ?] ?] ?].
Qed.

Lemma sha256_digest_shape m :
  length (@merkle_damgard sha256 m) = SHA256_DIGEST_SIZE ∧
  bytes (@merkle_damgard sha256 m).
Proof.
  unfold merkle_damgard. cbn [digest_bytes sha256]. destruct (be_digest_shape
    (@absorb sha256 (length (padded m) / 64) SHA256_DefaultHashValue (padded m))) as [H1 H2].
  split; [|exact H2]. etransitivity; [exact H1|].
  rewrite (absorb_length 8); [done| |done]. intros h b.
  unfold compress, sha256, sha256_compress, sha256_add.
  by destruct (foldl sha256_round _ _).2 as [[[[[[[? ?] ?] ?] ?] ?] ?] ?].
Qed.

(** * The schedule of SHA-256 computed ahead *)

(** FIPS 180: first the whole schedule, then the rounds. *)
Definition sha256_schedule (block : list Z) : list Z :=
  foldl sha256_extend (words_be block) (seq 16 48).

Definition sha256_reference (HashValue block : list Z) : list Z :=
  sha256_add HashValue
    (foldl (λ v t, sha256_vars_step v (aget SHA256_K (Z.of_nat t))
                     (aget (sha256_schedule block) (Z.of_nat t)))
       (sha256_start HashValue) (seq 0 64)).

Lemma extend_length W l : length (foldl sha256_extend W l) = (length W + length l)%nat.
Proof.
  revert W. induction l as [|t l IH]; intros W; simpl; [lia|].
  rewrite IH. unfold sha256_extend. rewrite length_app. simpl. lia.
Qed.

Lemma extend_prefix W l i :
  0 ≤ i < Z.of_nat (length W) → aget (foldl sha256_extend W l) i = aget W i.
Proof.
  revert W. induction l as [|t l IH]; intros W Hi; simpl; [done|].
  rewrite IH by (unfold sha256_extend; rewrite length_app; simpl; lia).
  unfold sha256_extend, aget. apply app_nth1. lia.
Qed.

(** The loop keeps the prefix of the schedule it has reached. *)
Lemma sha256_rounds_schedule block v n :
  (n ≤ 64)%nat →
  foldl sha256_round (words_be block, v) (seq 0 n) =
    (foldl sha256_extend (words_be block) (seq 16 (n - 16)),
     foldl (λ v t, sha256_vars_step v (aget SHA256_K (Z.of_nat t))
                     (aget (sha256_schedule block) (Z.of_nat t))) v (seq 0 n)).
Proof.
  intros Hn. induction n as [|n IH]; [done|].
  rewrite seq_S, !foldl_app, IH by lia. cbn [foldl Nat.add]. unfold sha256_round at 1.
  assert (E : (if Nat.ltb 15 n then sha256_extend (foldl sha256_extend (words_be block) (seq 16 (n - 16))) n
               else foldl sha256_extend (words_be block) (seq 16 (n - 16)))
              = foldl sha256_extend (words_be block) (seq 16 (S n - 16))).
  { destruct (Nat.ltb_spec 15 n).
    - replace (S n - 16)%nat with (S (n - 16)) by lia. rewrite seq_S, foldl_app. cbn [foldl].
      by replace (16 + (n - 16))%nat with n by lia.
    - by replace (S n - 16)%nat with (n - 16)%nat by lia. }
  rewrite E. do 2 f_equal. unfold sha256_schedule.
  replace (seq 16 48) with (seq 16 (S n - 16) ++ seq (16 + (S n - 16)) (48 - (S n - 16))).
  2: { rewrite <- seq_app. f_equal. lia. }
  rewrite foldl_app. symmetry. apply extend_prefix.
  rewrite extend_length, length_seq. unfold words_be. rewrite length_map, length_seq. lia.
Qed.

(** The SHA-256 block function, which extends the message schedule while
    it runs the rounds, computes the function of FIPS 180 that builds the
    whole schedule of 64 words first. *)
Theorem sha256_compress_is_reference HashValue block :
  sha256_compress HashValue block = sha256_reference HashValue block.
Proof.
  unfold sha256_compress, sha256_reference. by rewrite sha256_rounds_schedule.
Qed.
