(* ===== verification/Hmac.v ===== *)
(** HMAC: src/common/crypt_hmac.c, over any instance of [BlockHash], and the
    properties of the hash functions the three HMACs rely on. *)

From S2P Require Import Prelude BlockHash Md5 Sha.

Section Hmac.
Context `{BH : BlockHash}.
Context (DIGEST_SIZE : nat).

(** The common text of [RT_HMAC_SHA1], [RT_HMAC_SHA256] and [RT_HMAC_MD5];
    the result is what is written to [MAC]. *)
Definition HMAC (Key Message : list Z) (MACLen : nat) : option (list Z) :=
  let K0 := zeros BLOCK_SIZE in
  K0 ← (if Nat.leb (length Key) BLOCK_SIZE then Some (bwrite K0 0 Key)
        else d ← Hash_Message Key; Some (bwrite K0 0 d));
  let K0 := map (λ b, Z.lxor b 0x36) K0 in
  ctx1 ← Hash_Append Hash_Init K0;
  ctx1 ← Hash_Append ctx1 Message;
  let Digest := Hash_End ctx1 in
  let K0 := map (λ b, Z.lxor b (Z.lxor 0x36 0x5c)) K0 in
  ctx2 ← Hash_Append Hash_Init K0;
  ctx2 ← Hash_Append ctx2 Digest;
  let Digest := Hash_End ctx2 in
  if Nat.ltb DIGEST_SIZE MACLen then Some (take DIGEST_SIZE Digest)
  else Some (take MACLen Digest).

(** RFC 2104. *)
Definition hmac_key (Key : list Z) : list Z :=
  let k := if Nat.leb (length Key) 64 then Key else merkle_damgard Key in
  k ++ zeros (64 - length k).

Definition hmac_spec (Key Message : list Z) : list Z :=
  let k := hmac_key Key in
  let ipad := map (λ b, Z.lxor b 0x36) k in
  let opad := map (λ b, Z.lxor b 0x5c) k in
  merkle_damgard (opad ++ merkle_damgard (ipad ++ Message)).

Context (digest_size : ∀ m, length (merkle_damgard m) = DIGEST_SIZE)
  (digest_fits : (DIGEST_SIZE ≤ 64)%nat).

Lemma hmac_key_length Key : length (hmac_key Key) = 64%nat.
Proof using digest_size digest_fits.
  unfold hmac_key. destruct (Nat.leb_spec (length Key) 64); rewrite length_app, length_zeros;
    rewrite ?digest_size; lia.
Qed.

Lemma opad_from_ipad (k : list Z) :
  map (λ b, Z.lxor b (Z.lxor 0x36 0x5c)) (map (λ b, Z.lxor b 0x36) k) =
  map (λ b, Z.lxor b 0x5c) k.
Proof.
  rewrite map_map. apply map_ext. intros b. rewrite Z.lxor_assoc. by f_equal.
Qed.

Lemma HMAC_spec Key Message n :
  Z.of_nat (length Key) + 64 ≤ 2 ^ 32 → Z.of_nat (length Message) + 64 ≤ 2 ^ 32 →
  HMAC Key Message n = Some (take n (hmac_spec Key Message)).
Proof using digest_size digest_fits.
  intros Hk Hm. unfold HMAC.
  assert (E : (if Nat.leb (length Key) BLOCK_SIZE then Some (bwrite (zeros BLOCK_SIZE) 0 Key)
        else d ← Hash_Message Key; Some (bwrite (zeros BLOCK_SIZE) 0 d)) = Some (hmac_key Key)).
  { unfold hmac_key, BLOCK_SIZE. destruct (Nat.leb_spec (length Key) 64).
    - f_equal. unfold bwrite. by rewrite take_0, drop_zeros.
    - rewrite Hash_Message_spec by done. cbn [mbind option_bind]. f_equal. unfold bwrite.
      by rewrite take_0, drop_zeros. }
  rewrite E. cbn [mbind option_bind]. cbv zeta. rewrite opad_from_ipad.
  pose proof (hmac_key_length Key) as Hl.
  rewrite Hash_Init_ctx, !Hash_Append_ctx by (rewrite ?length_map, ?Hl; lia).
  cbn [mbind option_bind]. rewrite !Hash_Append_ctx by done. cbn [mbind option_bind].
  rewrite !Hash_End_ctx. cbn [app].
  rewrite Hash_Append_ctx by (rewrite digest_size; lia). cbn [mbind option_bind].
  rewrite Hash_End_ctx. fold (hmac_spec Key Message).
  destruct (Nat.ltb_spec DIGEST_SIZE n); [|done].
  rewrite !take_ge; [done|unfold hmac_spec; rewrite digest_size; lia..].
Qed.
End Hmac.

Definition RT_HMAC_SHA1 : list Z → list Z → nat → option (list Z) :=
  @HMAC sha1 SHA1_DIGEST_SIZE.
Definition RT_HMAC_SHA256 : list Z → list Z → nat → option (list Z) :=
  @HMAC sha256 SHA256_DIGEST_SIZE.
Definition RT_HMAC_MD5 : list Z → list Z → nat → option (list Z) :=
  @HMAC md5 MD5_DIGEST_SIZE.

(** * The properties *)

(** The streaming hash functions are correct: MD5, SHA-1 and SHA-256 fed
    with a message in any pieces, each shorter than 2^32 - 64 bytes, return
    from their append loops and end with the digest of the padded message,
    cut into blocks and folded with the compression function. *)
Theorem hash_pieces_correct ps
    (Hps : Forall (λ p, Z.of_nat (length p) + 64 ≤ 2 ^ 32) ps) :
  RT_MD5_End <$> @Hash_Pieces md5 RT_MD5_Init ps = Some (@merkle_damgard md5 (concat ps)) ∧
  RT_SHA1_End <$> @Hash_Pieces sha1 RT_SHA1_Init ps = Some (@merkle_damgard sha1 (concat ps)) ∧
  RT_SHA256_End <$> @Hash_Pieces sha256 RT_SHA256_Init ps =
    Some (@merkle_damgard sha256 (concat ps)).
Proof.
  unfold RT_MD5_Init, RT_SHA1_Init, RT_SHA256_Init. rewrite !Hash_Init_ctx.
  rewrite !Hash_Pieces_ctx by done. cbn [fmap option_fmap option_map app].
  unfold RT_MD5_End, RT_SHA1_End, RT_SHA256_End. by rewrite !Hash_End_ctx.
Qed.

Lemma hash_pieces_correct_witness :
  RT_MD5_End <$> @Hash_Pieces md5 RT_MD5_Init [[97]; []; [98; 99]] =
    Some (@merkle_damgard md5 [97; 98; 99]).
Proof.
  apply (hash_pieces_correct [[97]; []; [98; 99]]). repeat constructor; simpl; lia.
Defined.

(** HMAC: for keys of any length up to 2^32 - 64 bytes, short or hashed
    first, and every requested length, the three HMAC functions return the
    leading bytes of the RFC 2104 value; no more than the digest is written. *)
Theorem hmac_correct Key Message MACLen
    (Hk : Z.of_nat (length Key) + 64 ≤ 2 ^ 32)
    (Hm : Z.of_nat (length Message) + 64 ≤ 2 ^ 32) :
  RT_HMAC_SHA1 Key Message MACLen = Some (take MACLen (@hmac_spec sha1 Key Message)) ∧
  RT_HMAC_SHA256 Key Message MACLen = Some (take MACLen (@hmac_spec sha256 Key Message)) ∧
  RT_HMAC_MD5 Key Message MACLen = Some (take MACLen (@hmac_spec md5 Key Message)) ∧
  length (@hmac_spec sha1 Key Message) = SHA1_DIGEST_SIZE ∧
  length (@hmac_spec sha256 Key Message) = SHA256_DIGEST_SIZE ∧
  length (@hmac_spec md5 Key Message) = MD5_DIGEST_SIZE.
Proof.
  conjs; try (by apply sha1_digest_shape || by apply sha256_digest_shape ||
              by apply md5_digest_shape).
  - apply HMAC_spec; [intros; apply sha1_digest_shape|unfold SHA1_DIGEST_SIZE; lia|done..].
  - apply HMAC_spec; [intros; apply sha256_digest_shape|unfold SHA256_DIGEST_SIZE; lia|done..].
  - apply HMAC_spec; [intros; apply md5_digest_shape|unfold MD5_DIGEST_SIZE; lia|done..].
Qed.

Lemma hmac_correct_witness :
  RT_HMAC_SHA1 [1; 2] [3] 12 = Some (take 12 (@hmac_spec sha1 [1; 2] [3])).
Proof. apply (hmac_correct [1; 2] [3] 12); simpl; lia. Defined.

(** RFC 2202, HMAC-MD5 test case 2: key "Jefe". *)
Example hmac_md5_jefe :
  RT_HMAC_MD5 [74; 101; 102; 101]
    [119; 104; 97; 116; 32; 100; 111; 32; 121; 97; 32; 119; 97; 110; 116; 32; 102; 111; 114;
     32; 110; 111; 116; 104; 105; 110; 103; 63] 16 =
  Some [117; 12; 120; 62; 106; 176; 181; 3; 234; 168; 110; 49; 10; 93; 183; 56].
Proof. vm_compute. reflexivity. Qed.

(** The 32-bit sum of the append loop wraps: on a context that already
    holds [BlockLen] bytes of a block, a piece of 2^32 - BlockLen bytes or
    more passes for one that fits into the block, and it is copied whole
    behind the bytes already there, far past the 64 bytes of the block. *)
Theorem append_length_wraps m x
    (Hr : (0 < length m mod 64)%nat)
    (Hx : 2 ^ 32 - Z.of_nat (length m mod 64) ≤ Z.of_nat (length x) < 2 ^ 32) :
  ∃ c, RT_SHA1_Append (@ctx_of sha1 m) x = Some c ∧
       2 ^ 32 ≤ Z.of_nat (length (Block c)).
Proof.
  unfold RT_SHA1_Append, Hash_Append, ctx_of.
  set (len := u64 _). destruct x as [|b x]; [simpl in *; lia|].
  remember (b :: x) as y eqn:Ey.
  pose proof (Nat.mod_upper_bound (length m) 64 ltac:(lia)) as Hr2.
  assert (HB : BlockLen (@ctx_at sha1 m len) = Z.of_nat (length m mod 64))
    by (unfold ctx_at; cbn [BlockLen]; by rewrite tail_length).
  set (r := (length m mod 64)%nat) in *.
  assert (Ew : u32 (Z.of_nat r + Z.of_nat (length y)) = Z.of_nat r + Z.of_nat (length y) - 2 ^ 32).
  { rewrite wrap_mod by lia. symmetry.
    apply (Zmod_unique _ _ 1); lia. }
  assert (El : @append_loop sha1 (length y) (@ctx_at sha1 m len) y =
    Some (mk_hctx (HashValue (@ctx_at sha1 m len)) len
      (bwrite (Block (@ctx_at sha1 m len)) r y) (Z.of_nat r + Z.of_nat (length y) - 2 ^ 32))).
  { rewrite Ey at 1. cbn [length]. cbn [append_loop]. rewrite Ey at 1. cbv iota zeta.
    rewrite HB, Ew, Nat2Z.id. rewrite (proj2 (Z.ltb_lt _ _)) by lia. by destruct (length x). }
  rewrite El. cbn [mbind option_bind HashValue MessageLen Block BlockLen].
  eexists. split; [done|]. cbn [Block]. unfold bwrite. rewrite !length_app.
  assert (r ≤ length (Block (@ctx_at sha1 m len)))%nat.
  { unfold ctx_at. cbn [Block]. rewrite length_app, tail_length. fold r. lia. }
  rewrite length_take. lia.
Qed.

Lemma append_length_wraps_witness :
  ∃ c, RT_SHA1_Append (@ctx_of sha1 [0; 0; 0; 0]) (zeros (Z.to_nat (2 ^ 32 - 2))) = Some c ∧
       2 ^ 32 ≤ Z.of_nat (length (Block c)).
Proof.
  apply append_length_wraps.
  - simpl. lia.
  - rewrite length_zeros, Z2Nat.id by lia. 
    assert (E : (length (zeros 4) mod 64 = 4)%nat) by reflexivity.
    change [0; 0; 0; 0] with (zeros 4). rewrite E. lia.
Defined.
