(* ===== verification/Aes.v ===== *)
(** The AES block cipher: [RT_AES_KeyExpansion], [RT_AES_Encrypt] and
    [RT_AES_Decrypt] of src/common/crypt_aes.c.

    [State[Row][Column]] of the code is entry [Row + 4 * Column] of the list
    that models the state, the order in which the code loads and stores a
    block; [KeyWordExpansion[Row][i]] is entry [4 * i + Row].  The outcome of
    the allocation of the context is the argument [alloc]. *)

From S2P Require Import Prelude AesTables.

Definition AES_BLOCK_SIZES : Z := 16.
Definition AES_KEY128_LENGTH : Z := 16.
Definition AES_KEY192_LENGTH : Z := 24.
Definition AES_KEY256_LENGTH : Z := 32.

(** * Key expansion *)

Definition sub (x : Z) : Z := aget aes_sbox_enc x.

(** The temporary word of a turn of the second loop. *)
Definition key_word (Nk : nat) (KeyIndex : nat) (t0 t1 t2 t3 : Z) : Z * Z * Z * Z :=
  if Nat.eqb (KeyIndex mod Nk) 0 then
    let Temprcon := aget aes_rcon (Z.of_nat (KeyIndex / Nk)) in
    let Temp := Z.lxor (sub t1) (Z.land (Z.shiftr Temprcon 24) 0xff) in
    let u1 := Z.lxor (sub t2) (Z.land (Z.shiftr Temprcon 16) 0xff) in
    let u2 := Z.lxor (sub t3) (Z.land (Z.shiftr Temprcon 8) 0xff) in
    let u3 := Z.lxor (sub t0) (Z.land Temprcon 0xff) in
    (Temp, u1, u2, u3)
  else if Nat.ltb 6 Nk && Nat.eqb (KeyIndex mod Nk) 4 then
    (sub t0, sub t1, sub t2, sub t3)
  else (t0, t1, t2, t3).

Definition key_step (Nk : nat) (kw : list Z) (KeyIndex : nat) : list Z :=
  let w (i r : nat) := nth (4 * i + r) kw 0 in
  let i := (KeyIndex - 1)%nat in
  let '(t0, t1, t2, t3) := key_word Nk KeyIndex (w i 0%nat) (w i 1%nat) (w i 2%nat) (w i 3%nat) in
  let j := (KeyIndex - Nk)%nat in
  kw ++ [Z.lxor (w j 0%nat) t0; Z.lxor (w j 1%nat) t1; Z.lxor (w j 2%nat) t2;
         Z.lxor (w j 3%nat) t3].

Definition RT_AES_KeyExpansion (Key : list Z) (KeyLength : Z) : list Z :=
  let Nk := Z.to_nat (Z.shiftr KeyLength 2) in
  let NumberOfWordOfKeyExpansion := (4 * (Nk + 6 + 1))%nat in
  foldl (key_step Nk) (take (4 * Nk) Key)
    (seq Nk (NumberOfWordOfKeyExpansion - Nk)).

(** * The steps of a round *)

Definition AddRoundKey (kw : list Z) (RoundIndex : nat) (st : list Z) : list Z :=
  xor_list st (take 16 (drop (16 * RoundIndex) kw)).

Definition SubBytes (st : list Z) : list Z := map (aget aes_sbox_enc) st.
Definition InvSubBytes (st : list Z) : list Z := map (aget aes_sbox_dec) st.

Definition ShiftRows (st : list Z) : list Z :=
  match st with
  | [a0; b0; c0; d0; a1; b1; c1; d1; a2; b2; c2; d2; a3; b3; c3; d3] =>
      [a0; b1; c2; d3; a1; b2; c3; d0; a2; b3; c0; d1; a3; b0; c1; d2]
  | _ => st
  end.

Definition InvShiftRows (st : list Z) : list Z :=
  match st with
  | [a0; b0; c0; d0; a1; b1; c1; d1; a2; b2; c2; d2; a3; b3; c3; d3] =>
      [a0; b3; c2; d1; a1; b0; c3; d2; a2; b1; c0; d3; a3; b2; c1; d0]
  | _ => st
  end.

Definition mix_column (Row0 Row1 Row2 Row3 : Z) : list Z :=
  let m2 := aget aes_mul_2 in
  let m3 := aget aes_mul_3 in
  [Z.lxor (Z.lxor (Z.lxor (m2 Row0) (m3 Row1)) Row2) Row3;
   Z.lxor (Z.lxor (Z.lxor Row0 (m2 Row1)) (m3 Row2)) Row3;
   Z.lxor (Z.lxor (Z.lxor Row0 Row1) (m2 Row2)) (m3 Row3);
   Z.lxor (Z.lxor (Z.lxor (m3 Row0) Row1) Row2) (m2 Row3)].

Definition inv_mix_column (Row0 Row1 Row2 Row3 : Z) : list Z :=
  let m9 := aget aes_mul_9 in
  let mb := aget aes_mul_b in
  let md := aget aes_mul_d in
  let me := aget aes_mul_e in
  [Z.lxor (Z.lxor (Z.lxor (me Row0) (mb Row1)) (md Row2)) (m9 Row3);
   Z.lxor (Z.lxor (Z.lxor (m9 Row0) (me Row1)) (mb Row2)) (md Row3);
   Z.lxor (Z.lxor (Z.lxor (md Row0) (m9 Row1)) (me Row2)) (mb Row3);
   Z.lxor (Z.lxor (Z.lxor (mb Row0) (md Row1)) (m9 Row2)) (me Row3)].

(** A function of the four rows, on every column. *)
Fixpoint map_columns (f : Z → Z → Z → Z → list Z) (st : list Z) : list Z :=
  match st with
  | r0 :: r1 :: r2 :: r3 :: st => f r0 r1 r2 r3 ++ map_columns f st
  | _ => []
  end.

Definition MixColumns (st : list Z) : list Z := map_columns mix_column st.
Definition InvMixColumns (st : list Z) : list Z := map_columns inv_mix_column st.

(** * Encryption and decryption *)

Definition enc_round (kw : list Z) (st : list Z) (RoundIndex : nat) : list Z :=
  AddRoundKey kw RoundIndex (MixColumns (ShiftRows (SubBytes st))).

Definition aes_cipher (kw : list Z) (Nr : nat) (st : list Z) : list Z :=
  let st := AddRoundKey kw 0 st in
  let st := foldl (enc_round kw) st (seq 1 (Nr - 1)) in
  AddRoundKey kw Nr (ShiftRows (SubBytes st)).

Definition dec_round (kw : list Z) (st : list Z) (RoundIndex : nat) : list Z :=
  InvMixColumns (AddRoundKey kw RoundIndex (InvSubBytes (InvShiftRows st))).

Definition aes_inv_cipher (kw : list Z) (Nr : nat) (st : list Z) : list Z :=
  let st := AddRoundKey kw Nr st in
  let st := foldl (dec_round kw) st (rev (seq 1 (Nr - 1))) in
  AddRoundKey kw 0 (InvSubBytes (InvShiftRows st)).

Definition valid_key_length (KeyLength : Z) : bool :=
  (KeyLength =? AES_KEY128_LENGTH) || (KeyLength =? AES_KEY192_LENGTH)
  || (KeyLength =? AES_KEY256_LENGTH).

Definition NumberOfRound (KeyLength : Z) : nat := Z.to_nat (Z.shiftr KeyLength 2 + 6).

(** The output block and its size after the call. *)
Definition RT_AES_Encrypt (alloc : bool) (PlainBlock : list Z) (PlainBlockSize : Z)
    (Key : list Z) (KeyLength : Z) (CipherBlock : list Z) (CipherBlockSize : Z)
    : list Z * Z :=
  if negb (PlainBlockSize =? AES_BLOCK_SIZES) then (CipherBlock, CipherBlockSize)
  else if negb (valid_key_length KeyLength) then (CipherBlock, CipherBlockSize)
  else if CipherBlockSize <? AES_BLOCK_SIZES then (CipherBlock, CipherBlockSize)
  else if negb alloc then (CipherBlock, CipherBlockSize)
  else
    let kw := RT_AES_KeyExpansion Key KeyLength in
    let st := aes_cipher kw (NumberOfRound KeyLength) (take 16 PlainBlock) in
    (bwrite CipherBlock 0 st, 16).

Definition RT_AES_Decrypt (alloc : bool) (CipherBlock : list Z) (CipherBlockSize : Z)
    (Key : list Z) (KeyLength : Z) (PlainBlock : list Z) (PlainBlockSize : Z)
    : list Z * Z :=
  if PlainBlockSize <? AES_BLOCK_SIZES then (PlainBlock, PlainBlockSize)
  else if negb (valid_key_length KeyLength) then (PlainBlock, PlainBlockSize)
  else if negb (CipherBlockSize =? AES_BLOCK_SIZES) then (PlainBlock, PlainBlockSize)
  else if negb alloc then (PlainBlock, PlainBlockSize)
  else
    let kw := RT_AES_KeyExpansion Key KeyLength in
    let st := aes_inv_cipher kw (NumberOfRound KeyLength) (take 16 CipherBlock) in
    (bwrite PlainBlock 0 st, 16).

(** * The state invariant and the round steps *)

Definition state_ok (st : list Z) : Prop := length st = 16%nat ∧ bytes st.

Lemma state_inv st :
  state_ok st → ∃ a0 b0 c0 d0 a1 b1 c1 d1 a2 b2 c2 d2 a3 b3 c3 d3,
    st = [a0; b0; c0; d0; a1; b1; c1; d1; a2; b2; c2; d2; a3; b3; c3; d3] ∧
    bytes [a0; b0; c0; d0; a1; b1; c1; d1; a2; b2; c2; d2; a3; b3; c3; d3].
Proof.
  intros [Hl Hb]. do 16 (destruct st as [|? st]; [done|]).
  destruct st; [|done]. repeat eexists. done.
Qed.

(** Name the sixteen bytes of a state. *)
Ltac state_bytes H :=
  apply state_inv in H as (?&?&?&?&?&?&?&?&?&?&?&?&?&?&?&?& -> & H).

Lemma ShiftRows_ok st : state_ok st → state_ok (ShiftRows st).
Proof.
  intros H. state_bytes H. split; [done|]. simpl. rewrite !Forall_cons in *. tauto.
Qed.

Lemma InvShiftRows_ok st : state_ok st → state_ok (InvShiftRows st).
Proof.
  intros H. state_bytes H. split; [done|]. simpl. rewrite !Forall_cons in *. tauto.
Qed.

Lemma InvShiftRows_ShiftRows st : state_ok st → InvShiftRows (ShiftRows st) = st.
Proof. intros H. by state_bytes H. Qed.

Lemma SubBytes_ok st : state_ok st → state_ok (SubBytes st).
Proof.
  intros [Hl Hb]. unfold SubBytes. split; [by rewrite length_map|].
  apply Forall_forall. intros x Hx%list_elem_of_In%in_map_iff. destruct Hx as (y & <- & _).
  apply aget_bytes, aes_sbox_enc_bytes.
Qed.

Lemma InvSubBytes_ok st : state_ok st → state_ok (InvSubBytes st).
Proof.
  intros [Hl Hb]. unfold InvSubBytes. split; [by rewrite length_map|].
  apply Forall_forall. intros x Hx%list_elem_of_In%in_map_iff. destruct Hx as (y & <- & _).
  apply aget_bytes, aes_sbox_dec_bytes.
Qed.

Lemma InvSubBytes_SubBytes st : bytes st → InvSubBytes (SubBytes st) = st.
Proof.
  induction 1 as [|x st Hx Hst IH]; [done|]. unfold InvSubBytes, SubBytes in *. simpl.
  by rewrite aes_sbox_dec_enc, IH.
Qed.

Lemma mix_column_bytes a b c d :
  byte a → byte b → byte c → byte d →
  length (mix_column a b c d) = 4%nat ∧ bytes (mix_column a b c d).
Proof.
  intros. split; [done|]. unfold mix_column.
  rewrite !aes_mul_2_spec, !aes_mul_3_spec by done. unfold mul2, mul3.
  repeat (apply Forall_cons_2; [auto 10 using byte_lxor, xtime_byte|]). done.
Qed.

Lemma inv_mix_column_bytes a b c d :
  byte a → byte b → byte c → byte d →
  length (inv_mix_column a b c d) = 4%nat ∧ bytes (inv_mix_column a b c d).
Proof.
  intros. split; [done|]. unfold inv_mix_column.
  rewrite !aes_mul_9_spec, !aes_mul_b_spec, !aes_mul_d_spec, !aes_mul_e_spec by done.
  unfold mul9, mul11, mul13, mul14.
  repeat (apply Forall_cons_2; [auto 15 using byte_lxor, xtime_byte|]). done.
Qed.

(** The two column functions are inverse: the products cancel as polynomials
    in x, before any reduction. *)
Lemma inv_mix_mix a b c d :
  byte a → byte b → byte c → byte d →
  map_columns inv_mix_column (mix_column a b c d) = [a; b; c; d].
Proof.
  intros Ha Hb Hc Hd. destruct (mix_column_bytes a b c d Ha Hb Hc Hd) as [_ Hm].
  unfold mix_column in *. cbn [map_columns]. rewrite !Forall_cons in Hm.
  destruct Hm as (M0 & M1 & M2 & M3 & _). unfold inv_mix_column. cbn [app].
  rewrite !aes_mul_9_spec, !aes_mul_b_spec, !aes_mul_d_spec, !aes_mul_e_spec by done.
  rewrite !aes_mul_2_spec, !aes_mul_3_spec by done. clear M0 M1 M2 M3.
  unfold mul2, mul3, mul9, mul11, mul13, mul14. rewrite !xtime_lxor.
  f_equal; [|f_equal; [|f_equal; [|f_equal]]]; bits i; btauto.
Qed.

Lemma map_columns_app f st1 st2 :
  Nat.divide 4 (length st1) → map_columns f (st1 ++ st2) = map_columns f st1 ++ map_columns f st2.
Proof.
  intros [k Hk]. revert st1 Hk. induction k as [|k IH]; intros st1 Hk.
  { by destruct st1. }
  do 4 (destruct st1 as [|? st1]; [simpl in Hk; lia|]). simpl.
  rewrite IH by (simpl in Hk; lia). apply app_assoc.
Qed.

Lemma map_columns_ok f st :
  (∀ a b c d, byte a → byte b → byte c → byte d → length (f a b c d) = 4%nat ∧ bytes (f a b c d)) →
  state_ok st → state_ok (map_columns f st).
Proof.
  intros Hf H. state_bytes H. rewrite !Forall_cons in H.
  destruct H as (?&?&?&?&?&?&?&?&?&?&?&?&?&?&?&?&_). cbn [map_columns]. rewrite app_nil_r.
  split.
  - rewrite !length_app. rewrite !(λ a b c d Ha Hb Hc Hd, proj1 (Hf a b c d Ha Hb Hc Hd)); done.
  - repeat apply Forall_app_2; by apply Hf.
Qed.

Lemma MixColumns_ok st : state_ok st → state_ok (MixColumns st).
Proof. apply map_columns_ok. exact mix_column_bytes. Qed.

Lemma InvMixColumns_ok st : state_ok st → state_ok (InvMixColumns st).
Proof. apply map_columns_ok. exact inv_mix_column_bytes. Qed.

Lemma InvMixColumns_MixColumns st : state_ok st → InvMixColumns (MixColumns st) = st.
Proof.
  intros H. state_bytes H. rewrite !Forall_cons in H.
  destruct H as (?&?&?&?&?&?&?&?&?&?&?&?&?&?&?&?&_).
  unfold InvMixColumns, MixColumns. cbn [map_columns]. rewrite app_nil_r.
  rewrite !map_columns_app by (exists 1%nat; done). by rewrite !inv_mix_mix.
Qed.

Lemma AddRoundKey_ok kw r st :
  state_ok st → bytes kw → (16 * (r + 1) ≤ length kw)%nat → state_ok (AddRoundKey kw r st).
Proof.
  intros [Hl Hb] Hk Hr. unfold AddRoundKey. split; [|auto with word].
  rewrite length_xor_list; [done|]. rewrite length_take, length_drop. lia.
Qed.

Lemma AddRoundKey_involutive kw r st :
  state_ok st → (16 * (r + 1) ≤ length kw)%nat → AddRoundKey kw r (AddRoundKey kw r st) = st.
Proof.
  intros [Hl Hb] Hr. unfold AddRoundKey. apply xor_list_cancel.
  rewrite length_take, length_drop. lia.
Qed.

(** * The key schedule *)

Lemma key_step_length Nk kw i : length (key_step Nk kw i) = (length kw + 4)%nat.
Proof.
  unfold key_step. destruct (key_word _ _ _ _ _ _) as [[[t0 t1] t2] t3].
  rewrite length_app. done.
Qed.

Lemma sub_byte x : byte (sub x).
Proof. apply aget_bytes, aes_sbox_enc_bytes. Qed.

Lemma nth_byte kw i : bytes kw → byte (nth i kw 0).
Proof. intros H. rewrite <- (Nat2Z.id i). by apply aget_bytes. Qed.

Lemma key_word_bytes Nk i t0 t1 t2 t3 :
  byte t0 → byte t1 → byte t2 → byte t3 →
  let '(u0, u1, u2, u3) := key_word Nk i t0 t1 t2 t3 in
  byte u0 ∧ byte u1 ∧ byte u2 ∧ byte u3.
Proof.
  intros. unfold key_word. assert (Hl : ∀ x, byte (Z.land x 0xff)) by (intros; apply u8_byte).
  repeat case_match; simplify_eq; auto 10 using sub_byte, byte_lxor.
Qed.

Lemma key_step_bytes Nk kw i : bytes kw → bytes (key_step Nk kw i).
Proof.
  intros Hk. unfold key_step.
  pose proof (key_word_bytes Nk i _ _ _ _ (nth_byte kw (4 * (i - 1) + 0) Hk)
    (nth_byte kw (4 * (i - 1) + 1) Hk) (nth_byte kw (4 * (i - 1) + 2) Hk)
    (nth_byte kw (4 * (i - 1) + 3) Hk)) as H.
  destruct (key_word _ _ _ _ _ _) as [[[t0 t1] t2] t3]. destruct H as (?&?&?&?).
  apply Forall_app_2; [done|].
  repeat (apply Forall_cons_2; [auto using byte_lxor, nth_byte|]). done.
Qed.

Lemma key_fold Nk l : ∀ kw,
  bytes kw →
  bytes (foldl (key_step Nk) kw l) ∧
  length (foldl (key_step Nk) kw l) = (length kw + 4 * length l)%nat.
Proof.
  induction l as [|i l IH]; intros kw Hk; simpl; [split; [done|lia]|].
  destruct (IH (key_step Nk kw i)) as [H1 H2]; [by apply key_step_bytes|].
  split; [done|]. rewrite H2, key_step_length. lia.
Qed.

Lemma valid_key_cases n :
  valid_key_length n = true → n = 16 ∨ n = 24 ∨ n = 32.
Proof.
  unfold valid_key_length, AES_KEY128_LENGTH, AES_KEY192_LENGTH, AES_KEY256_LENGTH. lia.
Qed.

(** The schedule fills the words of all rounds. *)
Lemma RT_AES_KeyExpansion_ok Key KeyLength :
  valid_key_length KeyLength = true → Z.of_nat (length Key) = KeyLength → bytes Key →
  bytes (RT_AES_KeyExpansion Key KeyLength) ∧
  length (RT_AES_KeyExpansion Key KeyLength) = (16 * (NumberOfRound KeyLength + 1))%nat.
Proof.
  intros Hv Hl Hb. unfold RT_AES_KeyExpansion.
  destruct (key_fold (Z.to_nat (Z.shiftr KeyLength 2))
    (seq (Z.to_nat (Z.shiftr KeyLength 2))
       (4 * (Z.to_nat (Z.shiftr KeyLength 2) + 6 + 1) - Z.to_nat (Z.shiftr KeyLength 2)))
    (take (4 * Z.to_nat (Z.shiftr KeyLength 2)) Key)) as [H1 H2]; [by apply bytes_take|].
  split; [exact H1|]. rewrite H2, length_take, length_seq.
  unfold NumberOfRound.
  destruct (valid_key_cases _ Hv) as [E | [E | E]]; rewrite E;
    match goal with |- context [Z.shiftr ?a ?b] =>
      let v := eval vm_compute in (Z.shiftr a b) in change (Z.shiftr a b) with v end; lia.
Qed.

(** * The inverse cipher *)

Section Cipher.
Context (kw : list Z) (Nr : nat).
Context (Hkw : bytes kw) (Hlen : (16 * (Nr + 1) ≤ length kw)%nat).

Lemma enc_round_ok st r : state_ok st → (r ≤ Nr)%nat → state_ok (enc_round kw st r).
Proof using Hkw Hlen.
  intros. unfold enc_round. apply AddRoundKey_ok; [|done|lia].
  auto using MixColumns_ok, ShiftRows_ok, SubBytes_ok.
Qed.

Lemma enc_rounds_ok l st :
  state_ok st → Forall (λ r, (r ≤ Nr)%nat) l → state_ok (foldl (enc_round kw) st l).
Proof using Hkw Hlen.
  intros Hst Hl. revert st Hst. induction Hl as [|r l Hr Hl IH]; intros st Hst; [done|].
  simpl. apply IH. by apply enc_round_ok.
Qed.

(** What [dec_round] sees before it: the last two steps of the round above. *)
Lemma dec_round_enc_round st r :
  state_ok st → (r ≤ Nr)%nat →
  dec_round kw (ShiftRows (SubBytes (enc_round kw st r))) r = ShiftRows (SubBytes st).
Proof using Hkw Hlen.
  intros Hst Hr. pose proof (enc_round_ok st r Hst Hr) as He.
  unfold dec_round. rewrite InvShiftRows_ShiftRows by (by apply SubBytes_ok).
  rewrite InvSubBytes_SubBytes by apply He. unfold enc_round.
  rewrite AddRoundKey_involutive by (auto using MixColumns_ok, ShiftRows_ok, SubBytes_ok || lia).
  rewrite InvMixColumns_MixColumns; auto using ShiftRows_ok, SubBytes_ok.
Qed.

Lemma dec_rounds_enc_rounds l st :
  state_ok st → Forall (λ r, (r ≤ Nr)%nat) l →
  foldl (dec_round kw) (ShiftRows (SubBytes (foldl (enc_round kw) st l))) (rev l) =
  ShiftRows (SubBytes st).
Proof using Hkw Hlen.
  intros Hst. induction l as [|r l IH] using rev_ind; intros Hl; [done|].
  apply Forall_app in Hl as [Hl Hr]. apply Forall_cons in Hr as [Hr _].
  rewrite foldl_app, rev_unit. cbn [foldl].
  rewrite dec_round_enc_round; [by apply IH|by apply enc_rounds_ok|done].
Qed.

Lemma aes_cipher_ok st : state_ok st → state_ok (aes_cipher kw Nr st).
Proof using Hkw Hlen.
  intros Hst. unfold aes_cipher. apply AddRoundKey_ok; [|done|lia].
  apply ShiftRows_ok, SubBytes_ok, enc_rounds_ok.
  - apply AddRoundKey_ok; [done|done|lia].
  - apply Forall_forall. intros r Hr%elem_of_seq. lia.
Qed.

Lemma aes_inv_cipher_cipher st :
  state_ok st → aes_inv_cipher kw Nr (aes_cipher kw Nr st) = st.
Proof using Hkw Hlen.
  intros Hst. unfold aes_inv_cipher, aes_cipher.
  set (s0 := AddRoundKey kw 0 st).
  assert (H0 : state_ok s0) by (apply AddRoundKey_ok; [done|done|lia]).
  assert (Hl : Forall (λ r, (r ≤ Nr)%nat) (seq 1 (Nr - 1)))
    by (apply Forall_forall; intros r Hr%elem_of_seq; lia).
  rewrite AddRoundKey_involutive.
  2: { apply ShiftRows_ok, SubBytes_ok. by apply enc_rounds_ok. }
  2: lia.
  rewrite dec_rounds_enc_rounds by done.
  rewrite InvShiftRows_ShiftRows by (by apply SubBytes_ok).
  rewrite InvSubBytes_SubBytes by apply H0.
  apply AddRoundKey_involutive; [done|lia].
Qed.
End Cipher.

(** * The properties *)

(** C40: AES decryption inverts encryption, for 128-, 192- and 256-bit keys
    and every block: with the context allocated, decrypting the block that
    [RT_AES_Encrypt] wrote gives the plain block back, with size 16. *)
Theorem aes_decrypt_encrypt Key KeyLength Plain out1 out2
    (Hv : valid_key_length KeyLength = true) (Hk : Z.of_nat (length Key) = KeyLength)
    (Hkb : bytes Key) (Hp : state_ok Plain)
    (Ho1 : length out1 = 16%nat) (Ho2 : length out2 = 16%nat) :
  let '(c, n) := RT_AES_Encrypt true Plain 16 Key KeyLength out1 16 in
  n = 16 ∧ state_ok c ∧ RT_AES_Decrypt true c 16 Key KeyLength out2 16 = (Plain, 16).
Proof.
  destruct (RT_AES_KeyExpansion_ok Key KeyLength Hv Hk Hkb) as [K1 K2].
  unfold RT_AES_Encrypt, RT_AES_Decrypt, AES_BLOCK_SIZES. rewrite Hv, Z.eqb_refl, Z.ltb_irrefl.
  cbn [negb]. cbv iota zeta.
  rewrite (take_ge Plain) by (destruct Hp; lia).
  set (kw := RT_AES_KeyExpansion Key KeyLength) in *.
  set (Nr := NumberOfRound KeyLength) in *.
  pose proof (aes_cipher_ok kw Nr K1 ltac:(lia) Plain Hp) as [C1 C2].
  rewrite bwrite_all by lia. rewrite take_ge by lia.
  rewrite aes_inv_cipher_cipher by (done || lia).
  rewrite bwrite_all by (destruct Hp; lia). done.
Qed.

Lemma aes_decrypt_encrypt_witness :
  let '(c, n) := RT_AES_Encrypt true (map Z.of_nat (seq 0 16)) 16
                   (map Z.of_nat (seq 0 24)) 24 (zeros 16) 16 in
  n = 16 ∧ state_ok c ∧
  RT_AES_Decrypt true c 16 (map Z.of_nat (seq 0 24)) 24 (zeros 16) 16 =
    (map Z.of_nat (seq 0 16), 16).
Proof.
  apply (aes_decrypt_encrypt (map Z.of_nat (seq 0 24)) 24 (map Z.of_nat (seq 0 16))).
  - reflexivity.
  - reflexivity.
  - solve_bytes.
  - split; [reflexivity|solve_bytes].
  - reflexivity.
  - reflexivity.
Defined.

(** The error paths of the cipher: on a wrong block size, key length or
    output size, or when the context cannot be allocated, the output block
    and its size are left exactly as they were, in both directions. *)
Theorem aes_errors_leave_output alloc In InSize Key KeyLength Out OutSize
    (Herr : InSize ≠ 16 ∨ valid_key_length KeyLength = false ∨ OutSize < 16 ∨ alloc = false) :
  RT_AES_Encrypt alloc In InSize Key KeyLength Out OutSize = (Out, OutSize) ∧
  RT_AES_Decrypt alloc In InSize Key KeyLength Out OutSize = (Out, OutSize).
Proof.
  unfold RT_AES_Encrypt, RT_AES_Decrypt, AES_BLOCK_SIZES.
  destruct (Z.eqb_spec InSize 16); simpl; [|by repeat case_match].
  destruct (valid_key_length KeyLength); simpl; [|by repeat case_match].
  destruct (Z.ltb_spec OutSize 16); simpl; [done|].
  destruct alloc; simpl; [|done].
  destruct Herr as [?|[?|[?|?]]]; done || lia.
Qed.

Lemma aes_errors_leave_output_witness :
  RT_AES_Encrypt false (zeros 16) 16 (zeros 16) 16 [7] 16 = ([7], 16) ∧
  RT_AES_Decrypt false (zeros 16) 16 (zeros 16) 16 [7] 16 = ([7], 16).
Proof. apply aes_errors_leave_output. right. right. right. reflexivity. Defined.

(** The example vectors of FIPS 197, appendix C.1 and C.3. *)
Example aes128_vector :
  (RT_AES_Encrypt true (map (λ i, 17 * Z.of_nat i) (seq 0 16)) 16
     (map Z.of_nat (seq 0 16)) 16 (zeros 16) 16).1 =
  [105; 196; 224; 216; 106; 123; 4; 48; 216; 205; 183; 128; 112; 180; 197; 90].
Proof. vm_compute. reflexivity. Qed.

Example aes256_vector :
  (RT_AES_Encrypt true (map (λ i, 17 * Z.of_nat i) (seq 0 16)) 16
     (map Z.of_nat (seq 0 32)) 32 (zeros 16) 16).1 =
  [142; 162; 183; 202; 81; 103; 69; 191; 234; 252; 73; 144; 75; 73; 96; 137].
Proof. vm_compute. reflexivity. Qed.
