(* ===== verification/Tkip.v ===== *)
(** TKIP: src/common/cmm_tkip.c (tkip_sbox .. TKIP_GTK_KEY_UNWRAP), on the
    RC4 engine, the checksum of WEP and the Michael MIC. *)

From S2P Require Import Prelude CipherKey Arc4 Wep AesTables Michael.

(** * Key mixing *)

Definition Tkip_Sbox_Lower : list Z :=
  [165; 132; 153; 141; 13; 189; 177; 84; 80; 3; 169; 125; 25; 98; 230; 154;
   69; 157; 64; 135; 21; 235; 201; 11; 236; 103; 253; 234; 191; 247; 150; 91;
   194; 28; 174; 106; 90; 65; 2; 79; 92; 244; 52; 8; 147; 115; 83; 63;
   12; 82; 101; 94; 40; 161; 15; 181; 9; 54; 155; 61; 38; 105; 205; 159;
   27; 158; 116; 46; 45; 178; 238; 251; 246; 77; 97; 206; 123; 62; 113; 151;
   245; 104; 0; 44; 96; 31; 200; 237; 190; 70; 217; 75; 222; 212; 232; 74;
   107; 42; 229; 22; 197; 215; 85; 148; 207; 16; 6; 129; 240; 68; 186; 227;
   243; 254; 192; 138; 173; 188; 72; 4; 223; 193; 117; 99; 48; 26; 14; 109;
   76; 20; 53; 47; 225; 162; 204; 57; 87; 242; 130; 71; 172; 231; 43; 149;
   160; 152; 209; 127; 102; 126; 171; 131; 202; 41; 211; 60; 121; 226; 29; 118;
   59; 86; 78; 30; 219; 10; 108; 228; 93; 110; 239; 166; 168; 164; 55; 139;
   50; 67; 89; 183; 140; 100; 210; 224; 180; 250; 7; 37; 175; 142; 233; 24;
   213; 136; 111; 114; 36; 241; 199; 81; 35; 124; 156; 33; 221; 220; 134; 133;
   144; 66; 196; 170; 216; 5; 1; 18; 163; 95; 249; 208; 145; 88; 39; 185;
   56; 19; 179; 51; 187; 112; 137; 167; 182; 34; 146; 32; 73; 255; 120; 122;
   143; 248; 128; 23; 218; 49; 198; 184; 195; 176; 119; 17; 203; 252; 214; 58].

Definition Tkip_Sbox_Upper : list Z :=
  [198; 248; 238; 246; 255; 214; 222; 145; 96; 2; 206; 86; 231; 181; 77; 236;
   143; 31; 137; 250; 239; 178; 142; 251; 65; 179; 95; 69; 35; 83; 228; 155;
   117; 225; 61; 76; 108; 126; 245; 131; 104; 81; 209; 249; 226; 171; 98; 42;
   8; 149; 70; 157; 48; 55; 10; 47; 14; 36; 27; 223; 205; 78; 127; 234;
   18; 29; 88; 52; 54; 220; 180; 91; 164; 118; 183; 125; 82; 221; 94; 19;
   166; 185; 0; 193; 64; 227; 121; 182; 212; 141; 103; 114; 148; 152; 176; 133;
   187; 197; 79; 237; 134; 154; 102; 17; 138; 233; 4; 254; 160; 120; 37; 75;
   162; 93; 128; 5; 63; 33; 112; 241; 99; 119; 175; 66; 32; 229; 253; 191;
   129; 24; 38; 195; 190; 53; 136; 46; 147; 85; 252; 122; 200; 186; 50; 230;
   192; 25; 158; 163; 68; 84; 59; 11; 140; 199; 107; 40; 167; 188; 22; 173;
   219; 100; 116; 20; 146; 12; 72; 184; 159; 189; 67; 196; 57; 49; 211; 242;
   213; 139; 110; 218; 1; 177; 156; 73; 216; 172; 243; 207; 202; 244; 71; 16;
   111; 240; 74; 92; 56; 87; 115; 151; 203; 161; 232; 62; 150; 97; 13; 15;
   224; 124; 113; 204; 144; 6; 247; 28; 194; 106; 174; 105; 23; 153; 58; 39;
   217; 235; 43; 34; 210; 169; 7; 51; 45; 60; 21; 201; 135; 170; 80; 165;
   3; 89; 9; 26; 101; 215; 132; 208; 130; 41; 90; 30; 123; 168; 109; 44].

Definition tkip_sbox (index : Z) : Z :=
  let index_low := index `mod` 256 in
  let index_high := (Z.shiftr index 8) `mod` 256 in
  let left := aget Tkip_Sbox_Lower index_low + aget Tkip_Sbox_Upper index_low * 256 in
  let right := aget Tkip_Sbox_Upper index_high + aget Tkip_Sbox_Lower index_high * 256 in
  Z.lxor left right.

Definition rotr1 (a : Z) : Z :=
  let b := if Z.land a 0x01 =? 0x01 then Z.lor (Z.shiftr a 1) 0x8000
           else Z.land (Z.shiftr a 1) 0x7fff in
  b `mod` 65536.

(** [(256*key[i+1]) + key[i]] *)
Definition key16 (key : list Z) (i : Z) : Z := 256 * aget key (i + 1) + aget key i.

(** A turn of the loop of phase 1. *)
Definition phase1_turn (key : list Z) (p : Z * Z * Z * Z * Z) (i : nat) : Z * Z * Z * Z * Z :=
  let '(p0, p1, p2, p3, p4) := p in
  let j := 2 * Z.land (Z.of_nat i) 1 in
  let p0 := (p0 + tkip_sbox (Z.lxor p4 (key16 key j) `mod` 65536)) `mod` 65536 in
  let p1 := (p1 + tkip_sbox (Z.lxor p0 (key16 key (4 + j)) `mod` 65536)) `mod` 65536 in
  let p2 := (p2 + tkip_sbox (Z.lxor p1 (key16 key (8 + j)) `mod` 65536)) `mod` 65536 in
  let p3 := (p3 + tkip_sbox (Z.lxor p2 (key16 key (12 + j)) `mod` 65536)) `mod` 65536 in
  let p4 := (p4 + tkip_sbox (Z.lxor p3 (key16 key j) `mod` 65536)) `mod` 65536 in
  let p4 := (p4 + Z.of_nat i) `mod` 65536 in
  (p0, p1, p2, p3, p4).

(** Phase 2, steps 1 and 2: the six words behind the S-box. *)
Definition phase2_sbox (key : list Z) (p1k : Z * Z * Z * Z * Z) (tsc2 : Z) : Z * Z * Z * Z * Z * Z :=
  let '(ppk0, ppk1, ppk2, ppk3, ppk4) := p1k in
  let ppk5 := (ppk4 + tsc2) `mod` 65536 in
  let ppk0 := u32 (ppk0 + tkip_sbox (Z.lxor ppk5 (key16 key 0) `mod` 65536)) in
  let ppk1 := u32 (ppk1 + tkip_sbox (Z.lxor ppk0 (key16 key 2) `mod` 65536)) in
  let ppk2 := u32 (ppk2 + tkip_sbox (Z.lxor ppk1 (key16 key 4) `mod` 65536)) in
  let ppk3 := u32 (ppk3 + tkip_sbox (Z.lxor ppk2 (key16 key 6) `mod` 65536)) in
  let ppk4 := u32 (ppk4 + tkip_sbox (Z.lxor ppk3 (key16 key 8) `mod` 65536)) in
  let ppk5 := u32 (ppk5 + tkip_sbox (Z.lxor ppk4 (key16 key 10) `mod` 65536)) in
  (ppk0, ppk1, ppk2, ppk3, ppk4, ppk5).

(** Phase 2, step 2, the rotations. *)
Definition phase2_rotr (key : list Z) (ppk : Z * Z * Z * Z * Z * Z) : Z * Z * Z * Z * Z * Z :=
  let '(ppk0, ppk1, ppk2, ppk3, ppk4, ppk5) := ppk in
  let ppk0 := u32 (ppk0 + rotr1 (Z.lxor ppk5 (key16 key 12))) in
  let ppk1 := u32 (ppk1 + rotr1 (Z.lxor ppk0 (key16 key 14))) in
  let ppk2 := u32 (ppk2 + rotr1 ppk1) in
  let ppk3 := u32 (ppk3 + rotr1 ppk2) in
  let ppk4 := u32 (ppk4 + rotr1 ppk3) in
  let ppk5 := u32 (ppk5 + rotr1 ppk4) in
  (ppk0, ppk1, ppk2, ppk3, ppk4, ppk5).

(** Phase 2, step 3. *)
Definition rc4key_bytes (key : list Z) (tsc2 : Z) (ppk : Z * Z * Z * Z * Z * Z) : list Z :=
  let '(ppk0, ppk1, ppk2, ppk3, ppk4, ppk5) := ppk in
  [(Z.shiftr tsc2 8) `mod` 256;
   Z.land (Z.lor ((Z.shiftr tsc2 8) `mod` 256) 0x20) 0x7f;
   tsc2 `mod` 256;
   (Z.shiftr (Z.lxor ppk5 (key16 key 0)) 1) `mod` 256;
   ppk0 `mod` 256; (Z.shiftr ppk0 8) `mod` 256;
   ppk1 `mod` 256; (Z.shiftr ppk1 8) `mod` 256;
   ppk2 `mod` 256; (Z.shiftr ppk2 8) `mod` 256;
   ppk3 `mod` 256; (Z.shiftr ppk3 8) `mod` 256;
   ppk4 `mod` 256; (Z.shiftr ppk4 8) `mod` 256;
   ppk5 `mod` 256; (Z.shiftr ppk5 8) `mod` 256].

(** The RC4 key and the words of phase 1. *)
Definition RTMPTkipMixKey (key ta : list Z) (pnl pnh : Z) : list Z * (Z * Z * Z * Z * Z) :=
  let tsc0 := (Z.shiftr pnh 16) `mod` 65536 in
  let tsc1 := pnh `mod` 65536 in
  let tsc2 := pnl `mod` 65536 in
  let p1k := (tsc1, tsc0, aget ta 0 + aget ta 1 * 256, aget ta 2 + aget ta 3 * 256,
              aget ta 4 + aget ta 5 * 256) in
  let p1k := foldl (phase1_turn key) p1k (seq 0 8) in
  let ppk := phase2_rotr key (phase2_sbox key p1k tsc2) in
  (rc4key_bytes key tsc2 ppk, p1k).

(** * Decapsulation *)

Definition NDIS_STATUS_SUCCESS : Z := 0.
Definition NDIS_STATUS_FAILURE : Z := 1.
Definition NDIS_STATUS_MICERROR : Z := 4.

(** The addresses the MIC and the key mixing take from the header: TA, DA,
    SA.  [pHdr] is the 802.11 header: Addr1 at 4, Addr2 at 10, Addr3 at 16
    and the octets behind the sequence control at 24. *)
Definition tkip_addresses (pHdr : list Z) : list Z * list Z * list Z :=
  let from_ds := Z.shiftr (Z.land (aget pHdr 1) 0x2) 1 in
  let to_ds := Z.land (aget pHdr 1) 0x1 in
  let Addr1 := slice pHdr 4 6 in
  let Addr2 := slice pHdr 10 6 in
  let Addr3 := slice pHdr 16 6 in
  let Octet := slice pHdr 24 6 in
  if (to_ds =? 0) && (from_ds =? 1) then (Addr2, Addr1, Addr3)
  else if (to_ds =? 0) && (from_ds =? 0) then (Addr2, Addr1, Addr2)
  else if (to_ds =? 1) && (from_ds =? 0) then (Addr2, Addr3, Addr2)
  else (Addr2, Addr3, Octet).

(** The report of a MIC error: to the supplicant, if one is running, or to
    the counter measures of the driver. *)
Inductive mic_report :=
  | WpaSendMicFailure (addr : list Z) (pairwise : bool)
  | ReportMicError.

Definition PAIRWISEKEY : Z := 1.

(** The status, the data, its length, [PrivateInfo.Tx] and the reports. *)
Definition RTMPSoftDecryptTKIP (WpaSupplicantUP : bool) (Tx : TKIP_KEY_INFO) (pHdr : list Z)
    (UserPriority : Z) (pKey : CIPHER_KEY) (pData : list Z) (DataByteCnt : Z)
    : option (Z * list Z * Z * TKIP_KEY_INFO * list mic_report) :=
  if KeyLen pKey =? 0 then Some (NDIS_STATUS_FAILURE, pData, DataByteCnt, Tx, [])
  else if negb (in_buf pData 4 8) then None
  else
    let '(TA, DA, SA) := tkip_addresses pHdr in
    let pnl := Z.lor (Z.shiftl (aget pData 0) 8) (aget pData 2) in
    let pnh := le_word (slice pData 4 8) in
    let pnh := u32 pnh in
    let '(RC4Key, _) := RTMPTkipMixKey (Key pKey) TA pnl pnh in
    let ciphertext_len := u32 (DataByteCnt - Z.of_nat LEN_TKIP_IV_HDR) in
    if DataByteCnt <=? Z.of_nat LEN_TKIP_IV_HDR
    then Some (NDIS_STATUS_FAILURE, pData, DataByteCnt, Tx, [])
    else if negb (in_buf pData LEN_TKIP_IV_HDR (Z.to_nat ciphertext_len)) then None
    else
      let ctx := ARC4_INIT RC4Key 16 in
      let '(_, pData) := ARC4_Compute ctx pData LEN_TKIP_IV_HDR (Z.to_nat ciphertext_len) 0 in
      let plaintext_len := u32 (ciphertext_len - Z.of_nat LEN_ICV) in
      let n := Z.to_nat plaintext_len in
      if negb (in_buf pData n LEN_ICV) then None
      else
        let trailfcs := le_word (slice pData n LEN_ICV) in
        let crc32 := RTMP_CALC_FCS32 PPPINITFCS32 (take n pData) in
        let crc32 := Z.lxor crc32 0xffffffff in
        if negb (crc32 =? trailfcs) then Some (NDIS_STATUS_FAILURE, pData, DataByteCnt, Tx, [])
        else
          let plaintext_len := u32 (plaintext_len - Z.of_nat LEN_TKIP_MIC) in
          let n := Z.to_nat plaintext_len in
          if negb (in_buf pData n LEN_TKIP_MIC) then None
          else
            let TrailMIC := slice pData n LEN_TKIP_MIC in
            let Tx := RTMPInitMICEngine Tx DA SA UserPriority (RxMic pKey) in
            let Tx := RTMPTkipAppend Tx (take n pData) in
            Tx ← RTMPTkipGetMIC Tx;
            if bool_decide (tk_MIC Tx = TrailMIC)
            then Some (NDIS_STATUS_SUCCESS, pData, u16 plaintext_len, Tx, [])
            else
              let report := if WpaSupplicantUP
                            then WpaSendMicFailure (slice pHdr 10 6) (KeyType pKey =? PAIRWISEKEY)
                            else ReportMicError in
              Some (NDIS_STATUS_MICERROR, pData, DataByteCnt, Tx, [report]).

(** * The key wrap of the group key *)

Definition LEN_KEY_DESC_IV : nat := 16.
Definition LEN_PTK_KEK : nat := 16.

(** The memory holds the input at [input_text] and takes the output at
    [output_text]. *)
Definition TKIP_GTK_KEY_WRAP (alloc_ctx : bool) (key iv mem : list Z) (input_text input_len output_text : nat)
    : list Z :=
  if negb alloc_ctx then mem
  else
    let ekey := take LEN_KEY_DESC_IV iv ++ take LEN_PTK_KEK key in
    let ctx := ARC4_INIT ekey (Z.of_nat (LEN_KEY_DESC_IV + LEN_PTK_KEK)) in
    let ctx := ARC4_Discard_KeyLength ctx 256 in
    (ARC4_Compute ctx mem input_text input_len output_text).2.

Definition TKIP_GTK_KEY_UNWRAP (alloc_ctx : bool) (key iv mem : list Z)
    (input_text input_len output_text : nat) : list Z :=
  TKIP_GTK_KEY_WRAP alloc_ctx key iv mem input_text input_len output_text.

(** * The key mixing of IEEE 802.11, 16 bits wide *)

(** The S-box of the standard: the AES S-box times 2 and times 3 in GF(2^8). *)
Definition tkip_s (x : Z) : Z := 256 * mul2 (aget aes_sbox_enc x) + mul3 (aget aes_sbox_enc x).

Definition swap16 (x : Z) : Z := Z.lor (u16 (Z.shiftl x 8)) (Z.shiftr x 8).

Definition S16 (x : Z) : Z := Z.lxor (tkip_s (u8 x)) (swap16 (tkip_s (Z.shiftr x 8))).

Definition add16 (x y : Z) : Z := u16 (x + y).

Definition rotr16 (x : Z) : Z := Z.lor (Z.shiftr x 1) (Z.shiftl (Z.land x 1) 15).

Definition mix1_turn (TK : list Z) (t : Z * Z * Z * Z * Z) (i : nat) : Z * Z * Z * Z * Z :=
  let '(t0, t1, t2, t3, t4) := t in
  let j := 2 * (Z.of_nat i `mod` 2) in
  let t0 := add16 t0 (S16 (Z.lxor t4 (key16 TK j))) in
  let t1 := add16 t1 (S16 (Z.lxor t0 (key16 TK (4 + j)))) in
  let t2 := add16 t2 (S16 (Z.lxor t1 (key16 TK (8 + j)))) in
  let t3 := add16 t3 (S16 (Z.lxor t2 (key16 TK (12 + j)))) in
  let t4 := add16 (add16 t4 (S16 (Z.lxor t3 (key16 TK j)))) (Z.of_nat i) in
  (t0, t1, t2, t3, t4).

Definition mix_phase1 (TK TA : list Z) (IV32 : Z) : Z * Z * Z * Z * Z :=
  foldl (mix1_turn TK)
    (u16 IV32, Z.shiftr IV32 16, key16 TA 0, key16 TA 2, key16 TA 4) (seq 0 8).

Definition mix2_sbox (TK : list Z) (t : Z * Z * Z * Z * Z) (IV16 : Z) : Z * Z * Z * Z * Z * Z :=
  let '(p0, p1, p2, p3, p4) := t in
  let p5 := add16 p4 IV16 in
  let p0 := add16 p0 (S16 (Z.lxor p5 (key16 TK 0))) in
  let p1 := add16 p1 (S16 (Z.lxor p0 (key16 TK 2))) in
  let p2 := add16 p2 (S16 (Z.lxor p1 (key16 TK 4))) in
  let p3 := add16 p3 (S16 (Z.lxor p2 (key16 TK 6))) in
  let p4 := add16 p4 (S16 (Z.lxor p3 (key16 TK 8))) in
  let p5 := add16 p5 (S16 (Z.lxor p4 (key16 TK 10))) in
  (p0, p1, p2, p3, p4, p5).

Definition mix2_rotr (TK : list Z) (p : Z * Z * Z * Z * Z * Z) : Z * Z * Z * Z * Z * Z :=
  let '(p0, p1, p2, p3, p4, p5) := p in
  let p0 := add16 p0 (rotr16 (Z.lxor p5 (key16 TK 12))) in
  let p1 := add16 p1 (rotr16 (Z.lxor p0 (key16 TK 14))) in
  let p2 := add16 p2 (rotr16 p1) in
  let p3 := add16 p3 (rotr16 p2) in
  let p4 := add16 p4 (rotr16 p3) in
  let p5 := add16 p5 (rotr16 p4) in
  (p0, p1, p2, p3, p4, p5).

Definition mix_phase2 (TK : list Z) (t : Z * Z * Z * Z * Z) (IV16 : Z) : list Z :=
  let '(p0, p1, p2, p3, p4, p5) := mix2_rotr TK (mix2_sbox TK t IV16) in
  [Z.shiftr IV16 8; Z.land (Z.lor (Z.shiftr IV16 8) 0x20) 0x7f; u8 IV16;
   u8 (Z.shiftr (Z.lxor p5 (key16 TK 0)) 1)] ++
  concat (map (le_bytes 2) [p0; p1; p2; p3; p4; p5]).

(** * The code mixes keys as the standard does *)

Lemma tkip_tables x (H : byte x) :
  aget Tkip_Sbox_Upper x = mul2 (aget aes_sbox_enc x) ∧
  aget Tkip_Sbox_Lower x = mul3 (aget aes_sbox_enc x).
Proof.
  split.
  - revert x H. apply (table_aget _ (λ x, mul2 (aget aes_sbox_enc x))). tabulated.
  - revert x H. apply (table_aget _ (λ x, mul3 (aget aes_sbox_enc x))). tabulated.
Qed.

Lemma mod_u8 x : x `mod` 256 = u8 x.
Proof. by rewrite wrap_mod. Qed.

Lemma mod_u16 x : x `mod` 65536 = u16 x.
Proof. by rewrite wrap_mod. Qed.

Lemma lor_add a b : byte b → Z.lor (256 * a) b = 256 * a + b.
Proof.
  intros Hb. rewrite <- Z.add_lor_land.
  replace (256 * a) with (Z.shiftl a 8) by (rewrite Z.shiftl_mul_pow2; lia).
  replace (Z.land (Z.shiftl a 8) b) with 0; [lia|]. symmetry. bits i.
  rewrite Z.shiftl_spec by lia. destruct (decide (8 ≤ i)).
  - by rewrite (in_range_testbit 8 b), andb_false_r.
  - by rewrite Z.testbit_neg_r by lia.
Qed.

Lemma swap16_spec a b : byte a → byte b → swap16 (256 * a + b) = 256 * b + a.
Proof.
  intros [Ha1 Ha2] [Hb1 Hb2]. unfold swap16. change (2 ^ 8) with 256 in *.
  rewrite wrap_mod, Z.shiftl_mul_pow2, Z.shiftr_div_pow2 by lia.
  replace ((256 * a + b) `div` 2 ^ 8) with a by zdm.
  replace (((256 * a + b) * 2 ^ 8) `mod` 2 ^ 16) with (256 * b) by zdm.
  by apply lor_add.
Qed.

Lemma mul_bytes x : byte x → byte (mul2 (aget aes_sbox_enc x)) ∧ byte (mul3 (aget aes_sbox_enc x)).
Proof.
  intros Hx. destruct (tkip_tables x Hx) as [<- <-].
  split; apply aget_bytes; solve_bytes.
Qed.

Lemma word16_pair a b : byte a → byte b → word16 (256 * a + b).
Proof. unfold in_range. lia. Qed.

Lemma tkip_s_word x : byte x → word16 (tkip_s x) ∧ word16 (swap16 (tkip_s x)).
Proof.
  intros Hx. destruct (mul_bytes x Hx). unfold tkip_s. rewrite swap16_spec by done.
  split; by apply word16_pair.
Qed.

Lemma tkip_sbox_spec x : word16 x → tkip_sbox x = S16 x ∧ word16 (S16 x).
Proof.
  intros Hx. assert (H1 : byte (u8 x)) by apply u8_byte.
  assert (H2 : byte (Z.shiftr x 8)).
  { destruct Hx. rewrite Z.shiftr_div_pow2 by lia. unfold in_range. zdm. }
  unfold tkip_sbox, S16. cbv zeta. rewrite !mod_u8.
  rewrite (wrap_id 8 (Z.shiftr x 8)) by done.
  destruct (tkip_tables _ H1) as [-> ->], (tkip_tables _ H2) as [-> ->].
  destruct (tkip_s_word _ H1) as [W1 _], (tkip_s_word _ H2) as [_ W2].
  split; [|by apply in_range_lxor]. destruct (mul_bytes _ H2). unfold tkip_s.
  rewrite swap16_spec by done. f_equal; lia.
Qed.

Lemma rotr1_spec a : rotr1 a = rotr16 (u16 a).
Proof.
  unfold rotr1, rotr16. cbv zeta. rewrite mod_u16. bits i. rewrite wrap_spec, Z.shiftr_spec, wrap_spec by lia.
  assert (E : (Z.land a 1 =? 1) = Z.testbit a 0).
  { change 1 with (Z.ones 1) at 1. rewrite Z.land_ones by lia. change (2 ^ 1) with 2.
    rewrite <- Z.bit0_mod. by destruct (Z.testbit a 0). }
  rewrite E. assert (Hl : Z.land (u16 a) 1 = Z.b2z (Z.testbit a 0)).
  { change 1 with (Z.ones 1). rewrite Z.land_ones, wrap_mod by lia. rewrite Z.bit0_mod. zdm. }
  rewrite Hl. destruct (Z.testbit a 0) eqn:E0; cbn [Z.b2z].
  - change (Z.shiftl 1 15) with (2 ^ 15). change 0x8000 with (2 ^ 15).
    rewrite Z.lor_spec, Z.shiftr_spec, Z.pow2_bits_eqb by lia.
    destruct (Z.ltb_spec i 16), (Z.ltb_spec (i + 1) 16), (Z.eqb_spec 15 i); try lia; btauto.
  - change (Z.shiftl 0 15) with 0. change 0x7fff with (Z.ones 15).
    rewrite Z.land_spec, Z.shiftr_spec, Z.bits_0, Z.testbit_ones by lia.
    destruct (Z.ltb_spec i 16), (Z.ltb_spec (i + 1) 16), (Z.ltb_spec i 15), (Z.leb_spec 0 i);
      try lia; btauto.
Qed.

Lemma key16_word key i : bytes key → word16 (key16 key i).
Proof. intros H. apply word16_pair; by apply aget_bytes. Qed.

Lemma u16_u32 x : u16 (u32 x) = u16 x.
Proof. bits i. rewrite !wrap_spec by done. destruct (Z.ltb_spec i 16), (Z.ltb_spec i 32); done || lia. Qed.

Lemma u16_u16 x : u16 (u16 x) = u16 x.
Proof. by apply wrap_wrap. Qed.

Section Mix.
Context (key : list Z) (Hkey : bytes key).

Lemma u16_lxor_key x i : u16 (Z.lxor x (key16 key i)) = Z.lxor (u16 x) (key16 key i).
Proof using Hkey. rewrite wrap_lxor by done. by rewrite (wrap_id 16 (key16 key i)) by (done || by apply key16_word). Qed.

Lemma sbox_arg x i :
  tkip_sbox (Z.lxor x (key16 key i) `mod` 65536) = S16 (Z.lxor (u16 x) (key16 key i)).
Proof using Hkey.
  rewrite mod_u16, u16_lxor_key. apply tkip_sbox_spec, in_range_lxor; [done|by apply wrap_range|].
  by apply key16_word.
Qed.

Lemma u16_sum p x : u16 (u32 (p + x)) = add16 p x.
Proof. apply u16_u32. Qed.

Lemma add16_u16 p x : add16 (u16 p) x = add16 p x.
Proof. by apply wrap_add_l. Qed.

Lemma phase1_turn_spec p0 p1 p2 p3 p4 i :
  word16 p4 →
  phase1_turn key (p0, p1, p2, p3, p4) i = mix1_turn key (p0, p1, p2, p3, p4) i ∧
  word16 (mix1_turn key (p0, p1, p2, p3, p4) i).2.
Proof using Hkey.
  intros H4. split; [|by apply wrap_range]. unfold phase1_turn, mix1_turn.
  change (Z.land (Z.of_nat i) 1) with (Z.land (Z.of_nat i) (Z.ones 1)).
  rewrite Z.land_ones by lia. change (2 ^ 1) with 2. cbv zeta.
  rewrite !sbox_arg, !mod_u16, !u16_u16, (wrap_id 16 p4) by done. done.
Qed.

Lemma phase1_spec l : ∀ p,
  word16 p.2 →
  foldl (phase1_turn key) p l = foldl (mix1_turn key) p l ∧
  word16 (foldl (mix1_turn key) p l).2.
Proof using Hkey.
  induction l as [|i l IH]; intros [[[[p0 p1] p2] p3] p4] Hp; [done|].
  cbn [foldl snd] in *. destruct (phase1_turn_spec p0 p1 p2 p3 p4 i Hp) as [-> H]. by apply IH.
Qed.

Definition map6 (f : Z → Z) (p : Z * Z * Z * Z * Z * Z) : Z * Z * Z * Z * Z * Z :=
  let '(p0, p1, p2, p3, p4, p5) := p in (f p0, f p1, f p2, f p3, f p4, f p5).

Lemma phase2_sbox_spec t tsc2 : map6 u16 (phase2_sbox key t tsc2) = mix2_sbox key t tsc2.
Proof using Hkey.
  destruct t as [[[[p0 p1] p2] p3] p4]. unfold phase2_sbox, mix2_sbox, map6. cbv zeta.
  rewrite !sbox_arg, !mod_u16, !u16_sum, !u16_u16. done.
Qed.

Lemma phase2_rotr_spec p : map6 u16 (phase2_rotr key p) = mix2_rotr key (map6 u16 p).
Proof using Hkey.
  destruct p as [[[[[p0 p1] p2] p3] p4] p5]. unfold phase2_rotr, mix2_rotr, map6. cbv zeta.
  rewrite !rotr1_spec, !u16_lxor_key, !u16_sum, !add16_u16. done.
Qed.

Lemma u8_shiftr_u16 x : u8 (Z.shiftr (u16 x) 1) = u8 (Z.shiftr x 1).
Proof.
  bits i. rewrite !wrap_spec, !Z.shiftr_spec, wrap_spec by lia.
  destruct (Z.ltb_spec i 8), (Z.ltb_spec (i + 1) 16); done || lia.
Qed.

Lemma rc4key_bytes_spec t IV16 :
  word16 IV16 →
  rc4key_bytes key IV16 (phase2_rotr key (phase2_sbox key t IV16)) = mix_phase2 key t IV16.
Proof using Hkey.
  intros HI. unfold mix_phase2. rewrite <- phase2_sbox_spec, <- phase2_rotr_spec.
  destruct (phase2_rotr _ _) as [[[[[p0 p1] p2] p3] p4] p5]. unfold map6, rc4key_bytes.
  rewrite !mod_u8, <- u16_lxor_key, u8_shiftr_u16. cbn [map concat].
  rewrite !(le_bytes_wrap 2). rewrite (wrap_id 8 (Z.shiftr IV16 8)).
  - unfold le_bytes. cbn [seq map app].
    change (8 * Z.of_nat 0) with 0. change (8 * Z.of_nat 1) with 8. by rewrite !Z.shiftr_0_r.
  - done.
  - destruct HI. rewrite Z.shiftr_div_pow2 by lia. unfold in_range. zdm.
Qed.

Lemma mix_key_spec ta pnl pnh :
  bytes ta → word32 pnh →
  RTMPTkipMixKey key ta pnl pnh =
    (mix_phase2 key (mix_phase1 key ta pnh) (u16 pnl), mix_phase1 key ta pnh).
Proof using Hkey.
  intros Hta Hp. unfold RTMPTkipMixKey. cbv zeta. rewrite !mod_u16.
  replace (u16 (Z.shiftr pnh 16)) with (Z.shiftr pnh 16).
  2: { symmetry. apply wrap_id; [done|]. destruct Hp. rewrite Z.shiftr_div_pow2 by lia.
       unfold in_range. zdm. }
  assert (E : ∀ i, aget ta i + aget ta (i + 1) * 256 = key16 ta i) by (intros; unfold key16; lia).
  change (aget ta 1) with (aget ta (0 + 1)). change (aget ta 3) with (aget ta (2 + 1)).
  change (aget ta 5) with (aget ta (4 + 1)). rewrite !E.
  match goal with |- context [foldl (phase1_turn key) ?p _] =>
    destruct (phase1_spec (seq 0 8) p) as [-> _] end.
  - by apply key16_word.
  - fold (mix_phase1 key ta pnh). rewrite rc4key_bytes_spec by (by apply wrap_range). done.
Qed.
End Mix.

(** * Decapsulation *)

(** A usable TKIP key, and a header long enough for its addresses. *)
Definition tkip_key (k : CIPHER_KEY) : Prop := key_wf k ∧ KeyLen k ≠ 0.

Definition tkip_hdr (h : list Z) : Prop := bytes h ∧ (30 ≤ length h)%nat.

Lemma tkip_addresses_ok h :
  tkip_hdr h →
  mac (tkip_addresses h).1.1 ∧ mac (tkip_addresses h).1.2 ∧ mac (tkip_addresses h).2.
Proof.
  intros [Hb Hl].
  assert (Hs : ∀ o, (o + 6 ≤ 30)%nat → mac (slice h o 6)).
  { intros o Ho. unfold mac, slice. split; [rewrite length_take, length_drop; lia|auto with word]. }
  unfold tkip_addresses. cbv zeta. repeat case_match; simplify_eq; cbn [fst snd]; conjs; apply Hs; lia.
Qed.

(** The RC4 key of a frame with this 802.11 header and TKIP header. *)
Definition tkip_rc4key (k : CIPHER_KEY) (pHdr iv : list Z) : list Z :=
  mix_phase2 (Key k) (mix_phase1 (Key k) (tkip_addresses pHdr).1.1 (le_word (slice iv 4 4)))
    (256 * aget iv 0 + aget iv 2).

Definition tkip_stream (k : CIPHER_KEY) (pHdr iv : list Z) (n : nat) : list Z :=
  keystream (ARC4_INIT (tkip_rc4key k pHdr iv) 16) n.

(** The body of a frame before encryption: MSDU, MIC and checksum. *)
Definition tkip_mic (k : CIPHER_KEY) (pHdr : list Z) (UP : Z) (msdu : list Z) : list Z :=
  michael (RxMic k) (mic_message (tkip_addresses pHdr).1.2 (tkip_addresses pHdr).2 UP msdu).

Definition tkip_body (k : CIPHER_KEY) (pHdr : list Z) (UP : Z) (msdu : list Z) : list Z :=
  with_icv (msdu ++ tkip_mic k pHdr UP msdu).

Lemma u32_le_word_app a b : bytes a → length a = 4%nat → u32 (le_word (a ++ b)) = le_word a.
Proof.
  intros Ha Hl. rewrite le_word_app, Hl, u32_lor, u32_full_word by (done || lia).
  replace (u32 (Z.shiftl _ _)) with 0; [apply Z.lor_0_r|]. symmetry. bits i.
  rewrite wrap_spec, Z.shiftl_spec by lia. destruct (Z.ltb_spec i 32); [|done].
  by rewrite Z.testbit_neg_r by lia.
Qed.

Lemma tkip_rc4key_spec k pHdr iv c :
  tkip_key k → tkip_hdr pHdr → bytes iv → length iv = 8%nat → (4 ≤ length c)%nat →
  (RTMPTkipMixKey (Key k) (tkip_addresses pHdr).1.1
     (Z.lor (Z.shiftl (aget (iv ++ c) 0) 8) (aget (iv ++ c) 2))
     (u32 (le_word (slice (iv ++ c) 4 8)))).1 = tkip_rc4key k pHdr iv.
Proof.
  intros [(_ & Hk & _) _] Hh Hb Hl Hc. destruct (tkip_addresses_ok pHdr Hh) as ([_ Hta] & _).
  rewrite mix_key_spec by (done || by apply u32_word). cbn [fst]. unfold tkip_rc4key.
  replace (aget (iv ++ c) 0) with (aget iv 0) by (unfold aget; by rewrite app_nth1 by lia).
  replace (aget (iv ++ c) 2) with (aget iv 2) by (unfold aget; by rewrite app_nth1 by lia).
  assert (H0 : byte (aget iv 0)) by (by apply aget_bytes).
  assert (H2 : byte (aget iv 2)) by (by apply aget_bytes).
  rewrite Z.shiftl_mul_pow2 by lia. change (2 ^ 8) with 256. rewrite (Z.mul_comm (aget iv 0)).
  rewrite lor_add by done. rewrite (wrap_id 16) by (done || by apply word16_pair).
  assert (Hpn : u32 (le_word (slice (iv ++ c) 4 8)) = le_word (slice iv 4 4)); [|by rewrite Hpn].
  unfold slice. rewrite drop_app_le by lia.
  rewrite take_app, (take_ge (drop 4 iv)) by (rewrite length_drop; lia).
  rewrite u32_le_word_app by (auto with word; rewrite length_drop; lia).
  by rewrite take_ge by (rewrite length_drop; lia).
Qed.

(** Decapsulation of a frame that holds a MIC and a checksum. *)
Lemma tkip_decrypt_spec up Tx pHdr UP k iv c :
  tkip_key k → tkip_hdr pHdr → byte UP → bytes iv → length iv = LEN_TKIP_IV_HDR →
  bytes c → (12 ≤ length c)%nat → Z.of_nat (length c) + 8 < 65536 →
  let p := xor_list c (tkip_stream k pHdr iv (length c)) in
  let m := (length c - 12)%nat in
  let buf := bwrite (iv ++ c) 0 p in
  let cnt := Z.of_nat (length c + 8) in
  ∃ Tx', RTMPSoftDecryptTKIP up Tx pHdr UP k (iv ++ c) cnt =
    Some (if negb (Z.lxor (RTMP_CALC_FCS32 PPPINITFCS32 (take (m + 8) p)) 0xffffffff =?
                   le_word (drop (m + 8) p))
          then (NDIS_STATUS_FAILURE, buf, cnt, Tx, [])
          else if bool_decide (tkip_mic k pHdr UP (take m p) = slice p m 8)
          then (NDIS_STATUS_SUCCESS, buf, Z.of_nat m, Tx', [])
          else (NDIS_STATUS_MICERROR, buf, cnt, Tx',
                [if up then WpaSendMicFailure (slice pHdr 10 6) (KeyType k =? PAIRWISEKEY)
                 else ReportMicError])).
Proof.
  intros Hk Hh HU Hiv Hl Hc Hc12 Hmax p m buf cnt. unfold LEN_TKIP_IV_HDR in *.
  pose proof (tkip_rc4key_spec k pHdr iv c Hk Hh Hiv Hl ltac:(lia)) as HK.
  destruct (tkip_addresses_ok pHdr Hh) as (_ & HD & HS).
  assert (Hp : length p = length c)
    by (unfold p, tkip_stream; apply length_xor_list; by rewrite length_keystream).
  assert (Hbp : bytes p).
  { unfold p, tkip_stream. apply bytes_xor_list; [done|]. apply keystream_bytes, ARC4_INIT_wf. }
  assert (Hb : buf = p ++ drop (length c) (iv ++ c))
    by (unfold buf, bwrite; rewrite take_0; cbn [app plus]; by rewrite Hp).
  destruct Hk as [(_ & _ & Hm1 & Hm2 & _) Hk0].
  destruct (mic_of_message Tx (RxMic k) (mic_message (tkip_addresses pHdr).1.2
    (tkip_addresses pHdr).2 UP (take m p))) as (Tx' & HG & HM);
    [by split|apply bytes_mic_message; auto with word|].
  exists Tx'. unfold RTMPSoftDecryptTKIP. rewrite (proj2 (Z.eqb_neq _ _) Hk0).
  unfold in_buf at 1. rewrite (proj2 (Nat.leb_le _ _)) by (rewrite length_app; lia).
  cbn [negb]. cbv iota. cbv zeta. unfold tkip_mic. rewrite <- HM. clear HM.
  destruct (tkip_addresses pHdr) as [[TA DA] SA]. cbn [fst snd] in *.
  destruct (RTMPTkipMixKey _ _ _ _) as [RC4Key p1k]. cbn [fst] in HK. subst RC4Key.
  unfold cnt. change (Z.of_nat LEN_TKIP_IV_HDR) with 8. change (Z.of_nat LEN_ICV) with 4.
  change (Z.of_nat LEN_TKIP_MIC) with 8.
  replace (Z.of_nat (length c + 8) - 8) with (Z.of_nat (length c)) by lia.
  rewrite (wrap_id 32 (Z.of_nat (length c))) by (unfold in_range; lia).
  rewrite (proj2 (Z.leb_gt _ _)) by lia. rewrite Nat2Z.id. unfold LEN_TKIP_IV_HDR.
  unfold in_buf at 1. rewrite (proj2 (Nat.leb_le _ _)) by (rewrite length_app; lia).
  cbn [negb]. cbv iota. rewrite ARC4_Compute_spec by (rewrite ?length_app; lia).
  rewrite drop_app_length', firstn_all by done. fold (tkip_stream k pHdr iv (length c)). fold p. fold buf.
  replace (Z.of_nat (length c) - 4) with (Z.of_nat (m + 8)) by lia.
  rewrite (wrap_id 32 (Z.of_nat (m + 8))) by (unfold in_range; lia). rewrite Nat2Z.id.
  assert (Hlb : (length buf = length c + 8)%nat) by (rewrite Hb, length_app, length_drop, length_app; lia).
  unfold LEN_ICV, LEN_TKIP_MIC, in_buf. rewrite !(proj2 (Nat.leb_le (m + 8 + 4) _)) by lia.
  cbn [negb]. cbv iota.
  replace (slice buf (m + 8) 4) with (drop (m + 8) p).
  2: { unfold slice. rewrite Hb, drop_app_le, take_app_length' by (rewrite ?length_drop; lia). done. }
  replace (take (m + 8) buf) with (take (m + 8) p) by (by rewrite Hb, take_app_le by lia).
  destruct (negb _); [done|].
  replace (Z.of_nat (m + 8) - 8) with (Z.of_nat m) by lia.
  rewrite (wrap_id 32 (Z.of_nat m)) by (unfold in_range; lia). rewrite Nat2Z.id.
  rewrite (proj2 (Nat.leb_le (m + 8) _)) by lia. cbn [negb]. cbv iota.
  replace (take m buf) with (take m p) by (by rewrite Hb, take_app_le by lia).
  replace (slice buf m 8) with (slice p m 8).
  2: { unfold slice. rewrite Hb, drop_app_le, take_app_le by (rewrite ?length_drop; lia). done. }
  pose proof (InitMICEngine_append Tx DA SA [] [] UP (RxMic k) (take m p) HD HS HU) as E.
  rewrite !app_nil_r in E. rewrite E, HG. cbn [mbind option_bind].
  rewrite (wrap_id 16 (Z.of_nat m)) by (unfold in_range; lia).
  by destruct (bool_decide _).
Qed.

Lemma length_tkip_body k pHdr UP msdu : length (tkip_body k pHdr UP msdu) = (length msdu + 12)%nat.
Proof.
  unfold tkip_body, tkip_mic. rewrite length_with_icv, length_app, length_michael. lia.
Qed.

(** The text between the checks: it is a body exactly if both agree. *)
Lemma tkip_body_iff k pHdr UP p m :
  bytes p → length p = (m + 12)%nat →
  p = tkip_body k pHdr UP (take m p) ↔
  Z.lxor (RTMP_CALC_FCS32 PPPINITFCS32 (take (m + 8) p)) 0xffffffff = le_word (drop (m + 8) p) ∧
  tkip_mic k pHdr UP (take m p) = slice p m 8.
Proof.
  intros Hb Hl. unfold tkip_body, with_icv, slice.
  assert (Hs : take (m + 8) p = take m p ++ take 8 (drop m p)) by (by rewrite take_take_drop).
  assert (H4 : length (drop (m + 8) p) = 4%nat) by (rewrite length_drop; lia).
  assert (Hm : length (take m p) = m) by (rewrite length_take; lia).
  assert (Hic : le_bytes LEN_ICV (le_word (drop (m + 8) p)) = drop (m + 8) p)
    by (unfold LEN_ICV; rewrite <- H4 at 1; apply le_bytes_le_word; auto with word).
  split.
  - intros E. pose proof (f_equal (take (m + 8)) E) as E1. pose proof (f_equal (drop (m + 8)) E) as E2.
    assert (Hlen : length (take m p ++ tkip_mic k pHdr UP (take m p)) = (m + 8)%nat)
      by (rewrite length_app, Hm; unfold tkip_mic; by rewrite length_michael).
    rewrite take_app_length' in E1 by done. rewrite drop_app_length' in E2 by done.
    rewrite E1, E2, le_word_icv.
    + split; [done|]. rewrite Hs in E1. by apply app_inj_1 in E1 as [_ ->].
    + apply lxor_ones_range, fcs32_range; [done|]. rewrite <- E1. auto with word.
  - intros [E1 ->]. rewrite <- Hs, E1, Hic. by rewrite take_drop.
Qed.

Lemma with_icv_iff p n :
  bytes p → length p = (n + 4)%nat →
  p = with_icv (take n p) ↔
  Z.lxor (RTMP_CALC_FCS32 PPPINITFCS32 (take n p)) 0xffffffff = le_word (drop n p).
Proof.
  intros Hb Hl.
  assert (Hd : length (drop n p) = LEN_ICV) by (rewrite length_drop; unfold LEN_ICV; lia).
  unfold with_icv. split.
  - intros Ep. apply (f_equal (drop n)) in Ep.
    rewrite drop_app_length' in Ep by (rewrite length_take; lia). rewrite Ep, le_word_icv; [done|].
    apply lxor_ones_range, fcs32_range; [done|auto with word].
  - intros ->. rewrite <- Hd, le_bytes_le_word by auto with word. by rewrite take_drop.
Qed.

(** * The properties *)

(** Key mixing is that of IEEE 802.11: the RC4 key and the phase-1 words
    are those of the standard's two mixing phases in 16-bit arithmetic over
    the S-box that is the AES S-box times 2 and 3, although the code leaves
    the sums of phase 2 unreduced in 32-bit variables. *)
Theorem tkip_mix_key_correct key ta pnl pnh
    (Hkey : bytes key) (Hta : bytes ta) (Hp : word32 pnh) :
  RTMPTkipMixKey key ta pnl pnh =
    (mix_phase2 key (mix_phase1 key ta pnh) (u16 pnl), mix_phase1 key ta pnh).
Proof. by apply mix_key_spec. Qed.

Lemma tkip_mix_key_correct_witness :
  let key := map Z.of_nat (seq 0 16) in
  let ta := [16; 34; 51; 68; 85; 102] in
  RTMPTkipMixKey key ta 70000 1 =
    (mix_phase2 key (mix_phase1 key ta 1) (u16 70000), mix_phase1 key ta 1).
Proof. intros key ta. apply tkip_mix_key_correct; [solve_bytes|solve_bytes|done]. Defined.

(** The first test vector of the standard. *)
Example tkip_mix_vector :
  RTMPTkipMixKey (map Z.of_nat (seq 0 16)) [16; 34; 51; 68; 85; 102] 0 0 =
  ([0; 32; 0; 51; 234; 141; 47; 96; 202; 109; 19; 116; 35; 74; 102; 11],
   (15826, 366, 30452, 34455, 45800)).
Proof. vm_compute. reflexivity. Qed.

(** TKIP decapsulation accepts what a sender sealed: a frame body made of
    the MSDU, its Michael MIC and the checksum of both, encrypted with the
    stream of the mixed key, is decapsulated with success to the MSDU, in
    place over the TKIP header, with its length and without a report. *)
Theorem tkip_round_trip up Tx pHdr UP k iv msdu
    (Hk : tkip_key k) (Hh : tkip_hdr pHdr) (HU : byte UP) (Hiv : bytes iv)
    (Hl : length iv = LEN_TKIP_IV_HDR) (Hm : bytes msdu)
    (Hmax : Z.of_nat (length msdu) + 20 < 65536) :
  let n := (length msdu + 12)%nat in
  let c := xor_list (tkip_body k pHdr UP msdu) (tkip_stream k pHdr iv n) in
  ∃ buf Tx', RTMPSoftDecryptTKIP up Tx pHdr UP k (iv ++ c) (Z.of_nat (n + 8)) =
      Some (NDIS_STATUS_SUCCESS, buf, Z.of_nat (length msdu), Tx', []) ∧
    take (length msdu) buf = msdu.
Proof.
  intros n c.
  pose proof (length_tkip_body k pHdr UP msdu) as Hlb. fold n in Hlb.
  assert (Hls : length (tkip_stream k pHdr iv n) = n) by apply length_keystream.
  assert (Hlc : length c = n) by (unfold c; by rewrite length_xor_list; rewrite ?Hls).
  assert (Hbb : bytes (tkip_body k pHdr UP msdu)).
  { unfold tkip_body, with_icv, tkip_mic, michael. destruct (michael_words _ _ _ _).
    repeat apply Forall_app_2; auto using bytes_le_bytes. }
  assert (Hp : xor_list c (tkip_stream k pHdr iv (length c)) = tkip_body k pHdr UP msdu)
    by (rewrite Hlc; apply xor_list_cancel; lia).
  destruct (tkip_decrypt_spec up Tx pHdr UP k iv c) as [Tx' E]; try done; try lia.
  { apply bytes_xor_list; [done|]. apply keystream_bytes, ARC4_INIT_wf. }
  rewrite Hlc in E at 1. rewrite Hp in E. rewrite Hlc in E.
  replace (n - 12)%nat with (length msdu) in E by lia.
  assert (Ht : take (length msdu) (tkip_body k pHdr UP msdu) = msdu).
  { unfold tkip_body, with_icv. rewrite <- app_assoc. apply take_app_length. }
  destruct (proj1 (tkip_body_iff k pHdr UP (tkip_body k pHdr UP msdu) (length msdu) Hbb Hlb))
    as [H1 H2]; [by rewrite Ht|].
  rewrite (proj2 (Z.eqb_eq _ _) H1), bool_decide_eq_true_2 in E by done. cbn [negb] in E. cbv iota in E.
  eexists _, Tx'. split; [exact E|]. unfold bwrite. rewrite take_0. cbn [app].
  rewrite take_app_le by lia. exact Ht.
Qed.

Definition demo_tkip_key : CIPHER_KEY :=
  mk_key (map Z.of_nat (seq 1 16)) (zeros 8) (map Z.of_nat (seq 1 8)) (zeros 16) (zeros 16) 3 16
    (zeros 6) 1.

Lemma tkip_round_trip_witness :
  let c := xor_list (tkip_body demo_tkip_key (zeros 32) 5 [1; 2; 3])
             (tkip_stream demo_tkip_key (zeros 32) [1; 33; 2; 32; 0; 0; 0; 0] 15) in
  ∃ buf Tx', RTMPSoftDecryptTKIP true (mk_tkip 0 0 0 0 0 0 0 0 [] []) (zeros 32) 5 demo_tkip_key
      ([1; 33; 2; 32; 0; 0; 0; 0] ++ c) 23 = Some (NDIS_STATUS_SUCCESS, buf, 3, Tx', []) ∧
    take 3 buf = [1; 2; 3].
Proof.
  apply (tkip_round_trip true (mk_tkip 0 0 0 0 0 0 0 0 [] []) (zeros 32) 5 demo_tkip_key
    [1; 33; 2; 32; 0; 0; 0; 0] [1; 2; 3]).
  - split; [|done]. repeat split; try done; solve_bytes.
  - split; [apply bytes_zeros|rewrite length_zeros; lia].
  - done.
  - solve_bytes.
  - done.
  - solve_bytes.
  - simpl. lia.
Defined.

(** C37: TKIP decapsulation accepts exactly the authentic frames.  Take a key
    that is set, a header of 30 bytes at least, and a frame of the TKIP header
    [iv] and a ciphertext of 12 to 65527 bytes.  The function stays inside the
    buffer, and puts at its start the ciphertext xored with the RC4 stream of
    the key that the standard's mixing (from the AES S-box, 16 bits wide) makes
    of the temporal key, the transmitter's address and the sequence counter of
    [iv].  It succeeds if and only if that text is an MSDU followed by its
    Michael MIC and the checksum of both; a MIC error is answered, and reported
    exactly once, if and only if the checksum is right and the MIC is not; the
    length changes only on success. *)
Theorem tkip_decrypt_authentic up Tx pHdr UP k iv c
    (Hk : tkip_key k) (Hh : tkip_hdr pHdr) (HU : byte UP) (Hiv : bytes iv)
    (Hl : length iv = LEN_TKIP_IV_HDR) (Hc : bytes c) (Hc12 : (12 ≤ length c)%nat)
    (Hmax : Z.of_nat (length c) + 8 < 65536) :
  ∃ st buf len Tx' reports,
    RTMPSoftDecryptTKIP up Tx pHdr UP k (iv ++ c) (Z.of_nat (length c + 8)) =
      Some (st, buf, len, Tx', reports) ∧
    length buf = length (iv ++ c) ∧
    let p := xor_list c (tkip_stream k pHdr iv (length c)) in
    let msdu := take (length c - 12) p in
    take (length c) buf = p ∧
    (st = NDIS_STATUS_SUCCESS ↔ p = tkip_body k pHdr UP msdu) ∧
    (st = NDIS_STATUS_MICERROR ↔
       p = with_icv (take (length c - 4) p) ∧ p ≠ tkip_body k pHdr UP msdu) ∧
    len = (if st =? NDIS_STATUS_SUCCESS then Z.of_nat (length c - 12) else Z.of_nat (length c + 8)) ∧
    length reports = (if st =? NDIS_STATUS_MICERROR then 1%nat else O).
Proof.
  destruct (tkip_decrypt_spec up Tx pHdr UP k iv c) as [Tx' E]; try done.
  cbv zeta. set (p := xor_list c _) in *. set (m := (length c - 12)%nat) in *.
  assert (Hlp : length p = length c) by (apply length_xor_list; symmetry; apply length_keystream).
  assert (Hbp : bytes p).
  { apply bytes_xor_list; [done|]. apply keystream_bytes, ARC4_INIT_wf. }
  set (buf := bwrite (iv ++ c) 0 p) in E.
  assert (Ht : take (length c) buf = p)
    by (unfold buf, bwrite; rewrite take_0; cbn [app]; by apply take_app_length').
  assert (Hlb : length buf = length (iv ++ c)) by (apply length_bwrite; rewrite length_app; lia).
  pose proof (tkip_body_iff k pHdr UP p m Hbp ltac:(lia)) as Hiff.
  pose proof (with_icv_iff p (m + 8) Hbp ltac:(lia)) as Hicv.
  replace (length c - 4)%nat with (m + 8)%nat by lia.
  rewrite E. unfold NDIS_STATUS_SUCCESS, NDIS_STATUS_MICERROR, NDIS_STATUS_FAILURE in *.
  destruct (Z.eqb_spec (Z.lxor (RTMP_CALC_FCS32 PPPINITFCS32 (take (m + 8) p)) 0xffffffff)
    (le_word (drop (m + 8) p))) as [Ei|Ei]; cbn [negb] in *; cbv iota.
  - destruct (bool_decide _) eqn:Em; [apply bool_decide_eq_true in Em|apply bool_decide_eq_false in Em];
      eexists _, _, _, _, _; (split; [done|]); rewrite Hiff, Hicv; (split; [done|]); (split; [done|]);
      clear - Ei Em; intuition (done || lia).
  - eexists _, _, _, _, _. split; [done|]. rewrite Hiff, Hicv. split; [done|]. split; [done|].
    clear - Ei. intuition (done || lia).
Qed.

Lemma tkip_decrypt_authentic_witness :
  ∃ st buf len Tx' reports,
    RTMPSoftDecryptTKIP true (mk_tkip 0 0 0 0 0 0 0 0 [] []) (zeros 32) 5 demo_tkip_key
      (zeros 8 ++ zeros 13) 21 = Some (st, buf, len, Tx', reports) ∧ length buf = 21%nat.
Proof.
  destruct (tkip_decrypt_authentic true (mk_tkip 0 0 0 0 0 0 0 0 [] []) (zeros 32) 5 demo_tkip_key
    (zeros 8) (zeros 13)) as (st & buf & len & Tx' & reports & H1 & H2 & _).
  - split; [|done]. repeat split; try done; solve_bytes.
  - split; [apply bytes_zeros|rewrite length_zeros; lia].
  - done.
  - apply bytes_zeros.
  - done.
  - apply bytes_zeros.
  - rewrite length_zeros. lia.
  - simpl. lia.
  - exists st, buf, len, Tx', reports. split; [exact H1|exact H2].
Defined.

(** A TKIP frame of 9 to 11 bytes makes the code read outside the frame:
    the 32-bit length of the text behind the checksum wraps around below
    zero, so that checksum and MIC are read about 4 GiB away. *)
Theorem tkip_short_frame_overread up Tx pHdr UP k pData n
    (Hk : tkip_key k) (Hn : (9 ≤ n ≤ 11)%nat)
    (Hlen : Z.of_nat n ≤ Z.of_nat (length pData) < 2 ^ 32 - 4) :
  RTMPSoftDecryptTKIP up Tx pHdr UP k pData (Z.of_nat n) = None.
Proof.
  destruct Hk as [_ Hk0]. unfold RTMPSoftDecryptTKIP. rewrite (proj2 (Z.eqb_neq _ _) Hk0).
  destruct (negb (in_buf pData 4 8)); [done|].
  destruct (tkip_addresses pHdr) as [[TA DA] SA]. cbv zeta.
  destruct (RTMPTkipMixKey _ _ _ _) as [RC4Key p1k].
  change (Z.of_nat LEN_TKIP_IV_HDR) with 8. change (Z.of_nat LEN_ICV) with 4.
  rewrite (proj2 (Z.leb_gt _ _)) by lia. unfold LEN_TKIP_IV_HDR.
  rewrite (wrap_id 32 (Z.of_nat n - 8)) by (unfold in_range; lia).
  unfold in_buf at 1. rewrite (proj2 (Nat.leb_le _ _)) by lia. cbn [negb]. cbv iota.
  rewrite ARC4_Compute_spec by lia.
  assert (Hw : u32 (Z.of_nat n - 8 - 4) = 2 ^ 32 + Z.of_nat n - 12).
  { rewrite wrap_mod by lia. symmetry. apply (Zmod_unique _ _ (-1)); lia. }
  rewrite Hw. unfold in_buf. rewrite length_bwrite.
  - rewrite (proj2 (Nat.leb_gt _ _)); [done|]. lia.
  - rewrite length_xor_list; rewrite length_take, length_drop; rewrite ?length_keystream; lia.
Qed.

Lemma tkip_short_frame_overread_witness :
  RTMPSoftDecryptTKIP true (mk_tkip 0 0 0 0 0 0 0 0 [] []) (zeros 32) 0 demo_tkip_key (zeros 32) 10 = None.
Proof.
  apply (tkip_short_frame_overread true (mk_tkip 0 0 0 0 0 0 0 0 [] []) (zeros 32) 0 demo_tkip_key
    (zeros 32) 10).
  - split; [|done]. repeat split; try done; solve_bytes.
  - lia.
  - rewrite length_zeros. lia.
Defined.

(** The key wrap of the TKIP group key is undone by the unwrap under the
    same key and IV, in place and towards lower addresses, and when the
    context cannot be allocated the output is left as it was, without any
    notice to the caller. *)
Theorem gtk_wrap_round_trip key iv mem i n o
    (Ho : (o ≤ i)%nat) (Hi : (i + n ≤ length mem)%nat) :
  let wrapped := TKIP_GTK_KEY_WRAP true key iv mem i n i in
  slice (TKIP_GTK_KEY_UNWRAP true key iv wrapped i n o) o n = slice mem i n ∧
  TKIP_GTK_KEY_WRAP false key iv mem i n o = mem.
Proof.
  cbv zeta. split; [|done]. unfold TKIP_GTK_KEY_UNWRAP, TKIP_GTK_KEY_WRAP. cbn [negb]. cbv iota zeta.
  set (ctx := ARC4_Discard_KeyLength _ 256).
  assert (Hs : length (take n (drop i mem)) = n) by (rewrite length_take, length_drop; lia).
  assert (Hx : length (xor_list (take n (drop i mem)) (keystream ctx n)) = n)
    by (rewrite length_xor_list; rewrite ?length_keystream; done).
  rewrite (ARC4_Compute_spec n ctx mem i i) by lia. cbn [snd].
  set (mem' := bwrite mem i _). assert (Hm : length mem' = length mem) by (apply length_bwrite; lia).
  rewrite ARC4_Compute_spec by lia. cbn [snd].
  assert (E : take n (drop i mem') = xor_list (take n (drop i mem)) (keystream ctx n))
    by (unfold mem'; rewrite <- Hx at 1; apply slice_bwrite; lia).
  rewrite E, xor_list_cancel by (rewrite length_keystream; lia).
  unfold slice. rewrite <- Hs at 1. apply slice_bwrite. lia.
Qed.

Lemma gtk_wrap_round_trip_witness :
  slice (TKIP_GTK_KEY_UNWRAP true (zeros 16) (zeros 16)
    (TKIP_GTK_KEY_WRAP true (zeros 16) (zeros 16) [1; 2; 3; 4] 0 4 0) 0 4 0) 0 4 = [1; 2; 3; 4].
Proof. apply (gtk_wrap_round_trip (zeros 16) (zeros 16) [1; 2; 3; 4] 0 4 0); simpl; lia. Defined.
