(* ===== verification/BlockCipher.v ===== *)
(** The interface between the block cipher and its modes of operation.

    The modes of src/common/crypt_aes.c (CCM, CMAC, key wrap) call
    [RT_AES_Encrypt] and [RT_AES_Decrypt] many times, on blocks of 16 bytes;
    each call allocates a context, and a failed allocation silently leaves
    the output block as it was.  [BlockCalls] is what a mode calls, with the
    number of the call; [ReliableCipher] is what it relies on for its own
    correctness, and [aes_reliable] shows that AES provides it as long as no
    allocation fails. *)

From S2P Require Import Prelude AesTables Aes.

Class BlockCalls := {
  (** call number, key, key length, input block, output block before *)
  encrypt_call : nat → list Z → Z → list Z → list Z → list Z;
  decrypt_call : nat → list Z → Z → list Z → list Z → list Z
}.

(** The calls with size 16 for both blocks, as every mode makes them;
    [alloc n] is the outcome of the allocation in the [n]-th call. *)
#[export] Instance aes_calls (alloc : nat → bool) : BlockCalls := {
  encrypt_call n Key KeyLength In Out :=
    (RT_AES_Encrypt (alloc n) In 16 Key KeyLength Out 16).1;
  decrypt_call n Key KeyLength In Out :=
    (RT_AES_Decrypt (alloc n) In 16 Key KeyLength Out 16).1
}.

Class ReliableCipher (C : BlockCalls) (Key : list Z) (KeyLength : Z) := {
  block_enc : list Z → list Z;
  block_dec : list Z → list Z;
  block_enc_ok : ∀ b, state_ok b → state_ok (block_enc b);
  block_dec_enc : ∀ b, state_ok b → block_dec (block_enc b) = b;
  encrypt_call_spec : ∀ n b out, state_ok b → length out = 16%nat →
    encrypt_call n Key KeyLength b out = block_enc b;
  decrypt_call_spec : ∀ n b out, state_ok b → length out = 16%nat →
    decrypt_call n Key KeyLength (block_enc b) out = b
}.

(** A key buffer that holds a key of the given length. *)
Definition key_ok (Key : list Z) (KeyLength : Z) : Prop :=
  valid_key_length KeyLength = true ∧ Z.of_nat (length Key) = KeyLength ∧ bytes Key.

Section AesReliable.
Context (alloc : nat → bool) (Halloc : ∀ n, alloc n = true).
Context (Key : list Z) (KeyLength : Z) (HK : key_ok Key KeyLength).

Let kw := RT_AES_KeyExpansion Key KeyLength.
Let Nr := NumberOfRound KeyLength.

Lemma aes_encrypt_call n b out :
  state_ok b → length out = 16%nat →
  @encrypt_call (aes_calls alloc) n Key KeyLength b out = aes_cipher kw Nr b.
Proof using Halloc HK.
  intros [Hl Hb] Ho. destruct HK as (Hv & Hk & Hkb).
  destruct (RT_AES_KeyExpansion_ok Key KeyLength Hv Hk Hkb) as [K1 K2].
  cbn [encrypt_call aes_calls].
  unfold RT_AES_Encrypt, AES_BLOCK_SIZES. rewrite Hv, Halloc, Z.eqb_refl, Z.ltb_irrefl.
  cbn [negb fst]. cbv iota zeta. rewrite take_ge by lia. fold kw Nr. apply bwrite_all.
  destruct (aes_cipher_ok kw Nr K1 ltac:(unfold kw, Nr; lia) b) as [-> _]; [done|lia].
Qed.

Lemma aes_decrypt_call n b out :
  state_ok b → length out = 16%nat →
  @decrypt_call (aes_calls alloc) n Key KeyLength (aes_cipher kw Nr b) out = b.
Proof using Halloc HK.
  intros Hb Ho. destruct HK as (Hv & Hk & Hkb).
  destruct (RT_AES_KeyExpansion_ok Key KeyLength Hv Hk Hkb) as [K1 K2].
  destruct (aes_cipher_ok kw Nr K1 ltac:(unfold kw, Nr; lia) b Hb) as [C1 C2].
  cbn [decrypt_call aes_calls].
  unfold RT_AES_Decrypt, AES_BLOCK_SIZES. rewrite Hv, Halloc, Z.eqb_refl, Z.ltb_irrefl.
  cbn [negb fst]. cbv iota zeta. rewrite (take_ge (aes_cipher kw Nr b)) by lia. fold kw Nr.
  rewrite aes_inv_cipher_cipher by (done || unfold kw, Nr; lia).
  apply bwrite_all. destruct Hb. lia.
Qed.

#[export] Instance aes_reliable : ReliableCipher (aes_calls alloc) Key KeyLength.
Proof using Halloc HK.
  refine (Build_ReliableCipher _ _ _ (aes_cipher kw Nr) (aes_inv_cipher kw Nr) _ _
            aes_encrypt_call aes_decrypt_call); intros b Hb;
    destruct HK as (Hv & Hk & Hkb);
    destruct (RT_AES_KeyExpansion_ok Key KeyLength Hv Hk Hkb) as [K1 K2].
  - apply aes_cipher_ok; [done|unfold kw, Nr; lia|done].
  - apply aes_inv_cipher_cipher; [done|unfold kw, Nr; lia|done].
Defined.
End AesReliable.
