(* ===== verification/AesCcm.v ===== *)
(** Counter with CBC-MAC: [AES_CCM_MAC], [AES_CCM_Encrypt] and
    [AES_CCM_Decrypt] of src/common/crypt_aes.c.

    The payload buffers are regions of one memory, because the callers
    encrypt in place and decrypt over the header in front of the cipher text.
    The calls of the block cipher are numbered; what a buffer on the stack
    holds before it is first written is an argument ([junk]).  The loops take
    fuel, one turn per byte, and [None] would be a loop that needs more. *)

From S2P Require Import Prelude AesTables Aes BlockCipher.

Section Ccm.
Context `{C : BlockCalls} (Key : list Z) (KeyLength : Z).

(** * The MAC *)

(** The first block: flags, nonce and payload length. *)
Definition ccm_first_block (MACLength : Z) (Nonce : list Z) (AADLength PayloadLength : Z)
    : list Z :=
  let NonceLength := Z.of_nat (length Nonce) in
  let b0 := if 0 <? AADLength then Z.lor 0 0x40 else 0 in
  let b0 := u8 (Z.lor b0 (Z.shiftl (Z.shiftr (MACLength - 2) 1) 3)) in
  let b0 := u8 (Z.lor b0 (15 - NonceLength - 1)) in
  let Block := aset (zeros 16) 0 b0 in
  let Block := bwrite Block 1 Nonce in
  let Block := if NonceLength <? 12
               then aset Block 12 (Z.land (Z.shiftr PayloadLength 24) 0xff) else Block in
  let Block := if NonceLength <? 13
               then aset Block 13 (Z.land (Z.shiftr PayloadLength 16) 0xff) else Block in
  let Block := aset Block 14 (Z.land (Z.shiftr PayloadLength 8) 0xff) in
  aset Block 15 (Z.land PayloadLength 0xff).

(** The start of the first AAD block and the number of bytes it has. *)
Definition ccm_aad_start (AADLength : Z) : list Z * nat :=
  if (0 <? AADLength) && (AADLength <? 0xFF00) then
    (aset (aset (zeros 16) 0 (Z.land (Z.shiftr AADLength 8) 0xff)) 1 (Z.land AADLength 0xff), 2%nat)
  else
    (aset (aset (aset (aset (zeros 16) 2 (Z.land (Z.shiftr AADLength 24) 0xff))
       3 (Z.land (Z.shiftr AADLength 16) 0xff)) 4 (Z.land (Z.shiftr AADLength 8) 0xff))
       5 (Z.land AADLength 0xff), 6%nat).

(** One block into the MAC: xor, zero the MAC block, encrypt into it. *)
Definition mac_block (n : nat) (Block Block_MAC : list Z) : list Z :=
  encrypt_call n Key KeyLength (xor_list Block Block_MAC) (zeros 16).

(** The AAD loop on the rest of the AAD. *)
Fixpoint aad_loop (fuel n : nat) (Block : list Z) (Block_Index : nat) (Block_MAC AAD : list Z)
    : option (nat * list Z) :=
  match AAD with
  | [] => Some (n, Block_MAC)
  | _ :: _ =>
      match fuel with
      | O => None
      | S fuel =>
          let Copy_Length := length AAD in
          let Copy_Length := if Nat.ltb 16 Copy_Length then 16%nat else Copy_Length in
          let Copy_Length := if Nat.ltb 16 (Copy_Length + Block_Index)
                             then (16 - Block_Index)%nat else Copy_Length in
          let Block := bwrite Block Block_Index (take Copy_Length AAD) in
          let Block_MAC := mac_block n Block Block_MAC in
          aad_loop fuel (S n) (zeros 16) 0 Block_MAC (drop Copy_Length AAD)
      end
  end.

Fixpoint payload_loop (fuel n : nat) (Block_MAC Payload : list Z) : option (nat * list Z) :=
  match Payload with
  | [] => Some (n, Block_MAC)
  | _ :: _ =>
      match fuel with
      | O => None
      | S fuel =>
          let Copy_Length := length Payload in
          let Copy_Length := if Nat.ltb 16 Copy_Length then 16%nat else Copy_Length in
          let Block := bwrite (zeros 16) 0 (take Copy_Length Payload) in
          payload_loop fuel (S n) (mac_block n Block Block_MAC) (drop Copy_Length Payload)
      end
  end.

(** The number of calls made so far and the bytes written to [MACText]. *)
Definition AES_CCM_MAC (n : nat) (Payload Nonce AAD : list Z) (MACLength : Z)
    : option (nat * list Z) :=
  let AADLength := Z.of_nat (length AAD) in
  let Block := ccm_first_block MACLength Nonce AADLength (Z.of_nat (length Payload)) in
  let Block_MAC := encrypt_call n Key KeyLength Block (zeros 16) in
  let '(Block, Block_Index) := ccm_aad_start AADLength in
  '(n, Block_MAC) ← aad_loop (length AAD) (S n) Block Block_Index Block_MAC AAD;
  '(n, Block_MAC) ← payload_loop (length Payload) n Block_MAC Payload;
  Some (n, take (Z.to_nat MACLength) Block_MAC).

(** * Encryption and decryption *)

Definition ccm_counter_block (Nonce : list Z) : list Z :=
  let NonceLength := Z.of_nat (length Nonce) in
  bwrite (aset (zeros 16) 0 (u8 (Z.lor 0 (15 - NonceLength - 1)))) 1 Nonce.

(** The counter loop, the same in both directions, on [len] bytes from [src]
    to [dst]. *)
Fixpoint ctr_loop (fuel n : nat) (Block_CTR Block_CTR_Cipher mem : list Z) (src dst len : nat)
    : option (nat * list Z) :=
  match len with
  | O => Some (n, mem)
  | S _ =>
      match fuel with
      | O => None
      | S fuel =>
          let Block_CTR := aset Block_CTR 15 (u8 (aget Block_CTR 15 + 1)) in
          let Block_CTR_Cipher := encrypt_call n Key KeyLength Block_CTR Block_CTR_Cipher in
          let Copy_Length := if Nat.ltb 16 len then 16%nat else len in
          let mem := xor_copy mem src dst (take Copy_Length Block_CTR_Cipher) in
          ctr_loop fuel (S n) Block_CTR Block_CTR_Cipher mem
            (src + Copy_Length) (dst + Copy_Length) (len - Copy_Length)
      end
  end.

Definition valid_mac_length (MACLength : Z) : bool :=
  (MACLength =? 4) || (MACLength =? 6) || (MACLength =? 8) || (MACLength =? 10)
  || (MACLength =? 12) || (MACLength =? 14) || (MACLength =? 16).

Definition valid_nonce_length (Nonce : list Z) : bool :=
  negb ((Z.of_nat (length Nonce) <? 7) || (13 <? Z.of_nat (length Nonce))).

(** The function value, the memory and [*CipherTextLength]. *)
Definition AES_CCM_Encrypt (n : nat) (junk mem : list Z) (PlainText : nat)
    (PlainTextLength : Z) (Nonce AAD : list Z) (MACLength : Z) (CipherText : nat)
    (CipherTextLength : Z) : option (Z * list Z * Z) :=
  if negb (KeyLength =? AES_KEY128_LENGTH) then Some (-1, mem, CipherTextLength)
  else if negb (valid_nonce_length Nonce) then Some (-2, mem, CipherTextLength)
  else if negb (valid_mac_length MACLength) then Some (-3, mem, CipherTextLength)
  else if CipherTextLength <? u32 (PlainTextLength + MACLength)
  then Some (-4, mem, CipherTextLength)
  else
    let len := Z.to_nat PlainTextLength in
    let Block_CTR := ccm_counter_block Nonce in
    '(n, Block_MAC) ← AES_CCM_MAC n (take len (drop PlainText mem)) Nonce AAD MACLength;
    let Block_CTR_Cipher := encrypt_call n Key KeyLength Block_CTR junk in
    let Block_MAC := xor_list Block_MAC (take (Z.to_nat MACLength) Block_CTR_Cipher) in
    '(n, mem) ← ctr_loop len (S n) Block_CTR Block_CTR_Cipher mem PlainText CipherText len;
    let mem := bwrite mem (CipherText + len) Block_MAC in
    Some (0, mem, u32 (PlainTextLength + MACLength)).

Definition AES_CCM_Decrypt (n : nat) (junk mem : list Z) (CipherText : nat)
    (CipherTextLength : Z) (Nonce AAD : list Z) (MACLength : Z) (PlainText : nat)
    (PlainTextLength : Z) : option (Z * list Z * Z) :=
  if negb (KeyLength =? AES_KEY128_LENGTH) then Some (-1, mem, PlainTextLength)
  else if negb (valid_nonce_length Nonce) then Some (-2, mem, PlainTextLength)
  else if negb (valid_mac_length MACLength) then Some (-3, mem, PlainTextLength)
  else if PlainTextLength <? u32 (CipherTextLength - MACLength)
  then Some (-4, mem, PlainTextLength)
  else
    let len := Z.to_nat (u32 (CipherTextLength - MACLength)) in
    let M := Z.to_nat MACLength in
    let Block_CTR := ccm_counter_block Nonce in
    let Block_CTR_Cipher := encrypt_call n Key KeyLength Block_CTR junk in
    let Block_MAC_From_Cipher :=
      xor_list (take M (drop (CipherText + len) mem)) (take M Block_CTR_Cipher) in
    '(n, mem) ← ctr_loop len (S n) Block_CTR Block_CTR_Cipher mem CipherText PlainText len;
    '(n, Block_MAC) ← AES_CCM_MAC n (take len (drop PlainText mem)) Nonce AAD MACLength;
    if decide (Block_MAC_From_Cipher = Block_MAC)
    then Some (0, mem, Z.of_nat len)
    else Some (-5, mem, Z.of_nat len).
End Ccm.

(** * The specification: SP 800-38C *)

Section Spec.
Context (E : list Z → list Z).

(** The blocks of a string, the last one filled up with zeros. *)
Definition blocks16 (l : list Z) : list (list Z) :=
  map (λ i, take 16 (drop (16 * i) l ++ zeros 16)) (seq 0 ((length l + 15) / 16)).

Definition cbc (X : list Z) (bs : list (list Z)) : list Z :=
  foldl (λ X b, E (xor_list b X)) X bs.

(** The first block B0: flags, nonce and the payload length in the q bytes
    the nonce leaves. *)
Definition ccm_B0 (MACLength : Z) (Nonce : list Z) (AADLength PayloadLength : Z) : list Z :=
  ((if 0 <? AADLength then 64 else 0) + 8 * ((MACLength - 2) / 2) + (14 - Z.of_nat (length Nonce)))
  :: Nonce ++ be_bytes (15 - length Nonce) PayloadLength.

Definition ccm_mac (MACLength : Z) (Nonce AAD Payload : list Z) : list Z :=
  let X := E (ccm_B0 MACLength Nonce (Z.of_nat (length AAD)) (Z.of_nat (length Payload))) in
  let X := match AAD with
           | [] => X
           | _ => cbc X (blocks16 (be_bytes 2 (Z.of_nat (length AAD)) ++ AAD))
           end in
  take (Z.to_nat MACLength) (cbc X (blocks16 Payload)).

(** The counter blocks: the last byte counts modulo 256. *)
Definition ctr_block (Nonce : list Z) (i : nat) : list Z :=
  (14 - Z.of_nat (length Nonce))
  :: Nonce ++ zeros (14 - length Nonce) ++ [u8 (Z.of_nat i)].

Definition ctr_stream (Nonce : list Z) (len : nat) : list Z :=
  take len (concat (map (λ i, E (ctr_block Nonce (S i))) (seq 0 ((len + 15) / 16)))).

Definition ccm_seal (MACLength : Z) (Nonce AAD Payload : list Z) : list Z :=
  xor_list Payload (ctr_stream Nonce (length Payload)) ++
  xor_list (ccm_mac MACLength Nonce AAD Payload)
    (take (Z.to_nat MACLength) (E (ctr_block Nonce 0))).
End Spec.

(** * Blocks *)

Lemma ceil16_step len :
  len ≠ O → ((len + 15) / 16)%nat = S ((len - 16 + 15) / 16).
Proof.
  intros Hlen. destruct (Nat.le_gt_cases len 16).
  - replace (len - 16 + 15)%nat with 15%nat by lia. change (15 / 16)%nat with O.
    symmetry. apply Nat.div_unique with (len - 1)%nat; lia.
  - replace (len + 15)%nat with (1 * 16 + (len - 16 + 15))%nat by lia.
    by rewrite Nat.div_add_l by lia.
Qed.

Lemma blocks16_cons l :
  l ≠ [] → blocks16 l = take 16 (l ++ zeros 16) :: blocks16 (drop 16 l).
Proof.
  intros Hl. unfold blocks16. rewrite length_drop.
  assert (Hlen : length l ≠ O) by (by destruct l).
  rewrite (ceil16_step (length l)) by lia.
  cbn [seq map]. rewrite Nat.mul_0_r, drop_0. f_equal.
  rewrite <- seq_shift, map_map. apply map_ext. intros i. rewrite drop_drop. do 3 f_equal. lia.
Qed.

Lemma state_pad l : bytes l → state_ok (take 16 (l ++ zeros 16)).
Proof.
  intros Hl. split; [rewrite length_take, length_app, length_zeros; lia|].
  auto with word.
Qed.

Lemma pad_bwrite l c :
  c = (if Nat.ltb 16 (length l) then 16%nat else length l) →
  bwrite (zeros 16) 0 (take c l) = take 16 (l ++ zeros 16).
Proof.
  intros ->. unfold bwrite. rewrite take_0. cbn [app].
  destruct (Nat.ltb_spec 16 (length l)).
  - rewrite length_take, Nat.min_l by lia. rewrite take_app_le by lia.
    change (drop (0 + 16) (zeros 16)) with (@nil Z). by rewrite app_nil_r.
  - rewrite (take_ge l) by lia. rewrite take_app_ge by lia. f_equal.
    unfold zeros. rewrite drop_replicate, take_replicate. f_equal. lia.
Qed.

Lemma xor_state a b : state_ok a → state_ok b → state_ok (xor_list a b).
Proof.
  intros [? ?] [? ?]. split; [rewrite length_xor_list; congruence|auto with word].
Qed.

Lemma state_zeros : state_ok (zeros 16).
Proof. split; [done|apply bytes_zeros]. Qed.

Lemma cbc_ok (E : list Z → list Z) bs : ∀ X,
  (∀ b, state_ok b → state_ok (E b)) → Forall state_ok bs → state_ok X → state_ok (cbc E X bs).
Proof.
  induction bs as [|b bs IH]; intros X HE Hb HX; [done|].
  apply Forall_cons in Hb as [Hb Hbs]. unfold cbc in *. simpl. apply IH; [done|done|].
  apply HE. by apply xor_state.
Qed.

Lemma blocks16_ok l : bytes l → Forall state_ok (blocks16 l).
Proof.
  intros Hl. unfold blocks16. apply Forall_forall.
  intros x Hx%list_elem_of_In%in_map_iff. destruct Hx as (i & <- & _).
  apply state_pad. by apply bytes_drop.
Qed.

(** * The loops, over a reliable cipher *)

Section Loops.
Context `{C : BlockCalls} (Key : list Z) (KeyLength : Z).
Context `{R : !ReliableCipher C Key KeyLength}.

Let E : list Z → list Z := @block_enc _ _ _ R.

Lemma enc_ok b : state_ok b → state_ok (E b).
Proof using R. apply block_enc_ok. Qed.

Lemma mac_block_spec n b X :
  state_ok b → state_ok X → mac_block Key KeyLength n b X = E (xor_list b X).
Proof using R. intros. unfold mac_block. apply encrypt_call_spec; [by apply xor_state|done]. Qed.

(** One turn of a loop. *)
Lemma payload_loop_turn fuel n X P :
  P ≠ [] →
  payload_loop Key KeyLength (S fuel) n X P =
    let c := if Nat.ltb 16 (length P) then 16%nat else length P in
    payload_loop Key KeyLength fuel (S n)
      (mac_block Key KeyLength n (bwrite (zeros 16) 0 (take c P)) X) (drop c P).
Proof. by destruct P. Qed.

Lemma aad_loop_turn fuel n b i X A :
  A ≠ [] →
  aad_loop Key KeyLength (S fuel) n b i X A =
    let c := if Nat.ltb 16 (length A) then 16%nat else length A in
    let k := if Nat.ltb 16 (c + i) then (16 - i)%nat else c in
    aad_loop Key KeyLength fuel (S n) (zeros 16) 0
      (mac_block Key KeyLength n (bwrite b i (take k A)) X) (drop k A).
Proof. by destruct A. Qed.

Lemma ctr_loop_turn fuel n b junk mem s d len :
  len ≠ O →
  ctr_loop Key KeyLength (S fuel) n b junk mem s d len =
    let b := aset b 15 (u8 (aget b 15 + 1)) in
    let x := encrypt_call n Key KeyLength b junk in
    let c := if Nat.ltb 16 len then 16%nat else len in
    ctr_loop Key KeyLength fuel (S n) b x (xor_copy mem s d (take c x)) (s + c) (d + c) (len - c).
Proof. by destruct len. Qed.

Lemma payload_loop_spec fuel : ∀ n X P,
  (length P ≤ fuel)%nat → bytes P → state_ok X →
  ∃ n', payload_loop Key KeyLength fuel n X P = Some (n', cbc E X (blocks16 P)).
Proof using R.
  induction fuel as [|fuel IH]; intros n X P Hf HP HX.
  { destruct P; [by eexists|simpl in Hf; lia]. }
  destruct (decide (P = [])) as [->|HP0]; [by eexists|].
  rewrite payload_loop_turn by done. cbv zeta.
  assert (0 < length P)%nat by (destruct P; [done|simpl; lia]).
  rewrite pad_bwrite by done.
  rewrite mac_block_spec by (by auto using state_pad).
  set (c := if Nat.ltb 16 (length P) then 16%nat else length P).
  assert (Ec : drop c P = drop 16 P).
  { unfold c. destruct (Nat.ltb_spec 16 (length P)); [done|]. by rewrite !drop_ge by lia. }
  destruct (IH (S n) (E (xor_list (take 16 (P ++ zeros 16)) X)) (drop c P)) as [n' Hn'].
  - rewrite length_drop. unfold c. destruct (Nat.ltb_spec 16 (length P)); lia.
  - auto with word.
  - apply enc_ok. by auto using xor_state, state_pad.
  - exists n'. rewrite Hn', Ec, (blocks16_cons P) by done. done.
Qed.

Lemma aad_loop_zero fuel : ∀ n X A,
  aad_loop Key KeyLength fuel n (zeros 16) 0 X A = payload_loop Key KeyLength fuel n X A.
Proof.
  induction fuel as [|fuel IH]; intros n X A; [by destruct A|].
  destruct (decide (A = [])) as [->|HA]; [done|].
  rewrite aad_loop_turn, payload_loop_turn by done. cbv zeta.
  set (c := if Nat.ltb 16 (length A) then 16%nat else length A).
  assert (Hc : (c ≤ 16)%nat) by (unfold c; destruct (Nat.ltb_spec 16 (length A)); lia).
  rewrite Nat.add_0_r. destruct (Nat.ltb_spec 16 c); [lia|]. by rewrite IH.
Qed.

Lemma aad_loop_spec p n X A fuel :
  (length A ≤ fuel)%nat → A ≠ [] → (length p < 16)%nat → bytes p → bytes A → state_ok X →
  ∃ n', aad_loop Key KeyLength fuel n (p ++ zeros (16 - length p)) (length p) X A =
    Some (n', cbc E X (blocks16 (p ++ A))).
Proof using R.
  intros Hf HA Hp Hpb HAb HX.
  assert (0 < length A)%nat by (destruct A; [done|simpl; lia]).
  destruct fuel as [|fuel]; [lia|].
  rewrite aad_loop_turn by done. cbv zeta.
  set (c := if Nat.ltb 16 (length A) then 16%nat else length A).
  set (k := if Nat.ltb 16 (c + length p) then (16 - length p)%nat else c).
  assert (Hk : k = Nat.min (length A) (16 - length p)).
  { unfold k, c. destruct (Nat.ltb_spec 16 (length A));
      destruct (Nat.ltb_spec 16 (16 + length p)); destruct (Nat.ltb_spec 16 (length A + length p)); lia. }
  assert (Eb : bwrite (p ++ zeros (16 - length p)) (length p) (take k A) =
               take 16 ((p ++ A) ++ zeros 16)).
  { assert (Hl : length (take k A) = k) by (rewrite length_take; lia).
    unfold bwrite. rewrite take_app_length, <- drop_drop, drop_app_length, Hl.
    rewrite <- app_assoc, take_app_ge by lia. f_equal.
    unfold zeros. rewrite drop_replicate.
    destruct (Nat.le_gt_cases (length A) (16 - length p)).
    - rewrite (take_ge A) by lia. rewrite take_app_ge by lia. f_equal.
      rewrite take_replicate. f_equal. lia.
    - rewrite take_app_le by lia. replace (16 - length p - k)%nat with O by lia.
      rewrite app_nil_r. f_equal. lia. }
  rewrite Eb. rewrite mac_block_spec by (auto using state_pad with word).
  rewrite aad_loop_zero.
  destruct (payload_loop_spec fuel (S n)
    (E (xor_list (take 16 ((p ++ A) ++ zeros 16)) X)) (drop k A)) as [n' Hn'].
  - rewrite length_drop. lia.
  - auto with word.
  - apply enc_ok. auto using xor_state, state_pad with word.
  - exists n'. rewrite Hn', (blocks16_cons (p ++ A)) by (by destruct p, A).
    rewrite drop_app_ge by lia.
    assert (Ek : drop k A = drop (16 - length p) A).
    { destruct (Nat.le_gt_cases (length A) (16 - length p)); [by rewrite !drop_ge by lia|].
      f_equal. lia. }
    by rewrite Ek.
Qed.

(** A nonce of a length the code accepts. *)
Definition nonce_ok (Nonce : list Z) : Prop :=
  (7 ≤ length Nonce ≤ 13)%nat ∧ bytes Nonce.

Lemma aset_state b i v : state_ok b → byte v → state_ok (aset b i v).
Proof.
  intros [H1 H2] Hv. unfold aset. split; [by rewrite length_insert|].
  by apply Forall_insert.
Qed.

Lemma bwrite_state b o s :
  state_ok b → bytes s → (o + length s ≤ 16)%nat → state_ok (bwrite b o s).
Proof.
  intros [H1 H2] Hs Ho. split; [rewrite length_bwrite; lia|auto with word].
Qed.

Lemma first_block_ok M Nonce a p : nonce_ok Nonce → state_ok (ccm_first_block M Nonce a p).
Proof.
  intros [Hn Hb]. unfold ccm_first_block.
  assert (Hl : ∀ x, byte (Z.land x 0xff)) by (intros; apply u8_byte).
  repeat (apply aset_state; [|by auto]).
  do 2 (destruct (_ <? _); [apply aset_state; [|by auto]|]).
  all: apply bwrite_state; [|done|lia]; apply aset_state; [apply state_zeros|apply u8_byte].
Qed.

Lemma counter_block_ok Nonce : nonce_ok Nonce → state_ok (ccm_counter_block Nonce).
Proof.
  intros [Hn Hb]. apply bwrite_state; [|done|lia].
  apply aset_state; [apply state_zeros|apply u8_byte].
Qed.

(** A nonce taken apart into its 7 to 13 bytes. *)
Ltac split_nonce Hn :=
  repeat match type of Hn with
         | context [length ?l] => is_var l; destruct l; cbn [length] in Hn; try lia
         end.

Lemma first_block_spec M Nonce a p :
  nonce_ok Nonce → valid_mac_length M = true → 0 ≤ p < 2 ^ 32 →
  ccm_first_block M Nonce a p = ccm_B0 M Nonce a p.
Proof.
  intros [Hn _] HM Hp.
  assert (Hz : ∀ k, 32 ≤ k → Z.shiftr p k = 0).
  { intros k Hk. rewrite Z.shiftr_div_pow2 by lia. apply Z.div_small.
    assert (2 ^ 32 ≤ 2 ^ k) by (apply Z.pow_le_mono_r; lia). lia. }
  assert (HMs : M = 4 ∨ M = 6 ∨ M = 8 ∨ M = 10 ∨ M = 12 ∨ M = 14 ∨ M = 16)
    by (unfold valid_mac_length in HM; lia).
  assert (Hp0 : u8 p = Z.land (Z.shiftr p 0) 0xff) by (by rewrite Z.shiftr_0_r).
  unfold ccm_first_block, ccm_B0, be_bytes, le_bytes.
  split_nonce Hn; cbn [length Nat.sub seq map rev app].
  all: rewrite ?(Hz (8 * Z.of_nat 4)), ?(Hz (8 * Z.of_nat 5)), ?(Hz (8 * Z.of_nat 6)),
    ?(Hz (8 * Z.of_nat 7)) by lia.
  all: destruct HMs as [->|[->|[->|[->|[->|[->| ->]]]]]], (0 <? a);
    rewrite Z.shiftr_0_r; reflexivity.
Qed.

Lemma B0_ok M Nonce a p :
  nonce_ok Nonce → valid_mac_length M = true → state_ok (ccm_B0 M Nonce a p).
Proof.
  intros [Hn Hb] HM. unfold ccm_B0. split.
  - rewrite length_cons, length_app, length_be_bytes. lia.
  - constructor; [|by auto with word].
    unfold byte, in_range, valid_mac_length in *. destruct (0 <? a); zdm.
Qed.

Lemma ctr_block_0 Nonce : nonce_ok Nonce → ctr_block Nonce 0 = ccm_counter_block Nonce.
Proof. intros [Hn _]. split_nonce Hn; done. Qed.

Lemma ctr_block_ok Nonce i : nonce_ok Nonce → state_ok (ctr_block Nonce i).
Proof.
  intros [Hn Hb]. unfold ctr_block. split.
  - rewrite length_cons, !length_app, length_zeros. simpl. lia.
  - constructor; [unfold byte; lia|]. apply Forall_app_2; [done|].
    apply Forall_app_2; [apply bytes_zeros|]. constructor; [apply u8_byte|constructor].
Qed.

Lemma ctr_block_S Nonce i :
  nonce_ok Nonce →
  aset (ctr_block Nonce i) 15 (u8 (aget (ctr_block Nonce i) 15 + 1)) = ctr_block Nonce (S i).
Proof.
  intros [Hn _]. unfold ctr_block.
  assert (Hu : u8 (u8 (Z.of_nat i) + 1) = u8 (Z.of_nat (S i)))
    by (rewrite wrap_add_l by lia; f_equal; lia).
  rewrite <- Hu. clear Hu. split_nonce Hn; reflexivity.
Qed.

(** The key stream from block [i + 1] on. *)
Definition ctr_from (Nonce : list Z) (i len : nat) : list Z :=
  take len (concat (map (λ j, E (ctr_block Nonce (S (i + j)))) (seq 0 ((len + 15) / 16)))).

Lemma ctr_from_0 Nonce len : ctr_from Nonce 0 len = ctr_stream E Nonce len.
Proof. done. Qed.

Lemma ctr_from_step Nonce i len :
  nonce_ok Nonce → (0 < len)%nat →
  ctr_from Nonce i len =
    take (Nat.min 16 len) (E (ctr_block Nonce (S i))) ++ ctr_from Nonce (S i) (len - 16).
Proof using R.
  intros HN Hlen. unfold ctr_from.
  rewrite (ceil16_step len) by lia.
  cbn [seq map concat]. rewrite Nat.add_0_r.
  destruct (enc_ok (ctr_block Nonce (S i)) (ctr_block_ok Nonce (S i) HN)) as [Hl _].
  rewrite take_app, Hl. f_equal.
  - destruct (Nat.le_gt_cases len 16); [by rewrite Nat.min_r by lia|].
    by rewrite Nat.min_l, !take_ge by lia.
  - f_equal. rewrite <- seq_shift, map_map. f_equal. apply map_ext. intros j. do 3 f_equal. lia.
Qed.

Lemma ctr_from_length Nonce i len : nonce_ok Nonce → length (ctr_from Nonce i len) = len.
Proof using R.
  intros HN. revert i. induction len as [len IH] using lt_wf_ind. intros i.
  destruct len as [|len]; [done|]. rewrite ctr_from_step by (done || lia).
  destruct (enc_ok (ctr_block Nonce (S i)) (ctr_block_ok Nonce (S i) HN)) as [Hl _].
  rewrite length_app, length_take, Hl, IH by lia. lia.
Qed.

Lemma ctr_from_block Nonce k : ∀ i len,
  nonce_ok Nonce → (16 * (k + 1) ≤ len)%nat →
  take 16 (drop (16 * k) (ctr_from Nonce i len)) = E (ctr_block Nonce (S (i + k))).
Proof using R.
  induction k as [|k IH]; intros i len HN Hk; rewrite ctr_from_step by (done || lia).
  all: destruct (enc_ok (ctr_block Nonce (S i)) (ctr_block_ok Nonce (S i) HN)) as [Hl _].
  all: rewrite Nat.min_l, (take_ge (E (ctr_block Nonce (S i)))) by lia.
  - by rewrite Nat.mul_0_r, drop_0, take_app_length', Nat.add_0_r.
  - rewrite drop_app_ge, Hl by lia.
    replace (16 * S k - 16)%nat with (16 * k)%nat by lia.
    rewrite IH by (done || lia). by rewrite Nat.add_succ_r.
Qed.

Lemma ctr_loop_spec Nonce fuel : ∀ n i junk mem s d len,
  nonce_ok Nonce → (len ≤ fuel)%nat → length junk = 16%nat →
  ∃ n', ctr_loop Key KeyLength fuel n (ctr_block Nonce i) junk mem s d len =
    Some (n', xor_copy mem s d (ctr_from Nonce i len)).
Proof using R.
  induction fuel as [|fuel IH]; intros n i junk mem s d len HN Hf Hj.
  { destruct len; [by eexists|lia]. }
  destruct (decide (len = O)) as [->|Hlen]; [by eexists|].
  rewrite ctr_loop_turn by done. cbv zeta. rewrite ctr_block_S by done.
  rewrite encrypt_call_spec by (done || by apply ctr_block_ok).
  fold E. set (c := if Nat.ltb 16 len then 16%nat else len).
  assert (Hc : c = Nat.min 16 len) by (unfold c; destruct (Nat.ltb_spec 16 len); lia).
  destruct (enc_ok (ctr_block Nonce (S i)) (ctr_block_ok Nonce (S i) HN)) as [Hl _].
  destruct (IH (S n) (S i) (E (ctr_block Nonce (S i)))
    (xor_copy mem s d (take c (E (ctr_block Nonce (S i))))) (s + c)%nat (d + c)%nat (len - c)%nat)
    as [n' Hn']; [done|lia|done|].
  exists n'. rewrite Hn', (ctr_from_step Nonce i len) by (done || lia).
  rewrite xor_copy_app, length_take, Hl, Hc.
  replace (Nat.min (Nat.min 16 len) 16) with (Nat.min 16 len) by lia.
  replace (len - Nat.min 16 len)%nat with (len - 16)%nat by lia. done.
Qed.

(** * The functions *)

Lemma aad_start_spec (A : list Z) :
  A ≠ [] → Z.of_nat (length A) < 0xFF00 →
  ccm_aad_start (Z.of_nat (length A)) =
    (be_bytes 2 (Z.of_nat (length A)) ++ zeros (16 - length (be_bytes 2 (Z.of_nat (length A)))),
     length (be_bytes 2 (Z.of_nat (length A)))).
Proof.
  intros HA Hlt. unfold ccm_aad_start. assert (length A ≠ O) by (by destruct A).
  destruct (0 <? Z.of_nat (length A)) eqn:E1; [|lia].
  destruct (Z.of_nat (length A) <? 0xFF00) eqn:E2; [|lia]. reflexivity.
Qed.

Lemma AES_CCM_MAC_spec n P Nonce AAD M :
  nonce_ok Nonce → valid_mac_length M = true → bytes AAD → bytes P →
  Z.of_nat (length AAD) < 0xFF00 → Z.of_nat (length P) < 2 ^ 32 →
  ∃ n', AES_CCM_MAC Key KeyLength n P Nonce AAD M = Some (n', ccm_mac E M Nonce AAD P).
Proof using R.
  intros HN HM HA HP Hlt HPl. unfold AES_CCM_MAC, ccm_mac.
  pose proof (first_block_ok M Nonce (Z.of_nat (length AAD)) (Z.of_nat (length P)) HN) as Hfb.
  rewrite (encrypt_call_spec n _ (zeros 16) Hfb eq_refl). fold E.
  rewrite first_block_spec in * by (done || lia). set (X := E (ccm_B0 _ _ _ _)).
  assert (HX : state_ok X) by (by apply enc_ok).
  destruct AAD as [|a A'].
  - unfold ccm_aad_start. cbn [length aad_loop mbind option_bind].
    destruct (payload_loop_spec (length P) (S n) X P) as [n' ->]; [done..|].
    by eexists.
  - remember (a :: A') as A eqn:EA. rewrite aad_start_spec by (by subst A).
    set (p := be_bytes 2 (Z.of_nat (length A))).
    destruct (aad_loop_spec p (S n) X A (length A)) as [n1 ->];
      [done|by subst A|unfold p; rewrite length_be_bytes; lia|apply bytes_be_bytes|done|done|].
    cbn [mbind option_bind].
    destruct (payload_loop_spec (length P) n1 (cbc E X (blocks16 (p ++ A))) P) as [n2 ->];
      [done|done| |].
    { apply cbc_ok; [apply enc_ok| |done]. apply blocks16_ok. unfold p. auto with word. }
    exists n2. by destruct A.
Qed.

Lemma ccm_mac_ok M Nonce AAD P :
  valid_mac_length M = true → nonce_ok Nonce → bytes AAD → bytes P →
  length (ccm_mac E M Nonce AAD P) = Z.to_nat M ∧ bytes (ccm_mac E M Nonce AAD P).
Proof using R.
  intros HM HN HA HP. unfold ccm_mac. set (Y := cbc E _ (blocks16 P)).
  assert (state_ok Y) as [HY1 HY2].
  { apply cbc_ok; [apply enc_ok|by apply blocks16_ok|].
    pose proof (enc_ok _ (B0_ok M Nonce (Z.of_nat (length AAD)) (Z.of_nat (length P)) HN HM)).
    destruct AAD; [done|]. apply cbc_ok; [apply enc_ok| |done]. apply blocks16_ok.
    auto with word. }
  split; [|auto with word]. rewrite length_take, HY1.
  unfold valid_mac_length in HM. lia.
Qed.
End Loops.

Section Functions.
Context `{C : BlockCalls} (Key : list Z).
Context `{R : !ReliableCipher C Key 16}.

Let E : list Z → list Z := @block_enc _ _ _ R.

(** The arguments both directions accept. *)
Definition ccm_args (Nonce AAD junk : list Z) (M : Z) : Prop :=
  nonce_ok Nonce ∧ bytes AAD ∧ Z.of_nat (length AAD) < 0xFF00 ∧
  valid_mac_length M = true ∧ length junk = 16%nat.

Lemma valid_nonce Nonce : nonce_ok Nonce → valid_nonce_length Nonce = true.
Proof. intros [H _]. unfold valid_nonce_length. lia. Qed.

Lemma mac_length_bound M : valid_mac_length M = true → 4 ≤ M ≤ 16.
Proof. unfold valid_mac_length. lia. Qed.

Lemma ctr_stream_length Nonce len : nonce_ok Nonce → length (ctr_stream E Nonce len) = len.
Proof using R. apply (ctr_from_length Key 16 Nonce 0). Qed.

Lemma ctr_run Nonce n junk mem s d len :
  nonce_ok Nonce → length junk = 16%nat → (d ≤ s)%nat → (s + len ≤ length mem)%nat →
  ∃ n', ctr_loop Key 16 len n (ccm_counter_block Nonce) junk mem s d len =
    Some (n', bwrite mem d (xor_list (take len (drop s mem)) (ctr_stream E Nonce len))).
Proof using R.
  intros HN Hj Hd Hs. rewrite <- ctr_block_0 by done.
  destruct (ctr_loop_spec Key 16 Nonce len n 0 junk mem s d len HN (le_n _) Hj) as [n' ->].
  exists n'. rewrite ctr_from_0. fold E.
  rewrite xor_copy_spec by (rewrite ?ctr_stream_length; done).
  by rewrite ctr_stream_length.
Qed.

Lemma mask_ok Nonce M :
  nonce_ok Nonce → valid_mac_length M = true →
  length (take (Z.to_nat M) (E (ctr_block Nonce 0))) = Z.to_nat M ∧
  bytes (take (Z.to_nat M) (E (ctr_block Nonce 0))).
Proof using R.
  intros HN HM. apply mac_length_bound in HM.
  destruct (enc_ok Key 16 (ctr_block Nonce 0) (ctr_block_ok Nonce 0 HN)) as [H1 H2].
  fold E in H1, H2. split; [rewrite length_take; lia|auto with word].
Qed.

Lemma ccm_seal_length M Nonce AAD P :
  nonce_ok Nonce → valid_mac_length M = true → bytes AAD → bytes P →
  length (ccm_seal E M Nonce AAD P) = (length P + Z.to_nat M)%nat.
Proof using R.
  intros HN HM HA HP. unfold ccm_seal.
  destruct (ccm_mac_ok Key 16 M Nonce AAD P HM HN HA HP) as [H1 _]. fold E in H1.
  destruct (mask_ok Nonce M HN HM) as [H2 _].
  rewrite length_app, !length_xor_list; [by rewrite H1|by rewrite H1, H2|].
  by rewrite ctr_stream_length.
Qed.

Lemma AES_CCM_Encrypt_spec n junk mem pt len Nonce AAD M ct outlen :
  ccm_args Nonce AAD junk M → bytes mem →
  (ct ≤ pt)%nat → (pt + len ≤ length mem)%nat → (ct + len + Z.to_nat M ≤ length mem)%nat →
  Z.of_nat len + M < 2 ^ 32 → Z.of_nat len + M ≤ outlen →
  AES_CCM_Encrypt Key 16 n junk mem pt (Z.of_nat len) Nonce AAD M ct outlen =
    Some (0, bwrite mem ct (ccm_seal E M Nonce AAD (take len (drop pt mem))),
          Z.of_nat len + M).
Proof using R.
  intros (HN & HA & Hlt & HM & Hj) Hmem Hct Hpt Hend Hmax Hout.
  pose proof (mac_length_bound M HM) as HMb. unfold AES_CCM_Encrypt.
  rewrite Z.eqb_refl, valid_nonce, HM by done. cbn [negb]. cbv iota.
  rewrite wrap_id by (unfold in_range; lia). rewrite (proj2 (Z.ltb_ge _ _)) by lia.
  rewrite Nat2Z.id. set (P := take len (drop pt mem)).
  assert (HP : bytes P) by (unfold P; auto with word).
  assert (HlP : length P = len) by (unfold P; rewrite length_take, length_drop; lia).
  destruct (AES_CCM_MAC_spec Key 16 n P Nonce AAD M HN HM HA HP Hlt ltac:(lia)) as [n1 ->].
  cbn [mbind option_bind]. cbv zeta.
  rewrite (encrypt_call_spec n1 _ junk (counter_block_ok Nonce HN) Hj). fold E.
  destruct (enc_ok Key 16 _ (counter_block_ok Nonce HN)) as [HcE _]. fold E in HcE.
  destruct (ctr_run Nonce (S n1) (E (ccm_counter_block Nonce)) mem pt ct len) as [n2 ->];
    [done..|].
  cbn [mbind option_bind]. fold P. unfold ccm_seal.
  assert (Hx : length (xor_list P (ctr_stream E Nonce len)) = len)
    by (rewrite length_xor_list; [done|by rewrite ctr_stream_length]).
  rewrite <- Hx at 2. rewrite bwrite_bwrite_app by lia.
  by rewrite HlP, ctr_block_0 by done.
Qed.

Lemma AES_CCM_Decrypt_spec n junk mem ct len Nonce AAD M pt outlen :
  ccm_args Nonce AAD junk M → bytes mem →
  (pt ≤ ct)%nat → (ct + len + Z.to_nat M ≤ length mem)%nat →
  Z.of_nat len + M < 2 ^ 32 → Z.of_nat len ≤ outlen →
  let P := xor_list (take len (drop ct mem)) (ctr_stream E Nonce len) in
  let T := xor_list (take (Z.to_nat M) (drop (ct + len) mem))
             (take (Z.to_nat M) (E (ctr_block Nonce 0))) in
  AES_CCM_Decrypt Key 16 n junk mem ct (Z.of_nat len + M) Nonce AAD M pt outlen =
    Some (if decide (T = ccm_mac E M Nonce AAD P) then 0 else -5, bwrite mem pt P, Z.of_nat len).
Proof using R.
  intros (HN & HA & Hlt & HM & Hj) Hmem Hpt Hend Hmax Hout P T.
  pose proof (mac_length_bound M HM) as HMb. unfold AES_CCM_Decrypt.
  rewrite Z.eqb_refl, valid_nonce, HM by done. cbn [negb]. cbv iota.
  replace (Z.of_nat len + M - M) with (Z.of_nat len) by lia.
  rewrite wrap_id by (unfold in_range; lia). rewrite (proj2 (Z.ltb_ge _ _)) by lia.
  rewrite Nat2Z.id. cbv zeta.
  rewrite (encrypt_call_spec n _ junk (counter_block_ok Nonce HN) Hj). fold E.
  destruct (enc_ok Key 16 _ (counter_block_ok Nonce HN)) as [HcE _]. fold E in HcE.
  destruct (ctr_run Nonce (S n) (E (ccm_counter_block Nonce)) mem ct pt len) as [n1 ->];
    [done|done|done|lia|].
  cbn [mbind option_bind]. fold P.
  assert (HlP : length P = len).
  { unfold P. rewrite length_xor_list.
    - rewrite length_take, length_drop. lia.
    - rewrite ctr_stream_length, length_take, length_drop by done. lia. }
  assert (HP : bytes P).
  { unfold P. apply bytes_xor_list; [auto with word|].
    unfold ctr_stream. apply bytes_take, Forall_concat, Forall_forall.
    intros x Hx%list_elem_of_In%in_map_iff. destruct Hx as (i & <- & _).
    apply (enc_ok Key 16), ctr_block_ok, HN. }
  rewrite <- HlP at 1. rewrite slice_bwrite by lia.
  destruct (AES_CCM_MAC_spec Key 16 n1 P Nonce AAD M HN HM HA HP Hlt ltac:(lia)) as [n2 ->].
  cbn [mbind option_bind]. fold E. rewrite <- ctr_block_0 by done. fold T.
  by destruct (decide (T = _)).
Qed.
End Functions.

(** Opening what was sealed. *)
Lemma ccm_open_seal (C : BlockCalls) (Key : list Z) (R : ReliableCipher C Key 16) M Nonce AAD P :
  nonce_ok Nonce → valid_mac_length M = true → bytes AAD → bytes P →
  let c := ccm_seal block_enc M Nonce AAD P in
  xor_list (take (length P) c) (ctr_stream block_enc Nonce (length P)) = P ∧
  xor_list (drop (length P) c) (take (Z.to_nat M) (block_enc (ctr_block Nonce 0))) =
    ccm_mac block_enc M Nonce AAD P.
Proof.
  intros HN HM HA HP c. unfold c, ccm_seal.
  pose proof (ctr_stream_length Key Nonce (length P) HN) as Hs.
  assert (Hx : length (xor_list P (ctr_stream block_enc Nonce (length P))) = length P)
    by (by rewrite length_xor_list).
  rewrite take_app_length', drop_app_length' by done.
  destruct (ccm_mac_ok Key 16 M Nonce AAD P HM HN HA HP) as [H1 _].
  destruct (mask_ok Key Nonce M HN HM) as [H2 _].
  split; apply xor_list_cancel; lia.
Qed.

Lemma ccm_seal_bytes (C : BlockCalls) (Key : list Z) (R : ReliableCipher C Key 16) M Nonce AAD P :
  nonce_ok Nonce → valid_mac_length M = true → bytes AAD → bytes P →
  bytes (ccm_seal block_enc M Nonce AAD P).
Proof.
  intros HN HM HA HP. unfold ccm_seal.
  destruct (ccm_mac_ok Key 16 M Nonce AAD P HM HN HA HP) as [_ M2].
  destruct (mask_ok Key Nonce M HN HM) as [_ M3]. apply Forall_app_2; [|auto with word].
  apply bytes_xor_list; [done|]. unfold ctr_stream. apply bytes_take, Forall_concat, Forall_forall.
  intros x Hx%list_elem_of_In%in_map_iff. destruct Hx as (i & <- & _).
  apply (enc_ok Key 16), ctr_block_ok, HN.
Qed.

(** * The properties *)

(** The cipher of the properties: AES-128 on the given key. *)
Definition aes128 (Key : list Z) : list Z → list Z :=
  aes_cipher (RT_AES_KeyExpansion Key 16) (NumberOfRound 16).

Lemma aes128_enc alloc Halloc Key (HK : key_ok Key 16) :
  @block_enc _ _ _ (aes_reliable alloc Halloc Key 16 HK) = aes128 Key.
Proof. unfold aes_reliable, block_enc, aes128. exact eq_refl. Qed.

(** C39: AES-CCM encryption is correct: for every accepted nonce, MAC length
    and AAD below 0xFF00 bytes, in place or towards lower addresses, the
    function returns 0 and writes exactly the CCM cipher text and masked MAC
    of SP 800-38C, with counters whose last byte counts modulo 256, and
    reports their length. *)
Theorem ccm_encrypt_correct alloc Key n junk mem pt len Nonce AAD M ct outlen
    (Halloc : ∀ i, alloc i = true) (HK : key_ok Key 16)
    (Hargs : ccm_args Nonce AAD junk M) (Hmem : bytes mem)
    (Hct : (ct ≤ pt)%nat) (Hpt : (pt + len ≤ length mem)%nat)
    (Hend : (ct + len + Z.to_nat M ≤ length mem)%nat)
    (Hmax : Z.of_nat len + M < 2 ^ 32) (Hout : Z.of_nat len + M ≤ outlen) :
  @AES_CCM_Encrypt (aes_calls alloc) Key 16 n junk mem pt (Z.of_nat len) Nonce AAD M ct outlen =
    Some (0, bwrite mem ct (ccm_seal (aes128 Key) M Nonce AAD (take len (drop pt mem))),
          Z.of_nat len + M).
Proof.
  rewrite <- (aes128_enc alloc Halloc Key HK).
  by apply (@AES_CCM_Encrypt_spec _ _ (aes_reliable alloc Halloc Key 16 HK)).
Qed.

Lemma ccm_encrypt_correct_witness :
  @AES_CCM_Encrypt (aes_calls (λ _, true)) (zeros 16) 16 0 (zeros 16)
    [1; 2; 3; 0; 0; 0; 0; 0; 0; 0; 0] 0 3 (zeros 13) [9] 8 0 11 =
    Some (0, bwrite [1; 2; 3; 0; 0; 0; 0; 0; 0; 0; 0] 0
               (ccm_seal (aes128 (zeros 16)) 8 (zeros 13) [9] [1; 2; 3]), 11).
Proof.
  apply (ccm_encrypt_correct (λ _, true) (zeros 16) 0 (zeros 16)
    [1; 2; 3; 0; 0; 0; 0; 0; 0; 0; 0] 0 3 (zeros 13) [9] 8 0 11).
  - reflexivity.
  - split; [reflexivity|]. split; [reflexivity|solve_bytes].
  - split; [split; [simpl; lia|solve_bytes]|].
    split; [solve_bytes|]. split; [simpl; lia|]. split; reflexivity.
  - solve_bytes.
  - lia.
  - simpl. lia.
  - simpl. lia.
  - lia.
  - lia.
Defined.

(** AES-CCM decryption accepts exactly the authentic texts and undoes
    encryption: the plain text is written at or below the cipher text, the
    result is 0 if and only if the unmasked MAC is the MAC of that plain
    text and -5 otherwise, and a text sealed with the same key, nonce and
    AAD opens to its payload with result 0. *)
Theorem ccm_decrypt_correct alloc Key n junk mem ct len Nonce AAD M pt outlen
    (Halloc : ∀ i, alloc i = true) (HK : key_ok Key 16)
    (Hargs : ccm_args Nonce AAD junk M) (Hmem : bytes mem)
    (Hpt : (pt ≤ ct)%nat) (Hend : (ct + len + Z.to_nat M ≤ length mem)%nat)
    (Hmax : Z.of_nat len + M < 2 ^ 32) (Hout : Z.of_nat len ≤ outlen) :
  ∃ r mem',
    @AES_CCM_Decrypt (aes_calls alloc) Key 16 n junk mem ct (Z.of_nat len + M) Nonce AAD M pt
      outlen = Some (r, mem', Z.of_nat len) ∧
    (r = 0 ∨ r = -5) ∧
    (r = 0 ↔ take (len + Z.to_nat M) (drop ct mem) =
             ccm_seal (aes128 Key) M Nonce AAD (take len (drop pt mem'))) ∧
    (∀ P, bytes P → take (len + Z.to_nat M) (drop ct mem) = ccm_seal (aes128 Key) M Nonce AAD P →
       r = 0 ∧ mem' = bwrite mem pt P).
Proof.
  pose proof Hargs as (HN & HA & Hlt & HM & Hj).
  pose proof (@AES_CCM_Decrypt_spec _ _ (aes_reliable alloc Halloc Key 16 HK) n junk mem ct len
    Nonce AAD M pt outlen Hargs Hmem Hpt Hend Hmax Hout) as HD. cbv zeta in HD.
  rewrite (aes128_enc alloc Halloc Key HK) in HD. rewrite HD. clear HD.
  pose proof (mac_length_bound M HM) as HMb.
  set (c := take (len + Z.to_nat M) (drop ct mem)).
  assert (Hc1 : take len (drop ct mem) = take len c)
    by (unfold c; rewrite take_take; f_equal; lia).
  assert (Hc2 : take (Z.to_nat M) (drop (ct + len) mem) = drop len c).
  { unfold c. rewrite <- drop_drop. by rewrite <- take_drop_commute. }
  assert (Hlc : length c = (len + Z.to_nat M)%nat)
    by (unfold c; rewrite length_take, length_drop; lia).
  rewrite Hc1, Hc2.
  set (P := xor_list (take len c) (ctr_stream (aes128 Key) Nonce len)).
  set (T := xor_list (drop len c) (take (Z.to_nat M) (aes128 Key (ctr_block Nonce 0)))).
  assert (Hks : length (ctr_stream (aes128 Key) Nonce len) = len)
    by (rewrite <- (aes128_enc alloc Halloc Key HK); by apply ctr_stream_length).
  assert (Hmk : length (take (Z.to_nat M) (aes128 Key (ctr_block Nonce 0))) = Z.to_nat M)
    by (rewrite <- (aes128_enc alloc Halloc Key HK); by apply mask_ok).
  assert (HlP : length P = len).
  { unfold P. rewrite length_xor_list; rewrite length_take; lia. }
  assert (Hrd : take len (drop pt (bwrite mem pt P)) = P)
    by (rewrite <- HlP; apply slice_bwrite; lia).
  assert (Hbits : xor_list P (ctr_stream (aes128 Key) Nonce len) = take len c)
    by (unfold P; apply xor_list_cancel; rewrite length_take; lia).
  assert (HbitsT : xor_list T (take (Z.to_nat M) (aes128 Key (ctr_block Nonce 0))) = drop len c)
    by (unfold T; apply xor_list_cancel; rewrite length_drop; lia).
  eexists _, _. split; [reflexivity|]. rewrite Hrd.
  split; [case_decide; [by left|by right]|]. split.
  - split; case_decide as Hd; try done.
    + intros _. unfold ccm_seal. rewrite HlP, Hbits, <- Hd, HbitsT. by rewrite take_drop.
    + intros Hseal. exfalso. apply Hd. unfold ccm_seal in Hseal. rewrite HlP, Hbits in Hseal.
      rewrite <- (take_drop len c) in Hseal at 1. apply app_inv_head in Hseal.
      unfold T. rewrite Hseal. apply xor_list_cancel. rewrite Hmk.
      unfold ccm_mac. rewrite length_take. lia.
  - intros Q HQ Hseal. pose proof (@ccm_seal_length _ Key (aes_reliable alloc Halloc Key 16 HK) M Nonce AAD Q HN HM HA HQ) as HlQ.
    rewrite (aes128_enc alloc Halloc Key HK) in HlQ. rewrite <- Hseal, Hlc in HlQ.
    assert (HlQ' : length Q = len) by lia.
    destruct (ccm_open_seal _ Key (aes_reliable alloc Halloc Key 16 HK) M Nonce AAD Q HN HM HA HQ) as [O1 O2].
    rewrite (aes128_enc alloc Halloc Key HK) in O1, O2.
    rewrite <- Hseal, HlQ' in O1, O2. fold P in O1. fold T in O2.
    rewrite O1, decide_True by done. done.
Qed.

Lemma ccm_decrypt_correct_witness :
  ∃ r mem',
    @AES_CCM_Decrypt (aes_calls (λ _, true)) (zeros 16) 16 0 (zeros 16) (zeros 20) 8 (3 + 8)
      (zeros 13) [9] 8 0 11 = Some (r, mem', 3) ∧ (r = 0 ∨ r = -5).
Proof.
  destruct (ccm_decrypt_correct (λ _, true) (zeros 16) 0 (zeros 16) (zeros 20) 8 3 (zeros 13) [9]
    8 0 11) as (r & mem' & H1 & H2 & _).
  - reflexivity.
  - split; [reflexivity|]. split; [reflexivity|solve_bytes].
  - split; [split; [simpl; lia|solve_bytes]|].
    split; [solve_bytes|]. split; [simpl; lia|]. split; reflexivity.
  - solve_bytes.
  - lia.
  - simpl. lia.
  - lia.
  - lia.
  - exists r, mem'. split; [exact H1|exact H2].
Defined.

(** The key stream of a block, read off a sealed text of known plain text. *)
Lemma sealed_block (C : BlockCalls) (Key : list Z) (R : ReliableCipher C Key 16)
    M Nonce AAD mem pt len ct i :
  nonce_ok Nonce → valid_mac_length M = true → bytes AAD → bytes mem →
  (pt + len ≤ length mem)%nat → (ct + len + Z.to_nat M ≤ length mem)%nat →
  (16 * (i + 1) ≤ len)%nat →
  let mem' := bwrite mem ct (ccm_seal block_enc M Nonce AAD (take len (drop pt mem))) in
  xor_list (take 16 (drop (ct + 16 * i) mem')) (take 16 (drop (pt + 16 * i) mem)) =
    block_enc (ctr_block Nonce (S i)).
Proof.
  intros HN HM HA Hmem Hpt Hct Hi mem'. set (P := take len (drop pt mem)) in mem'.
  assert (HP : bytes P) by (unfold P; auto with word).
  assert (HlP : length P = len) by (unfold P; rewrite length_take, length_drop; lia).
  pose proof (ccm_seal_length Key M Nonce AAD P HN HM HA HP) as Hs.
  pose proof (ctr_stream_length Key Nonce (length P) HN) as Hk.
  assert (Hx : length (xor_list P (ctr_stream block_enc Nonce (length P))) = len)
    by (by rewrite length_xor_list).
  unfold mem'. rewrite <- drop_drop, drop_bwrite_at by lia. unfold ccm_seal.
  rewrite <- app_assoc, drop_app_le, take_app_le by (rewrite ?length_drop; lia).
  unfold xor_list at 2. rewrite zip_with_drop, zip_with_take. fold (xor_list (take 16 (drop (16 * i) P))
    (take 16 (drop (16 * i) (ctr_stream block_enc Nonce (length P))))).
  rewrite <- ctr_from_0, (ctr_from_block Key 16 Nonce i 0) by (done || lia).
  replace (take 16 (drop (pt + 16 * i) mem)) with (take 16 (drop (16 * i) P)).
  2: { unfold P. replace len with (16 * i + (len - 16 * i))%nat by lia.
    rewrite <- take_drop_commute, drop_drop, take_take. f_equal. lia. }
  destruct (enc_ok Key 16 _ (ctr_block_ok Nonce (S i) HN)) as [He _].
  rewrite (xor_list_comm (take 16 _)). apply xor_list_cancel.
  rewrite length_take, length_drop. unfold block in *. lia.
Qed.

Lemma ctr_block_period Nonce i : ctr_block Nonce (i + 256) = ctr_block Nonce i.
Proof.
  unfold ctr_block. do 4 f_equal. rewrite !wrap_mod by lia.
  rewrite Nat2Z.inj_add. change (Z.of_nat 256) with (1 * 2 ^ 8). by rewrite Z.mod_add by lia.
Qed.

(** The counter of CCM is a single byte without carry: in a payload of
    more than 256 blocks the key stream of block i + 256, the cipher text
    against the plain text, is that of block i, and the key stream of the
    256th block is the one that masks the MAC, so that the cipher text and
    that plain-text block give the MAC away. *)
Theorem ccm_counter_repeats alloc Key n junk mem pt len Nonce AAD M ct outlen
    (Halloc : ∀ i, alloc i = true) (HK : key_ok Key 16)
    (Hargs : ccm_args Nonce AAD junk M) (Hmem : bytes mem)
    (Hct : (ct ≤ pt)%nat) (Hpt : (pt + len ≤ length mem)%nat)
    (Hend : (ct + len + Z.to_nat M ≤ length mem)%nat)
    (Hmax : Z.of_nat len + M < 2 ^ 32) (Hout : Z.of_nat len + M ≤ outlen)
    (Hlong : (4096 ≤ len)%nat) :
  ∃ mem', @AES_CCM_Encrypt (aes_calls alloc) Key 16 n junk mem pt (Z.of_nat len) Nonce AAD M ct
            outlen = Some (0, mem', Z.of_nat len + M) ∧
    let stream i := xor_list (take 16 (drop (ct + 16 * i) mem')) (take 16 (drop (pt + 16 * i) mem)) in
    (∀ i, (16 * (i + 257) ≤ len)%nat → stream (i + 256)%nat = stream i) ∧
    xor_list (take (Z.to_nat M) (drop (ct + len) mem')) (take (Z.to_nat M) (stream 255%nat)) =
      ccm_mac (aes128 Key) M Nonce AAD (take len (drop pt mem)).
Proof.
  rewrite <- (aes128_enc alloc Halloc Key HK).
  set (R := aes_reliable alloc Halloc Key 16 HK). destruct Hargs as (HN & HA & Hlt & HM & Hj).
  eexists. split; [by apply (@AES_CCM_Encrypt_spec _ _ R)|].
  cbv zeta. split.
  - intros i Hi. rewrite !(sealed_block _ Key R) by (done || lia).
    by rewrite <- (ctr_block_period Nonce (S i)).
  - rewrite (sealed_block _ Key R) by (done || lia).
    change (S 255) with (0 + 256)%nat. rewrite ctr_block_period.
    set (P := take len (drop pt mem)). assert (HP : bytes P) by (unfold P; auto with word).
    assert (HlP : length P = len) by (unfold P; rewrite length_take, length_drop; lia).
    pose proof (@ccm_seal_length _ Key R M Nonce AAD P HN HM HA HP) as Hs.
    rewrite <- drop_drop, drop_bwrite_at, drop_app_le, take_app_le by (rewrite ?length_drop; lia).
    rewrite (take_ge (drop _ _)) by (rewrite length_drop; lia). rewrite <- HlP.
    by apply ccm_open_seal.
Qed.

Lemma ccm_counter_repeats_witness :
  ∃ mem', @AES_CCM_Encrypt (aes_calls (λ _, true)) (zeros 16) 16 0 (zeros 16) (zeros 4200) 0
            (Z.of_nat 4112) (zeros 13) [9] 8 0 4120 = Some (0, mem', Z.of_nat 4112 + 8) ∧
    xor_list (take 16 (drop (0 + 16 * 256) mem')) (take 16 (drop (0 + 16 * 256) (zeros 4200))) =
    xor_list (take 16 (drop (0 + 16 * 0) mem')) (take 16 (drop (0 + 16 * 0) (zeros 4200))).
Proof.
  destruct (ccm_counter_repeats (λ _, true) (zeros 16) 0 (zeros 16) (zeros 4200) 0 4112 (zeros 13)
    [9] 8 0 4120) as (mem' & H1 & H2 & _).
  - reflexivity.
  - split; [reflexivity|]. split; [reflexivity|solve_bytes].
  - split; [split; [simpl; lia|solve_bytes]|].
    split; [solve_bytes|]. split; [simpl; lia|]. split; reflexivity.
  - apply bytes_zeros.
  - lia.
  - rewrite length_zeros. lia.
  - rewrite length_zeros. lia.
  - lia.
  - lia.
  - lia.
  - exists mem'. split; [exact H1|]. apply (H2 O). lia.
Defined.

(** Errors of CCM: whatever is not accepted is refused with its own code,
    in the order of the checks, and without touching the memory or the
    reported length: key length -1, nonce length -2, MAC length -3, output
    too small -4; a cipher text shorter than its MAC always fails with -4,
    because the wrapped length exceeds every 32-bit output size. *)
Theorem ccm_refuses_bad_input alloc Key KeyLength n junk mem src len Nonce AAD M dst outlen
    (Hlen : word32 len) (HM : word32 M) (Hout : 0 ≤ outlen < 2 ^ 32 - 16) :
  let enc := @AES_CCM_Encrypt (aes_calls alloc) Key KeyLength n junk mem src len Nonce AAD M dst outlen in
  let dec := @AES_CCM_Decrypt (aes_calls alloc) Key KeyLength n junk mem src len Nonce AAD M dst outlen in
  (KeyLength ≠ 16 → enc = Some (-1, mem, outlen) ∧ dec = Some (-1, mem, outlen)) ∧
  (KeyLength = 16 → ¬ (7 ≤ length Nonce ≤ 13)%nat →
     enc = Some (-2, mem, outlen) ∧ dec = Some (-2, mem, outlen)) ∧
  (KeyLength = 16 → (7 ≤ length Nonce ≤ 13)%nat → valid_mac_length M = false →
     enc = Some (-3, mem, outlen) ∧ dec = Some (-3, mem, outlen)) ∧
  (KeyLength = 16 → (7 ≤ length Nonce ≤ 13)%nat → valid_mac_length M = true →
     (outlen < u32 (len + M) → enc = Some (-4, mem, outlen)) ∧
     (len < M → dec = Some (-4, mem, outlen))).
Proof.
  cbv zeta. unfold AES_CCM_Encrypt, AES_CCM_Decrypt, AES_KEY128_LENGTH.
  assert (HN : ∀ b, reflect (7 ≤ length Nonce ≤ 13)%nat b → valid_nonce_length Nonce = b).
  { intros b Hb. unfold valid_nonce_length. destruct Hb; lia. }
  conjs.
  - intros HK. by rewrite (proj2 (Z.eqb_neq _ _) HK).
  - intros -> Hn. by rewrite Z.eqb_refl, (HN false) by (by constructor).
  - intros -> Hn Hm. by rewrite Z.eqb_refl, (HN true), Hm by (by constructor).
  - intros -> Hn Hm. rewrite Z.eqb_refl, (HN true), Hm by (by constructor). cbn [negb].
    apply mac_length_bound in Hm as Hb. cbv iota. split; intros H.
    + by rewrite (proj2 (Z.ltb_lt _ _)) by lia.
    + rewrite (proj2 (Z.ltb_lt outlen _)); [done|].
      rewrite wrap_mod by lia. destruct Hlen.
      replace (len - M) with (len - M + 2 ^ 32 + (-1) * 2 ^ 32) by lia.
      rewrite Z.mod_add by lia. rewrite Z.mod_small; lia.
Qed.

Lemma ccm_refuses_bad_input_witness :
  @AES_CCM_Decrypt (aes_calls (λ _, true)) (zeros 16) 16 0 (zeros 16) [1; 2; 3] 0 3 (zeros 13) [] 8 0
    100 = Some (-4, [1; 2; 3], 100).
Proof.
  destruct (ccm_refuses_bad_input (λ _, true) (zeros 16) 16 0 (zeros 16) [1; 2; 3] 0 3 (zeros 13) []
    8 0 100) as (_ & _ & _ & H).
  - done.
  - done.
  - lia.
  - apply H; [reflexivity|simpl; lia|reflexivity|lia].
Defined.

(** RFC 3610, packet vector 1. *)
Example ccm_rfc3610_vector1 :
  let key := map (λ i, 192 + Z.of_nat i) (seq 0 16) in
  let nonce := [0; 0; 0; 3; 2; 1; 0; 160; 161; 162; 163; 164; 165] in
  let aad := map Z.of_nat (seq 0 8) in
  let payload := map Z.of_nat (seq 8 23) in
  @AES_CCM_Encrypt (aes_calls (λ _, true)) key 16 0 (zeros 16) (payload ++ zeros 8) 0 23 nonce aad 8 0 31
  = Some (0, [88; 140; 151; 154; 97; 198; 99; 210; 240; 102; 208; 194; 192; 249; 137; 128; 109; 95;
              107; 97; 218; 195; 132; 23; 232; 209; 44; 253; 249; 38; 224], 31).
Proof. vm_compute. reflexivity. Qed.
