(* ===== verification/AesCmac.v ===== *)
(** AES-CMAC: [AES_CMAC_GenerateSubKey] and [AES_CMAC] of
    src/common/crypt_aes.c, against RFC 4493. *)

From S2P Require Import Prelude AesTables Aes BlockCipher AesCcm.

Definition AES_MAC_LENGTH : Z := 16.
Definition Const_Zero : list Z := zeros 16.
Definition Const_Rb : list Z := zeros 15 ++ [0x87].

(** The loop that shifts a byte string left by one bit, the top bit of each
    next byte moving in. *)
Fixpoint shift_left (l : list Z) : list Z :=
  match l with
  | [] => []
  | [x] => [u8 (Z.shiftl x 1)]
  | x :: (y :: _) as l' =>
      let Top_Bit := if negb (Z.land y 0x80 =? 0) then 1 else 0 in
      Z.lor (u8 (Z.shiftl x 1)) Top_Bit :: shift_left l'
  end.

(** Steps 2 and 3: shift, and reduce if the top bit was set. *)
Definition next_subkey (L : list Z) : list Z :=
  let MSB := Z.land (aget L 0) 0x80 in
  let K := shift_left L in
  if 0 <? MSB then xor_list K Const_Rb else K.

Section Cmac.
Context `{C : BlockCalls} (Key : list Z) (KeyLength : Z).

(** The two sub-keys after the call. *)
Definition AES_CMAC_GenerateSubKey (n : nat) (SubKey1 SubKey2 : list Z) : list Z * list Z :=
  if negb (KeyLength =? AES_KEY128_LENGTH) then (SubKey1, SubKey2)
  else
    let L := encrypt_call n Key KeyLength Const_Zero SubKey1 in
    let SubKey1 := next_subkey L in
    let SubKey2 := next_subkey SubKey1 in
    (SubKey1, SubKey2).

(** The while loop over the text from [PlainBlockStart] on. *)
Fixpoint cmac_loop (fuel n : nat) (X rest : list Z) : option (nat * list Z * list Z) :=
  if Nat.leb (length rest) 16 then Some (n, X, rest)
  else match fuel with
       | O => None
       | S fuel =>
           let Y := xor_list (take 16 rest) X in
           cmac_loop fuel (S n) (encrypt_call n Key KeyLength Y X) (drop 16 rest)
       end.

(** [MACText] and [*MACTextLength] after the call. *)
Definition AES_CMAC (n : nat) (PlainText MACText : list Z) (MACTextLength : Z)
    : option (list Z * Z) :=
  if MACTextLength <? AES_MAC_LENGTH then Some (MACText, MACTextLength)
  else if negb (KeyLength =? AES_KEY128_LENGTH) then Some (MACText, MACTextLength)
  else
    let '(SubKey1, SubKey2) := AES_CMAC_GenerateSubKey n (zeros 16) (zeros 16) in
    '(n, X, rest) ← cmac_loop (length PlainText) (S n) Const_Zero PlainText;
    let Y := if Nat.eqb (length rest) 16 then xor_list (xor_list rest X) SubKey1
             else
               let Y := bwrite (zeros 16) 0 rest in
               let Y := <[length rest := 0x80]> Y in
               xor_list (xor_list Y X) SubKey2 in
    Some (encrypt_call n Key KeyLength Y MACText, 16).
End Cmac.

(** * RFC 4493 *)

(** Multiplication by x in GF(2^128), on the big-endian number. *)
Definition gf128_double (x : Z) : Z :=
  Z.lxor ((2 * x) `mod` 2 ^ 128) (if Z.testbit x 127 then 0x87 else 0).

Section CmacSpec.
Context (E : list Z → list Z).

Definition cmac_K1 : list Z := be_bytes 16 (gf128_double (be_word (E (zeros 16)))).
Definition cmac_K2 : list Z := be_bytes 16 (gf128_double (be_word cmac_K1)).

(** The last block: complete, or filled up with a bit 1 and zeros. *)
Definition cmac_last (m : list Z) : list Z :=
  if Nat.eqb (length m) 16 then xor_list m cmac_K1
  else xor_list (m ++ [0x80] ++ zeros (15 - length m)) cmac_K2.

(** The number of blocks before the last one. *)
Definition cmac_front (len : nat) : nat := ((len - 1) / 16)%nat.

Definition cmac_spec (m : list Z) : list Z :=
  let n := cmac_front (length m) in
  let X := foldl (λ X i, E (xor_list (take 16 (drop (16 * i) m)) X)) (zeros 16) (seq 0 n) in
  E (xor_list (cmac_last (drop (16 * n) m)) X).
End CmacSpec.

(** * The sub-keys *)

Lemma be_bytes_be_word l : bytes l → be_bytes (length l) (be_word l) = l.
Proof.
  intros Hl. unfold be_bytes, be_word. rewrite <- (length_rev l) at 1.
  rewrite le_bytes_le_word by (by apply Forall_rev). apply rev_involutive.
Qed.

(** The bits of a big-endian string. *)
Lemma be_word_testbit x l i :
  bytes l → byte x → 0 ≤ i →
  Z.testbit (be_word (x :: l)) i =
    if i <? 8 * Z.of_nat (length l) then Z.testbit (be_word l) i
    else Z.testbit x (i - 8 * Z.of_nat (length l)).
Proof.
  intros Hl Hx Hi. rewrite be_word_cons, Z.lor_spec, Z.shiftl_spec by lia.
  destruct (Z.ltb_spec i (8 * Z.of_nat (length l))).
  - by rewrite (Z.testbit_neg_r x) by lia; rewrite orb_false_r.
  - by rewrite (in_range_testbit _ _ _ (be_word_range l Hl)) by lia.
Qed.

Lemma shift_left_ok l : bytes l → length (shift_left l) = length l ∧ bytes (shift_left l).
Proof.
  induction 1 as [|x l Hx Hl [IH1 IH2]]; [done|]. destruct l as [|y l].
  - split; [done|]. cbn. auto with word.
  - cbn [shift_left] in *. split; [cbn; by rewrite IH1|].
    apply Forall_cons_2; [|done]. apply in_range_lor; [done|apply u8_byte|].
    by destruct (negb _).
Qed.

Lemma top_bit y : byte y → (if negb (Z.land y 0x80 =? 0) then 1 else 0) = Z.b2z (Z.testbit y 7).
Proof.
  intros Hy. replace (Z.land y 0x80 =? 0) with (negb (Z.testbit y 7)); [by destruct (Z.testbit y 7)|].
  symmetry. destruct (Z.testbit y 7) eqn:E; simpl.
  - apply Z.eqb_neq. intros H. apply (f_equal (λ v, Z.testbit v 7)) in H.
    rewrite Z.land_spec, E in H. done.
  - apply Z.eqb_eq. apply Z.bits_inj'. intros i Hi. rewrite Z.land_spec, Z.bits_0.
    destruct (decide (i = 7)) as [->|Hne]; [by rewrite E|].
    change 0x80 with (2 ^ 7). rewrite Z.pow2_bits_false by lia. apply andb_false_r.
Qed.

(** The byte loop is a shift of the whole number. *)
Lemma shift_left_spec l :
  bytes l → l ≠ [] →
  be_word (shift_left l) = wrap (8 * Z.of_nat (length l)) (Z.shiftl (be_word l) 1).
Proof.
  induction 1 as [|x l Hx Hl IH]; [done|]. intros _. destruct l as [|y l].
  { cbn [shift_left length]. change (8 * Z.of_nat 1) with 8. unfold be_word. cbn.
    rewrite !Z.lor_0_r. done. }
  specialize (IH ltac:(done)). destruct (shift_left_ok _ Hl) as [S1 S2].
  apply Forall_cons in Hl as Hl'. destruct Hl' as [Hy _].
  set (r := y :: l) in *.
  assert (Hr : (0 < length r)%nat) by (unfold r; simpl; lia).
  replace (shift_left (x :: r)) with
    (Z.lor (u8 (Z.shiftl x 1)) (Z.b2z (Z.testbit y 7)) :: shift_left r)
    by (unfold r; cbn [shift_left]; by rewrite top_bit).
  assert (Hb2 : byte (Z.b2z (Z.testbit y 7))) by (by destruct (Z.testbit y 7)).
  apply Z.bits_inj'. intros i Hi.
  rewrite be_word_testbit by (done || by apply in_range_lor; [|apply u8_byte|]).
  rewrite wrap_spec, Z.shiftl_spec by lia. rewrite S1, IH.
  set (w := 8 * Z.of_nat (length r)).
  assert (Hw : 8 * Z.of_nat (length (x :: r)) = w + 8) by (unfold w; simpl; lia).
  rewrite Hw. destruct (Z.ltb_spec i w).
  - rewrite wrap_spec, Z.shiftl_spec by lia. fold w.
    rewrite !(proj2 (Z.ltb_lt _ _)) by lia. cbn [andb].
    destruct (decide (i = 0)) as [->|]; [by rewrite !Z.testbit_neg_r by lia|].
    rewrite (be_word_testbit x r) by (done || lia). fold w.
    by rewrite (proj2 (Z.ltb_lt (i - 1) w)) by lia.
  - rewrite Z.lor_spec, wrap_spec, Z.shiftl_spec by lia.
    destruct (Z.ltb_spec i (w + 8)).
    + rewrite (proj2 (Z.ltb_lt (i - w) 8)) by lia. cbn [andb].
      destruct (decide (i = w)) as [->|Hne].
      * rewrite Z.sub_diag. rewrite (Z.testbit_neg_r x) by lia. cbn [orb].
        rewrite (be_word_testbit x r) by (done || lia). fold w.
        rewrite (proj2 (Z.ltb_lt (w - 1) w)) by lia.
        unfold r. rewrite (be_word_testbit y l) by (done || (apply Forall_cons in Hl; tauto) || (unfold w in *; lia)).
        assert (E : w = 8 * Z.of_nat (length l) + 8) by (unfold w, r; simpl; lia).
        rewrite (proj2 (Z.ltb_ge _ _)) by lia. replace (w - 1 - _) with 7 by lia.
        by destruct (Z.testbit y 7).
      * rewrite (be_word_testbit x r) by (done || lia). fold w.
        rewrite (proj2 (Z.ltb_ge (i - 1) w)) by lia.
        replace (i - 1 - w) with (i - w - 1) by lia.
        rewrite (in_range_testbit 1 (Z.b2z _) (i - w)) by (lia || by destruct (Z.testbit y 7)).
        apply orb_false_r.
    + rewrite (proj2 (Z.ltb_ge (i - w) 8)) by lia. cbn [andb orb].
      apply (in_range_testbit 1); [by destruct (Z.testbit y 7)|lia].
Qed.

Lemma be_word_xor a : ∀ b,
  length a = length b → bytes a → bytes b →
  be_word (xor_list a b) = Z.lxor (be_word a) (be_word b).
Proof.
  induction a as [|x a IH]; intros [|y b] Hl Ha Hb; try done. injection Hl as Hl.
  apply Forall_cons in Ha as [Hx Ha]. apply Forall_cons in Hb as [Hy Hb].
  change (xor_list (x :: a) (y :: b)) with (Z.lxor x y :: xor_list a b).
  apply Z.bits_inj'. intros i Hi. rewrite Z.lxor_spec.
  rewrite !be_word_testbit by (auto with word). rewrite length_xor_list, <- Hl by done.
  destruct (_ <? _); [by rewrite IH, Z.lxor_spec|by rewrite Z.lxor_spec].
Qed.

Lemma msb_spec L :
  state_ok L → (0 <? Z.land (aget L 0) 0x80) = Z.testbit (be_word L) 127.
Proof.
  intros [HL Hb]. destruct L as [|x r]; [done|]. simpl in HL. injection HL as HL.
  apply Forall_cons in Hb as [Hx Hb].
  rewrite be_word_testbit by (done || lia). rewrite HL. change (127 <? 8 * Z.of_nat 15) with false.
  change (127 - 8 * Z.of_nat 15) with 7. cbv iota. change (aget (x :: r) 0) with x.
  pose proof (top_bit x Hx) as Ht.
  assert (0 ≤ Z.land x 0x80) by (apply Z.land_nonneg; destruct Hx; lia).
  destruct (Z.eqb_spec (Z.land x 0x80) 0), (Z.testbit x 7); cbn in Ht; try discriminate Ht.
  - apply Z.ltb_ge. lia.
  - apply Z.ltb_lt. lia.
Qed.

Lemma next_subkey_spec L :
  state_ok L → next_subkey L = be_bytes 16 (gf128_double (be_word L)).
Proof.
  intros Hst. pose proof Hst as [HL Hb]. destruct (shift_left_ok L Hb) as [S1 S2].
  assert (Hne : L ≠ []) by (by destruct L).
  unfold next_subkey, gf128_double. rewrite msb_spec by done.
  pose proof (shift_left_spec L Hb Hne) as Hs.
  rewrite HL in Hs. change (8 * Z.of_nat 16) with 128 in Hs.
  rewrite wrap_mod, Z.shiftl_mul_pow2 in Hs by lia.
  change (2 ^ 1) with 2 in Hs. rewrite (Z.mul_comm 2). rewrite <- Hs.
  destruct (Z.testbit _ 127).
  - change 135 with (be_word Const_Rb).
    rewrite <- be_word_xor; [|by rewrite S1, HL|done|solve_bytes].
    rewrite <- (be_bytes_be_word (xor_list _ _)) at 1 by (apply bytes_xor_list; [done|solve_bytes]).
    rewrite length_xor_list; [by rewrite S1, HL|by rewrite S1, HL].
  - rewrite Z.lxor_0_r, <- HL, <- S1. symmetry. by apply be_bytes_be_word.
Qed.

Lemma next_subkey_ok L : state_ok L → state_ok (next_subkey L).
Proof.
  intros H. rewrite next_subkey_spec by done.
  split; [apply length_be_bytes|apply bytes_be_bytes].
Qed.

(** * The main loop *)

Section Cmac.
Context `{C : BlockCalls} (Key : list Z).
Context `{R : !ReliableCipher C Key 16}.

Let E : list Z → list Z := @block_enc _ _ _ R.

Lemma subkeys_spec n :
  AES_CMAC_GenerateSubKey Key 16 n (zeros 16) (zeros 16) = (cmac_K1 E, cmac_K2 E).
Proof using R.
  unfold AES_CMAC_GenerateSubKey. rewrite Z.eqb_refl. cbn [negb]. cbv iota zeta.
  rewrite (encrypt_call_spec n _ (zeros 16) state_zeros eq_refl). fold E.
  pose proof (block_enc_ok _ state_zeros) as H1. fold E in H1.
  change Const_Zero with (zeros 16).
  pose proof (next_subkey_ok _ H1) as H2.
  unfold cmac_K2, cmac_K1. rewrite <- !next_subkey_spec by done. done.
Qed.

Lemma xor_list_assoc (a b c : list Z) :
  xor_list (xor_list a b) c = xor_list a (xor_list b c).
Proof.
  revert b c. induction a as [|x a IH]; intros [|y b] [|z c]; try done.
  simpl. by rewrite Z.lxor_assoc, IH.
Qed.

Lemma foldl_fun_ext {A B} (f g : A → B → A) x l :
  (∀ y i, f y i = g y i) → foldl f x l = foldl g x l.
Proof. intros H. revert x. induction l as [|i l IH]; intros x; simpl; [done|]. by rewrite H, IH. Qed.

Lemma cmac_front_step len : (16 < len)%nat → cmac_front len = S (cmac_front (len - 16)).
Proof.
  intros H. unfold cmac_front. replace (len - 1)%nat with (1 * 16 + (len - 16 - 1))%nat by lia.
  by rewrite Nat.div_add_l by lia.
Qed.

Lemma cmac_front_last len : (len ≤ 16)%nat → cmac_front len = O.
Proof. intros H. unfold cmac_front. apply Nat.div_small. lia. Qed.

Lemma cmac_loop_spec fuel : ∀ n X m,
  (length m ≤ 16 * fuel + 16)%nat → bytes m → state_ok X →
  ∃ n' X', cmac_loop Key 16 fuel n X m =
    Some (n', X', drop (16 * cmac_front (length m)) m) ∧
    X' = foldl (λ X i, E (xor_list (take 16 (drop (16 * i) m)) X)) X (seq 0 (cmac_front (length m))) ∧
    state_ok X'.
Proof using R.
  induction fuel as [|fuel IH]; intros n X m Hf Hm HX; cbn [cmac_loop].
  { destruct (Nat.leb_spec (length m) 16); [|lia]. rewrite cmac_front_last by done.
    by eexists _, _. }
  destruct (Nat.leb_spec (length m) 16).
  { rewrite cmac_front_last by done. by eexists _, _. }
  assert (Hb : state_ok (take 16 m)) by (split; [rewrite length_take; lia|auto with word]).
  rewrite encrypt_call_spec by (try apply xor_state; done || apply HX).
  pose proof (block_enc_ok _ (xor_state _ _ Hb HX)) as HX1. fold E in HX1 |- *.
  destruct (IH (S n) (E (xor_list (take 16 m) X)) (drop 16 m)) as (n' & X' & H1 & H2 & H3);
    [rewrite length_drop; lia|auto with word|done|].
  rewrite length_drop in *. rewrite cmac_front_step by done.
  eexists n', X'. split; [|split; [|done]].
  - rewrite H1, drop_drop. do 3 f_equal. lia.
  - rewrite H2. cbn [seq foldl]. rewrite drop_0.
    rewrite <- seq_shift. change (map S ?l) with (S <$> l). rewrite foldl_fmap.
    apply foldl_fun_ext. intros Y i. rewrite drop_drop. do 4 f_equal. lia.
Qed.
Lemma cmac_rest_length (m : list Z) :
  (length (drop (16 * cmac_front (length m)) m) ≤ 16)%nat.
Proof.
  rewrite length_drop. unfold cmac_front.
  pose proof (Nat.div_mod_eq (length m - 1) 16).
  pose proof (Nat.mod_upper_bound (length m - 1) 16 ltac:(lia)). lia.
Qed.

Lemma cmac_pad (r : list Z) :
  (length r < 16)%nat →
  <[length r := 0x80]> (bwrite (zeros 16) 0 r) = r ++ [0x80] ++ zeros (15 - length r).
Proof.
  intros Hr. unfold bwrite. rewrite take_0. cbn [app plus].
  replace (drop (length r) (zeros 16)) with (0 :: zeros (15 - length r)).
  - rewrite <- (Nat.add_0_r (length r)) at 1. by rewrite insert_app_r.
  - unfold zeros. rewrite drop_replicate.
    by replace (16 - length r)%nat with (S (15 - length r)) by lia.
Qed.

Lemma swap_xor (a b c : list Z) : xor_list (xor_list a b) c = xor_list (xor_list a c) b.
Proof. by rewrite !xor_list_assoc, (xor_list_comm b c). Qed.

Lemma AES_CMAC_spec n m out outlen :
  bytes m → length out = 16%nat → 16 ≤ outlen →
  AES_CMAC Key 16 n m out outlen = Some (cmac_spec E m, 16).
Proof using R.
  intros Hm Ho Hlen. unfold AES_CMAC, AES_MAC_LENGTH.
  rewrite (proj2 (Z.ltb_ge _ _)) by lia. rewrite Z.eqb_refl, subkeys_spec. cbn [negb]. cbv iota.
  change Const_Zero with (zeros 16).
  destruct (cmac_loop_spec (length m) (S n) (zeros 16) m) as (n' & X & -> & HX & HXs);
    [lia|done|apply state_zeros|].
  cbn [mbind option_bind]. unfold cmac_spec. rewrite <- HX.
  pose proof (cmac_rest_length m) as Hr. set (r := drop _ m) in *.
  assert (Hrb : bytes r) by (unfold r; auto with word).
  pose proof (block_enc_ok _ state_zeros) as H1. fold E in H1.
  assert (HK1 : state_ok (cmac_K1 E)).
  { unfold cmac_K1. split; [apply length_be_bytes|apply bytes_be_bytes]. }
  assert (HK2 : state_ok (cmac_K2 E)).
  { unfold cmac_K2. split; [apply length_be_bytes|apply bytes_be_bytes]. }
  unfold cmac_last. destruct (Nat.eqb_spec (length r) 16).
  - assert (state_ok r) by done.
    rewrite (swap_xor r), encrypt_call_spec by (auto using xor_state || done). done.
  - rewrite cmac_pad by lia.
    assert (state_ok (r ++ [0x80] ++ zeros (15 - length r))).
    { split; [rewrite !length_app, length_zeros; simpl; lia|].
      apply Forall_app_2; [done|]. apply Forall_cons_2; [done|apply bytes_zeros]. }
    rewrite (swap_xor (r ++ _)), encrypt_call_spec by (auto using xor_state || done). done.
Qed.
End Cmac.

(** * The properties *)

(** AES-CMAC computes the MAC of RFC 4493 for every message, the empty
    one included: the sub-keys are the doublings of AES(0) in GF(2^128), a
    complete last block takes the first and a padded one the second. *)
Theorem cmac_correct alloc Key n m out outlen
    (Halloc : ∀ i, alloc i = true) (HK : key_ok Key 16) (Hm : bytes m)
    (Ho : length out = 16%nat) (Hlen : 16 ≤ outlen) :
  @AES_CMAC (aes_calls alloc) Key 16 n m out outlen = Some (cmac_spec (aes128 Key) m, 16).
Proof.
  rewrite <- (aes128_enc alloc Halloc Key HK).
  by apply (@AES_CMAC_spec _ _ (aes_reliable alloc Halloc Key 16 HK)).
Qed.

Lemma cmac_correct_witness :
  @AES_CMAC (aes_calls (λ _, true)) (zeros 16) 16 0 [1; 2; 3] (zeros 16) 16 =
    Some (cmac_spec (aes128 (zeros 16)) [1; 2; 3], 16).
Proof.
  apply cmac_correct.
  - reflexivity.
  - split; [reflexivity|]. split; [reflexivity|solve_bytes].
  - solve_bytes.
  - reflexivity.
  - lia.
Defined.

(** RFC 4493, example 1 (the empty message) and example 2 (one block). *)
Definition rfc4493_key : list Z :=
  [43; 126; 21; 22; 40; 174; 210; 166; 171; 247; 21; 136; 9; 207; 79; 60].

Example cmac_rfc4493_example1 :
  @AES_CMAC (aes_calls (λ _, true)) rfc4493_key 16 0 [] (zeros 16) 16 =
  Some ([187; 29; 105; 41; 233; 89; 55; 40; 127; 163; 125; 18; 155; 117; 103; 70], 16).
Proof. vm_compute. reflexivity. Qed.

Example cmac_rfc4493_example2 :
  @AES_CMAC (aes_calls (λ _, true)) rfc4493_key 16 0
    [107; 193; 190; 226; 46; 64; 159; 150; 233; 61; 126; 17; 115; 147; 23; 42] (zeros 16) 16 =
  Some ([7; 10; 22; 180; 107; 77; 65; 68; 247; 155; 221; 157; 208; 74; 40; 124], 16).
Proof. vm_compute. reflexivity. Qed.
