(* ===== verification/AesKeyWrap.v ===== *)
(** AES key wrap: [AES_Key_Wrap] and [AES_Key_Unwrap] of
    src/common/crypt_aes.c, against RFC 3394.

    The blocks being wrapped live in one allocated buffer ([pResult]); the
    outcome of its allocation is [alloc_result]. *)

From S2P Require Import Prelude AesTables Aes BlockCipher AesCcm AesCmac.

Definition AES_KEY_WRAP_IV_LENGTH : nat := 8.
Definition AES_KEY_WRAP_BLOCK_SIZE : Z := 8.
Definition Default_IV : list Z := replicate 8 0xa6.

Section Wrap.
Context `{C : BlockCalls} (Key : list Z) (KeyLength : Z).

(** The body of the inner loop of [AES_Key_Wrap]; the state is the number of
    calls made, [IV], [Block_B] and [pResult]. *)
Definition wrap_step (Number_Of_Block : nat) (st : nat * list Z * list Z * list Z)
    (ji : nat * nat) : nat * list Z * list Z * list Z :=
  let '(n, IV, Block_B, pResult) := st in
  let '(Index_j, Index_i) := ji in
  let Block_Input := IV ++ take 8 (drop (Index_i * 8) pResult) in
  let Block_B := encrypt_call n Key KeyLength Block_Input Block_B in
  let IV := take 8 Block_B in
  let t := Z.of_nat (Number_Of_Block * Index_j + Index_i + 1) in
  let IV := aset IV 7 (u8 (Z.lxor (aget Block_B 7) t)) in
  let pResult := bwrite pResult (Index_i * 8) (take 8 (drop 8 Block_B)) in
  (S n, IV, Block_B, pResult).

(** The body of the inner loop of [AES_Key_Unwrap]. *)
Definition unwrap_step (Number_Of_Block : nat) (st : nat * list Z * list Z * list Z)
    (ji : nat * nat) : nat * list Z * list Z * list Z :=
  let '(n, IV, Block_B, pResult) := st in
  let '(Index_j, Index_i) := ji in
  let t := Z.of_nat (Number_Of_Block * Index_j + Index_i + 1) in
  let IV := aset IV 7 (u8 (Z.lxor (aget IV 7) t)) in
  let Block_Input := IV ++ take 8 (drop (Index_i * 8) pResult) in
  let Block_B := decrypt_call n Key KeyLength Block_Input Block_B in
  let IV := take 8 Block_B in
  let pResult := bwrite pResult (Index_i * 8) (take 8 (drop 8 Block_B)) in
  (S n, IV, Block_B, pResult).

(** The index pairs of the two nested loops, in the order of the wrap. *)
Definition wrap_indices (Number_Of_Block : nat) : list (nat * nat) :=
  concat (map (λ j, map (λ i, (j, i)) (seq 0 Number_Of_Block)) (seq 0 6)).

(** The function value, [CipherText] and [*CipherTextLength]. *)
Definition AES_Key_Wrap (n : nat) (alloc_result : bool) (junk PlainText CipherText : list Z)
    (CipherTextLength : Z) : Z * list Z * Z :=
  if negb (valid_key_length KeyLength) then (-1, CipherText, CipherTextLength)
  else if negb alloc_result then (-2, CipherText, CipherTextLength)
  else
    let PlainTextLength := length PlainText in
    let Number_Of_Block := (PlainTextLength / 8)%nat in
    let '(_, IV, _, pResult) :=
      foldl (wrap_step Number_Of_Block) (n, Default_IV, junk, PlainText)
        (wrap_indices Number_Of_Block) in
    (0, bwrite (bwrite CipherText 0 IV) AES_KEY_WRAP_IV_LENGTH pResult,
     u32 (Z.of_nat PlainTextLength + 8)).

(** The function value, [PlainText] and [*PlainTextLength]. *)
Definition AES_Key_Unwrap (n : nat) (alloc_result : bool) (junk CipherText PlainText : list Z)
    (PlainTextLength : Z) : Z * list Z * Z :=
  let PlainLength := (length CipherText - AES_KEY_WRAP_IV_LENGTH)%nat in
  if negb (valid_key_length KeyLength) then (-1, PlainText, PlainTextLength)
  else if negb alloc_result then (-2, PlainText, PlainTextLength)
  else
    let Number_Of_Block := (PlainLength / 8)%nat in
    let '(_, IV, _, pResult) :=
      foldl (unwrap_step Number_Of_Block)
        (n, take 8 CipherText, junk, drop AES_KEY_WRAP_IV_LENGTH CipherText)
        (rev (wrap_indices Number_Of_Block)) in
    (0, bwrite PlainText 0 pResult, Z.of_nat PlainLength).
End Wrap.

(** * RFC 3394 *)

(** One step on the 64-bit register A and the registers R, with the whole
    64-bit counter added to A. *)
Definition rfc_step (E : list Z → list Z) (nb : nat) (st : list Z * list Z) (ji : nat * nat)
    : list Z * list Z :=
  let '(A, R) := st in
  let '(j, i) := ji in
  let B := E (A ++ take 8 (drop (i * 8) R)) in
  (xor_list (take 8 B) (be_bytes 8 (Z.of_nat (nb * j + i + 1))),
   bwrite R (i * 8) (drop 8 B)).

Definition rfc_wrap (E : list Z → list Z) (P : list Z) : list Z :=
  let nb := (length P / 8)%nat in
  let '(A, R) := foldl (rfc_step E nb) (Default_IV, P) (wrap_indices nb) in A ++ R.

(** * Lemmas *)

(** A register pair: 8 bytes and the blocks. *)
Definition wrap_ok (nb : nat) (IV R : list Z) : Prop :=
  length IV = 8%nat ∧ bytes IV ∧ bytes R ∧ (8 * nb ≤ length R)%nat.

Lemma wrap_indices_range nb :
  Forall (λ ji, (ji.1 < 6)%nat ∧ (ji.2 < nb)%nat) (wrap_indices nb).
Proof.
  apply Forall_forall. intros [j i] Hji%list_elem_of_In. unfold wrap_indices in Hji.
  apply in_concat in Hji as (l & Hl & Hi). apply in_map_iff in Hl as (j' & <- & Hj).
  apply in_map_iff in Hi as (i' & [= -> ->] & Hi). apply in_seq in Hj, Hi. simpl. lia.
Qed.

Section Steps.
Context `{C : BlockCalls} (Key : list Z) (KeyLength : Z).
Context `{R : !ReliableCipher C Key KeyLength}.

Let E : list Z → list Z := @block_enc _ _ _ R.

Lemma input_ok nb IV Rs i :
  wrap_ok nb IV Rs → (i < nb)%nat → state_ok (IV ++ take 8 (drop (i * 8) Rs)).
Proof.
  intros (H1 & H2 & H3 & H4) Hi. split.
  - rewrite length_app, length_take, length_drop. lia.
  - auto with word.
Qed.

(** A step in closed form. *)
Lemma wrap_step_spec nb n IV junk Rs j i :
  wrap_ok nb IV Rs → length junk = 16%nat → (i < nb)%nat →
  let B := E (IV ++ take 8 (drop (i * 8) Rs)) in
  let t := Z.of_nat (nb * j + i + 1) in
  wrap_step Key KeyLength nb (n, IV, junk, Rs) (j, i) =
    (S n, aset (take 8 B) 7 (u8 (Z.lxor (aget B 7) t)), B, bwrite Rs (i * 8) (drop 8 B)) ∧
  state_ok B ∧
  wrap_ok nb (aset (take 8 B) 7 (u8 (Z.lxor (aget B 7) t))) (bwrite Rs (i * 8) (drop 8 B)).
Proof using R.
  intros Hok Hj Hi B t. pose proof (input_ok nb IV Rs i Hok Hi) as Hin.
  destruct (block_enc_ok _ Hin) as [B1 B2]. fold E in B1, B2. fold B in B1, B2.
  destruct Hok as (H1 & H2 & H3 & H4).
  assert (Hd : length (drop 8 B) = 8%nat) by (rewrite length_drop; lia).
  unfold wrap_step. rewrite encrypt_call_spec by done. fold E. fold B. cbv zeta. fold t.
  rewrite (take_ge (drop 8 B)) by lia. split; [done|]. split; [done|].
  split; [|split; [|split]].
  - unfold aset. rewrite length_insert, length_take. lia.
  - unfold aset. apply Forall_insert; [auto with word|apply u8_byte].
  - auto with word.
  - rewrite length_bwrite; lia.
Qed.

Lemma lxor_byte_twice b t : byte b → u8 (Z.lxor (u8 (Z.lxor b t)) t) = b.
Proof.
  intros Hb. rewrite wrap_lxor, wrap_wrap, <- wrap_lxor by lia.
  rewrite lxor_cancel_r. by apply wrap_id.
Qed.

(** Unwrapping a step gives back the registers. *)
Lemma unwrap_step_wrap_step nb n m IV junk junk' Rs j i :
  wrap_ok nb IV Rs → length junk = 16%nat → length junk' = 16%nat → (i < nb)%nat →
  let '(_, IV', _, R') := wrap_step Key KeyLength nb (n, IV, junk, Rs) (j, i) in
  ∃ B, length B = 16%nat ∧
    unwrap_step Key KeyLength nb (m, IV', junk', R') (j, i) = (S m, IV, B, Rs).
Proof using R.
  intros Hok Hj Hj' Hi. pose proof (input_ok nb IV Rs i Hok Hi) as Hin.
  destruct (wrap_step_spec nb n IV junk Rs j i Hok Hj Hi) as (-> & [B1 B2] & _).
  set (B := E _) in *. set (t := Z.of_nat _).
  destruct Hok as (H1 & H2 & H3 & H4).
  exists (IV ++ take 8 (drop (i * 8) Rs)). split; [apply Hin|].
  unfold unwrap_step. fold t.
  assert (EIV : aset (aset (take 8 B) 7 (u8 (Z.lxor (aget B 7) t))) 7
    (u8 (Z.lxor (aget (aset (take 8 B) 7 (u8 (Z.lxor (aget B 7) t))) 7) t)) = take 8 B).
  { unfold aset. rewrite list_insert_insert_eq. apply list_insert_id.
    change (Z.to_nat 7) with 7%nat. rewrite lookup_take_lt by lia.
    unfold aget at 1. change (Z.to_nat 7) with 7%nat.
    rewrite nth_lookup, list_lookup_insert_eq by (rewrite length_take; lia).
    cbn [default from_option id]. rewrite lxor_byte_twice by (by apply aget_bytes).
    unfold aget. change (Z.to_nat 7) with 7%nat. rewrite nth_lookup.
    by destruct (lookup_lt_is_Some_2 B 7) as [x ->]; [lia|]. }
  rewrite EIV.
  assert (Hd : length (drop 8 B) = 8%nat) by (rewrite length_drop; lia).
  assert (ER : take 8 (drop (i * 8) (bwrite Rs (i * 8) (drop 8 B))) = drop 8 B)
    by (rewrite <- Hd at 1; apply slice_bwrite; lia).
  assert (ED : decrypt_call m Key KeyLength B junk' = IV ++ take 8 (drop (i * 8) Rs))
    by (unfold B, E; by apply decrypt_call_spec).
  rewrite ER, take_drop, ED.
  rewrite take_app_length', drop_app_length' by done.
  assert (Hs : length (take 8 (drop (i * 8) Rs)) = 8%nat)
    by (rewrite length_take, length_drop; lia).
  rewrite (take_ge (take 8 (drop (i * 8) Rs))) by lia.
  rewrite bwrite_bwrite_same by lia. by rewrite bwrite_slice by lia.
Qed.

Lemma wrap_fold_ok nb l : ∀ n IV junk Rs,
  wrap_ok nb IV Rs → length junk = 16%nat → Forall (λ ji, (ji.2 < nb)%nat) l →
  let '(_, IV', B', R') := foldl (wrap_step Key KeyLength nb) (n, IV, junk, Rs) l in
  wrap_ok nb IV' R' ∧ length B' = 16%nat ∧ length R' = length Rs.
Proof using R.
  induction l as [|[j i] l IH]; intros n IV junk Rs Hok Hj Hl; [done|].
  apply Forall_cons in Hl as [Hi Hl]. simpl in Hi. cbn [foldl].
  destruct (wrap_step_spec nb n IV junk Rs j i Hok Hj Hi) as (-> & [B1 B2] & Hok').
  specialize (IH (S n) _ _ _ Hok' B1 Hl). destruct (foldl _ _ l) as [[[? IV'] B'] R'].
  destruct IH as (I1 & I2 & I3). split; [done|]. split; [done|]. rewrite I3.
  destruct Hok as (_ & _ & _ & H4).
  apply length_bwrite. rewrite length_drop. lia.
Qed.

(** Unwrapping in reverse order. *)
Lemma unwrap_fold nb l : ∀ n m IV junk junk' Rs,
  wrap_ok nb IV Rs → length junk = 16%nat → length junk' = 16%nat →
  Forall (λ ji, (ji.2 < nb)%nat) l →
  let '(_, IV', _, R') := foldl (wrap_step Key KeyLength nb) (n, IV, junk, Rs) l in
  ∃ m' B, foldl (unwrap_step Key KeyLength nb) (m, IV', junk', R') (rev l) = (m', IV, B, Rs).
Proof using R.
  induction l as [|[j i] l IH] using rev_ind; intros n m IV junk junk' Rs Hok Hj Hj' Hl.
  { by eexists _, _. }
  apply Forall_app in Hl as [Hl Hi]. apply Forall_cons in Hi as [Hi _]. simpl in Hi.
  rewrite foldl_app, rev_unit. cbn [foldl].
  pose proof (wrap_fold_ok nb l n IV junk Rs Hok Hj Hl) as Hw.
  pose proof (λ m junk', IH n m IV junk junk' Rs Hok Hj) as IHm. clear IH.
  destruct (foldl (wrap_step Key KeyLength nb) (n, IV, junk, Rs) l) as [[[n1 IV1] B1] R1].
  destruct Hw as (Hok1 & HB1 & _).
  pose proof (unwrap_step_wrap_step nb n1 m IV1 B1 junk' R1 j i Hok1 HB1 Hj' Hi) as Hs.
  destruct (wrap_step Key KeyLength nb (n1, IV1, B1, R1) (j, i)) as [[[n2 IV2] B2] R2].
  destruct Hs as (B & HB & ->). apply IHm; done.
Qed.
End Steps.

Lemma default_iv_ok nb P : bytes P → (8 * nb ≤ length P)%nat → wrap_ok nb Default_IV P.
Proof. intros. split; [done|]. split; [solve_bytes|done]. Qed.

Lemma indices_below nb : Forall (λ ji, (ji.2 < nb)%nat) (wrap_indices nb).
Proof. eapply Forall_impl; [apply wrap_indices_range|]. by intros [j i] [_ ?]. Qed.

Lemma div8_bound len : (8 * (len / 8) ≤ len)%nat.
Proof. pose proof (Nat.div_mod_eq len 8). lia. Qed.

(** * The counter *)

Lemma be_bytes_small t : byte t → be_bytes 8 t = [0; 0; 0; 0; 0; 0; 0; t].
Proof.
  intros Ht. assert (Hw : be_word [0; 0; 0; 0; 0; 0; 0; t] = t)
    by (unfold be_word; cbn; apply Z.lor_0_r).
  rewrite <- Hw at 1. apply (be_bytes_be_word [0; 0; 0; 0; 0; 0; 0; t]).
  repeat (apply Forall_cons_2; [done|]). done.
Qed.

(** As long as the counter fits a byte, the code adds all of it. *)
Lemma counter_xor B t :
  state_ok B → byte t →
  aset (take 8 B) 7 (u8 (Z.lxor (aget B 7) t)) = xor_list (take 8 B) (be_bytes 8 t).
Proof.
  intros HB Ht. rewrite be_bytes_small by done. state_bytes HB. rewrite !Forall_cons in HB.
  destruct HB as (?&?&?&?&?&?&?&?&_). unfold aget, aset. cbn.
  rewrite wrap_id by (done || by apply byte_lxor). by rewrite !Z.lxor_0_r.
Qed.

Lemma wrap_fold_rfc `{C : BlockCalls} Key KeyLength `{R : !ReliableCipher C Key KeyLength} nb l :
  (6 * nb ≤ 255)%nat → ∀ n IV junk Rs,
  wrap_ok nb IV Rs → length junk = 16%nat →
  Forall (λ ji, (ji.1 < 6)%nat ∧ (ji.2 < nb)%nat) l →
  let '(_, IV', _, R') := foldl (wrap_step Key KeyLength nb) (n, IV, junk, Rs) l in
  foldl (rfc_step block_enc nb) (IV, Rs) l = (IV', R').
Proof.
  intros Hnb. induction l as [|[j i] l IH]; intros n IV junk Rs Hok Hj Hl; [done|].
  apply Forall_cons in Hl as [[Hj6 Hi] Hl]. simpl in Hj6, Hi. cbn [foldl].
  destruct (wrap_step_spec Key KeyLength nb n IV junk Rs j i Hok Hj Hi) as (-> & HB & Hok').
  rewrite counter_xor in Hok' |- * by (done || unfold in_range; nia).
  apply (IH (S n)); [exact Hok'|apply HB|done].
Qed.

(** * The properties *)

(** Key wrap is RFC 3394 for up to 42 blocks: as long as the step counter
    fits a byte, the cipher text is the wrap of the RFC, which adds the
    64-bit counter to the whole register A. *)
Theorem key_wrap_is_rfc3394 alloc Key KeyLength n junk P out
    (Halloc : ∀ i, alloc i = true) (HK : key_ok Key KeyLength) (HP : bytes P)
    (Hblocks : (length P / 8 ≤ 42)%nat)
    (Hj : length junk = 16%nat) (Ho : length out = (length P + 8)%nat) :
  (@AES_Key_Wrap (aes_calls alloc) Key KeyLength n true junk P out 0).1 =
    (0, rfc_wrap (aes_cipher (RT_AES_KeyExpansion Key KeyLength) (NumberOfRound KeyLength)) P).
Proof.
  pose (RC := aes_reliable alloc Halloc Key KeyLength HK).
  pose proof HK as (Hv & _ & _). unfold AES_Key_Wrap, rfc_wrap. rewrite Hv.
  cbn [negb]. cbv iota zeta. set (nb := (length P / 8)%nat) in *.
  pose proof (div8_bound (length P)) as Hnb. fold nb in Hnb.
  pose proof (default_iv_ok nb P HP Hnb) as Hok.
  pose proof (@wrap_fold_ok _ Key KeyLength RC nb (wrap_indices nb) n Default_IV junk P Hok Hj
    (indices_below nb)) as Hw.
  pose proof (@wrap_fold_rfc _ Key KeyLength RC nb (wrap_indices nb) ltac:(lia) n Default_IV junk P
    Hok Hj (wrap_indices_range nb)) as Hr.
  unfold RC, aes_reliable, block_enc in Hr.
  destruct (foldl (wrap_step Key KeyLength nb) _ _) as [[[n1 IV] B] Rs].
  destruct Hw as ((W1 & W2 & W3 & W4) & _ & W5). rewrite Hr. cbn [fst]. f_equal.
  unfold AES_KEY_WRAP_IV_LENGTH. rewrite <- W1 at 1.
  rewrite (bwrite_bwrite_app out 0) by lia. apply bwrite_all. rewrite length_app. lia.
Qed.

Lemma key_wrap_is_rfc3394_witness :
  (@AES_Key_Wrap (aes_calls (λ _, true)) (zeros 32) 32 0 true (zeros 16) (zeros 16) (zeros 24) 0).1 =
    (0, rfc_wrap (aes_cipher (RT_AES_KeyExpansion (zeros 32) 32) (NumberOfRound 32)) (zeros 16)).
Proof.
  apply (key_wrap_is_rfc3394 (λ _, true) (zeros 32) 32 0 (zeros 16) (zeros 16) (zeros 24)).
  - reflexivity.
  - split; [reflexivity|]. split; [reflexivity|solve_bytes].
  - solve_bytes.
  - simpl. lia.
  - reflexivity.
  - reflexivity.
Defined.

(** Wrapping into and unwrapping out of buffers of any sufficient length. *)
Lemma wrap_unwrap alloc Key KeyLength n m junk junk' P out1 out2 :
  (∀ i, alloc i = true) → key_ok Key KeyLength → bytes P →
  Z.of_nat (length P) + 8 < 2 ^ 32 → length junk = 16%nat → length junk' = 16%nat →
  (length P + 8 ≤ length out1)%nat →
  ∃ c, @AES_Key_Wrap (aes_calls alloc) Key KeyLength n true junk P out1 0 =
         (0, bwrite out1 0 c, Z.of_nat (length c)) ∧
       @AES_Key_Unwrap (aes_calls alloc) Key KeyLength m true junk' c out2 0 =
         (0, bwrite out2 0 P, Z.of_nat (length P)) ∧ length c = (length P + 8)%nat ∧ bytes c.
Proof.
  intros Halloc HK HP Hlen Hj Hj' Ho1.
  pose (RC := aes_reliable alloc Halloc Key KeyLength HK).
  pose proof HK as (Hv & _ & _). unfold AES_Key_Wrap, AES_Key_Unwrap. rewrite Hv.
  cbn [negb]. cbv iota zeta. set (nb := (length P / 8)%nat).
  pose proof (div8_bound (length P)) as Hnb. fold nb in Hnb.
  pose proof (default_iv_ok nb P HP Hnb) as Hok.
  pose proof (@wrap_fold_ok _ Key KeyLength RC nb (wrap_indices nb) n Default_IV junk P Hok Hj
    (indices_below nb)) as Hw.
  pose proof (@unwrap_fold _ Key KeyLength RC nb (wrap_indices nb) n m Default_IV junk junk' P Hok
    Hj Hj' (indices_below nb)) as Hu.
  destruct (foldl (wrap_step Key KeyLength nb) _ _) as [[[n1 IV] B] Rs].
  destruct Hw as ((W1 & W2 & W3 & W4) & _ & W5).
  assert (Hc : bwrite (bwrite out1 0 IV) AES_KEY_WRAP_IV_LENGTH Rs = bwrite out1 0 (IV ++ Rs)).
  { unfold AES_KEY_WRAP_IV_LENGTH. rewrite <- W1 at 1. apply (bwrite_bwrite_app out1 0). lia. }
  exists (IV ++ Rs). rewrite Hc, length_app, W1, W5. split; [|split; [|split; [lia|by apply bytes_app]]].
  - rewrite wrap_id by (unfold in_range; lia). do 2 f_equal. lia.
  - unfold AES_KEY_WRAP_IV_LENGTH. rewrite take_app_length', drop_app_length' by done.
    replace (8 + length P - 8)%nat with (length P) by lia. fold nb.
    by destruct Hu as (m' & B' & ->).
Qed.

(** Key wrap round trip: for 128-, 192- and 256-bit keys and plain texts
    of every length, whole 64-bit blocks or not, wrapping succeeds and
    unwrapping the result returns 0, the plain text and its length. *)
Theorem key_wrap_round_trip alloc Key KeyLength n m junk junk' P out1 out2
    (Halloc : ∀ i, alloc i = true) (HK : key_ok Key KeyLength) (HP : bytes P)
    (Hlen : Z.of_nat (length P) + 8 < 2 ^ 32)
    (Hj : length junk = 16%nat) (Hj' : length junk' = 16%nat)
    (Ho1 : length out1 = (length P + 8)%nat) (Ho2 : length out2 = length P) :
  ∃ c, @AES_Key_Wrap (aes_calls alloc) Key KeyLength n true junk P out1 0 =
         (0, c, Z.of_nat (length c)) ∧
       @AES_Key_Unwrap (aes_calls alloc) Key KeyLength m true junk' c out2 0 =
         (0, P, Z.of_nat (length P)).
Proof.
  destruct (wrap_unwrap alloc Key KeyLength n m junk junk' P out1 out2) as (c & E1 & E2 & Hc & _); try done; [lia|].
  exists c. rewrite E1, E2, !bwrite_all by lia. done.
Qed.

Lemma key_wrap_round_trip_witness :
  ∃ c, @AES_Key_Wrap (aes_calls (λ _, true)) (zeros 16) 16 0 true (zeros 16) (zeros 11) (zeros 19) 0 =
         (0, c, Z.of_nat (length c)) ∧
       @AES_Key_Unwrap (aes_calls (λ _, true)) (zeros 16) 16 0 true (zeros 16) c (zeros 11) 0 =
         (0, zeros 11, 11).
Proof.
  apply (key_wrap_round_trip (λ _, true) (zeros 16) 16 0 0 (zeros 16) (zeros 16) (zeros 11)
           (zeros 19) (zeros 11)).
  - reflexivity.
  - split; [reflexivity|]. split; [reflexivity|solve_bytes].
  - solve_bytes.
  - simpl. lia.
  - reflexivity.
  - reflexivity.
  - reflexivity.
  - reflexivity.
Defined.

(** Key unwrap rejects nothing: for every cipher text, authentic or not,
    it returns 0 (success) and hands out the decrypted bytes; the recovered
    initial value is never compared with the default one, the integrity
    check of RFC 3394. *)
Theorem key_unwrap_never_rejects alloc Key KeyLength n junk c out
    (Hv : valid_key_length KeyLength = true) :
  ∃ p, @AES_Key_Unwrap (aes_calls alloc) Key KeyLength n true junk c out 0 =
    (0, p, Z.of_nat (length c - 8)).
Proof.
  unfold AES_Key_Unwrap. rewrite Hv. cbn [negb]. cbv iota zeta.
  destruct (foldl _ _ _) as [[[n1 IV] B] Rs]. by eexists.
Qed.

Lemma key_unwrap_never_rejects_witness :
  ∃ p, @AES_Key_Unwrap (aes_calls (λ _, true)) (zeros 16) 16 0 true (zeros 16) (zeros 24) (zeros 16) 0 =
    (0, p, 16).
Proof. by apply (key_unwrap_never_rejects (λ _, true) (zeros 16) 16 0 (zeros 16) (zeros 24)). Defined.

(** RFC 3394, 4.1: 128 bits of key data with a 128-bit key. *)
Example key_wrap_rfc3394 :
  (@AES_Key_Wrap (aes_calls (λ _, true)) (map Z.of_nat (seq 0 16)) 16 0 true (zeros 16)
    (map (λ i, 17 * Z.of_nat i) (seq 0 16)) (zeros 24) 0).1.2 =
  [31; 166; 139; 10; 129; 18; 180; 71; 174; 243; 75; 216; 251; 90; 123; 130; 157; 62; 134; 35;
   113; 210; 207; 229].
Proof. vm_compute. reflexivity. Qed.
