(* ===== verification/WpaKeys.v ===== *)
(** Key derivation and counters: src/common/cmm_wpa.c, PRF, F,
    RtmpPasswordHash, KDF, WpaDerivePTK, WpaDeriveGTK, inc_iv_byte and
    inc_byte_array, and RTMPCompareMemory of src/common/rtmp_init.c.

    Each derivation writes whole digests into the buffer of its caller: the
    buffer is the argument [output], and a write past its end shows as a
    change of its length. *)

From Stdlib Require Import ZifyNat.
From S2P Require Import Prelude BlockHash Md5 Sha Hmac.

(** * Definitions *)

(** [os_alloc_mem(1024)]; [alloc] says whether it succeeds. *)
Definition PRF_BUFFER : nat := 1024.
#[global] Arguments PRF_BUFFER : simpl never.

(** The loop of [PRF]: [body] is the input but for its last octet. *)
Fixpoint prf_loop (n : nat) (key body : list Z) (octet : Z) (currentindex : nat) (output : list Z)
    : option (list Z) :=
  match n with
  | O => Some output
  | S n =>
      d ← RT_HMAC_SHA1 key (body ++ [octet]) SHA1_DIGEST_SIZE;
      prf_loop n key body (u8 (octet + 1)) (currentindex + 20) (bwrite output currentindex d)
  end.

Definition PRF (alloc : bool) (key prefix data output : list Z) (len : nat) : option (list Z) :=
  if negb alloc then Some output
  else if Nat.ltb PRF_BUFFER (length prefix + 1 + length data + 1) then None
  else prf_loop ((len + 19) / 20) key (prefix ++ [0] ++ data) 0 0 output.

(** One block of PBKDF2; [digest1] is the last digest, [output] their sum. *)
Fixpoint f_loop (n : nat) (password digest1 output : list Z) : option (list Z) :=
  match n with
  | O => Some output
  | S n =>
      digest ← RT_HMAC_SHA1 password digest1 SHA1_DIGEST_SIZE;
      f_loop n password digest (xor_list output digest)
  end.

Definition F (password ssid : list Z) (iterations : nat) (count : Z) : option (list Z) :=
  if Nat.ltb 36 (length ssid + 4) then None
  else
    digest1 ← RT_HMAC_SHA1 password
      (ssid ++ [Z.land (Z.shiftr count 24) 0xff; Z.land (Z.shiftr count 16) 0xff;
                Z.land (Z.shiftr count 8) 0xff; Z.land count 0xff]) SHA1_DIGEST_SIZE;
    f_loop (iterations - 1) password digest1 digest1.

Definition RtmpPasswordHash (password ssid output : list Z) : option (Z * list Z) :=
  if Nat.ltb 63 (length password) || Nat.ltb 32 (length ssid) then Some (0, output)
  else
    t1 ← F password ssid 4096 1;
    t2 ← F password ssid 4096 2;
    Some (1, bwrite (bwrite output 0 t1) SHA1_DIGEST_SIZE t2).

(** The 16-bit counter of [KDF]: only its low byte is ever changed. *)
Fixpoint kdf_loop (n : nat) (key : list Z) (octet : Z) (rest : list Z) (currentindex : nat)
    (output : list Z) : option (list Z) :=
  match n with
  | O => Some output
  | S n =>
      d ← RT_HMAC_SHA256 key ([octet; 0] ++ rest) 32;
      kdf_loop n key (u8 (octet + 1)) rest (currentindex + 32) (bwrite output currentindex d)
  end.

Definition KDF (alloc : bool) (key label data output : list Z) (len : Z) : option (list Z) :=
  let len_in_bits := u32 (Z.shiftl len 3) in
  if negb alloc then Some output
  else if Nat.ltb PRF_BUFFER (2 + length label + length data + 2) then None
  else
    kdf_loop (Z.to_nat (u32 (len_in_bits + 255) / 256)) key 1
      (label ++ data ++ [Z.land len_in_bits 0xFF; Z.shiftr (Z.land len_in_bits 0xFF00) 8]) 0 output.

(** 0: equal, 1: the first is larger, 2: the second is larger. *)
Fixpoint compare_loop (l1 l2 : list Z) : Z :=
  match l1, l2 with
  | x :: l1, y :: l2 => if y <? x then 1 else if x <? y then 2 else compare_loop l1 l2
  | _, _ => 0
  end.
Definition RTMPCompareMemory (pSrc1 pSrc2 : list Z) (Length : nat) : Z :=
  compare_loop (take Length pSrc1) (take Length pSrc2).

(** "Pairwise key expansion" and "Group key expansion" *)
Definition ptk_prefix : list Z :=
  [80; 97; 105; 114; 119; 105; 115; 101; 32; 107; 101; 121; 32; 101; 120; 112; 97; 110; 115; 105; 111; 110].
Definition gtk_prefix : list Z :=
  [71; 114; 111; 117; 112; 32; 107; 101; 121; 32; 101; 120; 112; 97; 110; 115; 105; 111; 110].

(** The 76 bytes hashed with the PMK. *)
Definition ptk_concatenation (ANonce AA SNonce SA : list Z) : list Z :=
  let smaller := if RTMPCompareMemory SA AA 6 =? 1 then take 6 AA else take 6 SA in
  let larger := if RTMPCompareMemory SA AA 6 =? 1 then take 6 SA else take 6 AA in
  let temp := bwrite (zeros 32) 0 larger in
  let n1 := if RTMPCompareMemory ANonce SNonce 32 =? 0 then temp
            else if RTMPCompareMemory ANonce SNonce 32 =? 1 then take 32 SNonce else take 32 ANonce in
  let n2 := if RTMPCompareMemory ANonce SNonce 32 =? 0 then temp
            else if RTMPCompareMemory ANonce SNonce 32 =? 1 then take 32 ANonce else take 32 SNonce in
  smaller ++ larger ++ n1 ++ n2.

Definition LEN_PMK : nat := 32.

Definition WpaDerivePTK (alloc : bool) (PMK ANonce AA SNonce SA output : list Z) (len : nat)
    : option (list Z) :=
  PRF alloc (take LEN_PMK PMK) ptk_prefix (ptk_concatenation ANonce AA SNonce SA) output len.

(** [temp] is the uninitialised 80-byte buffer on the stack. *)
Definition WpaDeriveGTK (alloc : bool) (GMK GNonce AA temp output : list Z) (len : nat)
    : option (list Z) :=
  temp ← PRF alloc (take LEN_PMK GMK) gtk_prefix (take 6 AA ++ take 32 GNonce) temp len;
  Some (bwrite output 0 (take len temp)).

(** [counter[pos]++] from the last byte on; the list is reversed. *)
Fixpoint inc_rev (l : list Z) : list Z :=
  match l with
  | [] => []
  | b :: l => if u8 (b + 1) =? 0 then 0 :: inc_rev l else u8 (b + 1) :: l
  end.
Definition inc_byte_array (counter : list Z) : list Z := rev (inc_rev (rev counter)).

Fixpoint inc_iv_loop (iv : list Z) (carry : bool) (cnt : Z) : list Z :=
  match iv with
  | [] => []
  | b :: iv =>
      let b' := if carry then u8 (b + 1) else u8 (b + cnt) in
      if b <? b' then b' :: iv else b' :: inc_iv_loop iv true cnt
  end.
Definition inc_iv_byte (iv : list Z) (cnt : Z) : list Z := inc_iv_loop iv false cnt.

(** * The derivation functions against their standards *)

(** HMAC-SHA-1 and HMAC-SHA-256 of RFC 2104. *)
Abbreviation hmac1 := (@hmac_spec sha1).
Abbreviation hmac256 := (@hmac_spec sha256).

Lemma hmac1_eq key m :
  Z.of_nat (length key) + 64 ≤ 2 ^ 32 → Z.of_nat (length m) + 64 ≤ 2 ^ 32 →
  RT_HMAC_SHA1 key m SHA1_DIGEST_SIZE = Some (hmac1 key m) ∧ length (hmac1 key m) = SHA1_DIGEST_SIZE.
Proof.
  intros Hk Hm. pose proof (sha1_digest_shape) as Hs.
  assert (length (hmac1 key m) = SHA1_DIGEST_SIZE) as Hl by (unfold hmac_spec; apply Hs).
  split; [|done]. unfold RT_HMAC_SHA1.
  rewrite HMAC_spec; [|intros; apply Hs|unfold SHA1_DIGEST_SIZE; lia|done..].
  by rewrite take_ge by lia.
Qed.

Lemma hmac256_eq key m :
  Z.of_nat (length key) + 64 ≤ 2 ^ 32 → Z.of_nat (length m) + 64 ≤ 2 ^ 32 →
  RT_HMAC_SHA256 key m 32 = Some (hmac256 key m) ∧ length (hmac256 key m) = 32%nat.
Proof.
  intros Hk Hm. pose proof (sha256_digest_shape) as Hs.
  assert (length (hmac256 key m) = SHA256_DIGEST_SIZE) as Hl by (unfold hmac_spec; apply Hs).
  split; [|done]. unfold RT_HMAC_SHA256.
  rewrite HMAC_spec; [|intros; apply Hs|unfold SHA256_DIGEST_SIZE; lia|done..].
  rewrite take_ge; [done|]. rewrite Hl. unfold SHA256_DIGEST_SIZE. lia.
Qed.

(** What a loop over an octet counter writes. *)
Fixpoint blocks (G : Z → list Z) (n : nat) (i : Z) : list Z :=
  match n with
  | O => []
  | S n => G i ++ blocks G n (u8 (i + 1))
  end.

Lemma blocks_seqZ G n : ∀ i,
  0 ≤ i → i + Z.of_nat n ≤ 256 → blocks G n i = concat (map G (seqZ i (Z.of_nat n))).
Proof.
  induction n as [|n IH]; intros i Hi Hn; [done|]. rewrite seqZ_cons by lia. simpl. f_equal.
  replace (Z.pred (Z.of_nat (S n))) with (Z.of_nat n) by lia.
  destruct n as [|n]; [done|].
  rewrite wrap_id by (lia || (unfold in_range; lia)). apply IH; lia.
Qed.

Lemma length_concat_map (G : Z → list Z) D (l : list Z) :
  (∀ i, length (G i) = D) → length (concat (map G l)) = (D * length l)%nat.
Proof. intros H. induction l as [|i l IH]; simpl; [lia|]. rewrite length_app, H, IH. lia. Qed.

Lemma prf_loop_spec key body n : ∀ octet idx output,
  Z.of_nat (length key) + 64 ≤ 2 ^ 32 → Z.of_nat (length body) + 65 ≤ 2 ^ 32 →
  (idx + 20 * n ≤ length output)%nat →
  prf_loop n key body octet idx output =
  Some (bwrite output idx (blocks (λ i, hmac1 key (body ++ [i])) n octet)).
Proof.
  induction n as [|n IH]; intros octet idx output Hk Hb Ho; cbn [prf_loop blocks].
  { f_equal. unfold bwrite. simpl. by rewrite Nat.add_0_r, take_drop. }
  destruct (hmac1_eq key (body ++ [octet])) as [-> Hl]; [done|rewrite length_app; simpl; lia|].
  cbn [mbind option_bind]. unfold SHA1_DIGEST_SIZE in Hl.
  rewrite IH; [|done|done|rewrite length_bwrite; lia]. f_equal.
  rewrite <- Hl at 1. apply bwrite_bwrite_app. lia.
Qed.

(** PRF of IEEE 802.11i, 8.5.1.1: the leading [len] bytes of the digests of
    the label, a zero, the data and a counting octet. *)
Definition prf_stream (key prefix data : list Z) (n : nat) : list Z :=
  concat (map (λ i, hmac1 key (prefix ++ [0] ++ data ++ [i])) (seqZ 0 (Z.of_nat n))).

Lemma length_hmac1 key m : length (hmac1 key m) = 20%nat.
Proof. unfold hmac_spec. apply sha1_digest_shape. Qed.

Lemma length_hmac256 key m : length (hmac256 key m) = 32%nat.
Proof. unfold hmac_spec. apply sha256_digest_shape. Qed.

Lemma length_prf_stream key prefix data n : length (prf_stream key prefix data n) = (20 * n)%nat.
Proof.
  unfold prf_stream. rewrite (length_concat_map _ 20), length_seqZ by (intros; apply length_hmac1). lia.
Qed.

Lemma PRF_spec key prefix data output len :
  Z.of_nat (length key) + 64 ≤ 2 ^ 32 → (length prefix + length data + 2 ≤ PRF_BUFFER)%nat →
  Z.of_nat len ≤ 5120 → (20 * ((len + 19) / 20) ≤ length output)%nat →
  PRF true key prefix data output len = Some (bwrite output 0 (prf_stream key prefix data ((len + 19) / 20))).
Proof.
  intros Hk Hd Hn Ho. unfold PRF. cbn [negb].
  rewrite (proj2 (Nat.ltb_ge _ _)) by lia.
  assert (HB : Z.of_nat PRF_BUFFER = 1024) by done.
  rewrite prf_loop_spec; [|done|rewrite !length_app; simpl; lia|lia].
  assert ((len + 19) / 20 ≤ 256)%nat by (zify; zdm).
  do 2 f_equal. rewrite blocks_seqZ by lia. unfold prf_stream. f_equal. apply map_ext. intros i.
  by rewrite <- !app_assoc.
Qed.

Lemma take_bwrite_0 (output l : list Z) n : (n ≤ length l)%nat → take n (bwrite output 0 l) = take n l.
Proof. intros. unfold bwrite. rewrite take_0. simpl. by apply take_app_le. Qed.

(** The pseudo-random function is the PRF of IEEE 802.11i: with a label and
    data of up to 1022 bytes together and at most 5120 bytes requested, the
    leading bytes of the output are those of the concatenated HMAC-SHA-1
    values of label, zero octet, data and counter, and exactly
    20 * ceil(len / 20) bytes of the caller's buffer are written. *)
Theorem prf_is_80211i key prefix data output len
    (Hk : Z.of_nat (length key) + 64 ≤ 2 ^ 32) (Hd : (length prefix + length data + 2 ≤ 1024)%nat)
    (Hn : Z.of_nat len ≤ 5120) (Ho : (20 * ((len + 19) / 20) ≤ length output)%nat) :
  ∃ out, PRF true key prefix data output len = Some out ∧ length out = length output ∧
    take len out = take len (prf_stream key prefix data ((len + 19) / 20)) ∧
    drop (20 * ((len + 19) / 20)) out = drop (20 * ((len + 19) / 20)) output.
Proof.
  assert (HL : (len ≤ 20 * ((len + 19) / 20))%nat).
  { zify. zdm. }
  eexists. split; [by apply PRF_spec|]. split; [|split].
  - rewrite length_bwrite; [done|]. rewrite length_prf_stream. lia.
  - apply take_bwrite_0. rewrite length_prf_stream. lia.
  - apply drop_bwrite; rewrite length_prf_stream; lia.
Qed.

Lemma prf_is_80211i_witness :
  ∃ out, PRF true [1; 2; 3] [4] [5; 6] (zeros 100) 64 = Some out ∧ length out = length (zeros 100) ∧
    take 64 out = take 64 (prf_stream [1; 2; 3] [4] [5; 6] ((64 + 19) / 20)) ∧
    drop (20 * ((64 + 19) / 20)) out = drop (20 * ((64 + 19) / 20)) (zeros 100).
Proof. apply (prf_is_80211i [1; 2; 3] [4] [5; 6] (zeros 100) 64); vm_compute; try lia; discriminate. Defined.

(** * The pass-phrase hash *)

(** PBKDF2 of RFC 2898 with HMAC-SHA-1: block [i] of [c] iterations. *)
Definition pbkdf2_u (password salt : list Z) (i : Z) (k : nat) : list Z :=
  Nat.iter k (hmac1 password) (hmac1 password (salt ++ be_bytes 4 i)).
Definition pbkdf2_block (password salt : list Z) (c : nat) (i : Z) : list Z :=
  foldl xor_list (pbkdf2_u password salt i 0) (map (pbkdf2_u password salt i) (seq 1 (c - 1))).

Lemma f_loop_spec password n : ∀ d out,
  Z.of_nat (length password) + 64 ≤ 2 ^ 32 → length d = 20%nat →
  f_loop n password d out =
  Some (foldl xor_list out (map (λ k, Nat.iter k (hmac1 password) d) (seq 1 n))).
Proof.
  induction n as [|n IH]; intros d out Hp Hd; [done|]. cbn [f_loop].
  destruct (hmac1_eq password d) as [-> Hl]; [done|lia|]. cbn [mbind option_bind].
  rewrite IH by done. cbn [seq map foldl]. f_equal. f_equal. rewrite <- (fmap_S_seq 1).
  change (S <$> seq 1 n) with (map S (seq 1 n)). rewrite map_map. apply map_ext. intros k.
  symmetry. apply Nat.iter_succ_r.
Qed.

Lemma F_spec password ssid c i :
  (length password ≤ 63)%nat → (length ssid ≤ 32)%nat → (i = 1 ∨ i = 2) →
  F password ssid c i = Some (pbkdf2_block password ssid c i).
Proof.
  intros Hp Hs Hi. unfold F. rewrite (proj2 (Nat.ltb_ge _ _)) by lia.
  replace [Z.land (Z.shiftr i 24) 0xff; Z.land (Z.shiftr i 16) 0xff; Z.land (Z.shiftr i 8) 0xff; Z.land i 0xff]
    with (be_bytes 4 i) by (destruct Hi as [->| ->]; reflexivity).
  destruct (hmac1_eq password (ssid ++ be_bytes 4 i)) as [-> Hl];
    [lia|rewrite length_app, length_be_bytes; lia|]. cbn [mbind option_bind].
  by rewrite f_loop_spec by (done || lia).
Qed.

Lemma length_xor_fold (l : list (list Z)) : ∀ out,
  Forall (λ d, length d = length out) l → length (foldl xor_list out l) = length out.
Proof.
  induction l as [|d l IH]; intros out H; simpl; [done|]. apply Forall_cons in H as [Hd H].
  assert (length (xor_list out d) = length out) as Hx by by apply length_xor_list.
  rewrite IH; [done|]. by rewrite Hx.
Qed.

Lemma length_pbkdf2 password salt c i : length (pbkdf2_block password salt c i) = 20%nat.
Proof.
  assert (∀ k, length (pbkdf2_u password salt i k) = 20%nat) as H.
  { intros [|k]; apply length_hmac1. }
  unfold pbkdf2_block. rewrite length_xor_fold; [apply H|].
  apply Forall_map, Forall_true. intros k. by rewrite !H.
Qed.

(** The pass-phrase hash is PBKDF2: for a pass phrase of at most 63 and an
    SSID of at most 32 bytes the 40 bytes written are the two blocks of
    PBKDF2-HMAC-SHA-1 with 4096 iterations, the first 32 of which are the
    pre-shared key of IEEE 802.11i; longer inputs are refused and nothing is
    written. *)
Theorem passphrase_is_pbkdf2 password ssid output (Ho : (40 ≤ length output)%nat) :
  RtmpPasswordHash password ssid output =
  if bool_decide (length password ≤ 63 ∧ length ssid ≤ 32)%nat
  then Some (1, bwrite output 0 (pbkdf2_block password ssid 4096 1 ++ pbkdf2_block password ssid 4096 2))
  else Some (0, output).
Proof.
  unfold RtmpPasswordHash. destruct (decide (length password ≤ 63 ∧ length ssid ≤ 32)%nat) as [[Hp Hs]|Hn].
  - rewrite bool_decide_true by done. rewrite !(proj2 (Nat.ltb_ge _ _)) by lia. cbn [orb].
    rewrite !F_spec by (done || auto). cbn [mbind option_bind]. do 2 f_equal.
    pose proof (length_pbkdf2 password ssid 4096 1) as Hl. unfold SHA1_DIGEST_SIZE.
    rewrite <- Hl at 2. apply (bwrite_bwrite_app output 0). rewrite Hl. lia.
  - rewrite bool_decide_false by done.
    destruct (Nat.ltb_spec 63 (length password)); [done|].
    destruct (Nat.ltb_spec 32 (length ssid)); [done|]. exfalso. apply Hn. lia.
Qed.

Lemma passphrase_is_pbkdf2_witness :
  RtmpPasswordHash (replicate 64 65) [1; 2] (zeros 40) = Some (0, zeros 40).
Proof.
  rewrite (passphrase_is_pbkdf2 (replicate 64 65) [1; 2] (zeros 40)); [reflexivity|vm_compute; lia].
Defined.

(** * The KDF *)

(** KDF of IEEE 802.11r, 8.5.1.5.2: counter and length are 16-bit little-endian
    words. *)
Definition kdf_stream (key label data : list Z) (len : Z) (n : nat) : list Z :=
  concat (map (λ i, hmac256 key (le_bytes 2 i ++ label ++ data ++ le_bytes 2 (8 * len)))
    (seqZ 1 (Z.of_nat n))).

Lemma kdf_loop_spec key rest n : ∀ octet idx output,
  Z.of_nat (length key) + 64 ≤ 2 ^ 32 → Z.of_nat (length rest) + 66 ≤ 2 ^ 32 →
  (idx + 32 * n ≤ length output)%nat →
  kdf_loop n key octet rest idx output =
  Some (bwrite output idx (blocks (λ i, hmac256 key ([i; 0] ++ rest)) n octet)).
Proof.
  induction n as [|n IH]; intros octet idx output Hk Hb Ho; cbn [kdf_loop blocks].
  { f_equal. unfold bwrite. simpl. by rewrite Nat.add_0_r, take_drop. }
  destruct (hmac256_eq key ([octet; 0] ++ rest)) as [-> Hl]; [done|rewrite length_app; simpl; lia|].
  cbn [mbind option_bind]. rewrite IH; [|done|done|rewrite length_bwrite; lia]. f_equal.
  rewrite <- Hl at 1. apply bwrite_bwrite_app. lia.
Qed.

Lemma le_bytes_octet i : 0 ≤ i < 256 → le_bytes 2 i = [i; 0].
Proof.
  intros Hi. unfold le_bytes. simpl. rewrite Z.shiftr_0_r, wrap_id by (done || (unfold in_range; lia)).
  f_equal. change (8 * Z.of_nat 1) with 8. rewrite Z.shiftr_div_pow2 by lia.
  by rewrite (Z.div_small i) by (simpl; lia).
Qed.

(** The KDF with the 16-bit counter in range: at most 255 digests. *)
Lemma KDF_spec key label data output len :
  Z.of_nat (length key) + 64 ≤ 2 ^ 32 → (length label + length data + 4 ≤ 1024)%nat →
  0 ≤ len ≤ 8160 → (32 * Z.to_nat ((8 * len + 255) / 256) ≤ length output)%nat →
  KDF true key label data output len =
  Some (bwrite output 0 (kdf_stream key label data len (Z.to_nat ((8 * len + 255) / 256)))).
Proof.
  intros Hk Hd Hn Ho. unfold KDF. cbn [negb].
  assert (HB : PRF_BUFFER = 1024%nat) by done.
  rewrite (proj2 (Nat.ltb_ge _ _)) by (rewrite HB; lia).
  rewrite Z.shiftl_mul_pow2 by lia. replace (len * 2 ^ 3) with (8 * len) by lia.
  rewrite (wrap_id 32 (8 * len)), (wrap_id 32 (8 * len + 255)) by (lia || (unfold in_range; lia)).
  rewrite kdf_loop_spec; [|done|rewrite !length_app; simpl; lia|lia].
  assert ((8 * len + 255) / 256 ≤ 255) by zdm. assert (0 ≤ (8 * len + 255) / 256) by zdm.
  do 2 f_equal. rewrite blocks_seqZ by lia. unfold kdf_stream. f_equal. apply map_ext_in. intros i Hi.
  apply list_elem_of_In, elem_of_seqZ in Hi. rewrite le_bytes_octet by lia. do 4 f_equal.
  change 0xFF00 with (Z.shiftl 0xFF 8). rewrite Z.shiftr_land, Z.shiftr_shiftl_l by lia.
  unfold le_bytes. simpl. by rewrite Z.shiftr_0_r.
Qed.

(** * The pairwise key *)

Lemma compare_loop_spec l1 : ∀ l2,
  length l1 = length l2 → bytes l1 → bytes l2 →
  compare_loop l1 l2 =
  match be_word l1 ?= be_word l2 with Eq => 0 | Gt => 1 | Lt => 2 end.
Proof.
  induction l1 as [|x l1 IH]; intros [|y l2] Hl H1 H2; try done. simpl in Hl.
  apply Forall_cons in H1 as [Hx H1], H2 as [Hy H2]. cbn [compare_loop].
  rewrite !be_word_cons_add by done. replace (length l2) with (length l1) by lia.
  pose proof (be_word_range l1 H1) as B1. pose proof (be_word_range l2 H2) as B2.
  replace (length l2) with (length l1) in B2 by lia.
  set (P := 2 ^ (8 * Z.of_nat (length l1))) in *. unfold in_range in *. fold P in B1, B2.
  destruct (Z.ltb_spec y x); [|destruct (Z.ltb_spec x y)].
  - by rewrite (proj2 (Z.compare_gt_iff _ _)) by nia.
  - by rewrite (proj2 (Z.compare_lt_iff _ _)) by nia.
  - replace y with x by lia. rewrite (IH l2) by (done || lia).
    by rewrite !(Z.add_comm _ (x * P)), Z.add_compare_mono_l.
Qed.

(** The smaller and the larger of two byte strings, as the standard orders
    addresses and nonces: by their big-endian value. *)
Definition lo (a b : list Z) : list Z := if be_word a <=? be_word b then a else b.
Definition hi (a b : list Z) : list Z := if be_word a <=? be_word b then b else a.

Lemma rev_inj (l1 l2 : list Z) : rev l1 = rev l2 → l1 = l2.
Proof. intros H. by rewrite <- (rev_involutive l1), H, rev_involutive. Qed.

Lemma be_word_inj l1 l2 :
  length l1 = length l2 → bytes l1 → bytes l2 → be_word l1 = be_word l2 → l1 = l2.
Proof.
  intros Hl H1 H2 E. pose proof (Forall_rev H1) as R1. pose proof (Forall_rev H2) as R2.
  apply rev_inj. rewrite <- (le_bytes_le_word (rev l1)), <- (le_bytes_le_word (rev l2)) by done.
  unfold be_word in E. by rewrite E, !length_rev, Hl.
Qed.

Lemma ptk_concatenation_spec ANonce AA SNonce SA :
  length AA = 6%nat → length SA = 6%nat → length ANonce = 32%nat → length SNonce = 32%nat →
  bytes AA → bytes SA → bytes ANonce → bytes SNonce → ANonce ≠ SNonce →
  ptk_concatenation ANonce AA SNonce SA = lo AA SA ++ hi AA SA ++ lo ANonce SNonce ++ hi ANonce SNonce.
Proof.
  intros HA HS HN HM BA BS BN BM Hne. unfold ptk_concatenation, RTMPCompareMemory.
  rewrite !take_ge by lia. rewrite !compare_loop_spec by (done || lia).
  assert (be_word ANonce ≠ be_word SNonce) by (intros E; apply Hne; apply be_word_inj; done || lia).
  assert ((if (match be_word SA ?= be_word AA with Eq => 0 | Gt => 1 | Lt => 2 end) =? 1 then AA else SA)
    = lo AA SA ∧ (if (match be_word SA ?= be_word AA with Eq => 0 | Gt => 1 | Lt => 2 end) =? 1 then SA else AA)
    = hi AA SA) as [-> ->].
  { unfold lo, hi. destruct (Z.compare_spec (be_word SA) (be_word AA)) as [E|E|E]; simpl.
    - assert (SA = AA) as -> by (apply be_word_inj; done || lia). by rewrite Z.leb_refl.
    - by rewrite (proj2 (Z.leb_gt _ _)).
    - by rewrite (proj2 (Z.leb_le _ _)) by lia. }
  unfold lo, hi. destruct (Z.compare_spec (be_word ANonce) (be_word SNonce)) as [E|E|E]; simpl; [done| |].
  - by rewrite (proj2 (Z.leb_le _ _) (Z.lt_le_incl _ _ E)).
  - by rewrite (proj2 (Z.leb_gt _ _) E).
Qed.

Lemma lo_hi_comm a b : length a = length b → bytes a → bytes b → lo a b = lo b a ∧ hi a b = hi b a.
Proof.
  intros Hl Ha Hb. unfold lo, hi.
  destruct (Z.leb_spec (be_word a) (be_word b)), (Z.leb_spec (be_word b) (be_word a)); try done; [|lia].
  assert (a = b) as -> by (apply be_word_inj; done || lia). done.
Qed.

(** Both ends of a link derive the same pairwise key, and it is the one of
    IEEE 802.11i: for distinct nonces the key is the PRF of the PMK with the
    label "Pairwise key expansion" and the smaller and the larger address, the
    smaller and the larger nonce; exchanging the roles of the two stations
    does not change it. *)
Theorem ptk_derivation PMK ANonce AA SNonce SA output len
    (HA : length AA = 6%nat) (HS : length SA = 6%nat) (HN : length ANonce = 32%nat)
    (HM : length SNonce = 32%nat) (BA : bytes AA) (BS : bytes SA) (BN : bytes ANonce) (BM : bytes SNonce)
    (Hne : ANonce ≠ SNonce) (HP : length PMK = 32%nat) (Hn : Z.of_nat len ≤ 5120)
    (Ho : (20 * ((len + 19) / 20) ≤ length output)%nat) :
  WpaDerivePTK true PMK ANonce AA SNonce SA output len =
    Some (bwrite output 0 (prf_stream PMK ptk_prefix
      (lo AA SA ++ hi AA SA ++ lo ANonce SNonce ++ hi ANonce SNonce) ((len + 19) / 20))) ∧
  WpaDerivePTK true PMK SNonce SA ANonce AA output len = WpaDerivePTK true PMK ANonce AA SNonce SA output len.
Proof.
  assert (E1 := ptk_concatenation_spec ANonce AA SNonce SA HA HS HN HM BA BS BN BM Hne).
  assert (E2 := ptk_concatenation_spec SNonce SA ANonce AA HS HA HM HN BS BA BM BN (not_eq_sym Hne)).
  destruct (lo_hi_comm AA SA) as [C1 C2]; [lia|done..|].
  destruct (lo_hi_comm ANonce SNonce) as [C3 C4]; [lia|done..|].
  rewrite <- C1, <- C2, <- C3, <- C4, <- E1 in E2.
  unfold WpaDerivePTK. rewrite E2. split; [|done]. rewrite E1, (take_ge PMK) by (unfold LEN_PMK; lia).
  assert (HB : PRF_BUFFER = 1024%nat) by done.
  apply PRF_spec; [lia| |done|done].
  assert (∀ a b n, length a = n → length b = n → length (lo a b) = n ∧ length (hi a b) = n) as Hlh.
  { intros a b n Ha Hb. unfold lo, hi. by destruct (_ <=? _). }
  destruct (Hlh AA SA 6%nat) as [L1 L2]; [done..|]. destruct (Hlh ANonce SNonce 32%nat) as [L3 L4]; [done..|].
  rewrite !length_app, L1, L2, L3, L4, HB. simpl. lia.
Qed.

Lemma ptk_derivation_witness :
  let A := replicate 6 7 in let S := replicate 6 9 in let n := replicate 32 3 in let m := replicate 32 4 in
  WpaDerivePTK true (zeros 32) m S n A (zeros 80) 64 = WpaDerivePTK true (zeros 32) n A m S (zeros 80) 64.
Proof.
  apply (ptk_derivation (zeros 32) (replicate 32 3) (replicate 6 7) (replicate 32 4) (replicate 6 9) (zeros 80) 64);
    try reflexivity; try solve_bytes; try discriminate; vm_compute; lia || discriminate.
Defined.

(** Without memory for its input the PRF returns as if it had succeeded and
    the key buffer keeps what it held. *)
Example ptk_alloc_failure PMK ANonce AA SNonce SA output len :
  WpaDerivePTK false PMK ANonce AA SNonce SA output len = Some output.
Proof. reflexivity. Qed.

(** * Counters *)

Lemma le_word_cons_add b l : byte b → le_word (b :: l) = b + le_word l * 2 ^ 8.
Proof. intros Hb. cbn [le_word]. by apply lor_shiftl_add. Qed.

(** The value of [n] more bytes than the first, modulo their width. *)
Lemma wrap_cons n b v : byte b →
  wrap (8 * Z.of_nat (S n)) (b + v * 2 ^ 8) = b + wrap (8 * Z.of_nat n) v * 2 ^ 8.
Proof.
  intros Hb. rewrite !wrap_mod by lia. replace (8 * Z.of_nat (S n)) with (8 + 8 * Z.of_nat n) by lia.
  assert (HP : 0 < 2 ^ (8 * Z.of_nat n)) by (apply Z.pow_pos_nonneg; lia).
  unfold in_range in Hb. rewrite Z.pow_add_r, (Z.rem_mul_r _ (2 ^ 8) (2 ^ (8 * Z.of_nat n))) by lia.
  rewrite Z.mod_add, Z.mod_small, Z.div_add, (Z.div_small b) by lia. rewrite Z.add_0_l. lia.
Qed.

Lemma inc_rev_spec l : bytes l →
  le_word (inc_rev l) = wrap (8 * Z.of_nat (length l)) (le_word l + 1) ∧ bytes (inc_rev l) ∧
  length (inc_rev l) = length l.
Proof.
  induction 1 as [|b l Hb Hl (IH1 & IH2 & IH3)]; [done|]. cbn [inc_rev length].
  pose proof Hb as Hb'. unfold in_range in Hb'. rewrite (wrap_mod 8) by lia.
  destruct (Z.eqb_spec ((b + 1) mod 2 ^ 8) 0) as [E|E].
  - assert (b = 255) as -> by zdm. split; [|split; [by constructor|simpl; by rewrite IH3]].
    rewrite !le_word_cons_add, IH1 by done.
    replace (255 + le_word l * 2 ^ 8 + 1) with (0 + (le_word l + 1) * 2 ^ 8) by lia.
    by rewrite wrap_cons.
  - assert (Em : (b + 1) mod 2 ^ 8 = b + 1) by (apply Z.mod_small; zdm). rewrite Em in *.
    assert (byte (b + 1)) by (unfold in_range; zdm).
    split; [|split; [by constructor|done]]. rewrite !le_word_cons_add by done.
    replace (b + le_word l * 2 ^ 8 + 1) with (b + 1 + le_word l * 2 ^ 8) by lia.
    rewrite wrap_cons by done. rewrite (wrap_id _ (le_word l)) by (lia || by apply le_word_range). done.
Qed.

Lemma inc_byte_array_spec c : bytes c →
  be_word (inc_byte_array c) = wrap (8 * Z.of_nat (length c)) (be_word c + 1) ∧
  bytes (inc_byte_array c) ∧ length (inc_byte_array c) = length c.
Proof.
  intros Hc. destruct (inc_rev_spec (rev c)) as (H1 & H2 & H3); [by apply Forall_rev|].
  unfold inc_byte_array, be_word. rewrite rev_involutive, H1, !length_rev. split; [done|].
  split; [by apply Forall_rev|]. rewrite H3. apply length_rev.
Qed.

Lemma inc_iv_carry l cnt : bytes l →
  le_word (inc_iv_loop l true cnt) = wrap (8 * Z.of_nat (length l)) (le_word l + 1) ∧
  bytes (inc_iv_loop l true cnt) ∧ length (inc_iv_loop l true cnt) = length l.
Proof.
  intros Hl. assert (inc_iv_loop l true cnt = inc_rev l) as ->; [|by apply inc_rev_spec].
  induction Hl as [|b l Hb Hl IH]; [done|]. cbn [inc_iv_loop inc_rev].
  rewrite IH. pose proof Hb as Hb'. unfold in_range in Hb'. rewrite wrap_mod by lia.
  destruct (Z.ltb_spec b ((b + 1) mod 2 ^ 8)), (Z.eqb_spec ((b + 1) mod 2 ^ 8) 0); try done; try lia.
  by replace ((b + 1) mod 2 ^ 8) with 0 by lia.
Qed.

(** The packet counters count: the little-endian transmit counter goes up
    by the number of fragments (1 to 255) and the big-endian replay counter by
    one, as numbers modulo their width, with every carry; length and byte
    range are kept. *)
Theorem counters_count iv c cnt (Hiv : bytes iv) (Hc : bytes c) (Hn : 1 ≤ cnt ≤ 255) :
  le_word (inc_iv_byte iv cnt) = wrap (8 * Z.of_nat (length iv)) (le_word iv + cnt) ∧
  bytes (inc_iv_byte iv cnt) ∧ length (inc_iv_byte iv cnt) = length iv ∧
  be_word (inc_byte_array c) = wrap (8 * Z.of_nat (length c)) (be_word c + 1) ∧
  bytes (inc_byte_array c) ∧ length (inc_byte_array c) = length c.
Proof.
  enough (le_word (inc_iv_byte iv cnt) = wrap (8 * Z.of_nat (length iv)) (le_word iv + cnt) ∧
    bytes (inc_iv_byte iv cnt) ∧ length (inc_iv_byte iv cnt) = length iv) as (? & ? & ?)
    by (destruct (inc_byte_array_spec c Hc) as (? & ? & ?); by conjs).
  unfold inc_iv_byte.
  destruct Hiv as [|b l Hb Hl]; [split; [unfold wrap; simpl; by rewrite Z.land_0_r|by split]|]. cbn [inc_iv_loop length].
  pose proof Hb as Hb'. unfold in_range in Hb'. rewrite (wrap_mod 8) by lia.
  assert (byte ((b + cnt) mod 2 ^ 8)) by (apply Z.mod_pos_bound; lia).
  rewrite (le_word_cons_add b) by done.
  destruct (Z.ltb_spec b ((b + cnt) mod 2 ^ 8)) as [E|E].
  - assert ((b + cnt) mod 2 ^ 8 = b + cnt) as Em by zdm. rewrite Em in *.
    split; [|split; [by constructor|done]]. rewrite le_word_cons_add by done.
    replace (b + le_word l * 2 ^ 8 + cnt) with (b + cnt + le_word l * 2 ^ 8) by lia.
    rewrite wrap_cons by done. by rewrite (wrap_id _ (le_word l)) by (lia || by apply le_word_range).
  - destruct (inc_iv_carry l cnt Hl) as (H1 & H2 & H3).
    split; [|split; [by constructor|simpl; by rewrite H3]]. rewrite le_word_cons_add, H1 by done.
    replace (b + le_word l * 2 ^ 8 + cnt) with ((b + cnt) mod 2 ^ 8 + (le_word l + 1) * 2 ^ 8) by zdm.
    by rewrite wrap_cons.
Qed.

Lemma counters_count_witness :
  le_word (inc_iv_byte [250; 255; 3] 9) = wrap 24 (le_word [250; 255; 3] + 9).
Proof. apply (counters_count [250; 255; 3] [0; 255] 9); [solve_bytes|solve_bytes|lia]. Defined.

(** An increment by 0 counts 256. *)
Example inc_iv_by_zero : inc_iv_byte [7; 1; 0] 0 = [7; 2; 0].
Proof. reflexivity. Qed.
