(* ===== verification/Eapol.v ===== *)
(** EAPOL-Key frames: the packet layout of src/include/dot11i_wpa.h and, of
    src/common/cmm_wpa.c, the construction of a frame (ConstructEapolMsg,
    ConstructEapolKeyData, CalculateMIC, WPA_ConstructKdeHdr,
    RTMPInsertRSNIE) and the keys that it installs (WPAInstallPairwiseKey,
    WPAInstallSharedKey, RTMPSetWcidSecurityInfo), in the station build
    (without PMF, AP and AP-client mode).

    A packet is a record with the fields of the C structure; [KeyData] is
    whatever follows the structure in its buffer.  [None] is an access outside
    a buffer or through a null pointer. *)

From S2P Require Import Prelude CipherKey BlockHash Md5 Sha Hmac Arc4 Michael Tkip Aes BlockCipher AesCcm.
From S2P Require Import AesCmac AesKeyWrap WpaKeys Mlme BaReorder BaSession MacTable.

(** * Constants *)

Definition EAPOL_VER : Z := 1.
Definition EAPOL_VER2 : Z := 2.
Definition EAPOLKey : Z := 3.
Definition WPA1_KEY_DESC : Z := 0xfe.
Definition WPA2_KEY_DESC : Z := 0x02.
Definition KEY_DESC_TKIP : Z := 1.
Definition KEY_DESC_AES : Z := 2.
Definition KEY_DESC_EXT : Z := 3.
Definition GROUPKEY : Z := 0.
Definition MIN_LEN_OF_EAPOL_KEY_MSG : Z := 95.
Definition LENGTH_EAPOL_H : Z := 4.
Definition LEN_KEY_DESC_REPLAY : nat := 8.
Definition LEN_KEY_DESC_NONCE : nat := 32.
Definition LEN_KEY_DESC_MIC : nat := 16.
Definition LEN_PTK_KCK : nat := 16.
Definition LEN_TK : nat := 16.
Definition LEN_PTK : nat := 64.
Definition LEN_TKIP_TK : Z := 32.
Definition LEN_AES_TK : Z := 16.
Definition LEN_TKIP_GTK : Z := 32.
Definition LEN_AES_GTK : Z := 16.
Definition OFFSET_OF_PTK_TK : nat := 32.
Definition OFFSET_OF_AP_TKIP_TX_MIC : nat := 48.
Definition OFFSET_OF_AP_TKIP_RX_MIC : nat := 56.
Definition OFFSET_OF_STA_TKIP_RX_MIC : nat := 48.
Definition OFFSET_OF_STA_TKIP_TX_MIC : nat := 56.
Definition TX_EAPOL_BUFFER : nat := 1500.
Definition EAPOL_PAIR_MSG_1 : Z := 1.
Definition EAPOL_PAIR_MSG_2 : Z := 2.
Definition EAPOL_PAIR_MSG_3 : Z := 3.
Definition EAPOL_PAIR_MSG_4 : Z := 4.
Definition EAPOL_GROUP_MSG_1 : Z := 5.
Definition EAPOL_GROUP_MSG_2 : Z := 6.
Definition WPA_KDE_TYPE : Z := 0xdd.
Definition KDE_GTK : Z := 1.
Definition IE_WPA : Z := 221.
Definition IE_RSN : Z := 48.
Definition OUI_WPA2 : list Z := [0x00; 0x0F; 0xAC].
#[global] Arguments TX_EAPOL_BUFFER : simpl never.

(** Enumerators of include/oid.h. *)
Definition MAX_LEN_OF_RSNIE : nat := 255.
Definition Ndis802_11AuthModeWPAPSK : Z := 4.
Definition Ndis802_11AuthModeWPA2 : Z := 6.
Definition Ndis802_11AuthModeWPA2PSK : Z := 7.
Definition Ndis802_11WEPDisabled : Z := 1.
Definition Ndis802_11TKIPEnable : Z := 4.
Definition Ndis802_11AESEnable : Z := 6.
Definition Ndis802_11GroupWEP40Enabled : Z := 10.
Definition Ndis802_11GroupWEP104Enabled : Z := 11.

(** * The packet *)

(** [KEY_INFO], the little-endian branch; bit fields of 1, 2 and 3 bits. *)
Record KEY_INFO := mk_info {
  ki_KeyMic : Z;
  ki_Secure : Z;
  ki_Error : Z;
  ki_Request : Z;
  ki_EKD_DL : Z;
  ki_Rsvd : Z;
  ki_KeyDescVer : Z;
  ki_KeyType : Z;
  ki_KeyIndex : Z;
  ki_Install : Z;
  ki_KeyAck : Z
}.

Definition field (b pos width : Z) : Z := wrap width (Z.shiftr b pos).
Definition info_of (b0 b1 : Z) : KEY_INFO :=
  mk_info (field b0 0 1) (field b0 1 1) (field b0 2 1) (field b0 3 1) (field b0 4 1) (field b0 5 3)
    (field b1 0 3) (field b1 3 1) (field b1 4 2) (field b1 6 1) (field b1 7 1).
Definition info_bytes (k : KEY_INFO) : list Z :=
  [ki_KeyMic k + 2 * ki_Secure k + 4 * ki_Error k + 8 * ki_Request k + 16 * ki_EKD_DL k + 32 * ki_Rsvd k;
   ki_KeyDescVer k + 8 * ki_KeyType k + 16 * ki_KeyIndex k + 64 * ki_Install k + 128 * ki_KeyAck k].

(** [EAPOL_PACKET] with its [KEY_DESCRIPTER]. *)
Record EAPOL_PACKET := mk_eapol {
  ProVer : Z;
  ProType : Z;
  Body_Len : list Z;
  kd_Type : Z;
  kd_KeyInfo : KEY_INFO;
  kd_KeyLength : list Z;
  kd_ReplayCounter : list Z;
  kd_KeyNonce : list Z;
  kd_KeyIv : list Z;
  kd_KeyRsc : list Z;
  kd_KeyId : list Z;
  kd_KeyMic : list Z;
  kd_KeyDataLen : list Z;
  kd_KeyData : list Z
}.

(** The structure as it lies in memory, and a buffer seen as the structure. *)
Definition eapol_bytes (p : EAPOL_PACKET) : list Z :=
  [ProVer p; ProType p] ++ Body_Len p ++ [kd_Type p] ++ info_bytes (kd_KeyInfo p) ++ kd_KeyLength p ++
  kd_ReplayCounter p ++ kd_KeyNonce p ++ kd_KeyIv p ++ kd_KeyRsc p ++ kd_KeyId p ++ kd_KeyMic p ++
  kd_KeyDataLen p ++ kd_KeyData p.
Definition eapol_of (b : list Z) : EAPOL_PACKET :=
  mk_eapol (aget b 0) (aget b 1) (slice b 2 2) (aget b 4) (info_of (aget b 5) (aget b 6)) (slice b 7 2)
    (slice b 9 8) (slice b 17 32) (slice b 49 16) (slice b 65 8) (slice b 73 8) (slice b 81 16)
    (slice b 97 2) (drop 99 b).

(** The macros on 16-bit lengths. *)
Definition CONV_ARRARY_TO_UINT16 (v : list Z) : Z := Z.lor (Z.shiftl (aget v 0) 8) (aget v 1).
Definition SET_UINT16_TO_ARRARY (n : Z) : list Z := [Z.shiftr (u16 n) 8; Z.land (u16 n) 0xFF].
Definition INC_UINT16_TO_ARRARY (v : list Z) (n : Z) : list Z :=
  let var_len := u16 (u16 (CONV_ARRARY_TO_UINT16 v) + n) in
  [Z.shiftr (Z.land var_len 0xFF00) 8; Z.land var_len 0xFF].

Definition set_KeyMic (m : list Z) (p : EAPOL_PACKET) : EAPOL_PACKET :=
  mk_eapol (ProVer p) (ProType p) (Body_Len p) (kd_Type p) (kd_KeyInfo p) (kd_KeyLength p) (kd_ReplayCounter p)
    (kd_KeyNonce p) (kd_KeyIv p) (kd_KeyRsc p) (kd_KeyId p) m (kd_KeyDataLen p) (kd_KeyData p).
Definition set_KeyData (bl dl d : list Z) (p : EAPOL_PACKET) : EAPOL_PACKET :=
  mk_eapol (ProVer p) (ProType p) bl (kd_Type p) (kd_KeyInfo p) (kd_KeyLength p) (kd_ReplayCounter p)
    (kd_KeyNonce p) (kd_KeyIv p) (kd_KeyRsc p) (kd_KeyId p) (kd_KeyMic p) dl d.

(** [NdisMoveMemory(dst, src, n)]: both ranges lie inside their buffers. *)
Definition move (dst src : list Z) (n : nat) : option (list Z) :=
  if Nat.leb n (length src) && Nat.leb n (length dst) then Some (bwrite dst 0 (take n src)) else None.

(** * What the environment decides

    The outcomes of the allocations, the contents of memory that was not
    initialised and the readings of the clock. *)
Record wpa_env := mk_wenv {
  al_keydata : bool;
  al_prf : bool;
  al_pool : bool;
  al_build : bool;
  al_mic : bool;
  al_wrap : bool;
  al_arc4 : bool;
  al_aes : nat → bool;
  junk_block : list Z;
  junk_egtk : list Z;
  junk_ptk : list Z;
  clock : nat → Z
}.

(** * The MIC of a frame *)

(** The three algorithms; any other version leaves the zeroed buffer. *)
Definition eapol_mic (E : wpa_env) (KeyDescVer : Z) (ptk frame : list Z) : option (list Z) :=
  let kck := take LEN_PTK_KCK ptk in
  if KeyDescVer =? KEY_DESC_TKIP then RT_HMAC_MD5 kck frame 16
  else if KeyDescVer =? KEY_DESC_AES then
    digest ← RT_HMAC_SHA1 kck frame SHA1_DIGEST_SIZE; Some (take LEN_KEY_DESC_MIC digest)
  else if KeyDescVer =? KEY_DESC_EXT then
    '(mic, _) ← @AES_CMAC (aes_calls (al_aes E)) kck 16 0 frame (zeros 16) 16; Some mic
  else Some (zeros LEN_KEY_DESC_MIC).

(** The part of the packet that is covered: [Body_Len] + 4 bytes. *)
Definition eapol_frame (p : EAPOL_PACKET) : option (list Z) :=
  let n := Z.to_nat (CONV_ARRARY_TO_UINT16 (Body_Len p) + 4) in
  if Nat.leb n (length (eapol_bytes p)) then Some (take n (eapol_bytes p)) else None.

(** The frame is copied to a buffer of 512 bytes. *)
Definition CalculateMIC (E : wpa_env) (KeyDescVer : Z) (ptk : list Z) (pMsg : EAPOL_PACKET)
    : option EAPOL_PACKET :=
  if negb (al_mic E) then Some pMsg
  else
    frame ← eapol_frame pMsg;
    if Nat.ltb 512 (length frame) then None
    else mic ← eapol_mic E KeyDescVer ptk frame; Some (set_KeyMic mic pMsg).

(** * The key data *)

Definition WPA_ConstructKdeHdr (data_type data_len : Z) : list Z :=
  [WPA_KDE_TYPE; u8 (4 + data_len)] ++ OUI_WPA2 ++ [data_type].

(** The element appended to the frame; [None] for a read past the end of the
    element of the caller. *)
Definition RTMPInsertRSNIE (rsnie pmkid : list Z) (rsnie_len : nat) : option (list Z) :=
  let pmkid_len := Z.of_nat (length pmkid) in
  let with_list := (0 <? pmkid_len) && (Z.land pmkid_len 0x0f =? 0) in
  if Nat.eqb rsnie_len 0 then Some []
  else if Nat.ltb (length rsnie) (Nat.max 5 rsnie_len) then None
  else
    let rsn := bool_decide (slice rsnie 2 3 = OUI_WPA2) in
    let total_len := u8 (Z.of_nat rsnie_len + if rsn && with_list then 2 + pmkid_len else 0) in
    Some ([if rsn then IE_RSN else IE_WPA; total_len] ++ take rsnie_len rsnie ++
      if rsn && with_list then le_bytes 2 (Z.shiftr pmkid_len 4) ++ pmkid else []).

(** The padding of IEEE 802.11i for the AES key wrap. *)
Definition wrap_padding (n : nat) : list Z :=
  if Nat.eqb (n mod 8) 0 then [] else 0xDD :: zeros (8 - n mod 8 - 1).

Definition bWPA2 (e : MAC_TABLE_ENTRY) : bool :=
  (AuthMode e =? Ndis802_11AuthModeWPA2) || (AuthMode e =? Ndis802_11AuthModeWPA2PSK).

(** Encryption of the key data with the KEK of the pairwise key; [eGTK] is the
    scratch buffer, of which the leading bytes are used. *)
Definition encrypt_key_data (E : wpa_env) (KeyDescVer : Z) (ptk iv data : list Z) : option (list Z) :=
  let kek := slice ptk LEN_PTK_KCK LEN_PTK_KEK in
  if KeyDescVer =? KEY_DESC_AES then
    let data := data ++ wrap_padding (length data) in
    let '(_, eGTK, wrap_len) :=
      @AES_Key_Wrap (aes_calls (al_aes E)) kek 16 0 (al_wrap E) (junk_block E) data (junk_egtk E) 0 in
    Some (take (Z.to_nat wrap_len) eGTK)
  else
    let n := length data in
    let eGTK := junk_egtk E in
    Some (take n (TKIP_GTK_KEY_WRAP (al_arc4 E) kek iv (eGTK ++ data) (length eGTK) n 0)).

(** The group key, with its KDE in WPA2 mode. *)
Definition gtk_data (wpa2 : bool) (GroupKeyWepStatus DefaultKeyIdx : Z) (GTK : option (list Z))
    : option (list Z) :=
  let gtk_len := if GroupKeyWepStatus =? Ndis802_11AESEnable then LEN_AES_GTK else LEN_TKIP_GTK in
  GTK ← GTK;
  if Nat.ltb (length GTK) (Z.to_nat gtk_len) then None
  else Some ((if wpa2 then WPA_ConstructKdeHdr KDE_GTK (2 + gtk_len) ++ [Z.land DefaultKeyIdx 0x03; 0x00]
              else []) ++ take (Z.to_nat gtk_len) GTK).

(** The contents of the field for the messages that have one. *)
Definition key_data_for (E : wpa_env) (e : MAC_TABLE_ENTRY)
    (GroupKeyWepStatus keyDescVer MsgType DefaultKeyIdx : Z) (GTK : option (list Z)) (RSNIE : list Z)
    (RSNIE_LEN : nat) (KeyIv : list Z) : option (list Z) :=
  ie ← (if negb (Nat.eqb RSNIE_LEN 0) && ((MsgType =? EAPOL_PAIR_MSG_2) || (MsgType =? EAPOL_PAIR_MSG_3))
        then RTMPInsertRSNIE RSNIE [] RSNIE_LEN else Some []);
  let GTK_Included := ((MsgType =? EAPOL_PAIR_MSG_3) && bWPA2 e) || (MsgType =? EAPOL_GROUP_MSG_1) in
  if GTK_Included then
    g ← gtk_data (bWPA2 e) GroupKeyWepStatus DefaultKeyIdx GTK;
    encrypt_key_data E keyDescVer (PTK (wpa e)) KeyIv (ie ++ g)
  else Some ie.

Definition no_key_data (MsgType : Z) : bool :=
  (MsgType =? EAPOL_PAIR_MSG_1) || (MsgType =? EAPOL_PAIR_MSG_4) || (MsgType =? EAPOL_GROUP_MSG_2).

Definition ConstructEapolKeyData (E : wpa_env) (e : MAC_TABLE_ENTRY)
    (GroupKeyWepStatus keyDescVer MsgType DefaultKeyIdx : Z) (GTK : option (list Z)) (RSNIE : list Z)
    (RSNIE_LEN : nat) (pMsg : EAPOL_PACKET) : option EAPOL_PACKET :=
  if no_key_data MsgType then Some pMsg
  else if negb (al_build E) then Some pMsg
  else
    data ← key_data_for E e GroupKeyWepStatus keyDescVer MsgType DefaultKeyIdx GTK RSNIE RSNIE_LEN (kd_KeyIv pMsg);
    KeyData ← move (kd_KeyData pMsg) data (length data);
    Some (set_KeyData (INC_UINT16_TO_ARRARY (Body_Len pMsg) (Z.of_nat (length data)))
            (SET_UINT16_TO_ARRARY (Z.of_nat (length data))) KeyData pMsg).

(** * The frame *)

Definition key_desc_ver (e : MAC_TABLE_ENTRY) (GroupKeyWepStatus : Z) : Z :=
  if (WepStatus e =? Ndis802_11AESEnable) || (GroupKeyWepStatus =? Ndis802_11AESEnable)
  then KEY_DESC_AES else KEY_DESC_TKIP.

(** The key information, field by field over what the buffer holds. *)
Definition msg_info (e : MAC_TABLE_ENTRY) (GroupKeyWepStatus MsgType DefaultKeyIdx : Z) (k : KEY_INFO) : KEY_INFO :=
  let wpa2 := bWPA2 e in
  let group := EAPOL_GROUP_MSG_1 <=? MsgType in
  mk_info
    (if negb (MsgType =? EAPOL_PAIR_MSG_1) then 1 else ki_KeyMic k)
    (if (wpa2 && (EAPOL_PAIR_MSG_3 <=? MsgType)) || (negb wpa2 && group) then 1 else ki_Secure k)
    (ki_Error k) (ki_Request k)
    (if wpa2 && ((MsgType =? EAPOL_PAIR_MSG_3) || (MsgType =? EAPOL_GROUP_MSG_1)) then 1 else ki_EKD_DL k)
    (ki_Rsvd k)
    (key_desc_ver e GroupKeyWepStatus)
    (if group then GROUPKEY else PAIRWISEKEY)
    (if negb wpa2 && group then wrap 2 DefaultKeyIdx else ki_KeyIndex k)
    (if MsgType =? EAPOL_PAIR_MSG_3 then 1 else ki_Install k)
    (if (MsgType =? EAPOL_PAIR_MSG_1) || (MsgType =? EAPOL_PAIR_MSG_3) || (MsgType =? EAPOL_GROUP_MSG_1)
     then 1 else ki_KeyAck k).

(** The second byte of the key length, [None] where it is left alone. *)
Definition msg_key_length (e : MAC_TABLE_ENTRY) (GroupKeyWepStatus MsgType : Z) : option Z :=
  let pairwise := if WepStatus e =? Ndis802_11TKIPEnable then LEN_TKIP_TK else LEN_AES_TK in
  if bWPA2 e then
    if (MsgType =? EAPOL_PAIR_MSG_1) || (MsgType =? EAPOL_PAIR_MSG_3) then Some pairwise else None
  else if EAPOL_GROUP_MSG_1 <=? MsgType then
    Some (if GroupKeyWepStatus =? Ndis802_11TKIPEnable then LEN_TKIP_GTK else LEN_AES_GTK)
  else Some pairwise.

(** [NdisMoveMemory] from a pointer of the caller, which may be null. *)
Definition copy_in (guard : bool) (dst : list Z) (src : option (list Z)) (n : nat) : option (list Z) :=
  if guard then s ← src; move dst s n else Some dst.

Definition ConstructEapolMsg (E : wpa_env) (e : MAC_TABLE_ENTRY)
    (GroupKeyWepStatus MsgType DefaultKeyIdx : Z) (KeyNonce TxRSC GTK : option (list Z)) (RSNIE : list Z)
    (RSNIE_Len : nat) (pMsg : EAPOL_PACKET) : option EAPOL_PACKET :=
  let wpa2 := bWPA2 e in
  let wpa1_group1 := negb wpa2 && (MsgType =? EAPOL_GROUP_MSG_1) in
  Nonce ← copy_in ((MsgType <=? EAPOL_PAIR_MSG_3) || wpa1_group1) (kd_KeyNonce pMsg) KeyNonce LEN_KEY_DESC_NONCE;
  Iv ← copy_in wpa1_group1 (kd_KeyIv pMsg) (drop 16 <$> KeyNonce) LEN_KEY_DESC_IV;
  let Iv := if wpa1_group1 then aset Iv 15 (u8 (aget Iv 15 + 2)) else Iv in
  Rsc ← copy_in (((MsgType =? EAPOL_PAIR_MSG_3) && wpa2) || (MsgType =? EAPOL_GROUP_MSG_1)) (kd_KeyRsc pMsg) TxRSC 6;
  let pMsg :=
    mk_eapol EAPOL_VER EAPOLKey (SET_UINT16_TO_ARRARY MIN_LEN_OF_EAPOL_KEY_MSG)
      (if wpa2 then WPA2_KEY_DESC else WPA1_KEY_DESC)
      (msg_info e GroupKeyWepStatus MsgType DefaultKeyIdx (kd_KeyInfo pMsg))
      (match msg_key_length e GroupKeyWepStatus MsgType with
       | Some l => aset (kd_KeyLength pMsg) 1 l
       | None => kd_KeyLength pMsg
       end)
      (take LEN_KEY_DESC_REPLAY (R_Counter (wpa e))) Nonce Iv Rsc (kd_KeyId pMsg) (zeros LEN_KEY_DESC_MIC)
      (kd_KeyDataLen pMsg) (kd_KeyData pMsg) in
  pMsg ← ConstructEapolKeyData E e GroupKeyWepStatus (key_desc_ver e GroupKeyWepStatus) MsgType DefaultKeyIdx
           GTK RSNIE RSNIE_Len pMsg;
  if negb (MsgType =? EAPOL_PAIR_MSG_1)
  then CalculateMIC E (key_desc_ver e GroupKeyWepStatus) (PTK (wpa e)) pMsg
  else Some pMsg.

(** [NdisZeroMemory(pEapolFrame, TX_EAPOL_BUFFER)] *)
Definition zero_eapol : EAPOL_PACKET := eapol_of (zeros TX_EAPOL_BUFFER).

(** What is handed to RTMPToWirelessSta. *)
Definition eapol_sent (p : EAPOL_PACKET) : option (list Z) := eapol_frame p.

(** * The keys *)

(** Calls to the chip, to the network stack and to user space. *)
Inductive wpa_event :=
| Ev_AsicAddPairwiseKeyEntry (w : nat) (k : CIPHER_KEY)
| Ev_AsicAddSharedKeyEntry (bss idx : Z) (k : CIPHER_KEY)
| Ev_AsicUpdateWCIDIVEIV (w : nat) (IV EIV : Z)
| Ev_AsicUpdateWcidAttribute (bss idx alg : Z) (w : nat) (pairwise : bool)
| Ev_WirelessEvent (flag : Z) (addr : list Z)
| Ev_IndicateMediaState
| Ev_ToWirelessSta (w : nat) (Header802_3 data : list Z) (bClearFrame : bool).

Definition set_key_alg (k : CIPHER_KEY) (alg : Z) : CIPHER_KEY :=
  mk_key (Key k) (TxMic k) (RxMic k) (TxTsc k) (RxTsc k) alg (KeyLen k) (BssId k) (KeyType k).

(** Random bytes for a WEP IV are drawn by RandomByte; the packet number of
    TKIP and CCMP starts at 1. *)
Definition RTMPSetWcidSecurityInfo (TxTsc : list Z) (BssIdx KeyIdx alg : Z) (w : nat) (pairwise : bool)
    : list wpa_event :=
  let upd IV := [Ev_AsicUpdateWCIDIVEIV w IV 0; Ev_AsicUpdateWcidAttribute BssIdx KeyIdx alg w pairwise] in
  if (alg =? CIPHER_WEP64) || (alg =? CIPHER_WEP128) then
    let IV_KEYID := u8 (Z.shiftl KeyIdx 6) in
    upd (u32 (Z.lor (Z.lor (Z.shiftl IV_KEYID 24) (Z.shiftl (aget TxTsc 2) 16))
                    (Z.lor (Z.shiftl (aget TxTsc 1) 8) (aget TxTsc 0))))
  else if (alg =? CIPHER_TKIP) || (alg =? CIPHER_AES) then
    let IV_KEYID := u8 (Z.lor (Z.shiftl KeyIdx 6) 0x20) in
    upd (u32 (Z.lor (Z.shiftl IV_KEYID 24) 1))
  else [].

(** The pairwise key of an entry and the calls that install it; without
    SOFT_ENCRYPT for this entry. *)
Definition WPAInstallPairwiseKey (BssIdx : Z) (e : MAC_TABLE_ENTRY) (bAE : bool)
    : CIPHER_KEY * list wpa_event :=
  let p := PTK (wpa e) in
  let install alg tx rx :=
    let k := mk_key (slice p OFFSET_OF_PTK_TK LEN_TK) tx rx (zeros 16) (zeros 16) alg (Z.of_nat LEN_TK) (zeros 6) 0 in
    (k, Ev_AsicAddPairwiseKeyEntry (wcid e) k :: RTMPSetWcidSecurityInfo [] BssIdx 0 alg (wcid e) true) in
  if WepStatus e =? Ndis802_11TKIPEnable then
    if bAE
    then install CIPHER_TKIP (slice p OFFSET_OF_AP_TKIP_TX_MIC LEN_TKIP_MIC) (slice p OFFSET_OF_AP_TKIP_RX_MIC LEN_TKIP_MIC)
    else install CIPHER_TKIP (slice p OFFSET_OF_STA_TKIP_TX_MIC LEN_TKIP_MIC) (slice p OFFSET_OF_STA_TKIP_RX_MIC LEN_TKIP_MIC)
  else if WepStatus e =? Ndis802_11AESEnable then install CIPHER_AES (zeros 8) (zeros 8)
  else (zero_key, []).

Definition group_alg (GroupCipher : Z) : option Z :=
  if GroupCipher =? Ndis802_11GroupWEP40Enabled then Some CIPHER_WEP64
  else if GroupCipher =? Ndis802_11GroupWEP104Enabled then Some CIPHER_WEP128
  else if GroupCipher =? Ndis802_11TKIPEnable then Some CIPHER_TKIP
  else if GroupCipher =? Ndis802_11AESEnable then Some CIPHER_AES
  else None.

(** The new contents of [SharedKey[BssIdx][KeyIdx]] and the calls; [pGtk] is
    the 32-byte group key, [GtkLen] the length received; for a wcid of 0
    (the station). *)
Definition WPAInstallSharedKey (GroupCipher BssIdx KeyIdx : Z) (bAE : bool) (pGtk : list Z) (GtkLen : Z)
    : CIPHER_KEY * list wpa_event :=
  match group_alg GroupCipher with
  | None => (zero_key, [])
  | Some alg =>
      if (alg =? CIPHER_WEP64) || (alg =? CIPHER_WEP128) then
        if negb (GtkLen =? 5) && negb (GtkLen =? 13) then (set_key_alg zero_key alg, [])
        else
          let k := mk_key (bwrite (zeros 16) 0 (take (Z.to_nat GtkLen) pGtk)) (zeros 8) (zeros 8) (zeros 16) (zeros 16)
                     alg GtkLen (zeros 6) 0 in
          (k, [Ev_AsicAddSharedKeyEntry BssIdx KeyIdx k])
      else if GtkLen <? Z.of_nat LEN_TK then (set_key_alg zero_key alg, [])
      else
        let lo := slice pGtk 16 LEN_TKIP_MIC in
        let hi := slice pGtk 24 LEN_TKIP_MIC in
        let tkip := alg =? CIPHER_TKIP in
        let k := mk_key (take LEN_TK pGtk) (if tkip then if bAE then lo else hi else zeros 8)
                   (if tkip then if bAE then hi else lo else zeros 8) (zeros 16) (zeros 16) alg (Z.of_nat LEN_TK)
                   (zeros 6) 0 in
        (k, [Ev_AsicAddSharedKeyEntry BssIdx KeyIdx k])
  end.
