(* ===== verification/EapolProofs.v ===== *)
(** Lemmas on EAPOL-Key frames: the layout of the packet, the MIC of a frame
    that was built and received, and the round trip of the key data. *)

From Stdlib Require Import ZifyNat.
From stdpp Require Import list.
From S2P Require Import Prelude CipherKey BlockHash Md5 Sha Hmac Arc4 Michael Tkip Aes BlockCipher AesCcm.
From S2P Require Import AesCmac AesKeyWrap WpaKeys Mlme BaReorder BaSession MacTable Eapol.

(** * The packet layout *)

(** The widths of the bit fields. *)
Definition info_ok (k : KEY_INFO) : Prop :=
  in_range 1 (ki_KeyMic k) ∧ in_range 1 (ki_Secure k) ∧ in_range 1 (ki_Error k) ∧ in_range 1 (ki_Request k) ∧
  in_range 1 (ki_EKD_DL k) ∧ in_range 3 (ki_Rsvd k) ∧ in_range 3 (ki_KeyDescVer k) ∧ in_range 1 (ki_KeyType k) ∧
  in_range 2 (ki_KeyIndex k) ∧ in_range 1 (ki_Install k) ∧ in_range 1 (ki_KeyAck k).

(** The array sizes of the structure. *)
Definition packet_ok (p : EAPOL_PACKET) : Prop :=
  info_ok (kd_KeyInfo p) ∧ length (Body_Len p) = 2%nat ∧ length (kd_KeyLength p) = 2%nat ∧
  length (kd_ReplayCounter p) = 8%nat ∧ length (kd_KeyNonce p) = 32%nat ∧ length (kd_KeyIv p) = 16%nat ∧
  length (kd_KeyRsc p) = 8%nat ∧ length (kd_KeyId p) = 8%nat ∧ length (kd_KeyMic p) = 16%nat ∧
  length (kd_KeyDataLen p) = 2%nat.

(** The structure without what follows it. *)
Definition eapol_head (p : EAPOL_PACKET) : list Z :=
  [ProVer p; ProType p] ++ Body_Len p ++ [kd_Type p] ++ info_bytes (kd_KeyInfo p) ++ kd_KeyLength p ++
  kd_ReplayCounter p ++ kd_KeyNonce p ++ kd_KeyIv p ++ kd_KeyRsc p ++ kd_KeyId p ++ kd_KeyMic p ++ kd_KeyDataLen p.

Definition with_data (p : EAPOL_PACKET) (d : list Z) : EAPOL_PACKET :=
  set_KeyData (Body_Len p) (kd_KeyDataLen p) d p.

Lemma eapol_bytes_head p : eapol_bytes p = eapol_head p ++ kd_KeyData p.
Proof. unfold eapol_bytes, eapol_head. by rewrite <- !app_assoc. Qed.

Lemma length_head p : packet_ok p → length (eapol_head p) = 99%nat.
Proof.
  intros (_ & H1 & H2 & H3 & H4 & H5 & H6 & H7 & H8 & H9). unfold eapol_head, info_bytes.
  rewrite !length_app, H1, H2, H3, H4, H5, H6, H7, H8, H9. reflexivity.
Qed.

Lemma field_div b pos w : 0 ≤ pos → 0 ≤ w → field b pos w = (b / 2 ^ pos) mod 2 ^ w.
Proof. intros. unfold field. by rewrite wrap_mod, Z.shiftr_div_pow2. Qed.

Lemma info_round_trip k : info_ok k →
  info_of (aget (info_bytes k) 0) (aget (info_bytes k) 1) = k.
Proof.
  intros (H1 & H2 & H3 & H4 & H5 & H6 & H7 & H8 & H9 & H10 & H11). destruct k.
  unfold info_of, info_bytes, aget, in_range in *. simpl in *. rewrite !field_div by lia. f_equal; zdm.
Qed.

Lemma info_of_ok b0 b1 : info_ok (info_of b0 b1).
Proof. unfold info_ok, info_of, field. simpl. conjs; apply wrap_range; lia. Qed.

Lemma info_bytes_of b0 b1 : byte b0 → byte b1 → info_bytes (info_of b0 b1) = [b0; b1].
Proof.
  unfold in_range. intros H0 H1. unfold info_bytes, info_of. simpl. rewrite !field_div by lia.
  f_equal; [|f_equal]; zdm.
Qed.

(** Reading a field at the offset at which it was laid down. *)
Lemma slice_skip (a b : list Z) o n : (length a ≤ o)%nat → slice (a ++ b) o n = slice b (o - length a) n.
Proof. intros. unfold slice. by rewrite drop_app_ge. Qed.
Lemma slice_here (a b : list Z) n : length a = n → slice (a ++ b) 0 n = a.
Proof. intros <-. unfold slice. rewrite drop_0. apply take_app_length. Qed.
Lemma slice_cons (x : Z) (b : list Z) o n : slice (x :: b) (S o) n = slice b o n.
Proof. done. Qed.
Lemma aget_slice (b : list Z) i : 0 ≤ i → aget b i = aget (drop (Z.to_nat i) b) 0.
Proof. intros. unfold aget. simpl. rewrite nth_lookup, nth_lookup, lookup_drop. by rewrite Nat.add_0_r. Qed.

Ltac slices :=
  repeat (rewrite slice_skip by lia;
          match goal with H : length ?x = _ |- context [length ?x] => rewrite H end; cbn [Nat.sub]);
  by rewrite slice_here.

Lemma eapol_of_head p d : packet_ok p → eapol_of (eapol_head p ++ d) = with_data p d.
Proof.
  intros Hp. pose proof (length_head p Hp) as HL. destruct Hp as (Hi & H1 & H2 & H3 & H4 & H5 & H6 & H7 & H8 & H9).
  pose proof (info_round_trip _ Hi) as HK. unfold eapol_of.
  assert (HD : drop 99 (eapol_head p ++ d) = d) by (rewrite <- HL; apply drop_app_length).
  rewrite HD. clear HD HL. unfold eapol_head. rewrite <- !app_assoc. cbn [app].
  destruct (Body_Len p) as [|l0 [|l1 [|]]] eqn:EB; try done.
  unfold with_data, set_KeyData. rewrite EB. cbn [app].
  unfold info_bytes in *. cbn [app]. rewrite !slice_cons.
  destruct (kd_KeyLength p) as [|k0 [|k1 [|]]] eqn:EK; try done. cbn [app]. rewrite ?slice_cons.
  f_equal; try done; slices.
Qed.

Lemma take_app_drop (b x : list Z) n : x = drop n b → take n b ++ x = b.
Proof. intros ->. apply take_drop. Qed.

(** A buffer seen as the structure and laid down again. *)
Lemma eapol_bytes_of b : (99 ≤ length b)%nat → bytes b → eapol_bytes (eapol_of b) = b ∧ packet_ok (eapol_of b).
Proof.
  intros Hl Hb. do 7 (destruct b as [|? b]; [simpl in Hl; lia|]).
  rewrite !Forall_cons in Hb. destruct Hb as (_ & _ & _ & _ & _ & H5 & H6 & Hb). simpl in Hl. split.
  - unfold eapol_bytes, eapol_of, aget.
    change (Z.to_nat 0) with 0%nat. change (Z.to_nat 1) with 1%nat. change (Z.to_nat 4) with 4%nat.
    change (Z.to_nat 5) with 5%nat. change (Z.to_nat 6) with 6%nat.
    cbn [nth ProVer ProType Body_Len kd_Type kd_KeyInfo kd_KeyLength kd_ReplayCounter kd_KeyNonce kd_KeyIv kd_KeyRsc
      kd_KeyId kd_KeyMic kd_KeyDataLen kd_KeyData]. rewrite info_bytes_of by done.
    unfold slice. cbn [drop take app]. do 7 f_equal. clear.
    repeat (apply take_app_drop; rewrite ?drop_drop; cbn [Nat.add]). done.
  - unfold packet_ok, eapol_of, slice. simpl. rewrite !length_take, !length_drop. conjs; try lia. apply info_of_ok.
Qed.

(** * Lengths *)

Lemma land_ff x : Z.land x 0xFF = x mod 256.
Proof. change 0xFF with (Z.ones 8). by rewrite Z.land_ones. Qed.

Lemma set_uint16_bytes n : SET_UINT16_TO_ARRARY n = [u16 n / 256; u16 n mod 256].
Proof. unfold SET_UINT16_TO_ARRARY. by rewrite Z.shiftr_div_pow2, land_ff. Qed.

Lemma conv_set n : 0 ≤ n < 65536 → CONV_ARRARY_TO_UINT16 (SET_UINT16_TO_ARRARY n) = n.
Proof.
  intros Hn. rewrite set_uint16_bytes, wrap_id by (unfold in_range; lia). unfold CONV_ARRARY_TO_UINT16, aget. simpl.
  rewrite Z.lor_comm, (lor_shiftl_add 8) by (lia || unfold in_range; zdm). zdm.
Qed.

Lemma inc_set a n : 0 ≤ a < 65536 → 0 ≤ n → a + n < 65536 →
  INC_UINT16_TO_ARRARY (SET_UINT16_TO_ARRARY a) n = SET_UINT16_TO_ARRARY (a + n).
Proof.
  intros Ha Hn Hs. unfold INC_UINT16_TO_ARRARY. rewrite conv_set, (wrap_id 16 a) by (lia || unfold in_range; lia).
  rewrite set_uint16_bytes, land_ff. rewrite wrap_id by (unfold in_range; lia). f_equal.
  change 0xFF00 with (Z.shiftl 0xFF 8). rewrite Z.shiftr_land, Z.shiftr_shiftl_l by lia. simpl (8 - 8).
  rewrite Z.shiftl_0_r, land_ff, Z.shiftr_div_pow2 by lia. zdm.
Qed.

Lemma length_set_uint16 n : length (SET_UINT16_TO_ARRARY n) = 2%nat.
Proof. done. Qed.

(** * A packet with [dl] bytes of key data *)

Record built (p : EAPOL_PACKET) (dl : nat) : Prop := {
  bt_ok : packet_ok p;
  bt_body : Body_Len p = SET_UINT16_TO_ARRARY (95 + Z.of_nat dl);
  bt_len : kd_KeyDataLen p = SET_UINT16_TO_ARRARY (Z.of_nat dl);
  bt_room : (dl ≤ length (kd_KeyData p))%nat;
  bt_max : (dl ≤ 400)%nat
}.

(** The bytes on the air, and the packet its receiver sees in a buffer that
    goes on with [rest]. *)
Definition frame_of (p : EAPOL_PACKET) (dl : nat) : list Z := eapol_head p ++ take dl (kd_KeyData p).
Definition received (p : EAPOL_PACKET) (dl : nat) (rest : list Z) : EAPOL_PACKET :=
  with_data p (take dl (kd_KeyData p) ++ rest).

Lemma length_frame_of p dl : built p dl → length (frame_of p dl) = (99 + dl)%nat.
Proof. intros [H1 _ _ H4 _]. unfold frame_of. rewrite length_app, length_head, length_take by done. lia. Qed.

Lemma eapol_frame_built p dl : built p dl → eapol_frame p = Some (frame_of p dl).
Proof.
  intros HB. pose proof (length_frame_of p dl HB) as Hf. destruct HB as [H1 H2 H3 H4 H5].
  unfold eapol_frame, frame_of. rewrite H2, conv_set by lia.
  replace (Z.to_nat (95 + Z.of_nat dl + 4)) with (99 + dl)%nat by lia.
  rewrite eapol_bytes_head, length_app, length_head by done.
  rewrite (proj2 (Nat.leb_le _ _)) by lia. f_equal. rewrite <- (length_head p H1) at 1. apply take_app_add.
Qed.

Lemma built_received p dl rest : built p dl → built (received p dl rest) dl.
Proof.
  intros [H1 H2 H3 H4 H5]. split; try done. unfold received. simpl. rewrite length_app, length_take. lia.
Qed.

Lemma frame_received p dl rest : built p dl → frame_of (received p dl rest) dl = frame_of p dl.
Proof.
  intros [H1 H2 H3 H4 H5]. unfold frame_of, received. simpl. f_equal.
  rewrite take_app_le by (rewrite length_take; lia). by rewrite take_take, Nat.min_id.
Qed.

Lemma eapol_of_frame p dl rest : built p dl → eapol_of (frame_of p dl ++ rest) = received p dl rest.
Proof. intros [H1 _ _ _ _]. unfold frame_of. rewrite <- app_assoc. by apply eapol_of_head. Qed.

Lemma built_mic p dl m : built p dl → length m = 16%nat → built (set_KeyMic m p) dl.
Proof. intros [H1 H2 H3 H4 H5] Hm. split; try done. unfold packet_ok in *. simpl. tauto. Qed.

(** * The MIC *)

Lemma eapol_mic_total E ver ptk frame : ver = KEY_DESC_AES ∨ ver = KEY_DESC_TKIP → (length frame ≤ 600)%nat →
  ∃ mic, eapol_mic E ver ptk frame = Some mic ∧ length mic = 16%nat.
Proof.
  intros Hv Hf. unfold eapol_mic.
  assert (Hk : (length (take LEN_PTK_KCK ptk) ≤ 16)%nat) by (rewrite length_take; unfold LEN_PTK_KCK; lia).
  destruct Hv as [-> | ->].
  - change (KEY_DESC_AES =? KEY_DESC_TKIP) with false. change (KEY_DESC_AES =? KEY_DESC_AES) with true. cbv iota.
    destruct (hmac1_eq (take LEN_PTK_KCK ptk) frame) as [-> Hl]; [lia..|]. cbn [mbind option_bind].
    eexists. split; [done|]. rewrite length_take. unfold LEN_KEY_DESC_MIC, SHA1_DIGEST_SIZE in *. lia.
  - change (KEY_DESC_TKIP =? KEY_DESC_TKIP) with true. cbv iota. unfold RT_HMAC_MD5.
    pose proof md5_digest_shape as Hs.
    rewrite HMAC_spec; [|intros; apply Hs|unfold MD5_DIGEST_SIZE; lia|lia..].
    eexists. split; [done|]. rewrite length_take.
    assert (length (@hmac_spec md5 (take LEN_PTK_KCK ptk) frame) = MD5_DIGEST_SIZE) as -> by (unfold hmac_spec; apply Hs).
    unfold MD5_DIGEST_SIZE. lia.
Qed.

(** The MIC that was filled in is the one the receiver computes over the frame
    with its MIC zeroed. *)
Lemma mic_verifies E ver ptk p dl :
  built p dl → kd_KeyMic p = zeros 16 → al_mic E = true → ver = KEY_DESC_AES ∨ ver = KEY_DESC_TKIP →
  ∃ m, CalculateMIC E ver ptk p = Some (set_KeyMic m p) ∧ length m = 16%nat ∧
    ∀ rest, eapol_frame (set_KeyMic (zeros 16) (received (set_KeyMic m p) dl rest)) = Some (frame_of p dl) ∧
            eapol_mic E ver ptk (frame_of p dl) = Some m.
Proof.
  intros HB H0 Ha Hv. pose proof (length_frame_of p dl HB) as Hl. pose proof (bt_max _ _ HB) as Hm.
  destruct (eapol_mic_total E ver ptk (frame_of p dl) Hv) as (m & Em & Lm); [lia|].
  exists m. unfold CalculateMIC. rewrite Ha, (eapol_frame_built p dl HB). cbn [negb mbind option_bind].
  rewrite (proj2 (Nat.ltb_ge _ _)) by lia. rewrite Em. split; [done|]. split; [done|]. intros rest.
  split; [|done].
  assert (set_KeyMic (zeros 16) (received (set_KeyMic m p) dl rest) = received p dl rest) as ->.
  { destruct p. unfold received, with_data, set_KeyData, set_KeyMic. simpl in *. by subst. }
  rewrite (eapol_frame_built _ dl) by by apply built_received. by rewrite frame_received.
Qed.

(** * A frame under construction *)

(** Memory is available, and the scratch buffers have their sizes. *)
Record reliable (E : wpa_env) : Prop := {
  re_keydata : al_keydata E = true;
  re_prf : al_prf E = true;
  re_pool : al_pool E = true;
  re_build : al_build E = true;
  re_mic : al_mic E = true;
  re_wrap : al_wrap E = true;
  re_arc4 : al_arc4 E = true;
  re_aes : ∀ n, al_aes E n = true;
  re_block : length (junk_block E) = 16%nat;
  re_egtk : length (junk_egtk E) = 512%nat;
  re_ptk : length (junk_ptk E) = 80%nat
}.

(** What a message carries besides its key data. *)
Definition needs_nonce (e : MAC_TABLE_ENTRY) (t : Z) : bool :=
  (t <=? EAPOL_PAIR_MSG_3) || (negb (bWPA2 e) && (t =? EAPOL_GROUP_MSG_1)).
Definition needs_rsc (e : MAC_TABLE_ENTRY) (t : Z) : bool :=
  ((t =? EAPOL_PAIR_MSG_3) && bWPA2 e) || (t =? EAPOL_GROUP_MSG_1).
Definition msg_iv (e : MAC_TABLE_ENTRY) (t : Z) (nonce : list Z) : list Z :=
  if negb (bWPA2 e) && (t =? EAPOL_GROUP_MSG_1)
  then aset (drop 16 nonce) 15 (u8 (aget (drop 16 nonce) 15 + 2)) else zeros 16.
Definition zero_info : KEY_INFO := info_of 0 0.

Record sent (e : MAC_TABLE_ENTRY) (g t idx : Z) (nonce data : list Z) (p : EAPOL_PACKET) : Prop := {
  st_built : built p (length data);
  st_data : take (length data) (kd_KeyData p) = data;
  st_ver : ProVer p = EAPOL_VER;
  st_type : kd_Type p = if bWPA2 e then WPA2_KEY_DESC else WPA1_KEY_DESC;
  st_info : kd_KeyInfo p = msg_info e g t idx zero_info;
  st_replay : kd_ReplayCounter p = R_Counter (wpa e);
  st_nonce : needs_nonce e t = true → kd_KeyNonce p = nonce;
  st_iv : kd_KeyIv p = msg_iv e t nonce
}.

Lemma msg_info_ok e g t idx : info_ok (msg_info e g t idx zero_info).
Proof.
  assert (H0 : info_ok zero_info) by apply info_of_ok. destruct H0 as (? & ? & ? & ? & ? & ? & ? & ? & ? & ? & ?).
  unfold msg_info, info_ok. simpl. unfold key_desc_ver.
  conjs; repeat case_match; try done; try (unfold in_range; simpl; lia). apply wrap_range. lia.
Qed.

Lemma move_all dst src n : (n ≤ length src)%nat → (n ≤ length dst)%nat →
  move dst src n = Some (bwrite dst 0 (take n src)).
Proof. intros. unfold move. by rewrite !(proj2 (Nat.leb_le _ _)). Qed.

Lemma copy_in_spec (b : bool) dst src n s : (b = true → src = Some s ∧ (n ≤ length s)%nat) → (n ≤ length dst)%nat →
  ∃ d, copy_in b dst src n = Some d ∧ length d = length dst ∧ d = if b then bwrite dst 0 (take n s) else dst.
Proof.
  intros H Hd. unfold copy_in. destruct b; [|by eexists].
  destruct H as [-> Hn]; [done|]. cbn [mbind option_bind]. rewrite move_all by done. eexists. split; [done|].
  split; [|done]. apply length_bwrite. rewrite length_take. lia.
Qed.

Lemma length_zero_data : length (kd_KeyData zero_eapol) = 1401%nat.
Proof. reflexivity. Qed.

Lemma key_data_spec E e g ver t idx gtk rsn n p data :
  reliable E → packet_ok p → Body_Len p = SET_UINT16_TO_ARRARY 95 → kd_KeyDataLen p = SET_UINT16_TO_ARRARY 0 →
  length (kd_KeyData p) = 1401%nat → (length data ≤ 400)%nat →
  (if no_key_data t then data = [] else key_data_for E e g ver t idx gtk rsn n (kd_KeyIv p) = Some data) →
  ∃ bl dl d, ConstructEapolKeyData E e g ver t idx gtk rsn n p = Some (set_KeyData bl dl d p) ∧
    built (set_KeyData bl dl d p) (length data) ∧ take (length data) d = data.
Proof.
  intros HE Hp Hb Hk Hl Hd H. unfold ConstructEapolKeyData. destruct (no_key_data t).
  - subst data. exists (Body_Len p), (kd_KeyDataLen p), (kd_KeyData p).
    assert (set_KeyData (Body_Len p) (kd_KeyDataLen p) (kd_KeyData p) p = p) as -> by by destruct p.
    split; [done|]. split; [|by rewrite take_0]. split; try done; simpl; lia.
  - rewrite (re_build _ HE), H. cbn [negb mbind option_bind]. rewrite move_all by lia. cbn [mbind option_bind].
    rewrite Hb, inc_set by lia. eexists _, _, _. split; [done|]. rewrite take_ge by lia.
    assert (length (bwrite (kd_KeyData p) 0 data) = 1401%nat) as Hw by (rewrite length_bwrite; lia).
    split; [|by rewrite take_bwrite_0, take_ge by lia]. split; try done; [|cbn [set_KeyData kd_KeyData]; lia].
    unfold packet_ok in *. simpl. tauto.
Qed.

(** The frame before its MIC. *)
Definition draft (e : MAC_TABLE_ENTRY) (g t idx : Z) (nonce iv rsc : list Z) : EAPOL_PACKET :=
  mk_eapol EAPOL_VER EAPOLKey (SET_UINT16_TO_ARRARY 95) (if bWPA2 e then WPA2_KEY_DESC else WPA1_KEY_DESC)
    (msg_info e g t idx zero_info)
    (match msg_key_length e g t with Some l => [0; l] | None => [0; 0] end)
    (R_Counter (wpa e)) nonce iv rsc (zeros 8) (zeros 16) (SET_UINT16_TO_ARRARY 0) (kd_KeyData zero_eapol).

Lemma draft_ok e g t idx nonce iv rsc :
  length (R_Counter (wpa e)) = 8%nat → length nonce = 32%nat → length iv = 16%nat → length rsc = 8%nat →
  packet_ok (draft e g t idx nonce iv rsc).
Proof.
  intros. unfold packet_ok, draft. simpl. conjs; try done; [apply msg_info_ok|].
  by destruct (msg_key_length e g t).
Qed.

Lemma construct_draft E e g t idx nonce rsc gtk rsn n nn rr :
  length (R_Counter (wpa e)) = 8%nat →
  (needs_nonce e t = true → nonce = Some nn ∧ length nn = 32%nat) →
  (needs_rsc e t = true → rsc = Some rr ∧ (6 ≤ length rr)%nat) →
  ∃ nonce' rsc', length nonce' = 32%nat ∧ length rsc' = 8%nat ∧
    (needs_nonce e t = true → nonce' = nn) ∧
    ConstructEapolMsg E e g t idx nonce rsc gtk rsn n zero_eapol =
    (p ← ConstructEapolKeyData E e g (key_desc_ver e g) t idx gtk rsn n (draft e g t idx nonce' (msg_iv e t nn) rsc');
     if negb (t =? EAPOL_PAIR_MSG_1) then CalculateMIC E (key_desc_ver e g) (PTK (wpa e)) p else Some p).
Proof.
  intros HR HN HC. unfold ConstructEapolMsg. fold (needs_nonce e t) (needs_rsc e t).
  destruct (copy_in_spec (needs_nonce e t) (kd_KeyNonce zero_eapol) nonce LEN_KEY_DESC_NONCE nn) as (d1 & -> & L1 & D1);
    [intros H; destruct (HN H) as [? ->]; split; [done|unfold LEN_KEY_DESC_NONCE; lia]|done|].
  cbn [mbind option_bind].
  destruct (copy_in_spec (negb (bWPA2 e) && (t =? EAPOL_GROUP_MSG_1)) (kd_KeyIv zero_eapol) (drop 16 <$> nonce)
    LEN_KEY_DESC_IV (drop 16 nn)) as (d2 & -> & L2 & D2); [|done|].
  { intros H. destruct HN as [-> Hl]; [unfold needs_nonce; rewrite H; apply orb_true_r|].
    split; [done|]. rewrite length_drop. unfold LEN_KEY_DESC_IV. lia. }
  cbn [mbind option_bind].
  destruct (copy_in_spec (needs_rsc e t) (kd_KeyRsc zero_eapol) rsc 6 rr) as (d3 & -> & L3 & D3);
    [done|assert (length (kd_KeyRsc zero_eapol) = 8%nat) as -> by done; lia|].
  cbn [mbind option_bind]. exists d1, d3. split; [done|]. split; [done|]. split.
  - intros H. destruct (HN H) as [_ Hl]. rewrite D1, H, take_ge by (unfold LEN_KEY_DESC_NONCE; lia). by apply bwrite_all.
  - assert (Hiv : (if negb (bWPA2 e) && (t =? EAPOL_GROUP_MSG_1) then aset d2 15 (u8 (aget d2 15 + 2)) else d2) = msg_iv e t nn).
    { unfold msg_iv. rewrite D2. destruct (negb (bWPA2 e) && (t =? EAPOL_GROUP_MSG_1)) eqn:H; [|done].
      destruct HN as [_ Hl]; [unfold needs_nonce; rewrite H; apply orb_true_r|].
      rewrite take_ge, bwrite_all by (rewrite ?length_drop; unfold LEN_KEY_DESC_IV; simpl; lia). done. }
    rewrite Hiv. unfold draft. rewrite take_ge by (unfold LEN_KEY_DESC_REPLAY; lia). done.
Qed.

Lemma key_desc_ver_cases e g : key_desc_ver e g = KEY_DESC_AES ∨ key_desc_ver e g = KEY_DESC_TKIP.
Proof. unfold key_desc_ver. destruct (_ || _); auto. Qed.

(** A message as it is built, with its MIC for every type but the first. *)
Lemma construct_spec E e g t idx nonce rsc gtk rsn n nn rr data :
  reliable E → length (R_Counter (wpa e)) = 8%nat →
  (needs_nonce e t = true → nonce = Some nn ∧ length nn = 32%nat) →
  (needs_rsc e t = true → rsc = Some rr ∧ (6 ≤ length rr)%nat) →
  (length data ≤ 400)%nat →
  (if no_key_data t then data = []
   else key_data_for E e g (key_desc_ver e g) t idx gtk rsn n (msg_iv e t nn) = Some data) →
  ∃ p, ConstructEapolMsg E e g t idx nonce rsc gtk rsn n zero_eapol = Some p ∧ sent e g t idx nn data p ∧
    (t ≠ EAPOL_PAIR_MSG_1 → ∀ rest, ∃ frame,
       eapol_frame (set_KeyMic (zeros 16) (received p (length data) rest)) = Some frame ∧
       eapol_mic E (key_desc_ver e g) (PTK (wpa e)) frame = Some (kd_KeyMic p)).
Proof.
  intros HE HR HN HC Hd Hk.
  assert (Hiv : length (msg_iv e t nn) = 16%nat).
  { unfold msg_iv. destruct (negb (bWPA2 e) && (t =? EAPOL_GROUP_MSG_1)) eqn:H; [|done].
    destruct HN as [_ Hl]; [unfold needs_nonce; rewrite H; apply orb_true_r|].
    unfold aset. rewrite length_insert, length_drop. lia. }
  destruct (construct_draft E e g t idx nonce rsc gtk rsn n nn rr HR HN HC) as (nonce' & rsc' & Ln & Lr & HNn & ->).
  set (p0 := draft e g t idx nonce' (msg_iv e t nn) rsc').
  assert (Hp0 : packet_ok p0) by by apply draft_ok.
  destruct (key_data_spec E e g (key_desc_ver e g) t idx gtk rsn n p0 data) as (bl & dl & d & -> & HB & Hdat); try done.
  cbn [mbind option_bind]. set (p1 := set_KeyData bl dl d p0) in *.
  assert (Hs : ∀ m, length m = 16%nat → sent e g t idx nn data (set_KeyMic m p1)).
  { intros m Hm. split; try done. by apply built_mic. }
  destruct (Z.eqb_spec t EAPOL_PAIR_MSG_1) as [->|Ht]; cbn [negb].
  - exists p1. split; [done|]. split; [|done].
    assert (p1 = set_KeyMic (zeros 16) p1) as -> by done. by apply Hs.
  - destruct (mic_verifies E (key_desc_ver e g) (PTK (wpa e)) p1 (length data)) as (m & -> & Lm & Hm); try done;
      [apply HE|apply key_desc_ver_cases|].
    exists (set_KeyMic m p1). split; [done|]. split; [by apply Hs|]. intros _ rest.
    exists (frame_of p1 (length data)). apply Hm.
Qed.
