(* ===== verification/MicCounter.v ===== *)
(** The countermeasures against MIC failures: src/sta/wpa.c,
    RTMPReportMicError, WpaMicFailureReportFrame, WpaDisassocApAndBlockAssoc
    and WpaSendEapolStart, and the lifting of the block in
    STAMlmePeriodicExec of src/common/mlme.c.

    Two MIC failures within 60 seconds make the station report them, leave its
    access point and refuse to authenticate or associate for 60 seconds. *)

From stdpp Require Import list.
From S2P Require Import Prelude CipherKey BlockHash Md5 Sha Hmac Arc4 Wep Mlme BaReorder MacTable.
From S2P Require Import WpaKeys Tkip Eapol EapolProofs MlmeProofs MlmeClaims MlmeWait StaAuth StaAuthClaims.

(** * Constants *)

Definition OID_802_11_MIC_FAILURE_REPORT_FRAME : Z := 0x0528.
Definition IW_COUNTER_MEASURES_EVENT_FLAG : Z := 0x0204.
Definition REASON_MIC_FAILURE : Z := 14.
Definition PAIRWISE_KEY : Z := 1.
Definition EAPOLStart : Z := 1.
Definition MAX_SEQ_NUMBER : Z := 0x0fff.

(** * Definitions *)

(** [MicErrCnt], [LastMicErrorTime], [ReplayCounter] and the timer. *)
Definition upd_mic (f : mic_state → mic_state) (pAd : adapter) : adapter :=
  upd_sta (λ s, set_mic (f (sw_mic s)) s) pAd.

Definition count_error (cnt now : Z) (m : mic_state) : mic_state :=
  mk_mic (bBlockAssoc m) cnt now (mc_ReplayCounter m) (WpaDisassocAndBlockAssocTimer m).
Definition zero_replay (m : mic_state) : mic_state :=
  mk_mic (bBlockAssoc m) (MicErrCnt m) (LastMicErrorTime m) (zeros 8) (WpaDisassocAndBlockAssocTimer m).
Definition set_block_timer (t : option Z) (m : mic_state) : mic_state :=
  mk_mic (bBlockAssoc m) (MicErrCnt m) (LastMicErrorTime m) (mc_ReplayCounter m) t.
Definition set_block (b : bool) (m : mic_state) : mic_state :=
  mk_mic b (MicErrCnt m) (LastMicErrorTime m) (mc_ReplayCounter m) (WpaDisassocAndBlockAssocTimer m).

Section ticks.
(** Ticks of the kernel in a second. *)
Context (OS_HZ : Z).

(** [Now] is the reading of the clock, [bssid_addr] the address of the access
    point's entry, [Type] that of the key. *)
Definition RTMPReportMicError (Now : Z) (bssid_addr : list Z) (Type_ : Z) (pAd : adapter) : option adapter :=
  let unicastKey := if Type_ =? PAIRWISE_KEY then 1 else 0 in
  let m := sw_mic (rest pAd) in
  let pAd :=
    if MicErrCnt m =? 0 then upd_mic (λ m, zero_replay (count_error 1 Now m)) pAd
    else if MicErrCnt m =? 1 then
      if u64 (LastMicErrorTime m + 60 * OS_HZ) <? Now then upd_mic (count_error 1 Now) pAd
      else upd_mic (count_error 2 Now)
             (upd_sta (emit [Ev_SendWirelessEvent IW_COUNTER_MEASURES_EVENT_FLAG (Some bssid_addr)]) pAd)
    else pAd in
  pAd ← enqueue MLME_CNTL_STATE_MACHINE OID_802_11_MIC_FAILURE_REPORT_FRAME 1 (Some [unicastKey]) pAd;
  Some (if MicErrCnt (sw_mic (rest pAd)) =? 2 then upd_mic (set_block_timer (Some 100)) pAd else pAd).

(** The block ends 60 seconds after the last failure, unless a supplicant in
    user space is in charge. *)
Definition lift_block (WpaSupplicantUP : bool) (Now32 : Z) (pAd : adapter) : adapter :=
  let m := sw_mic (rest pAd) in
  if negb WpaSupplicantUP && bBlockAssoc m && RTMP_TIME_AFTER Now32 (u64 (LastMicErrorTime m + 60 * OS_HZ))
  then upd_mic (set_block false) pAd else pAd.
End ticks.

(** The report before its MIC is filled in; the bits of the key information
    that are set. *)
Definition report_packet (bUnicast : bool) (WepStatus : Z) (counter : list Z) : EAPOL_PACKET :=
  let z := zero_eapol in
  mk_eapol EAPOL_VER EAPOLKey (SET_UINT16_TO_ARRARY MIN_LEN_OF_EAPOL_KEY_MSG) WPA1_KEY_DESC
    (mk_info 1 0 1 1 0 0 (if WepStatus =? Ndis802_11AESEnable then 2 else 1) (if bUnicast then PAIRWISEKEY else GROUPKEY) 0 0 0)
    (kd_KeyLength z) (take LEN_KEY_DESC_REPLAY counter) (kd_KeyNonce z) (kd_KeyIv z) (kd_KeyRsc z) (kd_KeyId z) (kd_KeyMic z)
    (kd_KeyDataLen z) (kd_KeyData z).

(** [al_pool] and [al_out] are the outcomes of the two allocations. *)
Definition WpaMicFailureReportFrame (al_pool al_out : bool) (Elem : MLME_QUEUE_ELEM) (pAd : adapter) : option adapter :=
  let bUnicast := aget (el_Msg Elem) 0 =? 1 in
  let pAd := upd_sta (λ s, set_Sequence (Z.land (sw_Sequence s + 1) MAX_SEQ_NUMBER) s) pAd in
  let c := sw_conf (rest pAd) in
  let hdr := take 6 (own_bssid c) ++ take 6 (own_address c) ++ [0x88; 0x8E] in
  if negb al_pool then Some pAd
  else
    let counter := mc_ReplayCounter (sw_mic (rest pAd)) in
    let p := report_packet bUnicast (own_WepStatus c) counter in
    let pAd := upd_mic (λ m, mk_mic (bBlockAssoc m) (MicErrCnt m) (LastMicErrorTime m) (inc_byte_array (mc_ReplayCounter m))
                               (WpaDisassocAndBlockAssocTimer m)) pAd in
    if negb al_out then Some pAd
    else
      frame ← eapol_frame p;
      Mic ← (if own_WepStatus c =? Ndis802_11AESEnable
             then digest ← RT_HMAC_SHA1 (take LEN_PTK_KCK (own_PTK c)) frame SHA1_DIGEST_SIZE; Some (take LEN_KEY_DESC_MIC digest)
             else RT_HMAC_MD5 (take LEN_PTK_KCK (own_PTK c)) frame 16);
      out ← eapol_frame (set_KeyMic Mic p);
      Some (upd_sta (emit [Ev_EapolToSta BSSID_WCID hdr out false]) pAd).

Definition set_CntlState (s : Z) (pAd : adapter) : adapter :=
  let m := Mlme pAd in
  set_Mlme (mk_mlme (set_CurrState s (CntlMachine m)) (AssocMachine m) (AuthMachine m) (AuthRspMachine m)
    (SyncMachine m) (WpaPskMachine m) (ActMachine m) (WpaMachine m) (bRunning m) (Queue m)) pAd.

(** The function of the timer; [MLME_DISASSOC_REQ_STRUCT] is an address and a
    reason. *)
Definition WpaDisassocApAndBlockAssoc (pAd : adapter) : option adapter :=
  pAd ← enqueue ASSOC_STATE_MACHINE MT2_MLME_DISASSOC_REQ 8
          (Some (take 6 (own_bssid (sw_conf (rest pAd))) ++ le_bytes 2 REASON_MIC_FAILURE)) pAd;
  Some (upd_mic (set_block true) (set_CntlState CNTL_WAIT_DISASSOC pAd)).

Definition WpaSendEapolStart (pBssid : list Z) (pAd : adapter) : adapter :=
  let hdr := take 6 pBssid ++ take 6 (own_address (sw_conf (rest pAd))) ++ [0x88; 0x8E] in
  upd_sta (emit [Ev_EapolToSta BSSID_WCID hdr [EAPOL_VER; EAPOLStart; 0; 0] true]) pAd.

(** * Lemmas *)

Lemma enqueue_last fl M T n d (a : adapter) :
  queue_wf (Queue (Mlme a)) fl → Num (Queue (Mlme a)) < 39 → n ≤ 1600 → halted (Flags a) = false →
  Z.to_nat n = length d →
  ∃ b e, enqueue M T n (Some d) a = Some b ∧ rest b = rest a ∧ Flags b = Flags a ∧ queue_wf (Queue (Mlme b)) fl ∧
    Num (Queue (Mlme b)) ≤ Num (Queue (Mlme a)) + 1 ∧ pending (Queue (Mlme b)) = pending (Queue (Mlme a)) ++ [e] ∧
    (el_Machine e, el_MsgType e, take (length d) (el_Msg e)) = (M, T, d).
Proof.
  intros Hw Hn Hm Hh Hl. destruct (enqueue_extends fl M T n (Some d) a) as (b & -> & Eb & Hw' & Hn' & Hp); [done..|].
  rewrite Hh in Hp. destruct Hp as [[? _]|[_ (e & Ep & H1 & H2 & _ & H3)]]; [done|].
  exists b, e. split; [done|]. split; [by rewrite Eb|]. split; [by rewrite Eb|]. do 3 (split; [done|]).
  specialize (H3 d eq_refl). unfold holds in H3. rewrite Hl, firstn_all in H3. by rewrite H1, H2, H3.
Qed.

(** The three effects of a failure on the counters. *)
Lemma report_spec OS_HZ fl Now addr ty (a : adapter) :
  queue_wf (Queue (Mlme a)) fl → Num (Queue (Mlme a)) < 39 → halted (Flags a) = false →
  let m := sw_mic (rest a) in
  let cnt := if MicErrCnt m =? 0 then 1 else if MicErrCnt m =? 1 then
               if u64 (LastMicErrorTime m + 60 * OS_HZ) <? Now then 1 else 2 else MicErrCnt m in
  ∃ b e, RTMPReportMicError OS_HZ Now addr ty a = Some b ∧ Flags b = Flags a ∧ queue_wf (Queue (Mlme b)) fl ∧
    Num (Queue (Mlme b)) ≤ Num (Queue (Mlme a)) + 1 ∧ pending (Queue (Mlme b)) = pending (Queue (Mlme a)) ++ [e] ∧
    (el_Machine e, el_MsgType e) = (MLME_CNTL_STATE_MACHINE, OID_802_11_MIC_FAILURE_REPORT_FRAME) ∧
    sw_conf (rest b) = sw_conf (rest a) ∧ bBlockAssoc (sw_mic (rest b)) = bBlockAssoc m ∧
    MicErrCnt (sw_mic (rest b)) = cnt ∧
    (MicErrCnt m = 0 ∨ MicErrCnt m = 1 → LastMicErrorTime (sw_mic (rest b)) = Now) ∧
    WpaDisassocAndBlockAssocTimer (sw_mic (rest b)) = if cnt =? 2 then Some 100 else WpaDisassocAndBlockAssocTimer m.
Proof.
  intros Hw Hn Hh m cnt. unfold RTMPReportMicError. fold m.
  match goal with |- context [enqueue _ _ _ _ ?x] => set (a1 := x) end.
  assert (H1 : Mlme a1 = Mlme a ∧ Flags a1 = Flags a ∧ sw_conf (rest a1) = sw_conf (rest a) ∧
    bBlockAssoc (sw_mic (rest a1)) = bBlockAssoc m ∧ MicErrCnt (sw_mic (rest a1)) = cnt ∧
    (MicErrCnt m = 0 ∨ MicErrCnt m = 1 → LastMicErrorTime (sw_mic (rest a1)) = Now) ∧
    WpaDisassocAndBlockAssocTimer (sw_mic (rest a1)) = WpaDisassocAndBlockAssocTimer m).
  { unfold a1, cnt. destruct (Z.eqb_spec (MicErrCnt m) 0); [done|]. destruct (Z.eqb_spec (MicErrCnt m) 1).
    - by destruct (_ <? _).
    - repeat (split; [done|]). split; [lia|done]. }
  destruct H1 as (Em & Ef & Ec & Eb & En & El & Et).
  destruct (enqueue_last fl MLME_CNTL_STATE_MACHINE OID_802_11_MIC_FAILURE_REPORT_FRAME 1 [if ty =? PAIRWISE_KEY then 1 else 0] a1)
    as (b & e & HE & Rb & Fb & Wb & Nb & Pb & He); [by rewrite Em|by rewrite Em|lia|by rewrite Ef|done|].
  rewrite HE. cbn [mbind option_bind]. rewrite Rb, En. injection He as H1 H2 _. rewrite Em in *.
  eexists _, e. split; [done|]. destruct (cnt =? 2); cbn; rewrite ?Rb, ?Fb, ?H1, ?H2; done.
Qed.

(** Nothing is sent for a request while association is blocked. *)
Lemma blocked_sends_nothing E Elem (a b : adapter) :
  bBlockAssoc (sw_mic (rest a)) = true → MlmeAuthReqAction E Elem a = Some b → rest b = rest a.
Proof.
  intros Hb. unfold MlmeAuthReqAction, AUTH_ReqSend, confirm, enqueue. rewrite Hb.
  destruct (MlmeEnqueue _ _ _ _ _ _ _) as [[ok q]|]; [|done]. cbn. by intros [= <-].
Qed.

Lemma time_after_iff a b : 0 ≤ a < 2 ^ 63 → 0 ≤ b < 2 ^ 63 → RTMP_TIME_AFTER a b = (b <? a).
Proof.
  intros Ha Hb. unfold RTMP_TIME_AFTER, s64.
  rewrite (wrap_id 64 (b + _)), (wrap_id 64 (a + _)) by (lia || (unfold in_range; lia)).
  rewrite wrap_id by (lia || (unfold in_range; lia)). destruct (Z.ltb_spec b a), (Z.ltb_spec (b + 2 ^ 63 - 2 ^ 63 - (a + 2 ^ 63 - 2 ^ 63) + 2 ^ 63 - 2 ^ 63) 0); lia.
Qed.

(** * The properties *)

(** Countermeasures: two MIC failures within 60 seconds, and no earlier
    one counted, are each reported to the control machine, and after the
    second the timer of 100 ms is set; when it expires the station asks to
    leave its access point for a MIC failure and blocks association.  While
    the block lasts an authentication request sends nothing; the periodic
    check keeps the block up to 60 seconds after the second failure and lifts
    it at any later time, if the driver is in charge. *)
Theorem mic_countermeasures OS_HZ fl a t1 t2 addr ty1 ty2
    (Hz : 0 < OS_HZ) (Hw : queue_wf (Queue (Mlme a)) fl) (Hn : Num (Queue (Mlme a)) < 30) (Hh : halted (Flags a) = false)
    (Hc : MicErrCnt (sw_mic (rest a)) = 0) (Hb : length (own_bssid (sw_conf (rest a))) = 6%nat)
    (Ht : 0 ≤ t1 ≤ t2) (H60 : t2 ≤ t1 + 60 * OS_HZ) (Hmax : t2 + 60 * OS_HZ < 2 ^ 63) :
  ∃ a1 a2 a3 r1 r2 d,
    RTMPReportMicError OS_HZ t1 addr ty1 a = Some a1 ∧ MicErrCnt (sw_mic (rest a1)) = 1 ∧
    RTMPReportMicError OS_HZ t2 addr ty2 a1 = Some a2 ∧ WpaDisassocAndBlockAssocTimer (sw_mic (rest a2)) = Some 100 ∧
    WpaDisassocApAndBlockAssoc a2 = Some a3 ∧ bBlockAssoc (sw_mic (rest a3)) = true ∧
    CurrState (CntlMachine (Mlme a3)) = CNTL_WAIT_DISASSOC ∧
    pending (Queue (Mlme a3)) = pending (Queue (Mlme a)) ++ [r1; r2; d] ∧
    (el_Machine r1, el_MsgType r1) = (MLME_CNTL_STATE_MACHINE, OID_802_11_MIC_FAILURE_REPORT_FRAME) ∧
    (el_Machine r2, el_MsgType r2) = (MLME_CNTL_STATE_MACHINE, OID_802_11_MIC_FAILURE_REPORT_FRAME) ∧
    (el_Machine d, el_MsgType d, take 8 (el_Msg d)) =
      (ASSOC_STATE_MACHINE, MT2_MLME_DISASSOC_REQ, own_bssid (sw_conf (rest a)) ++ [14; 0]) ∧
    (∀ E Elem b, MlmeAuthReqAction E Elem a3 = Some b → rest b = rest a3) ∧
    (∀ up now, t2 ≤ now ≤ t2 + 60 * OS_HZ → lift_block OS_HZ up now a3 = a3) ∧
    (∀ now, t2 + 60 * OS_HZ < now < 2 ^ 63 → bBlockAssoc (sw_mic (rest (lift_block OS_HZ false now a3))) = false).
Proof.
  destruct (report_spec OS_HZ fl t1 addr ty1 a Hw ltac:(lia) Hh) as (a1 & r1 & E1 & F1 & W1 & N1 & P1 & M1 & C1 & B1 & Cn1 & L1 & T1).
  rewrite Hc in Cn1, L1. change (0 =? 0) with true in Cn1. cbv iota in Cn1. specialize (L1 ltac:(by left)).
  destruct (report_spec OS_HZ fl t2 addr ty2 a1 W1 ltac:(lia) ltac:(by rewrite F1)) as (a2 & r2 & E2 & F2 & W2 & N2 & P2 & M2 & C2 & B2 & Cn2 & L2 & T2).
  rewrite Cn1, L1 in Cn2, T2. rewrite Cn1 in L2. specialize (L2 ltac:(by right)).
  rewrite (wrap_id 64 (t1 + _)) in Cn2, T2 by (lia || (unfold in_range; lia)).
  replace (t1 + 60 * OS_HZ <? t2) with false in Cn2, T2 by lia. cbn in Cn2, T2.
  destruct (enqueue_last fl ASSOC_STATE_MACHINE MT2_MLME_DISASSOC_REQ 8
    (take 6 (own_bssid (sw_conf (rest a2))) ++ le_bytes 2 REASON_MIC_FAILURE) a2) as (b & d & E3 & R3 & F3 & W3 & N3 & P3 & M3);
    [done|lia|lia|by rewrite F2, F1|rewrite length_app, length_take, C2, C1, Hb; done|].
  assert (Hbs : own_bssid (sw_conf (rest a2)) = own_bssid (sw_conf (rest a))) by by rewrite C2, C1.
  rewrite Hbs, (take_ge (own_bssid (sw_conf (rest a)))) in M3, E3 by lia. rewrite length_app, Hb in M3.
  assert (EW : WpaDisassocApAndBlockAssoc a2 = Some (upd_mic (set_block true) (set_CntlState CNTL_WAIT_DISASSOC b))).
  { unfold WpaDisassocApAndBlockAssoc. by rewrite Hbs, (take_ge (own_bssid (sw_conf (rest a)))), E3 by lia. }
  assert (HL : LastMicErrorTime (sw_mic (rest b)) = t2) by by rewrite R3.
  exists a1, a2, (upd_mic (set_block true) (set_CntlState CNTL_WAIT_DISASSOC b)), r1, r2, d.
  do 7 (split; [done|]). split; [cbn; rewrite P3, P2, P1, <- !app_assoc; done|]. do 3 (split; [done|]). split.
  { intros E Elem c. by apply blocked_sends_nothing. }
  unfold lift_block. cbn [rest upd_mic upd_sta sw_mic set_mic set_block LastMicErrorTime bBlockAssoc set_CntlState set_Mlme]. rewrite HL.
  rewrite (wrap_id 64 (t2 + _)) by (lia || (unfold in_range; lia)). split.
  - intros up now Hnow. rewrite time_after_iff by lia. replace (t2 + 60 * OS_HZ <? now) with false by lia. by rewrite andb_false_r.
  - intros now Hnow. rewrite time_after_iff by lia. by replace (t2 + 60 * OS_HZ <? now) with true by lia.
Qed.

Lemma mic_countermeasures_witness :
  ∃ a1 a2 a3, RTMPReportMicError 250 1000 demo_ap 1 (demo_station 0 false) = Some a1 ∧
    RTMPReportMicError 250 5000 demo_ap 1 a1 = Some a2 ∧ WpaDisassocApAndBlockAssoc a2 = Some a3 ∧
    bBlockAssoc (sw_mic (rest a3)) = true.
Proof.
  destruct (mic_countermeasures 250 None (demo_station 0 false) 1000 5000 demo_ap 1 1)
    as (a1 & a2 & a3 & _ & _ & _ & H1 & _ & H2 & _ & H3 & H4 & _).
  - lia.
  - apply demo_wf.
  - vm_compute. reflexivity.
  - reflexivity.
  - reflexivity.
  - reflexivity.
  - lia.
  - lia.
  - lia.
  - exists a1, a2, a3. split; [exact H1|]. split; [exact H2|]. split; [exact H3|exact H4].
Defined.

Lemma report_built un ws counter : length counter = 8%nat → built (report_packet un ws counter) 0.
Proof.
  intros Hc. split; try (vm_compute; lia || reflexivity).
  unfold packet_ok, report_packet. cbn [Body_Len kd_KeyInfo kd_KeyLength kd_ReplayCounter kd_KeyNonce kd_KeyIv kd_KeyRsc kd_KeyId kd_KeyMic kd_KeyDataLen].
  rewrite take_ge by (unfold LEN_KEY_DESC_REPLAY; lia). split; [|repeat split; exact Hc || reflexivity].
  unfold info_ok, in_range. cbn. destruct (_ =? _), un; repeat split; vm_compute; congruence.
Qed.

(** The report of a MIC failure is one its receiver can check: with memory
    for it the station sends an EAPOL-Key frame of 99 bytes to its access
    point that asks for an answer to an error (Request, Error and MIC bits), of
    the key type of the failed frame, with the stored replay counter, which is
    incremented for the next one; and the MIC in it is the one that the
    check of a received frame computes over it with the station's PTK. *)
Theorem mic_report_verifies Elem a (Hc : length (mc_ReplayCounter (sw_mic (rest a))) = 8%nat) :
  let c := sw_conf (rest a) in
  let m := sw_mic (rest a) in
  ∃ b f, WpaMicFailureReportFrame true true Elem a = Some b ∧ length f = 99%nat ∧
    sw_events (rest b) = sw_events (rest a) ++
      [Ev_EapolToSta BSSID_WCID (take 6 (own_bssid c) ++ take 6 (own_address c) ++ [0x88; 0x8E]) f false] ∧
    mc_ReplayCounter (sw_mic (rest b)) = inc_byte_array (mc_ReplayCounter m) ∧
    ∀ E rest_, let p := eapol_of (f ++ rest_) in let k := kd_KeyInfo p in
      kd_ReplayCounter p = mc_ReplayCounter m ∧
      (ki_Request k, ki_Error k, ki_KeyMic k, ki_KeyAck k) = (1, 1, 1, 0) ∧
      ki_KeyType k = (if aget (el_Msg Elem) 0 =? 1 then PAIRWISEKEY else GROUPKEY) ∧
      ∃ frame, eapol_frame (set_KeyMic (zeros LEN_KEY_DESC_MIC) p) = Some frame ∧
        eapol_mic E (ki_KeyDescVer k) (own_PTK c) frame = Some (kd_KeyMic p).
Proof.
  intros c m. fold m in Hc. set (un := aget (el_Msg Elem) 0 =? 1).
  pose proof (report_built un (own_WepStatus c) (mc_ReplayCounter m) Hc) as HB. set (p := report_packet _ _ _) in *.
  set (ver := if own_WepStatus c =? Ndis802_11AESEnable then KEY_DESC_AES else KEY_DESC_TKIP).
  assert (Hv : ver = KEY_DESC_AES ∨ ver = KEY_DESC_TKIP) by (unfold ver; destruct (own_WepStatus c =? Ndis802_11AESEnable); [by left|by right]).
  pose proof (length_frame_of p 0 HB) as Hl.
  set (E0 := mk_wenv true true true true true true true (λ _, true) [] [] [] (λ _, 0)).
  destruct (eapol_mic_total E0 ver (own_PTK c) (frame_of p 0) Hv) as (mic & Em & Lm); [lia|].
  assert (HA : ∀ E, eapol_mic E ver (own_PTK c) (frame_of p 0) = Some mic).
  { intros E. rewrite <- Em. clear Em. clearbody ver. by destruct Hv as [-> | ->]. }
  pose proof (built_mic p 0 mic HB Lm) as HB'.
  eexists _, (frame_of (set_KeyMic mic p) 0). split; [|split; [|split; [|split]]].
  - unfold WpaMicFailureReportFrame. cbn [negb]. fold un. cbn [rest upd_sta sw_conf set_Sequence sw_mic]. fold c m p.
    rewrite (eapol_frame_built p 0 HB). cbn [mbind option_bind].
    assert ((if own_WepStatus c =? Ndis802_11AESEnable
      then digest ← RT_HMAC_SHA1 (take LEN_PTK_KCK (own_PTK c)) (frame_of p 0) SHA1_DIGEST_SIZE; Some (take LEN_KEY_DESC_MIC digest)
      else RT_HMAC_MD5 (take LEN_PTK_KCK (own_PTK c)) (frame_of p 0) 16) = Some mic) as ->
      by (rewrite <- Em; unfold ver, eapol_mic; by destruct (_ =? Ndis802_11AESEnable)).
    cbn [mbind option_bind]. rewrite (eapol_frame_built _ 0 HB'). reflexivity.
  - by apply length_frame_of.
  - reflexivity.
  - reflexivity.
  - intros E rest_. cbv zeta. rewrite eapol_of_frame by done. cbn [received with_data kd_ReplayCounter kd_KeyInfo set_KeyMic kd_KeyMic].
    split; [apply take_ge; unfold LEN_KEY_DESC_REPLAY; lia|]. split; [done|]. split; [done|].
    exists (frame_of p 0). split; [|exact (HA E)].
    assert (set_KeyMic (zeros LEN_KEY_DESC_MIC) (received (set_KeyMic mic p) 0 rest_) = received p 0 rest_) as -> by done.
    rewrite (eapol_frame_built _ 0) by by apply built_received. by rewrite frame_received.
Qed.

Lemma mic_report_verifies_witness :
  ∃ b f, WpaMicFailureReportFrame true true (demo_elem [1])
      (demo_station 0 false) = Some b ∧ length f = 99%nat ∧
    sw_events (rest b) = [Ev_EapolToSta BSSID_WCID
      (take 6 (own_bssid (sw_conf (rest (demo_station 0 false)))) ++
       take 6 (own_address (sw_conf (rest (demo_station 0 false)))) ++ [0x88; 0x8E]) f false].
Proof.
  destruct (mic_report_verifies (demo_elem [1])
    (demo_station 0 false)) as (b & f & H1 & H2 & H3 & _).
  - reflexivity.
  - exists b, f. split; [exact H1|]. split; [exact H2|exact H3].
Defined.
