(* ===== verification/BssEntry.v ===== *)
(** Entries of the table of networks: src/include/mlme.h, BSS_ENTRY and
    BCN_IE_LIST; src/common/mlme.c, BssCipherParse and BssEntrySet;
    src/mgmt/mgmt_ht.c, get_cent_ch_by_htinfo; src/common/vht.c,
    vht_cent_ch_freq.

    What a beacon or probe response says of its network is copied to an entry,
    and its WPA and RSN elements are parsed.  Reads and writes of arrays are
    checked: [None] is an access out of bounds. *)

From stdpp Require Import list.
From S2P Require Import Prelude MacTable Eapol StaAuth.

(** * Constants *)

Definition MAX_LEN_OF_SSID : nat := 32.
Definition MAX_LEN_OF_SUPPORTED_RATES : nat := 12.
Definition MAX_VIE_LEN : nat := 1024.
Definition MAX_CUSTOM_LEN : nat := 128.
Definition IE_COUNTRY : Z := 7.
Definition BSS_ADHOC : Z := 0.
Definition BSS_INFRA : Z := 1.
Definition EXTCHA_NONE : Z := 0.
Definition EXTCHA_ABOVE : Z := 1.
Definition EXTCHA_BELOW : Z := 3.
Definition BW_40 : Z := 1.
Definition VHT_BW_80 : Z := 1.
Definition Ndis802_11WEPEnabled : Z := 0.
Definition Ndis802_11AuthModeWPANone : Z := 5.
Definition Ndis802_11AuthModeMax : Z := 10.
Definition WPA_OUI : list Z := [0x00; 0x50; 0xf2; 0x01].
Definition RSN_OUI : list Z := [0x00; 0x0f; 0xac].
Definition WPS_OUI : list Z := [0x00; 0x50; 0xf2; 0x04].
Definition SES_OUI : list Z := [0x00; 0x90; 0x4c].
Definition ZeroSsid : list Z := zeros 32.
Definition CAP_IS_PRIVACY_ON (x : Z) : bool := negb (Z.land x 0x0010 =? 0).

(** * Memory *)

(** [NdisMoveMemory(dst + o, src + i, n)] between different arrays. *)
Definition move_mem (dst : list Z) (o : nat) (src : list Z) (i n : nat) : option (list Z) :=
  if decide (i + n ≤ length src ∧ o + n ≤ length dst)%nat then Some (bwrite dst o (take n (drop i src))) else None.

(** [NdisEqualMemory(a + i, b, n)] *)
Definition equal_mem (a : list Z) (i : nat) (b : list Z) (n : nat) : option bool :=
  if decide (i + n ≤ length a ∧ n ≤ length b)%nat then Some (bool_decide (take n (drop i a) = take n b)) else None.

(** A 16-bit count: [(p[1] << 8) + p[0]]. *)
Definition get16 (m : list Z) (p : nat) : option Z :=
  lo ← m !! p; hi ← m !! S p; Some (u16 (Z.shiftl hi 8 + lo)).

(** * Data *)

Record CIPHER_SUITE := mk_cs {
  PairCipher : Z; PairCipherAux : Z; GroupCipher : Z; RsnCapability : Z; bMixMode : bool
}.

(** What [BssCipherParse] finds out. *)
Record bss_sec := mk_sec {
  WPA : CIPHER_SUITE; WPA2 : CIPHER_SUITE; be_AuthMode : Z; be_AuthModeAux : Z; be_WepStatus : Z; bSES : bool
}.

(** [EDCA_PARM], [QOS_CAPABILITY_PARM] and [QBSS_LOAD_PARM]: the flag and the
    other members. *)
Record parm := mk_parm { parm_bValid : bool; parm_body : list Z }.

Record CF_PARM := mk_cf {
  cf_bValid : bool; CfpCount : Z; CfpPeriod : Z; CfpMaxDuration : Z; CfpDurRemaining : Z
}.

Record WPA_IE_ := mk_ie { IELen : Z; IE : list Z }.

(** The identity of the network. *)
Record bss_id := mk_bid {
  be_Bssid : list Z; be_Channel : Z; be_CentralChannel : Z; be_BssType : Z; be_Ssid : list Z; be_SsidLen : Z; be_Hidden : Z
}.

(** The fixed fields and the rates; [be_Cfp] are the four contention-free
    parameters, [be_Timestamp] is that of [FixIEs], whose interval and
    capabilities are the same as the entry's. *)
Record bss_cap := mk_bcap {
  be_BeaconPeriod : Z; be_AtimWin : Z; be_CapabilityInfo : Z; be_Privacy : bool; be_Cfp : Z * Z * Z * Z;
  be_SupRate : list Z; be_SupRateLen : Z; be_ExtRate : list Z; be_ExtRateLen : Z;
  be_NewExtChanOffset : Z; be_CkipFlag : Z; be_Timestamp : list Z
}.

(** The HT and VHT elements, as bytes. *)
Record bss_ht := mk_bht {
  be_HtCapability : list Z; be_HtCapabilityLen : Z; be_AddHtInfo : list Z; be_AddHtInfoLen : Z;
  be_vht_cap_ie : list Z; be_vht_cap_len : Z; be_vht_op_ie : list Z; be_vht_op_len : Z
}.

(** The elements that are kept. *)
Record bss_ies := mk_bies {
  VarIELen : Z; VarIEs : list Z; WpaIE : WPA_IE_; RsnIE : WPA_IE_; WpsIE : WPA_IE_;
  CountryString : list Z; bHasCountryIE : bool
}.

Record bss_qos := mk_bqos { be_EdcaParm : parm; be_QosCapability : parm; be_QbssLoad : parm }.

(** Signal and times. *)
Record bss_rx := mk_brx {
  Rssi : Z; LastBeaconRxTime : Z; LastBeaconRxTimeA : Z; SameRxTimeCount : Z
}.

(** [pVarIeFromProbRsp] is the number of a buffer, [None] the null pointer.
    The members that none of the functions here writes ([MacAddr], [MinSNR],
    [PTSF], [TTSF] and the like) are left out. *)
Record BSS_ENTRY := mk_bss {
  be_id : bss_id; be_cap : bss_cap; be_ht : bss_ht; be_sec : bss_sec; be_ies : bss_ies; be_qos : bss_qos; be_rx : bss_rx;
  VarIeFromProbeRspLen : Z; pVarIeFromProbRsp : option nat
}.

(** What was found in a beacon, as far as it is copied to entries. *)
Record BCN_IE_LIST := mk_bcn {
  bcn_Bssid : list Z; bcn_Ssid : list Z; bcn_SsidLen : Z; bcn_BssType : Z; bcn_BeaconPeriod : Z; bcn_Channel : Z;
  bcn_AtimWin : Z; bcn_CapabilityInfo : Z; bcn_SupRate : list Z; bcn_SupRateLen : Z; bcn_ExtRate : list Z; bcn_ExtRateLen : Z;
  bcn_CkipFlag : Z; bcn_TimeStamp : list Z; bcn_CfParm : CF_PARM; bcn_EdcaParm : parm; bcn_QbssLoad : parm;
  bcn_QosCapability : parm; bcn_HtCapabilityLen : Z; bcn_HtCapability : list Z; bcn_AddHtInfoLen : Z; bcn_AddHtInfo : list Z;
  bcn_NewExtChannelOffset : Z; bcn_vht_cap_ie : list Z; bcn_vht_op_ie : list Z; bcn_vht_cap_len : Z; bcn_vht_op_len : Z
}.

(** The part of [CommonCfg] that [vht_cent_ch_freq] uses. *)
Record vht_cfg := mk_vht { vht_bw : Z; vht_cent_ch : Z; vht_cent_ch2 : Z }.

Definition set_Bss_id (x : bss_id) (b : BSS_ENTRY) : BSS_ENTRY :=
  mk_bss x (be_cap b) (be_ht b) (be_sec b) (be_ies b) (be_qos b) (be_rx b) (VarIeFromProbeRspLen b) (pVarIeFromProbRsp b).
Definition set_Bss_rx (x : bss_rx) (b : BSS_ENTRY) : BSS_ENTRY :=
  mk_bss (be_id b) (be_cap b) (be_ht b) (be_sec b) (be_ies b) (be_qos b) x (VarIeFromProbeRspLen b) (pVarIeFromProbRsp b).
Definition set_pVar (x : option nat) (b : BSS_ENTRY) : BSS_ENTRY :=
  mk_bss (be_id b) (be_cap b) (be_ht b) (be_sec b) (be_ies b) (be_qos b) (be_rx b) (VarIeFromProbeRspLen b) x.

(** An entry of zeros. *)
Definition zero_cs : CIPHER_SUITE := mk_cs 0 0 0 0 false.
Definition zero_ie : WPA_IE_ := mk_ie 0 (zeros MAX_CUSTOM_LEN).
Definition zero_bss : BSS_ENTRY :=
  mk_bss (mk_bid (zeros 6) 0 0 0 (zeros MAX_LEN_OF_SSID) 0 0)
    (mk_bcap 0 0 0 false (0, 0, 0, 0) (zeros MAX_LEN_OF_SUPPORTED_RATES) 0 (zeros MAX_LEN_OF_SUPPORTED_RATES) 0 0 0 (zeros 8))
    (mk_bht (zeros 26) 0 (zeros 22) 0 (zeros 12) 0 (zeros 5) 0)
    (mk_sec zero_cs zero_cs 0 0 0 false) (mk_bies 0 (zeros MAX_VIE_LEN) zero_ie zero_ie zero_ie (zeros 3) false)
    (mk_bqos (mk_parm false []) (mk_parm false []) (mk_parm false [])) (mk_brx 0 0 0 0) 0 None.

(** * The cipher suites of a network *)

Definition group_cipher (Type_ old : Z) : Z :=
  if Type_ =? 1 then Ndis802_11GroupWEP40Enabled
  else if Type_ =? 5 then Ndis802_11GroupWEP104Enabled
  else if Type_ =? 2 then Ndis802_11TKIPEnable
  else if Type_ =? 4 then Ndis802_11AESEnable
  else old.

Definition pair_cipher (Type_ : Z) : Z :=
  if (Type_ =? 1) || (Type_ =? 5) then Ndis802_11WEPEnabled
  else if Type_ =? 2 then Ndis802_11TKIPEnable
  else if Type_ =? 4 then Ndis802_11AESEnable
  else Ndis802_11WEPDisabled.

(** The lower cipher moves to [PairCipherAux]. *)
Definition add_pair (TmpCipher : Z) (c : CIPHER_SUITE) : CIPHER_SUITE :=
  if PairCipher c <? TmpCipher
  then mk_cs TmpCipher (PairCipher c) (GroupCipher c) (RsnCapability c) (bMixMode c)
  else mk_cs (PairCipher c) TmpCipher (GroupCipher c) (RsnCapability c) (bMixMode c).

(** The loop over the [Count] unicast suites at [pTmp]: three bytes of OUI and
    a type each. *)
Fixpoint pair_loop (m : list Z) (Count : nat) (pTmp : nat) (c : CIPHER_SUITE) : option (nat * CIPHER_SUITE) :=
  match Count with
  | O => Some (pTmp, c)
  | S Count => Type_ ← m !! (pTmp + 3)%nat; pair_loop m Count (pTmp + 4) (add_pair (pair_cipher Type_) c)
  end.

(** The first mode goes to [AuthMode], the next ones to [AuthModeAux]. *)
Definition add_auth (mode : Z) (s : bss_sec) : bss_sec :=
  if be_AuthMode s =? Ndis802_11AuthModeOpen
  then mk_sec (WPA s) (WPA2 s) mode (be_AuthModeAux s) (be_WepStatus s) (bSES s)
  else mk_sec (WPA s) (WPA2 s) (be_AuthMode s) mode (be_WepStatus s) (bSES s).

Definition akm_mode (Type_ : Z) : Z :=
  if Type_ =? 0 then Ndis802_11AuthModeWPANone
  else if Type_ =? 1 then Ndis802_11AuthModeWPA2
  else if Type_ =? 2 then Ndis802_11AuthModeWPA2PSK
  else Ndis802_11AuthModeMax.

(** The loop over the AKM suites of an RSN element; it ends at one with
    another OUI. *)
Fixpoint akm_loop (m : list Z) (Count : nat) (pTmp : nat) (s : bss_sec) : option (nat * bss_sec) :=
  match Count with
  | O => Some (pTmp, s)
  | S Count =>
      same ← equal_mem m pTmp RSN_OUI 3;
      if (same : bool) then
        Type_ ← m !! (pTmp + 3)%nat; akm_loop m Count (pTmp + 4) (add_auth (akm_mode Type_) s)
      else Some (pTmp, s)
  end.

Definition set_GroupCipher (g : Z) (c : CIPHER_SUITE) : CIPHER_SUITE :=
  mk_cs (PairCipher c) (PairCipherAux c) g (RsnCapability c) (bMixMode c).
Definition set_PairCipherAux (a : Z) (c : CIPHER_SUITE) : CIPHER_SUITE :=
  mk_cs (PairCipher c) a (GroupCipher c) (RsnCapability c) (bMixMode c).
Definition set_RsnCapability (r : Z) (c : CIPHER_SUITE) : CIPHER_SUITE :=
  mk_cs (PairCipher c) (PairCipherAux c) (GroupCipher c) r (bMixMode c).
(** Mixed mode, if the ciphers for unicast and group differ. *)
Definition mix (c : CIPHER_SUITE) : CIPHER_SUITE :=
  mk_cs (PairCipher c) (PairCipherAux c) (GroupCipher c) (RsnCapability c) (bMixMode c || negb (GroupCipher c =? PairCipher c)).
Definition set_WPA (c : CIPHER_SUITE) (s : bss_sec) : bss_sec :=
  mk_sec c (WPA2 s) (be_AuthMode s) (be_AuthModeAux s) (be_WepStatus s) (bSES s).
Definition set_WPA2 (c : CIPHER_SUITE) (s : bss_sec) : bss_sec :=
  mk_sec (WPA s) c (be_AuthMode s) (be_AuthModeAux s) (be_WepStatus s) (bSES s).
Definition set_sec_WepStatus (w : Z) (s : bss_sec) : bss_sec :=
  mk_sec (WPA s) (WPA2 s) (be_AuthMode s) (be_AuthModeAux s) w (bSES s).

(** [case IE_WPA]; the element is at [p]. *)
Definition parse_wpa (BssType : Z) (m : list Z) (p : nat) (s : bss_sec) : option bss_sec :=
  ses ← equal_mem m (p + 2) SES_OUI 3;
  Len ← (if (ses : bool) then m !! (p + 1)%nat else Some 0);
  if ses && (Len =? 7) then
    Some (mk_sec (WPA s) (WPA2 s) (be_AuthMode s) (be_AuthModeAux s) (be_WepStatus s) true)
  else
    wpa ← equal_mem m (p + 2) WPA_OUI 4;
    if negb (wpa : bool) then Some s
    else
      g ← m !! (p + 11)%nat;
      let c := set_GroupCipher (group_cipher g (GroupCipher (WPA s))) (WPA s) in
      Count ← get16 m (p + 12);
      '(pTmp, c) ← pair_loop m (Z.to_nat Count) (p + 14) c;
      _ ← get16 m pTmp;
      akm ← m !! (pTmp + 2 + 3)%nat;
      let s := set_WPA c s in
      let s := if akm =? 1 then add_auth Ndis802_11AuthModeWPA s
               else if akm =? 2 then add_auth Ndis802_11AuthModeWPAPSK s else s in
      let s :=
        if BssType =? BSS_ADHOC then
          let c := if PairCipherAux c =? Ndis802_11WEPDisabled then set_PairCipherAux (GroupCipher c) c else c in
          mk_sec c (WPA2 s) Ndis802_11AuthModeWPANone Ndis802_11AuthModeWPANone (GroupCipher c) (bSES s)
        else set_sec_WepStatus (PairCipher c) s in
      Some (set_WPA (mix (WPA s)) s).

(** [case IE_RSN] *)
Definition parse_rsn (BssType : Z) (m : list Z) (p : nat) (s : bss_sec) : option bss_sec :=
  Version ← get16 m (p + 2);
  if negb (Version =? 1) then Some s
  else
    rsn ← equal_mem m (p + 4) RSN_OUI 3;
    if negb (rsn : bool) then Some s
    else
      g ← m !! (p + 7)%nat;
      let c := set_GroupCipher (group_cipher g (GroupCipher (WPA2 s))) (WPA2 s) in
      Count ← get16 m (p + 8);
      '(pTmp, c) ← pair_loop m (Z.to_nat Count) (p + 10) c;
      Count ← get16 m pTmp;
      '(pTmp, s) ← akm_loop m (Z.to_nat Count) (pTmp + 2) (set_WPA2 c s);
      let s :=
        if BssType =? BSS_ADHOC then
          let w := set_GroupCipher (GroupCipher c) (set_PairCipherAux (PairCipherAux c) (WPA s)) in
          set_WPA (if PairCipherAux w =? Ndis802_11WEPDisabled then set_PairCipherAux (GroupCipher w) w else w) s
        else s in
      let s := set_sec_WepStatus (PairCipher c) s in
      cap ← get16 m pTmp;
      Some (set_WPA2 (mix (set_RsnCapability cap c)) s).

(** The loop over the elements: [Length] bytes are left of [VarIELen]. *)
Fixpoint cipher_loop (fuel : nat) (BssType : Z) (m : list Z) (VarIELen Length : Z) (s : bss_sec) : option bss_sec :=
  if Length <=? 0 then Some s
  else
    match fuel with
    | O => None
    | S fuel =>
        let p := Z.to_nat (VarIELen - Length) in
        Eid ← m !! p;
        s ← (if Eid =? IE_WPA then parse_wpa BssType m p s
             else if Eid =? IE_RSN then parse_rsn BssType m p s
             else Some s);
        Len ← m !! (p + 1)%nat;
        cipher_loop fuel BssType m VarIELen (Length - (Len + 2)) s
    end.

(** The loop takes two bytes at least, so its fuel suffices. *)
Definition BssCipherParse (Privacy : bool) (BssType VarIELen : Z) (VarIEs : list Z) (bSES : bool) : option bss_sec :=
  let init := mk_cs Ndis802_11WEPDisabled Ndis802_11WEPDisabled Ndis802_11WEPDisabled 0 false in
  cipher_loop (Z.to_nat VarIELen) BssType VarIEs VarIELen VarIELen
    (mk_sec init init Ndis802_11AuthModeOpen Ndis802_11AuthModeOpen
       (if Privacy then Ndis802_11WEPEnabled else Ndis802_11WEPDisabled) bSES).

(** * Channels *)

Definition ControlChan (ht_op : list Z) : Z := aget ht_op 0.
Definition ExtChanOffset (ht_op : list Z) : Z := Z.land (aget ht_op 1) 3.
Definition ChannelWidth (ht_cap : list Z) : Z := Z.land (Z.shiftr (aget ht_cap 0) 1) 1.

Definition get_cent_ch_by_htinfo (ht_op ht_cap : list Z) : Z :=
  if (2 <? ControlChan ht_op) && (ExtChanOffset ht_op =? EXTCHA_BELOW) && (ChannelWidth ht_cap =? BW_40)
  then u8 (ControlChan ht_op - 2)
  else if (ExtChanOffset ht_op =? EXTCHA_ABOVE) && (ChannelWidth ht_cap =? BW_40)
  then u8 (ControlChan ht_op + 2)
  else ControlChan ht_op.

(** The lowest, highest and central channel of the 80 MHz channels. *)
Definition vht_ch_80M : list (Z * Z * Z) :=
  [(36, 48, 42); (52, 64, 58); (100, 112, 106); (116, 128, 122); (132, 144, 138); (149, 161, 155)].

Definition vht_cent_ch_freq (v : vht_cfg) (prim_ch : Z) : Z * vht_cfg :=
  if (vht_bw v <? VHT_BW_80) || (prim_ch <? 36) then (prim_ch, mk_vht (vht_bw v) 0 0)
  else
    match find (λ '(lo, up, _), (lo <=? prim_ch) && (prim_ch <=? up)) vht_ch_80M with
    | Some (_, _, cent) => (cent, mk_vht (vht_bw v) cent (vht_cent_ch2 v))
    | None => (prim_ch, v)
    end.

(** * Filling in an entry *)

(** The name; an empty or hidden one does not replace a known one. *)
Definition set_ssid (old : bss_id) (ie : BCN_IE_LIST) : option (list Z * Z * Z) :=
  if 0 <? bcn_SsidLen ie then
    hidden ← equal_mem (bcn_Ssid ie) 0 ZeroSsid (Z.to_nat (bcn_SsidLen ie));
    if (hidden : bool) then Some (be_Ssid old, be_SsidLen old, 1)
    else
      ssid ← move_mem (zeros MAX_LEN_OF_SSID) 0 (bcn_Ssid ie) 0 (Z.to_nat (bcn_SsidLen ie));
      Some (ssid, bcn_SsidLen ie, 0)
  else
    unknown ← equal_mem (be_Ssid old) 0 ZeroSsid (Z.to_nat (be_SsidLen old));
    Some (if (unknown : bool) then (zeros MAX_LEN_OF_SSID, 0, 1) else (be_Ssid old, be_SsidLen old, 1)).

(** An element at [p] of the received ones is kept, if it is not too long. *)
Definition keep_ie (m : list Z) (p : nat) (Len : Z) (old : WPA_IE_) : option WPA_IE_ :=
  if Z.of_nat MAX_CUSTOM_LEN <? Len + 2 then Some (mk_ie 0 (IE old))
  else ie ← move_mem (IE old) 0 m p (Z.to_nat (Len + 2)); Some (mk_ie (Len + 2) ie).

(** [WpaIE], [RsnIE], [WpsIE], [CountryString] and [bHasCountryIE]. *)
Definition kept_ies : Type := WPA_IE_ * WPA_IE_ * WPA_IE_ * (list Z * bool).
Definition no_ies : kept_ies := (zero_ie, zero_ie, zero_ie, (zeros 3, false)).

(** The walk over the elements.  [Length + 2 + Len] does not wrap, as it is
    compared with a 16-bit length before it is stored.  Three bytes of a
    country element are copied whatever its length. *)
Fixpoint ie_walk (fuel : nat) (m : list Z) (LengthVIE : Z) (Length : nat) (kept : kept_ies) : option kept_ies :=
  Len ← m !! (Length + 1)%nat;
  if Z.of_nat Length + 2 + Len <=? LengthVIE then
    match fuel with
    | O => None
    | S fuel =>
        let '(wpa, rsn, wps, country) := kept in
        Eid ← m !! Length;
        kept ← (if Eid =? IE_WPA then
                  is_wps ← equal_mem m (Length + 2) WPS_OUI 4;
                  if (is_wps : bool) then wps ← keep_ie m Length Len wps; Some (wpa, rsn, wps, country)
                  else
                    is_wpa ← equal_mem m (Length + 2) WPA_OUI 4;
                    if (is_wpa : bool) then wpa ← keep_ie m Length Len wpa; Some (wpa, rsn, wps, country)
                    else Some kept
                else if Eid =? IE_RSN then
                  is_rsn ← equal_mem m (Length + 4) RSN_OUI 3;
                  if (is_rsn : bool) then rsn ← keep_ie m Length Len rsn; Some (wpa, rsn, wps, country)
                  else Some kept
                else if Eid =? IE_COUNTRY then
                  cs ← move_mem country.1 0 m (Length + 2) 3; Some (wpa, rsn, wps, (cs, true))
                else Some kept);
        ie_walk fuel m LengthVIE (Z.to_nat (Z.of_nat Length + 2 + Len)) kept
    end
  else Some kept.

(** [SupRate] and [ExtRate]; the length of the latter is limited in the list
    too. *)
Definition set_rates (old : bss_cap) (ie : BCN_IE_LIST) : option (list Z * list Z * Z) :=
  sup ← move_mem (be_SupRate old) 0 (bcn_SupRate ie) 0 (Nat.min (Z.to_nat (bcn_SupRateLen ie)) MAX_LEN_OF_SUPPORTED_RATES);
  let ExtRateLen := Z.min (bcn_ExtRateLen ie) (Z.of_nat MAX_LEN_OF_SUPPORTED_RATES) in
  ext ← move_mem (be_ExtRate old) 0 (bcn_ExtRate ie) 0 (Z.to_nat ExtRateLen);
  Some (sup, ext, ExtRateLen).

Definition set_ExtRateLen (n : Z) (ie : BCN_IE_LIST) : BCN_IE_LIST :=
  mk_bcn (bcn_Bssid ie) (bcn_Ssid ie) (bcn_SsidLen ie) (bcn_BssType ie) (bcn_BeaconPeriod ie) (bcn_Channel ie)
    (bcn_AtimWin ie) (bcn_CapabilityInfo ie) (bcn_SupRate ie) (bcn_SupRateLen ie) (bcn_ExtRate ie) n
    (bcn_CkipFlag ie) (bcn_TimeStamp ie) (bcn_CfParm ie) (bcn_EdcaParm ie) (bcn_QbssLoad ie)
    (bcn_QosCapability ie) (bcn_HtCapabilityLen ie) (bcn_HtCapability ie) (bcn_AddHtInfoLen ie) (bcn_AddHtInfo ie)
    (bcn_NewExtChannelOffset ie) (bcn_vht_cap_ie ie) (bcn_vht_op_ie ie) (bcn_vht_cap_len ie) (bcn_vht_op_len ie).

Definition set_cap (old : bss_cap) (rates : list Z * list Z * Z) (ie : BCN_IE_LIST) : bss_cap :=
  let '(sup, ext, ExtRateLen) := rates in
  let infra := bcn_BssType ie =? BSS_INFRA in
  let cf := bcn_CfParm ie in
  mk_bcap (bcn_BeaconPeriod ie) (if infra then be_AtimWin old else bcn_AtimWin ie) (bcn_CapabilityInfo ie)
    (CAP_IS_PRIVACY_ON (bcn_CapabilityInfo ie))
    (if infra && cf_bValid cf then (CfpCount cf, CfpPeriod cf, CfpMaxDuration cf, CfpDurRemaining cf) else be_Cfp old)
    sup (bcn_SupRateLen ie) ext ExtRateLen (bcn_NewExtChannelOffset ie) (bcn_CkipFlag ie) (take 8 (bcn_TimeStamp ie)).

(** The HT and VHT elements, with the central channel that follows from them
    and the channel setting that [vht_cent_ch_freq] overwrites. *)
Definition set_ht (v : vht_cfg) (old : bss_ht) (ie : BCN_IE_LIST) : option (bss_ht * Z * vht_cfg) :=
  let Channel := bcn_Channel ie in
  if bcn_HtCapabilityLen ie <=? 0 then
    Some (mk_bht (be_HtCapability old) 0 (be_AddHtInfo old) 0 (be_vht_cap_ie old) (be_vht_cap_len old)
            (be_vht_op_ie old) (be_vht_op_len old), Channel, v)
  else
    cap ← move_mem (be_HtCapability old) 0 (bcn_HtCapability ie) 0 (Z.to_nat (bcn_HtCapabilityLen ie));
    let has_op := 0 <? bcn_AddHtInfoLen ie in
    op ← (if has_op then move_mem (be_AddHtInfo old) 0 (bcn_AddHtInfo ie) 0 (Z.to_nat (bcn_AddHtInfoLen ie))
          else Some (be_AddHtInfo old));
    let cent := if has_op then get_cent_ch_by_htinfo (bcn_AddHtInfo ie) (bcn_HtCapability ie) else Channel in
    vcap ← move_mem (be_vht_cap_ie old) 0 (bcn_vht_cap_ie ie) 0 (Z.to_nat (bcn_vht_cap_len ie));
    vop ← move_mem (be_vht_op_ie old) 0 (bcn_vht_op_ie ie) 0 (Z.to_nat (bcn_vht_op_len ie));
    let ht := mk_bht cap (bcn_HtCapabilityLen ie) op (if has_op then bcn_AddHtInfoLen ie else 0)
                vcap (if bcn_vht_cap_len ie =? 0 then be_vht_cap_len old else bcn_vht_cap_len ie)
                vop (if bcn_vht_op_len ie =? 0 then be_vht_op_len old else bcn_vht_op_len ie) in
    if negb (bcn_vht_op_len ie =? 0) && (0 <? aget (bcn_vht_op_ie ie) 0) &&
       negb (ExtChanOffset (bcn_AddHtInfo ie) =? EXTCHA_NONE) && (ChannelWidth (bcn_HtCapability ie) =? BW_40) &&
       negb (cent =? ControlChan (bcn_AddHtInfo ie))
    then Some (ht, aget (bcn_vht_op_ie ie) 1, (vht_cent_ch_freq v (ControlChan (bcn_AddHtInfo ie))).2)
    else Some (ht, cent, v).

(** [if (x.bValid) copy it; else bValid = FALSE] *)
Definition set_parm (old new : parm) : parm := if parm_bValid new then new else mk_parm false (parm_body old).

(** [Now] is the reading of the clock, [m] the buffer of the elements [pVIE]. *)
Definition BssEntrySet (Now : Z) (v : vht_cfg) (b : BSS_ENTRY) (ie : BCN_IE_LIST) (rssi LengthVIE : Z) (m : list Z)
    : option (BSS_ENTRY * BCN_IE_LIST * vht_cfg) :=
  '(ssid, SsidLen, Hidden) ← set_ssid (be_id b) ie;
  '(sup, ext, ExtRateLen) ← set_rates (be_cap b) ie;
  let cap := set_cap (be_cap b) (sup, ext, ExtRateLen) ie in
  VIEs ← (if LengthVIE =? 0 then Some (VarIEs (be_ies b)) else move_mem (VarIEs (be_ies b)) 0 m 0 (Z.to_nat LengthVIE));
  '(ht, cent, v) ← set_ht v (be_ht b) ie;
  sec ← BssCipherParse (be_Privacy cap) (bcn_BssType ie) LengthVIE VIEs (bSES (be_sec b));
  '(wpa, rsn, wps, country) ← ie_walk (Z.to_nat LengthVIE) m LengthVIE 0 no_ies;
  let q := be_qos b in
  Some (mk_bss (mk_bid (take 6 (bcn_Bssid ie)) (bcn_Channel ie) cent (bcn_BssType ie) ssid SsidLen Hidden) cap ht sec
          (mk_bies LengthVIE VIEs wpa rsn wps country.1 country.2)
          (mk_bqos (set_parm (be_EdcaParm q) (bcn_EdcaParm ie)) (set_parm (be_QosCapability q) (bcn_QosCapability ie))
             (set_parm (be_QbssLoad q) (bcn_QbssLoad ie)))
          (mk_brx rssi Now (LastBeaconRxTimeA (be_rx b)) (SameRxTimeCount (be_rx b)))
          (VarIeFromProbeRspLen b) (pVarIeFromProbRsp b),
        set_ExtRateLen ExtRateLen ie, v).
