(* ===== verification/BssEntryProofs.v ===== *)
(** The parser of cipher suites: BssCipherParse of BssEntry.v against a
    description of the elements it reads. *)

From stdpp Require Import list.
From S2P Require Import Prelude MacTable Eapol StaAuth BssEntry.

(** * Memory at an offset *)

Lemma get16_drop m p i : get16 m (p + i) = get16 (drop p m) i.
Proof. unfold get16. rewrite !lookup_drop. by replace (S (p + i)) with (p + S i)%nat by lia. Qed.

Lemma equal_mem_drop m p i b n : (p ≤ length m)%nat → equal_mem m (p + i) b n = equal_mem (drop p m) i b n.
Proof.
  intros Hp. unfold equal_mem. rewrite length_drop, drop_drop.
  destruct (decide _), (decide _); done || lia.
Qed.

Lemma get16_le x rest : 0 ≤ x < 65536 → get16 (le_bytes 2 x ++ rest) 0 = Some x.
Proof.
  intros Hx. unfold get16, le_bytes. cbn -[Z.shiftl Z.shiftr u16 u8 Z.add]. f_equal.
  rewrite !wrap_mod, !Z.shiftr_div_pow2, Z.shiftl_mul_pow2 by lia. cbn -[Z.mul Z.div Z.modulo Z.add]. zdm.
Qed.

(** * Lists of suites *)

(** Suite selectors of types [ts]. *)
Definition suites (oui : list Z) (ts : list Z) : list Z := concat (map (λ t, take 3 oui ++ [t]) ts).
Definition fold_pairs (ts : list Z) (c : CIPHER_SUITE) : CIPHER_SUITE := fold_left (λ c t, add_pair (pair_cipher t) c) ts c.
Definition fold_akms (ts : list Z) (s : bss_sec) : bss_sec := fold_left (λ s t, add_auth (akm_mode t) s) ts s.

Lemma length_suites oui ts : (3 ≤ length oui)%nat → length (suites oui ts) = (4 * length ts)%nat.
Proof.
  intros Ho. unfold suites. induction ts as [|t ts IH]; [done|]. cbn [map concat]. rewrite !length_app, length_take, IH. cbn [length]. lia.
Qed.

(** The bytes from [p] on, past the first suite. *)
Lemma drop_suite (oui m rest : list Z) t p : length oui = 3%nat → drop p m = (oui ++ [t]) ++ rest →
  m !! (p + 3)%nat = Some t ∧ drop (p + 4) m = rest ∧ (p + 4 ≤ length m)%nat.
Proof.
  intros Ho Hm. assert (Hl : (length m - p = 4 + length rest)%nat) by (rewrite <- (length_drop m p), Hm, !length_app, Ho; cbn; lia).
  split; [|split; [|lia]].
  - rewrite <- lookup_drop, Hm, <- app_assoc, lookup_app_r, Ho by lia. done.
  - rewrite <- drop_drop, Hm. by rewrite drop_app_length' by (rewrite length_app, Ho; done).
Qed.

Lemma pair_loop_spec oui m ts : (3 ≤ length oui)%nat → ∀ p rest c, drop p m = suites oui ts ++ rest →
  pair_loop m (length ts) p c = Some ((p + 4 * length ts)%nat, fold_pairs ts c).
Proof.
  intros Ho. induction ts as [|t ts IH]; intros p rest c Hm.
  - cbn. by rewrite Nat.add_0_r.
  - unfold suites in Hm. cbn [map concat] in Hm. rewrite <- app_assoc in Hm.
    destruct (drop_suite (take 3 oui) m (suites oui ts ++ rest) t p) as (H1 & H2 & _); [rewrite length_take; lia|exact Hm|].
    cbn [length pair_loop]. rewrite H1. cbn [mbind option_bind].
    rewrite (IH _ rest) by exact H2. do 2 f_equal. cbn [length]. lia.
Qed.

Lemma akm_loop_spec m ts : ∀ p rest s, drop p m = suites RSN_OUI ts ++ rest →
  akm_loop m (length ts) p s = Some ((p + 4 * length ts)%nat, fold_akms ts s).
Proof.
  induction ts as [|t ts IH]; intros p rest s Hm.
  - cbn. by rewrite Nat.add_0_r.
  - unfold suites in Hm. cbn [map concat] in Hm. rewrite <- app_assoc in Hm.
    destruct (drop_suite RSN_OUI m (suites RSN_OUI ts ++ rest) t p) as (H1 & H2 & H3); [done|exact Hm|].
    cbn [length akm_loop]. replace p with (p + 0)%nat at 1 by lia. rewrite equal_mem_drop, Hm by lia.
    change (equal_mem ((take 3 RSN_OUI ++ [t]) ++ (concat (map (λ t, take 3 RSN_OUI ++ [t]) ts) ++ rest)) 0 RSN_OUI 3)
      with (equal_mem (RSN_OUI ++ [t] ++ (concat (map (λ t, take 3 RSN_OUI ++ [t]) ts) ++ rest)) 0 RSN_OUI 3).
    unfold equal_mem at 1. rewrite decide_True by (rewrite !length_app; cbn; lia).
    cbn [mbind option_bind]. rewrite bool_decide_eq_true_2 by done. rewrite H1. cbn [mbind option_bind].
    rewrite (IH _ rest) by exact H2. do 2 f_equal. cbn [length]. lia.
Qed.

(** * Elements *)

(** The elements a network announces: other ones, vendor elements that are
    not WPA, WPA and RSN elements with the type of the group cipher, those of
    the unicast ciphers and of the key managements, and what follows. *)
Inductive vie :=
| Vie_other (Eid : Z) (body : list Z)
| Vie_vendor (body : list Z)
| Vie_wpa (g : Z) (pairs : list Z) (akms : Z) (akm : Z) (tail : list Z)
| Vie_rsn (g : Z) (pairs akms : list Z) (cap : Z) (tail : list Z).

Definition vie_eid (v : vie) : Z :=
  match v with Vie_other e _ => e | Vie_vendor _ | Vie_wpa _ _ _ _ _ => IE_WPA | Vie_rsn _ _ _ _ _ => IE_RSN end.
Definition vie_body (v : vie) : list Z :=
  match v with
  | Vie_other _ b | Vie_vendor b => b
  | Vie_wpa g pairs n akm tail =>
      WPA_OUI ++ [1; 0] ++ take 3 WPA_OUI ++ [g] ++ le_bytes 2 (Z.of_nat (length pairs)) ++ suites WPA_OUI pairs ++
      le_bytes 2 n ++ take 3 WPA_OUI ++ [akm] ++ tail
  | Vie_rsn g pairs akms cap tail =>
      [1; 0] ++ RSN_OUI ++ [g] ++ le_bytes 2 (Z.of_nat (length pairs)) ++ suites RSN_OUI pairs ++
      le_bytes 2 (Z.of_nat (length akms)) ++ suites RSN_OUI akms ++ le_bytes 2 cap ++ tail
  end.
Definition vie_enc (v : vie) : list Z := vie_eid v :: Z.of_nat (length (vie_body v)) :: vie_body v.
Definition vie_ok (v : vie) : Prop :=
  (length (vie_body v) ≤ 255)%nat ∧
  match v with
  | Vie_other e _ => e ≠ IE_WPA ∧ e ≠ IE_RSN
  | Vie_vendor b => (4 ≤ length b)%nat ∧ take 4 b ≠ WPA_OUI ∧ (take 3 b ≠ SES_OUI ∨ length b ≠ 7%nat)
  | Vie_wpa _ _ _ _ _ => True
  | Vie_rsn _ _ _ cap _ => 0 ≤ cap < 65536
  end.

(** What an element says of a network of access points. *)
Definition vie_effect (s : bss_sec) (v : vie) : bss_sec :=
  match v with
  | Vie_other _ _ | Vie_vendor _ => s
  | Vie_wpa g pairs _ akm _ =>
      let c := fold_pairs pairs (set_GroupCipher (group_cipher g (GroupCipher (WPA s))) (WPA s)) in
      let s := if akm =? 1 then add_auth Ndis802_11AuthModeWPA s else if akm =? 2 then add_auth Ndis802_11AuthModeWPAPSK s else s in
      mk_sec (mix c) (WPA2 s) (be_AuthMode s) (be_AuthModeAux s) (PairCipher c) (bSES s)
  | Vie_rsn g pairs akms cap _ =>
      let c := fold_pairs pairs (set_GroupCipher (group_cipher g (GroupCipher (WPA2 s))) (WPA2 s)) in
      let s := fold_akms akms s in
      mk_sec (WPA s) (mix (set_RsnCapability cap c)) (be_AuthMode s) (be_AuthModeAux s) (PairCipher c) (bSES s)
  end.

Lemma fold_akms_set c ts : ∀ s, fold_akms ts (set_WPA2 c s) = set_WPA2 c (fold_akms ts s).
Proof.
  unfold fold_akms. induction ts as [|t ts IH]; intros s; [done|]. cbn [fold_left]. rewrite <- IH. f_equal.
  unfold add_auth, set_WPA2. cbn. by destruct (_ =? _).
Qed.

Lemma fold_akms_fields ts : ∀ s, WPA (fold_akms ts s) = WPA s ∧ WPA2 (fold_akms ts s) = WPA2 s ∧ bSES (fold_akms ts s) = bSES s.
Proof.
  unfold fold_akms. induction ts as [|t ts IH]; intros s; [done|]. cbn [fold_left].
  destruct (IH (add_auth (akm_mode t) s)) as (-> & -> & ->). unfold add_auth. by destruct (_ =? _).
Qed.

Lemma get16_at x rest m p i : drop (p + i) m = le_bytes 2 x ++ rest → 0 ≤ x < 65536 → get16 m (p + i) = Some x.
Proof. intros H Hx. replace (p + i)%nat with (p + i + 0)%nat by lia. rewrite get16_drop, H. by apply get16_le. Qed.

Lemma drop_app_at (l pre rest : list Z) p n : drop p l = pre ++ rest → length pre = n → drop (p + n) l = rest.
Proof. intros H <-. by rewrite <- drop_drop, H, drop_app_length. Qed.

Lemma parse_rsn_spec ty m p g pairs akms cap tail rest s : ty ≠ BSS_ADHOC → vie_ok (Vie_rsn g pairs akms cap tail) →
  drop p m = vie_enc (Vie_rsn g pairs akms cap tail) ++ rest →
  parse_rsn ty m p s = Some (vie_effect s (Vie_rsn g pairs akms cap tail)).
Proof.
  intros Hty [Hl Hcap] Hm. unfold vie_enc in Hm. cbn [vie_eid vie_body] in *.
  pose proof (length_suites RSN_OUI pairs ltac:(cbn; lia)) as Lp. pose proof (length_suites RSN_OUI akms ltac:(cbn; lia)) as La.
  assert (Hpm : (p ≤ length m)%nat).
  { destruct (decide (p ≤ length m)%nat); [done|]. rewrite drop_ge in Hm by lia. done. }
  rewrite !length_app in Hl. cbn [length RSN_OUI] in Hl. rewrite !length_le_bytes in Hl.
  set (L := Z.of_nat (length _)) in Hm. clearbody L.
  rewrite <- 2!app_comm_cons, <- !app_assoc in Hm.
  assert (H8 : drop (p + 8) m = le_bytes 2 (Z.of_nat (length pairs)) ++ suites RSN_OUI pairs ++
     le_bytes 2 (Z.of_nat (length akms)) ++ suites RSN_OUI akms ++ le_bytes 2 cap ++ tail ++ rest) by by rewrite <- drop_drop, Hm.
  pose proof (drop_app_at _ _ _ _ 2 H8 (length_le_bytes _ _)) as H10.
  pose proof (drop_app_at _ _ _ _ _ H10 Lp) as Hq. pose proof (drop_app_at _ _ _ _ 2 Hq (length_le_bytes _ _)) as Hq2.
  pose proof (drop_app_at _ _ _ _ _ Hq2 La) as Hc. replace (p + 8 + 2)%nat with (p + 10)%nat in * by lia.
  unfold parse_rsn. rewrite (get16_drop m p 2), Hm. change (get16 _ 2) with (Some 1). cbn [mbind option_bind]. change (negb (1 =? 1)) with false. cbv iota.
  rewrite (equal_mem_drop m p 4), Hm by done. unfold equal_mem at 1. rewrite decide_True by (cbn; lia).
  cbn [mbind option_bind]. rewrite bool_decide_eq_true_2 by done. cbn [negb].
  rewrite <- (lookup_drop m p 7), Hm. change (_ !! 7%nat) with (Some g). cbn [mbind option_bind].
  rewrite (get16_at _ _ _ _ _ H8) by lia. cbn [mbind option_bind].
  rewrite Nat2Z.id, (pair_loop_spec RSN_OUI _ _ ltac:(cbn; lia) _ _ _ H10).
  cbn [mbind option_bind]. rewrite (get16_at _ _ _ _ _ Hq) by lia. cbn [mbind option_bind].
  rewrite Nat2Z.id, (akm_loop_spec _ _ _ _ _ Hq2). cbn [mbind option_bind].
  replace (ty =? BSS_ADHOC) with false by lia. rewrite (get16_at _ _ _ _ _ Hc) by done. cbn [mbind option_bind].
  rewrite fold_akms_set. unfold vie_effect. done.
Qed.

Lemma drop_nonempty (m l : list Z) x p : drop p m = x :: l → (p ≤ length m)%nat.
Proof. intros H. destruct (decide (p ≤ length m)%nat); [done|]. rewrite drop_ge in H by lia. done. Qed.

Lemma parse_wpa_spec ty m p g pairs n akm tail rest s : ty ≠ BSS_ADHOC → vie_ok (Vie_wpa g pairs n akm tail) →
  drop p m = vie_enc (Vie_wpa g pairs n akm tail) ++ rest →
  parse_wpa ty m p s = Some (vie_effect s (Vie_wpa g pairs n akm tail)).
Proof.
  intros Hty [Hl _] Hm. unfold vie_enc in Hm. cbn [vie_eid vie_body] in *.
  pose proof (length_suites WPA_OUI pairs ltac:(cbn; lia)) as Lp. pose proof (drop_nonempty _ _ _ _ Hm) as Hpm.
  rewrite !length_app in Hl. cbn [length WPA_OUI take] in Hl. rewrite !length_le_bytes in Hl.
  set (L := Z.of_nat (length _)) in Hm. clearbody L. rewrite <- 2!app_comm_cons, <- !app_assoc in Hm.
  assert (H12 : drop (p + 12) m = le_bytes 2 (Z.of_nat (length pairs)) ++ suites WPA_OUI pairs ++
     le_bytes 2 n ++ take 3 WPA_OUI ++ [akm] ++ tail ++ rest) by by rewrite <- drop_drop, Hm.
  pose proof (drop_app_at _ _ _ _ 2 H12 (length_le_bytes _ _)) as H14. replace (p + 12 + 2)%nat with (p + 14)%nat in * by lia.
  pose proof (drop_app_at _ _ _ _ _ H14 Lp) as Hq.
  assert (Hn : ∃ x, get16 m (p + 14 + 4 * length pairs) = Some x).
  { rewrite <- (Nat.add_0_r (_ + 4 * _)), get16_drop, Hq. by eexists. }
  destruct Hn as [x Hx].
  assert (Ha : m !! (p + 14 + 4 * length pairs + 2 + 3)%nat = Some akm).
  { rewrite <- !Nat.add_assoc, !(Nat.add_assoc p), !(Nat.add_assoc (p + 14)), <- lookup_drop, Hq. done. }
  unfold parse_wpa. rewrite (equal_mem_drop m p 2 SES_OUI), (equal_mem_drop m p 2 WPA_OUI), Hm by done.
  unfold equal_mem. rewrite !decide_True by (cbn; lia). cbn [mbind option_bind].
  rewrite (bool_decide_eq_false_2 (_ = take 3 SES_OUI)) by done. cbn [andb].
  rewrite bool_decide_eq_true_2 by done. cbn [negb].
  rewrite <- (lookup_drop m p 11), Hm. change (_ !! 11%nat) with (Some g). cbn [mbind option_bind].
  rewrite (get16_at _ _ _ _ _ H12) by lia. cbn [mbind option_bind].
  rewrite Nat2Z.id, (pair_loop_spec WPA_OUI _ _ ltac:(cbn; lia) _ _ _ H14). cbn [mbind option_bind]. rewrite Hx. cbn [mbind option_bind].
  rewrite Ha. cbn [mbind option_bind]. replace (ty =? BSS_ADHOC) with false by lia.
  unfold vie_effect, add_auth, set_WPA, set_sec_WepStatus. cbn [WPA WPA2 be_AuthMode be_AuthModeAux be_WepStatus bSES].
  by destruct (akm =? 1), (akm =? 2), (be_AuthMode s =? Ndis802_11AuthModeOpen).
Qed.

Lemma parse_vendor ty m p b rest s : vie_ok (Vie_vendor b) → drop p m = vie_enc (Vie_vendor b) ++ rest → parse_wpa ty m p s = Some s.
Proof.
  intros (Hl & H4 & Hw & Hses) Hm. unfold vie_enc in Hm. cbn [vie_eid vie_body] in *. pose proof (drop_nonempty _ _ _ _ Hm) as Hpm.
  rewrite <- 2!app_comm_cons in Hm.
  unfold parse_wpa. rewrite (equal_mem_drop m p 2 SES_OUI), (equal_mem_drop m p 2 WPA_OUI), Hm by done.
  unfold equal_mem. rewrite !decide_True by (cbn; rewrite length_app; lia). cbn [skipn mbind option_bind].
  rewrite !drop_0, !take_app_le by lia.
  rewrite (bool_decide_eq_false_2 (take 4 b = _)) by done.
  destruct (bool_decide_reflect (take 3 b = take 3 SES_OUI)) as [E|]; cbn [mbind option_bind andb negb]; [|done].
  rewrite <- (lookup_drop m p 1), Hm. cbn [lookup list_lookup mbind option_bind]. cbn.
  destruct Hses as [?|?]; [done|]. by replace (Z.of_nat (length b) =? 7) with false by lia.
Qed.

Lemma cipher_loop_fold ty m rest vs : ty ≠ BSS_ADHOC → Forall vie_ok vs → ∀ fuel VarIELen Length s,
  (length (concat (map vie_enc vs)) ≤ fuel)%nat → Length = Z.of_nat (length (concat (map vie_enc vs))) → Length ≤ VarIELen →
  drop (Z.to_nat (VarIELen - Length)) m = concat (map vie_enc vs) ++ rest →
  cipher_loop fuel ty m VarIELen Length s = Some (fold_left vie_effect vs s).
Proof.
  intros Hty. induction vs as [|v vs IH]; intros Hok fuel V Len s Hf HL HV Hm; inversion_clear Hok as [|?? Hv Hvs].
  - cbn in HL. subst Len. by destruct fuel.
  - cbn [map concat] in *. rewrite length_app in *. set (k := length (concat (map vie_enc vs))) in *.
    assert (Hle : length (vie_enc v) = S (S (length (vie_body v)))) by done. rewrite Hle in *.
    destruct fuel as [|fuel]; [lia|]. cbn [cipher_loop]. replace (Len <=? 0) with false by lia.
    set (p := Z.to_nat (V - Len)) in *. rewrite <- app_assoc in Hm.
    assert (He : m !! p = Some (vie_eid v)) by (rewrite <- (Nat.add_0_r p), <- lookup_drop, Hm; done).
    assert (H1 : m !! (p + 1)%nat = Some (Z.of_nat (length (vie_body v)))) by (rewrite <- lookup_drop, Hm; done).
    rewrite He. cbn [mbind option_bind].
    assert (Hs : (if vie_eid v =? IE_WPA then parse_wpa ty m p s
       else if vie_eid v =? IE_RSN then parse_rsn ty m p s else Some s) = Some (vie_effect s v)).
    { destruct v as [e b|b|g pairs n akm tail|g pairs akms cap tail]; cbn [vie_eid].
      - destruct Hv as (_ & Hn1 & Hn2). replace (e =? IE_WPA) with false by lia. by replace (e =? IE_RSN) with false by lia.
      - by eapply parse_vendor.
      - by eapply parse_wpa_spec.
      - by eapply parse_rsn_spec. }
    rewrite Hs. cbn [mbind option_bind]. rewrite H1. cbn [mbind option_bind fold_left]. apply IH; [done|lia..|].
    replace (Z.to_nat _) with (p + S (S (length (vie_body v))))%nat by lia. by apply (drop_app_at _ _ _ _ _ Hm).
Qed.

(** More fuel does not change the result: [None] is an access out of bounds. *)
Lemma cipher_loop_enough ty m V : bytes m → ∀ fuel k Length s, Length ≤ Z.of_nat fuel →
  cipher_loop (fuel + k) ty m V Length s = cipher_loop fuel ty m V Length s.
Proof.
  intros Hm. induction fuel as [|fuel IH]; intros k Len s HL.
  - assert (H0 : (Len <=? 0) = true) by lia. by destruct k; cbn; rewrite H0.
  - cbn [cipher_loop Nat.add]. destruct (Z.leb_spec Len 0); [done|].
    destruct (m !! Z.to_nat (V - Len)) as [e|]; [|done]. cbn [mbind option_bind].
    match goal with |- context [if ?e =? IE_WPA then ?x else ?y] => destruct (if e =? IE_WPA then x else y); [|done] end. cbn [mbind option_bind].
    destruct (m !! (_ + 1)%nat) as [l|] eqn:El; [|done]. cbn [mbind option_bind]. apply IH.
    assert (byte l) as [? _] by exact (Forall_lookup_1 _ _ _ _ Hm El). lia.
Qed.

(** * What the suites say *)

Lemma fold_pairs_fields ts : ∀ c, GroupCipher (fold_pairs ts c) = GroupCipher c ∧
  RsnCapability (fold_pairs ts c) = RsnCapability c ∧ bMixMode (fold_pairs ts c) = bMixMode c ∧
  PairCipher (fold_pairs ts c) = fold_left Z.max (map pair_cipher ts) (PairCipher c).
Proof.
  unfold fold_pairs. induction ts as [|t ts IH]; intros c; [done|]. cbn [fold_left map].
  destruct (IH (add_pair (pair_cipher t) c)) as (-> & -> & -> & ->). unfold add_pair.
  destruct (Z.ltb_spec (PairCipher c) (pair_cipher t)); cbn; repeat split; f_equal; lia.
Qed.

Lemma akm_mode_not_open t : (akm_mode t =? Ndis802_11AuthModeOpen) = false.
Proof. unfold akm_mode. by destruct (t =? 0), (t =? 1), (t =? 2). Qed.

Lemma fold_akms_rest ts : ∀ s, (be_AuthMode s =? Ndis802_11AuthModeOpen) = false →
  be_AuthMode (fold_akms ts s) = be_AuthMode s ∧
  be_AuthModeAux (fold_akms ts s) = default (be_AuthModeAux s) (last (map akm_mode ts)).
Proof.
  induction ts as [|t ts IH]; intros s Hs; [done|]. unfold fold_akms. cbn [fold_left map].
  replace (add_auth _ _) with (mk_sec (WPA s) (WPA2 s) (be_AuthMode s) (akm_mode t) (be_WepStatus s) (bSES s)) by (unfold add_auth; by rewrite Hs).
  destruct (IH (mk_sec (WPA s) (WPA2 s) (be_AuthMode s) (akm_mode t) (be_WepStatus s) (bSES s)) Hs) as [H1 H2].
  unfold fold_akms in H1, H2. rewrite H1, H2, last_cons. split; [done|]. by destruct (last _).
Qed.

Lemma fold_akms_first ts s t : be_AuthMode s = Ndis802_11AuthModeOpen →
  be_AuthMode (fold_akms (t :: ts) s) = akm_mode t ∧
  be_AuthModeAux (fold_akms (t :: ts) s) = default (be_AuthModeAux s) (last (map akm_mode ts)).
Proof.
  intros Hs. unfold fold_akms. cbn [fold_left].
  replace (add_auth _ s) with (mk_sec (WPA s) (WPA2 s) (akm_mode t) (be_AuthModeAux s) (be_WepStatus s) (bSES s))
    by (unfold add_auth; by rewrite Hs).
  exact (fold_akms_rest ts (mk_sec _ _ _ _ _ _) (akm_mode_not_open t)).
Qed.

(** The strongest of the unicast ciphers.  WEP, which has the lowest number,
    does not count: without AES and TKIP there is none. *)
Definition strongest (pairs : list Z) : Z :=
  if existsb (Z.eqb 4) pairs then Ndis802_11AESEnable else if existsb (Z.eqb 2) pairs then Ndis802_11TKIPEnable else Ndis802_11WEPDisabled.

Lemma strongest_max ts : ∀ x, Ndis802_11WEPDisabled ≤ x → fold_left Z.max (map pair_cipher ts) x = Z.max x (strongest ts).
Proof.
  induction ts as [|t ts IH]; intros x Hx; cbn [map fold_left]; [unfold strongest; cbn; lia|]. rewrite IH by lia.
  unfold strongest, pair_cipher. cbn [existsb]. unfold Ndis802_11WEPDisabled, Ndis802_11WEPEnabled, Ndis802_11TKIPEnable, Ndis802_11AESEnable in *.
  destruct (Z.eqb_spec 4 t) as [<-|]; [cbn; repeat destruct (existsb _ _); lia|]. destruct (Z.eqb_spec 2 t) as [<-|]; [cbn; repeat destruct (existsb _ _); lia|].
  rewrite (proj2 (Z.eqb_neq t 2)), (proj2 (Z.eqb_neq t 4)) by done. cbn [orb]. destruct (_ || _); repeat destruct (existsb _ _); lia.
Qed.

(** * The claim *)

Definition sec_start (Privacy bSES : bool) : bss_sec :=
  let init := mk_cs Ndis802_11WEPDisabled Ndis802_11WEPDisabled Ndis802_11WEPDisabled 0 false in
  mk_sec init init Ndis802_11AuthModeOpen Ndis802_11AuthModeOpen
    (if Privacy then Ndis802_11WEPEnabled else Ndis802_11WEPDisabled) bSES.

(** Neither WPA nor RSN. *)
Definition plain (v : vie) : Prop := match v with Vie_other _ _ | Vie_vendor _ => True | _ => False end.

Lemma fold_plain vs s : Forall plain vs → fold_left vie_effect vs s = s.
Proof. induction 1 as [|v vs Hv _ IH] in s |- *; [done|]. cbn. by destruct v. Qed.

Lemma cipher_parse_fold Privacy ty vs rest ses : ty ≠ BSS_ADHOC → Forall vie_ok vs →
  BssCipherParse Privacy ty (Z.of_nat (length (concat (map vie_enc vs)))) (concat (map vie_enc vs) ++ rest) ses =
  Some (fold_left vie_effect vs (sec_start Privacy ses)).
Proof. intros Hty Hok. apply (cipher_loop_fold ty _ rest vs); [done..|lia|done|done|]. by rewrite Z.sub_diag. Qed.

(** C33: The cipher suites of a network are parsed as the code means to.  From
    any sequence of well-formed elements of an access point (vendor elements
    have four bytes, WPA elements a key management, RSN elements their key
    managements and the two bytes of capabilities, of an element without which
    the bytes behind it are read, [missing_capabilities_read_on]),
    [BssCipherParse] reads inside of them and collects what each one says.  Of
    a network with one RSN element and no WPA element it learns its group
    cipher; as unicast cipher, and as encryption status, AES if the element
    names it, else TKIP if it names it, and else none, also for an element with
    WEP only ([wep_pair_not_read]); its capabilities; the first key management
    as the mode and the last of the others as the second one; and that it is
    mixed if the ciphers for unicast and group differ. *)
Theorem cipher_parse_correct Privacy ty vs rest ses (Hty : ty ≠ BSS_ADHOC) (Hok : Forall vie_ok vs) :
  let V := concat (map vie_enc vs) in
  let parsed := BssCipherParse Privacy ty (Z.of_nat (length V)) (V ++ rest) ses in
  parsed = Some (fold_left vie_effect vs (sec_start Privacy ses)) ∧
  ∀ os1 os2 g pairs a akms cap tail, vs = os1 ++ [Vie_rsn g pairs (a :: akms) cap tail] ++ os2 → Forall plain (os1 ++ os2) →
    ∃ s, parsed = Some s ∧ GroupCipher (WPA2 s) = group_cipher g Ndis802_11WEPDisabled ∧
      PairCipher (WPA2 s) = strongest pairs ∧
      be_WepStatus s = PairCipher (WPA2 s) ∧ RsnCapability (WPA2 s) = cap ∧ be_AuthMode s = akm_mode a ∧
      be_AuthModeAux s = default Ndis802_11AuthModeOpen (last (map akm_mode akms)) ∧
      bMixMode (WPA2 s) = negb (GroupCipher (WPA2 s) =? PairCipher (WPA2 s)).
Proof.
  intros V parsed.
  assert (HP : parsed = Some (fold_left vie_effect vs (sec_start Privacy ses))) by by apply cipher_parse_fold.
  split; [exact HP|]. intros os1 os2 g pairs a akms cap tail Hvs [Hp1 Hp2]%Forall_app.
  rewrite Hvs, !fold_left_app, (fold_plain os1), (fold_plain os2) in HP by done. cbn [fold_left] in HP.
  eexists. split; [exact HP|]. unfold vie_effect. cbv zeta.
  set (s0 := sec_start Privacy ses). set (c0 := set_GroupCipher _ _).
  destruct (fold_pairs_fields pairs c0) as (HG & HR & HM & HPc). destruct (fold_akms_first akms s0 a eq_refl) as [HA HX].
  cbn [WPA2 be_AuthMode be_AuthModeAux be_WepStatus mix set_RsnCapability GroupCipher PairCipher RsnCapability bMixMode].
  rewrite HG, HPc, HM, HA, HX, strongest_max by done. assert (Hm : Z.max (PairCipher c0) (strongest pairs) = strongest pairs).
  { unfold strongest. by repeat destruct (existsb _ _). }
  by rewrite Hm.
Qed.

(** A WPA2-PSK network with AES and TKIP, after an element of another kind. *)
Definition demo_vies : list vie := [Vie_other 7 [85; 83; 32]; Vie_rsn 2 [2; 4] [2] 12 []].

Lemma cipher_parse_correct_witness :
  ∃ s, BssCipherParse true BSS_INFRA 31 (concat (map vie_enc demo_vies) ++ zeros 100) false = Some s ∧
    PairCipher (WPA2 s) = Ndis802_11AESEnable ∧ be_AuthMode s = Ndis802_11AuthModeWPA2PSK.
Proof.
  destruct (cipher_parse_correct true BSS_INFRA demo_vies (zeros 100) false) as [_ H].
  - vm_compute. congruence.
  - repeat constructor; vm_compute; congruence.
  - destruct (H [Vie_other 7 [85; 83; 32]] [] 2 [2; 4] 2 [] 12 [] eq_refl) as (s & H1 & _ & H2 & _ & _ & H3 & _).
    { repeat constructor. }
    exists s. split; [exact H1|]. split; [exact H2|exact H3].
Defined.

(** * What the parser does not check *)

(** An RSN element that announces 512 unicast suites has the parser read past
    the end of the array of 1024 bytes, whatever the length of the element. *)
Lemma suites_read_out_of_bounds m : (length m ≤ 1024)%nat → ∀ p c, pair_loop m 512 p c = None.
Proof.
  intros Hm. assert (H : ∀ n p c, (length m < p + 4 * n)%nat → (0 < n)%nat → pair_loop m n p c = None).
  { induction n as [|n IH]; intros p c H Hn; [lia|]. cbn [pair_loop].
    destruct (m !! (p + 3)%nat) as [t|] eqn:E; [|done]. apply lookup_lt_Some in E. cbn [mbind option_bind].
    destruct n as [|n]; [lia|]. apply IH; lia. }
  intros p c. apply H; lia.
Qed.
Example rsn_suites_out_of_bounds :
  BssCipherParse true BSS_INFRA 12 (bwrite (zeros MAX_VIE_LEN) 0 [48; 10; 1; 0; 0; 0x0f; 0xac; 4; 0; 2; 0; 0]) false = None.
Proof. vm_compute. reflexivity. Qed.

(** The comment says that WEP is parsed anyway; its number is below the one of
    no cipher, so that it is never stored as the unicast cipher. *)
Example wep_pair_not_read :
  (λ s, (PairCipher (WPA2 s), be_WepStatus s)) <$> BssCipherParse true BSS_INFRA 22 (vie_enc (Vie_rsn 1 [1] [2] 0 []) ++ zeros 100) false =
  Some (Ndis802_11WEPDisabled, Ndis802_11WEPDisabled).
Proof. vm_compute. reflexivity. Qed.

(** Of an RSN element that ends behind its key managements, as it may, the
    capabilities are the first two bytes of the next element. *)
Example missing_capabilities_read_on :
  let m := [48; 18] ++ take 18 (vie_body (Vie_rsn 4 [4] [2] 0 [])) ++ [45; 26] ++ zeros 100 in
  (λ s, RsnCapability (WPA2 s)) <$> BssCipherParse true BSS_INFRA 20 m false = Some (256 * 26 + 45).
Proof. vm_compute. reflexivity. Qed.

(** A suite the driver does not know, after the others, hides the second
    cipher: of CCMP, TKIP and GCMP only CCMP is left. *)
Example unknown_suite_hides_tkip :
  (λ s, (PairCipher (WPA2 s), PairCipherAux (WPA2 s))) <$>
    BssCipherParse true BSS_INFRA 32 (vie_enc (Vie_rsn 2 [4; 2; 8] [2] 0 []) ++ zeros 100) false =
  Some (Ndis802_11AESEnable, Ndis802_11WEPDisabled).
Proof. vm_compute. reflexivity. Qed.
