(* ===== verification/BssTable.v ===== *)
(** The table of networks: src/common/mlme.c, BssTableInit, BssTableSearch,
    BssSsidTableSearch, BssTableSearchWithSSID, BssSsidTableSearchBySSID,
    BssTableDeleteEntry, BssTableSetEntry, BssTableSsidSort and
    BssTableSortByRssi; src/sta/connect.c, MaintainBssTable;
    src/common/cmm_radar.c, RadarChannelCheck.

    The elements of probe responses are kept in buffers outside of the entries
    that these point to; [B] are the buffers, and entries that are copied
    share them. *)

From stdpp Require Import list.
From S2P Require Import Prelude BaReorder MacTable WpaKeys Eapol StaAuth BssEntry.

(** * Constants *)

Definition MAX_LEN_OF_BSS_TABLE : nat := 128.
Definition fOP_STATUS_MEDIA_STATE_CONNECTED : Z := 0x00000080.
Definition fOP_AP_STATUS_MEDIA_STATE_CONNECTED : Z := 0x00200000.
Definition WMODE_G : Z := 4.
Definition WMODE_GN : Z := 8.
Definition WMODE_AN : Z := 16.
Definition WMODE_AC : Z := 32.

Definition OPSTATUS_TEST_FLAG (flags f : Z) : bool := negb (Z.land flags f =? 0).
Definition WMODE_HT_ONLY (x : Z) : bool := Z.land x (Z.lnot (Z.lor (Z.lor WMODE_GN WMODE_AN) WMODE_AC)) =? 0.

(** [SSID_EQUAL] *)
Definition SSID_EQUAL (s1 : list Z) (l1 : Z) (s2 : list Z) (l2 : Z) : option bool :=
  if l1 =? l2 then equal_mem s1 0 s2 (Z.to_nat l1) else Some false.

(** * Data *)

Record BSS_TABLE := mk_btab { BssNr : Z; BssOverlapNr : Z; BssEntry : list BSS_ENTRY }.

Definition set_entry (T : BSS_TABLE) (i : nat) (b : BSS_ENTRY) : BSS_TABLE :=
  mk_btab (BssNr T) (BssOverlapNr T) (<[i := b]> (BssEntry T)).
Definition set_BssNr (n : Z) (T : BSS_TABLE) : BSS_TABLE := mk_btab n (BssOverlapNr T) (BssEntry T).

(** [RTMPZeroMemory(p, MAX_VIE_LEN)], if [p] is not null. *)
Definition zero_buf (p : option nat) (B : list (list Z)) : option (list (list Z)) :=
  match p with
  | None => Some B
  | Some k => _ ← B !! k; Some (<[k := zeros MAX_VIE_LEN]> B)
  end.

(** * Initialisation *)

Definition set_Rssi (r : Z) (b : BSS_ENTRY) : BSS_ENTRY :=
  let x := be_rx b in set_Bss_rx (mk_brx r (LastBeaconRxTime x) (LastBeaconRxTimeA x) (SameRxTimeCount x)) b.

(** The entries keep their buffers. *)
Fixpoint init_entries (es : list BSS_ENTRY) (B : list (list Z)) : option (list BSS_ENTRY * list (list Z)) :=
  match es with
  | [] => Some ([], B)
  | e :: es =>
      let pOldAddr := pVarIeFromProbRsp e in
      B ← zero_buf pOldAddr B;
      '(es, B) ← init_entries es B;
      Some (set_pVar pOldAddr (set_Rssi (-127) zero_bss) :: es, B)
  end.

Definition BssTableInit (T : BSS_TABLE) (B : list (list Z)) : option (BSS_TABLE * list (list Z)) :=
  '(es, B) ← init_entries (BssEntry T) B; Some (mk_btab 0 0 es, B).

(** * Searching *)

(** The same address may be used on both bands. *)
Definition same_band (c1 c2 : Z) : bool := ((c1 <=? 14) && (c2 <=? 14)) || ((14 <? c1) && (14 <? c2)).

(** The loop of the searches over the first [n] entries from [i] on: the
    index of the first one that [f] holds of. *)
Fixpoint search (f : BSS_ENTRY → option bool) (es : list BSS_ENTRY) (i n : nat) : option (option nat) :=
  match n with
  | O => Some None
  | S n => e ← es !! i; ok ← f e; if (ok : bool) then Some (Some i) else search f es (S i) n
  end.

Definition BssTableSearch (T : BSS_TABLE) (pBssid : list Z) (Channel : Z) : option (option nat) :=
  search (λ e, Some (same_band (be_Channel (be_id e)) Channel && MAC_ADDR_EQUAL (be_Bssid (be_id e)) pBssid))
    (BssEntry T) 0 (Z.to_nat (BssNr T)).

Definition BssSsidTableSearch (T : BSS_TABLE) (pBssid pSsid : list Z) (SsidLen Channel : Z) : option (option nat) :=
  search (λ e, let d := be_id e in
    if same_band (be_Channel d) Channel && MAC_ADDR_EQUAL (be_Bssid d) pBssid
    then SSID_EQUAL pSsid SsidLen (be_Ssid d) (be_SsidLen d) else Some false)
    (BssEntry T) 0 (Z.to_nat (BssNr T)).

Definition BssTableSearchWithSSID (T : BSS_TABLE) (Bssid pSsid : list Z) (SsidLen Channel : Z) : option (option nat) :=
  search (λ e, let d := be_id e in
    if same_band (be_Channel d) Channel && MAC_ADDR_EQUAL (be_Bssid d) Bssid then
      same ← SSID_EQUAL pSsid SsidLen (be_Ssid d) (be_SsidLen d);
      if (same : bool) then Some true
      else
        any ← equal_mem pSsid 0 ZeroSsid (Z.to_nat SsidLen);
        if (any : bool) then Some true else equal_mem (be_Ssid d) 0 ZeroSsid (Z.to_nat (be_SsidLen d))
    else Some false)
    (BssEntry T) 0 (Z.to_nat (BssNr T)).

Definition BssSsidTableSearchBySSID (T : BSS_TABLE) (pSsid : list Z) (SsidLen : Z) : option (option nat) :=
  search (λ e, SSID_EQUAL pSsid SsidLen (be_Ssid (be_id e)) (be_SsidLen (be_id e))) (BssEntry T) 0 (Z.to_nat (BssNr T)).

(** * Deleting *)

(** [NdisMoveMemory(pOldAddr, p, n)] between buffers; with a null source
    nothing may be read. *)
Definition copy_buf (k : nat) (p : option nat) (n : Z) (B : list (list Z)) : option (list (list Z)) :=
  dst ← B !! k;
  match p with
  | None => if n =? 0 then Some B else None
  | Some j => src ← B !! j; d ← move_mem dst 0 src 0 (Z.to_nat n); Some (<[k := d]> B)
  end.

(** The entries from [j + 1] on move down, [n] of them; the buffers stay, what
    is in them moves. *)
Fixpoint shift_loop (n j : nat) (es : list BSS_ENTRY) (B : list (list Z)) : option (list BSS_ENTRY * list (list Z)) :=
  match n with
  | O => Some (es, B)
  | S n =>
      old ← es !! j;
      next ← es !! S j;
      match pVarIeFromProbRsp old with
      | None => shift_loop n (S j) (<[j := next]> es) B
      | Some k =>
          B ← zero_buf (Some k) B;
          B ← copy_buf k (pVarIeFromProbRsp next) (VarIeFromProbeRspLen next) B;
          shift_loop n (S j) (<[j := set_pVar (Some k) next]> es) B
      end
  end.

(** The entry [i] of [nr] is removed and the last one zeroed; [keep_ptr]:
    whether its buffer is given back to it. *)
Definition delete_at (keep_ptr : bool) (i nr : nat) (es : list BSS_ENTRY) (B : list (list Z)) : option (list BSS_ENTRY * list (list Z)) :=
  '(es, B) ← shift_loop (nr - 1 - i) i es B;
  last ← es !! (nr - 1)%nat;
  B ← zero_buf (pVarIeFromProbRsp last) B;
  Some (<[(nr - 1)%nat := if keep_ptr then set_pVar (pVarIeFromProbRsp last) zero_bss else zero_bss]> es, B).

Definition BssTableDeleteEntry (T : BSS_TABLE) (pBssid : list Z) (Channel : Z) (B : list (list Z)) : option (BSS_TABLE * list (list Z)) :=
  found ← search (λ e, Some ((be_Channel (be_id e) =? Channel) && MAC_ADDR_EQUAL (be_Bssid (be_id e)) pBssid))
            (BssEntry T) 0 (Z.to_nat (BssNr T));
  match found with
  | None => Some (T, B)
  | Some i =>
      '(es, B) ← delete_at true i (Z.to_nat (BssNr T)) (BssEntry T) B;
      Some (mk_btab (u8 (BssNr T - 1)) (BssOverlapNr T) es, B)
  end.

(** * Adding *)

(** What is read of the adapter: the network that is wanted, also the one a
    supplicant asked for ([Cfg_pending_Ssid]). *)
Record bss_ctx := mk_bctx {
  OpStatusFlags : Z; want_Bssid : list Z; want_Ssid : list Z; want_SsidLen : Z;
  Cfg_pending_Ssid : list Z; Cfg_pending_SsidLen : Z; cx_vht : vht_cfg
}.

Definition set_vht (v : vht_cfg) (cx : bss_ctx) : bss_ctx :=
  mk_bctx (OpStatusFlags cx) (want_Bssid cx) (want_Ssid cx) (want_SsidLen cx) (Cfg_pending_Ssid cx) (Cfg_pending_SsidLen cx) v.
Definition clear_pending (cx : bss_ctx) : bss_ctx :=
  mk_bctx (OpStatusFlags cx) (want_Bssid cx) (want_Ssid cx) (want_SsidLen cx) (zeros (MAX_LEN_OF_SSID + 1)) 0 (cx_vht cx).

(** The network is one that was asked for. *)
Definition desired (cx : bss_ctx) (ie : BCN_IE_LIST) : option bool :=
  if MAC_ADDR_EQUAL (want_Bssid cx) (bcn_Bssid ie) then Some true
  else
    same ← SSID_EQUAL (want_Ssid cx) (want_SsidLen cx) (bcn_Ssid ie) (bcn_SsidLen ie);
    if (same : bool) then Some true
    else SSID_EQUAL (Cfg_pending_Ssid cx) (Cfg_pending_SsidLen cx) (bcn_Ssid ie) (bcn_SsidLen ie).

(** What a beacon says, as [BssEntrySet] takes it. *)
Record heard := mk_heard { h_ie : BCN_IE_LIST; h_Rssi : Z; h_LengthVIE : Z; h_VIE : list Z; h_Now : Z }.
Definition set_h_ie (ie : BCN_IE_LIST) (h : heard) : heard := mk_heard ie (h_Rssi h) (h_LengthVIE h) (h_VIE h) (h_Now h).

(** [BssEntrySet] on an entry. *)
Definition entry_set (cx : bss_ctx) (b : BSS_ENTRY) (h : heard) : option (BSS_ENTRY * heard * bss_ctx) :=
  '(b, ie, v) ← BssEntrySet (h_Now h) (cx_vht cx) b (h_ie h) (h_Rssi h) (h_LengthVIE h) (h_VIE h);
  Some (b, set_h_ie ie h, set_vht v cx).

(** The index is [None] for [BSS_NOT_FOUND]. *)
Definition BssTableSetEntry (cx : bss_ctx) (T : BSS_TABLE) (h : heard) : option (option nat * BSS_TABLE * heard * bss_ctx) :=
  found ← BssTableSearch T (bcn_Bssid (h_ie h)) (bcn_Channel (h_ie h));
  match found with
  | None =>
      if Z.of_nat MAX_LEN_OF_BSS_TABLE <=? BssNr T then
        if negb (OPSTATUS_TEST_FLAG (OpStatusFlags cx) fOP_STATUS_MEDIA_STATE_CONNECTED) ||
           negb (OPSTATUS_TEST_FLAG (OpStatusFlags cx) fOP_AP_STATUS_MEDIA_STATE_CONNECTED) then
          wanted ← desired cx (h_ie h);
          if (wanted : bool) then
            let Idx := Z.to_nat (BssOverlapNr T) in
            _ ← BssEntry T !! Idx;
            '(b, h, cx) ← entry_set cx zero_bss h;
            let T := set_entry T Idx b in
            Some (Some Idx, mk_btab (BssNr T) (u8 (BssOverlapNr T + 1) `mod` Z.of_nat MAX_LEN_OF_BSS_TABLE) (BssEntry T), h,
                  clear_pending cx)
          else Some (None, T, h, cx)
        else Some (None, T, h, cx)
      else
        let Idx := Z.to_nat (BssNr T) in
        b ← BssEntry T !! Idx;
        '(b, h, cx) ← entry_set cx b h;
        Some (Some Idx, set_BssNr (u8 (BssNr T + 1)) (set_entry T Idx b), h, cx)
  | Some Idx =>
      b ← BssEntry T !! Idx;
      '(b, h, cx) ← entry_set cx b h;
      Some (Some Idx, set_entry T Idx b, h, cx)
  end.

(** * Ageing *)

Section maintain.
(** Ticks of the kernel in a second, the readings of the clock in the turns of
    the loop, the station's own network if it is connected. *)
Context (OS_HZ : Z) (Now : nat → Z) (connected : bool) (ssid : list Z) (SsidLen : Z) (MaxRxTimeDiff MaxSameRxTimeCount : Z).

Definition age (b : BSS_ENTRY) : BSS_ENTRY :=
  let x := be_rx b in
  set_Bss_rx
    (if negb (LastBeaconRxTimeA x =? LastBeaconRxTime x)
     then mk_brx (Rssi x) (LastBeaconRxTime x) (LastBeaconRxTime x) 0
     else mk_brx (Rssi x) (LastBeaconRxTime x) (LastBeaconRxTimeA x) (u8 (SameRxTimeCount x + 1))) b.

Definition too_old (now : Z) (b : BSS_ENTRY) : option bool :=
  let x := be_rx b in
  let del := RTMP_TIME_AFTER now (u64 (LastBeaconRxTime x + MaxRxTimeDiff * OS_HZ)) || (MaxSameRxTimeCount <? SameRxTimeCount x) in
  if connected then own ← equal_mem (be_Ssid (be_id b)) 0 ssid (Z.to_nat SsidLen); Some (del && negb own) else Some del.

(** The loop with index [i] over [total_bssNr] entries; an entry that moved
    into the place of a deleted one is not looked at. *)
Fixpoint maintain_loop (fuel i total_bssNr : nat) (es : list BSS_ENTRY) (B : list (list Z)) : option (nat * list BSS_ENTRY * list (list Z)) :=
  if Nat.ltb i total_bssNr then
    match fuel with
    | O => None
    | S fuel =>
        b ← es !! i;
        let b := age b in
        let es := <[i := b]> es in
        bDelEntry ← too_old (Now i) b;
        if (bDelEntry : bool) then
          '(es, B) ← delete_at false i total_bssNr es B;
          maintain_loop fuel (S i) (total_bssNr - 1) es B
        else maintain_loop fuel (S i) total_bssNr es B
    end
  else Some (total_bssNr, es, B).

Definition MaintainBssTable (T : BSS_TABLE) (B : list (list Z)) : option (BSS_TABLE * list (list Z)) :=
  let nr := Z.to_nat (BssNr T) in
  '(nr, es, B) ← maintain_loop nr 0 nr (BssEntry T) B;
  Some (mk_btab (Z.of_nat nr) (BssOverlapNr T) es, B).
End maintain.

(** * Sorting *)

(** The comparison of the sort; [CHAR] is signed. *)
Definition out_of_order (isInverseOrder : bool) (ri rj : Z) : bool :=
  (if ri <? rj then negb isInverseOrder else isInverseOrder) && negb (rj =? ri).

(** The inner loop: [n] turns from [j] on. *)
Fixpoint sort_inner (inv : bool) (i j n : nat) (es : list BSS_ENTRY) : option (list BSS_ENTRY) :=
  match n with
  | O => Some es
  | S n =>
      ei ← es !! i; ej ← es !! j;
      sort_inner inv i (S j) n
        (if out_of_order inv (Rssi (be_rx ei)) (Rssi (be_rx ej)) then <[i := ej]> (<[j := ei]> es) else es)
  end.

(** The outer loop: [n] turns from [i] on, up to entry [nr - 1]. *)
Fixpoint sort_outer (inv : bool) (nr i n : nat) (es : list BSS_ENTRY) : option (list BSS_ENTRY) :=
  match n with
  | O => Some es
  | S n => es ← sort_inner inv i (S i) (nr - S i) es; sort_outer inv nr (S i) n es
  end.

(** [al]: the outcome of the allocation. *)
Definition BssTableSortByRssi (al : bool) (OutTab : BSS_TABLE) (isInverseOrder : bool) : option BSS_TABLE :=
  if negb al then Some OutTab
  else
    let nr := Z.to_nat (BssNr OutTab) in
    es ← sort_outer isInverseOrder nr 0 (nr - 1) (BssEntry OutTab);
    Some (mk_btab (BssNr OutTab) (BssOverlapNr OutTab) es).

(** * Selecting *)

(** The settings; [ChannelList] has the channels with their flag [DfsReq]. *)
Record join_cfg := mk_join {
  bAutoConnectIfNoSSID : bool; bIEEE80211H : bool; jc_Channel : Z; ChannelList : list (Z * bool); jc_BssType : Z;
  WpaSupplicantUP : Z; IEEE80211dClientMode : Z; PhyMode : Z; jc_AuthMode : Z; jc_WepStatus : Z
}.
Definition Rt802_11_D_Strict : Z := 2.

Fixpoint RadarChannelCheck (l : list (Z * bool)) (Ch : Z) : bool :=
  match l with [] => false | (c, DfsReq) :: l => if Ch =? c then DfsReq else RadarChannelCheck l Ch end.

(** A mode with HT only, or G and N, that the network does not have. *)
Definition mode_mismatch (cfg : join_cfg) (b : BSS_ENTRY) : bool :=
  ((be_HtCapabilityLen (be_ht b) =? 0) && WMODE_HT_ONLY (PhyMode cfg)) ||
  ((PhyMode cfg =? Z.lor WMODE_G WMODE_GN) && (be_SupRateLen (be_cap b) + be_ExtRateLen (be_cap b) <? 12)).

(** The checks of a cipher suite [c]: its group cipher is compared as [group],
    and [wep_ok] exempts the group ciphers of WEP. *)
Definition suite_ok (WepStatus : Z) (c : CIPHER_SUITE) (group : Z) (wep_ok : bool) : bool :=
  let wep_group := (GroupCipher c =? Ndis802_11GroupWEP40Enabled) || (GroupCipher c =? Ndis802_11GroupWEP104Enabled) in
  negb (negb (bMixMode c) && negb (WepStatus =? GroupCipher c)) &&
  negb ((WepStatus <? group) && negb (wep_ok && wep_group)) &&
  negb ((WepStatus =? Ndis802_11TKIPEnable) && negb (WepStatus =? PairCipher c) && negb (WepStatus =? PairCipherAux c)).

(** The security of the network fits; [named]: it was asked for by name. *)
Definition security_ok (cfg : join_cfg) (named : bool) (s : bss_sec) : bool :=
  let A := jc_AuthMode cfg in
  let W := jc_WepStatus cfg in
  if Ndis802_11AuthModeWPA <=? A then
    negb (negb (A =? be_AuthMode s) && negb (A =? be_AuthModeAux s)) &&
    (if (A =? Ndis802_11AuthModeWPA) || (A =? Ndis802_11AuthModeWPAPSK)
     then suite_ok W (WPA s) (GroupCipher (WPA s)) named
     else if (A =? Ndis802_11AuthModeWPA2) || (A =? Ndis802_11AuthModeWPA2PSK)
     then suite_ok W (WPA2 s) (GroupCipher (if named then WPA s else WPA2 s)) named
     else true)
  else (W =? be_WepStatus s) || (named && bSES s).

(** What the loop does with an entry: nothing of it matches; [continue]; the
    entry is copied; it is copied, then [continue]. *)
Inductive verdict := V_none | V_skip | V_copy | V_copy_continue.

Definition judge (cfg : join_cfg) (Ssid : list Z) (SsidLen : Z) (b : BSS_ENTRY) : option verdict :=
  let d := be_id b in
  let bIsHiddenApIncluded := bIEEE80211H cfg && (14 <? jc_Channel cfg) && RadarChannelCheck (ChannelList cfg) (be_Channel d) &&
                             negb (be_Hidden d =? 0) in
  if negb (be_BssType d =? jc_BssType cfg) then Some V_none
  else
    same ← SSID_EQUAL Ssid SsidLen (be_Ssid d) (be_SsidLen d);
    if same || bIsHiddenApIncluded then
      if negb (Z.land (WpaSupplicantUP cfg) 0x80 =? 0) then Some V_copy_continue
      else if (IEEE80211dClientMode cfg =? Rt802_11_D_Strict) && negb (bHasCountryIE (be_ies b)) then Some V_skip
      else if mode_mismatch cfg b || negb (security_ok cfg true (be_sec b)) || (SsidLen =? 0) then Some V_skip
      else Some V_copy
    else if SsidLen =? 0 then
      if mode_mismatch cfg b || negb (security_ok cfg false (be_sec b)) then Some V_skip else Some V_copy
    else Some V_none.

(** [OutTab->BssEntry[OutTab->BssNr++] = b]; the copy shares the buffer. *)
Definition copy_entry (b : BSS_ENTRY) (Out : BSS_TABLE) : option BSS_TABLE :=
  _ ← BssEntry Out !! Z.to_nat (BssNr Out);
  Some (set_BssNr (u8 (BssNr Out + 1)) (set_entry Out (Z.to_nat (BssNr Out)) b)).

(** The loop over the scan table; [n] entries are left from [i] on. *)
Fixpoint ssid_loop (cfg : join_cfg) (Ssid : list Z) (SsidLen : Z) (scan : list BSS_ENTRY) (i n : nat) (Out : BSS_TABLE)
    : option BSS_TABLE :=
  match n with
  | O => Some Out
  | S n =>
      b ← scan !! i;
      v ← judge cfg Ssid SsidLen b;
      Out ← (match v with V_none | V_skip => Some Out | V_copy | V_copy_continue => copy_entry b Out end);
      match v with
      | V_skip | V_copy_continue => ssid_loop cfg Ssid SsidLen scan (S i) n Out
      | V_none | V_copy =>
          if Z.of_nat MAX_LEN_OF_BSS_TABLE <=? BssNr Out then Some Out
          else ssid_loop cfg Ssid SsidLen scan (S i) n Out
      end
  end.

Definition BssTableSsidSort (al : bool) (cfg : join_cfg) (ScanTab OutTab : BSS_TABLE) (B : list (list Z)) (Ssid : list Z) (SsidLen : Z)
    : option (BSS_TABLE * list (list Z)) :=
  '(Out, B) ← BssTableInit OutTab B;
  if (SsidLen =? 0) && negb (bAutoConnectIfNoSSID cfg) then Some (Out, B)
  else
    Out ← ssid_loop cfg Ssid SsidLen (BssEntry ScanTab) 0 (Z.to_nat (BssNr ScanTab)) Out;
    Out ← BssTableSortByRssi al Out false;
    Some (Out, B).
