(* ===== verification/BssTableProofs.v ===== *)
(** Lemmas on the table of networks: searching, shifting entries and their
    buffers, filling in entries, sorting. *)

From stdpp Require Import list sorting.
From S2P Require Import Prelude MacTable Eapol StaAuth BssEntry BssEntryProofs BssTable.

(** * Keys and searching *)

(** Networks are told apart by the band and the address. *)
Definition bss_key (e : BSS_ENTRY) : bool * list Z := (be_Channel (be_id e) <=? 14, take 6 (be_Bssid (be_id e))).
Definition key_of (Bssid : list Z) (Channel : Z) : bool * list Z := (Channel <=? 14, take 6 Bssid).

Lemma same_band_spec c d : same_band c d = bool_decide ((c <=? 14) = (d <=? 14)).
Proof. unfold same_band. destruct (Z.leb_spec c 14), (Z.leb_spec d 14), (Z.ltb_spec 14 c), (Z.ltb_spec 14 d); done || lia. Qed.

Lemma key_match e Bssid Channel :
  same_band (be_Channel (be_id e)) Channel && MAC_ADDR_EQUAL (be_Bssid (be_id e)) Bssid = bool_decide (bss_key e = key_of Bssid Channel).
Proof.
  rewrite same_band_spec. unfold MAC_ADDR_EQUAL, bss_key, key_of.
  destruct (bool_decide_reflect ((be_Channel (be_id e) <=? 14) = (Channel <=? 14))), (bool_decide_reflect (take 6 (be_Bssid (be_id e)) = take 6 Bssid)),
    (bool_decide_reflect ((be_Channel (be_id e) <=? 14, take 6 (be_Bssid (be_id e))) = (Channel <=? 14, take 6 Bssid))); cbn; congruence.
Qed.

Lemma search_spec g es : ∀ n i, (i + n ≤ length es)%nat →
  ∃ r, search (λ e, Some (g e)) es i n = Some r ∧
    match r with
    | Some k => (i ≤ k < i + n)%nat ∧ (∃ e, es !! k = Some e ∧ g e = true) ∧ ∀ j e, (i ≤ j < k)%nat → es !! j = Some e → g e = false
    | None => ∀ j e, (i ≤ j < i + n)%nat → es !! j = Some e → g e = false
    end.
Proof.
  induction n as [|n IH]; intros i Hi; cbn [search].
  - exists None. split; [done|]. lia.
  - destruct (lookup_lt_is_Some_2 es i ltac:(lia)) as [e He]. rewrite He. cbn [mbind option_bind]. destruct (g e) eqn:Ge.
    + exists (Some i). split; [done|]. split; [lia|]. split; [by exists e|]. lia.
    + destruct (IH (S i) ltac:(lia)) as (r & -> & Hr). exists r. split; [done|].
      assert (Hs : ∀ j f, (i ≤ j)%nat → es !! j = Some f → (S i ≤ j)%nat ∨ g f = false).
      { intros j f Hj Hf. destruct (decide (i = j)) as [->|]; [right; congruence|left; lia]. }
      destruct r as [k|].
      * destruct Hr as (H1 & H2 & H3). split; [lia|]. split; [done|]. intros j f Hj Hf. destruct (Hs j f ltac:(lia) Hf); [|done]. apply (H3 j); [lia|done].
      * intros j f Hj Hf. destruct (Hs j f ltac:(lia) Hf); [|done]. apply (Hr j); [lia|done].
Qed.

(** * Shifting *)

Section shift.
Context {A : Type}.
Implicit Type l : list A.

Fixpoint shift_abs (n j : nat) (l : list A) : list A :=
  match n with
  | O => l
  | S n => match l !! S j with Some x => shift_abs n (S j) (<[j := x]> l) | None => l end
  end.

Lemma length_shift_abs n : ∀ j l, length (shift_abs n j l) = length l.
Proof. induction n as [|n IH]; intros j l; cbn; [done|]. destruct (l !! S j); [|done]. by rewrite IH, length_insert. Qed.

Lemma lookup_shift_abs n : ∀ j l x, (j + n < length l)%nat →
  shift_abs n j l !! x = if decide (j ≤ x < j + n)%nat then l !! S x else l !! x.
Proof.
  induction n as [|n IH]; intros j l x Hj; cbn [shift_abs].
  - by rewrite decide_False by lia.
  - destruct (lookup_lt_is_Some_2 l (S j) ltac:(lia)) as [y Hy]. rewrite Hy, IH by (rewrite length_insert; lia).
    destruct (decide (x = j)) as [->|Hx].
    + rewrite list_lookup_insert_eq, list_lookup_insert_ne by lia. destruct (decide (S j ≤ j < S j + n)%nat), (decide (j ≤ j < j + S n)%nat); done || lia.
    + destruct (decide (S j ≤ x < S j + n)%nat), (decide (j ≤ x < j + S n)%nat); rewrite list_lookup_insert_ne by lia; done || lia.
Qed.

(** The entries before the last one are those without the deleted one. *)
Lemma shift_delete i nr l b : (i < nr)%nat → (nr ≤ length l)%nat →
  take (nr - 1) (<[(nr - 1)%nat := b]> (shift_abs (nr - 1 - i) i l)) = delete i (take nr l).
Proof.
  intros Hi Hn. apply list_eq. intros x. rewrite take_insert_ge by lia. destruct (decide (x < nr - 1)%nat) as [Hx|Hx].
  - rewrite lookup_take_lt, lookup_shift_abs by lia. destruct (decide (i ≤ x)%nat).
    + rewrite decide_True, list_lookup_delete_ge, lookup_take_lt by lia. done.
    + rewrite decide_False, list_lookup_delete_lt, lookup_take_lt by lia. done.
  - rewrite lookup_take_ge by lia. symmetry. apply lookup_ge_None.
    rewrite length_delete by (apply lookup_lt_is_Some; rewrite length_take; lia). rewrite length_take. lia.
Qed.
End shift.

(** * Deleting entries *)

(** An entry without its buffer. *)
Definition core (e : BSS_ENTRY) : BSS_ENTRY := set_pVar None e.

Lemma shift_loop_cores n : ∀ j es B es' B', (j + n < length es)%nat → shift_loop n j es B = Some (es', B') →
  core <$> es' = shift_abs n j (core <$> es).
Proof.
  induction n as [|n IH]; intros j es B es' B' Hj H; cbn [shift_loop shift_abs] in *; [by simplify_eq|].
  destruct (lookup_lt_is_Some_2 es j ltac:(lia)) as [old Ho], (lookup_lt_is_Some_2 es (S j) ltac:(lia)) as [next Hn].
  rewrite Ho, Hn in H. cbn [mbind option_bind] in H. rewrite list_lookup_fmap, Hn. cbn [fmap option_fmap option_map].
  destruct (pVarIeFromProbRsp old) as [k|].
  - destruct (zero_buf _ B) as [B1|]; [|done]. cbn [mbind option_bind] in H.
    destruct (copy_buf _ _ _ B1) as [B2|]; [|done]. cbn [mbind option_bind] in H.
    apply IH in H; [|rewrite length_insert; lia]. by rewrite H, list_fmap_insert.
  - apply IH in H; [|rewrite length_insert; lia]. by rewrite H, list_fmap_insert.
Qed.

Lemma delete_at_cores kp i nr es B es' B' : (i < nr)%nat → (nr ≤ length es)%nat → delete_at kp i nr es B = Some (es', B') →
  length es' = length es ∧ take (nr - 1) (core <$> es') = delete i (take nr (core <$> es)) ∧
  (core <$> es') !! (nr - 1)%nat = Some zero_bss ∧ ∀ x, (nr ≤ x)%nat → (core <$> es') !! x = (core <$> es) !! x.
Proof.
  intros Hi Hn H. unfold delete_at in H. destruct (shift_loop _ i es B) as [[es1 B1]|] eqn:E; [|done]. cbn [mbind option_bind] in H.
  destruct (es1 !! (nr - 1)%nat) as [last|]; [|done]. cbn [mbind option_bind] in H.
  destruct (zero_buf _ B1) as [B2|]; [|done]. cbn [mbind option_bind] in H. injection H as <- <-.
  pose proof (shift_loop_cores (nr - 1 - i) i es B es1 B1 ltac:(lia) E) as HC.
  assert (HL : length es1 = length es) by (rewrite <- (length_fmap core es1), HC, length_shift_abs, length_fmap; done).
  rewrite list_fmap_insert, HC, length_insert. split; [done|]. split; [apply shift_delete; [done|by rewrite length_fmap]|].
  rewrite <- HL, <- (length_fmap core es1), HC in Hn. split.
  - rewrite list_lookup_insert_eq by lia. by destruct kp.
  - intros x Hx. rewrite list_lookup_insert_ne, lookup_shift_abs by (rewrite ?length_fmap in *; rewrite ?length_shift_abs, ?length_fmap in Hn; lia).
    by rewrite decide_False by lia.
Qed.

(** * Buffers *)

(** Each entry has a buffer of its own, with room for what it holds. *)
Record bufs_wf (es : list BSS_ENTRY) (B : list (list Z)) : Prop := {
  bw_own : ∀ x e, es !! x = Some e → ∃ k buf, pVarIeFromProbRsp e = Some k ∧ B !! k = Some buf ∧
    length buf = MAX_VIE_LEN ∧ 0 ≤ VarIeFromProbeRspLen e ≤ Z.of_nat MAX_VIE_LEN;
  bw_distinct : ∀ x y e f, es !! x = Some e → es !! y = Some f → pVarIeFromProbRsp e = pVarIeFromProbRsp f → x = y
}.

(** The elements of the network's probe response. *)
Definition probe_ies (B : list (list Z)) (e : BSS_ENTRY) : option (list Z) :=
  k ← pVarIeFromProbRsp e; buf ← B !! k; Some (take (Z.to_nat (VarIeFromProbeRspLen e)) buf).
Definition view (B : list (list Z)) (e : BSS_ENTRY) : BSS_ENTRY * option (list Z) := (core e, probe_ies B e).

(** Entry [x] gets another content and keeps its buffer, which is filled
    anew: the others do not change. *)
Lemma refill_wf es B x e e' k d : bufs_wf es B → es !! x = Some e → pVarIeFromProbRsp e = Some k →
  length d = MAX_VIE_LEN → 0 ≤ VarIeFromProbeRspLen e' ≤ Z.of_nat MAX_VIE_LEN →
  bufs_wf (<[x := set_pVar (Some k) e']> es) (<[k := d]> B) ∧
  view (<[k := d]> B) <$> <[x := set_pVar (Some k) e']> es =
    <[x := (core e', Some (take (Z.to_nat (VarIeFromProbeRspLen e')) d))]> (view B <$> es).
Proof.
  intros [Hown Hdis] Hx Hk Hd He'. destruct (Hown x e Hx) as (k' & buf & Hk' & Hbuf & _). rewrite Hk in Hk'. injection Hk' as <-.
  assert (Hkl : (k < length B)%nat) by (eapply lookup_lt_Some; done). assert (Hxl : (x < length es)%nat) by (eapply lookup_lt_Some; done).
  assert (Hother : ∀ y f, y ≠ x → es !! y = Some f → ∃ l buf', pVarIeFromProbRsp f = Some l ∧ l ≠ k ∧ B !! l = Some buf' ∧
    length buf' = MAX_VIE_LEN ∧ 0 ≤ VarIeFromProbeRspLen f ≤ Z.of_nat MAX_VIE_LEN).
  { intros y f Hy Hf. destruct (Hown y f Hf) as (l & b' & Hl & Hb & Hlen & Hr). exists l, b'.
    repeat (split; [done || intros ->; apply Hy; apply (Hdis y x f e); congruence|]). done. }
  split; [split|].
  - intros y f Hf. destruct (decide (y = x)) as [->|Hy].
    + rewrite list_lookup_insert_eq in Hf by done. injection Hf as <-.
      exists k, d. by rewrite list_lookup_insert_eq by done.
    + rewrite list_lookup_insert_ne in Hf by done. destruct (Hother y f Hy Hf) as (l & b' & H1 & H2 & H3 & H4).
      exists l, b'. by rewrite list_lookup_insert_ne by done.
  - assert (Hone : ∀ y f, y ≠ x → <[x := set_pVar (Some k) e']> es !! y = Some f → pVarIeFromProbRsp f ≠ Some k).
    { intros y f Hy Hf Hp. rewrite list_lookup_insert_ne in Hf by done. destruct (Hother y f Hy Hf) as (l & b' & H1 & H2 & _). congruence. }
    intros y z f g Hf Hg Hp. destruct (decide (y = x)) as [->|Hy], (decide (z = x)) as [->|Hz]; [done| | |].
    + rewrite list_lookup_insert_eq in Hf by done. injection Hf as <-. by destruct (Hone z g Hz Hg).
    + rewrite list_lookup_insert_eq in Hg by done. injection Hg as <-. by destruct (Hone y f Hy Hf).
    + rewrite list_lookup_insert_ne in Hf, Hg by done. by apply (Hdis y z f g).
  - rewrite list_fmap_insert. apply list_eq. intros y. destruct (decide (y = x)) as [->|Hy].
    + rewrite !list_lookup_insert_eq by (by rewrite length_fmap). unfold view, probe_ies, core. cbn [pVarIeFromProbRsp set_pVar mbind option_bind VarIeFromProbeRspLen].
      by rewrite list_lookup_insert_eq by done.
    + rewrite !list_lookup_insert_ne, !list_lookup_fmap by done. destruct (es !! y) as [f|] eqn:Hf; [|done]. cbn.
      destruct (Hother y f Hy Hf) as (l & b' & H1 & H2 & H3 & _). unfold view, probe_ies. rewrite H1. cbn [mbind option_bind]. by rewrite list_lookup_insert_ne by done.
Qed.

Lemma move_mem_zeros src n : (n ≤ length src)%nat → (n ≤ MAX_VIE_LEN)%nat → length src = MAX_VIE_LEN →
  ∃ d, move_mem (zeros MAX_VIE_LEN) 0 src 0 n = Some d ∧ length d = MAX_VIE_LEN ∧ take n d = take n src.
Proof.
  intros H1 H2 H3. unfold move_mem. rewrite decide_True by (rewrite length_zeros; lia). rewrite drop_0. eexists. split; [done|].
  assert (Ht : length (take n src) = n) by (rewrite length_take; lia).
  split; [rewrite length_bwrite, length_zeros; [done|rewrite length_zeros, Ht; lia]|].
  unfold bwrite. rewrite take_0. cbn [app Nat.add]. rewrite take_app_le by lia. by rewrite take_take, Nat.min_id.
Qed.

(** With a buffer in each entry the shift does not fail, and moves the
    entries with their elements. *)
Lemma shift_loop_views n : ∀ j es B, (j + n < length es)%nat → bufs_wf es B →
  ∃ es' B', shift_loop n j es B = Some (es', B') ∧ bufs_wf es' B' ∧ view B' <$> es' = shift_abs n j (view B <$> es).
Proof.
  induction n as [|n IH]; intros j es B Hj HW; cbn [shift_loop shift_abs]; [by exists es, B|].
  destruct (lookup_lt_is_Some_2 es j ltac:(lia)) as [old Ho], (lookup_lt_is_Some_2 es (S j) ltac:(lia)) as [next Hn].
  destruct (bw_own _ _ HW j old Ho) as (k & bk & Hk & Bk & Lk & Rk). destruct (bw_own _ _ HW (S j) next Hn) as (l & bl & Hl & Bl & Ll & Rl).
  assert (Hkl : l ≠ k) by (intros ->; pose proof (bw_distinct _ _ HW j (S j) old next Ho Hn); rewrite Hk, Hl in *; lia || (assert (j = S j) by auto; lia)).
  assert (Hlt : (k < length B)%nat) by (eapply lookup_lt_Some; done).
  destruct (move_mem_zeros bl (Z.to_nat (VarIeFromProbeRspLen next))) as (d & Hd & Ld & Td); [lia..|done|].
  rewrite Ho, Hn, list_lookup_fmap, Hn. cbn [mbind option_bind fmap option_fmap option_map]. rewrite Hk. unfold zero_buf, copy_buf. rewrite Bk.
  cbn [mbind option_bind]. rewrite list_lookup_insert_eq by done. cbn [mbind option_bind]. rewrite Hl.
  rewrite list_lookup_insert_ne by done. rewrite Bl. cbn [mbind option_bind]. rewrite Hd. cbn [mbind option_bind]. rewrite list_insert_insert_eq.
  destruct (refill_wf es B j old next k d HW Ho Hk Ld Rl) as [HW1 HV1].
  destruct (IH (S j) (<[j := set_pVar (Some k) next]> es) (<[k := d]> B)) as (es' & B' & -> & HW' & HV'); [rewrite length_insert; lia|done|].
  exists es', B'. split; [done|]. split; [done|]. rewrite HV', HV1, Td. do 3 f_equal.
  unfold view at 1, probe_ies. rewrite Hl. cbn [mbind option_bind]. by rewrite Bl.
Qed.

Lemma delete_at_views i nr es B : (i < nr)%nat → (nr ≤ length es)%nat → bufs_wf es B →
  ∃ es' B', delete_at true i nr es B = Some (es', B') ∧ bufs_wf es' B' ∧
    take (nr - 1) (view B' <$> es') = delete i (take nr (view B <$> es)).
Proof.
  intros Hi Hn HW. unfold delete_at. destruct (shift_loop_views (nr - 1 - i) i es B ltac:(lia) HW) as (es1 & B1 & -> & HW1 & HV1).
  cbn [mbind option_bind].
  assert (HL : length es1 = length es) by (rewrite <- (length_fmap (view B1)), HV1, length_shift_abs, length_fmap; done).
  destruct (lookup_lt_is_Some_2 es1 (nr - 1)%nat ltac:(lia)) as [last Hlast]. rewrite Hlast. cbn [mbind option_bind].
  destruct (bw_own _ _ HW1 _ _ Hlast) as (k & bk & Hk & Bk & Lk & Rk). rewrite Hk. cbn [zero_buf]. rewrite Bk. cbn [mbind option_bind].
  destruct (refill_wf es1 B1 (nr - 1) last zero_bss k (zeros MAX_VIE_LEN) HW1 Hlast Hk (length_zeros _) ltac:(done)) as [HW2 HV2].
  eexists _, _. split; [done|]. split; [done|]. rewrite HV2, HV1. apply shift_delete; [done|]. by rewrite length_fmap.
Qed.

(** * Initialisation *)

(** The pointers of the entries are null or to buffers. *)
Definition ptrs_ok (es : list BSS_ENTRY) (B : list (list Z)) : Prop :=
  Forall (λ e, ∀ k, pVarIeFromProbRsp e = Some k → (k < length B)%nat) es.

Lemma bufs_wf_ptrs es B : bufs_wf es B → ptrs_ok es B.
Proof.
  intros HW. apply Forall_lookup. intros x e Hx k Hk. destruct (bw_own _ _ HW x e Hx) as (l & bl & Hl & Bl & _).
  rewrite Hk in Hl. injection Hl as <-. by eapply lookup_lt_Some.
Qed.

Lemma init_entries_total es : ∀ B, ptrs_ok es B → ∃ B',
  init_entries es B = Some ((λ e, set_pVar (pVarIeFromProbRsp e) (set_Rssi (-127) zero_bss)) <$> es, B') ∧ length B' = length B ∧
  ∀ k buf, B' !! k = Some buf → B !! k = Some buf ∨ buf = zeros MAX_VIE_LEN.
Proof.
  induction es as [|e es IH]; intros B HP; cbn [init_entries]; [by exists B; eauto|]. inversion_clear HP as [|?? He Hes].
  assert (HZ : ∃ B1, zero_buf (pVarIeFromProbRsp e) B = Some B1 ∧ length B1 = length B ∧
    ∀ k buf, B1 !! k = Some buf → B !! k = Some buf ∨ buf = zeros MAX_VIE_LEN).
  { destruct (pVarIeFromProbRsp e) as [k|]; cbn [zero_buf]; [|by eauto].
    destruct (lookup_lt_is_Some_2 B k (He k eq_refl)) as [buf ->]. cbn [mbind option_bind]. eexists. split; [done|]. split; [apply length_insert|].
    intros l b [(-> & <- & _)|[_ ?]]%list_lookup_insert_Some; [by right|by left]. }
  destruct HZ as (B1 & -> & L1 & H1). cbn [mbind option_bind].
  destruct (IH B1) as (B' & -> & L' & H'); [unfold ptrs_ok in *; by rewrite L1|]. cbn [mbind option_bind].
  exists B'. split; [done|]. split; [congruence|]. intros k buf Hk. destruct (H' k buf Hk) as [?|?]; [by apply H1|by right].
Qed.

(** * Sorting *)

Section sorting.
Context (inv : bool).

(** [a] comes before [b]. *)
Definition before (a b : BSS_ENTRY) : Prop :=
  if inv then Rssi (be_rx a) ≤ Rssi (be_rx b) else Rssi (be_rx b) ≤ Rssi (be_rx a).

Lemma out_of_order_spec a b :
  if out_of_order inv (Rssi (be_rx a)) (Rssi (be_rx b)) then before b a else before a b.
Proof. unfold out_of_order, before. destruct inv, (Z.ltb_spec (Rssi (be_rx a)) (Rssi (be_rx b))), (Z.eqb_spec (Rssi (be_rx b)) (Rssi (be_rx a))); cbn; lia. Qed.

Lemma before_trans a b c : before a b → before b c → before a c.
Proof. unfold before. destruct inv; lia. Qed.

(** The turns of the inner loop on a list: the best entry, and the others. *)
Fixpoint pick (cur : BSS_ENTRY) (l : list BSS_ENTRY) : BSS_ENTRY * list BSS_ENTRY :=
  match l with
  | [] => (cur, [])
  | x :: l =>
      let swap := out_of_order inv (Rssi (be_rx cur)) (Rssi (be_rx x)) in
      let '(b, l') := pick (if swap then x else cur) l in (b, (if swap then cur else x) :: l')
  end.

Lemma pick_spec l : ∀ cur, let '(b, l') := pick cur l in
  b :: l' ≡ₚ cur :: l ∧ Forall (before b) l' ∧ before b cur.
Proof.
  induction l as [|x l IH]; intros cur; cbn [pick].
  { split; [done|]. split; [constructor|]. unfold before. destruct inv; lia. }
  pose proof (out_of_order_spec cur x) as Ho. set (s := out_of_order _ _ _) in *. clearbody s.
  specialize (IH (if s then x else cur)). destruct (pick _ l) as [b l']. destruct IH as (HP & HF & HB). split; [|split].
  - transitivity ((if s then cur else x) :: b :: l'); [apply perm_swap|]. rewrite HP. destruct s; [done|apply perm_swap].
  - constructor; [|done]. destruct s; [by apply (before_trans _ x)|by apply (before_trans _ cur)].
  - destruct s; [by apply (before_trans _ x)|done].
Qed.

Lemma insert_mid {A} (pre post : list A) x y i : length pre = i → <[i := y]> (pre ++ x :: post) = pre ++ y :: post.
Proof. intros <-. rewrite <- (Nat.add_0_r (length pre)) at 1. by rewrite insert_app_r. Qed.

Lemma sort_inner_pick l : ∀ pre cur mid post j, j = (length pre + S (length mid))%nat →
  sort_inner inv (length pre) j (length l) (pre ++ cur :: mid ++ l ++ post) =
  Some (pre ++ (pick cur l).1 :: mid ++ (pick cur l).2 ++ post).
Proof.
  induction l as [|x l IH]; intros pre cur mid post j ->; [done|]. cbn [length sort_inner pick].
  rewrite (list_lookup_middle pre _ cur (length pre)) by done. cbn [mbind option_bind].
  replace (pre ++ cur :: mid ++ (x :: l) ++ post) with ((pre ++ cur :: mid) ++ x :: l ++ post) by by rewrite <- app_assoc.
  rewrite (list_lookup_middle (pre ++ cur :: mid) _ x) by (rewrite length_app; done). cbn [mbind option_bind].
  set (s := out_of_order _ _ _). clearbody s.
  assert (HS : (if s then <[length pre := x]> (<[(length pre + S (length mid))%nat := cur]> ((pre ++ cur :: mid) ++ x :: l ++ post))
                else (pre ++ cur :: mid) ++ x :: l ++ post)
             = pre ++ (if s then x else cur) :: (mid ++ [if s then cur else x]) ++ l ++ post).
  { destruct s; [rewrite insert_mid by (rewrite length_app; done)|]; rewrite <- !app_assoc; [|done].
    cbn [app]. by rewrite insert_mid by done. }
  rewrite HS, IH by (rewrite length_app; cbn; lia). destruct (pick _ l) as [b l']. cbn [fst snd]. by rewrite <- app_assoc.
Qed.

Lemma sort_outer_sorts : ∀ n pre seg post, length seg = S n →
  ∃ seg', sort_outer inv (length pre + S n) (length pre) n (pre ++ seg ++ post) = Some (pre ++ seg' ++ post) ∧
    seg' ≡ₚ seg ∧ StronglySorted before seg'.
Proof.
  induction n as [|n IH]; intros pre seg post Hs; cbn [sort_outer].
  - exists seg. split; [done|]. split; [done|]. destruct seg as [|x [|]]; [done| |done]. repeat constructor.
  - destruct seg as [|cur l]; [done|]. cbn in Hs. replace (length pre + S (S n) - S (length pre))%nat with (length l) by lia.
    pose proof (sort_inner_pick l pre cur [] post (S (length pre)) ltac:(cbn; lia)) as HI. cbn [app] in HI.
    change ((cur :: l) ++ post) with (cur :: l ++ post). rewrite HI. cbn [mbind option_bind].
    pose proof (pick_spec l cur) as HP. destruct (pick cur l) as [b l']. destruct HP as (HP & HF & _). cbn [fst snd].
    assert (Hl : length l' = S n) by (apply Permutation_length in HP; cbn in HP; lia).
    destruct (IH (pre ++ [b]) l' post Hl) as (seg' & HO & HP' & HS').
    rewrite length_app, <- app_assoc in HO. cbn [length app] in HO.
    replace (length pre + 1)%nat with (S (length pre)) in HO by lia. replace (S (length pre) + S n)%nat with (length pre + S (S n))%nat in HO by lia.
    rewrite HO. exists (b :: seg'). rewrite <- app_assoc. split; [done|]. split; [by rewrite HP', HP|].
    constructor; [done|]. by rewrite HP'.
Qed.
End sorting.

(** * Filling in entries *)

(** The elements that are kept of those a network announces. *)
Definition kept_ie (v : vie) (old : WPA_IE_) : WPA_IE_ :=
  if Nat.ltb MAX_CUSTOM_LEN (length (vie_enc v)) then mk_ie 0 (IE old)
  else mk_ie (Z.of_nat (length (vie_enc v))) (bwrite (IE old) 0 (vie_enc v)).
Definition keep (kept : kept_ies) (v : vie) : kept_ies :=
  let '(wpa, rsn, wps, country) := kept in
  match v with
  | Vie_other e b => if e =? IE_COUNTRY then (wpa, rsn, wps, (take 3 b, true)) else kept
  | Vie_vendor b => if bool_decide (take 4 b = WPS_OUI) then (wpa, rsn, kept_ie v wps, country) else kept
  | Vie_wpa _ _ _ _ _ => (kept_ie v wpa, rsn, wps, country)
  | Vie_rsn _ _ _ _ _ => (wpa, kept_ie v rsn, wps, country)
  end.
Definition kept_ok (kept : kept_ies) : Prop :=
  let '(wpa, rsn, wps, country) := kept in
  length (IE wpa) = MAX_CUSTOM_LEN ∧ length (IE rsn) = MAX_CUSTOM_LEN ∧ length (IE wps) = MAX_CUSTOM_LEN ∧ length country.1 = 3%nat.
(** A country element has its string. *)
Definition country_ok (v : vie) : Prop := vie_eid v = IE_COUNTRY → (3 ≤ length (vie_body v))%nat.

Lemma length_kept_ie v old : length (IE old) = MAX_CUSTOM_LEN → length (IE (kept_ie v old)) = MAX_CUSTOM_LEN.
Proof.
  intros H. unfold kept_ie. destruct (Nat.ltb_spec MAX_CUSTOM_LEN (length (vie_enc v))); [done|]. cbn. rewrite length_bwrite; lia.
Qed.

Lemma keep_ok kept v : country_ok v → kept_ok kept → kept_ok (keep kept v).
Proof.
  destruct kept as [[[wpa rsn] wps] country]. intros Hc (H1 & H2 & H3 & H4). destruct v as [e b|b| |]; cbn.
  1: { destruct (Z.eqb_spec e IE_COUNTRY) as [E|]; [|done]. specialize (Hc E). cbn in Hc. split_and!; try done. cbn [fst]. rewrite length_take. lia. }
  all: try (destruct (bool_decide _)); split_and!; try done; by apply length_kept_ie.
Qed.

Lemma keep_ie_spec m p v rest old : drop p m = vie_enc v ++ rest → length (IE old) = MAX_CUSTOM_LEN →
  keep_ie m p (Z.of_nat (length (vie_body v))) old = Some (kept_ie v old).
Proof.
  intros Hm Ho. unfold keep_ie, kept_ie. change (length (vie_enc v)) with (S (S (length (vie_body v)))).
  destruct (Nat.ltb_spec MAX_CUSTOM_LEN (S (S (length (vie_body v))))), (Z.ltb_spec (Z.of_nat MAX_CUSTOM_LEN) (Z.of_nat (length (vie_body v)) + 2)); try lia; [done|].
  assert (Hl : (length m - p = length (vie_enc v) + length rest)%nat) by (rewrite <- (length_drop m p), Hm, length_app; done).
  assert (He : length (vie_enc v) = S (S (length (vie_body v)))) by done.
  replace (Z.to_nat (Z.of_nat (length (vie_body v)) + 2)) with (length (vie_enc v)) by lia.
  unfold move_mem. rewrite decide_True by lia. cbn [mbind option_bind]. rewrite Hm, take_app_length. do 2 f_equal; lia.
Qed.

(** The turn of the walk for an element. *)
Lemma ie_turn m p v rest kept : vie_ok v → country_ok v → kept_ok kept → drop p m = vie_enc v ++ rest →
  (let '(wpa, rsn, wps, country) := kept in
   if vie_eid v =? IE_WPA then
     is_wps ← equal_mem m (p + 2) WPS_OUI 4;
     if (is_wps : bool) then wps ← keep_ie m p (Z.of_nat (length (vie_body v))) wps; Some (wpa, rsn, wps, country)
     else
       is_wpa ← equal_mem m (p + 2) WPA_OUI 4;
       if (is_wpa : bool) then wpa ← keep_ie m p (Z.of_nat (length (vie_body v))) wpa; Some (wpa, rsn, wps, country)
       else Some kept
   else if vie_eid v =? IE_RSN then
     is_rsn ← equal_mem m (p + 4) RSN_OUI 3;
     if (is_rsn : bool) then rsn ← keep_ie m p (Z.of_nat (length (vie_body v))) rsn; Some (wpa, rsn, wps, country)
     else Some kept
   else if vie_eid v =? IE_COUNTRY then cs ← move_mem country.1 0 m (p + 2) 3; Some (wpa, rsn, wps, (cs, true))
   else Some kept) = Some (keep kept v).
Proof.
  intros Hv Hc Hk Hm. destruct kept as [[[wpa rsn] wps] [cs has]]. destruct Hk as (K1 & K2 & K3 & K4).
  assert (Hpm : (p ≤ length m)%nat) by exact (drop_nonempty m _ _ p Hm).
  rewrite (equal_mem_drop m p 2 WPS_OUI), (equal_mem_drop m p 2 WPA_OUI), (equal_mem_drop m p 4 RSN_OUI), Hm by done.
  destruct v as [e b|b|g pairs n akm tail|g pairs akms cap tail]; cbn [vie_eid].
  - destruct Hv as (_ & Hn1 & Hn2). replace (e =? IE_WPA) with false by lia. replace (e =? IE_RSN) with false by lia.
    cbn [keep]. destruct (Z.eqb_spec e IE_COUNTRY) as [E|]; [|done]. specialize (Hc E). cbn [vie_body] in Hc.
    assert (Hd : drop (p + 2) m = b ++ rest) by by rewrite <- drop_drop, Hm.
    assert (Hl : (length m - (p + 2) = length b + length rest)%nat) by (rewrite <- (length_drop m (p + 2)), Hd, length_app; done).
    cbn [fst] in *. unfold move_mem. rewrite decide_True by lia. cbn [mbind option_bind]. rewrite Hd, take_app_le by lia.
    do 3 f_equal. destruct cs as [|c1 [|c2 [|c3 [|]]]]; try done. destruct b as [|b1 [|b2 [|b3 b]]]; cbn in Hc; [lia..|done].
  - destruct Hv as (Hl & H4 & Hw & _). change (IE_WPA =? IE_WPA) with true. cbv iota. unfold vie_enc at 1 2. cbn [vie_eid vie_body].
    unfold equal_mem. rewrite !decide_True by (cbn; rewrite length_app; lia). cbn [app skipn]. rewrite drop_0, take_app_le by lia.
    cbn [mbind option_bind keep]. destruct (bool_decide_reflect (take 4 b = WPS_OUI)) as [E|E].
    + rewrite bool_decide_eq_true_2 by done. by rewrite (keep_ie_spec _ _ _ _ _ Hm) by done.
    + rewrite bool_decide_eq_false_2 by done. rewrite bool_decide_eq_false_2 by done. done.
  - change (IE_WPA =? IE_WPA) with true. cbv iota. unfold equal_mem. rewrite !decide_True by (cbn; lia). cbn [mbind option_bind].
    rewrite bool_decide_eq_false_2 by done. rewrite bool_decide_eq_true_2 by done. by rewrite (keep_ie_spec _ _ _ _ _ Hm) by done.
  - change (IE_RSN =? IE_WPA) with false. change (IE_RSN =? IE_RSN) with true. cbv iota.
    unfold equal_mem. rewrite !decide_True by (cbn; lia). cbn [mbind option_bind].
    rewrite bool_decide_eq_true_2 by done. by rewrite (keep_ie_spec _ _ _ _ _ Hm) by done.
Qed.

Lemma ie_walk_fold m rest vs : Forall vie_ok vs → Forall country_ok vs → bytes rest → (2 ≤ length rest)%nat → ∀ fuel p LengthVIE kept,
  (length (concat (map vie_enc vs)) ≤ fuel)%nat → LengthVIE = Z.of_nat (p + length (concat (map vie_enc vs))) → kept_ok kept →
  drop p m = concat (map vie_enc vs) ++ rest → ie_walk fuel m LengthVIE p kept = Some (fold_left keep vs kept).
Proof.
  intros Hok Hcs Hr Hr2. induction Hok as [|v vs Hv Hvs IH]; intros fuel p V kept Hf HV Hk Hm.
  - destruct rest as [|r0 [|r1 rest]]; [cbn in Hr2; lia..|]. cbn [map concat app length] in *.
    assert (H1 : m !! (p + 1)%nat = Some r1) by (rewrite <- lookup_drop, Hm; done).
    assert (byte r1) as [? _] by by apply (Forall_lookup_1 _ _ 1%nat _ Hr).
    destruct fuel; cbn [ie_walk]; rewrite H1; cbn [mbind option_bind]; replace (Z.of_nat p + 2 + r1 <=? V) with false by lia; done.
  - apply Forall_cons in Hcs as [Hc Hcs]. specialize (IH Hcs). cbn [map concat] in *. rewrite length_app, <- app_assoc in *. assert (He : length (vie_enc v) = S (S (length (vie_body v)))) by done.
    assert (H0 : m !! p = Some (vie_eid v)) by (rewrite <- (Nat.add_0_r p), <- lookup_drop, Hm; done).
    assert (H1 : m !! (p + 1)%nat = Some (Z.of_nat (length (vie_body v)))) by (rewrite <- lookup_drop, Hm; done).
    destruct fuel as [|fuel]; [lia|]. cbn [ie_walk fold_left]. rewrite H1. cbn [mbind option_bind].
    replace (Z.of_nat p + 2 + Z.of_nat (length (vie_body v)) <=? V) with true by lia.
    pose proof (ie_turn m p v _ kept Hv Hc Hk Hm) as HT. destruct kept as [[[wpa rsn] wps] country]. rewrite H0. cbn [mbind option_bind]. cbn [mbind option_bind] in HT.
    rewrite HT. cbn [mbind option_bind]. apply IH; [lia| |by apply keep_ok|].
    + lia.
    + replace (Z.to_nat _) with (p + length (vie_enc v))%nat by lia. by apply (drop_app_at _ _ _ _ _ Hm).
Qed.

(** The arrays of an entry have their sizes. *)
Record entry_ok (e : BSS_ENTRY) : Prop := {
  eo_ssid : length (be_Ssid (be_id e)) = MAX_LEN_OF_SSID;
  eo_ssidlen : 0 ≤ be_SsidLen (be_id e) ≤ Z.of_nat MAX_LEN_OF_SSID;
  eo_sup : length (be_SupRate (be_cap e)) = MAX_LEN_OF_SUPPORTED_RATES;
  eo_ext : length (be_ExtRate (be_cap e)) = MAX_LEN_OF_SUPPORTED_RATES;
  eo_ht : length (be_HtCapability (be_ht e)) = 26%nat;
  eo_op : length (be_AddHtInfo (be_ht e)) = 22%nat;
  eo_vcap : length (be_vht_cap_ie (be_ht e)) = 12%nat;
  eo_vop : length (be_vht_op_ie (be_ht e)) = 5%nat;
  eo_vies : length (VarIEs (be_ies e)) = MAX_VIE_LEN
}.

(** A beacon of an access point with the elements [vs]: the lengths are those
    the fields have room for, and two bytes of the buffer are left. *)
Record heard_ok (vs : list vie) (h : heard) : Prop := {
  ho_ssid : length (bcn_Ssid (h_ie h)) = MAX_LEN_OF_SSID;
  ho_ssidlen : 0 ≤ bcn_SsidLen (h_ie h) ≤ Z.of_nat MAX_LEN_OF_SSID;
  ho_sup : length (bcn_SupRate (h_ie h)) = MAX_LEN_OF_SUPPORTED_RATES;
  ho_ext : length (bcn_ExtRate (h_ie h)) = MAX_LEN_OF_SUPPORTED_RATES;
  ho_ht : length (bcn_HtCapability (h_ie h)) = 26%nat ∧ 0 ≤ bcn_HtCapabilityLen (h_ie h) ≤ 26;
  ho_op : length (bcn_AddHtInfo (h_ie h)) = 22%nat ∧ 0 ≤ bcn_AddHtInfoLen (h_ie h) ≤ 22;
  ho_vcap : length (bcn_vht_cap_ie (h_ie h)) = 12%nat ∧ 0 ≤ bcn_vht_cap_len (h_ie h) ≤ 12;
  ho_vop : length (bcn_vht_op_ie (h_ie h)) = 5%nat ∧ 0 ≤ bcn_vht_op_len (h_ie h) ≤ 5;
  ho_type : bcn_BssType (h_ie h) ≠ BSS_ADHOC;
  ho_vies : Forall vie_ok vs;
  ho_country : Forall country_ok vs;
  ho_len : h_LengthVIE h = Z.of_nat (length (concat (map vie_enc vs)));
  ho_buf : ∃ rest, h_VIE h = concat (map vie_enc vs) ++ rest ∧ bytes rest ∧ (2 ≤ length rest)%nat ∧ length (h_VIE h) = MAX_VIE_LEN
}.

Lemma move_mem_ok dst src n : (n ≤ length src)%nat → (n ≤ length dst)%nat →
  move_mem dst 0 src 0 n = Some (bwrite dst 0 (take n src)) ∧ length (bwrite dst 0 (take n src)) = length dst.
Proof.
  intros H1 H2. unfold move_mem. rewrite decide_True by lia. rewrite drop_0. split; [done|]. rewrite length_bwrite; rewrite ?length_take; lia.
Qed.

Lemma equal_mem_some a b n : (n ≤ length a)%nat → (n ≤ length b)%nat → equal_mem a 0 b n = Some (bool_decide (take n a = take n b)).
Proof. intros H1 H2. unfold equal_mem. rewrite decide_True by lia. by rewrite drop_0. Qed.

(** The name of the network afterwards. *)
Lemma set_ssid_total old ie : length (be_Ssid old) = MAX_LEN_OF_SSID → 0 ≤ be_SsidLen old ≤ Z.of_nat MAX_LEN_OF_SSID →
  length (bcn_Ssid ie) = MAX_LEN_OF_SSID → 0 ≤ bcn_SsidLen ie ≤ Z.of_nat MAX_LEN_OF_SSID →
  ∃ s n hid, set_ssid old ie = Some (s, n, hid) ∧ length s = MAX_LEN_OF_SSID ∧ 0 ≤ n ≤ Z.of_nat MAX_LEN_OF_SSID ∧
    (0 < bcn_SsidLen ie → take (Z.to_nat (bcn_SsidLen ie)) (bcn_Ssid ie) ≠ zeros (Z.to_nat (bcn_SsidLen ie)) →
       hid = 0 ∧ n = bcn_SsidLen ie ∧ take (Z.to_nat n) s = take (Z.to_nat n) (bcn_Ssid ie)) ∧
    (bcn_SsidLen ie = 0 ∨ take (Z.to_nat (bcn_SsidLen ie)) (bcn_Ssid ie) = zeros (Z.to_nat (bcn_SsidLen ie)) →
       take (Z.to_nat (be_SsidLen old)) (be_Ssid old) ≠ zeros (Z.to_nat (be_SsidLen old)) → (s, n, hid) = (be_Ssid old, be_SsidLen old, 1)).
Proof.
  intros H1 H2 H3 H4. set (k := Z.to_nat (bcn_SsidLen ie)).
  assert (HZ : ∀ n, (n ≤ 32)%nat → take n ZeroSsid = zeros n) by (intros n Hn; unfold ZeroSsid, zeros; rewrite take_replicate; f_equal; lia).
  unfold set_ssid. destruct (Z.ltb_spec 0 (bcn_SsidLen ie)) as [Hp|Hp].
  - fold k. unfold MAX_LEN_OF_SSID in *. rewrite equal_mem_some by (rewrite ?H3; cbn; lia). cbn [mbind option_bind]. rewrite HZ by lia.
    destruct (bool_decide_reflect (take k (bcn_Ssid ie) = zeros k)) as [E|E].
    + eexists _, _, _. split; [done|]. split; [done|]. split; [done|]. split; [by intros|done].
    + destruct (move_mem_ok (zeros 32) (bcn_Ssid ie) k) as [-> Lm]; [lia|rewrite length_zeros; lia|]. cbn [mbind option_bind].
      eexists _, _, _. split; [done|]. split; [by rewrite Lm|]. split; [done|]. split; [|intros [?|?]; [lia|done]].
      intros _ _. split; [done|]. split; [done|]. fold k. unfold bwrite. rewrite take_0. cbn [app].
      rewrite take_app_le by (rewrite length_take; lia). by rewrite take_take, Nat.min_id.
  - unfold MAX_LEN_OF_SSID in *. rewrite equal_mem_some by (rewrite ?H1; cbn; lia). cbn [mbind option_bind]. rewrite HZ by lia.
    destruct (bool_decide_reflect (take (Z.to_nat (be_SsidLen old)) (be_Ssid old) = zeros (Z.to_nat (be_SsidLen old)))) as [E|E];
      eexists _, _, _; (split; [done|]); (split; [done|]); (split; [done|]); (split; [lia|]); [by intros|done].
Qed.

Lemma set_rates_total (old : bss_cap) ie : length (be_SupRate old) = MAX_LEN_OF_SUPPORTED_RATES → length (be_ExtRate old) = MAX_LEN_OF_SUPPORTED_RATES →
  length (bcn_SupRate ie) = MAX_LEN_OF_SUPPORTED_RATES → length (bcn_ExtRate ie) = MAX_LEN_OF_SUPPORTED_RATES →
  ∃ sup ext n, set_rates old ie = Some (sup, ext, n) ∧ length sup = MAX_LEN_OF_SUPPORTED_RATES ∧ length ext = MAX_LEN_OF_SUPPORTED_RATES.
Proof.
  unfold MAX_LEN_OF_SUPPORTED_RATES, set_rates. intros H1 H2 H3 H4.
  destruct (move_mem_ok (be_SupRate old) (bcn_SupRate ie) (Nat.min (Z.to_nat (bcn_SupRateLen ie)) MAX_LEN_OF_SUPPORTED_RATES)) as [-> Ls];
    [unfold MAX_LEN_OF_SUPPORTED_RATES; lia..|]. cbn [mbind option_bind].
  destruct (move_mem_ok (be_ExtRate old) (bcn_ExtRate ie) (Z.to_nat (Z.min (bcn_ExtRateLen ie) 12))) as [He Le]; [lia..|].
  change (Z.of_nat MAX_LEN_OF_SUPPORTED_RATES) with 12. rewrite He. cbn [mbind option_bind]. eexists _, _, _. split; [done|]. lia.
Qed.

Lemma set_ht_total v (old : bss_ht) ie : length (be_HtCapability old) = 26%nat → length (be_AddHtInfo old) = 22%nat →
  length (be_vht_cap_ie old) = 12%nat → length (be_vht_op_ie old) = 5%nat →
  length (bcn_HtCapability ie) = 26%nat ∧ 0 ≤ bcn_HtCapabilityLen ie ≤ 26 → length (bcn_AddHtInfo ie) = 22%nat ∧ 0 ≤ bcn_AddHtInfoLen ie ≤ 22 →
  length (bcn_vht_cap_ie ie) = 12%nat ∧ 0 ≤ bcn_vht_cap_len ie ≤ 12 → length (bcn_vht_op_ie ie) = 5%nat ∧ 0 ≤ bcn_vht_op_len ie ≤ 5 →
  ∃ ht cent v', set_ht v old ie = Some (ht, cent, v') ∧ length (be_HtCapability ht) = 26%nat ∧ length (be_AddHtInfo ht) = 22%nat ∧
    length (be_vht_cap_ie ht) = 12%nat ∧ length (be_vht_op_ie ht) = 5%nat.
Proof.
  intros H1 H2 H3 H4 [H5 H6] [H7 H8] [H9 H10] [H11 H12]. unfold set_ht.
  destruct (bcn_HtCapabilityLen ie <=? 0); [eexists _, _, _; split; [done|done]|].
  destruct (move_mem_ok (be_HtCapability old) (bcn_HtCapability ie) (Z.to_nat (bcn_HtCapabilityLen ie))) as [-> Lc]; [lia..|]. cbn [mbind option_bind].
  assert (Ho : ∃ op, (if 0 <? bcn_AddHtInfoLen ie then move_mem (be_AddHtInfo old) 0 (bcn_AddHtInfo ie) 0 (Z.to_nat (bcn_AddHtInfoLen ie))
                      else Some (be_AddHtInfo old)) = Some op ∧ length op = 22%nat).
  { destruct (0 <? _); [|by eauto]. destruct (move_mem_ok (be_AddHtInfo old) (bcn_AddHtInfo ie) (Z.to_nat (bcn_AddHtInfoLen ie))) as [-> Lo]; [lia..|]. eexists. split; [done|lia]. }
  destruct Ho as (op & -> & Lo). cbn [mbind option_bind].
  destruct (move_mem_ok (be_vht_cap_ie old) (bcn_vht_cap_ie ie) (Z.to_nat (bcn_vht_cap_len ie))) as [-> Lv]; [lia..|]. cbn [mbind option_bind].
  destruct (move_mem_ok (be_vht_op_ie old) (bcn_vht_op_ie ie) (Z.to_nat (bcn_vht_op_len ie))) as [-> Lw]; [lia..|]. cbn [mbind option_bind].
  match goal with |- context [if ?c then _ else _] => destruct c end; eexists _, _, _; (split; [done|]); cbn [be_HtCapability be_AddHtInfo be_vht_cap_ie be_vht_op_ie]; lia.
Qed.

(** What [BssEntrySet] makes of an entry. *)
Record filled (vs : list vie) (h : heard) (old new : BSS_ENTRY) : Prop := {
  fi_ok : entry_ok new;
  fi_id : bss_key new = key_of (bcn_Bssid (h_ie h)) (bcn_Channel (h_ie h));
  fi_channel : be_Channel (be_id new) = bcn_Channel (h_ie h) ∧ be_BssType (be_id new) = bcn_BssType (h_ie h);
  fi_rx : Rssi (be_rx new) = h_Rssi h ∧ LastBeaconRxTime (be_rx new) = h_Now h;
  fi_sec : be_sec new = fold_left vie_effect vs (sec_start (CAP_IS_PRIVACY_ON (bcn_CapabilityInfo (h_ie h))) (bSES (be_sec old)));
  fi_ies : (WpaIE (be_ies new), RsnIE (be_ies new), WpsIE (be_ies new), (CountryString (be_ies new), bHasCountryIE (be_ies new))) = fold_left keep vs no_ies;
  fi_ssid : set_ssid (be_id old) (h_ie h) = Some (be_Ssid (be_id new), be_SsidLen (be_id new), be_Hidden (be_id new));
  fi_buf : pVarIeFromProbRsp new = pVarIeFromProbRsp old ∧ VarIeFromProbeRspLen new = VarIeFromProbeRspLen old
}.

Lemma entry_set_total cx vs b h : entry_ok b → heard_ok vs h →
  ∃ b' h' cx', entry_set cx b h = Some (b', h', cx') ∧ filled vs h b b' ∧ bcn_Bssid (h_ie h') = bcn_Bssid (h_ie h) ∧
    OpStatusFlags cx' = OpStatusFlags cx.
Proof.
  intros Eb Hh. destruct (ho_buf _ _ Hh) as (rest & Hm & Hr & Hr2 & HL). unfold entry_set, BssEntrySet.
  destruct (set_ssid_total (be_id b) (h_ie h)) as (s & n & hid & HS & Ls & Ln & _); [apply Eb|apply Eb|apply Hh|apply Hh|].
  destruct (set_rates_total (be_cap b) (h_ie h)) as (sup & ext & el & HR & Lsup & Lext); [apply Eb|apply Eb|apply Hh|apply Hh|].
  destruct (set_ht_total (cx_vht cx) (be_ht b) (h_ie h)) as (ht & cent & v' & HT & L1 & L2 & L3 & L4);
    [apply Eb|apply Eb|apply Eb|apply Eb|apply Hh|apply Hh|apply Hh|apply Hh|].
  rewrite HS, HR. cbn [mbind option_bind]. set (V := concat (map vie_enc vs)) in *. pose proof (ho_len _ _ Hh) as HLen. fold V in HLen.
  assert (HVl : (length V ≤ MAX_VIE_LEN)%nat) by (rewrite Hm, length_app in HL; lia).
  assert (HV : ∃ m, (if h_LengthVIE h =? 0 then Some (VarIEs (be_ies b)) else move_mem (VarIEs (be_ies b)) 0 (h_VIE h) 0 (Z.to_nat (h_LengthVIE h))) = Some m ∧
     length m = MAX_VIE_LEN ∧ ∃ rest', m = V ++ rest').
  { pose proof (eo_vies _ Eb) as Lb. destruct (Z.eqb_spec (h_LengthVIE h) 0) as [E|E].
    - eexists. split; [done|]. split; [done|]. assert (V = []) as -> by (apply nil_length_inv; lia). by eexists.
    - destruct (move_mem_ok (VarIEs (be_ies b)) (h_VIE h) (Z.to_nat (h_LengthVIE h))) as [-> Lm]; [lia..|].
      eexists. split; [done|]. split; [by rewrite Lm|]. rewrite HLen, Nat2Z.id, Hm, take_app_length. unfold bwrite. rewrite take_0. by eexists. }
  destruct HV as (m & -> & Lm & rest' & Hm'). cbn [mbind option_bind]. rewrite HT. cbn [mbind option_bind].
  cbn [be_Privacy set_cap]. rewrite HLen, Hm'.
  rewrite (cipher_parse_fold _ _ vs rest') by apply Hh. cbn [mbind option_bind].
  rewrite Nat2Z.id, (ie_walk_fold (h_VIE h) rest vs) by (done || apply Hh || by rewrite ?drop_0). cbn [mbind option_bind].
  destruct (fold_left keep vs no_ies) as [[[wpa rsn] wps] [cs has]] eqn:EK.
  eexists _, _, _. split; [done|]. split; [|done].
  split; try done; [|unfold bss_key, key_of; cbn -[take]; by rewrite take_take].
  split; try done. change (length (V ++ rest') = MAX_VIE_LEN). by rewrite <- Hm'.
Qed.

(** * Entries of any beacon *)

Lemma move_mem_length dst o src i n d : move_mem dst o src i n = Some d → length d = length dst.
Proof. unfold move_mem. destruct (decide _) as [[H1 H2]|]; [|done]. intros [= <-]. rewrite length_bwrite; rewrite ?length_take, ?length_drop; lia. Qed.

Lemma equal_mem_bounds a i b n r : equal_mem a i b n = Some r → (i + n ≤ length a)%nat ∧ (n ≤ length b)%nat.
Proof. unfold equal_mem. by destruct (decide _). Qed.

Lemma set_ssid_ok old ie s n hid : length (be_Ssid old) = MAX_LEN_OF_SSID → 0 ≤ be_SsidLen old ≤ Z.of_nat MAX_LEN_OF_SSID →
  length (bcn_Ssid ie) = MAX_LEN_OF_SSID → set_ssid old ie = Some (s, n, hid) →
  length s = MAX_LEN_OF_SSID ∧ 0 ≤ n ≤ Z.of_nat MAX_LEN_OF_SSID.
Proof.
  intros H1 H2 H3 H. unfold set_ssid in H. destruct (Z.ltb_spec 0 (bcn_SsidLen ie)).
  - peel H. apply equal_mem_bounds in E. destruct b; peel H; [by injection H as <- <- <-|].
    apply move_mem_length in E0. injection H as <- <- <-. split; [done|]. lia.
  - peel H. injection H as H. destruct b; simplify_eq; done.
Qed.

Lemma set_ht_ok v (old : bss_ht) ie ht cent v' : set_ht v old ie = Some (ht, cent, v') →
  length (be_HtCapability ht) = length (be_HtCapability old) ∧ length (be_AddHtInfo ht) = length (be_AddHtInfo old) ∧
  length (be_vht_cap_ie ht) = length (be_vht_cap_ie old) ∧ length (be_vht_op_ie ht) = length (be_vht_op_ie old).
Proof.
  unfold set_ht. intros H. destruct (bcn_HtCapabilityLen ie <=? 0); [by simplify_eq|]. peel H.
  apply move_mem_length in E, E1, E2. assert (length l0 = length (be_AddHtInfo old)).
  { destruct (0 <? bcn_AddHtInfoLen ie); [by apply move_mem_length in E0|by simplify_eq]. }
  match type of H with context [if ?c then _ else _] => destruct c end; injection H as <- <- <-; done.
Qed.

Lemma entry_set_ok cx b h b' h' cx' : entry_ok b → length (bcn_Ssid (h_ie h)) = MAX_LEN_OF_SSID →
  entry_set cx b h = Some (b', h', cx') →
  entry_ok b' ∧ bss_key b' = key_of (bcn_Bssid (h_ie h)) (bcn_Channel (h_ie h)) ∧ core b' = core (set_pVar (pVarIeFromProbRsp b) b') ∧
  pVarIeFromProbRsp b' = pVarIeFromProbRsp b.
Proof.
  intros Eb Hs H. unfold entry_set in H. peel H. injection H as <- <- <-. unfold BssEntrySet in E. peel E. injection E as <- <- <-.
  destruct (set_ssid_ok _ _ _ _ _ (eo_ssid _ Eb) (eo_ssidlen _ Eb) Hs E0) as [? ?].
  destruct (set_ht_ok _ _ _ _ _ _ E3) as (? & ? & ? & ?). unfold set_rates in E1. peel E1. injection E1 as <- <- <-.
  apply move_mem_length in E, E6. split; [|split; [unfold bss_key, key_of; cbn -[take]; by rewrite take_take|done]].
  destruct Eb. split; cbn [be_id be_cap be_ht be_ies be_Ssid be_SsidLen set_cap be_SupRate be_ExtRate VarIEs]; try congruence; try done.
  destruct (h_LengthVIE h =? 0); [by simplify_eq|]. apply move_mem_length in E2. congruence.
Qed.
