(* ===== verification/BssTableClaims.v ===== *)
(** The properties of the table of networks. *)

From stdpp Require Import gmap list sorting.
From S2P Require Import Prelude BaReorder MacTable Eapol StaAuth BssEntry BssEntryProofs BssTable BssTableProofs.

(** * The invariant *)

(** The entries past the last one are blank. *)
Definition blank (e : BSS_ENTRY) : Prop := core (set_Rssi 0 e) = zero_bss.

Record table_wf (T : BSS_TABLE) : Prop := {
  tw_len : length (BssEntry T) = MAX_LEN_OF_BSS_TABLE;
  tw_nr : 0 ≤ BssNr T ≤ Z.of_nat MAX_LEN_OF_BSS_TABLE;
  tw_ov : 0 ≤ BssOverlapNr T < Z.of_nat MAX_LEN_OF_BSS_TABLE;
  tw_keys : ∀ i j e f, (i < Z.to_nat (BssNr T))%nat → (j < Z.to_nat (BssNr T))%nat →
    BssEntry T !! i = Some e → BssEntry T !! j = Some f → bss_key e = bss_key f → i = j;
  tw_entries : ∀ i e, BssEntry T !! i = Some e → entry_ok e;
  tw_blank : ∀ i e, (Z.to_nat (BssNr T) ≤ i)%nat → BssEntry T !! i = Some e → blank e
}.

Lemma key_core e : bss_key (core e) = bss_key e.
Proof. done. Qed.
Lemma entry_ok_core e : entry_ok (core e) ↔ entry_ok e.
Proof. split; intros H; destruct H; by split. Qed.
Lemma blank_core e : blank (core e) ↔ blank e.
Proof. done. Qed.
Lemma zero_ok : entry_ok zero_bss.
Proof. split; vm_compute; split || reflexivity; congruence. Qed.

(** The invariant speaks of the entries without their buffers only. *)
Lemma wf_by_cores n ov es : length es = MAX_LEN_OF_BSS_TABLE → 0 ≤ n ≤ Z.of_nat MAX_LEN_OF_BSS_TABLE →
  0 ≤ ov < Z.of_nat MAX_LEN_OF_BSS_TABLE → NoDup (bss_key <$> take (Z.to_nat n) (core <$> es)) →
  (∀ i e, (core <$> es) !! i = Some e → entry_ok e) →
  (∀ i e, (Z.to_nat n ≤ i)%nat → (core <$> es) !! i = Some e → blank e) → table_wf (mk_btab n ov es).
Proof.
  intros H1 H2 H3 H4 H5 H6. split; [done..| | |].
  - intros i j e f Hi Hj He Hf Hk. cbn in *. apply (NoDup_lookup _ i j (bss_key e) H4).
    + by rewrite list_lookup_fmap, lookup_take_lt, list_lookup_fmap, He by done.
    + by rewrite list_lookup_fmap, lookup_take_lt, list_lookup_fmap, Hf, Hk by done.
  - intros i e He. apply (proj1 (entry_ok_core e)), (H5 i). cbn in He. by rewrite list_lookup_fmap, He.
  - intros i e Hi He. apply (proj1 (blank_core e)), (H6 i); [done|]. cbn in He.
    by rewrite list_lookup_fmap, He.
Qed.

Lemma wf_keys T : table_wf T → NoDup (bss_key <$> take (Z.to_nat (BssNr T)) (core <$> BssEntry T)).
Proof.
  intros HT. apply NoDup_alt. intros i j k Hi Hj.
  rewrite list_lookup_fmap in Hi, Hj. apply fmap_Some in Hi as (e & He & ->). apply fmap_Some in Hj as (f & Hf & Hk).
  apply lookup_take_Some in He as [He Hi]. apply lookup_take_Some in Hf as [Hf Hj]. rewrite list_lookup_fmap in He, Hf.
  apply fmap_Some in He as (e' & He & ->). apply fmap_Some in Hf as (f' & Hf & ->). by apply (tw_keys _ HT i j e' f').
Qed.

(** * The networks of a table *)

(** The table as a finite map from keys to entries. *)
Definition networks (T : BSS_TABLE) : gmap (bool * list Z) BSS_ENTRY :=
  list_to_map ((λ e, (bss_key e, core e)) <$> take (Z.to_nat (BssNr T)) (BssEntry T)).

Lemma networks_spec T k c : table_wf T →
  networks T !! k = Some c ↔ ∃ i e, (i < Z.to_nat (BssNr T))%nat ∧ BssEntry T !! i = Some e ∧ bss_key e = k ∧ core e = c.
Proof.
  intros HT. unfold networks. rewrite <- elem_of_list_to_map.
  - rewrite list_elem_of_fmap. split.
    + intros (e & [= -> ->] & (i & Hi)%list_elem_of_lookup). apply lookup_take_Some in Hi as [? ?]. by exists i, e.
    + intros (i & e & Hi & He & <- & <-). exists e. split; [done|]. apply list_elem_of_lookup. exists i. by rewrite lookup_take_lt.
  - pose proof (wf_keys T HT) as HN. rewrite <- fmap_take, <- list_fmap_compose in HN. by rewrite <- list_fmap_compose.
Qed.

(** [BssTableSearch] finds the entry of a key. *)
Lemma search_key T Bssid Channel : table_wf T → ∃ r, BssTableSearch T Bssid Channel = Some r ∧
  match r with
  | Some i => (i < Z.to_nat (BssNr T))%nat ∧ ∃ e, BssEntry T !! i = Some e ∧ bss_key e = key_of Bssid Channel
  | None => networks T !! key_of Bssid Channel = None
  end.
Proof.
  intros HT. pose proof (tw_len _ HT) as HL. pose proof (tw_nr _ HT) as HN.
  destruct (search_spec (λ e, same_band (be_Channel (be_id e)) Channel && MAC_ADDR_EQUAL (be_Bssid (be_id e)) Bssid) (BssEntry T)
    (Z.to_nat (BssNr T)) 0) as (r & Hr & Hs); [lia|]. exists r. split; [exact Hr|]. destruct r as [i|].
  - destruct Hs as (Hi & (e & He & Hk) & _). split; [lia|]. exists e. split; [done|]. by rewrite key_match, bool_decide_eq_true in Hk.
  - apply eq_None_not_Some. intros [c Hc]. apply (networks_spec T _ _ HT) in Hc as (i & e & Hi & He & Hk & _).
    specialize (Hs i e ltac:(lia) He). by rewrite key_match, bool_decide_eq_false in Hs.
Qed.

Lemma search_present T Bssid Channel i e : table_wf T → (i < Z.to_nat (BssNr T))%nat → BssEntry T !! i = Some e →
  bss_key e = key_of Bssid Channel → BssTableSearch T Bssid Channel = Some (Some i).
Proof.
  intros HT Hi He Hk. destruct (search_key T Bssid Channel HT) as ([j|] & -> & Hr).
  - destruct Hr as (Hj & f & Hf & Hk'). do 2 f_equal. apply (tw_keys _ HT j i f e); [done..|congruence].
  - assert (networks T !! key_of Bssid Channel = Some (core e)) by (apply networks_spec; [done|]; by exists i, e). congruence.
Qed.

(** * Preservation *)

Lemma wf_delete kp i nr ov es B es' B' : table_wf (mk_btab (Z.of_nat nr) ov es) → (i < nr)%nat →
  delete_at kp i nr es B = Some (es', B') → table_wf (mk_btab (Z.of_nat (nr - 1)) ov es').
Proof.
  intros HT Hi H. pose proof (tw_len _ HT) as HL. pose proof (tw_nr _ HT) as HN. cbn in HL, HN.
  destruct (delete_at_cores kp i nr es B es' B' Hi ltac:(lia) H) as (L' & HD & HZ & HS).
  pose proof (wf_keys _ HT) as HK. cbn [BssNr BssEntry] in HK. rewrite Nat2Z.id in HK.
  assert (HE : ∀ x e, (core <$> es) !! x = Some e → entry_ok e).
  { intros x e Hx. rewrite list_lookup_fmap in Hx. apply fmap_Some in Hx as (f & Hf & ->). by apply (proj2 (entry_ok_core f)), (tw_entries _ HT x f). }
  assert (HB : ∀ x e, (nr ≤ x)%nat → (core <$> es) !! x = Some e → blank e).
  { intros x e Hx He. rewrite list_lookup_fmap in He. apply fmap_Some in He as (f & Hf & ->). apply (proj2 (blank_core f)), (tw_blank _ HT x f); [cbn; lia|done]. }
  apply wf_by_cores; [lia|lia|apply HT| | |].
  - rewrite Nat2Z.id, HD, list_fmap_delete. eapply sublist_NoDup; [exact HK|apply sublist_delete].
  - intros x e Hx. destruct (decide (x < nr - 1)%nat) as [Hl|Hl].
    + rewrite <- (lookup_take_lt _ (nr - 1)), HD in Hx by done. apply list_elem_of_lookup_2 in Hx.
      apply list_elem_of_delete_inv, list_elem_of_lookup in Hx as [y Hy]. apply lookup_take_Some in Hy as [Hy _]. by apply (HE y).
    + destruct (decide (x = (nr - 1)%nat)) as [->|]; [rewrite HZ in Hx; injection Hx as <-; apply zero_ok|].
      rewrite HS in Hx by lia. by apply (HE x).
  - rewrite Nat2Z.id. intros x e Hx He. destruct (decide (x = (nr - 1)%nat)) as [->|]; [rewrite HZ in He; by injection He as <-|].
    rewrite HS in He by lia. apply (HB x); [lia|done].
Qed.

Lemma init_entries_shape es : ∀ B es' B', init_entries es B = Some (es', B') →
  es' = (λ e, set_pVar (pVarIeFromProbRsp e) (set_Rssi (-127) zero_bss)) <$> es.
Proof.
  induction es as [|e es IH]; intros B es' B' H; cbn [init_entries] in H; [by simplify_eq|].
  peel H. injection H as <- <-. apply IH in E0 as ->. done.
Qed.

Lemma wf_init T B T' B' : length (BssEntry T) = MAX_LEN_OF_BSS_TABLE → BssTableInit T B = Some (T', B') → table_wf T' ∧ networks T' = ∅.
Proof.
  intros HL H. unfold BssTableInit in H. peel H. apply init_entries_shape in E as ->. injection H as <- <-. split; [|done].
  assert (HE : ∀ i e, (core <$> ((λ e, set_pVar (pVarIeFromProbRsp e) (set_Rssi (-127) zero_bss)) <$> BssEntry T)) !! i = Some e →
    entry_ok e ∧ blank e).
  { intros i e He. rewrite !list_lookup_fmap in He. destruct (BssEntry T !! i); [|done]. injection He as <-. split; [|done].
    split; vm_compute; split || reflexivity; congruence. }
  apply wf_by_cores; [by rewrite length_fmap|done|done|constructor| |]; [intros i e He; by apply (HE i)|intros i e _ He; by apply (HE i)].
Qed.

Lemma networks_without T i old k c : table_wf T → BssEntry T !! i = Some old →
  (if decide (i < Z.to_nat (BssNr T))%nat then delete (bss_key old) (networks T) else networks T) !! k = Some c ↔
  ∃ j e, (j < Z.to_nat (BssNr T))%nat ∧ j ≠ i ∧ BssEntry T !! j = Some e ∧ bss_key e = k ∧ core e = c.
Proof.
  intros HT Ho. destruct (decide _) as [Hi|Hi]; rewrite ?lookup_delete_Some, (networks_spec T k c HT).
  - split.
    + intros (Hk & j & e & Hj & He & <- & <-). exists j, e. repeat (split; [done|]). split; [|done]. intros ->. congruence.
    + intros (j & e & Hj & Hji & He & <- & <-). split; [|by exists j, e]. intros Hk. apply Hji. by apply (tw_keys _ HT j i e old).
  - split.
    + intros (j & e & Hj & He & <- & <-). exists j, e. repeat (split; [done || lia|]). done.
    + intros (j & e & Hj & _ & He & <- & <-). by exists j, e.
Qed.

(** Entry [i], the first free one or one in use, becomes [new]. *)
Lemma wf_insert T i new n ov old : table_wf T → BssEntry T !! i = Some old → 0 ≤ ov < Z.of_nat MAX_LEN_OF_BSS_TABLE →
  (n = BssNr T ∧ (i < Z.to_nat (BssNr T))%nat) ∨ (n = BssNr T + 1 ∧ i = Z.to_nat (BssNr T)) → entry_ok new →
  (∀ j e, (j < Z.to_nat (BssNr T))%nat → j ≠ i → BssEntry T !! j = Some e → bss_key e ≠ bss_key new) →
  let T' := mk_btab n ov (<[i := new]> (BssEntry T)) in
  table_wf T' ∧
  networks T' = <[bss_key new := core new]> (if decide (i < Z.to_nat (BssNr T))%nat then delete (bss_key old) (networks T) else networks T).
Proof.
  intros HT Ho Hov Hn Hok Hfresh T'. pose proof (tw_nr _ HT) as HN. pose proof (tw_len _ HT) as HL. pose proof (lookup_lt_Some _ _ _ Ho) as Hi.
  assert (HW : table_wf T').
  { split; cbn [BssNr BssOverlapNr BssEntry T'].
    - by rewrite length_insert.
    - lia.
    - done.
    - intros x y e f Hx Hy He Hf Hk.
      apply list_lookup_insert_Some in He as [(<- & <- & _)|[Hxi He]]; apply list_lookup_insert_Some in Hf as [(<- & <- & _)|[Hyi Hf]]; [done| | |].
      + destruct (Hfresh y f); [lia|congruence|done|congruence].
      + destruct (Hfresh x e); [lia|congruence|done|congruence].
      + apply (tw_keys _ HT x y e f); [lia|lia|done..].
    - intros x e [(-> & <- & _)|[_ He]]%list_lookup_insert_Some; [done|by apply (tw_entries _ HT x)].
    - intros x e Hx He. rewrite list_lookup_insert_ne in He by lia. apply (tw_blank _ HT x); [lia|done]. }
  split; [done|]. apply map_eq. intros k. apply option_eq. intros c. rewrite (networks_spec T' k c HW), lookup_insert_Some, (networks_without T i old k c HT Ho).
  cbn [BssNr BssEntry T']. split.
  - intros (x & e & Hx & He & <- & <-). apply list_lookup_insert_Some in He as [(<- & <- & _)|[Hxi He]]; [by left|right].
    assert (Hx' : (x < Z.to_nat (BssNr T))%nat) by lia. split; [apply not_eq_sym, (Hfresh x e); congruence|].
    exists x, e. split; [done|]. split; [congruence|done].
  - intros [[<- <-]|[_ (j & e & Hj & Hji & He & <- & <-)]].
    + exists i, new. rewrite list_lookup_insert_eq by done. split; [lia|done].
    + exists j, e. rewrite list_lookup_insert_ne by congruence. split; [lia|done].
Qed.

Lemma wf_ageing n T i e : table_wf T → n = Z.to_nat (BssNr T) → (i < n)%nat → BssEntry T !! i = Some e →
  table_wf (mk_btab (BssNr T) (BssOverlapNr T) (<[i := age e]> (BssEntry T))).
Proof.
  intros HT -> Hi He. apply (wf_insert T i (age e) (BssNr T) (BssOverlapNr T) e HT He (tw_ov _ HT)); [by left| |].
  - pose proof (tw_entries _ HT i e He) as Hok. destruct Hok. by split.
  - intros j f Hj Hji Hf Hk. apply Hji. by apply (tw_keys _ HT j i f e).
Qed.

Lemma maintain_wf OS_HZ Now con ssid len d c ov : ∀ fuel i nr es B nr' es' B', table_wf (mk_btab (Z.of_nat nr) ov es) →
  maintain_loop OS_HZ Now con ssid len d c fuel i nr es B = Some (nr', es', B') → table_wf (mk_btab (Z.of_nat nr') ov es').
Proof.
  induction fuel as [|fuel IH]; intros i nr es B nr' es' B' HT H; cbn [maintain_loop] in H; destruct (Nat.ltb_spec i nr); [done|by simplify_eq| |by simplify_eq].
  peel H. pose proof (wf_ageing nr _ i _ HT ltac:(cbn; lia) ltac:(done) E) as HT1. cbn [BssNr BssOverlapNr BssEntry] in HT1.
  destruct b0; peel H; [|by apply (IH _ _ _ _ _ _ _ HT1 H)]. apply (wf_delete _ _ _ _ _ _ _ _ HT1) in E1; [|done]. by apply (IH _ _ _ _ _ _ _ E1 H).
Qed.

(** The loop of [MaintainBssTable] ends within the number of entries. *)
Lemma maintain_enough OS_HZ Now con ssid len d c : ∀ fuel k i nr es B, (nr ≤ i + fuel)%nat →
  maintain_loop OS_HZ Now con ssid len d c (fuel + k) i nr es B = maintain_loop OS_HZ Now con ssid len d c fuel i nr es B.
Proof.
  induction fuel as [|fuel IH]; intros k i nr es B Hf.
  - destruct k; cbn [Nat.add maintain_loop]; destruct (Nat.ltb_spec i nr); done || lia.
  - cbn [Nat.add maintain_loop]. destruct (Nat.ltb_spec i nr); [|done]. destruct (es !! i); [|done]. cbn [mbind option_bind].
    destruct (too_old _ _ _ _ _ _ _ _) as [del|]; [|done]. cbn [mbind option_bind]. destruct del; [|apply IH; lia].
    destruct (delete_at _ _ _ _ _) as [[es1 B1]|]; [|done]. cbn [mbind option_bind]. apply IH. lia.
Qed.

Lemma wf_set cx T h r T' h' cx' : table_wf T → length (bcn_Ssid (h_ie h)) = MAX_LEN_OF_SSID →
  BssTableSetEntry cx T h = Some (r, T', h', cx') → table_wf T'.
Proof.
  intros HT Hs H. unfold BssTableSetEntry in H. pose proof (tw_nr _ HT) as HN.
  destruct (search_key T (bcn_Bssid (h_ie h)) (bcn_Channel (h_ie h)) HT) as (fnd & HF & Hfnd). rewrite HF in H. cbn [mbind option_bind] in H.
  assert (Hnone : networks T !! key_of (bcn_Bssid (h_ie h)) (bcn_Channel (h_ie h)) = None → ∀ new, bss_key new = key_of (bcn_Bssid (h_ie h)) (bcn_Channel (h_ie h)) →
    ∀ j e, (j < Z.to_nat (BssNr T))%nat → BssEntry T !! j = Some e → bss_key e ≠ bss_key new).
  { intros Hno new Hk j e Hj He Hke. assert (networks T !! bss_key e = Some (core e)) by (apply networks_spec; [done|]; by exists j, e). congruence. }
  destruct fnd as [i|].
  - destruct Hfnd as (Hi & e & He & Hk). rewrite He in H. cbn [mbind option_bind] in H. peel H. injection H as <- <- <- <-.
    destruct (entry_set_ok _ _ _ _ _ _ (tw_entries _ HT i e He) Hs E) as (Hok & Hkey & _).
    apply (wf_insert T i b0 (BssNr T) (BssOverlapNr T) e HT He (tw_ov _ HT)); [by left|done|].
    intros j f Hj Hji Hf Hkf. apply Hji. apply (tw_keys _ HT j i f e); [done..|congruence].
  - destruct (Z.leb_spec (Z.of_nat MAX_LEN_OF_BSS_TABLE) (BssNr T)) as [Hfull|Hfree].
    + match type of H with (if ?c then _ else _) = _ => destruct c end; [|by simplify_eq]. peel H. destruct b; [|by simplify_eq]. peel H.
      injection H as <- <- <- <-. pose proof (tw_ov _ HT) as Hov.
      destruct (entry_set_ok _ _ _ _ _ _ zero_ok Hs E1) as (Hok & Hkey & _).
      apply (wf_insert T _ b1 (BssNr T) _ b HT E0); [|by left; split; [done|lia]|done|].
      * cbn [set_entry BssOverlapNr]. apply Z.mod_pos_bound. done.
      * intros j f Hj _ Hf. by apply (Hnone Hfnd b1 Hkey j).
    + peel H. injection H as <- <- <- <-.
      destruct (entry_set_ok _ _ _ _ _ _ (tw_entries _ HT _ _ E) Hs E0) as (Hok & Hkey & _).
      assert (Hu : u8 (BssNr T + 1) = BssNr T + 1) by (apply wrap_id; [lia|]; unfold in_range, MAX_LEN_OF_BSS_TABLE in *; lia).
      unfold set_BssNr, set_entry. cbn [BssOverlapNr BssEntry]. rewrite Hu.
      apply (wf_insert T _ b1 (BssNr T + 1) (BssOverlapNr T) b HT E (tw_ov _ HT)); [by right|done|].
      intros j f Hj _ Hf. by apply (Hnone Hfnd b1 Hkey j).
Qed.

Lemma sort_spec T inv : length (BssEntry T) = MAX_LEN_OF_BSS_TABLE → 0 ≤ BssNr T ≤ Z.of_nat MAX_LEN_OF_BSS_TABLE → ∃ T' seg, BssTableSortByRssi true T inv = Some T' ∧ BssNr T' = BssNr T ∧
  BssOverlapNr T' = BssOverlapNr T ∧
  BssEntry T' = seg ++ drop (Z.to_nat (BssNr T)) (BssEntry T) ∧ seg ≡ₚ take (Z.to_nat (BssNr T)) (BssEntry T) ∧
  StronglySorted (before inv) seg.
Proof.
  intros HL HN. unfold BssTableSortByRssi. cbn [negb].
  set (n := Z.to_nat (BssNr T)). assert (Hn : (n ≤ length (BssEntry T))%nat) by lia. destruct n as [|n].
  - eexists _, []. cbn [Nat.sub sort_outer mbind option_bind]. split; [done|]. repeat (split; [done|]). constructor.
  - destruct (sort_outer_sorts inv n [] (take (S n) (BssEntry T)) (drop (S n) (BssEntry T))) as (seg & HS & HP & HSS);
      [rewrite length_take; lia|]. cbn [length app Nat.add] in HS. rewrite take_drop in HS.
    replace (S n - 1)%nat with n by lia. rewrite HS. cbn [mbind option_bind]. by eexists _, seg.
Qed.

Lemma wf_sort T inv T' : table_wf T → BssTableSortByRssi true T inv = Some T' → table_wf T'.
Proof.
  intros HT H. destruct (sort_spec T inv (tw_len _ HT) (tw_nr _ HT)) as (T1 & seg & H1 & En & Eo & Ee & HP & _). rewrite H in H1. injection H1 as <-.
  pose proof (tw_nr _ HT) as HN. pose proof (tw_len _ HT) as HL. pose proof (wf_keys _ HT) as HK.
  assert (Hs : length seg = Z.to_nat (BssNr T)) by (rewrite HP, length_take; lia).
  assert (HD : take (length seg) (core <$> seg ++ drop (Z.to_nat (BssNr T)) (BssEntry T)) = core <$> seg)
    by (rewrite fmap_app; apply take_app_length'; by rewrite length_fmap).
  destruct T' as [n ov es]. cbn [BssNr BssOverlapNr BssEntry] in *. subst n ov es.
  apply wf_by_cores; [rewrite length_app, length_drop; lia|done|apply HT| | |].
  - rewrite Hs in HD. rewrite HD. rewrite <- fmap_take in HK. by rewrite HP.
  - intros i e He. rewrite list_lookup_fmap in He. apply fmap_Some in He as (f & Hf & ->). apply (proj2 (entry_ok_core f)).
    assert (Hin : f ∈ BssEntry T).
    { apply list_elem_of_lookup_2 in Hf. rewrite <- (take_drop (Z.to_nat (BssNr T)) (BssEntry T)), elem_of_app.
      rewrite elem_of_app, HP in Hf. done. }
    apply list_elem_of_lookup in Hin as [j Hj]. by apply (tw_entries _ HT j).
  - intros i e Hi He. rewrite list_lookup_fmap, lookup_app_r, lookup_drop in He by lia. apply fmap_Some in He as (f & Hf & ->).
    apply (proj2 (blank_core f)), (tw_blank _ HT (Z.to_nat (BssNr T) + (i - length seg)) f); [lia|done].
Qed.

(** The entry that [BssTableDeleteEntry] looks for. *)
Definition deletes (Bssid : list Z) (Channel : Z) (e : BSS_ENTRY) : bool :=
  (be_Channel (be_id e) =? Channel) && MAC_ADDR_EQUAL (be_Bssid (be_id e)) Bssid.

Lemma delete_cases T Bssid Channel B : table_wf T →
  (∃ i e, (i < Z.to_nat (BssNr T))%nat ∧ BssEntry T !! i = Some e ∧ deletes Bssid Channel e = true ∧
     BssTableDeleteEntry T Bssid Channel B = '(es, B') ← delete_at true i (Z.to_nat (BssNr T)) (BssEntry T) B;
       Some (mk_btab (Z.of_nat (Z.to_nat (BssNr T) - 1)) (BssOverlapNr T) es, B')) ∨
  ((∀ i e, (i < Z.to_nat (BssNr T))%nat → BssEntry T !! i = Some e → deletes Bssid Channel e = false) ∧
   BssTableDeleteEntry T Bssid Channel B = Some (T, B)).
Proof.
  intros HT. pose proof (tw_nr _ HT) as HN. pose proof (tw_len _ HT) as HL. unfold MAX_LEN_OF_BSS_TABLE in *. unfold BssTableDeleteEntry.
  destruct (search_spec (deletes Bssid Channel) (BssEntry T) (Z.to_nat (BssNr T)) 0) as (fnd & HF & Hf); [lia|].
  unfold deletes in HF at 1. rewrite HF. cbn [mbind option_bind]. destruct fnd as [i|].
  - left. destruct Hf as (Hi & (e & He & Hd) & _). exists i, e. split; [lia|]. split; [done|]. split; [done|].
    replace (u8 (BssNr T - 1)) with (Z.of_nat (Z.to_nat (BssNr T) - 1)); [done|].
    rewrite (wrap_id 8) by (lia || (unfold in_range; lia)). lia.
  - right. split; [|done]. intros i e Hi. apply Hf. lia.
Qed.

(** What happens to a table and the buffers. *)
Inductive bss_step : BSS_TABLE * list (list Z) → BSS_TABLE * list (list Z) → Prop :=
| step_init T B T' B' : BssTableInit T B = Some (T', B') → bss_step (T, B) (T', B')
| step_set cx h r h' cx' T B T' : length (bcn_Ssid (h_ie h)) = MAX_LEN_OF_SSID →
    BssTableSetEntry cx T h = Some (r, T', h', cx') → bss_step (T, B) (T', B)
| step_delete Bssid Channel T B T' B' : BssTableDeleteEntry T Bssid Channel B = Some (T', B') → bss_step (T, B) (T', B')
| step_maintain OS_HZ Now con ssid len d c T B T' B' :
    MaintainBssTable OS_HZ Now con ssid len d c T B = Some (T', B') → bss_step (T, B) (T', B')
| step_sort inv T B T' : BssTableSortByRssi true T inv = Some T' → bss_step (T, B) (T', B).

(** C30: The table of networks stays well formed: after any sequence of
    initialising it, entering beacons (whatever is in them, as long as no access
    leaves a buffer, which would end the run), deleting, ageing and sorting, it
    has at most 128 entries, no two of them for the same
    address in the same band, the lengths in the entries fit their arrays, the
    place to overwrite next is one of the table, and the entries that are not
    in use hold nothing of networks that were there. *)
Theorem bss_table_invariant s s' (Hr : rtc bss_step s s') (HT : table_wf s.1) : table_wf s'.1.
Proof.
  induction Hr as [|s1 s2 s3 Hs _ IH]; [done|]. apply IH. clear IH.
  destruct Hs as [T B T' B' H|cx h r h' cx' T B T' Hl H|Bssid Channel T B T' B' H|OS_HZ Now con ssid len d c T B T' B' H|inv T B T' H]; cbn [fst] in *.
  - apply (wf_init T B T' B'); [apply HT|done].
  - by apply (wf_set cx T h r T' h' cx').
  - destruct (delete_cases T Bssid Channel B HT) as [(i & e & Hi & _ & _ & HE)|[_ HE]]; rewrite HE in H; [|by simplify_eq].
    peel H. injection H as <- <-. eapply wf_delete; [|exact Hi|exact E]. rewrite Z2Nat.id by apply HT. by destruct T.
  - unfold MaintainBssTable in H. peel H. injection H as <- <-. pose proof (tw_nr _ HT) as HN.
    eapply maintain_wf; [|exact E]. rewrite Z2Nat.id by lia. by destruct T.
  - by apply (wf_sort T inv).
Qed.

(** * Entering a beacon *)

Definition ctx_ok (cx : bss_ctx) : Prop :=
  length (want_Ssid cx) = MAX_LEN_OF_SSID ∧ length (Cfg_pending_Ssid cx) = (MAX_LEN_OF_SSID + 1)%nat.

Lemma ssid_equal_total s1 l1 s2 l2 : (Z.to_nat l2 ≤ length s1)%nat → (Z.to_nat l2 ≤ length s2)%nat → is_Some (SSID_EQUAL s1 l1 s2 l2).
Proof. intros H1 H2. unfold SSID_EQUAL. destruct (Z.eqb_spec l1 l2) as [->|]; [|by eauto]. rewrite equal_mem_some by done. by eauto. Qed.

Lemma desired_total cx vs h : ctx_ok cx → heard_ok vs h → is_Some (desired cx (h_ie h)).
Proof.
  intros [Hw Hp] Hh. pose proof (ho_ssid _ _ Hh) as H1. pose proof (ho_ssidlen _ _ Hh) as H2. unfold desired, MAX_LEN_OF_SSID in *.
  destruct (MAC_ADDR_EQUAL _ _); [by eauto|].
  destruct (ssid_equal_total (want_Ssid cx) (want_SsidLen cx) (bcn_Ssid (h_ie h)) (bcn_SsidLen (h_ie h))) as [b ->]; [lia..|].
  cbn [mbind option_bind]. destruct b; [by eauto|]. apply ssid_equal_total; lia.
Qed.

(** Connected in both roles: networks are not replaced. *)
Definition no_replacing (cx : bss_ctx) : bool :=
  OPSTATUS_TEST_FLAG (OpStatusFlags cx) fOP_STATUS_MEDIA_STATE_CONNECTED &&
  OPSTATUS_TEST_FLAG (OpStatusFlags cx) fOP_AP_STATUS_MEDIA_STATE_CONNECTED.

(** The entry [i] of [T] is filled from the beacon to give [T']. *)
Record entered (vs : list vie) (h : heard) (T T' : BSS_TABLE) (i : nat) (before_ old new : BSS_ENTRY) : Prop := {
  en_old : BssEntry T !! i = Some old;
  en_new : BssEntry T' !! i = Some new;
  en_filled : filled vs h before_ new;
  en_found : BssTableSearch T' (bcn_Bssid (h_ie h)) (bcn_Channel (h_ie h)) = Some (Some i)
}.

Lemma enter_at cx vs h T i n ov old b : table_wf T → heard_ok vs h → entry_ok b → BssEntry T !! i = Some old →
  0 ≤ ov < Z.of_nat MAX_LEN_OF_BSS_TABLE →
  (n = BssNr T ∧ (i < Z.to_nat (BssNr T))%nat) ∨ (n = BssNr T + 1 ∧ i = Z.to_nat (BssNr T)) →
  (∀ j e, (j < Z.to_nat (BssNr T))%nat → j ≠ i → BssEntry T !! j = Some e → bss_key e ≠ key_of (bcn_Bssid (h_ie h)) (bcn_Channel (h_ie h))) →
  ∃ new h' cx', entry_set cx b h = Some (new, h', cx') ∧
    let T' := mk_btab n ov (<[i := new]> (BssEntry T)) in
    entered vs h T T' i b old new ∧
    networks T' = <[key_of (bcn_Bssid (h_ie h)) (bcn_Channel (h_ie h)) := core new]>
      (if decide (i < Z.to_nat (BssNr T))%nat then delete (bss_key old) (networks T) else networks T).
Proof.
  intros HT Hh Hb Ho Hov Hn Hfresh. destruct (entry_set_total cx vs b h Hb Hh) as (new & h' & cx' & HE & HF & _).
  exists new, h', cx'. split; [done|]. cbv zeta. pose proof (fi_id _ _ _ _ HF) as Hk.
  destruct (wf_insert T i new n ov old HT Ho Hov Hn (fi_ok _ _ _ _ HF)) as [HW HNw]; [by rewrite Hk|].
  assert (Hi : BssEntry (mk_btab n ov (<[i := new]> (BssEntry T))) !! i = Some new)
    by (apply list_lookup_insert_eq; by eapply lookup_lt_Some).
  split; [|by rewrite <- Hk]. split; [done|done|done|].
  apply (search_present _ _ _ i new HW); [cbn [BssNr]; destruct Hn as [[-> ?]|[-> ->]]; [done|pose proof (tw_nr _ HT); lia]|done|done].
Qed.

(** There is room, or the network is known. *)
Lemma set_entry_room cx T h vs (HT : table_wf T) (Hh : heard_ok vs h) :
  let k := key_of (bcn_Bssid (h_ie h)) (bcn_Channel (h_ie h)) in
  is_Some (networks T !! k) ∨ BssNr T < Z.of_nat MAX_LEN_OF_BSS_TABLE →
  ∃ i T' h' cx' old new, BssTableSetEntry cx T h = Some (Some i, T', h', cx') ∧ entered vs h T T' i old old new ∧
    (networks T !! k = None → blank old) ∧ networks T' = <[k := core new]> (networks T).
Proof.
  intros k Hroom. pose proof (tw_nr _ HT) as HN. pose proof (tw_len _ HT) as HL. pose proof (tw_ov _ HT) as HO.
  destruct (search_key T (bcn_Bssid (h_ie h)) (bcn_Channel (h_ie h)) HT) as (fnd & HF & Hfnd).
  assert (Hno : networks T !! k = None → ∀ j e, (j < Z.to_nat (BssNr T))%nat → BssEntry T !! j = Some e → bss_key e ≠ k).
  { intros Hn j e Hj He Hk. assert (networks T !! k = Some (core e)) by (apply networks_spec; [done|]; by exists j, e). congruence. }
  unfold BssTableSetEntry. rewrite HF. cbn [mbind option_bind]. destruct fnd as [i|].
  - destruct Hfnd as (Hi & e & He & Hk).
    assert (HkS : networks T !! k = Some (core e)) by (apply networks_spec; [done|]; by exists i, e).
    destruct (enter_at cx vs h T i (BssNr T) (BssOverlapNr T) e e) as (new & h' & cx' & HE & HEn & HNw);
      [done|done|by apply (tw_entries _ HT i)|done|done|by left| |].
    { intros j f Hj Hji Hf Hkf. apply Hji. apply (tw_keys _ HT j i f e); [done..|congruence]. }
    rewrite He. cbn [mbind option_bind]. rewrite HE. cbn [mbind option_bind]. eexists i, _, h', cx', e, new. split; [done|].
    split; [done|]. split; [intros; congruence|]. unfold set_entry. rewrite HNw, decide_True, Hk by done. apply insert_delete_eq.
  - destruct Hroom as [[c Hs]|Hfree]; [unfold k in Hs; congruence|]. replace (Z.of_nat MAX_LEN_OF_BSS_TABLE <=? BssNr T) with false by lia.
    destruct (lookup_lt_is_Some_2 (BssEntry T) (Z.to_nat (BssNr T)) ltac:(lia)) as [e He]. rewrite He. cbn [mbind option_bind].
    destruct (enter_at cx vs h T (Z.to_nat (BssNr T)) (BssNr T + 1) (BssOverlapNr T) e e) as (new & h' & cx' & HE & HEn & HNw);
      [done|done|by eapply tw_entries|done|done|by right|by intros j f Hj _ Hf; apply (Hno Hfnd j)|].
    rewrite HE. cbn [mbind option_bind]. eexists _, _, h', cx', e, new. split; [done|].
    unfold set_BssNr, set_entry. cbn [BssOverlapNr BssEntry].
    assert (u8 (BssNr T + 1) = BssNr T + 1) as -> by (apply wrap_id; [lia|]; unfold in_range, MAX_LEN_OF_BSS_TABLE in *; lia).
    split; [done|]. split; [intros _; by apply (tw_blank _ HT (Z.to_nat (BssNr T)))|]. by rewrite HNw, decide_False by lia.
Qed.

(** C31: Entering a beacon is an insertion into a map of at most 128 networks.
    The beacon is one of an access point (not of an ad hoc network), its list
    has arrays of their sizes and lengths in range, and its elements are well
    formed: vendor elements have four bytes, RSN elements have their
    capabilities, country elements have three bytes.  A network that is known, or new when there is room, is put under its key, the
    others do not change, a new one starts from a blank entry, and the search
    finds it afterwards.  A new one that finds the table full is dropped when
    the station is connected in both roles or did not look for it, and
    otherwise takes the place of the entry at the cursor, which advances. *)
Theorem bss_set_entry_is_insert cx T h vs (HT : table_wf T) (Hc : ctx_ok cx) (Hh : heard_ok vs h) :
  let k := key_of (bcn_Bssid (h_ie h)) (bcn_Channel (h_ie h)) in
  (is_Some (networks T !! k) ∨ BssNr T < Z.of_nat MAX_LEN_OF_BSS_TABLE →
     ∃ i T' h' cx' old new, BssTableSetEntry cx T h = Some (Some i, T', h', cx') ∧ entered vs h T T' i old old new ∧
       (networks T !! k = None → blank old) ∧ networks T' = <[k := core new]> (networks T)) ∧
  (networks T !! k = None → BssNr T = Z.of_nat MAX_LEN_OF_BSS_TABLE →
     ∃ wanted, desired cx (h_ie h) = Some wanted ∧
       if no_replacing cx || negb wanted then BssTableSetEntry cx T h = Some (None, T, h, cx)
       else ∃ T' h' cx' old new, let i := Z.to_nat (BssOverlapNr T) in
         BssTableSetEntry cx T h = Some (Some i, T', h', cx') ∧ entered vs h T T' i zero_bss old new ∧
         networks T' = <[k := core new]> (delete (bss_key old) (networks T)) ∧
         BssOverlapNr T' = (BssOverlapNr T + 1) `mod` Z.of_nat MAX_LEN_OF_BSS_TABLE).
Proof.
  intros k. split; [by apply (set_entry_room cx T h vs HT Hh)|]. intros Hk Hfull. pose proof (tw_nr _ HT) as HN. pose proof (tw_len _ HT) as HL. pose proof (tw_ov _ HT) as HO.
  destruct (search_key T (bcn_Bssid (h_ie h)) (bcn_Channel (h_ie h)) HT) as (fnd & HF & Hfnd).
  assert (Hno : ∀ j e, (j < Z.to_nat (BssNr T))%nat → BssEntry T !! j = Some e → bss_key e ≠ k).
  { intros j e Hj He Hke. assert (networks T !! k = Some (core e)) by (apply networks_spec; [done|]; by exists j, e). congruence. }
  unfold BssTableSetEntry. rewrite HF. cbn [mbind option_bind]. destruct fnd as [i|]; [destruct Hfnd as (Hi & e & He & Hke); by destruct (Hno i e)|].
  replace (Z.of_nat MAX_LEN_OF_BSS_TABLE <=? BssNr T) with true by lia.
  destruct (desired_total cx vs h Hc Hh) as [wanted Hw]. exists wanted. split; [done|]. unfold no_replacing. rewrite <- negb_andb.
  destruct (_ && _); cbn [orb negb]; [done|]. rewrite Hw. cbn [mbind option_bind]. destruct wanted; cbn [negb]; [|done].
  destruct (lookup_lt_is_Some_2 (BssEntry T) (Z.to_nat (BssOverlapNr T)) ltac:(lia)) as [e He]. rewrite He. cbn [mbind option_bind].
  set (ov := u8 (BssOverlapNr T + 1) `mod` Z.of_nat MAX_LEN_OF_BSS_TABLE).
  destruct (enter_at cx vs h T (Z.to_nat (BssOverlapNr T)) (BssNr T) ov e zero_bss) as (new & h' & cx' & HE & HEn & HNw);
    [done|done|apply zero_ok|done|by apply Z.mod_pos_bound|left; split; [done|lia]|by intros j f Hj _ Hf; apply (Hno j)|].
  rewrite HE. cbn [mbind option_bind]. eexists _, h', _, e, new. split; [done|]. split; [done|].
  rewrite decide_True in HNw by lia. split; [exact HNw|]. cbn [BssOverlapNr]. f_equal. apply wrap_id; [lia|].
  unfold in_range, MAX_LEN_OF_BSS_TABLE in *. lia.
Qed.

(** * Deleting a network *)

Lemma networks_cores T k c : table_wf T →
  networks T !! k = Some c ↔ ∃ i, take (Z.to_nat (BssNr T)) (core <$> BssEntry T) !! i = Some c ∧ bss_key c = k.
Proof.
  intros HT. rewrite (networks_spec T k c HT). split.
  - intros (i & e & Hi & He & <- & <-). exists i. by rewrite lookup_take_lt, list_lookup_fmap, He by done.
  - intros (i & Hi & <-). apply lookup_take_Some in Hi as [Hi Hn]. rewrite list_lookup_fmap in Hi. apply fmap_Some in Hi as (e & He & ->).
    by exists i, e.
Qed.

Lemma lookup_delete_list {A} (l : list A) i x : (∃ j, delete i l !! j = Some x) ↔ ∃ j, j ≠ i ∧ l !! j = Some x.
Proof.
  split.
  - intros (j & Hj). destruct (decide (j < i)%nat).
    + rewrite list_lookup_delete_lt in Hj by done. exists j. split; [lia|done].
    + rewrite list_lookup_delete_ge in Hj by lia. exists (S j). split; [lia|done].
  - intros (j & Hji & Hj). destruct (decide (j < i)%nat).
    + exists j. by rewrite list_lookup_delete_lt.
    + destruct j as [|j]; [lia|]. exists j. by rewrite list_lookup_delete_ge by lia.
Qed.

Lemma networks_delete T T' i e : table_wf T → table_wf T' → (i < Z.to_nat (BssNr T))%nat → BssEntry T !! i = Some e →
  take (Z.to_nat (BssNr T')) (core <$> BssEntry T') = delete i (take (Z.to_nat (BssNr T)) (core <$> BssEntry T)) →
  networks T' = delete (bss_key e) (networks T).
Proof.
  intros HT HT' Hi He HD. pose proof (wf_keys T HT) as HK. set (L := take _ (core <$> BssEntry T)) in *.
  assert (HLi : L !! i = Some (core e)) by (unfold L; by rewrite lookup_take_lt, list_lookup_fmap, He by done).
  apply map_eq. intros k. apply option_eq. intros c. rewrite lookup_delete_Some, (networks_cores T' k c HT'), (networks_cores T k c HT), HD. fold L.
  assert (Hex : (∃ j, delete i L !! j = Some c ∧ bss_key c = k) ↔ (∃ j, delete i L !! j = Some c) ∧ bss_key c = k) by naive_solver.
  rewrite Hex, lookup_delete_list. split.
  - intros [(j & Hji & Hj) <-]. split; [|by exists j]. intros Hk. apply Hji. apply (NoDup_lookup _ j i (bss_key c) HK).
    + by rewrite list_lookup_fmap, Hj.
    + rewrite list_lookup_fmap, HLi. cbn. by rewrite <- Hk.
  - intros [Hk (j & Hj & <-)]. split; [|done]. exists j. split; [|done]. intros ->. apply Hk. rewrite HLi in Hj. by injection Hj as <-.
Qed.

(** Deleting a network removes it and nothing else: as long as each entry
    has a buffer of its own, [BssTableDeleteEntry] does not fail; if there is
    an entry with the address and the channel, the table is the map without
    its key, the other entries move up in their order, each with the elements
    of its own probe response although the buffers stay where they are, and
    the entries still have a buffer each; otherwise nothing changes. *)
Theorem bss_delete_entry T B Bssid Channel (HT : table_wf T) (HB : bufs_wf (BssEntry T) B) :
  ∃ T' B', BssTableDeleteEntry T Bssid Channel B = Some (T', B') ∧ table_wf T' ∧ bufs_wf (BssEntry T') B' ∧
    ((∃ i e, (i < Z.to_nat (BssNr T))%nat ∧ BssEntry T !! i = Some e ∧ deletes Bssid Channel e = true ∧
        BssNr T' = BssNr T - 1 ∧ networks T' = delete (key_of Bssid Channel) (networks T) ∧
        take (Z.to_nat (BssNr T')) (view B' <$> BssEntry T') = delete i (take (Z.to_nat (BssNr T)) (view B <$> BssEntry T))) ∨
     (∀ i e, (i < Z.to_nat (BssNr T))%nat → BssEntry T !! i = Some e → deletes Bssid Channel e = false) ∧ T' = T ∧ B' = B).
Proof.
  pose proof (tw_nr _ HT) as HN. pose proof (tw_len _ HT) as HL.
  destruct (delete_cases T Bssid Channel B HT) as [(i & e & Hi & He & Hd & HE)|[Hno HE]]; rewrite HE.
  2: { exists T, B. split; [done|]. split; [done|]. split; [done|]. by right. }
  destruct (delete_at_views i (Z.to_nat (BssNr T)) (BssEntry T) B Hi ltac:(lia) HB) as (es' & B' & HD & HB' & HV).
  rewrite HD. cbn [mbind option_bind]. eexists _, B'. split; [done|].
  assert (HT' : table_wf (mk_btab (Z.of_nat (Z.to_nat (BssNr T) - 1)) (BssOverlapNr T) es')).
  { eapply wf_delete; [|exact Hi|exact HD]. rewrite Z2Nat.id by lia. by destruct T. }
  split; [done|]. split; [done|]. left. exists i, e. repeat (split; [done|]). cbn [BssNr BssEntry]. split; [lia|].
  rewrite Nat2Z.id. split; [|done].
  replace (key_of Bssid Channel) with (bss_key e).
  - apply (networks_delete T _ i e HT HT' Hi He). cbn [BssNr BssEntry]. rewrite Nat2Z.id.
    by destruct (delete_at_cores true i (Z.to_nat (BssNr T)) (BssEntry T) B es' B' Hi ltac:(lia) HD) as (_ & HC & _).
  - unfold deletes, MAC_ADDR_EQUAL in Hd. apply andb_prop in Hd as [Hc%Z.eqb_eq Hm%bool_decide_eq_true]. unfold bss_key, key_of. by rewrite Hc, Hm.
Qed.

(** * Selecting networks to join *)

Definition takes (cfg : join_cfg) (Ssid : list Z) (SsidLen : Z) (b : BSS_ENTRY) : bool :=
  match judge cfg Ssid SsidLen b with Some V_copy | Some V_copy_continue => true | _ => false end.

Lemma judge_total cfg Ssid SsidLen b : length Ssid = MAX_LEN_OF_SSID → entry_ok b → is_Some (judge cfg Ssid SsidLen b).
Proof.
  intros Hs Hb. pose proof (eo_ssid _ Hb) as H1. pose proof (eo_ssidlen _ Hb) as H2. unfold judge. destruct (negb (_ =? jc_BssType cfg)); [by eauto|].
  destruct (ssid_equal_total Ssid SsidLen (be_Ssid (be_id b)) (be_SsidLen (be_id b))) as [x ->]; [lia..|]. cbn [mbind option_bind].
  repeat match goal with |- context [if ?c then _ else _] => destruct c end; by eauto.
Qed.

Section select.
Context (cfg : join_cfg) (Ssid : list Z) (SsidLen : Z) (Hs : length Ssid = MAX_LEN_OF_SSID).

Lemma copy_entry_spec b Out m : length (BssEntry Out) = MAX_LEN_OF_BSS_TABLE → BssNr Out = Z.of_nat m → (m < MAX_LEN_OF_BSS_TABLE)%nat →
  ∃ Out', copy_entry b Out = Some Out' ∧ BssNr Out' = Z.of_nat (S m) ∧ length (BssEntry Out') = MAX_LEN_OF_BSS_TABLE ∧
    take (S m) (BssEntry Out') = take m (BssEntry Out) ++ [b].
Proof.
  intros HL HN Hm. unfold copy_entry, MAX_LEN_OF_BSS_TABLE in *. rewrite HN, Nat2Z.id.
  destruct (lookup_lt_is_Some_2 (BssEntry Out) m ltac:(lia)) as [e He]. rewrite He. cbn [mbind option_bind]. eexists. split; [done|].
  cbn [BssNr BssEntry set_BssNr set_entry]. split; [rewrite wrap_id by (lia || (unfold in_range; lia)); lia|]. rewrite length_insert. split; [done|].
  rewrite (take_S_r _ m b) by (apply list_lookup_insert_eq; lia). by rewrite take_insert_ge.
Qed.

Lemma ssid_loop_spec scan : Forall entry_ok scan → ∀ n i Out m, (i + n ≤ length scan)%nat → length (BssEntry Out) = MAX_LEN_OF_BSS_TABLE →
  BssNr Out = Z.of_nat m → (m + n ≤ MAX_LEN_OF_BSS_TABLE)%nat →
  ∃ Out' k, ssid_loop cfg Ssid SsidLen scan i n Out = Some Out' ∧ BssNr Out' = Z.of_nat k ∧ (k ≤ MAX_LEN_OF_BSS_TABLE)%nat ∧
    length (BssEntry Out') = MAX_LEN_OF_BSS_TABLE ∧
    take k (BssEntry Out') = take m (BssEntry Out) ++ filter (λ e, takes cfg Ssid SsidLen e = true) (take n (drop i scan)).
Proof.
  intros Hok. induction n as [|n IH]; intros i Out m Hi HL HN Hm; cbn [ssid_loop].
  - exists Out, m. rewrite take_0, filter_nil, app_nil_r. repeat (split; [done || lia|]). done.
  - destruct (lookup_lt_is_Some_2 scan i ltac:(lia)) as [b Hb]. rewrite Hb, (drop_S _ _ _ Hb). cbn [mbind option_bind firstn].
    destruct (judge_total cfg Ssid SsidLen b Hs) as [v Hv]; [by apply (Forall_lookup_1 _ _ _ _ Hok Hb)|].
    assert (Ht : takes cfg Ssid SsidLen b = match v with V_copy | V_copy_continue => true | _ => false end) by (unfold takes; by rewrite Hv).
    rewrite filter_cons, Hv. cbn [mbind option_bind].
    destruct (copy_entry_spec b Out m HL HN ltac:(lia)) as (Out1 & HC & HN1 & HL1 & HT1).
    assert (Hskip := IH (S i) Out m ltac:(lia) HL HN ltac:(lia)).
    assert (Hcopy : ∃ Out' k, ssid_loop cfg Ssid SsidLen scan (S i) n Out1 = Some Out' ∧ BssNr Out' = Z.of_nat k ∧ (k ≤ MAX_LEN_OF_BSS_TABLE)%nat ∧
      length (BssEntry Out') = MAX_LEN_OF_BSS_TABLE ∧
      take k (BssEntry Out') = take m (BssEntry Out) ++ b :: filter (λ e, takes cfg Ssid SsidLen e = true) (take n (drop (S i) scan))).
    { destruct (IH (S i) Out1 (S m) ltac:(lia) HL1 HN1 ltac:(lia)) as (O' & k & H1 & H2 & H3 & H4 & H5). exists O', k.
      rewrite H5, HT1, <- app_assoc. done. }
    destruct v; cbn [mbind option_bind];
      [rewrite decide_False by (by rewrite Ht)|rewrite decide_False by (by rewrite Ht)|rewrite decide_True by done|rewrite decide_True by done].
    + replace (Z.of_nat MAX_LEN_OF_BSS_TABLE <=? BssNr Out) with false by lia. done.
    + done.
    + rewrite HC. cbn [mbind option_bind]. destruct (Z.leb_spec (Z.of_nat MAX_LEN_OF_BSS_TABLE) (BssNr Out1)); [|done].
      exists Out1, (S m). assert (n = 0%nat) as -> by lia. rewrite take_0, filter_nil, HT1. repeat (split; [done || lia|]). done.
    + rewrite HC. cbn [mbind option_bind]. done.
Qed.
End select.

Lemma security_ok_wpa cfg named s : security_ok cfg named s = true → Ndis802_11AuthModeWPA ≤ jc_AuthMode cfg →
  (be_AuthMode s = jc_AuthMode cfg ∨ be_AuthModeAux s = jc_AuthMode cfg) ∧
  (jc_WepStatus cfg = Ndis802_11TKIPEnable → jc_AuthMode cfg = Ndis802_11AuthModeWPA2PSK →
     PairCipher (WPA2 s) = Ndis802_11TKIPEnable ∨ PairCipherAux (WPA2 s) = Ndis802_11TKIPEnable).
Proof.
  unfold security_ok. intros H HA. replace (Ndis802_11AuthModeWPA <=? jc_AuthMode cfg) with true in H by lia. apply andb_prop in H as [H1 H2]. split.
  - destruct (Z.eqb_spec (jc_AuthMode cfg) (be_AuthMode s)); [by left|]. destruct (Z.eqb_spec (jc_AuthMode cfg) (be_AuthModeAux s)); [by right|done].
  - intros HW HM. rewrite HM in H2. cbn [Z.eqb orb] in H2. unfold suite_ok in H2. rewrite HW in H2. apply andb_prop in H2 as [_ H2].
    destruct (Z.eqb_spec Ndis802_11TKIPEnable (PairCipher (WPA2 s))); [by left|].
    destruct (Z.eqb_spec Ndis802_11TKIPEnable (PairCipherAux (WPA2 s))); [by right|done].
Qed.

Lemma takes_policy cfg Ssid SsidLen e : takes cfg Ssid SsidLen e = true → be_BssType (be_id e) = jc_BssType cfg ∧
  (SsidLen ≠ 0 → SSID_EQUAL Ssid SsidLen (be_Ssid (be_id e)) (be_SsidLen (be_id e)) = Some true ∨
     (be_Hidden (be_id e) ≠ 0 ∧ RadarChannelCheck (ChannelList cfg) (be_Channel (be_id e)) = true)) ∧
  (Z.land (WpaSupplicantUP cfg) 0x80 = 0 → ∃ named, security_ok cfg named (be_sec e) = true) ∧
  (Z.land (WpaSupplicantUP cfg) 0x80 = 0 → SsidLen ≠ 0 → IEEE80211dClientMode cfg = Rt802_11_D_Strict → bHasCountryIE (be_ies e) = true).
Proof.
  unfold takes, judge. intros H. destruct (Z.eqb_spec (be_BssType (be_id e)) (jc_BssType cfg)) as [Ht|]; [|done]. split; [done|]. cbn [negb] in H.
  destruct (SSID_EQUAL _ _ _ _) as [same|]; [|done]. cbn [mbind option_bind] in H.
  set (hid := bIEEE80211H cfg && _ && _ && _) in H. destruct (same || hid) eqn:Eo.
  - split.
    + intros _. destruct same; [by left|right]. cbn [orb] in Eo. unfold hid in Eo. apply andb_prop in Eo as [Eo Hh]. apply andb_prop in Eo as [_ Hr].
      split; [|done]. by destruct (Z.eqb_spec (be_Hidden (be_id e)) 0).
    + enough (Hc : Z.land (WpaSupplicantUP cfg) 0x80 = 0 →
        (IEEE80211dClientMode cfg = Rt802_11_D_Strict → bHasCountryIE (be_ies e) = true) ∧ security_ok cfg true (be_sec e) = true)
        by (split; [intros Hw; exists true; by apply Hc|intros Hw _; by apply Hc]).
      intros Hw. rewrite Hw in H. change (negb (0 =? 0)) with false in H. cbv iota in H.
      destruct (_ && negb (bHasCountryIE _)) eqn:Ec; [done|]. split.
      * intros Hm. rewrite Hm, Z.eqb_refl in Ec. by destruct (bHasCountryIE _).
      * destruct (mode_mismatch cfg e); [done|]. by destruct (security_ok cfg true (be_sec e)).
  - destruct (Z.eqb_spec SsidLen 0); [|done]. split; [done|]. split; [|done]. intros _. exists false.
    destruct (mode_mismatch cfg e); [done|]. by destruct (security_ok cfg false (be_sec e)).
Qed.

(** C32: The candidates to join are the networks that fit, strongest first:
    with memory for the sort, [BssTableSsidSort] ends with exactly those
    networks of the scan table that it takes, ordered by falling signal
    strength, or with none if no name is given and none may be chosen; each
    one is of the station's type, has the name if one is given (or hides it on
    a channel with radar), and, unless a supplicant decides, announces the
    station's own mode of authentication if that is WPA or WPA2, TKIP if that
    is the station's cipher in WPA2-PSK mode, and a country if the station is
    strict about countries and a name is given. *)
Theorem ssid_sort_selects cfg Scan Out B Ssid SsidLen (HS : table_wf Scan) (HO : length (BssEntry Out) = MAX_LEN_OF_BSS_TABLE)
    (HP : ptrs_ok (BssEntry Out) B) (Hs : length Ssid = MAX_LEN_OF_SSID) :
  ∃ Out' B', BssTableSsidSort true cfg Scan Out B Ssid SsidLen = Some (Out', B') ∧
    let found := take (Z.to_nat (BssNr Out')) (BssEntry Out') in
    BssNr Out' = Z.of_nat (length found) ∧ StronglySorted (before false) found ∧
    found ≡ₚ (if (SsidLen =? 0) && negb (bAutoConnectIfNoSSID cfg) then []
              else filter (λ e, takes cfg Ssid SsidLen e = true) (take (Z.to_nat (BssNr Scan)) (BssEntry Scan))) ∧
    ∀ e, e ∈ found → be_BssType (be_id e) = jc_BssType cfg ∧
      (SsidLen ≠ 0 → SSID_EQUAL Ssid SsidLen (be_Ssid (be_id e)) (be_SsidLen (be_id e)) = Some true ∨
         (be_Hidden (be_id e) ≠ 0 ∧ RadarChannelCheck (ChannelList cfg) (be_Channel (be_id e)) = true)) ∧
      (Z.land (WpaSupplicantUP cfg) 0x80 = 0 → Ndis802_11AuthModeWPA ≤ jc_AuthMode cfg →
         (be_AuthMode (be_sec e) = jc_AuthMode cfg ∨ be_AuthModeAux (be_sec e) = jc_AuthMode cfg) ∧
         (jc_WepStatus cfg = Ndis802_11TKIPEnable → jc_AuthMode cfg = Ndis802_11AuthModeWPA2PSK →
            PairCipher (WPA2 (be_sec e)) = Ndis802_11TKIPEnable ∨ PairCipherAux (WPA2 (be_sec e)) = Ndis802_11TKIPEnable)) ∧
      (Z.land (WpaSupplicantUP cfg) 0x80 = 0 → SsidLen ≠ 0 → IEEE80211dClientMode cfg = Rt802_11_D_Strict → bHasCountryIE (be_ies e) = true).
Proof.
  unfold BssTableSsidSort, BssTableInit. destruct (init_entries_total (BssEntry Out) B HP) as (B' & -> & _ & _). cbn [mbind option_bind].
  set (es0 := _ <$> BssEntry Out). assert (HL0 : length es0 = MAX_LEN_OF_BSS_TABLE) by (unfold es0; by rewrite length_fmap).
  destruct ((SsidLen =? 0) && negb (bAutoConnectIfNoSSID cfg)).
  { eexists _, B'. split; [done|]. split; [done|]. split; [constructor|]. split; [done|]. intros e He. by apply elem_of_nil in He. }
  pose proof (tw_nr _ HS) as HN. pose proof (tw_len _ HS) as HL.
  destruct (ssid_loop_spec cfg Ssid SsidLen Hs (BssEntry Scan)) with (n := Z.to_nat (BssNr Scan)) (i := 0%nat) (Out := mk_btab 0 0 es0) (m := 0%nat)
    as (O1 & k & -> & HN1 & Hk & HL1 & HT1); [|lia|done|done|lia|]. { apply Forall_lookup. apply (tw_entries _ HS). }
  cbn [mbind option_bind]. rewrite take_0, app_nil_l, drop_0 in HT1.
  destruct (sort_spec O1 false HL1 ltac:(lia)) as (O2 & seg & -> & HN2 & _ & HE2 & HP2 & HSS). cbn [mbind option_bind].
  rewrite HN1, Nat2Z.id in HP2, HE2. rewrite HT1 in HP2.
  assert (Hlen : length seg = k) by (rewrite HP2, <- HT1, length_take; lia).
  assert (HF : take (Z.to_nat (BssNr O2)) (BssEntry O2) = seg) by (rewrite HN2, HN1, Nat2Z.id, HE2, <- Hlen; apply take_app_length).
  exists O2, B'. split; [done|]. rewrite HF. split; [rewrite HN2, HN1; lia|]. split; [done|]. split; [done|].
  intros e He. rewrite HP2 in He. apply list_elem_of_filter in He as [(H1 & H2 & H3 & H4)%takes_policy _].
  split; [done|]. split; [done|]. split; [|done]. intros Hw HA. destruct (H3 Hw) as [named Hn]. by apply (security_ok_wpa cfg named).
Qed.

(** * Witnesses *)

(** An empty table with its buffers, and the beacon of a network. *)
Definition demo_table : BSS_TABLE :=
  mk_btab 0 0 ((λ k, set_pVar (Some k) (set_Rssi (-127) zero_bss)) <$> seq 0 MAX_LEN_OF_BSS_TABLE).
Definition demo_bufs : list (list Z) := replicate MAX_LEN_OF_BSS_TABLE (zeros MAX_VIE_LEN).
Definition demo_ssid (c : Z) : list Z := [c; c; c; c] ++ zeros 28.
Definition demo_ie (a c : Z) : BCN_IE_LIST :=
  mk_bcn [2; 0; 0; 0; 0; a] (demo_ssid c) 4 BSS_INFRA 100 36 0 0x11 (zeros 12) 8 (zeros 12) 4 0 (zeros 8) (mk_cf false 0 0 0 0)
    (mk_parm false []) (mk_parm false []) (mk_parm false []) 26 (2 :: zeros 25) 22 ([36; 1] ++ zeros 20) 255 (zeros 12) ([1; 42] ++ zeros 3) 12 5.
Definition demo_heard (a c rssi : Z) : heard :=
  let V := concat (map vie_enc demo_vies) in
  mk_heard (demo_ie a c) rssi (Z.of_nat (length V)) (V ++ zeros (MAX_VIE_LEN - length V)) 5000.
Definition demo_ctx : bss_ctx := mk_bctx 0 (zeros 6) (demo_ssid 65) 4 (zeros 33) 0 (mk_vht 1 155 0).
Definition demo_join : join_cfg :=
  mk_join false false 36 [] BSS_INFRA 0 0 (Z.lor WMODE_AN WMODE_AC) Ndis802_11AuthModeWPA2PSK Ndis802_11AESEnable.

Lemma demo_entry i e : BssEntry demo_table !! i = Some e → (i < MAX_LEN_OF_BSS_TABLE)%nat ∧ e = set_pVar (Some i) (set_Rssi (-127) zero_bss).
Proof.
  unfold demo_table. cbn [BssEntry]. rewrite list_lookup_fmap. intros (k & Hk & ->)%fmap_Some. apply lookup_seq in Hk as [-> ?]. done.
Qed.

Lemma demo_table_wf : table_wf demo_table.
Proof.
  apply wf_by_cores; [done|done|done|constructor| |].
  - intros i e He. rewrite list_lookup_fmap in He. apply fmap_Some in He as (f & Hf & ->). apply (proj2 (entry_ok_core f)). apply demo_entry in Hf as [_ ->].
    split; vm_compute; split || reflexivity; congruence.
  - intros i e _ He. rewrite list_lookup_fmap in He. apply fmap_Some in He as (f & Hf & ->). apply demo_entry in Hf as [_ ->]. done.
Qed.

Lemma demo_bufs_wf : bufs_wf (BssEntry demo_table) demo_bufs.
Proof.
  split.
  - intros x e [Hx ->]%demo_entry. exists x, (zeros MAX_VIE_LEN). split; [done|]. split; [by apply lookup_replicate_2|]. split; [apply length_zeros|done].
  - intros x y e f [_ ->]%demo_entry [_ ->]%demo_entry Hp. by injection Hp.
Qed.

Lemma demo_heard_ok a c rssi : heard_ok demo_vies (demo_heard a c rssi).
Proof.
  split; try done; try (repeat split; vm_compute; congruence).
  - repeat constructor; vm_compute; congruence.
  - repeat constructor; vm_compute; congruence.
  - eexists. split; [done|]. split; [apply bytes_zeros|]. split; [vm_compute; lia|done].
Qed.

Lemma bss_table_invariant_witness :
  ∃ T' h' cx', BssTableSetEntry demo_ctx demo_table (demo_heard 1 65 (-50)) = Some (Some 0%nat, T', h', cx') ∧ table_wf T'.
Proof.
  destruct (BssTableSetEntry demo_ctx demo_table (demo_heard 1 65 (-50))) as [[[[r T'] h'] cx']|] eqn:E;
    [|vm_compute in E; discriminate E].
  assert (Hr : r = Some 0%nat).
  { assert (option_map (λ x, x.1.1.1) (BssTableSetEntry demo_ctx demo_table (demo_heard 1 65 (-50))) = Some (Some 0%nat)) as H by (vm_compute; reflexivity).
    rewrite E in H. cbn in H. congruence. }
  subst r. exists T', h', cx'. split; [reflexivity|].
  apply (bss_table_invariant (demo_table, demo_bufs) (T', demo_bufs)).
  - apply rtc_once. refine (step_set _ _ _ _ _ _ _ _ _ E). reflexivity.
  - apply demo_table_wf.
Defined.

Lemma bss_set_entry_is_insert_witness :
  ∃ i T' h' cx', BssTableSetEntry demo_ctx demo_table (demo_heard 1 65 (-50)) = Some (Some i, T', h', cx') ∧
    BssTableSearch T' [2; 0; 0; 0; 0; 1] 36 = Some (Some i).
Proof.
  destruct (bss_set_entry_is_insert demo_ctx demo_table (demo_heard 1 65 (-50)) demo_vies) as [H _].
  - apply demo_table_wf.
  - split; reflexivity.
  - apply demo_heard_ok.
  - destruct H as (i & T' & h' & cx' & old & new & H1 & H2 & _); [right; reflexivity|].
    exists i, T', h', cx'. split; [exact H1|]. exact (en_found _ _ _ _ _ _ _ _ H2).
Defined.

(** The table with that network and a stronger one of another name. *)
Definition demo_two : BSS_TABLE :=
  match BssTableSetEntry demo_ctx demo_table (demo_heard 1 65 (-50)) with
  | Some (_, T, _, _) =>
      match BssTableSetEntry demo_ctx T (demo_heard 2 66 (-40)) with Some (_, T, _, _) => T | None => T end
  | None => demo_table
  end.

Lemma demo_two_wf : table_wf demo_two.
Proof.
  unfold demo_two. destruct (BssTableSetEntry demo_ctx demo_table _) as [[[[r T] h'] cx']|] eqn:E; [|apply demo_table_wf].
  apply (wf_set _ _ _ _ _ _ _ demo_table_wf) in E; [|reflexivity].
  destruct (BssTableSetEntry demo_ctx T _) as [[[[r2 T2] h2] cx2]|] eqn:E2; [|done]. by apply (wf_set _ _ _ _ _ _ _ E) in E2.
Qed.

Lemma bufs_wf_same es es' B : (λ e, (pVarIeFromProbRsp e, VarIeFromProbeRspLen e)) <$> es' = (λ e, (pVarIeFromProbRsp e, VarIeFromProbeRspLen e)) <$> es →
  bufs_wf es B → bufs_wf es' B.
Proof.
  intros Heq [Hown Hdis].
  assert (H : ∀ x e', es' !! x = Some e' → ∃ e, es !! x = Some e ∧ pVarIeFromProbRsp e' = pVarIeFromProbRsp e ∧ VarIeFromProbeRspLen e' = VarIeFromProbeRspLen e).
  { intros x e' He'. apply (f_equal (lookup x)) in Heq. rewrite !list_lookup_fmap, He' in Heq. destruct (es !! x) as [e|]; [|done].
    exists e. by injection Heq as -> ->. }
  split.
  - intros x e' He'. destruct (H x e' He') as (e & He & -> & ->). by apply (Hown x).
  - intros x y e' f' He' Hf'. destruct (H x e' He') as (e & He & -> & _), (H y f' Hf') as (f & Hf & -> & _). by apply (Hdis x y e f).
Qed.

Lemma demo_two_bufs : bufs_wf (BssEntry demo_two) demo_bufs.
Proof. apply (bufs_wf_same (BssEntry demo_table)); [vm_compute; reflexivity|apply demo_bufs_wf]. Qed.

Lemma bss_delete_entry_witness :
  ∃ T' B', BssTableDeleteEntry demo_two [2; 0; 0; 0; 0; 1] 36 demo_bufs = Some (T', B') ∧ table_wf T' ∧ BssNr T' = 1.
Proof.
  destruct (bss_delete_entry demo_two demo_bufs [2; 0; 0; 0; 0; 1] 36) as (T' & B' & H1 & H2 & _ & H3).
  - apply demo_two_wf.
  - apply demo_two_bufs.
  - exists T', B'. split; [exact H1|]. split; [exact H2|]. destruct H3 as [(i & e & _ & _ & _ & H & _)|[H _]].
    + rewrite H. vm_compute. reflexivity.
    + exfalso. assert (deletes [2; 0; 0; 0; 0; 1] 36 (nth 0 (BssEntry demo_two) zero_bss) = true) as E by (vm_compute; reflexivity).
      rewrite (H 0%nat) in E; [discriminate E|vm_compute; lia|vm_compute; reflexivity].
Defined.

Lemma ssid_sort_selects_witness :
  ∃ Out' B', BssTableSsidSort true demo_join demo_two demo_table demo_bufs (demo_ssid 65) 4 = Some (Out', B') ∧
    BssNr Out' = Z.of_nat (length (take (Z.to_nat (BssNr Out')) (BssEntry Out'))).
Proof.
  destruct (ssid_sort_selects demo_join demo_two demo_table demo_bufs (demo_ssid 65) 4) as (Out' & B' & H & H2 & _).
  - apply demo_two_wf.
  - reflexivity.
  - apply bufs_wf_ptrs, demo_bufs_wf.
  - reflexivity.
  - exists Out', B'. split; [exact H|exact H2].
Defined.

(** * What the code does besides *)

(** The entry that replaces one of a full table has no buffer for probe
    responses: the zeroing before it is filled clears the pointer. *)
Lemma replaced_loses_buffer vs h T T' i old new : entered vs h T T' i zero_bss old new → pVarIeFromProbRsp new = None.
Proof. intros H. by destruct (fi_buf _ _ _ _ (en_filled _ _ _ _ _ _ _ _ H)) as [-> _]. Qed.

(** With an entry without a buffer in the middle, a deletion leaves two
    entries with the same buffer, and clears the elements of the network that
    moved. *)
Definition demo_bss (k : option nat) (len : Z) : BSS_ENTRY :=
  mk_bss (be_id zero_bss) (be_cap zero_bss) (be_ht zero_bss) (be_sec zero_bss) (be_ies zero_bss) (be_qos zero_bss) (be_rx zero_bss) len k.
Example delete_shares_buffer :
  (λ '(es, B), (map pVarIeFromProbRsp es, map (probe_ies B) es)) <$>
    delete_at true 0 3 [demo_bss (Some 0%nat) 2; demo_bss None 0; demo_bss (Some 1%nat) 2]
      [[7; 7] ++ zeros 1022; [8; 8] ++ zeros 1022] =
  Some ([Some 0%nat; Some 1%nat; Some 1%nat], [Some []; Some [0; 0]; Some []]).
Proof. vm_compute. reflexivity. Qed.

(** The entry after a deleted one is not looked at, however old it is, and the
    place that becomes free loses its buffer. *)
Example maintain_skips_next :
  (λ '(T, B), (BssNr T, map pVarIeFromProbRsp (BssEntry T))) <$>
    MaintainBssTable 250 (λ _, 10 ^ 6) false [] 0 120 2
      (mk_btab 2 0 [demo_bss (Some 0%nat) 0; demo_bss (Some 1%nat) 0]) [zeros 1024; zeros 1024] =
  Some (1, [Some 0%nat; None]).
Proof. vm_compute. reflexivity. Qed.

(** The candidates share the buffers of the scan table: choosing candidates a
    second time clears the probe responses of the networks chosen before. *)
Example choosing_clears_probe_responses :
  let e := set_Bss_id (mk_bid [2; 0; 0; 0; 0; 1] 36 36 BSS_INFRA (demo_ssid 65) 4 0) (demo_bss (Some 0%nat) 2) in
  let cfg := mk_join false false 36 [] BSS_INFRA 0x80 0 0 0 0 in
  let scan := mk_btab 1 0 [e] in
  let out := mk_btab 0 0 [zero_bss] in
  ('(Out1, B1) ← BssTableSsidSort true cfg scan out [[7; 7] ++ zeros 1022] (demo_ssid 65) 4;
   '(_, B2) ← BssTableSsidSort true cfg scan Out1 B1 (demo_ssid 65) 4;
   Some (probe_ies B1 e, probe_ies B2 e)) = Some (Some [7; 7], Some [0; 0]).
Proof. vm_compute. reflexivity. Qed.

(** A station with WPA2 and TKIP, and a network whose group cipher is
    stronger: asked for by name it is accepted, because the comparison is
    with the group cipher of WPA; chosen freely it is refused. *)
Example wpa2_group_check_reads_wpa :
  let cfg := mk_join true false 36 [] BSS_INFRA 0 0 0 Ndis802_11AuthModeWPA2PSK Ndis802_11TKIPEnable in
  let s := fold_left vie_effect [Vie_rsn 4 [2] [2] 0 []] (sec_start true false) in
  security_ok cfg true s = true ∧ security_ok cfg false s = false.
Proof. vm_compute. done. Qed.

(** A beacon of another network changes the station's own setting of the
    central channel, for the sake of a message of the debug build. *)
Example beacon_changes_own_channel :
  (λ '(_, _, cx), vht_cent_ch (cx_vht cx)) <$> entry_set demo_ctx zero_bss (demo_heard 1 65 (-50)) = Some 42 ∧
  vht_cent_ch (cx_vht demo_ctx) = 155.
Proof. vm_compute. done. Qed.
