(* ===== verification/BeaconSanity.v ===== *)
(** The parser of beacons and probe responses: src/common/cmm_sanity.c,
    PeerBeaconAndProbeRspSanity, PeerBeaconAndProbeRspSanity2 and
    ChannelSanity; src/sta/sanity.c, GetTimBit.

    The elements of the frame are walked through; what they say is put in a
    BCN_IE_LIST, and those that matter later are copied to a buffer.  The
    frame is at the start of the buffer [m] of the MLME queue.  Reads and
    writes of arrays are checked: [None] is an access out of bounds. *)

From stdpp Require Import list.
From S2P Require Import Prelude MacTable Eapol StaAuth Mlme BssEntry.

(** * Constants *)

Definition IE_SSID : Z := 0.
Definition IE_SUPP_RATES : Z := 1.
Definition IE_DS_PARM : Z := 3.
Definition IE_CF_PARM : Z := 4.
Definition IE_TIM : Z := 5.
Definition IE_IBSS_PARM : Z := 6.
Definition IE_QBSS_LOAD : Z := 11.
Definition IE_CHANNEL_SWITCH_ANNOUNCEMENT : Z := 37.
Definition IE_ERP : Z := 42.
Definition IE_HT_CAP : Z := 45.
Definition IE_EXT_SUPP_RATES : Z := 50.
Definition IE_SUPP_REG_CLASS : Z := 59.
Definition IE_ADD_HT : Z := 61.
Definition IE_SECONDARY_CH_OFFSET : Z := 62.
Definition IE_OVERLAPBSS_SCAN_PARM : Z := 74.
Definition IE_EXT_CAPABILITY : Z := 127.
Definition IE_AIRONET_CKIP : Z := 133.
Definition IE_AP_TX_POWER : Z := 150.
Definition IE_VHT_CAP : Z := 191.
Definition IE_VHT_OP : Z := 192.
Definition IE_OPERATING_MODE_NOTIFY : Z := 199.
Definition IE_VENDOR_SPECIFIC : Z := 221.
Definition SIZE_HT_CAP_IE : nat := 26.
Definition SIZE_ADD_HT_INFO_IE : nat := 22.
Definition SIZE_VHT_CAP_IE : nat := 12.
Definition SIZE_VHT_OP_IE : nat := 5.
Definition SIZE_EXT_CAP_INFO : nat := 8.
Definition SIZE_OVERLAP_BSS_SCAN_IE : nat := 14.
Definition MAX_WSC_LEN : nat := 512.
Definition CKIP_NEGOTIATION_LENGTH : Z := 30.
Definition TIMESTAMP_LEN : nat := 8.
Definition SUBTYPE_PROBE_RSP : Z := 5.
Definition SUBTYPE_BEACON : Z := 8.
Definition OUI_BROADCOM_HT : Z := 51.
Definition OUI_PREN_ADD_HT : Z := 52.
Definition BW_80 : Z := 2.
Definition CISCO_OUI : list Z := [0x00; 0x40; 0x96].
Definition RALINK_OUI : list Z := [0x00; 0x0c; 0x43].
Definition BROADCOM_OUI : list Z := [0x00; 0x90; 0x4c].
Definition WME_INFO_ELEM : list Z := [0x00; 0x50; 0xf2; 0x02; 0x00; 0x01].
Definition WME_PARM_ELEM : list Z := [0x00; 0x50; 0xf2; 0x02; 0x01; 0x01].
Definition CAP_IS_ESS_ON (x : Z) : bool := negb (Z.land x 0x0001 =? 0).

(** * Data *)

(** What [GetTimBit] reports. *)
Record TIM := mk_tim { BcastFlag : Z; DtimCount : Z; DtimPeriod : Z; MessageToMe : Z }.

(** The members of [BCN_IE_LIST] that are not copied to entries. *)
Record bcn_extra := mk_bx {
  x_Addr2 : list Z; x_NewChannel : Z; x_Erp : Z; x_Tim : TIM; x_AironetCellPowerLimit : Z; x_RalinkIe : Z;
  x_ExtCapInfo : list Z; x_PreNHtCapabilityLen : Z; x_operating_mode : Z
}.

(** The members of [EDCA_PARM] after [bValid], four each of the arrays; [bAdd]
    stays as it is. *)
Definition edca_body (bAdd bAPSDCapable EdcaUpdateCount : Z) (Aifsn Cwmin Cwmax Txop bACM : list Z) : list Z :=
  [bAdd; 0; 0; 0; bAPSDCapable; EdcaUpdateCount] ++ Aifsn ++ Cwmin ++ Cwmax ++ Txop ++ bACM.

(** The lists of zeros that the callers allocate. *)
Definition zero_bcn : BCN_IE_LIST :=
  mk_bcn (zeros 6) (zeros MAX_LEN_OF_SSID) 0 0 0 0 0 0 (zeros MAX_LEN_OF_SUPPORTED_RATES) 0 (zeros MAX_LEN_OF_SUPPORTED_RATES) 0 0
    (zeros TIMESTAMP_LEN) (mk_cf false 0 0 0 0) (mk_parm false (zeros 26)) (mk_parm false (zeros 3)) (mk_parm false [])
    0 (zeros SIZE_HT_CAP_IE) 0 (zeros SIZE_ADD_HT_INFO_IE) 0 (zeros SIZE_VHT_CAP_IE) (zeros SIZE_VHT_OP_IE) 0 0.
Definition zero_bx : bcn_extra := mk_bx (zeros 6) 0 0 (mk_tim 0 0 0 0) 0 0 (zeros SIZE_EXT_CAP_INFO) 0 0.

(** What is read of the adapter. *)
Record bcn_cfg := mk_bcfg {
  cf_ChannelList : list Z; cf_infra_on : bool; cf_Bssid : list Z; cf_Aid : Z; cf_OpMode_sta : bool; cf_LatchChannel : Z;
  cf_BW : Z; cf_AuxChannel : Z; cf_Channel : Z; wmm_cw_min : Z; wmm_cw_max : Z
}.

(** The outputs and the local variables of the parser.  [pVIE] is the buffer
    of the elements, [pPeerWscIe] is [None] if it could not be allocated,
    [peer_op_mode] is the mode that the entry of the access point is forced
    to. *)
Record parser := mk_ps {
  ps_ie : BCN_IE_LIST; ps_x : bcn_extra; Sanity : Z; CtrlChannel : Z; LengthVIE : Z; pVIE : list Z;
  pPeerWscIe : option (list Z); PeerWscIeLen : Z; bWscCheck : bool; peer_op_mode : option Z
}.

(** ** Assignments to members *)

Definition set_bcn_ssid (x : list Z) (y : Z) (ie : BCN_IE_LIST) : BCN_IE_LIST :=
  mk_bcn (bcn_Bssid ie) x y (bcn_BssType ie) (bcn_BeaconPeriod ie) (bcn_Channel ie) (bcn_AtimWin ie) (bcn_CapabilityInfo ie)
    (bcn_SupRate ie) (bcn_SupRateLen ie) (bcn_ExtRate ie) (bcn_ExtRateLen ie) (bcn_CkipFlag ie) (bcn_TimeStamp ie)
    (bcn_CfParm ie) (bcn_EdcaParm ie) (bcn_QbssLoad ie) (bcn_QosCapability ie) (bcn_HtCapabilityLen ie) (bcn_HtCapability ie)
    (bcn_AddHtInfoLen ie) (bcn_AddHtInfo ie) (bcn_NewExtChannelOffset ie) (bcn_vht_cap_ie ie) (bcn_vht_op_ie ie)
    (bcn_vht_cap_len ie) (bcn_vht_op_len ie).
Definition set_bcn_sup (x : list Z) (y : Z) (ie : BCN_IE_LIST) : BCN_IE_LIST :=
  mk_bcn (bcn_Bssid ie) (bcn_Ssid ie) (bcn_SsidLen ie) (bcn_BssType ie) (bcn_BeaconPeriod ie) (bcn_Channel ie)
    (bcn_AtimWin ie) (bcn_CapabilityInfo ie) x y (bcn_ExtRate ie) (bcn_ExtRateLen ie) (bcn_CkipFlag ie) (bcn_TimeStamp ie)
    (bcn_CfParm ie) (bcn_EdcaParm ie) (bcn_QbssLoad ie) (bcn_QosCapability ie) (bcn_HtCapabilityLen ie) (bcn_HtCapability ie)
    (bcn_AddHtInfoLen ie) (bcn_AddHtInfo ie) (bcn_NewExtChannelOffset ie) (bcn_vht_cap_ie ie) (bcn_vht_op_ie ie)
    (bcn_vht_cap_len ie) (bcn_vht_op_len ie).
Definition set_bcn_ext (x : list Z) (y : Z) (ie : BCN_IE_LIST) : BCN_IE_LIST :=
  mk_bcn (bcn_Bssid ie) (bcn_Ssid ie) (bcn_SsidLen ie) (bcn_BssType ie) (bcn_BeaconPeriod ie) (bcn_Channel ie)
    (bcn_AtimWin ie) (bcn_CapabilityInfo ie) (bcn_SupRate ie) (bcn_SupRateLen ie) x y (bcn_CkipFlag ie) (bcn_TimeStamp ie)
    (bcn_CfParm ie) (bcn_EdcaParm ie) (bcn_QbssLoad ie) (bcn_QosCapability ie) (bcn_HtCapabilityLen ie) (bcn_HtCapability ie)
    (bcn_AddHtInfoLen ie) (bcn_AddHtInfo ie) (bcn_NewExtChannelOffset ie) (bcn_vht_cap_ie ie) (bcn_vht_op_ie ie)
    (bcn_vht_cap_len ie) (bcn_vht_op_len ie).
Definition set_bcn_ht (x : list Z) (y : Z) (ie : BCN_IE_LIST) : BCN_IE_LIST :=
  mk_bcn (bcn_Bssid ie) (bcn_Ssid ie) (bcn_SsidLen ie) (bcn_BssType ie) (bcn_BeaconPeriod ie) (bcn_Channel ie)
    (bcn_AtimWin ie) (bcn_CapabilityInfo ie) (bcn_SupRate ie) (bcn_SupRateLen ie) (bcn_ExtRate ie) (bcn_ExtRateLen ie)
    (bcn_CkipFlag ie) (bcn_TimeStamp ie) (bcn_CfParm ie) (bcn_EdcaParm ie) (bcn_QbssLoad ie) (bcn_QosCapability ie) y x
    (bcn_AddHtInfoLen ie) (bcn_AddHtInfo ie) (bcn_NewExtChannelOffset ie) (bcn_vht_cap_ie ie) (bcn_vht_op_ie ie)
    (bcn_vht_cap_len ie) (bcn_vht_op_len ie).
Definition set_bcn_addht (x : list Z) (y : Z) (ie : BCN_IE_LIST) : BCN_IE_LIST :=
  mk_bcn (bcn_Bssid ie) (bcn_Ssid ie) (bcn_SsidLen ie) (bcn_BssType ie) (bcn_BeaconPeriod ie) (bcn_Channel ie)
    (bcn_AtimWin ie) (bcn_CapabilityInfo ie) (bcn_SupRate ie) (bcn_SupRateLen ie) (bcn_ExtRate ie) (bcn_ExtRateLen ie)
    (bcn_CkipFlag ie) (bcn_TimeStamp ie) (bcn_CfParm ie) (bcn_EdcaParm ie) (bcn_QbssLoad ie) (bcn_QosCapability ie)
    (bcn_HtCapabilityLen ie) (bcn_HtCapability ie) y x (bcn_NewExtChannelOffset ie) (bcn_vht_cap_ie ie) (bcn_vht_op_ie ie)
    (bcn_vht_cap_len ie) (bcn_vht_op_len ie).
Definition set_bcn_vht_cap (x : list Z) (y : Z) (ie : BCN_IE_LIST) : BCN_IE_LIST :=
  mk_bcn (bcn_Bssid ie) (bcn_Ssid ie) (bcn_SsidLen ie) (bcn_BssType ie) (bcn_BeaconPeriod ie) (bcn_Channel ie)
    (bcn_AtimWin ie) (bcn_CapabilityInfo ie) (bcn_SupRate ie) (bcn_SupRateLen ie) (bcn_ExtRate ie) (bcn_ExtRateLen ie)
    (bcn_CkipFlag ie) (bcn_TimeStamp ie) (bcn_CfParm ie) (bcn_EdcaParm ie) (bcn_QbssLoad ie) (bcn_QosCapability ie)
    (bcn_HtCapabilityLen ie) (bcn_HtCapability ie) (bcn_AddHtInfoLen ie) (bcn_AddHtInfo ie) (bcn_NewExtChannelOffset ie) x
    (bcn_vht_op_ie ie) y (bcn_vht_op_len ie).
Definition set_bcn_vht_op (x : list Z) (y : Z) (ie : BCN_IE_LIST) : BCN_IE_LIST :=
  mk_bcn (bcn_Bssid ie) (bcn_Ssid ie) (bcn_SsidLen ie) (bcn_BssType ie) (bcn_BeaconPeriod ie) (bcn_Channel ie)
    (bcn_AtimWin ie) (bcn_CapabilityInfo ie) (bcn_SupRate ie) (bcn_SupRateLen ie) (bcn_ExtRate ie) (bcn_ExtRateLen ie)
    (bcn_CkipFlag ie) (bcn_TimeStamp ie) (bcn_CfParm ie) (bcn_EdcaParm ie) (bcn_QbssLoad ie) (bcn_QosCapability ie)
    (bcn_HtCapabilityLen ie) (bcn_HtCapability ie) (bcn_AddHtInfoLen ie) (bcn_AddHtInfo ie) (bcn_NewExtChannelOffset ie)
    (bcn_vht_cap_ie ie) x (bcn_vht_cap_len ie) y.
Definition set_bcn_HtCapability (x : list Z) (ie : BCN_IE_LIST) : BCN_IE_LIST :=
  mk_bcn (bcn_Bssid ie) (bcn_Ssid ie) (bcn_SsidLen ie) (bcn_BssType ie) (bcn_BeaconPeriod ie) (bcn_Channel ie)
    (bcn_AtimWin ie) (bcn_CapabilityInfo ie) (bcn_SupRate ie) (bcn_SupRateLen ie) (bcn_ExtRate ie) (bcn_ExtRateLen ie)
    (bcn_CkipFlag ie) (bcn_TimeStamp ie) (bcn_CfParm ie) (bcn_EdcaParm ie) (bcn_QbssLoad ie) (bcn_QosCapability ie)
    (bcn_HtCapabilityLen ie) x (bcn_AddHtInfoLen ie) (bcn_AddHtInfo ie) (bcn_NewExtChannelOffset ie) (bcn_vht_cap_ie ie)
    (bcn_vht_op_ie ie) (bcn_vht_cap_len ie) (bcn_vht_op_len ie) .
Definition set_bcn_NewExtChannelOffset (x : Z) (ie : BCN_IE_LIST) : BCN_IE_LIST :=
  mk_bcn (bcn_Bssid ie) (bcn_Ssid ie) (bcn_SsidLen ie) (bcn_BssType ie) (bcn_BeaconPeriod ie) (bcn_Channel ie)
    (bcn_AtimWin ie) (bcn_CapabilityInfo ie) (bcn_SupRate ie) (bcn_SupRateLen ie) (bcn_ExtRate ie) (bcn_ExtRateLen ie)
    (bcn_CkipFlag ie) (bcn_TimeStamp ie) (bcn_CfParm ie) (bcn_EdcaParm ie) (bcn_QbssLoad ie) (bcn_QosCapability ie)
    (bcn_HtCapabilityLen ie) (bcn_HtCapability ie) (bcn_AddHtInfoLen ie) (bcn_AddHtInfo ie) x (bcn_vht_cap_ie ie)
    (bcn_vht_op_ie ie) (bcn_vht_cap_len ie) (bcn_vht_op_len ie) .
Definition set_bcn_Channel (x : Z) (ie : BCN_IE_LIST) : BCN_IE_LIST :=
  mk_bcn (bcn_Bssid ie) (bcn_Ssid ie) (bcn_SsidLen ie) (bcn_BssType ie) (bcn_BeaconPeriod ie) x (bcn_AtimWin ie)
    (bcn_CapabilityInfo ie) (bcn_SupRate ie) (bcn_SupRateLen ie) (bcn_ExtRate ie) (bcn_ExtRateLen ie) (bcn_CkipFlag ie)
    (bcn_TimeStamp ie) (bcn_CfParm ie) (bcn_EdcaParm ie) (bcn_QbssLoad ie) (bcn_QosCapability ie) (bcn_HtCapabilityLen ie)
    (bcn_HtCapability ie) (bcn_AddHtInfoLen ie) (bcn_AddHtInfo ie) (bcn_NewExtChannelOffset ie) (bcn_vht_cap_ie ie)
    (bcn_vht_op_ie ie) (bcn_vht_cap_len ie) (bcn_vht_op_len ie) .
Definition set_bcn_CfParm (x : CF_PARM) (ie : BCN_IE_LIST) : BCN_IE_LIST :=
  mk_bcn (bcn_Bssid ie) (bcn_Ssid ie) (bcn_SsidLen ie) (bcn_BssType ie) (bcn_BeaconPeriod ie) (bcn_Channel ie)
    (bcn_AtimWin ie) (bcn_CapabilityInfo ie) (bcn_SupRate ie) (bcn_SupRateLen ie) (bcn_ExtRate ie) (bcn_ExtRateLen ie)
    (bcn_CkipFlag ie) (bcn_TimeStamp ie) x (bcn_EdcaParm ie) (bcn_QbssLoad ie) (bcn_QosCapability ie)
    (bcn_HtCapabilityLen ie) (bcn_HtCapability ie) (bcn_AddHtInfoLen ie) (bcn_AddHtInfo ie) (bcn_NewExtChannelOffset ie)
    (bcn_vht_cap_ie ie) (bcn_vht_op_ie ie) (bcn_vht_cap_len ie) (bcn_vht_op_len ie) .
Definition set_bcn_AtimWin (x : Z) (ie : BCN_IE_LIST) : BCN_IE_LIST :=
  mk_bcn (bcn_Bssid ie) (bcn_Ssid ie) (bcn_SsidLen ie) (bcn_BssType ie) (bcn_BeaconPeriod ie) (bcn_Channel ie) x
    (bcn_CapabilityInfo ie) (bcn_SupRate ie) (bcn_SupRateLen ie) (bcn_ExtRate ie) (bcn_ExtRateLen ie) (bcn_CkipFlag ie)
    (bcn_TimeStamp ie) (bcn_CfParm ie) (bcn_EdcaParm ie) (bcn_QbssLoad ie) (bcn_QosCapability ie) (bcn_HtCapabilityLen ie)
    (bcn_HtCapability ie) (bcn_AddHtInfoLen ie) (bcn_AddHtInfo ie) (bcn_NewExtChannelOffset ie) (bcn_vht_cap_ie ie)
    (bcn_vht_op_ie ie) (bcn_vht_cap_len ie) (bcn_vht_op_len ie) .
Definition set_bcn_EdcaParm (x : parm) (ie : BCN_IE_LIST) : BCN_IE_LIST :=
  mk_bcn (bcn_Bssid ie) (bcn_Ssid ie) (bcn_SsidLen ie) (bcn_BssType ie) (bcn_BeaconPeriod ie) (bcn_Channel ie)
    (bcn_AtimWin ie) (bcn_CapabilityInfo ie) (bcn_SupRate ie) (bcn_SupRateLen ie) (bcn_ExtRate ie) (bcn_ExtRateLen ie)
    (bcn_CkipFlag ie) (bcn_TimeStamp ie) (bcn_CfParm ie) x (bcn_QbssLoad ie) (bcn_QosCapability ie) (bcn_HtCapabilityLen ie)
    (bcn_HtCapability ie) (bcn_AddHtInfoLen ie) (bcn_AddHtInfo ie) (bcn_NewExtChannelOffset ie) (bcn_vht_cap_ie ie)
    (bcn_vht_op_ie ie) (bcn_vht_cap_len ie) (bcn_vht_op_len ie) .
Definition set_bcn_QbssLoad (x : parm) (ie : BCN_IE_LIST) : BCN_IE_LIST :=
  mk_bcn (bcn_Bssid ie) (bcn_Ssid ie) (bcn_SsidLen ie) (bcn_BssType ie) (bcn_BeaconPeriod ie) (bcn_Channel ie)
    (bcn_AtimWin ie) (bcn_CapabilityInfo ie) (bcn_SupRate ie) (bcn_SupRateLen ie) (bcn_ExtRate ie) (bcn_ExtRateLen ie)
    (bcn_CkipFlag ie) (bcn_TimeStamp ie) (bcn_CfParm ie) (bcn_EdcaParm ie) x (bcn_QosCapability ie) (bcn_HtCapabilityLen ie)
    (bcn_HtCapability ie) (bcn_AddHtInfoLen ie) (bcn_AddHtInfo ie) (bcn_NewExtChannelOffset ie) (bcn_vht_cap_ie ie)
    (bcn_vht_op_ie ie) (bcn_vht_cap_len ie) (bcn_vht_op_len ie) .
Definition set_bcn_CkipFlag (x : Z) (ie : BCN_IE_LIST) : BCN_IE_LIST :=
  mk_bcn (bcn_Bssid ie) (bcn_Ssid ie) (bcn_SsidLen ie) (bcn_BssType ie) (bcn_BeaconPeriod ie) (bcn_Channel ie)
    (bcn_AtimWin ie) (bcn_CapabilityInfo ie) (bcn_SupRate ie) (bcn_SupRateLen ie) (bcn_ExtRate ie) (bcn_ExtRateLen ie) x
    (bcn_TimeStamp ie) (bcn_CfParm ie) (bcn_EdcaParm ie) (bcn_QbssLoad ie) (bcn_QosCapability ie) (bcn_HtCapabilityLen ie)
    (bcn_HtCapability ie) (bcn_AddHtInfoLen ie) (bcn_AddHtInfo ie) (bcn_NewExtChannelOffset ie) (bcn_vht_cap_ie ie)
    (bcn_vht_op_ie ie) (bcn_vht_cap_len ie) (bcn_vht_op_len ie) .
Definition set_x_NewChannel (x : Z) (e : bcn_extra) : bcn_extra :=
  mk_bx (x_Addr2 e) x (x_Erp e) (x_Tim e) (x_AironetCellPowerLimit e) (x_RalinkIe e) (x_ExtCapInfo e)
    (x_PreNHtCapabilityLen e) (x_operating_mode e) .
Definition set_x_Erp (x : Z) (e : bcn_extra) : bcn_extra :=
  mk_bx (x_Addr2 e) (x_NewChannel e) x (x_Tim e) (x_AironetCellPowerLimit e) (x_RalinkIe e) (x_ExtCapInfo e)
    (x_PreNHtCapabilityLen e) (x_operating_mode e) .
Definition set_x_Tim (x : TIM) (e : bcn_extra) : bcn_extra :=
  mk_bx (x_Addr2 e) (x_NewChannel e) (x_Erp e) x (x_AironetCellPowerLimit e) (x_RalinkIe e) (x_ExtCapInfo e)
    (x_PreNHtCapabilityLen e) (x_operating_mode e) .
Definition set_x_AironetCellPowerLimit (x : Z) (e : bcn_extra) : bcn_extra :=
  mk_bx (x_Addr2 e) (x_NewChannel e) (x_Erp e) (x_Tim e) x (x_RalinkIe e) (x_ExtCapInfo e) (x_PreNHtCapabilityLen e)
    (x_operating_mode e) .
Definition set_x_RalinkIe (x : Z) (e : bcn_extra) : bcn_extra :=
  mk_bx (x_Addr2 e) (x_NewChannel e) (x_Erp e) (x_Tim e) (x_AironetCellPowerLimit e) x (x_ExtCapInfo e)
    (x_PreNHtCapabilityLen e) (x_operating_mode e) .
Definition set_x_ExtCapInfo (x : list Z) (e : bcn_extra) : bcn_extra :=
  mk_bx (x_Addr2 e) (x_NewChannel e) (x_Erp e) (x_Tim e) (x_AironetCellPowerLimit e) (x_RalinkIe e) x
    (x_PreNHtCapabilityLen e) (x_operating_mode e) .
Definition set_x_PreNHtCapabilityLen (x : Z) (e : bcn_extra) : bcn_extra :=
  mk_bx (x_Addr2 e) (x_NewChannel e) (x_Erp e) (x_Tim e) (x_AironetCellPowerLimit e) (x_RalinkIe e) (x_ExtCapInfo e) x
    (x_operating_mode e) .
Definition set_x_operating_mode (x : Z) (e : bcn_extra) : bcn_extra :=
  mk_bx (x_Addr2 e) (x_NewChannel e) (x_Erp e) (x_Tim e) (x_AironetCellPowerLimit e) (x_RalinkIe e) (x_ExtCapInfo e)
    (x_PreNHtCapabilityLen e) x.
Definition on_ie (f : BCN_IE_LIST → BCN_IE_LIST) (s : parser) : parser :=
  mk_ps (f (ps_ie s)) (ps_x s) (Sanity s) (CtrlChannel s) (LengthVIE s) (pVIE s) (pPeerWscIe s) (PeerWscIeLen s) (bWscCheck s) (peer_op_mode s).
Definition on_x (f : bcn_extra → bcn_extra) (s : parser) : parser :=
  mk_ps (ps_ie s) (f (ps_x s)) (Sanity s) (CtrlChannel s) (LengthVIE s) (pVIE s) (pPeerWscIe s) (PeerWscIeLen s) (bWscCheck s) (peer_op_mode s).
Definition set_Sanity (b : Z) (s : parser) : parser :=
  mk_ps (ps_ie s) (ps_x s) (Z.lor (Sanity s) b) (CtrlChannel s) (LengthVIE s) (pVIE s) (pPeerWscIe s) (PeerWscIeLen s) (bWscCheck s) (peer_op_mode s).
Definition set_CtrlChannel (c : Z) (s : parser) : parser :=
  mk_ps (ps_ie s) (ps_x s) (Sanity s) c (LengthVIE s) (pVIE s) (pPeerWscIe s) (PeerWscIeLen s) (bWscCheck s) (peer_op_mode s).
Definition set_vie (n : Z) (v : list Z) (s : parser) : parser :=
  mk_ps (ps_ie s) (ps_x s) (Sanity s) (CtrlChannel s) n v (pPeerWscIe s) (PeerWscIeLen s) (bWscCheck s) (peer_op_mode s).
Definition set_wsc (w : option (list Z)) (n : Z) (s : parser) : parser :=
  mk_ps (ps_ie s) (ps_x s) (Sanity s) (CtrlChannel s) (LengthVIE s) (pVIE s) w n (bWscCheck s) (peer_op_mode s).
Definition fail_wsc (s : parser) : parser :=
  mk_ps (ps_ie s) (ps_x s) (Sanity s) (CtrlChannel s) (LengthVIE s) (pVIE s) (pPeerWscIe s) (PeerWscIeLen s) false (peer_op_mode s).
Definition set_peer (m : option Z) (s : parser) : parser :=
  mk_ps (ps_ie s) (ps_x s) (Sanity s) (CtrlChannel s) (LengthVIE s) (pVIE s) (pPeerWscIe s) (PeerWscIeLen s) (bWscCheck s) m.

(** * Helpers *)

Definition ChannelSanity (l : list Z) (channel : Z) : bool := existsb (Z.eqb channel) l.

(** The traffic indication element is at [p]. *)
Definition GetTimBit (m : list Z) (p : nat) (Aid : Z) : option TIM :=
  TimLen ← m !! (p + 1)%nat;
  Count ← m !! (p + 2)%nat;
  Period ← m !! (p + 3)%nat;
  BitCntl ← m !! (p + 4)%nat;
  let Bcast := if (Count =? 0) && negb (Z.land BitCntl 1 =? 0) then 1 else 0 in
  let N1 := Z.land BitCntl 0xfe in
  let N2 := u8 (TimLen - 4 + N1) in
  if (Aid <? Z.shiftl N1 3) || (Z.shiftl (N2 + 1) 3 <=? Aid) then Some (mk_tim Bcast Count Period 0)
  else
    let MyByte := u8 (Z.shiftr Aid 3 - N1) in
    let MyBit := u8 (Aid `mod` 16 - (if Z.land MyByte 1 =? 0 then 0 else 8)) in
    b ← m !! (p + 4 + Z.to_nat (MyByte + 1))%nat;
    Some (mk_tim Bcast Count Period (if Z.testbit b MyBit then 1 else 0)).

(** [OPERATING_MODE.rx_nss_type] *)
Definition rx_nss_type (op : Z) : Z := Z.land (Z.shiftr op 7) 1.

(** * Elements *)

(** How an element ends: the loop goes on; [goto SanityCheck];
    [return FALSE]. *)
Inductive elem_outcome := Next (s : parser) | GotoCheck (s : parser) | ReturnFalse (s : parser).

Section elements.
(** The configuration, the frame, and an element of [Len] bytes at [p]. *)
Context (c : bcn_cfg) (m : list Z) (p : nat) (Len : Z).

(** The bytes of the element from [i] on. *)
Abbreviation body i := (p + 2 + i)%nat.
Abbreviation len := (Z.to_nat Len).

(** [NdisMoveMemory(Ptr + *LengthVIE, &pEid->Eid, pEid->Len + 2)]; the length
    does not wrap, as [MAX_VIE_LEN] was checked. *)
Definition copy_vie (s : parser) : option parser :=
  v ← move_mem (pVIE s) (Z.to_nat (LengthVIE s)) m p (len + 2);
  Some (set_vie (LengthVIE s + (Len + 2)) v s).

Definition case_ssid (s : parser) : option elem_outcome :=
  if negb (Z.land (Sanity s) 1 =? 0) then Some (Next s)
  else if Len <=? Z.of_nat MAX_LEN_OF_SSID then
    ssid ← move_mem (bcn_Ssid (ps_ie s)) 0 m (body 0) len;
    Some (Next (set_Sanity 1 (on_ie (set_bcn_ssid ssid Len) s)))
  else Some (GotoCheck s).

Definition case_supp_rates (s : parser) : option elem_outcome :=
  if Len <=? Z.of_nat MAX_LEN_OF_SUPPORTED_RATES then
    r ← move_mem (bcn_SupRate (ps_ie s)) 0 m (body 0) len;
    Some (Next (on_ie (set_bcn_sup r Len) (set_Sanity 2 s)))
  else Some (GotoCheck s).

Definition case_ext_rates (s : parser) : option elem_outcome :=
  if Len <=? Z.of_nat MAX_LEN_OF_SUPPORTED_RATES then
    r ← move_mem (bcn_ExtRate (ps_ie s)) 0 m (body 0) len;
    Some (Next (on_ie (set_bcn_ext r Len) s))
  else Some (Next s).

Definition case_ht_cap (s : parser) : option elem_outcome :=
  if Z.of_nat SIZE_HT_CAP_IE <=? Len then
    h ← move_mem (bcn_HtCapability (ps_ie s)) 0 m (body 0) SIZE_HT_CAP_IE;
    s ← copy_vie (on_x (set_x_PreNHtCapabilityLen 0) (on_ie (set_bcn_ht h (Z.of_nat SIZE_HT_CAP_IE)) s));
    Some (Next s)
  else Some (Next s).

Definition case_add_ht (s : parser) : option elem_outcome :=
  if Z.of_nat SIZE_ADD_HT_INFO_IE <=? Len then
    h ← move_mem (bcn_AddHtInfo (ps_ie s)) 0 m (body 0) SIZE_ADD_HT_INFO_IE;
    s ← copy_vie (set_CtrlChannel (ControlChan h) (on_ie (set_bcn_addht h (Z.of_nat SIZE_ADD_HT_INFO_IE)) s));
    Some (Next s)
  else Some (Next s).

Definition case_secondary_ch (s : parser) : option elem_outcome :=
  if Len =? 1 then o ← m !! body 0; Some (Next (on_ie (set_bcn_NewExtChannelOffset o) s)) else Some (Next s).

Definition case_ds_parm (s : parser) : option elem_outcome :=
  if Len =? 1 then
    ch ← m !! body 0;
    let s := on_ie (set_bcn_Channel ch) s in
    Some (if ChannelSanity (cf_ChannelList c) ch then Next (set_Sanity 4 s) else GotoCheck s)
  else Some (GotoCheck s).

Definition case_cf_parm (s : parser) : option elem_outcome :=
  if Len =? 6 then
    n ← m !! body 0; t ← m !! body 1; dur ← get16 m (body 2); rem ← get16 m (body 4);
    Some (Next (on_ie (set_bcn_CfParm (mk_cf true n t dur rem)) s))
  else Some (ReturnFalse s).

Definition case_ibss_parm (s : parser) : option elem_outcome :=
  if Len =? 2 then a ← get16 m (body 0); Some (Next (on_ie (set_bcn_AtimWin a) s)) else Some (ReturnFalse s).

Definition case_tim (SubType : Z) (s : parser) : option elem_outcome :=
  if SubType =? SUBTYPE_BEACON then
    if cf_infra_on c && bool_decide (take 6 (bcn_Bssid (ps_ie s)) = take 6 (cf_Bssid c)) then
      t ← GetTimBit m p (cf_Aid c); Some (Next (on_x (set_x_Tim t) s))
    else Some (Next s)
  else Some (Next s).

Definition case_csa (s : parser) : option elem_outcome :=
  if Len =? 3 then ch ← m !! body 1; Some (Next (on_x (set_x_NewChannel ch) s)) else Some (Next s).

(** ** Vendor elements *)

(** The record of an access category at [q]; [i] of the four are left. *)
Fixpoint edca_loop (i q : nat) (arr : list Z * list Z * list Z * list Z * list Z) : option (list Z * list Z * list Z * list Z * list Z) :=
  match i with
  | O => Some arr
  | S i =>
      let '(Aifsn, Cwmin, Cwmax, Txop, bACM) := arr in
      b0 ← m !! q; b1 ← m !! (q + 1)%nat; b2 ← m !! (q + 2)%nat; b3 ← m !! (q + 3)%nat;
      let aci := Z.to_nat (Z.shiftr (Z.land b0 0x60) 5) in
      edca_loop i (q + 4)
        (<[aci := Z.land b0 0x0f]> Aifsn, <[aci := Z.land b1 0x0f]> Cwmin, <[aci := Z.shiftr b1 4]> Cwmax,
         <[aci := b2 + 256 * b3]> Txop, <[aci := if Z.land b0 0x10 =? 0x10 then 1 else 0]> bACM)
  end.

(** The arrays of [EdcaParm]. *)
Definition edca_arrays (e : parm) : list Z * list Z * list Z * list Z * list Z :=
  let b := drop 6 (parm_body e) in
  (take 4 b, take 4 (drop 4 b), take 4 (drop 8 b), take 4 (drop 12 b), take 4 (drop 16 b)).

(** [bAPSDCapable] and [EdcaUpdateCount] of the QoS information. *)
Definition apsd (q : Z) : Z := if Z.land q 0x80 =? 0 then 0 else 1.

Definition vendor_wme_parm (s : parser) : option elem_outcome :=
  q ← m !! body 6;
  '(Aifsn, Cwmin, Cwmax, Txop, bACM) ← edca_loop 4 (body 8) (edca_arrays (bcn_EdcaParm (ps_ie s)));
  Some (Next (on_ie (set_bcn_EdcaParm (mk_parm true (edca_body (aget (parm_body (bcn_EdcaParm (ps_ie s))) 0) (apsd q) (Z.land q 0x0f) Aifsn Cwmin Cwmax Txop bACM))) s)).

Definition vendor_wme_info (s : parser) : option elem_outcome :=
  q ← m !! body 6;
  let lo := wmm_cw_min c in
  let hi := wmm_cw_max c in
  Some (Next (on_ie (set_bcn_EdcaParm (mk_parm true
    (edca_body (aget (parm_body (bcn_EdcaParm (ps_ie s))) 0) (apsd q) (Z.land q 0x0f) [3; 7; 2; 2] [lo; lo; u8 (lo - 1); u8 (lo - 2)] [hi; hi; hi; u8 (hi - 1)] [0; 0; 96; 48] [0; 0; 0; 0]))) s)).

(** The fragments of a WPS element are put together; a negative size is a
    move of about 2^64 bytes. *)
Definition vendor_wps (s : parser) : option elem_outcome :=
  match pPeerWscIe s with
  | None => Some (Next (fail_wsc s))
  | Some w =>
      v ← m !! body 4;
      if v =? 0x10 then
        if Len <? 4 then None
        else w ← move_mem w 0 m (body 4) (len - 4); Some (Next (set_wsc (Some w) (Len - 4) s))
      else if PeerWscIeLen s + (Len - 4) <=? Z.of_nat MAX_WSC_LEN then
        if Len <? 4 then None
        else
          w ← move_mem w (Z.to_nat (PeerWscIeLen s)) m (body 4) (len - 4);
          Some (Next (set_wsc (Some w) (PeerWscIeLen s + (Len - 4)) s))
      else Some (Next (fail_wsc s))
  end.

(** The elements of networks from before the standard. *)
Definition vendor_broadcom (s : parser) : option elem_outcome :=
  b ← m !! body 3;
  s ← (if (b =? OUI_BROADCOM_HT) && (30 <=? Len) && (bcn_HtCapabilityLen (ps_ie s) =? 0) then
         h ← move_mem (bcn_HtCapability (ps_ie s)) 0 m (body 4) SIZE_HT_CAP_IE;
         Some (on_x (set_x_PreNHtCapabilityLen (Z.of_nat SIZE_HT_CAP_IE)) (on_ie (set_bcn_HtCapability h) s))
       else Some s);
  if (b =? OUI_PREN_ADD_HT) && (26 <=? Len) then
    h ← move_mem (bcn_AddHtInfo (ps_ie s)) 0 m (body 4) SIZE_ADD_HT_INFO_IE;
    Some (Next (on_ie (set_bcn_addht h (Z.of_nat SIZE_ADD_HT_INFO_IE)) s))
  else Some (Next s).

Definition case_vendor (s : parser) : option elem_outcome :=
  ralink ← equal_mem m (body 0) RALINK_OUI 3;
  if ralink && (Len =? 7) then
    v ← m !! body 3; Some (Next (on_x (set_x_RalinkIe (if v =? 0 then 0xf0000000 else v)) s))
  else
    broadcom ← (if bcn_HtCapabilityLen (ps_ie s) =? 0 then equal_mem m (body 0) BROADCOM_OUI 3 else Some false);
    if broadcom && (4 <=? Len) && cf_OpMode_sta c then vendor_broadcom s
    else
      wpa ← equal_mem m (body 0) WPA_OUI 4;
      if (wpa : bool) then s ← copy_vie s; Some (Next s)
      else
        wme_parm ← equal_mem m (body 0) WME_PARM_ELEM 6;
        if wme_parm && (Len =? 24) then vendor_wme_parm s
        else
          wme_info ← equal_mem m (body 0) WME_INFO_ELEM 6;
          if wme_info && (Len =? 7) then vendor_wme_info s
          else
            wps ← equal_mem m (body 0) WPS_OUI 4;
            if (wps : bool) then vendor_wps s else Some (Next s).

(** ** The others *)

Definition case_erp (s : parser) : option elem_outcome :=
  if Len =? 1 then e ← m !! body 0; Some (Next (on_x (set_x_Erp e) s)) else Some (Next s).

Definition case_aironet (s : parser) : option elem_outcome :=
  if Len <? CKIP_NEGOTIATION_LENGTH - 2 then Some (Next s)
  else k ← m !! body 8; Some (Next (on_ie (set_bcn_CkipFlag k) s)).

Definition case_ap_tx_power (s : parser) : option elem_outcome :=
  if negb (Len =? 6) then Some (Next s)
  else
    cisco ← equal_mem m (body 0) CISCO_OUI 3;
    if (cisco : bool) then l ← m !! body 4; Some (Next (on_x (set_x_AironetCellPowerLimit l) s)) else Some (Next s).

Definition case_rsn (s : parser) : option elem_outcome :=
  rsn ← equal_mem m (body 2) RSN_OUI 3;
  if (rsn : bool) then s ← copy_vie s; Some (Next s) else Some (Next s).

Definition case_qbss_load (s : parser) : option elem_outcome :=
  if Len =? 5 then
    n ← get16 m (body 0); u ← m !! body 2; a ← get16 m (body 3);
    s ← copy_vie (on_ie (set_bcn_QbssLoad (mk_parm true [n; u; a])) s);
    Some (Next s)
  else Some (Next s).

Definition case_ext_cap (s : parser) : option elem_outcome :=
  if 1 <=? Len then
    e ← move_mem (x_ExtCapInfo (ps_x s)) 0 m (body 0) (Nat.min len SIZE_EXT_CAP_INFO);
    Some (Next (on_x (set_x_ExtCapInfo e) s))
  else Some (Next s).

Definition case_vht_cap (s : parser) : option elem_outcome :=
  if Len =? Z.of_nat SIZE_VHT_CAP_IE then
    v ← move_mem (bcn_vht_cap_ie (ps_ie s)) 0 m (body 0) SIZE_VHT_CAP_IE;
    Some (Next (on_ie (set_bcn_vht_cap v Len) s))
  else Some (Next s).

Definition case_vht_op (s : parser) : option elem_outcome :=
  if Len =? Z.of_nat SIZE_VHT_OP_IE then
    v ← move_mem (bcn_vht_op_ie (ps_ie s)) 0 m (body 0) SIZE_VHT_OP_IE;
    Some (Next (on_ie (set_bcn_vht_op v Len) s))
  else Some (Next s).

Definition case_op_mode (s : parser) : option elem_outcome :=
  if Len =? 1 then
    if negb (cf_infra_on c) then Some (Next s)
    else
      op ← m !! body 0;
      let s := if rx_nss_type op =? 0 then set_peer (Some op) s else s in
      Some (Next (on_x (set_x_operating_mode op) s))
  else Some (Next s).

(** [switch(pEid->Eid)] *)
Definition element (SubType Eid : Z) (s : parser) : option elem_outcome :=
  if Eid =? IE_SSID then case_ssid s
  else if Eid =? IE_SUPP_RATES then case_supp_rates s
  else if Eid =? IE_HT_CAP then case_ht_cap s
  else if Eid =? IE_ADD_HT then case_add_ht s
  else if Eid =? IE_SECONDARY_CH_OFFSET then case_secondary_ch s
  else if Eid =? IE_DS_PARM then case_ds_parm s
  else if Eid =? IE_CF_PARM then case_cf_parm s
  else if Eid =? IE_IBSS_PARM then case_ibss_parm s
  else if Eid =? IE_TIM then case_tim SubType s
  else if Eid =? IE_CHANNEL_SWITCH_ANNOUNCEMENT then case_csa s
  else if Eid =? IE_VENDOR_SPECIFIC then case_vendor s
  else if Eid =? IE_EXT_SUPP_RATES then case_ext_rates s
  else if Eid =? IE_ERP then case_erp s
  else if Eid =? IE_AIRONET_CKIP then case_aironet s
  else if Eid =? IE_AP_TX_POWER then case_ap_tx_power s
  else if Eid =? IE_RSN then case_rsn s
  else if Eid =? IE_COUNTRY then s ← copy_vie s; Some (Next s)
  else if Eid =? IE_QBSS_LOAD then case_qbss_load s
  else if Eid =? IE_EXT_CAPABILITY then case_ext_cap s
  else if Eid =? IE_VHT_CAP then case_vht_cap s
  else if Eid =? IE_VHT_OP then case_vht_op s
  else if Eid =? IE_OPERATING_MODE_NOTIFY then case_op_mode s
  else Some (Next s).
End elements.

(** * The parser *)

(** The loop over the elements; the one at [Length] is read before it is known
    to be in the frame.  A turn takes two bytes at least. *)
Fixpoint element_loop (fuel : nat) (c : bcn_cfg) (m : list Z) (MsgLen SubType : Z) (Length : nat) (s : parser) : option elem_outcome :=
  Len ← m !! (Length + 1)%nat;
  if Z.of_nat Length + 2 + Len <=? MsgLen then
    match fuel with
    | O => None
    | S fuel =>
        if Z.of_nat MAX_VIE_LEN <=? LengthVIE s + Len + 2 then Some (Next s)
        else
          Eid ← m !! Length;
          r ← element c m Length Len SubType Eid s;
          match r with
          | Next s => element_loop fuel c m MsgLen SubType (Length + 2 + Z.to_nat Len) s
          | GotoCheck _ | ReturnFalse _ => Some r
          end
    end
  else Some (Next s).

(** The channel of a network without the element for it, in the 5 GHz band. *)
Definition guess_channel (c : bcn_cfg) (MsgChannel : Z) (s : parser) : parser :=
  if (14 <? cf_LatchChannel c) && (Z.land (Sanity s) 4 =? 0) then
    set_Sanity 4 (on_ie (set_bcn_Channel
      (if negb (CtrlChannel s =? 0) then CtrlChannel s
       else if (cf_BW c =? BW_40) || (cf_BW c =? BW_80) then
         if negb (cf_AuxChannel c =? 0) then cf_AuxChannel c else cf_Channel c
       else MsgChannel)) s)
  else s.

(** The WPS element that was put together goes last. *)
Definition append_wsc (s : parser) : option parser :=
  match pPeerWscIe s with
  | Some w =>
      if (0 <? PeerWscIeLen s) && (PeerWscIeLen s <=? Z.of_nat MAX_WSC_LEN) && bWscCheck s then
        v ← move_mem (pVIE s) (Z.to_nat (LengthVIE s)) ([0xdd; u8 (PeerWscIeLen s + 4)] ++ WPS_OUI) 0 6;
        v ← move_mem v (Z.to_nat (LengthVIE s) + 6) w 0 (Z.to_nat (PeerWscIeLen s));
        Some (set_vie (LengthVIE s + (PeerWscIeLen s + 6)) v s)
      else Some s
  | None => Some s
  end.

(** [SanityCheck:] *)
Definition sanity_check (s : parser) : bool := (Sanity s =? 7) && bWscCheck s.

(** The fixed fields; [wsc] is the new buffer for the WPS element, if there is
    one, [vie] the buffer of the caller. *)
Definition fixed_fields (m : list Z) (ie : BCN_IE_LIST) (x : bcn_extra) (vie : list Z) (wsc : option (list Z)) (peer : option Z) : option parser :=
  BeaconPeriod ← get16 m 32;
  CapabilityInfo ← get16 m 34;
  Some (mk_ps
    (mk_bcn (take 6 (drop 16 m)) (bcn_Ssid ie) (bcn_SsidLen ie) (if CAP_IS_ESS_ON CapabilityInfo then BSS_INFRA else BSS_ADHOC)
       BeaconPeriod (bcn_Channel ie) (bcn_AtimWin ie) CapabilityInfo (bcn_SupRate ie) (bcn_SupRateLen ie) (bcn_ExtRate ie)
       (bcn_ExtRateLen ie) (bcn_CkipFlag ie) (take TIMESTAMP_LEN (drop 24 m)) (bcn_CfParm ie) (bcn_EdcaParm ie) (bcn_QbssLoad ie)
       (bcn_QosCapability ie) (bcn_HtCapabilityLen ie) (bcn_HtCapability ie) (bcn_AddHtInfoLen ie) (bcn_AddHtInfo ie) 0xff
       (bcn_vht_cap_ie ie) (bcn_vht_op_ie ie) (bcn_vht_cap_len ie) (bcn_vht_op_len ie))
    (mk_bx (take 6 (drop 10 m)) (x_NewChannel x) (x_Erp x) (x_Tim x) 0xff (x_RalinkIe x) (x_ExtCapInfo x)
       (x_PreNHtCapabilityLen x) (x_operating_mode x))
    0 0 0 vie wsc 0 true peer).

Definition PeerBeaconAndProbeRspSanity (c : bcn_cfg) (m : list Z) (MsgLen MsgChannel : Z) (ie : BCN_IE_LIST) (x : bcn_extra)
    (vie : list Z) (wsc : option (list Z)) (peer : option Z) : option (bool * parser) :=
  s ← fixed_fields m ie x vie wsc peer;
  r ← element_loop (length m) c m MsgLen (fc_SubType m) 36 s;
  match r with
  | Next s => s ← append_wsc (guess_channel c MsgChannel s); Some (sanity_check s, s)
  | GotoCheck s => Some (sanity_check s, s)
  | ReturnFalse s => Some (false, s)
  end.

(** * The elements for coexistence of channel widths *)

(** The loop returns whether the scan parameters were found, with them and the
    regulatory class. *)
Fixpoint coex_loop (fuel : nat) (m : list Z) (MsgLen : Z) (Length : nat) (r : bool * list Z * Z) : option (bool * list Z * Z) :=
  Len ← m !! (Length + 1)%nat;
  if Z.of_nat Length + 2 + Len <=? MsgLen then
    match fuel with
    | O => None
    | S fuel =>
        let '(brc, BssScan, RegClass) := r in
        Eid ← m !! Length;
        r ← (if Eid =? IE_SUPP_REG_CLASS then
               if 0 <? Len then k ← m !! (Length + 2)%nat; Some (brc, BssScan, k) else Some r
             else if Eid =? IE_OVERLAPBSS_SCAN_PARM then
               if Len =? Z.of_nat SIZE_OVERLAP_BSS_SCAN_IE then
                 b ← move_mem BssScan 0 m (Length + 2) SIZE_OVERLAP_BSS_SCAN_IE; Some (true, b, RegClass)
               else Some r
             else Some r);
        coex_loop fuel m MsgLen (Length + 2 + Z.to_nat Len) r
    end
  else Some r.

Definition PeerBeaconAndProbeRspSanity2 (m : list Z) (MsgLen : Z) : option (bool * list Z * Z) :=
  coex_loop (length m) m MsgLen 36 (false, zeros SIZE_OVERLAP_BSS_SCAN_IE, 0).
