(* ===== verification/BeaconSanityProofs.v ===== *)
(** Lemmas on the parser of beacons: no case of the switch leaves its arrays,
    and what each element changes. *)

From stdpp Require Import list.
From S2P Require Import Prelude MacTable Eapol StaAuth Mlme BssEntry BssEntryProofs BssTableProofs BeaconSanity.

(** * Types *)

(** The arrays have their sizes, the lengths are those of their contents. *)
Record bcn_ok (ie : BCN_IE_LIST) : Prop := {
  bo_ssid : length (bcn_Ssid ie) = MAX_LEN_OF_SSID ∧ 0 ≤ bcn_SsidLen ie ≤ Z.of_nat MAX_LEN_OF_SSID;
  bo_sup : length (bcn_SupRate ie) = MAX_LEN_OF_SUPPORTED_RATES ∧ 0 ≤ bcn_SupRateLen ie ≤ Z.of_nat MAX_LEN_OF_SUPPORTED_RATES;
  bo_ext : length (bcn_ExtRate ie) = MAX_LEN_OF_SUPPORTED_RATES ∧ 0 ≤ bcn_ExtRateLen ie ≤ Z.of_nat MAX_LEN_OF_SUPPORTED_RATES;
  bo_ht : length (bcn_HtCapability ie) = 26%nat ∧ 0 ≤ bcn_HtCapabilityLen ie ≤ 26;
  bo_op : length (bcn_AddHtInfo ie) = 22%nat ∧ bytes (bcn_AddHtInfo ie) ∧ 0 ≤ bcn_AddHtInfoLen ie ≤ 22;
  bo_vcap : length (bcn_vht_cap_ie ie) = 12%nat ∧ 0 ≤ bcn_vht_cap_len ie ≤ 12;
  bo_vop : length (bcn_vht_op_ie ie) = 5%nat ∧ 0 ≤ bcn_vht_op_len ie ≤ 5;
  bo_edca : length (parm_body (bcn_EdcaParm ie)) = 26%nat;
  bo_chan : byte (bcn_Channel ie)
}.

(** After [k] bytes of elements: there is room in the buffers. *)
Record ps_ok (k : Z) (s : parser) : Prop := {
  po_ie : bcn_ok (ps_ie s);
  po_cap : length (x_ExtCapInfo (ps_x s)) = SIZE_EXT_CAP_INFO;
  po_sanity : 0 ≤ Sanity s < 8;
  po_ctrl : byte (CtrlChannel s);
  po_vie : length (pVIE s) = MAX_VIE_LEN ∧ bytes (pVIE s);
  po_len : 0 ≤ LengthVIE s < Z.of_nat MAX_VIE_LEN;
  po_wsc : ∀ w, pPeerWscIe s = Some w → length w = MAX_WSC_LEN ∧ bytes w;
  po_wsclen : 0 ≤ PeerWscIeLen s ≤ Z.of_nat MAX_WSC_LEN;
  po_room : LengthVIE s + (if 0 <? PeerWscIeLen s then PeerWscIeLen s + 6 else 0) ≤ k
}.

Definition state_of (r : elem_outcome) : parser := match r with Next s | GotoCheck s | ReturnFalse s => s end.

(** * Accesses in bounds *)

Lemma byte_at (m : list Z) i : bytes m → (i < length m)%nat → ∃ b, m !! i = Some b ∧ byte b.
Proof. intros Hb Hi. destruct (lookup_lt_is_Some_2 m i Hi) as [b Eb]. exists b. split; [done|]. by apply (Forall_lookup_1 _ _ _ _ Hb Eb). Qed.

Lemma move_in dst o src i n : bytes dst → bytes src → (i + n ≤ length src)%nat → (o + n ≤ length dst)%nat →
  ∃ d, move_mem dst o src i n = Some d ∧ length d = length dst ∧ bytes d.
Proof.
  intros Hd Hs H1 H2. unfold move_mem. rewrite decide_True by lia. eexists. split; [done|]. split.
  - rewrite length_bwrite; rewrite ?length_take, ?length_drop; lia.
  - apply bytes_bwrite; [done|]. by apply bytes_take, bytes_drop.
Qed.

Lemma move_len dst o src i n : (i + n ≤ length src)%nat → (o + n ≤ length dst)%nat →
  ∃ d, move_mem dst o src i n = Some d ∧ length d = length dst.
Proof.
  intros H1 H2. unfold move_mem. rewrite decide_True by lia. eexists. split; [done|].
  rewrite length_bwrite; rewrite ?length_take, ?length_drop; lia.
Qed.

Lemma equal_in a i b n : (i + n ≤ length a)%nat → (n ≤ length b)%nat → equal_mem a i b n = Some (bool_decide (take n (drop i a) = take n b)).
Proof. intros H1 H2. unfold equal_mem. by rewrite decide_True by lia. Qed.

Lemma get16_in m p : bytes m → (p + 1 < length m)%nat → ∃ x, get16 m p = Some x ∧ 0 ≤ x < 65536.
Proof.
  intros Hb Hp. unfold get16. destruct (byte_at m p Hb ltac:(lia)) as (a & -> & Ha), (byte_at m (S p) Hb ltac:(lia)) as (b & -> & Hc).
  cbn [mbind option_bind]. eexists. split; [done|]. apply (wrap_range 16). lia.
Qed.

(** * The cases of the switch *)

Section safe.
Context (c : bcn_cfg) (m : list Z) (p : nat) (Len k : Z).
Context (Hm : bytes m) (HL : byte Len) (Hp : (p + 265 ≤ length m)%nat).

(** The cases in which nothing happens to the buffers. *)
Lemma ps_weaken s : ps_ok k s → ps_ok (k + (Len + 2)) s.
Proof using HL. clear Hp. intros Hs. destruct Hs. destruct HL. split; try done. lia. Qed.

Lemma ps_on_ie f s : (bcn_ok (ps_ie s) → bcn_ok (f (ps_ie s))) → ps_ok k s → ps_ok k (on_ie f s).
Proof. intros Hf Hs. destruct Hs. split; auto. Qed.

Lemma ps_on_x f s : length (x_ExtCapInfo (f (ps_x s))) = length (x_ExtCapInfo (ps_x s)) → ps_ok k s → ps_ok k (on_x f s).
Proof. intros Hf Hs. destruct Hs. split; auto. cbn. congruence. Qed.

Lemma ps_Sanity b s : 0 ≤ b < 8 → ps_ok k s → ps_ok k (set_Sanity b s).
Proof.
  clear HL Hp Hm. intros Hb Hs. destruct Hs. split; try done. cbn [Sanity set_Sanity].
  rewrite <- (Z.mod_small (Sanity s) (2 ^ 3)), <- (Z.mod_small b (2 ^ 3)), <- !Z.land_ones, <- Z.land_lor_distr_l, Z.land_ones by lia.
  apply Z.mod_pos_bound. lia.
Qed.

Lemma ps_CtrlChannel b s : byte b → ps_ok k s → ps_ok k (set_CtrlChannel b s).
Proof. intros Hb Hs. destruct Hs. by split. Qed.

Lemma ps_fail_wsc s : ps_ok k s → ps_ok k (fail_wsc s).
Proof. intros Hs. destruct Hs. by split. Qed.

Lemma ps_peer o s : ps_ok k s → ps_ok k (set_peer o s).
Proof. intros Hs. destruct Hs. by split. Qed.

Lemma copy_vie_ok s : ps_ok k s → LengthVIE s + Len + 2 < Z.of_nat MAX_VIE_LEN →
  ∃ s', copy_vie m p Len s = Some s' ∧ ps_ok (k + (Len + 2)) s'.
Proof using Hm HL Hp.
  intros Hs Hl. destruct Hs, HL. destruct po_vie0 as [Lv Bv]. unfold copy_vie.
  destruct (move_in (pVIE s) (Z.to_nat (LengthVIE s)) m p (Z.to_nat Len + 2) Bv Hm) as (d & -> & Ld & Bd); [lia..|]. cbn [mbind option_bind].
  eexists. split; [done|]. split; cbn; try done; [by rewrite Ld|lia|lia].
Qed.
End safe.

Create HintDb beacon.
#[export] Hint Resolve ps_weaken ps_on_ie ps_on_x ps_Sanity ps_CtrlChannel ps_fail_wsc ps_peer : beacon.

(** The case ends, and its state is in order. *)
Definition fine (k : Z) (o : option elem_outcome) : Prop := ∃ r, o = Some r ∧ ps_ok k (state_of r).

Ltac bcn := let H := fresh in intros H; destruct H; split; cbn -[Z.of_nat];
  try assumption; unfold MAX_LEN_OF_SSID, MAX_LEN_OF_SUPPORTED_RATES, SIZE_HT_CAP_IE, SIZE_ADD_HT_INFO_IE, SIZE_VHT_CAP_IE, SIZE_VHT_OP_IE in *;
  repeat split; solve [congruence | lia | auto | tauto].
Ltac fin := eexists; split; [reflexivity|]; cbn [state_of];
  repeat first [eassumption | done | lia | apply ps_Sanity; [lia|] | apply ps_on_ie; [solve [bcn]|] | apply ps_on_x; [solve [done | cbn; congruence]|] | apply ps_CtrlChannel;
    [solve [auto using aget_bytes]|] | apply ps_fail_wsc | apply ps_peer | apply ps_weaken].

(** One step into a case: a test, a read or a comparison. *)
Ltac case_step Hm :=
  lazymatch goal with
  | |- fine _ (mbind _ (?m !! ?i)) => let b := fresh "b" in let Eb := fresh "Eb" in let Hb := fresh "Hb" in
      destruct (byte_at m i Hm ltac:(lia)) as (b & Eb & Hb); rewrite Eb; cbn [mbind option_bind]
  | |- fine _ (mbind _ (get16 ?m ?i)) => let x := fresh "x" in let Ex := fresh "Ex" in let Hx := fresh "Hx" in
      destruct (get16_in m i Hm ltac:(lia)) as (x & Ex & Hx); rewrite Ex; cbn [mbind option_bind]
  | |- fine _ (mbind _ (equal_mem ?m ?i ?b ?n)) => rewrite (equal_in m i b n) by (cbn; lia); cbn [mbind option_bind]
  | |- fine _ (if ?b then _ else _) =>
      lazymatch b with
      | ?x <=? ?y => destruct (Z.leb_spec x y)
      | ?x <? ?y => destruct (Z.ltb_spec x y)
      | ?x =? ?y => destruct (Z.eqb_spec x y)
      | _ => let E := fresh "E" in destruct b eqn:E
      end
  end.

Section cases.
Context (c : bcn_cfg) (m : list Z) (p : nat) (Len k : Z).
Context (Hm : bytes m) (HL : byte Len) (Hp : (p + 265 ≤ length m)%nat).
Context (s : parser) (Hs : ps_ok k s) (Hl : LengthVIE s + Len + 2 < Z.of_nat MAX_VIE_LEN).

(** A copy of [n] bytes of the element to a member. *)
Lemma copy_in dst i n : length dst = n ∨ (n ≤ length dst)%nat → (i + n ≤ 260)%nat →
  ∃ d, move_mem dst 0 m (p + 2 + i) n = Some d ∧ length d = length dst ∧ (bytes dst → bytes d).
Proof using Hm Hp.
  intros Hd Hn. unfold move_mem. rewrite decide_True by lia. eexists. split; [done|]. split.
  - rewrite length_bwrite; rewrite ?length_take, ?length_drop; lia.
  - intros. apply bytes_bwrite; [done|]. by apply bytes_take, bytes_drop.
Qed.

Lemma ssid_fine : fine (k + (Len + 2)) (case_ssid m p Len s).
Proof using Hm HL Hp Hs.
  unfold case_ssid. destruct (bo_ssid _ (po_ie _ _ Hs)) as [L1 L2]. pose proof HL as [? ?]. unfold MAX_LEN_OF_SSID in *.
  case_step Hm; [fin|]. case_step Hm; [|fin].
  destruct (copy_in (bcn_Ssid (ps_ie s)) 0 (Z.to_nat Len)) as (d & -> & Ld & _); [lia..|]. cbn [mbind option_bind]. fin.
Qed.

Lemma rates_fine : fine (k + (Len + 2)) (case_supp_rates m p Len s) ∧ fine (k + (Len + 2)) (case_ext_rates m p Len s).
Proof using Hm HL Hp Hs.
  destruct (bo_sup _ (po_ie _ _ Hs)) as [L1 L2], (bo_ext _ (po_ie _ _ Hs)) as [L3 L4]. pose proof HL as [? ?].
  unfold case_supp_rates, case_ext_rates, MAX_LEN_OF_SUPPORTED_RATES in *. split; (case_step Hm; [|fin]).
  - destruct (copy_in (bcn_SupRate (ps_ie s)) 0 (Z.to_nat Len)) as (d & -> & Ld & _); [lia..|]. cbn [mbind option_bind]. fin.
  - destruct (copy_in (bcn_ExtRate (ps_ie s)) 0 (Z.to_nat Len)) as (d & -> & Ld & _); [lia..|]. cbn [mbind option_bind]. fin.
Qed.

Lemma vie_fine s' : ps_ok k s' → LengthVIE s' = LengthVIE s → fine (k + (Len + 2)) (s ← copy_vie m p Len s'; Some (Next s)).
Proof using Hm HL Hp Hl.
  intros Hs' E. destruct (copy_vie_ok m p Len k Hm HL Hp s' Hs' ltac:(lia)) as (s1 & -> & H1). by eexists.
Qed.

Lemma ht_fine : fine (k + (Len + 2)) (case_ht_cap m p Len s) ∧ fine (k + (Len + 2)) (case_add_ht m p Len s).
Proof using Hm HL Hp Hs Hl.
  destruct (bo_ht _ (po_ie _ _ Hs)) as (L1 & L2), (bo_op _ (po_ie _ _ Hs)) as (L3 & L4 & L5).
  unfold case_ht_cap, case_add_ht. split; (case_step Hm; [|fin]).
  - destruct (copy_in (bcn_HtCapability (ps_ie s)) 0 SIZE_HT_CAP_IE) as (d & -> & Ld & _); [by left|unfold SIZE_HT_CAP_IE; lia|].
    cbn [mbind option_bind]. apply vie_fine; [|done]. apply ps_on_x; [done|]. apply ps_on_ie; [bcn|done].
  - destruct (copy_in (bcn_AddHtInfo (ps_ie s)) 0 SIZE_ADD_HT_INFO_IE) as (d & -> & Ld & Bd); [by left|unfold SIZE_ADD_HT_INFO_IE; lia|].
    cbn [mbind option_bind]. apply vie_fine; [|done]. apply ps_CtrlChannel; [apply aget_bytes; auto|]. apply ps_on_ie; [bcn|done].
Qed.

Lemma vht_fine : fine (k + (Len + 2)) (case_vht_cap m p Len s) ∧ fine (k + (Len + 2)) (case_vht_op m p Len s).
Proof using Hm HL Hp Hs.
  destruct (bo_vcap _ (po_ie _ _ Hs)) as (L1 & L2), (bo_vop _ (po_ie _ _ Hs)) as (L3 & L4).
  unfold case_vht_cap, case_vht_op. split; (case_step Hm; [|fin]).
  - destruct (copy_in (bcn_vht_cap_ie (ps_ie s)) 0 SIZE_VHT_CAP_IE) as (d & -> & Ld & _); [by left|unfold SIZE_VHT_CAP_IE; lia|]. cbn [mbind option_bind]. fin.
  - destruct (copy_in (bcn_vht_op_ie (ps_ie s)) 0 SIZE_VHT_OP_IE) as (d & -> & Ld & _); [by left|unfold SIZE_VHT_OP_IE; lia|]. cbn [mbind option_bind]. fin.
Qed.

(** The cases that read some bytes and set a member. *)
Lemma small_fine : fine (k + (Len + 2)) (case_secondary_ch m p Len s) ∧ fine (k + (Len + 2)) (case_ds_parm c m p Len s) ∧
  fine (k + (Len + 2)) (case_cf_parm m p Len s) ∧ fine (k + (Len + 2)) (case_ibss_parm m p Len s) ∧
  fine (k + (Len + 2)) (case_csa m p Len s) ∧ fine (k + (Len + 2)) (case_erp m p Len s) ∧
  fine (k + (Len + 2)) (case_aironet m p Len s) ∧ fine (k + (Len + 2)) (case_ap_tx_power m p Len s) ∧
  fine (k + (Len + 2)) (case_rsn m p Len s) ∧ fine (k + (Len + 2)) (case_qbss_load m p Len s) ∧
  fine (k + (Len + 2)) (case_op_mode c m p Len s).
Proof using Hm HL Hp Hs Hl.
  unfold case_secondary_ch, case_ds_parm, case_cf_parm, case_ibss_parm, case_csa, case_erp, case_aironet, case_ap_tx_power, case_rsn, case_qbss_load, case_op_mode.
  repeat (split; [repeat case_step Hm; solve [fin | destruct (ChannelSanity _ _); fin | apply vie_fine; auto; (apply ps_on_ie; [bcn|done])]|]).
  repeat case_step Hm; try solve [fin].
  match goal with |- context [rx_nss_type ?b =? 0] => destruct (rx_nss_type b =? 0) end; fin.
Qed.

Lemma ext_cap_fine : fine (k + (Len + 2)) (case_ext_cap m p Len s).
Proof using Hm HL Hp Hs.
  pose proof (po_cap _ _ Hs) as Lc. pose proof HL as [? ?]. unfold case_ext_cap, SIZE_EXT_CAP_INFO in *. case_step Hm; [|fin].
  destruct (copy_in (x_ExtCapInfo (ps_x s)) 0 (Nat.min (Z.to_nat Len) 8)) as (d & -> & Ld & _); [lia..|]. cbn [mbind option_bind]. fin.
Qed.

(** A traffic indication: the byte that is read may be past the element. *)
Lemma tim_fine SubType : fine (k + (Len + 2)) (case_tim c m p SubType s).
Proof using Hm HL Hp Hs.
  unfold case_tim. do 2 (case_step Hm; [|fin]). assert (HT : ∃ t, GetTimBit m p (cf_Aid c) = Some t).
  { unfold GetTimBit. destruct (byte_at m (p + 1) Hm ltac:(lia)) as (b1 & -> & _), (byte_at m (p + 2) Hm ltac:(lia)) as (b2 & -> & _),
      (byte_at m (p + 3) Hm ltac:(lia)) as (b3 & -> & _), (byte_at m (p + 4) Hm ltac:(lia)) as (b4 & -> & _). cbn [mbind option_bind].
    destruct (_ || _); [by eexists|]. set (my := u8 (Z.shiftr (cf_Aid c) 3 - _)). assert (in_range 8 my) as [? ?] by (apply wrap_range; lia).
    destruct (byte_at m (p + 4 + Z.to_nat (my + 1)) Hm) as (b5 & -> & _); [change (2 ^ 8) with 256 in *; lia|]. cbn [mbind option_bind]. by eexists. }
  destruct HT as [t ->]. cbn [mbind option_bind]. fin.
Qed.

(** ** Vendor elements *)

Lemma edca_loop_ok i : ∀ q a b d e f, (q + 4 * i ≤ length m)%nat → ∃ a' b' d' e' f', edca_loop m i q (a, b, d, e, f) = Some (a', b', d', e', f') ∧
  length a' = length a ∧ length b' = length b ∧ length d' = length d ∧ length e' = length e ∧ length f' = length f.
Proof using Hm.
  clear Hp Hl Hs. induction i as [|i IH]; intros q a b d e f Hq; cbn [edca_loop]; [by eexists _, _, _, _, _|].
  destruct (byte_at m q Hm ltac:(lia)) as (b0 & -> & _), (byte_at m (q + 1) Hm ltac:(lia)) as (b1 & -> & _),
    (byte_at m (q + 2) Hm ltac:(lia)) as (b2 & -> & _), (byte_at m (q + 3) Hm ltac:(lia)) as (b3 & -> & _). cbn [mbind option_bind].
  edestruct (IH (q + 4)%nat) as (a' & b' & d' & e' & f' & -> & H1 & H2 & H3 & H4 & H5); [lia|].
  rewrite ?length_insert in *. by eexists _, _, _, _, _.
Qed.

Lemma wme_fine : fine (k + (Len + 2)) (vendor_wme_parm m p s) ∧ fine (k + (Len + 2)) (vendor_wme_info c m p s).
Proof using Hm HL Hp Hs.
  pose proof (bo_edca _ (po_ie _ _ Hs)) as L1. unfold vendor_wme_parm, vendor_wme_info. split; case_step Hm; [|fin]. unfold edca_arrays.
  edestruct (edca_loop_ok 4 (p + 2 + 8)) as (a' & b' & d' & e' & f' & -> & H1 & H2 & H3 & H4 & H5); [lia|]. cbn [mbind option_bind].
  rewrite ?length_take, ?length_drop in *.
  assert (HE : length (edca_body (aget (parm_body (bcn_EdcaParm (ps_ie s))) 0) (apsd b) (Z.land b 15) a' b' d' e' f') = 26%nat)
    by (unfold edca_body; rewrite !length_app; cbn [length]; lia).
  fin.
Qed.

Lemma wps_fine : 4 ≤ Len → fine (k + (Len + 2)) (vendor_wps m p Len s).
Proof using Hm HL Hp Hs.
  intros H4. unfold vendor_wps. destruct (pPeerWscIe s) as [w|] eqn:Ew; [|fin]. destruct (po_wsc _ _ Hs w Ew) as [Lw Bw].
  pose proof (po_wsclen _ _ Hs) as Hw. pose proof HL as [? HL2]. change (2 ^ 8) with 256 in HL2. unfold MAX_WSC_LEN in *.
  assert (HS : ∀ w' n, length w' = 512%nat → bytes w' → 0 ≤ n ≤ 512 → n ≤ PeerWscIeLen s + (Len - 4) → ps_ok (k + (Len + 2)) (set_wsc (Some w') n s)).
  { intros w' n H1 H2 H3 H5. destruct Hs. split; cbn; try done.
    - intros w1 [= <-]. done.
    - destruct (Z.ltb_spec 0 n), (Z.ltb_spec 0 (PeerWscIeLen s)); lia. }
  case_step Hm. case_step Hm; case_step Hm.
  - lia.
  - destruct (move_in w 0 m (p + 2 + 4) (Z.to_nat Len - 4) Bw Hm) as (d & -> & Ld & Bd); [lia..|]. cbn [mbind option_bind].
    eexists. split; [done|]. apply HS; [congruence|done|lia..].
  - case_step Hm; [lia|].
    destruct (move_in w (Z.to_nat (PeerWscIeLen s)) m (p + 2 + 4) (Z.to_nat Len - 4) Bw Hm) as (d & -> & Ld & Bd); [lia..|]. cbn [mbind option_bind].
    eexists. split; [done|]. apply HS; [congruence|done|lia..].
  - fin.
Qed.

Lemma broadcom_fine : fine (k + (Len + 2)) (vendor_broadcom m p Len s).
Proof using Hm HL Hp Hs.
  destruct (bo_ht _ (po_ie _ _ Hs)) as (L1 & L2), (bo_op _ (po_ie _ _ Hs)) as (L3 & L4 & L5). unfold vendor_broadcom. case_step Hm.
  destruct (copy_in (bcn_HtCapability (ps_ie s)) 4 SIZE_HT_CAP_IE) as (d & -> & Ld & _); [by left|unfold SIZE_HT_CAP_IE; lia|].
  destruct (copy_in (bcn_AddHtInfo (ps_ie s)) 4 SIZE_ADD_HT_INFO_IE) as (d' & Ed & Ld' & Bd); [by left|unfold SIZE_ADD_HT_INFO_IE; lia|].
  destruct ((b =? OUI_BROADCOM_HT) && _ && _); cbn [mbind option_bind]; case_step Hm; try fin;
    cbn [ps_ie on_x on_ie set_bcn_HtCapability bcn_AddHtInfo]; rewrite Ed; cbn [mbind option_bind]; fin.
Qed.

(** A vendor element; one of WPS has its four bytes. *)
Lemma vendor_fine : (take 4 (drop (p + 2) m) = WPS_OUI → 4 ≤ Len) → fine (k + (Len + 2)) (case_vendor c m p Len s).
Proof using Hm HL Hp Hs Hl.
  intros Hw. unfold case_vendor. case_step Hm. case_step Hm; [case_step Hm; fin|].
  assert (HB : ∃ b, (if bcn_HtCapabilityLen (ps_ie s) =? 0 then equal_mem m (p + 2 + 0) BROADCOM_OUI 3 else Some false) = Some b)
    by (rewrite (equal_in m _ BROADCOM_OUI 3) by (cbn; lia); destruct (_ =? 0); by eexists).
  destruct HB as [b ->]. cbn [mbind option_bind]. case_step Hm; [apply broadcom_fine|]. case_step Hm. case_step Hm; [by apply vie_fine|].
  case_step Hm. case_step Hm; [apply wme_fine|]. case_step Hm. case_step Hm; [apply wme_fine|]. case_step Hm. case_step Hm; [|fin].
  apply wps_fine, Hw. rewrite bool_decide_eq_true, Nat.add_0_r in *. done.
Qed.

Lemma element_fine SubType Eid : (Eid = IE_VENDOR_SPECIFIC → take 4 (drop (p + 2) m) = WPS_OUI → 4 ≤ Len) →
  fine (k + (Len + 2)) (element c m p Len SubType Eid s).
Proof using Hm HL Hp Hs Hl.
  intros Hw. destruct small_fine as (F1 & F2 & F3 & F4 & F5 & F6 & F7 & F8 & F9 & F10 & F11).
  destruct rates_fine as [R1 R2], ht_fine as [T1 T2], vht_fine as [V1 V2]. unfold element.
  repeat (case_step Hm; [subst; try assumption; first [apply ssid_fine | apply tim_fine | by apply vendor_fine; auto | by apply vie_fine | apply ext_cap_fine]|]).
  eexists. split; [reflexivity|]. by apply ps_weaken.
Qed.
End cases.

(** * The walk *)

(** The offsets of the elements in the frame. *)
Inductive ie_at (m : list Z) (MsgLen : Z) : nat → Prop :=
| ie_at_first : ie_at m MsgLen 36
| ie_at_next p Len : ie_at m MsgLen p → m !! (p + 1)%nat = Some Len → Z.of_nat p + 2 + Len ≤ MsgLen →
    ie_at m MsgLen (p + 2 + Z.to_nat Len).

(** No WPS element is shorter than its type. *)
Definition wps_long (m : list Z) (MsgLen : Z) : Prop :=
  ∀ p Len, ie_at m MsgLen p → m !! p = Some IE_VENDOR_SPECIFIC → m !! (p + 1)%nat = Some Len → Z.of_nat p + 2 + Len ≤ MsgLen → take 4 (drop (p + 2) m) = WPS_OUI → 4 ≤ Len.

Lemma element_loop_fine c m MsgLen SubType : bytes m → MsgLen + 263 ≤ Z.of_nat (length m) → wps_long m MsgLen →
  ∀ fuel p s, ie_at m MsgLen p → (p ≤ length m - 263)%nat → (263 ≤ length m)%nat → (length m ≤ p + fuel)%nat → ps_ok (Z.of_nat p - 36) s →
  ∃ r k, element_loop fuel c m MsgLen SubType p s = Some r ∧ ps_ok k (state_of r) ∧ k ≤ Z.max (Z.of_nat p) MsgLen - 36.
Proof.
  intros Hm HM Hw. induction fuel as [|fuel IH]; intros p s Hat Hp H263 Hf Hs; [lia|]. cbn [element_loop].
  destruct (byte_at m (p + 1) Hm ltac:(lia)) as (Len & EL & HL). pose proof HL as [H0 _]. rewrite EL. cbn [mbind option_bind].
  destruct (Z.leb_spec (Z.of_nat p + 2 + Len) MsgLen) as [Hin|Hout]; [|eexists _, _; split; [done|]; split; [exact Hs|lia]].
  destruct (Z.leb_spec (Z.of_nat MAX_VIE_LEN) (LengthVIE s + Len + 2)) as [Hv|Hv]; [eexists _, _; split; [done|]; split; [exact Hs|lia]|].
  destruct (byte_at m p Hm ltac:(lia)) as (Eid & EE & _). rewrite EE. cbn [mbind option_bind].
  destruct (element_fine c m p Len (Z.of_nat p - 36) Hm HL ltac:(lia) s Hs Hv SubType Eid) as (r & -> & Hr).
  { intros -> HW. by apply (Hw p Len). }
  cbn [mbind option_bind]. destruct r as [s'|s'|s']; cbn [state_of] in Hr; [|eexists _, _; split; [done|]; split; [exact Hr|lia]..].
  destruct (IH (p + 2 + Z.to_nat Len)%nat s') as (r & k & -> & H1 & H2); [by apply ie_at_next|lia..| |].
  - by replace (Z.of_nat (p + 2 + Z.to_nat Len) - 36) with (Z.of_nat p - 36 + (Len + 2)) by lia.
  - exists r, k. split; [done|]. split; [done|]. lia.
Qed.
