(* ===== verification/BeaconElements.v ===== *)
(** What the parser of beacons finds, in terms of the elements of the frame:
    a summary of its state, and the effect of each element on it. *)

From stdpp Require Import list.
From S2P Require Import Prelude MacTable Eapol StaAuth Mlme BssEntry BssEntryProofs BssTableProofs BeaconSanity BeaconSanityProofs.

(** * Elements *)

(** The elements that are copied to the buffer. *)
Definition kept (v : vie) : bool :=
  match v with
  | Vie_other e b =>
      ((e =? IE_HT_CAP) && Nat.leb SIZE_HT_CAP_IE (length b)) || ((e =? IE_ADD_HT) && Nat.leb SIZE_ADD_HT_INFO_IE (length b)) ||
      (e =? IE_COUNTRY) || ((e =? IE_QBSS_LOAD) && Nat.eqb (length b) 5)
  | Vie_vendor _ => false
  | Vie_wpa _ _ _ _ _ | Vie_rsn _ _ _ _ _ => true
  end.

(** Elements that are well formed: the lengths are those of the standard, the
    channel is one of the station's, a WPS element has a payload. *)
Definition elem_ok (c : bcn_cfg) (v : vie) : Prop :=
  vie_ok v ∧ bytes (vie_body v) ∧
  match v with
  | Vie_other e b =>
      (e = IE_SSID → (length b ≤ MAX_LEN_OF_SSID)%nat) ∧ (e = IE_SUPP_RATES → (length b ≤ MAX_LEN_OF_SUPPORTED_RATES)%nat) ∧
      (e = IE_DS_PARM → ∃ ch, b = [ch] ∧ ChannelSanity (cf_ChannelList c) ch = true) ∧
      (e = IE_CF_PARM → length b = 6%nat) ∧ (e = IE_IBSS_PARM → length b = 2%nat)
  | Vie_vendor b => take 4 b = WPS_OUI → (5 ≤ length b)%nat
  | _ => True
  end.

(** Well-formed elements, whatever the channel is. *)
Definition elem_form (v : vie) : Prop :=
  vie_ok v ∧ bytes (vie_body v) ∧
  match v with
  | Vie_other e b =>
      (e = IE_SSID → (length b ≤ MAX_LEN_OF_SSID)%nat) ∧ (e = IE_SUPP_RATES → (length b ≤ MAX_LEN_OF_SUPPORTED_RATES)%nat) ∧
      (e = IE_DS_PARM → length b = 1%nat) ∧ (e = IE_CF_PARM → length b = 6%nat) ∧ (e = IE_IBSS_PARM → length b = 2%nat)
  | Vie_vendor b => take 4 b = WPS_OUI → (5 ≤ length b)%nat
  | _ => True
  end.

(** A channel element with a channel that is not one of the station's. *)
Definition foreign (c : bcn_cfg) (v : vie) : bool :=
  match v with Vie_other e b => (e =? IE_DS_PARM) && negb (ChannelSanity (cf_ChannelList c) (aget b 0)) | _ => false end.

Lemma form_ok c v : elem_form v → foreign c v = false → elem_ok c v.
Proof.
  intros (H1 & H2 & H3) Hf. split; [done|]. split; [done|]. destruct v as [e b|b| |]; [|done..]. destruct H3 as (E1 & E2 & E3 & E4 & E5). split_and!; try done.
  intros He. specialize (E3 He). subst e. destruct b as [|ch [|]]; [done| |done]. exists ch. split; [done|]. unfold foreign in Hf.
  rewrite Z.eqb_refl in Hf. change (aget [ch] 0) with ch in Hf. by destruct (ChannelSanity _ ch).
Qed.

(** The elements before the first foreign channel, and whether there is one. *)
Fixpoint cut_foreign (c : bcn_cfg) (vs : list vie) : list vie * bool :=
  match vs with
  | [] => ([], false)
  | v :: vs => if foreign c v then ([], true) else let '(l, cut) := cut_foreign c vs in (v :: l, cut)
  end.

Lemma cut_spec c vs : let '(l, cut) := cut_foreign c vs in
  (Forall elem_form vs → Forall (elem_ok c) l) ∧ (if cut then ∃ v vs2, vs = l ++ v :: vs2 ∧ foreign c v = true else l = vs).
Proof.
  induction vs as [|v vs IH]; cbn [cut_foreign]; [done|]. destruct (foreign c v) eqn:Ef; [split; [done|]; by exists v, vs|].
  destruct (cut_foreign c vs) as [l cut]. destruct IH as [I1 I2]. split.
  - intros [Hv Hvs]%Forall_cons. constructor; [by apply form_ok|auto].
  - destruct cut; [|by subst]. destruct I2 as (w & vs2 & -> & ?). by exists w, vs2.
Qed.

(** * Summaries *)

(** The fixed fields; the name, rates and channel, if there were elements for
    them; the elements kept; the WPS payload, [None] if it was lost. *)
Record summary := mk_sum {
  a_fixed : list Z * Z * Z * Z * list Z; a_ssid : option (list Z); a_sup : option (list Z); a_chan : option Z;
  a_vie : list Z; a_wsc : option (list Z)
}.

Definition abs (s : parser) : summary :=
  let ie := ps_ie s in
  mk_sum (bcn_Bssid ie, bcn_BssType ie, bcn_BeaconPeriod ie, bcn_CapabilityInfo ie, bcn_TimeStamp ie)
    (if Z.testbit (Sanity s) 0 then Some (take (Z.to_nat (bcn_SsidLen ie)) (bcn_Ssid ie)) else None)
    (if Z.testbit (Sanity s) 1 then Some (take (Z.to_nat (bcn_SupRateLen ie)) (bcn_SupRate ie)) else None)
    (if Z.testbit (Sanity s) 2 then Some (bcn_Channel ie) else None)
    (take (Z.to_nat (LengthVIE s)) (pVIE s))
    (if bWscCheck s then w ← pPeerWscIe s; Some (take (Z.to_nat (PeerWscIeLen s)) w) else None).

Definition add_vie (v : vie) (a : summary) : summary :=
  mk_sum (a_fixed a) (a_ssid a) (a_sup a) (a_chan a) (a_vie a ++ vie_enc v) (a_wsc a).

(** A fragment of the WPS element with payload [q]. *)
Definition add_wsc (q : list Z) (a : summary) : summary :=
  mk_sum (a_fixed a) (a_ssid a) (a_sup a) (a_chan a) (a_vie a)
    (x ← a_wsc a;
     if bool_decide (head q = Some 0x10) then Some q else if Nat.leb (length (x ++ q)) MAX_WSC_LEN then Some (x ++ q) else None).

Definition abs_step (a : summary) (v : vie) : summary :=
  match v with
  | Vie_other e b =>
      if e =? IE_SSID then mk_sum (a_fixed a) (Some (default b (a_ssid a))) (a_sup a) (a_chan a) (a_vie a) (a_wsc a)
      else if e =? IE_SUPP_RATES then mk_sum (a_fixed a) (a_ssid a) (Some b) (a_chan a) (a_vie a) (a_wsc a)
      else if e =? IE_DS_PARM then mk_sum (a_fixed a) (a_ssid a) (a_sup a) (head b) (a_vie a) (a_wsc a)
      else if kept v then add_vie v a else a
  | Vie_vendor b => if bool_decide (take 4 b = WPS_OUI) then add_wsc (drop 4 b) a else a
  | Vie_wpa _ _ _ _ _ | Vie_rsn _ _ _ _ _ => add_vie v a
  end.

(** * The effect of an element *)

Lemma land_bit x i b : 0 ≤ i → b = 2 ^ i → (Z.land x b =? 0) = negb (Z.testbit x i).
Proof.
  intros Hi ->. destruct (Z.testbit x i) eqn:E; cbn.
  - apply Z.eqb_neq. intros H. apply (f_equal (λ y, Z.testbit y i)) in H. rewrite Z.land_spec, E, Z.pow2_bits_true, Z.bits_0 in H by done. done.
  - apply Z.eqb_eq. apply Z.bits_inj. intros j. rewrite Z.land_spec, Z.pow2_bits_eqb, Z.bits_0 by done.
    destruct (Z.eqb_spec i j) as [<-|]; [by rewrite E|by rewrite andb_false_r].
Qed.

Lemma sanity_bits x i b : 0 ≤ i → b = 2 ^ i → ∀ j, Z.testbit (Z.lor x b) j = Z.testbit x j || (i =? j).
Proof. intros Hi -> j. by rewrite Z.lor_spec, Z.pow2_bits_eqb. Qed.

Section effect.
Context (c : bcn_cfg) (m rest : list Z) (p : nat) (k : Z) (s : parser) (v : vie).
Context (Hd : drop p m = vie_enc v ++ rest) (Hs : ps_ok k s) (Hok : elem_ok c v).
Abbreviation Len := (Z.of_nat (length (vie_body v))).

Lemma body_slice i n : (i + n ≤ length (vie_body v))%nat → take n (drop (p + 2 + i) m) = take n (drop i (vie_body v)).
Proof using Hd.
  intros Hn. rewrite <- Nat.add_assoc, <- drop_drop, Hd. unfold vie_enc. cbn [app Nat.add skipn].
  rewrite drop_app_le by lia. rewrite take_app_le; [done|]. rewrite length_drop. lia.
Qed.

Lemma frame_len : (p + 2 + length (vie_body v) + length rest = length m)%nat.
Proof using Hd.
  pose proof (drop_nonempty m _ _ p Hd) as Hp. pose proof (f_equal length Hd) as H. rewrite length_drop, length_app in H.
  unfold vie_enc in H. cbn [length] in H. lia.
Qed.

(** The copy of an element to the buffer. *)
Lemma copy_vie_abs s1 s2 : length (pVIE s1) = MAX_VIE_LEN → 0 ≤ LengthVIE s1 → copy_vie m p Len s1 = Some s2 → LengthVIE s1 + Len + 2 < Z.of_nat MAX_VIE_LEN → abs s2 = add_vie v (abs s1).
Proof using Hd.
  intros Lv Hr H Hl. unfold copy_vie in H. peel H. injection H as <-. unfold move_mem in E. destruct (decide _); [|done]. injection E as <-.
  unfold abs, add_vie. cbn [ps_ie Sanity LengthVIE pVIE pPeerWscIe bWscCheck PeerWscIeLen set_vie a_fixed a_ssid a_sup a_chan a_vie a_wsc]. f_equal.
  assert (HE : take (Z.to_nat Len + 2) (drop p m) = vie_enc v).
  { rewrite Hd, take_app_le by (unfold vie_enc; cbn [length]; lia). apply take_ge. unfold vie_enc. cbn [length]. lia. }
  rewrite HE. unfold bwrite. rewrite app_assoc, take_app_le by (rewrite length_app, length_take; unfold vie_enc; cbn [length]; lia).
  apply take_ge. rewrite length_app, length_take. unfold vie_enc. cbn [length]. lia.
Qed.

(** [bwrite] of the whole element to a member. *)
Lemma move_body dst d : move_mem dst 0 m (p + 2 + 0) (Z.to_nat Len) = Some d → take (Z.to_nat Len) d = vie_body v.
Proof using Hd.
  unfold move_mem. destruct (decide _); [|done]. intros [= <-]. rewrite Nat2Z.id, body_slice by lia. rewrite drop_0, firstn_all.
  unfold bwrite. rewrite take_0. cbn [app]. rewrite take_app_le by lia. apply firstn_all.
Qed.

(** The outcome is the next state, with the summary [a]. *)
Definition goes (o : option elem_outcome) (a : summary) : Prop := ∀ r, o = Some r → ∃ s', r = Next s' ∧ abs s' = a.
End effect.

(** Cases that change nothing of the summary. *)
Ltac quiet_step H :=
  lazymatch type of H with
  | (_ ≫= _) = Some _ => progress peel H
  | (if ?b then _ else _) = Some _ => destruct b
  end.
Ltac quiet := let r := fresh "r" in let H := fresh "H" in intros r H; repeat quiet_step H; injection H as <-; (eexists; split; reflexivity).

Lemma quiet_cases c m p Len s SubType :
  goes (case_secondary_ch m p Len s) (abs s) ∧ goes (case_tim c m p SubType s) (abs s) ∧ goes (case_csa m p Len s) (abs s) ∧
  goes (case_ext_rates m p Len s) (abs s) ∧ goes (case_erp m p Len s) (abs s) ∧ goes (case_aironet m p Len s) (abs s) ∧
  goes (case_ap_tx_power m p Len s) (abs s) ∧ goes (case_ext_cap m p Len s) (abs s) ∧ goes (case_vht_cap m p Len s) (abs s) ∧
  goes (case_vht_op m p Len s) (abs s) ∧ goes (case_op_mode c m p Len s) (abs s) ∧
  (Len = 6 → goes (case_cf_parm m p Len s) (abs s)) ∧ (Len = 2 → goes (case_ibss_parm m p Len s) (abs s)) ∧
  goes (vendor_wme_parm m p s) (abs s) ∧ goes (vendor_wme_info c m p s) (abs s).
Proof.
  unfold case_secondary_ch, case_tim, case_csa, case_ext_rates, case_erp, case_aironet, case_ap_tx_power, case_ext_cap, case_vht_cap, case_vht_op,
    case_op_mode, case_cf_parm, case_ibss_parm, vendor_wme_parm, vendor_wme_info.
  repeat (split; [solve [quiet | intros ->; rewrite Z.eqb_refl; quiet | intros r H; repeat quiet_step H; injection H as <-; eexists; (split; [reflexivity|]); try reflexivity; match goal with |- context [rx_nss_type ?b =? 0] => by destruct (rx_nss_type b =? 0) end]|]).
  quiet.
Qed.

Section effects.
Context (c : bcn_cfg) (m rest : list Z) (p : nat) (k : Z) (s : parser) (v : vie).
Context (Hd : drop p m = vie_enc v ++ rest) (Hs : ps_ok k s) (Hok : elem_ok c v).
Abbreviation Len := (Z.of_nat (length (vie_body v))).
Context (Hl : LengthVIE s + Len + 2 < Z.of_nat MAX_VIE_LEN).

Lemma ssid_goes b : v = Vie_other IE_SSID b → goes (case_ssid m p Len s) (abs_step (abs s) v).
Proof using Hd Hok.
  intros Ev r H. unfold case_ssid in H. rewrite (land_bit _ 0) in H by done. rewrite Ev in Hok. destruct Hok as (_ & _ & Hb & _).
  specialize (Hb eq_refl). rewrite negb_involutive in H. destruct (Z.testbit (Sanity s) 0) eqn:E0.
  - injection H as <-. eexists. split; [done|]. rewrite Ev. unfold abs. rewrite E0. done.
  - replace (Len <=? Z.of_nat MAX_LEN_OF_SSID) with true in H by (rewrite Ev; cbn [vie_body]; lia).
    peel H. injection H as <-. apply (move_body _ rest _ v Hd) in E. eexists. split; [done|].
    unfold abs, set_Sanity. cbn [ps_ie Sanity on_ie bcn_SsidLen bcn_Ssid set_bcn_ssid LengthVIE pVIE bWscCheck pPeerWscIe PeerWscIeLen].
    rewrite !(sanity_bits _ 0), E, E0 by done. rewrite Ev. cbn. by rewrite !orb_false_r.
Qed.

Lemma sup_goes b : v = Vie_other IE_SUPP_RATES b → goes (case_supp_rates m p Len s) (abs_step (abs s) v).
Proof using Hd Hok.
  intros Ev r H. unfold case_supp_rates in H. rewrite Ev in Hok. destruct Hok as (_ & _ & _ & Hb & _). specialize (Hb eq_refl).
  replace (Len <=? Z.of_nat MAX_LEN_OF_SUPPORTED_RATES) with true in H by (rewrite Ev; cbn [vie_body]; lia).
  peel H. injection H as <-. apply (move_body _ rest _ v Hd) in E. eexists. split; [done|].
  unfold abs, set_Sanity. cbn [ps_ie Sanity on_ie bcn_SupRateLen bcn_SupRate set_bcn_sup LengthVIE pVIE bWscCheck pPeerWscIe PeerWscIeLen].
  rewrite !(sanity_bits _ 1), E by done. rewrite Ev. cbn. by rewrite !orb_false_r, orb_true_r.
Qed.

Lemma ds_goes b : v = Vie_other IE_DS_PARM b → goes (case_ds_parm c m p Len s) (abs_step (abs s) v).
Proof using Hd Hok.
  intros Ev r H. unfold case_ds_parm in H. rewrite Ev in Hok. destruct Hok as (_ & _ & _ & _ & Hb & _).
  destruct (Hb eq_refl) as (ch & Eb & Hch). assert (Hm0 : m !! (p + 2 + 0)%nat = Some ch).
  { rewrite <- Nat.add_assoc, <- lookup_drop, Hd, Ev, Eb. done. }
  rewrite Ev, Eb in H. cbn [vie_body length] in H. change (Z.of_nat 1 =? 1) with true in H. cbv iota in H. rewrite Hm0 in H. cbn [mbind option_bind] in H.
  rewrite Hch in H. injection H as <-. eexists. split; [done|].
  unfold abs, set_Sanity. cbn [ps_ie Sanity on_ie bcn_Channel set_bcn_Channel LengthVIE pVIE bWscCheck pPeerWscIe PeerWscIeLen].
  rewrite !(sanity_bits _ 2) by done. rewrite Ev, Eb. cbn. by rewrite !orb_false_r, orb_true_r.
Qed.

Lemma vie_goes s1 : pVIE s1 = pVIE s → LengthVIE s1 = LengthVIE s → abs s1 = abs s →
  goes (s ← copy_vie m p Len s1; Some (Next s)) (add_vie v (abs s)).
Proof using Hd Hs Hl.
  intros E1 El Ea r H. peel H. injection H as <-. eexists. split; [done|]. rewrite <- Ea.
  destruct (po_vie _ _ Hs) as [Lv _]. pose proof (po_len _ _ Hs). apply (copy_vie_abs m rest p v Hd _ _); [congruence|lia|done|lia].
Qed.

(** The elements that are kept if they are long enough. *)
Lemma kept_goes :
  goes (case_ht_cap m p Len s) (if Nat.leb SIZE_HT_CAP_IE (length (vie_body v)) then add_vie v (abs s) else abs s) ∧
  goes (case_add_ht m p Len s) (if Nat.leb SIZE_ADD_HT_INFO_IE (length (vie_body v)) then add_vie v (abs s) else abs s) ∧
  goes (case_qbss_load m p Len s) (if Nat.eqb (length (vie_body v)) 5 then add_vie v (abs s) else abs s).
Proof using Hd Hs Hl.
  assert (HQ : goes (Some (Next s)) (abs s)) by (intros r H; injection H as <-; by eexists).
  unfold case_ht_cap, case_add_ht, case_qbss_load. split; [|split].
  - destruct (Nat.leb_spec SIZE_HT_CAP_IE (length (vie_body v))), (Z.leb_spec (Z.of_nat SIZE_HT_CAP_IE) Len); try lia; [|done].
    destruct (move_mem _ _ _ _ _) as [h|]; cbn [mbind option_bind]; [by apply vie_goes|by intros ? ?].
  - destruct (Nat.leb_spec SIZE_ADD_HT_INFO_IE (length (vie_body v))), (Z.leb_spec (Z.of_nat SIZE_ADD_HT_INFO_IE) Len); try lia; [|done].
    destruct (move_mem _ _ _ _ _) as [h|]; cbn [mbind option_bind]; [by apply vie_goes|by intros ? ?].
  - destruct (Nat.eqb_spec (length (vie_body v)) 5), (Z.eqb_spec Len 5); try lia; [|done].
    destruct (get16 m (p + 2 + 0)) as [n|]; cbn [mbind option_bind]; [|by intros ? ?]. destruct (m !! _) as [u|]; cbn [mbind option_bind]; [|by intros ? ?].
    destruct (get16 m (p + 2 + 3)) as [a|]; cbn [mbind option_bind]; [by apply vie_goes|by intros ? ?].
Qed.

(** Other elements. *)
Lemma other_goes SubType e b : v = Vie_other e b → goes (element c m p Len SubType e s) (abs_step (abs s) v).
Proof using Hd Hs Hok Hl.
  intros Ev. destruct (quiet_cases c m p Len s SubType) as (Q1 & Q2 & Q3 & Q4 & Q5 & Q6 & Q7 & Q8 & Q9 & Q10 & Q11 & Q12 & Q13 & _).
  destruct kept_goes as (K1 & K2 & K3). assert (HQ : goes (Some (Next s)) (abs s)) by (intros r H; injection H as <-; by eexists).
  pose proof Hok as HO. rewrite Ev in HO. destruct HO as ((_ & Hn1 & Hn2) & _ & _ & _ & _ & H6 & H2).
  assert (EL : Len = Z.of_nat (length b)) by by rewrite Ev. assert (EB : vie_body v = b) by by rewrite Ev.
  unfold element. destruct (Z.eqb_spec e IE_SSID) as [->|]; [by apply (ssid_goes b)|].
  destruct (Z.eqb_spec e IE_SUPP_RATES) as [->|]; [by apply (sup_goes b)|].
  assert (HA : abs_step (abs s) v = if e =? IE_DS_PARM then abs_step (abs s) v else if kept v then add_vie v (abs s) else abs s)
    by (rewrite Ev; cbn [abs_step]; rewrite (proj2 (Z.eqb_neq e IE_SSID)), (proj2 (Z.eqb_neq e IE_SUPP_RATES)) by done; by destruct (_ =? _)).
  assert (HV : kept v = kept (Vie_other e b)) by by rewrite Ev. rewrite HV in HA. clear HV.
  destruct (Z.eqb_spec e IE_HT_CAP) as [->|]; [rewrite HA; cbn [kept]; rewrite !orb_false_r, <- EB; exact K1|].
  destruct (Z.eqb_spec e IE_ADD_HT) as [->|]; [rewrite HA; cbn [kept]; rewrite !orb_false_r, <- EB; exact K2|].
  destruct (Z.eqb_spec e IE_SECONDARY_CH_OFFSET) as [->|]; [rewrite HA; exact Q1|].
  destruct (Z.eqb_spec e IE_DS_PARM) as [->|]; [by apply (ds_goes b)|].
  destruct (Z.eqb_spec e IE_CF_PARM) as [->|]; [rewrite HA; apply Q12; rewrite EL, H6 by done; done|].
  destruct (Z.eqb_spec e IE_IBSS_PARM) as [->|]; [rewrite HA; apply Q13; rewrite EL, H2 by done; done|].
  destruct (Z.eqb_spec e IE_TIM) as [->|]; [rewrite HA; exact Q2|].
  destruct (Z.eqb_spec e IE_CHANNEL_SWITCH_ANNOUNCEMENT) as [->|]; [rewrite HA; exact Q3|].
  destruct (Z.eqb_spec e IE_VENDOR_SPECIFIC) as [->|]; [done|].
  destruct (Z.eqb_spec e IE_EXT_SUPP_RATES) as [->|]; [rewrite HA; exact Q4|].
  destruct (Z.eqb_spec e IE_ERP) as [->|]; [rewrite HA; exact Q5|].
  destruct (Z.eqb_spec e IE_AIRONET_CKIP) as [->|]; [rewrite HA; exact Q6|].
  destruct (Z.eqb_spec e IE_AP_TX_POWER) as [->|]; [rewrite HA; exact Q7|].
  destruct (Z.eqb_spec e IE_RSN) as [->|]; [done|].
  destruct (Z.eqb_spec e IE_COUNTRY) as [->|]; [rewrite HA; by apply vie_goes|].
  destruct (Z.eqb_spec e IE_QBSS_LOAD) as [->|]; [rewrite HA, <- EB; exact K3|].
  assert (HN : kept (Vie_other e b) = false) by (cbn [kept]; rewrite !(proj2 (Z.eqb_neq _ _)) by done; done).
  rewrite HN in HA. rewrite HA. repeat (destruct (e =? _); [assumption|]). exact HQ.
Qed.
(** A comparison with the start of an element. *)
Lemma equal_body o n b : (n ≤ length (vie_body v))%nat → (n ≤ length o)%nat → equal_mem m (p + 2 + 0) o n = Some b → b = bool_decide (take n (vie_body v) = take n o).
Proof using Hd.
  intros Hn Ho H. pose proof (frame_len m rest p v Hd). rewrite equal_in in H by lia. injection H as <-. by rewrite (body_slice m rest p v Hd), drop_0 by lia.
Qed.

(** A fragment of the WPS element. *)
Lemma wps_goes b : v = Vie_vendor b → take 4 b = WPS_OUI → goes (vendor_wps m p Len s) (add_wsc (drop 4 b) (abs s)).
Proof using Hd Hs Hok.
  intros Ev Ew r H. unfold vendor_wps in H. pose proof Hok as HO. rewrite Ev in HO. destruct HO as (_ & _ & H5). specialize (H5 Ew).
  assert (EB : vie_body v = b) by by rewrite Ev. destruct (pPeerWscIe s) as [w|] eqn:Ep.
  2:{ injection H as <-. eexists. split; [done|]. unfold abs, add_wsc. cbn. rewrite Ep. by destruct (bWscCheck s). }
  destruct (po_wsc _ _ Hs w Ep) as [Lw _]. pose proof (po_wsclen _ _ Hs) as Hw.
  assert (H4 : m !! (p + 2 + 4)%nat = head (drop 4 b)).
  { rewrite <- Nat.add_assoc, <- lookup_drop, Hd. unfold vie_enc. rewrite EB. cbn [app Nat.add]. change ((b ++ rest) !! 4%nat = head (drop 4 b)).
    rewrite lookup_app_l by lia. destruct b as [|x0 [|x1 [|x2 [|x3 b]]]]; try (cbn in H5; lia). destruct b; done. }
  rewrite H4 in H. destruct (head (drop 4 b)) as [q|] eqn:Eq; [|done]. cbn [mbind option_bind] in H.
  replace (Len <? 4) with false in H by (rewrite EB; lia). replace (Z.to_nat Len - 4)%nat with (length b - 4)%nat in H by (rewrite EB; lia).
  pose proof (body_slice m rest p v Hd 4 (length b - 4) ltac:(rewrite EB; lia)) as HB.
  rewrite EB, (take_ge (drop 4 b)) in HB by (rewrite length_drop; lia). rewrite EB in H.
  destruct (Z.eqb_spec q 16) as [->|Hq].
  - peel H. injection H as <-. unfold move_mem in E. destruct (decide _); [|done]. injection E as <-. rewrite HB. eexists. split; [done|].
    unfold abs, add_wsc. cbn. rewrite Ep. rewrite Eq, bool_decide_eq_true_2 by done.
    destruct (bWscCheck s); [|done]. cbn. do 2 f_equal. unfold bwrite. rewrite take_0. cbn [app]. rewrite take_app_le by (rewrite length_drop; lia).
    apply take_ge. rewrite length_drop. lia.
  - destruct (Z.leb_spec (PeerWscIeLen s + (Z.of_nat (length b) - 4)) (Z.of_nat MAX_WSC_LEN)).
    + peel H. injection H as <-. unfold move_mem in E. destruct (decide _); [|done]. injection E as <-. rewrite HB. eexists. split; [done|]. cbn.
      unfold abs, add_wsc. cbn. rewrite Ep. destruct (bWscCheck s); [|done]. cbn.
      rewrite Eq, bool_decide_eq_false_2, length_app, length_take, length_drop, Lw by congruence.
      rewrite (proj2 (Nat.leb_le _ _)) by (unfold MAX_WSC_LEN in *; lia). do 2 f_equal.
      unfold bwrite. rewrite app_assoc, take_app_le by (rewrite length_app, length_take, length_drop; lia). apply take_ge. rewrite length_app, length_take, length_drop. lia.
    + injection H as <-. eexists. split; [done|]. unfold abs, add_wsc. cbn. rewrite Ep. destruct (bWscCheck s); [|done]. cbn.
      rewrite Eq, bool_decide_eq_false_2, length_app, length_take, length_drop, Lw by congruence.
      rewrite (proj2 (Nat.leb_gt _ _)) by (unfold MAX_WSC_LEN in *; lia). done.
Qed.

Lemma broadcom_goes L : goes (vendor_broadcom m p L s) (abs s).
Proof using.
  intros r H. unfold vendor_broadcom in H. peel H. assert (E1 : abs p0 = abs s) by (destruct (_ && _); peel E0; by injection E0 as <-).
  rewrite <- E1. destruct ((_ =? OUI_PREN_ADD_HT) && _); peel H; injection H as <-; by eexists.
Qed.

(** Vendor elements that are not WPA. *)
Lemma vendor_goes b : v = Vie_vendor b → goes (case_vendor c m p Len s) (abs_step (abs s) v).
Proof using Hd Hs Hok.
  intros Ev r H. pose proof Hok as HO. rewrite Ev in HO. destruct HO as ((_ & H4 & Hw & _) & _ & _).
  destruct (quiet_cases c m p Len s 0) as (_ & _ & _ & _ & _ & _ & _ & _ & _ & _ & _ & _ & _ & Q1 & Q2).
  assert (EB : vie_body v = b) by by rewrite Ev.
  assert (HQ : take 4 b ≠ WPS_OUI → abs_step (abs s) v = abs s) by (intros; rewrite Ev; cbn [abs_step]; by rewrite bool_decide_eq_false_2).
  assert (H3 : ∀ o, length o = 3%nat → o ≠ take 3 WPS_OUI → take 3 b = o → take 4 b ≠ WPS_OUI)
    by (intros o Lo Ho <- E4; apply Ho; rewrite <- E4, take_take; done).
  unfold case_vendor in H. peel H. rename b0 into ralink. apply equal_body in E; [|rewrite EB; lia|done]. destruct (ralink && _) eqn:Er.
  { peel H. injection H as <-. eexists. split; [done|]. rewrite HQ; [done|]. apply andb_prop in Er as [-> _]. apply (H3 RALINK_OUI); [done..|].
    symmetry in E. rewrite bool_decide_eq_true, EB in E. done. }
  peel H. rename b0 into broadcom. destruct (broadcom && _ && _) eqn:Eb.
  { rewrite HQ; [exact (broadcom_goes _ _ H)|]. apply andb_prop in Eb as [[-> _]%andb_prop _]. destruct (_ =? 0); [|done].
    apply equal_body in E0; [|rewrite EB; lia|done]. apply (H3 BROADCOM_OUI); [done..|]. symmetry in E0. rewrite bool_decide_eq_true, EB in E0. done. }
  peel H. apply equal_body in E1; [|rewrite EB; lia|done]. rewrite EB, bool_decide_eq_false_2 in E1 by done. rewrite E1 in H.
  assert (HM : ∀ o bb, length o = 6%nat → take 4 o ≠ WPS_OUI → equal_mem m (p + 2 + 0) o 6 = Some bb → ∀ n, 6 ≤ n → bb && (Len =? n) = true → take 4 b ≠ WPS_OUI).
  { intros o bb Lo Ho Ebb n Hn [-> Hb]%andb_prop E4. apply Ho. apply equal_body in Ebb; [|lia..]. symmetry in Ebb.
    rewrite bool_decide_eq_true, EB in Ebb. rewrite <- E4. assert (HT : ∀ l : list Z, take 4 (take 6 l) = take 4 l) by (intros; by rewrite take_take). by rewrite <- (HT b), Ebb, HT. }
  peel H. destruct (b1 && (Len =? 24)) eqn:Ep; [rewrite HQ; [exact (Q1 _ H)|]; by apply (HM WME_PARM_ELEM _ eq_refl ltac:(done) E2 24)|].
  peel H. destruct (b2 && (Len =? 7)) eqn:Ei; [rewrite HQ; [exact (Q2 _ H)|]; by apply (HM WME_INFO_ELEM _ eq_refl ltac:(done) E3 7)|].
  peel H. apply equal_body in E4; [|rewrite EB; lia|done]. rewrite EB in E4. subst b3. rewrite Ev. cbn [abs_step]. change (take 4 WPS_OUI) with WPS_OUI in H.
  destruct (bool_decide_reflect (take 4 b = WPS_OUI)) as [E4|_]; [by apply (wps_goes b)|]. injection H as <-. by eexists.
Qed.

Lemma wpa_goes g pairs n akm tail : v = Vie_wpa g pairs n akm tail → goes (case_vendor c m p Len s) (add_vie v (abs s)).
Proof using Hd Hs Hl.
  intros Ev r H. assert (H4 : take 4 (vie_body v) = WPA_OUI ∧ (4 ≤ length (vie_body v))%nat) by (rewrite Ev; split; [done|cbn; lia]).
  destruct H4 as [H4 L4]. assert (H3 : take 3 (vie_body v) = take 3 WPA_OUI) by (rewrite <- H4, take_take; done).
  unfold case_vendor in H. peel H. apply equal_body in E; [|lia|done]. rewrite H3, bool_decide_eq_false_2 in E by done. subst b. cbn [andb] in H.
  peel H. assert (b = false) as ->. { destruct (_ =? 0); [|by injection E]. apply equal_body in E; [|lia|done]. by rewrite H3, bool_decide_eq_false_2 in E. }
  cbn [andb] in H. peel H. apply equal_body in E0; [|lia|done]. rewrite H4, bool_decide_eq_true_2 in E0 by done. subst b. by apply (vie_goes s).
Qed.

Lemma rsn_goes g pairs akms cap tail : v = Vie_rsn g pairs akms cap tail → goes (case_rsn m p Len s) (add_vie v (abs s)).
Proof using Hd Hs Hl.
  intros Ev r H. unfold case_rsn in H. peel H. pose proof (frame_len m rest p v Hd) as HF.
  assert (HL : (8 ≤ length (vie_body v))%nat) by (rewrite Ev; cbn; lia). rewrite equal_in in E by (cbn; lia). injection E as <-.
  rewrite (body_slice m rest p v Hd), bool_decide_eq_true_2 in H by (lia || by rewrite Ev). by apply (vie_goes s).
Qed.

Lemma element_goes SubType : goes (element c m p Len SubType (vie_eid v) s) (abs_step (abs s) v).
Proof using Hd Hs Hok Hl.
  pose proof (other_goes SubType) as O. pose proof vendor_goes as V. pose proof wpa_goes as W. pose proof rsn_goes as R.
  destruct v as [e b|b|g pairs n akm tail|g pairs akms cap tail].
  - by apply (O e b).
  - by apply (V b).
  - by apply (W g pairs n akm tail).
  - by apply (R g pairs akms cap tail).
Qed.
End effects.

(** * The buffer for the WPS element *)

Lemma copy_wsc m p Len s s' : copy_vie m p Len s = Some s' → pPeerWscIe s' = pPeerWscIe s.
Proof. intros H. unfold copy_vie in H. peel H. by injection H as <-. Qed.

(** It is not given up. *)
Lemma wsc_stays c m p Len SubType Eid s r : element c m p Len SubType Eid s = Some r → is_Some (pPeerWscIe s) → is_Some (pPeerWscIe (state_of r)).
Proof.
  intros H Hi. unfold element, case_ssid, case_supp_rates, case_ht_cap, case_add_ht, case_secondary_ch, case_ds_parm, case_cf_parm, case_ibss_parm, case_tim, case_csa,
    case_vendor, case_ext_rates, case_erp, case_aironet, case_ap_tx_power, case_rsn, case_qbss_load, case_ext_cap, case_vht_cap, case_vht_op, case_op_mode,
    vendor_broadcom, vendor_wme_parm, vendor_wme_info, vendor_wps in H.
  repeat (first [quiet_step H | match goal with HE : (if _ then _ ≫= _ else _) = Some _ |- _ => progress (repeat quiet_step HE) end |
    match type of H with match ?x with _ => _ end = _ => destruct x eqn:? end]);
  try discriminate H; injection H as <-; repeat match goal with HE : Some _ = Some _ |- _ => injection HE as <- end; try done.
  all: first [match goal with HE : copy_vie _ _ _ _ = Some _ |- _ => apply copy_wsc in HE; cbn [state_of]; by rewrite HE end
    | cbn; match goal with |- context [if ?b then _ else _] => destruct b end; done | by cbn; destruct Hi; congruence].
Qed.

(** * The walk over the elements *)

Lemma goes_next o a r : goes o a → o = Some r → ∃ s', r = Next s' ∧ abs s' = a.
Proof. intros H ->. by apply H. Qed.

(** Frames of well-formed elements: a header of 36 bytes, the elements, and
    what is in the buffer behind them. *)
Record frame (c : bcn_cfg) (vs : list vie) (m : list Z) (MsgLen : Z) : Prop := {
  fr_bytes : bytes m;
  fr_elems : Forall (elem_ok c) vs;
  fr_len : MsgLen = Z.of_nat (36 + length (concat (map vie_enc vs)));
  fr_buf : MsgLen + 263 ≤ Z.of_nat (length m);
  fr_short : MsgLen ≤ 36 + Z.of_nat MAX_VIE_LEN - 2;
  fr_body : ∃ rest, drop 36 m = concat (map vie_enc vs) ++ rest
}.

(** Frames of well-formed elements with any channels. *)
Record frame_form (vs : list vie) (m : list Z) (MsgLen : Z) : Prop := {
  ff_bytes : bytes m;
  ff_elems : Forall elem_form vs;
  ff_len : MsgLen = Z.of_nat (36 + length (concat (map vie_enc vs)));
  ff_buf : MsgLen + 263 ≤ Z.of_nat (length m);
  ff_short : MsgLen ≤ 36 + Z.of_nat MAX_VIE_LEN - 2;
  ff_body : ∃ rest, drop 36 m = concat (map vie_enc vs) ++ rest
}.

(** The walk over the first elements of a frame. *)
Lemma element_loop_prefix c m MsgLen SubType : bytes m → MsgLen + 263 ≤ Z.of_nat (length m) → MsgLen ≤ 36 + Z.of_nat MAX_VIE_LEN - 2 →
  ∀ vs, Forall (elem_ok c) vs → ∀ fuel p s rest,
  drop p m = concat (map vie_enc vs) ++ rest → Z.of_nat (p + length (concat (map vie_enc vs))) ≤ MsgLen → (36 ≤ p)%nat →
  (length m ≤ p + fuel)%nat → ps_ok (Z.of_nat p - 36) s →
  let p' := (p + length (concat (map vie_enc vs)))%nat in
  ∃ fuel' s', element_loop fuel c m MsgLen SubType p s = element_loop fuel' c m MsgLen SubType p' s' ∧ drop p' m = rest ∧
    (length m ≤ p' + fuel')%nat ∧ abs s' = fold_left abs_step vs (abs s) ∧ ps_ok (Z.of_nat p' - 36) s' ∧
    (is_Some (pPeerWscIe s) → is_Some (pPeerWscIe s')).
Proof.
  intros Hm HM HS vs Hvs. induction Hvs as [|v vs Hv Hvs IH]; intros fuel p s rest Hd HL Hp Hf Hs; cbv zeta; cbn [map concat fold_left] in *.
  - cbn [length app] in *. rewrite Nat.add_0_r. by exists fuel, s.
  - destruct fuel as [|fuel]; [rewrite length_app in HL; lia|]. rewrite <- app_assoc in Hd. rewrite length_app in HL.
    set (L := length (vie_body v)). assert (HE : length (vie_enc v) = S (S L)) by done. assert (Hvo : (L ≤ 255)%nat) by apply Hv.
    assert (H1 : m !! (p + 1)%nat = Some (Z.of_nat L)) by (rewrite <- lookup_drop, Hd; done).
    assert (H0 : m !! p = Some (vie_eid v)) by (rewrite <- (Nat.add_0_r p), <- lookup_drop, Hd; done).
    cbn [element_loop]. rewrite H1. cbn [mbind option_bind]. replace (Z.of_nat p + 2 + Z.of_nat L <=? MsgLen) with true by lia.
    pose proof (po_room _ _ Hs) as Hr. assert (Hroom : LengthVIE s + Z.of_nat L + 2 < Z.of_nat MAX_VIE_LEN)
      by (pose proof (po_wsclen _ _ Hs); destruct (Z.ltb_spec 0 (PeerWscIeLen s)); lia).
    replace (Z.of_nat MAX_VIE_LEN <=? LengthVIE s + Z.of_nat L + 2) with false by lia. rewrite H0. cbn [mbind option_bind].
    destruct (element_fine c m p (Z.of_nat L) (Z.of_nat p - 36) Hm ltac:(unfold in_range; lia) ltac:(lia) s Hs Hroom SubType (vie_eid v)) as (r & Er & Hr').
    { intros HV HW. destruct v as [e b|b| |]; cbn in HV; [destruct Hv as ((_ & ? & _) & _); done| |unfold L; cbn; lia|done].
      destruct Hv as ((_ & H4 & _) & _). unfold L. cbn. lia. }
    destruct (goes_next _ _ r (element_goes c m _ p _ s v Hd Hs Hv Hroom SubType) Er) as (s' & -> & Ea). rewrite Er. cbn [mbind option_bind].
    destruct (IH fuel (p + 2 + L)%nat s' rest) as (fuel' & s2 & HG & Hd2 & Hf2 & Ha & Hs2 & Hw2); [|lia..| |].
    + rewrite <- Nat.add_assoc. by apply (drop_app_at _ _ _ _ _ Hd).
    + cbn [state_of] in Hr'. by replace (Z.of_nat (p + 2 + L) - 36) with (Z.of_nat p - 36 + (Z.of_nat L + 2)) by lia.
    + rewrite Nat2Z.id, HG. exists fuel', s2. rewrite length_app, HE. replace (p + (S (S L) + length (concat (map vie_enc vs))))%nat with (p + 2 + L + length (concat (map vie_enc vs)))%nat by lia.
      split_and!; [done|done|done|by rewrite Ha, Ea|done|]. intros Hi. apply Hw2. by apply (wsc_stays _ _ _ _ _ _ _ _ Er).
Qed.

Lemma element_loop_abs c m MsgLen SubType vs fuel p s rest : bytes m → MsgLen + 263 ≤ Z.of_nat (length m) → Forall (elem_ok c) vs →
  drop p m = concat (map vie_enc vs) ++ rest → MsgLen = Z.of_nat (p + length (concat (map vie_enc vs))) → (36 ≤ p)%nat → MsgLen ≤ 36 + Z.of_nat MAX_VIE_LEN - 2 →
  (length m ≤ p + fuel)%nat → ps_ok (Z.of_nat p - 36) s →
  ∃ s', element_loop fuel c m MsgLen SubType p s = Some (Next s') ∧ abs s' = fold_left abs_step vs (abs s) ∧ ps_ok (MsgLen - 36) s' ∧
    (is_Some (pPeerWscIe s) → is_Some (pPeerWscIe s')).
Proof.
  intros Hm HM Hvs Hd HL Hp HS Hf Hs.
  destruct (element_loop_prefix c m MsgLen SubType Hm HM HS vs Hvs fuel p s rest Hd ltac:(lia) Hp Hf Hs) as (fuel' & s' & -> & Hd' & Hf' & Ha & Hs' & Hw).
  set (p' := (p + length (concat (map vie_enc vs)))%nat) in *. destruct fuel' as [|fuel']; [lia|]. cbn [element_loop].
  destruct (byte_at m (p' + 1) Hm ltac:(lia)) as (l & -> & [H0 _]). cbn [mbind option_bind]. replace (Z.of_nat p' + 2 + l <=? MsgLen) with false by lia.
  exists s'. split_and!; [done|done|by rewrite HL|done].
Qed.

(** * What the elements say *)

(** The bodies of the elements with a number. *)
Definition bodies (e : Z) (vs : list vie) : list (list Z) :=
  omap (λ v, match v with Vie_other e' b => if e' =? e then Some b else None | _ => None end) vs.
(** The payloads of the WPS fragments. *)
Definition wps_payloads (vs : list vie) : list (list Z) :=
  omap (λ v, match v with Vie_vendor b => if bool_decide (take 4 b = WPS_OUI) then Some (drop 4 b) else None | _ => None end) vs.
(** The fragments put together: a new element starts with the version. *)
Fixpoint reassemble (x : list Z) (qs : list (list Z)) : option (list Z) :=
  match qs with
  | [] => Some x
  | q :: qs =>
      if bool_decide (head q = Some 0x10) then reassemble q qs
      else if Nat.leb (length (x ++ q)) MAX_WSC_LEN then reassemble (x ++ q) qs else None
  end.

Lemma fold_abs_none vs : ∀ a, a_wsc a = None → a_wsc (fold_left abs_step vs a) = None.
Proof.
  induction vs as [|v vs IH]; intros a Ha; [done|]. cbn [fold_left]. apply IH. destruct v as [e b|b| |]; cbn [abs_step]; try done.
  - by repeat (destruct (_ =? _); [done|]); destruct (kept _).
  - destruct (bool_decide _); [|done]. cbn. by rewrite Ha.
Qed.

Lemma head_option {A} (o : option A) : head (option_list o) = o.
Proof. by destruct o. Qed.
Lemma last_option {A} (o : option A) : last (option_list o) = o.
Proof. by destruct o. Qed.
Lemma filter_one (v : vie) : filter (λ v, kept v = true) [v] = if kept v then [v] else [].
Proof. unfold filter, list_filter. destruct (decide _) as [->|H]; [done|]. by rewrite (not_true_is_false _ H). Qed.

(** The members of the summary after an element. *)
Lemma step_fields a v : let a' := abs_step a v in
  a_fixed a' = a_fixed a ∧
  a_ssid a' = head (option_list (a_ssid a) ++ bodies IE_SSID [v]) ∧
  a_sup a' = last (option_list (a_sup a) ++ bodies IE_SUPP_RATES [v]) ∧
  (Forall (λ b, b ≠ []) (bodies IE_DS_PARM [v]) → a_chan a' = last (option_list (a_chan a) ++ omap head (bodies IE_DS_PARM [v]))) ∧
  a_vie a' = a_vie a ++ concat (map vie_enc (filter (λ v, kept v = true) [v])).
Proof.
  cbv zeta. rewrite filter_one. destruct v as [e b|b| |].
  - unfold bodies. cbn [abs_step omap list_omap].
    destruct (Z.eqb_spec e IE_SSID) as [->|]; [cbn; rewrite !app_nil_r, !last_option; by destruct (a_ssid a)|].
    destruct (Z.eqb_spec e IE_SUPP_RATES) as [->|]; [cbn; rewrite !app_nil_r, head_option, last_option, last_snoc; done|].
    destruct (Z.eqb_spec e IE_DS_PARM) as [->|].
    { cbn. rewrite !app_nil_r, head_option, last_option. repeat (split; [done|]). split; [|done]. intros Hb. destruct b; [by inversion_clear Hb|]. cbn. by rewrite last_snoc. }
    destruct (kept _); cbn [omap list_omap map concat add_vie a_fixed a_ssid a_sup a_chan a_vie]; by rewrite !app_nil_r, head_option, !last_option.
  - cbn. destruct (bool_decide _); cbn; by rewrite !app_nil_r, head_option, !last_option.
  - cbn. by rewrite !app_nil_r, head_option, !last_option.
  - cbn. by rewrite !app_nil_r, head_option, !last_option.
Qed.

Lemma step_wsc a v x : a_wsc a = Some x → a_wsc (abs_step a v) = reassemble x (wps_payloads [v]).
Proof.
  intros Ha. destruct v as [e b|b| |]; [| |done..].
  - cbn. by repeat (destruct (_ =? _); [done|]); destruct (_ || _).
  - cbn. destruct (bool_decide (take 4 b = WPS_OUI)); [|done]. cbn. rewrite Ha. cbn. destruct (bool_decide _); [done|]. by destruct (_ <=? _)%nat.
Qed.

Lemma head_app_option {A} (l k : list A) : head (option_list (head l) ++ k) = head (l ++ k).
Proof. by destruct l. Qed.
Lemma last_app_option {A} (l k : list A) : last (option_list (last l) ++ k) = last (l ++ k).
Proof. rewrite !last_app. destruct (last k); [done|]. by rewrite last_option. Qed.
Lemma bodies_cons e v vs : bodies e (v :: vs) = bodies e [v] ++ bodies e vs.
Proof. unfold bodies. by rewrite <- omap_app. Qed.
Lemma payloads_cons v vs : wps_payloads (v :: vs) = wps_payloads [v] ++ wps_payloads vs.
Proof. unfold wps_payloads. by rewrite <- omap_app. Qed.
Lemma reassemble_app qs1 qs2 : ∀ x, reassemble x (qs1 ++ qs2) = y ← reassemble x qs1; reassemble y qs2.
Proof.
  induction qs1 as [|q qs1 IH]; intros x; [done|]. cbn. destruct (bool_decide _); [apply IH|]. destruct (_ <=? _)%nat; [apply IH|done].
Qed.

(** What the walk finds: the first name, the last rates and channel, the
    elements that are kept in their order, the WPS element. *)
Lemma fold_abs vs : ∀ a, Forall (λ b, b ≠ []) (bodies IE_DS_PARM vs) → let a' := fold_left abs_step vs a in
  a_fixed a' = a_fixed a ∧ a_ssid a' = head (option_list (a_ssid a) ++ bodies IE_SSID vs) ∧
  a_sup a' = last (option_list (a_sup a) ++ bodies IE_SUPP_RATES vs) ∧
  a_chan a' = last (option_list (a_chan a) ++ omap head (bodies IE_DS_PARM vs)) ∧
  a_vie a' = a_vie a ++ concat (map vie_enc (filter (λ v, kept v = true) vs)).
Proof.
  induction vs as [|v vs IH]; intros a HF; cbv zeta; cbn [fold_left].
  - cbn. by rewrite !app_nil_r, head_option, !last_option.
  - rewrite bodies_cons, Forall_app in HF. destruct HF as [HF1 HF2]. destruct (IH (abs_step a v) HF2) as (-> & -> & -> & -> & ->).
    destruct (step_fields a v) as (-> & -> & -> & HC & ->). rewrite (HC HF1), !(bodies_cons _ v vs), head_app_option, !last_app_option, omap_app, !app_assoc.
    repeat (split; [done|]). rewrite <- app_assoc, <- concat_app, <- map_app, <- filter_app. done.
Qed.

Lemma fold_wsc vs : ∀ a x, a_wsc a = Some x → a_wsc (fold_left abs_step vs a) = reassemble x (wps_payloads vs).
Proof.
  induction vs as [|v vs IH]; intros a x Ha; [done|]. cbn [fold_left]. rewrite payloads_cons, reassemble_app.
  pose proof (step_wsc a v x Ha) as H1. destruct (reassemble x (wps_payloads [v])) as [y|]; [by apply IH|by apply fold_abs_none].
Qed.
