(* ===== verification/BeaconClaims.v ===== *)
(** The properties of the parser of beacons and probe responses. *)

From stdpp Require Import list.
From S2P Require Import Prelude MacTable Eapol StaAuth Mlme BssEntry BssEntryProofs BssTableProofs BeaconSanity BeaconSanityProofs BeaconElements.

(** * Traffic indications *)

(** The traffic indication element: the bitmap starts at byte [2 * off]. *)
Definition tim_elem (count period off : Z) (bcast : bool) (bitmap : list Z) : list Z :=
  [IE_TIM; 3 + Z.of_nat (length bitmap); count; period; 2 * off + Z.b2z bcast] ++ bitmap.

Lemma land_fe x : 0 ≤ x < 256 → Z.land x 0xfe = 2 * (x / 2) ∧ Z.land x 1 = x mod 2.
Proof.
  intros Hx. split; [|exact (Z.land_ones x 1 ltac:(lia))].
  assert (H : forallb (λ y, Z.land y 0xfe =? 2 * (y / 2)) (seqZ 0 256) = true) by (vm_compute; reflexivity).
  rewrite forallb_forall in H. apply Z.eqb_eq, H. apply list_elem_of_In, elem_of_seqZ. lia.
Qed.

Lemma nth_zeros n k : nth n (zeros k) 0 = 0.
Proof. revert n. induction k as [|k IH]; intros [|n]; [done..|apply IH]. Qed.

(** C29: The station finds its bit in the traffic indication of its access
    point.  Take a traffic indication element anywhere in a frame whose partial
    bitmap has one byte at least, starts at an even byte and lies inside of the
    first 256 bytes of the whole bitmap, and any association number: the
    station is told that frames are waiting for it if and only if the bit with
    that number is set in the bitmap (a bit outside of the partial one counts
    as clear), it is told of broadcast frames if and only if the count is zero
    and the element says so, and it gets the count and the period of the
    element. *)
Theorem tim_bit_correct m p count period off bcast bitmap rest Aid :
  drop p m = tim_elem count period off bcast bitmap ++ rest → 0 ≤ off → (1 ≤ length bitmap)%nat → 2 * off + Z.of_nat (length bitmap) ≤ 256 →
  0 ≤ Aid →
  GetTimBit m p Aid = Some (mk_tim (if (count =? 0) && bcast then 1 else 0) count period
    (if Z.testbit (nth (Z.to_nat (Aid / 8)) (zeros (Z.to_nat (2 * off)) ++ bitmap) 0) (Aid mod 8) then 1 else 0)).
Proof.
  intros Hd Ho Hb Hr Ha. assert (HL : ∀ i, m !! (p + i)%nat = (tim_elem count period off bcast bitmap ++ rest) !! i) by (intros i; by rewrite <- lookup_drop, Hd).
  set (ctl := 2 * off + Z.b2z bcast). assert (Hc : 0 ≤ ctl < 256) by (unfold ctl; destruct bcast; cbn; lia).
  destruct (land_fe ctl Hc) as [Hf H1]. assert (HN : 2 * (ctl / 2) = 2 * off) by (unfold ctl; destruct bcast; cbn [Z.b2z]; zdm).
  assert (Hm2 : ctl mod 2 = Z.b2z bcast) by (unfold ctl; destruct bcast; cbn [Z.b2z]; zdm).
  unfold GetTimBit. rewrite !HL. cbn [tim_elem app lookup list_lookup mbind option_bind]. fold ctl. rewrite Hf, H1, HN, Hm2.
  set (L := Z.of_nat (length bitmap)) in *.
  assert (H2 : u8 (3 + L - 4 + 2 * off) = 2 * off + L - 1) by (rewrite wrap_id by (lia || (unfold in_range; lia)); lia). rewrite H2.
  rewrite !Z.shiftl_mul_pow2, Z.shiftr_div_pow2 by lia. change (2 ^ 3) with 8.
  replace (if (count =? 0) && negb (Z.b2z bcast =? 0) then 1 else 0) with (if (count =? 0) && bcast then 1 else 0) by by destruct bcast.
  destruct (Z.ltb_spec Aid (2 * off * 8)) as [Hlo|Hlo]; cbn [orb].
  { do 2 f_equal. rewrite app_nth1 by (rewrite length_zeros; zdm). by rewrite nth_zeros, Z.testbit_0_l. }
  destruct (Z.leb_spec ((2 * off + L - 1 + 1) * 8) Aid) as [Hhi|Hhi].
  { do 2 f_equal. rewrite nth_overflow, Z.testbit_0_l; [done|]. rewrite length_app, length_zeros. zdm. }
  rewrite (wrap_id 8 (Aid / 8 - 2 * off)) by (lia || (unfold in_range; zdm)). set (q := Aid / 8 - 2 * off).
  assert (Hq : 0 ≤ q < L) by (unfold q; zdm). rewrite (proj2 (land_fe q ltac:(lia))).
  assert (HB : u8 (Aid mod 16 - (if q mod 2 =? 0 then 0 else 8)) = Aid mod 8).
  { rewrite wrap_id; [|lia|]; destruct (Z.eqb_spec (q mod 2) 0); unfold in_range, q in *; zdm. }
  rewrite HB. rewrite <- Nat.add_assoc, HL. replace (4 + Z.to_nat (q + 1))%nat with (5 + Z.to_nat q)%nat by lia.
  assert (HQ : (tim_elem count period off bcast bitmap ++ rest) !! (5 + Z.to_nat q)%nat = bitmap !! Z.to_nat q)
    by (change ((bitmap ++ rest) !! Z.to_nat q = bitmap !! Z.to_nat q); apply lookup_app_l; lia).
  rewrite HQ. destruct (lookup_lt_is_Some_2 bitmap (Z.to_nat q) ltac:(lia)) as [b Eb]. rewrite Eb. cbn [mbind option_bind].
  rewrite app_nth2 by (rewrite length_zeros; unfold q in *; zdm). rewrite length_zeros.
  replace (Z.to_nat (Aid / 8) - Z.to_nat (2 * off))%nat with (Z.to_nat q) by (unfold q; lia).
  rewrite nth_lookup, Eb. done.
Qed.

Lemma tim_bit_correct_witness :
  GetTimBit (tim_elem 0 3 1 true [0; 4] ++ [7]) 0 26 = Some (mk_tim 1 0 3 1) ∧
  GetTimBit (tim_elem 0 3 1 true [0; 4] ++ [7]) 0 25 = Some (mk_tim 1 0 3 0).
Proof.
  split.
  - exact (tim_bit_correct (tim_elem 0 3 1 true [0; 4] ++ [7]) 0 0 3 1 true [0; 4] [7] 26 eq_refl ltac:(lia) ltac:(cbn; lia) ltac:(cbn; lia) ltac:(lia)).
  - exact (tim_bit_correct (tim_elem 0 3 1 true [0; 4] ++ [7]) 0 0 3 1 true [0; 4] [7] 25 eq_refl ltac:(lia) ltac:(cbn; lia) ltac:(cbn; lia) ltac:(lia)).
Defined.

(** * The whole parser *)

(** The arguments of the caller: a list in order, the buffer of 1024 bytes,
    one of 512 bytes or none, channels of a byte. *)
Record args_ok (c : bcn_cfg) (m : list Z) (MsgLen MsgChannel : Z) (ie : BCN_IE_LIST) (x : bcn_extra) (vie : list Z) (wsc : option (list Z)) : Prop := {
  ao_m : bytes m;
  ao_buf : MsgLen + 263 ≤ Z.of_nat (length m) ∧ (299 ≤ length m)%nat;
  ao_ie : bcn_ok ie;
  ao_cap : length (x_ExtCapInfo x) = SIZE_EXT_CAP_INFO;
  ao_vie : length vie = MAX_VIE_LEN ∧ bytes vie;
  ao_wsc : ∀ w, wsc = Some w → length w = MAX_WSC_LEN ∧ bytes w;
  ao_chan : byte MsgChannel ∧ byte (cf_AuxChannel c) ∧ byte (cf_Channel c)
}.

Lemma fixed_ok c m MsgLen MsgChannel ie x vie wsc peer : args_ok c m MsgLen MsgChannel ie x vie wsc →
  ∃ s Period Cap, fixed_fields m ie x vie wsc peer = Some s ∧ ps_ok 0 s ∧ get16 m 32 = Some Period ∧ get16 m 34 = Some Cap ∧
    abs s = mk_sum (take 6 (drop 16 m), if CAP_IS_ESS_ON Cap then BSS_INFRA else BSS_ADHOC, Period, Cap, take 8 (drop 24 m)) None None None [] (w ← wsc; Some []).
Proof.
  intros Ha. destruct Ha as [Hm [_ Hb] Hie Hc Hv Hw _]. unfold fixed_fields.
  destruct (get16_in m 32 Hm ltac:(lia)) as (Period & EP & _), (get16_in m 34 Hm ltac:(lia)) as (Cap & EC & _). rewrite EP, EC. cbn [mbind option_bind].
  eexists _, Period, Cap. split; [done|]. split; [|done]. destruct Hie. by split.
Qed.

Lemma move_val dst o src i n : (i + n ≤ length src)%nat → (o + n ≤ length dst)%nat → move_mem dst o src i n = Some (bwrite dst o (take n (drop i src))).
Proof. intros H1 H2. unfold move_mem. by rewrite decide_True. Qed.

(** The channel and the WPS element at the end. *)
Lemma guess_ok c MsgChannel k s : byte MsgChannel → byte (cf_AuxChannel c) → byte (cf_Channel c) → ps_ok k s → ps_ok k (guess_channel c MsgChannel s).
Proof.
  intros H1 H2 H3 Hs. unfold guess_channel. destruct (_ && _); [|done]. apply ps_Sanity; [lia|]. apply ps_on_ie; [|done].
  intros Hie. destruct Hie. split; try done. cbn. pose proof (po_ctrl _ _ Hs). by repeat destruct (_ : bool).
Qed.

Lemma append_ok k s : ps_ok k s → k ≤ Z.of_nat MAX_VIE_LEN → ∃ s', append_wsc s = Some s' ∧ ps_ie s' = ps_ie s ∧ Sanity s' = Sanity s ∧ bWscCheck s' = bWscCheck s ∧
  ps_x s' = ps_x s ∧ 0 ≤ LengthVIE s' ≤ k ∧ length (pVIE s') = MAX_VIE_LEN ∧ bytes (pVIE s') ∧
  (∀ x, a_wsc (abs s) = Some x → (length x ≤ MAX_WSC_LEN)%nat ∧
    take (Z.to_nat (LengthVIE s')) (pVIE s') = a_vie (abs s) ++ if bool_decide (x = []) then [] else [0xdd; u8 (Z.of_nat (length x) + 4)] ++ WPS_OUI ++ x).
Proof.
  intros Hs Hk. destruct (po_vie _ _ Hs) as [Lv Bv]. pose proof (po_len _ _ Hs) as Hl. pose proof (po_room _ _ Hs) as Hr. pose proof (po_wsclen _ _ Hs) as Hw.
  unfold append_wsc. cbn [a_wsc a_vie abs]. destruct (pPeerWscIe s) as [w|] eqn:Ew.
  2:{ exists s. destruct (0 <? _); repeat (split; [done || lia|]); by destruct (bWscCheck s). }
  destruct (po_wsc _ _ Hs w Ew) as [Lw Bw]. destruct (Z.ltb_spec 0 (PeerWscIeLen s)) as [Hp|Hp]; cbn [andb].
  2:{ exists s. repeat (split; [done || lia|]). destruct (bWscCheck s); [|done]. intros x [= <-]. replace (PeerWscIeLen s) with 0 by lia.
      change (Z.to_nat 0) with 0%nat. rewrite take_0, bool_decide_eq_true_2, app_nil_r by done. split; [apply Nat.le_0_l|done]. }
  replace (PeerWscIeLen s <=? Z.of_nat MAX_WSC_LEN) with true by lia. destruct (bWscCheck s) eqn:Eb; cbn [andb]; [|exists s; rewrite Eb; repeat (split; [done || lia|]); done].
  set (n := Z.to_nat (PeerWscIeLen s)). set (L := Z.to_nat (LengthVIE s)).
  assert (Ln : length (take n w) = n) by (rewrite length_take; lia). set (hdr := [221; u8 (PeerWscIeLen s + 4)] ++ WPS_OUI). assert (Lh : length hdr = 6%nat) by done.
  rewrite (move_val (pVIE s) L hdr) by lia. cbn [mbind option_bind]. change (take 6 (drop 0 hdr)) with hdr.
  rewrite move_val by (rewrite ?length_bwrite; lia). cbn [mbind option_bind]. rewrite drop_0.
  replace (L + 6)%nat with (L + length hdr)%nat by done. rewrite bwrite_bwrite_app by lia.
  eexists. split; [done|]. cbn [set_vie ps_ie Sanity bWscCheck ps_x LengthVIE pVIE]. repeat (split; [done || lia|]). split; [by rewrite length_bwrite by (rewrite length_app; lia)|].
  split; [apply bytes_bwrite; [done|]; apply bytes_app; split; [|by apply bytes_take]; repeat constructor; try (unfold in_range; lia); apply (wrap_range 8); lia|].
  intros x [= <-]. fold n. split; [lia|]. rewrite bool_decide_eq_false_2 by (intros E; rewrite E in Ln; cbn in Ln; lia). rewrite Ln.
  replace (Z.of_nat n) with (PeerWscIeLen s) by lia. unfold bwrite. rewrite app_assoc, take_app_le by (rewrite !length_app, !length_take; lia).
  apply take_ge. rewrite !length_app, !length_take. cbn [length WPS_OUI]. lia.
Qed.

(** C28: No frame of up to 1060 bytes makes the parser of beacons leave its
    buffers, whatever its bytes are, as long as the buffer it is in goes on for
    263 bytes and no WPS element is shorter than its type: a verdict is
    returned, and the list it fills in has every array and length in its range,
    with at most the 1024 bytes of elements that the caller has room for. *)
Theorem beacon_parse_safe c m MsgLen MsgChannel ie x vie wsc peer :
  args_ok c m MsgLen MsgChannel ie x vie wsc → MsgLen ≤ 36 + Z.of_nat MAX_VIE_LEN → wps_long m MsgLen →
  ∃ b s', PeerBeaconAndProbeRspSanity c m MsgLen MsgChannel ie x vie wsc peer = Some (b, s') ∧ bcn_ok (ps_ie s') ∧
    0 ≤ LengthVIE s' ≤ Z.of_nat MAX_VIE_LEN ∧ length (pVIE s') = MAX_VIE_LEN ∧ bytes (pVIE s').
Proof.
  intros Ha HM Hw. destruct (fixed_ok _ _ _ _ _ _ _ _ peer Ha) as (s & _ & _ & E1 & Hs & _). unfold PeerBeaconAndProbeRspSanity. rewrite E1. cbn [mbind option_bind].
  destruct (ao_buf _ _ _ _ _ _ _ _ Ha) as [HB1 HB2].
  destruct (element_loop_fine c m MsgLen (fc_SubType m) (ao_m _ _ _ _ _ _ _ _ Ha) HB1 Hw (length m) 36 s) as (r & k & -> & Hr & Hk); [constructor|lia..|done|].
  cbn [mbind option_bind]. assert (HD : ∀ s', ps_ok k s' → bcn_ok (ps_ie s') ∧ 0 ≤ LengthVIE s' ≤ Z.of_nat MAX_VIE_LEN ∧ length (pVIE s') = MAX_VIE_LEN ∧ bytes (pVIE s')).
  { intros s' Hs'. pose proof (po_len _ _ Hs'). destruct (po_vie _ _ Hs'). split; [apply Hs'|]. split; [lia|]. by split. }
  destruct r as [s'|s'|s']; cbn [state_of] in Hr.
  - destruct (ao_chan _ _ _ _ _ _ _ _ Ha) as (C1 & C2 & C3). pose proof (guess_ok c MsgChannel k s' C1 C2 C3 Hr) as HG.
    destruct (append_ok k _ HG ltac:(lia)) as (s2 & -> & EI & _ & _ & _ & HL & HV & HB & _). cbn [mbind option_bind].
    eexists _, s2. split; [done|]. rewrite EI. split; [apply HG|]. split; [lia|done].
  - eexists _, s'. split; [done|]. by apply HD.
  - eexists _, s'. split; [done|]. by apply HD.
Qed.

Lemma abs_guess c MsgChannel s : abs (guess_channel c MsgChannel s) =
  let a := abs s in
  if (14 <? cf_LatchChannel c) && negb (Z.testbit (Sanity s) 2)
  then mk_sum (a_fixed a) (a_ssid a) (a_sup a) (Some (bcn_Channel (ps_ie (guess_channel c MsgChannel s)))) (a_vie a) (a_wsc a) else a.
Proof.
  unfold guess_channel. rewrite (land_bit _ 2) by done. destruct (_ && _); [|done]. unfold abs, set_Sanity.
  cbn [ps_ie Sanity on_ie set_bcn_Channel bcn_Channel LengthVIE pVIE pPeerWscIe bWscCheck PeerWscIeLen a_fixed a_ssid a_sup a_vie a_wsc].
  rewrite !(sanity_bits _ 2) by done. cbn. by rewrite !orb_false_r, orb_true_r.
Qed.

Lemma sanity_full x : 0 ≤ x < 8 → (x =? 7) = Z.testbit x 0 && Z.testbit x 1 && Z.testbit x 2.
Proof.
  intros Hx. assert (H : forallb (λ x, Bool.eqb (x =? 7) (Z.testbit x 0 && Z.testbit x 1 && Z.testbit x 2)) (seqZ 0 8) = true) by (vm_compute; reflexivity).
  rewrite forallb_forall in H. apply Bool.eqb_prop, H. apply list_elem_of_In, elem_of_seqZ. lia.
Qed.

(** The summary of the result, before the WPS element is appended. *)
Lemma parse_abs c vs m MsgLen MsgChannel ie x vie w peer : args_ok c m MsgLen MsgChannel ie x vie (Some w) → frame c vs m MsgLen →
  ∃ s Period Cap, get16 m 32 = Some Period ∧ get16 m 34 = Some Cap ∧ ps_ok (MsgLen - 36) (guess_channel c MsgChannel s) ∧
    PeerBeaconAndProbeRspSanity c m MsgLen MsgChannel ie x vie (Some w) peer =
      (s' ← append_wsc (guess_channel c MsgChannel s); Some (sanity_check s', s')) ∧ is_Some (pPeerWscIe s) ∧
    abs s = fold_left abs_step vs (mk_sum (take 6 (drop 16 m), if CAP_IS_ESS_ON Cap then BSS_INFRA else BSS_ADHOC, Period, Cap, take 8 (drop 24 m)) None None None [] (Some [])).
Proof.
  intros Ha [F1 F2 F3 F4 F5 [rest F6]]. destruct (fixed_ok _ _ _ _ _ _ _ _ peer Ha) as (s0 & Period & Cap & E0 & H0 & EP & EC & A0).
  destruct (ao_buf _ _ _ _ _ _ _ _ Ha) as [_ HB]. destruct (ao_chan _ _ _ _ _ _ _ _ Ha) as (C1 & C2 & C3).
  destruct (element_loop_abs c m MsgLen (fc_SubType m) vs (length m) 36 s0 rest F1 F4 F2 F6) as (s & EL & EA & Hs & Hw); [lia..|done|].
  exists s, Period, Cap. split; [done|]. split; [done|]. split; [by apply guess_ok|]. unfold PeerBeaconAndProbeRspSanity. rewrite E0. cbn [mbind option_bind]. rewrite EL.
  split; [done|]. split; [|by rewrite EA, A0]. apply Hw. unfold fixed_fields in E0. peel E0. injection E0 as <-. by eexists.
Qed.

Lemma is_Some_if {A} (b : bool) (x : A) : bool_decide (is_Some (if b then Some x else None)) = b.
Proof. destruct b; [by apply bool_decide_eq_true_2|]. apply bool_decide_eq_false_2. by intros [? ?]. Qed.

(** What a summary says of the state. *)
Lemma abs_facts s : is_Some (pPeerWscIe s) → let a := abs s in let ie := ps_ie s in
  Z.testbit (Sanity s) 0 = bool_decide (is_Some (a_ssid a)) ∧ Z.testbit (Sanity s) 1 = bool_decide (is_Some (a_sup a)) ∧
  Z.testbit (Sanity s) 2 = bool_decide (is_Some (a_chan a)) ∧ bWscCheck s = bool_decide (is_Some (a_wsc a)) ∧
  (∀ n, a_ssid a = Some n → take (Z.to_nat (bcn_SsidLen ie)) (bcn_Ssid ie) = n) ∧
  (∀ n, a_sup a = Some n → take (Z.to_nat (bcn_SupRateLen ie)) (bcn_SupRate ie) = n) ∧ (∀ ch, a_chan a = Some ch → bcn_Channel ie = ch) ∧
  a_fixed a = (bcn_Bssid ie, bcn_BssType ie, bcn_BeaconPeriod ie, bcn_CapabilityInfo ie, bcn_TimeStamp ie).
Proof.
  intros [w Hw]. cbv zeta. unfold abs. cbn [a_ssid a_sup a_chan a_wsc a_fixed]. rewrite Hw. cbn [mbind option_bind]. rewrite !is_Some_if.
  repeat (split; [done|]). split; [|split; [|split; [|done]]]; intros n; destruct (Z.testbit _ _); congruence.
Qed.

(** What the elements [vs] of the frame [m] say: the fixed fields of the
    header, the first name, the last rates and the last channel; the buffer has
    the elements that are kept, and the reassembled WPS element. *)
Record parsed (vs : list vie) (m : list Z) (MsgLen : Z) (s : parser) : Prop := {
  pd_ok : bcn_ok (ps_ie s);
  pd_bssid : bcn_Bssid (ps_ie s) = take 6 (drop 16 m);
  pd_period : Some (bcn_BeaconPeriod (ps_ie s)) = get16 m 32;
  pd_cap : Some (bcn_CapabilityInfo (ps_ie s)) = get16 m 34;
  pd_type : bcn_BssType (ps_ie s) = if CAP_IS_ESS_ON (bcn_CapabilityInfo (ps_ie s)) then BSS_INFRA else BSS_ADHOC;
  pd_ssid : ∀ n, head (bodies IE_SSID vs) = Some n → take (Z.to_nat (bcn_SsidLen (ps_ie s))) (bcn_Ssid (ps_ie s)) = n;
  pd_rates : ∀ r, last (bodies IE_SUPP_RATES vs) = Some r → take (Z.to_nat (bcn_SupRateLen (ps_ie s))) (bcn_SupRate (ps_ie s)) = r;
  pd_chan : ∀ ch, last (omap head (bodies IE_DS_PARM vs)) = Some ch → bcn_Channel (ps_ie s) = ch;
  pd_len : 0 ≤ LengthVIE s ≤ MsgLen - 36 ∧ length (pVIE s) = MAX_VIE_LEN ∧ bytes (pVIE s);
  pd_vie : ∀ q, reassemble [] (wps_payloads vs) = Some q →
    take (Z.to_nat (LengthVIE s)) (pVIE s) = concat (map vie_enc (filter (λ v, kept v = true) vs)) ++
      if bool_decide (q = []) then [] else [0xdd; u8 (Z.of_nat (length q) + 4)] ++ WPS_OUI ++ q
}.

(** The verdict on such a frame: there are a name and rates, there is a channel
    element or the receiver is in the 5 GHz band, and the WPS fragments can be
    put together. *)
Definition acceptable (c : bcn_cfg) (vs : list vie) : bool :=
  bool_decide (is_Some (head (bodies IE_SSID vs))) && bool_decide (is_Some (last (bodies IE_SUPP_RATES vs))) &&
  (bool_decide (is_Some (last (omap head (bodies IE_DS_PARM vs)))) || (14 <? cf_LatchChannel c)) &&
  bool_decide (is_Some (reassemble [] (wps_payloads vs))).

Lemma channel_bodies c vs : Forall (elem_ok c) vs → Forall (λ b, b ≠ []) (bodies IE_DS_PARM vs).
Proof.
  intros HE. apply Forall_forall. intros b Hb ->. unfold bodies in Hb. apply list_elem_of_omap in Hb as (v & Hv & Ev). destruct v as [e b| | |]; [|done..].
  destruct (Z.eqb_spec e IE_DS_PARM) as [->|]; [|done]. injection Ev as ->. rewrite Forall_forall in HE.
  destruct (HE _ Hv) as (_ & _ & _ & _ & Hc & _). by destruct (Hc eq_refl) as (ch & ? & _).
Qed.

Lemma parse_spec c vs m MsgLen MsgChannel ie x vie w peer : args_ok c m MsgLen MsgChannel ie x vie (Some w) → frame c vs m MsgLen →
  ∃ s', PeerBeaconAndProbeRspSanity c m MsgLen MsgChannel ie x vie (Some w) peer = Some (acceptable c vs, s') ∧ parsed vs m MsgLen s'.
Proof.
  intros Ha HF. set (ssid := head (bodies IE_SSID vs)). set (rates := last (bodies IE_SUPP_RATES vs)). set (chan := last (omap head (bodies IE_DS_PARM vs))).
  set (wsc := reassemble [] (wps_payloads vs)). destruct (parse_abs _ _ _ _ _ _ _ _ _ peer Ha HF) as (s & Period & Cap & EP & EC & HG & EQ & Hi & EA).
  pose proof (channel_bodies c vs (fr_elems _ _ _ _ HF)) as HDS.
  set (a0 := mk_sum _ None None None [] (Some [])) in EA. destruct (fold_abs vs a0 HDS) as (A1 & A2 & A3 & A4 & A5). pose proof (fold_wsc vs a0 [] eq_refl) as A6.
  rewrite <- EA in A1, A2, A3, A4, A5, A6. change (a_ssid (abs s) = ssid) in A2. change (a_sup (abs s) = rates) in A3.
  change (a_chan (abs s) = chan) in A4. change (a_vie (abs s) = concat (map vie_enc (filter (λ v, kept v = true) vs))) in A5. cbn [a_fixed a0] in A1. change (a_wsc (abs s) = wsc) in A6.
  set (G := guess_channel c MsgChannel s) in *. assert (HiG : is_Some (pPeerWscIe G)) by (unfold G, guess_channel; by destruct (_ && _)).
  pose proof (abs_guess c MsgChannel s) as AG. fold G in AG. cbv zeta in AG. destruct (abs_facts s Hi) as (_ & _ & B2 & _). rewrite A4 in B2. rewrite B2 in AG.
  destruct (abs_facts G HiG) as (G0 & G1 & G2 & G3 & G4 & G5 & G6 & G7).
  assert (AS : a_ssid (abs G) = ssid ∧ a_sup (abs G) = rates ∧ a_vie (abs G) = a_vie (abs s) ∧ a_wsc (abs G) = wsc ∧ a_fixed (abs G) = a_fixed (abs s) ∧
    (∀ ch, chan = Some ch → a_chan (abs G) = Some ch) ∧ bool_decide (is_Some (a_chan (abs G))) = bool_decide (is_Some chan) || (14 <? cf_LatchChannel c)).
  { rewrite AG, A6. destruct (bool_decide_reflect (is_Some chan)) as [[ch Hch]|Hn]; cbn [negb orb]; rewrite ?andb_false_r, ?andb_true_r.
    - repeat (split; [done|]). rewrite A4. split; [by rewrite Hch; intros ? [= ->]|]. rewrite Hch. by apply bool_decide_eq_true_2.
    - destruct (14 <? cf_LatchChannel c); cbn [a_ssid a_sup a_chan a_vie a_wsc a_fixed]; repeat (split; [done|]); (split; [intros ch Hch; destruct Hn; by eexists|]).
      + by apply bool_decide_eq_true_2.
      + rewrite A4. by apply bool_decide_eq_false_2. }
  destruct AS as (S1 & S2 & S3 & S4 & S5 & S6 & S7). rewrite S1 in G0, G4. rewrite S2 in G1, G5. rewrite S4 in G3. rewrite S7 in G2. rewrite S5, A1 in G7. injection G7 as F1 F2 F3 F4 _.
  destruct (append_ok _ G HG ltac:(pose proof (fr_short _ _ _ _ HF); lia)) as (s' & ES & EI & ESan & EW & _ & HL & HVL & HVB & HV).
  rewrite ES in EQ. cbn [mbind option_bind] in EQ. exists s'. split.
  { rewrite EQ. unfold sanity_check. rewrite ESan, EW, (sanity_full _ (po_sanity _ _ HG)), G0, G1, G2, G3. done. }
  split; rewrite ?EI, ?EP, ?EC; try done; [apply HG|congruence|congruence|by rewrite <- F2, <- F4|intros ch Hch; by apply G6, S6|].
  intros q Hq. change (wsc = Some q) in Hq. rewrite <- S4 in Hq. destruct (HV q Hq) as [_ ->]. by rewrite S3, A5.
Qed.

(** The walk ends at the first channel that is not one of the station's. *)
Lemma foreign_stops c m p v rest fuel MsgLen SubType s k : drop p m = vie_enc v ++ rest → elem_form v → foreign c v = true → ps_ok k s →
  Z.of_nat (p + 3) ≤ MsgLen → k + 3 ≤ Z.of_nat MAX_VIE_LEN - 2 → ∃ s', element_loop (S fuel) c m MsgLen SubType p s = Some (GotoCheck s') ∧ sanity_check s' = sanity_check s.
Proof.
  intros Hd Hv Hf Hs HM Hk. destruct v as [e b| | |]; [|done..]. unfold foreign in Hf. apply andb_prop in Hf as [He%Z.eqb_eq Hf]. subst e.
  destruct Hv as (_ & _ & _ & _ & H1 & _). specialize (H1 eq_refl). destruct b as [|ch [|]]; [done| |done]. change (aget [ch] 0) with ch in Hf.
  assert (HL : ∀ i, m !! (p + i)%nat = ([IE_DS_PARM; 1; ch] ++ rest) !! i) by (intros i; by rewrite <- lookup_drop, Hd).
  cbn [element_loop]. rewrite HL. cbn [app lookup list_lookup mbind option_bind]. replace (Z.of_nat p + 2 + 1 <=? MsgLen) with true by lia.
  assert (Hr : LengthVIE s + 3 < Z.of_nat MAX_VIE_LEN) by (pose proof (po_room _ _ Hs); pose proof (po_wsclen _ _ Hs); destruct (Z.ltb_spec 0 (PeerWscIeLen s)); lia).
  replace (Z.of_nat MAX_VIE_LEN <=? LengthVIE s + 1 + 2) with false by lia.
  assert (H0 : m !! p = Some IE_DS_PARM) by (rewrite <- (Nat.add_0_r p), HL; done). rewrite H0.
  cbn [app lookup list_lookup mbind option_bind]. change (element c m p 1 SubType IE_DS_PARM s) with (case_ds_parm c m p 1 s).
  unfold case_ds_parm. change (1 =? 1) with true. cbv iota.
  assert (H2 : m !! (p + 2 + 0)%nat = Some ch) by (rewrite <- Nat.add_assoc, HL; done). rewrite H2. cbn [mbind option_bind].
  destruct (ChannelSanity _ ch); [done|]. cbn [mbind option_bind]. by eexists.
Qed.

(** What the elements before it say decides. *)
Lemma parse_cut c vs l m MsgLen MsgChannel ie x vie w peer : args_ok c m MsgLen MsgChannel ie x vie (Some w) → frame_form vs m MsgLen →
  cut_foreign c vs = (l, true) →
  ∃ s', PeerBeaconAndProbeRspSanity c m MsgLen MsgChannel ie x vie (Some w) peer =
    Some (bool_decide (is_Some (head (bodies IE_SSID l))) && bool_decide (is_Some (last (bodies IE_SUPP_RATES l))) &&
          bool_decide (is_Some (last (omap head (bodies IE_DS_PARM l)))) && bool_decide (is_Some (reassemble [] (wps_payloads l))), s').
Proof.
  intros Ha [F1 F2 F3 F4 F5 [rest F6]] Hc. pose proof (cut_spec c vs) as HC. rewrite Hc in HC. destruct HC as [Hl (v & vs2 & -> & Hv)]. specialize (Hl F2).
  destruct (fixed_ok _ _ _ _ _ _ _ _ peer Ha) as (s0 & Period & Cap & E0 & H0 & EP & EC & A0). destruct (ao_buf _ _ _ _ _ _ _ _ Ha) as [_ HB].
  rewrite Forall_app, Forall_cons in F2. destruct F2 as (_ & Fv & _). rewrite map_app, concat_app in F3, F6. cbn [map concat] in F3, F6.
  assert (H3 : length (vie_enc v) = 3%nat).
  { destruct v as [e b| | |]; [|done..]. apply andb_prop in Hv as [He%Z.eqb_eq _]. destruct Fv as (_ & _ & _ & _ & H1 & _). unfold vie_enc. cbn [length vie_body]. by rewrite H1. }
  rewrite <- !app_assoc in F6. rewrite !length_app, H3 in F3.
  destruct (element_loop_prefix c m MsgLen (fc_SubType m) F1 F4 F5 l Hl (length m) 36 s0 _ F6) as (fuel & s & EL & Ed & Hf & EA & Hs & Hw); [lia..|done|].
  destruct fuel as [|fuel]; [lia|].
  destruct (foreign_stops c m _ v _ fuel MsgLen (fc_SubType m) s _ Ed Fv Hv Hs) as (s' & EF & ES); [lia..|].
  exists s'. unfold PeerBeaconAndProbeRspSanity. rewrite E0. cbn [mbind option_bind]. rewrite EL, EF. cbn [mbind option_bind]. rewrite ES. do 2 f_equal.
  assert (Hi : is_Some (pPeerWscIe s)) by (apply Hw; unfold fixed_fields in E0; peel E0; injection E0 as <-; by eexists).
  destruct (abs_facts s Hi) as (B0 & B1 & B2 & B3 & _). rewrite A0 in EA. set (a0 := mk_sum _ None None None [] _) in EA.
  destruct (fold_abs l a0 (channel_bodies c l Hl)) as (_ & A2 & A3 & A4 & _). pose proof (fold_wsc l a0 [] eq_refl) as A6. rewrite <- EA in A2, A3, A4, A6.
  unfold sanity_check. rewrite (sanity_full _ (po_sanity _ _ Hs)), B0, B1, B2, B3, A2, A3, A4, A6. done.
Qed.

(** The verdict on a frame of well-formed elements with any channels: those
    behind a foreign channel are not looked at, and then the channel is not
    made up. *)
Definition accepts (c : bcn_cfg) (vs : list vie) : bool :=
  let '(l, cut) := cut_foreign c vs in
  bool_decide (is_Some (head (bodies IE_SSID l))) && bool_decide (is_Some (last (bodies IE_SUPP_RATES l))) &&
  (bool_decide (is_Some (last (omap head (bodies IE_DS_PARM l)))) || (negb cut && (14 <? cf_LatchChannel c))) &&
  bool_decide (is_Some (reassemble [] (wps_payloads l))).

(** C27: What is found in a beacon is what its elements say.  Take a frame of at
    most 1058 bytes made of well-formed elements (the lengths of name, rates,
    channel, CF and IBSS parameters are those of the standard, a WPS element
    has a payload), in a message buffer that goes on for 263 bytes, and let the
    buffer for the WPS element be allocated.  A channel element with a channel
    that is not in the station's list ends the walk: what comes behind it is
    not looked at.  The parser answers TRUE if and only if, among the elements
    that are looked at, there are a name and rates, there is a channel element
    of the station's (or the walk went to the end and the receiver is in the
    5 GHz band), and the WPS fragments can be put together.  If there is no
    such foreign channel, the list then has the fixed fields of the header, the
    first name, the last rates and the last channel of the frame, and the
    buffer has the elements that are kept, in the order of the frame, with the
    reassembled WPS element behind them. *)
Theorem beacon_parse_correct c vs m MsgLen MsgChannel ie x vie w peer :
  args_ok c m MsgLen MsgChannel ie x vie (Some w) → frame_form vs m MsgLen →
  ∃ s', PeerBeaconAndProbeRspSanity c m MsgLen MsgChannel ie x vie (Some w) peer = Some (accepts c vs, s') ∧
    ((cut_foreign c vs).2 = false → parsed vs m MsgLen s').
Proof.
  intros Ha HF. pose proof (cut_spec c vs) as HC. unfold accepts. destruct (cut_foreign c vs) as [l cut] eqn:Ec. destruct cut.
  - destruct (parse_cut c vs l m MsgLen MsgChannel ie x vie w peer Ha HF Ec) as (s' & E). exists s'. cbn [negb andb]. by rewrite orb_false_r.
  - destruct HC as [Hl ->]. destruct (parse_spec c vs m MsgLen MsgChannel ie x vie w peer Ha) as (s' & E & HP); [destruct HF; by split; auto|]. by exists s'.
Qed.

(** ** A beacon *)

(** Frames of well-formed elements have WPS elements that are long enough. *)
Lemma frame_ie_at c vs m MsgLen p : frame c vs m MsgLen → ie_at m MsgLen p →
  ∃ vs1 vs2 rest, vs = vs1 ++ vs2 ∧ p = (36 + length (concat (map vie_enc vs1)))%nat ∧ drop p m = concat (map vie_enc vs2) ++ rest.
Proof.
  intros [FM _ FL FB _ [rest FR]]. induction 1 as [|p Len Hat (vs1 & vs2 & rest' & -> & -> & Hd) Hl Hle].
  - by exists [], vs, rest.
  - destruct vs2 as [|v vs2].
    { rewrite app_nil_r in FL. destruct (Forall_lookup_1 _ _ _ _ FM Hl) as [? _]. lia. }
    cbn [map concat] in Hd. rewrite <- app_assoc in Hd. rewrite <- lookup_drop, Hd in Hl. cbn in Hl. injection Hl as <-.
    exists (vs1 ++ [v]), vs2, rest'. rewrite <- app_assoc. split; [done|]. rewrite map_app, concat_app, length_app. cbn [map concat]. rewrite app_nil_r.
    assert (HE : length (vie_enc v) = S (S (length (vie_body v)))) by done. split; [lia|].
    rewrite Nat2Z.id, <- Nat.add_assoc. by apply (drop_app_at _ _ _ _ _ Hd).
Qed.

Lemma frame_wps_long c vs m MsgLen : frame c vs m MsgLen → wps_long m MsgLen.
Proof.
  intros HF p Len Hat H0 H1 Hle HW. destruct (frame_ie_at _ _ _ _ _ HF Hat) as (vs1 & vs2 & rest & Ev & Ep & Hd). destruct HF as [FM FE FL _ _ _].
  destruct vs2 as [|v vs2]; [rewrite Ev, app_nil_r in FL; destruct (Forall_lookup_1 _ _ _ _ FM H1) as [? _]; lia|].
  cbn [map concat] in Hd. rewrite <- app_assoc in Hd. rewrite <- (Nat.add_0_r p), <- lookup_drop, Hd in H0. rewrite <- lookup_drop, Hd in H1. cbn in H0, H1.
  injection H0 as H0. injection H1 as <-. rewrite Ev, Forall_app, Forall_cons in FE. destruct FE as (_ & (Hv & _ & _) & _).
  destruct v as [e b|b| |]; cbn in H0 |- *; [destruct Hv as (_ & ? & _); done|destruct Hv as (_ & H4 & _); cbn in H4; lia|lia|done].
Qed.

(** A beacon with a name, rates, a channel, an RSN element and a WPS element
    in two fragments; the station listens on channels 1 to 13. *)
Definition example_cfg : bcn_cfg := mk_bcfg (seqZ 1 13) false (zeros 6) 0 true 6 0 0 6 4 10.
Definition example_elems : list vie :=
  [Vie_other IE_SSID [65; 66]; Vie_other IE_SUPP_RATES [130; 132; 139; 150]; Vie_other IE_DS_PARM [6]; Vie_rsn 4 [4] [2] 0 [];
   Vie_vendor (WPS_OUI ++ [0x10; 0x4a; 0; 1; 0x10]); Vie_vendor (WPS_OUI ++ [0x44; 0; 1; 2])].
Definition example_frame : list Z :=
  [0x80; 0; 0; 0] ++ [255; 255; 255; 255; 255; 255] ++ [2; 0; 0; 0; 0; 1] ++ [2; 0; 0; 0; 0; 1] ++ [0; 0] ++ zeros 8 ++ [100; 0] ++ [0x11; 0] ++
  concat (map vie_enc example_elems) ++ zeros 1508.

Lemma example_args w : length w = MAX_WSC_LEN → bytes w →
  args_ok example_cfg example_frame 92 6 zero_bcn zero_bx (zeros MAX_VIE_LEN) (Some w).
Proof.
  intros Lw Bw. split.
  - apply bytes_check. vm_compute. reflexivity.
  - split; [vm_compute; congruence|]. apply Nat.leb_le. vm_compute. reflexivity.
  - split; repeat split; try (vm_compute; congruence). by apply bytes_zeros.
  - done.
  - split; [apply length_zeros|apply bytes_zeros].
  - intros ? [= <-]. done.
  - repeat split; vm_compute; congruence.
Qed.

Lemma example_is_frame : frame example_cfg example_elems example_frame 92.
Proof.
  split; [apply bytes_check; vm_compute; reflexivity| |vm_compute; reflexivity|vm_compute; congruence|vm_compute; congruence|by exists (zeros 1508)].
  unfold example_elems. repeat (apply Forall_cons; split); [..|done].
  all: split; [split|split; [apply bytes_check; vm_compute; reflexivity|]]; try (apply Nat.leb_le; vm_compute; reflexivity).
  all: repeat split; intros; try done; try (apply Nat.leb_le; vm_compute; reflexivity); try (eexists; split; reflexivity); by left.
Qed.

Lemma example_form : frame_form example_elems example_frame 92.
Proof.
  destruct example_is_frame as [F1 F2 F3 F4 F5 F6]. split; try done. eapply Forall_impl; [exact F2|]. intros v (H1 & H2 & H3). split; [done|]. split; [done|].
  destruct v; [|done..]. destruct H3 as (E1 & E2 & E3 & E4 & E5). split_and!; try done. intros He. by destruct (E3 He) as (ch & -> & _).
Qed.

Lemma beacon_parse_safe_witness : ∃ b s', PeerBeaconAndProbeRspSanity example_cfg example_frame 92 6 zero_bcn zero_bx (zeros MAX_VIE_LEN) (Some (zeros MAX_WSC_LEN)) None = Some (b, s') ∧
  bcn_ok (ps_ie s').
Proof.
  destruct (beacon_parse_safe example_cfg example_frame 92 6 zero_bcn zero_bx (zeros MAX_VIE_LEN) (Some (zeros MAX_WSC_LEN)) None
    (example_args (zeros MAX_WSC_LEN) (length_zeros _) (bytes_zeros _)) ltac:(vm_compute; congruence) (frame_wps_long _ _ _ _ example_is_frame)) as (b & s' & H1 & H2 & _).
  by exists b, s'.
Defined.

Lemma beacon_parse_correct_witness : ∃ s', PeerBeaconAndProbeRspSanity example_cfg example_frame 92 6 zero_bcn zero_bx (zeros MAX_VIE_LEN) (Some (zeros MAX_WSC_LEN)) None = Some (true, s') ∧
  take (Z.to_nat (bcn_SsidLen (ps_ie s'))) (bcn_Ssid (ps_ie s')) = [65; 66] ∧ bcn_Channel (ps_ie s') = 6 ∧
  take (Z.to_nat (LengthVIE s')) (pVIE s') = vie_enc (Vie_rsn 4 [4] [2] 0 []) ++ vie_enc (Vie_vendor (WPS_OUI ++ [0x10; 0x4a; 0; 1; 0x10; 0x44; 0; 1; 2])).
Proof.
  destruct (beacon_parse_correct example_cfg example_elems example_frame 92 6 zero_bcn zero_bx (zeros MAX_VIE_LEN) (zeros MAX_WSC_LEN) None
    (example_args (zeros MAX_WSC_LEN) (length_zeros _) (bytes_zeros _)) example_form) as (s' & H1 & H2). specialize (H2 eq_refl).
  exists s'. split; [exact H1|]. split; [by apply (pd_ssid _ _ _ _ H2)|]. split; [by apply (pd_chan _ _ _ _ H2)|].
  exact (pd_vie _ _ _ _ H2 [0x10; 0x4a; 0; 1; 0x10; 0x44; 0; 1; 2] eq_refl).
Defined.

(** * Where the parser fails *)

(** A frame with the given bytes after the header. *)
Definition frame_with (body : list Z) : list Z := take 36 example_frame ++ body ++ zeros (1564 - length body).
Definition parse_of (c : bcn_cfg) (body : list Z) : option (bool * parser) :=
  PeerBeaconAndProbeRspSanity c (frame_with body) (36 + Z.of_nat (length body)) 6 zero_bcn zero_bx (zeros MAX_VIE_LEN) (Some (zeros MAX_WSC_LEN)) None.

(** A beacon with a channel element of channel 14 behind its own is taken, with
    that channel, and its RSN element behind it is not seen. *)
Example foreign_channel_taken : ∃ s, parse_of example_cfg (concat (map vie_enc
    [Vie_other IE_SSID [65; 66]; Vie_other IE_SUPP_RATES [130; 132]; Vie_other IE_DS_PARM [6]; Vie_other IE_DS_PARM [14]; Vie_rsn 4 [4] [2] 0 []])) = Some (true, s) ∧
  bcn_Channel (ps_ie s) = 14 ∧ LengthVIE s = 0.
Proof. eexists. split; [vm_compute; reflexivity|]. split; reflexivity. Qed.

(** A vendor element of three bytes that is followed by the number 4 is taken
    for a WPS element; the size of its payload is negative. *)
Example short_wps_breaks : parse_of example_cfg [221; 3; 0; 0x50; 0xf2; 4; 6; 0; 0; 0; 0; 0; 0] = None.
Proof. vm_compute. reflexivity. Qed.

(** Three elements of the longest size are kept, and two fragments of a WPS
    element; it is appended behind the end of the buffer. *)
Example wps_overflows : parse_of example_cfg (concat (map (λ b, 7 :: 255 :: b) [zeros 255; zeros 255; zeros 255]) ++
    [221; 250] ++ WPS_OUI ++ [0x10] ++ zeros 245 ++ [221; 250] ++ WPS_OUI ++ zeros 246) = None.
Proof. vm_compute. reflexivity. Qed.

(** The length of a reassembled element is a byte, the payload may be longer:
    two fragments of 150 bytes become an element of 48. *)
Example wps_length_wraps : ∃ s, parse_of example_cfg ([221; 154] ++ WPS_OUI ++ [0x10] ++ zeros 149 ++ [221; 154] ++ WPS_OUI ++ zeros 150) = Some (false, s) ∧
  LengthVIE s = 306 ∧ aget (pVIE s) 1 = 48.
Proof. eexists. split; [vm_compute; reflexivity|]. split; reflexivity. Qed.

(** The beacon of any network changes the mode in which the station's own
    access point is sent to. *)
Example op_mode_of_stranger : ∃ s, parse_of (mk_bcfg (seqZ 1 13) true [2; 0; 0; 0; 0; 9] 1 true 6 0 0 6 4 10) [199; 1; 0] = Some (false, s) ∧
  bcn_Bssid (ps_ie s) ≠ [2; 0; 0; 0; 0; 9] ∧ peer_op_mode s = Some 0.
Proof. eexists. split; [vm_compute; reflexivity|]. split; [done|reflexivity]. Qed.

(** A traffic indication without a bitmap: bytes of the next element are taken
    for it. *)
Example short_tim_reads_on : GetTimBit ([5; 3; 1; 3; 0] ++ [221; 255] ++ zeros 30) 0 9 = Some (mk_tim 0 1 3 1).
Proof. vm_compute. reflexivity. Qed.
