(* ===== verification/ScanBeacon.v ===== *)
(** Beacons and probe responses during a scan: src/sta/sync.c,
    PeerBeaconAtScanAction; src/common/mlme.c, RTMPMaxRssi, TriEventInit and
    TriEventTableSetEntry; src/common/cmm_sync.c, ConvertToRssi;
    src/chips/rtmp_chip.c, is_external_lna_mode; src/common/cmm_sanity.c,
    NetworkTypeInUseSanity.

    The parser of BeaconSanity.v reads the frame, and what it finds goes to the
    table of networks of BssTable.v.  [None] is an access out of bounds. *)

From stdpp Require Import list.
From S2P Require Import Prelude BaReorder MacTable WpaKeys Eapol StaAuth Mlme BssEntry BssTable BeaconSanity.

(** * Signal strength *)

(** A value stored in a [CHAR]. *)
Definition s8 (x : Z) : Z := u8 (x + 128) - 128.

Inductive chip := MT76x0 | MT76x2 | RT8592 | OtherChip.

(** What the conversion reads of the adapter; the gains and offsets are of
    type [CHAR]. *)
Record rssi_cfg := mk_rcfg {
  rc_chip : chip; LNA_type : Z; rc_LatchChannel : Z; rc_Channel : Z; BLNAGain : Z; ALNAGain0 : Z; ALNAGain1 : Z; ALNAGain2 : Z;
  BGRssiOffset : list Z; ARssiOffset : list Z; RxPath : Z
}.

Definition GET_LNA_GAIN (r : rssi_cfg) : Z :=
  if rc_LatchChannel r <=? 14 then BLNAGain r
  else if rc_LatchChannel r <=? 64 then ALNAGain0 r
  else if rc_LatchChannel r <=? 128 then ALNAGain1 r
  else ALNAGain2 r.

Definition is_external_lna_mode (r : rssi_cfg) (channel : Z) : bool :=
  if 14 <? channel then (LNA_type r =? 0x0) || (LNA_type r =? 0x1) else (LNA_type r =? 0x0) || (LNA_type r =? 0x10).

(** [RssiOffset] and [LNAGain] are of type [UCHAR]. *)
Definition ConvertToRssi (r : rssi_cfg) (Rssi rssi_idx : Z) : Z :=
  if (Rssi =? 0) || (3 <=? rssi_idx) then -99
  else
    let LNAGain := u8 (GET_LNA_GAIN r) in
    let Offset := if 14 <? rc_LatchChannel r then aget (ARssiOffset r) rssi_idx else aget (BGRssiOffset r) rssi_idx in
    let RssiOffset := u8 Offset in
    match rc_chip r with
    | MT76x0 => s8 (Rssi + s8 RssiOffset - s8 LNAGain)
    | MT76x2 => s8 (Rssi + Offset - s8 (if is_external_lna_mode r (rc_Channel r) then 0 else LNAGain))
    | RT8592 => s8 (Rssi - LNAGain - RssiOffset)
    | OtherChip => s8 (-12 - RssiOffset - LNAGain - Rssi)
    end.

Definition RTMPMaxRssi (r : rssi_cfg) (Rssi0 Rssi1 Rssi2 : Z) : Z :=
  let larger := -127 in
  let larger := if (RxPath r =? 1) && negb (Rssi0 =? 0) then Rssi0 else larger in
  let larger := if (2 <=? RxPath r) && negb (Rssi1 =? 0) then Z.max Rssi0 Rssi1 else larger in
  let larger := if (RxPath r =? 3) && negb (Rssi2 =? 0) then Z.max larger Rssi2 else larger in
  if larger =? -127 then 0 else larger.

(** * Events that forbid 40 MHz channels *)

Definition MAX_TRIGGER_EVENT : nat := 64.

Record TRIGGER_EVENTA := mk_eva { ea_bValid : bool; ea_BSSID : list Z; ea_RegClass : Z; ea_Channel : Z }.
Record TRIGGER_EVENT_TAB := mk_tev { EventANo : Z; EventA : list TRIGGER_EVENTA; EventBCountDown : Z }.

Definition invalidate (e : TRIGGER_EVENTA) : TRIGGER_EVENTA := mk_eva false (ea_BSSID e) (ea_RegClass e) (ea_Channel e).
Definition TriEventInit (t : TRIGGER_EVENT_TAB) : TRIGGER_EVENT_TAB := mk_tev 0 (map invalidate (EventA t)) 0.

Definition Forty_Mhz_Intolerant (ht_cap : list Z) : bool := Z.testbit (aget ht_cap 1) 6.

(** [delay] is [Dot11BssWidthChanTranDelay]. *)
Definition TriEventTableSetEntry (delay : Z) (t : TRIGGER_EVENT_TAB) (pBssid : list Z) (pHtCapability : list Z) (HtCapabilityLen RegClass ChannelNo : Z)
    : option TRIGGER_EVENT_TAB :=
  if HtCapabilityLen =? 0 then
    if existsb (λ e, ea_bValid e && (ea_Channel e =? ChannelNo) && (ea_RegClass e =? RegClass)) (take MAX_TRIGGER_EVENT (EventA t)) then Some t
    else if EventANo t <? Z.of_nat MAX_TRIGGER_EVENT then
      let i := Z.to_nat (EventANo t) in
      _ ← EventA t !! i;
      Some (mk_tev (u8 (EventANo t + 1)) (<[i := mk_eva true (take 6 pBssid) RegClass ChannelNo]> (EventA t)) (EventBCountDown t))
    else Some t
  else if Forty_Mhz_Intolerant pHtCapability then Some (mk_tev (EventANo t) (EventA t) delay)
  else Some t.

(** * The handler *)

(** The element of the queue, as far as it is read. *)
Record scan_elem := mk_selem {
  el_Msg : list Z; el_MsgLen : Z; el_Rssi0 : Z; el_Rssi1 : Z; el_Rssi2 : Z; el_Signal : Z; el_Channel : Z; el_TimeLow : list Z
}.

(** The settings: [sc_effected] are the flags [bEffectedChannel] of the
    channels of [sc_bcn]. *)
Record scan_cfg := mk_scfg {
  sc_bcn : bcn_cfg; sc_rssi : rssi_cfg; bBssCoexEnable : bool; sc_effected : list bool; sc_delay : Z
}.

(** The members of an entry that BSS_ENTRY leaves out. *)
Record entry_rest := mk_erest { PTSF : list Z; TTSF : list Z; MinSNR : Z; MacAddr : list Z }.

(** What the kernel is told: the index of the entry, the channel, the frame and
    its signal. *)
Record scan_inform := mk_inform { in_Idx : option nat; in_Channel : Z; in_frame : list Z; in_Rssi : Z }.

(** The scan table with the buffers of its entries, the events, the mode the
    own access point is forced to, and what was written and told. *)
Record scan_state := mk_scan {
  sc_cx : bss_ctx; ScanTab : BSS_TABLE; sc_bufs : list (list Z); TriggerEventTab : TRIGGER_EVENT_TAB; sc_peer : option Z;
  sc_rest : list (nat * entry_rest); sc_informs : list scan_inform
}.

(** The outcomes of the allocations and what the new memory holds; [al_wsc] is
    the buffer of the parser. *)
Record scan_alloc := mk_sal { al_list : bool; al_vie : option (list Z); al_wsc : option (list Z) }.

(** The channel of the network is one that 40 MHz operation would cover. *)
Fixpoint effected (chans : list Z) (flags : list bool) (ch : Z) : bool :=
  match chans, flags with
  | c :: chans, f :: flags => if ch =? c then f else effected chans flags ch
  | _, _ => false
  end.

Definition coex_check (cfg : scan_cfg) (e : scan_elem) (ie : BCN_IE_LIST) (t : TRIGGER_EVENT_TAB) : option TRIGGER_EVENT_TAB :=
  let ch := bcn_Channel ie in
  if cf_infra_on (sc_bcn cfg) && bBssCoexEnable cfg && (0 <? ch) && (ch <=? 14) && effected (cf_ChannelList (sc_bcn cfg)) (sc_effected cfg) ch then
    '(_, _, RegClass) ← PeerBeaconAndProbeRspSanity2 (el_Msg e) (el_MsgLen e);
    TriEventTableSetEntry (sc_delay cfg) t (bcn_Bssid ie) (bcn_HtCapability ie) (bcn_HtCapabilityLen ie) RegClass ch
  else Some t.

(** The elements of a probe response are kept in the buffer of the entry. *)
Definition keep_probe (e : scan_elem) (LenVIE : Z) (vie : list Z) (b : BSS_ENTRY) (B : list (list Z)) : option (BSS_ENTRY * list (list Z)) :=
  if (fc_SubType (el_Msg e) =? SUBTYPE_PROBE_RSP) && negb (LenVIE =? 0) then
    let with_len n := mk_bss (be_id b) (be_cap b) (be_ht b) (be_sec b) (be_ies b) (be_qos b) (be_rx b) n (pVarIeFromProbRsp b) in
    match pVarIeFromProbRsp b with
    | None => Some (with_len 0, B)
    | Some k =>
        _ ← B !! k;
        d ← move_mem (zeros MAX_VIE_LEN) 0 vie 0 (Z.to_nat LenVIE);
        Some (with_len LenVIE, <[k := d]> B)
    end
  else Some (b, B).

(** Both halves of [TTSF] are the low part of the time. *)
Definition rest_of (e : scan_elem) (x : bcn_extra) : entry_rest :=
  let snr := el_Signal e `mod` 10 in
  mk_erest (take 4 (drop 24 (el_Msg e))) (take 4 (el_TimeLow e) ++ take 4 (el_TimeLow e)) (if snr =? 0 then -5 else snr) (take 6 (x_Addr2 x)).

Definition set_HtLen (x : bcn_extra) (ie : BCN_IE_LIST) : BCN_IE_LIST :=
  if (0 <? bcn_HtCapabilityLen ie) || (0 <? x_PreNHtCapabilityLen x) then set_bcn_ht (bcn_HtCapability ie) (Z.of_nat SIZE_HT_CAP_IE) ie else ie.

Definition scan_rssi (cfg : scan_cfg) (e : scan_elem) : Z :=
  let r := sc_rssi cfg in
  RTMPMaxRssi r (ConvertToRssi r (s8 (el_Rssi0 e)) 0) (ConvertToRssi r (s8 (el_Rssi1 e)) 1) (ConvertToRssi r (s8 (el_Rssi2 e)) 2).

Definition PeerBeaconAtScanAction (al : scan_alloc) (Now : Z) (cfg : scan_cfg) (e : scan_elem) (st : scan_state) : option scan_state :=
  if negb (al_list al) then Some st
  else
    match al_vie al with
    | None => Some st
    | Some vie0 =>
        '(ok, s) ← PeerBeaconAndProbeRspSanity (sc_bcn cfg) (el_Msg e) (el_MsgLen e) (el_Channel e) zero_bcn zero_bx (<[1%nat := 0]> vie0) (al_wsc al) (sc_peer st);
        let peer := peer_op_mode s in
        if (ok : bool) then
          _ ← BssTableSearch (ScanTab st) (bcn_Bssid (ps_ie s)) (bcn_Channel (ps_ie s));
          let Rssi := scan_rssi cfg e in
          '(Idx, T, h, cx) ← BssTableSetEntry (sc_cx st) (ScanTab st) (mk_heard (set_HtLen (ps_x s) (ps_ie s)) Rssi (LengthVIE s) (pVIE s) Now);
          tri ← coex_check cfg e (h_ie h) (TriggerEventTab st);
          '(T, B, rest) ← (match Idx with
                           | Some i =>
                               b ← BssEntry T !! i;
                               '(b, B) ← keep_probe e (LengthVIE s) (pVIE s) b (sc_bufs st);
                               Some (set_entry T i b, B, [(i, rest_of e (ps_x s))])
                           | None => Some (T, sc_bufs st, [])
                           end);
          Some (mk_scan cx T B tri peer (sc_rest st ++ rest)
                  (sc_informs st ++ [mk_inform Idx (el_Channel e) (take (Z.to_nat (el_MsgLen e)) (el_Msg e)) Rssi]))
        else Some (mk_scan (sc_cx st) (ScanTab st) (sc_bufs st) (TriggerEventTab st) peer (sc_rest st) (sc_informs st))
    end.

(** * Kinds of networks *)

Inductive NDIS_802_11_NETWORK_TYPE :=
| Ndis802_11FH | Ndis802_11DS | Ndis802_11OFDM5 | Ndis802_11OFDM24 | Ndis802_11Automode | Ndis802_11OFDM5_N | Ndis802_11OFDM24_N
| Ndis802_11OFDM5_AC.

(** A loop over the first [n] rates that are read of [rates]. *)
Definition cck_only (rates : list Z) (n : Z) : bool :=
  forallb (λ i, let rate := Z.land (aget rates (Z.of_nat i)) 0x7f in (rate =? 2) || (rate =? 4) || (rate =? 11) || (rate =? 22)) (seq 0 (Z.to_nat n)).

(** The second loop reads the supported rates again. *)
Definition NetworkTypeInUseSanity (b : BSS_ENTRY) : NDIS_802_11_NETWORK_TYPE :=
  let cap := be_cap b in
  let t :=
    if be_Channel (be_id b) <=? 14 then
      if negb (cck_only (be_SupRate cap) (be_SupRateLen cap)) then Ndis802_11OFDM24
      else if negb (cck_only (be_SupRate cap) (be_ExtRateLen cap)) then Ndis802_11OFDM24
      else Ndis802_11DS
    else Ndis802_11OFDM5 in
  if negb (be_HtCapabilityLen (be_ht b) =? 0) then
    match t with
    | Ndis802_11OFDM5 => if negb (be_vht_cap_len (be_ht b) =? 0) then Ndis802_11OFDM5_AC else Ndis802_11OFDM5_N
    | _ => Ndis802_11OFDM24_N
    end
  else t.
