(* ===== verification/ScanBeaconClaims.v ===== *)
(** The properties of the scan: beacons reach the table of networks, signal
    strengths, the events that forbid 40 MHz channels. *)

From stdpp Require Import gmap list.
From S2P Require Import Prelude BaReorder MacTable WpaKeys Eapol StaAuth Mlme BssEntry BssEntryProofs BssTable BssTableProofs BssTableClaims BeaconSanity BeaconSanityProofs BeaconElements BeaconClaims ScanBeacon.

(** * From frames to entries *)

(** The elements in the buffer of the parser. *)
Definition kept_vies (vs : list vie) (q : list Z) : list vie :=
  filter (λ v, kept v = true) vs ++ if bool_decide (q = []) then [] else [Vie_vendor (WPS_OUI ++ q)].

Lemma kept_vies_enc vs q : (length q ≤ 251)%nat →
  concat (map vie_enc (kept_vies vs q)) = concat (map vie_enc (filter (λ v, kept v = true) vs)) ++
    if bool_decide (q = []) then [] else [0xdd; u8 (Z.of_nat (length q) + 4)] ++ WPS_OUI ++ q.
Proof.
  intros Hq. unfold kept_vies. rewrite map_app, concat_app. f_equal. destruct (bool_decide _); [done|]. cbn [map concat]. rewrite app_nil_r.
  unfold vie_enc. cbn [vie_eid vie_body]. rewrite length_app. change (length WPS_OUI) with 4%nat. rewrite wrap_id by (lia || (unfold in_range; lia)).
  replace (Z.of_nat (4 + length q)) with (Z.of_nat (length q) + 4) by lia. done.
Qed.

Lemma kept_vies_ok c vs q : Forall (elem_ok c) vs → (length q ≤ 251)%nat → Forall vie_ok (kept_vies vs q).
Proof.
  intros Hv Hq. apply Forall_app. split.
  - apply Forall_forall. intros v Hin. apply list_elem_of_filter in Hin as [_ Hin]. rewrite Forall_forall in Hv. by apply Hv.
  - destruct (bool_decide _); [done|]. apply Forall_singleton.
    assert (HL : length (WPS_OUI ++ q) = (4 + length q)%nat) by by rewrite length_app.
    split; [cbn [vie_body]; lia|]. split; [lia|]. split; [done|by left].
Qed.

Lemma kept_vies_country vs q : Forall country_ok vs → Forall country_ok (kept_vies vs q).
Proof.
  intros Hv. apply Forall_app. split; [apply Forall_forall; intros v [_ Hin]%list_elem_of_filter; rewrite Forall_forall in Hv; by apply Hv|]. by destruct (bool_decide _); repeat constructor.
Qed.

(** Whether there is a country element. *)
Definition has_country (vs : list vie) : bool := existsb (λ v, vie_eid v =? IE_COUNTRY) vs.

Lemma keep_country k v : (keep k v).2.2 = k.2.2 || (vie_eid v =? IE_COUNTRY).
Proof.
  destruct k as [[[wpa rsn] wps] [cs has]]. destruct v as [e b|b| |]; cbn [keep vie_eid]; [destruct (e =? IE_COUNTRY)|destruct (bool_decide _)| |];
    cbn; by rewrite ?orb_true_r, ?orb_false_r.
Qed.

Lemma fold_country vs : ∀ k, (fold_left keep vs k).2.2 = k.2.2 || has_country vs.
Proof.
  induction vs as [|v vs IH]; intros k; cbn [fold_left has_country existsb]; [by rewrite orb_false_r|]. by rewrite IH, keep_country, orb_assoc.
Qed.

Lemma kept_country vs q : has_country (kept_vies vs q) = has_country vs.
Proof.
  unfold kept_vies, has_country. rewrite existsb_app.
  replace (existsb _ (if bool_decide (q = []) then [] else _)) with false by (by destruct (bool_decide _)). rewrite orb_false_r.
  induction vs as [|v vs IH]; [done|]. rewrite filter_cons. cbn [existsb]. destruct (decide (kept v = true)) as [Hk|Hk]; [cbn [existsb]; by rewrite IH|].
  rewrite IH. replace (vie_eid v =? IE_COUNTRY) with false; [done|]. destruct v as [e b|b| |]; [|done..]. cbn [vie_eid].
  destruct (Z.eqb_spec e IE_COUNTRY) as [->|]; [|done]. by destruct Hk.
Qed.

Lemma set_HtLen_ok x ie : bcn_ok ie → bcn_ok (set_HtLen x ie).
Proof. intros H. unfold set_HtLen. destruct (_ || _); [|done]. destruct H. split; try done. split; [tauto|done]. Qed.

Lemma set_HtLen_fields x ie : bcn_Bssid (set_HtLen x ie) = bcn_Bssid ie ∧ bcn_Ssid (set_HtLen x ie) = bcn_Ssid ie ∧ bcn_SsidLen (set_HtLen x ie) = bcn_SsidLen ie ∧
  bcn_Channel (set_HtLen x ie) = bcn_Channel ie ∧ bcn_CapabilityInfo (set_HtLen x ie) = bcn_CapabilityInfo ie ∧ bcn_BssType (set_HtLen x ie) = bcn_BssType ie.
Proof. unfold set_HtLen. by destruct (_ || _). Qed.

(** What the parser found is what the table takes. *)
Lemma heard_of_parsed c vs m MsgLen s q rssi now : frame c vs m MsgLen → parsed vs m MsgLen s → reassemble [] (wps_payloads vs) = Some q → (length q ≤ 251)%nat →
  Forall country_ok vs → CAP_IS_ESS_ON (bcn_CapabilityInfo (ps_ie s)) = true →
  heard_ok (kept_vies vs q) (mk_heard (set_HtLen (ps_x s) (ps_ie s)) rssi (LengthVIE s) (pVIE s) now).
Proof.
  intros HF HP Hq Lq Hcs HE. destruct (pd_len _ _ _ _ HP) as (HL & LV & BV). pose proof (pd_vie _ _ _ _ HP q Hq) as HV. rewrite <- (kept_vies_enc vs q Lq) in HV.
  pose proof (fr_short _ _ _ _ HF) as HS. destruct (set_HtLen_ok (ps_x s) _ (pd_ok _ _ _ _ HP)) as [S1 S2 S3 S4 S5 S6 S7 S8 S9].
  destruct (set_HtLen_fields (ps_x s) (ps_ie s)) as (_ & _ & _ & _ & _ & FT).
  split; cbn [h_ie h_LengthVIE h_VIE]; try done; try tauto.
  - rewrite FT, (pd_type _ _ _ _ HP), HE. done.
  - apply (kept_vies_ok c); [apply HF|done].
  - by apply kept_vies_country.
  - rewrite <- HV, length_take. lia.
  - exists (drop (Z.to_nat (LengthVIE s)) (pVIE s)). rewrite <- HV. split; [by rewrite take_drop|]. split; [by apply bytes_drop|]. split; [|done].
    rewrite length_drop. unfold MAX_VIE_LEN in *. lia.
Qed.

(** An entry is replaced by one with the same key. *)
Lemma replace_entry T i old new : table_wf T → (i < Z.to_nat (BssNr T))%nat → BssEntry T !! i = Some old → entry_ok new → bss_key new = bss_key old →
  table_wf (set_entry T i new) ∧ networks (set_entry T i new) = <[bss_key new := core new]> (networks T).
Proof.
  intros HT Hi Ho Hok Hk. unfold set_entry. destruct (wf_insert T i new (BssNr T) (BssOverlapNr T) old HT Ho (tw_ov _ HT)) as [H1 H2]; [by left|done| |].
  - intros j e Hj Hji He Hke. apply Hji. apply (tw_keys _ HT j i e old); [done..|congruence].
  - split; [done|]. rewrite H2, decide_True, Hk by done. apply insert_delete_eq.
Qed.

Lemma keep_probe_ok e LenVIE vie b B : length vie = MAX_VIE_LEN → 0 ≤ LenVIE ≤ Z.of_nat MAX_VIE_LEN → (∀ k, pVarIeFromProbRsp b = Some k → (k < length B)%nat) → entry_ok b →
  ∃ b' B', keep_probe e LenVIE vie b B = Some (b', B') ∧ entry_ok b' ∧ be_id b' = be_id b ∧ be_sec b' = be_sec b ∧ be_rx b' = be_rx b ∧ be_ies b' = be_ies b ∧
    (fc_SubType (el_Msg e) = SUBTYPE_PROBE_RSP → LenVIE ≠ 0 → is_Some (pVarIeFromProbRsp b) → probe_ies B' b' = Some (take (Z.to_nat LenVIE) vie)).
Proof.
  intros Lv HL Hp Hok. unfold keep_probe. destruct (Z.eqb_spec (fc_SubType (el_Msg e)) SUBTYPE_PROBE_RSP) as [Hs|Hs], (Z.eqb_spec LenVIE 0) as [H0|H0]; cbn [andb negb];
    try (exists b, B; repeat (split; [done|]); intros; done).
  destruct (pVarIeFromProbRsp b) as [k|] eqn:Ep.
  - destruct (lookup_lt_is_Some_2 B k (Hp k eq_refl)) as [old Eo]. rewrite Eo. cbn [mbind option_bind].
    destruct (move_mem_zeros vie (Z.to_nat LenVIE)) as (d & -> & Ld & Td); [lia..|done|]. cbn [mbind option_bind]. eexists _, _. split; [done|].
    split; [by destruct Hok; split|]. repeat (split; [done|]). intros _ _ _. unfold probe_ies. cbn [pVarIeFromProbRsp mbind option_bind].
    rewrite list_lookup_insert_eq by by apply Hp. cbn [mbind option_bind VarIeFromProbeRspLen]. by rewrite Td.
  - eexists _, _. split; [done|]. split; [by destruct Hok; split|]. repeat (split; [done|]). by intros _ _ [? ?].
Qed.

(** Only the WPA and RSN elements matter for the security of a network. *)
Lemma kept_effect vs q : ∀ s, fold_left vie_effect (kept_vies vs q) s = fold_left vie_effect vs s.
Proof.
  unfold kept_vies. assert (HQ : ∀ s, fold_left vie_effect (if bool_decide (q = []) then [] else [Vie_vendor (WPS_OUI ++ q)]) s = s) by (intros; by destruct (bool_decide _)).
  induction vs as [|v vs IH]; intros s; [apply HQ|]. rewrite filter_cons. cbn [fold_left]. destruct (decide (kept v = true)) as [Hk|Hk]; [apply IH|].
  rewrite IH. by destruct v.
Qed.

(** * Coexistence of channel widths *)

Definition events_ok (t : TRIGGER_EVENT_TAB) : Prop := length (EventA t) = MAX_TRIGGER_EVENT ∧ 0 ≤ EventANo t ≤ Z.of_nat MAX_TRIGGER_EVENT.

Lemma coex_loop_total m MsgLen : bytes m → MsgLen + 2 ≤ Z.of_nat (length m) → ∀ fuel p r, (p + 2 ≤ length m)%nat → (length m ≤ p + fuel)%nat →
  length r.1.2 = SIZE_OVERLAP_BSS_SCAN_IE → ∃ r', coex_loop fuel m MsgLen p r = Some r'.
Proof.
  intros Hm HM. induction fuel as [|fuel IH]; intros p [[brc scan] reg] Hp Hf Hr; [lia|]. cbn [coex_loop fst snd] in *.
  destruct (byte_at m (p + 1) Hm ltac:(lia)) as (Len & -> & [H0 H1]). cbn [mbind option_bind]. destruct (Z.leb_spec (Z.of_nat p + 2 + Len) MsgLen); [|by eexists].
  destruct (byte_at m p Hm ltac:(lia)) as (Eid & -> & _). cbn [mbind option_bind].
  assert (HN : ∀ r, length r.1.2 = SIZE_OVERLAP_BSS_SCAN_IE → ∃ r', coex_loop fuel m MsgLen (p + 2 + Z.to_nat Len) r = Some r') by (intros r Hr'; apply IH; [lia|lia|done]).
  destruct (Eid =? IE_SUPP_REG_CLASS).
  { destruct (Z.ltb_spec 0 Len); [|by apply HN]. destruct (byte_at m (p + 2) Hm ltac:(lia)) as (k & -> & _). by apply HN. }
  destruct (Eid =? IE_OVERLAPBSS_SCAN_PARM); [|by apply HN]. destruct (Z.eqb_spec Len (Z.of_nat SIZE_OVERLAP_BSS_SCAN_IE)) as [HL|]; [|by apply HN].
  destruct (move_len scan 0 m (p + 2) SIZE_OVERLAP_BSS_SCAN_IE) as (d & -> & Ld); [unfold SIZE_OVERLAP_BSS_SCAN_IE in *; lia|lia|]. cbn [mbind option_bind]. apply HN. cbn. congruence.
Qed.

Lemma tri_total delay t Bssid ht len reg ch : events_ok t → ∃ t', TriEventTableSetEntry delay t Bssid ht len reg ch = Some t' ∧ events_ok t'.
Proof.
  intros [HL HN]. unfold TriEventTableSetEntry. destruct (len =? 0); [|destruct (Forty_Mhz_Intolerant ht); by eexists].
  destruct (existsb _ _); [by eexists|]. destruct (Z.ltb_spec (EventANo t) (Z.of_nat MAX_TRIGGER_EVENT)); [|by eexists].
  destruct (lookup_lt_is_Some_2 (EventA t) (Z.to_nat (EventANo t)) ltac:(lia)) as [x ->]. cbn [mbind option_bind]. eexists. split; [done|].
  split; cbn; [by rewrite length_insert|]. rewrite wrap_id; unfold in_range, MAX_TRIGGER_EVENT in *; lia.
Qed.

Lemma coex_total cfg e ie t : bytes (el_Msg e) → el_MsgLen e + 2 ≤ Z.of_nat (length (el_Msg e)) → (38 ≤ length (el_Msg e))%nat → events_ok t →
  ∃ t', coex_check cfg e ie t = Some t' ∧ events_ok t'.
Proof.
  intros Hm HM H38 Ht. unfold coex_check. destruct (_ && _); [|by eexists]. unfold PeerBeaconAndProbeRspSanity2.
  destruct (coex_loop_total (el_Msg e) (el_MsgLen e) Hm HM (length (el_Msg e)) 36 (false, zeros SIZE_OVERLAP_BSS_SCAN_IE, 0)) as ([[b1 b2] reg] & ->); [lia..|done|].
  cbn [mbind option_bind]. by apply tri_total.
Qed.

(** * Scanning *)

(** A beacon or probe response of an access point with elements [vs], whose WPS
    payload is [q], whose name is [n] and whose channel is [ch], and the
    allocations succeed. *)
Record heard_frame (al : scan_alloc) (cfg : scan_cfg) (e : scan_elem) (vs : list vie) (q n : list Z) (ch Cap : Z) : Prop := {
  hf_alloc : ∃ vie0 w, al = mk_sal true (Some vie0) (Some w) ∧
    args_ok (sc_bcn cfg) (el_Msg e) (el_MsgLen e) (el_Channel e) zero_bcn zero_bx (<[1%nat := 0]> vie0) (Some w);
  hf_frame : frame (sc_bcn cfg) vs (el_Msg e) (el_MsgLen e);
  hf_ok : acceptable (sc_bcn cfg) vs = true;
  hf_wps : reassemble [] (wps_payloads vs) = Some q ∧ (length q ≤ 251)%nat;
  hf_name : head (bodies IE_SSID vs) = Some n;
  hf_chan : last (omap head (bodies IE_DS_PARM vs)) = Some ch;
  hf_cap : get16 (el_Msg e) 34 = Some Cap ∧ CAP_IS_ESS_ON Cap = true;
  hf_country : Forall country_ok vs
}.

(** The table is in order, its entries' buffers exist. *)
Record scan_ok (st : scan_state) : Prop := {
  so_tab : table_wf (ScanTab st);
  so_bufs : ptrs_ok (BssEntry (ScanTab st)) (sc_bufs st);
  so_events : events_ok (TriggerEventTab st)
}.

(** What the entry of the network says. *)
Record recorded (cfg : scan_cfg) (e : scan_elem) (Now : Z) (vs : list vie) (n : list Z) (ch Cap : Z) (b : BSS_ENTRY) : Prop := {
  re_chan : be_Channel (be_id b) = ch ∧ be_BssType (be_id b) = BSS_INFRA;
  re_ssid : (0 < length n)%nat → n ≠ zeros (length n) → take (Z.to_nat (be_SsidLen (be_id b))) (be_Ssid (be_id b)) = n ∧ be_Hidden (be_id b) = 0;
  re_rx : Rssi (be_rx b) = scan_rssi cfg e ∧ LastBeaconRxTime (be_rx b) = Now;
  re_country : bHasCountryIE (be_ies b) = has_country vs;
  re_sec : ∃ ses, be_sec b = fold_left vie_effect vs (sec_start (CAP_IS_PRIVACY_ON Cap) ses)
}.

Lemma recorded_of_filled cfg e Now vs q n ch Cap s old new : parsed vs (el_Msg e) (el_MsgLen e) s → head (bodies IE_SSID vs) = Some n →
  last (omap head (bodies IE_DS_PARM vs)) = Some ch → get16 (el_Msg e) 34 = Some Cap → CAP_IS_ESS_ON Cap = true → entry_ok old →
  filled (kept_vies vs q) (mk_heard (set_HtLen (ps_x s) (ps_ie s)) (scan_rssi cfg e) (LengthVIE s) (pVIE s) Now) old new → recorded cfg e Now vs n ch Cap new.
Proof.
  intros HP Hn Hch HC HE Ho HF. destruct (set_HtLen_fields (ps_x s) (ps_ie s)) as (F1 & F2 & F3 & F4 & F5 & F6).
  pose proof (pd_cap _ _ _ _ HP) as HCap. rewrite HC in HCap. injection HCap as HCap. pose proof (pd_ssid _ _ _ _ HP n Hn) as Hname.
  destruct (bo_ssid _ (pd_ok _ _ _ _ HP)) as [Ls Lr]. split.
  - destruct (fi_channel _ _ _ _ HF) as [-> ->]. cbn [h_ie]. rewrite F4, F6, (pd_type _ _ _ _ HP), HCap, HE. split; [by apply (pd_chan _ _ _ _ HP)|done].
  - intros H0 Hz. pose proof (fi_ssid _ _ _ _ HF) as HS. cbn [h_ie] in HS.
    destruct (set_ssid_total (be_id old) (set_HtLen (ps_x s) (ps_ie s))) as (sn & k & hid & HS' & _ & _ & HA & _); [apply Ho|apply Ho|by rewrite F2|by rewrite F3|].
    rewrite HS in HS'. injection HS' as <- <- <-. rewrite F2, F3, Hname in HA.
    assert (HLn : length n = Z.to_nat (bcn_SsidLen (ps_ie s))) by (rewrite <- Hname, length_take; lia).
    destruct HA as (-> & HN & ->); [lia|by rewrite <- HLn|]. split; [by rewrite HN|done].
  - exact (fi_rx _ _ _ _ HF).
  - pose proof (f_equal (λ k : kept_ies, k.2.2) (fi_ies _ _ _ _ HF)) as Hc. cbn [snd] in Hc. by rewrite Hc, fold_country, kept_country.
  - rewrite (fi_sec _ _ _ _ HF), kept_effect. cbn [h_ie]. rewrite F5, HCap. by eexists.
Qed.

Lemma recorded_same cfg e Now vs n ch Cap b b' : be_id b' = be_id b → be_sec b' = be_sec b → be_rx b' = be_rx b → be_ies b' = be_ies b →
  recorded cfg e Now vs n ch Cap b → recorded cfg e Now vs n ch Cap b'.
Proof. intros E1 E2 E3 E4 [H1 H2 H3 H4 H5]. by split; rewrite ?E1, ?E2, ?E3, ?E4. Qed.

Lemma entered_in vs h T T' i b old new : table_wf T' → entered vs h T T' i b old new → (i < Z.to_nat (BssNr T'))%nat.
Proof.
  intros HT HE. destruct (search_key T' (bcn_Bssid (h_ie h)) (bcn_Channel (h_ie h)) HT) as (r & Er & Hr).
  rewrite (en_found _ _ _ _ _ _ _ _ HE) in Er. injection Er as <-. apply Hr.
Qed.

(** C26: A scan records the networks it hears.  Take a beacon or probe response
    of an access point made of well-formed elements (their lengths those of the
    standard, the channel one of the station's, a country of three letters at
    least), with a name, rates and a channel, of at most 1058 bytes and with a
    WPS payload of at most 251 bytes in all; its network is known or there is
    room for it; and the three allocations of the function succeed.  Then an
    entry for the network is in the table and no other one is changed; the
    entry has the channel, the name (unless it is hidden), the signal strength,
    the ciphers and key managements of the WPA and RSN elements of the frame
    and the mark of a country element, the table stays in order, and the kernel
    is told of the frame. *)
Theorem scan_records_network al Now cfg e st vs q n ch Cap :
  heard_frame al cfg e vs q n ch Cap → scan_ok st →
  let k := key_of (take 6 (drop 16 (el_Msg e))) ch in
  is_Some (networks (ScanTab st) !! k) ∨ BssNr (ScanTab st) < Z.of_nat MAX_LEN_OF_BSS_TABLE →
  ∃ st' i b, PeerBeaconAtScanAction al Now cfg e st = Some st' ∧ table_wf (ScanTab st') ∧
    networks (ScanTab st') = <[k := b]> (networks (ScanTab st)) ∧ recorded cfg e Now vs n ch Cap b ∧
    sc_informs st' = sc_informs st ++ [mk_inform (Some i) (el_Channel e) (take (Z.to_nat (el_MsgLen e)) (el_Msg e)) (scan_rssi cfg e)].
Proof.
  intros [(vie0 & w & -> & HA) HF Hacc [Hq Lq] Hn Hch [HC HE] Hcs] [HT HB HV] k Hroom.
  destruct (parse_spec _ vs _ _ _ _ _ _ w (sc_peer st) HA HF) as (s & EP & HP). rewrite Hacc in EP.
  unfold PeerBeaconAtScanAction. cbn [al_list al_vie al_wsc negb]. rewrite EP. cbn [mbind option_bind].
  destruct (search_key (ScanTab st) (bcn_Bssid (ps_ie s)) (bcn_Channel (ps_ie s)) HT) as (fnd & -> & _). cbn [mbind option_bind].
  pose proof (pd_cap _ _ _ _ HP) as HCap. rewrite HC in HCap. injection HCap as HCap.
  pose proof (heard_of_parsed _ _ _ _ _ _ (scan_rssi cfg e) Now HF HP Hq Lq Hcs ltac:(by rewrite HCap)) as Hh. set (h := mk_heard _ _ _ _ Now) in *.
  destruct (set_HtLen_fields (ps_x s) (ps_ie s)) as (F1 & _ & _ & F4 & _).
  assert (Hk : key_of (bcn_Bssid (h_ie h)) (bcn_Channel (h_ie h)) = k)
    by (unfold k, h; cbn [h_ie]; by rewrite F1, F4, (pd_bssid _ _ _ _ HP), (pd_chan _ _ _ _ HP ch Hch)).
  rewrite <- Hk in Hroom. destruct (set_entry_room (sc_cx st) (ScanTab st) h _ HT Hh Hroom) as (i & T' & h' & cx' & old & new & ES & HEn & _ & HN).
  rewrite ES. cbn [mbind option_bind]. pose proof (wf_set _ _ _ _ _ _ _ HT (ho_ssid _ _ Hh) ES) as HT'. pose proof (entered_in _ _ _ _ _ _ _ _ HT' HEn) as Hi.
  destruct (ao_buf _ _ _ _ _ _ _ _ HA) as [HB1 HB2].
  destruct (coex_total cfg e (h_ie h') (TriggerEventTab st) (ao_m _ _ _ _ _ _ _ _ HA) ltac:(lia) ltac:(lia) HV) as (t' & -> & _). cbn [mbind option_bind].
  destruct HEn as [Eo En HFi _]. rewrite En. cbn [mbind option_bind]. destruct (pd_len _ _ _ _ HP) as (HL & LV & _). pose proof (fr_short _ _ _ _ HF) as HS.
  destruct (keep_probe_ok e (LengthVIE s) (pVIE s) new (sc_bufs st)) as (b' & B' & -> & Hok & Eid & Esec & Erx & Eies & _);
    [done|lia|rewrite (proj1 (fi_buf _ _ _ _ HFi)); by apply (Forall_lookup_1 _ _ _ _ HB Eo)|apply HFi|]. cbn [mbind option_bind].
  assert (Hkb : bss_key b' = bss_key new) by (unfold bss_key; by rewrite Eid).
  destruct (replace_entry T' i new b' HT' Hi En Hok Hkb) as [HW HNw]. eexists _, i, (core b'). split; [done|]. split; [done|].
  split; [cbn [ScanTab]; by rewrite HNw, HN, Hkb, (fi_id _ _ _ _ HFi), Hk, insert_insert_eq|]. split; [|done].
  apply (recorded_same _ _ _ _ _ _ _ new); [done..|]. by apply (recorded_of_filled cfg e Now vs q n ch Cap s old); [..|by apply (tw_entries _ HT i)|].
Qed.

(** ** A scan *)

Definition demo_scfg : scan_cfg := mk_scfg example_cfg (mk_rcfg MT76x2 0 6 6 0 0 0 0 [0; 0; 0] [0; 0; 0] 2) false (replicate 13 false) 0.
Definition demo_selem : scan_elem := mk_selem example_frame 92 206 196 0 17 6 [1; 2; 3; 4].
Definition demo_alloc : scan_alloc := mk_sal true (Some (zeros MAX_VIE_LEN)) (Some (zeros MAX_WSC_LEN)).
Definition demo_scan : scan_state :=
  mk_scan demo_ctx demo_table demo_bufs (mk_tev 0 (replicate MAX_TRIGGER_EVENT (mk_eva false (zeros 6) 0 0)) 0) None [] [].

Lemma demo_heard_frame : heard_frame demo_alloc demo_scfg demo_selem example_elems [0x10; 0x4a; 0; 1; 0x10; 0x44; 0; 1; 2] [65; 66] 6 17.
Proof.
  split; try reflexivity.
  - exists (zeros MAX_VIE_LEN), (zeros MAX_WSC_LEN). split; [done|]. replace (<[1%nat := 0]> (zeros MAX_VIE_LEN)) with (zeros MAX_VIE_LEN) by reflexivity.
    apply example_args; [apply length_zeros|apply bytes_zeros].
  - apply example_is_frame.
  - split; [reflexivity|apply Nat.leb_le; reflexivity].
  - split; reflexivity.
  - by repeat constructor.
Qed.

Lemma demo_scan_ok : scan_ok demo_scan.
Proof. split; [apply demo_table_wf|apply bufs_wf_ptrs, demo_bufs_wf|split; [apply length_replicate|done]]. Qed.

Lemma scan_records_network_witness : ∃ st' b, PeerBeaconAtScanAction demo_alloc 1000 demo_scfg demo_selem demo_scan = Some st' ∧
  networks (ScanTab st') !! key_of [2; 0; 0; 0; 0; 1] 6 = Some b ∧ Rssi (be_rx b) = -50 ∧ be_AuthMode (be_sec b) = Ndis802_11AuthModeWPA2PSK.
Proof.
  destruct (scan_records_network demo_alloc 1000 demo_scfg demo_selem demo_scan example_elems [0x10; 0x4a; 0; 1; 0x10; 0x44; 0; 1; 2] [65; 66] 6 17
    demo_heard_frame demo_scan_ok) as (st' & i & b & H1 & _ & H2 & H3 & _); [right; reflexivity|].
  exists st', b. split; [exact H1|]. rewrite H2. split; [apply lookup_insert_eq|]. destruct H3 as [_ _ [H4 _] _ [ses H5]]. split; [rewrite H4; reflexivity|].
  rewrite H5. reflexivity.
Defined.

(** * What the code does besides *)

(** The upper half of [TTSF] is the lower half of the time again. *)
Example ttsf_repeats_low_part : TTSF (rest_of demo_selem zero_bx) = [1; 2; 3; 4; 1; 2; 3; 4].
Proof. reflexivity. Qed.

(** A network of the 802.11g standard that has its OFDM rates in the extended
    rates only is taken for an 802.11b one: the second loop reads the other
    array. *)
Definition g_entry : BSS_ENTRY :=
  mk_bss (mk_bid (zeros 6) 6 6 1 (zeros 32) 0 0)
    (mk_bcap 100 0 1 false (0, 0, 0, 0) ([130; 132; 139; 150] ++ zeros 8) 4 ([12; 24; 48; 108] ++ zeros 8) 4 0 0 (zeros 8))
    (be_ht zero_bss) (be_sec zero_bss) (be_ies zero_bss) (be_qos zero_bss) (be_rx zero_bss) 0 None.
Example ext_rates_not_looked_at : NetworkTypeInUseSanity g_entry = Ndis802_11DS ∧
  cck_only (be_ExtRate (be_cap g_entry)) (be_ExtRateLen (be_cap g_entry)) = false.
Proof. split; reflexivity. Qed.

(** The string of a country element is copied whatever its length: of an empty
    one it is the number, the length and the first byte of the next element. *)
Example short_country_reads_on :
  (λ k : kept_ies, k.2) <$> ie_walk 5 ([IE_COUNTRY; 0] ++ [IE_ERP; 1; 4] ++ zeros 5) 5 0 no_ies = Some ([IE_ERP; 1; 4], true).
Proof. reflexivity. Qed.
