(* ===== verification/RsnIe.v ===== *)
(** The WPA or RSN element of the station: src/common/cmm_wpa.c, RTMPMakeRSNIE
    and its parts RTMPMakeRsnIeCipher, RTMPMakeRsnIeAKM, RTMPMakeRsnIeCap, in the
    station build, and the PMKID that src/sta/assoc.c appends.

    The element is built in the array [StaCfg.RSN_IE], without its id and its
    length; [rsn_len] is the length so far.  A member of RSNIE, RSNIE2 and
    RSNIE_AUTH is its offset in the array. *)

From stdpp Require Import list.
From S2P Require Import Prelude MacTable Eapol StaAuth BssEntry BssEntryProofs.

(** * Constants *)

Definition Ndis802_11TKIPAESMix : Z := 8.
Definition Ndis802_11AuthModeWPA1WPA2 : Z := 8.
Definition Ndis802_11AuthModeWPA1PSKWPA2PSK : Z := 9.
Definition IE_WPA2 : Z := 48.
Definition WpaIe : Z := IE_WPA.
Definition Wpa2Ie : Z := IE_WPA2.
Definition MIX_CIPHER_NOTUSE : Z := 0x00.
Definition WPA_SUPPLICANT_DISABLE : Z := 0x00.
Definition WPA_SUPPLICANT_ENABLE : Z := 0x01.
Definition OUI_WPA_NONE_AKM : list Z := [0x00; 0x50; 0xF2; 0x00].
Definition OUI_WPA_VERSION : list Z := [0x00; 0x50; 0xF2; 0x01].
Definition OUI_WPA_WEP40 : list Z := [0x00; 0x50; 0xF2; 0x01].
Definition OUI_WPA_TKIP : list Z := [0x00; 0x50; 0xF2; 0x02].
Definition OUI_WPA_CCMP : list Z := [0x00; 0x50; 0xF2; 0x04].
Definition OUI_WPA_WEP104 : list Z := [0x00; 0x50; 0xF2; 0x05].
Definition OUI_WPA_8021X_AKM : list Z := [0x00; 0x50; 0xF2; 0x01].
Definition OUI_WPA_PSK_AKM : list Z := [0x00; 0x50; 0xF2; 0x02].
Definition OUI_WPA2_WEP40 : list Z := [0x00; 0x0F; 0xAC; 0x01].
Definition OUI_WPA2_TKIP : list Z := [0x00; 0x0F; 0xAC; 0x02].
Definition OUI_WPA2_CCMP : list Z := [0x00; 0x0F; 0xAC; 0x04].
Definition OUI_WPA2_8021X_AKM : list Z := [0x00; 0x0F; 0xAC; 0x01].
Definition OUI_WPA2_PSK_AKM : list Z := [0x00; 0x0F; 0xAC; 0x02].
Definition OUI_WPA2_WEP104 : list Z := [0x00; 0x0F; 0xAC; 0x05].
Definition MIX_CIPHER_WPA_TKIP_ON (x : Z) : bool := negb (Z.land x 0x08 =? 0).
Definition MIX_CIPHER_WPA_AES_ON (x : Z) : bool := negb (Z.land x 0x04 =? 0).
Definition MIX_CIPHER_WPA2_TKIP_ON (x : Z) : bool := negb (Z.land x 0x02 =? 0).
Definition MIX_CIPHER_WPA2_AES_ON (x : Z) : bool := negb (Z.land x 0x01 =? 0).

(** * The parts of the element *)

(** What is read of [StaCfg]. *)
Record rsn_cfg := mk_rsncfg { rc_GroupCipher : Z; rc_bMixCipher : bool; rc_WpaSupplicantUP : Z }.

(** [sizeof(RSNIE)], [sizeof(RSNIE2)], [sizeof(RSNIE_AUTH)], [sizeof(RSN_CAPABILITIES)] *)
Definition sizeof_RSNIE : Z := 16.
Definition sizeof_RSNIE2 : Z := 12.
Definition sizeof_RSNIE_AUTH : Z := 6.
Definition sizeof_RSN_CAPABILITIES : Z := 2.

(** A group cipher that is neither TKIP nor AES goes to [mcast]. *)
Definition wep_group (C : rsn_cfg) (mcast : nat) (wep40 wep104 pRsnIe : list Z) : list Z :=
  if negb (rc_GroupCipher C =? Ndis802_11TKIPEnable) && negb (rc_GroupCipher C =? Ndis802_11AESEnable) then
    if rc_GroupCipher C =? Ndis802_11GroupWEP40Enabled then bwrite pRsnIe mcast wep40
    else if rc_GroupCipher C =? Ndis802_11GroupWEP104Enabled then bwrite pRsnIe mcast wep104
    else pRsnIe
  else pRsnIe.

(** [mcast], [ucount] and [ucast[0]] at [o], [o + 4] and [o + 6]. *)
Definition put_suites (o : nat) (mcast : list Z) (ucount : Z) (ucast pRsnIe : list Z) : list Z :=
  bwrite (bwrite (bwrite pRsnIe o mcast) (o + 4) (le_bytes 2 ucount)) (o + 6) ucast.

(** The result is the array and [*rsn_len]. *)
Definition RTMPMakeRsnIeCipher (C : rsn_cfg) (ElementID WepStatus : Z) (bMixCipher : bool) (FlexibleCipher : Z) (pRsnIe : list Z)
    : list Z * Z :=
  if ElementID =? Wpa2Ie then
    let buf := bwrite pRsnIe 0 (le_bytes 2 1) in
    let '(buf, rsn_len) :=
      if WepStatus =? Ndis802_11TKIPEnable then (put_suites 2 OUI_WPA2_TKIP 1 OUI_WPA2_TKIP buf, sizeof_RSNIE2)
      else if WepStatus =? Ndis802_11AESEnable then
        (put_suites 2 (if bMixCipher then OUI_WPA2_TKIP else OUI_WPA2_CCMP) 1 OUI_WPA2_CCMP buf, sizeof_RSNIE2)
      else if WepStatus =? Ndis802_11TKIPAESMix then
        let '(ucast, buf, PairwiseCnt) :=
          if MIX_CIPHER_WPA2_TKIP_ON FlexibleCipher then
            if MIX_CIPHER_WPA2_AES_ON FlexibleCipher
            then (OUI_WPA2_TKIP, bwrite buf (Z.to_nat sizeof_RSNIE2) OUI_WPA2_CCMP, 2) else (OUI_WPA2_TKIP, buf, 1)
          else (OUI_WPA2_CCMP, buf, 1) in
        (put_suites 2 OUI_WPA2_TKIP PairwiseCnt ucast buf, sizeof_RSNIE2 + 4 * (PairwiseCnt - 1))
      else (buf, 0) in
    (wep_group C 2 OUI_WPA2_WEP40 OUI_WPA2_WEP104 buf, rsn_len)
  else
    let buf := bwrite (bwrite pRsnIe 0 OUI_WPA_VERSION) 4 (le_bytes 2 1) in
    let '(buf, rsn_len) :=
      if WepStatus =? Ndis802_11TKIPEnable then (put_suites 6 OUI_WPA_TKIP 1 OUI_WPA_TKIP buf, sizeof_RSNIE)
      else if WepStatus =? Ndis802_11AESEnable then
        (put_suites 6 (if bMixCipher then OUI_WPA_TKIP else OUI_WPA_CCMP) 1 OUI_WPA_CCMP buf, sizeof_RSNIE)
      else if WepStatus =? Ndis802_11TKIPAESMix then
        let '(ucast, buf, PairwiseCnt) :=
          if MIX_CIPHER_WPA_TKIP_ON FlexibleCipher then
            if MIX_CIPHER_WPA_AES_ON FlexibleCipher
            then (OUI_WPA_TKIP, bwrite buf (Z.to_nat sizeof_RSNIE) OUI_WPA_CCMP, 2) else (OUI_WPA_TKIP, buf, 1)
          else (OUI_WPA_CCMP, buf, 1) in
        (put_suites 6 OUI_WPA_TKIP PairwiseCnt ucast buf, sizeof_RSNIE + 4 * (PairwiseCnt - 1))
      else (buf, 0) in
    (wep_group C 6 OUI_WPA_WEP40 OUI_WPA_WEP104 buf, rsn_len).

(** The suite for [auth[0]]; [None] is [default: AkmCnt = 0]. *)
Definition akm_suite (ElementID AuthMode : Z) : option (list Z) :=
  if ElementID =? Wpa2Ie then
    if (AuthMode =? Ndis802_11AuthModeWPA2) || (AuthMode =? Ndis802_11AuthModeWPA1WPA2) then Some OUI_WPA2_8021X_AKM
    else if (AuthMode =? Ndis802_11AuthModeWPA2PSK) || (AuthMode =? Ndis802_11AuthModeWPA1PSKWPA2PSK) then Some OUI_WPA2_PSK_AKM
    else None
  else
    if (AuthMode =? Ndis802_11AuthModeWPA) || (AuthMode =? Ndis802_11AuthModeWPA1WPA2) then Some OUI_WPA_8021X_AKM
    else if (AuthMode =? Ndis802_11AuthModeWPAPSK) || (AuthMode =? Ndis802_11AuthModeWPA1PSKWPA2PSK) then Some OUI_WPA_PSK_AKM
    else if AuthMode =? Ndis802_11AuthModeWPANone then Some OUI_WPA_NONE_AKM
    else None.

Definition RTMPMakeRsnIeAKM (ElementID AuthMode : Z) (pRsnIe : list Z) (rsn_len : Z) : list Z * Z :=
  let o := Z.to_nat rsn_len in
  let '(buf, AkmCnt) :=
    match akm_suite ElementID AuthMode with Some s => (bwrite pRsnIe (o + 2) s, 1) | None => (pRsnIe, 0) end in
  (bwrite buf o (le_bytes 2 AkmCnt), u8 (rsn_len + (sizeof_RSNIE_AUTH + 4 * (AkmCnt - 1)))).

(** A station announces no capabilities: the field keeps its zeros. *)
Definition RTMPMakeRsnIeCap (ElementID : Z) (rsn_len : Z) : Z :=
  if ElementID =? WpaIe then rsn_len else u8 (rsn_len + sizeof_RSN_CAPABILITIES).

(** The array and [RSNIE_Len] after the call; [None] where it returns early
    and leaves them alone. *)
Definition RTMPMakeRSNIE (C : rsn_cfg) (AuthMode WepStatus : Z) : option (list Z * Z) :=
  let refused :=
    if negb (rc_WpaSupplicantUP C =? WPA_SUPPLICANT_DISABLE) then AuthMode <? Ndis802_11AuthModeWPA
    else negb (AuthMode =? Ndis802_11AuthModeWPAPSK) && negb (AuthMode =? Ndis802_11AuthModeWPA2PSK) &&
         negb (AuthMode =? Ndis802_11AuthModeWPANone) in
  if refused then None
  else
    let PrimaryRsnie :=
      if (AuthMode =? Ndis802_11AuthModeWPA) || (AuthMode =? Ndis802_11AuthModeWPAPSK) || (AuthMode =? Ndis802_11AuthModeWPANone) ||
         (AuthMode =? Ndis802_11AuthModeWPA1WPA2) || (AuthMode =? Ndis802_11AuthModeWPA1PSKWPA2PSK) then WpaIe else Wpa2Ie in
    let '(buf, p_offset) := RTMPMakeRsnIeCipher C PrimaryRsnie WepStatus (rc_bMixCipher C) MIX_CIPHER_NOTUSE (zeros MAX_LEN_OF_RSNIE) in
    let '(buf, p_offset) := RTMPMakeRsnIeAKM PrimaryRsnie AuthMode buf p_offset in
    Some (buf, RTMPMakeRsnIeCap PrimaryRsnie p_offset).

(** The PMKID that the association request appends:
    [*(PUSHORT)&RSN_IE[RSNIE_Len] = 1], the PMKID, [RSNIE_Len += 18]. *)
Definition append_PMKID (PMKID : list Z) (r : list Z * Z) : list Z * Z :=
  let '(buf, n) := r in
  (bwrite (bwrite buf (Z.to_nat n) (le_bytes 2 1)) (Z.to_nat n + 2) (take 16 PMKID), u8 (n + 18)).

(** * What the element says *)

(** The group cipher of the element: a WEP one of the network, else TKIP, but
    AES in AES mode without mixed ciphers. *)
Definition announced_group (C : rsn_cfg) (WepStatus : Z) : Z :=
  if rc_GroupCipher C =? Ndis802_11GroupWEP40Enabled then Ndis802_11GroupWEP40Enabled
  else if rc_GroupCipher C =? Ndis802_11GroupWEP104Enabled then Ndis802_11GroupWEP104Enabled
  else if (WepStatus =? Ndis802_11AESEnable) && negb (rc_bMixCipher C) then Ndis802_11AESEnable
  else Ndis802_11TKIPEnable.
Definition announced_pair (WepStatus : Z) : Z :=
  if WepStatus =? Ndis802_11TKIPEnable then Ndis802_11TKIPEnable else Ndis802_11AESEnable.

(** The types of the suites. *)
Definition suite_type (cipher : Z) : Z :=
  if cipher =? Ndis802_11GroupWEP40Enabled then 1 else if cipher =? Ndis802_11GroupWEP104Enabled then 5
  else if cipher =? Ndis802_11TKIPEnable then 2 else 4.

Definition is_wpa1 (AuthMode : Z) : bool := (AuthMode =? Ndis802_11AuthModeWPA) || (AuthMode =? Ndis802_11AuthModeWPAPSK).
Definition is_psk (AuthMode : Z) : bool := (AuthMode =? Ndis802_11AuthModeWPAPSK) || (AuthMode =? Ndis802_11AuthModeWPA2PSK).
Definition announced (C : rsn_cfg) (AuthMode WepStatus : Z) (tail : list Z) : vie :=
  let g := suite_type (announced_group C WepStatus) in
  let p := suite_type (announced_pair WepStatus) in
  let a := if is_psk AuthMode then 2 else 1 in
  if is_wpa1 AuthMode then Vie_wpa g [p] 1 a tail else Vie_rsn g [p] [a] 0 tail.

Lemma made_is C AuthMode WepStatus :
  AuthMode ∈ [Ndis802_11AuthModeWPA; Ndis802_11AuthModeWPAPSK; Ndis802_11AuthModeWPA2; Ndis802_11AuthModeWPA2PSK] →
  WepStatus ∈ [Ndis802_11TKIPEnable; Ndis802_11AESEnable; Ndis802_11TKIPAESMix] →
  rc_WpaSupplicantUP C ≠ WPA_SUPPLICANT_DISABLE ∨ is_psk AuthMode = true →
  let b := vie_body (announced C AuthMode WepStatus []) in
  RTMPMakeRSNIE C AuthMode WepStatus = Some (b ++ zeros (MAX_LEN_OF_RSNIE - length b), Z.of_nat (length b)).
Proof.
  intros HA HW HS. destruct C as [g mixed up]. unfold RTMPMakeRSNIE. cbn [rc_WpaSupplicantUP rc_bMixCipher] in *.
  destruct (Z.eqb_spec up WPA_SUPPLICANT_DISABLE) as [->|_]; [destruct HS as [[]|HS]; [done|]|];
  apply list_elem_of_In in HA, HW; cbn [In] in HA, HW; unfold announced, announced_group, RTMPMakeRsnIeCipher, wep_group; cbn [rc_GroupCipher rc_bMixCipher];
  destruct HA as [<-|[<-|[<-|[<-|[]]]]], HW as [<-|[<-|[<-|[]]]]; try discriminate HS; destruct mixed;
  destruct (Z.eqb_spec g Ndis802_11TKIPEnable) as [->|]; try reflexivity;
  destruct (Z.eqb_spec g Ndis802_11AESEnable) as [->|]; try reflexivity;
  destruct (Z.eqb_spec g Ndis802_11GroupWEP40Enabled) as [->|]; try reflexivity;
  destruct (Z.eqb_spec g Ndis802_11GroupWEP104Enabled) as [->|]; reflexivity.
Qed.

Lemma body_tail C AuthMode WepStatus t :
  vie_body (announced C AuthMode WepStatus t) = vie_body (announced C AuthMode WepStatus []) ++ t.
Proof. unfold announced. destruct (is_wpa1 AuthMode); cbn [vie_body]; by rewrite <- !app_assoc, ?app_nil_l. Qed.

Lemma body_length C AuthMode WepStatus t :
  length (vie_body (announced C AuthMode WepStatus t)) = ((if is_wpa1 AuthMode then 22 else 20) + length t)%nat.
Proof. rewrite body_tail, length_app. f_equal. unfold announced. by destruct (is_wpa1 AuthMode). Qed.

Lemma announced_ok C AuthMode WepStatus t : (length t ≤ 18)%nat → vie_ok (announced C AuthMode WepStatus t).
Proof.
  intros Ht. split; [rewrite body_length; destruct (is_wpa1 AuthMode); lia|]. unfold announced. by destruct (is_wpa1 AuthMode).
Qed.

Lemma announced_parses C AuthMode WepStatus t Privacy ses rest :
  AuthMode ∈ [Ndis802_11AuthModeWPA; Ndis802_11AuthModeWPAPSK; Ndis802_11AuthModeWPA2; Ndis802_11AuthModeWPA2PSK] →
  (length t ≤ 18)%nat →
  let v := announced C AuthMode WepStatus t in
  ∃ s, BssCipherParse Privacy BSS_INFRA (Z.of_nat (length (vie_enc v))) (vie_enc v ++ rest) ses = Some s ∧
    be_AuthMode s = AuthMode ∧ be_WepStatus s = announced_pair WepStatus ∧
    GroupCipher (if is_wpa1 AuthMode then WPA s else WPA2 s) = announced_group C WepStatus.
Proof.
  intros HA Ht v. pose proof (cipher_parse_fold Privacy BSS_INFRA [v] rest ses) as H. cbn [map concat] in H. rewrite !app_nil_r in H.
  rewrite H; [|done|].
  - eexists. split; [done|]. clear H. subst v. cbn [fold_left]. unfold announced, announced_pair, announced_group.
    apply list_elem_of_In in HA. cbn [In] in HA. destruct C as [g mixed up]. cbn [rc_GroupCipher rc_bMixCipher].
    destruct (g =? Ndis802_11GroupWEP40Enabled), (g =? Ndis802_11GroupWEP104Enabled), mixed, (WepStatus =? Ndis802_11AESEnable),
      (WepStatus =? Ndis802_11TKIPEnable), Privacy; destruct HA as [<-|[<-|[<-|[<-|[]]]]]; by vm_compute.
  - constructor; [by apply announced_ok|done].
Qed.

(** Appending to an array of zeros. *)
Lemma bwrite_zeros (b x : list Z) n : bwrite (b ++ zeros n) (length b) x = (b ++ x) ++ zeros (n - length x).
Proof.
  unfold bwrite, zeros. rewrite take_app_length, <- drop_drop, drop_app_length, drop_replicate, <- app_assoc. done.
Qed.

Lemma pmkid_is C AuthMode WepStatus P : length P = 16%nat →
  let b := vie_body (announced C AuthMode WepStatus []) in
  let b' := vie_body (announced C AuthMode WepStatus (le_bytes 2 1 ++ P)) in
  append_PMKID P (b ++ zeros (MAX_LEN_OF_RSNIE - length b), Z.of_nat (length b)) =
  (b' ++ zeros (MAX_LEN_OF_RSNIE - length b'), Z.of_nat (length b')).
Proof.
  intros HP b b'. pose proof (body_length C AuthMode WepStatus []) as Lb. fold b in Lb. cbn [length] in Lb.
  assert (Eb : b' = b ++ le_bytes 2 1 ++ P) by apply body_tail. rewrite Eb, !length_app, HP. unfold append_PMKID. f_equal.
  - rewrite Nat2Z.id, (take_ge P), bwrite_zeros by lia. replace (length b + 2)%nat with (length (b ++ le_bytes 2 1)) by (rewrite length_app; done).
    rewrite bwrite_zeros, HP, <- app_assoc. change (length (le_bytes 2 1)) with 2%nat. 
    replace (MAX_LEN_OF_RSNIE - length b - 2 - 16)%nat with (MAX_LEN_OF_RSNIE - (length b + (2 + 16)))%nat by lia.
    by rewrite <- !app_assoc.
  - rewrite wrap_id; [cbn; lia|lia|]. unfold in_range. destruct (is_wpa1 AuthMode); cbn; lia.
Qed.

Lemma made_parses C AuthMode WepStatus P Privacy ses rest buf n :
  AuthMode ∈ [Ndis802_11AuthModeWPA; Ndis802_11AuthModeWPAPSK; Ndis802_11AuthModeWPA2; Ndis802_11AuthModeWPA2PSK] → length P = 16%nat →
  (let made := (λ t, let b := vie_body (announced C AuthMode WepStatus t) in (b ++ zeros (MAX_LEN_OF_RSNIE - length b), Z.of_nat (length b))) in
   (buf, n) = made [] ∨ (buf, n) = made (le_bytes 2 1 ++ P)) →
  length buf = MAX_LEN_OF_RSNIE ∧ 0 ≤ n ≤ 40 ∧
  ∃ s, BssCipherParse Privacy BSS_INFRA (n + 2) ([if is_wpa1 AuthMode then IE_WPA else IE_RSN; n] ++ take (Z.to_nat n) buf ++ rest) ses = Some s ∧
    be_AuthMode s = AuthMode ∧ be_WepStatus s = announced_pair WepStatus ∧
    GroupCipher (if is_wpa1 AuthMode then WPA s else WPA2 s) = announced_group C WepStatus.
Proof.
  intros HA HP H. cbv zeta in H.
  assert (∃ t, (length t ≤ 18)%nat ∧ let b := vie_body (announced C AuthMode WepStatus t) in
    (buf, n) = (b ++ zeros (MAX_LEN_OF_RSNIE - length b), Z.of_nat (length b))) as (t & Ht & E).
  { destruct H as [->|H]; [exists []|exists (le_bytes 2 1 ++ P)]; rewrite ?length_app, ?HP; split; cbn; (lia || done). }
  cbv zeta in E. injection E as -> ->. pose proof (body_length C AuthMode WepStatus t) as HL.
  split; [rewrite length_app, HL; unfold zeros, MAX_LEN_OF_RSNIE; rewrite length_replicate; destruct (is_wpa1 AuthMode); lia|].
  split; [destruct (is_wpa1 AuthMode); lia|]. rewrite Nat2Z.id, take_app_length.
  destruct (announced_parses C AuthMode WepStatus t Privacy ses rest HA Ht) as (s & HB & Hs). exists s. split; [|exact Hs].
  rewrite <- HB. unfold vie_enc. cbn [length app]. f_equal; [lia|]. f_equal. unfold announced. by destruct (is_wpa1 AuthMode).
Qed.

(** With no supplicant there is no element for 802.1X. *)
Lemma made_none C AuthMode WepStatus :
  AuthMode ∈ [Ndis802_11AuthModeWPA; Ndis802_11AuthModeWPAPSK; Ndis802_11AuthModeWPA2; Ndis802_11AuthModeWPA2PSK] →
  rc_WpaSupplicantUP C = WPA_SUPPLICANT_DISABLE → is_psk AuthMode = false → RTMPMakeRSNIE C AuthMode WepStatus = None.
Proof.
  intros HA HS HP. unfold RTMPMakeRSNIE. rewrite HS. apply list_elem_of_In in HA. cbn [In] in HA.
  by destruct HA as [<-|[<-|[<-|[<-|[]]]]].
Qed.

(** C25: The element that the station announces in its association request says
    what the driver means by its settings.  In the modes WPA, WPA-PSK, WPA2 and
    WPA2-PSK with TKIP, AES or both, [RTMPMakeRSNIE] makes no element if the
    mode is WPA or WPA2 with 802.1X and no supplicant is in use; otherwise it
    builds, inside its array, an element that the driver's own parser,
    [BssCipherParse], reads back as the station's mode, its unicast cipher (AES
    when it has both) and the group cipher it announces: WEP if the network's
    group cipher is a WEP one, else AES if the station has AES only and no
    mixed ciphers are in use, else TKIP (also where the network's group cipher
    is AES).  A PMKID of 16 bytes appended to the element changes nothing of
    that. *)
Theorem rsn_element_round_trip C AuthMode WepStatus P Privacy ses rest
  (HA : AuthMode ∈ [Ndis802_11AuthModeWPA; Ndis802_11AuthModeWPAPSK; Ndis802_11AuthModeWPA2; Ndis802_11AuthModeWPA2PSK])
  (HW : WepStatus ∈ [Ndis802_11TKIPEnable; Ndis802_11AESEnable; Ndis802_11TKIPAESMix])
  (HP : length P = 16%nat) :
  if (rc_WpaSupplicantUP C =? WPA_SUPPLICANT_DISABLE) && negb (is_psk AuthMode) then RTMPMakeRSNIE C AuthMode WepStatus = None
  else ∃ made, RTMPMakeRSNIE C AuthMode WepStatus = Some made ∧
    ∀ buf n, (buf, n) = made ∨ (buf, n) = append_PMKID P made →
      length buf = MAX_LEN_OF_RSNIE ∧ 0 ≤ n ≤ 40 ∧
      ∃ s, BssCipherParse Privacy BSS_INFRA (n + 2)
             ([if is_wpa1 AuthMode then IE_WPA else IE_RSN; n] ++ take (Z.to_nat n) buf ++ rest) ses = Some s ∧
        be_AuthMode s = AuthMode ∧ be_WepStatus s = announced_pair WepStatus ∧
        GroupCipher (if is_wpa1 AuthMode then WPA s else WPA2 s) = announced_group C WepStatus.
Proof.
  destruct (Z.eqb_spec (rc_WpaSupplicantUP C) WPA_SUPPLICANT_DISABLE) as [Eu|Nu], (is_psk AuthMode) eqn:Ep; cbn [andb negb];
    [|by apply made_none|..]; (eexists; split; [by apply made_is; auto|]); rewrite pmkid_is by done; intros buf n H; eapply made_parses; eauto.
Qed.

Lemma rsn_element_round_trip_witness :
  ∃ made, RTMPMakeRSNIE (mk_rsncfg Ndis802_11TKIPEnable true WPA_SUPPLICANT_DISABLE) Ndis802_11AuthModeWPA2PSK Ndis802_11AESEnable = Some made ∧
    take 20 (fst made) = [1; 0; 0; 15; 172; 2; 1; 0; 0; 15; 172; 4; 1; 0; 0; 15; 172; 2; 0; 0].
Proof.
  destruct (rsn_element_round_trip (mk_rsncfg Ndis802_11TKIPEnable true WPA_SUPPLICANT_DISABLE) Ndis802_11AuthModeWPA2PSK
    Ndis802_11AESEnable (zeros 16) true false []) as (made & HM & _).
  - apply list_elem_of_In. cbn. tauto.
  - apply list_elem_of_In. cbn. tauto.
  - done.
  - exists made. split; [exact HM|]. injection HM as <-. reflexivity.
Defined.

(** With a WEP status there is no cipher part, and the suite of the key
    management overwrites the OUI and the version. *)
Example wep_status_garbles :
  option_map (λ r, (take 8 (fst r), snd r)) (RTMPMakeRSNIE (mk_rsncfg 0 false 0) Ndis802_11AuthModeWPAPSK Ndis802_11WEPEnabled) =
  Some ([1; 0; 0; 80; 242; 2; 0; 0], 6).
Proof. reflexivity. Qed.
