(* ===== verification/AssocRsp.v ===== *)
(** The parser of association responses: src/sta/sanity.c,
    PeerAssocRspSanity, in the station build with 802.11n and 802.11ac.

    The fixed fields and the supported rates come first, the other elements
    are walked through.  The frame is at the start of the buffer [m] of the
    MLME queue.  Reads and writes of arrays are checked: [None] is an access
    out of bounds. *)

From stdpp Require Import list.
From S2P Require Import Prelude MacTable Eapol StaAuth Mlme BssEntry BeaconSanity.

Definition LENGTH_802_11 : nat := 24.
Definition IE_HT_CAP2 : Z := 52.
Definition IE_ADD_HT2 : Z := 53.

(** The outputs.  Those that the frame does not fill stay as the caller has
    them; [vht_cap] and [vht_op] are members of its [IE_LISTS]. *)
Record assoc_rsp := mk_arsp {
  ar_Addr2 : list Z; ar_CapabilityInfo : Z; ar_Status : Z; ar_Aid : Z;
  ar_SupRate : list Z; ar_SupRateLen : Z; ar_ExtRate : list Z; ar_ExtRateLen : Z;
  ar_HtCapability : list Z; ar_AddHtInfo : list Z; ar_HtCapabilityLen : Z; ar_AddHtInfoLen : Z;
  ar_NewExtChannelOffset : Z; ar_EdcaParm : parm; ar_ExtCapInfo : list Z; ar_CkipFlag : Z;
  ar_vht_cap : list Z; ar_vht_cap_len : Z; ar_vht_op : list Z; ar_vht_op_len : Z
}.

Definition set_ar_ext (x : list Z) (n : Z) (r : assoc_rsp) : assoc_rsp :=
  mk_arsp (ar_Addr2 r) (ar_CapabilityInfo r) (ar_Status r) (ar_Aid r) (ar_SupRate r) (ar_SupRateLen r) x n (ar_HtCapability r)
    (ar_AddHtInfo r) (ar_HtCapabilityLen r) (ar_AddHtInfoLen r) (ar_NewExtChannelOffset r) (ar_EdcaParm r) (ar_ExtCapInfo r)
    (ar_CkipFlag r) (ar_vht_cap r) (ar_vht_cap_len r) (ar_vht_op r) (ar_vht_op_len r).
Definition set_ar_ht (x : list Z) (n : Z) (r : assoc_rsp) : assoc_rsp :=
  mk_arsp (ar_Addr2 r) (ar_CapabilityInfo r) (ar_Status r) (ar_Aid r) (ar_SupRate r) (ar_SupRateLen r) (ar_ExtRate r) (ar_ExtRateLen r)
    x (ar_AddHtInfo r) n (ar_AddHtInfoLen r) (ar_NewExtChannelOffset r) (ar_EdcaParm r) (ar_ExtCapInfo r)
    (ar_CkipFlag r) (ar_vht_cap r) (ar_vht_cap_len r) (ar_vht_op r) (ar_vht_op_len r).
Definition set_ar_addht (x : list Z) (n : Z) (r : assoc_rsp) : assoc_rsp :=
  mk_arsp (ar_Addr2 r) (ar_CapabilityInfo r) (ar_Status r) (ar_Aid r) (ar_SupRate r) (ar_SupRateLen r) (ar_ExtRate r) (ar_ExtRateLen r)
    (ar_HtCapability r) x (ar_HtCapabilityLen r) n (ar_NewExtChannelOffset r) (ar_EdcaParm r) (ar_ExtCapInfo r)
    (ar_CkipFlag r) (ar_vht_cap r) (ar_vht_cap_len r) (ar_vht_op r) (ar_vht_op_len r).
Definition set_ar_offset (x : Z) (r : assoc_rsp) : assoc_rsp :=
  mk_arsp (ar_Addr2 r) (ar_CapabilityInfo r) (ar_Status r) (ar_Aid r) (ar_SupRate r) (ar_SupRateLen r) (ar_ExtRate r) (ar_ExtRateLen r)
    (ar_HtCapability r) (ar_AddHtInfo r) (ar_HtCapabilityLen r) (ar_AddHtInfoLen r) x (ar_EdcaParm r) (ar_ExtCapInfo r)
    (ar_CkipFlag r) (ar_vht_cap r) (ar_vht_cap_len r) (ar_vht_op r) (ar_vht_op_len r).
Definition set_ar_edca (x : parm) (r : assoc_rsp) : assoc_rsp :=
  mk_arsp (ar_Addr2 r) (ar_CapabilityInfo r) (ar_Status r) (ar_Aid r) (ar_SupRate r) (ar_SupRateLen r) (ar_ExtRate r) (ar_ExtRateLen r)
    (ar_HtCapability r) (ar_AddHtInfo r) (ar_HtCapabilityLen r) (ar_AddHtInfoLen r) (ar_NewExtChannelOffset r) x (ar_ExtCapInfo r)
    (ar_CkipFlag r) (ar_vht_cap r) (ar_vht_cap_len r) (ar_vht_op r) (ar_vht_op_len r).
Definition set_ar_ext_cap (x : list Z) (r : assoc_rsp) : assoc_rsp :=
  mk_arsp (ar_Addr2 r) (ar_CapabilityInfo r) (ar_Status r) (ar_Aid r) (ar_SupRate r) (ar_SupRateLen r) (ar_ExtRate r) (ar_ExtRateLen r)
    (ar_HtCapability r) (ar_AddHtInfo r) (ar_HtCapabilityLen r) (ar_AddHtInfoLen r) (ar_NewExtChannelOffset r) (ar_EdcaParm r) x
    (ar_CkipFlag r) (ar_vht_cap r) (ar_vht_cap_len r) (ar_vht_op r) (ar_vht_op_len r).
Definition set_ar_vht_cap (x : list Z) (n : Z) (r : assoc_rsp) : assoc_rsp :=
  mk_arsp (ar_Addr2 r) (ar_CapabilityInfo r) (ar_Status r) (ar_Aid r) (ar_SupRate r) (ar_SupRateLen r) (ar_ExtRate r) (ar_ExtRateLen r)
    (ar_HtCapability r) (ar_AddHtInfo r) (ar_HtCapabilityLen r) (ar_AddHtInfoLen r) (ar_NewExtChannelOffset r) (ar_EdcaParm r)
    (ar_ExtCapInfo r) (ar_CkipFlag r) x n (ar_vht_op r) (ar_vht_op_len r).
Definition set_ar_vht_op (x : list Z) (n : Z) (r : assoc_rsp) : assoc_rsp :=
  mk_arsp (ar_Addr2 r) (ar_CapabilityInfo r) (ar_Status r) (ar_Aid r) (ar_SupRate r) (ar_SupRateLen r) (ar_ExtRate r) (ar_ExtRateLen r)
    (ar_HtCapability r) (ar_AddHtInfo r) (ar_HtCapabilityLen r) (ar_AddHtInfoLen r) (ar_NewExtChannelOffset r) (ar_EdcaParm r)
    (ar_ExtCapInfo r) (ar_CkipFlag r) (ar_vht_cap r) (ar_vht_cap_len r) x n.

(** * The elements *)

(** The WME parameter element at [p]. *)
Definition rsp_wme (m : list Z) (p : nat) (r : assoc_rsp) : option assoc_rsp :=
  q ← m !! (p + 2 + 6)%nat;
  '(Aifsn, Cwmin, Cwmax, Txop, bACM) ← edca_loop m 4 (p + 2 + 8) (edca_arrays (ar_EdcaParm r));
  Some (set_ar_edca (mk_parm true (edca_body (aget (parm_body (ar_EdcaParm r)) 0) (apsd q) (Z.land q 0x0f) Aifsn Cwmin Cwmax Txop bACM)) r).

(** [switch (pEid->Eid)], for an element of [Len] bytes at [p]. *)
Definition rsp_element (m : list Z) (p : nat) (Len Eid : Z) (r : assoc_rsp) : option assoc_rsp :=
  if Eid =? IE_EXT_SUPP_RATES then
    if Len <=? Z.of_nat MAX_LEN_OF_SUPPORTED_RATES then
      x ← move_mem (ar_ExtRate r) 0 m (p + 2) (Z.to_nat Len); Some (set_ar_ext x Len r)
    else Some r
  else if (Eid =? IE_HT_CAP) || (Eid =? IE_HT_CAP2) then
    if Z.of_nat SIZE_HT_CAP_IE <=? Len then
      x ← move_mem (ar_HtCapability r) 0 m (p + 2) SIZE_HT_CAP_IE; Some (set_ar_ht x (Z.of_nat SIZE_HT_CAP_IE) r)
    else Some r
  else if (Eid =? IE_ADD_HT) || (Eid =? IE_ADD_HT2) then
    if Z.of_nat SIZE_ADD_HT_INFO_IE <=? Len then
      x ← move_mem (ar_AddHtInfo r) 0 m (p + 2) SIZE_ADD_HT_INFO_IE; Some (set_ar_addht x (Z.of_nat SIZE_ADD_HT_INFO_IE) r)
    else Some r
  else if Eid =? IE_SECONDARY_CH_OFFSET then
    if Len =? 1 then o ← m !! (p + 2)%nat; Some (set_ar_offset o r) else Some r
  else if Eid =? IE_VHT_CAP then
    if Len =? Z.of_nat SIZE_VHT_CAP_IE then
      x ← move_mem (ar_vht_cap r) 0 m (p + 2) SIZE_VHT_CAP_IE; Some (set_ar_vht_cap x Len r)
    else Some r
  else if Eid =? IE_VHT_OP then
    if Len =? Z.of_nat SIZE_VHT_OP_IE then
      x ← move_mem (ar_vht_op r) 0 m (p + 2) SIZE_VHT_OP_IE; Some (set_ar_vht_op x Len r)
    else Some r
  else if Eid =? IE_VENDOR_SPECIFIC then
    wme ← equal_mem m (p + 2) WME_PARM_ELEM 6;
    if wme && (Len =? 24) then rsp_wme m p r else Some r
  else if Eid =? IE_EXT_CAPABILITY then
    if 1 <=? Len then
      x ← move_mem (ar_ExtCapInfo r) 0 m (p + 2) (Nat.min (Z.to_nat Len) SIZE_EXT_CAP_INFO); Some (set_ar_ext_cap x r)
    else Some r
  else Some r.

(** The loop over the elements; a turn takes two bytes at least. *)
Fixpoint rsp_loop (fuel : nat) (m : list Z) (MsgLen : Z) (Length : nat) (r : assoc_rsp) : option assoc_rsp :=
  Len ← m !! (Length + 1)%nat;
  if Z.of_nat Length + 2 + Len <=? MsgLen then
    match fuel with
    | O => None
    | S fuel =>
        Eid ← m !! Length;
        r ← rsp_element m Length Len Eid r;
        rsp_loop fuel m MsgLen (Length + 2 + Z.to_nat Len) r
    end
  else Some r.

(** * The parser *)

(** The fixed fields; [r] is what the caller has. *)
Definition rsp_fixed (m : list Z) (r : assoc_rsp) : option assoc_rsp :=
  CapabilityInfo ← get16 m LENGTH_802_11;
  Status ← get16 m (LENGTH_802_11 + 2);
  Some (mk_arsp (take 6 (drop 10 m)) CapabilityInfo Status (ar_Aid r) (ar_SupRate r) (ar_SupRateLen r) (ar_ExtRate r) 0
    (ar_HtCapability r) (ar_AddHtInfo r) 0 0 0xff (mk_parm false (parm_body (ar_EdcaParm r))) (ar_ExtCapInfo r) 0
    (ar_vht_cap r) (ar_vht_cap_len r) (ar_vht_op r) (ar_vht_op_len r)).

(** The association id and the supported rates. *)
Definition set_ar_rates (aid : Z) (x : list Z) (n : Z) (r : assoc_rsp) : assoc_rsp :=
  mk_arsp (ar_Addr2 r) (ar_CapabilityInfo r) (ar_Status r) aid x n (ar_ExtRate r) (ar_ExtRateLen r)
    (ar_HtCapability r) (ar_AddHtInfo r) (ar_HtCapabilityLen r) (ar_AddHtInfoLen r) (ar_NewExtChannelOffset r) (ar_EdcaParm r)
    (ar_ExtCapInfo r) (ar_CkipFlag r) (ar_vht_cap r) (ar_vht_cap_len r) (ar_vht_op r) (ar_vht_op_len r).

Definition PeerAssocRspSanity (m : list Z) (MsgLen : Z) (r : assoc_rsp) : option (bool * assoc_rsp) :=
  r ← rsp_fixed m r;
  if negb (ar_Status r =? MLME_SUCCESS) then Some (true, r)
  else
    Aid ← get16 m (LENGTH_802_11 + 4);
    let Aid := Z.land Aid 0x3fff in
    IeType ← m !! (LENGTH_802_11 + 6)%nat;
    SupRateLen ← m !! (LENGTH_802_11 + 7)%nat;
    if negb (IeType =? IE_SUPP_RATES) || (Z.of_nat MAX_LEN_OF_SUPPORTED_RATES <? SupRateLen) then
      Some (false, set_ar_rates Aid (ar_SupRate r) SupRateLen r)
    else
      x ← move_mem (ar_SupRate r) 0 m (LENGTH_802_11 + 8) (Z.to_nat SupRateLen);
      r ← rsp_loop (length m) m MsgLen (LENGTH_802_11 + 8 + Z.to_nat SupRateLen) (set_ar_rates Aid x SupRateLen r);
      Some (true, r).
