(* ===== verification/AssocRspClaims.v ===== *)
(** The theorems on the parser of association responses: it stays inside its
    arrays whatever the frame says, and of a well-formed frame it finds the
    association id, the rates and, of each kind of element, the last one. *)

From stdpp Require Import list.
From S2P Require Import Prelude MacTable Eapol StaAuth Mlme BssEntry BssEntryProofs BssTableProofs BeaconSanity BeaconSanityProofs AssocRsp.

(** * Types *)

(** The arrays have their sizes, the lengths are those of their contents. *)
Record rsp_ok (r : assoc_rsp) : Prop := {
  ro_sup : length (ar_SupRate r) = MAX_LEN_OF_SUPPORTED_RATES;
  ro_ext : length (ar_ExtRate r) = MAX_LEN_OF_SUPPORTED_RATES ∧ 0 ≤ ar_ExtRateLen r ≤ Z.of_nat MAX_LEN_OF_SUPPORTED_RATES;
  ro_ht : length (ar_HtCapability r) = SIZE_HT_CAP_IE ∧ 0 ≤ ar_HtCapabilityLen r ≤ Z.of_nat SIZE_HT_CAP_IE;
  ro_addht : length (ar_AddHtInfo r) = SIZE_ADD_HT_INFO_IE ∧ 0 ≤ ar_AddHtInfoLen r ≤ Z.of_nat SIZE_ADD_HT_INFO_IE;
  ro_edca : length (parm_body (ar_EdcaParm r)) = 26%nat;
  ro_cap : length (ar_ExtCapInfo r) = SIZE_EXT_CAP_INFO;
  ro_vcap : length (ar_vht_cap r) = SIZE_VHT_CAP_IE ∧ 0 ≤ ar_vht_cap_len r ≤ Z.of_nat SIZE_VHT_CAP_IE;
  ro_vop : length (ar_vht_op r) = SIZE_VHT_OP_IE ∧ 0 ≤ ar_vht_op_len r ≤ Z.of_nat SIZE_VHT_OP_IE
}.

(** What the walk over the elements leaves alone. *)
Definition fixed_of (r : assoc_rsp) : list Z * Z * Z * Z * list Z * Z :=
  (ar_Addr2 r, ar_CapabilityInfo r, ar_Status r, ar_Aid r, ar_SupRate r, ar_SupRateLen r).

Ltac rsp := let H := fresh in intros H; destruct H; split; cbn -[Z.of_nat]; try assumption; repeat split; solve [congruence | lia | tauto].

Section safe.
Context (m : list Z) (Hm : bytes m).

Lemma rsp_wme_ok p r : (p + 265 ≤ length m)%nat → rsp_ok r → ∃ r', rsp_wme m p r = Some r' ∧ rsp_ok r' ∧ fixed_of r' = fixed_of r.
Proof using Hm.
  intros Hp Hr. unfold rsp_wme. destruct (byte_at m (p + 2 + 6) Hm ltac:(lia)) as (q & -> & _). cbn [mbind option_bind].
  pose proof (ro_edca _ Hr) as L1. unfold edca_arrays.
  edestruct (edca_loop_ok m Hm 4 (p + 2 + 8)) as (a & b & d & e & f & -> & H1 & H2 & H3 & H4 & H5); [lia|]. cbn [mbind option_bind].
  rewrite ?length_take, ?length_drop in *. eexists. split; [done|]. split; [|done]. revert Hr. intros Hr. destruct Hr. split; try assumption.
  cbn [ar_EdcaParm set_ar_edca parm_body]. unfold edca_body. rewrite !length_app. cbn [length]. lia.
Qed.

Lemma rsp_element_ok p Len Eid r : byte Len → (p + 265 ≤ length m)%nat → rsp_ok r →
  ∃ r', rsp_element m p Len Eid r = Some r' ∧ rsp_ok r' ∧ fixed_of r' = fixed_of r.
Proof using Hm.
  intros HL Hp Hr. pose proof HL as [HL0 HL1]. change (2 ^ 8) with 256 in HL1. unfold rsp_element.
  destruct (ro_ext _ Hr) as [L1 _], (ro_ht _ Hr) as [L2 _], (ro_addht _ Hr) as [L3 _], (ro_vcap _ Hr) as [L4 _], (ro_vop _ Hr) as [L5 _].
  pose proof (ro_cap _ Hr) as L6. rewrite equal_in by (cbn; lia). cbn [mbind option_bind].
  assert (HC : ∀ dst n, (n ≤ length dst)%nat → (n ≤ 255)%nat → ∃ d, move_mem dst 0 m (p + 2) n = Some d ∧ length d = length dst)
    by (intros; apply move_len; lia).
  unfold SIZE_HT_CAP_IE, SIZE_ADD_HT_INFO_IE, SIZE_VHT_CAP_IE, SIZE_VHT_OP_IE, SIZE_EXT_CAP_INFO, MAX_LEN_OF_SUPPORTED_RATES in *.
  repeat match goal with |- ∃ _, (if ?b then _ else _) = _ ∧ _ => let E := fresh "E" in destruct b eqn:E end;
    try (eexists; split; [done|]; by split).
  all: rewrite ?Z.leb_le, ?Z.eqb_eq in *.
  all: try match goal with |- context [move_mem ?dst 0 _ _ ?n] =>
    destruct (HC dst n) as (d & -> & Ld); [lia..|]; cbn [mbind option_bind]; eexists; split; [done|]; split; [revert Hr; rsp|done] end.
  - destruct (byte_at m (p + 2) Hm ltac:(lia)) as (o & -> & _). cbn [mbind option_bind]. eexists. split; [done|]. split; [revert Hr; rsp|done].
  - by apply rsp_wme_ok.
Qed.
End safe.

Lemma rsp_loop_ok m MsgLen : bytes m → MsgLen + 263 ≤ Z.of_nat (length m) → ∀ fuel p r, (p ≤ length m - 263)%nat → (263 ≤ length m)%nat →
  (length m ≤ p + fuel)%nat → rsp_ok r → ∃ r', rsp_loop fuel m MsgLen p r = Some r' ∧ rsp_ok r' ∧ fixed_of r' = fixed_of r.
Proof.
  intros Hm HM. induction fuel as [|fuel IH]; intros p r Hp H263 Hf Hr; [lia|]. cbn [rsp_loop].
  destruct (byte_at m (p + 1) Hm ltac:(lia)) as (Len & -> & HL). pose proof HL as [H0 _]. cbn [mbind option_bind].
  destruct (Z.leb_spec (Z.of_nat p + 2 + Len) MsgLen) as [Hin|Hout]; [|by eexists].
  destruct (byte_at m p Hm ltac:(lia)) as (Eid & -> & _). cbn [mbind option_bind].
  destruct (rsp_element_ok m Hm p Len Eid r HL ltac:(lia) Hr) as (r1 & -> & H1 & E1). cbn [mbind option_bind].
  destruct (IH (p + 2 + Z.to_nat Len)%nat r1) as (r2 & -> & H2 & E2); [lia..|done|]. exists r2. split; [done|]. split; [done|congruence].
Qed.

(** The parser of association responses stays inside its arrays: whatever
    the bytes of the frame and its length, as long as the buffer of the queue
    has room for one element past it, it ends, no array changes its size, and
    the lengths that it reports are those of their arrays; of the supported
    rates that is so where it accepts a response of success. *)
Lemma assoc_rsp_parse_safe m MsgLen r (Hm : bytes m) (HM : MsgLen + 263 ≤ Z.of_nat (length m)) (H263 : (307 ≤ length m)%nat) (Hr : rsp_ok r) :
  ∃ ok r', PeerAssocRspSanity m MsgLen r = Some (ok, r') ∧ rsp_ok r' ∧
    (ok = true → ar_Status r' = MLME_SUCCESS → 0 ≤ ar_Aid r' < 2 ^ 14 ∧ 0 ≤ ar_SupRateLen r' ≤ Z.of_nat MAX_LEN_OF_SUPPORTED_RATES).
Proof.
  unfold PeerAssocRspSanity, rsp_fixed, LENGTH_802_11.
  destruct (get16_in m 24 Hm ltac:(lia)) as (cap & -> & _), (get16_in m (24 + 2) Hm ltac:(lia)) as (st & -> & _). cbn [mbind option_bind ar_Status].
  set (r0 := mk_arsp _ _ _ _ _ _ _ _ _ _ _ _ _ _ _ _ _ _ _ _). assert (H0 : rsp_ok r0) by (revert Hr; rsp).
  destruct (Z.eqb_spec st MLME_SUCCESS) as [->|Hst]; cbn [negb]; [|eexists _, _; split; [done|]; split; [done|]; by intros _ [=]].
  destruct (get16_in m (24 + 4) Hm ltac:(lia)) as (aid & -> & Ha), (byte_at m (24 + 6) Hm ltac:(lia)) as (ty & -> & _),
    (byte_at m (24 + 7) Hm ltac:(lia)) as (n & -> & [Hn0 Hn1]). cbn [mbind option_bind].
  destruct (Z.ltb_spec (Z.of_nat MAX_LEN_OF_SUPPORTED_RATES) n) as [Hn|Hn]; rewrite ?orb_true_r, ?orb_false_r;
    [eexists _, _; split; [done|]; split; [revert H0; rsp|done]|].
  destruct (ty =? IE_SUPP_RATES); cbn [negb]; [|eexists _, _; split; [done|]; split; [revert H0; rsp|done]].
  pose proof (ro_sup _ H0) as LS. unfold MAX_LEN_OF_SUPPORTED_RATES in Hn, LS.
  destruct (move_len (ar_SupRate r0) 0 m (24 + 8) (Z.to_nat n)) as (x & -> & Lx); [lia..|]. cbn [mbind option_bind].
  set (r1 := set_ar_rates _ _ _ _). assert (H1 : rsp_ok r1) by (revert H0; rsp).
  destruct (rsp_loop_ok m MsgLen Hm HM (length m) (24 + 8 + Z.to_nat n) r1) as (r2 & E2 & H2 & E3); [lia..|done|]. rewrite E2. cbn [mbind option_bind].
  eexists _, _. split; [done|]. split; [done|]. intros _ _.
  injection E3 as _ _ _ -> _ ->. cbn [ar_Aid ar_SupRateLen r1 set_ar_rates]. change 0x3fff with (Z.ones 14). rewrite Z.land_ones by lia. split; [apply Z.mod_pos_bound; lia|unfold MAX_LEN_OF_SUPPORTED_RATES; lia].
Qed.

(** * What the parser finds *)

(** ** WMM parameters *)

(** The access category of the record at [q] and its parameters: AIFSN, the
    exponents of the contention window, the TXOP limit and whether admission
    is controlled. *)
Definition aci_at (m : list Z) (q : nat) : nat := Z.to_nat (Z.shiftr (Z.land (nth q m 0) 0x60) 5).
Definition record_at (m : list Z) (q : nat) : option Z * option Z * option Z * option Z * option Z :=
  (Some (Z.land (nth q m 0) 0x0f), Some (Z.land (nth (q + 1) m 0) 0x0f), Some (Z.shiftr (nth (q + 1) m 0) 4),
   Some (nth (q + 2) m 0 + 256 * nth (q + 3) m 0), Some (if Z.land (nth q m 0) 0x10 =? 0x10 then 1 else 0)).
Definition lookup5 (arr : list Z * list Z * list Z * list Z * list Z) (k : nat) : option Z * option Z * option Z * option Z * option Z :=
  let '(a, b, d, e, f) := arr in (a !! k, b !! k, d !! k, e !! k, f !! k).
Definition four (arr : list Z * list Z * list Z * list Z * list Z) : Prop :=
  let '(a, b, d, e, f) := arr in length a = 4%nat ∧ length b = 4%nat ∧ length d = 4%nat ∧ length e = 4%nat ∧ length f = 4%nat.

Lemma aci_small m q : (aci_at m q < 4)%nat.
Proof.
  unfold aci_at. rewrite Z.shiftr_land. change (Z.shiftr 0x60 5) with (Z.ones 2). rewrite Z.land_ones by lia.
  pose proof (Z.mod_pos_bound (Z.shiftr (nth q m 0) 5) (2 ^ 2)). lia.
Qed.

Lemma edca_loop_last m n : ∀ q arr arr', edca_loop m n q arr = Some arr' → four arr →
  four arr' ∧ (∀ k, (∀ i, (i < n)%nat → aci_at m (q + 4 * i) ≠ k) → lookup5 arr' k = lookup5 arr k) ∧
  (∀ i, (i < n)%nat → (∀ j, (i < j < n)%nat → aci_at m (q + 4 * j) ≠ aci_at m (q + 4 * i)) →
    lookup5 arr' (aci_at m (q + 4 * i)) = record_at m (q + 4 * i)).
Proof.
  induction n as [|n IH]; intros q arr arr' H H4; cbn [edca_loop] in H.
  { injection H as <-. split; [done|]. split; [done|]. lia. }
  destruct arr as [[[[a b] d] e] f]. peel H.
  assert (Hn : aci_at m q = Z.to_nat (Z.shiftr (Z.land z 0x60) 5) ∧ record_at m q =
    (Some (Z.land z 15), Some (Z.land z0 15), Some (Z.shiftr z0 4), Some (z1 + 256 * z2), Some (if Z.land z 16 =? 16 then 1 else 0))).
  { unfold aci_at, record_at. rewrite !nth_lookup, E, E0, E1, E2. done. }
  destruct Hn as [Ha Hr]. rewrite <- Ha in H. set (arr1 := (_, _, _, _, _)) in H. pose proof (aci_small m q) as Hs. destruct H4 as (L1 & L2 & L3 & L4 & L5).
  destruct (IH _ _ _ H) as (F & U & R). { unfold arr1. cbn. by rewrite !length_insert. }
  assert (E' : ∀ i, (q + 4 + 4 * i)%nat = (q + 4 * S i)%nat) by lia.
  split; [exact F|]. split.
  - intros k Hk. rewrite U.
    + unfold arr1, lookup5. specialize (Hk 0%nat ltac:(lia)). rewrite Nat.mul_0_r, Nat.add_0_r in Hk. by rewrite !list_lookup_insert_ne by done.
    + intros i Hi. rewrite E'. apply Hk. lia.
  - intros [|i] Hi Hj.
    + rewrite Nat.mul_0_r, Nat.add_0_r in *. rewrite U; [|intros i Hi'; rewrite E'; apply Hj; lia].
      rewrite Hr. unfold arr1, lookup5. by rewrite !list_lookup_insert_eq by lia.
    + rewrite <- E'. apply R; [lia|]. intros j Hj'. rewrite !E'. apply Hj. lia.
Qed.

Lemma edca_arrays_body v x y z a b d e f : four (a, b, d, e, f) → edca_arrays (mk_parm v (edca_body x y z a b d e f)) = (a, b, d, e, f).
Proof.
  intros (L1 & L2 & L3 & L4 & L5). unfold edca_arrays, edca_body. cbn [parm_body app skipn].
  assert (HT : ∀ (l r : list Z), length l = 4%nat → take 4 (l ++ r) = l ∧ drop 4 (l ++ r) = r)
    by (intros l r <-; by rewrite take_app_length, drop_app_length).
  change 16%nat with (4 + (4 + (4 + 4)))%nat. change 12%nat with (4 + (4 + 4))%nat. change 8%nat with (4 + 4)%nat.
  rewrite <- !drop_drop, !drop_0.
  rewrite (proj1 (HT a _ L1)), (proj2 (HT a _ L1)), (proj1 (HT b _ L2)), (proj2 (HT b _ L2)), (proj1 (HT d _ L3)), (proj2 (HT d _ L3)),
    (proj1 (HT e _ L4)), (proj2 (HT e _ L4)), (take_ge f) by lia. done.
Qed.

(** ** Elements *)

(** An element: its id and its body. *)
Definition enc (x : Z * list Z) : list Z := fst x :: Z.of_nat (length (snd x)) :: snd x.

(** The body of the last element of a kind. *)
Definition last_such (P : Z * list Z → bool) (els : list (Z * list Z)) : option (list Z) :=
  fold_left (λ o x, if P x then Some (snd x) else o) els None.

Definition is_ext (x : Z * list Z) : bool := (fst x =? IE_EXT_SUPP_RATES) && Nat.leb (length (snd x)) MAX_LEN_OF_SUPPORTED_RATES.
Definition is_ht (x : Z * list Z) : bool := ((fst x =? IE_HT_CAP) || (fst x =? IE_HT_CAP2)) && Nat.leb SIZE_HT_CAP_IE (length (snd x)).
Definition is_addht (x : Z * list Z) : bool := ((fst x =? IE_ADD_HT) || (fst x =? IE_ADD_HT2)) && Nat.leb SIZE_ADD_HT_INFO_IE (length (snd x)).
Definition is_offset (x : Z * list Z) : bool := (fst x =? IE_SECONDARY_CH_OFFSET) && Nat.eqb (length (snd x)) 1.
Definition is_vht_cap (x : Z * list Z) : bool := (fst x =? IE_VHT_CAP) && Nat.eqb (length (snd x)) SIZE_VHT_CAP_IE.
Definition is_vht_op (x : Z * list Z) : bool := (fst x =? IE_VHT_OP) && Nat.eqb (length (snd x)) SIZE_VHT_OP_IE.
Definition is_wme (x : Z * list Z) : bool :=
  (fst x =? IE_VENDOR_SPECIFIC) && Nat.eqb (length (snd x)) 24 && bool_decide (take 6 (snd x) = WME_PARM_ELEM).

(** The parameters that the body [b] of a WME element says: each access
    category has those of the last record for it. *)
Definition wmm_says (b : list Z) (e : parm) : Prop :=
  ∀ i, (i < 4)%nat → (∀ j, (i < j < 4)%nat → aci_at b (8 + 4 * j) ≠ aci_at b (8 + 4 * i)) →
    lookup5 (edca_arrays e) (aci_at b (8 + 4 * i)) = record_at b (8 + 4 * i).

(** What the elements say, of the state [r0] before. *)
Record found (els : list (Z * list Z)) (r0 r : assoc_rsp) : Prop := {
  fo_ext : take (Z.to_nat (ar_ExtRateLen r)) (ar_ExtRate r) = default [] (last_such is_ext els);
  fo_ht : match last_such is_ht els with
          | Some b => ar_HtCapability r = take SIZE_HT_CAP_IE b ∧ ar_HtCapabilityLen r = Z.of_nat SIZE_HT_CAP_IE
          | None => ar_HtCapabilityLen r = 0
          end;
  fo_addht : match last_such is_addht els with
             | Some b => ar_AddHtInfo r = take SIZE_ADD_HT_INFO_IE b ∧ ar_AddHtInfoLen r = Z.of_nat SIZE_ADD_HT_INFO_IE
             | None => ar_AddHtInfoLen r = 0
             end;
  fo_offset : ar_NewExtChannelOffset r = match last_such is_offset els with Some b => aget b 0 | None => 0xff end;
  fo_vht_cap : match last_such is_vht_cap els with
               | Some b => ar_vht_cap r = b ∧ ar_vht_cap_len r = Z.of_nat SIZE_VHT_CAP_IE
               | None => ar_vht_cap_len r = ar_vht_cap_len r0
               end;
  fo_vht_op : match last_such is_vht_op els with
              | Some b => ar_vht_op r = b ∧ ar_vht_op_len r = Z.of_nat SIZE_VHT_OP_IE
              | None => ar_vht_op_len r = ar_vht_op_len r0
              end;
  fo_wme : match last_such is_wme els with
           | Some b => parm_bValid (ar_EdcaParm r) = true ∧ wmm_says b (ar_EdcaParm r)
           | None => parm_bValid (ar_EdcaParm r) = false
           end
}.

Lemma last_such_snoc P els x : last_such P (els ++ [x]) = if P x then Some (snd x) else last_such P els.
Proof. unfold last_such. by rewrite fold_left_app. Qed.

(** ** The effect of an element *)

(** The kinds that an element does not have, and the fields it leaves. *)
Ltac kinds :=
  match goal with Hf : found _ _ _ |- _ => destruct Hf end; split; rewrite last_such_snoc;
  unfold is_ext, is_ht, is_addht, is_offset, is_vht_cap, is_vht_op, is_wme; cbn [fst snd];
  repeat match goal with
  | |- context [?a =? ?b] => let v := eval vm_compute in (a =? b) in lazymatch v with true => change (a =? b) with true | false => change (a =? b) with false end
  | HE : (?a =? ?b) = false |- context [?a =? ?b] => rewrite HE
  | |- context [Nat.leb ?a ?b] => first [destruct (Nat.leb_spec a b); [|lia] | destruct (Nat.leb_spec a b); [lia|]]
  | |- context [Nat.eqb ?a ?b] => first [destruct (Nat.eqb_spec a b); [|lia] | destruct (Nat.eqb_spec a b); [lia|]]
  end; cbn [andb orb]; try assumption.

Section effect.
Context (m rest : list Z) (p : nat) (e : Z) (b : list Z).
Context (Hd : drop p m = enc (e, b) ++ rest).

Lemma body_at i n : (i + n ≤ length b)%nat → take n (drop (p + 2 + i) m) = take n (drop i b).
Proof using Hd.
  intros Hn. rewrite <- Nat.add_assoc, <- drop_drop, Hd. unfold enc. cbn [fst snd app Nat.add skipn].
  rewrite drop_app_le by lia. rewrite take_app_le; [done|]. rewrite length_drop. lia.
Qed.

Lemma move_at dst d n : move_mem dst 0 m (p + 2) n = Some d → (n ≤ length b)%nat → take n d = take n b ∧ (length dst = n → d = take n b).
Proof using Hd.
  intros H Hn. unfold move_mem in H. destruct (decide _) as [[_ Hl]|]; [|done]. injection H as <-.
  pose proof (body_at 0 n Hn) as HB. rewrite Nat.add_0_r, drop_0 in HB. rewrite HB. unfold bwrite. rewrite take_0. cbn [app].
  assert (HL : length (take n b) = n) by (rewrite length_take; lia). split.
  - by rewrite take_app_le, (take_ge (take n b)) by lia.
  - intros HD. rewrite HL, drop_ge, app_nil_r by lia. done.
Qed.

Lemma nth_body i : (i < length b)%nat → nth (p + 2 + i) m 0 = nth i b 0.
Proof using Hd.
  intros Hi. rewrite !nth_lookup, <- Nat.add_assoc, <- (lookup_drop m p (2 + i)), Hd.
  change (default 0 ((b ++ rest) !! i) = default 0 (b !! i)). by rewrite lookup_app_l.
Qed.

Lemma wme_effect r r' : rsp_ok r → length b = 24%nat → rsp_wme m p r = Some r' →
  ∃ e', r' = set_ar_edca e' r ∧ parm_bValid e' = true ∧ wmm_says b e'.
Proof using Hd.
  intros Hr Hb H. unfold rsp_wme in H. peel H. injection H as <-. eexists. split; [done|]. split; [done|].
  apply edca_loop_last in E0 as (F & _ & R).
  - intros i Hi Hj. assert (HA : ∀ j, (j < 4)%nat → aci_at b (8 + 4 * j) = aci_at m (p + 2 + 8 + 4 * j)).
    { intros j Hj4. unfold aci_at. rewrite <- Nat.add_assoc, nth_body by lia. done. }
    rewrite HA by lia. assert (HR : record_at b (8 + 4 * i) = record_at m (p + 2 + 8 + 4 * i)).
    { unfold record_at. rewrite <- !(Nat.add_assoc (p + 2)), !nth_body by lia. done. }
    rewrite HR, <- R; [|done|].
    + f_equal. by apply edca_arrays_body.
    + intros j Hj'. rewrite <- !HA by lia. by apply Hj.
  - pose proof (ro_edca _ Hr). unfold edca_arrays, four. rewrite !length_take, !length_drop. lia.
Qed.

Lemma vendor_effect els r0 r r' : rsp_ok r → found els r0 r → e = IE_VENDOR_SPECIFIC →
  (wme ← equal_mem m (p + 2) WME_PARM_ELEM 6; if wme && (Z.of_nat (length b) =? 24) then rsp_wme m p r else Some r) = Some r' →
  found (els ++ [(e, b)]) r0 r'.
Proof using Hd.
  intros Hr Hf He H. rewrite He. peel H. unfold equal_mem in E. destruct (decide _) as [[Hm _]|]; [|done]. injection E as <-.
  destruct (Z.eqb_spec (Z.of_nat (length b)) 24) as [Hb|Hb]; [|rewrite andb_false_r in H; injection H as <-; kinds].
  pose proof (body_at 0 6 ltac:(lia)) as HB. rewrite Nat.add_0_r, drop_0 in HB. rewrite HB, andb_true_r in H.
  cbn [take WME_PARM_ELEM] in H. fold WME_PARM_ELEM in H. destruct (bool_decide (take 6 b = WME_PARM_ELEM)) eqn:HW.
  - destruct (wme_effect r r' Hr ltac:(lia) H) as (e' & -> & H1 & H2). kinds. rewrite HW. by split.
  - injection H as <-. kinds. by rewrite HW.
Qed.

Lemma rsp_effect els r0 r r' : rsp_ok r → found els r0 r → rsp_element m p (Z.of_nat (length b)) e r = Some r' → found (els ++ [(e, b)]) r0 r'.
Proof using Hd.
  intros Hr Hf H. unfold rsp_element in H. pose proof (ro_ht _ Hr) as [L1 _]. pose proof (ro_addht _ Hr) as [L2 _].
  pose proof (ro_vcap _ Hr) as [L3 _]. pose proof (ro_vop _ Hr) as [L4 _].
  repeat match type of H with
  | (if ?x || ?y then _ else _) = _ => let E := fresh "E" in destruct x eqn:E; [|let E' := fresh "E" in destruct y eqn:E']; cbn [orb] in H
  | (if ?x then _ else _) = _ => let E := fresh "E" in destruct x eqn:E
  end.
  all: rewrite ?Z.eqb_eq, ?Z.leb_le, ?Z.leb_gt in *.
  all: try lazymatch type of H with (equal_mem _ _ _ _ ≫= _) = _ => by apply (vendor_effect els r0 r r') end.
  all: try match goal with HE : e = _ |- _ => rewrite HE end.
  all: peel H; injection H as <-; kinds.
  all: try (lazymatch goal with HM : move_mem _ _ _ _ _ = _ |- _ => apply move_at in HM as [M1 M2]; [|lia] end; cbn; rewrite ?Nat2Z.id in *).
  - rewrite M1. apply take_ge. lia.
  - split; auto.
  - split; auto.
  - split; auto.
  - split; auto.
  - pose proof (nth_body 0 ltac:(lia)) as HN. rewrite Nat.add_0_r, nth_lookup in HN. unfold aget. change (Z.to_nat 0) with 0%nat.
    rewrite <- HN. by match goal with HE : m !! _ = Some _ |- _ => rewrite HE end.
  - split; [|lia]. rewrite M2 by lia. apply take_ge. lia.
  - split; [|lia]. rewrite M2 by lia. apply take_ge. lia.
Qed.
End effect.

(** * The whole frame *)

(** An association response with status [st]: header, capabilities, status,
    association id, supported rates and the other elements. *)
Definition rsp_frame (hdr : list Z) (cap st aid : Z) (rates : list Z) (els : list (Z * list Z)) : list Z :=
  hdr ++ le_bytes 2 cap ++ le_bytes 2 st ++ le_bytes 2 aid ++ enc (IE_SUPP_RATES, rates) ++ concat (map enc els).

Lemma rsp_loop_found m rest r0 : bytes m → (263 ≤ length rest)%nat → ∀ els fuel p r seen,
  Forall (λ x, (length (snd x) ≤ 255)%nat) els → drop p m = concat (map enc els) ++ rest → (length m ≤ p + fuel)%nat →
  rsp_ok r → found seen r0 r →
  ∃ r', rsp_loop fuel m (Z.of_nat (length m - length rest)) p r = Some r' ∧ found (seen ++ els) r0 r' ∧ fixed_of r' = fixed_of r ∧ rsp_ok r'.
Proof.
  intros Hm HR. induction els as [|[e b] els IH]; intros fuel p r seen Hb Hd Hf Hr Hs; cbn [map concat app] in Hd.
  - pose proof (f_equal length Hd) as HL. rewrite length_drop in HL. destruct fuel; [lia|]. cbn [rsp_loop].
    destruct (byte_at m (p + 1) Hm ltac:(lia)) as (Len & -> & [H0 _]). cbn [mbind option_bind].
    destruct (Z.leb_spec (Z.of_nat p + 2 + Len) (Z.of_nat (length m - length rest))); [lia|]. exists r. by rewrite app_nil_r.
  - apply Forall_cons in Hb as [Hb Hbs]. cbn [snd] in Hb. rewrite <- app_assoc in Hd.
    pose proof (f_equal length Hd) as HL. rewrite length_drop, !length_app in HL. cbn [enc fst snd length] in HL.
    assert (H1 : m !! (p + 1)%nat = Some (Z.of_nat (length b))) by (rewrite <- lookup_drop, Hd; done).
    assert (H2 : m !! p = Some e) by (rewrite <- (Nat.add_0_r p), <- lookup_drop, Hd; done).
    destruct fuel; [lia|]. cbn [rsp_loop]. rewrite H1, H2. cbn [mbind option_bind].
    destruct (Z.leb_spec (Z.of_nat p + 2 + Z.of_nat (length b)) (Z.of_nat (length m - length rest))); [|lia].
    assert (HB : byte (Z.of_nat (length b))) by (unfold in_range; lia).
    destruct (rsp_element_ok m Hm p _ e r HB ltac:(lia) Hr) as (r1 & E1 & O1 & F1). rewrite E1. cbn [mbind option_bind].
    rewrite Nat2Z.id. destruct (IH fuel (p + 2 + length b)%nat r1 (seen ++ [(e, b)])) as (r2 & -> & F2 & F3 & O2); [done| |lia|done| |].
    + rewrite <- Nat.add_assoc. by apply (drop_app_at _ _ _ _ _ Hd).
    + by apply (rsp_effect m (concat (map enc els) ++ rest) p e b Hd seen r0 r).
    + exists r2. rewrite <- app_assoc in F2. split; [done|]. split; [done|]. split; [congruence|done].
Qed.

(** Of a well-formed association response the parser finds what it says:
    the access point, the capabilities and the status; and if that is success,
    the low 14 bits of the association id, the supported rates, and of each
    kind of element that it knows - further rates, HT capabilities and
    operation, secondary channel, VHT capabilities and operation, WMM
    parameters - the last one of the right length, in whatever order they
    come; of the WMM parameters, for each access category those of its last
    record. *)
Lemma rsp_parsed hdr cap st aid rates els rest r
  (Hh : length hdr = 24%nat) (Hc : 0 ≤ cap < 65536) (Hst : 0 ≤ st < 65536) (Ha : 0 ≤ aid < 65536)
  (Hrt : (length rates ≤ MAX_LEN_OF_SUPPORTED_RATES)%nat) (Hel : Forall (λ x, (length (snd x) ≤ 255)%nat) els)
  (Hrest : (263 ≤ length rest)%nat) (Hr : rsp_ok r) (Hb : bytes (rsp_frame hdr cap st aid rates els ++ rest)) :
  let f := rsp_frame hdr cap st aid rates els in
  ∃ r', PeerAssocRspSanity (f ++ rest) (Z.of_nat (length f)) r = Some (true, r') ∧ rsp_ok r' ∧
    ar_Addr2 r' = take 6 (drop 10 hdr) ∧ ar_CapabilityInfo r' = cap ∧ ar_Status r' = st ∧
    (st = MLME_SUCCESS → ar_Aid r' = aid mod 2 ^ 14 ∧ ar_SupRateLen r' = Z.of_nat (length rates) ∧ take (length rates) (ar_SupRate r') = rates ∧ found els r r').
Proof.
  intros f. set (m := f ++ rest) in *.
  assert (Hm : m = hdr ++ le_bytes 2 cap ++ le_bytes 2 st ++ le_bytes 2 aid ++ enc (IE_SUPP_RATES, rates) ++ concat (map enc els) ++ rest)
    by (unfold m, f, rsp_frame; by rewrite <- !app_assoc).
  pose proof (drop_app_at m hdr _ 0 24 Hm Hh) as D1. pose proof (drop_app_at m _ _ 24 2 D1 eq_refl) as D2.
  pose proof (drop_app_at m _ _ 26 2 D2 eq_refl) as D3. pose proof (drop_app_at m _ _ 28 2 D3 eq_refl) as D4. cbn [Nat.add] in D1, D2, D3, D4.
  assert (HA : take 6 (drop 10 m) = take 6 (drop 10 hdr)).
  { rewrite Hm, drop_app_le, take_app_le; [done|rewrite length_drop; lia|lia]. }
  unfold PeerAssocRspSanity, rsp_fixed, LENGTH_802_11. rewrite (get16_at cap _ m 24 0 D1 Hc : get16 m 24 = _).
  rewrite (get16_at st _ m 24 2 D2 Hst). cbn [mbind option_bind ar_Status]. set (r0 := mk_arsp _ _ _ _ _ _ _ _ _ _ _ _ _ _ _ _ _ _ _ _).
  destruct (Z.eqb_spec st MLME_SUCCESS) as [->|Hn]; cbn [negb]; [|exists r0; split; [done|]; split; [revert Hr; rsp|by repeat split]].
  rewrite (get16_at aid _ m 24 4 D3 Ha). cbn [mbind option_bind].
  assert (H1 : m !! (24 + 6)%nat = Some IE_SUPP_RATES) by (change (24 + 6)%nat with (30 + 0)%nat; rewrite <- lookup_drop, D4; done).
  assert (H2 : m !! (24 + 7)%nat = Some (Z.of_nat (length rates))) by (change (24 + 7)%nat with (30 + 1)%nat; rewrite <- lookup_drop, D4; done).
  rewrite H1, H2. cbn [mbind option_bind]. rewrite Z.eqb_refl. cbn [negb orb].
  destruct (Z.ltb_spec (Z.of_nat MAX_LEN_OF_SUPPORTED_RATES) (Z.of_nat (length rates))); [lia|]. rewrite Nat2Z.id.
  assert (H0 : rsp_ok r0) by (revert Hr; rsp). pose proof (ro_sup _ H0) as LS.
  pose proof (drop_app_at m _ _ 30 (2 + length rates) D4 eq_refl) as D5.
  assert (HL : (32 + length rates + 263 ≤ length m)%nat).
  { pose proof (f_equal length D4) as HL. rewrite length_drop, !length_app in HL. cbn [enc fst snd length] in HL. lia. }
  destruct (move_len (ar_SupRate r0) 0 m (24 + 8) (length rates)) as (x & Ex & Lx); [lia..|]. rewrite Ex. cbn [mbind option_bind].
  apply (move_at m _ 30 IE_SUPP_RATES rates D4) in Ex as [M1 _]; [|lia]. rewrite (take_ge rates) in M1 by lia.
  set (r1 := set_ar_rates _ _ _ _). assert (O1 : rsp_ok r1) by (revert H0; rsp).
  destruct (rsp_loop_found m rest r Hb Hrest els (length m) (24 + 8 + length rates) r1 []) as (r2 & E2 & F2 & X2 & O2); [done|exact D5|lia|done|by split|].
  replace (Z.of_nat (length f)) with (Z.of_nat (length m - length rest)) by (unfold m; rewrite length_app; lia).
  rewrite E2. cbn [mbind option_bind]. injection X2 as X1 X2 X3 X4 X5 X6. exists r2. split; [done|]. split; [done|]. rewrite X1, X2, X3, X4, X5, X6. cbn [r1 r0 set_ar_rates ar_Addr2 ar_CapabilityInfo ar_Status ar_Aid ar_SupRate ar_SupRateLen].
  repeat (split; [done|]). intros _. split; [|by split]. change 0x3fff with (Z.ones 14). by rewrite Z.land_ones.
Qed.

(** A response with four rates, two further ones, and WMM parameters. *)
Definition zero_rsp : assoc_rsp :=
  mk_arsp (zeros 6) 0 0 0 (zeros 12) 0 (zeros 12) 0 (zeros 26) (zeros 22) 0 0 0 (mk_parm false (zeros 26)) (zeros 8) 0 (zeros 12) 0 (zeros 5) 0.
Definition demo_els : list (Z * list Z) :=
  [(IE_EXT_SUPP_RATES, [48; 72]);
   (IE_VENDOR_SPECIFIC, WME_PARM_ELEM ++ [0x85; 0; 3; 164; 0; 0; 39; 164; 0; 0; 66; 67; 94; 0; 98; 50; 47; 0])].
Definition demo_rsp : list Z := rsp_frame (zeros 10 ++ [2; 4; 6; 8; 10; 12] ++ zeros 8) 0x0431 0 0xc005 [130; 132; 139; 150] demo_els.

Lemma zero_rsp_ok : rsp_ok zero_rsp.
Proof. by split. Qed.

Example demo_rsp_parsed : ∃ r', PeerAssocRspSanity (demo_rsp ++ zeros 263) 66 zero_rsp = Some (true, r') ∧
  ar_Aid r' = 5 ∧ take (Z.to_nat (ar_ExtRateLen r')) (ar_ExtRate r') = [48; 72] ∧
  lookup5 (edca_arrays (ar_EdcaParm r')) 2 = (Some 2, Some 3, Some 4, Some 94, Some 0).
Proof.
  destruct (rsp_parsed (zeros 10 ++ [2; 4; 6; 8; 10; 12] ++ zeros 8) 0x0431 0 0xc005 [130; 132; 139; 150] demo_els (zeros 263) zero_rsp)
    as (r' & H1 & _ & _ & _ & _ & H2); [done|lia..|vm_compute; lia|repeat constructor; vm_compute; lia|vm_compute; lia|apply zero_rsp_ok|solve_bytes|].
  destruct (H2 eq_refl) as (H3 & _ & _ & H4). exists r'. split; [exact H1|]. split; [exact H3|]. split; [exact (fo_ext _ _ _ H4)|].
  destruct (fo_wme _ _ _ H4) as [_ HW]. apply (HW 2%nat ltac:(lia)). intros j Hj. assert (j = 3%nat) as -> by lia. by vm_compute.
Qed.
