(* ===== verification/AssocReq.v ===== *)
(** The elements of association requests: the frames that MlmeAssocReqAction
    and MlmeReassocReqAction of src/sta/assoc.c put together, without the
    machine that sends them (StaAssoc), and src/common/vht.c, build_vht_cap_ie
    and build_vht_ies, in the station build with 802.11n, 802.11ac and
    beamforming.

    A part of a frame is the bytes that MakeOutgoingFrame copies. *)

From stdpp Require Import list.
From S2P Require Import Prelude MacTable Eapol StaAuth Mlme BssEntry BssTable BeaconSanity RsnIe.

(** * Constants *)

Definition VHT_MCS_CAP_9 : Z := 2.
Definition SUBTYPE_ASSOC_REQ : Z := 0.
Definition SUBTYPE_REASSOC_REQ : Z := 2.
Definition WMODE_CAP_N (x : Z) : bool := negb (Z.land x (Z.lor WMODE_GN WMODE_AN) =? 0).
Definition WMODE_CAP_AC (x : Z) : bool := negb (Z.land x WMODE_AC =? 0).

(** * What is read of the adapter *)

(** The settings and the chip's capabilities for VHT; [v_ldpc] is [vht_ldpc]
    with the chip's capability for it, the last four are the beamforming
    fields of [CommonCfg.vht_cap_ie]. *)
Record vht_conf := mk_vconf {
  v_ldpc : bool; v_sgi_80 : Z; v_stbc : bool; v_TxStream : Z; v_RxStream : Z; v_max_vht_mcs : Z; v_FlgHwTxBfCap : bool;
  v_num_snd_dimension : Z; v_cmp_st_num_bfer : Z; v_bfee_cap_su : Z; v_bfer_cap_su : Z
}.

(** The members of [CommonCfg], [StaCfg] and [StaActive]; the U-APSD flags are
    those of BE, BK, VI and VO. *)
Record req_conf := mk_rqconf {
  q_PhyMode : Z; q_Channel : Z; q_bIEEE80211H : bool; q_bBssCoexEnable : bool; q_bAggregationCapable : bool; q_bPiggyBackCapable : bool;
  q_bAPSDAC : Z * Z * Z * Z; q_MaxSPLength : Z; q_bAPSDCapable : bool; q_bPreNHt : bool; q_vht : vht_conf
}.

(** What the scan and the join left in [MlmeAux]. *)
Record req_aux := mk_rqaux {
  x_Ssid : list Z; x_SsidLen : Z; x_SupRate : list Z; x_SupRateLen : Z; x_ExtRate : list Z; x_ExtRateLen : Z; x_Channel : Z;
  x_APEdcaParm : parm; x_APRalinkIe : Z; x_HtCapability : list Z; x_HtCapabilityLen : Z; x_vht_cap_len : Z
}.

(** [EDCA_PARM.bAPSDCapable] *)
Definition edca_bAPSDCapable (e : parm) : Z := aget (parm_body e) 4.

(** * VHT *)

(** A map of the MCS for eight streams, of which six are not supported. *)
Definition mcs_map (ss1 ss2 : Z) : list Z := le_bytes 2 (Z.land ss1 3 + Z.shiftl (Z.land ss2 3) 2 + 0xfff0).

(** The highest rate and the map for a number of streams. *)
Definition nss_part (nss mcs_cap : Z) : list Z * Z :=
  if nss =? 1 then (mcs_map mcs_cap 3, 292)
  else if nss =? 2 then (mcs_map mcs_cap mcs_cap, if mcs_cap =? VHT_MCS_CAP_9 then 780 else 585)
  else (mcs_map 3 3, 0).

(** The fields of [VHT_CAP_INFO] at their bits.  [snd] is
    [BeaconSndDimensionFlag], which is reset. *)
Definition build_vht_cap_ie (V : vht_conf) (snd : Z) : list Z * Z :=
  let bf := v_FlgHwTxBfCap V && (snd =? 0) in
  let cap :=
    Z.shiftl (if v_ldpc V then 1 else 0) 4 + Z.shiftl (Z.land (v_sgi_80 V) 1) 5 +
    Z.shiftl (if v_stbc V && (2 <=? v_TxStream V) then 1 else 0) 7 +
    Z.shiftl (if v_stbc V && (1 <=? v_RxStream V) then 1 else 0) 8 +
    (if bf then Z.shiftl (Z.land (v_bfer_cap_su V) 1) 11 + Z.shiftl (Z.land (v_bfee_cap_su V) 1) 12 +
                Z.shiftl (Z.land (v_cmp_st_num_bfer V) 7) 13 + Z.shiftl (Z.land (v_num_snd_dimension V) 7) 16 else 0) +
    Z.shiftl 1 22 + Z.shiftl 3 23 + Z.shiftl 1 28 + Z.shiftl 1 29 in
  let '(rx_map, rx_high) := nss_part (v_RxStream V) (v_max_vht_mcs V) in
  let '(tx_map, tx_high) := nss_part (v_TxStream V) (v_max_vht_mcs V) in
  (le_bytes 4 cap ++ rx_map ++ le_bytes 2 rx_high ++ tx_map ++ le_bytes 2 tx_high, 0).

(** For the frames of a station, which have no VHT operation element. *)
Definition build_vht_ies (V : vht_conf) (snd : Z) : list Z * Z :=
  let '(b, snd) := build_vht_cap_ie V snd in ([IE_VHT_CAP; Z.of_nat SIZE_VHT_CAP_IE] ++ b, snd).

(** [vht_cap_ie.vht_cap.num_snd_dimension] of an entry of the table. *)
Definition num_snd_dimension (b : BSS_ENTRY) : Z := Z.land (aget (be_vht_cap_ie (be_ht b)) 2) 7.

(** The access point that sounds in more dimensions than the chip gets no
    beamforming capabilities. *)
Definition snd_flag (T : BSS_TABLE) (Bssid : list Z) (Channel snd : Z) : option Z :=
  Idx ← BssTableSearch T Bssid Channel;
  match Idx with
  | None => Some snd
  | Some i => b ← BssEntry T !! i; Some (if 2 <=? num_snd_dimension b then 1 else 0)
  end.

(** * Parts of the frames *)

Section parts.
Context (q : req_conf) (x : req_aux).

(** [n] bytes of an array, with the id and the length in front. *)
Definition elem (Eid n : Z) (b : list Z) : list Z := [Eid; n] ++ take (Z.to_nat n) b.

Definition ext_rate_part : list Z := if negb (x_ExtRateLen x =? 0) then elem IE_EXT_SUPP_RATES (x_ExtRateLen x) (x_ExtRate x) else [].

(** The HT capabilities, of a network from before the standard in a vendor
    element, and the VHT capabilities; with [BeaconSndDimensionFlag]. *)
Definition ht_part (T : BSS_TABLE) (Bssid : list Z) (snd : Z) : option (list Z * Z) :=
  let ht := if q_bPreNHt q
            then [WpaIe; Z.of_nat SIZE_HT_CAP_IE + 4; 0x00; 0x90; 0x4c; 0x33] ++ take (Z.to_nat (x_HtCapabilityLen x)) (x_HtCapability x)
            else elem IE_HT_CAP (x_HtCapabilityLen x) (x_HtCapability x) in
  if WMODE_CAP_AC (q_PhyMode q) && (14 <? x_Channel x) && negb (x_vht_cap_len x =? 0) then
    snd ← snd_flag T Bssid (x_Channel x) snd;
    let '(vht, snd) := build_vht_ies (q_vht q) snd in
    Some (ht ++ vht, snd)
  else Some (ht, snd).

Definition ext_cap_part : list Z :=
  let coex := if q_bBssCoexEnable q && WMODE_CAP_N (q_PhyMode q) && (q_Channel q <=? 14) then 1 else 0 in
  let op := if WMODE_CAP_AC (q_PhyMode q) && (14 <? q_Channel q) then 0x40 else 0 in
  elem IE_EXT_CAPABILITY (Z.of_nat SIZE_EXT_CAP_INFO) ([coex] ++ zeros 6 ++ [op]).

(** The element of the vendor; [none] is its type without aggregation. *)
Definition ralink_part (none : Z) : list Z :=
  let ie t := [IE_VENDOR_SPECIFIC; 7; 0x00; 0x0c; 0x43; t; 0x00; 0x00; 0x00] in
  if q_bAggregationCapable q then
    if q_bPiggyBackCapable q && (Z.land (x_APRalinkIe x) 3 =? 3) then ie 3
    else if negb (Z.land (x_APRalinkIe x) 1 =? 0) then ie 1
    else []
  else ie none.

(** [QBSS_STA_INFO_PARM] *)
Definition qos_info : Z :=
  let '(be, bk, vi, vo) := q_bAPSDAC q in
  Z.land vo 1 + Z.shiftl (Z.land vi 1) 1 + Z.shiftl (Z.land bk 1) 2 + Z.shiftl (Z.land be 1) 3 + Z.shiftl (Z.land (q_MaxSPLength q) 3) 5.

Definition wme_part : list Z :=
  [IE_VENDOR_SPECIFIC; 0x07; 0x00; 0x50; 0xf2; 0x02; 0x00; 0x01;
   if q_bAPSDCapable q && negb (edca_bAPSDCapable (x_APEdcaParm x) =? 0) then qos_info else 0].

(** [CapabilityInfo] without the bit for spectrum management, where the
    station does not do it. *)
Definition request_capability (CapabilityInfo : Z) : Z :=
  if negb ((14 <? q_Channel q) && q_bIEEE80211H q) then Z.land CapabilityInfo (Z.lnot 0x0100) else CapabilityInfo.

(** The elements of an association request up to the security ones. *)
Definition assoc_elements (T : BSS_TABLE) (Bssid : list Z) (snd : Z) : option (list Z * Z) :=
  '(ht, snd) ← (if (0 <? x_HtCapabilityLen x) && WMODE_CAP_N (q_PhyMode q) && parm_bValid (x_APEdcaParm x)
                then ht_part T Bssid snd else Some ([], snd));
  Some (elem IE_SSID (x_SsidLen x) (x_Ssid x) ++ elem IE_SUPP_RATES (x_SupRateLen x) (x_SupRate x) ++ ext_rate_part ++ ht ++
        ext_cap_part ++ ralink_part 6 ++ (if parm_bValid (x_APEdcaParm x) then wme_part else []), snd).

(** The elements of a reassociation request. *)
Definition reassoc_elements (T : BSS_TABLE) (Bssid : list Z) (snd : Z) : option (list Z * Z) :=
  '(qos, snd) ← (if parm_bValid (x_APEdcaParm x) then
                   '(ht, snd) ← (if (0 <? x_HtCapabilityLen x) && WMODE_CAP_N (q_PhyMode q)
                                 then ht_part T Bssid snd else Some ([], snd));
                   Some (wme_part ++ ht, snd)
                 else Some ([], snd));
  Some (elem IE_SSID (x_SsidLen x) (x_Ssid x) ++ elem IE_SUPP_RATES (x_SupRateLen x) (x_SupRate x) ++ ext_rate_part ++ qos ++ ralink_part 4, snd).
End parts.
