(* ===== verification/StaAssoc.v ===== *)
(** The association of the station: src/sta/assoc.c, MlmeAssocReqSanity and
    PeerDisassocSanity of src/common/cmm_sanity.c, RTMPCheckRates,
    dot11_max_sup_rate and dot11_2_ra_rate of src/common/mlme.c, and
    StaUpdateMacTableEntry of src/mgmt/mgmt_entrytb.c.

    The actions are those the table of the association machine points to
    (Mlme); they run on the adapter of the engine with the station's data as
    its rest, and confirm to the control machine through the queue.  Frames
    handed to MiniportMMRequest, wireless events, and the calls that set up
    the rates and capabilities of the peer or take the link down are a trace;
    a timer is the time it is set to, or [None]. *)

From stdpp Require Import list.
From S2P Require Import Prelude CipherKey MacTable Eapol StaAuth Mlme BssEntry BssTable BeaconSanity RsnIe AssocRsp AssocReq.

(** * Constants *)

Definition MT2_ASSOC_CONF : Z := 34.
Definition MT2_DISASSOC_CONF : Z := 37.
Definition MT2_REASSOC_CONF : Z := 38.
Definition SUBTYPE_DISASSOC : Z := 10.
Definition REASON_CLS3ERR : Z := 7.
Definition REASON_DISASSOC_STA_LEAVING : Z := 8.
Definition IW_DISASSOC_EVENT_FLAG : Z := 0x0201.
Definition RT_ASSOC_EVENT_FLAG : Z := 0x0101.
Definition RT_DISASSOC_EVENT_FLAG : Z := 0x0102.
Definition SUPPORTED_CAPABILITY_INFO : Z := 0x0533.
Definition WMODE_B : Z := 2.
Definition RATE_11 : Z := 3.
Definition RATE_FIRST_OFDM_RATE : Z := 4.
Definition RateIdTo500Kbps : list Z := [2; 4; 11; 22; 12; 18; 24; 36; 48; 72; 96; 108; 144; 200].

(** * The station's data *)

(** The part of [MlmeAux] that association writes, and what it reads. *)
Record assoc_aux := mk_aaux { aa_Bssid : list Z; aa_BssType : Z; aa_Aid : Z; aa_CapabilityInfo : Z; aa_req : req_aux }.

Record assoc_timers := mk_timers { AssocTimer : option Z; ReassocTimer : option Z; DisassocTimer : option Z }.

(** The station's own element and the elements of its last request. *)
Record sta_ies := mk_sies { s_RSN_IE : list Z; s_RSNIE_Len : Z; ReqVarIEs : list Z; ReqVarIELen : Z }.

(** The fixed fields of [AssocInfo]. *)
Record assoc_info := mk_ainfo { ReqCapabilities : Z; ReqListenInterval : Z }.

(** What the actions read only.  [SavedPMK] are pairs of an address and a
    PMKID, [WpaAssocIe] the element that the supplicant gave. *)
Record assoc_conf := mk_aconf {
  ad_CurrentAddress : list Z; ad_BssType : Z; ad_Bssid : list Z; ad_LastBssid : list Z; ad_INFRA_ON : bool; ad_AuthMode : Z; ad_WepStatus : Z;
  ad_rsn : rsn_cfg; bRSN_IE_FromWpaSupplicant : bool; pWpaAssocIe : list Z; SavedPMK : list (list Z * list Z); ad_req : req_conf
}.

Inductive assoc_event :=
| A_MMRequest (frame : list Z)
| A_SendWirelessEvent (flag : Z)
| A_CustomEvent (flag : Z)
| A_SendAssocIEs (ies : list Z)
| A_RemoveAllKeys
| A_CheckHt (ht_cap ht_op : list Z)
| A_CheckVht (vht_cap vht_op : list Z)
| A_UpdateMacTableEntry (MaxSupportedRateIn500Kbps CapabilityInfo : Z)
| A_SetSupportMCS (SupRate ExtRate : list Z)
| A_ConnResult (Bssid req_ies rsp_ies : list Z)
| A_LinkDown.

Record assoc_w := mk_aw {
  aw_aux : assoc_aux; aw_timers : assoc_timers; aw_ies : sta_ies; aw_info : assoc_info; aw_dis : Z * list Z;
  aw_ap : list Z * Z; aw_MacTab : MAC_TABLE; aw_ScanTab : BSS_TABLE; aw_snd : Z; aw_bBlockAssoc : bool; aw_conf : assoc_conf;
  aw_events : list assoc_event
}.

Definition set_aaux (v : assoc_aux) (s : assoc_w) : assoc_w :=
  mk_aw v (aw_timers s) (aw_ies s) (aw_info s) (aw_dis s) (aw_ap s) (aw_MacTab s) (aw_ScanTab s) (aw_snd s) (aw_bBlockAssoc s) (aw_conf s) (aw_events s).
Definition set_timers (v : assoc_timers) (s : assoc_w) : assoc_w :=
  mk_aw (aw_aux s) v (aw_ies s) (aw_info s) (aw_dis s) (aw_ap s) (aw_MacTab s) (aw_ScanTab s) (aw_snd s) (aw_bBlockAssoc s) (aw_conf s) (aw_events s).
(** What a request leaves: its elements, its fixed fields and
    [BeaconSndDimensionFlag]. *)
Definition set_request (v : sta_ies) (i : assoc_info) (snd : Z) (s : assoc_w) : assoc_w :=
  mk_aw (aw_aux s) (aw_timers s) v i (aw_dis s) (aw_ap s) (aw_MacTab s) (aw_ScanTab s) snd (aw_bBlockAssoc s) (aw_conf s) (aw_events s).
(** [DisassocReason] and [DisassocSta] *)
Definition set_disassoc (v : Z * list Z) (s : assoc_w) : assoc_w :=
  mk_aw (aw_aux s) (aw_timers s) (aw_ies s) (aw_info s) v (aw_ap s) (aw_MacTab s) (aw_ScanTab s) (aw_snd s) (aw_bBlockAssoc s) (aw_conf s) (aw_events s).
(** [RSN_IE] and [RSNIE_Len] of the access point's entry *)
Definition set_ap (v : list Z * Z) (s : assoc_w) : assoc_w :=
  mk_aw (aw_aux s) (aw_timers s) (aw_ies s) (aw_info s) (aw_dis s) v (aw_MacTab s) (aw_ScanTab s) (aw_snd s) (aw_bBlockAssoc s) (aw_conf s) (aw_events s).
Definition set_MacTab (v : MAC_TABLE) (s : assoc_w) : assoc_w :=
  mk_aw (aw_aux s) (aw_timers s) (aw_ies s) (aw_info s) (aw_dis s) (aw_ap s) v (aw_ScanTab s) (aw_snd s) (aw_bBlockAssoc s) (aw_conf s) (aw_events s).
Definition aemit (l : list assoc_event) (s : assoc_w) : assoc_w :=
  mk_aw (aw_aux s) (aw_timers s) (aw_ies s) (aw_info s) (aw_dis s) (aw_ap s) (aw_MacTab s) (aw_ScanTab s) (aw_snd s) (aw_bBlockAssoc s) (aw_conf s) (aw_events s ++ l).

Definition set_AssocTimer (t : option Z) (s : assoc_w) : assoc_w := set_timers (mk_timers t (ReassocTimer (aw_timers s)) (DisassocTimer (aw_timers s))) s.
Definition set_ReassocTimer (t : option Z) (s : assoc_w) : assoc_w := set_timers (mk_timers (AssocTimer (aw_timers s)) t (DisassocTimer (aw_timers s))) s.
Definition set_DisassocTimer (t : option Z) (s : assoc_w) : assoc_w := set_timers (mk_timers (AssocTimer (aw_timers s)) (ReassocTimer (aw_timers s)) t) s.
Definition set_aux_Bssid (b : list Z) (s : assoc_w) : assoc_w :=
  let a := aw_aux s in set_aaux (mk_aaux b (aa_BssType a) (aa_Aid a) (aa_CapabilityInfo a) (aa_req a)) s.

(** * The adapter *)

Abbreviation assoc_adapter := (RTMP_ADAPTER assoc_w).

Definition upd (f : assoc_w → assoc_w) (pAd : assoc_adapter) : assoc_adapter := mk_pAd (Mlme pAd) (Flags pAd) (ate_on pAd) (f (rest pAd)).

Definition set_AssocState (s : Z) (pAd : assoc_adapter) : assoc_adapter :=
  let m := Mlme pAd in
  set_Mlme (mk_mlme (CntlMachine m) (set_CurrState s (AssocMachine m)) (AuthMachine m) (AuthRspMachine m)
    (SyncMachine m) (WpaPskMachine m) (ActMachine m) (WpaMachine m) (bRunning m) (Queue m)) pAd.

(** The allocations of the frame and of the list of elements, and the local
    variables of the response handlers, as they are before the parser. *)
Record assoc_env := mk_asenv { al_OutBuffer : bool; al_ie_list : bool; locals : assoc_rsp }.

(** The bytes of a request that goes on waiting. *)
Definition asend (frame : list Z) (pAd : assoc_adapter) : assoc_adapter := upd (aemit [A_MMRequest frame]) pAd.

(** The machine goes idle and the control machine hears of it. *)
Definition refuse (MsgType Status : Z) (pAd : assoc_adapter) : option assoc_adapter := confirm MsgType Status (set_AssocState ASSOC_IDLE pAd).

(** * Requests *)

(** [MLME_ASSOC_REQ_STRUCT]: address, capabilities, listen interval and a
    [ULONG] timeout; the function always succeeds. *)
Definition MlmeAssocReqSanity (Msg : list Z) : option (list Z * Z * Z * Z) :=
  Some (slice Msg 0 6, le_word (slice Msg 6 2), le_word (slice Msg 16 8), le_word (slice Msg 8 2)).

(** [NdisMoveMemory(ReqVarIEs + VarIesOffset, src, n); VarIesOffset += n] *)
Definition add_var (v : list Z * nat) (src : list Z) (n : Z) : option (list Z * nat) :=
  b ← move_mem (fst v) (snd v) src 0 (Z.to_nat n); Some (b, (snd v + Z.to_nat n)%nat).

(** The id, the length and the bytes. *)
Definition add_elem (v : list Z * nat) (Eid n : Z) (src : list Z) : option (list Z * nat) :=
  v ← add_var v [Eid; n] 2; add_var v src n.

(** The saved PMKID for the access point, unless it was the last one. *)
Definition cached_PMKID (C : assoc_conf) (ApAddr : list Z) : option (list Z) :=
  match list_find (λ p, MAC_ADDR_EQUAL ApAddr (fst p) = true) (SavedPMK C) with
  | Some (_, (_, PMKID)) => if MAC_ADDR_EQUAL ApAddr (ad_LastBssid C) then None else Some PMKID
  | None => None
  end.

(** [RTMPMakeRSNIE] and the PMKID. *)
Definition make_rsn (C : assoc_conf) (ApAddr RSN_IE : list Z) (RSNIE_Len : Z) : list Z * Z :=
  let r := default (RSN_IE, RSNIE_Len) (RTMPMakeRSNIE (ad_rsn C) (ad_AuthMode C) (ad_WepStatus C)) in
  if ad_AuthMode C =? Ndis802_11AuthModeWPA2
  then match cached_PMKID C ApAddr with Some PMKID => append_PMKID PMKID r | None => r end
  else r.

Definition is_wpa (AuthMode : Z) : bool :=
  (AuthMode =? Ndis802_11AuthModeWPAPSK) || (AuthMode =? Ndis802_11AuthModeWPA2PSK) ||
  (AuthMode =? Ndis802_11AuthModeWPA) || (AuthMode =? Ndis802_11AuthModeWPA2).

(** The element that the supplicant gave is used. *)
Definition supplicant_ie (C : assoc_conf) : bool :=
  negb (Z.land (rc_WpaSupplicantUP (ad_rsn C)) WPA_SUPPLICANT_ENABLE =? 0) && bRSN_IE_FromWpaSupplicant C.

(** The security elements: those of the frame, and what becomes of the
    station's; [v] are the elements of the request so far. *)
Definition security (C : assoc_conf) (ApAddr : list Z) (i : sta_ies) (v : list Z * nat) : option (list Z * sta_ies) :=
  let RSNIe := if (ad_AuthMode C =? Ndis802_11AuthModeWPA2PSK) || (ad_AuthMode C =? Ndis802_11AuthModeWPA2) then IE_WPA2 else IE_WPA in
  '(out, rsn, rlen, v, vlen) ←
    (if is_wpa (ad_AuthMode C) then
       let '(rsn, rlen) := if negb (bRSN_IE_FromWpaSupplicant C) then make_rsn C ApAddr (s_RSN_IE i) (s_RSNIE_Len i)
                           else (s_RSN_IE i, s_RSNIE_Len i) in
       let out := if supplicant_ie C then [] else elem RSNIe rlen rsn in
       if negb (Z.land (rc_WpaSupplicantUP (ad_rsn C)) 0x7F =? WPA_SUPPLICANT_ENABLE) || negb (bRSN_IE_FromWpaSupplicant C) then
         v ← add_elem v RSNIe rlen rsn; Some (out, rsn, rlen, v, Z.of_nat (snd v))
       else Some (out, rsn, rlen, v, ReqVarIELen i)
     else Some ([], s_RSN_IE i, s_RSNIE_Len i, v, ReqVarIELen i));
  if supplicant_ie C then
    let n := Z.of_nat (length (pWpaAssocIe C)) in
    v ← add_var v (pWpaAssocIe C) n; Some (out ++ pWpaAssocIe C, mk_sies rsn rlen (fst v) (u16 (Z.of_nat (snd v))))
  else Some (out, mk_sies rsn rlen (fst v) (u16 vlen)).

Definition MlmeAssocReqAction (E : assoc_env) (Elem : MLME_QUEUE_ELEM) (pAd : assoc_adapter) : option assoc_adapter :=
  if aw_bBlockAssoc (rest pAd) then refuse MT2_ASSOC_CONF MLME_STATE_MACHINE_REJECT pAd
  else
    match MlmeAssocReqSanity (el_Msg Elem) with
    | None => refuse MT2_ASSOC_CONF MLME_INVALID_FORMAT pAd
    | Some (ApAddr, CapabilityInfo, Timeout, ListenIntv) =>
        let pAd := upd (λ s, set_aux_Bssid ApAddr (set_AssocTimer None (aemit [A_RemoveAllKeys] s))) pAd in
        if negb (al_OutBuffer E) then refuse MT2_ASSOC_CONF MLME_FAIL_NO_RESOURCE pAd
        else
          let s := rest pAd in
          let C := aw_conf s in
          let x := aa_req (aw_aux s) in
          let info := mk_ainfo CapabilityInfo ListenIntv in
          v ← add_elem (zeros MAX_VIE_LEN, 0%nat) IE_SSID (x_SsidLen x) (x_Ssid x);
          v ← add_elem v IE_SUPP_RATES (x_SupRateLen x) (x_SupRate x);
          '(els, snd) ← assoc_elements (ad_req C) x (aw_ScanTab s) ApAddr (aw_snd s);
          '(sec, ies) ← security C ApAddr (aw_ies s) v;
          let hdr := MgtMacHeaderInit SUBTYPE_ASSOC_REQ 0 0 ApAddr (ad_CurrentAddress C) ApAddr in
          let frame := hdr ++ le_bytes 2 (request_capability (ad_req C) CapabilityInfo) ++ le_bytes 2 ListenIntv ++ els ++ sec in
          let pAd := upd (λ s, set_AssocTimer (Some Timeout) (set_request ies info snd s)) (asend frame pAd) in
          Some (set_AssocState ASSOC_WAIT_RSP pAd)
    end.

(** The timer is set to twice the time; the address of the access point stands
    for that of the current one. *)
Definition MlmeReassocReqAction (E : assoc_env) (Elem : MLME_QUEUE_ELEM) (pAd : assoc_adapter) : option assoc_adapter :=
  if aw_bBlockAssoc (rest pAd) then refuse MT2_REASSOC_CONF MLME_STATE_MACHINE_REJECT pAd
  else
    match MlmeAssocReqSanity (el_Msg Elem) with
    | None => refuse MT2_REASSOC_CONF MLME_INVALID_FORMAT pAd
    | Some (ApAddr, CapabilityInfo, Timeout, ListenIntv) =>
        let pAd := upd (λ s, set_ReassocTimer None (aemit [A_RemoveAllKeys] s)) pAd in
        if negb (al_OutBuffer E) then refuse MT2_REASSOC_CONF MLME_FAIL_NO_RESOURCE pAd
        else
          let pAd := upd (set_aux_Bssid ApAddr) pAd in
          let s := rest pAd in
          let C := aw_conf s in
          '(els, snd) ← reassoc_elements (ad_req C) (aa_req (aw_aux s)) (aw_ScanTab s) ApAddr (aw_snd s);
          let hdr := MgtMacHeaderInit SUBTYPE_REASSOC_REQ 0 0 ApAddr (ad_CurrentAddress C) ApAddr in
          let frame := hdr ++ le_bytes 2 CapabilityInfo ++ le_bytes 2 ListenIntv ++ ApAddr ++ els in
          let pAd := upd (λ s, set_ReassocTimer (Some (u64 (Timeout * 2))) (set_request (aw_ies s) (aw_info s) snd s)) (asend frame pAd) in
          Some (set_AssocState REASSOC_WAIT_RSP pAd)
    end.

(** A disassociation and a deauthentication to [Addr]. *)
Definition leave_frames (Addr own bssid Reason : list Z) : list assoc_event :=
  [A_MMRequest (MgtMacHeaderInit SUBTYPE_DISASSOC 0 0 Addr own bssid ++ Reason);
   A_MMRequest (MgtMacHeaderInit SUBTYPE_DEAUTH 0 0 Addr own bssid ++ Reason)].

(** The supplicant hears of it, if there is one. *)
Definition tell_supplicant (flag : Z) (s : assoc_w) : assoc_w :=
  if negb (rc_WpaSupplicantUP (ad_rsn (aw_conf s)) =? WPA_SUPPLICANT_DISABLE) then aemit [A_CustomEvent flag] s else s.

(** [MLME_DISASSOC_REQ_STRUCT]: address and reason. *)
Definition MlmeDisassocReqAction (E : assoc_env) (Elem : MLME_QUEUE_ELEM) (pAd : assoc_adapter) : option assoc_adapter :=
  let Addr := slice (el_Msg Elem) 0 6 in
  let Reason := slice (el_Msg Elem) 6 2 in
  if negb (al_OutBuffer E) then refuse MT2_DISASSOC_CONF MLME_FAIL_NO_RESOURCE pAd
  else
    let own := ad_CurrentAddress (aw_conf (rest pAd)) in
    let pAd := upd (λ s, set_DisassocTimer (Some 500) (set_disassoc (REASON_DISASSOC_STA_LEAVING, Addr)
                      (aemit (leave_frames Addr own Addr Reason) (set_DisassocTimer None s)))) pAd in
    let pAd := set_AssocState DISASSOC_WAIT_RSP pAd in
    Some (upd (λ s, aemit [A_SendWirelessEvent IW_DISASSOC_EVENT_FLAG] (tell_supplicant RT_DISASSOC_EVENT_FLAG s)) pAd).

(** * Responses *)

(** The rates that the station has; each is the one of the table at most once. *)
Definition RTMPCheckRates (PhyMode : Z) (SupRate : list Z) (SupRateLen : Z) : list Z * Z :=
  let RateIdx := if PhyMode =? WMODE_B then 4%nat else 12%nat in
  let NewRate := flat_map (λ r, flat_map (λ t, if Z.land r 0x7f =? t then [r] else []) (take RateIdx RateIdTo500Kbps))
                   (take (Z.to_nat SupRateLen) SupRate) in
  (bwrite SupRate 0 NewRate, Z.of_nat (length NewRate)).

(** The loop over the rates without the basic-rate bit. *)
Definition max_rate (m : Z) (l : list Z) : Z := fold_left (λ m r, if m <? Z.land r 0x7f then Z.land r 0x7f else m) l m.

Definition dot11_max_sup_rate (SupRateLen : Z) (SupRate : list Z) (ExtRateLen : Z) (ExtRate : list Z) : Z :=
  let m := max_rate 0 (take (Z.to_nat SupRateLen) SupRate) in
  if 0 <? ExtRateLen then max_rate m (take (Z.to_nat ExtRateLen) ExtRate) else m.

(** The default WMM parameters of an HT access point without the element. *)
Definition default_edca (HtCapabilityLen : Z) (e : parm) : parm :=
  if (0 <? HtCapabilityLen) && negb (parm_bValid e)
  then mk_parm true (take 6 (parm_body e) ++ [3; 7; 2; 2] ++ [4; 4; 3; 2] ++ [10; 10; 4; 3] ++ [0; 0; 96; 48] ++ drop 22 (parm_body e))
  else e.

(** [NdisMoveMemory(pEntry->RSN_IE, pVIE, pEid->Len + 2)] *)
Definition store_rsn (m : list Z) (p : nat) (Len : Z) (ie : list Z * Z) : option (list Z * Z) :=
  b ← move_mem (fst ie) 0 m p (Z.to_nat Len + 2); Some (b, u8 (Len + 2)).

(** The loop over the elements of the network; [len] is a [USHORT].  A turn
    moves on by two bytes at least, and past the end of the array is [None]. *)
Fixpoint rsn_walk (fuel : nat) (AuthMode : Z) (m : list Z) (p : nat) (len : Z) (ie : list Z * Z) : option (list Z * Z) :=
  if len =? 0 then Some ie
  else
    match fuel with
    | O => None
    | S fuel =>
        Eid ← m !! p;
        wpa ← (if Eid =? IE_WPA then equal_mem m (p + 2) WPA_OUI 4 else Some false);
        rsn ← (if Eid =? IE_RSN then equal_mem m (p + 4) RSN_OUI 3 else Some false);
        Len ← m !! (p + 1)%nat;
        ie ← (if wpa && ((AuthMode =? Ndis802_11AuthModeWPA) || (AuthMode =? Ndis802_11AuthModeWPAPSK)) then store_rsn m p Len ie
              else if rsn && ((AuthMode =? Ndis802_11AuthModeWPA2) || (AuthMode =? Ndis802_11AuthModeWPA2PSK)) then store_rsn m p Len ie
              else Some ie);
        rsn_walk fuel AuthMode m (p + Z.to_nat Len + 2) (u16 (len - (Len + 2))) ie
    end.

(** The element of the network is stored for the WPA handshake. *)
Definition store_ap_rsn (C : assoc_conf) (T : BSS_TABLE) (Addr2 : list Z) (Channel : Z) (ie : list Z * Z) : option (list Z * Z) :=
  Idx ← BssTableSearch T Addr2 Channel;
  match Idx with
  | None => Some ie
  | Some i =>
      b ← BssEntry T !! i;
      let ie := (zeros MAX_LEN_OF_RSNIE, 0) in
      if (Ndis802_11AuthModeWPA <=? ad_AuthMode C) && negb (VarIELen (be_ies b) =? 0)
      then rsn_walk (S (length (VarIEs (be_ies b)))) (ad_AuthMode C) (VarIEs (be_ies b)) 0 (VarIELen (be_ies b)) ie
      else Some ie
  end.

(** The new contents of [MlmeAux]. *)
Definition post_aux (C : assoc_conf) (r : assoc_rsp) (x : req_aux) : option req_aux :=
  sup ← move_mem (x_SupRate x) 0 (ar_SupRate r) 0 (Z.to_nat (ar_SupRateLen r));
  ext ← move_mem (x_ExtRate x) 0 (ar_ExtRate r) 0 (Z.to_nat (ar_ExtRateLen r));
  let '(sup, supl) := RTMPCheckRates (q_PhyMode (ad_req C)) sup (ar_SupRateLen r) in
  let '(ext, extl) := RTMPCheckRates (q_PhyMode (ad_req C)) ext (ar_ExtRateLen r) in
  Some (mk_rqaux (x_Ssid x) (x_SsidLen x) sup supl ext extl (x_Channel x) (default_edca (ar_HtCapabilityLen r) (ar_EdcaParm r))
    (x_APRalinkIe x) (x_HtCapability x) (x_HtCapabilityLen x) (x_vht_cap_len x)).

Definition AssocPostProc (r : assoc_rsp) (s : assoc_w) : option assoc_w :=
  let C := aw_conf s in
  x ← post_aux C r (aa_req (aw_aux s));
  let s := set_aaux (mk_aaux (take 6 (ar_Addr2 r)) BSS_INFRA (ar_Aid r) (Z.land (ar_CapabilityInfo r) SUPPORTED_CAPABILITY_INFO) x) s in
  let s := aemit (if 0 <? ar_HtCapabilityLen r then [A_CheckHt (ar_HtCapability r) (ar_AddHtInfo r)] else []) s in
  let s := aemit (if (0 <? ar_vht_cap_len r) && (0 <? ar_vht_op_len r) then [A_CheckVht (ar_vht_cap r) (ar_vht_op r)] else []) s in
  ie ← store_ap_rsn C (aw_ScanTab s) (ar_Addr2 r) (x_Channel x) (aw_ap s);
  Some (set_ap ie s).

(** The peer that the station leaves is taken out of the table. *)
Definition forget_old_ap (s : assoc_w) : option assoc_w :=
  pEntry ← MacTableLookup (aw_MacTab s) (ad_Bssid (aw_conf s));
  match pEntry with
  | None => Some s
  | Some w =>
      e ← Entries (aw_MacTab s) !! w;
      '(_, T) ← MacTableDeleteEntry (aw_MacTab s) (wcid e) (Addr e);
      Some (set_MacTab T s)
  end.

(** The rate of the chip, by its number. *)
Definition dot11_2_ra_rate (MaxSupportedRateIn500Kbps : Z) : Z :=
  match list_find (λ p, fst p = MaxSupportedRateIn500Kbps)
    [(108, 11); (96, 10); (72, 9); (48, 8); (36, 7); (24, 6); (18, 5); (12, 4); (22, RATE_11); (11, 2); (4, 1); (2, 0)] with
  | Some (_, (_, r)) => r
  | None => RATE_11
  end.

(** The elements of the request and the event, for the supplicant. *)
Definition assoc_event_of (s : assoc_w) : list assoc_event :=
  [A_SendAssocIEs (take (Z.to_nat (ReqVarIELen (aw_ies s))) (ReqVarIEs (aw_ies s))); A_CustomEvent RT_ASSOC_EVENT_FLAG].

(** The peer is refused in 802.11g without an OFDM rate, and in HT-only modes
    without HT capabilities; else it gets entry 1 ([sta_enter_ap] of
    MacTable).  Its rates and capabilities are an event. *)
Definition StaUpdateMacTableEntry (MaxSupportedRateIn500Kbps : Z) (r : assoc_rsp) (s : assoc_w) : option assoc_w :=
  let C := aw_conf s in
  if (q_PhyMode (ad_req C) =? WMODE_G) && (dot11_2_ra_rate MaxSupportedRateIn500Kbps <? RATE_FIRST_OFDM_RATE) then Some s
  else if WMODE_HT_ONLY (q_PhyMode (ad_req C)) && (ar_HtCapabilityLen r =? 0) then Some s
  else
    T ← sta_enter_ap (mk_stacfg (ad_BssType C =? BSS_INFRA) (ad_AuthMode C) (ad_WepStatus C)) (aw_MacTab s) (aa_Bssid (aw_aux s));
    let s := aemit [A_UpdateMacTableEntry MaxSupportedRateIn500Kbps (ar_CapabilityInfo r)] (set_MacTab T s) in
    Some (if negb (rc_WpaSupplicantUP (ad_rsn C) =? WPA_SUPPLICANT_DISABLE) then aemit (assoc_event_of s) s else s).

(** What both handlers do on success. *)
Definition associated (r : assoc_rsp) (s : assoc_w) : option assoc_w :=
  s ← forget_old_ap s;
  let MaxRate := dot11_max_sup_rate (ar_SupRateLen r) (ar_SupRate r) (ar_ExtRateLen r) (ar_ExtRate r) in
  s ← AssocPostProc r s;
  s ← StaUpdateMacTableEntry MaxRate r s;
  Some (aemit [A_SetSupportMCS (take (Z.to_nat (ar_SupRateLen r)) (ar_SupRate r)) (take (Z.to_nat (ar_ExtRateLen r)) (ar_ExtRate r))] s).

(** [pFrame->Octet[6]] to the end of the frame. *)
Definition rsp_ies (Elem : MLME_QUEUE_ELEM) : list Z := slice (el_Msg Elem) 30 (Z.to_nat (el_MsgLen Elem - 6 - 24)).

Definition PeerAssocRspAction (E : assoc_env) (Elem : MLME_QUEUE_ELEM) (pAd : assoc_adapter) : option assoc_adapter :=
  if negb (al_ie_list E) then Some pAd
  else
    '(ok, r) ← PeerAssocRspSanity (el_Msg Elem) (el_MsgLen Elem) (locals E);
    if (ok : bool) && MAC_ADDR_EQUAL (ar_Addr2 r) (aa_Bssid (aw_aux (rest pAd))) then
      let pAd := upd (set_AssocTimer None) pAd in
      s ← (if ar_Status r =? MLME_SUCCESS then associated r (rest pAd) else Some (rest pAd));
      pAd ← refuse MT2_ASSOC_CONF (ar_Status r) (upd (λ _, s) pAd);
      Some (if ar_Status r =? MLME_SUCCESS
            then upd (λ s, aemit [A_ConnResult (aa_Bssid (aw_aux s)) (take (Z.to_nat (ReqVarIELen (aw_ies s))) (ReqVarIEs (aw_ies s))) (rsp_ies Elem)] s) pAd
            else pAd)
    else Some pAd.

Definition PeerReassocRspAction (E : assoc_env) (Elem : MLME_QUEUE_ELEM) (pAd : assoc_adapter) : option assoc_adapter :=
  if negb (al_ie_list E) then Some pAd
  else
    '(ok, r) ← PeerAssocRspSanity (el_Msg Elem) (el_MsgLen Elem) (locals E);
    if (ok : bool) && MAC_ADDR_EQUAL (ar_Addr2 r) (aa_Bssid (aw_aux (rest pAd))) then
      let pAd := upd (set_ReassocTimer None) pAd in
      s ← (if ar_Status r =? MLME_SUCCESS then
             s ← associated r (rest pAd);
             Some (if negb (rc_WpaSupplicantUP (ad_rsn (aw_conf s)) =? WPA_SUPPLICANT_DISABLE)
                   then aemit (assoc_event_of s) s
                   else s)
           else Some (rest pAd));
      refuse MT2_REASSOC_CONF (ar_Status r) (upd (λ _, s) pAd)
    else Some pAd.

(** Source and reason; the function always succeeds. *)
Definition PeerDisassocSanity (Msg : list Z) : option (list Z * Z) := Some (slice Msg 10 6, le_word (slice Msg 24 2)).

Definition PeerDisassocAction (Elem : MLME_QUEUE_ELEM) (pAd : assoc_adapter) : option assoc_adapter :=
  match PeerDisassocSanity (el_Msg Elem) with
  | None => Some pAd
  | Some (Addr2, _) =>
      let C := aw_conf (rest pAd) in
      if ad_INFRA_ON C && MAC_ADDR_EQUAL (ad_Bssid C) Addr2 then
        let pAd := upd (aemit [A_SendWirelessEvent IW_DISASSOC_EVENT_FLAG]) pAd in
        pAd ← (if CurrState (CntlMachine (Mlme pAd)) =? CNTL_WAIT_DISASSOC then confirm MT2_DISASSOC_CONF MLME_SUCCESS pAd
               else Some (upd (aemit [A_LinkDown]) pAd));
        Some (upd (tell_supplicant RT_DISASSOC_EVENT_FLAG) (set_AssocState ASSOC_IDLE pAd))
      else Some pAd
  end.

(** * Timeouts and messages out of place *)

Definition AssocTimeoutAction (pAd : assoc_adapter) : option assoc_adapter := refuse MT2_ASSOC_CONF MLME_REJ_TIMEOUT pAd.
Definition ReassocTimeoutAction (pAd : assoc_adapter) : option assoc_adapter := refuse MT2_REASSOC_CONF MLME_REJ_TIMEOUT pAd.
Definition DisassocTimeoutAction (pAd : assoc_adapter) : option assoc_adapter := refuse MT2_DISASSOC_CONF MLME_SUCCESS pAd.
Definition InvalidStateWhenAssoc (pAd : assoc_adapter) : option assoc_adapter := refuse MT2_ASSOC_CONF MLME_STATE_MACHINE_REJECT pAd.
Definition InvalidStateWhenReassoc (pAd : assoc_adapter) : option assoc_adapter := refuse MT2_REASSOC_CONF MLME_STATE_MACHINE_REJECT pAd.
Definition InvalidStateWhenDisassociate (pAd : assoc_adapter) : option assoc_adapter := refuse MT2_DISASSOC_CONF MLME_STATE_MACHINE_REJECT pAd.

Definition Cls3errAction (E : assoc_env) (pAddr : list Z) (pAd : assoc_adapter) : assoc_adapter :=
  if negb (al_OutBuffer E) then pAd
  else
    let C := aw_conf (rest pAd) in
    upd (λ s, set_disassoc (REASON_CLS3ERR, take 6 pAddr)
                (aemit (leave_frames pAddr (ad_CurrentAddress C) (ad_Bssid C) (le_bytes 2 REASON_CLS3ERR)) s)) pAd.

(** The functions of the timers, which are no longer set when they run. *)
Definition timer_message (MsgType : Z) (pAd : assoc_adapter) : option assoc_adapter :=
  if RTMP_TEST_FLAG (Flags pAd) (Z.lor fRTMP_ADAPTER_HALT_IN_PROGRESS fRTMP_ADAPTER_NIC_NOT_EXIST) then Some pAd
  else enqueue ASSOC_STATE_MACHINE MsgType 0 None pAd.
Definition AssocTimeout (pAd : assoc_adapter) : option assoc_adapter := timer_message MT2_ASSOC_TIMEOUT pAd.
Definition ReassocTimeout (pAd : assoc_adapter) : option assoc_adapter := timer_message MT2_REASSOC_TIMEOUT pAd.
Definition DisassocTimeout (pAd : assoc_adapter) : option assoc_adapter := timer_message MT2_DISASSOC_TIMEOUT pAd.

(** The functions of the table on an element. *)
Definition assoc_function (E : assoc_env) (f : STATE_MACHINE_FUNC) (Elem : MLME_QUEUE_ELEM) (pAd : assoc_adapter) : option assoc_adapter :=
  match f with
  | f_MlmeAssocReqAction => MlmeAssocReqAction E Elem pAd
  | f_MlmeReassocReqAction => MlmeReassocReqAction E Elem pAd
  | f_MlmeDisassocReqAction => MlmeDisassocReqAction E Elem pAd
  | f_PeerDisassocAction => PeerDisassocAction Elem pAd
  | f_PeerAssocRspAction => PeerAssocRspAction E Elem pAd
  | f_PeerReassocRspAction => PeerReassocRspAction E Elem pAd
  | f_AssocTimeoutAction => AssocTimeoutAction pAd
  | f_ReassocTimeoutAction => ReassocTimeoutAction pAd
  | f_DisassocTimeoutAction => DisassocTimeoutAction pAd
  | f_InvalidStateWhenAssoc => InvalidStateWhenAssoc pAd
  | f_InvalidStateWhenReassoc => InvalidStateWhenReassoc pAd
  | f_InvalidStateWhenDisassociate => InvalidStateWhenDisassociate pAd
  | _ => Some pAd
  end.

(** [StateMachinePerformAction] for an element of this machine. *)
Definition assoc_serve (E : assoc_env) (Elem : MLME_QUEUE_ELEM) (pAd : assoc_adapter) : option assoc_adapter :=
  let Sm := AssocMachine (Mlme pAd) in
  f ← StateMachinePerformAction Sm (el_MsgType Elem) (CurrState Sm);
  match f with Some f => assoc_function E f Elem pAd | None => Some pAd end.
