(* ===== verification/StaAssocProofs.v ===== *)
(** The association machine does not wait for ever: the instance of MlmeWait
    for it. *)

From Stdlib Require Import ZifyNat.
From stdpp Require Import list.
From S2P Require Import Prelude CipherKey MacTable Eapol StaAuth Mlme MlmeProofs MlmeClaims MlmeWait.
From S2P Require Import BssEntry BssEntryProofs BssTable BssTableProofs BeaconSanity RsnIe AssocRsp AssocReq StaAssoc.

#[local] Arguments MlmeDequeue : simpl never.
#[local] Arguments MlmeEnqueue : simpl never.
#[local] Opaque AssocStateMachineInit.

(** * The machine *)

Definition assoc_state (a : assoc_adapter) : Z := CurrState (AssocMachine (Mlme a)).

(** The timer and the message of a state that waits. *)
Definition timer_for (a : assoc_adapter) (s : Z) : option Z :=
  let t := aw_timers (rest a) in
  if s =? ASSOC_WAIT_RSP then AssocTimer t else if s =? REASSOC_WAIT_RSP then ReassocTimer t else DisassocTimer t.
Definition timeout_for (s : Z) : Z :=
  if s =? ASSOC_WAIT_RSP then MT2_ASSOC_TIMEOUT else if s =? REASSOC_WAIT_RSP then MT2_REASSOC_TIMEOUT else MT2_DISASSOC_TIMEOUT.

(** The table of the machine and its state are in order. *)
Definition assoc_machine (S : STATE_MACHINE) : Prop :=
  ∃ arr s, length arr = 44%nat ∧ S = set_CurrState s (AssocStateMachineInit arr) ∧ 0 ≤ s < MAX_ASSOC_STATE.
Definition assoc_good (a : assoc_adapter) : Prop := assoc_machine (AssocMachine (Mlme a)).

Abbreviation assoc_acted := (acted ASSOC_IDLE assoc_state timer_for assoc_good).

Lemma set_state_twice S s0 s : set_CurrState s (set_CurrState s0 S) = set_CurrState s S.
Proof. done. Qed.

Lemma assoc_machine_set S s : assoc_machine S → 0 ≤ s < MAX_ASSOC_STATE → assoc_machine (set_CurrState s S).
Proof. intros (arr & s0 & Ha & -> & _) Hs. rewrite set_state_twice. exact (ex_intro _ arr (ex_intro _ s (conj Ha (conj eq_refl Hs)))). Qed.

Lemma assoc_good_set (a a' : assoc_adapter) s : Mlme a' = Mlme a → 0 ≤ s < MAX_ASSOC_STATE → assoc_good a → assoc_good (set_AssocState s a').
Proof.
  intros E Hs Hg. unfold assoc_good in *. change (AssocMachine (Mlme (set_AssocState s a'))) with (set_CurrState s (AssocMachine (Mlme a'))).
  rewrite E. by apply assoc_machine_set.
Qed.

Lemma assoc_requeue (a : assoc_adapter) q :
  assoc_state (requeue q a) = assoc_state a ∧ timer_for (requeue q a) = timer_for a ∧ (assoc_good a → assoc_good (requeue q a)).
Proof. done. Qed.

(** * The actions *)

Section actions.
Context (E : assoc_env) (fl : option nat) (e : MLME_QUEUE_ELEM) (a : assoc_adapter).
Context (Hg : assoc_good a) (Hw : queue_wf (Queue (Mlme a)) fl) (Hn : Num (Queue (Mlme a)) < 38).

(** A confirmation with the machine idle; [a'] differs in the station's data. *)
Lemma refuse_acts T St a' b : Mlme a' = Mlme a → refuse T St a' = Some b → assoc_acted fl a b ∧ assoc_state b = ASSOC_IDLE.
Proof using Hg Hw Hn.
  intros Em H. eapply (confirm_acts ASSOC_IDLE assoc_state timer_for assoc_good assoc_requeue fl T St a) in H as (H1 & H2 & _);
    [done|cbn; by rewrite Em|by apply (assoc_good_set a)|done|done|lia].
Qed.

(** The machine waits with the timer of its state. *)
Lemma wait_acts s a' b : Mlme a' = Mlme a → 0 ≤ s < MAX_ASSOC_STATE → timer_for a' s ≠ None → set_AssocState s a' = b → assoc_acted fl a b.
Proof using Hg Hw.
  intros Em Hs Ht <-. apply acted_quiet; [by apply (assoc_good_set a)|cbn; by rewrite Em|done|]. by right.
Qed.

Lemma assoc_req_acts b : MlmeAssocReqAction E e a = Some b → assoc_acted fl a b.
Proof using Hg Hw Hn.
  unfold MlmeAssocReqAction, MlmeAssocReqSanity. destruct (aw_bBlockAssoc _); [intros H; by eapply refuse_acts in H as [H _]|].
  destruct (al_OutBuffer E); cbn [negb]; [|intros H; by eapply refuse_acts in H as [H _]].
  intros H. peel H. injection H as H. by eapply wait_acts in H.
Qed.

Lemma reassoc_req_acts b : MlmeReassocReqAction E e a = Some b → assoc_acted fl a b.
Proof using Hg Hw Hn.
  unfold MlmeReassocReqAction, MlmeAssocReqSanity. destruct (aw_bBlockAssoc _); [intros H; by eapply refuse_acts in H as [H _]|].
  destruct (al_OutBuffer E); cbn [negb]; [|intros H; by eapply refuse_acts in H as [H _]].
  intros H. peel H. injection H as H. by eapply wait_acts in H.
Qed.

Lemma disassoc_req_acts b : MlmeDisassocReqAction E e a = Some b → assoc_acted fl a b.
Proof using Hg Hw Hn.
  unfold MlmeDisassocReqAction. destruct (al_OutBuffer E); cbn [negb]; [|intros H; by eapply refuse_acts in H as [H _]].
  intros [= <-]. apply acted_quiet; [by apply (assoc_good_set a)|done|done|right].
  cbn. unfold tell_supplicant. by destruct (negb _).
Qed.

Lemma assoc_rsp_acts b : PeerAssocRspAction E e a = Some b → assoc_acted fl a b.
Proof using Hg Hw Hn.
  unfold PeerAssocRspAction. destruct (al_ie_list E); cbn [negb]; [|intros [= <-]; by apply acted_refl].
  intros H. peel H. destruct (_ && _); [|injection H as <-; by apply acted_refl]. peel H.
  eapply refuse_acts in E2; [|done]. destruct E2 as [[G S Q P] S2].
  destruct (_ =? _); injection H as <-; (split; [exact G|by left|exact Q|exact P]).
Qed.

Lemma reassoc_rsp_acts b : PeerReassocRspAction E e a = Some b → assoc_acted fl a b.
Proof using Hg Hw Hn.
  unfold PeerReassocRspAction. destruct (al_ie_list E); cbn [negb]; [|intros [= <-]; by apply acted_refl].
  intros H. peel H. destruct (_ && _); [|injection H as <-; by apply acted_refl]. peel H. by eapply refuse_acts in H as [H _].
Qed.

Lemma peer_disassoc_acts b : PeerDisassocAction e a = Some b → assoc_acted fl a b.
Proof using Hg Hw Hn.
  unfold PeerDisassocAction, PeerDisassocSanity. destruct (_ && _); [|intros [= <-]; by apply acted_refl].
  destruct (_ =? _).
  - intros H. peel H. injection H as <-. unfold confirm in E0.
    destruct (enqueue_extends fl MLME_CNTL_STATE_MACHINE MT2_DISASSOC_CONF 2 (Some (le_bytes 2 MLME_SUCCESS))
      (upd (aemit [A_SendWirelessEvent IW_DISASSOC_EVENT_FLAG]) a)) as (b' & Eb & Eb' & Wb & _ & Hp); [done|cbn; lia|lia|].
    rewrite Eb in E0. injection E0 as ->. split; [|by left|exact Wb|].
    + unfold assoc_good. cbn. rewrite Eb'. exact (assoc_good_set a a ASSOC_IDLE eq_refl ltac:(done) Hg).
    + cbn. destruct Hp as [[_ ->]|[_ (x & -> & Hx & _)]]; [exists []; by rewrite app_nil_r|exists [x]]. split; [done|]. by constructor.
  - intros [= <-]. apply acted_quiet; [by apply (assoc_good_set a)|done|done|by left].
Qed.
End actions.

(** * The table *)

Definition assoc_table : list (Z * Z * STATE_MACHINE_FUNC) := [
    (ASSOC_IDLE, MT2_MLME_ASSOC_REQ, f_MlmeAssocReqAction);
    (ASSOC_IDLE, MT2_MLME_REASSOC_REQ, f_MlmeReassocReqAction);
    (ASSOC_IDLE, MT2_MLME_DISASSOC_REQ, f_MlmeDisassocReqAction);
    (ASSOC_IDLE, MT2_PEER_DISASSOC_REQ, f_PeerDisassocAction);
    (ASSOC_WAIT_RSP, MT2_MLME_ASSOC_REQ, f_InvalidStateWhenAssoc);
    (ASSOC_WAIT_RSP, MT2_MLME_REASSOC_REQ, f_InvalidStateWhenReassoc);
    (ASSOC_WAIT_RSP, MT2_MLME_DISASSOC_REQ, f_InvalidStateWhenDisassociate);
    (ASSOC_WAIT_RSP, MT2_PEER_DISASSOC_REQ, f_PeerDisassocAction);
    (ASSOC_WAIT_RSP, MT2_PEER_ASSOC_RSP, f_PeerAssocRspAction);
    (ASSOC_WAIT_RSP, MT2_PEER_REASSOC_RSP, f_PeerAssocRspAction);
    (ASSOC_WAIT_RSP, MT2_ASSOC_TIMEOUT, f_AssocTimeoutAction);
    (REASSOC_WAIT_RSP, MT2_MLME_ASSOC_REQ, f_InvalidStateWhenAssoc);
    (REASSOC_WAIT_RSP, MT2_MLME_REASSOC_REQ, f_InvalidStateWhenReassoc);
    (REASSOC_WAIT_RSP, MT2_MLME_DISASSOC_REQ, f_InvalidStateWhenDisassociate);
    (REASSOC_WAIT_RSP, MT2_PEER_DISASSOC_REQ, f_PeerDisassocAction);
    (REASSOC_WAIT_RSP, MT2_PEER_REASSOC_RSP, f_PeerReassocRspAction);
    (REASSOC_WAIT_RSP, MT2_PEER_ASSOC_RSP, f_PeerReassocRspAction);
    (REASSOC_WAIT_RSP, MT2_REASSOC_TIMEOUT, f_ReassocTimeoutAction);
    (DISASSOC_WAIT_RSP, MT2_MLME_ASSOC_REQ, f_InvalidStateWhenAssoc);
    (DISASSOC_WAIT_RSP, MT2_MLME_REASSOC_REQ, f_InvalidStateWhenReassoc);
    (DISASSOC_WAIT_RSP, MT2_MLME_DISASSOC_REQ, f_InvalidStateWhenDisassociate);
    (DISASSOC_WAIT_RSP, MT2_PEER_DISASSOC_REQ, f_PeerDisassocAction);
    (DISASSOC_WAIT_RSP, MT2_DISASSOC_TIMEOUT, f_DisassocTimeoutAction)].

#[local] Transparent AssocStateMachineInit.
Lemma assoc_perform S T : assoc_machine S → 0 ≤ T < MAX_ASSOC_MSG →
  StateMachinePerformAction S T (CurrState S) = Some (Some (find_action assoc_table f_Drop (CurrState S) T)).
Proof.
  intros (arr & s & Ha & -> & Hs) HT. cbn [CurrState set_CurrState].
  assert (Hw : table_wf (AssocStateMachineInit arr) MAX_ASSOC_STATE MAX_ASSOC_MSG (find_action assoc_table f_Drop)).
  { apply (set_actions_table assoc_table _ _ _ (λ _ _, f_Drop)); [done|done| |].
    - apply init_table; [done|done|]. by rewrite Ha.
    - apply actions_check. vm_compute. reflexivity. }
  revert Hw. generalize (AssocStateMachineInit arr). intros S [H1 H2 H3 H4]. by apply (perform_table _ MAX_ASSOC_STATE MAX_ASSOC_MSG (find_action assoc_table f_Drop)).
Qed.
#[local] Opaque AssocStateMachineInit.

Lemma assoc_serve_is E e a : assoc_good a → 0 ≤ el_MsgType e < MAX_ASSOC_MSG →
  assoc_serve E e a = assoc_function E (find_action assoc_table f_Drop (assoc_state a) (el_MsgType e)) e a.
Proof. intros Hg HT. unfold assoc_serve. rewrite assoc_perform by done. done. Qed.

Lemma assoc_state_cases a : assoc_good a → assoc_state a = 0 ∨ assoc_state a = 1 ∨ assoc_state a = 2 ∨ assoc_state a = 3.
Proof. intros (arr & s & _ & Es & Hr). unfold assoc_state, MAX_ASSOC_STATE in *. rewrite Es. cbn [CurrState set_CurrState]. lia. Qed.

(** Every function of the table, on any element. *)
Lemma function_acts E fl f e a b : assoc_good a → queue_wf (Queue (Mlme a)) fl → Num (Queue (Mlme a)) < 38 →
  assoc_function E f e a = Some b → assoc_acted fl a b.
Proof.
  intros Hg Hw Hn. destruct f; cbn [assoc_function]; try (intros [= <-]; by apply acted_refl);
    try (intros H; by eapply (refuse_acts fl a Hg Hw Hn) in H as [H _]).
  - by apply assoc_req_acts.
  - by apply reassoc_req_acts.
  - by apply disassoc_req_acts.
  - by apply peer_disassoc_acts.
  - by apply assoc_rsp_acts.
  - by apply reassoc_rsp_acts.
Qed.

Lemma serve_acts E fl e a b : assoc_good a → 0 ≤ el_MsgType e < MAX_ASSOC_MSG → queue_wf (Queue (Mlme a)) fl → Num (Queue (Mlme a)) < 38 →
  assoc_serve E e a = Some b →
  assoc_acted fl a b ∧ (el_MsgType e = timeout_for (assoc_state a) → assoc_state a ≠ ASSOC_IDLE → assoc_state b = ASSOC_IDLE).
Proof.
  intros Hg HT Hw Hn H. rewrite assoc_serve_is in H by done. split; [by eapply function_acts|]. intros Et Hs. rewrite Et in H.
  destruct (assoc_state_cases a Hg) as [Es|[Es|[Es|Es]]]; rewrite Es in H, Hs; [done|..];
    match type of H with context [find_action ?l ?d ?x ?y] => let f := eval vm_compute in (find_action l d x y) in
      change (find_action l d x y) with f in H end;
    cbn [assoc_function] in H; by eapply (refuse_acts fl a Hg Hw Hn) in H as [_ H].
Qed.

(** * Runs *)

(** The restart cancels the timers. *)
Definition assoc_reset (a : assoc_adapter) : assoc_adapter := set_AssocState ASSOC_IDLE (upd (set_timers (mk_timers None None None)) a).

(** A timer is no longer set when its function runs. *)
Definition assoc_expire (s : Z) (a : assoc_adapter) : option assoc_adapter :=
  if s =? ASSOC_WAIT_RSP then AssocTimeout (upd (set_AssocTimer None) a)
  else if s =? REASSOC_WAIT_RSP then ReassocTimeout (upd (set_ReassocTimer None) a)
  else DisassocTimeout (upd (set_DisassocTimer None) a).

(** [LinkUp] cancels the timer of a disassociation, whatever the state: the
    states whose timer it is are not protected from other code. *)
Definition link_up_cancels (s : Z) : bool := negb ((s =? ASSOC_WAIT_RSP) || (s =? REASSOC_WAIT_RSP)).

Definition assoc_turn (E : assoc_env) : assoc_adapter → option assoc_adapter := machine_turn ASSOC_STATE_MACHINE assoc_reset (assoc_serve E).
Definition assoc_step (E : assoc_env) : assoc_adapter → assoc_adapter → Prop :=
  wait_step ASSOC_STATE_MACHINE MAX_ASSOC_MSG timer_for assoc_reset (assoc_serve E) (λ _ _, True) assoc_expire link_up_cancels.
Abbreviation assoc_due := (timeout_due ASSOC_STATE_MACHINE assoc_state timer_for timeout_for).
Abbreviation assoc_inv := (wait_inv ASSOC_STATE_MACHINE MAX_ASSOC_MSG ASSOC_IDLE assoc_state timer_for timeout_for assoc_good link_up_cancels).

Lemma assoc_expire_posts s a b : halted (Flags a) = false → assoc_expire s a = Some b →
  ∃ a1, Mlme a1 = Mlme a ∧ Flags a1 = Flags a ∧ (∀ s', timeout_for s' ≠ timeout_for s → timer_for a1 s' = timer_for a s') ∧
    enqueue ASSOC_STATE_MACHINE (timeout_for s) 0 None a1 = Some b.
Proof.
  unfold assoc_expire, AssocTimeout, ReassocTimeout, DisassocTimeout, timer_message, timeout_for, timer_for. intros Hh H.
  destruct (s =? ASSOC_WAIT_RSP); [|destruct (s =? REASSOC_WAIT_RSP)]; cbn [Flags upd] in H; fold (halted (Flags a)) in H; rewrite Hh in H;
    match type of H with enqueue _ _ _ _ ?x = _ => exists x end; repeat (split; [done|]); (split; [|exact H]); intros s';
    destruct (s' =? ASSOC_WAIT_RSP); [done|by destruct (s' =? REASSOC_WAIT_RSP)|done|by destruct (s' =? REASSOC_WAIT_RSP)|done|by destruct (s' =? REASSOC_WAIT_RSP)].
Qed.

Lemma assoc_waits E a b : assoc_inv a → rtc (assoc_step E) a b → assoc_inv b.
Proof.
  apply waits.
  - done.
  - intros s. unfold timeout_for. by destruct (s =? ASSOC_WAIT_RSP), (s =? REASSOC_WAIT_RSP).
  - intros a1 b1 E1. unfold assoc_state, assoc_good. by rewrite E1.
  - apply assoc_requeue.
  - intros a1 H1. split; [by apply (assoc_good_set a1)|done].
  - intros fl e a1 b1 Hg Ht Hw Hn _ Hs. by eapply serve_acts.
  - apply assoc_expire_posts.
Qed.
