(* ===== verification/StaAssocClaims.v ===== *)
(** The theorems on the association of the station: the machine never waits
    for nothing, and the response of the access point ends the wait with what
    the response and the list of networks say. *)

From Stdlib Require Import ZifyNat.
From stdpp Require Import list gmap.
From S2P Require Import Prelude CipherKey MacTable MacTableProofs MacTableClaims Eapol StaAuth Mlme MlmeProofs MlmeClaims MlmeWait.
From S2P Require Import BssEntry BssEntryProofs BssTable BssTableProofs BssTableClaims BeaconSanity RsnIe AssocRsp AssocRspClaims AssocReq.
From S2P Require Import StaAssoc StaAssocProofs.

#[local] Arguments MlmeDequeue : simpl never.
#[local] Arguments MlmeEnqueue : simpl never.
#[local] Opaque AssocStateMachineInit.

(** C23: The association machine does not wait for nothing.  From a state in
    which the invariant holds (such as the initial one), along any sequence of
    turns of the handler, messages queued by anyone (those for this machine with
    one of its message types), expiries of its timers and changes of the rest
    of the adapter, with any frames from the air and any failing allocations,
    whenever the machine waits for the answer to an association or a
    reassociation, the timer of that request is set or its timeout message is
    in the queue, and the machine is in one of its four states.  Assumed are:
    fewer than 38 messages in the queue at each step (a full queue drops the
    timeout), that the driver is not halted nor put into the test mode (which
    cancel the timers), and that no other code cancels the timers of these two
    requests.  The timer of a disassociation may be cancelled at any time, as
    [LinkUp] does, so nothing is claimed of the wait for a disassociation: see
    [disassoc_wait_lost]. *)
Theorem assoc_waits_with_timer E a b (Ha : assoc_inv a) (Hr : rtc (assoc_step E) a b) :
  assoc_inv b ∧ (assoc_state b = ASSOC_WAIT_RSP ∨ assoc_state b = REASSOC_WAIT_RSP → assoc_due b).
Proof.
  assert (Hb : assoc_inv b) by by eapply assoc_waits. split; [done|]. intros Hs. apply (wi_due _ _ _ _ _ _ _ _ _ Hb).
  by destruct Hs as [-> | ->].
Qed.

(** * The element of the access point *)

(** The elements that are stored in a mode. *)
Definition for_mode (AuthMode : Z) (v : vie) : bool :=
  match v with
  | Vie_wpa _ _ _ _ _ => (AuthMode =? Ndis802_11AuthModeWPA) || (AuthMode =? Ndis802_11AuthModeWPAPSK)
  | Vie_rsn _ _ _ _ _ => (AuthMode =? Ndis802_11AuthModeWPA2) || (AuthMode =? Ndis802_11AuthModeWPA2PSK)
  | _ => false
  end.

(** They fit in the array. *)
Definition fits (AuthMode : Z) (v : vie) : Prop := for_mode AuthMode v = true → (length (vie_body v) ≤ 253)%nat.

Definition keep (AuthMode : Z) (ie : list Z * Z) (v : vie) : list Z * Z :=
  if for_mode AuthMode v then (bwrite (fst ie) 0 (vie_enc v), Z.of_nat (length (vie_enc v))) else ie.

Lemma drop_bound (m l : list Z) x p : drop p m = x :: l → (p < length m)%nat.
Proof. intros H. apply (f_equal length) in H. rewrite length_drop in H. cbn in H. lia. Qed.

(** The two tests of the loop at an element. *)
Lemma walk_tests v m p rest' : vie_ok v → drop p m = vie_enc v ++ rest' →
  (if vie_eid v =? IE_WPA then equal_mem m (p + 2) WPA_OUI 4 else Some false) = Some (match v with Vie_wpa _ _ _ _ _ => true | _ => false end) ∧
  (if vie_eid v =? IE_RSN then equal_mem m (p + 4) RSN_OUI 3 else Some false) = Some (match v with Vie_rsn _ _ _ _ _ => true | _ => false end).
Proof.
  intros [_ Hv] Hm. pose proof (drop_bound _ _ _ _ Hm) as Hp. rewrite !equal_mem_drop, Hm by lia.
  unfold vie_enc. destruct v as [e b|b|g pairs n akm tail|g pairs akms cap tail]; cbn [vie_eid vie_body].
  - destruct Hv as [H1 H2]. replace (e =? IE_WPA) with false by lia. by replace (e =? IE_RSN) with false by lia.
  - destruct Hv as (H4 & Hw & _). split; [|done]. change (IE_WPA =? IE_WPA) with true. unfold equal_mem.
    rewrite decide_True by (cbn; rewrite length_app; lia). cbn [app skipn]. rewrite ?drop_0, take_app_le by lia. by rewrite bool_decide_eq_false_2.
  - split; [|done]. unfold equal_mem. rewrite decide_True by (cbn; lia). done.
  - split; [done|]. unfold equal_mem. rewrite decide_True by (cbn; lia). done.
Qed.

Lemma store_at v m p rest' ie : (length (vie_body v) ≤ 253)%nat → length (fst ie) = MAX_LEN_OF_RSNIE → drop p m = vie_enc v ++ rest' →
  store_rsn m p (Z.of_nat (length (vie_body v))) ie = Some (bwrite (fst ie) 0 (vie_enc v), Z.of_nat (length (vie_enc v))).
Proof.
  intros Hv Hl Hm. unfold store_rsn, move_mem. pose proof (f_equal length Hm) as HL. rewrite length_drop, length_app in HL. cbn [vie_enc length] in *.
  rewrite decide_True by (rewrite Hl; unfold MAX_LEN_OF_RSNIE; lia). rewrite Hm. cbn [mbind option_bind].
  replace (Z.to_nat _ + 2)%nat with (length (vie_enc v)) by (cbn; lia). rewrite take_app_length. do 2 f_equal.
  rewrite wrap_id; [lia|lia|]. unfold in_range. lia.
Qed.

Lemma walk_fold AuthMode m rest' vs : Forall vie_ok vs → Forall (fits AuthMode) vs → ∀ fuel p ie,
  (length (concat (map vie_enc vs)) ≤ fuel)%nat → Z.of_nat (length (concat (map vie_enc vs))) < 65536 → length (fst ie) = MAX_LEN_OF_RSNIE →
  drop p m = concat (map vie_enc vs) ++ rest' →
  rsn_walk fuel AuthMode m p (Z.of_nat (length (concat (map vie_enc vs)))) ie = Some (fold_left (keep AuthMode) vs ie).
Proof.
  induction vs as [|v vs IH]; intros Hok Hft fuel p ie Hf HL Hie Hm.
  - by destruct fuel.
  - apply Forall_cons in Hok as [Hv Hok], Hft as [Hfv Hft]. cbn [map concat] in *. rewrite length_app in *.
    set (k := length (concat (map vie_enc vs))) in *. assert (Hle : length (vie_enc v) = S (S (length (vie_body v)))) by done. rewrite Hle in *.
    destruct fuel as [|fuel]; [lia|]. rewrite <- app_assoc in Hm. unfold rsn_walk; fold rsn_walk.
    rewrite (proj2 (Z.eqb_neq (Z.of_nat (S (S (length (vie_body v))) + k)) 0)) by lia.
    assert (He : m !! p = Some (vie_eid v)) by (rewrite <- (Nat.add_0_r p), <- lookup_drop, Hm; done).
    assert (H1 : m !! (p + 1)%nat = Some (Z.of_nat (length (vie_body v)))) by (rewrite <- lookup_drop, Hm; done).
    destruct (walk_tests v m p _ Hv Hm) as [T1 T2]. rewrite He. cbn [mbind option_bind]. rewrite T1. cbn [mbind option_bind].
    rewrite T2, H1. cbn [mbind option_bind].
    assert (Hs : ∀ b, length b = MAX_LEN_OF_RSNIE → for_mode AuthMode v = true → length (bwrite b 0 (vie_enc v)) = MAX_LEN_OF_RSNIE).
    { intros b Hb Hm'. rewrite length_bwrite; [done|]. rewrite Hb, Hle. specialize (Hfv Hm'). unfold MAX_LEN_OF_RSNIE. lia. }
    match goal with |- (?x ≫= _) = _ => assert (x = Some (keep AuthMode ie v)) as -> end.
    { clear IH Hft. unfold keep. unfold fits in Hfv. destruct v; cbn [for_mode andb] in *; try done;
        match goal with |- context [if ?c then _ else _] => destruct c end; try done; exact (store_at _ m p _ ie (Hfv eq_refl) Hie Hm). }
    cbn [mbind option_bind fold_left]. rewrite wrap_id by (lia || (unfold in_range; lia)).
    replace (Z.of_nat _ - _) with (Z.of_nat k) by lia. apply IH; [done|done|lia|lia| |].
    + unfold keep. destruct (for_mode AuthMode v) eqn:Ev; [by apply Hs|done].
    + replace (p + Z.to_nat _ + 2)%nat with (p + length (vie_enc v))%nat by (rewrite Hle; lia). by apply (drop_app_at _ _ _ _ _ Hm).
Qed.

(** The array holds the last of them. *)
Definition ap_element (AuthMode : Z) (vs : list vie) : list Z :=
  match last (filter (λ v, for_mode AuthMode v = true) vs) with Some v => vie_enc v | None => [] end.

Lemma kept_last AuthMode vs : let r := fold_left (keep AuthMode) vs (zeros MAX_LEN_OF_RSNIE, 0) in
  take (Z.to_nat (snd r)) (fst r) = ap_element AuthMode vs.
Proof.
  unfold ap_element. induction vs as [|v vs IH] using rev_ind; [done|]. cbv zeta in *. rewrite fold_left_app, filter_app. cbn [fold_left].
  unfold keep at 1 3. rewrite filter_cons, filter_nil. destruct (for_mode AuthMode v); cbn [fst snd].
  - rewrite decide_True, last_snoc by done. rewrite Nat2Z.id. unfold bwrite. rewrite take_0. cbn [app]. apply take_app_length.
  - rewrite decide_False, app_nil_r by done. exact IH.
Qed.

Lemma no_element AuthMode vs : AuthMode < Ndis802_11AuthModeWPA → ap_element AuthMode vs = [].
Proof.
  intros H. unfold ap_element. assert (filter (λ v, for_mode AuthMode v = true) vs = []) as ->; [|done].
  induction vs as [|v vs IH]; [done|]. rewrite filter_cons, decide_False; [done|].
  destruct v; cbn; try done; rewrite orb_true_iff, !Z.eqb_eq; unfold Ndis802_11AuthModeWPA, Ndis802_11AuthModeWPAPSK,
    Ndis802_11AuthModeWPA2, Ndis802_11AuthModeWPA2PSK in *; lia.
Qed.

(** * Rates *)

Definition known_rate (PhyMode r : Z) : Prop := Z.land r 0x7f ∈ take (if (PhyMode =? WMODE_B)%Z then 4 else 12) RateIdTo500Kbps.
#[export] Instance known_rate_dec PhyMode r : Decision (known_rate PhyMode r).
Proof. unfold known_rate. apply _. Defined.

(** A rate matches one entry of the table at most. *)
Lemma matches_once {A} (r : A) x (l : list Z) : NoDup l → flat_map (λ t, if x =? t then [r] else []) l = if decide (x ∈ l) then [r] else [].
Proof.
  induction 1 as [|t l Ht Hn IH]; [done|]. cbn [flat_map]. rewrite IH. destruct (Z.eqb_spec x t) as [->|Hne].
  - by rewrite (decide_False (P := t ∈ l)), decide_True by (done || by left).
  - destruct (decide (x ∈ l)); [rewrite decide_True by (by right)|rewrite decide_False by (rewrite elem_of_cons; tauto)]; done.
Qed.

Lemma check_rates_spec PhyMode SupRate SupRateLen : let r := RTMPCheckRates PhyMode SupRate SupRateLen in
  take (Z.to_nat (snd r)) (fst r) = filter (known_rate PhyMode) (take (Z.to_nat SupRateLen) SupRate).
Proof.
  unfold RTMPCheckRates. cbn [fst snd]. rewrite Nat2Z.id. unfold bwrite. rewrite take_0. cbn [app]. rewrite take_app_length.
  induction (take (Z.to_nat SupRateLen) SupRate) as [|r l IH]; [done|]. cbn [flat_map]. rewrite IH, filter_cons, matches_once.
  - destruct (decide (known_rate PhyMode r)) as [K|K]; [by rewrite decide_True by exact K|by rewrite decide_False by exact K].
  - apply (bool_decide_unpack (NoDup _)). by destruct (PhyMode =? WMODE_B).
Qed.

(** * The station when the response comes *)

(** The peer table represents [M]; entry 1 is that of the old access point or
    free, and without a successor.  The arrays of the rates have their size,
    and the list of networks has the access point, with the elements [vs]. *)
Record station_ok (Bssid : list Z) (vs : list vie) (M : gmap (list Z) nat) (s : assoc_w) : Prop := {
  so_peers : table_ok (aw_MacTab s) ∧ map_of (aw_MacTab s) M;
  so_old : length (ad_Bssid (aw_conf s)) = 6%nat ∧ ad_BssType (aw_conf s) = BSS_INFRA;
  so_new : delete (ad_Bssid (aw_conf s)) M !! Bssid = None;
  so_slot : ∃ e, Entries (aw_MacTab s) !! BSSID_WCID = Some e ∧ pNext e = None ∧
    (M !! ad_Bssid (aw_conf s) = None ∧ EntryType e = ENTRY_NONE ∨ M !! ad_Bssid (aw_conf s) = Some BSSID_WCID);
  so_rates : length (x_SupRate (aa_req (aw_aux s))) = MAX_LEN_OF_SUPPORTED_RATES ∧
             length (x_ExtRate (aa_req (aw_aux s))) = MAX_LEN_OF_SUPPORTED_RATES;
  so_table : table_wf (aw_ScanTab s);
  so_network : ∃ i b rest', (i < Z.to_nat (BssNr (aw_ScanTab s)))%nat ∧ BssEntry (aw_ScanTab s) !! i = Some b ∧
    bss_key b = key_of Bssid (x_Channel (aa_req (aw_aux s))) ∧
    VarIEs (be_ies b) = concat (map vie_enc vs) ++ rest' ∧ VarIELen (be_ies b) = Z.of_nat (length (concat (map vie_enc vs)));
  so_elements : Forall vie_ok vs ∧ Forall (fits (ad_AuthMode (aw_conf s))) vs
}.

(** The modes in which an access point gets no entry: its rates, and whether it
    has HT capabilities. *)
Definition entry_refused (PhyMode : Z) (rates : list Z) (ht : bool) : bool :=
  (PhyMode =? WMODE_G) && (dot11_2_ra_rate (max_rate 0 rates) <? RATE_FIRST_OFDM_RATE) || WMODE_HT_ONLY PhyMode && negb ht.

(** What the response leaves. *)
Record joined (C : assoc_conf) (Bssid : list Z) (vs : list vie) (M : gmap (list Z) nat) (cap aid : Z) (rates : list Z)
    (els : list (Z * list Z)) (s : assoc_w) : Prop := {
  jo_bss : aa_Bssid (aw_aux s) = Bssid ∧ aa_BssType (aw_aux s) = BSS_INFRA;
  jo_aid : aa_Aid (aw_aux s) = aid mod 2 ^ 14;
  jo_cap : aa_CapabilityInfo (aw_aux s) = Z.land cap SUPPORTED_CAPABILITY_INFO;
  jo_sup : let x := aa_req (aw_aux s) in
    take (Z.to_nat (x_SupRateLen x)) (x_SupRate x) = filter (known_rate (q_PhyMode (ad_req C))) rates;
  jo_ext : let x := aa_req (aw_aux s) in
    take (Z.to_nat (x_ExtRateLen x)) (x_ExtRate x) = filter (known_rate (q_PhyMode (ad_req C))) (default [] (last_such is_ext els));
  jo_wmm : let p := x_APEdcaParm (aa_req (aw_aux s)) in
    match last_such is_wme els, last_such is_ht els with
    | Some b, _ => parm_bValid p = true ∧ wmm_says b p
    | None, Some _ => parm_bValid p = true ∧ take 16 (drop 6 (parm_body p)) = [3; 7; 2; 2; 4; 4; 3; 2; 10; 10; 4; 3; 0; 0; 96; 48]
    | None, None => parm_bValid p = false
    end;
  jo_peers : let M' := delete (ad_Bssid C) M in
    let refused := entry_refused (q_PhyMode (ad_req C)) (rates ++ default [] (last_such is_ext els)) (bool_decide (is_Some (last_such is_ht els))) in
    table_ok (aw_MacTab s) ∧ map_of (aw_MacTab s) (if refused then M' else <[Bssid := BSSID_WCID]> M');
  jo_rsn : take (Z.to_nat (snd (aw_ap s))) (fst (aw_ap s)) = ap_element (ad_AuthMode C) vs
}.

Section success.
Context (Bssid : list Z) (vs : list vie) (M : gmap (list Z) nat) (s : assoc_w) (Hs : station_ok Bssid vs M s).

Lemma forget_ok : ∃ T', forget_old_ap s = Some (set_MacTab T' s) ∧ table_ok T' ∧ map_of T' (delete (ad_Bssid (aw_conf s)) M) ∧ ap_entry_clean T'.
Proof using Hs.
  destruct (so_peers _ _ _ _ Hs) as [HT HM]. destruct (so_old _ _ _ _ Hs) as [H6 _]. destruct (so_slot _ _ _ _ Hs) as (e1 & He1 & Hp1 & Hslot).
  set (a := ad_Bssid _) in *. unfold forget_old_ap. fold a. rewrite (lookup_spec _ M a HT HM H6). cbn [mbind option_bind].
  destruct Hslot as [[Ew Hnone]|Ew]; rewrite Ew.
  - exists (aw_MacTab s). split; [by destruct s|]. split; [done|]. split; [by rewrite delete_id|by exists e1].
  - pose proof (proj1 (HM a BSSID_WCID) Ew) as (H0 & k & Hk & Hu & Ha). destruct (keys_lookup_inv _ _ _ Hk) as (e & He & <-).
    pose proof HT as (L & _ & HK). pose proof (ks_wcid _ _ _ HK _ _ Hk Hu H0) as Hw. cbn in Ha, Hw. rewrite He. cbn [mbind option_bind].
    destruct (MacTableProofs.delete_at _ M BSSID_WCID a HT HM Ew) as (T' & HD & HT' & HM'). rewrite Hw, Ha, HD. exists T'. split; [done|]. split; [done|].
    split; [done|]. assert (e1 = e) as -> by congruence.
    destruct (delete_keeps_link _ BSSID_WCID a e _ _ He Hu ltac:(by apply bool_decide_eq_true_2; rewrite Ha) ltac:(vm_compute; lia) HD) as (e' & ? & ? & ?).
    exists e'. split; [done|]. split; congruence.
Qed.

(** The entry of the new access point. *)
Lemma enters m r s2 : aw_conf s2 = aw_conf s → length Bssid = 6%nat → aa_Bssid (aw_aux s2) = Bssid → table_ok (aw_MacTab s2) →
  map_of (aw_MacTab s2) (delete (ad_Bssid (aw_conf s)) M) → ap_entry_clean (aw_MacTab s2) →
  let mode := q_PhyMode (ad_req (aw_conf s)) in
  let refused := (mode =? WMODE_G) && (dot11_2_ra_rate m <? RATE_FIRST_OFDM_RATE) || WMODE_HT_ONLY mode && (ar_HtCapabilityLen r =? 0) in
  ∃ s3, StaUpdateMacTableEntry m r s2 = Some s3 ∧ aw_aux s3 = aw_aux s2 ∧ aw_ap s3 = aw_ap s2 ∧ aw_timers s3 = aw_timers s2 ∧ table_ok (aw_MacTab s3) ∧
    map_of (aw_MacTab s3) (let M' := delete (ad_Bssid (aw_conf s)) M in if refused then M' else <[Bssid := BSSID_WCID]> M').
Proof using Hs.
  intros EC H6 EB HT HM Hc mode refused. unfold StaUpdateMacTableEntry, refused. rewrite EC, EB. fold mode.
  destruct (so_old _ _ _ _ Hs) as [_ Hinf]. destruct (_ && (dot11_2_ra_rate m <? _)); cbn [orb]; [by exists s2|].
  destruct (_ && _); [by exists s2|]. set (c := mk_stacfg _ _ _).
  assert (bss_infra c = true) as Hic by (unfold c; cbn; by rewrite Hinf).
  destruct (enter_ap_ok c _ _ Bssid HT HM Hc H6 (so_new _ _ _ _ Hs) Hic) as (T' & -> & HT' & HM').
  cbn [mbind option_bind]. eexists. split; [done|]. by destruct (negb _).
Qed.

Lemma stored : ∃ ie, store_ap_rsn (aw_conf s) (aw_ScanTab s) Bssid (x_Channel (aa_req (aw_aux s))) (aw_ap s) = Some ie ∧
  take (Z.to_nat (snd ie)) (fst ie) = ap_element (ad_AuthMode (aw_conf s)) vs.
Proof using Hs.
  destruct (so_network _ _ _ _ Hs) as (i & b & rest' & Hi & Hb & Hk & Hv & Hl). pose proof (so_table _ _ _ _ Hs) as HT.
  destruct (so_elements _ _ _ _ Hs) as [H1 H2]. pose proof (eo_vies _ (tw_entries _ HT i b Hb)) as HL. rewrite Hv, length_app in HL.
  unfold store_ap_rsn. rewrite (search_present _ _ _ i b HT Hi Hb Hk). cbn [mbind option_bind]. rewrite Hb. cbn [mbind option_bind].
  rewrite Hl. destruct (Z.leb_spec Ndis802_11AuthModeWPA (ad_AuthMode (aw_conf s))) as [Ha|Ha]; cbn [andb].
  - destruct (Z.eqb_spec (Z.of_nat (length (concat (map vie_enc vs)))) 0) as [H0|H0]; cbn [negb].
    + eexists. split; [done|]. destruct vs as [|v vs']; [done|]. cbn in H0. rewrite length_app in H0. cbn in H0. lia.
    + rewrite (walk_fold _ _ rest' vs H1 H2); [| |unfold MAX_VIE_LEN in HL; lia|done|by rewrite Hv].
      * eexists. split; [done|]. apply kept_last.
      * rewrite Hv, length_app. lia.
  - eexists. split; [done|]. symmetry. by apply no_element.
Qed.

Lemma copied (dst src l : list Z) n : length dst = MAX_LEN_OF_SUPPORTED_RATES → length src = MAX_LEN_OF_SUPPORTED_RATES →
  (n ≤ MAX_LEN_OF_SUPPORTED_RATES)%nat → take n src = l → ∃ d, move_mem dst 0 src 0 n = Some d ∧ take n d = l.
Proof.
  intros H1 H2 Hn Hl. unfold move_mem. rewrite decide_True by lia. eexists. split; [done|]. unfold bwrite. rewrite take_0, drop_0, Hl. cbn [app].
  apply take_app_length'. by rewrite <- Hl, length_take, H2, Nat.min_l.
Qed.

Lemma edca_default len p : length (parm_body p) = 26%nat → 0 < len → parm_bValid p = false →
  parm_bValid (default_edca len p) = true ∧ take 16 (drop 6 (parm_body (default_edca len p))) = [3; 7; 2; 2; 4; 4; 3; 2; 10; 10; 4; 3; 0; 0; 96; 48].
Proof.
  intros Hb Hl Hv. unfold default_edca. rewrite Hv. replace (0 <? len) with true by lia. split; [done|]. cbn [andb negb parm_body].
  rewrite drop_app_length' by (rewrite length_take; lia). done.
Qed.

Lemma max_rates n l k x : dot11_max_sup_rate n l k x = max_rate 0 (take (Z.to_nat n) l ++ take (Z.to_nat k) x).
Proof.
  unfold dot11_max_sup_rate, max_rate. rewrite fold_left_app. destruct (Z.ltb_spec 0 k); [done|].
  by replace (Z.to_nat k) with 0%nat by lia.
Qed.

Lemma no_ht els r0 r : found els r0 r → negb (bool_decide (is_Some (last_such is_ht els))) = (ar_HtCapabilityLen r =? 0).
Proof.
  intros Hf. pose proof (fo_ht _ _ _ Hf) as H. destruct (last_such is_ht els).
  - rewrite bool_decide_eq_true_2 by done. by destruct H as [_ ->].
  - rewrite bool_decide_eq_false_2 by (by intros [? ?]). by rewrite H.
Qed.

Lemma associated_ok r cap aid rates els r0 : rsp_ok r → length Bssid = 6%nat → ar_Addr2 r = Bssid → ar_CapabilityInfo r = cap → ar_Aid r = aid mod 2 ^ 14 →
  (length rates ≤ MAX_LEN_OF_SUPPORTED_RATES)%nat → ar_SupRateLen r = Z.of_nat (length rates) → take (length rates) (ar_SupRate r) = rates → found els r0 r →
  ∃ s', associated r s = Some s' ∧ joined (aw_conf s) Bssid vs M cap aid rates els s' ∧ aw_timers s' = aw_timers s.
Proof using Hs.
  intros Hr H6 E1 E2 E3 Hl E4 E5 Hf. destruct forget_ok as (T' & HF & HT & HM & HC). destruct stored as (ie & HS & HI).
  destruct (so_rates _ _ _ _ Hs) as [L1 L2]. pose proof (ro_ext _ Hr) as [L3 L4].
  destruct (copied _ _ _ (length rates) L1 (ro_sup _ Hr) Hl E5) as (d1 & M1 & D1).
  destruct (copied _ _ _ (Z.to_nat (ar_ExtRateLen r)) L2 L3 ltac:(lia) (fo_ext _ _ _ Hf)) as (d2 & M2 & D2).
  unfold associated. rewrite HF. cbn [mbind option_bind]. unfold AssocPostProc, post_aux. cbn [aw_conf aw_aux set_MacTab].
  rewrite E4, Nat2Z.id, M1. cbn [mbind option_bind]. rewrite M2. cbn [mbind option_bind].
  pose proof (check_rates_spec (q_PhyMode (ad_req (aw_conf s))) d1 (Z.of_nat (length rates))) as C1. rewrite Nat2Z.id, D1 in C1.
  pose proof (check_rates_spec (q_PhyMode (ad_req (aw_conf s))) d2 (ar_ExtRateLen r)) as C2. rewrite D2 in C2.
  destruct (RTMPCheckRates _ d1 _) as [n1 l1], (RTMPCheckRates _ d2 _) as [n2 l2]. cbn [fst snd] in C1, C2. cbn [mbind option_bind x_Channel].
  cbn [set_aaux aemit aw_ScanTab aw_ap]. rewrite E1. cbn [set_MacTab aw_ScanTab aw_ap] in *. rewrite HS. cbn [mbind option_bind].
  match goal with |- context [StaUpdateMacTableEntry ?m r ?z] => destruct (enters m r z eq_refl H6) as (s3 & -> & X1 & X2 & X3 & HT3 & HM3) end;
    [by rewrite <- E1, take_ge by (rewrite E1; lia)|done..|].
  cbn [mbind option_bind]. eexists. split; [done|]. split; [|exact X3]. split; cbn [aemit aw_aux aw_ap aw_MacTab]; rewrite ?X1, ?X2; cbn; try done.
  - split; [|done]. by rewrite take_ge by lia.
  - by rewrite E2.
  - pose proof (fo_wme _ _ _ Hf) as HW. pose proof (fo_ht _ _ _ Hf) as HH. destruct (last_such is_wme els).
    + destruct HW as [HV HW]. unfold default_edca. rewrite HV, andb_false_r. done.
    + destruct (last_such is_ht els).
      * destruct HH as [_ HH]. apply edca_default; [apply (ro_edca _ Hr)|rewrite HH; done|done].
      * unfold default_edca. by rewrite HH.
  - split; [done|]. rewrite <- (no_ht _ _ _ Hf) in *. unfold entry_refused. rewrite max_rates, ?E4, Nat2Z.id, E5, (fo_ext _ _ _ Hf) in HM3. exact HM3.
Qed.
End success.

(** * The response *)

(** An element of the queue with an association or reassociation response of
    the access point. *)
Record answer (e : MLME_QUEUE_ELEM) (Bssid : list Z) (cap st aid : Z) (rates : list Z) (els : list (Z * list Z)) : Prop := {
  an_type : el_MsgType e = MT2_PEER_ASSOC_RSP ∨ el_MsgType e = MT2_PEER_REASSOC_RSP;
  an_frame : ∃ hdr rest', length hdr = 24%nat ∧ take 6 (drop 10 hdr) = Bssid ∧ (263 ≤ length rest')%nat ∧
    el_Msg e = rsp_frame hdr cap st aid rates els ++ rest' ∧ el_MsgLen e = Z.of_nat (length (rsp_frame hdr cap st aid rates els)) ∧
    bytes (el_Msg e);
  an_fields : 0 ≤ cap < 65536 ∧ 0 ≤ st < 65536 ∧ 0 ≤ aid < 65536;
  an_lengths : (length rates ≤ MAX_LEN_OF_SUPPORTED_RATES)%nat ∧ Forall (λ x, (length (snd x) ≤ 255)%nat) els
}.

(** The confirmation of a state that waits, and its timer. *)
Definition confirmation (s : Z) : Z := if s =? ASSOC_WAIT_RSP then MT2_ASSOC_CONF else MT2_REASSOC_CONF.
Definition clear_timer (s : Z) : assoc_w → assoc_w := if s =? ASSOC_WAIT_RSP then set_AssocTimer None else set_ReassocTimer None.

(** The parts that [joined] speaks of. *)
Lemma joined_ext C Bssid vs M cap aid rates els s s' :
  aw_aux s' = aw_aux s → aw_MacTab s' = aw_MacTab s → aw_ap s' = aw_ap s →
  joined C Bssid vs M cap aid rates els s → joined C Bssid vs M cap aid rates els s'.
Proof. intros E1 E2 E3 []. split; rewrite ?E1, ?E2, ?E3; done. Qed.

Lemma station_timer Bssid vs M s t : station_ok Bssid vs M s → station_ok Bssid vs M (set_timers t s).
Proof. intros []. by split. Qed.

Section response.
Context (E : assoc_env) (e : MLME_QUEUE_ELEM) (Bssid : list Z) (cap st aid : Z) (rates : list Z) (els : list (Z * list Z)).
Context (He : answer e Bssid cap st aid rates els) (HE : al_ie_list E = true) (HL : rsp_ok (locals E)).

Lemma answer_parsed : ∃ r, PeerAssocRspSanity (el_Msg e) (el_MsgLen e) (locals E) = Some (true, r) ∧ rsp_ok r ∧ length Bssid = 6%nat ∧
  ar_Addr2 r = Bssid ∧ ar_CapabilityInfo r = cap ∧ ar_Status r = st ∧
  (st = MLME_SUCCESS → ar_Aid r = aid mod 2 ^ 14 ∧ ar_SupRateLen r = Z.of_nat (length rates) ∧ take (length rates) (ar_SupRate r) = rates ∧
    found els (locals E) r).
Proof using He HL.
  destruct (an_frame _ _ _ _ _ _ _ He) as (hdr & rest' & Hh & Ha & Hr & Hm & Hn & Hb). destruct (an_fields _ _ _ _ _ _ _ He) as (F1 & F2 & F3).
  destruct (an_lengths _ _ _ _ _ _ _ He) as [L1 L2]. rewrite Hm in Hb.
  destruct (rsp_parsed hdr cap st aid rates els rest' (locals E)) as (r & HP & HO & H1 & H2 & H3 & H4); [done..|].
  rewrite Hm, Hn. exists r. split; [exact HP|]. split; [done|]. split; [rewrite <- Ha, length_take, length_drop; lia|]. by rewrite H1, Ha.
Qed.

Lemma joins vs M s t r : station_ok Bssid vs M s → rsp_ok r → length Bssid = 6%nat → ar_Addr2 r = Bssid → ar_CapabilityInfo r = cap →
  ar_Aid r = aid mod 2 ^ 14 → ar_SupRateLen r = Z.of_nat (length rates) → take (length rates) (ar_SupRate r) = rates → found els (locals E) r →
  ∃ s1, associated r (clear_timer t s) = Some s1 ∧ joined (aw_conf s) Bssid vs M cap aid rates els s1 ∧ aw_timers s1 = aw_timers (clear_timer t s).
Proof using He.
  intros Hs HO H6 H1 H2 A1 A2 A3 A4.
  assert (HC : station_ok Bssid vs M (clear_timer t s)) by (unfold clear_timer; destruct (_ =? _); by apply station_timer).
  destruct (associated_ok _ _ _ _ HC r cap aid rates els (locals E)) as (s1 & B1 & B2 & B3); try done; [apply (an_lengths _ _ _ _ _ _ _ He)|].
  exists s1. split; [done|]. split; [|done]. revert B2. unfold clear_timer. by destruct (_ =? _).
Qed.

Lemma bind_same (x : option assoc_adapter) : x = (b ← x; Some (upd (λ s, s) b)).
Proof. by destruct x as [[]|]. Qed.

(** The whole of what the handler of a state does to the station's data. *)
Lemma answer_serves vs M a : station_ok Bssid vs M (rest a) → aa_Bssid (aw_aux (rest a)) = Bssid →
  assoc_good a → assoc_state a = ASSOC_WAIT_RSP ∨ assoc_state a = REASSOC_WAIT_RSP →
  ∃ s2 f, assoc_serve E e a = (b ← refuse (confirmation (assoc_state a)) st (upd (λ _, s2) a); Some (upd f b)) ∧
    (∀ s, aw_timers (f s) = aw_timers s) ∧ aw_timers s2 = aw_timers (clear_timer (assoc_state a) (rest a)) ∧
    (st ≠ MLME_SUCCESS → s2 = clear_timer (assoc_state a) (rest a) ∧ ∀ s, f s = s) ∧
    (st = MLME_SUCCESS → joined (aw_conf (rest a)) Bssid vs M cap aid rates els (f s2)).
Proof using He HE HL.
  intros Hs Hb Hg Hst. destruct answer_parsed as (r & HP & HO & H6 & H1 & H2 & H3 & H4).
  assert (HM : MAC_ADDR_EQUAL (ar_Addr2 r) (aa_Bssid (aw_aux (rest a))) = true).
  { unfold MAC_ADDR_EQUAL. apply bool_decide_eq_true_2. congruence. }
  assert (Hj : st = MLME_SUCCESS → ∃ s1, associated r (clear_timer (assoc_state a) (rest a)) = Some s1 ∧
    joined (aw_conf (rest a)) Bssid vs M cap aid rates els s1 ∧ aw_timers s1 = aw_timers (clear_timer (assoc_state a) (rest a))).
  { intros Hok. destruct (H4 Hok) as (A1 & A2 & A3 & A4). by apply joins. }
  rewrite assoc_serve_is by (done || by destruct (an_type _ _ _ _ _ _ _ He) as [->| ->]).
  assert (HF : find_action assoc_table f_Drop (assoc_state a) (el_MsgType e) =
    if assoc_state a =? ASSOC_WAIT_RSP then f_PeerAssocRspAction else f_PeerReassocRspAction).
  { destruct Hst as [-> | ->], (an_type _ _ _ _ _ _ _ He) as [-> | ->]; vm_compute; reflexivity. }
  rewrite HF. unfold confirmation, clear_timer in *.
  destruct (assoc_state a =? ASSOC_WAIT_RSP); cbn [assoc_function]; unfold PeerAssocRspAction, PeerReassocRspAction;
    rewrite HE, HP; cbn [negb mbind option_bind]; rewrite HM; cbn [andb]; rewrite H3; destruct (Z.eqb_spec st MLME_SUCCESS) as [Hok|Hno];
    cbn [upd rest mbind option_bind] in *;
    try (destruct (Hj Hok) as (s1 & J1 & J2 & J3); rewrite J1; cbn [mbind option_bind]).
  - exists s1. eexists. split; [reflexivity|]. split; [done|]. split; [done|]. split; [done|]. intros _. revert J2. by apply joined_ext.
  - exists (set_AssocTimer None (rest a)), (λ s, s). split; [by destruct (refuse _ _ _) as [[]|]|done].
  - eexists _, (λ s, s). split; [apply bind_same|]. split; [done|]. split; [by destruct (negb _)|]. split; [done|].
    intros _. revert J2. apply joined_ext; by destruct (negb _).
  - exists (set_ReassocTimer None (rest a)), (λ s, s). split; [apply bind_same|done].
Qed.
End response.

(** C22: The response of the access point ends the wait.  Conditions: the
    machine waits for the answer to an association or a reassociation; the
    frame is a response from the access point that it asked, made of the fixed
    fields, the rates (at most 12) and elements of at most 255 bytes, in a buffer that goes on
    for 263 bytes behind it; there is memory for the parser's list (without it
    the response is ignored); fewer than 39 messages wait in the queue and the
    driver is not halted; the station is in infrastructure mode; the access
    point that it asked has no entry in the peer table unless it is the one
    that it leaves; entry 1 of the peer table is free or that of the access point that it leaves, and the
    last of its chain; the network, on the channel of the request, is in the
    list of networks with well-formed elements, those for the mode of at most
    253 bytes.  Then the machine is idle afterwards, with the timer of the
    request off and exactly one confirmation, with the status of the response,
    queued for the control machine.  If the status is a failure nothing else
    changes.  If it is success, the station has the association id (without
    its two upper bits), the capabilities, those of the announced rates that
    it supports in their order, the WMM parameters of the response, or the
    defaults if an HT access point sent none; in the peer table the access
    point that it leaves is replaced by the new one, in entry 1, and no other
    peer changes (in 802.11g the new one is left out if it has no OFDM rate,
    and in HT-only modes if it has no HT capabilities); and its entry holds,
    for the WPA handshake, the last WPA or RSN element, according to the mode,
    that the list of networks has of it. *)
Theorem association_completes E e Bssid cap st aid rates els vs M fl a
  (HE : al_ie_list E = true) (HL : rsp_ok (locals E)) (He : answer e Bssid cap st aid rates els)
  (Hg : assoc_good a) (Hst : assoc_state a = ASSOC_WAIT_RSP ∨ assoc_state a = REASSOC_WAIT_RSP)
  (Hb : aa_Bssid (aw_aux (rest a)) = Bssid) (Hs : station_ok Bssid vs M (rest a))
  (Hw : queue_wf (Queue (Mlme a)) fl) (Hn : Num (Queue (Mlme a)) < 39) (Hh : halted (Flags a) = false) :
  ∃ b c, assoc_serve E e a = Some b ∧ assoc_state b = ASSOC_IDLE ∧ timer_for b (assoc_state a) = None ∧
    pending (Queue (Mlme b)) = pending (Queue (Mlme a)) ++ [c] ∧
    el_Machine c = MLME_CNTL_STATE_MACHINE ∧ el_MsgType c = confirmation (assoc_state a) ∧ holds c 2 (le_bytes 2 st) ∧
    (st ≠ MLME_SUCCESS → rest b = clear_timer (assoc_state a) (rest a)) ∧
    (st = MLME_SUCCESS → joined (aw_conf (rest a)) Bssid vs M cap aid rates els (rest b)).
Proof.
  destruct (answer_serves E e Bssid cap st aid rates els He HE HL vs M a Hs Hb Hg Hst) as (s2 & f & HS & Hf & Ht & Hno & Hok).
  destruct (confirm_last fl (confirmation (assoc_state a)) st (set_AssocState ASSOC_IDLE (upd (λ _, s2) a)) Hw Hn Hh)
    as (b & c & HC & Eb & Hp & Hm & Hy & Hd).
  exists (upd f b), c. rewrite HS. unfold refuse. rewrite HC. cbn [mbind option_bind].
  assert (Er : rest (upd f b) = f s2) by (rewrite Eb; done). assert (Es : assoc_state (upd f b) = ASSOC_IDLE) by (rewrite Eb; done).
  split; [done|]. split; [exact Es|]. split; [|split; [exact Hp|split; [done|split; [done|split; [done|]]]]].
  - unfold timer_for. rewrite Er, Hf, Ht. unfold clear_timer. by destruct Hst as [-> | ->].
  - rewrite Er. split; [|done]. intros Hst'. destruct (Hno Hst') as [<- ->]. done.
Qed.

(** * Examples *)

Definition home_ap : list Z := [2; 0; 0; 0; 0; 1].
Definition home_conf (AuthMode : Z) : assoc_conf :=
  mk_aconf [2; 0; 0; 0; 0; 9] BSS_INFRA [2; 0; 0; 0; 0; 7] (zeros 6) false AuthMode Ndis802_11AESEnable
    (mk_rsncfg Ndis802_11AESEnable false WPA_SUPPLICANT_DISABLE) false [] []
    (mk_rqconf (Z.lor 1 (Z.lor WMODE_AN WMODE_AC)) 36 false false false false (0, 0, 0, 0) 0 false false (mk_vconf false 0 false 1 1 2 false 0 0 0 0)).
Definition home_aux : assoc_aux :=
  mk_aaux home_ap BSS_INFRA 0 0
    (mk_rqaux (demo_ssid 65) 4 ([12; 18] ++ zeros 10) 2 (zeros 12) 0 36 (mk_parm false (zeros 26)) 0 (zeros 26) 0 0).
(** A station that has found a network of its list. *)
Definition home (AuthMode : Z) (T : BSS_TABLE) : assoc_adapter :=
  mk_pAd (MlmeInit blank_mlme) 0 false
    (mk_aw home_aux (mk_timers None None None) (mk_sies (zeros MAX_LEN_OF_RSNIE) 0 (zeros MAX_VIE_LEN) 0) (mk_ainfo 0 0) (0, zeros 6)
       (zeros MAX_LEN_OF_RSNIE, 0) start_table T 0 false (home_conf AuthMode) []).
Definition home_env : assoc_env := mk_asenv true true zero_rsp.
Definition assoc_request : list Z := home_ap ++ le_bytes 2 0x0411 ++ le_bytes 2 10 ++ zeros 6 ++ le_bytes 8 300.

(** A request that is queued, served, and whose timer expires. *)
Definition asked (a : assoc_adapter) : assoc_adapter := default a (enqueue ASSOC_STATE_MACHINE MT2_MLME_ASSOC_REQ 24 (Some assoc_request) a).
Definition turned (a : assoc_adapter) : assoc_adapter := default a (assoc_turn home_env a).
Definition timed_out (a : assoc_adapter) : assoc_adapter := default a (assoc_expire ASSOC_WAIT_RSP a).
Definition waiting : assoc_adapter := turned (asked (home Ndis802_11AuthModeWPA2PSK demo_two)).

#[local] Transparent AssocStateMachineInit.
Lemma home_inv AuthMode T : assoc_inv (home AuthMode T).
Proof.
  split; [exact (proj1 (init_wf blank_queue eq_refl))| | |].
  - exists (TransFunc (AssocMachine blank_mlme)), 0. split; [reflexivity|]. split; [vm_compute; reflexivity|done].
  - intros e He. assert (Ep : pending (Queue (Mlme (home AuthMode T))) = []) by exact (proj2 (init_wf blank_queue eq_refl)).
    rewrite Ep in He. by apply elem_of_nil in He.
  - intros H. exfalso. apply H. vm_compute. reflexivity.
Qed.

Lemma waiting_run : rtc (assoc_step home_env) (home Ndis802_11AuthModeWPA2PSK demo_two) waiting.
Proof.
  apply (rtc_l _ _ (asked (home Ndis802_11AuthModeWPA2PSK demo_two))).
  { eapply (step_post _ _ _ _ _ _ _ _ ASSOC_STATE_MACHINE MT2_MLME_ASSOC_REQ 24 (Some assoc_request));
      [vm_compute; reflexivity|vm_compute; congruence|intros _; vm_compute; split; congruence|vm_compute; reflexivity]. }
  apply rtc_once. eapply step_turn; [vm_compute; split; reflexivity|done|vm_compute; reflexivity].
Qed.

Lemma assoc_waits_with_timer_witness :
  let b := timed_out waiting in assoc_state b = ASSOC_WAIT_RSP ∧ timer_for b ASSOC_WAIT_RSP = None ∧ assoc_due b.
Proof.
  assert (Hs : assoc_state (timed_out waiting) = ASSOC_WAIT_RSP) by (vm_compute; reflexivity).
  split; [exact Hs|]. split; [vm_compute; reflexivity|].
  apply (assoc_waits_with_timer home_env (home Ndis802_11AuthModeWPA2PSK demo_two)).
  - apply home_inv.
  - eapply rtc_r; [exact waiting_run|].
    eapply (step_timer _ _ _ _ _ _ _ _ ASSOC_WAIT_RSP); [vm_compute; reflexivity|vm_compute; reflexivity|vm_compute; congruence|vm_compute; reflexivity].
  - by left.
Defined.

(** The machine waits for a disassociation and the station is linked up again:
    [LinkUp] cancels the timer and leaves the machine in its state, so that it
    waits for nothing. *)
Definition disassoc_request : list Z := home_ap ++ le_bytes 2 8.
Definition disassociating : assoc_adapter :=
  turned (default (home Ndis802_11AuthModeWPA2PSK demo_two)
    (enqueue ASSOC_STATE_MACHINE MT2_MLME_DISASSOC_REQ 8 (Some disassoc_request) (home Ndis802_11AuthModeWPA2PSK demo_two))).

Lemma link_up_step E a : assoc_step E a (upd (set_DisassocTimer None) a).
Proof. apply step_other; [done|]. intros s. unfold link_up_cancels, timer_for. repeat case_match; done. Qed.

Example disassoc_wait_lost :
  let b := upd (set_DisassocTimer None) disassociating in
  rtc (assoc_step home_env) (home Ndis802_11AuthModeWPA2PSK demo_two) b ∧ assoc_state b = DISASSOC_WAIT_RSP ∧ ~ assoc_due b.
Proof.
  split; [|split; [vm_compute; reflexivity|]].
  - eapply rtc_l; [eapply (step_post _ _ _ _ _ _ _ _ ASSOC_STATE_MACHINE MT2_MLME_DISASSOC_REQ 8 (Some disassoc_request));
      [vm_compute; reflexivity|vm_compute; congruence|intros _; vm_compute; split; congruence|vm_compute; reflexivity]|].
    eapply rtc_l; [eapply (step_turn _ _ _ _ _ _ _ _ _ disassociating); [vm_compute; split; reflexivity|done|vm_compute; reflexivity]|].
    apply rtc_once, link_up_step.
  - intros [H|(e & He & _)]; [by apply H|]. vm_compute in He. by apply elem_of_nil in He.
Qed.

(** The access point's answer to it. *)
Definition home_header : list Z := zeros 10 ++ home_ap ++ zeros 8.
Definition home_answer (st : Z) : MLME_QUEUE_ELEM :=
  let f := rsp_frame home_header 0x0411 st 0xc005 [0x8c; 18; 0x98; 10] demo_els in
  mk_qelem (f ++ zeros 263) ASSOC_STATE_MACHINE MT2_PEER_ASSOC_RSP (Z.of_nat (length f)) (0, 0) (0, 0, 0) 0 0 0 true 0 0.

Lemma home_answers : answer (home_answer 0) home_ap 0x0411 0 0xc005 [0x8c; 18; 0x98; 10] demo_els.
Proof.
  split; [by left| |done|].
  - exists home_header, (zeros 263). repeat (split; [vm_compute; reflexivity || lia|]). solve_bytes.
  - split; [vm_compute; lia|]. repeat constructor; vm_compute; lia.
Qed.

Lemma waiting_ok : station_ok home_ap demo_vies ∅ (rest waiting).
Proof.
  split.
  - assert (aw_MacTab (rest waiting) = start_table) as -> by (vm_compute; reflexivity). apply start_ok.
  - split; vm_compute; reflexivity.
  - by rewrite delete_empty, lookup_empty.
  - eexists. split; [vm_compute; reflexivity|]. split; [reflexivity|]. left. split; [apply lookup_empty|reflexivity].
  - split; vm_compute; reflexivity.
  - assert (aw_ScanTab (rest waiting) = demo_two) as -> by (vm_compute; reflexivity). apply demo_two_wf.
  - exists 0%nat, (nth 0 (BssEntry demo_two) zero_bss), (zeros (MAX_VIE_LEN - length (concat (map vie_enc demo_vies)))).
    split; [vm_compute; lia|]. repeat (split; [vm_compute; reflexivity|]). vm_compute. reflexivity.
  - split; repeat constructor; vm_compute; lia || congruence.
Qed.

Lemma association_completes_witness :
  ∃ b c, assoc_serve home_env (home_answer 0) waiting = Some b ∧ assoc_state b = ASSOC_IDLE ∧ pending (Queue (Mlme b)) = [c] ∧
    el_MsgType c = MT2_ASSOC_CONF ∧ aa_Aid (aw_aux (rest b)) = 5 ∧ MacTableLookup (aw_MacTab (rest b)) home_ap = Some (Some BSSID_WCID) ∧
    take (Z.to_nat (snd (aw_ap (rest b)))) (fst (aw_ap (rest b))) = vie_enc (Vie_rsn 2 [2; 4] [2] 12 []).
Proof.
  destruct (association_completes home_env (home_answer 0) home_ap 0x0411 0 0xc005 [0x8c; 18; 0x98; 10] demo_els demo_vies ∅ None waiting)
    as (b & c & H1 & H2 & _ & H3 & _ & H4 & _ & _ & H5).
  - reflexivity.
  - apply zero_rsp_ok.
  - apply home_answers.
  - exact (wi_good _ _ _ _ _ _ _ _ _ (assoc_waits _ _ _ (home_inv _ _) waiting_run)).
  - left. vm_compute. reflexivity.
  - vm_compute. reflexivity.
  - apply waiting_ok.
  - exact (wi_wf _ _ _ _ _ _ _ _ _ (assoc_waits _ _ _ (home_inv _ _) waiting_run)).
  - vm_compute. reflexivity.
  - vm_compute. reflexivity.
  - specialize (H5 eq_refl). assert (HC : aw_conf (rest waiting) = home_conf Ndis802_11AuthModeWPA2PSK) by (vm_compute; reflexivity). rewrite HC in H5. clear HC.
    exists b, c. split; [exact H1|]. split; [exact H2|]. split; [rewrite H3; vm_compute; reflexivity|]. split; [exact H4|].
    split; [exact (jo_aid _ _ _ _ _ _ _ _ _ H5)|]. split.
    { destruct (jo_peers _ _ _ _ _ _ _ _ _ H5) as [HT HM]. rewrite (lookup_spec _ _ home_ap HT HM eq_refl). vm_compute. reflexivity. }
    rewrite (jo_rsn _ _ _ _ _ _ _ _ _ H5). reflexivity.
Defined.

(** An RSN element of 255 bytes is copied, with its two bytes in front, to an
    array of 255. *)
Example long_element_overflows :
  let m := vie_enc (Vie_rsn 4 [4] [2] 0 (zeros 235)) in
  length m = 257%nat ∧ rsn_walk 300 Ndis802_11AuthModeWPA2PSK m 0 257 (zeros MAX_LEN_OF_RSNIE, 0) = None.
Proof. vm_compute. auto. Qed.

(** A length that ends inside an element wraps, and the loop goes on through
    the array and past its end. *)
Example cut_element_runs_on :
  rsn_walk (S MAX_VIE_LEN) Ndis802_11AuthModeWPA2PSK ([IE_WPA; 4] ++ zeros (MAX_VIE_LEN - 2)) 0 5 (zeros MAX_LEN_OF_RSNIE, 0) = None ∧
  rsn_walk (S MAX_VIE_LEN) Ndis802_11AuthModeWPA2PSK ([IE_WPA; 4] ++ zeros (MAX_VIE_LEN - 2)) 0 6 (zeros MAX_LEN_OF_RSNIE, 0) =
    Some (zeros MAX_LEN_OF_RSNIE, 0).
Proof. vm_compute. auto. Qed.

(** Without WPA the length of the elements of the request is the one of the
    last request with it: of 10 bytes it announces 44. *)
Example open_request_length :
  (λ r, ReqVarIELen (snd r)) <$> (v ← add_elem (zeros MAX_VIE_LEN, 0%nat) IE_SSID 4 (demo_ssid 65);
    v ← add_elem v IE_SUPP_RATES 2 [12; 18];
    security (home_conf Ndis802_11AuthModeOpen) home_ap (mk_sies (zeros MAX_LEN_OF_RSNIE) 0 (zeros MAX_VIE_LEN) 44) v) = Some 44.
Proof. vm_compute. reflexivity. Qed.
