(* ===== verification/StaAssocRequest.v ===== *)
(** The association request: the frame that MlmeAssocReqAction sends, read
    with the driver's own parser of elements. *)

From stdpp Require Import list.
From S2P Require Import Prelude CipherKey MacTable Eapol StaAuth Mlme BssEntry BssEntryProofs BssTable BssTableProofs BssTableClaims.
From S2P Require Import BeaconSanity RsnIe AssocRsp AssocReq StaAssoc StaAssocProofs StaAssocClaims.

(** * The elements before the security ones *)

(** The arrays have their sizes and the lengths are those of their contents;
    the HT capabilities are there or not. *)
Record request_ok (x : req_aux) (T : BSS_TABLE) : Prop := {
  rq_ssid : length (x_Ssid x) = MAX_LEN_OF_SSID ∧ 0 ≤ x_SsidLen x ≤ Z.of_nat MAX_LEN_OF_SSID;
  rq_sup : length (x_SupRate x) = MAX_LEN_OF_SUPPORTED_RATES ∧ 0 ≤ x_SupRateLen x ≤ Z.of_nat MAX_LEN_OF_SUPPORTED_RATES;
  rq_ext : length (x_ExtRate x) = MAX_LEN_OF_SUPPORTED_RATES ∧ 0 ≤ x_ExtRateLen x ≤ Z.of_nat MAX_LEN_OF_SUPPORTED_RATES;
  rq_ht : length (x_HtCapability x) = SIZE_HT_CAP_IE ∧ (x_HtCapabilityLen x = 0 ∨ x_HtCapabilityLen x = Z.of_nat SIZE_HT_CAP_IE);
  rq_table : table_wf T
}.

(** Elements without a say on security. *)
Definition harmless (v : vie) : Prop := plain v ∧ vie_ok v.

Lemma elem_is Eid n (b : list Z) : 0 ≤ n ≤ Z.of_nat (length b) → elem Eid n b = vie_enc (Vie_other Eid (take (Z.to_nat n) b)).
Proof. intros Hn. unfold elem, vie_enc. cbn [vie_eid vie_body app]. rewrite length_take. do 2 f_equal. lia. Qed.

Lemma elem_harmless Eid n (b : list Z) : 0 ≤ n ≤ 255 → Eid ≠ IE_WPA → Eid ≠ IE_RSN → harmless (Vie_other Eid (take (Z.to_nat n) b)).
Proof. intros Hn H1 H2. split; [done|]. split; [|done]. cbn. rewrite length_take. lia. Qed.

Lemma length_vht V snd : length (fst (build_vht_cap_ie V snd)) = SIZE_VHT_CAP_IE.
Proof.
  unfold build_vht_cap_ie, nss_part, mcs_map. destruct (v_RxStream V =? 1), (v_RxStream V =? 2), (v_TxStream V =? 1), (v_TxStream V =? 2); done.
Qed.

Section parts.
Context (q : req_conf) (x : req_aux) (T : BSS_TABLE) (Hx : request_ok x T).

Lemma snd_flag_total Bssid Channel snd : is_Some (snd_flag T Bssid Channel snd).
Proof using Hx.
  unfold snd_flag. destruct (search_key T Bssid Channel (rq_table _ _ Hx)) as ([i|] & -> & Hr); cbn [mbind option_bind]; [|by eexists].
  destruct Hr as (_ & e & -> & _). by eexists.
Qed.

Lemma ht_vies Bssid snd : x_HtCapabilityLen x = Z.of_nat SIZE_HT_CAP_IE →
  ∃ l snd', ht_part q x T Bssid snd = Some (concat (map vie_enc l), snd') ∧ Forall harmless l.
Proof using Hx.
  intros Hn. destruct (rq_ht _ _ Hx) as [HL _]. unfold ht_part.
  set (ht := if q_bPreNHt q then _ else _).
  assert (∃ v, ht = vie_enc v ∧ harmless v) as (v & -> & Hv).
  { subst ht. rewrite Hn, Nat2Z.id, take_ge by lia. destruct (q_bPreNHt q).
    - exists (Vie_vendor ([0x00; 0x90; 0x4c; 0x33] ++ x_HtCapability x)). split.
      + unfold vie_enc. cbn [vie_eid vie_body]. rewrite length_app, HL. done.
      + split; [done|]. split; [cbn; rewrite HL; vm_compute; lia|]. split; [cbn; lia|]. split; [done|]. right. cbn. rewrite HL. done.
    - exists (Vie_other IE_HT_CAP (x_HtCapability x)). split.
      + rewrite elem_is by lia. by rewrite Nat2Z.id, take_ge by lia.
      + split; [done|]. split; [cbn; rewrite HL; vm_compute; lia|done]. }
  destruct (_ && _).
  - destruct (snd_flag_total Bssid (x_Channel x) snd) as [sn ->]. cbn [mbind option_bind].
    pose proof (length_vht (q_vht q) sn) as LV. unfold build_vht_ies. destruct (build_vht_cap_ie (q_vht q) sn) as [b sn'].
    exists [v; Vie_other IE_VHT_CAP b], sn'. cbn [fst] in LV. split.
    + cbn [map concat]. rewrite app_nil_r. unfold vie_enc at 3. cbn [vie_eid vie_body]. by rewrite LV.
    + constructor; [done|]. constructor; [|done]. split; [done|]. split; [cbn; rewrite LV; vm_compute; lia|done].
  - exists [v], snd. cbn [map concat]. rewrite app_nil_r. split; [done|]. by constructor.
Qed.

(** A part that is one harmless element or nothing. *)
Definition small (b : list Z) : Prop := ∃ l, b = concat (map vie_enc l) ∧ Forall harmless l.

Lemma small_nil : small [].
Proof. by exists []. Qed.

Lemma small_one v b : b = vie_enc v → harmless v → small b.
Proof. intros -> H. exists [v]. cbn. rewrite app_nil_r. split; [done|]. by constructor. Qed.

Lemma small_app a b : small a → small b → small (a ++ b).
Proof. intros (l & -> & Hl) (k & -> & Hk). exists (l ++ k). rewrite map_app, concat_app. split; [done|]. by apply Forall_app. Qed.

Lemma ext_rate_small : small (ext_rate_part x).
Proof using Hx.
  unfold ext_rate_part. destruct (rq_ext _ _ Hx) as [L1 L2]. destruct (negb _); [|apply small_nil].
  eapply small_one; [apply elem_is; lia|]. apply elem_harmless; [|done|done]. change (Z.of_nat MAX_LEN_OF_SUPPORTED_RATES) with 12 in L2. lia.
Qed.

Lemma ext_cap_small : small (ext_cap_part q).
Proof using.
  unfold ext_cap_part. eapply small_one; [apply elem_is; vm_compute; split; congruence|]. by apply elem_harmless.
Qed.

Lemma ralink_small none : small (ralink_part q x none).
Proof using.
  unfold ralink_part. repeat match goal with |- context [if ?c then _ else _] => destruct c end; try apply small_nil;
    (eapply (small_one (Vie_vendor [0x00; 0x0c; 0x43; _; 0x00; 0x00; 0x00])); [reflexivity|]; split; [done|]; split; [cbn; lia|]; split; [cbn; lia|]; split; [done|by left]).
Qed.

Lemma wme_small : small (wme_part q x).
Proof using.
  unfold wme_part. eapply (small_one (Vie_vendor [0x00; 0x50; 0xf2; 0x02; 0x00; 0x01; _])); [reflexivity|].
  split; [done|]. split; [cbn; lia|]. split; [cbn; lia|]. split; [done|by left].
Qed.

Lemma elements_vies Bssid snd : ∃ l snd', Forall harmless l ∧
  assoc_elements q x T Bssid snd = Some (concat (map vie_enc ([Vie_other IE_SSID (take (Z.to_nat (x_SsidLen x)) (x_Ssid x));
    Vie_other IE_SUPP_RATES (take (Z.to_nat (x_SupRateLen x)) (x_SupRate x))] ++ l)), snd').
Proof using Hx.
  unfold assoc_elements. destruct (rq_ssid _ _ Hx) as [L1 L2], (rq_sup _ _ Hx) as [L3 L4].
  assert (∃ ht snd', (if (0 <? x_HtCapabilityLen x) && WMODE_CAP_N (q_PhyMode q) && parm_bValid (x_APEdcaParm x)
    then ht_part q x T Bssid snd else Some ([], snd)) = Some (ht, snd') ∧ small ht) as (ht & snd' & -> & Hs).
  { destruct (rq_ht _ _ Hx) as [_ [H0|Hn]]; [rewrite H0; exists [], snd; split; [done|apply small_nil]|].
    destruct (_ && _); [|exists [], snd; split; [done|apply small_nil]].
    destruct (ht_vies Bssid snd Hn) as (l & sn & -> & Hl). exists (concat (map vie_enc l)), sn. split; [done|by exists l]. }
  cbn [mbind option_bind].
  assert (small (ext_rate_part x ++ ht ++ ext_cap_part q ++ ralink_part q x 6 ++ (if parm_bValid (x_APEdcaParm x) then wme_part q x else []))) as (l & El & Hl).
  { apply small_app; [apply ext_rate_small|]. apply small_app; [done|]. apply small_app; [apply ext_cap_small|].
    apply small_app; [apply ralink_small|]. destruct (parm_bValid _); auto using wme_small, small_nil. }
  exists l, snd'. split; [done|]. rewrite El, !elem_is by lia. done.
Qed.
End parts.

(** * The security element *)

(** One more element of the request. *)
Lemma add_elem_is (b src : list Z) k n Eid : (n ≤ length src)%nat → (n + 2 ≤ k)%nat →
  add_elem (b ++ zeros k, length b) Eid (Z.of_nat n) src =
  Some ((b ++ elem Eid (Z.of_nat n) src) ++ zeros (k - (n + 2)), length (b ++ elem Eid (Z.of_nat n) src)).
Proof.
  intros H1 H2. unfold elem. rewrite Nat2Z.id. unfold add_elem, add_var, move_mem. cbn [fst snd]. change (Z.to_nat 2) with 2%nat.
  rewrite decide_True by (rewrite length_app, length_zeros; cbn; lia). cbn [mbind option_bind fst snd]. rewrite drop_0, Nat2Z.id, bwrite_zeros.
  change (take 2 [Eid; Z.of_nat n]) with [Eid; Z.of_nat n]. replace (length b + 2)%nat with (length (b ++ [Eid; Z.of_nat n])) by (rewrite length_app; done).
  rewrite decide_True by (rewrite !length_app, length_zeros; cbn; lia). cbn [mbind option_bind]. rewrite drop_0, bwrite_zeros, length_take, Nat.min_l by done.
  rewrite !length_app, length_take, Nat.min_l by done. cbn [length]. replace (k - 2 - n)%nat with (k - (n + 2))%nat by lia.
  replace (length b + 2 + n)%nat with (length b + (2 + n))%nat by lia. by rewrite <- !app_assoc.
Qed.

(** The settings under which the driver makes the element itself. *)
Record makes_element (C : assoc_conf) : Prop := {
  me_auth : ad_AuthMode C ∈ [Ndis802_11AuthModeWPA; Ndis802_11AuthModeWPAPSK; Ndis802_11AuthModeWPA2; Ndis802_11AuthModeWPA2PSK];
  me_wep : ad_WepStatus C ∈ [Ndis802_11TKIPEnable; Ndis802_11AESEnable; Ndis802_11TKIPAESMix];
  me_up : rc_WpaSupplicantUP (ad_rsn C) ≠ WPA_SUPPLICANT_DISABLE ∨ is_psk (ad_AuthMode C) = true;
  me_own : bRSN_IE_FromWpaSupplicant C = false;
  me_pmkids : Forall (λ p, length (snd p) = 16%nat) (SavedPMK C)
}.

Section security.
Context (C : assoc_conf) (HC : makes_element C).

(** The element, with the PMKID if there is one. *)
Definition own_element (ApAddr : list Z) : vie :=
  announced (ad_rsn C) (ad_AuthMode C) (ad_WepStatus C)
    (if ad_AuthMode C =? Ndis802_11AuthModeWPA2 then match cached_PMKID C ApAddr with Some P => le_bytes 2 1 ++ P | None => [] end else []).

Lemma cached_length ApAddr P : cached_PMKID C ApAddr = Some P → length P = 16%nat.
Proof using HC.
  unfold cached_PMKID. destruct (list_find _ _) as [[i [a P']]|] eqn:Ef; [|done]. destruct (MAC_ADDR_EQUAL _ _); [done|]. intros [= <-].
  apply list_find_Some in Ef as (Hi & _). exact (Forall_lookup_1 _ _ _ _ (me_pmkids _ HC) Hi).
Qed.

Lemma own_tail ApAddr : ∃ t, own_element ApAddr = announced (ad_rsn C) (ad_AuthMode C) (ad_WepStatus C) t ∧ (length t ≤ 18)%nat.
Proof using HC.
  unfold own_element. destruct (_ =? _); [|exists []; split; [done|cbn; lia]].
  destruct (cached_PMKID C ApAddr) as [P|] eqn:EP; [|exists []; split; [done|cbn; lia]].
  exists (le_bytes 2 1 ++ P). split; [done|]. rewrite length_app, (cached_length _ _ EP). done.
Qed.

Lemma own_length ApAddr : (length (vie_body (own_element ApAddr)) ≤ 40)%nat.
Proof using HC. destruct (own_tail ApAddr) as (t & -> & Ht). rewrite body_length. destruct (is_wpa1 _); lia. Qed.

Lemma make_rsn_is ApAddr RSN_IE RSNIE_Len : let b := vie_body (own_element ApAddr) in
  make_rsn C ApAddr RSN_IE RSNIE_Len = (b ++ zeros (MAX_LEN_OF_RSNIE - length b), Z.of_nat (length b)).
Proof using HC.
  unfold make_rsn, own_element. pose proof (made_is (ad_rsn C) _ _ (me_auth _ HC) (me_wep _ HC) (me_up _ HC)) as HM. cbv zeta in HM. rewrite HM.
  change (default ?d (Some ?z)) with z. cbv zeta. destruct (_ =? _); [|done]. destruct (cached_PMKID C ApAddr) as [P|] eqn:EP; [|done].
  exact (pmkid_is _ _ _ _ (cached_length _ _ EP)).
Qed.

Lemma own_eid ApAddr : vie_eid (own_element ApAddr) =
  if (ad_AuthMode C =? Ndis802_11AuthModeWPA2PSK) || (ad_AuthMode C =? Ndis802_11AuthModeWPA2) then IE_WPA2 else IE_WPA.
Proof using HC.
  unfold own_element, announced. pose proof (me_auth _ HC) as HA. apply list_elem_of_In in HA. cbn [In] in HA.
  by destruct HA as [<-|[<-|[<-|[<-|[]]]]].
Qed.

Lemma security_is ApAddr i b k : (length b ≤ 1000)%nat → (42 ≤ k)%nat →
  let v := own_element ApAddr in
  ∃ ies, security C ApAddr i (b ++ zeros k, length b) = Some (vie_enc v, ies) ∧
    take (Z.to_nat (ReqVarIELen ies)) (ReqVarIEs ies) = b ++ vie_enc v.
Proof using HC.
  intros Hb Hk v. pose proof (own_length ApAddr) as HL. pose proof (own_eid ApAddr) as HE. fold v in HL, HE. set (n := length (vie_body v)) in *.
  assert (HW : is_wpa (ad_AuthMode C) = true).
  { pose proof (me_auth _ HC) as HA. apply list_elem_of_In in HA. cbn [In] in HA. by destruct HA as [<-|[<-|[<-|[<-|[]]]]]. }
  unfold security, supplicant_ie. rewrite HW, (me_own _ HC), <- HE, make_rsn_is. cbn [negb orb andb]. rewrite andb_false_r, orb_true_r. fold v n.
  assert (HA : elem (vie_eid v) (Z.of_nat n) (vie_body v ++ zeros (MAX_LEN_OF_RSNIE - n)) = vie_enc v).
  { unfold elem, vie_enc. fold n. by rewrite Nat2Z.id, (take_app_length' (vie_body v)). }
  rewrite add_elem_is, HA by (rewrite ?length_app; fold n; lia). cbn [mbind option_bind fst snd].
  eexists. split; [done|]. cbn [ReqVarIELen ReqVarIEs]. rewrite wrap_id; [by rewrite Nat2Z.id, take_app_length|lia|].
  unfold in_range. rewrite length_app. change (length (vie_enc v)) with (S (S n)). lia.
Qed.
End security.

(** * The request *)

(** The name and the rates in the list of elements of the request. *)
Lemma first_elements x T : request_ok x T →
  let ssid := Vie_other IE_SSID (take (Z.to_nat (x_SsidLen x)) (x_Ssid x)) in
  let sup := Vie_other IE_SUPP_RATES (take (Z.to_nat (x_SupRateLen x)) (x_SupRate x)) in
  let b := vie_enc ssid ++ vie_enc sup in
  (v ← add_elem (zeros MAX_VIE_LEN, 0%nat) IE_SSID (x_SsidLen x) (x_Ssid x); add_elem v IE_SUPP_RATES (x_SupRateLen x) (x_SupRate x)) =
    Some (b ++ zeros (MAX_VIE_LEN - length b), length b) ∧ (length b ≤ 48)%nat ∧ harmless ssid ∧ harmless sup.
Proof.
  intros Hx ssid sup b. destruct (rq_ssid _ _ Hx) as [L1 L2], (rq_sup _ _ Hx) as [L3 L4].
  change (Z.of_nat MAX_LEN_OF_SSID) with 32 in L2. change (Z.of_nat MAX_LEN_OF_SUPPORTED_RATES) with 12 in L4.
  unfold MAX_LEN_OF_SSID in L1. unfold MAX_LEN_OF_SUPPORTED_RATES in L3.
  assert (H48 : (length b ≤ 48)%nat) by (unfold b; rewrite length_app; cbn; rewrite !length_take; lia).
  split; [|split; [done|split; apply elem_harmless; done || lia]].
  pose proof (add_elem_is [] (x_Ssid x) MAX_VIE_LEN (Z.to_nat (x_SsidLen x)) IE_SSID ltac:(lia) ltac:(unfold MAX_VIE_LEN; lia)) as A1.
  rewrite Z2Nat.id, elem_is in A1 by lia. rewrite !app_nil_l in A1. fold ssid in A1. change (length []) with 0%nat in A1. rewrite A1. cbn [mbind option_bind].
  pose proof (add_elem_is (vie_enc ssid) (x_SupRate x) (MAX_VIE_LEN - (Z.to_nat (x_SsidLen x) + 2)) (Z.to_nat (x_SupRateLen x)) IE_SUPP_RATES
    ltac:(lia) ltac:(unfold MAX_VIE_LEN; lia)) as A2.
  rewrite Z2Nat.id, elem_is in A2 by lia. fold sup b in A2. rewrite A2. do 3 f_equal. unfold b. rewrite length_app. f_equal. cbn. rewrite !length_take. lia.
Qed.

(** The parser passes over the harmless elements. *)
Lemma prefix_parses Privacy ses l v tail : Forall harmless l → vie_ok v →
  let body := concat (map vie_enc (l ++ [v])) in
  BssCipherParse Privacy BSS_INFRA (Z.of_nat (length body)) (body ++ tail) ses =
  BssCipherParse Privacy BSS_INFRA (Z.of_nat (length (vie_enc v))) (vie_enc v ++ tail) ses.
Proof.
  intros Hl Hv body. apply Forall_and in Hl as [Hp Hk].
  unfold body. rewrite cipher_parse_fold; [|done|by rewrite Forall_app, Forall_singleton].
  pose proof (cipher_parse_fold Privacy BSS_INFRA [v] tail ses) as H. cbn [map concat] in H. rewrite app_nil_r in H.
  rewrite H by (done || by rewrite Forall_singleton). by rewrite fold_left_app, (fold_plain l).
Qed.

(** C24: The association request announces the security settings of a station
    whose driver makes the element itself.  That is: the mode is WPA, WPA-PSK,
    WPA2 or WPA2-PSK; the cipher is TKIP, AES or both; a supplicant is in use or
    the mode is one with a pre-shared key; no supplicant handed an element over;
    and the cached PMKIDs have 16 bytes.  (An open station sends no such
    element, and a supplicant's element is sent as it is.)  Further the lengths
    of name, rates and HT capability are within their arrays, the table of
    networks is in order, association is not blocked and the buffer for the
    frame is allocated.  Then the request to the machine is sent as one frame:
    the header, the capabilities, the listen interval and a sequence of
    well-formed elements - the name of the network, the supported rates,
    elements without a say on security, and last the WPA or RSN element, in
    WPA2 mode with the PMKID of the access point if there is one.  The driver's
    own parser reads the whole sequence as the station's mode, its unicast
    cipher (AES when it has both) and the group cipher it announces, which is
    TKIP with mixed ciphers.  Name, rates and that element are kept for the
    confirmation, the machine waits with its timer set to the time of the
    request, and nothing is queued. *)
Theorem assoc_request_announces E Elem a ApAddr cap timeout listen
  (HE : al_OutBuffer E = true) (Hbl : aw_bBlockAssoc (rest a) = false)
  (Hm : MlmeAssocReqSanity (el_Msg Elem) = Some (ApAddr, cap, timeout, listen))
  (HC : makes_element (aw_conf (rest a))) (Hx : request_ok (aa_req (aw_aux (rest a))) (aw_ScanTab (rest a))) :
  let C := aw_conf (rest a) in
  let x := aa_req (aw_aux (rest a)) in
  let ssid := Vie_other IE_SSID (take (Z.to_nat (x_SsidLen x)) (x_Ssid x)) in
  let sup := Vie_other IE_SUPP_RATES (take (Z.to_nat (x_SupRateLen x)) (x_SupRate x)) in
  let own := own_element C ApAddr in
  ∃ b l, let body := concat (map vie_enc ([ssid; sup] ++ l ++ [own])) in
    MlmeAssocReqAction E Elem a = Some b ∧ assoc_state b = ASSOC_WAIT_RSP ∧ AssocTimer (aw_timers (rest b)) = Some timeout ∧
    aa_Bssid (aw_aux (rest b)) = ApAddr ∧ Queue (Mlme b) = Queue (Mlme a) ∧ Forall harmless ([ssid; sup] ++ l) ∧
    aw_events (rest b) = aw_events (rest a) ++ [A_RemoveAllKeys; A_MMRequest (
      MgtMacHeaderInit SUBTYPE_ASSOC_REQ 0 0 ApAddr (ad_CurrentAddress C) ApAddr ++
      le_bytes 2 (request_capability (ad_req C) cap) ++ le_bytes 2 listen ++ body)] ∧
    take (Z.to_nat (ReqVarIELen (aw_ies (rest b)))) (ReqVarIEs (aw_ies (rest b))) = vie_enc ssid ++ vie_enc sup ++ vie_enc own ∧
    ∀ Privacy ses tail, ∃ s, BssCipherParse Privacy BSS_INFRA (Z.of_nat (length body)) (body ++ tail) ses = Some s ∧
      be_AuthMode s = ad_AuthMode C ∧ be_WepStatus s = announced_pair (ad_WepStatus C) ∧
      GroupCipher (if is_wpa1 (ad_AuthMode C) then WPA s else WPA2 s) = announced_group (ad_rsn C) (ad_WepStatus C).
Proof.
  intros C x ssid sup own. pose proof (first_elements x _ Hx) as HB. cbv zeta in HB. fold ssid sup in HB.
  destruct HB as (H1 & H2 & H3 & H4).
  destruct (elements_vies (ad_req C) x _ Hx ApAddr (aw_snd (rest a))) as (l & snd' & Hl & H5).
  destruct (security_is C HC ApAddr (aw_ies (rest a)) (vie_enc ssid ++ vie_enc sup) (MAX_VIE_LEN - length (vie_enc ssid ++ vie_enc sup))) as (ies & H6 & H7);
    [lia|unfold MAX_VIE_LEN; lia|].
  destruct (add_elem (zeros MAX_VIE_LEN, 0%nat) IE_SSID (x_SsidLen x) (x_Ssid x)) as [v|] eqn:H0; [|done]. cbn [mbind option_bind] in H1.
  unfold MlmeAssocReqAction. rewrite Hbl, Hm, HE. cbn [negb].
  cbn [upd rest set_aux_Bssid set_aaux set_AssocTimer set_timers aemit aw_aux aw_conf aa_req aw_ScanTab aw_snd aw_ies].
  fold x C. rewrite H0. cbn [mbind option_bind]. rewrite H1. cbn [mbind option_bind]. rewrite H5. cbn [mbind option_bind]. rewrite H6. cbn [mbind option_bind].
  eexists _, l. split; [reflexivity|]. split; [done|]. split; [done|]. split; [done|]. split; [done|].
  assert (HF : Forall harmless ([ssid; sup] ++ l)) by (rewrite Forall_app, Forall_cons, Forall_singleton; done). split; [exact HF|]. split; [|split].
  - cbn -[map concat MgtMacHeaderInit le_bytes request_capability]. rewrite <- app_assoc. cbn [app]. do 4 f_equal.
    change (ssid :: sup :: l ++ [own]) with (([ssid; sup] ++ l) ++ [own]). rewrite map_app, concat_app. cbn [map concat].
    rewrite app_nil_r. done.
  - transitivity ((vie_enc ssid ++ vie_enc sup) ++ vie_enc own); [exact H7|by rewrite <- app_assoc].
  - intros Privacy ses tail. destruct (own_tail C HC ApAddr) as (t & Ht & Lt). fold own in Ht.
    destruct (announced_parses (ad_rsn C) (ad_AuthMode C) (ad_WepStatus C) t Privacy ses tail (me_auth _ HC) Lt) as (s & HP & HS).
    exists s. split; [|exact HS]. rewrite <- HP. rewrite <- Ht. apply (prefix_parses Privacy ses ([ssid; sup] ++ l) own tail HF).
    rewrite Ht. by apply announced_ok.
Qed.

(** * Examples *)

Definition home_elem : MLME_QUEUE_ELEM :=
  mk_qelem assoc_request ASSOC_STATE_MACHINE MT2_MLME_ASSOC_REQ 24 (0, 0) (0, 0, 0) 0 0 0 true 0 0.

Lemma home_makes : makes_element (home_conf Ndis802_11AuthModeWPA2PSK).
Proof.
  split; [apply list_elem_of_In; cbn; tauto|apply list_elem_of_In; cbn; tauto|by right|done|done].
Qed.

Lemma home_request : request_ok (aa_req home_aux) demo_two.
Proof. split; [| | | |apply demo_two_wf]; (split; [reflexivity|vm_compute]); [split; congruence..|by left]. Qed.

Lemma assoc_request_announces_witness :
  ∃ b, MlmeAssocReqAction home_env home_elem (home Ndis802_11AuthModeWPA2PSK demo_two) = Some b ∧
    AssocTimer (aw_timers (rest b)) = Some 300 ∧
    take (Z.to_nat (ReqVarIELen (aw_ies (rest b)))) (ReqVarIEs (aw_ies (rest b))) =
      [0; 4; 65; 65; 65; 65; 1; 2; 12; 18; 48; 20; 1; 0; 0; 15; 172; 4; 1; 0; 0; 15; 172; 4; 1; 0; 0; 15; 172; 2; 0; 0].
Proof.
  destruct (assoc_request_announces home_env home_elem (home Ndis802_11AuthModeWPA2PSK demo_two) home_ap 0x0411 300 10)
    as (b & l & H1 & _ & H2 & _ & _ & _ & _ & H3 & _).
  - reflexivity.
  - reflexivity.
  - vm_compute. reflexivity.
  - apply home_makes.
  - apply home_request.
  - exists b. split; [exact H1|]. split; [exact H2|]. rewrite H3. vm_compute. reflexivity.
Defined.
