(* ===== verification/Handshake.v ===== *)
(** The 4-way and the group-key handshake as the station runs them:
    src/common/cmm_wpa.c, WpaEAPOLKeyAction and the actions it dispatches to,
    PeerWpaMessageSanity, RTMPParseEapolKeyData, GenRandom and
    WPAStart2WayGroupHS, in the station build.

    The actions of the authenticator are compiled into the station too and a
    frame can reach them; they are modelled as far as a station gets in them.
    Timers, locks and debug output are left out; the calls to the chip and the
    frames sent are events.  A [ULONG] has 64 bits. *)

From stdpp Require Import list.
From S2P Require Import Prelude CipherKey BlockHash Md5 Sha Hmac Arc4 Michael Tkip Aes BlockCipher AesCcm.
From S2P Require Import AesCmac AesKeyWrap WpaKeys Mlme BaReorder BaSession MacTable Eapol.

(** * The station *)

Record wpa_sta := mk_sta {
  MacTab : MAC_TABLE;
  CurrentAddress : list Z;
  sta_PMK : list Z;
  GroupCipher : Z;
  RSN_IE : list Z;
  RSNIE_Len : nat;
  sta_PTK : list Z;
  sta_GTK : list Z;
  DefaultKeyId : Z;
  SharedKey : list CIPHER_KEY;
  sta_PortSecured : Z;
  scan_while_connected : bool;
  MlmeAux_Channel : Z;
  CommonCfg_Channel : Z;
  w_events : list wpa_event
}.

Definition set_MacTab (T : MAC_TABLE) (S : wpa_sta) : wpa_sta :=
  mk_sta T (CurrentAddress S) (sta_PMK S) (GroupCipher S) (RSN_IE S) (RSNIE_Len S) (sta_PTK S) (sta_GTK S)
    (DefaultKeyId S) (SharedKey S) (sta_PortSecured S) (scan_while_connected S) (MlmeAux_Channel S)
    (CommonCfg_Channel S) (w_events S).
Definition post (l : list wpa_event) (S : wpa_sta) : wpa_sta :=
  mk_sta (MacTab S) (CurrentAddress S) (sta_PMK S) (GroupCipher S) (RSN_IE S) (RSNIE_Len S) (sta_PTK S) (sta_GTK S)
    (DefaultKeyId S) (SharedKey S) (sta_PortSecured S) (scan_while_connected S) (MlmeAux_Channel S)
    (CommonCfg_Channel S) (w_events S ++ l).
Definition set_group (gtk : list Z) (idx : Z) (keys : list CIPHER_KEY) (S : wpa_sta) : wpa_sta :=
  mk_sta (MacTab S) (CurrentAddress S) (sta_PMK S) (GroupCipher S) (RSN_IE S) (RSNIE_Len S) (sta_PTK S) gtk
    idx keys (sta_PortSecured S) (scan_while_connected S) (MlmeAux_Channel S) (CommonCfg_Channel S) (w_events S).
Definition set_sta_PTK (p : list Z) (S : wpa_sta) : wpa_sta :=
  mk_sta (MacTab S) (CurrentAddress S) (sta_PMK S) (GroupCipher S) (RSN_IE S) (RSNIE_Len S) p (sta_GTK S)
    (DefaultKeyId S) (SharedKey S) (sta_PortSecured S) (scan_while_connected S) (MlmeAux_Channel S)
    (CommonCfg_Channel S) (w_events S).
Definition set_port (p : Z) (S : wpa_sta) : wpa_sta :=
  mk_sta (MacTab S) (CurrentAddress S) (sta_PMK S) (GroupCipher S) (RSN_IE S) (RSNIE_Len S) (sta_PTK S) (sta_GTK S)
    (DefaultKeyId S) (SharedKey S) p (scan_while_connected S) (MlmeAux_Channel S)
    (CommonCfg_Channel S) (w_events S).
Definition set_channel (c : Z) (S : wpa_sta) : wpa_sta :=
  mk_sta (MacTab S) (CurrentAddress S) (sta_PMK S) (GroupCipher S) (RSN_IE S) (RSNIE_Len S) (sta_PTK S) (sta_GTK S)
    (DefaultKeyId S) (SharedKey S) (sta_PortSecured S) (scan_while_connected S) c
    (CommonCfg_Channel S) (w_events S).

(** Updates of an entry. *)
Definition set_wpa (d : wpa_db) (e : MAC_TABLE_ENTRY) : MAC_TABLE_ENTRY :=
  mk_entry (EntryType e) (Addr e) (pNext e) (wcid e) (Aid e) (apidx e) (bssid e) (AuthMode e) (WepStatus e)
    (PrivacyFilter e) (GTKState e) (PortSecured e) (PMKID_CacheIdx e) (Sst e) (AuthState e)
    (AssocDeadLine e) (EnqueueEapolStartTimerRunning e) d.
Definition set_GTKState (g : Z) (e : MAC_TABLE_ENTRY) : MAC_TABLE_ENTRY :=
  mk_entry (EntryType e) (Addr e) (pNext e) (wcid e) (Aid e) (apidx e) (bssid e) (AuthMode e) (WepStatus e)
    (PrivacyFilter e) g (PortSecured e) (PMKID_CacheIdx e) (Sst e) (AuthState e)
    (AssocDeadLine e) (EnqueueEapolStartTimerRunning e) (wpa e).
(** [PortSecured = WPA_802_1X_PORT_SECURED; PrivacyFilter = ...AcceptAll] *)
Definition open_port (e : MAC_TABLE_ENTRY) : MAC_TABLE_ENTRY :=
  mk_entry (EntryType e) (Addr e) (pNext e) (wcid e) (Aid e) (apidx e) (bssid e) (AuthMode e) (WepStatus e)
    Ndis802_11PrivFilterAcceptAll (GTKState e) WPA_802_1X_PORT_SECURED (PMKID_CacheIdx e) (Sst e) (AuthState e)
    (AssocDeadLine e) (EnqueueEapolStartTimerRunning e) (wpa e).

Definition set_R_Counter (c : list Z) (d : wpa_db) : wpa_db :=
  mk_wpa (ANonce d) (SNonce d) c (PTK d) (WpaState d) (PairwiseKey d).
Definition set_SNonce (n : list Z) (d : wpa_db) : wpa_db :=
  mk_wpa (ANonce d) n (R_Counter d) (PTK d) (WpaState d) (PairwiseKey d).
Definition set_WpaState (s : Z) (d : wpa_db) : wpa_db :=
  mk_wpa (ANonce d) (SNonce d) (R_Counter d) (PTK d) s (PairwiseKey d).
Definition set_PairwiseKey (k : CIPHER_KEY) (d : wpa_db) : wpa_db :=
  mk_wpa (ANonce d) (SNonce d) (R_Counter d) (PTK d) (WpaState d) k.

Definition upd_entry (w : nat) (f : MAC_TABLE_ENTRY → MAC_TABLE_ENTRY) (S : wpa_sta) : wpa_sta :=
  set_MacTab (set_Entries (alter f w (Entries (MacTab S))) (MacTab S)) S.
Definition upd_wpa (w : nat) (f : wpa_db → wpa_db) (S : wpa_sta) : wpa_sta :=
  upd_entry w (λ e, set_wpa (f (wpa e)) e) S.
Definition entry_of (S : wpa_sta) (w : nat) : option MAC_TABLE_ENTRY := Entries (MacTab S) !! w.

(** The macro [STA_PORT_SECURED]. *)
Definition STA_PORT_SECURED (S : wpa_sta) : wpa_sta :=
  upd_entry BSSID_WCID open_port (post [Ev_IndicateMediaState] (set_port WPA_802_1X_PORT_SECURED S)).

(** * Constants *)

Definition AS_INITPMK : Z := 6.
Definition AS_PTKSTART : Z := 8.
Definition AS_PTKINIT_NEGOTIATING : Z := 9.
Definition AS_PTKINITDONE : Z := 10.
Definition REKEY_ESTABLISHED : Z := 1.
Definition MAX_LEN_GTK : nat := 32.
Definition LEN_WEP64 : Z := 5.
Definition BSS0 : Z := 0.
Definition IW_REPLAY_COUNTER_DIFF_EVENT_FLAG : Z := 0x0205.
Definition IW_MIC_DIFF_EVENT_FLAG : Z := 0x0207.
Definition IW_SET_KEY_DONE_WPA1_EVENT_FLAG : Z := 0x020D.
Definition IW_SET_KEY_DONE_WPA2_EVENT_FLAG : Z := 0x020E.

(** * The key data of a received frame *)

(** The walk over the elements; [skip] is [skip_offset], the last three
    arguments are [DefaultIdx], [GTKLEN] and [GTK].  The boolean is [false] where the
    function returns FALSE. *)
Fixpoint kde_loop (fuel : nat) (data : list Z) (len skip : Z) (idx gtklen : Z) (gtk : list Z)
    : option (bool * Z * Z * list Z) :=
  match fuel with
  | O => None
  | S fuel =>
      Len ← data !! Z.to_nat (skip + 1);
      if negb (skip + 2 + Len <=? len) then Some (true, idx, gtklen, gtk)
      else
        Eid ← data !! Z.to_nat skip;
        let next := kde_loop fuel data len (u8 (skip + 2 + Len)) in
        if negb (Eid =? WPA_KDE_TYPE) then next idx gtklen gtk
        else if negb (in_buf data (Z.to_nat skip + 2) 3) then None
        else if negb (bool_decide (slice data (Z.to_nat skip + 2) 3 = OUI_WPA2)) then next idx gtklen gtk
        else
          DataType ← data !! Z.to_nat (skip + 5);
          if negb (DataType =? KDE_GTK) then next idx gtklen gtk
          else
            kid ← data !! Z.to_nat (skip + 6);
            let gtklen := u8 (Len - 6) in
            if gtklen <? LEN_WEP64 then Some (false, wrap 2 kid, gtklen, gtk)
            else
              gtk ← move gtk (drop (Z.to_nat skip + 8) data) (Z.to_nat gtklen);
              next (wrap 2 kid) gtklen gtk
  end.

(** Enough turns for elements of two bytes. *)
Definition kde_fuel : nat := 130.

Definition RTMPParseEapolKeyData (S : wpa_sta) (KEYDATA : list Z) (KeyDataLen GroupKeyIndex MsgType : Z)
    (wpa2 : bool) : option (bool * wpa_sta) :=
  let KeyDataLength := u8 KeyDataLen in
  let GTK := zeros MAX_LEN_GTK in
  if (MsgType =? EAPOL_PAIR_MSG_2) || ((MsgType =? EAPOL_PAIR_MSG_3) && negb wpa2) then Some (true, S)
  else
    '(ok, DefaultIdx, GTKLEN, GTK) ←
      (if wpa2 && ((MsgType =? EAPOL_PAIR_MSG_3) || (MsgType =? EAPOL_GROUP_MSG_1))
       then kde_loop kde_fuel KEYDATA KeyDataLength 0 0 0 GTK
       else if negb wpa2 && (MsgType =? EAPOL_GROUP_MSG_1)
       then GTK ← move GTK KEYDATA (Z.to_nat KeyDataLength); Some (true, GroupKeyIndex, KeyDataLength, GTK)
       else Some (true, 0, 0, GTK));
    if negb ok then Some (false, S)
    else if 3 <? DefaultIdx then Some (false, S)
    else
      gtk ← move (sta_GTK S) GTK (Z.to_nat GTKLEN);
      let '(k, ev) := WPAInstallSharedKey (GroupCipher S) BSS0 DefaultIdx false gtk GTKLEN in
      Some (true, post ev (set_group gtk DefaultIdx (<[Z.to_nat DefaultIdx := k]> (SharedKey S)) S)).

(** * The checks on a received frame *)

Definition replay_differs (MsgType : Z) (received stored : list Z) : bool :=
  if (MsgType =? EAPOL_PAIR_MSG_1) || (MsgType =? EAPOL_PAIR_MSG_3) || (MsgType =? EAPOL_GROUP_MSG_1) then
    negb (RTMPCompareMemory received stored LEN_KEY_DESC_REPLAY =? 1) &&
    negb (RTMPCompareMemory received (zeros LEN_KEY_DESC_REPLAY) LEN_KEY_DESC_REPLAY =? 0)
  else negb (bool_decide (take LEN_KEY_DESC_REPLAY received = take LEN_KEY_DESC_REPLAY stored)).

(** The key data in the clear, in the buffer of [MAX_LEN_OF_RSNIE] bytes, with
    the length that the frame then states. *)
Definition clear_key_data (E : wpa_env) (pMsg : EAPOL_PACKET) (ptk : list Z) : option (list Z * Z) :=
  let n := Z.to_nat (CONV_ARRARY_TO_UINT16 (kd_KeyDataLen pMsg)) in
  let kek := slice ptk LEN_PTK_KCK LEN_PTK_KEK in
  let KEYDATA := zeros MAX_LEN_OF_RSNIE in
  let ver := ki_KeyDescVer (kd_KeyInfo pMsg) in
  if Nat.ltb (length (kd_KeyData pMsg)) n then None
  else if (ver =? KEY_DESC_EXT) || (ver =? KEY_DESC_AES) then
    if Nat.ltb n 8 then Some (KEYDATA, 0)
    else if al_wrap E && Nat.ltb MAX_LEN_OF_RSNIE (n - 8) then None
    else
      let '(_, KEYDATA, aes_unwrap_len) :=
        @AES_Key_Unwrap (aes_calls (al_aes E)) kek 16 0 (al_wrap E) (junk_block E) (take n (kd_KeyData pMsg)) KEYDATA 0 in
      Some (KEYDATA, aes_unwrap_len)
  else if al_arc4 E && Nat.ltb MAX_LEN_OF_RSNIE n then None
  else Some (take MAX_LEN_OF_RSNIE (TKIP_GTK_KEY_UNWRAP (al_arc4 E) kek (kd_KeyIv pMsg)
               (KEYDATA ++ take n (kd_KeyData pMsg)) MAX_LEN_OF_RSNIE n 0), Z.of_nat n).

(** The function returns TRUE or FALSE with the new state. *)
Definition PeerWpaMessageSanity (E : wpa_env) (S : wpa_sta) (pMsg : EAPOL_PACKET) (MsgType : Z)
    (e : MAC_TABLE_ENTRY) : option (bool * wpa_sta) :=
  let wpa2 := bWPA2 e in
  let info := kd_KeyInfo pMsg in
  if negb (al_keydata E) then Some (false, S)
  else if (EAPOL_GROUP_MSG_2 <? MsgType) || (MsgType <? EAPOL_PAIR_MSG_1) then Some (false, S)
  else if replay_differs MsgType (kd_ReplayCounter pMsg) (R_Counter (wpa e))
  then Some (false, post [Ev_WirelessEvent IW_REPLAY_COUNTER_DIFF_EVENT_FLAG (Addr e)] S)
  else
    mic_ok ← (if negb (MsgType =? EAPOL_PAIR_MSG_1) then
                frame ← eapol_frame (set_KeyMic (zeros LEN_KEY_DESC_MIC) pMsg);
                mic ← eapol_mic E (ki_KeyDescVer info) (PTK (wpa e)) frame;
                Some (bool_decide (kd_KeyMic pMsg = mic))
              else Some true);
    if negb mic_ok then Some (false, post [Ev_WirelessEvent IW_MIC_DIFF_EVENT_FLAG (Addr e)] S)
    else
      let n := CONV_ARRARY_TO_UINT16 (kd_KeyDataLen pMsg) in
      if negb (0 <? n) then Some (true, S)
      else if ((MsgType =? EAPOL_PAIR_MSG_3) && wpa2) || (MsgType =? EAPOL_GROUP_MSG_1) then
        '(KEYDATA, n) ← clear_key_data E pMsg (PTK (wpa e));
        let GroupKeyIndex := if negb wpa2 && (MsgType =? EAPOL_GROUP_MSG_1) then ki_KeyIndex info else 0 in
        RTMPParseEapolKeyData S KEYDATA n GroupKeyIndex MsgType wpa2
      else if (MsgType =? EAPOL_PAIR_MSG_2) || ((MsgType =? EAPOL_PAIR_MSG_3) && negb wpa2) then
        KEYDATA ← move (zeros MAX_LEN_OF_RSNIE) (kd_KeyData pMsg) (Z.to_nat n);
        RTMPParseEapolKeyData S KEYDATA n 0 MsgType wpa2
      else Some (true, S).

(** * Nonces *)

(** "Init Counter" *)
Definition counter_prefix : list Z := [73; 110; 105; 116; 32; 67; 111; 117; 110; 116; 101; 114].

(** One turn; the result of the last one is fed back. *)
Definition random_turn (E : wpa_env) (macAddr : list Z) (result : option (list Z)) (i : nat) : option (list Z) :=
  result ← result;
  PRF (al_prf E) (zeros 32) counter_prefix
    (take 6 macAddr ++ le_bytes 8 (clock E i) ++ take 32 result ++ le_bytes 2 (Z.of_nat i)) result 32.

Definition GenRandom (E : wpa_env) (macAddr : list Z) : option (list Z) :=
  result ← foldl (random_turn E macAddr) (Some (zeros 80)) (seq 0 32);
  Some (take 32 result).

(** * The actions of the supplicant *)

Definition is_peer (e : MAC_TABLE_ENTRY) : bool := IS_ENTRY_CLIENT e || IS_ENTRY_APCLI e.
Definition min_frame : Z := LENGTH_802_11 + LENGTH_802_1_H + LENGTH_EAPOL_H + MIN_LEN_OF_EAPOL_KEY_MSG.
Definition eapol_in (Elem : MLME_QUEUE_ELEM) : EAPOL_PACKET :=
  eapol_of (drop (Z.to_nat (LENGTH_802_11 + LENGTH_802_1_H)) (el_Msg Elem)).

(** [MAKE_802_3_HEADER] with the type 0x888E, and the frame handed over. *)
Definition send_eapol (S : wpa_sta) (w : nat) (e : MAC_TABLE_ENTRY) (p : EAPOL_PACKET) (bClearFrame : bool)
    : option wpa_sta :=
  data ← eapol_sent p;
  Some (post [Ev_ToWirelessSta w (take 6 (Addr e) ++ take 6 (CurrentAddress S) ++ [0x88; 0x8E]) data bClearFrame] S).

Definition PeerPairMsg1Action (E : wpa_env) (S : wpa_sta) (w : nat) (Elem : MLME_QUEUE_ELEM) : option wpa_sta :=
  e ← entry_of S w;
  if negb (is_peer e) then Some S
  else if el_MsgLen Elem <? min_frame then Some S
  else
    let pMsg1 := eapol_in Elem in
    '(ok, S) ← PeerWpaMessageSanity E S pMsg1 EAPOL_PAIR_MSG_1 e;
    if negb ok then Some S
    else
      snonce ← GenRandom E (CurrentAddress S);
      ptk ← WpaDerivePTK (al_prf E) (sta_PMK S) (kd_KeyNonce pMsg1) (Addr e) snonce (CurrentAddress S) (junk_ptk E) LEN_PTK;
      let d := mk_wpa (kd_KeyNonce pMsg1) snonce (kd_ReplayCounter pMsg1) (take LEN_PTK ptk) AS_PTKINIT_NEGOTIATING
                 (PairwiseKey (wpa e)) in
      let S := upd_entry w (set_wpa d) S in
      let e := set_wpa d e in
      if negb (al_pool E) then Some S
      else
        p ← ConstructEapolMsg E e (GroupCipher S) EAPOL_PAIR_MSG_2 0 (Some snonce) None None (RSN_IE S) (RSNIE_Len S) zero_eapol;
        send_eapol S w e p true.

(** [WPAInstallPairwiseKey] on entry [w]. *)
Definition install_pairwise (S : wpa_sta) (w : nat) (bAE : bool) : option wpa_sta :=
  e ← entry_of S w;
  let '(k, ev) := WPAInstallPairwiseKey BSS0 e bAE in
  Some (post ev (upd_wpa w (set_PairwiseKey k) S)).

Definition PeerPairMsg3Action (E : wpa_env) (S : wpa_sta) (w : nat) (Elem : MLME_QUEUE_ELEM) : option wpa_sta :=
  e ← entry_of S w;
  if negb (is_peer e) then Some S
  else if el_MsgLen Elem <? min_frame then Some S
  else
    let pMsg3 := eapol_in Elem in
    '(ok, S) ← PeerWpaMessageSanity E S pMsg3 EAPOL_PAIR_MSG_3 e;
    if negb ok then Some S
    else
      let S := upd_wpa w (set_R_Counter (kd_ReplayCounter pMsg3)) S in
      e ← entry_of S w;
      if negb (bool_decide (ANonce (wpa e) = kd_KeyNonce pMsg3)) then Some S
      else if negb (al_pool E) then Some S
      else
        p ← ConstructEapolMsg E e (GroupCipher S) EAPOL_PAIR_MSG_4 0 None None None [] 0 zero_eapol;
        let S := upd_wpa w (set_WpaState AS_PTKINITDONE) S in
        let S := set_sta_PTK (take LEN_PTK (PTK (wpa e))) S in
        S ← install_pairwise S w false;
        let S := if bWPA2 e then STA_PORT_SECURED (upd_entry w open_port S) else S in
        send_eapol S w e p true.

Definition PeerGroupMsg1Action (E : wpa_env) (S : wpa_sta) (w : nat) (Elem : MLME_QUEUE_ELEM) : option wpa_sta :=
  e ← entry_of S w;
  if negb (is_peer e) then Some S
  else
    let default_key := DefaultKeyId S in
    let pGroup := eapol_in Elem in
    '(ok, S) ← PeerWpaMessageSanity E S pGroup EAPOL_GROUP_MSG_1 e;
    if negb ok then Some S
    else
      let S := upd_wpa w (set_R_Counter (kd_ReplayCounter pGroup)) S in
      e ← entry_of S w;
      if negb (al_pool E) then Some S
      else
        p ← ConstructEapolMsg E e (GroupCipher S) EAPOL_GROUP_MSG_2 default_key None None None [] 0 zero_eapol;
        let S := STA_PORT_SECURED (upd_entry w open_port S) in
        let S := if scan_while_connected S && (MlmeAux_Channel S =? CommonCfg_Channel S) then set_channel 0 S else S in
        send_eapol S w e p false.

(** * The actions of the authenticator, on a station

    There is neither a PMK nor a BSSID of an access point: message 2 ends
    after the nonce is stored, and the group key handshake that follows
    message 4 in WPA mode has null pointers for its nonce and key. *)

Definition PeerPairMsg2Action (S : wpa_sta) (w : nat) (Elem : MLME_QUEUE_ELEM) : option wpa_sta :=
  e ← entry_of S w;
  if negb (IS_ENTRY_CLIENT e) then Some S
  else if el_MsgLen Elem <? min_frame then Some S
  else if WpaState (wpa e) <? AS_PTKSTART then Some S
  else Some (upd_wpa w (set_SNonce (kd_KeyNonce (eapol_in Elem))) S).

(** [TxTsc] is the uninitialised array on the stack. *)
Definition WPAStart2WayGroupHS (E : wpa_env) (S : wpa_sta) (w : nat) (TxTsc : list Z) : option wpa_sta :=
  e ← entry_of S w;
  if negb (IS_ENTRY_CLIENT e) then Some S
  else if negb (al_pool E) then Some S
  else
    let S := upd_wpa w (λ d, set_R_Counter (inc_byte_array (R_Counter d)) d) S in
    e ← entry_of S w;
    _ ← ConstructEapolMsg E e Ndis802_11WEPDisabled EAPOL_GROUP_MSG_1 0 None (Some TxTsc) None [] 0 zero_eapol;
    Some S.

Definition PeerPairMsg4Action (E : wpa_env) (S : wpa_sta) (w : nat) (Elem : MLME_QUEUE_ELEM) : option wpa_sta :=
  e ← entry_of S w;
  if negb (IS_ENTRY_CLIENT e) then Some S
  else if el_MsgLen Elem <? min_frame then Some S
  else if WpaState (wpa e) <? AS_PTKINIT_NEGOTIATING then Some S
  else
    '(ok, S) ← PeerWpaMessageSanity E S (eapol_in Elem) EAPOL_PAIR_MSG_4 e;
    if negb ok then Some S
    else
      S ← install_pairwise S w true;
      let S := upd_wpa w (set_WpaState AS_PTKINITDONE) (upd_entry w open_port S) in
      if bWPA2 e
      then Some (post [Ev_WirelessEvent IW_SET_KEY_DONE_WPA2_EVENT_FLAG (Addr e)] (upd_entry w (set_GTKState REKEY_ESTABLISHED) S))
      else WPAStart2WayGroupHS E S w (zeros 6).

Definition PeerGroupMsg2Action (E : wpa_env) (S : wpa_sta) (w : nat) (Elem : MLME_QUEUE_ELEM) : option wpa_sta :=
  e ← entry_of S w;
  if negb (IS_ENTRY_CLIENT e) then Some S
  else if wrap 32 (el_MsgLen Elem - LENGTH_802_11) <? LENGTH_802_1_H + LENGTH_EAPOL_H + MIN_LEN_OF_EAPOL_KEY_MSG then Some S
  else if negb (WpaState (wpa e) =? AS_PTKINITDONE) then Some S
  else
    '(ok, S) ← PeerWpaMessageSanity E S (eapol_in Elem) EAPOL_GROUP_MSG_2 e;
    if negb ok then Some S
    else
      Some (post [Ev_WirelessEvent (if bWPA2 e then IW_SET_KEY_DONE_WPA2_EVENT_FLAG else IW_SET_KEY_DONE_WPA1_EVENT_FLAG) (Addr e)]
             (upd_entry w (set_GTKState REKEY_ESTABLISHED) S)).

(** * The dispatch *)

(** The action for a frame that passed the checks of WpaEAPOLKeyAction, by
    the bits of its key information. *)
Definition key_action (E : wpa_env) (S : wpa_sta) (w : nat) (Elem : MLME_QUEUE_ELEM) : option wpa_sta :=
  let p := eapol_in Elem in
  let k := kd_KeyInfo p in
  let plain := (ki_Request k =? 0) && (ki_Error k =? 0) in
  if ki_KeyAck k =? 1 then
    if (ki_Secure k =? 0) && plain && (ki_KeyType k =? PAIRWISEKEY) then
      if ki_KeyMic k =? 0 then PeerPairMsg1Action E S w Elem else PeerPairMsg3Action E S w Elem
    else if (ki_Secure k =? 1) && (ki_KeyMic k =? 1) && plain then
      if ki_KeyType k =? PAIRWISEKEY then PeerPairMsg3Action E S w Elem else PeerGroupMsg1Action E S w Elem
    else Some S
  else if plain && (ki_KeyMic k =? 1) then
    if (ki_Secure k =? 0) && (ki_KeyType k =? PAIRWISEKEY) then
      if CONV_ARRARY_TO_UINT16 (kd_KeyDataLen p) =? 0 then PeerPairMsg4Action E S w Elem
      else PeerPairMsg2Action S w Elem
    else if (ki_Secure k =? 1) && (ki_KeyType k =? PAIRWISEKEY) then PeerPairMsg4Action E S w Elem
    else if (ki_Secure k =? 1) && (ki_KeyType k =? GROUPKEY) then PeerGroupMsg2Action E S w Elem
    else Some S
  else Some S.

(** The checks before the dispatch. *)
Definition version_ok (e : MAC_TABLE_ENTRY) (p : EAPOL_PACKET) : bool :=
  let ver := ki_KeyDescVer (kd_KeyInfo p) in
  ((ProVer p =? EAPOL_VER) || (ProVer p =? EAPOL_VER2)) &&
  ((kd_Type p =? WPA1_KEY_DESC) || (kd_Type p =? WPA2_KEY_DESC)) &&
  (if (WepStatus e =? Ndis802_11TKIPEnable) && negb (ver =? KEY_DESC_TKIP) then false
   else negb ((WepStatus e =? Ndis802_11AESEnable) && negb (ver =? KEY_DESC_AES) && negb (ver =? KEY_DESC_EXT))).

Definition WpaEAPOLKeyAction (E : wpa_env) (S : wpa_sta) (Elem : MLME_QUEUE_ELEM) : option wpa_sta :=
  let p := eapol_in Elem in
  let eapol_len := CONV_ARRARY_TO_UINT16 (Body_Len p) + LENGTH_EAPOL_H in
  found ← MacTableLookup (MacTab S) (slice (el_Msg Elem) 10 6);
  match found with
  | None => Some S
  | Some w =>
      e ← entry_of S w;
      if negb (is_peer e) then Some S
      else if AuthMode e <? Ndis802_11AuthModeWPA then Some S
      else if wrap 64 (el_MsgLen Elem - LENGTH_802_11 - LENGTH_802_1_H) <? eapol_len then Some S
      else if negb (version_ok e p) then Some S
      else if (Sst e =? SST_ASSOC) && (AS_INITPSK <=? WpaState (wpa e)) then key_action E S w Elem
      else Some S
  end.
