(* ===== verification/HandshakeProofs.v ===== *)
(** Lemmas on the handshake: the key data of a frame that was built and
    received, the walk over its elements, and what the actions leave alone. *)

From Stdlib Require Import ZifyNat.
From stdpp Require Import gmap list.
From S2P Require Import Prelude CipherKey BlockHash Md5 Sha Hmac Arc4 Michael Tkip Aes BlockCipher AesCcm.
From S2P Require Import AesCmac AesKeyWrap WpaKeys Mlme BaReorder BaSession MacTable MacTableProofs Eapol.
From S2P Require Import EapolProofs Handshake.

(** * Key data: encrypted and decrypted *)

(** What the receiver finds in its buffer. *)
Definition padded_data (ver : Z) (data : list Z) : list Z :=
  data ++ if ver =? KEY_DESC_AES then wrap_padding (length data) else [].

Lemma length_wrap_padding n : (length (wrap_padding n) ≤ 7)%nat.
Proof.
  unfold wrap_padding. destruct (Nat.eqb_spec (n mod 8) 0) as [E|E]; [simpl; lia|].
  cbn [length]. rewrite length_zeros. pose proof (Nat.mod_upper_bound n 8 ltac:(lia)). lia.
Qed.

Lemma bytes_wrap_padding n : bytes (wrap_padding n).
Proof.
  unfold wrap_padding. destruct (_ =? _)%nat; [constructor|]. constructor; [done|]. apply bytes_zeros.
Qed.

Lemma kek_ok ptk : length ptk = 64%nat → bytes ptk → key_ok (slice ptk LEN_PTK_KCK LEN_PTK_KEK) 16.
Proof.
  intros Hl Hb. split; [done|]. split; [|by apply bytes_slice].
  unfold slice, LEN_PTK_KCK, LEN_PTK_KEK. rewrite length_take, length_drop. lia.
Qed.

(** The TKIP stream over a separate output buffer. *)
Lemma tkip_wrap_spec kek iv out data : (length data ≤ length out)%nat →
  ∃ ks, length ks = length data ∧
    TKIP_GTK_KEY_WRAP true kek iv (out ++ data) (length out) (length data) 0 =
      bwrite (out ++ data) 0 (xor_list data ks) ∧
    ∀ out', (length data ≤ length out')%nat →
      TKIP_GTK_KEY_UNWRAP true kek iv (out' ++ xor_list data ks) (length out') (length data) 0 =
      bwrite (out' ++ xor_list data ks) 0 data.
Proof.
  intros Ho. unfold TKIP_GTK_KEY_UNWRAP, TKIP_GTK_KEY_WRAP. cbn [negb]. cbv iota zeta.
  set (ctx := ARC4_Discard_KeyLength _ 256). exists (keystream ctx (length data)).
  split; [apply length_keystream|].
  assert (Hx : length (xor_list data (keystream ctx (length data))) = length data)
    by (rewrite length_xor_list; rewrite ?length_keystream; done).
  split; [|intros out' Ho']; rewrite ARC4_Compute_spec by (rewrite ?length_app; lia); cbn [snd]; f_equal;
    rewrite drop_app_length, take_ge by lia; [done|].
  by rewrite xor_list_cancel by (rewrite length_keystream; lia).
Qed.

Lemma bwrite_prefix (a b src : list Z) : (length src ≤ length a)%nat → bwrite (a ++ b) 0 src = bwrite a 0 src ++ b.
Proof. intros. unfold bwrite. simpl. rewrite drop_app_le by lia. by rewrite app_assoc. Qed.

Lemma encrypt_clear E ver ptk iv data :
  reliable E → length ptk = 64%nat → bytes ptk → bytes data → (0 < length data ≤ 240)%nat →
  ver = KEY_DESC_AES ∨ ver = KEY_DESC_TKIP →
  ∃ c, encrypt_key_data E ver ptk iv data = Some c ∧ (0 < length c ≤ 255)%nat ∧
    ∀ p rest, kd_KeyData p = c ++ rest → kd_KeyDataLen p = SET_UINT16_TO_ARRARY (Z.of_nat (length c)) →
      kd_KeyIv p = iv → ki_KeyDescVer (kd_KeyInfo p) = ver →
      clear_key_data E p ptk =
        Some (bwrite (zeros MAX_LEN_OF_RSNIE) 0 (padded_data ver data), Z.of_nat (length (padded_data ver data))).
Proof.
  intros HE Hl Hb Hd Hn Hv. pose proof (length_wrap_padding (length data)) as Hp.
  unfold encrypt_key_data, clear_key_data, padded_data. rewrite (re_wrap _ HE), (re_arc4 _ HE).
  destruct Hv as [-> | ->].
  - change (KEY_DESC_AES =? KEY_DESC_AES) with true. cbv iota. set (d := data ++ wrap_padding (length data)).
    assert (Hld : (length d = length data + length (wrap_padding (length data)))%nat) by apply length_app.
    destruct (wrap_unwrap (al_aes E) (slice ptk LEN_PTK_KCK LEN_PTK_KEK) 16 0 0 (junk_block E) (junk_block E) d
      (junk_egtk E) (zeros MAX_LEN_OF_RSNIE)) as (c & -> & EU & Hc & _);
      [apply HE|by apply kek_ok|apply bytes_app; split; [done|apply bytes_wrap_padding]|lia|apply HE|apply HE|
       rewrite (re_egtk _ HE); lia|].
    exists c. rewrite Nat2Z.id, take_bwrite_0, take_ge by lia. split; [done|]. split; [lia|].
    intros p rest Hk Hkl _ ->. rewrite Hk, Hkl, conv_set, Nat2Z.id by lia.
    rewrite (proj2 (Nat.ltb_ge _ _)) by (rewrite length_app; lia).
    change (KEY_DESC_AES =? KEY_DESC_EXT) with false. change (KEY_DESC_AES =? KEY_DESC_AES) with true. cbn [orb andb].
    unfold MAX_LEN_OF_RSNIE in *. rewrite !(proj2 (Nat.ltb_ge _ _)) by lia.
    rewrite take_app_length, EU. done.
  - change (KEY_DESC_TKIP =? KEY_DESC_AES) with false. cbv iota. rewrite app_nil_r.
    destruct (tkip_wrap_spec (slice ptk LEN_PTK_KCK LEN_PTK_KEK) iv (junk_egtk E) data) as (ks & Hks & -> & HU);
      [rewrite (re_egtk _ HE); lia|].
    assert (Hx : length (xor_list data ks) = length data) by (by apply length_xor_list).
    eexists. split; [done|]. rewrite take_bwrite_0, take_ge by lia. split; [lia|].
    intros p rest Hk Hkl Hiv ->. rewrite Hk, Hkl, conv_set, Nat2Z.id, Hx by lia.
    rewrite (proj2 (Nat.ltb_ge _ _)) by (rewrite length_app; lia).
    change (KEY_DESC_TKIP =? KEY_DESC_EXT) with false. change (KEY_DESC_TKIP =? KEY_DESC_AES) with false. cbn [orb andb].
    unfold MAX_LEN_OF_RSNIE in *. rewrite (proj2 (Nat.ltb_ge _ _)) by lia.
    rewrite <- Hx at 1. rewrite take_app_length, Hiv.
    specialize (HU (zeros 255)). rewrite length_zeros in HU. rewrite HU by lia. do 2 f_equal.
    rewrite bwrite_prefix by (rewrite length_zeros; lia). apply take_app_length'. rewrite length_bwrite; rewrite length_zeros; lia.
Qed.

(** * The walk over the elements *)

Lemma lookup_at (pre rest : list Z) s k : s = Z.of_nat (length pre) → 0 ≤ k →
  (pre ++ rest) !! Z.to_nat (s + k) = rest !! Z.to_nat k.
Proof. intros -> Hk. rewrite lookup_app_r by lia. f_equal. lia. Qed.

Lemma lookup_here (pre rest : list Z) : (pre ++ rest) !! Z.to_nat (Z.of_nat (length pre)) = rest !! 0%nat.
Proof. rewrite Nat2Z.id, lookup_app_r by lia. f_equal. lia. Qed.

(** An element that is not a key data element is skipped. *)
Lemma kde_skip f pre eid body rest len idx gl g :
  eid ≠ WPA_KDE_TYPE → Z.of_nat (length pre) + 2 + Z.of_nat (length body) ≤ len ≤ 255 →
  kde_loop (S f) (pre ++ eid :: Z.of_nat (length body) :: body ++ rest) len (Z.of_nat (length pre)) idx gl g =
  kde_loop f (pre ++ eid :: Z.of_nat (length body) :: body ++ rest) len
    (Z.of_nat (length pre) + 2 + Z.of_nat (length body)) idx gl g.
Proof.
  intros He Hl. cbn [kde_loop]. rewrite (lookup_at pre _ _ 1) by (done || lia).
  change (Z.to_nat 1) with 1%nat. cbn [lookup list_lookup mbind option_bind].
  rewrite lookup_here. cbn [lookup list_lookup mbind option_bind].
  rewrite (proj2 (Z.leb_le _ _)) by lia. cbn [negb]. rewrite (proj2 (Z.eqb_neq _ _)) by done. cbn [negb].
  by rewrite wrap_id by (unfold in_range; lia).
Qed.

(** The group key element. *)
Lemma kde_gtk f pre kid r gtk rest len idx gl g :
  0 ≤ kid < 4 → (11 ≤ length gtk ≤ length g)%nat → (length g ≤ 32)%nat →
  Z.of_nat (length pre) + 8 + Z.of_nat (length gtk) ≤ len ≤ 255 →
  let K := pre ++ (WPA_ConstructKdeHdr KDE_GTK (2 + Z.of_nat (length gtk)) ++ [kid; r]) ++ gtk ++ rest in
  kde_loop (S f) K len (Z.of_nat (length pre)) idx gl g =
  kde_loop f K len (Z.of_nat (length pre) + 8 + Z.of_nat (length gtk)) kid (Z.of_nat (length gtk)) (bwrite g 0 gtk).
Proof.
  intros Hk Hg Hg' Hl K. cbn [kde_loop].
  assert (HL : u8 (4 + (2 + Z.of_nat (length gtk))) = 6 + Z.of_nat (length gtk)) by (rewrite wrap_id; [lia|done|unfold in_range; lia]).
  assert (HK : K = pre ++ WPA_KDE_TYPE :: (6 + Z.of_nat (length gtk)) :: 0x00 :: 0x0F :: 0xAC :: KDE_GTK :: kid :: r :: gtk ++ rest).
  { unfold K, WPA_ConstructKdeHdr. by rewrite HL. }
  rewrite HK. set (body := WPA_KDE_TYPE :: _). assert (Hb : ∀ k, 0 ≤ k →
    (pre ++ body) !! Z.to_nat (Z.of_nat (length pre) + k) = body !! Z.to_nat k) by (intros; by apply lookup_at).
  rewrite (Hb 1), (Hb 5), (Hb 6) by lia.
  rewrite lookup_here, Nat2Z.id.
  assert (body !! 0%nat = Some WPA_KDE_TYPE ∧ body !! Z.to_nat 1 = Some (6 + Z.of_nat (length gtk)) ∧
    body !! Z.to_nat 5 = Some KDE_GTK ∧ body !! Z.to_nat 6 = Some kid) as (-> & -> & -> & ->) by done.
  cbn [mbind option_bind].
  rewrite (proj2 (Z.leb_le _ _)) by lia.
  assert (HI : in_buf (pre ++ body) (length pre + 2) 3 = true)
    by (unfold in_buf; apply Nat.leb_le; rewrite length_app; simpl; lia).
  assert (HS : slice (pre ++ body) (length pre + 2) 3 = OUI_WPA2).
  { rewrite slice_skip by lia. by replace (length pre + 2 - length pre)%nat with 2%nat by lia. }
  rewrite HI, HS, bool_decide_true, !Z.eqb_refl by done. cbn [negb].
  replace (6 + Z.of_nat (length gtk) - 6) with (Z.of_nat (length gtk)) by lia.
  rewrite (wrap_id 8 (Z.of_nat _)), (wrap_id 2 kid) by (lia || (unfold in_range; lia)).
  rewrite (proj2 (Z.ltb_ge _ _)) by (unfold LEN_WEP64; lia). rewrite Nat2Z.id.
  assert (drop (length pre + 8) (pre ++ body) = gtk ++ rest) as ->.
  { rewrite drop_app_ge by lia. by replace (length pre + 8 - length pre)%nat with 8%nat by lia. }
  rewrite move_all by (rewrite ?length_app; lia). rewrite take_app_length. cbn [mbind option_bind].
  rewrite wrap_id by (lia || (unfold in_range; lia)). f_equal. lia.
Qed.

(** Zeros to the end of the data are empty elements. *)
Lemma kde_zeros m : ∀ f pre len idx gl g,
  len ≤ 255 → (2 ≤ m)%nat → Z.of_nat (length pre) ≤ len ≤ Z.of_nat (length pre) + Z.of_nat m - 2 →
  len - Z.of_nat (length pre) < 2 * Z.of_nat f →
  kde_loop f (pre ++ zeros m) len (Z.of_nat (length pre)) idx gl g = Some (true, idx, gl, g).
Proof.
  induction m as [m IH] using lt_wf_ind. intros [|f] pre len idx gl g H255 Hm Hlen Hf; [lia|].
  destruct m as [|[|m]]; [lia..|]. cbn [kde_loop].
  rewrite (lookup_at pre _ _ 1) by (done || lia). change (zeros (S (S m))) with (0 :: 0 :: zeros m).
  change (Z.to_nat 1) with 1%nat. cbn [lookup list_lookup mbind option_bind].
  destruct (Z.leb_spec (Z.of_nat (length pre) + 2 + 0) len) as [Hle|Hgt]; [|done]. cbn [negb].
  rewrite lookup_here. cbn [lookup list_lookup mbind option_bind].
  change (0 =? WPA_KDE_TYPE) with false. cbn [negb]. rewrite wrap_id by (unfold in_range; lia).
  specialize (IH m ltac:(lia) f (pre ++ [0; 0]) len idx gl g). rewrite length_app in IH. simpl length in IH.
  rewrite <- app_assoc in IH. cbn [app] in IH.
  replace (Z.of_nat (length pre) + 2 + 0) with (Z.of_nat (length pre + 2)) by lia. apply IH; lia.
Qed.

(** The padding: nothing, or 0xdd and zeros. *)
Lemma kde_padding n m f pre len idx gl g :
  let pad := wrap_padding n in
  (4 ≤ m)%nat → len = Z.of_nat (length pre) + Z.of_nat (length pad) → len ≤ 255 →
  (5 ≤ f)%nat →
  kde_loop f (pre ++ pad ++ zeros m) len (Z.of_nat (length pre)) idx gl g = Some (true, idx, gl, g).
Proof.
  intros pad Hm Hlen H255 Hf. pose proof (length_wrap_padding n) as Hp. fold pad in Hp. unfold pad, wrap_padding in *.
  destruct (Nat.eqb (n mod 8) 0); [apply kde_zeros; simpl in *; lia|].
  set (j := (8 - n mod 8 - 1)%nat) in *. destruct f as [|f]; [lia|]. cbn [length] in *. rewrite length_zeros in *.
  replace (0xDD :: zeros j) with ([0xDD] ++ zeros j) by done. rewrite <- app_assoc.
  assert (zeros j ++ zeros m = zeros (j + m)) as -> by (unfold zeros; by rewrite replicate_add).
  cbn [kde_loop]. rewrite (lookup_at pre _ _ 1) by (done || lia). cbn [app].
  destruct (j + m)%nat as [|[|[|[|k]]]] eqn:Ek; try lia. change (zeros (S (S (S (S k))))) with (0 :: 0 :: 0 :: 0 :: zeros k).
  change (Z.to_nat 1) with 1%nat. cbn [lookup list_lookup mbind option_bind].
  destruct (Z.leb_spec (Z.of_nat (length pre) + 2 + 0) len) as [Hle|Hgt]; [|done]. cbn [negb].
  rewrite lookup_here, Nat2Z.id. cbn [lookup list_lookup mbind option_bind].
  change (0xDD =? WPA_KDE_TYPE) with true. cbn [negb].
  assert (in_buf (pre ++ 221 :: 0 :: 0 :: 0 :: 0 :: zeros k) (length pre + 2) 3 = true) as ->
    by (unfold in_buf; apply Nat.leb_le; rewrite length_app; simpl; lia).
  rewrite slice_skip by lia. replace (length pre + 2 - length pre)%nat with 2%nat by lia. cbn [negb].
  rewrite bool_decide_false by done. cbn [negb]. rewrite wrap_id by (unfold in_range; lia).
  pose proof (kde_zeros (S (S (S k))) f (pre ++ [0xDD; 0]) len idx gl g) as HZ. rewrite length_app in HZ.
  simpl length in HZ. rewrite <- app_assoc in HZ. cbn [app] in HZ.
  replace (Z.of_nat (length pre) + 2 + 0) with (Z.of_nat (length pre + 2)) by lia. apply HZ; lia.
Qed.

(** The element of the security parameters, in WPA2 mode. *)
Definition rsn_element (n : nat) (rsn : list Z) : list Z :=
  if Nat.eqb n 0 then [] else [IE_RSN; Z.of_nat n] ++ take n rsn.

(** Security parameters as RTMPMakeRSNIE builds them: the suite of the group
    cipher follows the version. *)
Definition rsn_ok (n : nat) (rsn : list Z) : Prop :=
  (n ≠ 0%nat → (n ≤ length rsn)%nat ∧ (5 ≤ length rsn)%nat ∧ slice rsn 2 3 = OUI_WPA2) ∧ (n ≤ 180)%nat ∧ bytes rsn.

Lemma insert_rsnie n rsn : rsn_ok n rsn →
  (if negb (Nat.eqb n 0) then RTMPInsertRSNIE rsn [] n else Some []) = Some (rsn_element n rsn).
Proof.
  intros (H & Hn & _). unfold rsn_element, RTMPInsertRSNIE. destruct (Nat.eqb_spec n 0) as [->|E]; [done|]. cbn [negb].
  destruct (H E) as (H1 & H2 & H3). rewrite (proj2 (Nat.ltb_ge _ _)) by lia. rewrite H3, bool_decide_true by done.
  change (0 <? Z.of_nat (length [])) with false. cbn [andb]. rewrite Z.add_0_r, wrap_id by (unfold in_range; lia).
  by rewrite app_nil_r.
Qed.

Lemma length_rsn_element n rsn : rsn_ok n rsn → (length (rsn_element n rsn) ≤ n + 2)%nat.
Proof. intros _. unfold rsn_element. destruct (_ =? _)%nat; simpl; [lia|]. rewrite length_take. lia. Qed.

Lemma bytes_rsn_element n rsn : rsn_ok n rsn → bytes (rsn_element n rsn).
Proof.
  intros (_ & Hn & Hb). unfold rsn_element. destruct (_ =? _)%nat; [constructor|]. simpl. constructor; [done|].
  constructor; [unfold in_range; lia|]. by apply bytes_take.
Qed.

(** The key data of message 3 and of a group message in WPA2 mode. *)
Definition gtk_element (idx : Z) (gtk : list Z) : list Z :=
  (WPA_ConstructKdeHdr KDE_GTK (2 + Z.of_nat (length gtk)) ++ [idx; 0]) ++ gtk.

Lemma length_gtk_element idx gtk : length (gtk_element idx gtk) = (8 + length gtk)%nat.
Proof. unfold gtk_element. rewrite length_app. done. Qed.

Lemma kde_walk n rsn idx gtk ver m :
  rsn_ok n rsn → 0 ≤ idx < 4 → (16 ≤ length gtk ≤ 32)%nat → (4 ≤ m)%nat →
  let d := padded_data ver (rsn_element n rsn ++ gtk_element idx gtk) in
  kde_loop kde_fuel (d ++ zeros m) (Z.of_nat (length d)) 0 0 0 (zeros 32) =
  Some (true, idx, Z.of_nat (length gtk), bwrite (zeros 32) 0 gtk).
Proof.
  intros Hr Hi Hg Hm d. pose proof (length_rsn_element n rsn Hr) as Hlr. destruct Hr as (Hr & Hn & _).
  set (pad := if ver =? KEY_DESC_AES then wrap_padding (length (rsn_element n rsn ++ gtk_element idx gtk)) else []).
  assert (Hd : d = rsn_element n rsn ++ gtk_element idx gtk ++ pad) by (unfold d, padded_data; fold pad; by rewrite app_assoc).
  assert (Hp : (length pad ≤ 7)%nat) by (unfold pad; destruct (ver =? _); [apply length_wrap_padding|simpl; lia]).
  assert (Hld : (length d = length (rsn_element n rsn) + (8 + length gtk) + length pad)%nat)
    by (rewrite Hd, !length_app, length_gtk_element; lia).
  assert (HG : ∀ f pre, (6 ≤ f)%nat → length pre = length (rsn_element n rsn) →
    kde_loop f (pre ++ gtk_element idx gtk ++ pad ++ zeros m) (Z.of_nat (length d)) (Z.of_nat (length pre)) 0 0 (zeros 32) =
    Some (true, idx, Z.of_nat (length gtk), bwrite (zeros 32) 0 gtk)).
  { intros [|f] pre Hf Hpre; [lia|]. unfold gtk_element. rewrite <- app_assoc.
    rewrite kde_gtk by (rewrite ?length_zeros; lia).
    set (e := WPA_ConstructKdeHdr _ _ ++ _). set (P := pre ++ e ++ gtk).
    assert (HP : Z.of_nat (length pre) + 8 + Z.of_nat (length gtk) = Z.of_nat (length P))
      by (unfold P; rewrite !length_app; change (length e) with 8%nat; lia).
    rewrite HP. replace (pre ++ e ++ gtk ++ pad ++ zeros m) with (P ++ pad ++ zeros m) by (unfold P; by rewrite <- !app_assoc).
    destruct (ver =? KEY_DESC_AES); [apply kde_padding; unfold pad in *; lia|].
    apply kde_zeros; unfold pad in *; simpl in *; lia. }
  assert (∃ f, kde_fuel = S f ∧ (6 ≤ f)%nat) as (f & -> & Hf) by (exists 129%nat; split; [done|lia]).
  rewrite Hd, <- !app_assoc. rewrite <- Hd. unfold rsn_element in *. destruct (Nat.eqb_spec n 0) as [->|E].
  - apply (HG (S f) []); [lia|done].
  - destruct (Hr E) as (H1 & _ & _). specialize (HG f ([IE_RSN; Z.of_nat n] ++ take n rsn)).
    rewrite <- HG; [|lia|done]. rewrite <- !app_assoc. cbn [app].
    assert (Ht : length (take n rsn) = n) by (rewrite length_take; lia).
    assert (HN : Z.of_nat n = Z.of_nat (length (take n rsn))) by lia. rewrite HN at 1 3.
    pose proof (kde_skip f [] IE_RSN (take n rsn) (gtk_element idx gtk ++ pad ++ zeros m) (Z.of_nat (length d)) 0 0 (zeros 32)) as HS.
    cbn [app length] in HS. etrans; [apply HS; [done|rewrite Hld; simpl; lia]|]. rewrite <- HN. f_equal. simpl. lia.
Qed.

Lemma bwrite_0_app n (l : list Z) : (length l ≤ n)%nat → bwrite (zeros n) 0 l = l ++ zeros (n - length l).
Proof. intros. unfold bwrite, zeros. rewrite take_0, drop_replicate. simpl. f_equal. Qed.

Lemma gtk_data_wpa2 g idx gtk :
  0 ≤ idx < 4 → length gtk = (if (g =? Ndis802_11AESEnable)%Z then 16 else 32)%nat →
  gtk_data true g idx (Some gtk) = Some (gtk_element idx gtk).
Proof.
  intros Hi Hl. unfold gtk_data, gtk_element. cbn [mbind option_bind].
  assert (Z.land idx 0x03 = idx) as -> by (change 0x03 with (Z.ones 2); rewrite Z.land_ones, Z.mod_small; lia).
  destruct (g =? Ndis802_11AESEnable); rewrite (proj2 (Nat.ltb_ge _ _)), take_ge by (change LEN_AES_GTK with 16; change LEN_TKIP_GTK with 32; lia);
    by rewrite Hl.
Qed.

(** * Nonces and pairwise keys *)

Lemma bytes_hmac1 key m : bytes (hmac1 key m).
Proof. unfold hmac_spec. apply sha1_digest_shape. Qed.

Lemma bytes_prf_stream key prefix data n : bytes (prf_stream key prefix data n).
Proof.
  unfold prf_stream. generalize (seqZ 0 (Z.of_nat n)). intros l.
  induction l as [|i l IH]; simpl; [constructor|]. apply bytes_app. split; [apply bytes_hmac1|done].
Qed.

Lemma gen_random_turns E mac l : ∀ result,
  reliable E → length result = 80%nat → bytes result →
  ∃ r, foldl (random_turn E mac) (Some result) l = Some r ∧ length r = 80%nat ∧ bytes r.
Proof.
  induction l as [|i l IH]; intros result HE Hr Hb; cbn [foldl]; [by exists result|].
  unfold random_turn at 2. cbn [mbind option_bind]. rewrite (re_prf _ HE).
  assert (HB : PRF_BUFFER = 1024%nat) by done.
  rewrite PRF_spec; [|rewrite length_zeros; lia| |lia|change ((32 + 19) / 20)%nat with 2%nat; lia].
  - apply IH; [done| |].
    + rewrite length_bwrite; [done|]. rewrite length_prf_stream. change ((32 + 19) / 20)%nat with 2%nat. lia.
    + apply bytes_bwrite; [done|apply bytes_prf_stream].
  - rewrite !length_app, !length_le_bytes, !length_take, HB. change (length counter_prefix) with 12%nat. lia.
Qed.

Lemma gen_random_ok E mac : reliable E → ∃ r, GenRandom E mac = Some r ∧ length r = 32%nat ∧ bytes r.
Proof.
  intros HE. unfold GenRandom. destruct (gen_random_turns E mac (seq 0 32) (zeros 80)) as (r & -> & Hl & Hb);
    [done|done|apply bytes_zeros|]. cbn [mbind option_bind]. eexists. split; [done|].
  split; [rewrite length_take; lia|by apply bytes_take].
Qed.

Lemma length_ptk_concatenation an aa sn sa :
  length aa = 6%nat → length sa = 6%nat → length an = 32%nat → length sn = 32%nat →
  length (ptk_concatenation an aa sn sa) = 76%nat.
Proof.
  intros. unfold ptk_concatenation. rewrite !length_app.
  assert (∀ b : bool, length (if b then take 6 aa else take 6 sa) = 6%nat) as -> by (intros []; rewrite length_take; lia).
  assert (∀ b : bool, length (if b then take 6 sa else take 6 aa) = 6%nat) as -> by (intros []; rewrite length_take; lia).
  repeat case_match; rewrite ?length_bwrite by (rewrite length_zeros, length_take; lia);
    rewrite ?length_zeros, ?length_take; lia.
Qed.

Lemma derive_ok pmk an aa sn sa out :
  length pmk = 32%nat → length aa = 6%nat → length sa = 6%nat → length an = 32%nat → length sn = 32%nat →
  length out = 80%nat →
  ∃ ptk, WpaDerivePTK true pmk an aa sn sa out LEN_PTK = Some ptk ∧ length (take LEN_PTK ptk) = 64%nat ∧ bytes (take LEN_PTK ptk) ∧
    ∀ out', length out' = 80%nat → ∃ ptk', WpaDerivePTK true pmk an aa sn sa out' LEN_PTK = Some ptk' ∧ take LEN_PTK ptk' = take LEN_PTK ptk.
Proof.
  intros Hp Ha Hs Hn Hm Ho. unfold WpaDerivePTK.
  pose proof (length_ptk_concatenation an aa sn sa Ha Hs Hn Hm) as Hc. assert (HB : PRF_BUFFER = 1024%nat) by done.
  assert (Hsp : ∀ o, length o = 80%nat →
    PRF true (take LEN_PMK pmk) ptk_prefix (ptk_concatenation an aa sn sa) o LEN_PTK =
    Some (bwrite o 0 (prf_stream (take LEN_PMK pmk) ptk_prefix (ptk_concatenation an aa sn sa) 4))).
  { intros o Hlo. rewrite PRF_spec; [done|rewrite length_take; lia|rewrite Hc, HB; simpl; lia|unfold LEN_PTK; lia|].
    change ((LEN_PTK + 19) / 20)%nat with 4%nat. lia. }
  assert (Ht : ∀ o, take LEN_PTK (bwrite o 0 (prf_stream (take LEN_PMK pmk) ptk_prefix (ptk_concatenation an aa sn sa) 4)) =
    take LEN_PTK (prf_stream (take LEN_PMK pmk) ptk_prefix (ptk_concatenation an aa sn sa) 4)).
  { intros o. apply take_bwrite_0. rewrite length_prf_stream. unfold LEN_PTK. lia. }
  eexists. split; [by apply Hsp|]. rewrite Ht. split; [|split].
  - rewrite length_take, length_prf_stream. unfold LEN_PTK. lia.
  - apply bytes_take, bytes_prf_stream.
  - intros o' Ho'. eexists. split; [by apply Hsp|]. apply Ht.
Qed.
