(* ===== verification/HandshakeRun.v ===== *)
(** The station's side of the handshake, one message at a time: a frame built
    by the authenticator's code is dispatched, accepted and answered. *)

From Stdlib Require Import ZifyNat.
From stdpp Require Import gmap list.
From S2P Require Import Prelude CipherKey BlockHash Md5 Sha Hmac Arc4 Michael Tkip Aes BlockCipher AesCcm.
From S2P Require Import AesCmac AesKeyWrap WpaKeys Mlme BaReorder BaSession MacTable MacTableProofs Eapol.
From S2P Require Import EapolProofs Handshake HandshakeProofs.

(** * Frames in queue elements *)

(** A data frame from [a] with an EAPOL packet behind the 802.11 and LLC
    headers; the buffer of the element may go on behind it. *)
Definition carries (Elem : MLME_QUEUE_ELEM) (a frame : list Z) : Prop :=
  ∃ hdr rest, length hdr = 32%nat ∧ slice hdr 10 6 = a ∧ el_Msg Elem = hdr ++ frame ++ rest ∧
    el_MsgLen Elem = 32 + Z.of_nat (length frame).

(** The station waits for or has finished a WPA2 handshake with the access
    point at entry [w]. *)
Record ready (M : gmap (list Z) nat) (S : wpa_sta) (w : nat) (e : MAC_TABLE_ENTRY) : Prop := {
  rd_table : table_ok (MacTab S);
  rd_map : map_of (MacTab S) M;
  rd_here : M !! Addr e = Some w;
  rd_entry : entry_of S w = Some e;
  rd_client : EntryType e = ENTRY_CLIENT;
  rd_mode : bWPA2 e = true;
  rd_sst : Sst e = SST_ASSOC;
  rd_state : AS_INITPSK ≤ WpaState (wpa e);
  rd_cipher : WepStatus e = Ndis802_11AESEnable ∨ WepStatus e = Ndis802_11TKIPEnable ∧ GroupCipher S = Ndis802_11TKIPEnable;
  rd_group : GroupCipher S = Ndis802_11AESEnable ∨ GroupCipher S = Ndis802_11TKIPEnable;
  rd_cnt : length (R_Counter (wpa e)) = 8%nat ∧ bytes (R_Counter (wpa e));
  rd_addr : length (Addr e) = 6%nat ∧ length (CurrentAddress S) = 6%nat;
  rd_pmk : length (sta_PMK S) = 32%nat;
  rd_rsn : rsn_ok (RSNIE_Len S) (RSN_IE S);
  rd_gtk : length (sta_GTK S) = 32%nat ∧ length (SharedKey S) = 4%nat
}.

(** The authenticator's entry for the station: the same modes. *)
Definition twin (e a : MAC_TABLE_ENTRY) : Prop := bWPA2 a = true ∧ WepStatus a = WepStatus e.

Lemma twin_ver e a g : twin e a → key_desc_ver a g = key_desc_ver e g.
Proof. intros [_ H]. unfold key_desc_ver. by rewrite H. Qed.

Lemma version_ok_sent M S w e a p t idx nn data rest :
  ready M S w e → twin e a → sent a (GroupCipher S) t idx nn data p →
  version_ok e (received p (length data) rest) = true.
Proof.
  intros HR [Ha HW] HS. unfold version_ok, received. cbn [with_data set_KeyData ProVer kd_Type kd_KeyInfo].
  rewrite (st_ver _ _ _ _ _ _ _ HS), (st_type _ _ _ _ _ _ _ HS), (st_info _ _ _ _ _ _ _ HS), Ha.
  change (EAPOL_VER =? EAPOL_VER) with true. change (WPA2_KEY_DESC =? WPA2_KEY_DESC) with true.
  unfold msg_info, key_desc_ver. cbn [ki_KeyDescVer]. rewrite HW, orb_true_r. cbn [orb andb].
  destruct (rd_cipher _ _ _ _ HR) as [-> | [-> ->]]; done.
Qed.

(** The frame passes the checks before the dispatch. *)
Lemma dispatched M E S w e a p t idx nn data Elem :
  ready M S w e → twin e a → sent a (GroupCipher S) t idx nn data p →
  carries Elem (Addr e) (frame_of p (length data)) →
  WpaEAPOLKeyAction E S Elem = key_action E S w Elem ∧
  (∃ rest, eapol_in Elem = received p (length data) rest) ∧ min_frame ≤ el_MsgLen Elem.
Proof.
  intros HR HT HS (hdr & rest & Hl & Ha & HM & HN).
  pose proof (st_built _ _ _ _ _ _ _ HS) as HB. pose proof (length_frame_of p _ HB) as Hf.
  pose proof (bt_max _ _ HB) as Hmax.
  assert (HI : eapol_in Elem = received p (length data) rest).
  { unfold eapol_in. rewrite HM. change (Z.to_nat (LENGTH_802_11 + LENGTH_802_1_H)) with 32%nat.
    rewrite <- Hl, drop_app_length. by apply eapol_of_frame. }
  split; [|split; [by exists rest|rewrite HN, Hf; unfold min_frame, LENGTH_802_11, LENGTH_802_1_H, LENGTH_EAPOL_H, MIN_LEN_OF_EAPOL_KEY_MSG; lia]].
  unfold WpaEAPOLKeyAction. rewrite HI.
  assert (HA2 : slice (el_Msg Elem) 10 6 = Addr e).
  { rewrite HM, <- Ha. unfold slice. rewrite drop_app_le by lia. apply take_app_le. rewrite length_drop. lia. }
  rewrite HA2, (lookup_spec _ M) by apply HR. rewrite (rd_here _ _ _ _ HR). cbn [mbind option_bind].
  rewrite (rd_entry _ _ _ _ HR). cbn [mbind option_bind].
  unfold is_peer, IS_ENTRY_CLIENT. rewrite (rd_client _ _ _ _ HR). change (ENTRY_CLIENT =? ENTRY_CLIENT) with true. cbn [orb negb].
  assert (HAM : (AuthMode e <? Ndis802_11AuthModeWPA) = false).
  { pose proof (rd_mode _ _ _ _ HR) as Hm. unfold bWPA2 in Hm. apply orb_true_iff in Hm.
    destruct Hm as [->%Z.eqb_eq| ->%Z.eqb_eq]; done. }
  rewrite HAM. cbn [received with_data set_KeyData Body_Len]. rewrite (bt_body _ _ HB), conv_set by lia.
  rewrite HN, Hf, wrap_id by (unfold LENGTH_802_11, LENGTH_802_1_H, in_range; lia).
  rewrite (proj2 (Z.ltb_ge _ _)) by (unfold LENGTH_802_11, LENGTH_802_1_H, LENGTH_EAPOL_H; lia).
  rewrite (version_ok_sent M S w e a p t idx nn data rest) by done. cbn [negb].
  rewrite (rd_sst _ _ _ _ HR), (proj2 (Z.leb_le _ _) (rd_state _ _ _ _ HR)). done.
Qed.

(** * Replay counters *)

Lemma replay_fresh t r stored :
  (t = EAPOL_PAIR_MSG_1 ∨ t = EAPOL_PAIR_MSG_3 ∨ t = EAPOL_GROUP_MSG_1) →
  length r = 8%nat → length stored = 8%nat → bytes r → bytes stored → be_word stored < be_word r →
  replay_differs t r stored = false.
Proof.
  intros Ht Hr Hs Br Bs Hlt. unfold replay_differs.
  assert ((t =? EAPOL_PAIR_MSG_1) || (t =? EAPOL_PAIR_MSG_3) || (t =? EAPOL_GROUP_MSG_1) = true) as ->
    by (destruct Ht as [->|[->| ->]]; done).
  unfold RTMPCompareMemory, LEN_KEY_DESC_REPLAY. rewrite !(take_ge r), !(take_ge stored), compare_loop_spec by (lia || done).
  by rewrite (proj2 (Z.compare_gt_iff _ _) Hlt).
Qed.

(** * The station's state *)

Lemma entry_upd S w f e : entry_of S w = Some e → entry_of (upd_entry w f S) w = Some (f e).
Proof. intros H. unfold entry_of, upd_entry in *. simpl. by rewrite list_lookup_alter_eq, H. Qed.

Lemma entry_post S l w : entry_of (post l S) w = entry_of S w.
Proof. done. Qed.

Lemma upd_table M S w f :
  (∀ e, pNext (f e) = pNext e ∧ key (f e) = key e) → table_ok (MacTab S) → map_of (MacTab S) M →
  table_ok (MacTab (upd_entry w f S)) ∧ map_of (MacTab (upd_entry w f S)) M.
Proof. intros. unfold upd_entry. simpl. by apply alter_silent. Qed.

(** * Message 1 *)

(** A packet without key data that needs no MIC passes. *)
Lemma sanity_msg1 E S e a p rest nn r :
  reliable E → sent a (GroupCipher S) EAPOL_PAIR_MSG_1 0 nn [] p → R_Counter (wpa a) = r →
  length r = 8%nat → bytes r → length (R_Counter (wpa e)) = 8%nat → bytes (R_Counter (wpa e)) →
  be_word (R_Counter (wpa e)) < be_word r →
  PeerWpaMessageSanity E S (received p 0 rest) EAPOL_PAIR_MSG_1 e = Some (true, S).
Proof.
  intros HE HS <- Hl Hb Hl' Hb' Hlt. unfold PeerWpaMessageSanity. rewrite (re_keydata _ HE).
  change (EAPOL_GROUP_MSG_2 <? EAPOL_PAIR_MSG_1) with false. change (EAPOL_PAIR_MSG_1 <? EAPOL_PAIR_MSG_1) with false.
  cbn [negb orb received with_data set_KeyData kd_ReplayCounter kd_KeyDataLen].
  rewrite (st_replay _ _ _ _ _ _ _ HS), replay_fresh by auto.
  change (EAPOL_PAIR_MSG_1 =? EAPOL_PAIR_MSG_1) with true. cbn [negb mbind option_bind].
  by rewrite (bt_len _ _ (st_built _ _ _ _ _ _ _ HS)).
Qed.

(** Message 2 of the station with the state [d]. *)
Lemma build_msg2 M E S w e d nn :
  reliable E → ready M S w e → length nn = 32%nat → length (R_Counter d) = 8%nat →
  let data := rsn_element (RSNIE_Len S) (RSN_IE S) in
  ∃ p, ConstructEapolMsg E (set_wpa d e) (GroupCipher S) EAPOL_PAIR_MSG_2 0 (Some nn) None None (RSN_IE S) (RSNIE_Len S) zero_eapol = Some p ∧
    sent (set_wpa d e) (GroupCipher S) EAPOL_PAIR_MSG_2 0 nn data p ∧
    ∀ rest, ∃ frame, eapol_frame (set_KeyMic (zeros 16) (received p (length data) rest)) = Some frame ∧
      eapol_mic E (key_desc_ver e (GroupCipher S)) (PTK d) frame = Some (kd_KeyMic p).
Proof.
  intros HE HR Hn Hc data. pose proof (rd_rsn _ _ _ _ HR) as Hrsn.
  pose proof (length_rsn_element _ _ Hrsn) as Hld. pose proof Hrsn as (_ & H180 & _).
  destruct (construct_spec E (set_wpa d e) (GroupCipher S) EAPOL_PAIR_MSG_2 0 (Some nn) None None (RSN_IE S) (RSNIE_Len S)
    nn [] data) as (p & E1 & HS & HM); try done.
  - unfold data. lia.
  - change (no_key_data EAPOL_PAIR_MSG_2) with false. cbv iota. unfold key_data_for.
    change (EAPOL_PAIR_MSG_2 =? EAPOL_PAIR_MSG_2) with true. cbn [orb]. rewrite andb_true_r, insert_rsnie by done.
    by cbn [mbind option_bind].
  - exists p. split; [done|]. split; [done|]. intros rest. apply (HM ltac:(done) rest).
Qed.

Lemma msg1_step M E S w e a p Elem anonce :
  reliable E → ready M S w e → twin e a → sent a (GroupCipher S) EAPOL_PAIR_MSG_1 0 anonce [] p → length anonce = 32%nat →
  length (R_Counter (wpa a)) = 8%nat → bytes (R_Counter (wpa a)) →
  be_word (R_Counter (wpa e)) < be_word (R_Counter (wpa a)) → carries Elem (Addr e) (frame_of p 0) →
  ∃ snonce ptk p2,
    GenRandom E (CurrentAddress S) = Some snonce ∧ length snonce = 32%nat ∧ length ptk = 64%nat ∧ bytes ptk ∧
    (∀ out, length out = 80%nat →
       take LEN_PTK <$> WpaDerivePTK true (sta_PMK S) anonce (Addr e) snonce (CurrentAddress S) out LEN_PTK = Some ptk) ∧
    let d := mk_wpa anonce snonce (R_Counter (wpa a)) ptk AS_PTKINIT_NEGOTIATING (PairwiseKey (wpa e)) in
    let data := rsn_element (RSNIE_Len S) (RSN_IE S) in
    sent (set_wpa d e) (GroupCipher S) EAPOL_PAIR_MSG_2 0 snonce data p2 ∧
    (∀ rest, ∃ frame, eapol_frame (set_KeyMic (zeros 16) (received p2 (length data) rest)) = Some frame ∧
       eapol_mic E (key_desc_ver e (GroupCipher S)) ptk frame = Some (kd_KeyMic p2)) ∧
    WpaEAPOLKeyAction E S Elem =
      Some (post [Ev_ToWirelessSta w (take 6 (Addr e) ++ take 6 (CurrentAddress S) ++ [0x88; 0x8E]) (frame_of p2 (length data)) true]
              (upd_entry w (set_wpa d) S)).
Proof.
  intros HE HR HT HS Hn Hr Hb Hlt HC.
  destruct (dispatched M E S w e a p EAPOL_PAIR_MSG_1 0 anonce [] Elem HR HT HS HC) as (-> & (rest & HI) & Hmin).
  destruct (gen_random_ok E (CurrentAddress S) HE) as (sn & HG & Ls & Bs).
  destruct (rd_addr _ _ _ _ HR) as [LA LC]. destruct (rd_cnt _ _ _ _ HR) as [L8 B8].
  destruct (derive_ok (sta_PMK S) anonce (Addr e) sn (CurrentAddress S) (junk_ptk E)) as (buf & HD & LP & BP & HO);
    [apply HR|done..|apply HE|].
  set (d := mk_wpa anonce sn (R_Counter (wpa a)) (take LEN_PTK buf) AS_PTKINIT_NEGOTIATING (PairwiseKey (wpa e))).
  destruct (build_msg2 M E S w e d sn) as (p2 & HP2 & HS2 & HM2); try done.
  exists sn, (take LEN_PTK buf), p2. do 4 (split; [done|]). split.
  { intros out Hout. destruct (HO out Hout) as (b & -> & Eb). simpl. by rewrite Eb. }
  cbv zeta. split; [done|]. split; [done|].
  unfold key_action. rewrite HI. cbn [received with_data set_KeyData kd_KeyInfo].
  rewrite (st_info _ _ _ _ _ _ _ HS). unfold msg_info. destruct HT as [-> _].
  cbn. unfold PeerPairMsg1Action. rewrite (rd_entry _ _ _ _ HR). cbn [mbind option_bind].
  unfold is_peer, IS_ENTRY_CLIENT. rewrite (rd_client _ _ _ _ HR). change (ENTRY_CLIENT =? ENTRY_CLIENT) with true. cbn [orb negb].
  rewrite (proj2 (Z.ltb_ge _ _) Hmin), HI. cbn [length].
  rewrite (sanity_msg1 E S e a p rest anonce (R_Counter (wpa a))) by done. cbn [mbind option_bind negb].
  rewrite HG, (re_prf _ HE), (re_pool _ HE). cbn [mbind option_bind received with_data set_KeyData kd_KeyNonce kd_ReplayCounter].
  rewrite (st_nonce _ _ _ _ _ _ _ HS), (st_replay _ _ _ _ _ _ _ HS), HD by done. cbn [mbind option_bind negb].
  fold d. change (GroupCipher (upd_entry w (set_wpa d) S)) with (GroupCipher S). cbn [upd_entry set_MacTab RSN_IE RSNIE_Len].
  rewrite HP2. cbn [mbind option_bind]. unfold send_eapol, eapol_sent.
  by rewrite (eapol_frame_built p2 _ (st_built _ _ _ _ _ _ _ HS2)).
Qed.

(** * The authenticator's check of a reply *)

(** Messages 2 and 4 pass the sanity check of a peer with the same pairwise
    key and replay counter. *)
Lemma accept_reply E A a e g t nn data p rest :
  reliable E → (t = EAPOL_PAIR_MSG_2 ∨ t = EAPOL_PAIR_MSG_4) → sent e g t 0 nn data p → (length data ≤ 255)%nat →
  R_Counter (wpa a) = R_Counter (wpa e) → PTK (wpa a) = PTK (wpa e) →
  (∃ frame, eapol_frame (set_KeyMic (zeros 16) (received p (length data) rest)) = Some frame ∧
     eapol_mic E (key_desc_ver e g) (PTK (wpa e)) frame = Some (kd_KeyMic p)) →
  PeerWpaMessageSanity E A (received p (length data) rest) t a = Some (true, A).
Proof.
  intros HE Ht HS Hd HR HP (frame & HF & HM). unfold PeerWpaMessageSanity. rewrite (re_keydata _ HE).
  pose proof (st_built _ _ _ _ _ _ _ HS) as HB. pose proof (bt_max _ _ HB) as Hmax.
  assert (HD : replay_differs t (kd_ReplayCounter (received p (length data) rest)) (R_Counter (wpa a)) = false).
  { cbn [received with_data set_KeyData kd_ReplayCounter]. rewrite (st_replay _ _ _ _ _ _ _ HS), HR. unfold replay_differs.
    destruct Ht as [-> | ->]; cbn; by rewrite bool_decide_true. }
  rewrite HD. cbn [received with_data set_KeyData kd_KeyInfo kd_KeyDataLen kd_KeyMic kd_KeyData] in *.
  rewrite (st_info _ _ _ _ _ _ _ HS). cbn [msg_info ki_KeyDescVer]. unfold LEN_KEY_DESC_MIC.
  rewrite HF, HP. cbn [mbind option_bind]. rewrite HM. cbn [mbind option_bind].
  rewrite (bt_len _ _ HB), conv_set by lia.
  destruct Ht as [-> | ->]; cbn -[move zeros]; rewrite bool_decide_true by done; cbn -[move zeros];
    destruct (0 <? Z.of_nat (length data)) eqn:E0; try done.
  rewrite move_all; [done| |rewrite Nat2Z.id, length_zeros; unfold MAX_LEN_OF_RSNIE; lia].
  rewrite Nat2Z.id, length_app, length_take. pose proof (bt_room _ _ HB). lia.
Qed.

(** * Message 3 *)

(** What a received group key does to the station. *)
Definition install_group (idx : Z) (gtk : list Z) (S : wpa_sta) : wpa_sta :=
  let g' := bwrite (sta_GTK S) 0 gtk in
  let '(k, ev) := WPAInstallSharedKey (GroupCipher S) BSS0 idx false g' (Z.of_nat (length gtk)) in
  post ev (set_group g' idx (<[Z.to_nat idx := k]> (SharedKey S)) S).

Lemma parse_gtk S n rsn idx gtk ver t :
  (t = EAPOL_PAIR_MSG_3 ∨ t = EAPOL_GROUP_MSG_1) → rsn_ok n rsn → 0 ≤ idx < 4 → (16 ≤ length gtk ≤ 32)%nat →
  length (sta_GTK S) = 32%nat →
  let d := padded_data ver (rsn_element n rsn ++ gtk_element idx gtk) in
  RTMPParseEapolKeyData S (bwrite (zeros MAX_LEN_OF_RSNIE) 0 d) (Z.of_nat (length d)) 0 t true =
  Some (true, install_group idx gtk S).
Proof.
  intros Ht Hr Hi Hg Hs d. pose proof (length_rsn_element n rsn Hr) as Hlr. pose proof Hr as (_ & Hn & _).
  assert (Hld : (length d ≤ n + 2 + 40 + 7)%nat).
  { unfold d, padded_data. rewrite !length_app, length_gtk_element. 
    assert (Hpad : ∀ k, (length (if (ver =? KEY_DESC_AES)%Z then wrap_padding k else []) ≤ 7)%nat)
      by (intros k; destruct (ver =? KEY_DESC_AES); [apply length_wrap_padding|simpl; lia]).
    specialize (Hpad (length (rsn_element n rsn) + (8 + length gtk))%nat). lia. }
  unfold RTMPParseEapolKeyData, MAX_LEN_OF_RSNIE, MAX_LEN_GTK.
  assert (HL : (t =? EAPOL_PAIR_MSG_2) || ((t =? EAPOL_PAIR_MSG_3) && negb true) = false) by (destruct Ht as [-> | ->]; done).
  assert (HW : true && ((t =? EAPOL_PAIR_MSG_3) || (t =? EAPOL_GROUP_MSG_1)) = true) by (destruct Ht as [-> | ->]; done).
  rewrite HL, HW, bwrite_0_app, wrap_id by (lia || (unfold in_range; lia)).
  pose proof (kde_walk n rsn idx gtk ver (255 - length d) Hr Hi Hg ltac:(lia)) as HK. cbv zeta in HK. fold d in HK.
  rewrite HK. cbn [mbind option_bind negb].
  rewrite (proj2 (Z.ltb_ge _ _)) by lia.
  assert (Hb : length (bwrite (zeros 32) 0 gtk) = 32%nat) by (rewrite length_bwrite; rewrite ?length_zeros; lia).
  rewrite move_all by (rewrite Nat2Z.id; lia). cbn [mbind option_bind].
  rewrite Nat2Z.id, take_bwrite_0, take_ge by lia. unfold install_group. by destruct (WPAInstallSharedKey _ _ _ _ _ _).
Qed.

(** A group key in WPA2 mode, in message 3 or in a group message. *)
Lemma sanity_gtk E S e a g t p rest nn n rsn idx gtk data :
  reliable E → (t = EAPOL_PAIR_MSG_3 ∨ t = EAPOL_GROUP_MSG_1) → bWPA2 e = true → bWPA2 a = true →
  sent a g t idx nn data p → PTK (wpa a) = PTK (wpa e) → length (PTK (wpa e)) = 64%nat → bytes (PTK (wpa e)) →
  rsn_ok n rsn → 0 ≤ idx < 4 → (16 ≤ length gtk ≤ 32)%nat → bytes gtk → length (sta_GTK S) = 32%nat →
  encrypt_key_data E (key_desc_ver a g) (PTK (wpa a)) (zeros 16) (rsn_element n rsn ++ gtk_element idx gtk) = Some data →
  length (R_Counter (wpa a)) = 8%nat → bytes (R_Counter (wpa a)) →
  length (R_Counter (wpa e)) = 8%nat → bytes (R_Counter (wpa e)) → be_word (R_Counter (wpa e)) < be_word (R_Counter (wpa a)) →
  (∃ frame, eapol_frame (set_KeyMic (zeros 16) (received p (length data) rest)) = Some frame ∧
     eapol_mic E (key_desc_ver a g) (PTK (wpa a)) frame = Some (kd_KeyMic p)) →
  PeerWpaMessageSanity E S (received p (length data) rest) t e = Some (true, install_group idx gtk S).
Proof.
  intros HE Ht He Ha HS HP LP BP Hr Hi Hg Bg HGS HD La Ba Le Be Hlt (frame & HF & HM).
  pose proof (st_built _ _ _ _ _ _ _ HS) as HB. pose proof (bt_max _ _ HB) as Hmax.
  pose proof (length_rsn_element n rsn Hr) as Hlr. pose proof Hr as (_ & Hn & _).
  destruct (encrypt_clear E (key_desc_ver a g) (PTK (wpa e)) (zeros 16) (rsn_element n rsn ++ gtk_element idx gtk))
    as (c & HC & Lc & HCl); try done.
  { apply bytes_app. split; [by apply bytes_rsn_element|]. unfold gtk_element, WPA_ConstructKdeHdr.
    apply bytes_app. split; [|done]. repeat constructor; try done; try apply u8_byte; unfold in_range; lia. }
  { rewrite length_app, length_gtk_element. lia. }
  { apply key_desc_ver_cases. }
  rewrite HP, HC in HD. injection HD as ->.
  unfold PeerWpaMessageSanity. rewrite (re_keydata _ HE).
  assert (Hrg : (EAPOL_GROUP_MSG_2 <? t) || (t <? EAPOL_PAIR_MSG_1) = false) by (destruct Ht as [-> | ->]; done).
  assert (Hn1 : (t =? EAPOL_PAIR_MSG_1) = false) by (destruct Ht as [-> | ->]; done).
  assert (Hg3 : ((t =? EAPOL_PAIR_MSG_3) && true) || (t =? EAPOL_GROUP_MSG_1) = true) by (destruct Ht as [-> | ->]; done).
  rewrite Hrg, Hn1, He, Hg3. cbn [negb andb].
  rewrite HCl with (rest := rest); [|cbn; rewrite (st_data _ _ _ _ _ _ _ HS); done|apply HB|
    cbn; rewrite (st_iv _ _ _ _ _ _ _ HS); unfold msg_iv; by rewrite Ha|cbn; by rewrite (st_info _ _ _ _ _ _ _ HS)].
  cbn [received with_data set_KeyData kd_KeyInfo kd_KeyDataLen kd_KeyMic kd_ReplayCounter] in *.
  rewrite (st_replay _ _ _ _ _ _ _ HS), replay_fresh by (done || tauto).
  rewrite (st_info _ _ _ _ _ _ _ HS). cbn [msg_info ki_KeyDescVer]. unfold LEN_KEY_DESC_MIC.
  rewrite HF, <- HP. cbn [mbind option_bind]. rewrite HM. cbn [mbind option_bind]. rewrite bool_decide_true by done. cbn [negb].
  rewrite (bt_len _ _ HB), conv_set, (proj2 (Z.ltb_lt _ _)) by lia. cbn [negb].
  by rewrite parse_gtk.
Qed.

(** Message 3 of the authenticator, in WPA2 mode. *)
Lemma build_msg3 E a g idx anonce rsc gtk rsn n :
  reliable E → bWPA2 a = true → length (R_Counter (wpa a)) = 8%nat → length anonce = 32%nat → (6 ≤ length rsc)%nat →
  length (PTK (wpa a)) = 64%nat → bytes (PTK (wpa a)) → rsn_ok n rsn → 0 ≤ idx < 4 → bytes gtk →
  length gtk = (if (g =? Ndis802_11AESEnable)%Z then 16 else 32)%nat →
  ∃ p data, ConstructEapolMsg E a g EAPOL_PAIR_MSG_3 idx (Some anonce) (Some rsc) (Some gtk) rsn n zero_eapol = Some p ∧
    sent a g EAPOL_PAIR_MSG_3 idx anonce data p ∧
    encrypt_key_data E (key_desc_ver a g) (PTK (wpa a)) (zeros 16) (rsn_element n rsn ++ gtk_element idx gtk) = Some data ∧
    ∀ rest, ∃ frame, eapol_frame (set_KeyMic (zeros 16) (received p (length data) rest)) = Some frame ∧
      eapol_mic E (key_desc_ver a g) (PTK (wpa a)) frame = Some (kd_KeyMic p).
Proof.
  intros HE Ha Hr Hn Hrsc LP BP Hrsn Hi Bg Lg. pose proof (length_rsn_element n rsn Hrsn) as Hlr. pose proof Hrsn as (_ & Hn180 & _).
  assert (Hg32 : (16 ≤ length gtk ≤ 32)%nat) by (rewrite Lg; destruct (g =? _)%Z; lia).
  destruct (encrypt_clear E (key_desc_ver a g) (PTK (wpa a)) (zeros 16) (rsn_element n rsn ++ gtk_element idx gtk))
    as (data & HC & Lc & _); try done.
  { apply bytes_app. split; [by apply bytes_rsn_element|]. unfold gtk_element, WPA_ConstructKdeHdr.
    apply bytes_app. split; [|done]. repeat constructor; try done; try apply u8_byte; unfold in_range; lia. }
  { rewrite length_app, length_gtk_element. lia. }
  { apply key_desc_ver_cases. }
  destruct (construct_spec E a g EAPOL_PAIR_MSG_3 idx (Some anonce) (Some rsc) (Some gtk) rsn n anonce rsc data)
    as (p & E1 & HS & HM); try done; [lia| |].
  - change (no_key_data EAPOL_PAIR_MSG_3) with false. cbv iota. unfold key_data_for, msg_iv.
    change (EAPOL_PAIR_MSG_3 =? EAPOL_PAIR_MSG_3) with true. rewrite Ha. cbn [negb orb andb].
    rewrite orb_true_r, andb_true_r, insert_rsnie by done. cbn [mbind option_bind].
    rewrite gtk_data_wpa2 by done. cbn [mbind option_bind]. done.
  - exists p, data. do 3 (split; [done|]). intros rest. by apply HM.
Qed.

(** The state after a message 3 was accepted. *)
Definition completed (w : nat) (e : MAC_TABLE_ENTRY) (idx : Z) (gtk r : list Z) (S : wpa_sta) : wpa_sta :=
  let S := upd_wpa w (set_R_Counter r) (install_group idx gtk S) in
  let S := set_sta_PTK (PTK (wpa e)) (upd_wpa w (set_WpaState AS_PTKINITDONE) S) in
  let '(k, ev) := WPAInstallPairwiseKey BSS0 e false in
  STA_PORT_SECURED (upd_entry w open_port (post ev (upd_wpa w (set_PairwiseKey k) S))).

Lemma build_msg4 E e g :
  reliable E → length (R_Counter (wpa e)) = 8%nat →
  ∃ p, ConstructEapolMsg E e g EAPOL_PAIR_MSG_4 0 None None None [] 0 zero_eapol = Some p ∧
    sent e g EAPOL_PAIR_MSG_4 0 [] [] p ∧
    ∀ rest, ∃ frame, eapol_frame (set_KeyMic (zeros 16) (received p 0 rest)) = Some frame ∧
      eapol_mic E (key_desc_ver e g) (PTK (wpa e)) frame = Some (kd_KeyMic p).
Proof.
  intros HE Hr. destruct (construct_spec E e g EAPOL_PAIR_MSG_4 0 None None None [] 0 [] [] []) as (p & E1 & HS & HM); try done.
  - unfold needs_nonce. change (EAPOL_PAIR_MSG_4 =? EAPOL_GROUP_MSG_1) with false. by rewrite andb_false_r.
  - simpl. lia.
  - exists p. split; [done|]. split; [done|]. intros rest. by apply HM.
Qed.

Lemma install_group_table idx gtk S : MacTab (install_group idx gtk S) = MacTab S ∧
  GroupCipher (install_group idx gtk S) = GroupCipher S ∧ CurrentAddress (install_group idx gtk S) = CurrentAddress S.
Proof. unfold install_group. by destruct (WPAInstallSharedKey _ _ _ _ _ _). Qed.

(** The action once the frame passed its checks. *)
Lemma msg3_action E S w e Elem p4 idx gtk r :
  entry_of S w = Some e → EntryType e = ENTRY_CLIENT → bWPA2 e = true → length (PTK (wpa e)) = 64%nat →
  min_frame ≤ el_MsgLen Elem →
  PeerWpaMessageSanity E S (eapol_in Elem) EAPOL_PAIR_MSG_3 e = Some (true, install_group idx gtk S) →
  kd_KeyNonce (eapol_in Elem) = ANonce (wpa e) → kd_ReplayCounter (eapol_in Elem) = r →
  (let e' := set_wpa (set_R_Counter r (wpa e)) e in
   ConstructEapolMsg E e' (GroupCipher S) EAPOL_PAIR_MSG_4 0 None None None [] 0 zero_eapol = Some p4 ∧
   sent e' (GroupCipher S) EAPOL_PAIR_MSG_4 0 [] [] p4) →
  al_pool E = true →
  PeerPairMsg3Action E S w Elem =
    Some (post [Ev_ToWirelessSta w (take 6 (Addr e) ++ take 6 (CurrentAddress S) ++ [0x88; 0x8E]) (frame_of p4 0) true]
            (completed w e idx gtk r S)).
Proof.
  intros He Hc Hm LP Hmin HS HN <- [HP4 HS4] Hpool. destruct (install_group_table idx gtk S) as (T1 & T2 & T3).
  unfold PeerPairMsg3Action. rewrite He. cbn [mbind option_bind].
  unfold is_peer, IS_ENTRY_CLIENT. rewrite Hc. change (ENTRY_CLIENT =? ENTRY_CLIENT) with true. cbn [orb negb].
  rewrite (proj2 (Z.ltb_ge _ _) Hmin), HS. cbn [mbind option_bind negb]. rewrite HN.
  set (r := kd_ReplayCounter (eapol_in Elem)) in *. set (e' := set_wpa (set_R_Counter r (wpa e)) e) in *.
  set (S1 := upd_wpa w (set_R_Counter r) (install_group idx gtk S)).
  assert (H1 : entry_of S1 w = Some e').
  { unfold S1, upd_wpa. rewrite (entry_upd _ _ _ e); [done|]. unfold entry_of. by rewrite T1. }
  rewrite H1. cbn [mbind option_bind]. rewrite bool_decide_true, Hpool by done. cbn [negb].
  assert (GroupCipher S1 = GroupCipher S) as -> by exact T2. rewrite HP4. cbn [mbind option_bind].
  assert (take LEN_PTK (PTK (wpa e')) = PTK (wpa e)) as -> by (apply take_ge; unfold LEN_PTK; simpl; lia).
  set (S2 := set_sta_PTK (PTK (wpa e)) (upd_wpa w (set_WpaState AS_PTKINITDONE) S1)).
  unfold install_pairwise.
  assert (H2 : entry_of S2 w = Some (set_wpa (set_WpaState AS_PTKINITDONE (wpa e')) e')) by exact (entry_upd S1 w (λ e, set_wpa (set_WpaState AS_PTKINITDONE (wpa e)) e) e' H1).
  rewrite H2. cbn [mbind option_bind].
  change (WPAInstallPairwiseKey BSS0 (set_wpa (set_WpaState AS_PTKINITDONE (wpa e')) e') false) with (WPAInstallPairwiseKey BSS0 e false).
  unfold completed. fold S1. fold S2. destruct (WPAInstallPairwiseKey BSS0 e false) as [k ev]. cbn [mbind option_bind].
  change (bWPA2 e') with (bWPA2 e). rewrite Hm. unfold send_eapol, eapol_sent.
  rewrite (eapol_frame_built p4 _ (st_built _ _ _ _ _ _ _ HS4)). cbn [mbind option_bind].
  change (CurrentAddress (STA_PORT_SECURED _)) with (CurrentAddress (install_group idx gtk S)). by rewrite T3.
Qed.

Lemma msg3_step M E S w e a p Elem n rsn idx gtk data :
  reliable E → ready M S w e → twin e a → sent a (GroupCipher S) EAPOL_PAIR_MSG_3 idx (ANonce (wpa e)) data p →
  PTK (wpa a) = PTK (wpa e) → length (PTK (wpa e)) = 64%nat → bytes (PTK (wpa e)) →
  rsn_ok n rsn → 0 ≤ idx < 4 → (16 ≤ length gtk ≤ 32)%nat → bytes gtk →
  encrypt_key_data E (key_desc_ver a (GroupCipher S)) (PTK (wpa a)) (zeros 16) (rsn_element n rsn ++ gtk_element idx gtk) = Some data →
  length (R_Counter (wpa a)) = 8%nat → bytes (R_Counter (wpa a)) →
  be_word (R_Counter (wpa e)) < be_word (R_Counter (wpa a)) →
  (∀ rest, ∃ frame, eapol_frame (set_KeyMic (zeros 16) (received p (length data) rest)) = Some frame ∧
     eapol_mic E (key_desc_ver a (GroupCipher S)) (PTK (wpa a)) frame = Some (kd_KeyMic p)) →
  carries Elem (Addr e) (frame_of p (length data)) →
  let e' := set_wpa (set_R_Counter (R_Counter (wpa a)) (wpa e)) e in
  ∃ p4, sent e' (GroupCipher S) EAPOL_PAIR_MSG_4 0 [] [] p4 ∧
    (∀ rest, ∃ frame, eapol_frame (set_KeyMic (zeros 16) (received p4 0 rest)) = Some frame ∧
       eapol_mic E (key_desc_ver e (GroupCipher S)) (PTK (wpa e)) frame = Some (kd_KeyMic p4)) ∧
    WpaEAPOLKeyAction E S Elem =
      Some (post [Ev_ToWirelessSta w (take 6 (Addr e) ++ take 6 (CurrentAddress S) ++ [0x88; 0x8E]) (frame_of p4 0) true]
              (completed w e idx gtk (R_Counter (wpa a)) S)).
Proof.
  intros HE HR HT HS HP LP BP Hrsn Hi Hg Bg HD Lr Br Hlt HM HC e'.
  destruct (dispatched M E S w e a p EAPOL_PAIR_MSG_3 idx (ANonce (wpa e)) data Elem HR HT HS HC) as (-> & (rest & HI) & Hmin).
  destruct (build_msg4 E e' (GroupCipher S) HE Lr) as (p4 & HP4 & HS4 & HM4).
  exists p4. split; [done|]. split; [done|].
  destruct (rd_cnt _ _ _ _ HR) as [L8 B8]. destruct (rd_gtk _ _ _ _ HR) as [LG _]. destruct HT as [Ha _].
  destruct (install_group_table idx gtk S) as (T1 & T2 & T3).
  assert (key_action E S w Elem = PeerPairMsg3Action E S w Elem) as ->.
  { unfold key_action. rewrite HI. cbn [received with_data set_KeyData kd_KeyInfo].
    rewrite (st_info _ _ _ _ _ _ _ HS). unfold msg_info. by rewrite Ha. }
  apply (msg3_action E S w e Elem p4); [apply HR|apply HR|apply HR|done|done| | | |done|apply HE].
  - rewrite HI. apply (sanity_gtk E S e a (GroupCipher S) EAPOL_PAIR_MSG_3 p rest (ANonce (wpa e)) n rsn idx gtk data); auto; apply HR.
  - rewrite HI. exact (st_nonce _ _ _ _ _ _ _ HS eq_refl).
  - rewrite HI. exact (st_replay _ _ _ _ _ _ _ HS).
Qed.
