(* ===== verification/HandshakeClaims.v ===== *)
(** The theorems on the handshake: it completes and installs the same keys on
    both sides, keys and ports change only on authenticated and fresh frames,
    and the boundary cases the code does not handle. *)

From Stdlib Require Import ZifyNat.
From stdpp Require Import gmap list.
From S2P Require Import Prelude CipherKey BlockHash Md5 Sha Hmac Arc4 Michael Tkip Aes BlockCipher AesCcm.
From S2P Require Import AesCmac AesKeyWrap WpaKeys Mlme BaReorder BaSession MacTable MacTableProofs.
From S2P Require Import MacTableClaims Eapol EapolProofs Handshake HandshakeProofs HandshakeRun.

(** * A complete handshake *)

(** Two pairwise keys that fit: what one side sends, the other receives. *)
Definition keys_fit (k ka : CIPHER_KEY) : Prop :=
  Key k = Key ka ∧ CipherAlg k = CipherAlg ka ∧ KeyLen k = KeyLen ka ∧ TxMic k = RxMic ka ∧ RxMic k = TxMic ka.

(** The station's link after the handshake: the pairwise key [ka] of the
    authenticator, the group key under its index, the port open. *)
Definition link_secured (S : wpa_sta) (w : nat) (ka : CIPHER_KEY) (gtk : list Z) (idx : Z) (r : list Z) : Prop :=
  ∃ e kg, entry_of S w = Some e ∧ keys_fit (PairwiseKey (wpa e)) ka ∧ R_Counter (wpa e) = r ∧
    WpaState (wpa e) = AS_PTKINITDONE ∧ PortSecured e = WPA_802_1X_PORT_SECURED ∧
    PrivacyFilter e = Ndis802_11PrivFilterAcceptAll ∧ sta_PortSecured S = WPA_802_1X_PORT_SECURED ∧
    DefaultKeyId S = idx ∧ SharedKey S !! Z.to_nat idx = Some kg ∧ Key kg = take 16 gtk ∧ KeyLen kg = 16.

Lemma ready_after M S w e d l :
  ready M S w e → AS_INITPSK ≤ WpaState d → length (R_Counter d) = 8%nat → bytes (R_Counter d) →
  ready M (post l (upd_entry w (set_wpa d) S)) w (set_wpa d e).
Proof.
  intros [] Hs Hl Hb. destruct (upd_table M S w (set_wpa d)) as [HT HM]; [done..|].
  split; try done. rewrite entry_post. by apply entry_upd.
Qed.

Lemma group_key_installed S idx gtk :
  0 ≤ idx < 4 → length (SharedKey S) = 4%nat → length (sta_GTK S) = 32%nat →
  GroupCipher S = Ndis802_11AESEnable ∨ GroupCipher S = Ndis802_11TKIPEnable →
  (16 ≤ length gtk ≤ 32)%nat →
  ∃ kg, SharedKey (install_group idx gtk S) !! Z.to_nat idx = Some kg ∧ Key kg = take 16 gtk ∧ KeyLen kg = 16 ∧
    DefaultKeyId (install_group idx gtk S) = idx.
Proof.
  intros Hi Hs Hg Hc Hl. unfold install_group, WPAInstallSharedKey.
  assert (Ht : take 16 (bwrite (sta_GTK S) 0 gtk) = take 16 gtk) by (apply take_bwrite_0; lia).
  assert (HL : (Z.of_nat (length gtk) <? Z.of_nat LEN_TK) = false) by (apply Z.ltb_ge; unfold LEN_TK; lia).
  destruct Hc as [-> | ->]; cbn -[LEN_TK slice take bwrite insert lookup length]; rewrite HL; cbn -[take bwrite insert lookup slice length];
    eexists; (split; [apply list_lookup_insert_eq; lia|]); cbn; done.
Qed.

Lemma open_port_twice e : open_port (open_port e) = open_port e.
Proof. done. Qed.

Lemma completed_secured S w e a idx gtk r :
  entry_of S w = Some e → twin e a → PTK (wpa a) = PTK (wpa e) →
  WepStatus e = Ndis802_11AESEnable ∨ WepStatus e = Ndis802_11TKIPEnable →
  0 ≤ idx < 4 → length (SharedKey S) = 4%nat → length (sta_GTK S) = 32%nat →
  GroupCipher S = Ndis802_11AESEnable ∨ GroupCipher S = Ndis802_11TKIPEnable → (16 ≤ length gtk ≤ 32)%nat →
  link_secured (completed w e idx gtk r S) w (WPAInstallPairwiseKey BSS0 a true).1 gtk idx r.
Proof.
  intros He [_ Hw] HP Hc Hi Hs Hg Hgc Hl.
  destruct (group_key_installed S idx gtk) as (kg & K1 & K2 & K3 & K4); [done..|].
  destruct (install_group_table idx gtk S) as (T1 & _ & _).
  unfold completed. destruct (WPAInstallPairwiseKey BSS0 e false) as [k ev] eqn:EK.
  set (d := set_PairwiseKey k (set_WpaState AS_PTKINITDONE (set_R_Counter r (wpa e)))).
  exists (open_port (set_wpa d e)), kg. split; [|split; [|done]].
  - unfold STA_PORT_SECURED. set (S1 := upd_entry w open_port _).
    assert (H1 : entry_of S1 w = Some (open_port (set_wpa d e))).
    { unfold S1, upd_wpa. rewrite (entry_upd _ _ _ (set_wpa d e)); [done|]. rewrite entry_post.
      rewrite (entry_upd _ _ _ (set_wpa (set_WpaState AS_PTKINITDONE (set_R_Counter r (wpa e))) e)); [done|].
      change (entry_of (set_sta_PTK ?p ?X) w) with (entry_of X w).
      rewrite (entry_upd _ _ _ (set_wpa (set_R_Counter r (wpa e)) e)); [done|].
      rewrite (entry_upd _ _ _ e); [done|]. unfold entry_of. by rewrite T1. }
    destruct (decide (w = BSSID_WCID)) as [->|Hne]; [by apply (entry_upd _ _ open_port (open_port (set_wpa d e)))|].
    unfold entry_of, upd_entry. simpl. rewrite list_lookup_alter_ne by done. exact H1.
  - cbn [open_port set_wpa wpa d set_PairwiseKey PairwiseKey]. unfold WPAInstallPairwiseKey in *. rewrite Hw, HP.
    destruct Hc as [Hc|Hc]; rewrite Hc in *; cbn -[slice] in EK |- *; injection EK as <- <-; done.
Qed.

(** The authenticator's entry during the handshake. *)
Definition ap_entry (a : MAC_TABLE_ENTRY) (anonce snonce ptk r : list Z) : MAC_TABLE_ENTRY :=
  set_wpa (mk_wpa anonce snonce r ptk AS_PTKSTART zero_key) a.

Definition eapol_header (S : wpa_sta) (e : MAC_TABLE_ENTRY) : list Z :=
  take 6 (Addr e) ++ take 6 (CurrentAddress S) ++ [0x88; 0x8E].

Lemma msg1_built E a g anonce r :
  reliable E → length r = 8%nat → length anonce = 32%nat →
  ∃ p, ConstructEapolMsg E (ap_entry a anonce [] [] r) g EAPOL_PAIR_MSG_1 0 (Some anonce) None None [] 0 zero_eapol = Some p ∧
    sent (ap_entry a anonce [] [] r) g EAPOL_PAIR_MSG_1 0 anonce [] p.
Proof.
  intros HE Hr Hn. destruct (construct_spec E (ap_entry a anonce [] [] r) g EAPOL_PAIR_MSG_1 0 (Some anonce) None None [] 0 anonce [] [])
    as (p & E1 & HS & _); try done; [simpl; lia|by exists p].
Qed.

(** The second half, from the state the first one left. *)
Lemma second_half E M S w e a sn ptk r1 r3 rsc gtk idx rsn n l :
  reliable E → ready M S w e → twin e a → length ptk = 64%nat → bytes ptk →
  ∀ anonce, length anonce = 32%nat →
  let d := mk_wpa anonce sn r1 ptk AS_PTKINIT_NEGOTIATING (PairwiseKey (wpa e)) in
  let S1 := post l (upd_entry w (set_wpa d) S) in
  let ap := ap_entry a anonce sn ptk r3 in
  length r1 = 8%nat → bytes r1 → length r3 = 8%nat → bytes r3 → be_word r1 < be_word r3 → (6 ≤ length rsc)%nat →
  rsn_ok n rsn → 0 ≤ idx < 4 → bytes gtk →
  length gtk = (if (GroupCipher S =? Ndis802_11AESEnable)%Z then 16 else 32)%nat →
  ∃ p3, ConstructEapolMsg E ap (GroupCipher S) EAPOL_PAIR_MSG_3 idx (Some anonce) (Some rsc) (Some gtk) rsn n zero_eapol = Some p3 ∧
  ∀ Elem3 f3, eapol_sent p3 = Some f3 → carries Elem3 (Addr e) f3 →
  ∃ S2 f4, WpaEAPOLKeyAction E S1 Elem3 = Some S2 ∧
    last (w_events S2) = Some (Ev_ToWirelessSta w (eapol_header S e) f4 true) ∧
    (∀ A rest, PeerWpaMessageSanity E A (eapol_of (f4 ++ rest)) EAPOL_PAIR_MSG_4 ap = Some (true, A)) ∧
    link_secured S2 w (WPAInstallPairwiseKey BSS0 ap true).1 gtk idx r3.
Proof.
  intros HE HR HT LP BP anonce Hn d S1 ap L1 B1 L3 B3 H13 Hrsc Hrsn Hi Bg Lg.
  assert (HR1 : ready M S1 w (set_wpa d e)) by by apply ready_after.
  assert (Hg32 : (16 ≤ length gtk ≤ 32)%nat) by (rewrite Lg; destruct (_ =? _)%Z; lia).
  destruct (build_msg3 E ap (GroupCipher S) idx anonce rsc gtk rsn n) as (p3 & data & HC & HS & HD & HM); try done; [apply HT|].
  exists p3. split; [done|]. intros Elem3 f3 Hf3 Hcar. unfold eapol_sent in Hf3.
  rewrite (eapol_frame_built p3 _ (st_built _ _ _ _ _ _ _ HS)) in Hf3. injection Hf3 as <-.
  destruct (msg3_step M E S1 w (set_wpa d e) ap p3 Elem3 n rsn idx gtk data) as (p4 & HS4 & HM4 & HA); try done.
  rewrite HA. eexists _, (frame_of p4 0). split; [done|]. split; [|split].
  - cbn [post w_events]. rewrite last_snoc. done.
  - intros A rest. rewrite (eapol_of_frame p4 0) by apply (st_built _ _ _ _ _ _ _ HS4).
    apply (accept_reply E A ap _ (GroupCipher S1) EAPOL_PAIR_MSG_4 [] [] p4 rest HE ltac:(auto) HS4); [simpl; lia|done|done|].
    destruct (HM4 rest) as (fr & F1 & F2). by exists fr.
  - apply (completed_secured S1 w (set_wpa d e) ap idx gtk r3); try done; try apply HR1.
    destruct (rd_cipher _ _ _ _ HR1) as [?|[? _]]; auto.
Qed.

(** C19: The 4-way handshake completes.  Take a station in WPA2 mode associated
    with an access point, with memory available, and an authenticator that
    builds its messages with ConstructEapolMsg from the same PMK, in either
    cipher combination, with any group key, index, security parameters and
    increasing replay counters.  The station answers message 1 with a message 2
    that the authenticator accepts under the pairwise key it derives itself;
    the message 3 that the authenticator then builds is accepted, the station
    answers with a message 4 that the authenticator accepts, and afterwards
    the port is open, both sides hold fitting pairwise keys (the same temporal
    key, each MIC key for the other direction) and the station holds the group
    key under its index. *)
Theorem wpa2_handshake_completes E M S w e a anonce r1 r3 rsc gtk idx rsn n
    (HE : reliable E) (HR : ready M S w e) (HT : twin e a) (Hn : length anonce = 32%nat)
    (L1 : length r1 = 8%nat) (B1 : bytes r1) (L3 : length r3 = 8%nat) (B3 : bytes r3)
    (Hinc : be_word (R_Counter (wpa e)) < be_word r1 < be_word r3) (Hrsc : (6 ≤ length rsc)%nat)
    (Hrsn : rsn_ok n rsn) (Hi : 0 ≤ idx < 4) (Bg : bytes gtk)
    (Lg : length gtk = (if (GroupCipher S =? Ndis802_11AESEnable)%Z then 16 else 32)%nat) :
  ∃ p1, ConstructEapolMsg E (ap_entry a anonce [] [] r1) (GroupCipher S) EAPOL_PAIR_MSG_1 0 (Some anonce) None None [] 0 zero_eapol = Some p1 ∧
  ∀ Elem1 f1, eapol_sent p1 = Some f1 → carries Elem1 (Addr e) f1 →
  ∃ S1 f2 snonce ptk, WpaEAPOLKeyAction E S Elem1 = Some S1 ∧
    last (w_events S1) = Some (Ev_ToWirelessSta w (eapol_header S e) f2 true) ∧
    kd_KeyNonce (eapol_of f2) = snonce ∧
    (∀ buf, length buf = 80%nat →
       take LEN_PTK <$> WpaDerivePTK true (sta_PMK S) anonce (Addr e) snonce (CurrentAddress S) buf LEN_PTK = Some ptk) ∧
    (∀ A rest, PeerWpaMessageSanity E A (eapol_of (f2 ++ rest)) EAPOL_PAIR_MSG_2 (ap_entry a anonce snonce ptk r1) = Some (true, A)) ∧
    let ap := ap_entry a anonce snonce ptk r3 in
    ∃ p3, ConstructEapolMsg E ap (GroupCipher S) EAPOL_PAIR_MSG_3 idx (Some anonce) (Some rsc) (Some gtk) rsn n zero_eapol = Some p3 ∧
    ∀ Elem3 f3, eapol_sent p3 = Some f3 → carries Elem3 (Addr e) f3 →
    ∃ S2 f4, WpaEAPOLKeyAction E S1 Elem3 = Some S2 ∧
      last (w_events S2) = Some (Ev_ToWirelessSta w (eapol_header S e) f4 true) ∧
      (∀ A rest, PeerWpaMessageSanity E A (eapol_of (f4 ++ rest)) EAPOL_PAIR_MSG_4 ap = Some (true, A)) ∧
      link_secured S2 w (WPAInstallPairwiseKey BSS0 ap true).1 gtk idx r3.
Proof.
  destruct (msg1_built E a (GroupCipher S) anonce r1) as (p1 & HC1 & HS1); try done.
  exists p1. split; [done|]. intros Elem1 f1 Hf1 Hcar. unfold eapol_sent in Hf1.
  rewrite (eapol_frame_built p1 _ (st_built _ _ _ _ _ _ _ HS1)) in Hf1. injection Hf1 as <-.
  destruct (msg1_step M E S w e (ap_entry a anonce [] [] r1) p1 Elem1 anonce)
    as (sn & ptk & p2 & HG & Ls & LP & BP & HO & HS2 & HM2 & HA); try done; [apply Hinc|].
  set (data := rsn_element (RSNIE_Len S) (RSN_IE S)) in *.
  pose proof (length_rsn_element _ _ (rd_rsn _ _ _ _ HR)) as Hld. pose proof (rd_rsn _ _ _ _ HR) as (_ & H180 & _).
  rewrite HA. eexists _, (frame_of p2 (length data)), sn, ptk. split; [done|]. split.
  { cbn [post w_events]. by rewrite last_snoc. }
  pose proof (st_built _ _ _ _ _ _ _ HS2) as HB2. split; [|split; [exact HO|split]].
  - rewrite <- (app_nil_r (frame_of p2 _)), eapol_of_frame by done. exact (st_nonce _ _ _ _ _ _ _ HS2 eq_refl).
  - intros A rest. rewrite eapol_of_frame by done.
    apply (accept_reply E A _ _ (GroupCipher S) EAPOL_PAIR_MSG_2 sn data p2 rest HE ltac:(auto) HS2); [unfold data; lia|done|done|].
    destruct (HM2 rest) as (fr & F1 & F2). by exists fr.
  - apply (second_half E M S w e a sn ptk r1 r3 rsc gtk idx rsn n _ HE HR HT LP BP anonce Hn L1 B1 L3 B3); try done. apply Hinc.
Qed.

(** A station that has just been associated with an access point. *)
Definition demo_bssid : list Z := [2; 0; 0; 0; 0; 5].
Definition demo_cfg : sta_cfg := mk_stacfg true Ndis802_11AuthModeWPA2PSK Ndis802_11AESEnable.
Definition demo_table : MAC_TABLE := default start_table (sta_enter_ap demo_cfg start_table demo_bssid).
Definition demo_entry : MAC_TABLE_ENTRY := default zero_entry (Entries demo_table !! BSSID_WCID).
Definition demo_sta : wpa_sta :=
  mk_sta demo_table [2; 0; 0; 0; 0; 9] (zeros 32) Ndis802_11AESEnable (zeros 255) 0 (zeros 64) (zeros 32) 0
    (replicate 4 zero_key) WPA_802_1X_PORT_NOT_SECURED false 0 0 [].
Definition demo_env : wpa_env :=
  mk_wenv true true true true true true true (λ _, true) (zeros 16) (zeros 512) (zeros 80) (λ _, 0).

Lemma demo_reliable : reliable demo_env.
Proof. split; reflexivity. Qed.

Lemma demo_ready : ready {[demo_bssid := BSSID_WCID]} demo_sta BSSID_WCID demo_entry.
Proof.
  destruct (enter_ap_ok demo_cfg start_table ∅ demo_bssid) as (T & ET & HT & HM);
    [apply start_ok|apply start_ok|by exists zero_entry|done|done|done|].
  assert (T = demo_table) as -> by (unfold demo_table; by rewrite ET).
  split; try (vm_compute; reflexivity || discriminate); try done.
  - by left.
  - by left.
  - split; [reflexivity|solve_bytes].
  - split; [done|]. split; [simpl; lia|solve_bytes].
Qed.

Lemma wpa2_handshake_completes_witness :
  ∃ p1, ConstructEapolMsg demo_env (ap_entry demo_entry (zeros 32) [] [] [0; 0; 0; 0; 0; 0; 0; 1]) Ndis802_11AESEnable
          EAPOL_PAIR_MSG_1 0 (Some (zeros 32)) None None [] 0 zero_eapol = Some p1 ∧
  ∀ Elem1 f1, eapol_sent p1 = Some f1 → carries Elem1 demo_bssid f1 → is_Some (WpaEAPOLKeyAction demo_env demo_sta Elem1).
Proof.
  destruct (wpa2_handshake_completes demo_env {[demo_bssid := BSSID_WCID]} demo_sta BSSID_WCID demo_entry demo_entry (zeros 32)
    [0; 0; 0; 0; 0; 0; 0; 1] [0; 0; 0; 0; 0; 0; 0; 2] (zeros 6) (zeros 16) 1 (zeros 0) 0) as (p1 & H1 & H2).
  - exact demo_reliable.
  - exact demo_ready.
  - split; reflexivity.
  - reflexivity.
  - reflexivity.
  - solve_bytes.
  - reflexivity.
  - solve_bytes.
  - split; vm_compute; reflexivity.
  - simpl. lia.
  - split; [done|]. split; [lia|solve_bytes].
  - lia.
  - solve_bytes.
  - reflexivity.
  - exists p1. split; [exact H1|]. intros Elem1 f1 Hf Hc.
    destruct (H2 Elem1 f1 Hf Hc) as (S1 & _ & _ & _ & -> & _). by eexists.
Defined.

(** * Keys change on authentic, fresh frames only *)

(** Everything that protects or opens the link. *)
Definition security_of (S : wpa_sta) :=
  (SharedKey S, sta_GTK S, DefaultKeyId S, sta_PTK S, sta_PortSecured S,
   map (λ e, (PairwiseKey (wpa e), PortSecured e, PrivacyFilter e)) (Entries (MacTab S))).

Lemma security_post l S : security_of (post l S) = security_of S.
Proof. done. Qed.

Lemma security_keep w f S e :
  entry_of S w = Some e →
  PairwiseKey (wpa (f e)) = PairwiseKey (wpa e) ∧ PortSecured (f e) = PortSecured e ∧ PrivacyFilter (f e) = PrivacyFilter e →
  security_of (upd_entry w f S) = security_of S.
Proof.
  intros He Hf. unfold security_of, upd_entry, entry_of in *. simpl. f_equal. change (map ?h ?l) with (h <$> l).
  apply list_eq. intros i. rewrite !list_lookup_fmap. destruct (decide (w = i)) as [->|]; [|by rewrite list_lookup_alter_ne].
  rewrite list_lookup_alter_eq, He. simpl. destruct Hf as (-> & -> & ->). done.
Qed.

(** The frame carries the MIC of entry [e]'s pairwise key. *)
Definition mic_valid (E : wpa_env) (e : MAC_TABLE_ENTRY) (p : EAPOL_PACKET) : Prop :=
  ∃ frame, eapol_frame (set_KeyMic (zeros 16) p) = Some frame ∧
    eapol_mic E (ki_KeyDescVer (kd_KeyInfo p)) (PTK (wpa e)) frame = Some (kd_KeyMic p).

(** A frame of type [t] that PeerWpaMessageSanity lets pass for entry [e]. *)
Definition authentic (E : wpa_env) (e : MAC_TABLE_ENTRY) (p : EAPOL_PACKET) (t : Z) : Prop :=
  mic_valid E e p ∧ replay_differs t (kd_ReplayCounter p) (R_Counter (wpa e)) = false.

Lemma parse_refused S K n i t b S' : RTMPParseEapolKeyData S K n i t b = Some (false, S') → S' = S.
Proof.
  unfold RTMPParseEapolKeyData. destruct (_ || _) in |- *; [done|].
  match goal with |- mbind _ ?x = _ → _ => destruct x as [[[[ok idx] gl] g]|]; [|done] end. cbn [mbind option_bind].
  destruct ok; cbn [negb]; [|by intros [= <-]]. destruct (3 <? idx); [by intros [= <-]|].
  destruct (move _ _ _); [|done]. cbn [mbind option_bind]. by destruct (WPAInstallSharedKey _ _ _ _ _ _).
Qed.

(** What the check of a received frame decides. *)
Lemma sanity_cases E S p t e ok S' :
  PeerWpaMessageSanity E S p t e = Some (ok, S') →
  (ok = false ∨ t = EAPOL_PAIR_MSG_1 → security_of S' = security_of S) ∧ MacTab S' = MacTab S ∧
  (ok = true → replay_differs t (kd_ReplayCounter p) (R_Counter (wpa e)) = false ∧
     (t ≠ EAPOL_PAIR_MSG_1 → mic_valid E e p)).
Proof.
  unfold PeerWpaMessageSanity. destruct (al_keydata E); cbn [negb]; [|by intros [= <- <-]].
  destruct (_ || _) in |- *; [by intros [= <- <-]|].
  destruct (replay_differs t _ _) eqn:HR; [by intros [= <- <-]|].
  assert (Htab : ∀ K n i b ok S', RTMPParseEapolKeyData S K n i t b = Some (ok, S') → MacTab S' = MacTab S).
  { intros K n i b ok' S''. unfold RTMPParseEapolKeyData. destruct (_ || _) in |- *; [by intros [= _ <-]|].
    match goal with |- mbind _ ?x = _ → _ => destruct x as [[[[o idx] gl] g]|]; [|done] end. cbn [mbind option_bind].
    destruct o; cbn [negb]; [|by intros [= _ <-]]. destruct (3 <? idx); [by intros [= _ <-]|].
    destruct (move _ _ _); [|done]. cbn [mbind option_bind]. destruct (WPAInstallSharedKey _ _ _ _ _ _). by intros [= _ <-]. }
  destruct (Z.eqb_spec t EAPOL_PAIR_MSG_1) as [->|Ht]; cbn [negb mbind option_bind].
  - destruct (0 <? _); cbn; by intros [= <- <-].
  - unfold mic_valid, LEN_KEY_DESC_MIC.
    destruct (eapol_frame _) as [frame|] eqn:HF; [|done]. cbn [mbind option_bind].
    destruct (eapol_mic _ _ _ _) as [mic|] eqn:HM; [|done]. cbn [mbind option_bind].
    destruct (bool_decide (kd_KeyMic p = mic)) eqn:HE; cbn [negb]; [|by intros [= <- <-]].
    apply bool_decide_eq_true in HE as <-.
    assert (Hm : ∃ f, Some frame = Some f ∧ eapol_mic E (ki_KeyDescVer (kd_KeyInfo p)) (PTK (wpa e)) f = Some (kd_KeyMic p)) by eauto.
    destruct (0 <? _); cbn [negb]; [|by intros [= <- <-]].
    destruct (_ || _) in |- *; [destruct (clear_key_data _ _ _) as [[K n]|]; [|done]; cbn [mbind option_bind]|
      destruct (_ || _) in |- *; [destruct (move _ _ _) as [K|]; [|done]; cbn [mbind option_bind]|by intros [= <- <-]]];
      intros HP; (split; [intros [->|?]; [by apply parse_refused in HP as ->|done]|]); split; try done; by eapply Htab.
Qed.


(** The start every action shares: no entry, a wrong type or a refused frame
    leaves the keys alone. *)
Lemma checked_action (E : wpa_env) S w p t (k : MAC_TABLE_ENTRY → wpa_sta → option wpa_sta) e S' :
  entry_of S w = Some e → t ≠ EAPOL_PAIR_MSG_1 →
  ('(ok, S1) ← PeerWpaMessageSanity E S p t e; if negb ok then Some S1 else k e S1) = Some S' →
  security_of S' = security_of S ∨ authentic E e p t.
Proof.
  intros _ Ht. destruct (PeerWpaMessageSanity E S p t e) as [[ok S1]|] eqn:HP; [|done]. cbn [mbind option_bind].
  destruct (sanity_cases _ _ _ _ _ _ _ HP) as (H1 & _ & H3). destruct ok; cbn [negb].
  - intros _. right. destruct (H3 eq_refl) as [? Hm]. split; auto.
  - intros [= <-]. left. auto.
Qed.

Lemma msg1_keeps_keys E S w Elem S' : PeerPairMsg1Action E S w Elem = Some S' → security_of S' = security_of S.
Proof.
  unfold PeerPairMsg1Action. destruct (entry_of S w) as [e|] eqn:He; [|done]. cbn [mbind option_bind].
  do 2 (case_match; [by intros [= <-]|]).
  destruct (PeerWpaMessageSanity E S _ _ e) as [[ok S1]|] eqn:HP; [|done]. cbn [mbind option_bind].
  destruct (sanity_cases _ _ _ _ _ _ _ HP) as (H1 & HT & _). specialize (H1 (or_intror eq_refl)).
  destruct ok; cbn [negb]; [|by intros [= <-]].
  destruct (GenRandom _ _) as [sn|]; [|done]. cbn [mbind option_bind].
  destruct (WpaDerivePTK _ _ _ _ _ _ _ _) as [ptk|]; [|done]. cbn [mbind option_bind].
  set (d := mk_wpa _ _ _ _ _ _).
  assert (Hu : security_of (upd_entry w (set_wpa d) S1) = security_of S).
  { rewrite <- H1. apply security_keep with e; [unfold entry_of in *; by rewrite HT|done]. }
  case_match; [by intros [= <-]|].
  destruct (ConstructEapolMsg _ _ _ _ _ _ _ _ _ _ _) as [q|]; [|done]. cbn [mbind option_bind].
  unfold send_eapol. destruct (eapol_sent q); [|done]. cbn [mbind option_bind]. intros [= <-]. by rewrite security_post.
Qed.

Lemma msg2_keeps_keys S w Elem S' : PeerPairMsg2Action S w Elem = Some S' → security_of S' = security_of S.
Proof.
  unfold PeerPairMsg2Action. destruct (entry_of S w) as [e|] eqn:He; [|done]. cbn [mbind option_bind].
  do 3 (case_match; [by intros [= <-]|]). intros [= <-]. by apply security_keep with e.
Qed.

(** Each action that can touch the keys. *)
Lemma action_authentic E S w e Elem S' :
  entry_of S w = Some e →
  (PeerPairMsg3Action E S w Elem = Some S' → security_of S' = security_of S ∨ authentic E e (eapol_in Elem) EAPOL_PAIR_MSG_3) ∧
  (PeerGroupMsg1Action E S w Elem = Some S' → security_of S' = security_of S ∨ authentic E e (eapol_in Elem) EAPOL_GROUP_MSG_1) ∧
  (PeerPairMsg4Action E S w Elem = Some S' → security_of S' = security_of S ∨ authentic E e (eapol_in Elem) EAPOL_PAIR_MSG_4) ∧
  (PeerGroupMsg2Action E S w Elem = Some S' → security_of S' = security_of S ∨ authentic E e (eapol_in Elem) EAPOL_GROUP_MSG_2).
Proof.
  intros He. unfold PeerPairMsg3Action, PeerGroupMsg1Action, PeerPairMsg4Action, PeerGroupMsg2Action.
  rewrite He. cbn [mbind option_bind].
  repeat split; repeat (match goal with |- (if ?b then Some S else _) = _ → _ => destruct b; [intros [= <-]; by left|] end).
  - apply (checked_action E S w (eapol_in Elem) EAPOL_PAIR_MSG_3 (λ e S, _) e); done.
  - apply (checked_action E S w (eapol_in Elem) EAPOL_GROUP_MSG_1 (λ e S, _) e); done.
  - apply (checked_action E S w (eapol_in Elem) EAPOL_PAIR_MSG_4 (λ e S, _) e); done.
  - apply (checked_action E S w (eapol_in Elem) EAPOL_GROUP_MSG_2 (λ e S, _) e); done.
Qed.

(** The counter of a frame that passed, against the one stored: frames of an
    authenticator must carry a larger one, or zero; answers the same. *)
Lemma replay_passed t r stored :
  length r = 8%nat → length stored = 8%nat → bytes r → bytes stored → replay_differs t r stored = false →
  if (t =? EAPOL_PAIR_MSG_1) || (t =? EAPOL_PAIR_MSG_3) || (t =? EAPOL_GROUP_MSG_1)
  then be_word stored < be_word r ∨ r = zeros 8 else r = stored.
Proof.
  intros Hr Hs Br Bs. unfold replay_differs, RTMPCompareMemory, LEN_KEY_DESC_REPLAY.
  rewrite !(take_ge r), !(take_ge stored), (take_ge (zeros 8)) by (rewrite ?length_zeros; lia).
  destruct (_ || _) in |- *; [|intros H; by apply negb_false_iff, bool_decide_eq_true in H].
  rewrite !compare_loop_spec by (rewrite ?length_zeros; done || lia || apply bytes_zeros).
  destruct (Z.compare_spec (be_word r) (be_word stored)) as [He|He|He]; [| |by left].
  all: destruct (Z.compare_spec (be_word r) (be_word (zeros 8))) as [H0|H0|H0]; try done; intros _; right;
    apply be_word_inj; [by rewrite Hr, length_zeros|done|apply bytes_zeros|done].
Qed.

(** What a frame that changes the keys must be. *)
Definition accepted (E : wpa_env) (e : MAC_TABLE_ENTRY) (p : EAPOL_PACKET) : Prop :=
  ∃ t, authentic E e p t ∧
    if ki_KeyAck (kd_KeyInfo p) =? 1 then t = EAPOL_PAIR_MSG_3 ∨ t = EAPOL_GROUP_MSG_1
    else t = EAPOL_PAIR_MSG_4 ∨ t = EAPOL_GROUP_MSG_2.

Lemma dispatch_authentic E S w e Elem S' :
  entry_of S w = Some e → key_action E S w Elem = Some S' →
  security_of S' = security_of S ∨ accepted E e (eapol_in Elem).
Proof.
  intros He. destruct (action_authentic E S w e Elem S' He) as (A3 & G1 & A4 & G2).
  unfold key_action, accepted. destruct (_ =? 1) in |- *.
  - repeat case_match; intros HA;
      solve [left; by apply msg1_keeps_keys in HA | left; by injection HA as <-
            | destruct (A3 HA) as [?|?]; [by left|right; eauto] | destruct (G1 HA) as [?|?]; [by left|right; eauto]].
  - repeat case_match; intros HA;
      solve [left; by apply msg2_keeps_keys in HA | left; by injection HA as <-
            | destruct (A4 HA) as [?|?]; [by left|right; eauto] | destruct (G2 HA) as [?|?]; [by left|right; eauto]].
Qed.

(** C20: Nothing that protects the link changes without a key: whatever frame
    WpaEAPOLKeyAction is given from a peer with TKIP or AES, if the pairwise
    key of an entry, a group key, the default key index, the station's PTK, a
    port or a privacy filter differs afterwards, then the frame carries the
    MIC that the peer's PTK gives over it, by one of the three algorithms of
    the key descriptor, and its replay counter is new: larger than the stored
    one, or zero, for a frame that asks for an answer, the stored one for an
    answer. *)
Theorem keys_need_mic E S w e Elem S' (Hlook : MacTableLookup (MacTab S) (slice (el_Msg Elem) 10 6) = Some (Some w))
    (He : entry_of S w = Some e) (Hc : WepStatus e = Ndis802_11TKIPEnable ∨ WepStatus e = Ndis802_11AESEnable)
    (Hl : length (R_Counter (wpa e)) = 8%nat) (Hb : bytes (R_Counter (wpa e)))
    (Hr : length (kd_ReplayCounter (eapol_in Elem)) = 8%nat) (Br : bytes (el_Msg Elem))
    (Hact : WpaEAPOLKeyAction E S Elem = Some S') (Hch : security_of S' ≠ security_of S) :
  let p := eapol_in Elem in let k := kd_KeyInfo p in
  mic_valid E e p ∧ (ki_KeyDescVer k = KEY_DESC_TKIP ∨ ki_KeyDescVer k = KEY_DESC_AES ∨ ki_KeyDescVer k = KEY_DESC_EXT) ∧
  if ki_KeyAck k =? 1
  then be_word (R_Counter (wpa e)) < be_word (kd_ReplayCounter p) ∨ kd_ReplayCounter p = zeros 8
  else kd_ReplayCounter p = R_Counter (wpa e).
Proof.
  intros p k. revert Hact. unfold WpaEAPOLKeyAction. rewrite Hlook. cbn [mbind option_bind]. rewrite He. cbn [mbind option_bind].
  repeat (match goal with |- (if ?b then Some S else _) = _ → _ => destruct b eqn:?; [by intros [= <-]|] end).
  destruct (_ && _) in |- *; [|by intros [= <-]]. intros HA.
  destruct (dispatch_authentic _ _ _ _ _ _ He HA) as [?|(t & [HM HR] & Ht)]; [done|].
  split; [done|]. split.
  - match goal with H : negb (version_ok _ _) = false |- _ => apply negb_false_iff in H; revert H end.
    unfold version_ok, p, k. destruct Hc as [-> | ->]; cbn -[eapol_in ki_KeyDescVer kd_KeyInfo];
    repeat (match goal with |- context [?a =? ?b] => destruct (Z.eqb_spec a b) end; cbn -[eapol_in ki_KeyDescVer kd_KeyInfo]; auto); done.
  - apply replay_passed in HR; [|done..|apply bytes_slice, bytes_drop, Br|done]. fold p k in HR, Ht |- *.
    destruct (ki_KeyAck k =? 1); destruct Ht as [-> | ->]; exact HR.
Qed.

(** The same station in the middle of a handshake, all of its nonces and its
    PTK zero, and a frame [p] of the access point. *)
Definition negotiating : wpa_sta :=
  upd_entry BSSID_WCID (set_wpa (mk_wpa (zeros 32) (zeros 32) (zeros 8) (zeros 64) AS_PTKINIT_NEGOTIATING zero_key)) demo_sta.
Definition elem_of (p : option EAPOL_PACKET) : MLME_QUEUE_ELEM :=
  let f := default [] (p ← p; eapol_sent p) in
  mk_qelem (zeros 10 ++ demo_bssid ++ zeros 16 ++ f) 0 0 (32 + Z.of_nat (length f)) (0, 0) (0, 0, 0) 0 0 0 true 0 0.
Definition demo_msg3 (r : Z) : MLME_QUEUE_ELEM :=
  elem_of (ConstructEapolMsg demo_env (ap_entry demo_entry (zeros 32) (zeros 32) (zeros 64) (be_bytes 8 r)) Ndis802_11AESEnable
    EAPOL_PAIR_MSG_3 1 (Some (zeros 32)) (Some (zeros 6)) (Some (zeros 16)) [] 0 zero_eapol).

Lemma keys_need_mic_witness :
  mic_valid demo_env (default zero_entry (entry_of negotiating BSSID_WCID)) (eapol_in (demo_msg3 1)) ∧
  security_of (default negotiating (WpaEAPOLKeyAction demo_env negotiating (demo_msg3 1))) ≠ security_of negotiating.
Proof.
  assert (H : security_of (default negotiating (WpaEAPOLKeyAction demo_env negotiating (demo_msg3 1))) ≠ security_of negotiating)
    by (vm_compute; discriminate).
  split; [|exact H].
  destruct (keys_need_mic demo_env negotiating BSSID_WCID (default zero_entry (entry_of negotiating BSSID_WCID)) (demo_msg3 1)
    (default negotiating (WpaEAPOLKeyAction demo_env negotiating (demo_msg3 1)))) as [HM _].
  - vm_compute. reflexivity.
  - vm_compute. reflexivity.
  - right. vm_compute. reflexivity.
  - reflexivity.
  - apply bytes_check. vm_compute. reflexivity.
  - vm_compute. reflexivity.
  - apply bytes_check. vm_compute. reflexivity.
  - vm_compute. reflexivity.
  - exact H.
  - exact HM.
Defined.

(** * Boundary behaviour *)

Definition run (S : wpa_sta) (l : list MLME_QUEUE_ELEM) : option wpa_sta :=
  foldl (λ S m, S ← S; WpaEAPOLKeyAction demo_env S m) (Some S) l.
(** The packet numbers that were set, in order. *)
Definition iv_resets (S : wpa_sta) : list (Z * Z) :=
  omap (λ ev, match ev with Ev_AsicUpdateWCIDIVEIV _ iv eiv => Some (iv, eiv) | _ => None end) (w_events S).
Definition pairwise_of (S : wpa_sta) : option CIPHER_KEY := e ← entry_of S BSSID_WCID; Some (PairwiseKey (wpa e)).

(** A second message 3 with a larger counter installs the key that is already
    in use again and sets the packet number back. *)
Example msg3_again_resets_iv :
  (iv_resets <$> run negotiating [demo_msg3 1]) = Some [(0x20000001, 0)] ∧
  (iv_resets <$> run negotiating [demo_msg3 1; demo_msg3 2]) = Some [(0x20000001, 0); (0x20000001, 0)] ∧
  (pairwise_of <$> run negotiating [demo_msg3 1]) = (pairwise_of <$> run negotiating [demo_msg3 1; demo_msg3 2]).
Proof. vm_compute. auto. Qed.

(** Message 3 with the counter zero is taken again and again. *)
Example msg3_zero_replayed :
  (iv_resets <$> run negotiating [demo_msg3 7; demo_msg3 0; demo_msg3 0]) =
  Some [(0x20000001, 0); (0x20000001, 0); (0x20000001, 0)].
Proof. vm_compute. auto. Qed.

(** The station's own message 4, sent back to it, is handled as by an
    authenticator and sets the packet number back as well. *)
Definition reflected (S : wpa_sta) : MLME_QUEUE_ELEM :=
  match last (w_events S) with
  | Some (Ev_ToWirelessSta _ _ f _) =>
      mk_qelem (zeros 10 ++ demo_bssid ++ zeros 16 ++ f) 0 0 (32 + Z.of_nat (length f)) (0, 0) (0, 0, 0) 0 0 0 true 0 0
  | _ => demo_msg3 0
  end.

Example msg4_reflected_resets_iv :
  (S1 ← run negotiating [demo_msg3 1]; S2 ← run S1 [reflected S1]; Some (iv_resets S1, iv_resets S2)) =
  Some ([(0x20000001, 0)], [(0x20000001, 0); (0x20000001, 0)]).
Proof. vm_compute. auto. Qed.

(** A GTK element of more than 38 bytes is copied past the end of the 32-byte
    array. *)
Example gtk_element_overflows :
  RTMPParseEapolKeyData demo_sta ([WPA_KDE_TYPE; 39] ++ OUI_WPA2 ++ [KDE_GTK; 1; 0] ++ zeros 247) 41 0 EAPOL_PAIR_MSG_3 true = None ∧
  is_Some (RTMPParseEapolKeyData demo_sta ([WPA_KDE_TYPE; 38] ++ OUI_WPA2 ++ [KDE_GTK; 1; 0] ++ zeros 247) 40 0 EAPOL_PAIR_MSG_3 true).
Proof. split; [vm_compute; reflexivity|eexists; vm_compute; reflexivity]. Qed.

(** An element that announces fewer than 6 bytes gets a length near 256. *)
Example gtk_length_wraps :
  RTMPParseEapolKeyData demo_sta ([WPA_KDE_TYPE; 5] ++ OUI_WPA2 ++ [KDE_GTK; 1; 0] ++ zeros 247) 7 0 EAPOL_PAIR_MSG_3 true = None.
Proof. vm_compute. reflexivity. Qed.

(** Key data of more than 255 bytes overflows the buffer it is moved to. *)
Example key_data_overflows p :
  kd_KeyDataLen p = [1; 0] → kd_KeyData p = zeros 256 → ki_KeyDescVer (kd_KeyInfo p) = KEY_DESC_TKIP →
  clear_key_data demo_env p (zeros 64) = None.
Proof. intros H1 H2 H3. unfold clear_key_data. rewrite H1, H2, H3. reflexivity. Qed.

(** Key data without a GTK element still replaces key 0, by an empty key that
    the chip is not told about. *)
Example no_gtk_wipes_key :
  (λ '(ok, S1), (ok, KeyLen <$> (SharedKey S1 !! 0%nat), DefaultKeyId S1, w_events S1)) <$>
    RTMPParseEapolKeyData demo_sta (zeros 255) 8 0 EAPOL_GROUP_MSG_1 true = Some (true, Some 0, 0, []).
Proof. vm_compute. reflexivity. Qed.

(** Every group key element in [data], wherever it starts, announces a key of
    at most 32 bytes. *)
Definition gtk_fits (data : list Z) : Prop :=
  ∀ o l, data !! o = Some WPA_KDE_TYPE → slice data (o + 2) 3 = OUI_WPA2 → data !! (o + 5)%nat = Some KDE_GTK →
    data !! (o + 1)%nat = Some l → 6 ≤ l ≤ 38.

Lemma byte_lookup (data : list Z) i x : bytes data → data !! i = Some x → 0 ≤ x < 256.
Proof. intros Hb H. exact (proj1 (Forall_lookup _ _) Hb i x H). Qed.

(** The walk ends in the buffer, with an index below 4 and a key of at most 32
    bytes. *)
Lemma kde_loop_total data len : bytes data → length data = MAX_LEN_OF_RSNIE → gtk_fits data → len ≤ 248 →
  ∀ f skip idx gl g, 0 ≤ skip ≤ len → len - skip < 2 * Z.of_nat f → 0 ≤ idx < 4 → 0 ≤ gl ≤ 32 → length g = 32%nat →
  ∃ ok idx' gl' g', kde_loop f data len skip idx gl g = Some (ok, idx', gl', g') ∧ 0 ≤ idx' < 4 ∧ 0 ≤ gl' ≤ 32 ∧ length g' = 32%nat.
Proof.
  intros Hb HL Hf Hlen. unfold MAX_LEN_OF_RSNIE in HL. induction f as [|f IH]; intros skip idx gl g Hs Hm Hi Hgl Hg; [lia|].
  cbn [kde_loop]. replace (Z.to_nat (skip + 1)) with (Z.to_nat skip + 1)%nat by lia.
  replace (Z.to_nat (skip + 5)) with (Z.to_nat skip + 5)%nat by lia. replace (Z.to_nat (skip + 6)) with (Z.to_nat skip + 6)%nat by lia.
  set (o := Z.to_nat skip) in *.
  assert (Hget : ∀ i, (i ≤ 254)%nat → ∃ x, data !! i = Some x ∧ 0 ≤ x < 256).
  { intros i Hle. destruct (lookup_lt_is_Some_2 data i) as [x Hx]; [lia|]. exists x. split; [done|by eapply byte_lookup]. }
  destruct (Hget (o + 1)%nat) as (L & E1 & HLb); [lia|]. rewrite E1. cbn [mbind option_bind].
  destruct (Z.leb_spec (skip + 2 + L) len) as [Hle|]; cbn [negb]; [|by exists true, idx, gl, g].
  destruct (Hget o) as (eid & E0 & _); [lia|]. rewrite E0. cbn [mbind option_bind].
  rewrite (wrap_id 8 (skip + 2 + L)) by (lia || (unfold in_range; lia)).
  destruct (Z.eqb_spec eid WPA_KDE_TYPE) as [->|]; cbn [negb]; [|apply IH; lia].
  assert (in_buf data (o + 2) 3 = true) as -> by (unfold in_buf; apply Nat.leb_le; lia). cbn [negb].
  destruct (bool_decide _) eqn:HO; cbn [negb]; [apply bool_decide_eq_true in HO|apply IH; lia].
  destruct (Hget (o + 5)%nat) as (dt & E5 & _); [lia|]. rewrite E5. cbn [mbind option_bind].
  destruct (Z.eqb_spec dt KDE_GTK) as [->|]; cbn [negb]; [|apply IH; lia].
  destruct (Hget (o + 6)%nat) as (kid & E6 & _); [lia|]. rewrite E6. cbn [mbind option_bind].
  pose proof (Hf o L E0 HO E5 E1) as H38. rewrite (wrap_id 8 (L - 6)) by (lia || (unfold in_range; lia)).
  assert (Hk : 0 ≤ wrap 2 kid < 4) by (apply (wrap_range 2 kid); lia).
  destruct (_ <? LEN_WEP64); [by exists false, (wrap 2 kid), (L - 6), g; repeat split; lia|].
  rewrite move_all by (rewrite ?length_drop; lia). cbn [mbind option_bind]. apply IH; try lia.
  rewrite length_bwrite; [lia|]. rewrite length_take, length_drop. lia.
Qed.

(** C21: The key data of message 3 and of the group message in WPA2 mode is
    parsed inside its buffers, for key data of at most 248 bytes and under a
    condition on the contents of the 255-byte buffer: at every offset where the
    type of a key element, a length and the OUI and number of a group key follow each other, the
    length stands for 6 to 38 bytes (the 6 bytes in front of the key, and a
    key of at most 32; a shorter one makes the key length wrap, a longer one
    overflows the key, [gtk_length_wraps] and [gtk_element_overflows]).  Then the walk ends,
    reads and writes nothing outside the buffer, the 32-byte key and the
    station's key, and either refuses and leaves the station as it was or
    makes one of the four group keys the default and changes no other one. *)
Theorem key_data_parse_safe S data len gi t (Hb : bytes data) (HL : length data = MAX_LEN_OF_RSNIE) (Hf : gtk_fits data)
    (Hlen : 0 ≤ len ≤ 248) (Ht : t = EAPOL_PAIR_MSG_3 ∨ t = EAPOL_GROUP_MSG_1)
    (Hg : length (sta_GTK S) = 32%nat) (Hk : length (SharedKey S) = 4%nat) :
  ∃ ok S', RTMPParseEapolKeyData S data len gi t true = Some (ok, S') ∧ (ok = false → S' = S) ∧
    (ok = true → 0 ≤ DefaultKeyId S' < 4 ∧ length (sta_GTK S') = 32%nat ∧
       ∀ i, i ≠ Z.to_nat (DefaultKeyId S') → SharedKey S' !! i = SharedKey S !! i).
Proof.
  destruct (kde_loop_total data len Hb HL Hf ltac:(lia) kde_fuel 0 0 0 (zeros MAX_LEN_GTK))
    as (ok & idx & gl & g & E & Hi & Hgl & Hlg); [unfold kde_fuel; cbn; lia..|done|].
  unfold RTMPParseEapolKeyData. rewrite (wrap_id 8 len) by (lia || (unfold in_range; lia)).
  destruct Ht as [-> | ->]; cbn -[kde_loop kde_fuel zeros move WPAInstallSharedKey Z.ltb]; rewrite E; cbn [mbind option_bind];
    (destruct ok; cbn [negb]; [|by exists false, S]);
    rewrite (proj2 (Z.ltb_ge _ _)), move_all by lia; cbn [mbind option_bind];
    destruct (WPAInstallSharedKey _ _ _ _ _ _) as [k ev]; eexists true, _; (split; [done|]); (split; [done|]); intros _;
    cbn -[bwrite insert lookup]; (split; [lia|]); (split; [rewrite length_bwrite; [done|rewrite length_take; lia]|]);
    intros i Hne; by apply list_lookup_insert_ne.
Qed.

Lemma key_data_parse_safe_witness :
  ∃ S', RTMPParseEapolKeyData demo_sta (zeros 255) 8 0 EAPOL_GROUP_MSG_1 true = Some (true, S').
Proof.
  destruct (key_data_parse_safe demo_sta (zeros 255) 8 0 EAPOL_GROUP_MSG_1) as (ok & S' & E & _).
  - apply bytes_zeros.
  - reflexivity.
  - intros o l H. exfalso. revert H. unfold zeros. intros [? ?]%lookup_replicate. discriminate.
  - lia.
  - right. reflexivity.
  - reflexivity.
  - reflexivity.
  - exists S'. rewrite E. f_equal. f_equal. revert E. vm_compute. congruence.
Defined.

(** In WPA mode the reflected message 4 makes the station start the group key
    handshake of an access point, with a null pointer for the nonce. *)
Definition wpa1_table : MAC_TABLE :=
  default start_table (sta_enter_ap (mk_stacfg true Ndis802_11AuthModeWPAPSK Ndis802_11AESEnable) start_table demo_bssid).
Definition wpa1_negotiating : wpa_sta :=
  upd_entry BSSID_WCID (set_wpa (mk_wpa (zeros 32) (zeros 32) (zeros 8) (zeros 64) AS_PTKINIT_NEGOTIATING zero_key))
    (set_MacTab wpa1_table demo_sta).
Definition wpa1_msg4 : MLME_QUEUE_ELEM :=
  elem_of (e ← entry_of wpa1_negotiating BSSID_WCID;
           ConstructEapolMsg demo_env e Ndis802_11AESEnable EAPOL_PAIR_MSG_4 0 None None None [] 0 zero_eapol).

Example msg4_null_nonce :
  (99 ≤ length (drop 32 (el_Msg wpa1_msg4)))%nat ∧
  run wpa1_negotiating [wpa1_msg4] = None.
Proof. split; [vm_compute; lia|vm_compute; reflexivity]. Qed.
