(* ===== verification/Ccmp.v ===== *)
(** CCMP, the software encapsulation of an AES frame: src/common/cmm_aes.c.

    The AAD and the nonce are built from the 802.11 header, the PN travels in
    an 8-byte CCMP header in front of the cipher text, and a frame is
    decrypted in place over that header.  The build has no DOT11W_PMF
    support, so the management bit of the nonce is not set. *)

From S2P Require Import Prelude CipherKey AesTables Aes BlockCipher AesCcm.

Definition MAC_ADDR_LEN : nat := 6.
Definition FC_TYPE_DATA : Z := 2.

(** * Headers *)

(** [aad_hdr] and [*aad_len] from a zeroed buffer of 30 bytes; [pHdr] is the
    802.11 header. *)
Definition RTMPConstructCCMPAAD (pHdr : list Z) (isDataFrame a4_exists qc_exists : bool)
    : list Z * nat :=
  let aad_hdr := zeros 30 in
  let aad_hdr := if isDataFrame then aset aad_hdr 0 (Z.land (aget pHdr 0) 0x8f)
                 else aset aad_hdr 0 (aget pHdr 0) in
  let aad_hdr := aset aad_hdr 1 (Z.land (aget pHdr 1) 0xc7) in
  let aad_hdr := aset aad_hdr 1 (Z.lor (aget aad_hdr 1) 0x40) in
  let len := 2%nat in
  let aad_hdr := bwrite aad_hdr len (slice pHdr 4 (3 * MAC_ADDR_LEN)) in
  let len := (len + 3 * MAC_ADDR_LEN)%nat in
  let aad_hdr := aset aad_hdr (Z.of_nat len) (Z.land (aget pHdr 22) 0x0f) in
  let aad_hdr := aset aad_hdr (Z.of_nat (len + 1)) 0x00 in
  let len := (len + 2)%nat in
  let '(aad_hdr, len) :=
    if a4_exists then (bwrite aad_hdr len (slice pHdr 24 MAC_ADDR_LEN), (len + MAC_ADDR_LEN)%nat)
    else (aad_hdr, len) in
  if qc_exists && a4_exists then
    (aset (aset aad_hdr (Z.of_nat len) (Z.land (aget pHdr 30) 0x0f)) (Z.of_nat (len + 1)) 0x00,
     (len + 2)%nat)
  else if qc_exists && negb a4_exists then
    (aset (aset aad_hdr (Z.of_nat len) (Z.land (aget pHdr 24) 0x0f)) (Z.of_nat (len + 1)) 0x00,
     (len + 2)%nat)
  else (aad_hdr, len).

(** [nonce_hdr] and [*nonce_hdr_len] from a zeroed buffer of 13 bytes. *)
Definition RTMPConstructCCMPNonce (pHdr : list Z) (a4_exists qc_exists : bool) (pn : list Z)
    : list Z * nat :=
  let nonce_hdr := zeros 13 in
  let nonce_hdr := if qc_exists && a4_exists
                   then aset nonce_hdr 0 (Z.land (aget pHdr 30) 0x0f) else nonce_hdr in
  let nonce_hdr := if qc_exists && negb a4_exists
                   then aset nonce_hdr 0 (Z.land (aget pHdr 24) 0x0f) else nonce_hdr in
  let n_offset := 1%nat in
  let nonce_hdr := bwrite nonce_hdr n_offset (slice pHdr 10 MAC_ADDR_LEN) in
  let n_offset := (n_offset + MAC_ADDR_LEN)%nat in
  let nonce_hdr := foldl (λ h i, aset h (Z.of_nat (n_offset + i)) (aget pn (5 - Z.of_nat i)))
                     nonce_hdr (seq 0 6) in
  let n_offset := (n_offset + LEN_PN)%nat in
  (nonce_hdr, n_offset).

Definition RTMPConstructCCMPHdr (key_idx : Z) (pn : list Z) : list Z :=
  let ccmp_hdr := zeros LEN_CCMP_HDR in
  let ccmp_hdr := aset ccmp_hdr 0 (aget pn 0) in
  let ccmp_hdr := aset ccmp_hdr 1 (aget pn 1) in
  let ccmp_hdr := aset ccmp_hdr 3 (u8 (Z.lor (Z.shiftl key_idx 6) 0x20)) in
  let ccmp_hdr := aset ccmp_hdr 4 (aget pn 2) in
  let ccmp_hdr := aset ccmp_hdr 5 (aget pn 3) in
  let ccmp_hdr := aset ccmp_hdr 6 (aget pn 4) in
  aset ccmp_hdr 7 (aget pn 5).

(** The fields both directions read from the header: whether it is a data
    frame, whether it has a fourth address, whether it has a QoS field. *)
Definition frame_type (pHdr : list Z) : Z := Z.land (Z.shiftr (aget pHdr 0) 2) 0x03.
Definition frame_subtype (pHdr : list Z) : Z := Z.land (Z.shiftr (aget pHdr 0) 4) 0x0f.
Definition hdr_a4_exists (pHdr : list Z) : bool :=
  let from_ds := Z.shiftr (Z.land (aget pHdr 1) 0x2) 1 in
  let to_ds := Z.land (aget pHdr 1) 0x1 in
  negb (Z.land from_ds to_ds =? 0).
Definition hdr_qc_exists (pHdr : list Z) : bool :=
  if frame_type pHdr =? FC_TYPE_DATA
  then (frame_subtype pHdr =? 8) || (frame_subtype pHdr =? 9) || (frame_subtype pHdr =? 10)
       || (frame_subtype pHdr =? 11)
  else false.

Definition ccmp_aad (pHdr : list Z) : list Z :=
  let '(aad_hdr, aad_len) :=
    RTMPConstructCCMPAAD pHdr (frame_type pHdr =? FC_TYPE_DATA) (hdr_a4_exists pHdr)
      (hdr_qc_exists pHdr) in
  take aad_len aad_hdr.

Definition ccmp_nonce (pHdr pn : list Z) : list Z :=
  let '(nonce_hdr, nonce_hdr_len) :=
    RTMPConstructCCMPNonce pHdr (hdr_a4_exists pHdr) (hdr_qc_exists pHdr) pn in
  take nonce_hdr_len nonce_hdr.

(** * Frames *)

Section Ccmp.
Context `{C : BlockCalls} (junk : list Z).

(** The result and the data buffer. *)
Definition RTMPSoftEncryptCCMP (pHdr pIV pKey pData : list Z) (DataLen : Z)
    : option (bool * list Z) :=
  let out_len := u32 (DataLen + 8) in
  '(r, pData, _) ← AES_CCM_Encrypt pKey 16 0 junk pData 0 DataLen (ccmp_nonce pHdr pIV)
                     (ccmp_aad pHdr) (Z.of_nat LEN_CCMP_MIC) 0 out_len;
  Some (r =? 0, pData).

(** The result, the data buffer and the length. *)
Definition RTMPSoftDecryptCCMP (pHdr : list Z) (pKey : CIPHER_KEY) (pData : list Z)
    (DataLen : Z) : option (bool * list Z * Z) :=
  let out_len := DataLen in
  if KeyLen pKey =? 0 then Some (false, pData, DataLen)
  else
    let pn := [aget pData 0; aget pData 1; aget pData 4; aget pData 5; aget pData 6; aget pData 7] in
    let cipherData_len := u32 (DataLen - Z.of_nat LEN_CCMP_HDR) in
    if DataLen <=? Z.of_nat LEN_CCMP_HDR then Some (false, pData, DataLen)
    else
      '(r, pData, out_len) ← AES_CCM_Decrypt (Key pKey) 16 0 junk pData LEN_CCMP_HDR cipherData_len
                               (ccmp_nonce pHdr pn) (ccmp_aad pHdr) (Z.of_nat LEN_CCMP_MIC) 0 out_len;
      if r =? 0 then Some (true, pData, u16 out_len) else Some (false, pData, DataLen).
End Ccmp.

(** * Shape of the AAD and of the nonce *)

Lemma length_aset l i v : length (aset l i v) = length l.
Proof. apply length_insert. Qed.

Lemma bytes_aset l i v : bytes l → byte v → bytes (aset l i v).
Proof. intros. by apply Forall_insert. Qed.

Lemma byte_land x y : byte x → byte (Z.land x y).
Proof. by apply in_range_land_l. Qed.

#[local] Hint Resolve bytes_aset bytes_slice byte_land : word.

Lemma ccmp_aad_ok pHdr :
  bytes pHdr → bytes (ccmp_aad pHdr) ∧ Z.of_nat (length (ccmp_aad pHdr)) < 0xFF00.
Proof.
  intros Hb. unfold ccmp_aad, RTMPConstructCCMPAAD. cbv zeta.
  assert (Hlor : ∀ x, byte x → byte (Z.lor x 0x40)) by (intros; by apply in_range_lor).
  set (h0 := if frame_type pHdr =? FC_TYPE_DATA then _ else _).
  assert (H0 : bytes h0) by (unfold h0; destruct (_ =? _); auto with word).
  set (h1 := aset (aset (bwrite _ _ _) _ _) _ _).
  assert (H1 : bytes h1) by (unfold h1; auto 15 with word).
  destruct (hdr_a4_exists pHdr), (hdr_qc_exists pHdr); cbn [andb negb];
    (split; [auto 15 with word|]);
    match goal with |- Z.of_nat (length (take ?n ?l)) < _ =>
      pose proof (length_take l n); change n with ltac:(let v := eval vm_compute in n in exact v) in *; lia end.
Qed.

Lemma foldl_aset_ok (f : nat → Z) (g : nat → Z) l : ∀ h,
  bytes h → (∀ i, byte (f i)) →
  bytes (foldl (λ h i, aset h (g i) (f i)) h l) ∧
  length (foldl (λ h i, aset h (g i) (f i)) h l) = length h.
Proof.
  induction l as [|i l IH]; intros h Hh Hf; simpl; [done|].
  destruct (IH (aset h (g i) (f i))) as [I1 I2]; [auto with word|done|].
  by rewrite I2, length_aset.
Qed.

Lemma ccmp_nonce_ok pHdr pn :
  bytes pHdr → (16 ≤ length pHdr)%nat → bytes pn → nonce_ok (ccmp_nonce pHdr pn).
Proof.
  intros Hb Hl Hp. unfold ccmp_nonce, RTMPConstructCCMPNonce. cbv zeta.
  set (h0 := if hdr_qc_exists pHdr && negb _ then _ else _).
  assert (H0 : bytes h0 ∧ length h0 = 13%nat).
  { unfold h0. destruct (hdr_a4_exists pHdr), (hdr_qc_exists pHdr); cbn [andb negb];
      rewrite ?length_aset; auto 10 with word. }
  destruct H0 as [H0 H0l].
  set (h1 := bwrite h0 1 _).
  assert (H1 : bytes h1) by (unfold h1; auto with word).
  assert (H1l : length h1 = 13%nat).
  { unfold h1. rewrite length_bwrite; [done|]. unfold slice. rewrite length_take, length_drop.
    unfold MAC_ADDR_LEN. lia. }
  destruct (foldl_aset_ok (λ i, aget pn (5 - Z.of_nat i))
    (λ i, Z.of_nat (1 + MAC_ADDR_LEN + i)) (seq 0 6) h1 H1) as [I1 I2]; [auto with word|].
  rewrite take_ge by (rewrite I2, H1l; unfold MAC_ADDR_LEN, LEN_PN; lia).
  split; [|exact I1]. rewrite I2. lia.
Qed.

(** * Header fields that may change on the way *)

(** Two headers that differ at most in the fields CCMP does not protect:
    Retry, power management, more data and protected bits, duration,
    sequence number and the upper QoS bits. *)
Definition same_protected (h h' : list Z) : Prop :=
  aget h 0 = aget h' 0 ∧ Z.land (aget h 1) 0x87 = Z.land (aget h' 1) 0x87 ∧
  slice h 4 18 = slice h' 4 18 ∧ Z.land (aget h 22) 0x0f = Z.land (aget h' 22) 0x0f ∧
  (if hdr_a4_exists h
   then slice h 24 6 = slice h' 24 6 ∧ Z.land (aget h 30) 0x0f = Z.land (aget h' 30) 0x0f
   else Z.land (aget h 24) 0x0f = Z.land (aget h' 24) 0x0f).

Lemma land_mask x y m k : Z.land x m = Z.land y m → Z.land k m = k → Z.land x k = Z.land y k.
Proof.
  intros H Hk. rewrite <- Hk, (Z.land_comm k m), !Z.land_assoc. by rewrite H.
Qed.

Lemma lor_mask x y :
  Z.land x 0x87 = Z.land y 0x87 → Z.lor (Z.land x 0xc7) 0x40 = Z.lor (Z.land y 0xc7) 0x40.
Proof.
  intros H. assert (E : ∀ v, Z.lor (Z.land v 0xc7) 0x40 = Z.lor (Z.land v 0x87) 0x40).
  { intros v. change 0xc7 with (Z.lor 0x87 0x40). bits i. rewrite !Z.land_spec, Z.lor_spec. btauto. }
  by rewrite !E, H.
Qed.

Lemma aset_twice l v w : (2 ≤ length l)%nat → aset (aset l 1 v) 1 (Z.lor (aget (aset l 1 v) 1) w) =
  aset l 1 (Z.lor v w).
Proof.
  intros Hl. unfold aset, aget. change (Z.to_nat 1) with 1%nat.
  rewrite list_insert_insert_eq. rewrite nth_lookup, list_lookup_insert_eq by lia. done.
Qed.

Lemma same_protected_fields h h' :
  same_protected h h' →
  frame_type h = frame_type h' ∧ hdr_a4_exists h = hdr_a4_exists h' ∧
  hdr_qc_exists h = hdr_qc_exists h'.
Proof.
  intros (H0 & H1 & _). unfold hdr_qc_exists, frame_subtype, frame_type, hdr_a4_exists.
  rewrite H0. rewrite (land_mask (aget h 1) (aget h' 1) 0x87 0x2), (land_mask (aget h 1) (aget h' 1) 0x87 0x1)
    by done. done.
Qed.

Lemma same_protected_aad h h' : same_protected h h' → ccmp_aad h = ccmp_aad h'.
Proof.
  intros H. destruct (same_protected_fields h h' H) as (F1 & F2 & F3).
  unfold ccmp_aad. rewrite <- F1, <- F2, <- F3.
  destruct H as (H0 & H1 & H2 & H3 & H4). unfold RTMPConstructCCMPAAD. cbv zeta.
  rewrite <- H0. rewrite !aset_twice by (destruct (_ =? _); rewrite length_aset; simpl; lia).
  rewrite (lor_mask _ _ H1).
  change (3 * MAC_ADDR_LEN)%nat with 18%nat. change MAC_ADDR_LEN with 6%nat. rewrite <- H2, <- H3.
  destruct (hdr_a4_exists h); [destruct H4 as [<- <-]|rewrite <- H4];
    by destruct (hdr_qc_exists h).
Qed.

Lemma slice_part (h : list Z) o n o' n' :
  (o ≤ o')%nat → (o' + n' ≤ o + n)%nat →
  slice h o' n' = slice (slice h o n) (o' - o) n'.
Proof.
  intros. unfold slice. rewrite skipn_firstn_comm, take_take, drop_drop.
  replace (Nat.min n' (n - (o' - o))) with n' by lia. do 2 f_equal. lia.
Qed.

Lemma same_protected_nonce h h' pn : same_protected h h' → ccmp_nonce h pn = ccmp_nonce h' pn.
Proof.
  intros H. destruct (same_protected_fields h h' H) as (_ & F2 & F3).
  unfold ccmp_nonce. rewrite <- F2, <- F3.
  destruct H as (_ & _ & H2 & _ & H4). unfold RTMPConstructCCMPNonce. cbv zeta.
  change MAC_ADDR_LEN with 6%nat.
  rewrite (slice_part h 4 18 10 6), (slice_part h' 4 18 10 6), H2 by lia.
  destruct (hdr_a4_exists h); [destruct H4 as [_ <-]|rewrite <- H4];
    by destruct (hdr_qc_exists h).
Qed.

(** * The properties *)

(** The PN is recovered from the CCMP header. *)
Lemma pn_of_hdr key_idx pn rest h :
  let d := RTMPConstructCCMPHdr key_idx pn ++ rest in
  ccmp_nonce h [aget d 0; aget d 1; aget d 4; aget d 5; aget d 6; aget d 7] = ccmp_nonce h pn.
Proof. reflexivity. Qed.

Lemma ccmp_hdr_ok key_idx pn :
  bytes pn →
  bytes (RTMPConstructCCMPHdr key_idx pn) ∧ length (RTMPConstructCCMPHdr key_idx pn) = 8%nat.
Proof.
  intros Hb. unfold RTMPConstructCCMPHdr. rewrite !length_aset. split; [|done].
  auto 15 with word.
Qed.

(** A header the frame functions may read. *)
Definition hdr_ok (h : list Z) : Prop := bytes h ∧ (32 ≤ length h)%nat.

Section RoundTrip.
Context (alloc : nat → bool) (Halloc : ∀ i, alloc i = true).
Context (k : CIPHER_KEY) (Hk : key_wf k) (Hkl : KeyLen k ≠ 0).
Context (h pn d : list Z) (Hh : hdr_ok h) (Hpn : bytes pn) (Hd : bytes d).
Context (Hlen : Z.of_nat (length d) + 16 < 65536).

(** The sealed text of a frame body. *)
Definition ccmp_sealed : list Z := ccm_seal (aes128 (Key k)) 8 (ccmp_nonce h pn) (ccmp_aad h) d.

Lemma ccmp_key_ok : key_ok (Key k) 16.
Proof using Hk. destruct Hk as (K1 & K2 & _). split; [done|]. split; [by rewrite K1|done]. Qed.

Lemma ccmp_args j : length j = 16%nat → ccm_args (ccmp_nonce h pn) (ccmp_aad h) j 8.
Proof using Hh Hpn.
  clear Hlen Hd d. destruct Hh as [Hhb Hhl]. destruct (ccmp_aad_ok h Hhb) as [HA HAl].
  assert (HN : nonce_ok (ccmp_nonce h pn)) by (apply ccmp_nonce_ok; [done|lia|done]).
  intros. by repeat split; try apply HN.
Qed.

Lemma ccmp_sealed_ok : length ccmp_sealed = (length d + 8)%nat ∧ bytes ccmp_sealed.
Proof using Hk Hh Hpn Hd.
  destruct (ccmp_args (zeros 16) eq_refl) as (HN & HA & _). unfold ccmp_sealed.
  pose (R := aes_reliable (λ _, true) (λ _, eq_refl) (Key k) 16 ccmp_key_ok).
  rewrite <- (aes128_enc (λ _, true) (λ _, eq_refl) (Key k) ccmp_key_ok). fold R.
  split; [by apply (@ccm_seal_length _ _ R)|]. by apply (ccm_seal_bytes _ _ R).
Qed.

Lemma ccmp_encrypt_sealed junk room :
  length junk = 16%nat → bytes room → length room = LEN_CCMP_MIC →
  @RTMPSoftEncryptCCMP (aes_calls alloc) junk h pn (Key k) (d ++ room) (Z.of_nat (length d)) =
    Some (true, ccmp_sealed).
Proof using Halloc Hk Hh Hpn Hd Hlen.
  intros Hj Hrb Hroom. destruct ccmp_sealed_ok as [Hc _].
  assert (Hlr : length (d ++ room) = (length d + 8)%nat) by (rewrite length_app, Hroom; done).
  unfold RTMPSoftEncryptCCMP. change (Z.of_nat LEN_CCMP_MIC) with 8.
  rewrite (@AES_CCM_Encrypt_spec _ _ (aes_reliable alloc Halloc (Key k) 16 ccmp_key_ok)),
    (aes128_enc alloc Halloc).
  - rewrite drop_0, take_app_length. fold ccmp_sealed. cbn [mbind option_bind]. do 2 f_equal.
    apply bwrite_all. lia.
  - by apply ccmp_args.
  - auto with word.
  - lia.
  - lia.
  - change (Z.to_nat 8) with 8%nat. lia.
  - lia.
  - rewrite wrap_id by (unfold in_range; lia). lia.
Qed.

Lemma ccmp_decrypt_sealed junk h' key_idx :
  length junk = 16%nat → same_protected h h' →
  @RTMPSoftDecryptCCMP (aes_calls alloc) junk h' k (RTMPConstructCCMPHdr key_idx pn ++ ccmp_sealed)
    (8 + Z.of_nat (length ccmp_sealed)) =
  Some (true, bwrite (RTMPConstructCCMPHdr key_idx pn ++ ccmp_sealed) 0 d, Z.of_nat (length d)).
Proof using Halloc Hk Hkl Hh Hpn Hd Hlen.
  intros Hj Hsame. destruct ccmp_sealed_ok as [Hc Hcb]. pose proof (ccmp_args junk Hj) as Hargs.
  pose proof Hargs as (HN & HA & _).
  destruct (ccmp_hdr_ok key_idx pn Hpn) as [Hch Hchl].
  unfold RTMPSoftDecryptCCMP. rewrite (proj2 (Z.eqb_neq _ _) Hkl).
  cbv zeta. rewrite (pn_of_hdr key_idx pn ccmp_sealed h').
  rewrite <- (same_protected_aad h h' Hsame), <- (same_protected_nonce h h' pn Hsame).
  change (Z.of_nat LEN_CCMP_MIC) with 8. change (Z.of_nat LEN_CCMP_HDR) with 8.
  rewrite Hc. rewrite (proj2 (Z.leb_gt _ _)) by lia.
  replace (8 + Z.of_nat (length d + 8) - 8) with (Z.of_nat (length d) + 8) by lia.
  rewrite wrap_id by (unfold in_range; lia).
  pose (R := aes_reliable alloc Halloc (Key k) 16 ccmp_key_ok).
  rewrite (@AES_CCM_Decrypt_spec _ _ R); try done; try lia.
  - cbn [mbind option_bind]. change LEN_CCMP_HDR with 8%nat. change (Z.to_nat 8) with 8%nat.
    rewrite <- drop_drop, drop_app_length' by done.
    destruct (ccm_open_seal _ _ R 8 _ _ d HN eq_refl HA Hd) as [O1 O2].
    unfold R in *. rewrite (aes128_enc alloc Halloc) in *. fold ccmp_sealed in O1, O2.
    change (Z.to_nat 8) with 8%nat in O2.
    rewrite (take_ge (drop (length d) ccmp_sealed)) by (rewrite length_drop; lia).
    rewrite O1, O2, decide_True by done. cbn.
    rewrite wrap_id by (unfold in_range; lia). done.
  - auto with word.
  - change LEN_CCMP_HDR with 8%nat. change (Z.to_nat 8) with 8%nat. rewrite length_app. lia.
Qed.
End RoundTrip.

(** CCMP round trip: a frame encrypted in place and sent behind its CCMP
    header is decrypted in place, over that header, to the same data with
    the right length, also when the receiver's copy of the 802.11 header
    differs in the fields CCMP leaves unprotected (retry, power management,
    more data, duration, sequence number). *)
Theorem ccmp_round_trip alloc junk junk' h h' key_idx pn k d room
    (Halloc : ∀ i, alloc i = true) (Hj : length junk = 16%nat) (Hj' : length junk' = 16%nat)
    (Hh : hdr_ok h) (Hh' : hdr_ok h') (Hsame : same_protected h h')
    (Hpn : bytes pn) (Hk : key_wf k) (Hkl : KeyLen k ≠ 0)
    (Hd : bytes d) (Hroom : length room = LEN_CCMP_MIC) (Hrb : bytes room)
    (Hlen : Z.of_nat (length d) + 16 < 65536) :
  ∃ c buf,
    @RTMPSoftEncryptCCMP (aes_calls alloc) junk h pn (Key k) (d ++ room) (Z.of_nat (length d)) =
      Some (true, c) ∧
    @RTMPSoftDecryptCCMP (aes_calls alloc) junk' h' k (RTMPConstructCCMPHdr key_idx pn ++ c)
      (8 + Z.of_nat (length c)) = Some (true, buf, Z.of_nat (length d)) ∧
    take (length d) buf = d.
Proof.
  exists (ccmp_sealed k h pn d). eexists. split; [by apply ccmp_encrypt_sealed|].
  split; [by apply ccmp_decrypt_sealed|].
  unfold bwrite. rewrite take_0. cbn [app]. apply take_app_length.
Qed.

Definition demo_hdr (b1 : Z) : list Z := [136; b1] ++ zeros 30.
Definition demo_aes_key : CIPHER_KEY :=
  mk_key (map Z.of_nat (seq 1 16)) (zeros 8) (zeros 8) (zeros 16) (zeros 16) 4 16 (zeros 6) 0.

Lemma ccmp_round_trip_witness :
  ∃ c buf,
    @RTMPSoftEncryptCCMP (aes_calls (λ _, true)) (zeros 16) (demo_hdr 1) (zeros 6) (Key demo_aes_key)
      ([5; 6; 7] ++ zeros 8) 3 = Some (true, c) ∧
    @RTMPSoftDecryptCCMP (aes_calls (λ _, true)) (zeros 16) (demo_hdr 9) demo_aes_key
      (RTMPConstructCCMPHdr 0 (zeros 6) ++ c) (8 + Z.of_nat (length c)) = Some (true, buf, 3) ∧
    take 3 buf = [5; 6; 7].
Proof.
  apply (ccmp_round_trip (λ _, true) (zeros 16) (zeros 16) (demo_hdr 1) (demo_hdr 9) 0 (zeros 6)
           demo_aes_key [5; 6; 7] (zeros 8)); try reflexivity.
  - split; [solve_bytes|simpl; lia].
  - split; [solve_bytes|simpl; lia].
  - repeat split; reflexivity.
  - solve_bytes.
  - repeat split; try (vm_compute; done); solve_bytes.
  - simpl. lia.
  - solve_bytes.
  - solve_bytes.
Defined.

(** Short or keyless CCMP frames are refused without an access: with an
    empty key, with no more than the 8-byte CCMP header, or with less than a
    MIC behind it, the answer is FALSE and neither the buffer nor the length
    changes. *)
Theorem ccmp_short_frame_refused alloc junk h k pData DataLen
    (Hh : hdr_ok h) (Hd : bytes pData) (Hlen : 0 ≤ DataLen < 16) :
  @RTMPSoftDecryptCCMP (aes_calls alloc) junk h k pData DataLen = Some (false, pData, DataLen).
Proof.
  unfold RTMPSoftDecryptCCMP. destruct (KeyLen k =? 0); [done|].
  change (Z.of_nat LEN_CCMP_HDR) with 8. change (Z.of_nat LEN_CCMP_MIC) with 8.
  destruct (Z.leb_spec DataLen 8); [done|]. cbv zeta.
  set (pn := [_; _; _; _; _; _]).
  assert (HN : nonce_ok (ccmp_nonce h pn)).
  { destruct Hh. apply ccmp_nonce_ok; [done|lia|]. unfold pn.
    repeat (apply Forall_cons_2; [auto with word|]). done. }
  unfold AES_CCM_Decrypt, AES_KEY128_LENGTH. rewrite Z.eqb_refl, valid_nonce by done.
  change (valid_mac_length 8) with true. cbn [negb].
  rewrite (wrap_id 32 (DataLen - 8)) by (unfold in_range; lia).
  rewrite (proj2 (Z.ltb_lt DataLen _)); [done|].
  rewrite wrap_mod by lia.
  replace (DataLen - 8 - 8) with (DataLen - 16 + 2 ^ 32 + (-1) * 2 ^ 32) by lia.
  rewrite Z.mod_add by lia. rewrite Z.mod_small; lia.
Qed.

Lemma ccmp_short_frame_refused_witness :
  @RTMPSoftDecryptCCMP (aes_calls (λ _, true)) (zeros 16) (demo_hdr 1) demo_aes_key (zeros 12) 12 =
    Some (false, zeros 12, 12).
Proof.
  apply (ccmp_short_frame_refused (λ _, true) (zeros 16) (demo_hdr 1)).
  - split; [solve_bytes|simpl; lia].
  - solve_bytes.
  - lia.
Defined.
