(* ===== verification/SoftCrypto.v ===== *)
(** The dispatch to the software ciphers: src/common/cmm_wpa.c
    (RTMPSoftDecryptionAction, RTMPSoftConstructIVHdr,
    RTMPSoftEncryptionAction), on top of the components Wep, Tkip and Ccmp. *)

From S2P Require Import Prelude CipherKey Arc4 Wep Michael Tkip Aes BlockCipher AesCcm Ccmp.

Definition is_wep (CipherAlg : Z) : bool :=
  (CipherAlg =? CIPHER_WEP64) || (CipherAlg =? CIPHER_WEP128).

(** What the ciphers take from the kernel: the outcomes of the allocations,
    the contents of memory that was not initialised, and whether a
    supplicant is running. *)
Record soft_env := mk_env {
  env_alloc_ctx : bool;
  env_alloc_seed : bool;
  env_ctx0 : ARC4_CTX_STRUC;
  env_alloc_aes : nat → bool;
  env_junk : list Z;
  env_WpaSupplicantUP : bool
}.

Section Dispatch.
Context (env : soft_env).

(** The status, the data, its length, [PrivateInfo.Tx] and the reports. *)
Definition RTMPSoftDecryptionAction (Tx : TKIP_KEY_INFO) (pHdr : list Z) (UserPriority : Z)
    (pKey : CIPHER_KEY) (pData : list Z) (DataByteCnt : Z)
    : option (Z * list Z * Z * TKIP_KEY_INFO * list mic_report) :=
  let alg := CipherAlg pKey in
  if is_wep alg then
    '(r, pData, DataByteCnt) ← RTMPSoftDecryptWEP (env_alloc_ctx env) (env_alloc_seed env)
                                 (env_ctx0 env) pKey pData DataByteCnt;
    Some (if (r : bool) then NDIS_STATUS_SUCCESS else NDIS_STATUS_FAILURE, pData, DataByteCnt, Tx, [])
  else if alg =? CIPHER_TKIP then
    '(NStatus, pData, DataByteCnt, Tx, reports) ←
      RTMPSoftDecryptTKIP (env_WpaSupplicantUP env) Tx pHdr UserPriority pKey pData DataByteCnt;
    let r := if NStatus =? NDIS_STATUS_FAILURE then NDIS_STATUS_FAILURE
             else if NStatus =? NDIS_STATUS_MICERROR then NDIS_STATUS_MICERROR
             else NDIS_STATUS_SUCCESS in
    Some (r, pData, DataByteCnt, Tx, reports)
  else if alg =? CIPHER_AES then
    '(r, pData, DataByteCnt) ← @RTMPSoftDecryptCCMP (aes_calls (env_alloc_aes env)) (env_junk env)
                                 pHdr pKey pData DataByteCnt;
    Some (if (r : bool) then NDIS_STATUS_SUCCESS else NDIS_STATUS_FAILURE, pData, DataByteCnt, Tx, [])
  else Some (NDIS_STATUS_FAILURE, pData, DataByteCnt, Tx, []).

(** The bytes written to [pHdrIv] and [*hdr_iv_len]. *)
Definition RTMPSoftConstructIVHdr (CipherAlg key_id : Z) (pTxIv : list Z) : list Z * nat :=
  if is_wep CipherAlg then (RTMPConstructWEPIVHdr key_id pTxIv, LEN_WEP_IV_HDR)
  else if CipherAlg =? CIPHER_TKIP then ([], O)
  else if CipherAlg =? CIPHER_AES then (RTMPConstructCCMPHdr key_id pTxIv, LEN_CCMP_HDR)
  else ([], O).

(** The data buffer and [*ext_len]; the results of the ciphers are dropped. *)
Definition RTMPSoftEncryptionAction (CipherAlg : Z) (pHdr pSrcBufData : list Z) (SrcBufLen : nat)
    (pKey : CIPHER_KEY) : option (list Z * nat) :=
  if is_wep CipherAlg then
    '(_, pSrcBufData) ← RTMPSoftEncryptWEP (env_alloc_ctx env) (env_alloc_seed env) (env_ctx0 env)
                          (TxTsc pKey) pKey pSrcBufData SrcBufLen;
    Some (pSrcBufData, LEN_ICV)
  else if CipherAlg =? CIPHER_TKIP then Some (pSrcBufData, O)
  else if CipherAlg =? CIPHER_AES then
    '(_, pSrcBufData) ← @RTMPSoftEncryptCCMP (aes_calls (env_alloc_aes env)) (env_junk env) pHdr
                          (TxTsc pKey) (Key pKey) pSrcBufData (Z.of_nat SrcBufLen);
    Some (pSrcBufData, LEN_CCMP_MIC)
  else Some (pSrcBufData, O).
End Dispatch.

(** All allocations succeed. *)
Definition env_ok (env : soft_env) : Prop :=
  env_alloc_ctx env = true ∧ env_alloc_seed env = true ∧ (∀ i, env_alloc_aes env i = true) ∧
  length (env_junk env) = 16%nat.

(** A key of one of the ciphers the software can encrypt with. *)
Definition soft_key (k : CIPHER_KEY) : Prop :=
  key_wf k ∧ bytes (TxTsc k) ∧ length (TxTsc k) = 16%nat ∧
  ((is_wep (CipherAlg k) = true ∧ 1 ≤ KeyLen k ≤ 13) ∨ (CipherAlg k = CIPHER_AES ∧ KeyLen k ≠ 0)).

Ltac statuses :=
  unfold NDIS_STATUS_SUCCESS, NDIS_STATUS_FAILURE, NDIS_STATUS_MICERROR in *;
  conjs; intros; try split; intros; try done; auto.

(** A refused frame keeps its length. *)
Lemma wep_false_keeps a s c0 k p n p' n' :
  RTMPSoftDecryptWEP a s c0 k p n = Some (false, p', n') → n' = n.
Proof.
  unfold RTMPSoftDecryptWEP. intros E.
  destruct (negb a); [by simplify_eq|]. destruct (KeyLen k =? 0); [by simplify_eq|].
  apply bind_Some in E as (ctx & _ & E). cbv zeta in E.
  repeat case_match; by simplify_eq.
Qed.

Lemma ccmp_false_keeps C junk h k p n p' n' :
  @RTMPSoftDecryptCCMP C junk h k p n = Some (false, p', n') → n' = n.
Proof.
  unfold RTMPSoftDecryptCCMP. intros E. cbv zeta in E.
  destruct (KeyLen k =? 0); [by simplify_eq|]. destruct (_ <=? _); [by simplify_eq|].
  apply bind_Some in E as ([[r q] l] & _ & E). destruct (r =? 0); by simplify_eq.
Qed.

Lemma tkip_statuses up Tx h UP k p n st p' n' Tx' rs :
  RTMPSoftDecryptTKIP up Tx h UP k p n = Some (st, p', n', Tx', rs) →
  (st = NDIS_STATUS_SUCCESS ∧ rs = []) ∨ (st = NDIS_STATUS_FAILURE ∧ n' = n ∧ rs = []) ∨
  (st = NDIS_STATUS_MICERROR ∧ n' = n ∧ rs ≠ []).
Proof.
  unfold RTMPSoftDecryptTKIP. intros E. cbv zeta in E.
  destruct (KeyLen k =? 0); [simplify_eq; by auto|]. destruct (negb _); [done|].
  destruct (tkip_addresses h) as [[TA DA] SA]. destruct (RTMPTkipMixKey _ _ _ _) as [RC4Key p1k].
  destruct (_ <=? _); [simplify_eq; by auto|]. destruct (negb _); [done|].
  destruct (ARC4_Compute _ _ _ _ _) as [c q]. destruct (negb _); [done|].
  destruct (negb _); [simplify_eq; by auto|]. destruct (negb _); [done|].
  apply bind_Some in E as (T & _ & E). destruct (bool_decide _); simplify_eq; by auto 6.
Qed.

(** * The properties *)

(** C36: The software ciphers agree across the dispatch: for WEP and AES keys,
    a frame body encrypted by the encryption action, sent behind the header
    the IV construction builds from the same packet number, is decrypted by
    the decryption action of a receiver with that key to the same data and
    length, with success and without a report, also when the receiver's
    802.11 header differs in the fields the cipher does not protect. *)
Theorem soft_cipher_round_trip env env' Tx h h' UP key_id k d room
    (He : env_ok env) (He' : env_ok env') (Hk : soft_key k)
    (Hh : hdr_ok h) (Hh' : hdr_ok h') (Hsame : same_protected h h')
    (Hd : bytes d) (Hrb : bytes room) (Hlen : Z.of_nat (length d) + 16 < 65536) :
  let '(iv, iv_len) := RTMPSoftConstructIVHdr (CipherAlg k) key_id (TxTsc k) in
  ∀ ext_len, length room = ext_len →
  ext_len = (if is_wep (CipherAlg k) then LEN_ICV else LEN_CCMP_MIC) →
  ∃ c buf,
    RTMPSoftEncryptionAction env (CipherAlg k) h (d ++ room) (length d) k = Some (c, ext_len) ∧
    RTMPSoftDecryptionAction env' Tx h' UP k (iv ++ c) (Z.of_nat (iv_len + length c)) =
      Some (NDIS_STATUS_SUCCESS, buf, Z.of_nat (length d), Tx, []) ∧
    take (length d) buf = d.
Proof.
  destruct He as (E1 & E2 & E3 & E4). destruct He' as (E1' & E2' & E3' & E4').
  destruct Hk as (Hwf & Ht & Htl & Hkind).
  unfold RTMPSoftConstructIVHdr, RTMPSoftEncryptionAction, RTMPSoftDecryptionAction. cbv zeta.
  destruct Hkind as [[Hw Hkl]|[Ha Hkl]].
  - rewrite Hw. intros ext_len Hr Hx. rewrite E1, E2, E1', E2'.
    assert (Hwk : wep_key k) by (by split). assert (Hrm : length room = LEN_ICV) by (by rewrite Hr).
    destruct (wep_iv_hdr key_id (TxTsc k) ltac:(lia)) as [Hi1 Hi2].
    destruct (wep_encap_decap (env_ctx0 env) (env_ctx0 env') k (TxTsc k)
      (RTMPConstructWEPIVHdr key_id (TxTsc k)) d room) as (c & buf & H1 & Hc & H2 & H3);
      try done; try lia.
    specialize (H1 []). rewrite !app_nil_r in H1. exists c, buf. rewrite H1. cbn [mbind option_bind].
    replace (LEN_WEP_IV_HDR + length c)%nat with (length c + 4)%nat by (unfold LEN_WEP_IV_HDR; lia).
    rewrite H2. cbn [mbind option_bind]. by rewrite Hx.
  - rewrite Ha. change (is_wep CIPHER_AES) with false. cbv iota.
    change (CIPHER_AES =? CIPHER_TKIP) with false. change (CIPHER_AES =? CIPHER_AES) with true. cbv iota.
    intros ext_len Hr Hx. rewrite Hx in Hr |- *.
    exists (ccmp_sealed k h (TxTsc k) d). eexists.
    rewrite ccmp_encrypt_sealed by done. cbn [mbind option_bind]. split; [done|].
    replace (Z.of_nat (LEN_CCMP_HDR + length (ccmp_sealed k h (TxTsc k) d)))
      with (8 + Z.of_nat (length (ccmp_sealed k h (TxTsc k) d))) by (unfold LEN_CCMP_HDR; lia).
    rewrite ccmp_decrypt_sealed by done. cbn [mbind option_bind]. split; [done|].
    unfold bwrite. rewrite take_0. cbn [app]. apply take_app_length.
Qed.

Definition demo_env : soft_env :=
  mk_env true true (mk_arc4 0 0 []) (λ _, true) (zeros 16) false.

Lemma soft_cipher_round_trip_witness :
  ∃ c buf,
    RTMPSoftEncryptionAction demo_env 4 (demo_hdr 1) ([5; 6; 7] ++ zeros 8) 3 demo_aes_key =
      Some (c, 8%nat) ∧
    RTMPSoftDecryptionAction demo_env (mk_tkip 0 0 0 0 0 0 0 0 [] []) (demo_hdr 9) 0 demo_aes_key
      (RTMPConstructCCMPHdr 2 (zeros 16) ++ c) (Z.of_nat (8 + length c)) =
      Some (0, buf, 3, mk_tkip 0 0 0 0 0 0 0 0 [] [], []) ∧
    take 3 buf = [5; 6; 7].
Proof.
  pose proof (soft_cipher_round_trip demo_env demo_env (mk_tkip 0 0 0 0 0 0 0 0 [] []) (demo_hdr 1)
    (demo_hdr 9) 0 2 demo_aes_key [5; 6; 7] (zeros 8)) as H.
  change (RTMPSoftConstructIVHdr (CipherAlg demo_aes_key) 2 (TxTsc demo_aes_key))
    with (RTMPConstructCCMPHdr 2 (zeros 16), LEN_CCMP_HDR) in H.
  apply H with (ext_len := 8%nat); clear H; try done.
  - split; [|split; [solve_bytes|]].
    + repeat split; try (vm_compute; done); solve_bytes.
    + split; [done|]. right. done.
  - split; [solve_bytes|simpl; lia].
  - split; [solve_bytes|simpl; lia].
  - solve_bytes.
  - solve_bytes.
Defined.

(** The encryption action drops the result of the cipher: when WEP cannot
    allocate its context, or the key is empty, or the key is a TKIP key, the
    buffer that goes out still holds the plain text, while the caller is
    told to send it as an encrypted frame with room for the ICV (none for
    TKIP). *)
Theorem soft_encrypt_failure_in_clear env h data len k
    (Hfail : env_alloc_ctx env = false ∨ KeyLen k = 0) :
  (∀ alg, is_wep alg = true →
     RTMPSoftEncryptionAction env alg h data len k = Some (data, LEN_ICV)) ∧
  RTMPSoftEncryptionAction env CIPHER_TKIP h data len k = Some (data, O).
Proof.
  split; [|done]. intros alg Ha. unfold RTMPSoftEncryptionAction, RTMPSoftEncryptWEP. rewrite Ha.
  destruct (env_alloc_ctx env); [|done]. destruct Hfail as [|Hk]; [done|]. by rewrite Hk.
Qed.

Lemma soft_encrypt_failure_in_clear_witness :
  RTMPSoftEncryptionAction (mk_env false true (mk_arc4 0 0 []) (λ _, true) (zeros 16) false) 1
    (demo_hdr 1) [1; 2; 3; 0; 0; 0; 0] 3 (demo_key 5) = Some ([1; 2; 3; 0; 0; 0; 0], 4%nat).
Proof. apply soft_encrypt_failure_in_clear; [by left|done]. Defined.

(** The decryption action answers success only through a cipher that
    verified the frame: an unknown cipher is refused with the buffer, the
    length and the MIC state untouched; the answer is always success,
    failure or MIC error; and the length changes only on success. *)
Theorem soft_decrypt_statuses env Tx h UP k data cnt st data' cnt' Tx' reports
    (Hrun : RTMPSoftDecryptionAction env Tx h UP k data cnt = Some (st, data', cnt', Tx', reports)) :
  (st = NDIS_STATUS_SUCCESS ∨ st = NDIS_STATUS_FAILURE ∨ st = NDIS_STATUS_MICERROR) ∧
  (st ≠ NDIS_STATUS_SUCCESS → cnt' = cnt) ∧
  (st = NDIS_STATUS_MICERROR ↔ reports ≠ []) ∧
  (st = NDIS_STATUS_MICERROR → CipherAlg k = CIPHER_TKIP) ∧
  (is_wep (CipherAlg k) = false → CipherAlg k ≠ CIPHER_TKIP → CipherAlg k ≠ CIPHER_AES →
   st = NDIS_STATUS_FAILURE ∧ data' = data ∧ Tx' = Tx).
Proof.
  unfold RTMPSoftDecryptionAction in Hrun. cbv zeta in Hrun.
  destruct (is_wep (CipherAlg k)) eqn:Hw.
  { apply bind_Some in Hrun as ([[[] p] c] & E & Hrun); simplify_eq; [statuses|].
    apply wep_false_keeps in E as ->. statuses. }
  destruct (Z.eqb_spec (CipherAlg k) CIPHER_TKIP) as [Ht|Ht].
  { apply bind_Some in Hrun as ([[[[s p] c] T] rs] & E & Hrun).
    apply tkip_statuses in E as [[-> ->]|[(-> & -> & ->)|(-> & -> & Hrs)]]; simplify_eq/=; statuses. }
  destruct (Z.eqb_spec (CipherAlg k) CIPHER_AES) as [Ha|Ha]; simplify_eq/=; [|statuses].
  apply bind_Some in Hrun as ([[[] p] c] & E & Hrun); simplify_eq; [statuses|].
  apply ccmp_false_keeps in E as ->. statuses.
Qed.

Lemma soft_decrypt_statuses_witness :
  RTMPSoftDecryptionAction demo_env (mk_tkip 0 0 0 0 0 0 0 0 [] []) (demo_hdr 1) 0 demo_aes_key
    (zeros 12) 12 = Some (1, zeros 12, 12, mk_tkip 0 0 0 0 0 0 0 0 [] [], []) ∧ 12 = 12.
Proof.
  assert (E : RTMPSoftDecryptionAction demo_env (mk_tkip 0 0 0 0 0 0 0 0 [] []) (demo_hdr 1) 0
    demo_aes_key (zeros 12) 12 = Some (1, zeros 12, 12, mk_tkip 0 0 0 0 0 0 0 0 [] [], []))
    by (vm_compute; reflexivity).
  split; [exact E|].
  destruct (soft_decrypt_statuses _ _ _ _ _ _ _ _ _ _ _ _ E) as (_ & H & _). by apply H.
Defined.
