(* ===== verification/RxPacket.v ===== *)
(** Received packets and their memory, the conversion to 802.3 and the
    A-MSDU split: src/common/cmm_data.c (deaggregate_AMSDU_announce,
    BA_Reorder_AMSDU_Annnounce, Indicate_AMSDU_Packet), the macros
    MAKE_802_3_HEADER, CONVERT_TO_802_3, EXTRA_LLCSNAP_ENCAP_FROM_PKT_START and
    REPORT_MGMT_FRAME_TO_MLME of src/include/rtmp.h and ClonePacket of
    src/os/linux/rt_linux.c.

    The memory of a packet is the list of its bytes, a pointer into it an
    offset; a read or a write outside of it has no result.  The clones of a
    packet share its memory: what is handed up for one is a window (offset and
    length), to be read in the memory at the end, when the driver has stopped
    writing. *)

From S2P Require Import Prelude Mlme MlmeProofs MlmeClaims MacTable.

(** * Memory *)

Definition rd (m : list Z) (p n : Z) : option (list Z) :=
  if (0 <=? p) && (0 <=? n) && (p + n <=? Z.of_nat (length m))
  then Some (take (Z.to_nat n) (drop (Z.to_nat p) m)) else None.

Definition wr (m : list Z) (p : Z) (src : list Z) : option (list Z) :=
  if (0 <=? p) && (p + Z.of_nat (length src) <=? Z.of_nat (length m))
  then Some (bwrite m (Z.to_nat p) src) else None.

(** [NdisEqualMemory(pat, m + p, sizeof pat)] *)
Definition mem_eq (pat m : list Z) (p : Z) : option bool :=
  b ← rd m p (Z.of_nat (length pat)); Some (bool_decide (b = pat)).

(** * Constants *)

Definition SNAP_802_1H : list Z := [0xaa; 0xaa; 0x03; 0x00; 0x00; 0x00].
Definition SNAP_BRIDGE_TUNNEL : list Z := [0xaa; 0xaa; 0x03; 0x00; 0x00; 0xf8].
Definition EAPOL : list Z := [0x88; 0x8e].
Definition IPX : list Z := [0x81; 0x37].
Definition APPLE_TALK : list Z := [0x80; 0xf3].
Definition LENGTH_802_3 : Z := 14.
Definition OPMODE_STA : Z := 0.

(** * Conversion to 802.3 *)

Definition MAKE_802_3_HEADER (m : list Z) (pMac1 pMac2 : Z) (type : list Z) : option (list Z) :=
  a ← rd m pMac1 6;
  b ← rd m pMac2 6;
  Some (a ++ b ++ take 2 type).

(** The header, [_pData] and [_DataSize] after the macro, and whether
    [_pRemovedLLCSNAP] is not NULL. *)
Definition CONVERT_TO_802_3 (m : list Z) (pDA pSA pData DataSize : Z)
    : option (list Z * Z * Z * bool) :=
  let LLC_Len := [u8 (Z.shiftr DataSize 8); u8 (Z.land DataSize 255)] in
  s ← mem_eq SNAP_802_1H m pData;
  t ← mem_eq SNAP_BRIDGE_TUNNEL m pData;
  if (s : bool) || (t : bool) then
    pProto ← rd m (pData + 6) 2;
    if (bool_decide (pProto = IPX) || bool_decide (pProto = APPLE_TALK)) && s then
      h ← MAKE_802_3_HEADER m pDA pSA LLC_Len;
      Some (h, pData, DataSize, false)
    else
      h ← MAKE_802_3_HEADER m pDA pSA pProto;
      Some (h, pData + LENGTH_802_1_H, u16 (DataSize - LENGTH_802_1_H), true)
  else
    h ← MAKE_802_3_HEADER m pDA pSA LLC_Len;
    Some (h, pData, DataSize, false).

(** The transmit side: the encapsulation chosen for an Ethernet frame. *)
Definition EXTRA_LLCSNAP_ENCAP_FROM_PKT_START (pBufVA : list Z) : option (list Z) :=
  if 1500 <? Z.shiftl (aget pBufVA 12) 8 + aget pBufVA 13 then
    let type := take 2 (drop 12 pBufVA) in
    Some (if bool_decide (IPX = type) || bool_decide (APPLE_TALK = type)
          then SNAP_BRIDGE_TUNNEL else SNAP_802_1H)
  else None.

(** * The A-MSDU split *)

(** The outcomes of the allocations for each subframe, what the memory of
    [Elem->Msg] holds when it is allocated, and the channel of the radio. *)
Record amsdu_env := mk_amenv {
  al_Elem : nat → bool;
  al_Clone : nat → bool;
  junk_Elem : nat → list Z;
  am_Channel : Z
}.

Section Split.
Context {W : Type} (E : amsdu_env).

(** The macro reads no clock on USB: both halves of the time stamp are 0. *)
Definition REPORT_MGMT_FRAME_TO_MLME (ch wcid : Z) (frame : list Z) (size : Z) (rssi : Z * Z * Z) (MinSNR OpMode : Z)
    (pAd : RTMP_ADAPTER W) : option (RTMP_ADAPTER W) :=
  let '(r0, r1, r2) := rssi in
  '(_, q) ← MlmeEnqueueForRecv (Flags pAd) (ate_on pAd) (Queue (Mlme pAd))
              (mk_rxinfo wcid (0, 0) (u8 r0, u8 r1, u8 r2) (u8 MinSNR) OpMode ch) size frame;
  Some (set_Mlme (set_Queue q (Mlme pAd)) pAd).

(** An EAPOL payload goes to the MLME behind 32 bytes that nobody wrote; the
    copy must stay inside [Elem->Msg]. *)
Definition amsdu_report (n : nat) (mem : list Z) (pPayload PayloadSize : Z) (pAd : RTMP_ADAPTER W)
    : option (RTMP_ADAPTER W) :=
  if negb (al_Elem E n) then Some pAd
  else
    payload ← rd mem pPayload PayloadSize;
    Msg ← wr (take MLME_BUFFER_SIZE (junk_Elem E n)) (LENGTH_802_11 + LENGTH_802_1_H) payload;
    REPORT_MGMT_FRAME_TO_MLME (am_Channel E) (Z.of_nat BSSID_WCID) Msg
      (LENGTH_802_11 + LENGTH_802_1_H + PayloadSize) (0, 0, 0) 0 OPMODE_STA pAd.

(** One subframe: the memory, the adapter and the window handed up. *)
Definition amsdu_subframe (n : nat) (pData PayloadSize : Z) (mem : list Z) (pAd : RTMP_ADAPTER W)
    : option (list Z * RTMP_ADAPTER W * list (Z * Z)) :=
  '(Header802_3, pPayload, PayloadSize, removed) ←
    CONVERT_TO_802_3 mem pData (pData + 6) (pData + LENGTH_802_3) PayloadSize;
  pAd ← (if (aget Header802_3 12 =? 0x88) && (aget Header802_3 13 =? 0x8E)
         then amsdu_report n mem pPayload PayloadSize pAd else Some pAd);
  '(mem, pPayload, PayloadSize) ←
    (if (removed : bool)
     then mem ← wr mem (pPayload - LENGTH_802_3) Header802_3;
          Some (mem, pPayload - LENGTH_802_3, u16 (PayloadSize + LENGTH_802_3))
     else Some (mem, pPayload, PayloadSize));
  Some (mem, pAd, if al_Clone E n then [(pPayload, PayloadSize)] else []).

(** Every turn but the last takes at least 32 bytes off [DataSize]. *)
Fixpoint deaggregate_loop (fuel : nat) (nMSDU : nat) (pData DataSize : Z) (mem : list Z) (pAd : RTMP_ADAPTER W)
    : option (nat * list Z * RTMP_ADAPTER W * list (Z * Z)) :=
  match fuel with
  | O => None
  | S fuel =>
      if DataSize <=? LENGTH_802_3 then Some (nMSDU, mem, pAd, [])
      else
        Octet ← rd mem (pData + 12) 2;
        let PayloadSize := u16 (aget Octet 1 + Z.shiftl (aget Octet 0) 8) in
        let SubFrameSize := u16 (PayloadSize + LENGTH_802_3) in
        if (DataSize <? SubFrameSize) || (1518 <? PayloadSize) then Some (S nMSDU, mem, pAd, [])
        else
          '(mem, pAd, w) ← amsdu_subframe nMSDU pData PayloadSize mem pAd;
          let SubFrameSize := u16 (Z.land (SubFrameSize + 3) (Z.lnot 3)) in
          if (1528 <? SubFrameSize) || (SubFrameSize <? 32) then Some (S nMSDU, mem, pAd, w)
          else
            '(r, ws) ← (if SubFrameSize <? DataSize
                        then deaggregate_loop fuel (S nMSDU) (pData + SubFrameSize) (DataSize - SubFrameSize) mem pAd
                        else Some (S nMSDU, mem, pAd, []));
            Some (r, w ++ ws)
  end.

(** [nMSDU], the memory of the packet when it is released, the adapter and the
    windows handed up, in order. *)
Definition deaggregate_AMSDU_announce (mem : list Z) (pData DataSize : Z) (pAd : RTMP_ADAPTER W)
    : option (nat * list Z * RTMP_ADAPTER W * list (Z * Z)) :=
  deaggregate_loop (S (Z.to_nat DataSize)) 0 pData DataSize mem pAd.
End Split.

(** * Lemmas on memory *)

Ltac leb_true := repeat rewrite (proj2 (Z.leb_le _ _)) by lia; cbn [andb].

Lemma rd_at pre x post m p n :
  m = pre ++ x ++ post → p = Z.of_nat (length pre) → n = Z.of_nat (length x) → rd m p n = Some x.
Proof.
  intros -> -> ->. unfold rd. rewrite !length_app.
  leb_true. rewrite !Nat2Z.id, drop_app_length. by rewrite take_app_length.
Qed.

Lemma wr_at pre x post m p src :
  m = pre ++ x ++ post → p = Z.of_nat (length pre) → length src = length x → wr m p src = Some (pre ++ src ++ post).
Proof.
  intros -> -> El. unfold wr. rewrite !length_app, El.
  leb_true. unfold bwrite.
  rewrite Nat2Z.id, take_app_length, El, <- drop_drop, drop_app_length, drop_app_length. done.
Qed.

Lemma rd_inside m p n : 0 ≤ p → 0 ≤ n → p + n ≤ Z.of_nat (length m) →
  ∃ x, rd m p n = Some x ∧ Z.of_nat (length x) = n.
Proof.
  intros. unfold rd. leb_true. eexists. split; [done|].
  rewrite length_take, length_drop. lia.
Qed.

Lemma rd_length m p n x : rd m p n = Some x → Z.of_nat (length x) = n.
Proof. unfold rd. destruct (_ && _) eqn:Eb; [|done]. intros [= <-]. rewrite length_take, length_drop. lia. Qed.

Lemma rd_nil m p : 0 ≤ p → p ≤ Z.of_nat (length m) → rd m p 0 = Some [].
Proof. intros. unfold rd. leb_true. done. Qed.

(** Two reads in a row. *)
Lemma rd_app m p n k x y : rd m p n = Some x → rd m (p + n) k = Some y → rd m p (n + k) = Some (x ++ y).
Proof.
  unfold rd. destruct (_ && _) eqn:Ea; [|done]. destruct (_ && _) eqn:Eb in |- *; [|done]. intros [= <-] [= <-].
  leb_true. f_equal. rewrite (Z2Nat.inj_add n k), (Z2Nat.inj_add p n), <- drop_drop, take_take_drop by lia. done.
Qed.

Lemma rd_split m p n x : rd m p n = Some x → ∃ pre post, m = pre ++ x ++ post ∧ p = Z.of_nat (length pre).
Proof.
  unfold rd. destruct (_ && _) eqn:Eb; [|done]. intros [= <-]. exists (take (Z.to_nat p) m), (drop (Z.to_nat n) (drop (Z.to_nat p) m)).
  rewrite take_drop, take_drop, length_take. split; [done|lia].
Qed.

Lemma rd_bytes m p n x : bytes m → rd m p n = Some x → bytes x.
Proof. unfold rd. intros Hm H. destruct (_ && _); [|done]. simplify_eq. auto using bytes_take, bytes_drop. Qed.

Lemma wr_inside m p src : 0 ≤ p → p + Z.of_nat (length src) ≤ Z.of_nat (length m) →
  ∃ m', wr m p src = Some m' ∧ length m' = length m.
Proof.
  intros. unfold wr. leb_true. eexists. split; [done|]. apply length_bwrite. lia.
Qed.

Lemma mem_eq_inside pat m p : 0 ≤ p → p + Z.of_nat (length pat) ≤ Z.of_nat (length m) → is_Some (mem_eq pat m p).
Proof. intros. unfold mem_eq. destruct (rd_inside m p (Z.of_nat (length pat))) as (x & -> & _); [lia..|]. by eexists. Qed.

(** * The MLME takes every report *)

Lemma recv_total Fl ate q fl ri n Msg : queue_wf q fl → 0 ≤ n → n ≤ Z.of_nat (length Msg) →
  ∃ b q', MlmeEnqueueForRecv Fl ate q ri n Msg = Some (b, q') ∧ queue_wf q' fl.
Proof.
  intros Hq H0 Hn. unfold MlmeEnqueueForRecv. destruct ate; [by eauto|].
  destruct (RTMP_TEST_FLAG _ _); [by eauto|]. destruct (Z.ltb_spec (Z.of_nat MLME_BUFFER_SIZE) n); [by eauto|].
  rewrite (full_recv q fl) by done. cbn [mbind option_bind]. destruct (Z.leb_spec 20 (Num q)); [by eauto|].
  destruct (MsgTypeSubst Msg) as [[M T]|]; [|by eauto].
  destruct (tail_elem q fl Hq) as (e & He & Hl & _).
  pose proof (put_elem_wf q fl) as Hp. unfold put_elem, take_slot in *. simpl in *. rewrite He. simpl.
  eexists _, _. split; [done|]. apply Hp; try done; unfold MAX_LEN_OF_MLME_QUEUE; try lia.
  simpl. rewrite length_bwrite; rewrite ?length_take; lia.
Qed.
