(* ===== verification/RxAmsdu.v ===== *)
(** The A-MSDU split: an aggregate of well-formed subframes is handed up
    subframe by subframe, in order, as the 802.3 frames it carries; no
    aggregate makes the split leave the packet, except for the copy of an EAPOL
    payload whose length underflows. *)

From Stdlib Require Import Sorted.
From S2P Require Import Prelude Mlme MlmeProofs MlmeClaims MacTable RxPacket.

(** * What an aggregate is *)

(** A subframe as the transmitter builds it: addresses, the MSDU with its LLC
    header, and the bytes up to the next subframe. *)
Record msdu := mk_msdu { m_DA : list Z; m_SA : list Z; m_body : list Z; m_pad : list Z }.

Definition be16 (n : Z) : list Z := [Z.shiftr n 8; Z.land n 255].

Definition subframe (m : msdu) : list Z :=
  m_DA m ++ m_SA m ++ be16 (Z.of_nat (length (m_body m))) ++ m_body m.

Definition amsdu (l : list msdu) : list Z := concat (map (λ m, subframe m ++ m_pad m) l).

(** Up to the next multiple of four. *)
Definition pad_len (m : msdu) : nat := Z.to_nat ((- (14 + Z.of_nat (length (m_body m)))) `mod` 4).

Definition msdu_ok (m : msdu) : Prop :=
  length (m_DA m) = 6%nat ∧ length (m_SA m) = 6%nat ∧ (15 ≤ length (m_body m) ≤ 1514)%nat.

(** The last subframe may come with less padding. *)
Fixpoint amsdu_ok (l : list msdu) : Prop :=
  match l with
  | [] => True
  | [m] => msdu_ok m ∧ (length (m_pad m) ≤ pad_len m)%nat
  | m :: l => msdu_ok m ∧ length (m_pad m) = pad_len m ∧ amsdu_ok l
  end.

(** The protocol of a body with an LLC header that the conversion removes. *)
Definition m_type (m : msdu) : list Z := take 2 (drop 6 (m_body m)).
Definition m_snap (m : msdu) : bool := bool_decide (take 6 (m_body m) = SNAP_802_1H).
Definition m_tunnel (m : msdu) : bool := bool_decide (take 6 (m_body m) = SNAP_BRIDGE_TUNNEL).
Definition m_removed (m : msdu) : bool :=
  (m_snap m || m_tunnel m) && negb ((bool_decide (m_type m = IPX) || bool_decide (m_type m = APPLE_TALK)) && m_snap m).

(** What is handed up for a subframe. *)
Definition ethernet (m : msdu) : list Z := m_DA m ++ m_SA m ++ m_type m ++ drop 8 (m_body m).
Definition m_up (m : msdu) : list Z := if m_removed m then ethernet m else m_body m.

Definition window (o : Z) (m : msdu) : Z * Z :=
  let n := Z.of_nat (length (m_body m)) in
  if m_removed m then (o + 8, n + 6) else (o + 14, n).

Fixpoint windows (o : Z) (l : list msdu) : list (Z * Z) :=
  match l with
  | [] => []
  | m :: l => window o m :: windows (o + Z.of_nat (length (subframe m ++ m_pad m))) l
  end.

(** The subframe after the header was written over it. *)
Definition rewritten (m : msdu) : list Z :=
  if m_removed m then m_DA m ++ take 2 (m_SA m) ++ ethernet m else subframe m.

(** What the MLME gets: the EAPOL payloads, in order. *)
Section Reports.
Context {W : Type} (E : amsdu_env).

Definition m_eapol (m : msdu) : bool := m_removed m && bool_decide (m_type m = EAPOL).

Definition eapol_report (n : nat) (m : msdu) (pAd : RTMP_ADAPTER W) : option (RTMP_ADAPTER W) :=
  if m_eapol m && al_Elem E n
  then REPORT_MGMT_FRAME_TO_MLME (am_Channel E) (Z.of_nat BSSID_WCID)
         (bwrite (take MLME_BUFFER_SIZE (junk_Elem E n)) 32 (drop 8 (m_body m)))
         (24 + Z.of_nat (length (m_body m))) (0, 0, 0) 0 OPMODE_STA pAd
  else Some pAd.

Fixpoint eapol_reports (n : nat) (l : list msdu) (pAd : RTMP_ADAPTER W) : option (RTMP_ADAPTER W) :=
  match l with
  | [] => Some pAd
  | m :: l => pAd ← eapol_report n m pAd; eapol_reports (S n) l pAd
  end.
End Reports.

(** * One subframe *)

Lemma length_subframe m : msdu_ok m → length (subframe m) = (14 + length (m_body m))%nat.
Proof. intros (HD & HS & _). unfold subframe. rewrite !length_app, HD, HS. simpl. lia. Qed.

Lemma body_parts m : msdu_ok m → m_body m = take 6 (m_body m) ++ m_type m ++ drop 8 (m_body m) ∧
  length (take 6 (m_body m)) = 6%nat ∧ length (m_type m) = 2%nat ∧ length (drop 8 (m_body m)) = (length (m_body m) - 8)%nat.
Proof.
  intros (_ & _ & Hb). unfold m_type. rewrite !length_take, !length_drop. conjs; try lia.
  change 8%nat with (6 + 2)%nat. rewrite <- drop_drop, take_drop. by rewrite take_drop.
Qed.

Lemma mem_eq_at pre x post m p pat :
  m = pre ++ x ++ post → p = Z.of_nat (length pre) → length x = length pat → mem_eq pat m p = Some (bool_decide (x = pat)).
Proof. intros -> -> El. unfold mem_eq. by rewrite (rd_at pre x post); [..|rewrite El]. Qed.

Lemma header_at pre m post type : msdu_ok m →
  MAKE_802_3_HEADER (pre ++ subframe m ++ post) (Z.of_nat (length pre)) (Z.of_nat (length pre) + 6) type =
  Some (m_DA m ++ m_SA m ++ take 2 type).
Proof.
  intros (HD & HS & _). unfold MAKE_802_3_HEADER, subframe.
  rewrite (rd_at pre (m_DA m) (m_SA m ++ be16 (Z.of_nat (length (m_body m))) ++ m_body m ++ post) _ (Z.of_nat (length pre)));
    [|by rewrite <- !app_assoc|done|lia].
  cbn [mbind option_bind].
  rewrite (rd_at (pre ++ m_DA m) (m_SA m) (be16 (Z.of_nat (length (m_body m))) ++ m_body m ++ post));
    [done|by rewrite <- !app_assoc|rewrite length_app; lia|lia].
Qed.

Lemma convert_at pre m post : msdu_ok m →
  let o := Z.of_nat (length pre) in let n := Z.of_nat (length (m_body m)) in
  CONVERT_TO_802_3 (pre ++ subframe m ++ post) o (o + 6) (o + 14) n =
  Some (if m_removed m then (m_DA m ++ m_SA m ++ m_type m, o + 22, n - 8, true)
        else (m_DA m ++ m_SA m ++ be16 n, o + 14, n, false)).
Proof.
  intros Hm o n. pose proof Hm as (HD & HS & Hb). destruct (body_parts m Hm) as (Eb & H6 & Ht & H8).
  assert (Epre : Z.of_nat (length (pre ++ m_DA m ++ m_SA m ++ be16 n)) = o + 14).
  { rewrite !length_app, HD, HS. simpl. lia. }
  assert (Em : ∀ r, pre ++ subframe m ++ post = (pre ++ m_DA m ++ m_SA m ++ be16 n) ++ m_body m ++ r ↔ post = r).
  { intros r. unfold subframe. fold n. rewrite <- !app_assoc. split; [|by intros ->].
    intros H. by do 5 apply app_inv_head in H. }
  assert (Elen : [u8 (Z.shiftr n 8); u8 (Z.land n 255)] = be16 n).
  { unfold be16. assert (word16 n) by (unfold n; split; lia). f_equal; [|f_equal].
    - apply wrap_id; [done|]. rewrite Z.shiftr_div_pow2 by done. split; [apply Z.div_pos; lia|]. apply Z.div_lt_upper_bound; lia.
    - apply wrap_id; [done|]. change 255 with (Z.ones 8). rewrite Z.land_ones by done. apply Z.mod_pos_bound. done. }
  unfold CONVERT_TO_802_3. rewrite Elen.
  rewrite !(mem_eq_at (pre ++ m_DA m ++ m_SA m ++ be16 n) (take 6 (m_body m)) (m_type m ++ drop 8 (m_body m) ++ post));
    [|first [by rewrite H6|lia|rewrite (proj2 (Em post)) by done; rewrite Eb at 1; by rewrite <- !app_assoc]..].
  cbn [mbind option_bind]. fold (m_snap m) (m_tunnel m). unfold m_removed.
  pose proof (λ t, header_at pre m post t Hm) as Hh. fold o in Hh. rewrite !Hh.
  destruct (m_snap m || m_tunnel m) eqn:Est; cbn [andb]; [|done].
  rewrite (rd_at ((pre ++ m_DA m ++ m_SA m ++ be16 n) ++ take 6 (m_body m)) (m_type m) (drop 8 (m_body m) ++ post));
    [|rewrite (proj2 (Em post)) by done; rewrite Eb at 1; by rewrite <- !app_assoc|rewrite length_app, H6; lia|by rewrite Ht].
  cbn [mbind option_bind]. destruct (_ && m_snap m); cbn [negb]; [done|].
  rewrite Hh. cbn [mbind option_bind].
  rewrite take_ge by lia. rewrite wrap_id; [|done|unfold n; split; unfold LENGTH_802_1_H; lia].
  do 3 f_equal. unfold LENGTH_802_1_H. f_equal. lia.
Qed.

Lemma is_eapol (DA SA t : list Z) : length DA = 6%nat → length SA = 6%nat → length t = 2%nat →
  (aget (DA ++ SA ++ t) 12 =? 0x88) && (aget (DA ++ SA ++ t) 13 =? 0x8E) = bool_decide (t = EAPOL).
Proof.
  intros HD HS Ht. unfold aget. rewrite app_assoc, !app_nth2 by (rewrite length_app, HD, HS; simpl; lia).
  rewrite length_app, HD, HS. destruct t as [|x [|y [|]]]; try discriminate. simpl.
  apply eq_true_iff_eq. rewrite andb_true_iff, !Z.eqb_eq, bool_decide_eq_true. unfold EAPOL.
  split; [by intros [-> ->]|by intros [= -> ->]].
Qed.

Lemma length_not_eapol n : 0 ≤ n ≤ 1514 → be16 n ≠ EAPOL.
Proof. intros Hn [= H _]. rewrite Z.shiftr_div_pow2 in H by done. zdm. Qed.

Lemma rewritten_app pre m post : m_removed m = true →
  pre ++ rewritten m ++ post = (pre ++ m_DA m ++ take 2 (m_SA m)) ++ (m_DA m ++ m_SA m ++ m_type m) ++ drop 8 (m_body m) ++ post.
Proof. intros Hr. unfold rewritten, ethernet. rewrite Hr. by rewrite <- !app_assoc. Qed.

Lemma length_rewritten m : msdu_ok m → length (rewritten m) = length (subframe m).
Proof.
  intros Hm. rewrite (length_subframe m Hm). destruct (body_parts m Hm) as (_ & _ & Ht & H8).
  destruct (m_removed m) eqn:Er; [|by unfold rewritten; rewrite Er, length_subframe].
  unfold rewritten, ethernet. rewrite Er, !length_app, H8, Ht, length_take. destruct Hm as (-> & -> & Hb). simpl. lia.
Qed.

(** The bytes of the subframe that the header is written over. *)
Lemma subframe_split m : msdu_ok m → subframe m =
  (m_DA m ++ take 2 (m_SA m)) ++ (drop 2 (m_SA m) ++ be16 (Z.of_nat (length (m_body m))) ++ take 8 (m_body m)) ++ drop 8 (m_body m).
Proof.
  intros Hm. unfold subframe. rewrite <- !app_assoc. rewrite (app_assoc (take 2 _) (drop 2 _)), take_drop.
  do 3 f_equal. by rewrite take_drop.
Qed.

Section Correct.
Context {W : Type} (E : amsdu_env).
Implicit Types pAd : RTMP_ADAPTER W.

Lemma amsdu_report_spec n pre m post pAd : msdu_ok m → m_eapol m = true → (MLME_BUFFER_SIZE ≤ length (junk_Elem E n))%nat →
  amsdu_report E n (pre ++ subframe m ++ post) (Z.of_nat (length pre) + 22) (Z.of_nat (length (m_body m)) - 8) pAd =
  eapol_report E n m pAd.
Proof.
  intros Hm He Hj. unfold amsdu_report, eapol_report. rewrite He. destruct (al_Elem E n); [|done]. cbn [negb andb].
  pose proof Hm as (HD & HS & Hb). destruct (body_parts m Hm) as (_ & _ & _ & H8).
  rewrite (rd_at (pre ++ (m_DA m ++ take 2 (m_SA m)) ++ (drop 2 (m_SA m) ++ be16 (Z.of_nat (length (m_body m))) ++ take 8 (m_body m)))
             (drop 8 (m_body m)) post).
  - cbn [mbind option_bind]. unfold wr. rewrite length_take, H8. unfold LENGTH_802_11, LENGTH_802_1_H, MLME_BUFFER_SIZE in *.
    leb_true. cbn [mbind option_bind]. f_equal. lia.
  - rewrite (subframe_split m Hm) at 1. by rewrite <- !app_assoc.
  - rewrite !length_app, !length_take, length_drop, HD, HS. change (length (be16 _)) with 2%nat. lia.
  - lia.
Qed.

Lemma subframe_spec n pre m post pAd pAd' : msdu_ok m → (MLME_BUFFER_SIZE ≤ length (junk_Elem E n))%nat →
  eapol_report E n m pAd = Some pAd' →
  amsdu_subframe E n (Z.of_nat (length pre)) (Z.of_nat (length (m_body m))) (pre ++ subframe m ++ post) pAd =
  Some (pre ++ rewritten m ++ post, pAd', if al_Clone E n then [window (Z.of_nat (length pre)) m] else []).
Proof.
  intros Hm Hj Hr. pose proof Hm as (HD & HS & Hb). destruct (body_parts m Hm) as (_ & _ & Ht & H8).
  unfold amsdu_subframe. change LENGTH_802_3 with 14. rewrite (convert_at pre m post Hm). cbn [mbind option_bind].
  unfold window. destruct (m_removed m) eqn:Er; cbn [mbind option_bind].
  - rewrite (is_eapol _ _ _ HD HS Ht).
    assert (Ha : (if bool_decide (m_type m = EAPOL)
      then amsdu_report E n (pre ++ subframe m ++ post) (Z.of_nat (length pre) + 22) (Z.of_nat (length (m_body m)) - 8) pAd
      else Some pAd) = Some pAd').
    { destruct (bool_decide (m_type m = EAPOL)) eqn:Ed.
      - rewrite amsdu_report_spec; [done..| |done]. unfold m_eapol. by rewrite Er, Ed.
      - rewrite <- Hr. unfold eapol_report, m_eapol. by rewrite Er, Ed. }
    rewrite Ha. cbn [mbind option_bind].
    rewrite (wr_at (pre ++ m_DA m ++ take 2 (m_SA m)) (drop 2 (m_SA m) ++ be16 (Z.of_nat (length (m_body m))) ++ take 8 (m_body m))
               (drop 8 (m_body m) ++ post)); cbn [mbind option_bind].
    + rewrite rewritten_app by done. rewrite wrap_id by (done || split; lia).
      replace (Z.of_nat (length pre) + 22 - 14) with (Z.of_nat (length pre) + 8) by lia.
      replace (Z.of_nat (length (m_body m)) - 8 + 14) with (Z.of_nat (length (m_body m)) + 6) by lia. done.
    + rewrite (subframe_split m Hm) at 1. by rewrite <- !app_assoc.
    + rewrite !length_app, length_take, HD, HS. lia.
    + rewrite !length_app, length_take, length_drop, HD, HS, Ht. change (length (be16 _)) with 2%nat. lia.
  - rewrite is_eapol by done. rewrite bool_decide_eq_false_2 by (apply length_not_eapol; lia).
    cbn [mbind option_bind]. unfold eapol_report, m_eapol in Hr. rewrite Er in Hr. simplify_eq/=.
    unfold rewritten. by rewrite Er.
Qed.

(** The sizes the loop computes from a subframe. *)
Lemma aligned_size n : 15 ≤ n ≤ 1514 →
  u16 (Z.land (14 + n + 3) (Z.lnot 3)) = 14 + n + (- (14 + n)) `mod` 4 ∧
  32 ≤ 14 + n + (- (14 + n)) `mod` 4 ≤ 1528.
Proof.
  intros Hn.
  assert (El : Z.land (14 + n + 3) (Z.lnot 3) = 4 * ((n + 17) `div` 4)).
  { change 3 with (Z.ones 2) at 2. rewrite <- Z.ldiff_land, Z.ldiff_ones_r by done.
    rewrite Z.shiftl_mul_pow2, Z.shiftr_div_pow2 by done. change (2 ^ 2) with 4. replace (14 + n + 3) with (n + 17) by lia. lia. }
  rewrite El. assert (4 * ((n + 17) `div` 4) = 14 + n + (- (14 + n)) `mod` 4) as -> by zdm.
  assert (32 ≤ 14 + n + (- (14 + n)) `mod` 4 ≤ 1528) by zdm. split; [|done].
  apply wrap_id; [done|split; lia].
Qed.

Lemma octet_size n : 0 ≤ n ≤ 1514 → u16 (aget (be16 n) 1 + Z.shiftl (aget (be16 n) 0) 8) = n.
Proof.
  intros Hn. unfold be16, aget. simpl. change 255 with (Z.ones 8).
  rewrite Z.land_ones, Z.shiftl_mul_pow2, Z.shiftr_div_pow2 by done.
  rewrite wrap_id; [|done|]; [|split]; zdm.
Qed.

Lemma amsdu_ok_cons m l : amsdu_ok (m :: l) →
  msdu_ok m ∧ (length (m_pad m) ≤ pad_len m)%nat ∧ (l ≠ [] → length (m_pad m) = pad_len m ∧ amsdu_ok l).
Proof. destruct l; simpl; intros H; conjs; try tauto; destruct H as (_ & ? & ?); lia. Qed.

Definition split_view (n : nat) (o : Z) (l : list msdu) : list (Z * Z) :=
  concat (imap (λ i w, if al_Clone E (n + i) then [w] else []) (windows o l)).

Lemma split_view_cons n o m l :
  split_view n o (m :: l) = (if al_Clone E n then [window o m] else []) ++
    split_view (S n) (o + Z.of_nat (length (subframe m ++ m_pad m))) l.
Proof.
  unfold split_view. cbn [windows imap concat]. rewrite Nat.add_0_r. f_equal. f_equal.
  apply imap_ext. intros i w _. simpl. by rewrite Nat.add_succ_r.
Qed.

Lemma loop_spec l : ∀ fuel n pre post pAd pAd',
  amsdu_ok l → (∀ i, (MLME_BUFFER_SIZE ≤ length (junk_Elem E i))%nat) →
  (length l < fuel)%nat → eapol_reports E n l pAd = Some pAd' →
  deaggregate_loop E fuel n (Z.of_nat (length pre)) (Z.of_nat (length (amsdu l))) (pre ++ amsdu l ++ post) pAd =
  Some ((n + length l)%nat, pre ++ concat (map (λ m, rewritten m ++ m_pad m) l) ++ post, pAd',
        split_view n (Z.of_nat (length pre)) l).
Proof.
  induction l as [|m l IH]; intros [|fuel] n pre post pAd pAd' Hok Hj Hf Hr; try (simpl in Hf; lia).
  { simpl in *. simplify_eq. by rewrite Nat.add_0_r. }
  apply amsdu_ok_cons in Hok as (Hm & Hp & Hl). pose proof Hm as (HD & HS & Hb).
  cbn [eapol_reports] in Hr. peel Hr. cbn [deaggregate_loop].
  set (N := Z.of_nat (length (m_body m))). assert (HN : 15 ≤ N ≤ 1514) by (unfold N; lia).
  assert (Ea : amsdu (m :: l) = subframe m ++ m_pad m ++ amsdu l) by (unfold amsdu; cbn [map concat]; by rewrite <- app_assoc).
  rewrite Ea. assert (Es : Z.of_nat (length (subframe m)) = 14 + N) by (rewrite length_subframe by done; lia).
  destruct (Z.leb_spec (Z.of_nat (length (subframe m ++ m_pad m ++ amsdu l))) LENGTH_802_3) as [Hx|_].
  { rewrite length_app in Hx. unfold LENGTH_802_3 in Hx. lia. }
  rewrite (rd_at (pre ++ m_DA m ++ m_SA m) (be16 N) (m_body m ++ m_pad m ++ amsdu l ++ post));
    [|unfold subframe; fold N; by rewrite <- !app_assoc|rewrite !length_app, HD, HS; lia|done].
  cbn [mbind option_bind]. rewrite octet_size by lia. destruct (aligned_size N HN) as (EA & HA).
  assert (E1 : u16 (N + LENGTH_802_3) = 14 + N) by (rewrite wrap_id; unfold LENGTH_802_3; [lia|done|split; lia]).
  rewrite E1. replace ((_ <? 14 + N) || (1518 <? N)) with false; [|rewrite length_app; symmetry; apply orb_false_iff; clear - Es HN; split; apply Z.ltb_ge; [clearbody N; lia|lia]].
  rewrite <- !(app_assoc (subframe m)), <- !(app_assoc (m_pad m)). unfold N. erewrite subframe_spec by done. fold N. cbn [mbind option_bind].
  rewrite EA. replace (_ || _) with false by (symmetry; apply orb_false_iff; split; lia).
  rewrite split_view_cons. cbn [map concat]. unfold pad_len in *. fold N in Hp.
  destruct l as [|m' l].
  - cbn [eapol_reports] in Hr. simplify_eq. cbn [concat map amsdu]. rewrite !length_app. cbn [length].
    destruct (Z.ltb_spec (14 + N + (- (14 + N)) `mod` 4) (Z.of_nat (length (subframe m) + (length (m_pad m) + 0)))) as [Hx|_]; [lia|].
    cbn [mbind option_bind]. rewrite <- !app_assoc. cbn [app]. do 4 f_equal. lia.
  - destruct (Hl ltac:(done)) as (Ep & Hok). fold N in Ep.
    rewrite !length_app. destruct (Z.ltb_spec (14 + N + (- (14 + N)) `mod` 4)
      (Z.of_nat (length (subframe m) + (length (m_pad m) + length (amsdu (m' :: l)))))) as [_|Hx].
    + assert (Epre : Z.of_nat (length (pre ++ rewritten m ++ m_pad m)) = Z.of_nat (length pre) + (14 + N + (- (14 + N)) `mod` 4)).
      { rewrite !length_app, length_rewritten by done. lia. }
      pose proof (IH fuel (S n) (pre ++ rewritten m ++ m_pad m) post _ _ Hok Hj ltac:(simpl in *; lia) Hr) as IH'.
      rewrite <- !app_assoc, Epre in IH'.
      replace (Z.of_nat (length (subframe m) + (length (m_pad m) + length (amsdu (m' :: l)))) - (14 + N + (- (14 + N)) `mod` 4))
        with (Z.of_nat (length (amsdu (m' :: l)))) by lia.
      rewrite IH'. cbn [mbind option_bind]. rewrite <- !app_assoc. do 2 f_equal.
      * do 2 f_equal. simpl. lia.
      * f_equal. f_equal. rewrite Nat2Z.inj_add. lia.
    + exfalso. assert (0 < length (amsdu (m' :: l)))%nat; [|lia].
      apply amsdu_ok_cons in Hok as (Hm' & _). unfold amsdu. cbn [map concat]. rewrite !length_app, length_subframe by done. lia.
Qed.
End Correct.

(** The reports of an aggregate reach the MLME. *)
Lemma report_total {W} E n m (pAd : RTMP_ADAPTER W) fl : msdu_ok m → (MLME_BUFFER_SIZE ≤ length (junk_Elem E n))%nat →
  queue_wf (Queue (Mlme pAd)) fl → ∃ pAd', eapol_report E n m pAd = Some pAd' ∧ queue_wf (Queue (Mlme pAd')) fl.
Proof.
  intros (_ & _ & Hb) Hj Hq. unfold eapol_report. destruct (_ && _); [|by eauto].
  unfold REPORT_MGMT_FRAME_TO_MLME.
  edestruct (recv_total (Flags pAd) (ate_on pAd)) as (b & q & Eq & Hq'); [exact Hq| | |rewrite Eq; cbn [mbind option_bind]; by eauto].
  - lia.
  - rewrite length_bwrite, length_take; rewrite ?length_drop, ?length_take; unfold MLME_BUFFER_SIZE in *; lia.
Qed.

Lemma reports_total {W} E l : ∀ n (pAd : RTMP_ADAPTER W) fl, amsdu_ok l → (∀ i, (MLME_BUFFER_SIZE ≤ length (junk_Elem E i))%nat) →
  queue_wf (Queue (Mlme pAd)) fl → ∃ pAd', eapol_reports E n l pAd = Some pAd' ∧ queue_wf (Queue (Mlme pAd')) fl.
Proof.
  induction l as [|m l IH]; intros n pAd fl Hok Hj Hq; [by eexists|].
  apply amsdu_ok_cons in Hok as (Hm & _ & Hl).
  destruct (report_total E n m pAd fl Hm (Hj n) Hq) as (pAd1 & E1 & Hq1).
  destruct (IH (S n) pAd1 fl) as (pAd2 & E2 & Hq2); [|done..|].
  { destruct l; [done|by apply Hl]. }
  exists pAd2. cbn [eapol_reports]. rewrite E1. done.
Qed.

(** Each window, read in the memory the split leaves, is what the subframe
    carries. *)
Lemma windows_read l : ∀ pre post, amsdu_ok l →
  Forall2 (λ w m, rd (pre ++ concat (map (λ m, rewritten m ++ m_pad m) l) ++ post) w.1 w.2 = Some (m_up m))
    (windows (Z.of_nat (length pre)) l) l.
Proof.
  induction l as [|m l IH]; intros pre post Hok; [constructor|].
  apply amsdu_ok_cons in Hok as (Hm & _ & Hl). cbn [windows map concat]. constructor.
  - destruct (body_parts m Hm) as (_ & _ & Ht & H8). pose proof Hm as (HD & HS & Hb).
    unfold window, m_up, rewritten. destruct (m_removed m); cbn [fst snd].
    + eapply (rd_at (pre ++ m_DA m ++ take 2 (m_SA m)) (ethernet m)); [by rewrite <- !app_assoc| |].
      * rewrite !length_app, length_take. lia.
      * unfold ethernet. rewrite !length_app. lia.
    + unfold subframe. eapply (rd_at (pre ++ m_DA m ++ m_SA m ++ be16 (Z.of_nat (length (m_body m)))) (m_body m));
        [by rewrite <- !app_assoc| |done].
      rewrite !length_app. change (length (be16 _)) with 2%nat. lia.
  - replace (Z.of_nat (length pre) + Z.of_nat (length (subframe m ++ m_pad m)))
      with (Z.of_nat (length (pre ++ rewritten m ++ m_pad m))) by (rewrite !length_app, length_rewritten by done; lia).
    eapply Forall2_impl; [apply (IH (pre ++ rewritten m ++ m_pad m) post)|].
    { destruct l; [done|by apply Hl]. }
    intros w m' H. by rewrite <- !app_assoc in *.
Qed.

Lemma amsdu_count l : amsdu_ok l → (length l ≤ length (amsdu l))%nat.
Proof.
  induction l as [|m l IH]; intros Hok; [done|]. apply amsdu_ok_cons in Hok as (Hm & _ & Hl).
  unfold amsdu in *. cbn [map concat]. rewrite !length_app, length_subframe by done.
  destruct l; [simpl; lia|]. destruct (Hl ltac:(done)) as [_ H]. specialize (IH H). simpl in *. lia.
Qed.

(** C15: An A-MSDU whose subframes are well formed (6-byte addresses, a body of
    15 to 1514 bytes, padding to a multiple of four between them) is split
    completely: [deaggregate_AMSDU_announce] counts every subframe and hands up,
    in order, one clone for each subframe for which the kernel has memory.  The
    clones share the memory of the packet, which the code rewrites in place
    while it walks; when it is done, the window of each subframe reads as the
    Ethernet frame of its MSDU (destination, source, protocol and payload) if
    the LLC header was removed, and as the body without a header if not, and
    the bytes before and after the aggregate are those that were there.  For
    each EAPOL subframe, in the same order, if there is memory for the element,
    [REPORT_MGMT_FRAME_TO_MLME] is called with the payload; whether the queue
    takes it is that function's decision (it refuses when it is full, and it
    judges by the header bytes, which this code leaves unwritten). *)
Theorem amsdu_split_correct {W} E l pre post (pAd : RTMP_ADAPTER W) fl
    (Hok : amsdu_ok l) (Hj : ∀ i, (MLME_BUFFER_SIZE ≤ length (junk_Elem E i))%nat)
    (Hq : queue_wf (Queue (Mlme pAd)) fl) :
  ∃ out pAd',
    deaggregate_AMSDU_announce E (pre ++ amsdu l ++ post) (Z.of_nat (length pre)) (Z.of_nat (length (amsdu l))) pAd =
      Some (length l, pre ++ out ++ post, pAd',
            concat (imap (λ i w, if al_Clone E i then [w] else []) (windows (Z.of_nat (length pre)) l))) ∧
    Forall2 (λ w m, rd (pre ++ out ++ post) w.1 w.2 = Some (m_up m)) (windows (Z.of_nat (length pre)) l) l ∧
    length out = length (amsdu l) ∧
    eapol_reports E 0 l pAd = Some pAd' ∧ queue_wf (Queue (Mlme pAd')) fl.
Proof.
  destruct (reports_total E l 0 pAd fl Hok Hj Hq) as (pAd' & Er & Hq').
  exists (concat (map (λ m, rewritten m ++ m_pad m) l)), pAd'. conjs; [|by apply windows_read| |done..].
  - unfold deaggregate_AMSDU_announce. pose proof (amsdu_count l Hok).
    by rewrite (loop_spec E l) with (pAd' := pAd') by (done || lia).
  - clear -Hok. induction l as [|m l IH]; [done|]. apply amsdu_ok_cons in Hok as (Hm & _ & Hl). unfold amsdu in *.
    cbn [map concat]. rewrite !length_app, length_rewritten, IH by (done || (destruct l; [done|by apply Hl])). done.
Qed.

Definition idle_engine : RTMP_ADAPTER unit := mk_pAd (set_Queue (MlmeQueueInit blank_queue) blank_mlme) 0 false ().
Lemma idle_wf : queue_wf (Queue (Mlme idle_engine)) None.
Proof. by apply init_wf. Qed.

Definition demo_amenv : amsdu_env := mk_amenv (λ _, true) (λ _, true) (λ _, zeros 1600) 6.
Definition demo_msdu (type : list Z) (n : nat) : msdu :=
  mk_msdu [2; 0; 0; 0; 0; 1] [2; 0; 0; 0; 0; 9] (SNAP_802_1H ++ type ++ replicate n 7) [].
(** An IPv4 packet, an EAPOL frame, and a body without an LLC header; there is
    no memory for the second clone. *)
Definition demo_amsdu : list msdu :=
  [demo_msdu [8; 0] 22; demo_msdu EAPOL 14; mk_msdu [2; 0; 0; 0; 0; 1] [2; 0; 0; 0; 0; 9] (replicate 15 0x42) []].

Definition demo_scarce : amsdu_env := mk_amenv (λ _, true) (λ i, negb (Nat.eqb i 1)) (λ _, zeros 1600) 6.

Lemma amsdu_split_correct_witness :
  ∃ out pAd',
    deaggregate_AMSDU_announce demo_scarce (zeros 54 ++ amsdu demo_amsdu ++ zeros 4) 54 109 idle_engine =
      Some (3%nat, zeros 54 ++ out ++ zeros 4, pAd', [(62, 36); (148, 15)]) ∧
    Forall2 (λ w m, rd (zeros 54 ++ out ++ zeros 4) w.1 w.2 = Some (m_up m)) [(62, 36); (106, 28); (148, 15)] demo_amsdu ∧
    length out = 109%nat ∧ eapol_reports demo_scarce 0 demo_amsdu idle_engine = Some pAd' ∧ queue_wf (Queue (Mlme pAd')) None.
Proof.
  apply (amsdu_split_correct demo_scarce demo_amsdu (zeros 54) (zeros 4) idle_engine None).
  - vm_compute. repeat split; lia.
  - intros i. vm_compute. lia.
  - exact idle_wf.
Defined.

(** * Any aggregate at all *)

(** No length field below 8 is followed by the LLC header of an EAPOL frame. *)
Definition no_tiny_eapol (mem : list Z) (from : Z) : Prop :=
  ∀ p Octet, from ≤ p → rd mem (p + 12) 2 = Some Octet → u16 (aget Octet 1 + Z.shiftl (aget Octet 0) 8) < 8 →
    rd mem (p + 20) 2 ≠ Some EAPOL.

Lemma rd_agree mem mem' k p n : length mem' = length mem → drop k mem' = drop k mem → Z.of_nat k ≤ p → rd mem' p n = rd mem p n.
Proof.
  intros El Ed Hp. unfold rd. rewrite El. destruct (_ && _); [|done]. do 2 f_equal.
  replace (Z.to_nat p) with (k + (Z.to_nat p - k))%nat by lia. by rewrite <- !drop_drop, Ed.
Qed.

Lemma wr_agree mem p src mem' k : wr mem p src = Some mem' → p + Z.of_nat (length src) ≤ Z.of_nat k →
  length mem' = length mem ∧ drop k mem' = drop k mem.
Proof.
  unfold wr. destruct (_ && _) eqn:Eb; [|done]. apply andb_true_iff in Eb as [H1 H2]. intros [= <-] Hk.
  split; [apply length_bwrite; lia|apply drop_bwrite; lia].
Qed.

Lemma convert_inside m pDA pSA pData n :
  0 ≤ pDA → pDA + 6 ≤ Z.of_nat (length m) → 0 ≤ pSA → pSA + 6 ≤ Z.of_nat (length m) → 0 ≤ pData → pData + 8 ≤ Z.of_nat (length m) →
  ∃ h, length h = 14%nat ∧
    (CONVERT_TO_802_3 m pDA pSA pData n = Some (h, pData, n, false) ∧ drop 12 h = [u8 (Z.shiftr n 8); u8 (Z.land n 255)] ∨
     CONVERT_TO_802_3 m pDA pSA pData n = Some (h, pData + 8, u16 (n - 8), true) ∧ rd m (pData + 6) 2 = Some (drop 12 h)).
Proof.
  intros. destruct (rd_inside m pDA 6) as (a & Ea & La); [lia..|]. destruct (rd_inside m pSA 6) as (b & Eb & Lb); [lia..|].
  destruct (rd_inside m (pData + 6) 2) as (t & Et & Lt); [lia..|].
  assert (Hh : ∀ ty, length ty = 2%nat → MAKE_802_3_HEADER m pDA pSA ty = Some (a ++ b ++ ty) ∧ length (a ++ b ++ ty) = 14%nat ∧
    drop 12 (a ++ b ++ ty) = ty).
  { intros ty Hty. unfold MAKE_802_3_HEADER. rewrite Ea, Eb. cbn [mbind option_bind].
    rewrite take_ge, !length_app by lia. conjs; [done|lia|]. rewrite app_assoc. apply drop_app_length'. rewrite length_app. lia. }
  unfold CONVERT_TO_802_3. destruct (mem_eq_inside SNAP_802_1H m pData) as [s ->]; [done|simpl; lia|].
  destruct (mem_eq_inside SNAP_BRIDGE_TUNNEL m pData) as [u ->]; [done|simpl; lia|]. cbn [mbind option_bind].
  destruct (Hh t) as (E1 & L1 & D1); [lia|].
  destruct (Hh [u8 (Z.shiftr n 8); u8 (Z.land n 255)]) as (E2 & L2 & D2); [done|].
  rewrite Et. cbn [mbind option_bind]. rewrite E1, E2. cbn [mbind option_bind].
  destruct (s || u); [destruct (_ && s)|]; eexists; (split; [|first [left; split; [reflexivity|done]|right; split; [reflexivity|by rewrite D1]]]);
    done.
Qed.

Section Safe.
Context {W : Type} (E : amsdu_env) (Hj : ∀ i, (MLME_BUFFER_SIZE ≤ length (junk_Elem E i))%nat).
Implicit Types pAd : RTMP_ADAPTER W.

Lemma report_inside n mem p size pAd fl : 0 ≤ p → 0 ≤ size ≤ 1518 → p + size ≤ Z.of_nat (length mem) →
  queue_wf (Queue (Mlme pAd)) fl → ∃ pAd', amsdu_report E n mem p size pAd = Some pAd' ∧ queue_wf (Queue (Mlme pAd')) fl.
Proof.
  intros Hp Hs Hin Hq. unfold amsdu_report. destruct (al_Elem E n); [|by eauto]. cbn [negb].
  destruct (rd_inside mem p size) as (x & -> & Lx); [lia..|]. cbn [mbind option_bind]. specialize (Hj n).
  destruct (wr_inside (take MLME_BUFFER_SIZE (junk_Elem E n)) (LENGTH_802_11 + LENGTH_802_1_H) x) as (Msg & -> & LM);
    [done|rewrite length_take; unfold LENGTH_802_11, LENGTH_802_1_H, MLME_BUFFER_SIZE in *; lia|].
  cbn [mbind option_bind]. rewrite length_take in LM. unfold REPORT_MGMT_FRAME_TO_MLME.
  edestruct (recv_total (Flags pAd) (ate_on pAd)) as (b & q & Eq & Hq'); [exact Hq| | |rewrite Eq; cbn [mbind option_bind]; by eauto];
    unfold LENGTH_802_11, LENGTH_802_1_H, MLME_BUFFER_SIZE in *; lia.
Qed.

(** One subframe of [n] bytes: what is written and handed up. *)
Lemma subframe_safe i p n mem pAd fl : 0 ≤ p → 0 ≤ n ≤ 1518 → p + 22 ≤ Z.of_nat (length mem) → p + 14 + n ≤ Z.of_nat (length mem) →
  (n < 8 → rd mem (p + 20) 2 ≠ Some EAPOL) → queue_wf (Queue (Mlme pAd)) fl →
  ∃ mem' pAd' ws, amsdu_subframe E i p n mem pAd = Some (mem', pAd', ws) ∧ length mem' = length mem ∧
    take (Z.to_nat p) mem' = take (Z.to_nat p) mem ∧
    (∀ k, p + 22 ≤ Z.of_nat k → drop k mem' = drop k mem) ∧ queue_wf (Queue (Mlme pAd')) fl ∧
    Forall (λ w, p ≤ w.1 ∧ 0 ≤ w.2 ∧ w.1 + w.2 ≤ p + 14 + n) ws.
Proof.
  intros Hp Hn H22 Hin Ht Hq. unfold amsdu_subframe. change LENGTH_802_3 with 14.
  destruct (convert_inside mem p (p + 6) (p + 14) n) as (h & Lh & [(-> & Dh)|(-> & Dh)]); [lia..| |]; cbn [mbind option_bind].
  - assert (Ex : (aget h 12 =? 0x88) && (aget h 13 =? 0x8E) = false).
    { replace (aget h 12) with (u8 (Z.shiftr n 8)); [apply andb_false_iff; left; apply Z.eqb_neq|].
      - rewrite Z.shiftr_div_pow2 by done. rewrite wrap_mod by done. zdm.
      - unfold aget. rewrite !nth_lookup, <- (take_drop 12 h), lookup_app_r, length_take, Lh, Dh by (rewrite length_take; lia). done. }
    rewrite Ex. cbn [mbind option_bind]. do 3 eexists. split; [done|]. conjs; [done..|].
    destruct (al_Clone E i); repeat constructor; simpl; lia.
  - assert (Ex : ∃ pAd', (if (aget h 12 =? 0x88) && (aget h 13 =? 0x8E) then amsdu_report E i mem (p + 14 + 8) (u16 (n - 8)) pAd
      else Some pAd) = Some pAd' ∧ queue_wf (Queue (Mlme pAd')) fl).
    { destruct (_ && _) eqn:Eb; [|by eauto]. assert (8 ≤ n).
      { destruct (decide (n < 8)) as [Hs|]; [|lia]. destruct (Ht Hs). replace (p + 20) with (p + 14 + 6) by lia. rewrite Dh. f_equal.
        apply andb_true_iff in Eb as [H1%Z.eqb_eq H2%Z.eqb_eq]. unfold aget in H1, H2.
        do 14 (destruct h as [|? h]; [discriminate|]). destruct h; [|discriminate]. simpl in *. by subst. }
      rewrite wrap_id by (done || split; lia). apply report_inside; [lia..|done]. }
    destruct Ex as (pAd' & -> & Hq'). cbn [mbind option_bind].
    destruct (wr_inside mem (p + 14 + 8 - 14) h) as (mem' & Ew & Lm); [lia..|]. rewrite Ew. cbn [mbind option_bind].
    do 3 eexists. split; [done|]. conjs; [done| |intros k Hk; eapply wr_agree; [done|lia]|done|].
    + revert Ew. unfold wr. destruct (_ && _); [|done]. intros [= <-]. unfold bwrite.
      rewrite take_app_le, take_take by (rewrite length_take; lia). f_equal. lia.
    + assert (Es : u16 (u16 (n - 8) + 14) = n + 6).
      { rewrite wrap_add_l by done. rewrite wrap_id; [lia|done|split; lia]. }
      rewrite Es. destruct (al_Clone E i); repeat constructor; simpl; lia.
Qed.

Definition apart (w w' : Z * Z) : Prop := w.1 + w.2 ≤ w'.1.

Lemma sorted_app_windows (ws ws' : list (Z * Z)) a b : (length ws ≤ 1)%nat →
  Forall (λ w, a ≤ w.1 ∧ 0 ≤ w.2 ∧ w.1 + w.2 ≤ b) ws → Forall (λ w, b ≤ w.1 ∧ 0 ≤ w.2) ws' → StronglySorted apart ws' →
  StronglySorted apart (ws ++ ws').
Proof.
  intros Hl H1 H2 Hs. destruct ws as [|w [|]]; simpl in *; [done| |lia].
  apply Forall_cons in H1 as ((? & ? & ?) & _). constructor; [done|].
  eapply Forall_impl; [done|]. unfold apart. intros w' (? & ?). lia.
Qed.

Lemma subframe_one i p n mem pAd mem' pAd' ws : amsdu_subframe E i p n mem pAd = Some (mem', pAd', ws) → (length ws ≤ 1)%nat.
Proof. unfold amsdu_subframe. intros H. peel H. simplify_eq. destruct (al_Clone E i); simpl; lia. Qed.

Lemma aligned_bounds x : 0 ≤ x ≤ 1532 → x ≤ u16 (Z.land (x + 3) (Z.lnot 3)) ≤ x + 3.
Proof.
  intros Hx. assert (El : Z.land (x + 3) (Z.lnot 3) = 4 * ((x + 3) `div` 4)).
  { change 3 with (Z.ones 2) at 2. rewrite <- Z.ldiff_land, Z.ldiff_ones_r by done.
    rewrite Z.shiftl_mul_pow2, Z.shiftr_div_pow2 by done. change (2 ^ 2) with 4. lia. }
  rewrite El, wrap_id; [zdm|done|split; zdm].
Qed.

Lemma loop_safe fuel : ∀ i p D mem pAd fl, 0 ≤ p → 0 ≤ D → D < Z.of_nat fuel → p + D + 8 ≤ Z.of_nat (length mem) →
  no_tiny_eapol mem p → queue_wf (Queue (Mlme pAd)) fl →
  ∃ n mem' pAd' ws, deaggregate_loop E fuel i p D mem pAd = Some (n, mem', pAd', ws) ∧ length mem' = length mem ∧
    take (Z.to_nat p) mem' = take (Z.to_nat p) mem ∧ drop (Z.to_nat (p + D + 8)) mem' = drop (Z.to_nat (p + D + 8)) mem ∧
    queue_wf (Queue (Mlme pAd')) fl ∧ Forall (λ w, p ≤ w.1 ∧ 0 ≤ w.2 ∧ w.1 + w.2 ≤ p + D) ws ∧ StronglySorted apart ws ∧
    Z.of_nat n ≤ Z.of_nat i + D `div` 32 + 1 ∧ (length ws + i ≤ n)%nat.
Proof.
  induction fuel as [|fuel IH]; intros i p D mem pAd fl Hp HD Hf Hin Ht Hq; [lia|]. cbn [deaggregate_loop]. unfold LENGTH_802_3.
  destruct (Z.leb_spec D 14); [do 4 eexists; split; [done|]; conjs; (done || (simpl; lia) || (constructor; done) || zdm || constructor)|].
  destruct (rd_inside mem (p + 12) 2) as (oc & Eo & _); [lia..|]. rewrite Eo. cbn [mbind option_bind].
  set (n := u16 (aget oc 1 + Z.shiftl (aget oc 0) 8)). assert (Hn : 0 ≤ n < 2 ^ 16) by apply (wrap_range 16 _ ltac:(lia)).
  destruct ((D <? u16 (n + 14)) || (1518 <? n)) eqn:Eb; [do 4 eexists; split; [done|]; conjs; (done || (simpl; lia) || (constructor; done) || zdm || constructor)|].
  apply orb_false_iff in Eb as [H1 H2]. assert (Es : u16 (n + 14) = n + 14) by (apply wrap_id; [done|split; lia]). rewrite Es in *.
  destruct (subframe_safe i p n mem pAd fl) as (mem1 & pAd1 & w & E1 & L1 & T1 & D1 & Hq1 & Hw);
    [lia..|intros Hs; by eapply (Ht p oc)|done|]. rewrite E1. cbn [mbind option_bind]. pose proof (subframe_one _ _ _ _ _ _ _ _ E1) as Lw.
  destruct (aligned_bounds (n + 14)) as [A1 A2]; [lia|]. set (S := u16 (Z.land (n + 14 + 3) (Z.lnot 3))) in *.
  assert (Hw' : Forall (λ w, p ≤ w.1 ∧ 0 ≤ w.2 ∧ w.1 + w.2 ≤ p + D) w).
  { eapply Forall_impl; [exact Hw|]. intros [] (? & ? & ?); simpl in *. lia. }
  assert (Hs1 : StronglySorted apart w) by (destruct w as [|? [|]]; [constructor|repeat constructor|simpl in Lw; lia]).
  destruct (_ || _) eqn:Eb; [do 4 eexists; split; [done|]; conjs; (done || (apply D1; lia) || lia || zdm)|].
  apply orb_false_iff in Eb as [H3 H4]. destruct (Z.ltb_spec S D); cbn [mbind option_bind].
  - destruct (IH (Datatypes.S i) (p + S) (D - S) mem1 pAd1 fl) as (n' & mem2 & pAd2 & ws & E2 & L2 & T2 & D2 & Hq2 & Hw2 & Hs2 & Hn2 & Hc2); try lia; [|done|].
    { intros q oc' Hq' Ho Hx. rewrite (rd_agree mem mem1 (Z.to_nat (p + 22))) in * by (done || lia || (apply D1; lia)). apply (Ht q oc'); [lia|done..]. }
    rewrite E2. cbn [mbind option_bind]. do 4 eexists. split; [done|]. conjs; [lia| | |done| | | |rewrite length_app; lia].
    + rewrite <- T1. replace (Z.to_nat p) with (Z.to_nat p `min` Z.to_nat (p + S))%nat by lia. by rewrite <- !take_take, T2.
    + replace (p + D + 8) with (p + S + (D - S) + 8) by lia. rewrite D2. apply D1. lia.
    + apply Forall_app; split; [done|]. eapply Forall_impl; [exact Hw2|]. intros [] (? & ? & ?); simpl in *. lia.
    + eapply sorted_app_windows; [done|exact Hw| |done]. eapply Forall_impl; [exact Hw2|]. intros [] (? & ? & ?); simpl in *. lia.
    + clear - Hn2 H4. assert ((D - S) `div` 32 + 1 ≤ D `div` 32) by (apply Z.ltb_ge in H4; zdm). lia.
  - do 4 eexists. split; [done|]. rewrite app_nil_r. conjs; (done || (apply D1; lia) || lia || zdm).
Qed.
End Safe.

(** C16: The split of an A-MSDU of arbitrary contents ends and stays inside the
    packet, under two conditions: the memory of the packet goes on for 8 bytes
    behind the aggregate, and nowhere in the packet, from the aggregate on, is
    a two-byte number below 8 followed, with six bytes between, by the EAPOL type (a
    subframe that announces less than 8 bytes and carries that type makes a
    copy overflow, [amsdu_eapol_overflow]).  Then nothing in front of the
    aggregate and nothing from 8 bytes past its end on changes, the windows handed up lie inside the aggregate, in
    order and without overlap, and there are at most one for each 32 bytes of
    the aggregate and one more. *)
Theorem amsdu_split_safe {W} E mem p D (pAd : RTMP_ADAPTER W) fl
    (Hj : ∀ i, (MLME_BUFFER_SIZE ≤ length (junk_Elem E i))%nat) (Hp : 0 ≤ p) (HD : 0 ≤ D)
    (Hin : p + D + 8 ≤ Z.of_nat (length mem)) (Ht : no_tiny_eapol mem p) (Hq : queue_wf (Queue (Mlme pAd)) fl) :
  ∃ n mem' pAd' ws, deaggregate_AMSDU_announce E mem p D pAd = Some (n, mem', pAd', ws) ∧ length mem' = length mem ∧
    take (Z.to_nat p) mem' = take (Z.to_nat p) mem ∧ drop (Z.to_nat (p + D + 8)) mem' = drop (Z.to_nat (p + D + 8)) mem ∧
    queue_wf (Queue (Mlme pAd')) fl ∧ Forall (λ w, p ≤ w.1 ∧ 0 ≤ w.2 ∧ w.1 + w.2 ≤ p + D) ws ∧ StronglySorted apart ws ∧
    Z.of_nat (length ws) ≤ D `div` 32 + 1.
Proof.
  destruct (loop_safe E Hj (S (Z.to_nat D)) 0 p D mem pAd fl) as (n & mem' & pAd' & ws & H1 & H2 & H3 & H4 & H5 & H6 & H7 & H8 & H9); [done..|lia|done|done|done|].
  exists n, mem', pAd', ws. conjs; try done. lia.
Qed.

(** Without the byte 0x88 there is no EAPOL ethertype. *)
Lemma no_88 mem from : 0 ≤ from → Forall (λ x, x ≠ 0x88) (drop (Z.to_nat from) mem) → no_tiny_eapol mem from.
Proof.
  intros H0 Hm q oc Hq _ _ Hx. unfold rd in Hx. destruct (_ && _); [|done].
  apply (f_equal (λ o, match o with Some (x :: _) => x | _ => 0 end)) in Hx. simpl in Hx.
  assert (Hb : Forall (λ x, x ≠ 0x88) (take 2 (drop (Z.to_nat (q + 20)) mem))).
  { replace (Z.to_nat (q + 20)) with (Z.to_nat from + (Z.to_nat (q + 20) - Z.to_nat from))%nat by lia. rewrite <- drop_drop. by apply Forall_take, Forall_drop. }
  change (Z.to_nat 2) with 2%nat in Hx. destruct (take 2 _) as [|x t]; [discriminate|]. by apply Forall_cons in Hb as [Hb _].
Qed.

(** A subframe that claims 200 bytes in an aggregate of 60. *)
Lemma amsdu_split_safe_witness :
  ∃ n mem' pAd' ws, deaggregate_AMSDU_announce demo_amenv (zeros 12 ++ [0; 200] ++ zeros 60) 0 60 idle_engine = Some (n, mem', pAd', ws) ∧
    length mem' = 74%nat ∧ [] = @nil Z ∧ drop 68 mem' = zeros 6 ∧ queue_wf (Queue (Mlme pAd')) None ∧
    Forall (λ w, 0 ≤ w.1 ∧ 0 ≤ w.2 ∧ w.1 + w.2 ≤ 60) ws ∧ StronglySorted apart ws ∧ Z.of_nat (length ws) ≤ 60 `div` 32 + 1.
Proof.
  apply (amsdu_split_safe demo_amenv (zeros 12 ++ [0; 200] ++ zeros 60) 0 60 idle_engine None); [|done..| |exact idle_wf].
  - intros i. vm_compute. lia.
  - apply no_88; [done|]. repeat constructor; lia.
Defined.

Lemma octet_small n : 0 ≤ n < 256 → u16 (aget [0; n] 1 + Z.shiftl (aget [0; n] 0) 8) = n.
Proof.
  intros Hn. change (Z.shiftl (aget [0; n] 0) 8) with 0. change (aget [0; n] 1) with n. rewrite Z.add_0_r.
  apply wrap_id; [done|split; lia].
Qed.

(** The excluded case: the length of the copy underflows and the copy of the
    payload leaves [Elem->Msg]. *)
Theorem amsdu_eapol_overflow {W} E mem (pAd : RTMP_ADAPTER W) p D n DA SA tunnel
    (Ha : al_Elem E 0 = true) (HDA : length DA = 6%nat) (HSA : length SA = 6%nat) (Hn : 0 ≤ n < 8) (HD : 14 + n ≤ D) (HD' : 14 < D)
    (Hm : rd mem p 22 = Some (DA ++ SA ++ [0; n] ++ (if (tunnel : bool) then SNAP_BRIDGE_TUNNEL else SNAP_802_1H) ++ EAPOL)) :
  deaggregate_AMSDU_announce E mem p D pAd = None.
Proof.
  apply rd_split in Hm as (pre & post & -> & ->). set (L := if tunnel then _ else _) in *.
  assert (LL : length L = 6%nat) by by destruct tunnel. set (o := Z.of_nat (length pre)).
  assert (R : ∀ a x b k, DA ++ SA ++ [0; n] ++ L ++ EAPOL = a ++ x ++ b → k = Z.of_nat (length a) →
    rd (pre ++ (DA ++ SA ++ [0; n] ++ L ++ EAPOL) ++ post) (o + k) (Z.of_nat (length x)) = Some x).
  { intros a x b k Ex ->. apply (rd_at (pre ++ a) x (b ++ post)); [rewrite Ex; by rewrite <- !app_assoc|rewrite length_app; lia|done]. }
  set (mem := pre ++ _ ++ post) in *. unfold deaggregate_AMSDU_announce. cbn [deaggregate_loop].
  destruct (Z.leb_spec D LENGTH_802_3) as [Hx|_]; [unfold LENGTH_802_3 in Hx; lia|].
  pose proof (R (DA ++ SA) [0; n] (L ++ EAPOL) 12) as R1. change (Z.of_nat (length [0; n])) with 2 in R1. rewrite R1; [|by rewrite <- !app_assoc|rewrite length_app; lia].
  cbn [mbind option_bind]. rewrite (octet_small n) by lia.
  replace (u16 (n + LENGTH_802_3)) with (n + 14) by (symmetry; apply wrap_id; [done|unfold LENGTH_802_3; split; lia]).
  replace ((D <? n + 14) || (1518 <? n)) with false by (symmetry; apply orb_false_iff; split; lia).
  unfold amsdu_subframe, CONVERT_TO_802_3, MAKE_802_3_HEADER, mem_eq, LENGTH_802_3, LENGTH_802_1_H.
  pose proof (R (DA ++ SA ++ [0; n]) L EAPOL 14) as R2. rewrite LL in R2. change (Z.of_nat 6) with 6 in R2.
  change (Z.of_nat (length SNAP_802_1H)) with 6. change (Z.of_nat (length SNAP_BRIDGE_TUNNEL)) with 6.
  rewrite R2 by ((by rewrite <- !app_assoc) || (rewrite !length_app; simpl; lia)). cbn [mbind option_bind].
  replace (bool_decide (L = SNAP_802_1H) || bool_decide (L = SNAP_BRIDGE_TUNNEL)) with true by (unfold L; by destruct tunnel).
  pose proof (R (DA ++ SA ++ [0; n] ++ L) EAPOL [] 20) as R3. replace (o + 14 + 6) with (o + 20) by lia. change (Z.of_nat (length EAPOL)) with 2 in R3.
  rewrite R3 by ((by rewrite <- !app_assoc) || (rewrite !length_app, LL; simpl; lia)). cbn [mbind option_bind].
  change (bool_decide (EAPOL = IPX) || bool_decide (EAPOL = APPLE_TALK)) with false. cbn [andb].
  pose proof (R [] DA (SA ++ [0; n] ++ L ++ EAPOL) 0) as R4. rewrite HDA, Z.add_0_r in R4. change (Z.of_nat 6) with 6 in R4. rewrite R4 by done.
  pose proof (R DA SA ([0; n] ++ L ++ EAPOL) 6) as R5. rewrite HSA in R5. change (Z.of_nat 6) with 6 in R5. rewrite R5 by (done || lia). cbn [mbind option_bind].
  rewrite is_eapol by done. change (bool_decide (take 2 EAPOL = EAPOL)) with true. cbn [mbind option_bind].
  unfold amsdu_report. rewrite Ha. cbn [negb]. destruct (rd mem (o + 14 + 8) (u16 (n - 8))) as [x|] eqn:Ex; [|done]. cbn [mbind option_bind].
  assert (Hx : length x = Z.to_nat (n + 65528)).
  { assert (Ew : u16 (n - 8) = n + 65528) by (rewrite wrap_mod by done; zdm). rewrite Ew in Ex. unfold rd in Ex. destruct (_ && _) eqn:Eb; [|done].
    simplify_eq. rewrite length_take, length_drop. lia. }
  assert (Ew : wr (take MLME_BUFFER_SIZE (junk_Elem E 0)) (LENGTH_802_11 + LENGTH_802_1_H) x = None).
  { unfold wr. destruct (_ && _) eqn:Eb; [|done]. rewrite length_take in Eb. apply andb_true_iff in Eb as [_ Eb%Z.leb_le].
    unfold MLME_BUFFER_SIZE, LENGTH_802_11, LENGTH_802_1_H in Eb. clear -Eb Hx Hn. lia. }
  rewrite Ew. done.
Qed.

Lemma amsdu_eapol_overflow_witness :
  deaggregate_AMSDU_announce demo_amenv (zeros 12 ++ [0; 0] ++ SNAP_802_1H ++ EAPOL ++ zeros 40) 0 60 idle_engine = None.
Proof. apply (amsdu_eapol_overflow demo_amenv _ idle_engine 0 60 0 (zeros 6) (zeros 6) false); try done. Defined.
