(* ===== verification/RxFrag.v ===== *)
(** The reassembly of fragments: src/common/cmm_data.c
    (RESET_FRAGFRAME, RTMPDeFragmentDataFrame) on the packets of RxPacket, with
    the data of src/include/rtmp.h (RX_BLK, FRAGMENT_FRAME), the header and the
    reception data of src/include/rtmp_type.h, mac_ral/rtmp_mac.h and the
    allocation of the buffer in src/os/linux/rt_linux.c
    (RTMP_AllocateFragPacketBuffer).

    The adapter has one place for a reassembly: a buffer the fragments are
    copied into, the number of bytes in it and the sequence and fragment number
    it saw last.  Every fragment is released; the reassembled packet is the
    buffer itself, which a fresh one replaces. *)

From S2P Require Import Prelude Mlme MacTable RxPacket.

(** * Data *)

Definition MAX_FRAME_SIZE : Z := 2346.
Definition RX_BUFFER_NORMSIZE : Z := 3840.

(** A socket buffer: an identity, its memory, the data pointer and length. *)
Record sk_buff := mk_skb { skb_id : Z; skb_mem : list Z; skb_data : Z; skb_len : Z }.

(** [RXINFO_STRUC], the bits the data path tests. *)
Record RXINFO_STRUC := mk_rxinfo_struc {
  ri_BA : bool; ri_AMPDU : bool; ri_U2M : bool; ri_Mcast : bool; ri_Bcast : bool; ri_MyBss : bool;
  ri_L2PAD : bool; ri_Decrypted : bool
}.

(** [RX_BLK]: pointers are offsets into the memory of [rb_pkt]. *)
Record RX_BLK := mk_rxblk {
  rb_pkt : sk_buff;
  rb_pRxWI : Z;
  rb_pHeader : Z;
  rb_pData : Z;
  rb_DataSize : Z;
  rb_Flags : Z;
  rb_UserPriority : Z;
  rb_OpMode : Z;
  rb_wcid : nat;
  rb_key_idx : nat;
  rb_TID : nat;
  rb_rssi : Z * Z * Z;
  rb_snr : Z * Z * Z;
  rb_freq_offset : Z;
  rb_MODE : Z;
  rb_MCS : Z;
  rb_ShortGI : bool;
  rb_rate_word : Z;
  rb_info : RXINFO_STRUC
}.

Record FRAGMENT_FRAME := mk_frag {
  pFragPacket : sk_buff;
  RxSize : Z;
  ff_Sequence : Z;
  LastFrag : Z;
  ff_Flags : Z
}.

Definition set_place (p : sk_buff) (wi h d n : Z) (rb : RX_BLK) : RX_BLK :=
  mk_rxblk p wi h d n (rb_Flags rb) (rb_UserPriority rb) (rb_OpMode rb) (rb_wcid rb) (rb_key_idx rb) (rb_TID rb)
    (rb_rssi rb) (rb_snr rb) (rb_freq_offset rb) (rb_MODE rb) (rb_MCS rb) (rb_ShortGI rb) (rb_rate_word rb) (rb_info rb).

(** [pData] and [DataSize] move; [DataSize] is 16 bits wide. *)
Definition set_data (d n : Z) (rb : RX_BLK) : RX_BLK :=
  set_place (rb_pkt rb) (rb_pRxWI rb) (rb_pHeader rb) d (u16 n) rb.

Definition set_rbFlags (f : Z) (rb : RX_BLK) : RX_BLK :=
  mk_rxblk (rb_pkt rb) (rb_pRxWI rb) (rb_pHeader rb) (rb_pData rb) (rb_DataSize rb) f (rb_UserPriority rb) (rb_OpMode rb)
    (rb_wcid rb) (rb_key_idx rb) (rb_TID rb) (rb_rssi rb) (rb_snr rb) (rb_freq_offset rb) (rb_MODE rb) (rb_MCS rb)
    (rb_ShortGI rb) (rb_rate_word rb) (rb_info rb).

(** * The header of a frame *)

Definition LENGTH_802_11 : Z := 24.

(** The first 24 bytes, [HEADER_802_11]. *)
Definition header (rb : RX_BLK) : option (list Z) := rd (skb_mem (rb_pkt rb)) (rb_pHeader rb) LENGTH_802_11.

Definition fc_bit (h : list Z) (i : Z) : bool := Z.testbit (aget h 1) i.
Definition fc_ToDs (h : list Z) : bool := fc_bit h 0.
Definition fc_FrDs (h : list Z) : bool := fc_bit h 1.
Definition fc_MoreFrag (h : list Z) : bool := fc_bit h 2.
Definition fc_Retry (h : list Z) : bool := fc_bit h 3.
Definition fc_MoreData (h : list Z) : bool := fc_bit h 5.
Definition fc_Wep (h : list Z) : bool := fc_bit h 6.
Definition fc_Order (h : list Z) : bool := fc_bit h 7.
Definition hdr_Addr1 (h : list Z) : list Z := take 6 (drop 4 h).
Definition hdr_Addr2 (h : list Z) : list Z := take 6 (drop 10 h).
Definition hdr_Addr3 (h : list Z) : list Z := take 6 (drop 16 h).
Definition hdr_Frag (h : list Z) : Z := Z.land (aget h 22) 15.
Definition hdr_Sequence (h : list Z) : Z := Z.lor (Z.shiftr (aget h 22) 4) (Z.shiftl (aget h 23) 4).

(** * The reassembly *)

Definition RESET_FRAGFRAME (f : FRAGMENT_FRAME) : FRAGMENT_FRAME := mk_frag (pFragPacket f) 0 0 0 0.

(** [memmove] into the fragment buffer, at an offset from its data pointer. *)
Definition frag_write (f : FRAGMENT_FRAME) (off : Z) (src : list Z) : option sk_buff :=
  let p := pFragPacket f in
  m ← wr (skb_mem p) (skb_data p + off) src; Some (mk_skb (skb_id p) m (skb_data p) (skb_len p)).

(** A fresh buffer, or NULL; nothing is in it yet. *)
Definition RTMP_AllocateFragPacketBuffer (al : option sk_buff) : option sk_buff := al.

Section Defrag.
Context (RXWISize : Z).

(** Lines 2730-2748: a fragment with number 0. *)
Definition frag_first (h : list Z) (rb : RX_BLK) (f : FRAGMENT_FRAME) : option FRAGMENT_FRAME :=
  let HeaderRoom := u8 (rb_pData rb - rb_pHeader rb) in
  let mem := skb_mem (rb_pkt rb) in
  let size := rb_DataSize rb + HeaderRoom + RXWISize in
  wi ← rd mem (rb_pRxWI rb) RXWISize;
  p ← frag_write f 0 wi;
  let f := mk_frag p size (ff_Sequence f) (LastFrag f) (ff_Flags f) in
  d ← rd mem (rb_pHeader rb) (size - RXWISize);
  p ← frag_write f RXWISize d;
  Some (mk_frag p size (hdr_Sequence h) (hdr_Frag h) (ff_Flags f)).

(** Lines 2749-2792: a later fragment; whether the reassembly is done. *)
Definition frag_next (h : list Z) (rb : RX_BLK) (f : FRAGMENT_FRAME) : option (bool * FRAGMENT_FRAME) :=
  if negb (hdr_Sequence h =? ff_Sequence f) || negb (hdr_Frag h =? LastFrag f + 1)
  then Some (false, RESET_FRAGFRAME f)
  else if MAX_FRAME_SIZE + RXWISize <? RxSize f + rb_DataSize rb then Some (false, RESET_FRAGFRAME f)
  else
    llc ← mem_eq SNAP_802_1H (skb_mem (rb_pkt rb)) (rb_pData rb);
    if (llc : bool) then Some (false, f)
    else
      d ← rd (skb_mem (rb_pkt rb)) (rb_pData rb) (rb_DataSize rb);
      p ← frag_write f (RxSize f) d;
      Some (negb (fc_MoreFrag h), mk_frag p (RxSize f + rb_DataSize rb) (ff_Sequence f) (hdr_Frag h) (ff_Flags f)).

(** Lines 2793-2823: the received packet was released; a completed one is
    handed out if a buffer can replace it. *)
Definition frag_done (al : option sk_buff) (done : bool) (HeaderRoom : Z) (rb : RX_BLK) (f : FRAGMENT_FRAME)
    : bool * RX_BLK * FRAGMENT_FRAME :=
  if done then
    match RTMP_AllocateFragPacketBuffer al with
    | Some new =>
        let p := pFragPacket f in
        (true,
         set_place p (skb_data p) (skb_data p + RXWISize) (skb_data p + RXWISize + HeaderRoom)
           (u16 (RxSize f - HeaderRoom - RXWISize)) rb,
         mk_frag new (RxSize f) (ff_Sequence f) (LastFrag f) (ff_Flags f))
    | None => (false, rb, RESET_FRAGFRAME f)
    end
  else (false, rb, f).

(** Whether a packet is returned (then [RX_BLK] describes it), and the state.
    The packet of [rb] is released in every case. *)
Definition RTMPDeFragmentDataFrame (al : option sk_buff) (rb : RX_BLK) (f : FRAGMENT_FRAME)
    : option (bool * RX_BLK * FRAGMENT_FRAME) :=
  let HeaderRoom := u8 (rb_pData rb - rb_pHeader rb) in
  h ← header rb;
  '(fin, f) ← (if hdr_Frag h =? 0
               then if fc_MoreFrag h then f ← frag_first h rb f; Some (false, f) else Some (false, f)
               else frag_next h rb f);
  Some (frag_done al fin HeaderRoom rb f).

(** The fragments of a run, each with the buffer the kernel would hand out;
    the packets that come out. *)
Fixpoint defrag_run (l : list (RX_BLK * option sk_buff)) (f : FRAGMENT_FRAME) : option (list RX_BLK * FRAGMENT_FRAME) :=
  match l with
  | [] => Some ([], f)
  | (rb, al) :: l =>
      '(r, rb, f) ← RTMPDeFragmentDataFrame al rb f;
      '(out, f) ← defrag_run l f;
      Some (if (r : bool) then rb :: out else out, f)
  end.
End Defrag.
