(* ===== verification/RxFragClaims.v ===== *)
(** What the reassembly does with the fragments of a frame: in order they give
    the frame, whatever came before; with one missing they give nothing; the
    buffer is never left as long as the first fragment fits. *)

From stdpp Require Import list.
From S2P Require Import Prelude Mlme MacTable RxPacket RxFrag.

(** * Appending to the buffer *)

Lemma rd_wr_append m p n x y m' : rd m p n = Some x → wr m (p + n) y = Some m' →
  rd m' p (n + Z.of_nat (length y)) = Some (x ++ y) ∧ length m' = length m.
Proof.
  intros Hx Hy. pose proof (rd_length _ _ _ _ Hx) as Lx.
  unfold rd in Hx. destruct (_ && _) eqn:Eb in Hx; [|done]. injection Hx as Ex. rewrite !andb_true_iff, !Z.leb_le in Eb.
  unfold wr in Hy. destruct (_ && _) eqn:Ec in Hy; [|done]. injection Hy as <-. rewrite andb_true_iff, !Z.leb_le in Ec.
  assert (El : length (bwrite m (Z.to_nat (p + n)) y) = length m) by (apply length_bwrite; lia).
  split; [|done].
  apply (rd_at (take (Z.to_nat p) m) (x ++ y) (drop (Z.to_nat (p + n) + length y) m)).
  - unfold bwrite. rewrite <- (app_assoc x y), (app_assoc (take (Z.to_nat p) m) x). f_equal. rewrite <- Ex.
    replace (Z.to_nat (p + n)) with (Z.to_nat p + Z.to_nat n)%nat by lia. by rewrite take_take_drop.
  - rewrite length_take. lia.
  - rewrite length_app. lia.
Qed.

Lemma wr_inside' m p y : 0 ≤ p → p + Z.of_nat (length y) ≤ Z.of_nat (length m) → ∃ m', wr m p y = Some m'.
Proof. intros H1 H2. destruct (wr_inside m p y H1 H2) as (m' & E & _). eauto. Qed.

(** * A train of fragments *)

Section Train.
Context (RXWISize : Z) (HW : 0 ≤ RXWISize < 256).

(** [rb] holds fragment [i] of frame [seq], with [room] bytes of headers in
    front of the data [d]. *)
Definition fragment (rb : RX_BLK) (seq i : Z) (more : bool) (room : Z) (d : list Z) : Prop :=
  ∃ h, header rb = Some h ∧ hdr_Sequence h = seq ∧ hdr_Frag h = i ∧ fc_MoreFrag h = more ∧
    rb_pData rb = rb_pHeader rb + room ∧ rb_DataSize rb = Z.of_nat (length d) ∧
    rd (skb_mem (rb_pkt rb)) (rb_pData rb) (rb_DataSize rb) = Some d.

(** The fragments from number [i] on, the last one without [MoreFrag]; none of
    them starts like an LLC header. *)
Fixpoint fragments (l : list (RX_BLK * list Z)) (seq i room : Z) : Prop :=
  match l with
  | [] => False
  | (rb, d) :: l =>
      fragment rb seq i (match l with [] => false | _ => true end) room d ∧
      mem_eq SNAP_802_1H (skb_mem (rb_pkt rb)) (rb_pData rb) = Some false ∧
      match l with [] => True | _ => fragments l seq (i + 1) room end
  end.

(** The reassembly has collected [content]. *)
Definition collected (f : FRAGMENT_FRAME) (seq i : Z) (content : list Z) : Prop :=
  let p := pFragPacket f in
  0 ≤ skb_data p ∧ skb_data p + MAX_FRAME_SIZE + RXWISize ≤ Z.of_nat (length (skb_mem p)) ∧
  RxSize f = Z.of_nat (length content) ∧ ff_Sequence f = seq ∧ LastFrag f = i ∧
  rd (skb_mem p) (skb_data p) (RxSize f) = Some content.

Lemma collect_first rb seq room d f wi H : fragment rb seq 0 true room d → 0 ≤ room < 256 →
  rd (skb_mem (rb_pkt rb)) (rb_pRxWI rb) RXWISize = Some wi →
  rd (skb_mem (rb_pkt rb)) (rb_pHeader rb) room = Some H →
  0 ≤ skb_data (pFragPacket f) → skb_data (pFragPacket f) + MAX_FRAME_SIZE + RXWISize ≤ Z.of_nat (length (skb_mem (pFragPacket f))) →
  room + Z.of_nat (length d) ≤ MAX_FRAME_SIZE →
  ∀ al, ∃ f', RTMPDeFragmentDataFrame RXWISize al rb f = Some (false, rb, f') ∧ collected f' seq 0 (wi ++ H ++ d) ∧
    skb_id (pFragPacket f') = skb_id (pFragPacket f).
Proof.
  intros (h & Eh & Es & Ef & Em & Ep & En & Ed) Hr Ew EH H0 Hb Hs al.
  assert (Lw : Z.of_nat (length wi) = RXWISize) by exact (rd_length _ _ _ _ Ew).
  assert (LH : Z.of_nat (length H) = room) by exact (rd_length _ _ _ _ EH).
  unfold RTMPDeFragmentDataFrame. rewrite Eh. cbn [mbind option_bind]. rewrite Ef, Em. cbn [Z.eqb].
  unfold frag_first. assert (Er : u8 (rb_pData rb - rb_pHeader rb) = room) by (rewrite wrap_id; [lia|done|split; lia]).
  rewrite Er, Ew. cbn [mbind option_bind]. set (size := rb_DataSize rb + room + RXWISize).
  destruct (wr_inside' (skb_mem (pFragPacket f)) (skb_data (pFragPacket f) + 0) wi) as (m1 & E1);
    [lia|unfold MAX_FRAME_SIZE in *; lia|].
  unfold frag_write. rewrite E1. cbn [mbind option_bind pFragPacket skb_mem skb_data skb_id skb_len].
  assert (EHd : rd (skb_mem (rb_pkt rb)) (rb_pHeader rb) (size - RXWISize) = Some (H ++ d)).
  { replace (size - RXWISize) with (room + rb_DataSize rb) by (unfold size; lia). rewrite Ep in Ed. by apply rd_app. }
  rewrite EHd. cbn [mbind option_bind].
  assert (R1 : rd m1 (skb_data (pFragPacket f)) RXWISize = Some wi ∧ length m1 = length (skb_mem (pFragPacket f))).
  { rewrite <- Lw. destruct (rd_wr_append (skb_mem (pFragPacket f)) (skb_data (pFragPacket f)) 0 [] wi m1) as [R L]; [|done|done].
    apply (rd_nil _ _ H0). unfold MAX_FRAME_SIZE in *. lia. }
  destruct R1 as [R1 L1]. destruct (wr_inside' m1 (skb_data (pFragPacket f) + RXWISize) (H ++ d)) as (m2 & E2);
    [lia|rewrite length_app; unfold MAX_FRAME_SIZE in *; lia|].
  rewrite E2. cbn [mbind option_bind frag_done]. eexists. split; [done|].
  destruct (rd_wr_append _ _ _ _ _ _ R1 E2) as [R2 L2]. split; [|done]. unfold collected. cbn [pFragPacket RxSize ff_Sequence LastFrag skb_mem skb_data].
  rewrite length_app in R2. conjs; try done; [lia|unfold size; rewrite !length_app; lia|].
  rewrite <- R2. f_equal. unfold size. lia.
Qed.

Lemma collect_next rb seq i more room d f content al : fragment rb seq (i + 1) more room d → 0 ≤ i → 0 ≤ room < 256 →
  mem_eq SNAP_802_1H (skb_mem (rb_pkt rb)) (rb_pData rb) = Some false → collected f seq i content →
  Z.of_nat (length content) + Z.of_nat (length d) ≤ MAX_FRAME_SIZE + RXWISize →
  ∃ f', RTMPDeFragmentDataFrame RXWISize al rb f = Some (frag_done RXWISize al (negb more) room rb f') ∧
    collected f' seq (i + 1) (content ++ d) ∧ skb_id (pFragPacket f') = skb_id (pFragPacket f) ∧
    skb_data (pFragPacket f') = skb_data (pFragPacket f).
Proof.
  intros (h & Eh & Es & Ef & Em & Ep & En & Ed) Hi Hr Hl (H0 & Hb & HS & Hseq & Hlast & Hc) Hsize.
  unfold RTMPDeFragmentDataFrame. rewrite Eh. cbn [mbind option_bind]. rewrite Ef.
  destruct (Z.eqb_spec (i + 1) 0); [lia|]. unfold frag_next. rewrite Es, Ef, Hseq, Hlast, !Z.eqb_refl. cbn [negb orb].
  destruct (Z.ltb_spec (MAX_FRAME_SIZE + RXWISize) (RxSize f + rb_DataSize rb)); [lia|].
  rewrite Hl, Ed. cbn [mbind option_bind]. unfold frag_write.
  destruct (wr_inside' (skb_mem (pFragPacket f)) (skb_data (pFragPacket f) + RxSize f) d) as (m1 & E1); [lia..|].
  rewrite E1. cbn [mbind option_bind]. destruct (rd_wr_append _ _ _ _ _ _ Hc E1) as [R L].
  eexists. split; [rewrite Em; replace (u8 (rb_pData rb - rb_pHeader rb)) with room by (rewrite wrap_id; [lia|done|split; lia]); reflexivity|].
  split; [|done]. unfold collected. cbn [pFragPacket RxSize ff_Sequence LastFrag skb_mem skb_data].
  conjs; try done; [lia|rewrite length_app; lia|]. rewrite En. done.
Qed.

Definition with_buffer (new : sk_buff) (l : list (RX_BLK * list Z)) : list (RX_BLK * option sk_buff) :=
  map (λ x, (x.1, Some new)) l.

(** The packet that comes out: [content] is the reception data, the headers
    and the data; the rest of [RX_BLK] is the last fragment's. *)
Definition reassembled (out : RX_BLK) (last : RX_BLK) (id room : Z) (wi H : list Z) (data : list Z) : Prop :=
  skb_id (rb_pkt out) = id ∧
  rd (skb_mem (rb_pkt out)) (rb_pRxWI out) RXWISize = Some wi ∧
  rd (skb_mem (rb_pkt out)) (rb_pHeader out) room = Some H ∧
  rb_pData out = rb_pHeader out + room ∧
  rb_DataSize out = Z.of_nat (length data) ∧
  rd (skb_mem (rb_pkt out)) (rb_pData out) (rb_DataSize out) = Some data ∧
  out = set_place (rb_pkt out) (rb_pRxWI out) (rb_pHeader out) (rb_pData out) (rb_DataSize out) last.

Lemma train_rest l : ∀ i room seq f new wi H d0, l ≠ [] → fragments l seq (i + 1) room → 0 ≤ i → 0 ≤ room < 256 →
  Z.of_nat (length wi) = RXWISize → Z.of_nat (length H) = room → collected f seq i (wi ++ H ++ d0) →
  room + Z.of_nat (length d0) + Z.of_nat (length (concat (map snd l))) ≤ MAX_FRAME_SIZE →
  ∃ out f' last, defrag_run RXWISize (with_buffer new l) f = Some ([out], f') ∧ list.last (map fst l) = Some last ∧
    reassembled out last (skb_id (pFragPacket f)) room wi H (d0 ++ concat (map snd l)) ∧ pFragPacket f' = new.
Proof.
  induction l as [|[rb d] l IH]; intros i room seq f new wi H d0 Hne Hf Hi Hr Lw LH Hc Hs; [done|].
  cbn [fragments] in Hf. destruct Hf as (Hf & Hl & Hrest). cbn [map concat snd fst] in *. rewrite length_app in Hs.
  destruct (collect_next rb seq i _ room d f (wi ++ H ++ d0) (Some new) Hf Hi Hr Hl Hc) as (f1 & E1 & C1 & I1 & _);
    [rewrite !length_app; unfold MAX_FRAME_SIZE in *; lia|].
  cbn [with_buffer map defrag_run fst]. rewrite E1. cbn [mbind option_bind]. rewrite <- !app_assoc in C1.
  destruct l as [|x l].
  - cbn [negb frag_done RTMP_AllocateFragPacketBuffer mbind option_bind map defrag_run].
    do 3 eexists. split; [done|]. split; [done|]. split; [|done].
    destruct C1 as (H0 & Hb & HS & Hseq & Hlast & Hcont). unfold reassembled. cbn [concat]. rewrite app_nil_r.
    rewrite !length_app in HS. unfold MAX_FRAME_SIZE in *.
    assert (Ew : u16 (RxSize f1 - room - RXWISize) = Z.of_nat (length (d0 ++ d))).
    { rewrite wrap_id; rewrite ?length_app; [lia|done|split; lia]. }
    cbn [rb_pkt rb_pRxWI rb_pHeader rb_pData rb_DataSize set_place skb_mem]. rewrite Ew.
    apply rd_split in Hcont as (pre & post & Em & Ep). rewrite Em, Ep. conjs; [done| | |done|done| |done].
    + eapply (rd_at pre wi); [by rewrite <- !app_assoc|done|done].
    + eapply (rd_at (pre ++ wi) H); [by rewrite <- !app_assoc|rewrite length_app; lia|done].
    + eapply (rd_at (pre ++ wi ++ H) (d0 ++ d)); [by rewrite <- !app_assoc|rewrite !length_app; lia|done].
  - cbn [negb frag_done mbind option_bind].
    edestruct (IH (i + 1) room seq f1 new wi H (d0 ++ d)) as (out & f' & last & E2 & E3 & E4 & E5); [done|done|lia|done|done|done|done|rewrite length_app; lia|].
    exists out, f', last. unfold with_buffer in E2. rewrite E2. cbn [mbind option_bind]. split; [done|]. split; [done|].
    rewrite <- app_assoc, I1 in E4. done.
Qed.
End Train.

(** C17: The fragments 0, 1, ..., n of a frame, received in order (one sequence
    number, the same room for headers, [MoreFrag] on all but the last, a frame
    of at most 2346 bytes, and no later fragment that starts like an LLC
    header), come out as one packet when the last of them arrives, and as
    nothing before: its data is the concatenation of the fragments, its header
    and reception data are those of the first fragment, and a fresh buffer
    takes the place of the one handed out.  This holds from any earlier state
    of the reassembly. *)
Theorem defrag_reassembles RXWISize rb0 d0 l seq room f al0 new wi H
    (HW : 0 ≤ RXWISize < 256) (Hr : 0 ≤ room < 256)
    (H0 : fragment rb0 seq 0 true room d0) (Hl : fragments l seq 1 room)
    (Hwi : rd (skb_mem (rb_pkt rb0)) (rb_pRxWI rb0) RXWISize = Some wi)
    (HH : rd (skb_mem (rb_pkt rb0)) (rb_pHeader rb0) room = Some H)
    (Hp : 0 ≤ skb_data (pFragPacket f))
    (Hb : skb_data (pFragPacket f) + MAX_FRAME_SIZE + RXWISize ≤ Z.of_nat (length (skb_mem (pFragPacket f))))
    (Hs : room + Z.of_nat (length (concat (d0 :: map snd l))) ≤ MAX_FRAME_SIZE) :
  ∃ out f' last, defrag_run RXWISize ((rb0, al0) :: with_buffer new l) f = Some ([out], f') ∧
    list.last (map fst l) = Some last ∧
    reassembled RXWISize out last (skb_id (pFragPacket f)) room wi H (concat (d0 :: map snd l)) ∧ pFragPacket f' = new.
Proof.
  cbn [concat] in *. rewrite length_app in Hs.
  destruct (collect_first RXWISize HW rb0 seq room d0 f wi H H0 Hr Hwi HH Hp Hb ltac:(lia) al0) as (f1 & E1 & C1 & I1).
  assert (l ≠ []) by by intros ->.
  destruct (train_rest RXWISize HW l 0 room seq f1 new wi H d0) as (out & f' & last & E2 & E3 & E4 & E5);
    [done|done|done|done|by eapply rd_length|by eapply rd_length|done|lia|].
  exists out, f', last. cbn [defrag_run]. rewrite E1. cbn [mbind option_bind]. rewrite E2. cbn [mbind option_bind].
  rewrite I1 in E4. done.
Qed.

(** A fragment of a frame from an access point: reception data, header, data. *)
Definition demo_frag (id seq i : Z) (more : bool) (d : list Z) : RX_BLK :=
  mk_rxblk (mk_skb id (replicate 28 id ++ [8; if more then 6 else 2] ++ zeros 20 ++
      [Z.lor i (Z.shiftl (Z.land seq 15) 4); Z.shiftr seq 4] ++ d ++ zeros 8) 0 0)
    0 28 52 (Z.of_nat (length d)) 0 0 0 1 0 0 (0, 0, 0) (0, 0, 0) 0 0 0 false 0
    (mk_rxinfo_struc false false true false false true false false).
Definition demo_buffer (id : Z) : sk_buff := mk_skb id (replicate 4000 0xEE) 64 0.
Definition demo_place : FRAGMENT_FRAME := mk_frag (demo_buffer 100) 777 5 3 0.

Lemma defrag_reassembles_witness :
  ∃ out f' last,
    defrag_run 28 ((demo_frag 1 9 0 true (replicate 20 1), None) ::
      with_buffer (demo_buffer 101) [(demo_frag 2 9 1 true (replicate 20 2), replicate 20 2); (demo_frag 3 9 2 false [3; 3; 3], [3; 3; 3])])
      demo_place = Some ([out], f') ∧
    Some (demo_frag 3 9 2 false [3; 3; 3]) = Some last ∧
    reassembled 28 out last 100 24 (replicate 28 1) ([8; 6] ++ zeros 20 ++ [0x90; 0]) (replicate 20 1 ++ replicate 20 2 ++ [3; 3; 3]) ∧
    pFragPacket f' = demo_buffer 101.
Proof.
  apply (defrag_reassembles 28 (demo_frag 1 9 0 true (replicate 20 1)) (replicate 20 1)
    [(demo_frag 2 9 1 true (replicate 20 2), replicate 20 2); (demo_frag 3 9 2 false [3; 3; 3], [3; 3; 3])] 9 24 demo_place None (demo_buffer 101));
    [done|done| | |reflexivity|reflexivity|done|vm_compute; discriminate|vm_compute; discriminate].
  - eexists. split; [reflexivity|]. repeat split.
  - split; [eexists; split; [reflexivity|]; repeat split|]. split; [reflexivity|].
    split; [eexists; split; [reflexivity|]; repeat split|]. split; [reflexivity|done].
Defined.

(** * Any fragments at all *)

Section Bounds.
Context (RXWISize : Z) (HW : 0 ≤ RXWISize < 256).

(** The pointers of a received fragment lie in its memory; a first fragment
    fits the buffer. *)
Definition fragment_inside (rb : RX_BLK) : Prop :=
  let n := Z.of_nat (length (skb_mem (rb_pkt rb))) in
  0 ≤ rb_pRxWI rb ∧ rb_pRxWI rb + RXWISize ≤ n ∧ 0 ≤ rb_pHeader rb ∧ rb_pHeader rb + LENGTH_802_11 ≤ n ∧
  0 ≤ rb_pData rb - rb_pHeader rb < 256 ∧ 0 ≤ rb_DataSize rb ∧ rb_pData rb + rb_DataSize rb ≤ n ∧ rb_pData rb + 6 ≤ n ∧
  (∀ h, header rb = Some h → hdr_Frag h = 0 →
    rb_DataSize rb + (rb_pData rb - rb_pHeader rb) + RXWISize ≤ RX_BUFFER_NORMSIZE).

Definition buffer_ok (p : sk_buff) : Prop := 0 ≤ skb_data p ∧ skb_data p + RX_BUFFER_NORMSIZE ≤ Z.of_nat (length (skb_mem p)).
Definition place_ok (f : FRAGMENT_FRAME) : Prop := buffer_ok (pFragPacket f) ∧ 0 ≤ RxSize f ≤ RX_BUFFER_NORMSIZE.

Lemma frag_write_ok f off src : buffer_ok (pFragPacket f) → 0 ≤ off → off + Z.of_nat (length src) ≤ RX_BUFFER_NORMSIZE →
  ∃ p, frag_write f off src = Some p ∧ buffer_ok p ∧ skb_id p = skb_id (pFragPacket f).
Proof.
  intros (H0 & Hb) Ho Hs. unfold frag_write.
  destruct (wr_inside (skb_mem (pFragPacket f)) (skb_data (pFragPacket f) + off) src) as (m & -> & L); [lia..|].
  cbn [mbind option_bind]. eexists. split; [done|]. split; [|done]. unfold buffer_ok. simpl. lia.
Qed.

Lemma frag_first_ok h rb f : fragment_inside rb → header rb = Some h → hdr_Frag h = 0 → place_ok f →
  ∃ f', frag_first RXWISize h rb f = Some f' ∧ place_ok f' ∧ skb_id (pFragPacket f') = skb_id (pFragPacket f).
Proof.
  intros (W1 & W2 & P1 & P2 & R & S1 & S2 & _ & Hfit) Eh Ez (Hb & _). specialize (Hfit h Eh Ez). unfold frag_first.
  rewrite wrap_id by (done || (split; lia)).
  destruct (rd_inside (skb_mem (rb_pkt rb)) (rb_pRxWI rb) RXWISize) as (wi & -> & Lw); [lia..|]. cbn [mbind option_bind].
  destruct (frag_write_ok f 0 wi) as (p1 & -> & B1 & I1); [done|lia|lia|]. cbn [mbind option_bind].
  set (size := rb_DataSize rb + _ + RXWISize) in *.
  destruct (rd_inside (skb_mem (rb_pkt rb)) (rb_pHeader rb) (size - RXWISize)) as (d & -> & Ld); [lia|unfold size; lia|unfold size; lia|].
  cbn [mbind option_bind]. edestruct (frag_write_ok (mk_frag p1 size (ff_Sequence f) (LastFrag f) (ff_Flags f)) RXWISize d) as (p2 & -> & B2 & I2);
    [done|lia|unfold size in *; lia|]. cbn [mbind option_bind].
  eexists. split; [done|]. split; [|simpl in *; congruence]. split; [done|]. simpl. unfold size. lia.
Qed.

Lemma frag_next_ok h rb f : fragment_inside rb → place_ok f →
  ∃ b f', frag_next RXWISize h rb f = Some (b, f') ∧ place_ok f' ∧ skb_id (pFragPacket f') = skb_id (pFragPacket f).
Proof.
  intros (W1 & W2 & P1 & P2 & R & S1 & S2 & S6 & _) (Hb & Hn). unfold frag_next.
  assert (Hr : place_ok (RESET_FRAGFRAME f)) by (split; [done|]; simpl; unfold RX_BUFFER_NORMSIZE; lia).
  destruct (_ || _); [by eauto|]. destruct (Z.ltb_spec (MAX_FRAME_SIZE + RXWISize) (RxSize f + rb_DataSize rb)); [by eauto|].
  destruct (mem_eq_inside SNAP_802_1H (skb_mem (rb_pkt rb)) (rb_pData rb)) as [b ->]; [lia|simpl; lia|]. cbn [mbind option_bind].
  destruct b; [do 2 eexists; split; [done|]; by split|].
  destruct (rd_inside (skb_mem (rb_pkt rb)) (rb_pData rb) (rb_DataSize rb)) as (d & -> & Ld); [lia..|]. cbn [mbind option_bind].
  unfold MAX_FRAME_SIZE, RX_BUFFER_NORMSIZE in *.
  destruct (frag_write_ok f (RxSize f) d) as (p & -> & B & I); [done|lia|unfold RX_BUFFER_NORMSIZE; lia|]. cbn [mbind option_bind].
  do 2 eexists. split; [done|]. split; [|done]. split; [done|]. simpl. unfold RX_BUFFER_NORMSIZE. lia.
Qed.

(** One fragment: the buffers that go in are the ones that come out or stay. *)
Lemma defrag_ok al rb f : fragment_inside rb → (∀ p, al = Some p → buffer_ok p) → place_ok f →
  ∃ r rb' f', RTMPDeFragmentDataFrame RXWISize al rb f = Some (r, rb', f') ∧ place_ok f' ∧
    (r = false ∧ skb_id (pFragPacket f') = skb_id (pFragPacket f) ∨
     r = true ∧ skb_id (rb_pkt rb') = skb_id (pFragPacket f) ∧ al = Some (pFragPacket f')).
Proof.
  intros Hin Hal Hf. pose proof Hin as (W1 & W2 & P1 & P2 & R & _). unfold RTMPDeFragmentDataFrame.
  assert (Eh : ∃ h, header rb = Some h) by (unfold header; edestruct (rd_inside (skb_mem (rb_pkt rb)) (rb_pHeader rb) LENGTH_802_11) as (h & E & _); [lia|done|lia|eauto]).
  destruct Eh as (h & Eh). rewrite Eh. cbn [mbind option_bind].
  assert (Hx : ∃ b f1, (if hdr_Frag h =? 0 then if fc_MoreFrag h then f ← frag_first RXWISize h rb f; Some (false, f) else Some (false, f)
    else frag_next RXWISize h rb f) = Some (b, f1) ∧ place_ok f1 ∧ skb_id (pFragPacket f1) = skb_id (pFragPacket f)).
  { destruct (Z.eqb_spec (hdr_Frag h) 0); [|by apply frag_next_ok]. destruct (fc_MoreFrag h); [|by eauto].
    destruct (frag_first_ok h rb f) as (f1 & -> & H1); [done..|]. cbn [mbind option_bind]. eauto. }
  destruct Hx as (b & f1 & -> & Hf1 & I1). cbn [mbind option_bind]. unfold frag_done, RTMP_AllocateFragPacketBuffer.
  destruct b; [destruct al as [new|]|]; do 3 eexists; (split; [reflexivity|]).
  - split; [|by right]. split; [by apply Hal|apply Hf1].
  - split; [|by left]. split; [apply Hf1|]. simpl. unfold RX_BUFFER_NORMSIZE. lia.
  - split; [done|by left].
Qed.
End Bounds.

(** C18: Whatever fragments arrive in whatever order, the reassembly never
    writes outside its buffer and never fails, as long as a first fragment with
    its reception data fits the buffer of 3840 bytes: its size stays within the
    buffer, and each buffer the kernel hands out is either the one in use at
    the end or was handed up exactly once, in the order they were allocated. *)
Theorem defrag_safe RXWISize l f (HW : 0 ≤ RXWISize < 256)
    (Hl : Forall (λ x, fragment_inside RXWISize x.1 ∧ ∀ p, x.2 = Some p → buffer_ok p) l) (Hf : place_ok f) :
  ∃ out f' used, defrag_run RXWISize l f = Some (out, f') ∧ place_ok f' ∧
    map Some used `sublist_of` map snd l ∧
    skb_id (pFragPacket f) :: map skb_id used = map (λ rb, skb_id (rb_pkt rb)) out ++ [skb_id (pFragPacket f')].
Proof.
  revert f Hf. induction Hl as [|[rb al] l [Hin Hal] Hl IH]; intros f Hf.
  { exists [], f, []. simpl. conjs; [done|apply Hf..|done|done]. }
  destruct (defrag_ok RXWISize HW al rb f Hin Hal Hf) as (r & rb' & f1 & E1 & Hf1 & Hr). cbn [defrag_run]. rewrite E1. cbn [mbind option_bind].
  destruct (IH f1 Hf1) as (out & f2 & used & E2 & Hf2 & Hs & Hi). rewrite E2. cbn [mbind option_bind].
  destruct Hr as [(-> & I1)|(-> & I1 & ->)].
  - exists out, f2, used. conjs; [done|done|by apply sublist_cons|congruence].
  - exists (rb' :: out), f2, (pFragPacket f1 :: used). conjs; [done|done|by apply sublist_skip|]. simpl. by rewrite Hi, I1.
Qed.

Lemma demo_inside id seq i more n : (n < 100)%nat → fragment_inside 28 (demo_frag id seq i more (replicate n id)).
Proof.
  intros Hn. unfold fragment_inside, demo_frag, LENGTH_802_11, RX_BUFFER_NORMSIZE.
  cbn [rb_pkt rb_pRxWI rb_pHeader rb_pData rb_DataSize skb_mem]. rewrite !length_app, !length_replicate. cbn [length].
  rewrite !length_zeros. conjs; try lia.
Qed.

Lemma defrag_safe_witness :
  ∃ out f' used,
    defrag_run 28 [(demo_frag 2 9 1 true (replicate 20 2), Some (demo_buffer 101)); (demo_frag 1 9 0 true (replicate 20 1), None);
                   (demo_frag 3 9 1 false (replicate 20 3), Some (demo_buffer 102))] demo_place = Some (out, f') ∧ place_ok f' ∧
    map Some used `sublist_of` [Some (demo_buffer 101); None; Some (demo_buffer 102)] ∧
    100 :: map skb_id used = map (λ rb, skb_id (rb_pkt rb)) out ++ [skb_id (pFragPacket f')].
Proof.
  apply (defrag_safe 28 [(demo_frag 2 9 1 true (replicate 20 2), Some (demo_buffer 101)); (demo_frag 1 9 0 true (replicate 20 1), None);
    (demo_frag 3 9 1 false (replicate 20 3), Some (demo_buffer 102))] demo_place); [done| |].
  - constructor; [|constructor; [|constructor; [|constructor]]];
      (split; [apply demo_inside; lia|]); intros p Hp; simplify_eq/=; vm_compute; split; discriminate.
  - vm_compute. repeat split; discriminate.
Defined.

(** * Frames with a fragment missing, and the holes of the checks *)

Section Gap.
Context (RXWISize : Z).

(** After a fragment that does not fit, the rest of its frame is refused. *)
Lemma reset_refuses rb f al h seq i : header rb = Some h → hdr_Sequence h = seq → hdr_Frag h = i → seq ≠ 0 → 1 ≤ i →
  ff_Sequence f = 0 → RTMPDeFragmentDataFrame RXWISize al rb f = Some (false, rb, RESET_FRAGFRAME f).
Proof.
  intros Eh Es Ei Hs Hi H0. unfold RTMPDeFragmentDataFrame. rewrite Eh. cbn [mbind option_bind]. rewrite Ei.
  destruct (Z.eqb_spec i 0); [lia|]. unfold frag_next. rewrite Es, H0. destruct (Z.eqb_spec seq 0); [done|]. done.
Qed.

(** The fragments of frame [seq] with the numbers [ks]. *)
Definition numbered (l : list (RX_BLK * option sk_buff)) (seq : Z) (ks : list Z) : Prop :=
  Forall2 (λ x k, ∃ h, header x.1 = Some h ∧ hdr_Sequence h = seq ∧ hdr_Frag h = k) l ks.

Lemma run_refuses l : ∀ seq ks f, numbered l seq ks → Forall (λ k, 1 ≤ k) ks → seq ≠ 0 → ff_Sequence f = 0 →
  ∃ f', defrag_run RXWISize l f = Some ([], f') ∧ ff_Sequence f' = 0.
Proof.
  induction l as [|[rb al] l IH]; intros seq ks f Hn Hk Hs H0; [by eexists|].
  inversion Hn as [|? k ? ks' (h & Eh & Es & Ek) Hn' E1 E2]; subst. apply Forall_cons in Hk as [Hk Hks].
  cbn [defrag_run]. erewrite reset_refuses by (done || reflexivity || exact Hk). cbn [mbind option_bind].
  destruct (IH (hdr_Sequence h) ks' (RESET_FRAGFRAME f)) as (f' & -> & H'); [done..|]. cbn [mbind option_bind]. eauto.
Qed.
End Gap.

(** A frame that lost a fragment is not delivered.  When fragment [k + 1]
    of a reassembly of a frame with a sequence number other than 0 does not
    come and later ones do, every one of them is refused: nothing comes out,
    and nothing will until a new first fragment. *)
Theorem defrag_gap RXWISize l seq ks f (Hs : seq ≠ 0) (Hn : numbered l seq ks)
    (Hf : ff_Sequence f = seq) (Hk : Forall (λ k, LastFrag f + 1 < k) ks) (Hl : 0 ≤ LastFrag f) :
  ∃ f', defrag_run RXWISize l f = Some ([], f') ∧ (l ≠ [] → ff_Sequence f' = 0).
Proof.
  destruct l as [|[rb al] l]; [by eexists|].
  inversion Hn as [|? k ? ks' (h & Eh & Es & Ek) Hn' E1 E2]; subst ks. apply Forall_cons in Hk as [Hk Hks].
  assert (E : RTMPDeFragmentDataFrame RXWISize al rb f = Some (false, rb, RESET_FRAGFRAME f)).
  { unfold RTMPDeFragmentDataFrame. simpl in Eh. rewrite Eh. cbn [mbind option_bind]. rewrite Ek. destruct (Z.eqb_spec k 0); [lia|].
    unfold frag_next. rewrite Es, Hf, Ek, Z.eqb_refl. destruct (Z.eqb_spec k (LastFrag f + 1)); [lia|]. done. }
  cbn [defrag_run]. rewrite E. cbn [mbind option_bind].
  destruct (run_refuses RXWISize l seq ks' (RESET_FRAGFRAME f)) as (f' & -> & H0); [done| |done|done|].
  { eapply Forall_impl; [done|]. simpl. lia. }
  cbn [mbind option_bind]. eauto.
Qed.

Lemma defrag_gap_witness :
  ∃ f', defrag_run 28 [(demo_frag 2 5 5 true [2], Some (demo_buffer 101)); (demo_frag 3 5 6 false [3], Some (demo_buffer 101))] demo_place =
      Some ([], f') ∧
    ([(demo_frag 2 5 5 true [2], Some (demo_buffer 101)); (demo_frag 3 5 6 false [3], Some (demo_buffer 101))] ≠ [] → ff_Sequence f' = 0).
Proof.
  apply (defrag_gap 28 _ 5 [5; 6] demo_place); [done| |done|repeat constructor|done].
  constructor; [|constructor; [|constructor]]; eexists; (split; [reflexivity|done]).
Defined.

(** The reset leaves a state that looks like one with a first fragment of
    frame 0: fragment 1 of that frame alone is then returned as a packet, and
    its size wraps around if it is smaller than the headers that are missing. *)
Theorem defrag_reset_hole RXWISize rb f new h d room
    (HW : 0 ≤ RXWISize < 256) (Hr : 0 ≤ room < 256)
    (H1 : fragment rb 0 1 false room d) (Hl : mem_eq SNAP_802_1H (skb_mem (rb_pkt rb)) (rb_pData rb) = Some false)
    (Hp : buffer_ok (pFragPacket f)) (Hs : Z.of_nat (length d) ≤ MAX_FRAME_SIZE) (Eh : header rb = Some h) :
  ∃ out f', RTMPDeFragmentDataFrame RXWISize (Some new) rb (RESET_FRAGFRAME f) = Some (true, out, f') ∧
    rb_DataSize out = u16 (Z.of_nat (length d) - room - RXWISize).
Proof.
  assert (Hc : collected RXWISize (RESET_FRAGFRAME f) 0 0 []).
  { destruct Hp as [H0 Hb]. unfold collected, RX_BUFFER_NORMSIZE, MAX_FRAME_SIZE in *. cbn. conjs; try done; [lia|].
    apply rd_nil; lia. }
  destruct (collect_next RXWISize HW rb 0 0 false room d _ [] (Some new) H1 ltac:(done) Hr Hl Hc) as (f' & -> & C & _).
  { simpl. unfold MAX_FRAME_SIZE in *. lia. }
  cbn [negb frag_done RTMP_AllocateFragPacketBuffer]. do 2 eexists. split; [done|].
  destruct C as (_ & _ & HS & _). cbn [set_place rb_DataSize]. rewrite HS. done.
Qed.

Lemma defrag_reset_hole_witness :
  ∃ out f', RTMPDeFragmentDataFrame 28 (Some (demo_buffer 101)) (demo_frag 2 0 1 false (replicate 20 2)) (RESET_FRAGFRAME demo_place) =
      Some (true, out, f') ∧ rb_DataSize out = u16 (20 - 24 - 28).
Proof.
  eapply (defrag_reset_hole 28 (demo_frag 2 0 1 false (replicate 20 2)) demo_place (demo_buffer 101) _ (replicate 20 2) 24);
    [done|done| |reflexivity|vm_compute; split; discriminate|vm_compute; discriminate|reflexivity].
  eexists. split; [reflexivity|]. repeat split.
Defined.

(** The state is not reset when a packet is handed out: one more fragment of
    the same frame is appended behind the bytes of the old one, in a buffer
    nothing was written to, and the result is handed up. *)
Theorem defrag_stale_hole RXWISize rb f new h d room content
    (HW : 0 ≤ RXWISize < 256) (Hr : 0 ≤ room < 256) (Hi : 0 ≤ LastFrag f)
    (H1 : fragment rb (ff_Sequence f) (LastFrag f + 1) false room d)
    (Hl : mem_eq SNAP_802_1H (skb_mem (rb_pkt rb)) (rb_pData rb) = Some false)
    (Hp : 0 ≤ skb_data (pFragPacket f)) (Hb : skb_data (pFragPacket f) + MAX_FRAME_SIZE + RXWISize ≤ Z.of_nat (length (skb_mem (pFragPacket f))))
    (Hu : rd (skb_mem (pFragPacket f)) (skb_data (pFragPacket f)) (RxSize f) = Some content)
    (Hs : RxSize f + Z.of_nat (length d) ≤ MAX_FRAME_SIZE + RXWISize) (Eh : header rb = Some h) :
  ∃ out f', RTMPDeFragmentDataFrame RXWISize (Some new) rb f = Some (true, out, f') ∧
    rd (skb_mem (rb_pkt out)) (skb_data (pFragPacket f)) (RxSize f + Z.of_nat (length d)) = Some (content ++ d).
Proof.
  pose proof (rd_length _ _ _ _ Hu) as Lc.
  assert (Hc : collected RXWISize f (ff_Sequence f) (LastFrag f) content) by (unfold collected; conjs; try done; lia).
  destruct (collect_next RXWISize HW rb _ _ false room d f content (Some new) H1 Hi Hr Hl Hc) as (f' & -> & C & _ & Ed); [lia|].
  cbn [negb frag_done RTMP_AllocateFragPacketBuffer]. do 2 eexists. split; [done|].
  destruct C as (_ & _ & HS & _ & _ & HR). rewrite HS, length_app, Nat2Z.inj_add, Lc, Ed in HR. exact HR.
Qed.

(** Fragment 4 after fragment 3 was the last one. *)
Lemma defrag_stale_hole_witness :
  ∃ out f', RTMPDeFragmentDataFrame 28 (Some (demo_buffer 101)) (demo_frag 2 5 4 false (replicate 20 2)) demo_place = Some (true, out, f') ∧
    rd (skb_mem (rb_pkt out)) 64 (777 + 20) = Some (replicate 777 0xEE ++ replicate 20 2).
Proof.
  eapply (defrag_stale_hole 28 (demo_frag 2 5 4 false (replicate 20 2)) demo_place (demo_buffer 101) _ (replicate 20 2) 24 (replicate 777 0xEE));
    [done|done|done| |reflexivity|done|vm_compute; discriminate|vm_compute; reflexivity|vm_compute; discriminate|reflexivity].
  eexists. split; [reflexivity|]. repeat split.
Defined.

(** A first fragment of the size the receive path accepts (3840 bytes) does
    not fit the buffer together with its reception data. *)
Theorem defrag_first_overflow RXWISize rb f al h
    (Eh : header rb = Some h) (E0 : hdr_Frag h = 0) (Em : fc_MoreFrag h = true) (HW : 0 ≤ RXWISize) (Hn : 0 ≤ rb_DataSize rb)
    (Hb : Z.of_nat (length (skb_mem (pFragPacket f))) < skb_data (pFragPacket f) + RXWISize + u8 (rb_pData rb - rb_pHeader rb) + rb_DataSize rb) :
  RTMPDeFragmentDataFrame RXWISize al rb f = None.
Proof.
  unfold RTMPDeFragmentDataFrame. rewrite Eh. cbn [mbind option_bind]. rewrite E0, Em. cbn [Z.eqb]. unfold frag_first.
  destruct (rd _ (rb_pRxWI rb) RXWISize) as [wi|] eqn:E1; [|done]. cbn [mbind option_bind].
  destruct (frag_write f 0 wi) as [p|] eqn:E2; [|done]. cbn [mbind option_bind].
  destruct (rd _ (rb_pHeader rb) _) as [d|] eqn:E3; [|done]. cbn [mbind option_bind]. apply rd_length in E3.
  assert (Ep : skb_data p = skb_data (pFragPacket f) ∧ length (skb_mem p) = length (skb_mem (pFragPacket f))).
  { unfold frag_write in E2. destruct (wr _ _ _) eqn:Ew; [|done]. simplify_eq/=. split; [done|].
    unfold wr in Ew. destruct (_ && _) eqn:Eb; [|done]. simplify_eq. rewrite andb_true_iff, !Z.leb_le in Eb. apply length_bwrite. lia. }
  unfold frag_write. cbn [pFragPacket]. assert (Ew : wr (skb_mem p) (skb_data p + RXWISize) d = None).
  { unfold wr. destruct (_ && _) eqn:Eb; [|done]. rewrite andb_true_iff, !Z.leb_le in Eb. destruct Ep as [Ep1 Ep2]. rewrite Ep1, Ep2 in Eb. lia. }
  by rewrite Ew.
Qed.

Lemma defrag_first_overflow_witness :
  RTMPDeFragmentDataFrame 28 None (demo_frag 1 9 0 true (replicate 3816 7)) (mk_frag (mk_skb 100 (zeros 3840) 0 0) 0 0 0 0) = None.
Proof.
  eapply (defrag_first_overflow 28 (demo_frag 1 9 0 true (replicate 3816 7)) (mk_frag (mk_skb 100 (zeros 3840) 0 0) 0 0 0 0) None);
    [reflexivity|done|done|done|vm_compute; discriminate|vm_compute; reflexivity].
Defined.
