(* ===== verification/RxData.v ===== *)
(** The receive path of the station for data frames: src/sta/rtmp_data.c
    (STARxEAPOLFrameIndicate, STARxDataFrameAnnounce, STACheckTkipMICValue,
    STAHandleRxDataFrame), src/common/cmm_data.c (Indicate_Legacy_Packet,
    Indicate_AMSDU_Packet, CmmRxnonRalinkFrameIndicate,
    CmmRxRalinkFrameIndicate), src/common/cmm_wpa.c (RTMPCheckWPAframe,
    WpaCheckEapCode, RTMPExtractKeyIdxFromIVHdr, RTMPSwCipherKeySelection),
    src/os/linux/rt_linux.c (wlan_802_11_to_802_3_packet, duplicate_pkt), and
    the macros RTMP_802_11_REMOVE_LLC_AND_CONVERT_TO_802_3 and
    STA_PORT_SECURED of src/include/rtmp.h.

    The state puts the components together: the engine of the MLME and the
    keys of the station (StaAuth), the peer table (MacTable), the block-ack
    sessions (BaSession), the reassembly (RxFrag).  What becomes of a packet
    is an event of the log; the reception statistics of an entry and the
    signal averages are events too.  A pointer to an entry of the peer table is
    its index and is looked up where the code reads through it. *)

From S2P Require Import Prelude BaReorder BaSession CipherKey Mlme MacTable Michael Tkip StaAuth MicCounter Eapol BssEntry SoftCrypto.
From S2P Require Import RxPacket RxFrag.

(** * Constants *)

Definition fRX_WDS : Z := 0x0001.
Definition fRX_ARALINK : Z := 0x0004.
Definition fRX_HTC : Z := 0x0008.
Definition fRX_PAD : Z := 0x0010.
Definition fRX_AMPDU : Z := 0x0020.
Definition fRX_QOS : Z := 0x0040.
Definition fRX_INFRA : Z := 0x0080.
Definition fRX_MESH : Z := 0x0200.
Definition fRX_APCLI : Z := 0x0400.
Definition fRX_DLS : Z := 0x0800.
Definition MODE_OFDM : Z := 1.
Definition EAPPacket : Z := 0.
Definition EAPOLLogoff : Z := 2.
Definition EAPOLASFAlert : Z := 4.
Definition EAP_CODE_SUCCESS : Z := 3.
Definition LENGTH_EAP_H : Z := 4.
Definition Ndis802_11EncryptionDisabled : Z := Ndis802_11WEPDisabled.

(** * Data *)

(** What the handlers only read.  [SOFT_ENCRYPT] is the option of the build
    that compiles the software decryption in. *)
Record rx_cfg := mk_rxcfg {
  SOFT_ENCRYPT : bool;
  BssType_infra : bool;
  CurrentAddress : list Z;
  Common_Bssid : list Z;
  INFRA_ON : bool;
  ADHOC_ON : bool;
  MEDIA_STATE_CONNECTED : bool;
  AGGREGATION_INUSED : bool;
  bDisableReordering : bool;
  bAPSDAC_BE : bool; bAPSDAC_BK : bool; bAPSDAC_VI : bool; bAPSDAC_VO : bool;
  Psm_PWR_SAVE : bool;
  RXWISize : Z;
  cfg_GroupCipher : Z;
  WpaSupplicantUP : bool;
  IEEE8021X : bool;
  IEEE8021x_required_keys : bool;
  DesireSharedKeyId : nat;
  DesireSharedKey : list CIPHER_KEY;
  cfg_ba : ba_cfg
}.

(** What the kernel answers while a frame is handled. *)
Record rx_env := mk_rxenv {
  xe_split : amsdu_env;
  xe_frag : option sk_buff;
  xe_dup : bool;
  xe_Now : Z;
  xe_soft : soft_env
}.

Inductive rx_event :=
| Ev_free (id : Z)
| Ev_announce (p : sk_buff)                              (* announce_802_3_packet *)
| Ev_split (id : Z) (mem : list Z) (ws : list (Z * Z))   (* the clones of an A-MSDU; then it is freed *)
| Ev_reorder (rb : RX_BLK)                               (* given to Indicate_AMPDU_Packet *)
| Ev_PsPoll
| Ev_UpdateProtect
| Ev_MediaConnected
| Ev_CancelLinkDownTimer
| Ev_CancelStartTimer (w : nat)
| Ev_AsicSharedKey (idx : nat) (k : CIPHER_KEY)
| Ev_WcidSecInfo (idx : nat) (alg : Z)
| Ev_GENERAL_LINK_UP
| Ev_MicFailure (addr : list Z) (pairwise : bool) (idx : nat)
| Ev_Rssi (w : option nat)
| Ev_EntryStats (w : nat) (rate freq : Z) (sgi : bool)
| Ev_RxMgmt (ch : Z) (frame : list Z)                    (* CFG80211OS_RxMgmt *)
| Ev_HtcField
| Ev_BfFb
| Ev_FreqOffset (offset mode : Z)                         (* FreqCalibrationCtrl *).

Record rx_stats := mk_rxstats {
  RxCountSinceLastNULL : Z; MulticastReceivedFrameCount : Z; LastRxRate : Z; LastSNR0 : Z; LastSNR1 : Z;
  OneSecRxOkDataCnt : Z; CountDowntoPsm : Z; OneSecRxAggregationCount : Z; bLastAtheros : bool
}.

Record rx_state := mk_rxst {
  xs_pAd : adapter;
  xs_PortSecured : Z;
  xs_mac : MAC_TABLE;
  xs_ba : ba_adapter;
  xs_frag : FRAGMENT_FRAME;
  xs_Rx : TKIP_KEY_INFO;
  xs_Tx : TKIP_KEY_INFO;
  xs_bad : nat → bool;          (* bIAmBadAtheros of the entries *)
  xs_stats : rx_stats;
  xs_log : list rx_event
}.

Definition set_pAd (a : adapter) (s : rx_state) : rx_state :=
  mk_rxst a (xs_PortSecured s) (xs_mac s) (xs_ba s) (xs_frag s) (xs_Rx s) (xs_Tx s) (xs_bad s) (xs_stats s) (xs_log s).
Definition set_Port (v : Z) (s : rx_state) : rx_state :=
  mk_rxst (xs_pAd s) v (xs_mac s) (xs_ba s) (xs_frag s) (xs_Rx s) (xs_Tx s) (xs_bad s) (xs_stats s) (xs_log s).
Definition set_mac (T : MAC_TABLE) (s : rx_state) : rx_state :=
  mk_rxst (xs_pAd s) (xs_PortSecured s) T (xs_ba s) (xs_frag s) (xs_Rx s) (xs_Tx s) (xs_bad s) (xs_stats s) (xs_log s).
Definition set_ba (b : ba_adapter) (s : rx_state) : rx_state :=
  mk_rxst (xs_pAd s) (xs_PortSecured s) (xs_mac s) b (xs_frag s) (xs_Rx s) (xs_Tx s) (xs_bad s) (xs_stats s) (xs_log s).
Definition set_frag (f : FRAGMENT_FRAME) (s : rx_state) : rx_state :=
  mk_rxst (xs_pAd s) (xs_PortSecured s) (xs_mac s) (xs_ba s) f (xs_Rx s) (xs_Tx s) (xs_bad s) (xs_stats s) (xs_log s).
Definition set_RxMic (t : TKIP_KEY_INFO) (s : rx_state) : rx_state :=
  mk_rxst (xs_pAd s) (xs_PortSecured s) (xs_mac s) (xs_ba s) (xs_frag s) t (xs_Tx s) (xs_bad s) (xs_stats s) (xs_log s).
Definition set_TxMic (t : TKIP_KEY_INFO) (s : rx_state) : rx_state :=
  mk_rxst (xs_pAd s) (xs_PortSecured s) (xs_mac s) (xs_ba s) (xs_frag s) (xs_Rx s) t (xs_bad s) (xs_stats s) (xs_log s).
Definition set_bad (w : nat) (s : rx_state) : rx_state :=
  mk_rxst (xs_pAd s) (xs_PortSecured s) (xs_mac s) (xs_ba s) (xs_frag s) (xs_Rx s) (xs_Tx s)
    (λ i, if Nat.eqb i w then true else xs_bad s i) (xs_stats s) (xs_log s).
Definition upd_stats (f : rx_stats → rx_stats) (s : rx_state) : rx_state :=
  mk_rxst (xs_pAd s) (xs_PortSecured s) (xs_mac s) (xs_ba s) (xs_frag s) (xs_Rx s) (xs_Tx s) (xs_bad s) (f (xs_stats s)) (xs_log s).
Definition log (l : list rx_event) (s : rx_state) : rx_state :=
  mk_rxst (xs_pAd s) (xs_PortSecured s) (xs_mac s) (xs_ba s) (xs_frag s) (xs_Rx s) (xs_Tx s) (xs_bad s) (xs_stats s) (xs_log s ++ l).

Definition rb_id (rb : RX_BLK) : Z := skb_id (rb_pkt rb).
Definition rb_mem (rb : RX_BLK) : list Z := skb_mem (rb_pkt rb).
Definition rb_test (rb : RX_BLK) (f : Z) : bool := negb (Z.land (rb_Flags rb) f =? 0).
Definition RX_BLK_SET_FLAG (f : Z) (rb : RX_BLK) : RX_BLK := set_rbFlags (u16 (Z.lor (rb_Flags rb) f)) rb.
Definition RX_BLK_CLEAR_FLAG (f : Z) (rb : RX_BLK) : RX_BLK := set_rbFlags (u16 (Z.land (rb_Flags rb) (Z.lnot f))) rb.
Definition set_priority (p : Z) (rb : RX_BLK) : RX_BLK :=
  mk_rxblk (rb_pkt rb) (rb_pRxWI rb) (rb_pHeader rb) (rb_pData rb) (rb_DataSize rb) (rb_Flags rb) p (rb_OpMode rb)
    (rb_wcid rb) (rb_key_idx rb) (rb_TID rb) (rb_rssi rb) (rb_snr rb) (rb_freq_offset rb) (rb_MODE rb) (rb_MCS rb)
    (rb_ShortGI rb) (rb_rate_word rb) (rb_info rb).
(** [pRxInfo->Decrypted = 1] *)
Definition set_decrypted (rb : RX_BLK) : RX_BLK :=
  let i := rb_info rb in
  mk_rxblk (rb_pkt rb) (rb_pRxWI rb) (rb_pHeader rb) (rb_pData rb) (rb_DataSize rb) (rb_Flags rb) (rb_UserPriority rb) (rb_OpMode rb)
    (rb_wcid rb) (rb_key_idx rb) (rb_TID rb) (rb_rssi rb) (rb_snr rb) (rb_freq_offset rb) (rb_MODE rb) (rb_MCS rb)
    (rb_ShortGI rb) (rb_rate_word rb)
    (mk_rxinfo_struc (ri_BA i) (ri_AMPDU i) (ri_U2M i) (ri_Mcast i) (ri_Bcast i) (ri_MyBss i) (ri_L2PAD i) true).
Definition set_mem (m : list Z) (rb : RX_BLK) : RX_BLK :=
  let p := rb_pkt rb in
  set_place (mk_skb (skb_id p) m (skb_data p) (skb_len p)) (rb_pRxWI rb) (rb_pHeader rb) (rb_pData rb) (rb_DataSize rb) rb.

(** [dev_kfree_skb_any(pRxBlk->pRxPacket)] *)
Definition release (rb : RX_BLK) (s : rx_state) : rx_state := log [Ev_free (rb_id rb)] s.

(** * Handing a packet up *)

(** The 802.3 header and [RX_BLK] past the LLC header. *)
Definition REMOVE_LLC_AND_CONVERT_TO_802_3 (rb : RX_BLK) : option (list Z * RX_BLK) :=
  let h := rb_pHeader rb in
  let '(pDA, pSA) :=
    if rb_test rb fRX_WDS || rb_test rb fRX_MESH then (h + 16, h + LENGTH_802_11)
    else if rb_test rb fRX_INFRA then (h + 4, if rb_test rb fRX_DLS then h + 10 else h + 16)
    else (h + 4, h + 10) in
  '(hdr, d, n, _) ← CONVERT_TO_802_3 (rb_mem rb) pDA pSA (rb_pData rb) (rb_DataSize rb);
  Some (hdr, set_data d n rb).

(** The data pointer moves to [pData], then [skb_push] makes room for the
    header in front of it. *)
Definition wlan_802_11_to_802_3_packet (rb : RX_BLK) (pHeader802_3 : list Z) : option sk_buff :=
  m ← wr (rb_mem rb) (rb_pData rb - LENGTH_802_3) pHeader802_3;
  Some (mk_skb (rb_id rb) m (rb_pData rb - LENGTH_802_3) (rb_DataSize rb + LENGTH_802_3)).

Section Handlers.
Context (cfg : rx_cfg) (E : rx_env).

Definition Indicate_Legacy_Packet (rb : RX_BLK) (s : rx_state) : option rx_state :=
  '(Header802_3, rb) ← REMOVE_LLC_AND_CONVERT_TO_802_3 rb;
  if MAX_RX_PKT_LEN <? rb_DataSize rb then Some (release rb s)
  else
    ba ← (if bDisableReordering cfg then Some (xs_ba s)
          else legacy_flush (cfg_ba cfg) (xs_ba s) (xe_Now E) (rb_wcid rb) (rb_TID rb));
    p ← wlan_802_11_to_802_3_packet rb Header802_3;
    Some (log [Ev_announce p] (set_ba ba s)).

Definition Indicate_AMSDU_Packet (rb : RX_BLK) (s : rx_state) : option rx_state :=
  '(_, mem, pAd, ws) ← deaggregate_AMSDU_announce (xe_split E) (rb_mem rb) (rb_pData rb) (rb_DataSize rb) (xs_pAd s);
  Some (log [Ev_split (rb_id rb) mem ws] (set_pAd pAd s)).

(** What the reordering sees of a frame. *)
Definition reorder_blk (h : list Z) (rb : RX_BLK) : BaReorder.RX_BLK :=
  mk_rx (hdr_Sequence h) (rb_Flags rb) (rb_DataSize rb) (rb_OpMode rb) (rb_id rb).

Definition indicate_ampdu (rb : RX_BLK) (s : rx_state) : option rx_state :=
  h ← header rb;
  ba ← Indicate_AMPDU_Packet (cfg_ba cfg) (xs_ba s) (xe_Now E) (rb_wcid rb) (rb_TID rb) (reorder_blk h rb);
  Some (log [Ev_reorder rb] (set_ba ba s)).

Definition CmmRxnonRalinkFrameIndicate (rb : RX_BLK) (s : rx_state) : option rx_state :=
  if rb_test rb fRX_AMPDU && negb (bDisableReordering cfg) then indicate_ampdu rb s
  else if rb_test rb fRX_AMSDU then Indicate_AMSDU_Packet rb s
  else Indicate_Legacy_Packet rb s.

(** A copy of header and data in a packet of its own; the copy has no number
    among the received packets. *)
Definition duplicate_pkt (mem : list Z) (pHeader802_3 pData DataSize : Z) : option sk_buff :=
  h ← rd mem pHeader802_3 LENGTH_802_3;
  d ← rd mem pData DataSize;
  Some (mk_skb (-1) ([0; 0] ++ h ++ d) 2 (LENGTH_802_3 + DataSize)).

Definition count_aggregation (t : rx_stats) : rx_stats :=
  mk_rxstats (RxCountSinceLastNULL t) (MulticastReceivedFrameCount t) (LastRxRate t) (LastSNR0 t) (LastSNR1 t)
    (OneSecRxOkDataCnt t) (CountDowntoPsm t) (u32 (OneSecRxAggregationCount t + 1)) (bLastAtheros t).

Definition CmmRxRalinkFrameIndicate (rb : RX_BLK) (s : rx_state) : option rx_state :=
  len ← rd (rb_mem rb) (rb_pData rb) 2;
  let Msdu2Size := u16 (aget len 0 + Z.shiftl (aget len 1) 8) in
  if negb ((Msdu2Size <=? 1536) && (Msdu2Size <? rb_DataSize rb)) then Some (release rb s)
  else
    let rb := set_data (rb_pData rb + 2) (rb_DataSize rb - 2) rb in
    '(Header802_3, rb) ← REMOVE_LLC_AND_CONVERT_TO_802_3 rb;
    let s := upd_stats count_aggregation s in
    let Payload1Size := u16 (rb_DataSize rb - Msdu2Size) in
    let Payload2Size := u16 (Msdu2Size - LENGTH_802_3) in
    let pData2 := rb_pData rb + Payload1Size + LENGTH_802_3 in
    if negb (xe_dup E) then Some (release rb s)
    else
      pPacket2 ← duplicate_pkt (rb_mem rb) (pData2 - LENGTH_802_3) pData2 Payload2Size;
      p ← wlan_802_11_to_802_3_packet (set_data (rb_pData rb) Payload1Size rb) Header802_3;
      Some (log [Ev_announce p; Ev_announce pPacket2] s).

(** * EAPOL *)

(** The answer, and the entry whose start timer is cancelled. *)
Definition RTMPCheckWPAframe (w : nat) (mem : list Z) (pData DataByteCount : Z) (s : rx_state) : option (bool * rx_state) :=
  if DataByteCount <? LENGTH_802_1_H + LENGTH_EAPOL_H then Some (false, s)
  else
    a ← mem_eq SNAP_802_1H mem pData;
    b ← mem_eq SNAP_BRIDGE_TUNNEL mem pData;
    let pData := if (a : bool) || (b : bool) then pData + 6 else pData in
    c ← mem_eq EAPOL mem pData;
    if negb (c : bool) then Some (false, s)
    else
      t ← rd mem (pData + 3) 1;
      let type := aget t 0 in
      if (type =? EAPPacket) || (type =? EAPOLLogoff) || (type =? EAPOLKey) || (type =? EAPOLASFAlert) then Some (true, s)
      else if type =? EAPOLStart then
        e ← Entries (xs_mac s) !! w;
        Some (true,
          if EnqueueEapolStartTimerRunning e =? EAPOL_START_DISABLE then s
          else log [Ev_CancelStartTimer w] (set_mac (set_Entries (<[w :=
            mk_entry (EntryType e) (Addr e) (pNext e) (wcid e) (Aid e) (apidx e) (bssid e) (AuthMode e) (WepStatus e)
              (PrivacyFilter e) (GTKState e) (PortSecured e) (PMKID_CacheIdx e) (Sst e) (AuthState e) (AssocDeadLine e)
              EAPOL_START_DISABLE (wpa e)]> (Entries (xs_mac s))) (xs_mac s)) s))
      else Some (false, s).

Definition WpaCheckEapCode (mem : list Z) (pFrame FrameLen OffSet : Z) : option Z :=
  if FrameLen <? OffSet + LENGTH_EAPOL_H + LENGTH_EAP_H then Some 0
  else
    t ← rd mem (pFrame + OffSet) 5;
    Some (if aget t 1 =? EAPPacket then aget t 4 else 0).

Definition STA_PORT_SECURED (s : rx_state) : option rx_state :=
  let s := log [Ev_MediaConnected] (set_Port WPA_802_1X_PORT_SECURED s) in
  e ← Entries (xs_mac s) !! BSSID_WCID;
  let e := mk_entry (EntryType e) (Addr e) (pNext e) (wcid e) (Aid e) (apidx e) (bssid e) (AuthMode e) (WepStatus e)
    Ndis802_11PrivFilterAcceptAll (GTKState e) (xs_PortSecured s) (PMKID_CacheIdx e) (Sst e) (AuthState e) (AssocDeadLine e)
    (EnqueueEapolStartTimerRunning e) (wpa e) in
  Some (log [Ev_CancelLinkDownTimer] (set_mac (set_Entries (<[BSSID_WCID := e]> (Entries (xs_mac s))) (xs_mac s)) s)).

(** Lines 48-78: the WEP key of a dynamic-WEP network. *)
Definition install_desired_key (s : rx_state) : option rx_state :=
  let idx := DesireSharedKeyId cfg in
  d ← DesireSharedKey cfg !! idx;
  if 0 <? KeyLen d then
    k ← sw_SharedKey (rest (xs_pAd s)) !! idx;
    material ← rd (Key d) 0 (KeyLen d);
    key ← wr (Key k) 0 material;
    let k := mk_key key (TxMic k) (RxMic k) (TxTsc k) (RxTsc k)
               (CipherAlg d) (KeyLen d) (BssId k) (KeyType k) in
    let pAd := upd_sta (λ t, set_SharedKey (<[idx := k]> (sw_SharedKey t)) t) (xs_pAd s) in
    Some (log [Ev_AsicSharedKey idx d; Ev_WcidSecInfo idx (CipherAlg d); Ev_MediaConnected; Ev_GENERAL_LINK_UP] (set_pAd pAd s))
  else Some s.

Definition STARxEAPOLFrameIndicate (rb : RX_BLK) (s : rx_state) : option rx_state :=
  if WpaSupplicantUP cfg then
    s ← (if IEEE8021X cfg && (own_WepStatus (sw_conf (rest (xs_pAd s))) =? Ndis802_11WEPEnabled)
         then code ← WpaCheckEapCode (rb_mem rb) (rb_pData rb) (rb_DataSize rb) LENGTH_802_1_H;
              if code =? EAP_CODE_SUCCESS
              then s ← STA_PORT_SECURED s; if IEEE8021x_required_keys cfg then Some s else install_desired_key s
              else Some s
         else Some s);
    Indicate_Legacy_Packet rb s
  else
    h ← header rb;
    let pTmpBuf := rb_pData rb - LENGTH_802_11 in
    mem ← wr (rb_mem rb) pTmpBuf h;
    let size := rb_DataSize rb + LENGTH_802_11 in
    frame ← (if size <=? Z.of_nat MLME_BUFFER_SIZE then rd mem pTmpBuf size else Some []);
    pAd ← REPORT_MGMT_FRAME_TO_MLME (am_Channel (xe_split E)) (Z.of_nat (rb_wcid rb)) frame size (rb_rssi rb) 0 OPMODE_STA (xs_pAd s);
    Some (release rb (set_pAd pAd s)).

(** * Announcing a complete frame *)

Definition STARxDataFrameAnnounce (rb : RX_BLK) (s : rx_state) : option rx_state :=
  '(eap, s) ← RTMPCheckWPAframe (rb_wcid rb) (rb_mem rb) (rb_pData rb) (rb_DataSize rb) s;
  if negb (eap : bool) then
    if negb (MEDIA_STATE_CONNECTED cfg) then Some (release rb s)
    else
      h ← header rb;
      let WepStatus := own_WepStatus (sw_conf (rest (xs_pAd s))) in
      if (if fc_Wep h then WepStatus =? Ndis802_11EncryptionDisabled
          else negb (WepStatus =? Ndis802_11EncryptionDisabled) && (xs_PortSecured s =? WPA_802_1X_PORT_NOT_SECURED))
      then Some (release rb s)
      else
        let rb := RX_BLK_CLEAR_FLAG fRX_EAP rb in
        if negb (rb_test rb fRX_ARALINK) then CmmRxnonRalinkFrameIndicate rb s
        else CmmRxRalinkFrameIndicate rb s
  else
    let rb := RX_BLK_SET_FLAG fRX_EAP rb in
    if rb_test rb fRX_AMPDU && negb (bDisableReordering cfg) then indicate_ampdu rb s
    else STARxEAPOLFrameIndicate rb s.

(** * MIC failures *)

Definition report_mic (h : list Z) (idx : nat) (s : rx_state) : option rx_state :=
  k ← sw_SharedKey (rest (xs_pAd s)) !! idx;
  if WpaSupplicantUP cfg then Some (log [Ev_MicFailure (hdr_Addr2 h) (KeyType k =? PAIRWISE_KEY) idx] s)
  else
    e ← Entries (xs_mac s) !! BSSID_WCID;
    pAd ← RTMPReportMicError (HZ_ (cfg_ba cfg)) (xe_Now E) (Addr e) (KeyType k) (xs_pAd s);
    Some (set_pAd pAd s).

(** TRUE if the frame goes on; otherwise it was released. *)
Definition STACheckTkipMICValue (rb : RX_BLK) (s : rx_state) : option (bool * rx_state) :=
  h ← header rb;
  k ← sw_SharedKey (rest (xs_pAd s)) !! rb_key_idx rb;
  let pDA := hdr_Addr1 h in
  let pSA := if rb_test rb fRX_INFRA then hdr_Addr3 h else hdr_Addr2 h in
  '(ok, Rx) ← RTMPTkipCompareMICValue (xs_Rx s) (drop (Z.to_nat (rb_pData rb)) (rb_mem rb)) pDA pSA (RxMic k)
                (rb_UserPriority rb) (Z.to_nat (rb_DataSize rb));
  let s := set_RxMic Rx s in
  if (ok : bool) then Some (true, s)
  else s ← report_mic h (rb_key_idx rb) s; Some (false, release rb s).

(** * Software decryption *)

Definition RTMPExtractKeyIdxFromIVHdr (mem : list Z) (pIV alg : Z) : option Z :=
  if (alg =? Ndis802_11WEPEnabled) || (alg =? Ndis802_11TKIPEnable) || (alg =? Ndis802_11AESEnable)
     || (alg =? Ndis802_11GroupWEP40Enabled) || (alg =? Ndis802_11GroupWEP104Enabled)
  then b ← rd mem (pIV + 3) 1; Some (Z.shiftr (Z.land (aget b 0) 0xc0) 6)
  else Some 0xFF.

(** NULL is the inner [None].  The entries of a station have [apidx] BSS0, the
    row of [SharedKey] that the model has. *)
Definition RTMPSwCipherKeySelection (w : nat) (rb : RX_BLK) (s : rx_state) : option (option CIPHER_KEY) :=
  if rb_test rb fRX_APCLI || rb_test rb fRX_WDS || rb_test rb fRX_MESH then Some None
  else
    e ← Entries (xs_mac s) !! w;
    let alg := u8 (if ri_U2M (rb_info rb) then WepStatus e else cfg_GroupCipher cfg) in
    keyIdx ← RTMPExtractKeyIdxFromIVHdr (rb_mem rb) (rb_pData rb) alg;
    if 3 <? keyIdx then Some None
    else if (alg =? Ndis802_11TKIPEnable) || (alg =? Ndis802_11AESEnable) then
      if ri_U2M (rb_info rb) then Some (Some (PairwiseKey (wpa e)))
      else k ← sw_SharedKey (rest (xs_pAd s)) !! Z.to_nat keyIdx; Some (Some k)
    else k ← sw_SharedKey (rest (xs_pAd s)) !! Z.to_nat keyIdx; Some (Some k).

Fixpoint apply_reports (h : list Z) (k : CIPHER_KEY) (l : list mic_report) (s : rx_state) : option rx_state :=
  match l with
  | [] => Some s
  | WpaSendMicFailure addr pairwise :: l => apply_reports h k l (log [Ev_MicFailure addr pairwise 0] s)
  | ReportMicError :: l =>
      e ← Entries (xs_mac s) !! BSSID_WCID;
      pAd ← RTMPReportMicError (HZ_ (cfg_ba cfg)) (xe_Now E) (Addr e) (KeyType k) (xs_pAd s);
      apply_reports h k l (set_pAd pAd s)
  end.

(** Lines 502-528; the outer result is [None] when the frame was dropped. *)
Definition rx_soft_decrypt (w : nat) (rb : RX_BLK) (s : rx_state) : option (option RX_BLK * rx_state) :=
  h ← header rb;
  if SOFT_ENCRYPT cfg && fc_Wep h && negb (ri_Decrypted (rb_info rb)) then
    k ← RTMPSwCipherKeySelection w rb s;
    match k with
    | None => Some (None, release rb s)
    | Some k =>
        let hdr := drop (Z.to_nat (rb_pHeader rb)) (rb_mem rb) in
        '(st, data, cnt, Tx, reports) ←
          RTMPSoftDecryptionAction (xe_soft E) (xs_Tx s) hdr (rb_UserPriority rb) k
            (drop (Z.to_nat (rb_pData rb)) (rb_mem rb)) (rb_DataSize rb);
        let rb := set_mem (take (Z.to_nat (rb_pData rb)) (rb_mem rb) ++ data) rb in
        let rb := set_data (rb_pData rb) cnt rb in
        s ← apply_reports h k reports (set_TxMic Tx s);
        if negb (st =? NDIS_STATUS_SUCCESS) then Some (None, release rb s)
        else Some (Some (set_decrypted rb), s)
    end
  else Some (Some rb, s).

(** * The handler *)

Definition count_rx (t : rx_stats) : rx_stats :=
  mk_rxstats (u64 (RxCountSinceLastNULL t + 1)) (MulticastReceivedFrameCount t) (LastRxRate t) (LastSNR0 t) (LastSNR1 t)
    (OneSecRxOkDataCnt t) (CountDowntoPsm t) (OneSecRxAggregationCount t) (bLastAtheros t).
Definition count_multicast (t : rx_stats) : rx_stats :=
  mk_rxstats (RxCountSinceLastNULL t) (u64 (MulticastReceivedFrameCount t + 1)) (LastRxRate t) (LastSNR0 t) (LastSNR1 t)
    (OneSecRxOkDataCnt t) (CountDowntoPsm t) (OneSecRxAggregationCount t) (bLastAtheros t).
Definition last_atheros (t : rx_stats) : rx_stats :=
  mk_rxstats (RxCountSinceLastNULL t) (MulticastReceivedFrameCount t) (LastRxRate t) (LastSNR0 t) (LastSNR1 t)
    (OneSecRxOkDataCnt t) (CountDowntoPsm t) (OneSecRxAggregationCount t) true.
Definition count_unicast (rb : RX_BLK) (t : rx_stats) : rx_stats :=
  let '(snr0, snr1, _) := rb_snr rb in
  mk_rxstats (RxCountSinceLastNULL t) (MulticastReceivedFrameCount t) (rb_rate_word rb) (u8 snr0) (u8 snr1)
    (u32 (OneSecRxOkDataCnt t + 1)) (if CountDowntoPsm t <? 12 then 12 else CountDowntoPsm t)
    (OneSecRxAggregationCount t) (bLastAtheros t).

(** Lines 291-431: which frames are looked at; the entry of the sender. *)
Definition rx_gate (h : list Z) (rb : RX_BLK) (s : rx_state) : option (option nat * RX_BLK * rx_state) :=
  let drop_it (s : rx_state) := Some (None, rb, release rb s) in
  if fc_FrDs h && fc_ToDs h then drop_it s
  else if negb (ri_MyBss (rb_info rb)) then drop_it s
  else
    let s := upd_stats count_rx s in
    if negb (Z.land (fc_SubType h) 0x04 =? 0) then drop_it s
    else if (if BssType_infra cfg then negb (bool_decide (hdr_Addr2 h = take 6 (aux_Bssid (sw_aux (rest (xs_pAd s))))))
             else negb (bool_decide (hdr_Addr3 h = take 6 (Common_Bssid cfg)))) then drop_it s
    else
      pEntry ← (if Nat.ltb (rb_wcid rb) MAX_LEN_OF_MAC_TABLE then Some (Some (rb_wcid rb))
                else MacTableLookup (xs_mac s) (hdr_Addr2 h));
      match pEntry with
      | None => drop_it s
      | Some w =>
          let rb := if BssType_infra cfg then RX_BLK_SET_FLAG fRX_INFRA rb else rb in
          let s := if negb (xs_bad s w) && ri_AMPDU (rb_info rb) && fc_Retry h
                   then let s := upd_stats last_atheros (set_bad w s) in
                        if own_WepStatus (sw_conf (rest (xs_pAd s))) =? Ndis802_11AESEnable then s else log [Ev_UpdateProtect] s
                   else s in
          Some (Some w, rb, s)
      end.

(** The access category that a poll must be sent for. *)
Definition needs_poll (p : Z) : bool :=
  (((p =? 0) || (p =? 3)) && negb (bAPSDAC_BE cfg)) || (((p =? 1) || (p =? 2)) && negb (bAPSDAC_BK cfg)) ||
  (((p =? 4) || (p =? 5)) && negb (bAPSDAC_VI cfg)) || (((p =? 6) || (p =? 7)) && negb (bAPSDAC_VO cfg)).

(** Lines 433-500: past the headers to the data. *)
Definition rx_skip (h : list Z) (rb : RX_BLK) (s : rx_state) : option (RX_BLK * rx_state) :=
  let rb := set_data (rb_pHeader rb + LENGTH_802_11) (rb_DataSize rb - LENGTH_802_11) rb in
  '(rb, UserPriority) ←
    (if negb (Z.land (fc_SubType h) 0x08 =? 0) then
       q ← rd (rb_mem rb) (rb_pData rb) 1;
       let rb := RX_BLK_SET_FLAG fRX_QOS rb in
       let rb := if Z.testbit (aget q 0) 7 then RX_BLK_SET_FLAG fRX_AMSDU rb else rb in
       Some (set_data (rb_pData rb + 2) (rb_DataSize rb - 2) rb, Z.land (aget q 0) 0x0f)
     else Some (rb, 0));
  let rb := set_priority UserPriority rb in
  let s := if Psm_PWR_SAVE cfg && fc_MoreData h && needs_poll UserPriority then log [Ev_PsPoll] s else s in
  let rb := if fc_Order h then
              if (rb_MODE rb <=? MODE_OFDM) && AGGREGATION_INUSED cfg then RX_BLK_SET_FLAG fRX_ARALINK rb
              else let rb := RX_BLK_SET_FLAG fRX_HTC rb in set_data (rb_pData rb + 4) (rb_DataSize rb - 4) rb
            else rb in
  let rb := if ri_L2PAD (rb_info rb) then let rb := RX_BLK_SET_FLAG fRX_PAD rb in set_data (rb_pData rb + 2) (rb_DataSize rb) rb else rb in
  Some (if ri_BA (rb_info rb) then RX_BLK_SET_FLAG fRX_AMPDU rb else rb, s).

(** [MacTableLookup] and, if it finds one, a sample for the entry. *)
Definition rssi_of (h : list Z) (s : rx_state) : option rx_state :=
  e ← MacTableLookup (xs_mac s) (hdr_Addr2 h);
  Some (match e with Some i => log [Ev_Rssi (Some i)] s | None => s end).

(** Lines 531-557: group frames. *)
Definition rx_group (h : list Z) (rb : RX_BLK) (s : rx_state) : option rx_state :=
  let s := upd_stats count_multicast s in
  if fc_MoreFrag h then Some (release rb s)
  else if fc_FrDs h && bool_decide (hdr_Addr3 h = take 6 (CurrentAddress cfg)) then Some (release rb s)
  else
    s ← (if ADHOC_ON cfg then rssi_of h s else Some s);
    Indicate_Legacy_Packet rb s.

(** Lines 558-623: what a frame for us changes in the statistics. *)
Definition rx_unicast_stats (w : nat) (h : list Z) (rb : RX_BLK) (s : rx_state) : option rx_state :=
  s ← (if INFRA_ON cfg then Some (log [Ev_Rssi (Some BSSID_WCID)] s)
       else if ADHOC_ON cfg then rssi_of h s else Some s);
  let s := upd_stats (count_unicast rb) (log [Ev_Rssi None] s) in
  Some (log [Ev_EntryStats w (rb_rate_word rb) (rb_freq_offset rb) (rb_ShortGI rb)] s).

(** Lines 625-656: reassembly, the MIC of a reassembled TKIP frame, and on. *)
Definition rx_unicast (h : list Z) (rb : RX_BLK) (s : rx_state) : option rx_state :=
  let bFragment := negb ((hdr_Frag h =? 0) && negb (fc_MoreFrag h)) in
  '(have, rb, s) ←
    (if bFragment
     then '(r, rb', f) ← RTMPDeFragmentDataFrame (RXWISize cfg) (xe_frag E) rb (xs_frag s);
          Some (r, rb', release rb (set_frag f s))
     else Some (true, rb, s));
  if negb (have : bool) then Some s
  else if bFragment && ri_Decrypted (rb_info rb) then
    e ← Entries (xs_mac s) !! rb_wcid rb;
    if WepStatus e =? Ndis802_11TKIPEnable then
      let rb := set_data (rb_pData rb) (rb_DataSize rb - 8) rb in
      '(ok, s) ← STACheckTkipMICValue rb s;
      if (ok : bool) then STARxDataFrameAnnounce rb s else Some s
    else STARxDataFrameAnnounce rb s
  else STARxDataFrameAnnounce rb s.

Definition STAHandleRxDataFrame (rb : RX_BLK) (s : rx_state) : option rx_state :=
  h ← header rb;
  '(pEntry, rb, s) ← rx_gate h rb s;
  match pEntry with
  | None => Some s
  | Some w =>
      '(rb, s) ← rx_skip h rb s;
      '(orb, s) ← rx_soft_decrypt w rb s;
      match orb with
      | None => Some s
      | Some rb =>
          if ri_Bcast (rb_info rb) || ri_Mcast (rb_info rb) then rx_group h rb s
          else if ri_U2M (rb_info rb) then
            s ← rx_unicast_stats w h rb s;
            rx_unicast h rb s
          else Some (release rb s)
      end
  end.
End Handlers.
