(* ===== verification/RxDataProofs.v ===== *)
(** The receive path of data frames: what a handler leaves behind.

    [placed] says that the pointers of a frame lie in its packet; under it and
    the invariant [rx_wf] of the state every handler returns, adds to the log
    exactly one event that disposes of the packet, and keeps the invariant. *)

From S2P Require Import Prelude BaReorder BaSession BaSessionTable BaSessionProofs CipherKey Mlme MlmeProofs MlmeClaims MacTable Michael Tkip.
From S2P Require Import StaAuth MicCounter Eapol BssEntry SoftCrypto RxPacket RxAmsdu RxFrag RxData.

(** * The log *)

Definition disposed (e : rx_event) : option Z :=
  match e with
  | Ev_free i => Some i
  | Ev_announce p => Some (skb_id p)
  | Ev_split i _ _ => Some i
  | Ev_reorder rb => Some (rb_id rb)
  | _ => None
  end.

(** The flags of the adapter are not touched. *)
Definition same_mode {W} (a a' : RTMP_ADAPTER W) : Prop := Flags a' = Flags a ∧ ate_on a' = ate_on a.

(** From [s] to [s'] the packets [ids] were disposed of, in this order. *)
Definition disposes (ids : list Z) (s s' : rx_state) : Prop :=
  same_mode (xs_pAd s) (xs_pAd s') ∧ ∃ evs, xs_log s' = xs_log s ++ evs ∧ omap disposed evs = ids.

Lemma disposes_log s s' l : same_mode (xs_pAd s) (xs_pAd s') → xs_log s' = xs_log s → disposes (omap disposed l) s (log l s').
Proof. intros F E. split; [done|]. exists l. simpl. by rewrite E. Qed.

Lemma disposes_refl s s' : same_mode (xs_pAd s) (xs_pAd s') → xs_log s' = xs_log s → disposes [] s s'.
Proof. intros F E. split; [done|]. exists []. by rewrite app_nil_r. Qed.

Lemma disposes_one s s' e i : same_mode (xs_pAd s) (xs_pAd s') → xs_log s' = xs_log s → disposed e = Some i → disposes [i] s (log [e] s').
Proof. intros F El Ed. split; [done|]. exists [e]. simpl. by rewrite El, Ed. Qed.

Lemma disposes_trans i j s s1 s2 : disposes i s s1 → disposes j s1 s2 → disposes (i ++ j) s s2.
Proof.
  intros ([F1 A1] & e & E1 & <-) ([F2 A2] & f & E2 & <-). split; [split; congruence|]. exists (e ++ f). by rewrite E2, E1, <- app_assoc, omap_app.
Qed.

(** Only the queue of the MLME differs. *)
Definition queue_only {W} (a a' : RTMP_ADAPTER W) : Prop := rest a' = rest a ∧ same_mode a a'.

Lemma queue_only_refl {W} (a : RTMP_ADAPTER W) : queue_only a a.
Proof. by repeat split. Qed.

Lemma queue_only_trans {W} (a b c : RTMP_ADAPTER W) : queue_only a b → queue_only b c → queue_only a c.
Proof. intros (R1 & F1 & A1) (R2 & F2 & A2). repeat split; congruence. Qed.

Lemma report_queue_only {W} ch w frame size rssi snr op (pAd pAd' : RTMP_ADAPTER W) :
  REPORT_MGMT_FRAME_TO_MLME ch w frame size rssi snr op pAd = Some pAd' → queue_only pAd pAd'.
Proof. unfold REPORT_MGMT_FRAME_TO_MLME. destruct rssi as [[? ?] ?]. intros H. peel H. simplify_eq. by repeat split. Qed.

Lemma deaggregate_rest {W} Es fuel : ∀ i p D mem (pAd : RTMP_ADAPTER W) n mem' pAd' ws,
  deaggregate_loop Es fuel i p D mem pAd = Some (n, mem', pAd', ws) → queue_only pAd pAd'.
Proof.
  assert (Hs : ∀ i p n mem (pAd : RTMP_ADAPTER W) mem' pAd' ws,
    amsdu_subframe Es i p n mem pAd = Some (mem', pAd', ws) → queue_only pAd pAd').
  { unfold amsdu_subframe. intros i p n mem pAd mem' pAd' ws H. peel H. simplify_eq.
    assert (Hr : ∀ q, (if (aget l 12 =? 136) && (aget l 13 =? 142) then amsdu_report Es i mem z0 z pAd else Some pAd) = Some q → queue_only pAd q).
    { intros q Hq. destruct (_ && _); [|simplify_eq; apply queue_only_refl]. unfold amsdu_report in Hq.
      destruct (al_Elem Es i); [|simplify_eq/=; apply queue_only_refl]. cbn [negb] in Hq. peel Hq. by eapply report_queue_only. }
    eauto. }
  induction fuel as [|fuel IH]; intros i p D mem pAd n mem' pAd' ws H; [done|]. cbn [deaggregate_loop] in H.
  destruct (_ <=? _); [simplify_eq; apply queue_only_refl|]. peel H. destruct (_ || _); [simplify_eq; apply queue_only_refl|]. peel H.
  apply Hs in E0. destruct (_ || _); [by simplify_eq|]. peel H. simplify_eq. eapply queue_only_trans; [exact E0|].
  destruct (_ <? _); [by eapply IH|]. simplify_eq. apply queue_only_refl.
Qed.

(** * Invariants *)

Section Wf.
Context (cfg : rx_cfg) (E : rx_env).

(** What the configuration and the kernel must give. *)
Record rx_ok : Prop := {
  ok_build : SOFT_ENCRYPT cfg = false;
  ok_junk : ∀ i, (MLME_BUFFER_SIZE ≤ length (junk_Elem (xe_split E) i))%nat;
  ok_desired : ∃ d, DesireSharedKey cfg !! DesireSharedKeyId cfg = Some d ∧ length (Key d) = 16%nat ∧ KeyLen d ≤ 16;
  ok_keyid : (DesireSharedKeyId cfg < 4)%nat
}.

Record rx_wf (s : rx_state) : Prop := {
  wf_ba : ba_inv (xs_ba s);
  wf_queue : queue_wf (Queue (Mlme (xs_pAd s))) None;
  wf_entries : length (Entries (xs_mac s)) = MAX_LEN_OF_MAC_TABLE;
  wf_keys : length (sw_SharedKey (rest (xs_pAd s))) = 4%nat;
  wf_key : Forall (λ k, length (Key k) = 16%nat) (sw_SharedKey (rest (xs_pAd s)))
}.
End Wf.

(** The frame lies in its packet, with 8 bytes to spare behind the data. *)
Record placed (rb : RX_BLK) : Prop := {
  pl_header : 0 ≤ rb_pHeader rb;
  pl_data : rb_pHeader rb + 24 ≤ rb_pData rb;
  pl_size : 0 ≤ rb_DataSize rb < 65536;
  pl_end : rb_pData rb + rb_DataSize rb + 8 ≤ Z.of_nat (length (rb_mem rb));
  pl_wcid : (rb_wcid rb < MAX_LEN_OF_MAC_TABLE)%nat;
  pl_TID : (rb_TID rb < NUM_OF_TID)%nat
}.

Lemma placed_flags rb f : placed rb → placed (set_rbFlags f rb).
Proof. intros []. by split. Qed.

Lemma placed_header rb : placed rb → ∃ h, header rb = Some h ∧ length h = 24%nat.
Proof.
  intros []. unfold header, LENGTH_802_11, rb_mem in *.
  destruct (rd_inside (skb_mem (rb_pkt rb)) (rb_pHeader rb) 24) as (h & Eh & L); [lia..|]. exists h. split; [done|lia].
Qed.

(** * The handlers *)

Section Handled.
Context (cfg : rx_cfg) (E : rx_env) (HE : rx_ok cfg E).

Definition handled (i : Z) (s : rx_state) (r : option rx_state) : Prop :=
  ∃ s', r = Some s' ∧ disposes [i] s s' ∧ rx_wf s'.

Lemma handled_release rb s s' : rx_wf s' → same_mode (xs_pAd s) (xs_pAd s') → xs_log s' = xs_log s → handled (rb_id rb) s (Some (release rb s')).
Proof. intros [] F El. eexists. split; [done|]. split; [apply (disposes_log s s' [Ev_free (rb_id rb)] F El)|]. by split. Qed.

(** Events that dispose of nothing come first. *)
Lemma handled_after i s s1 r : disposes [] s s1 → handled i s1 r → handled i s r.
Proof. intros D (s' & -> & D' & Hw). exists s'. split; [done|]. split; [by apply (disposes_trans [] [i] s s1 s')|done]. Qed.

Lemma convert_placed rb : placed rb → ∃ hdr d n, REMOVE_LLC_AND_CONVERT_TO_802_3 rb = Some (hdr, set_data d n rb) ∧ length hdr = 14%nat ∧
  rb_pData rb ≤ d ≤ rb_pData rb + 8.
Proof.
  intros []. unfold REMOVE_LLC_AND_CONVERT_TO_802_3, rb_mem in *.
  set (pp := if _ || _ then _ else _). destruct pp as [pDA pSA] eqn:Ep.
  assert (Hb : rb_pHeader rb + 4 ≤ pDA ≤ rb_pHeader rb + 16 ∧ rb_pHeader rb + 10 ≤ pSA ≤ rb_pHeader rb + 24).
  { unfold pp, LENGTH_802_11 in Ep. repeat case_match; simplify_eq; lia. }
  destruct (convert_inside (skb_mem (rb_pkt rb)) pDA pSA (rb_pData rb) (rb_DataSize rb)) as (h & Lh & [(-> & _)|(-> & _)]);
    [lia..| |]; cbn [mbind option_bind]; do 3 eexists; (split; [done|]); (split; [done|lia]).
Qed.

Lemma legacy_handled rb s : placed rb → rx_wf s → handled (rb_id rb) s (Indicate_Legacy_Packet cfg E rb s).
Proof.
  intros Hp Hw. destruct (convert_placed rb Hp) as (hdr & d & n & Ec & Lh & Hd). unfold Indicate_Legacy_Packet. rewrite Ec.
  cbn [mbind option_bind]. destruct (_ <? _); [by apply (handled_release (set_data d n rb))|].
  assert (Hb : ∃ ba, (if bDisableReordering cfg then Some (xs_ba s)
    else legacy_flush (cfg_ba cfg) (xs_ba s) (xe_Now E) (rb_wcid (set_data d n rb)) (rb_TID (set_data d n rb))) = Some ba ∧ ba_inv ba).
  { destruct (bDisableReordering cfg); [eexists; split; [done|apply Hw]|].
    destruct (legacy_ok (cfg_ba cfg) (xs_ba s) (xe_Now E) (rb_wcid rb) (rb_TID rb)) as (ba & Eb & Hs); [apply Hw|apply Hp|].
    exists ba. split; [done|apply Hs]. }
  destruct Hb as (ba & -> & HI). cbn [mbind option_bind]. unfold wlan_802_11_to_802_3_packet.
  destruct (wr_inside (rb_mem (set_data d n rb)) (rb_pData (set_data d n rb) - LENGTH_802_3) hdr) as (m & -> & _).
  { destruct Hp. unfold LENGTH_802_3. simpl. lia. } { destruct Hp. unfold LENGTH_802_3, rb_mem in *. simpl. lia. }
  cbn [mbind option_bind]. eexists. split; [done|]. split; [by apply disposes_one|].
  destruct Hw. by split.
Qed.

Lemma amsdu_handled rb s : placed rb → rx_wf s → no_tiny_eapol (rb_mem rb) (rb_pData rb) →
  handled (rb_id rb) s (Indicate_AMSDU_Packet E rb s).
Proof.
  intros [] Hw Ht. unfold Indicate_AMSDU_Packet.
  destruct (loop_safe (xe_split E) (ok_junk _ _ HE) (S (Z.to_nat (rb_DataSize rb))) 0 (rb_pData rb) (rb_DataSize rb) (rb_mem rb) (xs_pAd s) None)
    as (n & mem & pAd & ws & Es & _ & _ & _ & Hq & _); [lia|lia|lia|done|done|apply Hw|].
  unfold deaggregate_AMSDU_announce. rewrite Es. cbn [mbind option_bind]. eexists. split; [done|].
  destruct (deaggregate_rest _ _ _ _ _ _ _ _ _ _ _ Es) as [Er Em].
  split; [by apply disposes_one|]. destruct Hw. split; try done; simpl; by rewrite Er.
Qed.

Lemma ampdu_handled rb s : placed rb → rx_wf s → handled (rb_id rb) s (indicate_ampdu cfg E rb s).
Proof.
  intros Hp Hw. destruct (placed_header rb Hp) as (h & Eh & _). unfold indicate_ampdu. rewrite Eh. cbn [mbind option_bind].
  destruct (ampdu_ok (cfg_ba cfg) (xs_ba s) (xe_Now E) (rb_wcid rb) (rb_TID rb) (reorder_blk h rb)) as (ba & -> & Hs); [apply Hw|apply Hp|].
  cbn [mbind option_bind]. eexists. split; [done|]. split; [by apply disposes_one|]. destruct Hw. split; try done. apply Hs.
Qed.

(** Reports to the MLME keep the rest of the adapter. *)
Lemma report_frame s ch w frame size rssi snr op : rx_wf s → 0 ≤ size → (size ≤ Z.of_nat MLME_BUFFER_SIZE → size ≤ Z.of_nat (length frame)) →
  ∃ pAd, REPORT_MGMT_FRAME_TO_MLME ch w frame size rssi snr op (xs_pAd s) = Some pAd ∧ rx_wf (set_pAd pAd s) ∧ same_mode (xs_pAd s) pAd.
Proof.
  intros Hw H0 Hs. unfold REPORT_MGMT_FRAME_TO_MLME. destruct rssi as [[r0 r1] r2].
  assert (Hr : ∃ b q, MlmeEnqueueForRecv (Flags (xs_pAd s)) (ate_on (xs_pAd s)) (Queue (Mlme (xs_pAd s)))
    (mk_rxinfo w (0, 0) (u8 r0, u8 r1, u8 r2) (u8 snr) op ch) size frame = Some (b, q) ∧ queue_wf q None).
  { destruct (decide (size ≤ Z.of_nat MLME_BUFFER_SIZE)); [apply recv_total; [apply Hw|done|by apply Hs]|].
    unfold MlmeEnqueueForRecv. destruct (ate_on _); [eexists _, _; split; [done|apply Hw]|].
    destruct (RTMP_TEST_FLAG _ _); [eexists _, _; split; [done|apply Hw]|].
    rewrite (proj2 (Z.ltb_lt _ _)) by lia. eexists _, _. split; [done|apply Hw]. }
  destruct Hr as (b & q & -> & Hq). cbn [mbind option_bind]. eexists. split; [done|]. split; [destruct Hw; by split|done].
Qed.

Lemma secured_wf s : rx_wf s → ∃ s', STA_PORT_SECURED s = Some s' ∧ rx_wf s' ∧ disposes [] s s' ∧ xs_pAd s' = xs_pAd s.
Proof.
  intros Hw. unfold STA_PORT_SECURED. cbn [xs_mac log set_Port].
  destruct (lookup_lt_is_Some_2 (Entries (xs_mac s)) BSSID_WCID) as [e He]; [rewrite (wf_entries _ Hw); by vm_compute; lia|].
  rewrite He. cbn [mbind option_bind]. eexists. split; [done|]. split; [|split; [|done]].
  - destruct Hw. split; try done. simpl. by rewrite length_insert.
  - split; [done|]. exists [Ev_MediaConnected; Ev_CancelLinkDownTimer]. simpl. by rewrite <- app_assoc.
Qed.

Lemma desired_wf s : rx_wf s → ∃ s', install_desired_key cfg s = Some s' ∧ rx_wf s' ∧ disposes [] s s'.
Proof.
  intros Hw. destruct (ok_desired _ _ HE) as (d & Ed & Ld & Hd). destruct (lookup_lt_is_Some_2 (sw_SharedKey (rest (xs_pAd s))) (DesireSharedKeyId cfg)) as [k Ek];
    [rewrite (wf_keys _ Hw); apply (ok_keyid _ _ HE)|]. pose proof (Forall_lookup_1 _ _ _ _ (wf_key _ Hw) Ek) as Lk. simpl in Lk.
  unfold install_desired_key. rewrite Ed. cbn [mbind option_bind]. destruct (Z.ltb_spec 0 (KeyLen d)) as [H0|_]; [|eexists; split; [done|]; split; [done|by apply disposes_refl]].
  rewrite Ek. cbn [mbind option_bind]. destruct (rd_inside (Key d) 0 (KeyLen d)) as (x & -> & Lx); [lia..|]. cbn [mbind option_bind].
  destruct (wr_inside (Key k) 0 x) as (y & -> & Ly); [lia..|]. cbn [mbind option_bind]. eexists. split; [done|]. split.
  - destruct Hw. split; try done; simpl; [by rewrite length_insert|]. apply Forall_insert; [done|]. simpl. lia.
  - split; [done|]. eexists. split; [reflexivity|done].
Qed.

Lemma eapol_handled rb s : placed rb → rx_wf s → handled (rb_id rb) s (STARxEAPOLFrameIndicate cfg E rb s).
Proof.
  intros Hp Hw. pose proof Hp as []. unfold STARxEAPOLFrameIndicate. destruct (WpaSupplicantUP cfg).
  - assert (Hs : ∃ s1, (if IEEE8021X cfg && (own_WepStatus (sw_conf (rest (xs_pAd s))) =? Ndis802_11WEPEnabled)
      then code ← WpaCheckEapCode (rb_mem rb) (rb_pData rb) (rb_DataSize rb) LENGTH_802_1_H;
           if code =? EAP_CODE_SUCCESS
           then s ← STA_PORT_SECURED s; if IEEE8021x_required_keys cfg then Some s else install_desired_key cfg s
           else Some s
      else Some s) = Some s1 ∧ rx_wf s1 ∧ disposes [] s s1).
    { destruct (_ && _); [|eexists; split; [done|]; split; [done|by apply disposes_refl]].
      assert (Hc : ∃ c, WpaCheckEapCode (rb_mem rb) (rb_pData rb) (rb_DataSize rb) LENGTH_802_1_H = Some c).
      { unfold WpaCheckEapCode. destruct (Z.ltb_spec (rb_DataSize rb) (LENGTH_802_1_H + LENGTH_EAPOL_H + LENGTH_EAP_H)); [by eexists|].
        unfold LENGTH_802_1_H, LENGTH_EAPOL_H, LENGTH_EAP_H in *.
        destruct (rd_inside (rb_mem rb) (rb_pData rb + 8) 5) as (x & -> & _); [lia..|]. by eexists. }
      destruct Hc as [c ->]. cbn [mbind option_bind]. destruct (c =? _); [|eexists; split; [done|]; split; [done|by apply disposes_refl]].
      destruct (secured_wf s Hw) as (s1 & -> & Hw1 & D1 & _). cbn [mbind option_bind].
      destruct (IEEE8021x_required_keys cfg); [by eauto|]. destruct (desired_wf s1 Hw1) as (s2 & -> & Hw2 & D2).
      eexists. split; [done|]. split; [done|]. by apply (disposes_trans [] [] s s1 s2). }
    destruct Hs as (s1 & -> & Hw1 & D1). cbn [mbind option_bind]. eapply handled_after; [exact D1|by apply legacy_handled].
  - destruct (placed_header rb Hp) as (h & Eh & Lh). rewrite Eh. cbn [mbind option_bind]. unfold LENGTH_802_11.
    destruct (wr_inside (rb_mem rb) (rb_pData rb - 24) h) as (m & -> & Lm); [lia..|]. cbn [mbind option_bind].
    assert (Hf : ∃ frame, (if rb_DataSize rb + 24 <=? Z.of_nat MLME_BUFFER_SIZE then rd m (rb_pData rb - 24) (rb_DataSize rb + 24) else Some []) =
      Some frame ∧ (rb_DataSize rb + 24 ≤ Z.of_nat MLME_BUFFER_SIZE → rb_DataSize rb + 24 ≤ Z.of_nat (length frame))).
    { destruct (Z.leb_spec (rb_DataSize rb + 24) (Z.of_nat MLME_BUFFER_SIZE)); [|eexists; split; [done|lia]].
      destruct (rd_inside m (rb_pData rb - 24) (rb_DataSize rb + 24)) as (x & -> & Lx); [lia..|]. eexists. split; [done|lia]. }
    destruct Hf as (frame & -> & Hf). cbn [mbind option_bind].
    destruct (report_frame s (am_Channel (xe_split E)) (Z.of_nat (rb_wcid rb)) frame (rb_DataSize rb + 24) (rb_rssi rb) 0 OPMODE_STA Hw) as (pAd & -> & Hw' & Hm); [lia|done|].
    cbn [mbind option_bind]. by apply (handled_release rb s (set_pAd pAd s)).
Qed.

Lemma check_wpa rb s : placed rb → rx_wf s →
  ∃ b s', RTMPCheckWPAframe (rb_wcid rb) (rb_mem rb) (rb_pData rb) (rb_DataSize rb) s = Some (b, s') ∧ rx_wf s' ∧ disposes [] s s'.
Proof.
  intros [] Hw. unfold RTMPCheckWPAframe. assert (D0 : disposes [] s s) by by apply disposes_refl.
  destruct (Z.ltb_spec (rb_DataSize rb) (LENGTH_802_1_H + LENGTH_EAPOL_H)); [by eauto|]. unfold LENGTH_802_1_H, LENGTH_EAPOL_H in *.
  destruct (mem_eq_inside SNAP_802_1H (rb_mem rb) (rb_pData rb)) as [a ->]; [lia|simpl; lia|].
  destruct (mem_eq_inside SNAP_BRIDGE_TUNNEL (rb_mem rb) (rb_pData rb)) as [b ->]; [lia|simpl; lia|]. cbn [mbind option_bind].
  set (p := if _ || _ then _ else _). assert (Hp : rb_pData rb ≤ p ≤ rb_pData rb + 6) by (unfold p; destruct (_ || _); lia).
  destruct (mem_eq_inside EAPOL (rb_mem rb) p) as [c ->]; [lia|simpl; lia|]. cbn [mbind option_bind]. destruct c; cbn [negb]; [|by eauto].
  destruct (rd_inside (rb_mem rb) (p + 3) 1) as (t & -> & _); [lia..|]. cbn [mbind option_bind].
  match goal with |- context [if ?c then Some (true, s) else _] => destruct c end; [by eauto|]. destruct (aget t 0 =? EAPOLStart); [|by eauto].
  destruct (lookup_lt_is_Some_2 (Entries (xs_mac s)) (rb_wcid rb)) as [e ->]; [by rewrite (wf_entries _ Hw)|]. cbn [mbind option_bind].
  destruct (EnqueueEapolStartTimerRunning e =? EAPOL_START_DISABLE); [by eauto|]. do 2 eexists. split; [done|]. split.
  - destruct Hw. split; try done. simpl. by rewrite length_insert.
  - by apply (disposes_log s (set_mac _ s) [Ev_CancelStartTimer _]).
Qed.

Lemma nonralink_handled rb s : placed rb → rx_wf s → no_tiny_eapol (rb_mem rb) (rb_pData rb) →
  handled (rb_id rb) s (CmmRxnonRalinkFrameIndicate cfg E rb s).
Proof.
  intros. unfold CmmRxnonRalinkFrameIndicate. destruct (_ && _); [by apply ampdu_handled|].
  destruct (rb_test rb fRX_AMSDU); [by apply amsdu_handled|by apply legacy_handled].
Qed.

(** No Ralink aggregate: its two sizes are not checked against each other. *)
Lemma announce_handled rb s : placed rb → rx_wf s → no_tiny_eapol (rb_mem rb) (rb_pData rb) → rb_test (RX_BLK_CLEAR_FLAG fRX_EAP rb) fRX_ARALINK = false →
  handled (rb_id rb) s (STARxDataFrameAnnounce cfg E rb s).
Proof.
  intros Hp Hw Ht Ha. unfold STARxDataFrameAnnounce. destruct (check_wpa rb s Hp Hw) as (b & s1 & -> & Hw1 & D1). cbn [mbind option_bind].
  eapply handled_after; [exact D1|]. destruct b; cbn [negb].
  - change (rb_id rb) with (rb_id (RX_BLK_SET_FLAG fRX_EAP rb)). assert (Hp' : placed (RX_BLK_SET_FLAG fRX_EAP rb)) by by apply placed_flags.
    destruct (_ && _); [by apply ampdu_handled|by apply eapol_handled].
  - destruct (MEDIA_STATE_CONNECTED cfg); cbn [negb]; [|by apply handled_release].
    destruct (placed_header rb Hp) as (h & Eh & _). rewrite Eh. cbn [mbind option_bind].
    match goal with |- handled _ _ (if ?c then _ else _) => destruct c end; [by apply handled_release|].
    rewrite Ha. cbn [negb]. change (rb_id rb) with (rb_id (RX_BLK_CLEAR_FLAG fRX_EAP rb)). apply nonralink_handled; [by apply placed_flags|done|done].
Qed.

Lemma group_handled h rb s : placed rb → rx_wf s → ADHOC_ON cfg = false →
  handled (rb_id rb) s (rx_group cfg E h rb s).
Proof.
  intros Hp Hw Ha. unfold rx_group. rewrite Ha. assert (Hw' : rx_wf (upd_stats count_multicast s)) by (destruct Hw; by split).
  destruct (fc_MoreFrag h); [by apply handled_release|]. destruct (_ && _); [by apply handled_release|]. cbn [mbind option_bind].
  eapply handled_after; [|by apply legacy_handled]. by apply disposes_refl.
Qed.
End Handled.
