(* ===== verification/RxDataClaims.v ===== *)
(** The receive path of data frames: claims.

    Every frame that lies in its packet is disposed of exactly once; what
    is handed up past the access control; the Ethernet frame that a station
    sees; the checks that are missing. *)

From S2P Require Import Prelude BaReorder BaSession BaSessionTable BaSessionProofs CipherKey Mlme MlmeProofs MlmeClaims MacTable Michael Tkip.
From S2P Require Import BaSessionClaims StaAuth StaAuthClaims MacTableClaims Wep MicCounter Eapol BssEntry SoftCrypto RxPacket RxAmsdu RxFrag RxFragClaims RxData RxDataProofs.

(** * Where the data of a frame begin *)

Definition is_qos (h : list Z) : bool := negb (Z.land (fc_SubType h) 0x08 =? 0).
Definition head_len (h : list Z) : Z := 24 + (if is_qos h then 2 else 0) + (if fc_Order h then 4 else 0).
Definition data_at (h : list Z) (rb : RX_BLK) : Z := rb_pHeader rb + head_len h + (if ri_L2PAD (rb_info rb) then 2 else 0).

(** The bit of the QoS control field that marks an A-MSDU. *)
Definition is_amsdu (h : list Z) (rb : RX_BLK) : bool :=
  is_qos h && match rd (rb_mem rb) (rb_pHeader rb + 24) 1 with Some q => Z.testbit (aget q 0) 7 | None => false end.

(** A frame as the USB transport hands it over, its 802.11 headers complete,
    that is not an aggregate of the chip maker's own kind. *)
Record received (cfg : rx_cfg) (rb : RX_BLK) (h : list Z) : Prop := {
  rc_header : header rb = Some h;
  rc_pHeader : 0 ≤ rb_pHeader rb;
  rc_size : head_len h ≤ rb_DataSize rb < 65536;
  rc_end : rb_pHeader rb + rb_DataSize rb + 10 ≤ Z.of_nat (length (rb_mem rb));
  rc_wcid : (rb_wcid rb < MAX_LEN_OF_MAC_TABLE)%nat;
  rc_TID : (rb_TID rb < NUM_OF_TID)%nat;
  rc_Flags : rb_Flags rb = 0;
  rc_ralink : fc_Order h && (rb_MODE rb <=? MODE_OFDM) && AGGREGATION_INUSED cfg = false
}.

(** The same frame, with the pointers past the headers. *)
Record at_data (cfg : rx_cfg) (rb : RX_BLK) (h : list Z) (rb' : RX_BLK) : Prop := {
  sk_pkt : rb_pkt rb' = rb_pkt rb;
  sk_pHeader : rb_pHeader rb' = rb_pHeader rb;
  sk_pData : rb_pData rb' = data_at h rb;
  sk_DataSize : rb_DataSize rb' = rb_DataSize rb - head_len h;
  sk_info : rb_info rb' = rb_info rb;
  sk_wcid : rb_wcid rb' = rb_wcid rb;
  sk_TID : rb_TID rb' = rb_TID rb;
  sk_INFRA : rb_test rb' fRX_INFRA = BssType_infra cfg;
  sk_AMSDU : rb_test rb' fRX_AMSDU = is_amsdu h rb;
  sk_AMPDU : rb_test rb' fRX_AMPDU = ri_BA (rb_info rb);
  sk_none : rb_test rb' (Z.lor fRX_ARALINK (Z.lor fRX_WDS (Z.lor fRX_MESH fRX_DLS))) = false
}.

Ltac frame_simp :=
  cbn [rb_mem set_data set_place set_rbFlags set_priority RX_BLK_SET_FLAG rb_pkt rb_pRxWI rb_pHeader rb_pData rb_DataSize rb_Flags rb_MODE
       rb_info rb_wcid rb_TID rb_UserPriority].

Section Path.
Context (cfg : rx_cfg) (E : rx_env).

Lemma received_placed rb h rb' : received cfg rb h → at_data cfg rb h rb' → placed rb'.
Proof.
  intros [] []. assert (Hq : 24 ≤ head_len h) by (unfold head_len; repeat case_match; lia).
  split; unfold rb_mem in *; rewrite ?sk_pHeader0, ?sk_pData0, ?sk_DataSize0, ?sk_pkt0, ?sk_wcid0, ?sk_TID0; try done;
    try (unfold data_at; case_match); lia.
Qed.

(** Past the gate the frame is as it was but for the flag of the mode. *)
Definition gated (rb : RX_BLK) : RX_BLK := if BssType_infra cfg then RX_BLK_SET_FLAG fRX_INFRA rb else rb.

(** Whether a frame is looked at: lines 291-408 of the handler. *)
Definition gate_open (h : list Z) (rb : RX_BLK) (s : rx_state) : bool :=
  negb (fc_FrDs h && fc_ToDs h) && ri_MyBss (rb_info rb) && (Z.land (fc_SubType h) 0x04 =? 0) &&
  (if BssType_infra cfg then bool_decide (hdr_Addr2 h = take 6 (aux_Bssid (sw_aux (rest (xs_pAd s)))))
   else bool_decide (hdr_Addr3 h = take 6 (Common_Bssid cfg))).

(** Only statistics and events that dispose of nothing. *)
Record quiet (s s' : rx_state) : Prop := {
  qu_pAd : xs_pAd s' = xs_pAd s;
  qu_Port : xs_PortSecured s' = xs_PortSecured s;
  qu_mac : xs_mac s' = xs_mac s;
  qu_ba : xs_ba s' = xs_ba s;
  qu_frag : xs_frag s' = xs_frag s;
  qu_log : disposes [] s s'
}.

Lemma quiet_wf s s' : quiet s s' → rx_wf s → rx_wf s'.
Proof. intros [E1 _ E2 E3 _ _] []. by split; rewrite ?E1, ?E2, ?E3. Qed.

Lemma quiet_trans s1 s2 s3 : quiet s1 s2 → quiet s2 s3 → quiet s1 s3.
Proof. intros [] []. split; try congruence. by apply (disposes_trans [] [] s1 s2 s3). Qed.

Lemma quiet_event e s : disposed e = None → quiet s (log [e] s).
Proof. intros Ee. split; try done. split; [done|]. exists [e]. split; [done|]. simpl. by rewrite Ee. Qed.

Lemma quiet_stats f s : quiet s (upd_stats f s).
Proof. split; try done. by apply disposes_refl. Qed.

Lemma gate_cases h rb s : (rb_wcid rb < MAX_LEN_OF_MAC_TABLE)%nat → ∃ s1, quiet s s1 ∧
  rx_gate cfg h rb s = Some (if gate_open h rb s then (Some (rb_wcid rb), gated rb, s1) else (None, rb, release rb s1)).
Proof.
  intros Hr. unfold rx_gate, gate_open. assert (Q0 : quiet s s) by (split; [done..|by apply disposes_refl]).
  destruct (fc_FrDs h && fc_ToDs h); cbn [negb andb]; [by eauto|].
  destruct (ri_MyBss (rb_info rb)); cbn [negb andb]; [|by eauto].
  pose proof (quiet_stats count_rx s) as Q1. destruct (Z.land (fc_SubType h) 4 =? 0); cbn [negb andb]; [|by eauto].
  set (c := if BssType_infra cfg then bool_decide _ else _). replace (if BssType_infra cfg then negb _ else _) with (negb c) by (unfold c; by destruct (BssType_infra cfg)).
  destruct c; cbn [negb]; [|by eauto]. rewrite (proj2 (Nat.ltb_lt _ _)) by done. cbn [mbind option_bind]. eexists. split; [|reflexivity].
  destruct (negb _ && _ && _); [|done]. eapply quiet_trans; [exact Q1|].
  assert (Qb : quiet (upd_stats count_rx s) (upd_stats last_atheros (set_bad (rb_wcid rb) (upd_stats count_rx s)))).
  { split; try done. by apply disposes_refl. }
  destruct (_ =? _); [done|]. eapply quiet_trans; [exact Qb|]. by apply quiet_event.
Qed.

Lemma skip_at_data h rb s : received cfg rb h →
  ∃ rb' s', rx_skip cfg h (gated rb) s = Some (rb', s') ∧ at_data cfg rb h rb' ∧ quiet s s'.
Proof.
  intros []. unfold rx_skip.
  assert (Hq : ∃ q, rd (rb_mem rb) (rb_pHeader rb + 24) 1 = Some q).
  { destruct (rd_inside (rb_mem rb) (rb_pHeader rb + 24) 1) as (q & -> & _); [lia| | |by eexists]; unfold head_len in *; repeat case_match; lia. }
  destruct Hq as (q & Eq).
  assert (Em : is_amsdu h rb = is_qos h && Z.testbit (aget q 0) 7) by (unfold is_amsdu; by rewrite Eq).
  assert (Eu : ∀ k, 0 ≤ k ≤ rb_DataSize rb → u16 (rb_DataSize rb - k) = rb_DataSize rb - k) by (intros; apply wrap_id; unfold in_range; lia).
  assert (HQ : ∀ c : bool, quiet s (if c then log [Ev_PsPoll] s else s)).
  { intros []; [by apply quiet_event|]. split; [done..|by apply disposes_refl]. }
  fold (is_qos h). unfold gated, head_len, rb_mem, LENGTH_802_11 in *.
  destruct (BssType_infra cfg) eqn:Ei, (is_qos h) eqn:Es, (Z.testbit (aget q 0) 7) eqn:E7, (fc_Order h) eqn:Eo, (ri_L2PAD (rb_info rb)) eqn:Ep, (ri_BA (rb_info rb)) eqn:Eb;
    cbn [andb] in rc_ralink0;
    repeat (progress (frame_simp; rewrite ?Eq, ?E7, ?rc_ralink0, ?Ep, ?Eb; cbn [mbind option_bind])).
  all: do 2 eexists; (split; [reflexivity|]); (split; [|apply HQ]).
  all: split; try done; unfold data_at, head_len, rb_test; frame_simp;
   rewrite ?rc_Flags0, ?Es, ?Eo, ?Ep, ?Ei, ?Em, ?Eb; try reflexivity; try lia.
  all: repeat (rewrite Eu by lia; rewrite <- ?Z.sub_add_distr); lia.
Qed.

Lemma unicast_stats_quiet w h rb s : ADHOC_ON cfg = false → ∃ s', rx_unicast_stats cfg w h rb s = Some s' ∧ quiet s s'.
Proof.
  intros Ha. unfold rx_unicast_stats. rewrite Ha.
  assert (Q : ∀ s, quiet s (log [Ev_EntryStats w (rb_rate_word rb) (rb_freq_offset rb) (rb_ShortGI rb)] (upd_stats (count_unicast rb) (log [Ev_Rssi None] s)))).
  { intros s0. eapply quiet_trans; [by apply (quiet_event (Ev_Rssi None))|]. eapply quiet_trans; [apply quiet_stats|]. by apply quiet_event. }
  destruct (INFRA_ON cfg); cbn [mbind option_bind]; eexists; (split; [reflexivity|]); [|apply Q].
  eapply quiet_trans; [by apply (quiet_event (Ev_Rssi (Some BSSID_WCID)))|apply Q].
Qed.

(** Tests of flags. *)
Lemma test_sub rb f g : rb_test rb g = false → Z.land f g = f → rb_test rb f = false.
Proof.
  unfold rb_test. intros Hg Hf. apply negb_false_iff, Z.eqb_eq in Hg. apply negb_false_iff, Z.eqb_eq.
  by rewrite <- Hf, (Z.land_comm f), Z.land_assoc, Hg.
Qed.

Lemma test_clear rb f : word16 f → Z.land f fRX_EAP = 0 → rb_test (RX_BLK_CLEAR_FLAG fRX_EAP rb) f = rb_test rb f.
Proof.
  intros Hf He. unfold rb_test, RX_BLK_CLEAR_FLAG, set_rbFlags, wrap. cbn [rb_Flags]. do 2 f_equal.
  rewrite <- !Z.land_assoc. f_equal. rewrite Z.land_assoc, (Z.land_comm _ f), Z.land_assoc.
  replace (Z.land f (Z.lnot fRX_EAP)) with f; [|symmetry; rewrite <- Z.ldiff_land, <- (Z.lor_0_r f), <- He; apply Z.bits_inj'; intros i Hi;
    rewrite Z.ldiff_spec, !Z.lor_spec, Z.land_spec; apply (f_equal (λ x, Z.testbit x i)) in He; rewrite Z.land_spec, Z.bits_0 in He;
    by destruct (Z.testbit f i), (Z.testbit fRX_EAP i)].
  rewrite Z.land_ones by lia. apply Z.mod_small. done.
Qed.

Lemma no_aralink rb h rb' : at_data cfg rb h rb' → rb_test (RX_BLK_CLEAR_FLAG fRX_EAP rb') fRX_ARALINK = false.
Proof. intros Hs. rewrite test_clear by done. by eapply test_sub; [apply Hs|]. Qed.

(** What the handler does with a frame that is no fragment, up to the point
    where group frames and frames for us part. *)
Lemma handle_unfragmented rb h s : received cfg rb h → SOFT_ENCRYPT cfg = false → ADHOC_ON cfg = false →
  hdr_Frag h = 0 → fc_MoreFrag h = false →
  ∃ rb1 s1, at_data cfg rb h rb1 ∧ quiet s s1 ∧ STAHandleRxDataFrame cfg E rb s =
    if gate_open h rb s then
      if ri_Bcast (rb_info rb) || ri_Mcast (rb_info rb) then rx_group cfg E h rb1 s1
      else if ri_U2M (rb_info rb) then STARxDataFrameAnnounce cfg E rb1 s1 else Some (release rb s1)
    else Some (release rb s1).
Proof.
  intros Hr Hb Ha Hf Hm. unfold STAHandleRxDataFrame. rewrite (rc_header _ _ _ Hr). cbn [mbind option_bind].
  destruct (gate_cases h rb s (rc_wcid _ _ _ Hr)) as (s1 & Q1 & ->). cbn [mbind option_bind].
  destruct (skip_at_data h rb s1 Hr) as (rb1 & s2 & Es & Hs & Q2). exists rb1.
  destruct (gate_open h rb s); [|by exists s1]. rewrite Es. cbn [mbind option_bind].
  pose proof (received_placed rb h rb1 Hr Hs) as Hp. destruct (placed_header rb1 Hp) as (h1 & Eh & _). unfold rx_soft_decrypt. rewrite Eh, Hb.
  cbn [mbind option_bind andb]. rewrite (sk_info _ _ _ _ Hs).
  assert (Q12 : quiet s s2) by by apply (quiet_trans s s1 s2).
  destruct (_ || _); [by exists s2|]. destruct (ri_U2M _).
  - destruct (unicast_stats_quiet (rb_wcid rb) h rb1 s2 Ha) as (s3 & -> & Q3). exists s3. split; [done|]. split; [by apply (quiet_trans s s2 s3)|].
    unfold rx_unicast. rewrite Hf, Hm. done.
  - exists s2. split; [done|]. split; [done|]. unfold release, rb_id. by rewrite (sk_pkt _ _ _ _ Hs).
Qed.

Lemma unfragmented_handled (HE : rx_ok cfg E) h rb s : received cfg rb h → rx_wf s → ADHOC_ON cfg = false →
  hdr_Frag h = 0 → fc_MoreFrag h = false → no_tiny_eapol (rb_mem rb) (data_at h rb) →
  handled (rb_id rb) s (STAHandleRxDataFrame cfg E rb s).
Proof.
  intros Hr Hw Ha Hf Hm Ht. destruct (handle_unfragmented rb h s Hr (ok_build _ _ HE) Ha Hf Hm) as (rb1 & s1 & Hs & Q & ->).
  pose proof (received_placed rb h rb1 Hr Hs) as Hp. pose proof (quiet_wf s s1 Q Hw) as Hw1.
  eapply handled_after; [apply Q|]. destruct (gate_open h rb s); [|by apply handled_release].
  assert (Ei : rb_id rb1 = rb_id rb) by (unfold rb_id; by rewrite (sk_pkt _ _ _ _ Hs)). 
  destruct (_ || _); [rewrite <- Ei; by apply group_handled|]. destruct (ri_U2M _); [|by apply handled_release].
  rewrite <- Ei. apply announce_handled; [done..| |by eapply no_aralink].
  unfold rb_mem in *. by rewrite (sk_pkt _ _ _ _ Hs), (sk_pData _ _ _ _ Hs).
Qed.
End Path.

(** * Examples *)

Definition demo_rcfg : rx_cfg :=
  mk_rxcfg false true [2; 0; 0; 0; 0; 9] demo_ap true false true false false false false false false false 28 0 false false false 0
    (replicate 4 (demo_key 13)) demo_cfg.
Definition demo_renv : rx_env := mk_rxenv demo_amenv None true 7 SoftCrypto.demo_env.
(** Associated, with encryption on and the given port. *)
Definition demo_rstate (port : Z) : rx_state :=
  mk_rxst (demo_station 0 false) port start_table demo_buffered demo_place (mk_tkip 0 0 0 0 0 0 0 0 [] []) (mk_tkip 0 0 0 0 0 0 0 0 [] [])
    (λ _, false) (mk_rxstats 0 0 0 0 0 0 0 0 false) [].

(** Reception data, the header of a frame from the access point, the body. *)
Definition demo_head (fc0 fc1 : Z) (DA SA : list Z) : list Z := [fc0; fc1; 0; 0] ++ DA ++ demo_ap ++ SA ++ [0x50; 1].
Definition demo_data (id fc0 fc1 : Z) (DA SA body : list Z) (group : bool) : RX_BLK :=
  mk_rxblk (mk_skb id (zeros 28 ++ demo_head fc0 fc1 DA SA ++ body ++ zeros 10) 0 0)
    0 28 28 (24 + Z.of_nat (length body)) 0 0 0 1 0 5 (0, 0, 0) (0, 0, 0) 0 0 0 false 0
    (mk_rxinfo_struc false false (negb group) group false true false true).

Lemma demo_rwf port : rx_wf (demo_rstate port).
Proof.
  split; [exact demo_buffered_inv|exact (demo_wf 0 false)|done..|]. repeat constructor.
Qed.

Lemma demo_rok : rx_ok demo_rcfg demo_renv.
Proof. split; [done|intros i; vm_compute; lia| |]. { exists (demo_key 13). split; [done|]. split; [done|]. by vm_compute. } simpl. lia. Qed.

Lemma demo_received id fc0 fc1 DA SA body group : length DA = 6%nat → length SA = 6%nat → Z.of_nat (length body) < 4096 →
  head_len (demo_head fc0 fc1 DA SA) ≤ 24 + Z.of_nat (length body) →
  received demo_rcfg (demo_data id fc0 fc1 DA SA body group) (demo_head fc0 fc1 DA SA).
Proof.
  intros LA LB Hb Hh. assert (L : length (demo_head fc0 fc1 DA SA) = 24%nat) by (unfold demo_head; rewrite !length_app, LA, LB; done).
  split; try done.
  - apply (rd_at (zeros 28) _ (body ++ zeros 10)); [done..|by rewrite L].
  - simpl. lia.
  - unfold rb_mem. cbn [demo_data rb_pHeader rb_DataSize rb_pkt skb_mem]. rewrite !length_app, L, !length_zeros. lia.
  - cbn [demo_data rb_wcid]. by apply Nat.ltb_lt.
  - cbn [demo_data rb_TID]. by apply Nat.ltb_lt.
  - cbn [AGGREGATION_INUSED demo_rcfg]. apply andb_false_r.
Qed.

(** * Every packet is disposed of once *)

(** The frames as they arrive, each with what the kernel answers. *)
Fixpoint rx_run (cfg : rx_cfg) (l : list (rx_env * RX_BLK)) (s : rx_state) : option rx_state :=
  match l with
  | [] => Some s
  | (E, rb) :: l => s ← STAHandleRxDataFrame cfg E rb s; rx_run cfg l s
  end.

(** A complete frame, no subframe of which is an EAPOL frame of less than 8
    bytes, and a kernel whose buffers have their size. *)
Definition proper (cfg : rx_cfg) (x : rx_env * RX_BLK) : Prop :=
  rx_ok cfg x.1 ∧ ∃ h, received cfg x.2 h ∧ hdr_Frag h = 0 ∧ fc_MoreFrag h = false ∧ no_tiny_eapol (rb_mem x.2) (data_at h x.2).

(** C12: Every packet is disposed of once.  The frames are data frames of any
    kind, address and content that satisfy [proper]: the 802.11 headers are
    complete and the frame lies in its packet with 10 bytes behind it, the chip
    gave the number of a peer inside the table and a TID below 8, the frame is
    not a fragment and not an aggregate of the chip maker's own kind, and no
    length below 8 is followed by the mark of an EAPOL frame 20 bytes behind
    the place of its header.  The station is not in ad hoc mode, encryption in
    software is not built in ([rx_ok], which also gives the sizes of the
    configured key and of the buffers of the engine), and the invariants of
    the sessions, the queue, the peer table and the keys hold at the start.
    Then for any sequence of such frames the handler returns for each of them,
    keeps those invariants, and every packet is freed, announced, split or given
    to the reordering exactly once, in the order of arrival: no leak and no
    double free.  What [proper] leaves out is left out because the code fails
    there: [short_frame_wraps], [aralink_size_wraps], [unknown_wcid_outside]. *)
Theorem rx_packets_disposed_once cfg l s (Ha : ADHOC_ON cfg = false) (Hl : Forall (proper cfg) l) (Hw : rx_wf s) :
  ∃ s' evs, rx_run cfg l s = Some s' ∧ rx_wf s' ∧ xs_log s' = xs_log s ++ evs ∧ omap disposed evs = map (λ x, rb_id x.2) l.
Proof.
  revert s Hw. induction Hl as [|[E rb] l (HE & h & Hr & Hf & Hm & Ht) Hl IH]; intros s Hw.
  { exists s, []. simpl. by rewrite app_nil_r. }
  destruct (unfragmented_handled cfg E HE h rb s Hr Hw Ha Hf Hm Ht) as (s1 & E1 & (_ & evs1 & L1 & D1) & Hw1).
  destruct (IH s1 Hw1) as (s2 & evs2 & E2 & Hw2 & L2 & D2). exists s2, (evs1 ++ evs2). cbn [rx_run]. rewrite E1. cbn [mbind option_bind].
  split; [done|]. split; [done|]. split; [by rewrite L2, L1, app_assoc|]. by rewrite omap_app, D1, D2.
Qed.

Definition demo_ipv4 : list Z := SNAP_802_1H ++ [8; 0] ++ replicate 20 0x45.
Definition demo_run : list (rx_env * RX_BLK) :=
  [(demo_renv, demo_data 1 8 0x42 [2; 0; 0; 0; 0; 9] [2; 0; 0; 0; 0; 1] demo_ipv4 false);
   (demo_renv, demo_data 2 0x88 0x42 [2; 0; 0; 0; 0; 9] [2; 0; 0; 0; 0; 1] ([0x85; 0] ++ amsdu [demo_msdu [8; 0] 22; demo_msdu [8; 6] 40]) false);
   (demo_renv, demo_data 3 8 0x42 (replicate 6 255) [2; 0; 0; 0; 0; 1] demo_ipv4 true);
   (demo_renv, demo_data 4 8 0x43 [2; 0; 0; 0; 0; 9] [2; 0; 0; 0; 0; 1] demo_ipv4 false)].

Lemma rx_packets_disposed_once_witness :
  ∃ s' evs, rx_run demo_rcfg demo_run (demo_rstate 2) = Some s' ∧ rx_wf s' ∧ xs_log s' = evs ∧ omap disposed evs = [1; 2; 3; 4].
Proof.
  apply (rx_packets_disposed_once demo_rcfg demo_run (demo_rstate 2)); [done| |apply demo_rwf].
  repeat (apply Forall_cons; split; [split; [exact demo_rok|]; eexists; split; [apply demo_received; vm_compute; (done || lia || intuition discriminate)|]; do 2 (split; [done|]);
    apply no_88; [done|]; vm_compute; repeat constructor; discriminate|]). by apply Forall_nil.
Defined.

(** * Access control *)

(** The frame is taken for EAPOL: the ethertype behind an LLC header, or at the
    very start of the data, with a known packet type. *)
Definition eapol_at (mem : list Z) (p n : Z) : Prop :=
  12 ≤ n ∧ ∃ o t, (o = 0 ∨ o = 6 ∧ (rd mem p 6 = Some SNAP_802_1H ∨ rd mem p 6 = Some SNAP_BRIDGE_TUNNEL)) ∧
    rd mem (p + o) 2 = Some EAPOL ∧ rd mem (p + o + 3) 1 = Some [t] ∧ 0 ≤ t ≤ 4.

(** What a frame for us needs besides: a connection, and protection that fits
    the configuration, or an open port. *)
Definition port_open (cfg : rx_cfg) (h : list Z) (s : rx_state) : bool :=
  let enc := negb (own_WepStatus (sw_conf (rest (xs_pAd s))) =? Ndis802_11EncryptionDisabled) in
  MEDIA_STATE_CONNECTED cfg &&
  if fc_Wep h then enc else negb enc || negb (xs_PortSecured s =? WPA_802_1X_PORT_NOT_SECURED).

Lemma check_not_eapol w mem p n s : 0 ≤ p → 0 ≤ n → p + n + 8 ≤ Z.of_nat (length mem) → ~ eapol_at mem p n →
  RTMPCheckWPAframe w mem p n s = Some (false, s).
Proof.
  intros Hp Hn Hl He. unfold RTMPCheckWPAframe, LENGTH_802_1_H, LENGTH_EAPOL_H. destruct (Z.ltb_spec n (8 + 4)); [done|].
  destruct (rd_inside mem p 6) as (x & Ex & _); [lia..|].
  assert (Em : ∀ pat, length pat = 6%nat → mem_eq pat mem p = Some (bool_decide (x = pat))) by (intros pat L; unfold mem_eq; rewrite L; change (Z.of_nat 6) with 6; by rewrite Ex).
  rewrite !Em by done. cbn [mbind option_bind]. clear Em.
  set (c := bool_decide (x = SNAP_802_1H) || bool_decide (x = SNAP_BRIDGE_TUNNEL)).
  set (o := if c then 6 else 0). replace (if c then p + 6 else p) with (p + o) by (unfold o; destruct c; lia).
  assert (Ho : o = 0 ∨ o = 6 ∧ (rd mem p 6 = Some SNAP_802_1H ∨ rd mem p 6 = Some SNAP_BRIDGE_TUNNEL)).
  { unfold o. destruct c eqn:Ec; [right; split; [done|]|by left]. unfold c in Ec. apply orb_true_iff in Ec as [Ec|Ec]; apply bool_decide_eq_true in Ec; subst x; auto. }
  assert (Hb : 0 ≤ o ≤ 6) by (unfold o; destruct c; lia). clearbody o. unfold mem_eq. cbn [length EAPOL]. change (Z.of_nat 2) with 2.
  destruct (rd_inside mem (p + o) 2) as (y & Ey & _); [lia..|]. rewrite Ey. cbn [mbind option_bind].
  destruct (bool_decide (y = EAPOL)) eqn:Eb; cbn [negb]; [|done]. apply bool_decide_eq_true in Eb. subst y.
  destruct (rd_inside mem (p + o + 3) 1) as (t & Et & Lt); [lia..|]. rewrite Et. cbn [mbind option_bind].
  destruct t as [|t [|? ?]]; simpl in Lt; [lia| |lia]. change (aget [t] 0) with t.
  assert (Ht : ~ (0 ≤ t ≤ 4)) by (intros Ht; apply He; split; [lia|by exists o, t]).
  unfold EAPPacket, EAPOLLogoff, EAPOLKey, EAPOLASFAlert, EAPOLStart. by repeat rewrite (proj2 (Z.eqb_neq _ _)) by lia.
Qed.

(** C13: Access control of the station.  The frame is a data frame whose headers
    are complete, from a peer whose number is inside the table and with a TID
    below 8, neither a group frame, nor a fragment, nor an aggregate of the chip
    maker's own kind; the station is not in ad hoc mode and encryption in
    software is not built in.  Such a frame is freed if it does not belong to the
    network ([gate_open]: both direction bits set, not marked by the chip as of
    our network, without data, or with the wrong address of the network), or if
    it is not addressed to us, or if it is not an EAPOL frame and the station is
    not connected, or the frame is protected while encryption is off, or it is
    in the clear while encryption is on and the port has not been opened by the
    handshake.  An EAPOL frame passes these last three checks, and nothing is
    claimed of it.  A refused frame reaches neither the network stack nor the
    reordering, and leaves the engine, the port, the peer table, the sessions
    and the reassembly as they were. *)
Theorem rx_refused_frame_freed cfg E rb h s (Hr : received cfg rb h) (Hb : SOFT_ENCRYPT cfg = false) (Ha : ADHOC_ON cfg = false)
    (Hf : hdr_Frag h = 0) (Hm : fc_MoreFrag h = false) (Hg : ri_Bcast (rb_info rb) || ri_Mcast (rb_info rb) = false)
    (Hc : gate_open cfg h rb s = false ∨ ri_U2M (rb_info rb) = false ∨
      ~ eapol_at (rb_mem rb) (data_at h rb) (rb_DataSize rb - head_len h) ∧ port_open cfg h s = false) :
  ∃ s1, STAHandleRxDataFrame cfg E rb s = Some (release rb s1) ∧ quiet s s1.
Proof.
  destruct (handle_unfragmented cfg E rb h s Hr Hb Ha Hf Hm) as (rb1 & s1 & Hs & Q & ->). rewrite Hg. exists s1. split; [|done].
  destruct (gate_open cfg h rb s); [|done]. destruct (ri_U2M (rb_info rb)); [|done]. destruct Hc as [?|[?|[He Hp]]]; [done..|].
  pose proof (received_placed cfg rb h rb1 Hr Hs) as Hpl. unfold STARxDataFrameAnnounce.
  assert (Er : release rb1 s1 = release rb s1) by (unfold release, rb_id; by rewrite (sk_pkt _ _ _ _ Hs)).
  rewrite check_not_eapol; [|destruct Hpl; lia..|unfold rb_mem; by rewrite (sk_pkt _ _ _ _ Hs), (sk_pData _ _ _ _ Hs), (sk_DataSize _ _ _ _ Hs)].
  cbn [mbind option_bind negb]. revert Hp. unfold port_open. rewrite <- (qu_pAd _ _ Q), <- (qu_Port _ _ Q).
  destruct (MEDIA_STATE_CONNECTED cfg); cbn [negb andb]; [|by rewrite Er].
  assert (Eh : header rb1 = Some h) by (unfold header; rewrite (sk_pkt _ _ _ _ Hs), (sk_pHeader _ _ _ _ Hs); apply Hr).
  rewrite Eh. cbn [mbind option_bind]. destruct (fc_Wep h), (_ =? Ndis802_11EncryptionDisabled); cbn [negb orb andb]; try done; intros Hp; [by rewrite Er|].
  apply negb_false_iff in Hp. by rewrite Hp, Er.
Qed.

(** An IPv4 packet in the clear before the handshake. *)
Definition demo_clear : RX_BLK := demo_data 1 8 2 [2; 0; 0; 0; 0; 9] [2; 0; 0; 0; 0; 1] demo_ipv4 false.

Lemma demo_not_eapol id fc0 fc1 DA SA t0 t1 pl group : length DA = 6%nat → length SA = 6%nat → [t0; t1] ≠ EAPOL →
  ~ eapol_at (rb_mem (demo_data id fc0 fc1 DA SA (SNAP_802_1H ++ [t0; t1] ++ pl) group)) 52 (8 + Z.of_nat (length pl)).
Proof.
  intros LA LB Ht (_ & o & t & Ho & Eo & _). unfold rb_mem in Eo. cbn [demo_data rb_pkt skb_mem] in Eo.
  assert (L : length (demo_head fc0 fc1 DA SA) = 24%nat) by (unfold demo_head; rewrite !length_app, LA, LB; done).
  assert (L52 : 52 = Z.of_nat (length (zeros 28 ++ demo_head fc0 fc1 DA SA))) by by rewrite length_app, L.
  destruct Ho as [->|[-> _]].
  - rewrite (rd_at (zeros 28 ++ demo_head fc0 fc1 DA SA) [0xaa; 0xaa] ([3; 0; 0; 0] ++ [t0; t1] ++ pl ++ zeros 10)) in Eo;
      [done|by rewrite <- !app_assoc|lia|done].
  - rewrite (rd_at (zeros 28 ++ demo_head fc0 fc1 DA SA ++ SNAP_802_1H) [t0; t1] (pl ++ zeros 10)) in Eo;
      [congruence|by rewrite <- !app_assoc|rewrite app_assoc, length_app; simpl length at 2; lia|done].
Qed.

Lemma rx_refused_frame_freed_witness :
  ∃ s1, STAHandleRxDataFrame demo_rcfg demo_renv demo_clear (demo_rstate WPA_802_1X_PORT_NOT_SECURED) = Some (release demo_clear s1) ∧
    quiet (demo_rstate WPA_802_1X_PORT_NOT_SECURED) s1.
Proof.
  apply (rx_refused_frame_freed demo_rcfg demo_renv demo_clear (demo_head 8 2 [2; 0; 0; 0; 0; 9] [2; 0; 0; 0; 0; 1])); try done.
  - apply demo_received; vm_compute; intuition discriminate.
  - right. right. split; [by apply demo_not_eapol|done].
Defined.

(** * Ethernet frames come out as they went in *)

(** What the sender puts behind the 802.11 header for an Ethernet frame. *)
Definition encap (eth : list Z) : list Z :=
  match EXTRA_LLCSNAP_ENCAP_FROM_PKT_START eth with
  | Some llc => llc ++ drop 12 eth
  | None => drop 14 eth
  end.

(** An Ethernet II frame, or an 802.3 frame whose length is right and which
    does not begin with a SNAP header. *)
Definition ethernet_ok (DA SA : list Z) (t0 t1 : Z) (payload : list Z) : Prop :=
  length DA = 6%nat ∧ length SA = 6%nat ∧
  (1500 < Z.shiftl t0 8 + t1 ∨
   [t0; t1] = be16 (Z.of_nat (length payload)) ∧ 8 ≤ Z.of_nat (length payload) ≤ 1500 ∧
   take 6 payload ≠ SNAP_802_1H ∧ take 6 payload ≠ SNAP_BRIDGE_TUNNEL).

Lemma encap_cases DA SA t0 t1 pl : ethernet_ok DA SA t0 t1 pl →
  (∃ llc, encap (DA ++ SA ++ [t0; t1] ++ pl) = llc ++ [t0; t1] ++ pl ∧
     (llc = SNAP_BRIDGE_TUNNEL ∨ llc = SNAP_802_1H ∧ [t0; t1] ≠ IPX ∧ [t0; t1] ≠ APPLE_TALK)) ∨
  (encap (DA ++ SA ++ [t0; t1] ++ pl) = pl ∧ [t0; t1] = be16 (Z.of_nat (length pl)) ∧ 8 ≤ Z.of_nat (length pl) ≤ 1500 ∧
   take 6 pl ≠ SNAP_802_1H ∧ take 6 pl ≠ SNAP_BRIDGE_TUNNEL).
Proof.
  intros (LD & LS & Ho). unfold encap, EXTRA_LLCSNAP_ENCAP_FROM_PKT_START.
  do 7 (destruct DA as [|? DA]; try done). do 7 (destruct SA as [|? SA]; try done).
  change (aget _ 12) with t0. change (aget _ 13) with t1. change (drop 12 _) with ([t0; t1] ++ pl). change (drop 14 _) with pl.
  change (take 2 ([t0; t1] ++ pl)) with [t0; t1]. destruct (Z.ltb_spec 1500 (Z.shiftl t0 8 + t1)) as [Hl|Hl].
  - left. eexists. split; [done|]. case_bool_decide as H1; simpl; [by left|]. case_bool_decide as H2; [by left|]. right. split; [done|].
    split; congruence.
  - right. destruct Ho as [?|Ho]; [lia|]. by split.
Qed.

Lemma convert_encap m pDA pSA p n DA SA t0 t1 pl : ethernet_ok DA SA t0 t1 pl → rd m pDA 6 = Some DA → rd m pSA 6 = Some SA →
  rd m p n = Some (encap (DA ++ SA ++ [t0; t1] ++ pl)) → n < 65536 →
  ∃ d removed, CONVERT_TO_802_3 m pDA pSA p n = Some (DA ++ SA ++ [t0; t1], d, Z.of_nat (length pl), removed) ∧
    rd m d (Z.of_nat (length pl)) = Some pl ∧ p ≤ d ≤ p + 8.
Proof.
  intros Ho EA EB En Hn. pose proof (rd_length _ _ _ _ En) as Ln. apply rd_split in En as (pre & post & Em & Ep).
  assert (Hh : ∀ ty, length ty = 2%nat → MAKE_802_3_HEADER m pDA pSA ty = Some (DA ++ SA ++ ty)).
  { intros ty Ht. unfold MAKE_802_3_HEADER. rewrite EA, EB. cbn [mbind option_bind]. by rewrite take_ge by lia. }
  unfold CONVERT_TO_802_3, mem_eq. change (Z.of_nat (length SNAP_802_1H)) with 6. change (Z.of_nat (length SNAP_BRIDGE_TUNNEL)) with 6.
  destruct (encap_cases _ _ _ _ _ Ho) as [(llc & Ee & Hllc)|(Ee & Et & Hl & Hn1 & Hn2)]; rewrite Ee in *.
  - assert (L6 : length llc = 6%nat) by by destruct Hllc as [->|[-> _]]. rewrite !length_app in Ln. simpl in Ln.
    rewrite (rd_at pre llc ([t0; t1] ++ pl ++ post) m p 6) by (rewrite ?Em, <- ?app_assoc; done || lia). cbn [mbind option_bind].
    replace (bool_decide (llc = SNAP_802_1H) || bool_decide (llc = SNAP_BRIDGE_TUNNEL)) with true by by destruct Hllc as [->|[-> _]].
    rewrite (rd_at (pre ++ llc) [t0; t1] (pl ++ post) m (p + 6) 2) by (rewrite ?length_app, ?Em, <- ?app_assoc; done || lia). cbn [mbind option_bind].
    replace (_ && _) with false.
    2:{ destruct Hllc as [->|(-> & Hi & Hat)]; [by rewrite andb_false_r|]. by rewrite !bool_decide_eq_false_2 by done. }
    rewrite (Hh [t0; t1]) by done. cbn [mbind option_bind]. unfold LENGTH_802_1_H. rewrite wrap_id by (unfold in_range; lia). 
    replace (n - 8) with (Z.of_nat (length pl)) by lia. do 2 eexists. split; [done|]. split; [|lia].
    apply (rd_at (pre ++ llc ++ [t0; t1]) pl post); [by rewrite Em, <- !app_assoc|rewrite !length_app; simpl; lia|done].
  - destruct (rd_inside m p 6) as (x & Ex & Lx); [lia|lia|rewrite Em, !length_app; lia|].
    assert (x = take 6 pl) as ->.
    { revert Ex. unfold rd. destruct (_ && _); [|done]. intros [= <-]. rewrite Em, Ep, Nat2Z.id, drop_app_length. apply take_app_le. lia. }
    rewrite Ex. cbn [mbind option_bind]. rewrite !bool_decide_eq_false_2 by done. cbn [orb].
    rewrite (Hh _) by done. cbn [mbind option_bind]. rewrite Ln in Et, Hl |- *. exists p, false. split; [|split; [|lia]].
    + rewrite Et. unfold be16. rewrite !wrap_id; [done|lia| |lia|]; unfold in_range.
      * change 255 with (Z.ones 8). rewrite Z.land_ones by lia. apply Z.mod_pos_bound. lia.
      * rewrite Z.shiftr_div_pow2 by lia. split; [apply Z.div_pos; lia|apply Z.div_lt_upper_bound; lia].
    + by apply (rd_at pre pl post).
Qed.

(** A part of what was read. *)
Lemma rd_sub m p n x a b : rd m p n = Some x → 0 ≤ a → 0 ≤ b → a + b ≤ n → rd m (p + a) b = Some (take (Z.to_nat b) (drop (Z.to_nat a) x)).
Proof.
  intros Ex Ha Hb Hab. pose proof (rd_length _ _ _ _ Ex) as Lx. apply rd_split in Ex as (pre & post & -> & ->).
  apply (rd_at (pre ++ take (Z.to_nat a) x) _ (drop (Z.to_nat b) (drop (Z.to_nat a) x) ++ post)).
  - by rewrite <- !app_assoc, (app_assoc (take (Z.to_nat b) _)), take_drop, (app_assoc (take (Z.to_nat a) x)), take_drop.
  - rewrite length_app, length_take. lia.
  - rewrite length_take, length_drop. lia.
Qed.

(** The header goes in front of the data. *)
Lemma push_header m d k hdr x : rd m d k = Some x → length hdr = 14%nat → 14 ≤ d →
  ∃ m', wr m (d - 14) hdr = Some m' ∧ rd m' (d - 14) (k + 14) = Some (hdr ++ x).
Proof.
  intros Ex Lh Hd. pose proof (rd_length _ _ _ _ Ex) as Lx. apply rd_split in Ex as (pre & post & -> & ->).
  assert (Ed : pre ++ x ++ post = take (length pre - 14) pre ++ drop (length pre - 14) pre ++ x ++ post) by by rewrite (app_assoc (take _ _)), take_drop.
  assert (Lt : length (take (length pre - 14) pre) = (length pre - 14)%nat) by (rewrite length_take; lia).
  eexists. split; [eapply wr_at; [exact Ed|lia|rewrite length_drop; lia]|].
  eapply rd_at; [by rewrite (assoc_L (++) hdr)|lia|rewrite length_app; lia].
Qed.

Section Up.
Context (cfg : rx_cfg) (E : rx_env).

Lemma legacy_announces rb s h DA SA t0 t1 pl : placed rb → rx_wf s → header rb = Some h →
  rb_test rb fRX_INFRA = true → rb_test rb (Z.lor fRX_WDS (Z.lor fRX_MESH fRX_DLS)) = false →
  hdr_Addr1 h = DA → hdr_Addr3 h = SA → ethernet_ok DA SA t0 t1 pl → Z.of_nat (length pl) ≤ MAX_RX_PKT_LEN →
  rd (rb_mem rb) (rb_pData rb) (rb_DataSize rb) = Some (encap (DA ++ SA ++ [t0; t1] ++ pl)) →
  ∃ ba p, Indicate_Legacy_Packet cfg E rb s = Some (log [Ev_announce p] (set_ba ba s)) ∧ ba_inv ba ∧ skb_id p = rb_id rb ∧
    rd (skb_mem p) (skb_data p) (skb_len p) = Some (DA ++ SA ++ [t0; t1] ++ pl).
Proof.
  intros Hp Hw Hh Hi Hn HA HB Ho Hl Er. pose proof Hp as [].
  unfold Indicate_Legacy_Packet, REMOVE_LLC_AND_CONVERT_TO_802_3. rewrite Hi.
  rewrite (test_sub rb fRX_WDS _ Hn), (test_sub rb fRX_MESH _ Hn), (test_sub rb fRX_DLS _ Hn) by done. cbn [orb].
  destruct (convert_encap (rb_mem rb) (rb_pHeader rb + 4) (rb_pHeader rb + 16) (rb_pData rb) (rb_DataSize rb) DA SA t0 t1 pl Ho) as (d & rm & -> & Ed & Hd);
    [rewrite <- HA; by apply (rd_sub _ _ _ _ 4 6 Hh)|rewrite <- HB; by apply (rd_sub _ _ _ _ 16 6 Hh)|done|lia|].
  unfold MAX_RX_PKT_LEN in *. cbn [mbind option_bind]. unfold set_data at 1. cbn [set_place rb_DataSize].
  rewrite wrap_id by (unfold in_range; lia). rewrite (proj2 (Z.ltb_ge _ _)) by lia.
  assert (Hb : ∃ ba, (if bDisableReordering cfg then Some (xs_ba s) else legacy_flush (cfg_ba cfg) (xs_ba s) (xe_Now E) (rb_wcid rb) (rb_TID rb)) = Some ba ∧ ba_inv ba).
  { destruct (bDisableReordering cfg); [eexists; split; [done|apply Hw]|].
    destruct (legacy_ok (cfg_ba cfg) (xs_ba s) (xe_Now E) (rb_wcid rb) (rb_TID rb)) as (ba & Eb & Hs); [apply Hw|done|]. exists ba. split; [done|apply Hs]. }
  destruct Hb as (ba & Eb & HI). cbn [set_data set_place rb_wcid rb_TID]. rewrite Eb. cbn [mbind option_bind].
  destruct Ho as (LA & LB & _).
  destruct (push_header (rb_mem rb) d (Z.of_nat (length pl)) (DA ++ SA ++ [t0; t1]) pl Ed) as (m' & Em & Em'); [rewrite !length_app; simpl; lia|lia|].
  unfold wlan_802_11_to_802_3_packet, LENGTH_802_3, set_data, rb_mem in *. cbn [set_place rb_pkt rb_pData rb_DataSize]. rewrite Em.
  cbn [mbind option_bind]. exists ba. eexists. split; [done|]. split; [done|]. split; [done|].
  cbn [skb_mem skb_data skb_len]. rewrite wrap_id by (unfold in_range; lia). rewrite Em'. by rewrite <- !app_assoc.
Qed.

Lemma no_flags rb f g : rb_test rb f = false → rb_test rb g = false → rb_test rb (Z.lor f g) = false.
Proof.
  unfold rb_test. intros Hf Hg. apply negb_false_iff, Z.eqb_eq in Hf, Hg. apply negb_false_iff, Z.eqb_eq.
  by rewrite Z.land_lor_distr_r, Hf, Hg.
Qed.

(** The plain path to the network stack: no reordering, no A-MSDU. *)
Lemma announce_plain rb s h : header rb = Some h → port_open cfg h s = true → 0 ≤ rb_pData rb → 0 ≤ rb_DataSize rb →
  rb_pData rb + rb_DataSize rb + 8 ≤ Z.of_nat (length (rb_mem rb)) → ~ eapol_at (rb_mem rb) (rb_pData rb) (rb_DataSize rb) →
  rb_test rb (Z.lor fRX_ARALINK (Z.lor fRX_AMPDU fRX_AMSDU)) = false →
  STARxDataFrameAnnounce cfg E rb s = Indicate_Legacy_Packet cfg E (RX_BLK_CLEAR_FLAG fRX_EAP rb) s.
Proof.
  intros Hh Hp H0 Hs Hl He Ht. unfold STARxDataFrameAnnounce. rewrite check_not_eapol by done. cbn [mbind option_bind negb]. revert Hp. unfold port_open.
  destruct (MEDIA_STATE_CONNECTED cfg); cbn [andb negb]; [|done]. rewrite Hh. cbn [mbind option_bind].
  intros Hc. match goal with |- (if ?c then _ else _) = _ => assert (c = false) as -> end.
  { destruct (fc_Wep h); [by apply negb_true_iff|]. destruct (_ =? Ndis802_11EncryptionDisabled); [done|]. by apply negb_true_iff. }
  unfold CmmRxnonRalinkFrameIndicate. rewrite !test_clear by done.
  by rewrite (test_sub rb fRX_ARALINK _ Ht), (test_sub rb fRX_AMPDU _ Ht), (test_sub rb fRX_AMSDU _ Ht) by done.
Qed.
End Up.

(** C14: An Ethernet frame sent outside of block-ack sessions comes out as it
    went in.  The frame has a type above 1500, or is an 802.3 frame whose length
    field is the length of its payload (no padding behind it), of 8 to 1500
    bytes that do not begin with a SNAP header ([ethernet_ok]); its payload has
    at most MAX_RX_PKT_LEN bytes.  The sender puts it in a data frame of the network with the
    encapsulation of the driver's transmit side
    ([EXTRA_LLCSNAP_ENCAP_FROM_PKT_START]): a SNAP header chosen by its type, or
    none.  A station of an infrastructure network (encryption in software not
    built in) receives that frame from its access point, as a complete frame
    from a peer inside the table, not as part of a block-ack session, not as an
    A-MSDU, not as a fragment and not as an aggregate of the chip maker's own
    kind; it is either a group frame that the station did not send itself, or a
    frame for the station with the port open that is not EAPOL.  Then, with or without QoS,
    HT control and padding fields, the station hands up one packet that reads as
    the same Ethernet frame, byte by byte, and disposes of nothing else. *)
Theorem rx_ethernet_round_trip cfg E rb h s DA SA t0 t1 pl (Hr : received cfg rb h) (Hw : rx_wf s)
    (Hb : SOFT_ENCRYPT cfg = false) (Ha : ADHOC_ON cfg = false) (HI : BssType_infra cfg = true)
    (Hf : hdr_Frag h = 0) (Hm : fc_MoreFrag h = false) (HBA : ri_BA (rb_info rb) = false) (Hams : is_amsdu h rb = false)
    (Hg : gate_open cfg h rb s = true)
    (Hto : ri_Bcast (rb_info rb) || ri_Mcast (rb_info rb) = true ∧ SA ≠ take 6 (CurrentAddress cfg) ∨
           ri_Bcast (rb_info rb) || ri_Mcast (rb_info rb) = false ∧ ri_U2M (rb_info rb) = true ∧ port_open cfg h s = true ∧
           ~ eapol_at (rb_mem rb) (data_at h rb) (rb_DataSize rb - head_len h))
    (HDA : hdr_Addr1 h = DA) (HSA : hdr_Addr3 h = SA) (Ho : ethernet_ok DA SA t0 t1 pl) (Hl : Z.of_nat (length pl) ≤ MAX_RX_PKT_LEN)
    (Hd : rd (rb_mem rb) (data_at h rb) (rb_DataSize rb - head_len h) = Some (encap (DA ++ SA ++ [t0; t1] ++ pl))) :
  ∃ s' evs p, STAHandleRxDataFrame cfg E rb s = Some s' ∧ xs_log s' = xs_log s ++ evs ++ [Ev_announce p] ∧ omap disposed evs = [] ∧
    skb_id p = rb_id rb ∧ rd (skb_mem p) (skb_data p) (skb_len p) = Some (DA ++ SA ++ [t0; t1] ++ pl).
Proof.
  destruct (handle_unfragmented cfg E rb h s Hr Hb Ha Hf Hm) as (rb1 & s1 & Hs & Q & ->). rewrite Hg.
  pose proof (received_placed cfg rb h rb1 Hr Hs) as Hp. pose proof (quiet_wf s s1 Q Hw) as Hw1.
  pose proof (sk_none _ _ _ _ Hs) as Hn. assert (Er : rd (rb_mem rb1) (rb_pData rb1) (rb_DataSize rb1) = Some (encap (DA ++ SA ++ [t0; t1] ++ pl))).
  { unfold rb_mem. by rewrite (sk_pkt _ _ _ _ Hs), (sk_pData _ _ _ _ Hs), (sk_DataSize _ _ _ _ Hs). }
  assert (Eh : header rb1 = Some h) by (unfold header; rewrite (sk_pkt _ _ _ _ Hs), (sk_pHeader _ _ _ _ Hs); apply Hr).
  assert (Ei : rb_id rb1 = rb_id rb) by (unfold rb_id; by rewrite (sk_pkt _ _ _ _ Hs)).
  assert (Hi : rb_test rb1 fRX_INFRA = true) by by rewrite (sk_INFRA _ _ _ _ Hs).
  assert (Hx : rb_test rb1 (Z.lor fRX_WDS (Z.lor fRX_MESH fRX_DLS)) = false) by by apply (test_sub _ _ _ Hn).
  destruct (qu_log _ _ Q) as (_ & evs & El & Ed). destruct Hto as [(-> & Hc)|(-> & -> & Hpo & He)].
  - unfold rx_group. rewrite Hm, Ha, HSA, bool_decide_eq_false_2, andb_false_r by done. cbn [mbind option_bind].
    destruct (legacy_announces cfg E rb1 (upd_stats count_multicast s1) h DA SA t0 t1 pl) as (ba & p & -> & _ & Ip & Rp); try done.
    { eapply quiet_wf; [apply quiet_stats|done]. }
    exists (log [Ev_announce p] (set_ba ba (upd_stats count_multicast s1))), evs, p. simpl. rewrite El, <- app_assoc. by rewrite Ip, Ei.
  - rewrite (announce_plain cfg E rb1 s1 h); try done.
    2:{ revert Hpo. unfold port_open. by rewrite (qu_pAd _ _ Q), (qu_Port _ _ Q). }
    2-4: destruct Hp; lia.
    2:{ unfold rb_mem. by rewrite (sk_pkt _ _ _ _ Hs), (sk_pData _ _ _ _ Hs), (sk_DataSize _ _ _ _ Hs). }
    2:{ apply no_flags; [by apply (test_sub _ _ _ Hn)|]. apply no_flags; [by rewrite (sk_AMPDU _ _ _ _ Hs)|by rewrite (sk_AMSDU _ _ _ _ Hs)]. }
    destruct (legacy_announces cfg E (RX_BLK_CLEAR_FLAG fRX_EAP rb1) s1 h DA SA t0 t1 pl) as (ba & p & -> & _ & Ip & Rp); try done;
      [by apply placed_flags|by rewrite test_clear..|].
    assert (skb_id p = rb_id rb) by (rewrite Ip; exact Ei). exists (log [Ev_announce p] (set_ba ba s1)), evs, p. simpl. by rewrite El, <- app_assoc.
Qed.

(** The same packet, protected, after the handshake. *)
Lemma rx_ethernet_round_trip_witness :
  ∃ s' evs p, STAHandleRxDataFrame demo_rcfg demo_renv (demo_data 1 8 0x42 [2; 0; 0; 0; 0; 9] [2; 0; 0; 0; 0; 1] demo_ipv4 false)
      (demo_rstate WPA_802_1X_PORT_SECURED) = Some s' ∧ xs_log s' = [] ++ evs ++ [Ev_announce p] ∧ omap disposed evs = [] ∧
    skb_id p = 1 ∧ rd (skb_mem p) (skb_data p) (skb_len p) = Some ([2; 0; 0; 0; 0; 9] ++ [2; 0; 0; 0; 0; 1] ++ [8; 0] ++ replicate 20 0x45).
Proof.
  apply (rx_ethernet_round_trip demo_rcfg demo_renv (demo_data 1 8 0x42 [2; 0; 0; 0; 0; 9] [2; 0; 0; 0; 0; 1] demo_ipv4 false)
    (demo_head 8 0x42 [2; 0; 0; 0; 0; 9] [2; 0; 0; 0; 0; 1]) (demo_rstate WPA_802_1X_PORT_SECURED)); try done.
  - apply demo_received; vm_compute; intuition discriminate.
  - apply demo_rwf.
  - right. do 3 (split; [done|]). by apply demo_not_eapol.
  - split; [done|]. split; [done|]. left. by vm_compute.
Defined.

(** * Sizes and numbers that are not checked *)

(** The second frame of an aggregate of the chip maker's kind announces less
    than a header: its size wraps around and the copy leaves the packet. *)
Theorem aralink_size_wraps E rb s n (Hn : 0 ≤ n < 14) (Hd : n < rb_DataSize rb) (Hm : Z.of_nat (length (rb_mem rb)) < 65536 - 14)
    (Hl : rd (rb_mem rb) (rb_pData rb) 2 = Some [n; 0]) (Hx : xe_dup E = true) :
  CmmRxRalinkFrameIndicate E rb s = None.
Proof.
  unfold CmmRxRalinkFrameIndicate. rewrite Hl. cbn [mbind option_bind]. change (aget [n; 0] 0) with n. change (aget [n; 0] 1) with 0.
  rewrite Z.shiftl_0_l, Z.add_0_r, wrap_id by (unfold in_range; lia).
  rewrite (proj2 (Z.leb_le _ _)), (proj2 (Z.ltb_lt _ _)) by lia. cbn [andb negb].
  set (rb' := set_data _ _ rb). assert (Em : rb_mem rb' = rb_mem rb) by done. clearbody rb'.
  destruct (REMOVE_LLC_AND_CONVERT_TO_802_3 rb') as [[hdr rb2]|] eqn:Er; [|done]. cbn [mbind option_bind]. rewrite Hx. cbn [negb].
  assert (E2 : rb_mem rb2 = rb_mem rb).
  { unfold REMOVE_LLC_AND_CONVERT_TO_802_3 in Er. destruct (if _ || _ then _ else _) as [a b]. peel Er. by simplify_eq/=. }
  unfold duplicate_pkt. rewrite E2. destruct (rd _ _ LENGTH_802_3); [|done]. cbn [mbind option_bind].
  unfold rd. rewrite (wrap_mod 16 (n - _)) by lia. unfold LENGTH_802_3.
  replace ((n - 14) `mod` 2 ^ 16) with (n - 14 + 65536) by (apply (Z.mod_unique _ _ (-1)); lia).
  match goal with |- context [(?p + (n - 14 + 65536) <=? ?L)] => destruct (Z.leb_spec 0 p); [rewrite (proj2 (Z.leb_gt (p + (n - 14 + 65536)) L)) by lia|]; cbn [andb] end;
    by rewrite ?andb_false_r.
Qed.

Lemma aralink_size_wraps_witness :
  CmmRxRalinkFrameIndicate demo_renv (set_data 52 28 (demo_data 1 8 0x42 [2; 0; 0; 0; 0; 9] [2; 0; 0; 0; 0; 1] ([10; 0] ++ replicate 26 7) false)) (demo_rstate 2) = None.
Proof. apply (aralink_size_wraps demo_renv _ (demo_rstate 2) 10); done. Defined.

(** A sender without a number in the peer table (the chip reports 255) is found
    by its address, but after the reassembly of a frame the entry is taken again
    at the number of the chip, behind the end of the table. *)
Theorem unknown_wcid_outside cfg E h rb s rb' f (Hf : hdr_Frag h ≠ 0)
    (Hd : RTMPDeFragmentDataFrame (RXWISize cfg) (xe_frag E) rb (xs_frag s) = Some (true, rb', f)) (Hc : ri_Decrypted (rb_info rb') = true)
    (Hw : (length (Entries (xs_mac s)) ≤ rb_wcid rb')%nat) :
  rx_unicast cfg E h rb s = None.
Proof.
  unfold rx_unicast. rewrite (proj2 (Z.eqb_neq _ _) Hf), Hd. cbn [mbind option_bind negb andb]. rewrite Hc.
  by rewrite (lookup_ge_None_2 (Entries (xs_mac (release rb (set_frag f s)))) _ Hw).
Qed.

(** Fragment 1 of frame 9, of which fragment 0 was received. *)
Definition demo_last : RX_BLK :=
  mk_rxblk (mk_skb 2 (zeros 28 ++ [8; 2] ++ zeros 20 ++ [0x91; 0] ++ replicate 40 7) 0 0) 0 28 52 40 0 0 0 255 0 0 (0, 0, 0) (0, 0, 0) 0 0 0 false 0
    (mk_rxinfo_struc false false true false false true false true).

Lemma unknown_wcid_outside_witness :
  rx_unicast demo_rcfg (mk_rxenv demo_amenv (Some (demo_buffer 101)) true 7 SoftCrypto.demo_env) ([8; 2] ++ zeros 20 ++ [0x91; 0]) demo_last
    (set_frag (mk_frag (demo_buffer 100) 100 9 0 0) (demo_rstate 2)) = None.
Proof.
  eapply unknown_wcid_outside; [done|by vm_compute|done|apply Nat.leb_le; by vm_compute].
Defined.

(** A frame shorter than its header is not refused: the size of its data wraps
    around. *)
Theorem short_frame_wraps cfg h rb s (Hh : is_qos h = false) (Ho : fc_Order h = false) (Hs : 0 ≤ rb_DataSize rb < 24) :
  ∃ rb' s', rx_skip cfg h rb s = Some (rb', s') ∧ rb_DataSize rb' = 65536 + rb_DataSize rb - 24.
Proof.
  unfold rx_skip. fold (is_qos h). rewrite Hh, Ho. cbn [mbind option_bind]. unfold LENGTH_802_11.
  assert (Ew : u16 (rb_DataSize rb - 24) = 65536 + rb_DataSize rb - 24) by (rewrite wrap_mod by lia; symmetry; apply (Z.mod_unique _ _ (-1)); lia).
  do 2 eexists. split; [done|]. destruct (ri_L2PAD _), (ri_BA _); frame_simp; by rewrite ?wrap_wrap, Ew by lia.
Qed.

Lemma short_frame_wraps_witness :
  ∃ rb' s', rx_skip demo_rcfg (demo_head 8 0x42 (zeros 6) (zeros 6)) (set_data 28 20 (demo_data 1 8 0x42 (zeros 6) (zeros 6) [] false)) (demo_rstate 2) =
    Some (rb', s') ∧ rb_DataSize rb' = 65532.
Proof. apply (short_frame_wraps demo_rcfg); done. Defined.
