(* ===== verification/RxRing.v ===== *)
(** Unpacking of the USB buffers: src/common/cmm_data_usb.c
    (GetPacketFromRxRing) for the chips with the RLT interface, with the data
    of src/include/mac_ral/mac_usb.h (RX_CONTEXT) and the descriptors of
    src/include/mac_ral/nmac/ral_nmac.h (RXWI_NMAC, RXFCE_INFO) and
    src/include/mac_ral/rtmp_mac.h (RXINFO_STRUC).

    A bulk-in buffer holds frames one after the other: a length, the
    reception flags (RXINFO), the reception data (RXWI), the frame, padding and
    the flags of the engine (FCE).  Each frame is copied to a packet of its own.
    A bit field of a descriptor is a slice of its little-endian word. *)

From S2P Require Import Prelude Mlme RxPacket RxAmsdu RxFrag RxData.

(** * Constants *)

Definition RXDMA_FIELD_SIZE : Z := 4.
Definition RXINFO_SIZE : Z := 4.
Definition sizeof_RXFCE_INFO : Z := 4.
Definition RX_RING_SIZE : nat := 8.

(** * Data *)

Record RX_CONTEXT := mk_ctx {
  TransferBuffer : list Z;
  BulkInOffset : Z;
  bRxHandling : bool;
  InUse : bool;
  Readable : bool;
  IRPPending : bool
}.

(** The part of the adapter that receives. *)
Record rx_ring := mk_ring {
  RxContext : list RX_CONTEXT;
  PendingRx : Z;
  NextRxBulkInIndex : nat;
  NextRxBulkInReadIndex : nat;
  ReadPosition : Z
}.

Definition set_ReadPosition (p : Z) (r : rx_ring) : rx_ring :=
  mk_ring (RxContext r) (PendingRx r) (NextRxBulkInIndex r) (NextRxBulkInReadIndex r) p.

(** What [rxblk] keeps of the descriptors besides the fields of [RX_BLK]. *)
Record hw_rx := mk_hw { hw_info : Z; hw_fce : Z }.

(** [n] bits of the word [w] from bit [o] on. *)
Definition bits_at (w o n : Z) : Z := Z.land (Z.shiftr w o) (Z.ones n).
Definition bit_at (w o : Z) : bool := Z.testbit w o.
(** [CHAR] of a byte *)
Definition CHAR (x : Z) : Z := if u8 x <? 128 then u8 x else u8 x - 256.

(** [RXINFO_STRUC] *)
Definition rxinfo_of (w : Z) : RXINFO_STRUC :=
  mk_rxinfo_struc (bit_at w 0) (bit_at w 15) (bit_at w 4) (bit_at w 5) (bit_at w 6) (bit_at w 7) (bit_at w 14) (bit_at w 16).
Definition ri_Crc (w : Z) : bool := bit_at w 8.
Definition ri_CipherErr (w : Z) : Z := bits_at w 9 2.
(** [RXFCE_INFO] *)
Definition fce_pkt_80211 (w : Z) : bool := bit_at w 19.
Definition fce_info_type (w : Z) : Z := bits_at w 30 2.

(** [rx_rate]: two bits of the word are not written and keep what was there. *)
Definition rx_rate (w1 junk : Z) : Z :=
  Z.lor (Z.lor (Z.lor (bits_at w1 16 6) (Z.shiftl (bits_at w1 22 1) 6)) (Z.lor (Z.shiftl (bits_at w1 23 2) 7) (Z.shiftl (bits_at w1 25 1) 9)))
    (Z.lor (Z.lor (Z.shiftl (bits_at w1 26 1) 10) (Z.shiftl (bits_at junk 11 2) 11)) (Z.shiftl (bits_at w1 29 3) 13)).

(** The fields of [RX_BLK] taken from the reception data [wi]; the pointers are
    into the packet. *)
Definition blk_of (RXWISize : Z) (wi : list Z) (info junk : Z) (p : sk_buff) : RX_BLK :=
  let w0 := le_word (take 4 wi) in
  let w1 := le_word (take 4 (drop 4 wi)) in
  mk_rxblk p (skb_data p) (skb_data p + RXWISize) (skb_data p) (bits_at w0 16 14) 0 0 0
    (Z.to_nat (bits_at w0 0 8)) (Z.to_nat (bits_at w0 8 2)) (Z.to_nat (bits_at w1 0 4))
    (CHAR (aget wi 8), CHAR (aget wi 9), CHAR (aget wi 10)) (CHAR (aget wi 12), CHAR (aget wi 13), CHAR (aget wi 14))
    (CHAR (aget wi 16)) (bits_at w1 29 3) (bits_at w1 16 6) (bit_at w1 25) (rx_rate w1 junk) (rxinfo_of info).

(** NULL is the inner [None].  [al] gives the packet that the kernel hands out
    for a length, [junk] is what [rxblk.rx_rate] holds before. *)
Definition GetPacketFromRxRing (RXWISize : Z) (al : Z → option sk_buff) (junk : Z) (r : rx_ring)
    : option (option (RX_BLK * hw_rx) * rx_ring) :=
  c ← RxContext r !! NextRxBulkInReadIndex r;
  if negb (Readable c) || InUse c then Some (None, r)
  else
    let RxBufferLength := u64 (BulkInOffset c - ReadPosition r) in
    let valid_len := RXDMA_FIELD_SIZE + RXWISize + RXINFO_SIZE + sizeof_RXFCE_INFO in
    if RxBufferLength <? valid_len then Some (None, r)
    else
      let pData := ReadPosition r in
      l ← rd (TransferBuffer c) pData 2;
      let ThisFrameLen := aget l 0 + Z.shiftl (aget l 1) 8 in
      if ThisFrameLen =? 0 then Some (None, r)
      else if negb (Z.land ThisFrameLen 3 =? 0) then Some (None, r)
      else if RxBufferLength <? ThisFrameLen + 8 then Some (None, r)
      else
        let pData := pData + RXDMA_FIELD_SIZE in
        info ← rd (TransferBuffer c) pData RXINFO_SIZE;
        fce ← rd (TransferBuffer c) (pData + ThisFrameLen) sizeof_RXFCE_INFO;
        let pData := pData + RXINFO_SIZE in
        wi ← rd (TransferBuffer c) pData 28;
        if ThisFrameLen <? bits_at (le_word (take 4 wi)) 16 14 then Some (None, r)
        else
          match RTMP_AllocateFragPacketBuffer (al ThisFrameLen) with
          | None => Some (None, r)
          | Some pNetPkt =>
              d ← rd (TransferBuffer c) pData ThisFrameLen;
              m ← wr (skb_mem pNetPkt) (skb_data pNetPkt + skb_len pNetPkt) d;
              let p := mk_skb (skb_id pNetPkt) m (skb_data pNetPkt) (skb_len pNetPkt + ThisFrameLen) in
              Some (Some (blk_of RXWISize wi (le_word info) junk p, mk_hw (le_word info) (le_word fce)),
                    set_ReadPosition (ReadPosition r + (ThisFrameLen + RXDMA_FIELD_SIZE + RXINFO_SIZE)) r)
          end.
