(* ===== verification/RxDone.v ===== *)
(** The dispatch of received frames: src/common/cmm_data.c
    (rtmp_rx_done_handle, dev_rx_mgmt_frm, dev_rx_ctrl_frm), src/sta/sta.c
    (RTMPCheckRxError) and src/os/linux/cfg80211/cfg80211_rx.c
    (CFG80211_HandleP2pMgmtFrame, CFG80211_CheckActionFrameType) and
    src/common/frq_cal.c (GetFrequencyOffset), on top of the
    unpacking of RxRing and the data path of RxData.

    The beamforming reports, the HT control field and the frequency offset of
    beacons, which the chip part of the driver takes, are events; the signal averages of the test mode are left
    out.  The memory of a packet is what the kernel allocated for it, with the
    bytes behind the data. *)

From S2P Require Import Prelude BaReorder BaSession CipherKey Mlme MacTable StaAuth MicCounter Eapol BssEntry.
From S2P Require Import BeaconSanity RxPacket RxFrag RxData RxRing.

(** * Constants *)

Definition MAX_AGGREGATION_SIZE : Z := 3840.
Definition fRTMP_ADAPTER_RESET_IN_PROGRESS : Z := 0x80.
Definition fRTMP_ADAPTER_REMOVE_IN_PROGRESS : Z := 0x400.
Definition fRTMP_ADAPTER_RADIO_OFF : Z := 0x20000.
Definition fRTMP_ADAPTER_START_UP : Z := 0x10000000.
Definition fRTMP_ADAPTER_POLL_IDLE : Z := 0x80000000.
Definition FC_TYPE_MGMT : Z := 0.
Definition FC_TYPE_CNTL : Z := 1.
Definition SUBTYPE_PROBE_REQ : Z := 4.
Definition SUBTYPE_BLOCK_ACK_REQ : Z := 8.
Definition SUBTYPE_ACTION : Z := 13.
Definition SUBTYPE_ACTION_NO_ACK : Z := 14.
Definition CATEGORY_PUBLIC : Z := 4.
Definition CATEGORY_HT : Z := 7.
Definition CATEGORY_VENDOR_SPECIFIC_WFD : Z := 0x7F.
Definition ACTION_WIFI_DIRECT : Z := 9.
Definition ACTION_GAS_INITIAL_REQ : Z := 10.
Definition ACTION_GAS_COMEBACK_RSP : Z := 13.
Definition MIMO_N_BEACONFORM : Z := 5.
Definition MIMO_BEACONFORM : Z := 6.
Definition IW_ICV_ERROR_EVENT_FLAG : Z := 0x0208.
Definition IW_MIC_ERROR_EVENT_FLAG : Z := 0x0209.
Definition CFG_P2POUIBYTE : list Z := [0x50; 0x6f; 0x9a; 0x9].

(** * Data *)

Record rx_counters := mk_cnt {
  ReceivedByteCount : Z; OneSecReceivedByteCount : Z; RxCount : Z; OneSecRxCount : Z;
  ReceivedFragmentCount : Z; RxErrors : Z; RPIDensity : list Z; ate_RxCntPerSec : Z
}.

(** What the dispatch reads besides: the configuration of the data path, the
    registration of the supplicant for probe requests, the antenna evaluation,
    beamforming, the frequency calibration and the signal offset. *)
Record done_cfg := mk_dcfg {
  dc_rx : rx_cfg;
  Cfg80211RegisterProbeReqFrame : bool;
  EvaluatePeriod : Z;
  FlgHwTxBfCap : bool;
  bEnableFrequencyCalibration : bool;
  BbpRssiToDbmDelta : Z
}.

(** What the kernel answers for the frame with this number in the buffer. *)
Record done_env := mk_denv {
  de_alloc : nat → Z → option sk_buff;
  de_junk : nat → Z;
  de_rx : nat → rx_env;
  de_ba : nat → allocs
}.

Record done_state := mk_done { ds_rx : rx_state; ds_cnt : rx_counters }.

Definition count_received (n : Z) (c : rx_counters) : rx_counters :=
  mk_cnt (u64 (ReceivedByteCount c + n)) (u32 (OneSecReceivedByteCount c + n)) (u64 (RxCount c + 1)) (u64 (OneSecRxCount c + 1))
    (ReceivedFragmentCount c) (RxErrors c) (RPIDensity c) (ate_RxCntPerSec c).
Definition count_fragment (c : rx_counters) : rx_counters :=
  mk_cnt (ReceivedByteCount c) (OneSecReceivedByteCount c) (RxCount c) (OneSecRxCount c)
    (u64 (ReceivedFragmentCount c + 1)) (RxErrors c) (RPIDensity c) (ate_RxCntPerSec c).
Definition count_rx_error (c : rx_counters) : rx_counters :=
  mk_cnt (ReceivedByteCount c) (OneSecReceivedByteCount c) (RxCount c) (OneSecRxCount c)
    (ReceivedFragmentCount c) (u64 (RxErrors c + 1)) (RPIDensity c) (ate_RxCntPerSec c).
Definition count_ate (c : rx_counters) : rx_counters :=
  mk_cnt (ReceivedByteCount c) (OneSecReceivedByteCount c) (RxCount c) (OneSecRxCount c)
    (ReceivedFragmentCount c) (RxErrors c) (RPIDensity c) (u32 (ate_RxCntPerSec c + 1)).
Definition count_density (i : nat) (c : rx_counters) : rx_counters :=
  mk_cnt (ReceivedByteCount c) (OneSecReceivedByteCount c) (RxCount c) (OneSecRxCount c)
    (ReceivedFragmentCount c) (RxErrors c) (alter (λ x, u16 (x + 1)) i (RPIDensity c)) (ate_RxCntPerSec c).

(** * Errors *)

(** The class of the noise histogram. *)
Definition density_index (dBm : Z) : nat :=
  if dBm <=? -87 then 0 else if dBm <=? -82 then 1 else if dBm <=? -77 then 2 else if dBm <=? -72 then 3
  else if dBm <=? -67 then 4 else if dBm <=? -62 then 5 else if dBm <=? -57 then 6 else 7.

Section Done.
Context (cfg : done_cfg).

Definition wireless (flag : Z) (s : rx_state) : option rx_state :=
  e ← Entries (xs_mac s) !! BSSID_WCID;
  Some (set_pAd (upd_sta (emit [Ev_SendWirelessEvent flag (Some (Addr e))]) (xs_pAd s)) s).

(** TRUE for NDIS_STATUS_SUCCESS; the header is not NULL here. *)
Definition RTMPCheckRxError (E : rx_env) (h : list Z) (rb : RX_BLK) (hw : hw_rx) (s : done_state) : option (bool * done_state) :=
  if ri_Crc (hw_info hw) then
    let '(rssi0, _, _) := rb_rssi rb in
    Some (false, mk_done (ds_rx s) (count_density (density_index (rssi0 - BbpRssiToDbmDelta cfg)) (ds_cnt s)))
  else if fc_ToDs h then Some (false, s)
  else if MAX_AGGREGATION_SIZE <? rb_DataSize rb then Some (false, s)
  else
    let CipherErr := ri_CipherErr (hw_info hw) in
    if ri_Decrypted (rb_info rb) && negb (CipherErr =? 0) then
      r ← (if INFRA_ON (dc_rx cfg) && ri_MyBss (rb_info rb) then
             r ← (if Z.odd CipherErr then wireless IW_ICV_ERROR_EVENT_FLAG (ds_rx s) else Some (ds_rx s));
             if CipherErr =? 2 then r ← report_mic (dc_rx cfg) E h (rb_key_idx rb) r; wireless IW_MIC_ERROR_EVENT_FLAG r
             else Some r
           else Some (ds_rx s));
      Some (false, mk_done r (ds_cnt s))
    else Some (true, s).

(** * Management frames *)

(** Reached for action frames only. *)
Definition CFG80211_CheckActionFrameType (rb : RX_BLK) : option bool :=
  a ← rd (rb_mem rb) (rb_pHeader rb + 24) 2;
  let Category := aget a 0 in
  let Action := aget a 1 in
  if (Category =? CATEGORY_PUBLIC) && (Action =? ACTION_WIFI_DIRECT) then Some true
  else if (Category =? CATEGORY_PUBLIC) && (ACTION_GAS_INITIAL_REQ <=? Action) && (Action <=? ACTION_GAS_COMEBACK_RSP) then Some true
  else if Category =? CATEGORY_VENDOR_SPECIFIC_WFD then mem_eq CFG_P2POUIBYTE (rb_mem rb) (rb_pHeader rb + 39)
  else Some false.

(** FALSE for a station: the frame goes on. *)
Definition CFG80211_HandleP2pMgmtFrame (E : rx_env) (h : list Z) (rb : RX_BLK) (s : rx_state) : option rx_state :=
  t ← (if fc_SubType h =? SUBTYPE_PROBE_REQ then Some (Cfg80211RegisterProbeReqFrame cfg)
       else if fc_SubType h =? SUBTYPE_ACTION then CFG80211_CheckActionFrameType rb else Some false);
  if (t : bool) then
    frame ← rd (rb_mem rb) (rb_pHeader rb) (rb_DataSize rb);
    Some (log [Ev_RxMgmt (am_Channel (xe_split E)) frame] s)
  else Some s.

Definition count_beacon (rb : RX_BLK) (t : rx_stats) : rx_stats :=
  let '(snr0, snr1, _) := rb_snr rb in
  mk_rxstats (RxCountSinceLastNULL t) (MulticastReceivedFrameCount t) (LastRxRate t) (u8 snr0) (u8 snr1)
    (OneSecRxOkDataCnt t) (CountDowntoPsm t) (OneSecRxAggregationCount t) (bLastAtheros t).

(** Lines 3183-3202: what beamforming takes from the frame. *)
Definition mgmt_txbf (h : list Z) (rb : RX_BLK) (s : rx_state) : option rx_state :=
  if FlgHwTxBfCap cfg then
    let s := if fc_Order h then log [Ev_HtcField] s else s in
    let pData := rb_pHeader rb + 24 + (if fc_Order h then 4 else 0) in
    if (fc_SubType h =? SUBTYPE_ACTION) || (fc_SubType h =? SUBTYPE_ACTION_NO_ACK) then
      a ← rd (rb_mem rb) pData 2;
      Some (if (aget a 0 =? CATEGORY_HT) && ((aget a 1 =? MIMO_N_BEACONFORM) || (aget a 1 =? MIMO_BEACONFORM)) then log [Ev_BfFb] s else s)
    else Some s
  else Some s.

Definition dev_rx_mgmt_frm (E : rx_env) (h : list Z) (rb : RX_BLK) (s : rx_state) : option rx_state :=
  s ← CFG80211_HandleP2pMgmtFrame E h rb s;
  let s := if Psm_PWR_SAVE (dc_rx cfg) && fc_MoreData h && negb (bAPSDAC_VO (dc_rx cfg)) then log [Ev_PsPoll] s else s in
  let s := if (fc_SubType h =? SUBTYPE_BEACON) && bool_decide (hdr_Addr2 h = take 6 (Common_Bssid (dc_rx cfg))) && (EvaluatePeriod cfg =? 0)
           then upd_stats (count_beacon rb) (log [Ev_Rssi None] s) else s in
  let s := if (fc_SubType h =? SUBTYPE_BEACON) && ADHOC_ON (dc_rx cfg) && Nat.ltb (rb_wcid rb) MAX_LEN_OF_MAC_TABLE
           then log [Ev_Rssi (Some (rb_wcid rb))] s else s in
  if MAX_RX_PKT_LEN <? rb_DataSize rb then Some (release rb s)
  else
    frame ← rd (rb_mem rb) (rb_pHeader rb) (rb_DataSize rb);
    let '(snr0, snr1, _) := rb_snr rb in
    pAd ← REPORT_MGMT_FRAME_TO_MLME (am_Channel (xe_split E)) (Z.of_nat (rb_wcid rb)) frame (rb_DataSize rb) (rb_rssi rb)
            (Z.min snr0 snr1) OPMODE_STA (xs_pAd s);
    s ← mgmt_txbf h rb (set_pAd pAd s);
    Some (release rb s).

(** * Control frames *)

Definition dev_rx_ctrl_frm (al : allocs) (h : list Z) (rb : RX_BLK) (s : rx_state) : option rx_state :=
  s ← (if fc_SubType h =? SUBTYPE_BLOCK_ACK_REQ then
         bar ← rd (rb_mem rb) (rb_pHeader rb) 20;
         ba ← dev_rx_ctrl_frm_BAR (cfg_ba (dc_rx cfg)) al (xs_ba s) (rb_wcid rb) (rb_DataSize rb) bar;
         Some (set_ba ba s)
       else Some s);
  Some (release rb s).

(** * The dispatch *)

(** The chip has its frequency offset where the second signal level is
    (RXWI_FRQ_OFFSET_FIELD0). *)
Definition GetFrequencyOffset (rb : RX_BLK) : Z := let '(_, snr1, _) := rb_snr rb in snr1.

(** Lines 3533-3555: the offset of the beacons of the access point. *)
Definition record_offset (h : list Z) (rb : RX_BLK) (hw : hw_rx) (s : rx_state) : rx_state :=
  if bEnableFrequencyCalibration cfg && INFRA_ON (dc_rx cfg) && negb (ri_Crc (hw_info hw)) && (fc_Type h =? FC_TYPE_MGMT)
     && (fc_SubType h =? SUBTYPE_BEACON) && bool_decide (hdr_Addr2 h = take 6 (Common_Bssid (dc_rx cfg)))
  then log [Ev_FreqOffset (GetFrequencyOffset rb) (rb_MODE rb)] s else s.

(** Lines 3363-3633, one turn of the loop. *)
Definition rx_one (E : rx_env) (al : allocs) (rb : RX_BLK) (hw : hw_rx) (s : done_state) : option done_state :=
  let free (s : done_state) := mk_done (release rb (ds_rx s)) (ds_cnt s) in
  if negb (fce_info_type (hw_fce hw) =? 0) || negb (fce_pkt_80211 (hw_fce hw)) then Some (free s)
  else
    let rb := set_place (rb_pkt rb) (skb_data (rb_pkt rb)) (rb_pHeader rb) (rb_pHeader rb) (rb_DataSize rb) rb in
    let s := mk_done (ds_rx s) (count_received (rb_DataSize rb) (ds_cnt s)) in
    if ate_on (xs_pAd (ds_rx s)) then
      Some (free (mk_done (ds_rx s) (count_ate (count_fragment (ds_cnt s)))))
    else
      let s := mk_done (ds_rx s) (count_fragment (ds_cnt s)) in
      h ← header rb;
      '(ok, s) ← RTMPCheckRxError E h rb hw s;
      if negb (ok : bool) then Some (free (mk_done (ds_rx s) (count_rx_error (ds_cnt s))))
      else
        let s := mk_done (record_offset h rb hw (ds_rx s)) (ds_cnt s) in
        r ← (if fc_Type h =? FC_TYPE_DATA then STAHandleRxDataFrame (dc_rx cfg) E rb (ds_rx s)
             else if fc_Type h =? FC_TYPE_MGMT then dev_rx_mgmt_frm E h rb (ds_rx s)
             else if fc_Type h =? FC_TYPE_CNTL then dev_rx_ctrl_frm al h rb (ds_rx s)
             else Some (release rb (ds_rx s)));
        Some (mk_done r (ds_cnt s)).

(** The driver does not receive now. *)
Definition rx_stopped (Flags : Z) : bool :=
  (RTMP_TEST_FLAG Flags (Z.lor (Z.lor fRTMP_ADAPTER_RADIO_OFF fRTMP_ADAPTER_RESET_IN_PROGRESS)
                               (Z.lor fRTMP_ADAPTER_HALT_IN_PROGRESS fRTMP_ADAPTER_NIC_NOT_EXIST))
   || negb (RTMP_TEST_FLAG Flags fRTMP_ADAPTER_START_UP))
  && negb (RTMP_TEST_FLAG Flags fRTMP_ADAPTER_POLL_IDLE).

(** Every frame takes at least 12 bytes of the buffer. *)
Fixpoint rx_done_loop (EV : done_env) (fuel k : nat) (r : rx_ring) (s : done_state) : option (rx_ring * done_state) :=
  match fuel with
  | O => None
  | S fuel =>
      if rx_stopped (Flags (xs_pAd (ds_rx s))) then Some (r, s)
      else
        '(o, r) ← GetPacketFromRxRing (RXWISize (dc_rx cfg)) (de_alloc EV k) (de_junk EV k) r;
        match o with
        | None => Some (r, s)
        | Some (rb, hw) => s ← rx_one (de_rx EV k) (de_ba EV k) rb hw s; rx_done_loop EV fuel (S k) r s
        end
  end.

Definition rtmp_rx_done_handle (EV : done_env) (r : rx_ring) (s : done_state) : option (rx_ring * done_state) :=
  c ← RxContext r !! NextRxBulkInReadIndex r;
  rx_done_loop EV (S (Z.to_nat (BulkInOffset c))) 0 r s.
End Done.
