(* ===== verification/RxDoneProofs.v ===== *)
(** The dispatch of received frames: every turn of the loop returns, disposes of
    its packet exactly once and keeps the invariants of the data path. *)

From S2P Require Import Prelude BaReorder BaSession BaSessionTable BaSessionProofs CipherKey Mlme MlmeProofs MlmeClaims MacTable StaAuth MicCounter Eapol BssEntry.
From S2P Require Import RxPacket RxAmsdu RxFrag RxData RxDataProofs RxDataClaims RxRing RxDone.

(** * Reports to the engine *)

Lemma enqueue_queue_only {W} M T n Msg (a : RTMP_ADAPTER W) : queue_wf (Queue (Mlme a)) None → n ≤ 1600 →
  ∃ b, enqueue M T n Msg a = Some b ∧ queue_only a b ∧ queue_wf (Queue (Mlme b)) None.
Proof.
  intros Hw Hm. unfold enqueue, MlmeEnqueue.
  destruct (RTMP_TEST_FLAG _ _); cbn [mbind option_bind]; [eexists; split; [done|]; split; [by repeat split|done]|].
  change (Z.of_nat MLME_BUFFER_SIZE) with 1600. rewrite (proj2 (Z.ltb_ge 1600 n)) by lia.
  rewrite (full_driver _ None Hw). cbn [mbind option_bind].
  destruct (Z.leb_spec 40 (Num (Queue (Mlme a)))) as [?|Hn]; cbn [mbind option_bind]; [eexists; split; [done|]; split; [by repeat split|done]|].
  destruct (tail_elem _ None Hw) as (x & Hx & Hl & _). unfold take_slot. cbn [Entry]. rewrite Hx. cbn [mbind option_bind].
  set (e := mk_qelem _ _ _ _ _ _ _ _ _ _ _ _).
  destruct (put_elem_wf (Queue (Mlme a)) None e) as [Hw' _]; try done; [by apply length_store_msg|].
  eexists. split; [done|]. split; [by repeat split|exact Hw'].
Qed.

(** Changes of the keys' surroundings only: reports, events, the MIC state. *)
Lemma upd_sta_wf f s : (∀ t, sw_SharedKey (f t) = sw_SharedKey t) → rx_wf s → rx_wf (set_pAd (upd_sta f (xs_pAd s)) s).
Proof. intros Hf []. split; try done; simpl; by rewrite Hf. Qed.

Lemma mic_error_wf hz Now addr ty s : rx_wf s →
  ∃ a, RTMPReportMicError hz Now addr ty (xs_pAd s) = Some a ∧ rx_wf (set_pAd a s) ∧ same_mode (xs_pAd s) a.
Proof.
  intros Hw. unfold RTMPReportMicError. set (a1 := if MicErrCnt _ =? 0 then _ else _).
  assert (H1 : Mlme a1 = Mlme (xs_pAd s) ∧ same_mode (xs_pAd s) a1 ∧ sw_SharedKey (rest a1) = sw_SharedKey (rest (xs_pAd s))).
  { unfold a1. repeat case_match; by repeat split. }
  clearbody a1. destruct H1 as (Em & Hm & Ek).
  destruct (enqueue_queue_only MLME_CNTL_STATE_MACHINE OID_802_11_MIC_FAILURE_REPORT_FRAME 1 (Some [if ty =? PAIRWISE_KEY then 1 else 0]) a1) as (b & -> & (Rb & Hb) & Qb);
    [rewrite Em; apply Hw|lia|].
  assert (Hmb : same_mode (xs_pAd s) b) by (destruct Hm, Hb; split; congruence).
  cbn [mbind option_bind]. eexists. split; [reflexivity|].
  destruct Hw. destruct (_ =? 2); (split; [|by apply Hmb]); split; try done; simpl; rewrite Rb, Ek; done.
Qed.

Section Turn.
Context (cfg : done_cfg) (E : rx_env) (HE : rx_ok (dc_rx cfg) E).

Lemma entry_0 s : rx_wf s → ∃ e, Entries (xs_mac s) !! BSSID_WCID = Some e.
Proof. intros Hw. apply lookup_lt_is_Some_2. rewrite (wf_entries _ Hw). by vm_compute; lia. Qed.

Lemma wireless_wf flag s : rx_wf s → ∃ s', wireless flag s = Some s' ∧ rx_wf s' ∧ disposes [] s s'.
Proof.
  intros Hw. unfold wireless. destruct (entry_0 s Hw) as [e ->]. cbn [mbind option_bind]. eexists. split; [done|].
  split; [by apply upd_sta_wf|by apply disposes_refl].
Qed.

Lemma report_mic_wf h idx s : rx_wf s → (idx < 4)%nat → ∃ s', report_mic (dc_rx cfg) E h idx s = Some s' ∧ rx_wf s' ∧ disposes [] s s'.
Proof.
  intros Hw Hi. unfold report_mic. destruct (lookup_lt_is_Some_2 (sw_SharedKey (rest (xs_pAd s))) idx) as [k ->]; [by rewrite (wf_keys _ Hw)|].
  cbn [mbind option_bind]. destruct (WpaSupplicantUP _).
  { eexists. split; [done|]. split; [destruct Hw; by split|by apply (disposes_log s s [Ev_MicFailure _ _ _])]. }
  destruct (entry_0 s Hw) as [e ->]. cbn [mbind option_bind].
  destruct (mic_error_wf (HZ_ (cfg_ba (dc_rx cfg))) (xe_Now E) (Addr e) (KeyType k) s Hw) as (a & -> & Hw' & Hm).
  cbn [mbind option_bind]. eexists. split; [done|]. split; [done|by apply disposes_refl].
Qed.

(** The frame lies in the packet; behind it is more that the kernel allocated. *)
Record in_packet (rb : RX_BLK) : Prop := {
  ip_header : 0 ≤ rb_pHeader rb;
  ip_size : 0 ≤ rb_DataSize rb < 65536;
  ip_end : rb_pHeader rb + rb_DataSize rb + 48 ≤ Z.of_nat (length (rb_mem rb));
  ip_key : (rb_key_idx rb < 4)%nat
}.

Lemma in_packet_header rb : in_packet rb → ∃ h, header rb = Some h.
Proof.
  intros []. unfold header, LENGTH_802_11, rb_mem in *. destruct (rd_inside (skb_mem (rb_pkt rb)) (rb_pHeader rb) 24) as (h & -> & _); [lia..|]. by eexists.
Qed.

Lemma check_error_wf h rb hw s : rx_wf (ds_rx s) → (rb_key_idx rb < 4)%nat →
  ∃ ok s', RTMPCheckRxError cfg E h rb hw s = Some (ok, s') ∧ rx_wf (ds_rx s') ∧ disposes [] (ds_rx s) (ds_rx s').
Proof.
  intros Hw Hk. unfold RTMPCheckRxError. destruct (rb_rssi rb) as [[? ?] ?]. assert (D0 : disposes [] (ds_rx s) (ds_rx s)) by by apply disposes_refl.
  destruct (ri_Crc _); [by do 2 eexists|]. destruct (fc_ToDs h); [by eauto|]. destruct (_ <? _); [by eauto|].
  destruct (ri_Decrypted _ && _); [|by eauto].
  assert (Hr : ∀ r, r = ds_rx s → ∃ r', (if INFRA_ON (dc_rx cfg) && ri_MyBss (rb_info rb) then
      r ← (if Z.odd (ri_CipherErr (hw_info hw)) then wireless IW_ICV_ERROR_EVENT_FLAG r else Some r);
      if ri_CipherErr (hw_info hw) =? 2 then r ← report_mic (dc_rx cfg) E h (rb_key_idx rb) r; wireless IW_MIC_ERROR_EVENT_FLAG r else Some r
    else Some r) = Some r' ∧ rx_wf r' ∧ disposes [] r r').
  { intros r ->. destruct (_ && _); [|by eauto].
    assert (H1 : ∃ r1, (if Z.odd (ri_CipherErr (hw_info hw)) then wireless IW_ICV_ERROR_EVENT_FLAG (ds_rx s) else Some (ds_rx s)) = Some r1 ∧
      rx_wf r1 ∧ disposes [] (ds_rx s) r1) by (destruct (Z.odd _); [by apply wireless_wf|by eauto]).
    destruct H1 as (r1 & -> & Hw1 & D1). cbn [mbind option_bind]. destruct (_ =? 2); [|by eauto].
    destruct (report_mic_wf h (rb_key_idx rb) r1 Hw1 Hk) as (r2 & -> & Hw2 & D2). cbn [mbind option_bind].
    destruct (wireless_wf IW_MIC_ERROR_EVENT_FLAG r2 Hw2) as (r3 & -> & Hw3 & D3). exists r3. split; [done|]. split; [done|].
    eapply (disposes_trans [] []); [exact D1|]. by eapply (disposes_trans [] []). }
  destruct (Hr _ eq_refl) as (r & -> & Hwr & Dr). cbn [mbind option_bind]. by do 2 eexists.
Qed.
(** * Management frames *)

Lemma p2p_quiet h rb s : in_packet rb → ∃ s', CFG80211_HandleP2pMgmtFrame cfg E h rb s = Some s' ∧ quiet s s'.
Proof.
  intros []. unfold CFG80211_HandleP2pMgmtFrame.
  assert (Ht : ∃ t : bool, (if fc_SubType h =? SUBTYPE_PROBE_REQ then Some (Cfg80211RegisterProbeReqFrame cfg)
    else if fc_SubType h =? SUBTYPE_ACTION then CFG80211_CheckActionFrameType rb else Some false) = Some t).
  { repeat case_match; try by eexists. unfold CFG80211_CheckActionFrameType.
    destruct (rd_inside (rb_mem rb) (rb_pHeader rb + 24) 2) as (a & -> & _); [lia..|]. cbn [mbind option_bind].
    repeat case_match; try by eexists. apply mem_eq_inside; simpl; lia. }
  destruct Ht as [t ->]. cbn [mbind option_bind]. destruct t; [|eexists; split; [done|]; split; [done..|by apply disposes_refl]].
  destruct (rd_inside (rb_mem rb) (rb_pHeader rb) (rb_DataSize rb)) as (f & -> & _); [lia..|]. cbn [mbind option_bind].
  eexists. split; [done|by apply quiet_event].
Qed.

Lemma txbf_quiet h rb s : in_packet rb → ∃ s', mgmt_txbf cfg h rb s = Some s' ∧ quiet s s'.
Proof.
  intros []. unfold mgmt_txbf. assert (Q0 : ∀ s, quiet s s) by (intros; split; [done..|by apply disposes_refl]).
  destruct (FlgHwTxBfCap cfg); [|by eauto]. set (s1 := if fc_Order h then _ else _).
  assert (Q1 : quiet s s1) by (unfold s1; destruct (fc_Order h); [by apply quiet_event|done]). clearbody s1.
  destruct (_ || _); [|by eauto].
  destruct (rd_inside (rb_mem rb) (rb_pHeader rb + 24 + (if fc_Order h then 4 else 0)) 2) as (a & -> & _); [destruct (fc_Order h); lia..|].
  cbn [mbind option_bind]. eexists. split; [done|]. destruct (_ && _); [|done]. eapply quiet_trans; [exact Q1|by apply quiet_event].
Qed.

Lemma mgmt_handled h rb s : in_packet rb → rx_wf s → handled (rb_id rb) s (dev_rx_mgmt_frm cfg E h rb s).
Proof.
  intros Hp Hw. pose proof Hp as []. unfold dev_rx_mgmt_frm. destruct (p2p_quiet h rb s Hp) as (s1 & -> & Q1). cbn [mbind option_bind].
  set (s2 := if _ && _ && negb _ then _ else s1).
  assert (Q2 : quiet s1 s2) by (unfold s2; destruct (_ && _ && _); [by apply quiet_event|split; [done..|by apply disposes_refl]]). clearbody s2.
  set (s3 := if _ && _ && _ then _ else s2).
  assert (Q3 : quiet s2 s3).
  { unfold s3. destruct (_ && _ && _); [|split; [done..|by apply disposes_refl]]. eapply quiet_trans; [by apply (quiet_event (Ev_Rssi None))|apply quiet_stats]. }
  clearbody s3. set (s4 := if _ && _ && _ then _ else s3).
  assert (Q4 : quiet s3 s4) by (unfold s4; destruct (_ && _ && _); [by apply quiet_event|split; [done..|by apply disposes_refl]]).
  assert (Q : quiet s s4) by (eapply quiet_trans; [exact Q1|]; eapply quiet_trans; [exact Q2|]; by eapply quiet_trans).
  clearbody s4. pose proof (quiet_wf s s4 Q Hw) as Hw4. eapply handled_after; [apply Q|].
  destruct (_ <? _); [by apply handled_release|].
  destruct (rd_inside (rb_mem rb) (rb_pHeader rb) (rb_DataSize rb)) as (f & -> & Lf); [lia..|]. cbn [mbind option_bind].
  destruct (rb_snr rb) as [[snr0 snr1] ?].
  destruct (report_frame s4 (am_Channel (xe_split E)) (Z.of_nat (rb_wcid rb)) f (rb_DataSize rb) (rb_rssi rb) (Z.min snr0 snr1) OPMODE_STA Hw4)
    as (pAd & -> & Hw5 & Hm); [lia|lia|]. cbn [mbind option_bind].
  destruct (txbf_quiet h rb (set_pAd pAd s4) Hp) as (s6 & -> & Q6). cbn [mbind option_bind].
  eapply handled_after; [|by apply handled_release; [by eapply quiet_wf|..]]. eapply (disposes_trans [] []); [by apply (disposes_refl s4 (set_pAd pAd s4))|apply Q6].
Qed.

(** * Control frames *)

Lemma ctrl_handled al h rb s : in_packet rb → rx_wf s →
  (∀ bar, fc_SubType h = SUBTYPE_BLOCK_ACK_REQ → rd (rb_mem rb) (rb_pHeader rb) 20 = Some bar → (bar_TID bar < NUM_OF_TID)%nat) →
  handled (rb_id rb) s (dev_rx_ctrl_frm cfg al h rb s).
Proof.
  intros [] Hw Ht. unfold dev_rx_ctrl_frm. destruct (Z.eqb_spec (fc_SubType h) SUBTYPE_BLOCK_ACK_REQ) as [Es|_]; cbn [mbind option_bind]; [|by apply handled_release].
  destruct (rd_inside (rb_mem rb) (rb_pHeader rb) 20) as (bar & Eb & _); [lia..|]. rewrite Eb. cbn [mbind option_bind].
  destruct (bar_ok (cfg_ba (dc_rx cfg)) al (xs_ba s) (rb_wcid rb) (rb_DataSize rb) bar) as (ba & -> & [HI _]); [apply Hw|by apply Ht|].
  cbn [mbind option_bind]. apply handled_release; [|done..]. destruct Hw. by split.
Qed.

(** * One turn *)

Lemma offset_quiet h rb hw s : quiet s (record_offset cfg h rb hw s).
Proof. unfold record_offset. destruct (_ && _); [by apply quiet_event|split; [done..|by apply disposes_refl]]. Qed.

Definition done_proper (rb : RX_BLK) : Prop :=
  in_packet rb ∧ ∀ h, header rb = Some h →
    (fc_Type h = FC_TYPE_DATA → received (dc_rx cfg) rb h ∧ hdr_Frag h = 0 ∧ fc_MoreFrag h = false ∧ no_tiny_eapol (rb_mem rb) (data_at h rb)) ∧
    (fc_Type h = FC_TYPE_CNTL → fc_SubType h = SUBTYPE_BLOCK_ACK_REQ →
       ∀ bar, rd (rb_mem rb) (rb_pHeader rb) 20 = Some bar → (bar_TID bar < NUM_OF_TID)%nat).

(** The pointers of the frame as the dispatch sets them. *)
Definition at_header (rb : RX_BLK) : RX_BLK :=
  set_place (rb_pkt rb) (skb_data (rb_pkt rb)) (rb_pHeader rb) (rb_pHeader rb) (rb_DataSize rb) rb.

Lemma one_handled al rb hw s : ADHOC_ON (dc_rx cfg) = false → done_proper (at_header rb) → rx_wf (ds_rx s) →
  ∃ s', rx_one cfg E al rb hw s = Some s' ∧ rx_wf (ds_rx s') ∧ disposes [rb_id rb] (ds_rx s) (ds_rx s').
Proof.
  intros Ha [Hp Hh] Hw. unfold rx_one. fold (at_header rb).
  assert (Hfree : ∀ c r, rx_wf r → disposes [] (ds_rx s) r → ∃ s', Some (mk_done (release rb r) c) = Some s' ∧ rx_wf (ds_rx s') ∧ disposes [rb_id rb] (ds_rx s) (ds_rx s')).
  { intros c r Hr D. eexists. split; [done|]. split; [destruct Hr; by split|]. eapply (disposes_trans [] [rb_id rb]); [exact D|by apply disposes_one]. }
  assert (D0 : disposes [] (ds_rx s) (ds_rx s)) by by apply disposes_refl.
  destruct (_ || _); [by apply (Hfree (ds_cnt s))|]. cbn [ds_rx ds_cnt]. destruct (ate_on _); [by apply Hfree|].
  destruct (in_packet_header _ Hp) as (h & Eh). rewrite Eh. cbn [mbind option_bind]. destruct (Hh h Eh) as [Hd Hc].
  match goal with |- context [RTMPCheckRxError _ _ _ _ _ ?x] => destruct (check_error_wf h (at_header rb) hw x Hw (ip_key _ Hp)) as (ok & s1 & -> & Hw1 & D1) end.
  cbn [mbind option_bind ds_rx] in *. destruct ok; cbn [negb]; [|by apply Hfree].
  pose proof (offset_quiet h (at_header rb) hw (ds_rx s1)) as Qo. apply (quiet_wf _ _ Qo) in Hw1.
  pose proof (disposes_trans [] [] _ _ _ D1 (qu_log _ _ Qo)) as D2. clear D1 Qo. revert Hw1 D2.
  generalize (record_offset cfg h (at_header rb) hw (ds_rx s1)). intros r1 Hw1 D1. cbn [ds_rx ds_cnt].
  assert (HH : handled (rb_id rb) r1 (if fc_Type h =? FC_TYPE_DATA then STAHandleRxDataFrame (dc_rx cfg) E (at_header rb) r1
    else if fc_Type h =? FC_TYPE_MGMT then dev_rx_mgmt_frm cfg E h (at_header rb) r1
    else if fc_Type h =? FC_TYPE_CNTL then dev_rx_ctrl_frm cfg al h (at_header rb) r1 else Some (release (at_header rb) r1))).
  { change (rb_id rb) with (rb_id (at_header rb)).
    destruct (Z.eqb_spec (fc_Type h) FC_TYPE_DATA); [destruct Hd as (H1 & H2 & H3 & H4); [done|]; by apply (unfragmented_handled _ _ HE h)|].
    destruct (_ =? FC_TYPE_MGMT); [by apply mgmt_handled|].
    destruct (Z.eqb_spec (fc_Type h) FC_TYPE_CNTL); [apply ctrl_handled; [done..|]; intros bar Hs Hb; by apply (Hc ltac:(done) Hs)|by apply (handled_release (at_header rb))]. }
  destruct HH as (r & -> & Dr & Hwr). cbn [mbind option_bind]. eexists. split; [done|]. split; [done|]. by eapply (disposes_trans [] [rb_id rb]).
Qed.
End Turn.
