(* ===== verification/RxDoneClaims.v ===== *)
(** The USB buffers and the dispatch: claims.

    A buffer is the concatenation of the frames the chip received; unpacking
    gives these frames back, whatever else is in a buffer never leads out of it,
    and a buffer of proper frames is handled to its end. *)

From S2P Require Import Prelude BaReorder BaSession BaSessionTable BaSessionProofs BaSessionClaims CipherKey Mlme MlmeProofs MlmeClaims MacTable StaAuth StaAuthClaims MicCounter Eapol BssEntry.
From S2P Require Import RxPacket RxAmsdu RxFrag RxFragClaims RxData RxDataProofs RxDataClaims RxRing RxDone RxDoneProofs.

(** * Bit fields *)

(** A word of bit fields (width and value), the first one at bit 0. *)
Fixpoint pack (l : list (Z * Z)) : Z :=
  match l with
  | [] => 0
  | (w, v) :: l => v + 2 ^ w * pack l
  end.

Definition field_ok (f : Z * Z) : Prop := 0 ≤ f.1 ∧ 0 ≤ f.2 < 2 ^ f.1.
Definition widths (l : list (Z * Z)) : Z := foldr (λ f n, f.1 + n) 0 l.

Lemma widths_nonneg l : Forall field_ok l → 0 ≤ widths l.
Proof. induction 1 as [|[w v] l [H _] _ IH]; simpl in *; lia. Qed.

Lemma pack_range l : Forall field_ok l → 0 ≤ pack l < 2 ^ widths l.
Proof.
  induction 1 as [|[w v] l [H Hv] Hl IH]; [done|]. cbn [pack widths foldr fst snd] in *. fold (widths l).
  pose proof (widths_nonneg l Hl). rewrite Z.pow_add_r by lia. nia.
Qed.

Lemma pack_slice l1 w v l2 : Forall field_ok (l1 ++ (w, v) :: l2) → bits_at (pack (l1 ++ (w, v) :: l2)) (widths l1) w = v.
Proof.
  unfold bits_at. induction l1 as [|[a x] l1 IH]; intros Hl; apply Forall_cons in Hl as [[Hw Hv] Hl]; cbn [app pack widths foldr fst snd] in *.
  - rewrite Z.shiftr_0_r, Z.land_ones, Z.mul_comm, Z_mod_plus_full, Z.mod_small by lia. done.
  - fold (widths l1). transitivity (Z.land (Z.shiftr (pack (l1 ++ (w, v) :: l2)) (widths l1)) (Z.ones w)); [|by apply IH]. f_equal.
    pose proof (proj1 (proj1 (Forall_app _ _ _) Hl)) as Hl1. pose proof (widths_nonneg l1 Hl1).
    rewrite <- Z.shiftr_shiftr by lia. f_equal. rewrite Z.shiftr_div_pow2, Z.mul_comm, Z.div_add, Z.div_small by lia. lia.
Qed.

(** * A frame in a buffer *)

Record usb_frame := mk_uf {
  uf_hi : list Z; uf_info : Z; uf_fce : Z;
  uf_wcid : nat; uf_key : nat; uf_bss : Z; uf_udf : Z; uf_eof : Z;
  uf_tid : nat; uf_sn : Z; uf_mcs : Z; uf_ldpc : Z; uf_bw : Z; uf_sgi : Z; uf_stbc : Z; uf_ex : Z; uf_mode : Z;
  uf_rssi : list Z; uf_bbp : list Z;
  uf_mpdu : list Z; uf_pad : list Z
}.

Definition uf_word0 (f : usb_frame) : list (Z * Z) :=
  [(8, Z.of_nat (uf_wcid f)); (2, Z.of_nat (uf_key f)); (3, uf_bss f); (3, uf_udf f); (14, Z.of_nat (length (uf_mpdu f))); (2, uf_eof f)].
Definition uf_word1 (f : usb_frame) : list (Z * Z) :=
  [(4, Z.of_nat (uf_tid f)); (12, uf_sn f); (6, uf_mcs f); (1, uf_ldpc f); (2, uf_bw f); (1, uf_sgi f); (1, uf_stbc f); (2, uf_ex f); (3, uf_mode f)].
Definition uf_wi (f : usb_frame) : list Z :=
  le_bytes 4 (pack (uf_word0 f)) ++ le_bytes 4 (pack (uf_word1 f)) ++ uf_rssi f ++ uf_bbp f.
(** The length of the first field. *)
Definition uf_len (f : usb_frame) : Z := 32 + Z.of_nat (length (uf_mpdu f)) + Z.of_nat (length (uf_pad f)).
Definition usb_bytes (f : usb_frame) : list Z :=
  le_bytes 2 (uf_len f) ++ uf_hi f ++ le_bytes 4 (uf_info f) ++ uf_wi f ++ uf_mpdu f ++ uf_pad f ++ le_bytes 4 (uf_fce f).

Record uf_ok (f : usb_frame) : Prop := {
  uo_0 : Forall field_ok (uf_word0 f);
  uo_1 : Forall field_ok (uf_word1 f);
  uo_hi : length (uf_hi f) = 2%nat;
  uo_rssi : length (uf_rssi f) = 4%nat;
  uo_bbp : length (uf_bbp f) = 16%nat;
  uo_info : word32 (uf_info f);
  uo_fce : word32 (uf_fce f);
  uo_len : uf_len f < 65536;
  uo_four : Z.land (uf_len f) 3 = 0
}.

(** The packet with the frame, and what the dispatch sees of it. *)
Definition uf_packet (f : usb_frame) (p : sk_buff) : sk_buff :=
  mk_skb (skb_id p) (bwrite (skb_mem p) (Z.to_nat (skb_data p)) (uf_wi f ++ uf_mpdu f ++ uf_pad f ++ le_bytes 4 (uf_fce f))) (skb_data p) (uf_len f).
Definition uf_blk (f : usb_frame) (junk : Z) (p : sk_buff) : RX_BLK :=
  let r := uf_rssi f in
  let b := uf_bbp f in
  mk_rxblk p (skb_data p) (skb_data p + 28) (skb_data p) (Z.of_nat (length (uf_mpdu f))) 0 0 0 (uf_wcid f) (uf_key f) (uf_tid f)
    (CHAR (aget r 0), CHAR (aget r 1), CHAR (aget r 2)) (CHAR (aget b 0), CHAR (aget b 1), CHAR (aget b 2)) (CHAR (aget b 4))
    (uf_mode f) (uf_mcs f) (uf_sgi f =? 1) (rx_rate (pack (uf_word1 f)) junk) (rxinfo_of (uf_info f)).

Lemma length_wi f : uf_ok f → length (uf_wi f) = 28%nat.
Proof. intros []. unfold uf_wi. rewrite !length_app, !length_le_bytes. lia. Qed.

Lemma length_usb f : uf_ok f → Z.of_nat (length (usb_bytes f)) = uf_len f + 8.
Proof. intros Hf. unfold usb_bytes, uf_len. rewrite !length_app, !length_le_bytes, length_wi, (uo_hi _ Hf) by done. lia. Qed.

Lemma word_le l : Forall field_ok l → widths l = 32 → le_word (le_bytes 4 (pack l)) = pack l.
Proof. intros Hl Hw. rewrite le_word_le_bytes. apply wrap_id; [lia|]. pose proof (pack_range l Hl). unfold in_range. by rewrite Hw in *. Qed.

(** A slice of one of the two words. *)
Ltac slice l1 := etransitivity; [|eapply (pack_slice l1)]; [reflexivity|eassumption].

Lemma bit_slice w o : 0 ≤ o → bit_at w o = (bits_at w o 1 =? 1).
Proof.
  intros Ho. unfold bit_at, bits_at. rewrite Z.land_ones by lia. change (2 ^ 1) with 2. rewrite <- Z.bit0_mod, Z.shiftr_spec, Z.add_0_l by lia.
  by destruct (Z.testbit w o).
Qed.

Lemma aget_front a b i : (i < length a)%nat → aget (a ++ b) (Z.of_nat i) = aget a (Z.of_nat i).
Proof. intros Hi. unfold aget. rewrite Nat2Z.id. by apply app_nth1. Qed.

Lemma aget_behind a b n i : n = Z.of_nat (length a) → aget (a ++ b) (n + Z.of_nat i) = aget b (Z.of_nat i).
Proof. intros ->. unfold aget. rewrite app_nth2 by lia. f_equal. lia. Qed.

Lemma blk_of_frame f junk p : uf_ok f → blk_of 28 (uf_wi f) (uf_info f) junk p = uf_blk f junk p.
Proof.
  intros [H0 H1 _ Lr Lb _ _ _ _]. unfold blk_of, uf_blk.
  assert (E0 : le_word (take 4 (uf_wi f)) = pack (uf_word0 f)) by (unfold uf_wi; rewrite take_app_length' by (by rewrite length_le_bytes); by apply word_le).
  assert (E1 : le_word (take 4 (drop 4 (uf_wi f))) = pack (uf_word1 f)).
  { unfold uf_wi. rewrite drop_app_length', take_app_length' by (by rewrite length_le_bytes). by apply word_le. }
  assert (Es : bit_at (pack (uf_word1 f)) 25 = (uf_sgi f =? 1)).
  { pose proof (pack_slice (take 5 (uf_word1 f)) 1 (uf_sgi f) (drop 6 (uf_word1 f)) H1) as Hs. change (widths _) with 25 in Hs.
    change (take 5 (uf_word1 f) ++ _) with (uf_word1 f) in Hs. rewrite <- Hs. apply bit_slice. lia. }
  assert (Ar : ∀ i, (i < 4)%nat → aget (uf_wi f) (8 + Z.of_nat i) = aget (uf_rssi f) (Z.of_nat i)).
  { intros i Hi. unfold uf_wi. rewrite (app_assoc (le_bytes 4 _)). rewrite aget_behind by (rewrite length_app, !length_le_bytes; lia).
    apply aget_front. lia. }
  assert (Ab : ∀ i, aget (uf_wi f) (12 + Z.of_nat i) = aget (uf_bbp f) (Z.of_nat i)).
  { intros i. unfold uf_wi. rewrite !(app_assoc _ _ (uf_bbp f)). apply aget_behind. rewrite !length_app, !length_le_bytes. lia. }
  rewrite E0, E1, Es. f_equal.
  1: slice (take 4 (uf_word0 f)). 1: rewrite <- (Nat2Z.id (uf_wcid f)); f_equal; slice (@nil (Z * Z)).
  1: rewrite <- (Nat2Z.id (uf_key f)); f_equal; slice (take 1 (uf_word0 f)). 1: rewrite <- (Nat2Z.id (uf_tid f)); f_equal; slice (@nil (Z * Z)).
  1: f_equal; [f_equal|]; f_equal; [apply (Ar 0%nat)|apply (Ar 1%nat)|apply (Ar 2%nat)]; lia.
  1: f_equal; [f_equal|]; f_equal; [apply (Ab 0%nat)|apply (Ab 1%nat)|apply (Ab 2%nat)].
  1: f_equal; apply (Ab 4%nat). 1: slice (take 8 (uf_word1 f)). slice (take 2 (uf_word1 f)).
Qed.

(** * Unpacking *)

Lemma len_bytes n : 0 ≤ n < 65536 → aget (le_bytes 2 n) 0 + Z.shiftl (aget (le_bytes 2 n) 1) 8 = n.
Proof.
  intros Hn. change (le_bytes 2 n) with [u8 n; u8 (Z.shiftr n 8)]. change (aget _ 0) with (u8 n). change (aget _ 1) with (u8 (Z.shiftr n 8)).
  rewrite !wrap_mod, Z.shiftr_div_pow2, Z.shiftl_mul_pow2 by lia. change (2 ^ 8) with 256.
  rewrite (Z.mod_small (n `div` 256)) by (split; [apply Z.div_pos; lia|apply Z.div_lt_upper_bound; lia]). pose proof (Z.div_mod n 256). lia.
Qed.

Lemma get_packet_frame r c f pre post al junk p :
  RxContext r !! NextRxBulkInReadIndex r = Some c → Readable c = true → InUse c = false →
  TransferBuffer c = pre ++ usb_bytes f ++ post → ReadPosition r = Z.of_nat (length pre) →
  Z.of_nat (length (pre ++ usb_bytes f)) ≤ BulkInOffset c < 2 ^ 64 → uf_ok f →
  al (uf_len f) = Some p → 0 ≤ skb_data p → skb_len p = 0 → skb_data p + uf_len f ≤ Z.of_nat (length (skb_mem p)) →
  GetPacketFromRxRing 28 al junk r = Some (Some (uf_blk f junk (uf_packet f p), mk_hw (uf_info f) (uf_fce f)),
    set_ReadPosition (ReadPosition r + Z.of_nat (length (usb_bytes f))) r).
Proof.
  intros Ec Hr Hu Et Ep Hb Hf Ea Hd Hl Hm. pose proof (length_usb f Hf) as Lu. pose proof (length_wi f Hf) as Lw. pose proof Hf as [].
  rewrite length_app in Hb. unfold GetPacketFromRxRing. rewrite Ec. cbn [mbind option_bind]. rewrite Hr, Hu. cbn [negb orb].
  assert (Hn : 32 ≤ uf_len f) by (unfold uf_len; lia).
  rewrite wrap_id by (unfold in_range; lia). unfold RXDMA_FIELD_SIZE, RXINFO_SIZE, sizeof_RXFCE_INFO.
  rewrite (proj2 (Z.ltb_ge _ _)) by lia.
  assert (R : ∀ a x b k n, usb_bytes f = a ++ x ++ b → k = Z.of_nat (length a) → n = Z.of_nat (length x) →
    rd (TransferBuffer c) (ReadPosition r + k) n = Some x).
  { intros a x b k n Es -> ->. apply (rd_at (pre ++ a) x (b ++ post)); [by rewrite Et, Es, <- !app_assoc|rewrite length_app; lia|done]. }
  unfold usb_bytes in R. set (W := uf_wi f) in *. set (L2 := le_bytes 2 (uf_len f)) in *. assert (LL : length L2 = 2%nat) by by apply length_le_bytes.
  set (I := le_bytes 4 (uf_info f)) in *. assert (LI : length I = 4%nat) by by apply length_le_bytes.
  set (F := le_bytes 4 (uf_fce f)) in *. assert (LF : length F = 4%nat) by by apply length_le_bytes.
  rewrite <- (Z.add_0_r (ReadPosition r)) at 1. rewrite (R [] L2 _ 0 2 eq_refl) by (simpl; lia). cbn [mbind option_bind].
  assert (E2 : aget L2 0 + Z.shiftl (aget L2 1) 8 = uf_len f) by (apply len_bytes; lia).
  rewrite E2, (proj2 (Z.eqb_neq _ _)), uo_four0 by lia. cbn [negb Z.eqb]. rewrite (proj2 (Z.ltb_ge _ _)) by lia.
  rewrite (R (L2 ++ uf_hi f) I (W ++ uf_mpdu f ++ uf_pad f ++ F) 4 4) by (rewrite ?length_app, <- ?app_assoc; done || lia).
  cbn [mbind option_bind]. rewrite <- (Z.add_assoc (ReadPosition r) 4 (uf_len f)), <- (Z.add_assoc (ReadPosition r) 4 4).
  rewrite (R (L2 ++ uf_hi f ++ I ++ W ++ uf_mpdu f ++ uf_pad f) F [] (4 + uf_len f) 4)
    by (rewrite ?app_nil_r, ?length_app, <- ?app_assoc; done || (unfold uf_len; lia)).
  cbn [mbind option_bind]. rewrite (R (L2 ++ uf_hi f ++ I) W (uf_mpdu f ++ uf_pad f ++ F) (4 + 4) 28) by (rewrite ?length_app, <- ?app_assoc; done || lia).
  cbn [mbind option_bind].
  replace (bits_at (le_word (take 4 W)) 16 14) with (Z.of_nat (length (uf_mpdu f))).
  2:{ unfold W, uf_wi. rewrite take_app_length' by (by rewrite length_le_bytes). rewrite word_le by done. symmetry. slice (take 4 (uf_word0 f)). }
  rewrite (proj2 (Z.ltb_ge _ _)) by (unfold uf_len; lia). unfold RTMP_AllocateFragPacketBuffer. rewrite Ea.
  rewrite (R (L2 ++ uf_hi f ++ I) (W ++ uf_mpdu f ++ uf_pad f ++ F) [] (4 + 4) (uf_len f))
    by (rewrite ?app_nil_r, ?length_app, <- ?app_assoc; done || (unfold uf_len; lia)).
  cbn [mbind option_bind]. rewrite Hl, Z.add_0_r. unfold wr. rewrite !length_app.
  rewrite (proj2 (Z.leb_le 0 _)), (proj2 (Z.leb_le (skb_data p + _) _)) by (unfold uf_len in *; lia). cbn [andb mbind option_bind].
  unfold I, F. rewrite !le_word_le_bytes, !(wrap_id (8 * Z.of_nat 4)) by done. rewrite (blk_of_frame f junk _ Hf).
  rewrite Z.add_0_l. do 2 f_equal. f_equal. lia.
Qed.

(** What the kernel hands out for [n] bytes: an empty packet with room for them
    and, behind, the data the kernel keeps with every packet. *)
Definition alloc_ok (al : Z → option sk_buff) : Prop :=
  ∀ n p, al n = Some p → 0 ≤ skb_data p ∧ skb_len p = 0 ∧ skb_data p + n + 76 ≤ Z.of_nat (length (skb_mem p)).

Lemma bits_at_range w o n : 0 ≤ n → 0 ≤ bits_at w o n < 2 ^ n.
Proof. intros Hn. unfold bits_at. rewrite Z.land_ones by lia. apply Z.mod_pos_bound. lia. Qed.

(** C11: Whatever bytes a USB buffer holds, unpacking reads inside the transfer
    buffer and writes inside the packet it allocates, and so never fails.  It
    either stops and changes nothing, or takes at least 12 bytes, not more than
    were received, and hands on the packet that the kernel gave for the n bytes
    of the USB length field, with no flags and a key index below 4.  The frame
    begins 28 bytes into the packet, and the size that the reception data gives
    it is checked against n only: it may end up to 28 bytes behind the copied
    bytes ([usb_length_unchecked]).  That it stays inside the memory of the
    packet, with 48 bytes to spare, rests on [alloc_ok]: the kernel keeps at
    least 76 bytes (its own data on the packet) behind the n that were asked for. *)
Theorem usb_unpack_safe al junk r c (Ec : RxContext r !! NextRxBulkInReadIndex r = Some c) (Hb : bytes (TransferBuffer c))
    (Hp : 0 ≤ ReadPosition r ≤ BulkInOffset c) (Hl : BulkInOffset c ≤ Z.of_nat (length (TransferBuffer c))) (Hw : BulkInOffset c < 2 ^ 64)
    (Ha : alloc_ok al) :
  ∃ o r', GetPacketFromRxRing 28 al junk r = Some (o, r') ∧
    match o with
    | None => r' = r
    | Some (rb, _) => ∃ q n p, r' = set_ReadPosition q r ∧ ReadPosition r + 12 ≤ q ≤ BulkInOffset c ∧ al n = Some p ∧
        rb_id rb = skb_id p ∧ rb_pHeader rb = skb_data p + 28 ∧ rb_DataSize rb ≤ n ∧ in_packet rb ∧ rb_Flags rb = 0
    end.
Proof.
  unfold GetPacketFromRxRing. rewrite Ec. cbn [mbind option_bind]. destruct (_ || _); [by exists None, r|].
  rewrite wrap_id by (unfold in_range; lia). unfold RXDMA_FIELD_SIZE, RXINFO_SIZE, sizeof_RXFCE_INFO.
  destruct (Z.ltb_spec (BulkInOffset c - ReadPosition r) (4 + 28 + 4 + 4)); [by exists None, r|].
  destruct (rd_inside (TransferBuffer c) (ReadPosition r) 2) as (l & El & _); [lia..|]. rewrite El. cbn [mbind option_bind].
  set (n := aget l 0 + Z.shiftl (aget l 1) 8).
  assert (Hn : 0 ≤ n).
  { pose proof (rd_bytes _ _ _ _ Hb El) as Bl. pose proof (aget_bytes l 0 Bl). pose proof (aget_bytes l 1 Bl). unfold in_range in *.
    unfold n. rewrite Z.shiftl_mul_pow2; lia. }
  clearbody n. destruct (Z.eqb_spec n 0); [by exists None, r|]. destruct (Z.land n 3 =? 0) eqn:E3; cbn [negb]; [|by exists None, r].
  assert (H4 : 4 ≤ n).
  { apply Z.eqb_eq in E3. change 3 with (Z.ones 2) in E3. rewrite Z.land_ones in E3 by lia. change (2 ^ 2) with 4 in E3. apply Z.mod_divide in E3 as [q ->]; lia. }
  destruct (Z.ltb_spec (BulkInOffset c - ReadPosition r) (n + 8)); [by exists None, r|].
  destruct (rd_inside (TransferBuffer c) (ReadPosition r + 4) 4) as (i & -> & _); [lia..|].
  destruct (rd_inside (TransferBuffer c) (ReadPosition r + 4 + n) 4) as (f & -> & _); [lia..|].
  destruct (rd_inside (TransferBuffer c) (ReadPosition r + 4 + 4) 28) as (wi & -> & _); [lia..|].
  destruct (rd_inside (TransferBuffer c) (ReadPosition r + 4 + 4) n) as (d & -> & Ld); [lia..|]. cbn [mbind option_bind].
  destruct (Z.ltb_spec n (bits_at (le_word (take 4 wi)) 16 14)); [by exists None, r|]. unfold RTMP_AllocateFragPacketBuffer.
  destruct (al n) as [p|] eqn:Ep; [|by exists None, r]. destruct (Ha n p Ep) as (Hd & Hz & Hm). cbn [mbind option_bind]. rewrite Hz, Z.add_0_r.
  destruct (wr_inside (skb_mem p) (skb_data p) d) as (m & -> & Lm); [lia..|]. cbn [mbind option_bind].
  do 2 eexists. split; [done|]. exists (ReadPosition r + (n + 4 + 4)), n, p. do 2 (split; [done || lia|]). do 4 (split; [done|]). split; [|done].
  pose proof (bits_at_range (le_word (take 4 wi)) 16 14 ltac:(lia)). pose proof (bits_at_range (le_word (take 4 wi)) 8 2 ltac:(lia)).
  split; unfold rb_mem; cbn [blk_of rb_pHeader rb_DataSize rb_pkt skb_mem skb_data rb_key_idx]; lia.
Qed.

(** * A buffer of frames *)

(** The packets that the kernel hands out for the frames from number [k] on. *)
Fixpoint packet_ids (EV : done_env) (k : nat) (fs : list usb_frame) : list Z :=
  match fs with
  | [] => []
  | f :: fs => from_option skb_id 0 (de_alloc EV k (uf_len f)) :: packet_ids EV (S k) fs
  end.

(** The frames one after the other, each in its packet and with its fields. *)
Fixpoint rx_frames (cfg : done_cfg) (EV : done_env) (k : nat) (fs : list usb_frame) (s : done_state) : option done_state :=
  match fs with
  | [] => Some s
  | f :: fs =>
      p ← de_alloc EV k (uf_len f);
      s ← rx_one cfg (de_rx EV k) (de_ba EV k) (uf_blk f (de_junk EV k) (uf_packet f p)) (mk_hw (uf_info f) (uf_fce f)) s;
      rx_frames cfg EV (S k) fs s
  end.

(** The content of a frame, whatever packet it is copied to, is one that the
    handlers accept; the kernel has memory. *)
Definition frame_proper (cfg : done_cfg) (EV : done_env) (k : nat) (f : usb_frame) : Prop :=
  uf_ok f ∧ ∃ p, de_alloc EV k (uf_len f) = Some p ∧ done_proper cfg (at_header (uf_blk f (de_junk EV k) (uf_packet f p))).

Section Buffer.
Context (cfg : done_cfg) (EV : done_env) (HR : RXWISize (dc_rx cfg) = 28) (HA : ADHOC_ON (dc_rx cfg) = false).
Context (Hal : ∀ k, alloc_ok (de_alloc EV k)) (HE : ∀ k, rx_ok (dc_rx cfg) (de_rx EV k)).

Lemma empty_buffer al junk r c : RxContext r !! NextRxBulkInReadIndex r = Some c → ReadPosition r = BulkInOffset c →
  GetPacketFromRxRing 28 al junk r = Some (None, r).
Proof. intros Ec Ep. unfold GetPacketFromRxRing. rewrite Ec. cbn [mbind option_bind]. destruct (_ || _); [done|]. by rewrite Ep, Z.sub_diag. Qed.

Lemma loop_frames fs : ∀ fuel k pre post r c s, (length fs < fuel)%nat →
  RxContext r !! NextRxBulkInReadIndex r = Some c → Readable c = true → InUse c = false →
  TransferBuffer c = pre ++ concat (map usb_bytes fs) ++ post → ReadPosition r = Z.of_nat (length pre) →
  BulkInOffset c = Z.of_nat (length (pre ++ concat (map usb_bytes fs))) → BulkInOffset c < 2 ^ 64 →
  (∀ i f, fs !! i = Some f → frame_proper cfg EV (k + i) f) → rx_wf (ds_rx s) → rx_stopped (Flags (xs_pAd (ds_rx s))) = false →
  ∃ s', rx_done_loop cfg EV fuel k r s = Some (set_ReadPosition (BulkInOffset c) r, s') ∧ rx_frames cfg EV k fs s = Some s' ∧ rx_wf (ds_rx s') ∧
    disposes (packet_ids EV k fs) (ds_rx s) (ds_rx s').
Proof.
  induction fs as [|f fs IH]; intros [|fuel] k pre post r c s Hfu Ec Hr Hu Et Ep Eb Hlt Hf Hw Hst; simpl in Hfu; [lia| |lia|]; cbn [rx_done_loop]; rewrite Hst, HR.
  { simpl in Eb. rewrite app_nil_r in Eb. rewrite (empty_buffer _ _ r c Ec) by lia. cbn [mbind option_bind].
    exists s. split; [|split; [done|split; [done|by apply disposes_refl]]]. f_equal. f_equal. destruct r. simpl in *. by rewrite Ep, Eb. }
  destruct (Hf 0%nat f eq_refl) as (Ho & p & Epk & Hpr). rewrite Nat.add_0_r in *. destruct (Hal k _ _ Epk) as (Hd & Hz & Hm).
  cbn [map concat] in Et, Eb. rewrite <- app_assoc in Et. rewrite (app_assoc pre), length_app in Eb.
  rewrite (get_packet_frame r c f pre (concat (map usb_bytes fs) ++ post) (de_alloc EV k) (de_junk EV k) p) by (done || lia). cbn [mbind option_bind].
  destruct (one_handled cfg (de_rx EV k) (HE k) (de_ba EV k) (uf_blk f (de_junk EV k) (uf_packet f p)) (mk_hw (uf_info f) (uf_fce f)) s HA Hpr Hw)
    as (s1 & E1 & Hw1 & D1). rewrite E1. cbn [mbind option_bind].
  set (r1 := set_ReadPosition _ r).
  destruct (IH fuel (S k) (pre ++ usb_bytes f) post r1 c s1) as (s2 & E2 & Hs2 & Hw2 & D2); try done.
  - lia.
  - by rewrite Et, <- app_assoc.
  - unfold r1. cbn [set_ReadPosition ReadPosition]. rewrite length_app. lia.
  - rewrite length_app. lia.
  - intros i g Hg. replace (S k + i)%nat with (k + S i)%nat by lia. by apply Hf.
  - destruct D1 as [[F1 _] _]. by rewrite F1.
  - exists s2. split; [exact E2|]. cbn [packet_ids rx_frames]. rewrite Epk. cbn [mbind option_bind]. rewrite E1. cbn [mbind option_bind].
    do 2 (split; [done|]). by apply (disposes_trans [_] (packet_ids EV (S k) fs) _ (ds_rx s1)).
Qed.
End Buffer.

(** C10: A USB buffer is handled to its end.  In the buffer the chip put any
    number of frames, each with its length (a multiple of 4, below 65536),
    reception flags, 28 bytes of reception data, padding and trailing word
    ([uf_ok]): data, management and control frames in any order.  For each of
    them the kernel has memory, with 76 bytes behind it ([alloc_ok]).  A data
    frame has complete headers, a peer number inside the table and a TID below
    8, and is neither a fragment nor an aggregate of the chip maker's own kind,
    and no length below 8 in it is followed by the mark of an EAPOL frame 20
    bytes behind the place of its header; a block-ack request has a TID below 8
    ([frame_proper]).  The station is not in ad hoc mode, it is started with
    the radio on and not being reset, halted or removed ([rx_stopped]),
    encryption in software is not built in ([rx_ok]), and the
    invariants of the engine, the peer table, the keys and the sessions hold.
    Then the loop does what one turn per frame does, each on a packet with
    exactly the fields and bytes the chip gave; it stops at the end of the
    buffer, every packet the kernel gave is disposed of exactly once, in the order
    of the frames, and the invariants hold at the end. *)
Theorem usb_buffer_handled cfg EV r c s fs post (HR : RXWISize (dc_rx cfg) = 28) (HA : ADHOC_ON (dc_rx cfg) = false)
    (Hal : ∀ k, alloc_ok (de_alloc EV k)) (HE : ∀ k, rx_ok (dc_rx cfg) (de_rx EV k))
    (Ec : RxContext r !! NextRxBulkInReadIndex r = Some c) (Hr : Readable c = true) (Hu : InUse c = false) (Ep : ReadPosition r = 0)
    (Et : TransferBuffer c = concat (map usb_bytes fs) ++ post) (Eb : BulkInOffset c = Z.of_nat (length (concat (map usb_bytes fs))))
    (Hlt : BulkInOffset c < 2 ^ 64) (Hf : ∀ k f, fs !! k = Some f → frame_proper cfg EV k f)
    (Hw : rx_wf (ds_rx s)) (Hst : rx_stopped (Flags (xs_pAd (ds_rx s))) = false) :
  ∃ s' evs, rtmp_rx_done_handle cfg EV r s = Some (set_ReadPosition (BulkInOffset c) r, s') ∧ rx_frames cfg EV 0 fs s = Some s' ∧ rx_wf (ds_rx s') ∧
    xs_log (ds_rx s') = xs_log (ds_rx s) ++ evs ∧ omap disposed evs = packet_ids EV 0 fs.
Proof.
  unfold rtmp_rx_done_handle. rewrite Ec. cbn [mbind option_bind].
  assert (Hlen : ∀ l, Forall uf_ok l → (length l ≤ length (concat (map usb_bytes l)))%nat).
  { induction 1 as [|f l Ho _ IH]; [done|]. simpl. rewrite length_app. pose proof (length_usb f Ho). unfold uf_len in *. lia. }
  assert (Hok : Forall uf_ok fs) by (apply Forall_lookup; intros k f Hk; by destruct (Hf k f Hk)).
  destruct (loop_frames cfg EV HR HA Hal HE fs (S (Z.to_nat (BulkInOffset c))) 0 [] post r c s) as (s' & -> & Hs' & Hw' & (_ & evs & El & Ed)); try done.
  { specialize (Hlen fs Hok). lia. }
  by exists s', evs.
Qed.

(** * Examples *)

(** The flags of a frame for us in our network, decrypted. *)
Definition demo_uf (info : Z) (mpdu pad : list Z) : usb_frame :=
  mk_uf [0; 0] info 0x80000 1 0 0 0 0 5 17 7 0 1 0 0 0 2 [200; 201; 202; 0] (replicate 16 3) mpdu pad.
Definition demo_usb : list usb_frame :=
  [demo_uf 0x10090 (demo_head 8 0x42 [2; 0; 0; 0; 0; 9] [2; 0; 0; 0; 0; 1] ++ demo_ipv4) [];
   demo_uf 0xa0 (demo_head 0x80 0 (replicate 6 255) demo_ap ++ zeros 12 ++ [0; 3; 65; 66; 67]) [0; 0; 0];
   demo_uf 0x90 ([0x84; 0; 0; 0] ++ [2; 0; 0; 0; 0; 9] ++ demo_ap ++ [4; 0x50; 0x20; 1]) [];
   demo_uf 0x190 (demo_head 8 0x42 [2; 0; 0; 0; 0; 9] [2; 0; 0; 0; 0; 1] ++ demo_ipv4) []].

Definition demo_dcfg : done_cfg := mk_dcfg demo_rcfg false 0 true true 0.
Definition demo_denv : done_env :=
  mk_denv (λ k n, Some (mk_skb (Z.of_nat k + 1) (zeros (Z.to_nat n + 140)) 64 0)) (λ _, 0) (λ _, demo_renv) (λ _, demo_al).
(** The station of the data path, started. *)
Definition demo_dstate : done_state :=
  mk_done (set_pAd (mk_pAd (Mlme (demo_station 0 false)) fRTMP_ADAPTER_START_UP false (rest (demo_station 0 false))) (demo_rstate WPA_802_1X_PORT_SECURED))
    (mk_cnt 0 0 0 0 0 0 (zeros 8) 0).
Definition demo_ring (buf : list Z) (n : Z) : rx_ring :=
  mk_ring [mk_ctx buf n true false true false] 0 0 0 0.

Lemma demo_allocs k : alloc_ok (de_alloc demo_denv k).
Proof. intros n p [= <-]. cbn [skb_data skb_len skb_mem]. rewrite length_zeros. lia. Qed.

Lemma demo_dwf : rx_wf (ds_rx demo_dstate).
Proof. destruct (demo_rwf WPA_802_1X_PORT_SECURED). by split. Qed.

Lemma usb_unpack_safe_witness :
  ∃ o r', GetPacketFromRxRing 28 (de_alloc demo_denv 0) 0 (demo_ring (replicate 60 0x14) 60) = Some (o, r') ∧
    match o with
    | None => r' = demo_ring (replicate 60 0x14) 60
    | Some (rb, _) => ∃ q n p, r' = set_ReadPosition q (demo_ring (replicate 60 0x14) 60) ∧ 12 ≤ q ≤ 60 ∧ de_alloc demo_denv 0 n = Some p ∧
        rb_id rb = skb_id p ∧ rb_pHeader rb = skb_data p + 28 ∧ rb_DataSize rb ≤ n ∧ in_packet rb ∧ rb_Flags rb = 0
    end.
Proof.
  apply (usb_unpack_safe (de_alloc demo_denv 0) 0 (demo_ring (replicate 60 0x14) 60) (mk_ctx (replicate 60 0x14) 60 true false true false));
    [done|repeat constructor; by vm_compute|simpl; lia|by vm_compute|by vm_compute|apply demo_allocs].
Defined.

Lemma demo_uf_ok : Forall uf_ok demo_usb.
Proof. repeat constructor; by vm_compute. Qed.

Ltac demo_data_proper :=
  intros _; split; [split; try reflexivity; vm_compute; intuition (congruence || lia)|]; do 2 (split; [reflexivity|]);
  apply no_88; [by vm_compute|vm_compute; repeat constructor; discriminate].

Lemma demo_frames k f : demo_usb !! k = Some f → frame_proper demo_dcfg demo_denv k f.
Proof.
  intros Hk. split; [by eapply (Forall_lookup_1 _ _ _ _ demo_uf_ok)|]. eexists. split; [done|].
  split; [destruct k as [|[|[|[|k]]]]; simplify_eq/=; split; vm_compute; intuition (congruence || lia)|]. intros h Hh.
  destruct k as [|[|[|[|k]]]]; simplify_eq/=; vm_compute in Hh; injection Hh as <-; (split; [try done|try done]).
  - demo_data_proper.
  - intros _ _ bar Hb. vm_compute in Hb. injection Hb as <-. vm_compute. lia.
  - demo_data_proper.
Qed.

Lemma usb_buffer_handled_witness :
  ∃ s' evs, rtmp_rx_done_handle demo_dcfg demo_denv (demo_ring (concat (map usb_bytes demo_usb)) 328) demo_dstate =
      Some (set_ReadPosition 328 (demo_ring (concat (map usb_bytes demo_usb)) 328), s') ∧
    rx_frames demo_dcfg demo_denv 0 demo_usb demo_dstate = Some s' ∧ rx_wf (ds_rx s') ∧
    xs_log (ds_rx s') = [] ++ evs ∧ omap disposed evs = [1; 2; 3; 4].
Proof.
  apply (usb_buffer_handled demo_dcfg demo_denv (demo_ring (concat (map usb_bytes demo_usb)) 328)
    (mk_ctx (concat (map usb_bytes demo_usb)) 328 true false true false) demo_dstate demo_usb []); try done.
  - apply demo_allocs.
  - intros k. exact demo_rok.
  - apply demo_frames.
  - apply demo_dwf.
Defined.

(** * Two checks that miss *)

(** The length in the reception data is compared with the length of the USB
    field, which counts the reception data too: a frame may end 28 bytes behind
    what was copied to its packet. *)
Lemma usb_length_unchecked :
  ∃ rb hw r', GetPacketFromRxRing 28 (de_alloc demo_denv 0) 0 (demo_ring ([60; 0; 0; 0] ++ zeros 6 ++ [60; 0] ++ zeros 56) 68) = Some (Some (rb, hw), r') ∧
    rb_pHeader rb + rb_DataSize rb = skb_data (rb_pkt rb) + skb_len (rb_pkt rb) + 28.
Proof. by do 3 eexists. Qed.

(** The vendor identifier of an action frame follows the category; the code looks
    for it 14 bytes later, so that the frames it is written for are not
    recognised. *)
Lemma wfd_identifier_misplaced :
  CFG80211_CheckActionFrameType (demo_data 1 0xd0 0 (replicate 6 255) demo_ap ([CATEGORY_VENDOR_SPECIFIC_WFD] ++ CFG_P2POUIBYTE ++ zeros 20) false) = Some false.
Proof. by vm_compute. Qed.
