(* ===== verification/TxRing.v ===== *)
(** The transmit buffer of a USB pipe: src/common/cmm_data_usb.c
    (RTUSBFreeDescRequest, rlt_usb_write_txinfo, RtmpUSBCanDoWrite,
    RtmpUSB_WriteFragTxResource, RtmpUSB_WriteSingleTxResource,
    RtmpUSB_WriteMultiTxResource, RtmpUSB_FinalWriteTxResource),
    src/common/rtusb_bulk.c (RTUSBBulkOutDataPacket, RTUSBDataBulkOut),
    src/os/linux/rt_usb.c (rtusb_dataout_complete) and the data part of
    src/common/rtusb_io.c (ResetBulkOutHdlr), for one of the four pipes.

    The writer copies frames to a buffer of 200 KB, the bulk-out routine hands
    a run of complete frames to the USB stack and the transfer completes later.
    The two sides are ordered by a lock only: a function that gives up the lock
    in the middle is cut there, so that the other side can run in between.
    A position is an offset into the buffer; an access outside of the buffer
    has no result. *)

From S2P Require Import Prelude RxPacket RxRing.

(** * Constants *)

Definition LOCAL_TXBUF_SIZE : Z := 2048.
Definition BULKAGGRE_SIZE : Z := 100.
Definition MAX_TXBULK_LIMIT : Z := LOCAL_TXBUF_SIZE * (BULKAGGRE_SIZE - 1).
Definition MAX_TXBULK_SIZE : Z := LOCAL_TXBUF_SIZE * BULKAGGRE_SIZE.
Definition TXINFO_SIZE : Z := 4.
Definition TXWISize : Z := 20.
Definition TSO_SIZE : Z := 0.
Definition FIFO_EDCA : Z := 2.
Definition MODE_CCK : Z := 0.
Definition AMSDU_SUBHEAD_LEN : Z := 14.
Definition ARALINK_HEADER_LEN : Z := 2.
Definition TX_AMSDU_FRAME : Z := 0x08.
Definition TX_RALINK_FRAME : Z := 0x10.

(** * Descriptors *)

(** [n] bits of [w] from bit [o] on are set to [v]. *)
Definition put_bits (w o n v : Z) : Z :=
  Z.lor (Z.ldiff w (Z.shiftl (Z.ones n) o)) (Z.shiftl (Z.land v (Z.ones n)) o).

(** The fields of [TXINFO_NMAC_PKT]. *)
Definition TxInfoPktLen (w : Z) : Z := bits_at w 0 16.
Definition set_PktLen (v w : Z) : Z := put_bits w 0 16 v.
Definition set_UDMANextVld (v w : Z) : Z := put_bits w 16 1 v.
Definition set_UDMATxburst (v w : Z) : Z := put_bits w 17 1 v.
Definition TxInfoSwLstRnd (w : Z) : Z := bits_at w 18 1.
Definition set_SwLstRnd (v w : Z) : Z := put_bits w 18 1 v.
Definition set_QSEL (v w : Z) : Z := put_bits w 25 2 v.

(** The two fields of [TXWI_NMAC] that are read. *)
Definition txwi_PHYMODE (word0 : Z) : Z := bits_at word0 29 3.
Definition txwi_MPDUtotalByteCnt (word1 : Z) : Z := bits_at word1 16 14.

Definition rlt_usb_write_txinfo (USBDMApktLen : Z) (bWiv : bool) (QueueSel TxBurst : Z) (w : Z) : Z :=
  let w := put_bits w 19 1 1 in
  let w := put_bits w 30 2 0 in
  let w := put_bits w 27 3 0 in
  let w := put_bits w 21 1 0 in
  let w := put_bits w 20 1 0 in
  let w := set_PktLen USBDMApktLen w in
  let w := set_QSEL QueueSel w in
  let w := set_UDMANextVld 0 w in
  let w := set_UDMATxburst TxBurst w in
  let w := put_bits w 24 1 (if bWiv then 1 else 0) in
  set_SwLstRnd 0 w.

(** A little-endian word in memory. *)
Definition rd_word (m : list Z) (p : Z) : option Z := w ← rd m p 4; Some (le_word w).
Definition upd_word (f : Z → Z) (m : list Z) (p : Z) : option (list Z) :=
  w ← rd_word m p; wr m p (le_bytes 4 (f w)).

(** * Data *)

(** A frame to be written: [pSrcBufData] is its [SrcBufLen] bytes. *)
Record TX_BLK := mk_txblk {
  tb_pPacket : Z;
  TxFrameType : Z;
  HeaderBuf : list Z;
  MpduHeaderLen : Z;
  HdrPadLen : Z;
  pSrcBufData : list Z;
  TotalFragNum : nat;
  Priv : Z
}.

Definition SrcBufLen (tb : TX_BLK) : Z := Z.of_nat (length (pSrcBufData tb)).
Definition set_HeaderBuf (h : list Z) (tb : TX_BLK) : TX_BLK :=
  mk_txblk (tb_pPacket tb) (TxFrameType tb) h (MpduHeaderLen tb) (HdrPadLen tb) (pSrcBufData tb) (TotalFragNum tb) (Priv tb).
Definition set_Priv (p : Z) (tb : TX_BLK) : TX_BLK :=
  mk_txblk (tb_pPacket tb) (TxFrameType tb) (HeaderBuf tb) (MpduHeaderLen tb) (HdrPadLen tb) (pSrcBufData tb) (TotalFragNum tb) p.

Record HT_TX_CONTEXT := mk_httx {
  WirelessPacket : list Z;
  BulkOutSize : Z;
  tx_IRPPending : bool;
  bCurWriting : bool;
  bRingEmpty : bool;
  bCopySavePad : bool;
  SavedPad : list Z;
  CurWritePosition : Z;
  CurWriteRealPos : Z;
  NextBulkOutPosition : Z;
  ENextBulkOutPosition : Z
}.

Definition set_WirelessPacket (m : list Z) (c : HT_TX_CONTEXT) : HT_TX_CONTEXT :=
  mk_httx m (BulkOutSize c) (tx_IRPPending c) (bCurWriting c) (bRingEmpty c) (bCopySavePad c) (SavedPad c)
    (CurWritePosition c) (CurWriteRealPos c) (NextBulkOutPosition c) (ENextBulkOutPosition c).
Definition set_IRPPending (b : bool) (c : HT_TX_CONTEXT) : HT_TX_CONTEXT :=
  mk_httx (WirelessPacket c) (BulkOutSize c) b (bCurWriting c) (bRingEmpty c) (bCopySavePad c) (SavedPad c)
    (CurWritePosition c) (CurWriteRealPos c) (NextBulkOutPosition c) (ENextBulkOutPosition c).
Definition set_bCurWriting (b : bool) (c : HT_TX_CONTEXT) : HT_TX_CONTEXT :=
  mk_httx (WirelessPacket c) (BulkOutSize c) (tx_IRPPending c) b (bRingEmpty c) (bCopySavePad c) (SavedPad c)
    (CurWritePosition c) (CurWriteRealPos c) (NextBulkOutPosition c) (ENextBulkOutPosition c).
Definition set_bRingEmpty (b : bool) (c : HT_TX_CONTEXT) : HT_TX_CONTEXT :=
  mk_httx (WirelessPacket c) (BulkOutSize c) (tx_IRPPending c) (bCurWriting c) b (bCopySavePad c) (SavedPad c)
    (CurWritePosition c) (CurWriteRealPos c) (NextBulkOutPosition c) (ENextBulkOutPosition c).
Definition set_pad (b : bool) (pad : list Z) (c : HT_TX_CONTEXT) : HT_TX_CONTEXT :=
  mk_httx (WirelessPacket c) (BulkOutSize c) (tx_IRPPending c) (bCurWriting c) (bRingEmpty c) b pad
    (CurWritePosition c) (CurWriteRealPos c) (NextBulkOutPosition c) (ENextBulkOutPosition c).
Definition set_write_pos (cw cwr : Z) (c : HT_TX_CONTEXT) : HT_TX_CONTEXT :=
  mk_httx (WirelessPacket c) (BulkOutSize c) (tx_IRPPending c) (bCurWriting c) (bRingEmpty c) (bCopySavePad c) (SavedPad c)
    cw cwr (NextBulkOutPosition c) (ENextBulkOutPosition c).
Definition set_bulk_pos (size nb enb : Z) (c : HT_TX_CONTEXT) : HT_TX_CONTEXT :=
  mk_httx (WirelessPacket c) size (tx_IRPPending c) (bCurWriting c) (bRingEmpty c) (bCopySavePad c) (SavedPad c)
    (CurWritePosition c) (CurWriteRealPos c) nb enb.

(** What the driver tells the kernel: a packet is freed, a transfer is
    submitted (for the first time or again) with the bytes the device will
    read, and whether the stack took it. *)
Inductive tx_event :=
| Ev_kfree (id : Z)
| Ev_urb (data : list Z) (ok : bool)
| Ev_urb_again (data : list Z) (ok : bool).

(** The adapter's part for one pipe. *)
Record tx_pipe := mk_pipe {
  tp_ctx : HT_TX_CONTEXT;
  BulkOutPending : bool;
  bulk_NORMAL : bool;
  bulk_FRAG : bool;
  BULKOUT_RESET : bool;
  OneSecTransmittedByteCount : Z;
  TransmittedByteCount : Z;
  BulkOutReq : Z;
  BulkOutComplete : Z;
  BulkOutCompleteOther : Z;
  tp_log : list tx_event
}.

Definition set_ctx (c : HT_TX_CONTEXT) (s : tx_pipe) : tx_pipe :=
  mk_pipe c (BulkOutPending s) (bulk_NORMAL s) (bulk_FRAG s) (BULKOUT_RESET s) (OneSecTransmittedByteCount s) (TransmittedByteCount s)
    (BulkOutReq s) (BulkOutComplete s) (BulkOutCompleteOther s) (tp_log s).
Definition set_BulkOutPending (b : bool) (s : tx_pipe) : tx_pipe :=
  mk_pipe (tp_ctx s) b (bulk_NORMAL s) (bulk_FRAG s) (BULKOUT_RESET s) (OneSecTransmittedByteCount s) (TransmittedByteCount s)
    (BulkOutReq s) (BulkOutComplete s) (BulkOutCompleteOther s) (tp_log s).
Definition set_bulk_flags (n f : bool) (s : tx_pipe) : tx_pipe :=
  mk_pipe (tp_ctx s) (BulkOutPending s) n f (BULKOUT_RESET s) (OneSecTransmittedByteCount s) (TransmittedByteCount s)
    (BulkOutReq s) (BulkOutComplete s) (BulkOutCompleteOther s) (tp_log s).
Definition set_BULKOUT_RESET (b : bool) (s : tx_pipe) : tx_pipe :=
  mk_pipe (tp_ctx s) (BulkOutPending s) (bulk_NORMAL s) (bulk_FRAG s) b (OneSecTransmittedByteCount s) (TransmittedByteCount s)
    (BulkOutReq s) (BulkOutComplete s) (BulkOutCompleteOther s) (tp_log s).
Definition set_counters (req done other : Z) (s : tx_pipe) : tx_pipe :=
  mk_pipe (tp_ctx s) (BulkOutPending s) (bulk_NORMAL s) (bulk_FRAG s) (BULKOUT_RESET s) (OneSecTransmittedByteCount s) (TransmittedByteCount s)
    req done other (tp_log s).
Definition count_transmitted (n : Z) (s : tx_pipe) : tx_pipe :=
  mk_pipe (tp_ctx s) (BulkOutPending s) (bulk_NORMAL s) (bulk_FRAG s) (BULKOUT_RESET s)
    (u32 (OneSecTransmittedByteCount s + n)) (u64 (TransmittedByteCount s + n))
    (BulkOutReq s) (BulkOutComplete s) (BulkOutCompleteOther s) (tp_log s).
Definition tx_log (e : tx_event) (s : tx_pipe) : tx_pipe :=
  mk_pipe (tp_ctx s) (BulkOutPending s) (bulk_NORMAL s) (bulk_FRAG s) (BULKOUT_RESET s) (OneSecTransmittedByteCount s) (TransmittedByteCount s)
    (BulkOutReq s) (BulkOutComplete s) (BulkOutCompleteOther s) (tp_log s ++ [e]).

Definition free_packet (tb : TX_BLK) (s : tx_pipe) : tx_pipe := tx_log (Ev_kfree (tb_pPacket tb)) s.
Definition kick_flag (s : tx_pipe) : tx_pipe := set_bulk_flags true (bulk_FRAG s) s.

(** * Room *)

(** Whether a packet of [req_cnt] bytes can be taken from the software queue. *)
Definition RTUSBFreeDescRequest (req_cnt : Z) (s : tx_pipe) : bool * tx_pipe :=
  let c := tp_ctx s in
  if (CurWritePosition c <? NextBulkOutPosition c) &&
     (NextBulkOutPosition c <? CurWritePosition c + req_cnt + LOCAL_TXBUF_SIZE) then (false, kick_flag s)
  else if (CurWritePosition c =? 8) && (NextBulkOutPosition c <? req_cnt + LOCAL_TXBUF_SIZE) then (false, kick_flag s)
  else if bCurWriting c then (false, kick_flag s)
  else (true, s).

Definition RtmpUSBCanDoWrite (s : tx_pipe) : bool * tx_pipe :=
  let c := tp_ctx s in
  if (CurWritePosition c <? NextBulkOutPosition c) &&
     (NextBulkOutPosition c <? CurWritePosition c + LOCAL_TXBUF_SIZE) then (false, kick_flag s)
  else if (CurWritePosition c =? 8) && (NextBulkOutPosition c <? LOCAL_TXBUF_SIZE) then (false, kick_flag s)
  else if bCurWriting c then (false, s)
  else if (ENextBulkOutPosition c =? 8) && (MAX_TXBULK_LIMIT <? CurWritePosition c + 7912) then (false, kick_flag s)
  else (true, s).

(** The writer starts at [CurWritePosition]; eight bytes are left free behind
    the data of the last transfer when everything was sent. *)
Definition start_writing (c : HT_TX_CONTEXT) : HT_TX_CONTEXT :=
  let c := set_bCurWriting true c in
  let c := if ENextBulkOutPosition c =? CurWritePosition c
           then set_write_pos (CurWritePosition c + 8) (CurWriteRealPos c)
                  (set_bulk_pos (BulkOutSize c) (NextBulkOutPosition c) (ENextBulkOutPosition c + 8) c)
           else c in
  set_write_pos (CurWritePosition c) (CurWritePosition c) c.

(** Bytes up to the next multiple of four. *)
Definition pad4 (n : Z) : Z := Z.land (4 - n mod 4) 3.

(** What a writer keeps while the lock is free: the frame, the pointer into
    the buffer, the padding and whether the buffer starts over after it. *)
Record tx_local := mk_local { lo_tb : TX_BLK; lo_pos : Z; lo_padding : Z; lo_last : bool }.

(** The copy without the lock, and zeros behind the frame. *)
Definition copy_payload (l : tx_local) (c : HT_TX_CONTEXT) : option HT_TX_CONTEXT :=
  m ← wr (WirelessPacket c) (lo_pos l) (pSrcBufData (lo_tb l));
  m ← wr m (lo_pos l + SrcBufLen (lo_tb l)) (zeros (Z.to_nat (lo_padding l + 8)));
  Some (set_WirelessPacket m c).

(** The write position moves past the frame, or back to the start. *)
Definition stop_writing (l : tx_local) (c : HT_TX_CONTEXT) : HT_TX_CONTEXT :=
  let cw := if lo_last l then 8 else CurWritePosition c + Priv (lo_tb l) in
  set_bCurWriting false (set_write_pos cw cw c).

(** * One frame *)

(** Up to the release of the lock; [None] inside is a refusal. *)
Definition single_begin (tb : TX_BLK) (s : tx_pipe) : option (option tx_local * tx_pipe) :=
  let '(ok, s) := RtmpUSBCanDoWrite s in
  if negb ok then Some (None, free_packet tb s)
  else
    let c := start_writing (tp_ctx s) in
    let fillOffset := CurWritePosition c in
    let hdr_len := TXWISize + TSO_SIZE + MpduHeaderLen tb + HdrPadLen tb in
    let hdr_copy_len := TXINFO_SIZE + hdr_len in
    let dma_len := hdr_len + SrcBufLen tb in
    let padding := pad4 dma_len in
    let dma_len := dma_len + padding in
    let tb := set_Priv (TXINFO_SIZE + dma_len) tb in
    h ← upd_word (rlt_usb_write_txinfo (u16 dma_len) false FIFO_EDCA 0) (HeaderBuf tb) 0;
    let last := MAX_TXBULK_LIMIT <? CurWritePosition c + 3906 + Priv tb in
    h ← (if last then upd_word (set_SwLstRnd 1) h 0 else Some h);
    let tb := set_HeaderBuf h tb in
    hdr ← rd h 0 hdr_copy_len;
    m ← wr (WirelessPacket c) fillOffset hdr;
    let c := set_write_pos (CurWritePosition c) (CurWriteRealPos c + hdr_copy_len) (set_WirelessPacket m c) in
    Some (Some (mk_local tb (fillOffset + hdr_copy_len) padding last), set_ctx c s).

Definition single_copy (l : tx_local) (s : tx_pipe) : option tx_pipe :=
  c ← copy_payload l (tp_ctx s); Some (set_ctx c s).

Definition single_end (l : tx_local) (s : tx_pipe) : tx_pipe :=
  free_packet (lo_tb l) (set_ctx (stop_writing l (tp_ctx s)) s).

(** The whole function, when nothing runs in between: TRUE for
    NDIS_STATUS_SUCCESS. *)
Definition RtmpUSB_WriteSingleTxResource (tb : TX_BLK) (s : tx_pipe) : option (bool * tx_pipe) :=
  '(o, s) ← single_begin tb s;
  match o with
  | None => Some (false, s)
  | Some l => s ← single_copy l s; Some (true, single_end l s)
  end.

(** * Fragments *)

Definition frag_begin (fragNum : nat) (tb : TX_BLK) (s : tx_pipe) : option (option tx_local * tx_pipe) :=
  let '(ok, tb, s) :=
    if Nat.eqb fragNum 0 then
      let '(ok, s) := RtmpUSBCanDoWrite s in
      if ok then (true, set_Priv 0 tb, set_ctx (start_writing (tp_ctx s)) s) else (false, tb, s)
    else (bCurWriting (tp_ctx s), tb, s) in
  if negb ok then Some (None, free_packet tb s)
  else
    let c := tp_ctx s in
    let fillOffset := CurWritePosition c + Priv tb in
    h ← wr (HeaderBuf tb) 0 (zeros 4);
    let hwHdrLen := MpduHeaderLen tb + HdrPadLen tb in
    let USBDMApktLen := TXWISize + hwHdrLen + SrcBufLen tb in
    let padding := pad4 USBDMApktLen in
    let USBDMApktLen := USBDMApktLen + padding in
    let tb := set_Priv (Priv tb + (TXINFO_SIZE + USBDMApktLen)) tb in
    h ← upd_word (rlt_usb_write_txinfo (u16 USBDMApktLen) false FIFO_EDCA 0) h 0;
    let final := Nat.eqb fragNum (TotalFragNum tb) in
    let last := final && (MAX_TXBULK_LIMIT <? CurWritePosition c + Priv tb + 3906) in
    h ← upd_word (λ w, if final then (let w := set_UDMATxburst 0 w in if last then set_SwLstRnd 1 w else w)
                       else set_UDMATxburst 1 w) h 0;
    let tb := set_HeaderBuf h tb in
    let n := TXINFO_SIZE + TXWISize + hwHdrLen in
    hdr ← rd h 0 n;
    m ← wr (WirelessPacket c) fillOffset hdr;
    let c := set_write_pos (CurWritePosition c) (CurWriteRealPos c + n) (set_WirelessPacket m c) in
    Some (Some (mk_local tb (fillOffset + n) padding last), set_ctx c s).

(** With the last fragment the batch is complete. *)
Definition frag_end (fragNum : nat) (l : tx_local) (s : tx_pipe) : tx_pipe :=
  if Nat.eqb fragNum (TotalFragNum (lo_tb l)) then single_end l s else s.

Definition RtmpUSB_WriteFragTxResource (fragNum : nat) (tb : TX_BLK) (s : tx_pipe) : option (bool * TX_BLK * tx_pipe) :=
  '(o, s) ← frag_begin fragNum tb s;
  match o with
  | None => Some (false, tb, s)
  | Some l => s ← single_copy l s; Some (true, lo_tb l, frag_end fragNum l s)
  end.

(** * Aggregated frames *)

Definition multi_begin (frmNum : nat) (tb : TX_BLK) (s : tx_pipe) : option (option tx_local * tx_pipe) :=
  if Nat.eqb frmNum 0 then
    let '(ok, s) := RtmpUSBCanDoWrite s in
    if negb ok then Some (None, s)
    else
      let c := start_writing (tp_ctx s) in
      let fillOffset := CurWritePosition c in
      let hwHdrLen :=
        if TxFrameType tb =? TX_AMSDU_FRAME then u16 (MpduHeaderLen tb - AMSDU_SUBHEAD_LEN + HdrPadLen tb + AMSDU_SUBHEAD_LEN)
        else if TxFrameType tb =? TX_RALINK_FRAME then u16 (MpduHeaderLen tb - ARALINK_HEADER_LEN + HdrPadLen tb + ARALINK_HEADER_LEN)
        else MpduHeaderLen tb + HdrPadLen tb in
      let tb := set_Priv (TXINFO_SIZE + TXWISize + hwHdrLen) tb in
      h ← upd_word (rlt_usb_write_txinfo (u16 (Priv tb)) false FIFO_EDCA 0) (HeaderBuf tb) 0;
      let tb := set_HeaderBuf h tb in
      hdr ← rd h 0 (Priv tb);
      m ← wr (WirelessPacket c) fillOffset hdr;
      let c := set_write_pos (CurWritePosition c) (CurWriteRealPos c + Priv tb) (set_WirelessPacket m c) in
      Some (Some (mk_local tb (fillOffset + Priv tb) 0 false), set_ctx c s)
  else if bCurWriting (tp_ctx s) then
    let c := tp_ctx s in
    let fillOffset := CurWritePosition c + Priv tb in
    hdr ← rd (HeaderBuf tb) 0 (MpduHeaderLen tb);
    m ← wr (WirelessPacket c) fillOffset hdr;
    Some (Some (mk_local (set_Priv (Priv tb + MpduHeaderLen tb) tb) (fillOffset + MpduHeaderLen tb) 0 false),
          set_ctx (set_WirelessPacket m c) s)
  else Some (None, s).

(** The payload goes behind the header; the packet is freed in any case. *)
Definition multi_copy (l : tx_local) (s : tx_pipe) : option (TX_BLK * tx_pipe) :=
  m ← wr (WirelessPacket (tp_ctx s)) (lo_pos l) (pSrcBufData (lo_tb l));
  let tb := set_Priv (Priv (lo_tb l) + SrcBufLen (lo_tb l)) (lo_tb l) in
  Some (tb, free_packet tb (set_ctx (set_WirelessPacket m (tp_ctx s)) s)).

Definition RtmpUSB_WriteMultiTxResource (frmNum : nat) (tb : TX_BLK) (s : tx_pipe) : option (bool * TX_BLK * tx_pipe) :=
  '(o, s) ← multi_begin frmNum tb s;
  match o with
  | None => Some (false, tb, free_packet tb s)
  | Some l => '(tb, s) ← multi_copy l s; Some (true, tb, s)
  end.

(** The length of the frame and of its MPDU, which were not known when the
    descriptors were written. *)
Definition set_lengths (USBDMApktLen totalMPDUSize : Z) (m : list Z) (p : Z) : option (list Z) :=
  m ← upd_word (set_PktLen USBDMApktLen) m p;
  upd_word (λ w, put_bits w 16 14 totalMPDUSize) m (p + TXINFO_SIZE + 4).

Definition RtmpUSB_FinalWriteTxResource (tb : TX_BLK) (totalMPDUSize : Z) (s : tx_pipe) : option tx_pipe :=
  let c := tp_ctx s in
  if bCurWriting c then
    let fillOffset := CurWritePosition c in
    let in_pad := ((ENextBulkOutPosition c =? CurWritePosition c) || (u64 (ENextBulkOutPosition c - 8) =? CurWritePosition c))
                  && bCopySavePad c in
    let USBDMApktLen := Priv tb - TXINFO_SIZE in
    let padding := pad4 USBDMApktLen in
    let USBDMApktLen := USBDMApktLen + padding in
    let cw := CurWritePosition c + (TXINFO_SIZE + USBDMApktLen) in
    let last := MAX_TXBULK_LIMIT <? cw + 3906 in
    let finish (m : list Z) (p : Z) :=
      m ← set_lengths (u16 USBDMApktLen) totalMPDUSize m p;
      if last then upd_word (set_SwLstRnd 1) m p else Some m in
    c ← (if in_pad then pad ← finish (SavedPad c) 0; Some (set_pad true pad c)
         else m ← finish (WirelessPacket c) fillOffset; Some (set_WirelessPacket m c));
    let cw := if last then 8 else cw in
    m ← wr (WirelessPacket c) (fillOffset + Priv tb) (zeros (Z.to_nat (padding + 8)));
    Some (set_ctx (set_bCurWriting false (set_write_pos cw cw (set_WirelessPacket m c))) s)
  else Some s.

(** * Bulk out *)

(** What the routine reads of the adapter: the flags that stop it (other than
    the reset of this pipe), the state of the link and of a scan, the packet
    size of the endpoint and whether frames are put together. *)
Record bulk_cfg := mk_bcfg {
  stop_tx : bool;
  media_connected : bool;
  scan_in_progress : bool;
  BulkOutMaxPacketSize : Z;
  usb_aggregation : bool
}.

(** The loop over the frames: the buffer, where the next transfer starts, the
    size, the end, the last frame, whether the buffer starts over, and the
    bytes counted.  A frame without a length ends the routine ([br_ok]). *)
Record bulk_run := mk_brun {
  br_ok : bool; br_mem : list Z; br_ENext : Z; br_size : Z; br_end : Z; br_last : option Z; br_round : bool; br_bytes : Z
}.

Definition size_limit (BulkOutMaxPacketSize ThisBulkSize phy_mode : Z) : bool :=
  let usb11 := (BulkOutMaxPacketSize <? 512) && negb (Z.land ThisBulkSize 0xfffff800 =? 0) in
  if negb (ThisBulkSize =? 0) && (phy_mode =? MODE_CCK)
  then negb (Z.land ThisBulkSize 0xffff8000 =? 0) || (Z.land ThisBulkSize 0x1000 =? 0x1000) || usb11
  else negb (Z.land ThisBulkSize 0xffffe000 =? 0) || (Z.land ThisBulkSize 0x6000 =? 0x6000) || usb11.

Section Bulk.
Context (cfg : bulk_cfg).

Fixpoint bulk_loop (fuel : nat) (cw : Z) (m : list Z) (ThisBulkSize TmpBulkEndPos : Z) (aggregation_num : nat)
    (pLastTxInfo : option Z) (bytes : Z) : option bulk_run :=
  match fuel with
  | O => None
  | S fuel =>
      info ← rd_word m TmpBulkEndPos;
      wi0 ← rd_word m (TmpBulkEndPos + TXINFO_SIZE);
      wi1 ← rd_word m (TmpBulkEndPos + TXINFO_SIZE + 4);
      let txwi_pkt_len := txwi_MPDUtotalByteCnt wi1 in
      if size_limit (BulkOutMaxPacketSize cfg) ThisBulkSize (txwi_PHYMODE wi0) || (TmpBulkEndPos =? cw)
      then Some (mk_brun true m TmpBulkEndPos ThisBulkSize TmpBulkEndPos pLastTxInfo false bytes)
      else if TxInfoPktLen info <=? 8 then Some (mk_brun false m TmpBulkEndPos ThisBulkSize TmpBulkEndPos pLastTxInfo false bytes)
      else
        let bytes := bytes + txwi_pkt_len in
        let n := TxInfoPktLen info + 4 in
        let EndPos := TmpBulkEndPos + n in
        let info := set_QSEL FIFO_EDCA info in
        let info := if EndPos =? cw then info else set_UDMANextVld 1 info in
        if TxInfoSwLstRnd info =? 1 then
          let info := if cw =? 8 then set_UDMANextVld 0 info else info in
          m ← wr m TmpBulkEndPos (le_bytes 4 (set_SwLstRnd 0 info));
          Some (mk_brun true m 8 (ThisBulkSize + n) EndPos (Some TmpBulkEndPos) true bytes)
        else
          m ← wr m TmpBulkEndPos (le_bytes 4 info);
          if Nat.eqb (S aggregation_num) 1 && negb (usb_aggregation cfg)
          then Some (mk_brun true m EndPos (ThisBulkSize + n) EndPos (Some TmpBulkEndPos) false bytes)
          else bulk_loop fuel cw m (ThisBulkSize + n) EndPos (S aggregation_num) (Some TmpBulkEndPos) bytes
  end.

(** The transfer is set up: the last frame has no next one, the first bytes
    behind the end are kept if they belong to a frame, and cleared. *)
Definition bulk_finish (r : bulk_run) (c : HT_TX_CONTEXT) : option HT_TX_CONTEXT :=
  m ← match br_last r with Some p => upd_word (set_UDMANextVld 0) (br_mem r) p | None => Some (br_mem r) end;
  let c := set_WirelessPacket m (set_bulk_pos (br_size r + 4) (NextBulkOutPosition c) (br_ENext r) c) in
  c ← (if negb (br_round r) &&
          (((ENextBulkOutPosition c =? CurWritePosition c) && (CurWritePosition c <? CurWriteRealPos c))
           || negb (ENextBulkOutPosition c =? CurWritePosition c))
       then pad ← rd m (ENextBulkOutPosition c) 8; Some (set_pad true pad c)
       else Some c);
  m ← wr m (br_end r) (zeros 8);
  Some (set_WirelessPacket m c).

(** The transfer reads [BulkOutSize] bytes from [NextBulkOutPosition] on. *)
Definition urb_data (c : HT_TX_CONTEXT) : option (list Z) :=
  rd (WirelessPacket c) (NextBulkOutPosition c) (BulkOutSize c).

(** [submit] is whether the USB stack takes the transfer. *)
Definition RTUSBBulkOutDataPacket (submit : bool) (s : tx_pipe) : option tx_pipe :=
  if BulkOutPending s || (stop_tx cfg || BULKOUT_RESET s) then Some s
  else if negb (media_connected cfg) then Some s
  else
    let c := tp_ctx s in
    let s := set_bulk_flags false false s in
    if (ENextBulkOutPosition c =? CurWritePosition c) || (u64 (ENextBulkOutPosition c - 8) =? CurWritePosition c)
    then Some s
    else
      let start := ENextBulkOutPosition c in
      m ← (if bCopySavePad c then wr (WirelessPacket c) start (SavedPad c) else Some (WirelessPacket c));
      let c := set_WirelessPacket m (set_pad false (SavedPad c) (set_bulk_pos (BulkOutSize c) start (ENextBulkOutPosition c) c)) in
      r ← bulk_loop (S (length m)) (CurWritePosition c) m 0 start 0 None 0;
      let s := count_transmitted (br_bytes r) s in
      if negb (br_ok r) then Some (set_ctx (set_WirelessPacket (br_mem r) c) s)
      else
        c ← bulk_finish r c;
        data ← urb_data c;
        let s := tx_log (Ev_urb data submit) s in
        if submit
        then Some (set_BulkOutPending true (set_counters (u64 (BulkOutReq s + 1)) (BulkOutComplete s) (BulkOutCompleteOther s)
                     (set_ctx (set_IRPPending true c) s)))
        else Some (set_ctx c s).

Definition RTUSBDataBulkOut (submit : bool) (s : tx_pipe) : option tx_pipe :=
  if bulk_NORMAL s && (negb (scan_in_progress cfg) || negb (media_connected cfg))
  then RTUSBBulkOutDataPacket submit s else Some s.

(** Completion, up to the next kick; [halting] are the flags that keep an
    error from starting a reset. *)
Definition rtusb_dataout_complete (ok halting : bool) (s : tx_pipe) : tx_pipe :=
  let s := set_BulkOutPending false (set_ctx (set_IRPPending false (tp_ctx s)) s) in
  let c := tp_ctx s in
  let s := if ok
           then set_counters (BulkOutReq s) (u64 (BulkOutComplete s + 1)) (BulkOutCompleteOther s)
                  (if ENextBulkOutPosition c =? CurWritePosition c then set_ctx (set_bRingEmpty true c) s else s)
           else let s := set_counters (BulkOutReq s) (BulkOutComplete s) (u64 (BulkOutCompleteOther s + 1)) s in
                if halting || BULKOUT_RESET s then s else set_BULKOUT_RESET true s in
  if negb (ENextBulkOutPosition c =? CurWritePosition c) && negb (ENextBulkOutPosition c =? CurWritePosition c + 8) && negb (bulk_FRAG s)
  then kick_flag s else s.

(** The reset after an error submits the same transfer again.  The branch of
    the test mode ([ATE_ON], rtusb_io.c:828), which resets the transfers of the
    test mode instead, is not modelled. *)
Definition ResetBulkOutHdlr (submit : bool) (s : tx_pipe) : option tx_pipe :=
  let s := set_BULKOUT_RESET false s in
  if BulkOutPending s then Some (kick_flag s)
  else
    let c := tp_ctx s in
    data ← urb_data c;
    let s := tx_log (Ev_urb_again data submit) s in
    Some (if submit then set_BulkOutPending true (set_ctx (set_IRPPending true c) s) else set_ctx (set_IRPPending false c) s).
End Bulk.

(** * Initialisation *)

(** What the allocation leaves in the buffer is [junk]. *)
Definition tx_context_init (junk : list Z) : HT_TX_CONTEXT :=
  mk_httx junk 0 false false true false (zeros 8) 0 0 0 0.
Definition tx_pipe_init (junk : list Z) : tx_pipe :=
  mk_pipe (tx_context_init junk) false false false false 0 0 0 0 0 [].
