(* ===== verification/TxRingSpec.v ===== *)
(** The transmit buffer as a queue of frames: what a frame looks like in the
    buffer and in a transfer, the machine in which the writer and the bulk-out
    routine of TxRing take turns, and the memory lemmas of its proofs.

    The machine is a harness around the functions of the driver: an operation
    is one stretch of code that runs under the lock (or without it, for the
    copy of the payload), a completion of the USB stack or a reset, and they
    may come in any order.  [tm_written] lists the frames whose writing was
    finished, as they should reach the device. *)

From S2P Require Import Prelude RxPacket RxRing TxRing.

(** * Frames *)

Definition txinfo_of (f : list Z) : Z := le_word (take 4 f).
Definition with_txinfo (g : Z → Z) (f : list Z) : list Z := le_bytes 4 (g (txinfo_of f)) ++ drop 4 f.
(** A frame that is followed by another one in the transfer. *)
Definition followed (f : list Z) : list Z := with_txinfo (set_UDMANextVld 1) f.
(** A frame after which the buffer starts over. *)
Definition flagged (f : list Z) : list Z := with_txinfo (set_SwLstRnd 1) f.

(** The frame that a request asks for: descriptor, TXWI and header, payload,
    padding. *)
Definition frame_header (tb : TX_BLK) : Z := TXWISize + TSO_SIZE + MpduHeaderLen tb + HdrPadLen tb.
Definition frame_pad (tb : TX_BLK) : Z := pad4 (frame_header tb + SrcBufLen tb).
Definition frame_len (tb : TX_BLK) : Z := frame_header tb + SrcBufLen tb + frame_pad tb.
Definition frame_of (tb : TX_BLK) : list Z :=
  le_bytes 4 (rlt_usb_write_txinfo (frame_len tb) false FIFO_EDCA 0 (txinfo_of (HeaderBuf tb)))
  ++ take (Z.to_nat (frame_header tb)) (drop 4 (HeaderBuf tb)) ++ pSrcBufData tb ++ zeros (Z.to_nat (frame_pad tb)).

(** The bytes of a transfer: every frame but the last announces the next, and
    four zeros end it. *)
Fixpoint marked (fs : list (list Z)) : list (list Z) :=
  match fs with
  | [] => []
  | [f] => [f]
  | f :: fs => followed f :: marked fs
  end.
Definition batch_data (fs : list (list Z)) : list Z := concat (marked fs) ++ zeros 4.

(** A transfer has at least one frame, and one is added only while there are
    less than 32 KB. *)
Definition batch_ok (fs : list (list Z)) : Prop := ∃ fs' f, fs = fs' ++ [f] ∧ Z.of_nat (length (concat fs')) < 2 ^ 15.

(** A frame of at most 2032 bytes with its descriptor. *)
Record request_ok (tb : TX_BLK) : Prop := {
  ro_header : length (HeaderBuf tb) = 128%nat;
  ro_bytes : bytes (HeaderBuf tb);
  ro_mpdu : 0 ≤ MpduHeaderLen tb;
  ro_pad : 0 ≤ HdrPadLen tb;
  ro_room : frame_header tb ≤ 124;
  ro_size : frame_len tb + 4 ≤ 2032
}.

(** * The machine *)

Inductive tx_writer :=
| W_idle
| W_copy (tb : TX_BLK) (l : tx_local)
| W_end (tb : TX_BLK) (l : tx_local).

Record tx_machine := mk_txm { tm_pipe : tx_pipe; tm_writer : tx_writer; tm_written : list (list Z) }.

Inductive tx_op :=
| Op_single (tb : TX_BLK)                    (* the writer takes a frame *)
| Op_writer                                  (* the writer goes on *)
| Op_bulk (cfg : bulk_cfg) (submit : bool)   (* a kick, from whoever *)
| Op_complete (ok halting : bool)            (* the transfer is over *)
| Op_reset (submit : bool).                  (* the reset after an error *)

Definition tx_step (op : tx_op) (t : tx_machine) : option tx_machine :=
  let s := tm_pipe t in
  match op, tm_writer t with
  | Op_single tb, W_idle =>
      '(o, s) ← single_begin tb s;
      Some (mk_txm s (match o with Some l => W_copy tb l | None => W_idle end) (tm_written t))
  | Op_single _, _ => Some t
  | Op_writer, W_idle => Some t
  | Op_writer, W_copy tb l => s ← single_copy l s; Some (mk_txm s (W_end tb l) (tm_written t))
  | Op_writer, W_end tb l => Some (mk_txm (single_end l s) W_idle (tm_written t ++ [frame_of tb]))
  | Op_bulk cfg submit, w => s ← RTUSBDataBulkOut cfg submit (kick_flag s); Some (mk_txm s w (tm_written t))
  | Op_complete ok halting, w =>
      Some (if tx_IRPPending (tp_ctx s) then mk_txm (rtusb_dataout_complete ok halting s) w (tm_written t) else t)
  | Op_reset submit, w =>
      if BULKOUT_RESET s then s ← ResetBulkOutHdlr submit s; Some (mk_txm s w (tm_written t)) else Some t
  end.

Fixpoint tx_run (ops : list tx_op) (t : tx_machine) : option tx_machine :=
  match ops with
  | [] => Some t
  | op :: ops => t ← tx_step op t; tx_run ops t
  end.

Definition tx_start (junk : list Z) : tx_machine := mk_txm (tx_pipe_init junk) W_idle [].

Definition op_ok (op : tx_op) : Prop := match op with Op_single tb => request_ok tb | _ => True end.

(** The transfers of a log, each with whether the USB stack took it, and that
    every one submitted again repeats the one before it. *)
Definition urbs (l : list tx_event) : list (list Z * bool) := omap (λ e, match e with Ev_urb d ok => Some (d, ok) | _ => None end) l.
Fixpoint repeats (prev : list Z) (l : list tx_event) : Prop :=
  match l with
  | [] => True
  | Ev_urb d _ :: l => repeats d l
  | Ev_urb_again d _ :: l => d = prev ∧ repeats prev l
  | Ev_kfree _ :: l => repeats prev l
  end.

(** The rounds that empty the buffer: after what is under way, [n] transfers
    that succeed. *)
Definition drain (cfg : bulk_cfg) (n : nat) : list tx_op :=
  Op_reset true :: Op_complete true true :: concat (replicate n [Op_bulk cfg true; Op_complete true true]).

(** What the last transfer carries. *)
Definition last_data (l : list tx_event) : list Z := default [] (last (urbs l).*1).

(** The frames of the transfers that the USB stack took, or refused. *)
Definition frames_of (ok : bool) (batches : list (list (list Z) * bool)) : list (list Z) :=
  concat (filter (λ b, b.2 = ok) batches).*1.
Definition batch_urb (b : list (list Z) * bool) : list Z * bool := (batch_data b.1, b.2).
Definition none_refused (batches : list (list (list Z) * bool)) : Prop := Forall (λ b, b.2 = true) batches.
(** No submission is refused. *)
Definition op_taken (op : tx_op) : Prop := match op with Op_bulk _ submit => submit = true | _ => True end.

(** * Lemmas on memory *)

Lemma wr_length m p x m' : wr m p x = Some m' → length m' = length m.
Proof. unfold wr. destruct (_ && _) eqn:E; [|done]. intros [= <-]. apply length_bwrite. lia. Qed.

Lemma wr_split m p x m' : wr m p x = Some m' →
  ∃ pre old post, m = pre ++ old ++ post ∧ length old = length x ∧ p = Z.of_nat (length pre) ∧ m' = pre ++ x ++ post.
Proof.
  unfold wr. destruct (_ && _) eqn:E; [|done]. intros [= <-]. unfold bwrite.
  exists (take (Z.to_nat p) m), (take (length x) (drop (Z.to_nat p) m)), (drop (Z.to_nat p + length x) m).
  split_and!.
  - by rewrite <- drop_drop, take_drop, take_drop.
  - rewrite length_take, length_drop. lia.
  - apply andb_prop in E as [E1%Z.leb_le E2%Z.leb_le]. rewrite length_take, Nat.min_l, Z2Nat.id; lia.
  - done.
Qed.

Lemma wr_rd_same m p x m' : wr m p x = Some m' → rd m' p (Z.of_nat (length x)) = Some x.
Proof. intros H. apply wr_split in H as (pre & old & post & -> & El & -> & ->). by eapply rd_at. Qed.

(** What was read elsewhere is still there. *)
Lemma wr_rd_other m p x m' a n y : wr m p x = Some m' → rd m a n = Some y →
  a + n ≤ p ∨ p + Z.of_nat (length x) ≤ a → rd m' a n = Some y.
Proof.
  intros Hw Hr Hd. pose proof (wr_length _ _ _ _ Hw) as Hl. apply wr_split in Hw as (pre & old & post & -> & El & -> & ->).
  revert Hr. unfold rd. rewrite Hl. destruct (_ && _) eqn:E; [|done]. intros [= <-]. f_equal. rewrite !length_app in E.
  destruct Hd as [Hd|Hd].
  - rewrite !drop_app_le by lia. rewrite !take_app_le by (rewrite length_drop; lia). done.
  - rewrite !drop_app_ge by lia. by rewrite El.
Qed.

Lemma rd_app_l m p x y : rd m p (Z.of_nat (length (x ++ y))) = Some (x ++ y) → rd m p (Z.of_nat (length x)) = Some x.
Proof.
  intros H. apply rd_split in H as (pre & post & -> & ->). eapply (rd_at pre x (y ++ post)); [by rewrite <- app_assoc|done..].
Qed.

Lemma rd_app_r m p x y : rd m p (Z.of_nat (length (x ++ y))) = Some (x ++ y) →
  rd m (p + Z.of_nat (length x)) (Z.of_nat (length y)) = Some y.
Proof.
  intros H. apply rd_split in H as (pre & post & -> & ->).
  eapply (rd_at (pre ++ x) y post); [by rewrite <- !app_assoc|rewrite length_app; lia|done].
Qed.

Lemma rd_snoc m p x y : rd m p (Z.of_nat (length x)) = Some x → rd m (p + Z.of_nat (length x)) (Z.of_nat (length y)) = Some y →
  rd m p (Z.of_nat (length (x ++ y))) = Some (x ++ y).
Proof. intros H1 H2. rewrite length_app, Nat2Z.inj_add. by apply rd_app. Qed.

