(* ===== verification/TxRingProofs.v ===== *)
(** Lemmas for the transmit buffer: the fields of a descriptor, the frames, and
    the walk of the bulk-out routine over them. *)

From S2P Require Import Prelude RxPacket RxRing TxRing TxRingSpec.

(** * Fields of a word *)

Lemma put_bits_spec w o n v i : 0 ≤ o → 0 ≤ n → 0 ≤ i →
  Z.testbit (put_bits w o n v) i = if (o <=? i) && (i <? o + n) then Z.testbit v (i - o) else Z.testbit w i.
Proof.
  intros Ho Hn Hi. unfold put_bits. rewrite Z.lor_spec, Z.ldiff_spec, !Z.shiftl_spec, Z.land_spec by lia.
  destruct (Z.leb_spec o i); cbn [andb].
  - rewrite !Z.testbit_ones by lia. destruct (Z.ltb_spec i (o + n)).
    + replace (0 <=? i - o) with true by lia. replace (i - o <? n) with true by lia. cbn [andb negb].
      by rewrite andb_false_r, andb_true_r.
    + replace (i - o <? n) with false by lia. rewrite andb_false_r, andb_false_r. cbn [negb]. by rewrite andb_true_r, orb_false_r.
  - rewrite !(Z.testbit_neg_r _ (i - o)) by lia. cbn [negb andb]. by rewrite andb_true_r, orb_false_r.
Qed.

Lemma bits_at_spec w o n i : 0 ≤ o → 0 ≤ n → 0 ≤ i →
  Z.testbit (bits_at w o n) i = (i <? n) && Z.testbit w (i + o).
Proof.
  intros. unfold bits_at. rewrite Z.land_spec, Z.shiftr_spec, Z.testbit_ones by lia.
  replace (0 <=? i) with true by lia. cbn [andb]. apply andb_comm.
Qed.

Lemma put_bits_range w o n v : 0 ≤ o → 0 ≤ n → o + n ≤ 32 → word32 w → word32 (put_bits w o n v).
Proof.
  intros Ho Hn H Hw. apply in_range_intro; [lia| |].
  - unfold put_bits. apply Z.lor_nonneg. split; [apply Z.ldiff_nonneg; left; apply Hw|].
    apply Z.shiftl_nonneg, Z.land_nonneg. right. rewrite Z.ones_equiv. pose proof (Z.pow_pos_nonneg 2 n). lia.
  - intros i Hi. rewrite put_bits_spec by lia. replace (i <? o + n) with false by lia. rewrite andb_false_r.
    by apply (in_range_testbit 32).
Qed.

(** Decides an equation between words of which the fields were set. *)
Ltac field_bits i :=
  apply Z.bits_inj'; intros i ?;
  rewrite ?bits_at_spec, ?put_bits_spec by lia;
  repeat match goal with |- context [?a <=? ?b] => destruct (Z.leb_spec a b) end;
  repeat match goal with |- context [?a <? ?b] => destruct (Z.ltb_spec a b) end;
  cbn [andb]; try done; try lia.

Lemma pktlen_put w o n v : 16 ≤ o → 0 ≤ n → TxInfoPktLen (put_bits w o n v) = TxInfoPktLen w.
Proof.
  intros Ho Hn. apply Z.bits_inj'. intros i Hi. unfold TxInfoPktLen. rewrite !bits_at_spec, put_bits_spec by lia.
  destruct (Z.ltb_spec i 16); cbn [andb]; [|done]. by replace (o <=? i + 0) with false by lia.
Qed.

Lemma swlst_put w o n v : 0 ≤ o → 0 ≤ n → (18 < o ∨ o + n ≤ 18) → TxInfoSwLstRnd (put_bits w o n v) = TxInfoSwLstRnd w.
Proof.
  intros Ho Hn Hd. apply Z.bits_inj'. intros i Hi. unfold TxInfoSwLstRnd. rewrite !bits_at_spec, put_bits_spec by lia.
  destruct (Z.ltb_spec i 1); cbn [andb]; [|done]. destruct ((o <=? i + 18) && (i + 18 <? o + n)) eqn:E; [lia|done].
Qed.

Lemma swlst_bit w : TxInfoSwLstRnd w = Z.b2z (Z.testbit w 18).
Proof.
  apply Z.bits_inj'. intros i Hi. unfold TxInfoSwLstRnd. rewrite bits_at_spec by lia. destruct (Z.ltb_spec i 1); cbn [andb].
  - replace i with 0 by lia. by rewrite Z.b2z_bit0.
  - symmetry. apply (in_range_testbit 1); [|lia]. destruct (Z.testbit w 18); unfold in_range; cbn; lia.
Qed.

(** * Frames *)

Record frame_ok (f : list Z) : Prop := {
  fk_bytes : bytes (take 4 f);
  fk_len : Z.of_nat (length f) = TxInfoPktLen (txinfo_of f) + 4;
  fk_min : 8 < TxInfoPktLen (txinfo_of f);
  fk_next : Z.testbit (txinfo_of f) 16 = false;
  fk_round : Z.testbit (txinfo_of f) 18 = false;
  fk_qsel : Z.testbit (txinfo_of f) 25 = false ∧ Z.testbit (txinfo_of f) 26 = true
}.

Lemma frame_length f : frame_ok f → (13 ≤ length f)%nat.
Proof. intros []. lia. Qed.

Lemma txinfo_word32 f : frame_ok f → word32 (txinfo_of f).
Proof.
  intros H. pose proof (frame_length f H). pose proof (le_word_range _ (fk_bytes f H)) as Hr.
  by rewrite length_take, Nat.min_l in Hr by lia.
Qed.

Lemma le_word_word w : word32 w → le_word (le_bytes 4 w) = w.
Proof. intros Hw. rewrite le_word_le_bytes. by apply wrap_id. Qed.

Lemma split_txinfo f : frame_ok f → f = le_bytes 4 (txinfo_of f) ++ drop 4 f.
Proof.
  intros H. pose proof (frame_length f H). rewrite <- (take_drop 4 f) at 1. f_equal. unfold txinfo_of.
  rewrite <- (le_bytes_le_word (take 4 f)) at 1 by apply H. rewrite length_take, Nat.min_l by lia. done.
Qed.

Lemma length_with_txinfo g f : (4 ≤ length f)%nat → length (with_txinfo g f) = length f.
Proof. intros. unfold with_txinfo. rewrite length_app, length_le_bytes, length_drop. lia. Qed.

Lemma txinfo_with g f : word32 (g (txinfo_of f)) → txinfo_of (with_txinfo g f) = g (txinfo_of f).
Proof.
  intros. unfold txinfo_of at 1, with_txinfo. rewrite take_app_le, take_ge by (rewrite length_le_bytes; lia). by apply le_word_word.
Qed.

Lemma drop_with g f : drop 4 (with_txinfo g f) = drop 4 f.
Proof. unfold with_txinfo. by rewrite drop_app_ge, length_le_bytes by (rewrite length_le_bytes; lia). Qed.

Lemma with_id f : frame_ok f → with_txinfo (λ w, w) f = f.
Proof. intros H. symmetry. by apply split_txinfo. Qed.

#[export] Hint Resolve put_bits_range txinfo_word32 : word.

Section Words.
Context (f : list Z) (Hf : frame_ok f).
#[local] Abbreviation w := (txinfo_of f).

(** The bits of [w] that are known. *)
Ltac known i :=
  field_bits i;
  first [replace i with 16 by lia; rewrite ?(fk_next f Hf); done
        |replace i with 18 by lia; rewrite ?(fk_round f Hf); done
        |replace i with 25 by lia; rewrite ?(proj1 (fk_qsel f Hf)); done
        |replace i with 26 by lia; rewrite ?(proj2 (fk_qsel f Hf)); done
        |idtac].

Lemma qsel_edca : set_QSEL FIFO_EDCA w = w.
Proof. unfold set_QSEL, FIFO_EDCA. known i. destruct (decide (i = 25)) as [->|]; [by rewrite (proj1 (fk_qsel f Hf))|]. replace i with 26 by lia. by rewrite (proj2 (fk_qsel f Hf)). Qed.

Lemma qsel_flagged : set_QSEL FIFO_EDCA (set_SwLstRnd 1 w) = set_SwLstRnd 1 w.
Proof.
  unfold set_QSEL, set_SwLstRnd, FIFO_EDCA. known i.
  destruct (decide (i = 25)) as [->|]; [by rewrite (proj1 (fk_qsel f Hf))|]. replace i with 26 by lia. by rewrite (proj2 (fk_qsel f Hf)).
Qed.

Lemma unflag : set_SwLstRnd 0 (set_SwLstRnd 1 w) = w.
Proof. unfold set_SwLstRnd. known i. Qed.

Lemma unflag_next : set_SwLstRnd 0 (set_UDMANextVld 1 (set_SwLstRnd 1 w)) = set_UDMANextVld 1 w.
Proof. unfold set_SwLstRnd, set_UDMANextVld. known i. Qed.

Lemma unflag_unnext : set_SwLstRnd 0 (set_UDMANextVld 0 (set_UDMANextVld 1 (set_SwLstRnd 1 w))) = w.
Proof. unfold set_SwLstRnd, set_UDMANextVld. known i. Qed.

Lemma unflag_unnext' : set_SwLstRnd 0 (set_UDMANextVld 0 (set_SwLstRnd 1 w)) = w.
Proof. unfold set_SwLstRnd, set_UDMANextVld. known i. Qed.

Lemma unnext : set_UDMANextVld 0 (set_UDMANextVld 1 w) = w.
Proof. unfold set_UDMANextVld. known i. Qed.

Lemma unnext' : set_UDMANextVld 0 w = w.
Proof. unfold set_UDMANextVld. known i. Qed.

Lemma round_zero : TxInfoSwLstRnd w = 0.
Proof. by rewrite swlst_bit, (fk_round f Hf). Qed.
End Words.

(** * Reading and writing descriptors *)

#[local] Abbreviation len l := (Z.of_nat (length l)).

Lemma rd_word_at pre f post p : (4 ≤ length f)%nat → p = len pre → rd_word (pre ++ f ++ post) p = Some (txinfo_of f).
Proof.
  intros Hl ->. unfold rd_word. rewrite (rd_at pre (take 4 f) (drop 4 f ++ post)); [done| |done|].
  - rewrite (app_assoc (take 4 f)), take_drop. done.
  - rewrite length_take, Nat.min_l by lia. done.
Qed.

Lemma wr_word_at pre f post p w : (4 ≤ length f)%nat → p = len pre →
  wr (pre ++ f ++ post) p (le_bytes 4 w) = Some (pre ++ (le_bytes 4 w ++ drop 4 f) ++ post).
Proof.
  intros Hl ->. rewrite (wr_at pre (take 4 f) (drop 4 f ++ post)); [by rewrite <- app_assoc| |done|].
  - rewrite (app_assoc (take 4 f)), take_drop. done.
  - rewrite length_le_bytes, length_take. lia.
Qed.

Lemma rd_word_inside m p : 0 ≤ p → p + 4 ≤ len m → is_Some (rd_word m p).
Proof. intros. unfold rd_word. destruct (rd_inside m p 4) as (x & -> & _); [lia..|]. by eexists. Qed.

Lemma frame_word f g : frame_ok f → g (txinfo_of f) = txinfo_of f → le_bytes 4 (g (txinfo_of f)) ++ drop 4 f = f.
Proof. intros Hf ->. symmetry. by apply split_txinfo. Qed.

(** * The walk over the frames *)

(** The frames in the buffer; the last one has the flag to start over. *)
Fixpoint stored (fl : bool) (q : list (list Z)) : list (list Z) :=
  match q with
  | [] => []
  | [f] => [if fl then flagged f else f]
  | f :: q => f :: stored fl q
  end.

Lemma stored_cons fl f q : q ≠ [] → stored fl (f :: q) = f :: stored fl q.
Proof. by destruct q. Qed.

Lemma stored_false q : stored false q = q.
Proof. induction q as [|f [|g q] IH]; [done..|]. rewrite stored_cons by done. by rewrite IH. Qed.

Lemma stored_app fl q1 q2 : q2 ≠ [] → stored fl (q1 ++ q2) = q1 ++ stored fl q2.
Proof.
  intros Hq. induction q1 as [|f q1 IH]; [done|]. cbn [app]. rewrite stored_cons, IH; [done|]. by destruct q1.
Qed.

Lemma length_stored fl q : Forall frame_ok q → length (concat (stored fl q)) = length (concat q).
Proof.
  induction 1 as [|f q Hf Hq IH]; [done|]. pose proof (frame_length f Hf). destruct q as [|g q].
  - simpl. rewrite !app_nil_r. destruct fl; [apply length_with_txinfo; lia|done].
  - rewrite stored_cons, !(concat_cons f), !length_app, IH by done. done.
Qed.

Lemma length_followed f : frame_ok f → length (followed f) = length f.
Proof. intros Hf. pose proof (frame_length f Hf). apply length_with_txinfo. lia. Qed.

(** What the walk leaves: a run [qa] of the frames is taken. *)
Record walked (fl : bool) (pre : list Z) (q : list (list Z)) (post : list Z) (size : Z) (pl : option Z)
    (r : bulk_run) (qa qb : list (list Z)) : Prop := {
  wk_split : q = qa ++ qb;
  wk_ok : br_ok r = true;
  wk_size : br_size r = size + len (concat qa);
  wk_end : br_end r = len pre + len (concat qa);
  wk_round : br_round r = fl && bool_decide (qb = []);
  wk_next : br_ENext r = if br_round r then 8 else br_end r;
  wk_mem : (qa = [] ∧ br_mem r = pre ++ concat (stored fl q) ++ post ∧ br_last r = pl) ∨
    ∃ qa' f z, qa = qa' ++ [f] ∧ (z = f ∨ z = followed f) ∧ br_last r = Some (len pre + len (concat qa')) ∧
      br_mem r = pre ++ concat (map followed qa') ++ z ++ concat (stored fl qb) ++ post
}.

(** The first frame was taken with the descriptor [z], the walk went on. *)
Lemma walked_cons fl pre f z q post size pl r qa qb :
  frame_ok f → (z = f ∨ z = followed f) → (q ≠ [] → z = followed f) →
  walked fl (pre ++ z) q post (size + len f) (Some (len pre)) r qa qb → walked fl pre (f :: q) post size pl r (f :: qa) qb.
Proof.
  intros Hf Hz Hq [-> Ho Hs He Hr Hn Hm]. assert (Lz : length z = length f) by (destruct Hz as [->| ->]; [done|by apply length_followed]).
  split; try done; cbn [concat]; rewrite ?length_app, ?Hs, ?He, ?length_app, ?Lz; [lia|lia|].
  right. destruct Hm as [(-> & Em & El)|(qa' & g & z' & -> & Hz' & El & Em)].
  - exists [], f, z. split_and!; [done|done|rewrite El; cbn; f_equal; lia|]. rewrite Em. cbn. by rewrite <- app_assoc.
  - exists (f :: qa'), g, z'. split_and!; [done|done|rewrite El; f_equal; cbn [concat]; rewrite !length_app, Lz; lia|].
    rewrite Em. cbn [map concat]. rewrite Hq by (by destruct qa'). by rewrite <- !app_assoc.
Qed.

Lemma size_limit_first max phy : size_limit max 0 phy = false.
Proof. unfold size_limit. cbn [Z.eqb negb andb Z.land]. by rewrite andb_false_r. Qed.

(** The walk stops in front of the frames. *)
Lemma walked_stop fl pre q post size pl bytes : (fl = true → q ≠ []) →
  walked fl pre q post size pl (mk_brun true (pre ++ concat (stored fl q) ++ post) (len pre) size (len pre) pl false bytes) [] q.
Proof.
  intros Hq. split; cbn; [done|done|lia|lia| |lia|by left]. destruct fl; [|done]. rewrite bool_decide_false; [done|by apply Hq].
Qed.

(** It stops behind the frame [f]. *)
Lemma walked_one fl pre f z q post size pl r :
  frame_ok f → (z = f ∨ z = followed f) → (q ≠ [] → z = followed f) → (fl = true → q ≠ []) →
  r = mk_brun true (pre ++ z ++ concat (stored fl q) ++ post) (len pre + len f) (size + len f) (len pre + len f) (Some (len pre)) false (br_bytes r) →
  walked fl pre (f :: q) post size pl r [f] q.
Proof.
  intros Hf Hz Hq Hfl ->. assert (Lz : length z = length f) by (destruct Hz as [->| ->]; [done|by apply length_followed]).
  eapply (walked_cons fl pre f z); [done|done|done|].
  replace (mk_brun _ _ _ _ _ _ _ _) with
    (mk_brun true ((pre ++ z) ++ concat (stored fl q) ++ post) (len (pre ++ z)) (size + len f) (len (pre ++ z)) (Some (len pre)) false (br_bytes r)).
  - by apply walked_stop.
  - rewrite length_app, Lz, <- app_assoc, Nat2Z.inj_add. done.
Qed.

(** The last frame of the round. *)
Lemma walked_round pre f z post size pl r :
  frame_ok f → (z = f ∨ z = followed f) →
  r = mk_brun true (pre ++ z ++ post) 8 (size + len f) (len pre + len f) (Some (len pre)) true (br_bytes r) →
  walked true pre [f] post size pl r [f] [].
Proof.
  intros Hf Hz ->. split; cbn; rewrite ?app_nil_r; try done. right. exists [], f, z. split_and!; [done|done|cbn; f_equal; lia|done].
Qed.

Section Walk.
Context (cfg : bulk_cfg).

(** One turn, up to the decision what to do with the frame. *)
Lemma loop_turn fuel cw pre g post size num pl bytes :
  (4 ≤ length g)%nat → (8 ≤ length (drop 4 g ++ post))%nat →
  ∃ wi0 wi1,
  bulk_loop cfg (S fuel) cw (pre ++ g ++ post) size (len pre) num pl bytes =
  if size_limit (BulkOutMaxPacketSize cfg) size (txwi_PHYMODE wi0) || (len pre =? cw)
  then Some (mk_brun true (pre ++ g ++ post) (len pre) size (len pre) pl false bytes)
  else if TxInfoPktLen (txinfo_of g) <=? 8 then Some (mk_brun false (pre ++ g ++ post) (len pre) size (len pre) pl false bytes)
  else
    let bytes := bytes + txwi_MPDUtotalByteCnt wi1 in
    let n := TxInfoPktLen (txinfo_of g) + 4 in
    let EndPos := len pre + n in
    let info := set_QSEL FIFO_EDCA (txinfo_of g) in
    let info := if EndPos =? cw then info else set_UDMANextVld 1 info in
    if TxInfoSwLstRnd info =? 1 then
      let info := if cw =? 8 then set_UDMANextVld 0 info else info in
      Some (mk_brun true (pre ++ (le_bytes 4 (set_SwLstRnd 0 info) ++ drop 4 g) ++ post) 8 (size + n) EndPos (Some (len pre)) true bytes)
    else
      let m := pre ++ (le_bytes 4 info ++ drop 4 g) ++ post in
      if Nat.eqb (S num) 1 && negb (usb_aggregation cfg)
      then Some (mk_brun true m EndPos (size + n) EndPos (Some (len pre)) false bytes)
      else bulk_loop cfg fuel cw m (size + n) EndPos (S num) (Some (len pre)) bytes.
Proof.
  intros Hg Hl. rewrite length_app, length_drop in Hl.
  destruct (rd_word_inside (pre ++ g ++ post) (len pre + TXINFO_SIZE)) as [wi0 E0]; [unfold TXINFO_SIZE; lia|unfold TXINFO_SIZE; rewrite !length_app; lia|].
  destruct (rd_word_inside (pre ++ g ++ post) (len pre + TXINFO_SIZE + 4)) as [wi1 E1]; [unfold TXINFO_SIZE; lia|unfold TXINFO_SIZE; rewrite !length_app; lia|].
  exists wi0, wi1. cbn [bulk_loop]. rewrite (rd_word_at pre g post (len pre)) by (done || lia). cbn [mbind option_bind]. rewrite E0, E1. cbn [mbind option_bind].
  destruct (_ || _); [done|]. destruct (_ <=? 8); [done|]. cbv zeta.
  destruct (TxInfoSwLstRnd _ =? 1); rewrite wr_word_at by done; cbn [mbind option_bind]; [|by destruct (_ && _)].
  done.
Qed.

Lemma flagged_info f : frame_ok f → txinfo_of (flagged f) = set_SwLstRnd 1 (txinfo_of f).
Proof. intros Hf. apply txinfo_with. apply put_bits_range; [lia..|]. by apply txinfo_word32. Qed.

(** The last frame of a round ends the walk. *)
Lemma walk_flagged fuel f pre post size num pl bytes cw :
  frame_ok f → (8 ≤ length post)%nat → cw < len pre →
  ∃ r qa qb, bulk_loop cfg (S fuel) cw (pre ++ flagged f ++ post) size (len pre) num pl bytes = Some r ∧
    walked true pre [f] post size pl r qa qb ∧ (size = 0 → qa ≠ []).
Proof.
  intros Hf Hp Hcw. pose proof (frame_length f Hf) as Lf.
  destruct (loop_turn fuel cw pre (flagged f) post size num pl bytes) as (wi0 & wi1 & ->).
  { unfold flagged. rewrite length_with_txinfo; lia. } { rewrite length_app. lia. }
  rewrite flagged_info, (qsel_flagged f) by done. unfold flagged at 3 4. rewrite drop_with.
  rewrite (proj2 (Z.eqb_neq (len pre) cw)), orb_false_r by lia.
  destruct (size_limit _ _ _) eqn:El.
  { eexists _, [], [f]. split; [done|]. split; [|intros ->; by rewrite size_limit_first in El].
    replace (pre ++ flagged f ++ post) with (pre ++ concat (stored true [f]) ++ post) by (cbn; by rewrite app_nil_r). by apply walked_stop. }
  assert (EP : TxInfoPktLen (set_SwLstRnd 1 (txinfo_of f)) = TxInfoPktLen (txinfo_of f)) by (apply pktlen_put; lia).
  pose proof (fk_min f Hf). pose proof (fk_len f Hf). cbv zeta. rewrite !EP. replace (_ <=? 8) with false by lia.
  rewrite !(proj2 (Z.eqb_neq (len pre + _) cw)) by lia.
  replace (TxInfoSwLstRnd (set_UDMANextVld 1 (set_SwLstRnd 1 (txinfo_of f)))) with 1.
  2: { unfold set_UDMANextVld. rewrite swlst_put by lia. rewrite swlst_bit. unfold set_SwLstRnd. by rewrite put_bits_spec. }
  eexists _, [f], []. split; [done|]. split; [|done].
  eapply (walked_round pre f (le_bytes 4 _ ++ drop 4 f)); [done| |cbn [br_bytes]; f_equal; lia].
  destruct (cw =? 8); [left; rewrite unflag_unnext by done; by apply (frame_word f (λ w, w))|right; by rewrite unflag_next].
Qed.

(** Behind the last frame it ends, at the write position. *)
Lemma walk_nil fuel pre post size num pl bytes : (12 ≤ length post)%nat →
  ∃ r qa qb, bulk_loop cfg (S fuel) (len pre) (pre ++ post) size (len pre) num pl bytes = Some r ∧
    walked false pre [] post size pl r qa qb.
Proof.
  intros Hp. destruct (loop_turn fuel (len pre) pre (take 4 post) (drop 4 post) size num pl bytes) as (wi0 & wi1 & E).
  { rewrite length_take. lia. } { rewrite length_app, !length_drop. lia. }
  rewrite take_drop, Z.eqb_refl, orb_true_r in E. eexists _, [], []. split; [exact E|]. by apply (walked_stop false pre []).
Qed.

Lemma bulk_walk fl q : ∀ fuel pre post size num pl bytes cw,
  Forall frame_ok q → (length q < fuel)%nat → (12 ≤ length post)%nat →
  (if (fl : bool) then q ≠ [] ∧ cw < len pre else cw = len pre + len (concat q)) →
  ∃ r (qa qb : list (list Z)), bulk_loop cfg fuel cw (pre ++ concat (stored fl q) ++ post) size (len pre) num pl bytes = Some r ∧
    walked fl pre q post size pl r qa qb ∧ (size = 0 → q ≠ [] → qa ≠ []).
Proof.
  induction q as [|f q IH]; intros fuel pre post size num pl bytes cw Hq Hfu Hp Hcw; (destruct fuel as [|fuel]; [lia|]).
  { destruct fl; [by destruct Hcw|]. cbn [concat length Z.of_nat] in Hcw. rewrite Z.add_0_r in Hcw. subst cw.
    destruct (walk_nil fuel pre post size num pl bytes Hp) as (r & qa & qb & ? & ?). by exists r, qa, qb. }
  apply Forall_cons in Hq as [Hf Hq]. pose proof (frame_length f Hf) as Lf.
  destruct (decide (fl = true ∧ q = [])) as [[-> ->]|Hno].
  { destruct (walk_flagged fuel f pre post size num pl bytes cw) as (r & qa & qb & E & Hw & Hn); [done|lia|apply Hcw|].
    exists r, qa, qb. cbn [stored concat]. rewrite app_nil_r. split; [exact E|]. split; [done|]. intros Hs _. by apply Hn. }
  assert (Es : concat (stored fl (f :: q)) = f ++ concat (stored fl q)).
  { destruct q; [|by rewrite stored_cons]. destruct fl; [by destruct Hno|done]. }
  assert (Hfl : fl = true → q ≠ []) by naive_solver.
  set (tl := concat (stored fl q) ++ post). assert (Lt : (12 ≤ length tl)%nat) by (unfold tl; rewrite length_app; lia).
  destruct (loop_turn fuel cw pre f tl size num pl bytes) as (wi0 & wi1 & E); [lia|rewrite length_app; lia|].
  rewrite Es, <- app_assoc. fold tl. rewrite E. clear E. rewrite (qsel_edca f Hf).
  pose proof (fk_min f Hf). pose proof (fk_len f Hf).
  assert (Ne : len pre ≠ cw) by (destruct fl; [destruct Hcw; lia|cbn [concat] in Hcw; rewrite length_app in Hcw; lia]).
  rewrite (proj2 (Z.eqb_neq _ _) Ne), orb_false_r. destruct (size_limit _ _ _) eqn:El.
  { eexists _, [], (f :: q). split; [done|]. split; [|intros ->; by rewrite size_limit_first in El].
    unfold tl. rewrite (app_assoc f), <- Es. apply walked_stop. intros _. done. }
  replace (_ <=? 8) with false by lia. cbv zeta. replace (TxInfoPktLen (txinfo_of f) + 4) with (len f) by lia.
  set (z := le_bytes 4 (if len pre + len f =? cw then txinfo_of f else set_UDMANextVld 1 (txinfo_of f)) ++ drop 4 f).
  assert (Hz : z = f ∨ z = followed f) by (unfold z; destruct (_ =? cw); [left; by apply (frame_word f (λ w, w))|by right]).
  assert (Hzq : q ≠ [] → z = followed f).
  { intros Hn. unfold z. rewrite (proj2 (Z.eqb_neq _ cw)); [done|]. destruct fl; [destruct Hcw; lia|].
    destruct q as [|g q]; [done|]. apply Forall_cons in Hq as [Hg _]. pose proof (frame_length g Hg). cbn [concat] in Hcw. rewrite !length_app in Hcw. lia. }
  assert (Lz : length z = length f) by (destruct Hz as [->| ->]; [done|by apply length_followed]).
  replace (TxInfoSwLstRnd _ =? 1) with false.
  2: { destruct (_ =? cw); [|unfold set_UDMANextVld; rewrite swlst_put by lia]; by rewrite (round_zero f). }
  destruct (_ && _).
  { eexists _, [f], q. split; [done|]. split; [|done]. by eapply (walked_one fl pre f z). }
  destruct (IH fuel (pre ++ z) post (size + len f) (S num) (Some (len pre)) (bytes + txwi_MPDUtotalByteCnt wi1) cw)
    as (r & qa & qb & E & Hw & _); [done|cbn in Hfu; lia|done| |].
  { rewrite length_app, Lz. destruct fl; [split; [by apply Hfl|destruct Hcw; lia]|]. cbn [concat] in Hcw. rewrite length_app in Hcw. lia. }
  exists r, (f :: qa), qb. split; [|split; [|done]].
  - rewrite <- app_assoc, length_app, Lz, Nat2Z.inj_add in E. exact E.
  - by eapply walked_cons.
Qed.
End Walk.
