(* ===== verification/TxRingInv.v ===== *)
(** The invariant of the transmit buffer and its preservation by every stretch
    of code of TxRing.

    [last] is what the last transfer carries, [q] the frames that wait, [b] what
    the writer has written of the next one and [P] the length that frame will
    have.  The positions are in one of three phases: the data follows the last
    transfer ([Flat]); the writer has started over and the waiting data is in
    two pieces ([Wrapped]); the last transfer was the end of the buffer and
    all data is at its start ([Home]).  In every phase the writer stays away
    from the bytes of the last transfer. *)

From S2P Require Import Prelude RxPacket RxRing TxRing TxRingSpec TxRingProofs.

#[local] Abbreviation len l := (Z.of_nat (length l)).
#[local] Abbreviation WP := WirelessPacket.
#[local] Abbreviation CW := CurWritePosition.
#[local] Abbreviation CWR := CurWriteRealPos.
#[local] Abbreviation NB := NextBulkOutPosition.
#[local] Abbreviation ENB := ENextBulkOutPosition.

(** * The invariant *)

(** The data that the next transfer starts with; its first eight bytes may be
    in [SavedPad]. *)
Definition data_at (c : HT_TX_CONTEXT) (D : list Z) : Prop :=
  if bCopySavePad c then ∃ rest, D = SavedPad c ++ rest ∧ rd (WP c) (ENB c + 8) (len rest) = Some rest
  else rd (WP c) (ENB c) (len D) = Some D.

(** Behind the last transfer: its four zeros are where the data begins only
    if the data was saved. *)
Definition behind (c : HT_TX_CONTEXT) (last D : list Z) : Prop :=
  NB c + len last ≤ ENB c + 4 ∧ (if bCopySavePad c then D ≠ [] else D ≠ [] → NB c + len last ≤ ENB c) ∧ data_at c D.

(** A transfer was made since the buffer started over. *)
Definition made (c : HT_TX_CONTEXT) : Prop := 8 ≤ NB c ∧ NB c + 13 ≤ ENB c.
Definition fresh (c : HT_TX_CONTEXT) (last D : list Z) : Prop :=
  NB c = 0 ∧ last = [] ∧ (ENB c = 0 ∧ CW c = 0 ∧ D = [] ∨ ENB c = 8 ∧ D ≠ []).

(** Where the data is after the buffer started over. *)
Definition home_at (c : HT_TX_CONTEXT) (D : list Z) : Prop := ENB c = 8 ∨ ENB c = 16 ∧ D ≠ [].

Lemma home_pos c D : home_at c D → 8 ≤ ENB c ≤ 16.
Proof. intros [|[]]; lia. Qed.

Lemma home_more c c' D D' : ENB c' = ENB c → (D ≠ [] → D' ≠ []) → home_at c D → home_at c' D'.
Proof. unfold home_at. intros ->. naive_solver. Qed.

Lemma app_more (a b : list Z) : a ≠ [] → a ++ b ≠ [].
Proof. by destruct a. Qed.

Inductive phase (c : HT_TX_CONTEXT) (last : list Z) (q : list (list Z)) (b : list Z) (P : option Z) : Prop :=
| Flat : behind c last (concat q ++ b) → CW c = ENB c + len (concat q) →
    CW c ≤ MAX_TXBULK_LIMIT - 3898 → (P = None → CW c ≤ MAX_TXBULK_LIMIT - 3906) →
    (fresh c last (concat q ++ b) ∨ made c) → (∀ p, P = Some p → MAX_TXBULK_LIMIT < CW c + 3906 + p → made c) →
    phase c last q b P
| Wrapped q1 f q2 : q = (q1 ++ [f]) ++ q2 → behind c last (concat (stored true (q1 ++ [f]))) →
    MAX_TXBULK_LIMIT - 5938 ≤ ENB c + len (concat q1) ≤ MAX_TXBULK_LIMIT - 3898 → ENB c + len (concat q1) + len f + 12 ≤ MAX_TXBULK_SIZE →
    made c → rd (WP c) 8 (len (concat q2 ++ b)) = Some (concat q2 ++ b) → CW c = 8 + len (concat q2) →
    (CW c < NB c ∨ CW c = 8) → (∀ p, P = Some p → CW c + p + 8 ≤ NB c ∧ CW c + 3906 + p ≤ MAX_TXBULK_LIMIT) →
    phase c last q b P
| Home : bCopySavePad c = false → home_at c (concat q ++ b) → 4096 ≤ NB c ≤ MAX_TXBULK_LIMIT - 3898 →
    rd (WP c) (ENB c) (len (concat q ++ b)) = Some (concat q ++ b) → CW c = ENB c + len (concat q) → CW c + 8 ≤ NB c →
    (∀ p, P = Some p → CW c + p + 8 ≤ NB c ∧ CW c + 3906 + p ≤ MAX_TXBULK_LIMIT) →
    phase c last q b P.

(** What the writer has done. *)
Definition writing (c : HT_TX_CONTEXT) (b : list Z) (P : option Z) : Prop :=
  match P with
  | None => b = [] ∧ bCurWriting c = false ∧ CWR c = CW c
  | Some p => 8 ≤ len b ≤ p ∧ p ≤ 2032 ∧ bCurWriting c = true ∧ CW c < CWR c
  end.

Record ring_inv (c : HT_TX_CONTEXT) (last : list Z) (q : list (list Z)) (b : list Z) (P : option Z) : Prop := {
  rv_len : len (WP c) = MAX_TXBULK_SIZE;
  rv_pad : length (SavedPad c) = 8%nat;
  rv_urb : urb_data c = Some last;
  rv_frames : Forall frame_ok q;
  rv_writing : writing c b P;
  rv_phase : phase c last q b P
}.

Lemma urb_size c last : urb_data c = Some last → BulkOutSize c = len last.
Proof. intros H. by apply rd_length in H. Qed.

Lemma urb_inside c last : urb_data c = Some last → 0 ≤ NB c ∧ NB c + len last ≤ len (WP c).
Proof. intros H. apply rd_split in H as (pre & post & E & ->). rewrite E, !length_app. lia. Qed.

Lemma app_not_nil (a b : list Z) : (0 < length b)%nat → a ++ b ≠ [].
Proof. destruct a, b; simpl; (done || lia). Qed.

Lemma concat_frames q : Forall frame_ok q → q ≠ [] → 13 ≤ len (concat q).
Proof.
  intros Hq Hn. destruct q as [|f q]; [done|]. apply Forall_cons in Hq as [Hf _]. pose proof (frame_length f Hf).
  cbn [concat]. rewrite length_app. lia.
Qed.

(** Only the memory and the positions matter. *)
Lemma inv_same c c' last q b P :
  WP c' = WP c → BulkOutSize c' = BulkOutSize c → bCurWriting c' = bCurWriting c → bCopySavePad c' = bCopySavePad c → SavedPad c' = SavedPad c →
  CW c' = CW c → CWR c' = CWR c → NB c' = NB c → ENB c' = ENB c → ring_inv c last q b P → ring_inv c' last q b P.
Proof.
  intros E1 E2 E3 E4 E5 E6 E7 E8 E9 [H1 H2 H3 H4 H5 H6]. split; unfold urb_data, writing in *; rewrite ?E1, ?E2, ?E3, ?E4, ?E5, ?E6, ?E7, ?E8, ?E9; try done.
  destruct H6; unfold behind, data_at, home_at, fresh, made in *; rewrite <- ?E1, <- ?E2, <- ?E3, <- ?E4, <- ?E5, <- ?E6, <- ?E7, <- ?E8, <- ?E9 in *;
    [eapply Flat|eapply Wrapped|eapply Home]; unfold behind, data_at, home_at, fresh, made; eauto.
Qed.

(** At the start nothing was written. *)
Lemma inv_init junk : len junk = MAX_TXBULK_SIZE → ring_inv (tx_context_init junk) [] [] [] None.
Proof.
  intros Hl. assert (rd junk 0 0 = Some []) by (apply rd_nil; lia). split; [done|done|done|constructor|done|].
  assert (MAX_TXBULK_LIMIT = 202752) by done.
  apply Flat; unfold behind, data_at, fresh, made; cbn; [split_and!; (done || lia)|done|lia|lia|left; split_and!; [done|done|by left]|done].
Qed.

(** * The writer goes on *)

(** A write behind the data keeps what the last transfer and the data need. *)
Lemma behind_wr c last D p x m' :
  behind c last D → length (SavedPad c) = 8%nat → ENB c + len D ≤ p → wr (WP c) p x = Some m' → behind (set_WirelessPacket m' c) last D.
Proof.
  intros (H1 & H2 & H3) Hl Hp Hw. split; [done|]. split; [done|]. unfold data_at in *. cbn. destruct (bCopySavePad c).
  - destruct H3 as (rest & -> & Hr). exists rest. split; [done|]. rewrite length_app, Hl in Hp.
    eapply wr_rd_other; [done..|]. left. lia.
  - eapply wr_rd_other; [done..|]. left. lia.
Qed.

Lemma data_snoc c D x : data_at c D → length (SavedPad c) = 8%nat →
  rd (WP c) (ENB c + len D) (len x) = Some x → (bCopySavePad c = true → 8 ≤ len D) → data_at c (D ++ x).
Proof.
  unfold data_at. destruct (bCopySavePad c).
  - intros (rest & -> & Hr) Hl Hx _. exists (rest ++ x). split; [by rewrite app_assoc|]. apply rd_snoc; [done|].
    rewrite length_app, Hl in Hx. rewrite <- Hx. f_equal. lia.
  - intros Hr _ Hx _. by apply rd_snoc.
Qed.

(** Data in front of which something was there grows. *)
Lemma behind_snoc c last D x : behind c last D → length (SavedPad c) = 8%nat → (8 ≤ length D)%nat →
  rd (WP c) (ENB c + len D) (len x) = Some x → behind c last (D ++ x).
Proof.
  intros (H1 & H2 & H3) Hl Hn Hx. split; [done|]. split; [|apply data_snoc; (done || lia)].
  assert (D ≠ []) by (intros ->; cbn in Hn; lia). destruct (bCopySavePad c); [by destruct D|]. intros _. by apply H2.
Qed.

(** Where the writer writes: behind the last transfer or in front of it. *)
Lemma writer_place c last q b p : ring_inv c last q b (Some p) →
  0 ≤ CW c ∧ CW c + p + 8 ≤ MAX_TXBULK_SIZE ∧ (NB c + len last ≤ CW c + len b ∨ CW c + p + 8 ≤ NB c).
Proof.
  intros [Hl Hp Hu Hq (Hb & Hp2 & _ & _) Hph]. apply urb_inside in Hu as [Hn Hu].
  assert (MAX_TXBULK_LIMIT = 202752 ∧ MAX_TXBULK_SIZE = 204800) as [E1 E2] by done.
  destruct Hph as [(H1 & _) H2 H3 _ H5 _|q1 f q2 _ _ _ _ _ _ H2 _ H3|_ H1%home_pos H2 _ H3 _ H4].
  - assert (0 ≤ ENB c) by (destruct H5 as [(? & ? & ?)|[]]; lia). split_and!; lia.
  - destruct (H3 p eq_refl). split_and!; lia.
  - destruct (H4 p eq_refl). split_and!; lia.
Qed.

(** The memory of the last transfer is not touched. *)
Lemma urb_wr c last q b p pos x m' : ring_inv c last q b (Some p) → CW c + len b ≤ pos → pos + len x ≤ CW c + p + 8 →
  wr (WP c) pos x = Some m' → urb_data (set_WirelessPacket m' c) = Some last.
Proof.
  intros Hi Hlo Hhi Hw. pose proof (writer_place _ _ _ _ _ Hi) as (_ & _ & Hd). destruct Hi as [_ _ Hu _ _ _].
  pose proof (urb_size _ _ Hu) as Es. unfold urb_data in *. cbn. eapply wr_rd_other; [done..|]. lia.
Qed.

(** The writer puts [x] behind what it has written, and junk behind that. *)
Lemma inv_append c last q b p x junk m' :
  ring_inv c last q b (Some p) → len b + len x ≤ p → len b + len x + len junk ≤ p + 8 →
  wr (WP c) (CW c + len b) (x ++ junk) = Some m' → ring_inv (set_WirelessPacket m' c) last q (b ++ x) (Some p).
Proof.
  intros Hi Hx Hj Hw. pose proof (wr_length _ _ _ _ Hw) as Lm.
  assert (Hu : urb_data (set_WirelessPacket m' c) = Some last) by (eapply (urb_wr c last q b p (CW c + len b) (x ++ junk)); [done|lia|rewrite length_app; lia|done]).
  assert (Rx : rd m' (CW c + len b) (len x) = Some x) by (eapply rd_app_l, wr_rd_same, Hw).
  pose proof (writer_place _ _ _ _ _ Hi) as (HC & HS & HP).
  destruct Hi as [Hl Hp _ Hq (Hb & Hp2 & Hc & Hr) Hph]. split; cbn; [by rewrite Lm|done|done|done|split_and!; try done; rewrite length_app; lia|].
  destruct Hph as [Hbe H2 H3 H4 H5 H6|q1 f q2 E Hbe H2 H3 H4 H5 H6 H7 H8|H1 H2 H3 H4 H5 H6 H7].
  - assert (Ne : (0 < length (concat q ++ b))%nat) by (rewrite length_app; lia).
    eapply behind_wr in Hbe; [|done| |exact Hw]; [|rewrite length_app; lia].
    assert (Hbe' : behind (set_WirelessPacket m' c) last (concat q ++ b ++ x)).
    { rewrite app_assoc. apply behind_snoc; [done|done|rewrite length_app; lia|]. cbn. rewrite <- Rx. f_equal. rewrite length_app. lia. }
    apply Flat; try done. destruct H5 as [(F1 & F2 & F3)|]; [|by right]. left. split; [done|]. split; [done|].
    destruct F3 as [(_ & _ & F3)|[F3 _]]; [rewrite F3 in Ne; cbn in Ne; lia|]. right. split; [done|]. rewrite app_assoc. destruct (concat q ++ b); [cbn in Ne; lia|done].
  - destruct (H8 p eq_refl) as [G1 G2]. apply (Wrapped _ _ _ _ _ q1 f q2); try done.
    + destruct H4. destruct Hbe as (B1 & B2 & B3). split; [done|]. split; [done|]. unfold data_at in *. cbn. destruct (bCopySavePad c).
      * destruct B3 as (rest & ? & B3). exists rest. split; [done|]. eapply wr_rd_other; [done..|]. rewrite length_app. lia.
      * eapply wr_rd_other; [done..|]. rewrite length_app. lia.
    + cbn. rewrite app_assoc. apply rd_snoc; [eapply wr_rd_other; [done..|]; rewrite length_app; lia|]. rewrite <- Rx. f_equal. rewrite length_app. lia.
  - apply Home; try done; [eapply home_more; [done| |exact H2]; rewrite app_assoc; apply app_more|]. cbn. rewrite app_assoc. apply rd_snoc; [eapply wr_rd_other; [done..|]; rewrite length_app; lia|].
    rewrite <- Rx. f_equal. rewrite length_app. lia.
Qed.

(** * The writer starts *)

Lemma can_write s s' : RtmpUSBCanDoWrite s = (true, s') → s' = s ∧
  let c := tp_ctx s in
  (NB c ≤ CW c ∨ CW c + 2048 ≤ NB c) ∧ (CW c ≠ 8 ∨ 2048 ≤ NB c) ∧ bCurWriting c = false ∧ (ENB c ≠ 8 ∨ CW c + 7912 ≤ MAX_TXBULK_LIMIT).
Proof.
  unfold RtmpUSBCanDoWrite, LOCAL_TXBUF_SIZE. cbv zeta. destruct (_ && _) eqn:E1; [done|]. destruct (_ && _) eqn:E2 in |- *; [done|].
  destruct (bCurWriting _); [done|]. destruct (_ && _) eqn:E3 in |- *; [done|]. intros [= <-]. split; [done|]. split_and!; [lia|lia|done|lia].
Qed.

(** The header of the frame is written. *)
Definition started (c : HT_TX_CONTEXT) (n : Z) (m : list Z) : HT_TX_CONTEXT :=
  set_write_pos (CW c) (CW c + n) (set_WirelessPacket m c).

Lemma concat_nil q : Forall frame_ok q → len (concat q) = 0 → q = [].
Proof. intros Hq Hl. destruct q as [|f q]; [done|]. pose proof (concat_frames (f :: q) Hq ltac:(done)). lia. Qed.

Section Begin.
Context (c : HT_TX_CONTEXT) (last : list Z) (q : list (list Z)) (hdr m' : list Z) (p : Z).
Context (Hi : ring_inv c last q [] None) (Hh : 8 ≤ len hdr ≤ p) (Hp : p ≤ 2032).
Context (Hr1 : NB c ≤ CW c ∨ CW c + 2048 ≤ NB c) (Hr2 : CW c ≠ 8 ∨ 2048 ≤ NB c) (Hr3 : ENB c ≠ 8 ∨ CW c + 7912 ≤ MAX_TXBULK_LIMIT).

(** What remains to be shown of the state after the start. *)
Lemma begin_rest c1 : c1 = start_writing c → 0 ≤ CW c1 → (NB c + len last ≤ CW c1 ∨ CW c1 + p + 8 ≤ NB c) →
  wr (WP c1) (CW c1) hdr = Some m' → phase (started c1 (len hdr) m') last q hdr (Some p) → ring_inv (started c1 (len hdr) m') last q hdr (Some p).
Proof using Hi Hh Hp.
  clear Hr1 Hr2 Hr3. intros -> H0 Hd Hw Hph. pose proof (wr_length _ _ _ _ Hw) as Lm. destruct Hi as [Hl Hpd Hu Hq _ _]. pose proof (urb_size _ _ Hu) as Es.
  split; [| | |done| |done].
  - unfold started, start_writing in *. destruct (_ =? _); cbn in *; by rewrite Lm.
  - unfold started, start_writing. by destruct (_ =? _).
  - revert Hw Hd. unfold started, start_writing, urb_data in *. destruct (_ =? _); cbn; intros Hw Hd; (eapply wr_rd_other; [done..|lia]).
  - unfold started, start_writing. destruct (_ =? _); cbn; split_and!; (done || lia).
Qed.

Lemma reserve : ENB c = CW c → start_writing c =
  set_write_pos (CW c + 8) (CW c + 8) (set_bulk_pos (BulkOutSize c) (NB c) (ENB c + 8) (set_bCurWriting true c)).
Proof. intros E. unfold start_writing. cbn. by rewrite E, Z.eqb_refl. Qed.

Lemma no_reserve : ENB c ≠ CW c → start_writing c = set_write_pos (CW c) (CW c) (set_bCurWriting true c).
Proof. intros E. unfold start_writing. cbn. by rewrite (proj2 (Z.eqb_neq _ _)). Qed.

Lemma hdr_not_nil : hdr ≠ [].
Proof using Hh. intros ->. cbn in Hh. lia. Qed.

End Begin.

Section Writer.
Context (c : HT_TX_CONTEXT) (last : list Z) (q : list (list Z)) (hdr m' : list Z) (p : Z).
Context (Hi : ring_inv c last q [] None) (Hh : 8 ≤ len hdr ≤ p) (Hp : p ≤ 2032).
Context (Hr1 : NB c ≤ CW c ∨ CW c + 2048 ≤ NB c) (Hr2 : CW c ≠ 8 ∨ 2048 ≤ NB c) (Hr3 : ENB c ≠ 8 ∨ CW c + 7912 ≤ MAX_TXBULK_LIMIT).

(** Everything was sent: the frame starts eight bytes further on. *)
Lemma begin_empty c1 : c1 = start_writing c → ENB c = CW c → wr (WP c1) (CW c1) hdr = Some m' →
  ring_inv (started c1 (len hdr) m') last q hdr (Some p).
Proof.
  intros E1 Ee Hw. pose proof (reserve c Ee) as Er. pose proof (hdr_not_nil hdr p Hh) as Hn. assert (E2 : MAX_TXBULK_LIMIT = 202752) by done.
  assert (Rh : rd m' (CW c + 8) (len hdr) = Some hdr) by (apply wr_rd_same in Hw; by rewrite E1, Er in Hw).
  pose proof Hi as [Hl Hpd Hu Hq _ Hph]. pose proof (urb_inside _ _ Hu) as [Hn0 _].
  destruct Hph as [(B1 & B2 & B3) H2 H3 H4 H5 H6|q1 f q2 E Hbe H2 H3 [M1 M2] H5 H6 H7 H8|H1 H2 H3 H4 H5 H6 H7]; [| |].
  - assert (q = []) as -> by (apply concat_nil; [done|lia]). specialize (H4 eq_refl).
    eapply (begin_rest c last _ hdr m' p Hi Hh Hp c1 E1); [rewrite E1, Er; cbn; destruct H5 as [(? & ? & ?)|[]]; lia|rewrite E1, Er; cbn; lia|done|].
    rewrite E1, Er. destruct (bCopySavePad c) eqn:Ep; [done|].
    apply Flat; unfold started, behind, data_at, fresh, made; cbn; rewrite ?Ep; [split_and!; [lia|intros _; lia|by rewrite Ee]|lia|lia|done| |].
    + destruct H5 as [(F1 & F2 & [(F3 & _)|[_ F3]])|[]]; [|done|right; lia]. left. split_and!; [done|done|]. right. split; [lia|done].
    + intros p' [= <-] Hlt. destruct H5 as [(F1 & F2 & [(F3 & F4 & _)|[_ F3]])|[]]; [lia|done|lia].
  - lia.
  - assert (q = []) as -> by (apply concat_nil; [done|lia]). pose proof (home_pos _ _ H2) as H2'.
    eapply (begin_rest c last _ hdr m' p Hi Hh Hp c1 E1); [rewrite E1, Er; cbn; lia|rewrite E1, Er; cbn; lia|done|].
    rewrite E1, Er. apply Home; unfold started; cbn; [done|right; cbn; split; [|done]|lia|by rewrite Ee|lia|lia|intros p' [= <-]; lia].
    destruct H2 as [H2|[_ []]]; [lia|done].
Qed.

Lemma begin_more c1 : c1 = start_writing c → ENB c ≠ CW c → wr (WP c1) (CW c1) hdr = Some m' →
  ring_inv (started c1 (len hdr) m') last q hdr (Some p).
Proof.
  intros E1 Ee Hw. pose proof (no_reserve c Ee) as Er. pose proof (hdr_not_nil hdr p Hh) as Hn. assert (E2 : MAX_TXBULK_LIMIT = 202752) by done.
  pose proof (wr_rd_same _ _ _ _ Hw) as Rh. rewrite E1, Er in Hw, Rh. cbn in Hw, Rh.
  pose proof Hi as [Hl Hpd Hu Hq _ Hph]. pose proof (urb_inside _ _ Hu) as [Hn0 _].
  destruct Hph as [Hbe H2 H3 H4 H5 H6|q1 f q2 E Hbe H2 H3 [M1 M2] H5 H6 H7 H8|H1 H2 H3 H4 H5 H6 H7].
  - rewrite app_nil_r in *. assert (Nq : q ≠ []) by (intros ->; cbn in H2; lia). pose proof (concat_frames q Hq Nq) as Lq.
    destruct Hbe as (B1 & B2 & B3) eqn:Hb'. clear Hb'.
    eapply (begin_rest c last _ hdr m' p Hi Hh Hp c1 E1); [rewrite E1, Er; cbn; destruct H5 as [(? & ? & ?)|[]]; lia|rewrite E1, Er; cbn; lia|by rewrite E1, Er|].
    rewrite E1, Er. apply Flat; cbn; [|done|lia|done| |].
    + apply behind_snoc; [|done|lia|cbn; by rewrite <- H2]. apply (behind_wr c last (concat q) (CW c) hdr m'); [by split_and!|done|lia|done].
    + destruct H5 as [(F1 & F2 & F3)|]; [|by right]. left. split_and!; [done|done|].
      destruct F3 as [(_ & _ & F3)|[F3 _]]; [rewrite F3 in Lq; cbn in Lq; lia|]. right. split; [done|]. apply app_not_nil. lia.
    + intros p' [= <-] Hlt. destruct H5 as [(F1 & F2 & [(_ & _ & F3)|[F3 _]])|]; [rewrite F3 in Lq; cbn in Lq; lia|lia|done].
  - assert (CW c + 2048 ≤ NB c) by lia. rewrite app_nil_r in H5.
    eapply (begin_rest c last _ hdr m' p Hi Hh Hp c1 E1); [rewrite E1, Er; cbn; lia|rewrite E1, Er; cbn; lia|by rewrite E1, Er|].
    rewrite E1, Er. apply (Wrapped _ _ _ _ _ q1 f q2); cbn; [done| |done|done|done| |done|done|intros p' [= <-]; lia].
    + destruct Hbe as (B1 & B2 & B3). split; [done|]. split; [done|]. unfold data_at in *. cbn. destruct (bCopySavePad c).
      * destruct B3 as (rest & ? & B3). exists rest. split; [done|]. eapply wr_rd_other; [done..|]. lia.
      * eapply wr_rd_other; [done..|]. lia.
    + apply rd_snoc; [eapply wr_rd_other; [done..|]; lia|by rewrite <- H6].
  - assert (CW c + 2048 ≤ NB c) by lia. rewrite app_nil_r in H2, H4. pose proof (home_pos _ _ H2) as H2'.
    eapply (begin_rest c last _ hdr m' p Hi Hh Hp c1 E1); [rewrite E1, Er; cbn; lia|rewrite E1, Er; cbn; lia|by rewrite E1, Er|].
    rewrite E1, Er. apply Home; cbn; [done|eapply home_more; [done| |exact H2]; apply app_more|done| |done|done|intros p' [= <-]; lia].
    apply rd_snoc; [eapply wr_rd_other; [done..|]; lia|by rewrite <- H5].
Qed.

Lemma inv_begin c1 : c1 = start_writing c → wr (WP c1) (CW c1) hdr = Some m' → ring_inv (started c1 (len hdr) m') last q hdr (Some p).
Proof. intros E1 Hw. destruct (decide (ENB c = CW c)) as [Ee|Ee]; [exact (begin_empty c1 E1 Ee Hw)|exact (begin_more c1 E1 Ee Hw)]. Qed.
End Writer.

(** * The writer stops *)

Lemma concat_snoc (q : list (list Z)) f : concat (q ++ [f]) = concat q ++ f.
Proof. rewrite concat_app. cbn. by rewrite app_nil_r. Qed.

Lemma inv_end c last q b p f l :
  ring_inv c last q b (Some p) → frame_ok f → len f = p → Priv (lo_tb l) = p →
  lo_last l = (MAX_TXBULK_LIMIT <? CW c + 3906 + p) → b = (if lo_last l then flagged f else f) →
  ring_inv (stop_writing l c) last (q ++ [f]) [] None.
Proof.
  intros [Hl Hpd Hu Hq (Hb & Hp & Hw & Hr) Hph] Hf Lf EP El Eb. assert (E2 : MAX_TXBULK_LIMIT = 202752 ∧ MAX_TXBULK_SIZE = 204800) by done.
  split; [done|done|done|by apply Forall_app_2; [|constructor]|done|].
  assert (Ec : lo_last l = false → concat (q ++ [f]) ++ [] = concat q ++ b) by (intros E; by rewrite Eb, E, app_nil_r, concat_snoc).
  destruct Hph as [Hbe H2 H3 H4 H5 H6|q1 g q2 E Hbe H2 H3 H4 H5 H6 H7 H8|H1 H2 H3 H4 H5 H6 H7].
  - destruct (lo_last l) eqn:Ela.
    + specialize (H6 p eq_refl ltac:(lia)). pose proof H6 as [M1 M2].
      apply (Wrapped _ _ _ _ _ q f []); [by rewrite app_nil_r| |cbn; lia|cbn; lia|done| |cbn; by rewrite Ela|cbn; rewrite Ela; lia|done].
      * unfold behind, data_at in *. cbn. rewrite stored_app by done. cbn [stored]. by rewrite concat_snoc, <- Eb.
      * cbn. apply rd_nil; lia.
    + specialize (Ec eq_refl). apply Flat; unfold behind, data_at, fresh, made in *; cbn in *; rewrite ?Ela, ?Ec; [done|rewrite concat_snoc, length_app; lia|lia|lia| |done].
      destruct H5 as [(F1 & F2 & [(_ & F3 & F4)|F3])|]; [|by left; auto|by right].
      apply app_eq_nil in F4 as [_ F4]. rewrite F4 in Hb. cbn in Hb. lia.
  - destruct (H8 p eq_refl) as [G1 G2]. assert (Ela : lo_last l = false) by (rewrite El; apply Z.ltb_ge; lia). rewrite Ela in Eb. subst b.
    apply (Wrapped _ _ _ _ _ q1 g (q2 ++ [f])); cbn; rewrite ?Ela; [by rewrite E, <- app_assoc|done|done|done|done| | |lia|done].
    + by rewrite app_nil_r, concat_snoc.
    + rewrite concat_snoc, length_app. lia.
  - destruct (H7 p eq_refl) as [G1 G2]. assert (Ela : lo_last l = false) by (rewrite El; apply Z.ltb_ge; lia). specialize (Ec Ela).
    apply Home; cbn; rewrite ?Ela, ?Ec; [done|done|done|done|rewrite concat_snoc, length_app; lia|lia|done].
Qed.

(** * The frames of the writer

    The descriptor and the frame that RtmpUSB_WriteSingleTxResource builds, and
    that each of its three stretches preserves the invariant. *)

(** * The descriptor *)

Lemma write_txinfo_range n wiv qs burst w : word32 w → word32 (rlt_usb_write_txinfo n wiv qs burst w).
Proof. intros Hw. unfold rlt_usb_write_txinfo, set_PktLen, set_QSEL, set_UDMANextVld, set_UDMATxburst, set_SwLstRnd. repeat (apply put_bits_range; [lia..|]). done. Qed.

Lemma pktlen_set n w : 0 ≤ n < 2^16 → TxInfoPktLen (set_PktLen n w) = n.
Proof.
  intros Hn. apply Z.bits_inj'. intros i Hi. unfold TxInfoPktLen, set_PktLen. rewrite bits_at_spec, put_bits_spec by lia.
  destruct (Z.ltb_spec i 16).
  - replace (0 <=? i + 0) with true by lia. replace (i + 0 <? 0 + 16) with true by lia. cbn [andb]. f_equal. lia.
  - cbn [andb]. symmetry. by apply (in_range_testbit 16).
Qed.

Lemma write_txinfo_pktlen n wiv qs burst w : 0 ≤ n < 2^16 → TxInfoPktLen (rlt_usb_write_txinfo n wiv qs burst w) = n.
Proof.
  intros Hn. unfold rlt_usb_write_txinfo, set_QSEL, set_UDMANextVld, set_UDMATxburst, set_SwLstRnd.
  rewrite !pktlen_put by lia. by apply pktlen_set.
Qed.

Lemma write_txinfo_bits n w : let w' := rlt_usb_write_txinfo n false FIFO_EDCA 0 w in
  Z.testbit w' 16 = false ∧ Z.testbit w' 18 = false ∧ Z.testbit w' 25 = false ∧ Z.testbit w' 26 = true.
Proof.
  cbv zeta. unfold rlt_usb_write_txinfo, set_QSEL, set_UDMANextVld, set_UDMATxburst, set_SwLstRnd, FIFO_EDCA.
  split_and!; (rewrite !put_bits_spec by lia; done).
Qed.

(** * The frame *)

Lemma pad4_range n : 0 ≤ pad4 n < 4.
Proof. unfold pad4. change 3 with (Z.ones 2). rewrite Z.land_ones by lia. apply Z.mod_pos_bound. done. Qed.

Section Frame.
Context (tb : TX_BLK) (Hr : request_ok tb).
#[local] Abbreviation info := (rlt_usb_write_txinfo (frame_len tb) false FIFO_EDCA 0 (txinfo_of (HeaderBuf tb))).

Lemma frame_bounds : 20 ≤ frame_header tb ∧ 0 ≤ frame_pad tb < 4 ∧ 20 ≤ frame_len tb ≤ 2028 ∧ 0 ≤ SrcBufLen tb.
Proof using Hr.
  destruct Hr as [_ _ H1 H2 _ H4]. pose proof (pad4_range (frame_header tb + SrcBufLen tb)). unfold frame_len, frame_pad, frame_header, SrcBufLen, TXWISize, TSO_SIZE in *. lia.
Qed.

Lemma info_word32 : word32 info.
Proof using Hr.
  apply write_txinfo_range. destruct Hr as [H1 H2 _ _ _ _]. unfold txinfo_of. pose proof (le_word_range (take 4 (HeaderBuf tb))) as H.
  rewrite length_take, H1 in H. apply H. by apply Forall_take.
Qed.

Lemma header_length : length (take (Z.to_nat (frame_header tb)) (drop 4 (HeaderBuf tb))) = Z.to_nat (frame_header tb).
Proof using Hr. pose proof frame_bounds. destruct Hr as [H1 _ _ _ H2 _]. rewrite length_take, length_drop, H1. lia. Qed.

Lemma frame_of_length : len (frame_of tb) = frame_len tb + 4.
Proof using Hr.
  pose proof frame_bounds. unfold frame_of. rewrite !length_app, length_le_bytes, header_length, length_zeros. unfold frame_len, SrcBufLen in *. lia.
Qed.

Lemma frame_of_take : take 4 (frame_of tb) = le_bytes 4 info.
Proof. unfold frame_of. by rewrite take_app_le, take_ge by (rewrite length_le_bytes; lia). Qed.

Lemma frame_of_txinfo : txinfo_of (frame_of tb) = info.
Proof using Hr. unfold txinfo_of at 1. rewrite frame_of_take. apply le_word_word, info_word32. Qed.

Lemma frame_of_ok : frame_ok (frame_of tb).
Proof using Hr.
  pose proof frame_bounds. pose proof (write_txinfo_bits (frame_len tb) (txinfo_of (HeaderBuf tb))) as (B1 & B2 & B3 & B4).
  split; rewrite ?frame_of_txinfo, ?write_txinfo_pktlen by lia; [rewrite frame_of_take; apply bytes_le_bytes|apply frame_of_length|lia|done..].
Qed.

(** The header as it is written, and the whole frame. *)
Definition written_header (last : bool) : list Z :=
  le_bytes 4 (if last then set_SwLstRnd 1 info else info) ++ take (Z.to_nat (frame_header tb)) (drop 4 (HeaderBuf tb)).
Definition written_frame (last : bool) : list Z := if last then flagged (frame_of tb) else frame_of tb.

Lemma written_split last : written_frame last = written_header last ++ pSrcBufData tb ++ zeros (Z.to_nat (frame_pad tb)).
Proof using Hr.
  unfold written_frame, written_header, flagged, with_txinfo. rewrite frame_of_txinfo. destruct last; unfold frame_of; [|by rewrite <- app_assoc].
  rewrite drop_app_ge, length_le_bytes by (rewrite length_le_bytes; lia). cbn [Nat.sub drop]. by rewrite <- app_assoc.
Qed.

Lemma written_header_length last : len (written_header last) = 4 + frame_header tb.
Proof using Hr. pose proof frame_bounds. unfold written_header. rewrite length_app, length_le_bytes, header_length. lia. Qed.

(** The descriptor of the header buffer is set. *)
Lemma upd_header g h : (4 ≤ length h)%nat → upd_word g h 0 = Some (le_bytes 4 (g (txinfo_of h)) ++ drop 4 h).
Proof.
  intros Hl. unfold upd_word. pose proof (rd_word_at [] h [] 0 Hl eq_refl) as E1. pose proof (wr_word_at [] h [] 0 (g (txinfo_of h)) Hl eq_refl) as E2.
  cbn in E1, E2. rewrite !app_nil_r in *. by rewrite E1.
Qed.

Lemma built_header last : ∃ h1 h,
  upd_word (rlt_usb_write_txinfo (u16 (frame_len tb)) false FIFO_EDCA 0) (HeaderBuf tb) 0 = Some h1 ∧
  (if (last : bool) then upd_word (set_SwLstRnd 1) h1 0 else Some h1) = Some h ∧ rd h 0 (4 + frame_header tb) = Some (written_header last).
Proof using Hr.
  pose proof frame_bounds. pose proof info_word32 as Hw. destruct Hr as [H1 _ _ _ H2 _]. rewrite wrap_id by (unfold in_range; lia).
  rewrite upd_header by lia. set (w := info) in *.
  eexists _, (le_bytes 4 (if last then set_SwLstRnd 1 w else w) ++ drop 4 (HeaderBuf tb)). split; [done|]. split.
  - destruct last; [|done]. rewrite upd_header by (rewrite length_app, length_le_bytes; lia).
    assert (Et : txinfo_of (le_bytes 4 w ++ drop 4 (HeaderBuf tb)) = w).
    { unfold txinfo_of. rewrite take_app_le, take_ge by (rewrite length_le_bytes; lia). by apply le_word_word. }
    rewrite Et, drop_app_ge, length_le_bytes by (rewrite length_le_bytes; lia). done.
  - eapply (rd_at [] _ (drop (Z.to_nat (frame_header tb)) (drop 4 (HeaderBuf tb)))); [|done|by rewrite written_header_length].
    unfold written_header. fold w. cbn [app]. by rewrite <- app_assoc, take_drop.
Qed.
End Frame.

(** * What the writer knows between its stretches *)

Record holds (tb : TX_BLK) (l : tx_local) (c : HT_TX_CONTEXT) (P : option Z) : Prop := {
  hd_request : request_ok tb;
  hd_src : pSrcBufData (lo_tb l) = pSrcBufData tb;
  hd_priv : Priv (lo_tb l) = frame_len tb + 4;
  hd_padding : lo_padding l = frame_pad tb;
  hd_last : lo_last l = (MAX_TXBULK_LIMIT <? CW c + 3906 + (frame_len tb + 4));
  hd_P : P = Some (frame_len tb + 4)
}.

Definition writer_ok (w : tx_writer) (c : HT_TX_CONTEXT) (b : list Z) (P : option Z) : Prop :=
  match w with
  | W_idle => b = [] ∧ P = None
  | W_copy tb l => holds tb l c P ∧ b = written_header tb (lo_last l) ∧ lo_pos l = CW c + len b
  | W_end tb l => holds tb l c P ∧ b = written_frame tb (lo_last l)
  end.

Lemma holds_same tb l c c' P : CW c' = CW c → holds tb l c P → holds tb l c' P.
Proof. intros E []. split; try done. by rewrite E. Qed.

Lemma writer_same w c c' b P : CW c' = CW c → writer_ok w c b P → writer_ok w c' b P.
Proof. intros E. destruct w; cbn; [done|intros (? & ? & ?)|intros (? & ?)]; split_and?; (done || by eapply holds_same || congruence). Qed.

(** Nothing was submitted. *)
Record quiet (s s' : tx_pipe) : Prop := {
  qt_pending : BulkOutPending s' = BulkOutPending s;
  qt_reset : BULKOUT_RESET s' = BULKOUT_RESET s;
  qt_irp : tx_IRPPending (tp_ctx s') = tx_IRPPending (tp_ctx s);
  qt_log : ∃ ids, tp_log s' = tp_log s ++ map Ev_kfree ids
}.

(** * The first stretch *)

Lemma start_pos c : CWR (start_writing c) = CW (start_writing c) ∧ len (WP (start_writing c)) = len (WP c) ∧
  (CW (start_writing c) = CW c ∨ CW (start_writing c) = CW c + 8).
Proof. unfold start_writing. cbn. destruct (_ =? _); cbn; split_and!; (done || lia). Qed.

Lemma start_room c last q : ring_inv c last q [] None → 0 ≤ CW c ∧ CW c + 8 + 2032 ≤ MAX_TXBULK_SIZE.
Proof.
  intros [Hl Hpd Hu Hq _ Hph]. assert (E : MAX_TXBULK_LIMIT = 202752 ∧ MAX_TXBULK_SIZE = 204800) by done.
  destruct Hph as [(B1 & B2 & B3) H2 H3 H4 H5 H6|q1 f q2 _ Hbe H2 H3 [M1 M2] H5 H6 H7 H8|H1 H2%home_pos H3 H4 H5 H6 H7]; [|lia..].
  specialize (H4 eq_refl). destruct H5 as [(F1 & F2 & F3)|[]]; lia.
Qed.

Lemma can_refuse s s' : RtmpUSBCanDoWrite s = (false, s') → s' = s ∨ s' = kick_flag s.
Proof. unfold RtmpUSBCanDoWrite. cbv zeta. repeat case_match; intros [= <-]; auto. Qed.

Lemma single_begin_ok tb s last q : request_ok tb → ring_inv (tp_ctx s) last q [] None →
  ∃ o s' b P, single_begin tb s = Some (o, s') ∧ quiet s s' ∧ ring_inv (tp_ctx s') last q b P ∧
    writer_ok (match o with Some l => W_copy tb l | None => W_idle end) (tp_ctx s') b P.
Proof.
  intros Hr Hi. unfold single_begin. destruct (RtmpUSBCanDoWrite s) as [ok s1] eqn:Ec. destruct ok; cbn [negb].
  2: { eexists None, _, [], None. split; [done|]. destruct (can_refuse _ _ Ec) as [->| ->];
         (split; [split; [done..|by exists [tb_pPacket tb]]|split; [exact Hi|done]]). }
  apply can_write in Ec as (-> & R1 & R2 & _ & R3). set (c := tp_ctx s) in *. set (c1 := start_writing c).
  destruct (start_pos c) as (P1 & P2 & P3). destruct (start_room _ _ _ Hi) as [M1 M2]. fold c1 in P1, P2, P3. pose proof (frame_bounds tb Hr) as Hb.
  change (TXWISize + TSO_SIZE + MpduHeaderLen tb + HdrPadLen tb) with (frame_header tb). cbv zeta.
  change (pad4 (frame_header tb + SrcBufLen tb)) with (frame_pad tb). change (frame_header tb + SrcBufLen tb + frame_pad tb) with (frame_len tb).
  cbn [set_Priv HeaderBuf Priv]. change (TXINFO_SIZE + frame_len tb) with (4 + frame_len tb). set (lst := MAX_TXBULK_LIMIT <? _).
  destruct (built_header tb Hr lst) as (h1 & h & -> & E2 & E3). cbn [mbind option_bind]. rewrite E2. cbn [mbind option_bind].
  change (TXINFO_SIZE + frame_header tb) with (4 + frame_header tb). rewrite E3. cbn [mbind option_bind].
  pose proof (written_header_length tb Hr lst) as Lh. pose proof (rv_len _ _ _ _ _ Hi) as Hl. pose proof (ro_room tb Hr) as Hr1.
  destruct (wr_inside (WP c1) (CW c1) (written_header tb lst)) as (m & Ew & _); [lia|lia|]. rewrite Ew. cbn [mbind option_bind].
  eexists (Some _), _, (written_header tb lst), (Some (frame_len tb + 4)). split; [done|]. split; [split; try done; [|by exists []; rewrite app_nil_r]|].
  { unfold c1, start_writing. cbn. by destruct (_ =? _). }
  cbn [tp_ctx set_ctx]. rewrite P1, <- Lh. split.
  - eapply (inv_begin c last q (written_header tb lst) m (frame_len tb + 4)); [done| |lia|done|done|done|done|done].
    unfold frame_len in *. lia.
  - split; [|by cbn]. split; try done; cbn; [lia|]. rewrite (Z.add_comm (frame_len tb) 4). done.
Qed.

(** * The copy and the end *)

Lemma zeros_split a b : 0 ≤ a → 0 ≤ b → zeros (Z.to_nat (a + b)) = zeros (Z.to_nat a) ++ zeros (Z.to_nat b).
Proof. intros. unfold zeros. rewrite Z2Nat.inj_add by lia. apply replicate_add. Qed.

Lemma single_copy_ok tb l s last q b P : ring_inv (tp_ctx s) last q b P → writer_ok (W_copy tb l) (tp_ctx s) b P →
  ∃ s' b', single_copy l s = Some s' ∧ quiet s s' ∧ ring_inv (tp_ctx s') last q b' P ∧ writer_ok (W_end tb l) (tp_ctx s') b' P.
Proof.
  intros Hi (Hh & -> & Hpos). pose proof Hh as [Hr Es Ep Epad El ->]. pose proof (frame_bounds tb Hr) as Hb.
  pose proof (written_header_length tb Hr (lo_last l)) as Lh. destruct (writer_place _ _ _ _ _ Hi) as (W1 & W2 & _). pose proof (rv_len _ _ _ _ _ Hi) as Hl.
  assert (Ef : frame_len tb = frame_header tb + len (pSrcBufData tb) + frame_pad tb) by done.
  unfold single_copy, copy_payload, SrcBufLen. rewrite Es, Epad, Hpos. set (c := tp_ctx s) in *. set (hdr := written_header tb (lo_last l)) in *.
  destruct (wr_inside (WP c) (CW c + len hdr) (pSrcBufData tb)) as (m1 & E1 & L1); [lia..|]. rewrite E1. cbn [mbind option_bind].
  rewrite <- (app_nil_r (pSrcBufData tb)) in E1. pose proof (inv_append c last q hdr (frame_len tb + 4) (pSrcBufData tb) [] m1 Hi ltac:(lia) ltac:(cbn [length]; lia) E1) as Hi1.
  set (c2 := set_WirelessPacket m1 c) in *. rewrite zeros_split by lia.
  destruct (wr_inside m1 (CW c + len hdr + len (pSrcBufData tb)) (zeros (Z.to_nat (frame_pad tb)) ++ zeros (Z.to_nat 8))) as (m2 & E2 & _);
    [lia|rewrite L1, length_app, !length_zeros; lia|]. rewrite E2. cbn [mbind option_bind].
  eexists _, (written_frame tb (lo_last l)). split; [done|]. split; [split; try done; by exists []; rewrite app_nil_r|]. split; [|split; [by eapply holds_same|done]].
  rewrite written_split by done. fold hdr. rewrite app_assoc. cbn [tp_ctx set_ctx].
  eapply (inv_same (set_WirelessPacket m2 c2)); [done..|]. eapply (inv_append c2 _ _ _ _ _ (zeros (Z.to_nat 8))); [exact Hi1| | |].
  - rewrite length_app, length_zeros. lia.
  - rewrite length_app, !length_zeros. lia.
  - rewrite <- E2. cbn [c2 set_WirelessPacket WirelessPacket CurWritePosition]. f_equal. rewrite length_app. lia.
Qed.

Lemma single_end_ok tb l s last q b P : ring_inv (tp_ctx s) last q b P → writer_ok (W_end tb l) (tp_ctx s) b P →
  quiet s (single_end l s) ∧ ring_inv (tp_ctx (single_end l s)) last (q ++ [frame_of tb]) [] None.
Proof.
  intros Hi ([Hr Es Ep Epad El ->] & ->). split.
  - split; try done. by exists [tb_pPacket (lo_tb l)].
  - eapply (inv_end _ _ _ _ (frame_len tb + 4)); [exact Hi|by apply frame_of_ok|by apply frame_of_length|done|done|done].
Qed.
