(* ===== verification/TxRingBulk.v ===== *)
(** The bulk-out routine preserves the invariant of TxRingInv: it takes at least
    one of the waiting frames and submits exactly those that it takes. *)

From S2P Require Import Prelude RxPacket RxRing TxRing TxRingSpec TxRingProofs TxRingInv.

#[local] Abbreviation len l := (Z.of_nat (length l)).
#[local] Abbreviation WP := WirelessPacket.
#[local] Abbreviation CW := CurWritePosition.
#[local] Abbreviation CWR := CurWriteRealPos.
#[local] Abbreviation NB := NextBulkOutPosition.
#[local] Abbreviation ENB := ENextBulkOutPosition.

(** * The bytes of a transfer *)

Lemma marked_snoc qa f : marked (qa ++ [f]) = map followed qa ++ [f].
Proof. induction qa as [|g [|h qa] IH]; [done..|]. cbn [app marked map] in *. by rewrite IH. Qed.

Lemma length_followeds qa : Forall frame_ok qa → length (concat (map followed qa)) = length (concat qa).
Proof. induction 1 as [|f qa Hf _ IH]; [done|]. cbn [map concat]. by rewrite !length_app, length_followed, IH. Qed.

Lemma length_marked qa : Forall frame_ok qa → length (concat (marked qa)) = length (concat qa).
Proof.
  destruct qa as [|f qa _] using rev_ind; [done|]. intros [Hq _]%Forall_app.
  rewrite marked_snoc, !concat_snoc, !length_app, length_followeds by done. done.
Qed.

(** The last frame of the transfer does not announce another one. *)
Lemma clear_next pre f z post p : frame_ok f → z = f ∨ z = followed f → p = len pre →
  upd_word (set_UDMANextVld 0) (pre ++ z ++ post) p = Some (pre ++ f ++ post).
Proof.
  intros Hf Hz Ep. pose proof (frame_length f Hf) as Lf.
  assert (Lz : length z = length f) by (destruct Hz as [->| ->]; [done|by apply length_followed]).
  unfold upd_word. rewrite rd_word_at by (lia || done). cbn [mbind option_bind]. rewrite wr_word_at by (lia || done). do 3 f_equal.
  destruct Hz as [->| ->].
  - rewrite (unnext' f Hf). by apply (frame_word f (λ w, w)).
  - unfold followed. rewrite txinfo_with, drop_with by (apply put_bits_range; [lia..|by apply txinfo_word32]).
    rewrite (unnext f Hf). by apply (frame_word f (λ w, w)).
Qed.

(** * The size of the transfer *)

Lemma masked_out n k x : 0 ≤ k ≤ 32 → n = 32 - k → word32 x → Z.land x (Z.shiftl (Z.ones n) k) = 0 → x < 2 ^ k.
Proof.
  intros Hk -> Hx H0. enough (in_range k x) as [_ H] by done. apply in_range_intro; [lia|apply Hx|]. intros i Hi.
  destruct (Z.ltb_spec i 32); [|by apply (in_range_testbit 32)].
  assert (Hb : Z.testbit (Z.land x (Z.shiftl (Z.ones (32 - k)) k)) i = false) by (rewrite H0; apply Z.bits_0).
  rewrite Z.land_spec, Z.shiftl_spec, Z.testbit_ones in Hb by lia.
  replace (0 <=? i - k) with true in Hb by lia. replace (i - k <? 32 - k) with true in Hb by lia. by rewrite andb_true_r in Hb.
Qed.

(** A frame is added only in the first 32 KB. *)
Lemma size_limit_bound max size phy : word32 size → size_limit max size phy = false → size < 2 ^ 15.
Proof.
  intros Hs. unfold size_limit. cbv zeta.
  destruct (_ && _); intros H; apply orb_false_elim in H as [H _]; apply orb_false_elim in H as [H _]; apply negb_false_iff, Z.eqb_eq in H.
  - by apply (masked_out 17 15).
  - apply (masked_out 19 13) in H; [lia|done..].
Qed.

Lemma bulk_loop_last cfg fuel : ∀ cw m size pos num pl bytes r, word32 size → bulk_loop cfg fuel cw m size pos num pl bytes = Some r →
  br_last r = pl ∨ ∃ p, br_last r = Some p ∧ p - (pos - size) < 2 ^ 15.
Proof.
  induction fuel as [|fuel IH]; [done|]. intros cw m size pos num pl bytes r Hs. cbn [bulk_loop].
  destruct (rd_word m pos) as [info|]; [|done]. cbn [mbind option_bind]. destruct (rd_word m (pos + TXINFO_SIZE)) as [wi0|]; [|done]. cbn [mbind option_bind].
  destruct (rd_word m (pos + TXINFO_SIZE + 4)) as [wi1|]; [|done]. cbn [mbind option_bind]. cbv zeta.
  destruct (_ || _) eqn:El; [intros [= <-]; by left|]. apply orb_false_elim in El as [El _]. apply (size_limit_bound _ _ _ Hs) in El.
  destruct (_ <=? 8); [intros [= <-]; by left|]. destruct (_ =? 1).
  - destruct (wr _ _ _) as [m'|]; [|done]. intros [= <-]. right. exists pos. split; [done|]. lia.
  - destruct (wr _ _ _) as [m'|]; [|done]. cbn [mbind option_bind]. destruct (_ && _).
    + intros [= <-]. right. exists pos. split; [done|]. lia.
    + assert (Hn : 0 ≤ TxInfoPktLen info < 2 ^ 16) by (unfold TxInfoPktLen, bits_at; rewrite Z.land_ones by lia; by apply Z.mod_pos_bound).
      intros H. apply IH in H; [|destruct Hs; split; lia]. right. destruct H as [->|(p & -> & Hp)]; [exists pos|exists p]; (split; [done|]; lia).
Qed.

(** * Setting up the transfer *)

(** Whether data is saved from the end of the transfer. *)
Definition saves (r : bulk_run) (c : HT_TX_CONTEXT) (e : Z) : bool :=
  negb (br_round r) && (((e =? CW c) && (CW c <? CWR c)) || negb (e =? CW c)).

Lemma finish_walked fl pre q post r qa qb c :
  walked fl pre q post 0 None r qa qb → qa ≠ [] → Forall frame_ok q → (8 ≤ length post)%nat →
  bCopySavePad c = false → length (SavedPad c) = 8%nat →
  let m := pre ++ concat (marked qa) ++ concat (stored fl qb) ++ post in
  let e := len pre + len (concat qa) in
  ∃ pad m', (saves r c e = true → rd m e 8 = Some pad) ∧ length pad = 8%nat ∧ wr m e (zeros 8) = Some m' ∧
    bulk_finish r c = Some (mk_httx m' (len (concat qa) + 4) (tx_IRPPending c) (bCurWriting c) (bRingEmpty c) (saves r c e) pad
                              (CW c) (CWR c) (NB c) (if br_round r then 8 else e)).
Proof.
  intros [Eq Ho Hs He Hr Hn Hm] Hqa Hq Hp Hc Hpd m e.
  destruct Hm as [(-> & _)|(qa' & f & z & -> & Hz & El & Em)]; [done|]. rewrite Eq in Hq.
  apply Forall_app in Hq as [Hqa' Hqb]. pose proof Hqa' as [Hq1 Hf]%Forall_app. apply Forall_cons in Hf as [Hf _].
  assert (Lm : len m = e + len (concat (stored fl qb) ++ post)) by (unfold m, e; rewrite !length_app, length_marked by done; lia).
  rewrite length_app in Lm.
  assert (E1 : upd_word (set_UDMANextVld 0) (br_mem r) (len pre + len (concat qa')) = Some m).
  { rewrite Em. rewrite (app_assoc pre). rewrite (clear_next _ f z) by (done || (rewrite length_app, length_followeds by done; lia)).
    f_equal. unfold m. by rewrite marked_snoc, concat_snoc, <- !app_assoc. }
  destruct (rd_inside m e 8) as (pad & Ep & Lp); [unfold e; lia..|]. destruct (wr_inside m e (zeros 8)) as (m' & Ew & _); [unfold e; lia|rewrite length_zeros; lia|].
  exists (if saves r c e then pad else SavedPad c), m'. split; [by intros ->|]. split; [destruct (saves r c e); lia|]. split; [done|].
  unfold bulk_finish. rewrite El, E1. cbn [mbind option_bind]. cbv zeta. cbn [ENextBulkOutPosition CurWritePosition CurWriteRealPos set_WirelessPacket set_bulk_pos].
  rewrite Hn, He, Hs. fold e. unfold saves. destruct (br_round r) eqn:Er; cbn [negb andb].
  - rewrite Ew. cbn [mbind option_bind]. unfold set_WirelessPacket, set_bulk_pos. cbn. by rewrite Hc.
  - destruct (_ || _); [rewrite Ep|]; cbn [mbind option_bind]; rewrite Ew; cbn [mbind option_bind];
      unfold set_WirelessPacket, set_bulk_pos, set_pad; cbn; by rewrite ?Hc.
Qed.

(** The transfer carries the frames that were taken. *)
Lemma finished_data pre qa tl m' : Forall frame_ok qa → (8 ≤ length tl)%nat →
  wr (pre ++ concat (marked qa) ++ tl) (len pre + len (concat qa)) (zeros 8) = Some m' →
  rd m' (len pre) (len (concat qa) + 4) = Some (batch_data qa).
Proof.
  intros Hq Ht Hw. pose proof (length_marked qa Hq) as Lq.
  rewrite (wr_at (pre ++ concat (marked qa)) (take 8 tl) (drop 8 tl)) in Hw.
  - injection Hw as <-. eapply (rd_at pre _ (zeros 4 ++ drop 8 tl)); [|done|unfold batch_data; rewrite length_app, Lq, length_zeros; lia].
    unfold batch_data. change (zeros 8) with (zeros 4 ++ zeros 4). by rewrite <- !app_assoc.
  - by rewrite <- app_assoc, take_drop.
  - rewrite length_app, Lq. lia.
  - rewrite length_zeros, length_take. lia.
Qed.

(** Data at the end of the transfer is saved and can be put back. *)
Lemma finished_saved m e D pad m' : rd m e (len D) = Some D → 8 ≤ len D → rd m e 8 = Some pad → wr m e (zeros 8) = Some m' →
  ∃ rest, D = pad ++ rest ∧ rd m' (e + 8) (len rest) = Some rest.
Proof.
  intros HD Hl Hp Hw. pose proof (rd_length _ _ _ _ Hp) as Lp. rewrite <- (take_drop 8 D) in HD.
  assert (L8 : length (take 8 D) = 8%nat) by (rewrite length_take; lia).
  pose proof (rd_app_l _ _ _ _ HD) as H1. rewrite L8 in H1. change (Z.of_nat 8) with 8 in H1. rewrite H1 in Hp. injection Hp as <-.
  exists (drop 8 D). split; [by rewrite take_drop|]. apply rd_app_r in HD. rewrite L8 in HD.
  eapply wr_rd_other; [done|exact HD|]. rewrite length_zeros. lia.
Qed.

(** What was saved is put back. *)
Lemma restored c D : data_at c D → length (SavedPad c) = 8%nat → 0 ≤ ENB c → ENB c + 8 ≤ len (WP c) →
  ∃ m, (if bCopySavePad c then wr (WP c) (ENB c) (SavedPad c) else Some (WP c)) = Some m ∧ length m = length (WP c) ∧
    rd m (ENB c) (len D) = Some D ∧ ∀ a n x, rd (WP c) a n = Some x → a + n ≤ ENB c → rd m a n = Some x.
Proof.
  unfold data_at. destruct (bCopySavePad c); [|intros HD _ _ _; by exists (WP c)].
  intros (rest & -> & Hr) Hl H0 H8. destruct (wr_inside (WP c) (ENB c) (SavedPad c)) as (m & Hw & Lm); [lia|rewrite Hl; lia|].
  exists m. split; [done|]. split; [done|]. split.
  - apply rd_snoc; [by eapply wr_rd_same|]. rewrite Hl. eapply wr_rd_other; [done|exact Hr|]. rewrite Hl. lia.
  - intros a n x Hx Hd. eapply wr_rd_other; [done..|]. lia.
Qed.

(** Data in front of a changed part is still there. *)
Lemma rd_front pre x x' a n y : length x' = length x → rd (pre ++ x) a n = Some y → a + n ≤ len pre → rd (pre ++ x') a n = Some y.
Proof.
  intros Hl Hr Hd. eapply (wr_rd_other (pre ++ x) (len pre) x'); [|exact Hr|lia].
  rewrite (wr_at pre x []); [by rewrite app_nil_r|by rewrite app_nil_r|done|done].
Qed.

(** * One transfer *)

Lemma length_frames q : Forall frame_ok q → (length q ≤ length (concat q))%nat.
Proof. induction 1 as [|f q Hf _ IH]; [done|]. pose proof (frame_length f Hf). cbn [length concat]. rewrite length_app. lia. Qed.

(** The context when the walk begins. *)
Definition bulk_begun (c : HT_TX_CONTEXT) (m : list Z) : HT_TX_CONTEXT :=
  set_WirelessPacket m (set_pad false (SavedPad c) (set_bulk_pos (BulkOutSize c) (ENB c) (ENB c) c)).

(** What the walk and the setup leave: the frames [qa] are in the transfer,
    [qb] are in front of [post], and [m] is the buffer without the zeros that
    end the transfer. *)
Record sent (fl : bool) (c : HT_TX_CONTEXT) (pre post : list Z) (q qa qb : list (list Z)) (c' : HT_TX_CONTEXT) : Prop := {
  st_split : q = qa ++ qb;
  st_some : qa ≠ [];
  st_urb : urb_data c' = Some (batch_data qa);
  st_mem : ∃ pad, let e := len pre + len (concat qa) in let m := pre ++ concat (marked qa) ++ concat (stored fl qb) ++ post in
    wr m e (zeros 8) = Some (WP c') ∧ SavedPad c' = pad ∧ length pad = 8%nat ∧ (bCopySavePad c' = true → rd m e 8 = Some pad);
  st_saved : let e := len pre + len (concat qa) in
    bCopySavePad c' = negb (fl && bool_decide (qb = [])) && (((e =? CW c) && (CW c <? CWR c)) || negb (e =? CW c));
  st_size : ∀ qa' f, qa = qa' ++ [f] → len (concat qa') < 2 ^ 15;
  st_cw : CW c' = CW c;
  st_cwr : CWR c' = CWR c;
  st_writing : bCurWriting c' = bCurWriting c;
  st_irp : tx_IRPPending c' = tx_IRPPending c;
  st_nb : NB c' = len pre;
  st_enb : ENB c' = if fl && bool_decide (qb = []) then 8 else len pre + len (concat qa)
}.

Lemma bulk_sent cfg fl c m pre q post :
  m = pre ++ concat (stored fl q) ++ post → ENB c = len pre → Forall frame_ok q → q ≠ [] → (12 ≤ length post)%nat → length (SavedPad c) = 8%nat →
  (if fl then CW c < len pre else CW c = len pre + len (concat q)) →
  ∃ r c' qa qb, bulk_loop cfg (S (length m)) (CW c) m 0 (ENB c) 0 None 0 = Some r ∧ br_ok r = true ∧
    bulk_finish r (bulk_begun c m) = Some c' ∧ sent fl c pre post q qa qb c'.
Proof.
  intros -> Ee Hq Hn Hp Hpd Hcw.
  destruct (bulk_walk cfg fl q (S (length (pre ++ concat (stored fl q) ++ post))) pre post 0 0 None 0 (CW c)) as (r & qa & qb & El & Hw & Hqa);
    [done| |done|by destruct fl|].
  { rewrite !length_app, length_stored by done. pose proof (length_frames q Hq). lia. }
  specialize (Hqa eq_refl Hn). rewrite Ee, El. exists r.
  destruct (finish_walked fl pre q post r qa qb (bulk_begun c (pre ++ concat (stored fl q) ++ post)) Hw Hqa Hq) as (pad & m' & H1 & H2 & H3 & H4);
    [lia|done|done|].
  eexists _, qa, qb. split; [done|]. split; [apply Hw|]. split; [exact H4|]. pose proof (wk_split _ _ _ _ _ _ _ _ _ Hw) as Es. pose proof (wk_round _ _ _ _ _ _ _ _ _ Hw) as Er.
  assert (Hqs : Forall frame_ok qa) by (rewrite Es in Hq; apply Forall_app in Hq; apply Hq).
  split; [done|done| | | | |done|done|done|done|exact Ee|cbn; by rewrite Er].
  - unfold urb_data. cbn. rewrite Ee. eapply finished_data; [done| |exact H3]. rewrite length_app. lia.
  - exists pad. by split_and!.
  - cbv zeta. rewrite <- Er. done.
  - intros qa' f Ef. apply bulk_loop_last in El; [|done]. destruct (wk_mem _ _ _ _ _ _ _ _ _ Hw) as [(? & _)|(qa1 & f1 & _ & E1 & _ & E2 & _)]; [done|].
    rewrite E1 in Ef. apply app_inj_tail in Ef as [-> _]. rewrite E2 in El. destruct El as [|(p & [= <-] & ?)]; [done|lia].
Qed.

(** * The invariant after a transfer *)

Lemma length_batch qa : Forall frame_ok qa → len (batch_data qa) = len (concat qa) + 4.
Proof. intros Hq. unfold batch_data. rewrite length_app, length_marked, length_zeros by done. lia. Qed.

Lemma sent_frames fl c pre post q qa qb c' : sent fl c pre post q qa qb c' → Forall frame_ok q → Forall frame_ok qa ∧ Forall frame_ok qb.
Proof. intros [-> _ _ _ _ _ _ _ _ _ _ _] Hq. by apply Forall_app in Hq. Qed.

Lemma sent_batch fl c pre post q qa qb c' : sent fl c pre post q qa qb c' → batch_ok qa.
Proof. intros Hs. pose proof (st_some _ _ _ _ _ _ _ _ Hs). destruct qa as [|f qa _] using rev_ind; [done|]. exists qa, f. split; [done|]. by apply (st_size _ _ _ _ _ _ _ _ Hs qa f). Qed.

Lemma sent_length fl c pre post q qa qb c' : sent fl c pre post q qa qb c' → Forall frame_ok q →
  length (WP c') = length (pre ++ concat (stored fl q) ++ post).
Proof.
  intros Hs Hq. destruct (sent_frames _ _ _ _ _ _ _ _ Hs Hq) as [Ha Hb]. destruct Hs as [Eq _ _ (pad & Hw & _) _ _ _ _ _ _ _ _].
  rewrite (wr_length _ _ _ _ Hw), !length_app, length_marked, !length_stored by done. rewrite Eq, concat_app, length_app. lia.
Qed.

(** What is behind the transfer is found again, saved or not. *)
Lemma sent_behind fl c pre post q qa qb c' D junk : sent fl c pre post q qa qb c' → Forall frame_ok q →
  concat (stored fl qb) ++ post = D ++ junk → ENB c' = len pre + len (concat qa) →
  (if bCopySavePad c' then 8 ≤ len D else D = []) → behind c' (batch_data qa) D.
Proof.
  intros Hs Hq ED Ee Hd. destruct (sent_frames _ _ _ _ _ _ _ _ Hs Hq) as [Ha Hb]. pose proof (st_nb _ _ _ _ _ _ _ _ Hs) as En.
  destruct Hs as [_ _ _ (pad & Hw & Epad & Lp & Hrd) _ _ _ _ _ _ _ _]. cbv zeta in *.
  assert (Rd : rd (pre ++ concat (marked qa) ++ concat (stored fl qb) ++ post) (len pre + len (concat qa)) (len D) = Some D).
  { rewrite ED. eapply (rd_at (pre ++ concat (marked qa)) D junk); [by rewrite <- !app_assoc|rewrite length_app, length_marked by done; lia|done]. }
  split; [rewrite length_batch, En, Ee by done; lia|]. unfold data_at. rewrite Ee, Epad. destruct (bCopySavePad c').
  - split; [intros ->; cbn in Hd; lia|]. by apply (finished_saved _ _ D pad _ Rd Hd (Hrd eq_refl) Hw).
  - subst D. split; [done|]. apply rd_nil; [lia|]. pose proof (wr_length _ _ _ _ Hw) as Lm. rewrite Lm, !length_app, length_marked by done. lia.
Qed.

(** What is in front of the transfer is still there. *)
Lemma sent_front fl c pre post q qa qb c' a n x : sent fl c pre post q qa qb c' → Forall frame_ok q →
  rd (pre ++ concat (stored fl q) ++ post) a n = Some x → a + n ≤ len pre → rd (WP c') a n = Some x.
Proof.
  intros Hs Hq Hr Hd. destruct (sent_frames _ _ _ _ _ _ _ _ Hs Hq) as [Ha Hb]. destruct Hs as [Eq _ _ (pad & Hw & _) _ _ _ _ _ _ _ _].
  eapply wr_rd_other; [exact Hw| |lia]. eapply rd_front; [|exact Hr|done].
  rewrite !length_app, length_marked, !length_stored by done. rewrite Eq, concat_app, length_app. lia.
Qed.

Section Transfer.
Context (c : HT_TX_CONTEXT) (last : list Z) (q : list (list Z)) (b : list Z) (P : option Z).
Context (Hi : ring_inv c last q b P) (Hq : q ≠ []).

(** What the routine does with the context, and what it leaves. *)
Definition transfer (cfg : bulk_cfg) : Prop :=
  ∃ m r c' qa qb, (if bCopySavePad c then wr (WP c) (ENB c) (SavedPad c) else Some (WP c)) = Some m ∧
    bulk_loop cfg (S (length m)) (CW c) m 0 (ENB c) 0 None 0 = Some r ∧ br_ok r = true ∧ bulk_finish r (bulk_begun c m) = Some c' ∧
    q = qa ++ qb ∧ batch_ok qa ∧ urb_data c' = Some (batch_data qa) ∧ ring_inv c' (batch_data qa) qb b P ∧
    CW c' = CW c ∧ tx_IRPPending c' = tx_IRPPending c.

Lemma writing_some : b ≠ [] → 8 ≤ len b ∧ CW c < CWR c ∧ P ≠ None.
Proof using Hi. intros Hb. destruct Hi as [_ _ _ _ Hw _]. destruct P; cbn in Hw; [|by destruct Hw]. split_and!; (done || lia). Qed.

Lemma writing_none : b = [] → CWR c = CW c.
Proof using Hi. intros ->. destruct Hi as [_ _ _ _ Hw _]. destruct P; cbn in Hw; [lia|by destruct Hw as (_ & _ & ->)]. Qed.

(** The frames are in one piece. *)
Lemma transfer_flat cfg : data_at c (concat q ++ b) → 8 ≤ ENB c → CW c = ENB c + len (concat q) → CW c ≤ MAX_TXBULK_LIMIT - 3898 →
  (P = None → CW c ≤ MAX_TXBULK_LIMIT - 3906) → transfer cfg.
Proof using Hi Hq.
  intros HD H8 Ec Hc1 Hc2. pose proof Hi as [Hl Hpd Hu Hf Hw _]. assert (EL : MAX_TXBULK_LIMIT = 202752 ∧ MAX_TXBULK_SIZE = 204800) by done.
  destruct (restored c _ HD Hpd) as (m & Em & Lm & Rm & _); [lia|lia|].
  apply rd_split in Rm as (pre & post & Em' & Ep). rewrite <- app_assoc in Em'.
  assert (L : len pre + len (concat q) + len (b ++ post) = 204800) by (rewrite <- Lm, Em', !length_app in Hl; rewrite !length_app; lia).
  destruct (bulk_sent cfg false c m pre q (b ++ post)) as (r & c' & qa & qb & E1 & E2 & E3 & Hs);
    [by rewrite stored_false|done|done|done|lia|done|lia|].
  exists m, r, c', qa, qb. split_and!; [done|done|done|done|apply Hs|by eapply sent_batch|apply Hs| |apply Hs|apply Hs].
  destruct (sent_frames _ _ _ _ _ _ _ _ Hs Hf) as [Ha Hb]. pose proof (concat_frames qa Ha (st_some _ _ _ _ _ _ _ _ Hs)) as La.
  pose proof (sent_length _ _ _ _ _ _ _ _ Hs Hf) as Lc. rewrite stored_false in Lc. pose proof (st_enb _ _ _ _ _ _ _ _ Hs) as He. pose proof (st_nb _ _ _ _ _ _ _ _ Hs) as Hn.
  cbn in He. assert (Eqq : len (concat q) = len (concat qa) + len (concat qb)) by (rewrite (st_split _ _ _ _ _ _ _ _ Hs), concat_app, length_app; lia).
  split; [rewrite Lc, !length_app; rewrite length_app in L; lia|destruct (st_mem _ _ _ _ _ _ _ _ Hs) as (pad & _ & -> & -> & _); done|apply Hs|done| |].
  - destruct Hs. unfold writing in *. by rewrite st_cw0, st_cwr0, st_writing0.
  - assert (Hbe : behind c' (batch_data qa) (concat qb ++ b)).
    { eapply (sent_behind _ _ _ _ _ _ _ _ _ post Hs Hf); [by rewrite stored_false, <- app_assoc|done|].
      rewrite (st_saved _ _ _ _ _ _ _ _ Hs). cbn. rewrite length_app. destruct (decide (qb = [])) as [->|Nb].
      - cbn in Eqq |- *. rewrite Ec, (proj2 (Z.eqb_eq (len pre + len (concat qa)) _)) by lia. cbn. destruct (decide (b = [])) as [Ebb|Nbb].
        + rewrite (writing_none Ebb), Ec, Z.ltb_irrefl. done.
        + destruct (writing_some Nbb) as (? & ? & _). rewrite (proj2 (Z.ltb_lt _ _)) by lia. cbn. lia.
      - pose proof (concat_frames qb Hb Nb). rewrite (proj2 (Z.eqb_neq (len pre + len (concat qa)) _)) by lia. cbn. lia. }
    rewrite <- (st_cw _ _ _ _ _ _ _ _ Hs) in Ec, Hc1, Hc2.
    apply Flat; [done|lia|done|done|right|intros ? _ _]; split; lia.
Qed.

(** The frames are in two pieces: at most the first one is taken. *)
Lemma transfer_wrapped cfg q1 f q2 : q = (q1 ++ [f]) ++ q2 → behind c last (concat (stored true (q1 ++ [f]))) →
  MAX_TXBULK_LIMIT - 5938 ≤ ENB c + len (concat q1) ≤ MAX_TXBULK_LIMIT - 3898 → ENB c + len (concat q1) + len f + 12 ≤ MAX_TXBULK_SIZE →
  made c → rd (WP c) 8 (len (concat q2 ++ b)) = Some (concat q2 ++ b) → CW c = 8 + len (concat q2) →
  (CW c < NB c ∨ CW c = 8) → (∀ p, P = Some p → CW c + p + 8 ≤ NB c ∧ CW c + 3906 + p ≤ MAX_TXBULK_LIMIT) → transfer cfg.
Proof using Hi Hq.
  intros Eq Hbe H1 H2 [M1 M2] Rb Ec Hcn HP. pose proof Hi as [Hl Hpd Hu Hf Hw _]. destruct Hbe as (_ & _ & HD).
  assert (Hfs : Forall frame_ok (q1 ++ [f]) ∧ Forall frame_ok q2) by (rewrite Eq in Hf; by apply Forall_app in Hf). destruct Hfs as [Hf1 Hf2].
  assert (Hbl : 8 + len (concat q2 ++ b) ≤ NB c).
  { rewrite length_app. destruct P as [p|]; cbn in Hw; [destruct (HP p eq_refl); lia|]. destruct Hw as (-> & _ & _). cbn. lia. }
  destruct (restored c _ HD Hpd) as (m & Em & Lm & Rm & Rf); [lia|lia|]. specialize (Rf _ _ _ Rb ltac:(lia)).
  apply rd_split in Rm as (pre & post & -> & Ep).
  assert (L : len pre + len (concat (q1 ++ [f])) + len post = MAX_TXBULK_SIZE) by (rewrite !length_app, length_stored in Lm by done; lia).
  rewrite concat_snoc, length_app in L.
  destruct (bulk_sent cfg true c _ pre (q1 ++ [f]) post eq_refl) as (r & c' & qa & qb & E1 & E2 & E3 & Hs); [done|done|by destruct q1|lia|done|lia|].
  exists (pre ++ concat (stored true (q1 ++ [f])) ++ post), r, c', qa, (qb ++ q2).
  split_and!; [done|done|done|done|by rewrite Eq, (st_split _ _ _ _ _ _ _ _ Hs), <- app_assoc|by eapply sent_batch|apply Hs| |apply Hs|apply Hs].
  destruct (sent_frames _ _ _ _ _ _ _ _ Hs Hf1) as [Ha Hb]. pose proof (concat_frames qa Ha (st_some _ _ _ _ _ _ _ _ Hs)) as La.
  pose proof (sent_length _ _ _ _ _ _ _ _ Hs Hf1) as Lc. pose proof (st_enb _ _ _ _ _ _ _ _ Hs) as He. pose proof (st_nb _ _ _ _ _ _ _ _ Hs) as Hn.
  pose proof (sent_front _ _ _ _ _ _ _ _ _ _ _ Hs Hf1 Rf ltac:(lia)) as Rb'. pose proof (st_cw _ _ _ _ _ _ _ _ Hs) as Hcw.
  split; [rewrite Lc; lia|destruct (st_mem _ _ _ _ _ _ _ _ Hs) as (pad & _ & -> & -> & _); done|apply Hs|by apply Forall_app_2| |].
  { destruct Hs. unfold writing in *. by rewrite st_cw0, st_cwr0, st_writing0. }
  destruct qb as [|g qb _] using rev_ind.
  - cbn in He. assert (Hz : len (concat q1) < 2 ^ 15) by (apply (st_size _ _ _ _ _ _ _ _ Hs q1 f); rewrite <- (app_nil_r qa); symmetry; apply Hs).
    assert (EL : MAX_TXBULK_LIMIT = 202752) by done. apply Home; cbn; [by rewrite (st_saved _ _ _ _ _ _ _ _ Hs)|by left|lia|by rewrite He|lia|lia|].
    intros p Hp. destruct (HP p Hp). lia.
  - assert (Hbf : bool_decide (qb ++ [g] = []) = false) by (apply bool_decide_false; by destruct qb). rewrite Hbf in He. cbn in He.
    pose proof (st_split _ _ _ _ _ _ _ _ Hs) as Es. rewrite app_assoc in Es. apply app_inj_tail in Es as [Es ->].
    assert (Eqq : len (concat q1) = len (concat qa) + len (concat qb)) by (rewrite Es, concat_app, length_app; lia).
    apply (Wrapped _ _ _ _ _ qb g q2); [done| |lia|lia|split; lia|done|lia|lia|intros p Hp; destruct (HP p Hp); lia].
    eapply (sent_behind _ _ _ _ _ _ _ _ _ post Hs Hf1 eq_refl He).
    rewrite (st_saved _ _ _ _ _ _ _ _ Hs), Hbf. cbn. rewrite (proj2 (Z.eqb_neq (len pre + len (concat qa)) _)) by lia. cbn.
    rewrite length_stored by done. pose proof (concat_frames _ Hb ltac:(by destruct qb)). lia.
Qed.

Lemma transfer_done cfg : transfer cfg.
Proof using Hi Hq.
  pose proof (rv_phase _ _ _ _ _ Hi) as Hph. pose proof (concat_frames q (rv_frames _ _ _ _ _ Hi) Hq) as Lq.
  destruct Hph as [(B1 & B2 & B3) H2 H3 H4 H5 H6|q1 f q2 E Hbe H2 H3 H4 H5 H6 H7 H8|H1 H2 H3 H4 H5 H6 H7].
  - apply transfer_flat; try done. destruct H5 as [(F1 & F2 & [(_ & _ & F3)|[F3 _]])|[]]; [|lia..].
    apply app_eq_nil in F3 as [F3 _]. rewrite F3 in Lq. cbn in Lq. lia.
  - by apply (transfer_wrapped cfg q1 f q2).
  - apply home_pos in H2. apply transfer_flat; [unfold data_at; by rewrite H1|lia|done|lia|lia].
Qed.

(** There are frames exactly when the positions say so. *)
Lemma frames_waiting : (ENB c =? CW c) || (u64 (ENB c - 8) =? CW c) = false.
Proof using Hi Hq.
  pose proof (rv_phase _ _ _ _ _ Hi) as Hph. pose proof (concat_frames q (rv_frames _ _ _ _ _ Hi) Hq) as Lq.
  assert (EL : MAX_TXBULK_LIMIT = 202752 ∧ MAX_TXBULK_SIZE = 204800) by done.
  enough (8 ≤ ENB c < 2^64 ∧ ENB c ≠ CW c ∧ ENB c - 8 ≠ CW c) as (H1 & H2 & H3).
  { rewrite (proj2 (Z.eqb_neq _ _) H2). rewrite wrap_id by (unfold in_range; lia). by rewrite (proj2 (Z.eqb_neq _ _) H3). }
  destruct Hph as [(B1 & B2 & B3) H2 H3 H4 H5 H6|q1 f q2 E Hbe H2 H3 [M1 M2] H5 H6 H7 H8|H1 H2 H3 H4 H5 H6 H7].
  - destruct H5 as [(F1 & F2 & [(_ & _ & F3)|[F3 _]])|[]]; [|lia..].
    apply app_eq_nil in F3 as [F3 _]. rewrite F3 in Lq. cbn in Lq. lia.
  - lia.
  - apply home_pos in H2. lia.
Qed.
End Transfer.

Lemma no_frames c last b P : ring_inv c last [] b P → ENB c = CW c.
Proof.
  intros [_ _ _ _ _ Hph]. destruct Hph as [_ H2 _ _ _ _|q1 f q2 E _ _ _ _ _ _ _ _|_ _ _ _ H5 _ _]; cbn in *; [lia| |lia].
  by destruct q1.
Qed.
