(* ===== verification/TxRingClaims.v ===== *)
(** What the transmit buffer promises: frames leave in the order in which they
    were written and unchanged, the memory of a transfer under way is stable,
    and everything that was written leaves.  The machine of TxRingSpec keeps
    the invariant of TxRingInv, and the log of transfers is a run of batches
    of the frames that were written. *)

From S2P Require Import Prelude RxPacket RxRing TxRing TxRingSpec TxRingProofs TxRingInv TxRingBulk.

#[local] Abbreviation CW := CurWritePosition.

(** * The log *)

Lemma urbs_snoc l e : urbs (l ++ [e]) = urbs l ++ match e with Ev_urb d ok => [(d, ok)] | _ => [] end.
Proof. unfold urbs. rewrite omap_app. by destruct e. Qed.

Lemma urbs_frees l ids : urbs (l ++ map Ev_kfree ids) = urbs l.
Proof. unfold urbs. rewrite omap_app. induction ids as [|i ids IH]; [by rewrite app_nil_r|]. exact IH. Qed.

Lemma last_data_frees l ids : last_data (l ++ map Ev_kfree ids) = last_data l.
Proof. unfold last_data. by rewrite urbs_frees. Qed.

Lemma last_data_urb l d ok : last_data (l ++ [Ev_urb d ok]) = d.
Proof. unfold last_data. rewrite urbs_snoc, fmap_app. cbn. by rewrite last_snoc. Qed.

Lemma last_data_again l d ok : last_data (l ++ [Ev_urb_again d ok]) = last_data l.
Proof. unfold last_data. by rewrite urbs_snoc, app_nil_r. Qed.

Lemma last_cons_default (x d : list Z) l : default d (last (x :: l)) = default x (last l).
Proof. destruct l; [done|]. cbn. by destruct (last (l :: l0)) eqn:E; [|apply last_None in E]. Qed.

Lemma repeats_snoc prev l e : repeats prev (l ++ [e]) ↔
  repeats prev l ∧ match e with Ev_urb_again d _ => d = default prev (last (urbs l).*1) | _ => True end.
Proof.
  revert prev. induction l as [|x l IH]; intros prev; cbn [app repeats].
  - destruct e; cbn; tauto.
  - destruct x as [i|d ok|d ok]; cbn [repeats]; rewrite IH.
    + done.
    + change (urbs (Ev_urb d ok :: l)) with ((d, ok) :: urbs l). cbn [fmap list_fmap fst]. by rewrite last_cons_default.
    + change (urbs (Ev_urb_again d ok :: l)) with (urbs l). tauto.
Qed.

Lemma repeats_frees prev l ids : repeats prev (l ++ map Ev_kfree ids) ↔ repeats prev l.
Proof.
  induction ids as [|i ids IH] using rev_ind; [by rewrite app_nil_r|]. rewrite map_app, app_assoc. cbn [map]. rewrite repeats_snoc, IH. tauto.
Qed.

(** * Bulk out *)

(** The routine takes frames when there are some and nothing holds it back. *)
Definition stopped (cfg : bulk_cfg) (s : tx_pipe) : bool :=
  BulkOutPending s || (stop_tx cfg || BULKOUT_RESET s) || negb (media_connected cfg).

Record unchanged (s s' : tx_pipe) : Prop := { uc_quiet : quiet s s'; uc_ctx : tp_ctx s' = tp_ctx s }.

Record submitted (submit : bool) (s s' : tx_pipe) (q qa qb : list (list Z)) (b : list Z) (P : option Z) : Prop := {
  sb_idle : BulkOutPending s = false;
  sb_split : q = qa ++ qb;
  sb_some : batch_ok qa;
  sb_log : tp_log s' = tp_log s ++ [Ev_urb (batch_data qa) submit];
  sb_inv : ring_inv (tp_ctx s') (batch_data qa) qb b P;
  sb_cw : CW (tp_ctx s') = CW (tp_ctx s);
  sb_pending : BulkOutPending s' = submit;
  sb_irp : tx_IRPPending (tp_ctx s') = if submit then true else tx_IRPPending (tp_ctx s);
  sb_reset : BULKOUT_RESET s' = BULKOUT_RESET s
}.

Lemma quiet_flags s n f : quiet s (set_bulk_flags n f s).
Proof. split; try done. exists []. by rewrite app_nil_r. Qed.

Lemma quiet_refl s : quiet s s.
Proof. split; try done. exists []. by rewrite app_nil_r. Qed.

Lemma bulk_ok cfg submit s last q b P : ring_inv (tp_ctx s) last q b P →
  ∃ s', RTUSBBulkOutDataPacket cfg submit s = Some s' ∧
    ((stopped cfg s = true ∨ q = []) ∧ unchanged s s' ∨ ∃ qa qb, submitted submit s s' q qa qb b P).
Proof.
  intros Hi. unfold RTUSBBulkOutDataPacket. destruct (_ || _) eqn:E1.
  { exists s. split; [done|]. left. split; [left; unfold stopped; by rewrite E1|]. split; [apply quiet_refl|done]. }
  destruct (media_connected cfg) eqn:E2; cbn [negb].
  2: { exists s. split; [done|]. left. split; [left; unfold stopped; by rewrite E2, orb_true_r|]. split; [apply quiet_refl|done]. }
  cbv zeta. destruct (decide (q = [])) as [->|Nq].
  { rewrite (no_frames _ _ _ _ Hi), Z.eqb_refl. eexists. split; [done|]. left. split; [by right|]. split; [apply quiet_flags|done]. }
  rewrite (frames_waiting _ _ _ _ _ Hi Nq). destruct (transfer_done _ _ _ _ _ Hi Nq cfg) as (m & r & c' & qa & qb & -> & T2 & T3 & T4 & T5 & T6 & T7 & T8 & T9 & T10).
  cbn [mbind option_bind]. unfold bulk_begun in T4. cbn [CurWritePosition set_WirelessPacket set_pad set_bulk_pos]. rewrite T2. cbn [mbind option_bind].
  rewrite T3. cbn [negb]. rewrite T4. cbn [mbind option_bind]. rewrite T7. cbn [mbind option_bind]. apply orb_false_elim in E1 as [E1 _].
  destruct submit; eexists; (split; [done|]); right; exists qa, qb; split; try done. by eapply inv_same; [..|exact T8].
Qed.

(** * The machine *)

Record tm_inv (t : tx_machine) (batches : list (list (list Z) * bool)) (q : list (list Z)) : Prop := {
  mi_ring : ∃ b P, ring_inv (tp_ctx (tm_pipe t)) (last_data (tp_log (tm_pipe t))) q b P ∧ writer_ok (tm_writer t) (tp_ctx (tm_pipe t)) b P;
  mi_irp : tx_IRPPending (tp_ctx (tm_pipe t)) = BulkOutPending (tm_pipe t);
  mi_urbs : urbs (tp_log (tm_pipe t)) = map batch_urb batches;
  mi_some : Forall batch_ok batches.*1;
  mi_repeats : repeats [] (tp_log (tm_pipe t));
  mi_written : concat batches.*1 ++ q = tm_written t
}.

(** Nothing was submitted: only the ring and the writer are to be looked at. *)
Lemma inv_quiet t s w' q q' b P wr' batches : tm_inv t batches q → quiet (tm_pipe t) s → concat batches.*1 ++ q' = wr' →
  ring_inv (tp_ctx s) (last_data (tp_log (tm_pipe t))) q' b P → writer_ok w' (tp_ctx s) b P → tm_inv (mk_txm s w' wr') batches q'.
Proof.
  intros [_ Hirp Hu Hs Hr _] [Q1 Q2 Q3 (ids & Q4)] Hq Hi Hw. split; cbn; rewrite ?Q4, ?urbs_frees, ?repeats_frees; [|congruence|done..].
  exists b, P. by rewrite last_data_frees.
Qed.

Lemma inv_start junk : Z.of_nat (length junk) = MAX_TXBULK_SIZE → tm_inv (tx_start junk) [] [].
Proof. intros Hl. split; try done. exists [], None. split; [by apply inv_init|done]. Qed.

Lemma step_bulk cfg submit t batches q : tm_inv t batches q →
  ∃ t', tx_step (Op_bulk cfg submit) t = Some t' ∧ tm_written t' = tm_written t ∧ BULKOUT_RESET (tm_pipe t') = BULKOUT_RESET (tm_pipe t) ∧
    ((stopped cfg (tm_pipe t) || scan_in_progress cfg = true ∨ q = []) ∧ tm_inv t' batches q ∧ BulkOutPending (tm_pipe t') = BulkOutPending (tm_pipe t) ∨
     ∃ qa qb, q = qa ++ qb ∧ batch_ok qa ∧ tm_inv t' (batches ++ [(qa, submit)]) qb).
Proof.
  intros Hi. pose proof (mi_ring _ _ _ Hi) as (b & P & Hr & Hw). destruct t as [s w wrt]. cbn in *. unfold RTUSBDataBulkOut. cbn [bulk_NORMAL kick_flag set_bulk_flags andb].
  destruct (_ || _) eqn:E.
  2: { eexists. split; [done|]. split; [done|]. split; [done|]. left. split; [left|split; [|done]].
       - destruct (scan_in_progress cfg); [by rewrite orb_true_r|done].
       - eapply inv_quiet; [exact Hi|apply quiet_flags|apply Hi|exact Hr|exact Hw]. }
  destruct (bulk_ok cfg submit (kick_flag s) _ _ _ _ Hr) as (s' & -> & Hc). cbn [mbind option_bind]. eexists. split; [done|]. split; [done|]. cbn.
  destruct Hc as [(Hst & [Q1 Q2])|(qa & qb & [S1 S2 S3 S4 S5 S6 S7 S8 S9])].
  - split; [apply Q1|]. left. split; [destruct Hst as [Hst|]; [left; unfold stopped in *; cbn in Hst; by rewrite Hst|by right]|]. split; [|apply Q1].
    eapply (inv_quiet (mk_txm s w wrt)); [exact Hi| |apply Hi|by rewrite Q2|by rewrite Q2]. by destruct Q1.
  - split; [done|]. right. exists qa, qb. split; [done|]. split; [done|]. destruct Hi as [_ Hirp Hu Hs Hrp Hwr]. cbn in *.
    split; cbn; rewrite ?S4, ?urbs_snoc, ?last_data_urb.
    + exists b, P. split; [done|]. by eapply writer_same.
    + rewrite S8, S7. destruct submit; congruence.
    + by rewrite Hu, map_app.
    + rewrite fmap_app. apply Forall_app_2; [done|by constructor].
    + by apply repeats_snoc.
    + rewrite <- Hwr, S2, fmap_app, concat_app. cbn. by rewrite app_nil_r, app_assoc.
Qed.

(** The transfer is over: the ring is as before. *)
Lemma complete_ring ok halting s : let s' := rtusb_dataout_complete ok halting s in
  (∀ last q b P, ring_inv (tp_ctx s) last q b P → ring_inv (tp_ctx s') last q b P) ∧ CW (tp_ctx s') = CW (tp_ctx s) ∧
  tx_IRPPending (tp_ctx s') = false ∧ BulkOutPending s' = false ∧ tp_log s' = tp_log s ∧ (ok = true → BULKOUT_RESET s' = BULKOUT_RESET s).
Proof.
  cbv zeta. unfold rtusb_dataout_complete. cbv zeta. split.
  - intros last q b P H. repeat case_match; (eapply inv_same; [..|exact H]; done).
  - repeat case_match; done.
Qed.

Lemma step_complete ok halting t batches q : tm_inv t batches q →
  ∃ t', tx_step (Op_complete ok halting) t = Some t' ∧ tm_inv t' batches q ∧ tm_written t' = tm_written t ∧ BulkOutPending (tm_pipe t') = false ∧
    (ok = true → BULKOUT_RESET (tm_pipe t') = BULKOUT_RESET (tm_pipe t)).
Proof.
  intros Hi. pose proof Hi as [(b & P & Hr & Hw) Hirp Hu Hs Hrp Hwr]. destruct t as [s w wrt]. cbn in *. destruct (tx_IRPPending (tp_ctx s)) eqn:Ei.
  2: { eexists. split; [done|]. by split_and!. }
  destruct (complete_ring ok halting s) as (C1 & C2 & C3 & C4 & C5 & C6). eexists. split; [done|]. split; [|by split_and!].
  split; cbn; rewrite ?C5; [|congruence|done..]. exists b, P. split; [by apply C1|by eapply writer_same].
Qed.

(** The reset repeats the transfer. *)
Lemma step_reset submit t batches q : tm_inv t batches q →
  ∃ t', tx_step (Op_reset submit) t = Some t' ∧ tm_inv t' batches q ∧ tm_written t' = tm_written t ∧ BULKOUT_RESET (tm_pipe t') = false.
Proof.
  intros Hi. pose proof Hi as [(b & P & Hr & Hw) Hirp Hu Hs Hrp Hwr]. destruct t as [s w wrt]. cbn in *. destruct (BULKOUT_RESET s) eqn:Er.
  2: { eexists. split; [done|]. by split_and!. }
  unfold ResetBulkOutHdlr. cbn [set_BULKOUT_RESET BulkOutPending]. destruct (BulkOutPending s) eqn:Ep.
  { eexists. split; [done|]. split; [|done]. split; cbn; try done. by exists b, P. by rewrite Ep. }
  cbv zeta. change (tp_ctx (set_BULKOUT_RESET false s)) with (tp_ctx s). rewrite (rv_urb _ _ _ _ _ Hr). cbn [mbind option_bind]. eexists. split; [done|]. split; [|by destruct submit].
  assert (Hl : tp_log (if submit then set_BulkOutPending true (set_ctx (set_IRPPending true (tp_ctx s))
             (tx_log (Ev_urb_again (last_data (tp_log s)) submit) (set_BULKOUT_RESET false s)))
           else set_ctx (set_IRPPending false (tp_ctx s)) (tx_log (Ev_urb_again (last_data (tp_log s)) submit) (set_BULKOUT_RESET false s))) =
           tp_log s ++ [Ev_urb_again (last_data (tp_log s)) submit]) by (by destruct submit).
  split; cbn [tm_pipe tm_writer tm_written]; rewrite ?Hl, ?last_data_again, ?urbs_snoc, ?app_nil_r; try done.
  - exists b, P. destruct submit; (split; [by eapply inv_same; [..|exact Hr]|by eapply writer_same; [|exact Hw]]).
  - destruct submit; [done|]. cbn. by rewrite Ep.
  - by apply repeats_snoc.
Qed.

(** * Every operation *)

Lemma step_inv op t batches q : op_ok op → tm_inv t batches q →
  ∃ t' batches' q', tx_step op t = Some t' ∧ tm_inv t' batches' q' ∧ (length (tm_written t') ≤ S (length (tm_written t)))%nat ∧
    (op_taken op → none_refused batches → none_refused batches').
Proof.
  intros Ho Hi. destruct op as [tb| |cfg submit|ok halting|submit].
  - pose proof (mi_ring _ _ _ Hi) as (b & P & Hr & Hw). cbn in Ho. cbn [tx_step]. destruct (tm_writer t) eqn:Ew; [|by exists t, batches, q; split_and!; [| |lia|]..].
    cbn in Hw. destruct Hw as [-> ->]. destruct (single_begin_ok tb (tm_pipe t) _ q Ho Hr) as (o & s' & b & P & -> & Hq & Hr' & Hw').
    cbn [mbind option_bind]. eexists _, batches, q. split; [done|]. split; [|split; [cbn; lia|done]]. eapply inv_quiet; [exact Hi|done|apply Hi|done|done].
  - pose proof (mi_ring _ _ _ Hi) as (b & P & Hr & Hw). cbn [tx_step]. destruct (tm_writer t) as [|tb l|tb l] eqn:Ew; [by exists t, batches, q; split_and!; [| |lia|]|..].
    + destruct (single_copy_ok tb l (tm_pipe t) _ q b P Hr Hw) as (s' & b' & -> & Hq & Hr' & Hw').
      cbn [mbind option_bind]. eexists _, batches, q. split; [done|]. split; [|split; [cbn; lia|done]]. eapply inv_quiet; [exact Hi|done|apply Hi|done|done].
    + destruct (single_end_ok tb l (tm_pipe t) _ q b P Hr Hw) as (Hq & Hr').
      eexists _, batches, (q ++ [frame_of tb]). split; [done|]. split; [|split; [cbn; rewrite length_app; cbn; lia|done]].
      eapply inv_quiet; [exact Hi|done| |done|done]. rewrite <- (mi_written _ _ _ Hi). apply app_assoc.
  - destruct (step_bulk cfg submit t batches q Hi) as (t' & E & Hw & _ & [(_ & Hi' & _)|(qa & qb & _ & _ & Hi')]); exists t'; rewrite Hw; [by eauto 10|].
    eexists _, _. split_and!; [done|exact Hi'|lia|]. intros Ht Hn. apply Forall_app_2; [done|by constructor].
  - destruct (step_complete ok halting t batches q Hi) as (t' & E & Hi' & Hw & _). exists t', batches, q. rewrite Hw. eauto.
  - destruct (step_reset submit t batches q Hi) as (t' & E & Hi' & Hw & _). exists t', batches, q. rewrite Hw. eauto.
Qed.

Lemma run_inv ops : ∀ t batches q, Forall op_ok ops → tm_inv t batches q →
  ∃ t' batches' q', tx_run ops t = Some t' ∧ tm_inv t' batches' q' ∧ (length (tm_written t') ≤ length ops + length (tm_written t))%nat ∧
    (Forall op_taken ops → none_refused batches → none_refused batches').
Proof.
  induction ops as [|op ops IH]; intros t batches q Ho Hi; cbn; [by exists t, batches, q|]. apply Forall_cons in Ho as [Ho Hos].
  destruct (step_inv op t batches q Ho Hi) as (t1 & b1 & q1 & -> & Hi1 & L1 & N1). cbn [mbind option_bind].
  destruct (IH t1 b1 q1 Hos Hi1) as (t2 & b2 & q2 & E & Hi2 & L2 & N2). exists t2, b2, q2. split_and!; [done|done|lia|].
  intros [T1 T2]%Forall_cons H. auto.
Qed.

Lemma run_app ops ops' t : tx_run (ops ++ ops') t = t' ← tx_run ops t; tx_run ops' t'.
Proof. revert t. induction ops as [|op ops IH]; intros t; cbn; [done|]. destruct (tx_step op t); cbn; [apply IH|done]. Qed.

(** * Progress *)

Lemma batch_ok_some fs : batch_ok fs → (0 < length fs)%nat.
Proof. intros (fs' & f & -> & _). rewrite length_app. cbn. lia. Qed.

(** The configuration lets the routine run. *)
Definition running (cfg : bulk_cfg) : Prop := stop_tx cfg = false ∧ media_connected cfg = true ∧ scan_in_progress cfg = false.

Lemma rounds_drain cfg n : running cfg → ∀ t batches q, (length q ≤ n)%nat → tm_inv t batches q →
  BulkOutPending (tm_pipe t) = false → BULKOUT_RESET (tm_pipe t) = false →
  ∃ t' after, tx_run (concat (replicate n [Op_bulk cfg true; Op_complete true true])) t = Some t' ∧ tm_inv t' (batches ++ after) [] ∧
    none_refused after ∧ concat after.*1 = q ∧ tm_written t' = tm_written t.
Proof.
  intros (R1 & R2 & R3). induction n as [|n IH]; intros t batches q Hn Hi Hp Hr.
  { destruct q; [|cbn in Hn; lia]. exists t, []. rewrite app_nil_r. split_and!; [done|done|constructor|done|done]. }
  destruct (step_bulk cfg true t batches q Hi) as (t1 & E1 & W1 & Hr1 & Hc). cbn [replicate concat app tx_run]. rewrite E1. cbn [mbind option_bind].
  assert (∃ b1 q1, tm_inv t1 (batches ++ b1) q1 ∧ (length q1 ≤ n)%nat ∧ none_refused b1 ∧ concat b1.*1 ++ q1 = q) as (b1 & q1 & Hi1 & Hn1 & N1 & C1).
  { destruct Hc as [([Hst| ->] & Hi1 & _)|(qa & qb & -> & Hb & Hi1)].
    - unfold stopped in Hst. by rewrite Hp, Hr, R1, R2, R3 in Hst.
    - exists [], []. rewrite app_nil_r. split_and!; [done|cbn; lia|constructor|done].
    - exists [(qa, true)], qb. apply batch_ok_some in Hb. rewrite length_app in Hn. split_and!; [done|lia|by repeat constructor|cbn; by rewrite app_nil_r]. }
  destruct (step_complete true true t1 _ q1 Hi1) as (t2 & E2 & Hi2 & W2 & Hp2 & Hr2). rewrite E2. cbn [mbind option_bind].
  destruct (IH t2 _ q1 Hn1 Hi2 Hp2) as (t3 & b3 & E3 & Hi3 & N3 & C3 & W3); [rewrite Hr2 by done; congruence|].
  exists t3, (b1 ++ b3). rewrite app_assoc, fmap_app, concat_app, C3. split_and!; [done|done|by apply Forall_app_2|done|congruence].
Qed.

Lemma drain_inv cfg n t batches q : running cfg → (length q ≤ n)%nat → tm_inv t batches q →
  ∃ t' after, tx_run (drain cfg n) t = Some t' ∧ tm_inv t' (batches ++ after) [] ∧ none_refused after ∧ concat after.*1 = q ∧ tm_written t' = tm_written t.
Proof.
  intros Hrun Hn Hi. unfold drain. cbn [tx_run].
  destruct (step_reset true t batches q Hi) as (t1 & -> & Hi1 & W1 & Hr1). cbn [mbind option_bind].
  destruct (step_complete true true t1 batches q Hi1) as (t2 & -> & Hi2 & W2 & Hp2 & Hr2). cbn [mbind option_bind].
  destruct (rounds_drain cfg n Hrun t2 batches q Hn Hi2 Hp2) as (t3 & b3 & E3 & Hi3 & N3 & C3 & W3); [by rewrite Hr2|].
  exists t3, b3. split_and!; [done|done|done|done|congruence].
Qed.

(** An empty buffer takes a frame. *)
Lemma empty_takes s last : ring_inv (tp_ctx s) last [] [] None → RtmpUSBCanDoWrite s = (true, s).
Proof.
  intros Hi. pose proof (no_frames _ _ _ _ Hi) as Ee. destruct Hi as [_ _ _ _ (_ & Hw & _) Hph]. unfold RtmpUSBCanDoWrite. set (c := tp_ctx s) in *. cbv zeta.
  assert (EL : MAX_TXBULK_LIMIT = 202752 ∧ LOCAL_TXBUF_SIZE = 2048) by done. rewrite Hw.
  enough ((CW c <? NextBulkOutPosition c) && (NextBulkOutPosition c <? CW c + LOCAL_TXBUF_SIZE) = false ∧
          (CW c =? 8) && (NextBulkOutPosition c <? LOCAL_TXBUF_SIZE) = false ∧ (ENextBulkOutPosition c =? 8) && (MAX_TXBULK_LIMIT <? CW c + 7912) = false)
    as (-> & -> & ->) by done.
  destruct Hph as [_ _ _ _ [(F1 & _ & [(F2 & F3 & _)|[_ F2]])|[M1 M2]] _|q1 f q2 E _ _ _ _ _ _ _ _|_ H2%home_pos H3 _ _ _ _]; [split_and!; lia|done|split_and!; lia|by destruct q1|split_and!; lia].
Qed.

(** * The writer *)

Lemma refused tb s s' : single_begin tb s = Some (None, s') → fst (RtmpUSBCanDoWrite s) = false.
Proof.
  unfold single_begin. destruct (RtmpUSBCanDoWrite s) as [[] s1]; [|done]. cbn [negb]. cbv zeta.
  unfold mbind, option_bind. repeat case_match; done.
Qed.

(** The writer is not touched by the other side. *)
Definition bus_op (op : tx_op) : Prop := match op with Op_single _ | Op_writer => False | _ => True end.

Lemma bus_writer op t t' : bus_op op → tx_step op t = Some t' → tm_writer t' = tm_writer t.
Proof.
  destruct op as [tb| |cfg submit|ok halting|submit]; [done..| | |]; intros _; cbn [tx_step].
  - destruct (RTUSBDataBulkOut _ _ _); [|done]. cbn. by intros [= <-].
  - destruct (tx_IRPPending _); by intros [= <-].
  - destruct (BULKOUT_RESET _); [|by intros [= <-]]. destruct (ResetBulkOutHdlr _ _); [|done]. cbn. by intros [= <-].
Qed.

Lemma bus_run ops : ∀ t t', Forall bus_op ops → tx_run ops t = Some t' → tm_writer t' = tm_writer t.
Proof.
  induction ops as [|op ops IH]; intros t t' Ho; cbn; [by intros [= <-]|]. apply Forall_cons in Ho as [Ho Hos].
  destruct (tx_step op t) as [t1|] eqn:E; [|done]. cbn. intros Hr. rewrite (IH t1 t' Hos Hr). by eapply bus_writer.
Qed.

Lemma drain_bus cfg n : Forall bus_op (drain cfg n).
Proof. unfold drain. do 2 (constructor; [done|]). induction n as [|n IH]; [constructor|]. do 2 (constructor; [done|]). exact IH. Qed.

(** After two steps the writer is idle. *)
Lemma writer_idle t t' : tx_run [Op_writer; Op_writer] t = Some t' → tm_writer t' = W_idle.
Proof.
  cbn [tx_run tx_step]. destruct (tm_writer t) eqn:Ew; cbn [mbind option_bind].
  - rewrite Ew. cbn. by intros [= <-].
  - destruct (single_copy _ _); [|done]. cbn. by intros [= <-].
  - cbn. by intros [= <-].
Qed.

(** A frame is written to an empty buffer. *)
Lemma write_one tb t batches : request_ok tb → tm_inv t batches [] → tm_writer t = W_idle →
  ∃ t', tx_run [Op_single tb; Op_writer; Op_writer] t = Some t' ∧ tm_written t' = tm_written t ++ [frame_of tb].
Proof.
  intros Ho Hi Ew. pose proof (mi_ring _ _ _ Hi) as (b & P & Hr & Hw). rewrite Ew in Hw. destruct Hw as [-> ->].
  cbn [tx_run tx_step]. rewrite Ew. destruct (single_begin_ok tb (tm_pipe t) _ [] Ho Hr) as (o & s1 & b1 & P1 & E1 & _ & Hr1 & Hw1).
  rewrite E1. cbn [mbind option_bind]. destruct o as [l|]; [|apply refused in E1; by rewrite (empty_takes _ _ Hr) in E1].
  cbn [tm_writer tm_pipe tm_written]. destruct (single_copy_ok tb l s1 _ [] b1 P1 Hr1 Hw1) as (s2 & b2 & -> & _). cbn. by eexists.
Qed.

(** * Claims *)

Lemma none_refused_frames batches : none_refused batches → frames_of true batches = concat batches.*1.
Proof.
  unfold frames_of. induction 1 as [|b l Hb _ IH]; [done|]. rewrite filter_cons_True by done. cbn. by rewrite IH.
Qed.

(** C4: The transmit buffer is a queue of frames.  Whatever the order in which
    the writer (a frame of at most 2032 bytes, in three stretches that the
    other side may run between), the bulk-out routine, completions and resets
    run, no access leaves the buffer; the transfers submitted to the USB stack
    are, byte for byte, batches of the frames that were written, every frame
    in one transfer and in the order of writing, or still waiting; none is
    empty or goes on after 32 KB; and a transfer that is submitted again after
    an error repeats the one before.  A transfer that the stack refuses is
    logged as refused, and its frames are lost ([refused_transfer_lost]); when
    no submission of a new transfer is refused, the frames of the transfers
    the stack took, followed by those that wait, are all that were written. *)
Theorem tx_ring_refines_queue junk ops :
  Z.of_nat (length junk) = MAX_TXBULK_SIZE → Forall op_ok ops →
  ∃ t batches pending, tx_run ops (tx_start junk) = Some t ∧
    urbs (tp_log (tm_pipe t)) = map batch_urb batches ∧ Forall batch_ok batches.*1 ∧
    concat batches.*1 ++ pending = tm_written t ∧ repeats [] (tp_log (tm_pipe t)) ∧
    (Forall op_taken ops → frames_of true batches ++ pending = tm_written t).
Proof.
  intros Hj Ho. destruct (run_inv ops _ _ _ Ho (inv_start junk Hj)) as (t & batches & q & E & Hi & _ & Hn).
  exists t, batches, q. split_and!; [done|apply Hi..|]. intros Ht. rewrite none_refused_frames; [apply Hi|]. apply Hn; [done|constructor].
Qed.

(** C5: The bytes of the transfer that the USB stack has, or had last, stay in
    the buffer as they were handed over, at the place where the URB points to,
    until the next transfer is made: neither the writer, in any of its
    stretches, nor a completion or a reset changes them. *)
Theorem tx_transfer_stable junk ops :
  Z.of_nat (length junk) = MAX_TXBULK_SIZE → Forall op_ok ops →
  ∃ t, tx_run ops (tx_start junk) = Some t ∧ urb_data (tp_ctx (tm_pipe t)) = Some (last_data (tp_log (tm_pipe t))).
Proof.
  intros Hj Ho. destruct (run_inv ops _ _ _ Ho (inv_start junk Hj)) as (t & batches & q & E & Hi & _).
  exists t. split; [done|]. destruct (mi_ring _ _ _ Hi) as (b & P & Hr & _). apply Hr.
Qed.

(** C6: Every frame that waits leaves.  From every reachable state, when the
    link is up, no flag stops the routine and transfers are taken and succeed,
    as many rounds of a kick and a completion as operations were made (at least
    one frame leaves per round) hand the frames that were written and not yet
    submitted to the USB stack, in their order, in transfers that it takes.  If
    no submission was refused before, all that was written has been handed
    over then; frames of a transfer that was refused before are not submitted
    again ([refused_transfer_lost]). *)
Theorem tx_ring_drains cfg junk ops :
  Z.of_nat (length junk) = MAX_TXBULK_SIZE → Forall op_ok ops → running cfg →
  ∃ t t' before after pending, tx_run ops (tx_start junk) = Some t ∧ tx_run (drain cfg (length ops)) t = Some t' ∧
    urbs (tp_log (tm_pipe t)) = map batch_urb before ∧ concat before.*1 ++ pending = tm_written t ∧
    urbs (tp_log (tm_pipe t')) = map batch_urb (before ++ after) ∧ none_refused after ∧ concat after.*1 = pending ∧
    (Forall op_taken ops → frames_of true (before ++ after) = tm_written t).
Proof.
  intros Hj Ho Hc. destruct (run_inv ops _ _ _ Ho (inv_start junk Hj)) as (t & batches & q & E & Hi & L & Hn). cbn in L.
  destruct (drain_inv cfg (length ops) t batches q Hc) as (t' & b' & E' & Hi' & N & C & Hw).
  { rewrite <- (mi_written _ _ _ Hi), length_app in L. lia. } { done. }
  exists t, t', batches, b', q. split_and!; [done|done|apply Hi|apply Hi|apply Hi'|done|done|]. intros Ht.
  rewrite none_refused_frames by (apply Forall_app_2; [apply Hn; [done|constructor]|done]). pose proof (mi_written _ _ _ Hi') as H.
  rewrite app_nil_r in H. congruence.
Qed.

(** C7: The writer does not starve.  From every reachable state, once the
    writer has finished and the buffer was emptied, the room check accepts the
    next frame, wherever the positions are (at the start, behind the data or
    where the buffer starts over), and it is written. *)
Theorem tx_ring_takes_again cfg tb junk ops :
  Z.of_nat (length junk) = MAX_TXBULK_SIZE → Forall op_ok ops → running cfg → request_ok tb →
  ∃ t t', tx_run ((ops ++ [Op_writer; Op_writer]) ++ drain cfg (length ops + 2)) (tx_start junk) = Some t ∧
    tx_run [Op_single tb; Op_writer; Op_writer] t = Some t' ∧ tm_written t' = tm_written t ++ [frame_of tb].
Proof.
  intros Hj Ho Hc Hr. destruct (run_inv ops _ _ _ Ho (inv_start junk Hj)) as (t0 & b0 & q0 & E0 & Hi0 & L0 & _). cbn in L0.
  destruct (run_inv [Op_writer; Op_writer] t0 b0 q0) as (t1 & b1 & q1 & E1 & Hi1 & L1 & _); [by repeat constructor|done|].
  destruct (drain_inv cfg (length ops + 2) t1 b1 q1 Hc) as (t & b & E & Hi & _).
  { rewrite <- (mi_written _ _ _ Hi1), length_app in L1. cbn in L1. lia. } { done. }
  destruct (write_one tb t _ Hr Hi) as (t' & E' & W).
  { rewrite (bus_run _ _ _ (drain_bus _ _) E). by eapply writer_idle. }
  exists t, t'. split_and!; [|done|done]. rewrite !run_app, E0. cbn [mbind option_bind]. by rewrite E1.
Qed.

(** * Where the code falls short *)

(** A fragmented packet that finds no room is freed with its first fragment,
    and again with the second. *)
Theorem refused_fragments_free_twice tb s :
  fst (RtmpUSBCanDoWrite s) = false → bCurWriting (tp_ctx s) = false →
  ∃ s1 s2, RtmpUSB_WriteFragTxResource 0 tb s = Some (false, tb, s1) ∧ RtmpUSB_WriteFragTxResource 1 tb s1 = Some (false, tb, s2) ∧
    tp_log s2 = tp_log s ++ [Ev_kfree (tb_pPacket tb); Ev_kfree (tb_pPacket tb)].
Proof.
  intros Hc Hw. unfold RtmpUSB_WriteFragTxResource, frag_begin. destruct (RtmpUSBCanDoWrite s) as [ok s0] eqn:E. cbn in Hc. subst ok.
  cbn [Nat.eqb negb mbind option_bind]. eexists _, _. split; [done|].
  destruct (can_refuse _ _ E) as [->| ->]; cbn [tp_ctx free_packet tx_log kick_flag set_bulk_flags]; rewrite Hw; cbn [negb mbind option_bind];
    (split; [done|]); cbn; by rewrite <- app_assoc.
Qed.

Lemma upd_outside g m p : Z.of_nat (length m) < p + 4 → upd_word g m p = None.
Proof. intros H. unfold upd_word, rd_word, rd. rewrite (proj2 (Z.leb_gt (p + 4) _)) by lia. by rewrite andb_false_r. Qed.

(** When the first bytes of an aggregated frame were saved, the length of the
    MPDU is written behind the eight bytes of [SavedPad]. *)
Theorem final_write_leaves_pad tb n s : let c := tp_ctx s in
  bCurWriting c = true → bCopySavePad c = true → ENextBulkOutPosition c = CurWritePosition c → length (SavedPad c) = 8%nat →
  RtmpUSB_FinalWriteTxResource tb n s = None.
Proof.
  cbv zeta. intros Hw Hp He Hl. unfold RtmpUSB_FinalWriteTxResource. rewrite Hw, Hp, He, Z.eqb_refl. cbn [orb andb]. cbv zeta. unfold set_lengths.
  rewrite upd_header by lia. cbn [mbind option_bind]. rewrite (upd_outside _ _ (0 + TXINFO_SIZE + 4)); [done|].
  rewrite length_app, length_le_bytes, length_drop, Hl. unfold TXINFO_SIZE. lia.
Qed.

(** Frames that are not CCK are added only up to 8 KB. *)
Lemma bulk_limit_8k max size phy : word32 size → phy ≠ MODE_CCK → size_limit max size phy = false → size < 8192.
Proof.
  intros Hs Hp. unfold size_limit. rewrite (proj2 (Z.eqb_neq _ _) Hp), andb_false_r. cbv zeta.
  intros H. apply orb_false_elim in H as [H _]. apply orb_false_elim in H as [H _]. apply negb_false_iff, Z.eqb_eq in H. by apply (masked_out 19 13) in H.
Qed.

(** * Witnesses *)

Definition demo_junk : list Z := replicate (Z.to_nat MAX_TXBULK_SIZE) 0xaa.
Definition demo_tb : TX_BLK := mk_txblk 7 0 (zeros 128) 26 2 (replicate 101 0x55) 0 0.
Definition demo_cfg : bulk_cfg := mk_bcfg false true false 512 true.
Definition demo_ops : list tx_op :=
  [Op_single demo_tb; Op_writer; Op_bulk demo_cfg true; Op_writer; Op_bulk demo_cfg true; Op_single demo_tb; Op_complete false false; Op_reset true].

Lemma demo_junk_size : Z.of_nat (length demo_junk) = MAX_TXBULK_SIZE.
Proof. unfold demo_junk. rewrite length_replicate. apply Z2Nat.id. by apply Z.leb_le. Qed.

Lemma demo_request : request_ok demo_tb.
Proof. split; [done| |by apply Z.leb_le..]. apply Forall_replicate. done. Qed.

Lemma demo_ops_ok : Forall op_ok demo_ops.
Proof. repeat (constructor; [exact demo_request || done|]). constructor. Qed.

Lemma demo_running : running demo_cfg.
Proof. done. Qed.

Lemma tx_ring_refines_queue_witness :
  ∃ t batches pending, tx_run demo_ops (tx_start demo_junk) = Some t ∧
    urbs (tp_log (tm_pipe t)) = map batch_urb batches ∧ Forall batch_ok batches.*1 ∧
    concat batches.*1 ++ pending = tm_written t ∧ repeats [] (tp_log (tm_pipe t)) ∧
    (Forall op_taken demo_ops → frames_of true batches ++ pending = tm_written t).
Proof. exact (tx_ring_refines_queue demo_junk demo_ops demo_junk_size demo_ops_ok). Defined.

Lemma tx_transfer_stable_witness :
  ∃ t, tx_run demo_ops (tx_start demo_junk) = Some t ∧ urb_data (tp_ctx (tm_pipe t)) = Some (last_data (tp_log (tm_pipe t))).
Proof. exact (tx_transfer_stable demo_junk demo_ops demo_junk_size demo_ops_ok). Defined.

Lemma tx_ring_drains_witness :
  ∃ t t' before after pending, tx_run demo_ops (tx_start demo_junk) = Some t ∧ tx_run (drain demo_cfg (length demo_ops)) t = Some t' ∧
    urbs (tp_log (tm_pipe t)) = map batch_urb before ∧ concat before.*1 ++ pending = tm_written t ∧
    urbs (tp_log (tm_pipe t')) = map batch_urb (before ++ after) ∧ none_refused after ∧ concat after.*1 = pending ∧
    (Forall op_taken demo_ops → frames_of true (before ++ after) = tm_written t).
Proof. exact (tx_ring_drains demo_cfg demo_junk demo_ops demo_junk_size demo_ops_ok demo_running). Defined.

Lemma tx_ring_takes_again_witness :
  ∃ t t', tx_run ((demo_ops ++ [Op_writer; Op_writer]) ++ drain demo_cfg (length demo_ops + 2)) (tx_start demo_junk) = Some t ∧
    tx_run [Op_single demo_tb; Op_writer; Op_writer] t = Some t' ∧ tm_written t' = tm_written t ++ [frame_of demo_tb].
Proof. exact (tx_ring_takes_again demo_cfg demo_tb demo_junk demo_ops demo_junk_size demo_ops_ok demo_running demo_request). Defined.

(** A run on a small buffer: the frame reaches the device as it was asked for. *)
Example demo_small :
  (λ t, (urbs (tp_log (tm_pipe t)), tm_written t)) <$> tx_run [Op_single demo_tb; Op_writer; Op_writer; Op_bulk demo_cfg true] (tx_start (replicate 400 0xaa))
  = Some ([(batch_data [frame_of demo_tb], true)], [frame_of demo_tb]).
Proof. vm_compute. reflexivity. Qed.

(** The frames of a transfer that the USB stack refuses are lost: the routine
    has moved on behind them, and nothing submits them again. *)
Example refused_transfer_lost :
  (λ t, (urbs (tp_log (tm_pipe t)), tm_written t)) <$>
    tx_run ([Op_single demo_tb; Op_writer; Op_writer; Op_bulk demo_cfg false] ++ drain demo_cfg 3) (tx_start (replicate 400 0xaa))
  = Some ([(batch_data [frame_of demo_tb], false)], [frame_of demo_tb]).
Proof. vm_compute. reflexivity. Qed.
